(* ===== verification/_CoqProject ===== *)
-Q . S2P
Prelude.v
CString.v
CArray.v
Stdio.v
Path.v
Bitmap.v
Lists.v
PageTable.v
Disk.v
Ata.v
Kernel.v
Sched.v
Sync.v
LockMachine.v
IoQueue.v
Keyboard.v
Memory.v
Malloc.v
Ide.v
Interrupt.v
Thread.v
Process.v
Fsys.v
Inode.v
Dir.v
File.v
Fs.v
Format.v
System.v
WaitExit.v
Fork.v
ForkMemory.v
Boot.v
ExitMemory.v
Exec.v
Syscall.v
Shell.v
Start.v
