(* ===== verification/Prelude.v ===== *)
(** * ForikOS: a verification development

    ForikOS is a small operating system for 32-bit x86 machines with one
    processor: a kernel with threads, paging, two memory allocators, an ATA
    disk driver, a file system with inodes and directories, user processes
    with system calls, and a shell.  This library translates its C code into
    Rocq functions, statement by statement, and proves what the parts promise
    to each other.

    ** How the program is modelled

    - Every function of the source that changes state is a definition of the
      same name.  It returns an [outcome]: [Ok] with a result, [Panic] (an
      ASSERT or PANIC of src/lib/debug.c), [Fault] (an access to a NULL,
      unmapped or missing object) or [NoFuel].  Stateful code is in the monad
      [K st] of this file.  A theorem that code returns is a theorem that it
      is [Ok].
    - Integers are of type [Z]; where a C type has w bits the wrap-around is
      written out ([u8], [u16], [u32], [s8], [s16], [s32]).
    - The state of the kernel is the record [kst] of Kernel.v: the objects
      that C code reaches through pointers, by address, one map for each type,
      the global variables and the registers that matter.  The state of the
      file system is [fsys] of Fsys.v; [sys] of System.v is both, with the
      descriptor table and the working directory of the running thread passed
      from one to the other.
    - Physical memory is a map of 32-bit words; [translate] of PageTable.v is
      the two-level walk of the processor.  Its cache of translations is not
      modelled but in one place: thread_exit reads a page that it has just
      unmapped, and [stale] of the class [World] says whether the processor
      still reaches it.
    - Code behind a call of [schedule] runs when its thread is switched to
      again.  What the other threads do until then is the parameter [others] of
      the class [World] (Sched.v); a theorem that depends on them says what it
      needs of them.  [rounds] bounds how often a thread that waits is woken up
      in vain.  The interleaving of threads on a lock is a machine
      with steps of its own (LockMachine.v).

    ** Interfaces

    - [Queues] (Lists.v): the list cells behave as sequences.  The scheduler,
      the locks, the allocators and the file system are proved against it; the
      pointer code of list.c is an instance.
    - [World] (Sched.v): the other threads, as above; Ide.v has an instance in
      which the disk interrupts.
    - [Allocator] (Fsys.v): memory for the buffers of the file system, from
      the kernel's heap or that of the running process.  The allocator of
      Malloc.v is on another state ([kst]) and no instance of it.
    - [Os] (Shell.v): the system calls of the shell; Start.v has the instance
      in which the kernel of this library executes them.

    ** Files, from the bottom up

    - Prelude.v: machine integers, outcomes, the state monad, its rewriting
      database [ksteps] and tactics ([kgo], [kstep], [dm], [map_cases]).
    - CString.v (lib/string.c), CArray.v (arrays that one function owns),
      Stdio.v (lib/stdio.c, the formatting of kernel/printk.c), Path.v (paths
      of fs/fs.c and shell/buildin_cmd.c), Bitmap.v (lib/bitmap.c), Lists.v
      (lib/list.c).
    - PageTable.v, Memory.v, Malloc.v (mm/memory.c: page tables, pages,
      blocks); Kernel.v (the state; include/thread, include/mm).
    - Sched.v (thread/thread.c, thread/switch.asm, the handler and the sleeping
      of device/timer.c, the interrupt flag of kernel/interrupt.c), Sync.v and
      LockMachine.v (thread/sync.c), Thread.v (the rest of thread/thread.c),
      Process.v (user/process.c).
    - Interrupt.v (kernel/interrupt.c, user/tss.c, the set-up of
      device/timer.c, device/console.c), IoQueue.v (device/ioqueue.c),
      Keyboard.v (device/keyboard.c), Ata.v and Ide.v (device/ide.c and the
      controller it drives).
    - Disk.v and Fsys.v (include/fs), Inode.v (fs/inode.c), Dir.v (fs/dir.c),
      File.v (fs/file.c), Fs.v and Format.v (fs/fs.c).
    - System.v (kernel and file system together, ps), Fork.v (user/fork.c)
      and ForkMemory.v (the address spaces of parent and child), Exec.v
      (user/exec.c), WaitExit.v (user/wait_exit.c) and ExitMemory.v (the
      address space of a process that exits), Syscall.v
      (user/syscall.c, user/syscall_init.c, the entry of kernel/kernel.asm),
      Shell.v (shell/shell.c, shell/buildin_cmd.c).
    - Boot.v: mem_init and thread_init establish the invariants of the other
      files.  Start.v (kernel/init.c, main/main.c, idle and kernel_thread of
      thread/thread.c, lib/debug.c, user/assert.c).

    ** What the theorems show

    - Data structures: the search for free bits finds the first run (and looks
      one bit too far), the list operations refine sequences, the ring buffer
      refines a queue of 63 characters, vsprintf agrees with the meaning of a
      format, paths are normalised and counted.
    - Start-up: from the memory that the loader leaves, mem_init and
      thread_init return, and the invariants that the theorems on threads,
      memory and pids assume hold: the main thread runs, init (pid 1) and the
      idle thread are ready, the locks are free.
    - Threads: the scheduler keeps its invariant, runs the ready threads in
      turn, and falls back to the idle thread; a new thread can be switched to;
      a lock excludes in every interleaving and loses no wake-up, and the
      code of Sync.v, its blocking and waking included, makes the steps of the
      machine.
    - Memory: page tables map what they should and nothing else; allocated
      pages are fresh and zero, nothing else changes, and freeing them
      restores everything; a small block of a kernel thread goes back to its
      free list and arena; the directory of a process shares the kernel's half.
    - Processes: user code can enter the kernel through one gate only; each
      stub reaches the function of its name with its arguments; a text written
      by user code appears on the screen; a child of fork has a copy of every
      page of the parent, resumes at the same place with 0 as its result, and
      its open files are counted; exit frees exactly the pages and tables of
      the user half, hands children to init and wakes the parent; wait
      collects the child and frees what is left of it, while the processor
      still reaches its page.
    - Files: inodes survive writing and reading, directories are searched as
      sequences of entries, what is appended within the first block of a file
      is read back, formatting and mounting agree, and the driver, on the
      controller of the ATA standard, reads and writes a sector, sleeping and
      waking included, and reads several sectors if the drive does not pause
      between them.

    Theorems that show a behaviour the program hardly intends say so; each is
    a finding of the manifest.

    ** Bounds and fuel

    Loops that C bounds by a counter are structural recursion on it.  Loops
    without such a bound take fuel: over strings and lists it is the number of
    objects in the map plus one, which is enough for every walk that does not
    turn in a circle; of the remaining ones [rounds] and the [fuel] of Ide.v,
    Exec.v and Syscall.v are parameters, and the theorems ask for enough.

    ** Not modelled

    The boot loader and print.asm, which are assembly (what the loader leaves
    in memory is the hypothesis [loaded] of Boot.v, characters on the screen
    are a list, and the digits of put_int an argument); the text of messages
    that have no other effect; the cache of translations (but for [stale]) and
    the timing of the hardware (but for how often the disk says that it is busy); the memory of user programs other than through the page tables:
    their code runs only as far as the shell, init and the stubs of the system
    calls are part of the source. *)

From Stdlib Require Export ZArith Lia.
From stdpp Require Export base numbers tactics gmap.
From stdpp Require Export list.
#[export] Set Default Goal Selector "!".
Open Scope Z_scope.

#[global] Arguments Z.eqb : simpl never.
#[global] Arguments Z.ltb : simpl never.
#[global] Arguments Z.leb : simpl never.

(** ** Machine integers

    A w-bit unsigned C integer is a [Z] in [0 .. 2^w - 1]; a conversion or an
    operation that may leave that range is followed by the wrap-around
    written out.  Signed types use two's complement. *)

Definition u8 (x : Z) : Z := x mod 2 ^ 8.
Definition u16 (x : Z) : Z := x mod 2 ^ 16.
Definition u32 (x : Z) : Z := x mod 2 ^ 32.
Definition s8 (x : Z) : Z := (x + 2 ^ 7) mod 2 ^ 8 - 2 ^ 7.
Definition s16 (x : Z) : Z := (x + 2 ^ 15) mod 2 ^ 16 - 2 ^ 15.
Definition s32 (x : Z) : Z := (x + 2 ^ 31) mod 2 ^ 32 - 2 ^ 31.

(** ** Outcomes

    What a piece of kernel code can do: return a value, stop in
    [panic_spin] (a failed [ASSERT] or a [PANIC]), touch memory it may not
    touch (a NULL or unmapped address, an index outside an array), or, in the
    model only, run out of the fuel given to an unbounded loop. *)

Inductive outcome (A : Type) : Type :=
  | Ok (a : A)
  | Panic
  | Fault
  | NoFuel.
Arguments Ok {A} a.
Arguments Panic {A}.
Arguments Fault {A}.
Arguments NoFuel {A}.

#[export] Instance outcome_ret : MRet outcome := λ A a, Ok a.
#[export] Instance outcome_bind : MBind outcome := λ A B f m,
  match m with
  | Ok a => f a
  | Panic => Panic
  | Fault => Fault
  | NoFuel => NoFuel
  end.
#[export] Instance outcome_fmap : FMap outcome := λ A B f m, a ← m; Ok (f a).

#[export] Instance outcome_eq_dec {A} `{EqDecision A} : EqDecision (outcome A).
Proof. solve_decision. Defined.

(** [ASSERT] of lib/debug.h: the condition or [panic_spin]. *)
Definition ASSERT (b : bool) : outcome unit := if b then Ok tt else Panic.

(** A pointer dereference or an array access: [Fault] when nothing is there. *)
Definition deref {A} (o : option A) : outcome A :=
  match o with Some a => Ok a | None => Fault end.

(** ** State passing

    A stateful piece of code over a state [S]: [K S A]. *)

Definition K (S A : Type) : Type := S → outcome (A * S).

#[export] Instance K_ret {S} : MRet (K S) := λ A a s, Ok (a, s).
#[export] Instance K_bind {S} : MBind (K S) := λ A B f m s,
  match m s with
  | Ok (a, s') => f a s'
  | Panic => Panic
  | Fault => Fault
  | NoFuel => NoFuel
  end.

(** Read a view of the state, replace it, run an outcome. *)
Definition gets {S A} (f : S → A) : K S A := λ s, Ok (f s, s).
Definition modify {S} (f : S → S) : K S unit := λ s, Ok (tt, f s).
Definition lift {S A} (m : outcome A) : K S A := λ s, a ← m; Ok (a, s).
Definition kASSERT {S} (b : bool) : K S unit := lift (ASSERT b).
Definition when {S} (b : bool) (m : K S unit) : K S unit := if b then m else mret tt.

(** The failure outcomes of a computation, and its success. *)
Definition is_Ok {A} (m : outcome A) : Prop := ∃ a, m = Ok a.

Lemma bind_Ok {A B} (m : outcome A) (f : A → outcome B) b :
  (m ≫= f) = Ok b ↔ ∃ a, m = Ok a ∧ f a = Ok b.
Proof. destruct m; simpl; naive_solver. Qed.

Lemma K_bind_Ok {S A B} (m : K S A) (f : A → K S B) s r :
  (m ≫= f) s = Ok r ↔ ∃ a s', m s = Ok (a, s') ∧ f a s' = Ok r.
Proof. unfold mbind, K_bind. destruct (m s) as [[]| | |]; naive_solver. Qed.

Lemma ASSERT_Ok b u : ASSERT b = Ok u ↔ b = true.
Proof. destruct b, u; simpl; naive_solver. Qed.

Lemma deref_Ok {A} (o : option A) a : deref o = Ok a ↔ o = Some a.
Proof. destruct o; simpl; naive_solver. Qed.

Lemma lift_Ok {S A} (m : outcome A) (s s' : S) a :
  lift m s = Ok (a, s') ↔ m = Ok a ∧ s' = s.
Proof. unfold lift. destruct m; simpl; naive_solver. Qed.

(** Step over a statement whose outcome is known. *)
Ltac bsimpl := cbn [mbind outcome_bind mret outcome_ret K_bind K_ret ASSERT deref negb andb orb].

(** [invbind H] takes a successful sequence apart, statement by statement. *)
Ltac invbind_step :=
  match goal with
  | H : (_ ≫= _) = Ok _ |- _ =>
      let a := fresh "a" in apply bind_Ok in H as (a & ? & H)
  | H : (_ ≫= _) ?s = Ok _ |- _ =>
      let a := fresh "a" in let s' := fresh "s" in
      apply K_bind_Ok in H as (a & s' & ? & H)
  | H : ASSERT _ = Ok _ |- _ => apply ASSERT_Ok in H
  | H : deref _ = Ok _ |- _ => apply deref_Ok in H
  | H : lift _ _ = Ok (_, _) |- _ => apply lift_Ok in H as [? ->]
  | H : gets _ _ = Ok (_, _) |- _ => unfold gets in H
  | H : modify _ _ = Ok (_, _) |- _ => unfold modify in H
  | H : kASSERT _ _ = Ok (_, _) |- _ => unfold kASSERT in H
  end.
Ltac invbind := repeat (invbind_step; simplify_eq/=).

(** Stepping through a sequence of statements from a known state. *)
Lemma K_step {S A B} (m : K S A) (f : A → K S B) s a s' : m s = Ok (a, s') → (m ≫= f) s = f a s'.
Proof. intros Hm. unfold mbind, K_bind. by rewrite Hm. Qed.
Lemma K_assoc {S A B C} (m : K S A) (f : A → K S B) (g : B → K S C) s :
  ((m ≫= f) ≫= g) s = (m ≫= λ a, f a ≫= g) s.
Proof. unfold mbind, K_bind. destruct (m s) as [[a s']| | |]; done. Qed.
Lemma K_ret_step {S A B} (a : A) (f : A → K S B) s : (mret a ≫= f) s = f a s.
Proof. done. Qed.
Lemma K_gets_step {S A B} (v : S → A) (f : A → K S B) s : (gets v ≫= f) s = f (v s) s.
Proof. done. Qed.
Lemma K_modify_step {S B} (v : S → S) (f : unit → K S B) s : (modify v ≫= f) s = f tt (v s).
Proof. done. Qed.
Lemma K_lift_step {S A B} (a : A) (f : A → K S B) s : (lift (Ok a) ≫= f) s = f a s.
Proof. done. Qed.
Lemma K_assert_step {S B} (f : unit → K S B) s : (kASSERT true ≫= f) s = f tt s.
Proof. done. Qed.
(** A statement that stops the kernel. *)
Lemma K_panic {S A B} (m : K S A) (f : A → K S B) s : m s = Panic → (m ≫= f) s = Panic.
Proof. intros Hm. unfold mbind, K_bind. by rewrite Hm. Qed.
Lemma K_fault {S A B} (m : K S A) (f : A → K S B) s : m s = Fault → (m ≫= f) s = Fault.
Proof. intros Hm. unfold mbind, K_bind. by rewrite Hm. Qed.
Create Rewrite HintDb ksteps.
#[export] Hint Rewrite @K_assoc @K_ret_step @K_gets_step @K_modify_step @K_lift_step @K_assert_step : ksteps.

(** [kgo] runs the statements that cannot fail, [kstep H] the next one, whose
    result is [H]. *)
Ltac kgo := repeat (progress (autorewrite with ksteps; cbn beta iota)).
Tactic Notation "kstep" uconstr(H) := rewrite (K_step _ _ _ _ _ H); kgo.

(** Case analysis on a lookup in a map that is written out. *)
Ltac map_cases H :=
  try match type of H with ?m !! _ = _ => unfold m in H end;
  repeat (first
    [ apply lookup_insert_Some in H as [[<- <-]|[_ H]]
    | apply lookup_singleton_Some in H as [<- <-]
    | by apply lookup_empty_Some in H ]).

(** ** Arithmetic the components share *)

Create HintDb forik.
Create Rewrite HintDb forik.

Ltac dm := Z.div_mod_to_equations; lia.

Lemma u32_small x : 0 ≤ x < 2 ^ 32 → u32 x = x.
Proof. apply Z.mod_small. Qed.
Lemma u32_range x : 0 ≤ u32 x < 2 ^ 32.
Proof. unfold u32. apply Z.mod_pos_bound. lia. Qed.
Lemma u16_small x : 0 ≤ x < 2 ^ 16 → u16 x = x.
Proof. apply Z.mod_small. Qed.
Lemma u16_range x : 0 ≤ u16 x < 2 ^ 16.
Proof. unfold u16. apply Z.mod_pos_bound. lia. Qed.
Lemma u8_small x : 0 ≤ x < 2 ^ 8 → u8 x = x.
Proof. apply Z.mod_small. Qed.
Lemma u8_range x : 0 ≤ u8 x < 2 ^ 8.
Proof. unfold u8. apply Z.mod_pos_bound. lia. Qed.
Lemma s8_small x : - 2 ^ 7 ≤ x < 2 ^ 7 → s8 x = x.
Proof. intros. unfold s8. rewrite Z.mod_small; lia. Qed.
Lemma s32_small x : - 2 ^ 31 ≤ x < 2 ^ 31 → s32 x = x.
Proof. intros. unfold s32. rewrite Z.mod_small; lia. Qed.
#[export] Hint Rewrite u32_small u16_small u8_small s8_small s32_small using lia : forik.

(** Bits of bytes. *)
Lemma testbit_byte_high v i : 0 ≤ v < 256 → 8 ≤ i → Z.testbit v i = false.
Proof.
  intros Hv Hi. destruct (decide (v = 0)) as [->|]; [apply Z.bits_0|].
  apply Z.bits_above_log2; [lia|].
  assert (Z.log2 v < 8) by (apply Z.log2_lt_pow2; lia). lia.
Qed.

Lemma testbit_255 i : 0 ≤ i < 8 → Z.testbit 255 i = true.
Proof. intros. change 255 with (Z.ones 8). apply Z.ones_spec_low. lia. Qed.

(** [testbit] as the code writes it: [v & (1 << i)]. *)
Lemma land_shiftl_1 v i : 0 ≤ i → Z.land v (Z.shiftl 1 i) = if Z.testbit v i then 2 ^ i else 0.
Proof.
  intros Hi. rewrite Z.shiftl_1_l. apply Z.bits_inj'. intros j Hj.
  rewrite Z.land_spec, Z.pow2_bits_eqb by lia.
  destruct (Z.eqb_spec i j) as [->|Hne].
  - rewrite andb_true_r. destruct (Z.testbit v j);
      rewrite ?Z.pow2_bits_eqb, ?Z.eqb_refl, ?Z.bits_0 by lia; done.
  - rewrite andb_false_r. destruct (Z.testbit v i); [|by rewrite Z.bits_0].
    rewrite Z.pow2_bits_eqb by lia. symmetry. by apply Z.eqb_neq.
Qed.

Lemma land_shiftl_1_eqb v i : 0 ≤ i → (Z.land v (Z.shiftl 1 i) =? 0) = negb (Z.testbit v i).
Proof.
  intros Hi. rewrite land_shiftl_1 by done. destruct (Z.testbit v i); simpl; [|done].
  apply Z.eqb_neq. pose proof (Z.pow_pos_nonneg 2 i). lia.
Qed.

(** A byte whose eight low bits are all set is 0xff. *)
Lemma byte_all_ones v : 0 ≤ v < 256 → (∀ i, 0 ≤ i < 8 → Z.testbit v i = true) → v = 255.
Proof.
  intros Hv H. apply Z.bits_inj'. intros i Hi. destruct (decide (i < 8)).
  - rewrite H, testbit_255 by lia. done.
  - rewrite !testbit_byte_high by lia. done.
Qed.

Lemma byte_has_zero v : 0 ≤ v < 256 → v ≠ 255 → ∃ i, 0 ≤ i < 8 ∧ Z.testbit v i = false.
Proof.
  intros Hv Hne. destruct (decide (Exists (λ i, Z.testbit v i = false) (seqZ 0 8))) as [He|Hn].
  - apply Exists_exists in He as (i & Hi%elem_of_seqZ & ?). eauto.
  - exfalso. apply Hne, byte_all_ones; [done|]. intros i Hi.
    apply not_Exists_Forall in Hn; [|solve_decision].
    rewrite Forall_forall in Hn. apply not_false_is_true, Hn, elem_of_seqZ. lia.
Qed.

Lemma lor_byte_range v w : 0 ≤ v < 256 → 0 ≤ w < 256 → 0 ≤ Z.lor v w < 256.
Proof.
  intros Hv Hw. split; [apply Z.lor_nonneg; lia|].
  destruct (decide (Z.lor v w = 0)) as [->|]; [lia|].
  assert (0 ≤ Z.lor v w) by (apply Z.lor_nonneg; lia).
  apply (Z.log2_lt_pow2 _ 8); [lia|]. rewrite Z.log2_lor by lia.
  apply Z.max_lub_lt.
  - destruct (decide (v = 0)) as [->|]; [done|]. apply Z.log2_lt_pow2; lia.
  - destruct (decide (w = 0)) as [->|]; [done|]. apply Z.log2_lt_pow2; lia.
Qed.

Lemma land_byte_range v w : 0 ≤ v < 256 → 0 ≤ Z.land v w < 256.
Proof.
  intros Hv. rewrite Z.land_comm. split; [apply Z.land_nonneg; lia|].
  destruct (decide (Z.land w v = 0)) as [->|Hn]; [lia|].
  assert (0 ≤ Z.land w v) by (apply Z.land_nonneg; lia).
  apply Z.le_lt_trans with v; [|lia].
  assert (Z.ldiff (Z.land w v) v = 0) as Hd.
  { apply Z.bits_inj'. intros i Hi. rewrite Z.ldiff_spec, Z.land_spec, Z.bits_0.
    destruct (Z.testbit w i), (Z.testbit v i); done. }
  apply Z.ldiff_le; lia.
Qed.

(** Masks of a field of [n] bits at position [k]. *)
Lemma land_mask v k n :
  0 ≤ k → 0 ≤ n → Z.land v (Z.shiftl (Z.ones n) k) = ((v / 2 ^ k) mod 2 ^ n) * 2 ^ k.
Proof.
  intros Hk Hn. rewrite <- Z.land_ones, <- Z.shiftr_div_pow2, <- Z.shiftl_mul_pow2 by lia.
  apply Z.bits_inj'. intros i Hi. rewrite Z.land_spec, !Z.shiftl_spec by lia.
  destruct (decide (i < k)).
  - rewrite !(Z.testbit_neg_r _ (i - k)) by lia. by rewrite andb_false_r.
  - rewrite Z.land_spec, Z.shiftr_spec by lia. do 2 f_equal. lia.
Qed.

Lemma land_fffff000 v : 0 ≤ v < 2 ^ 32 → Z.land v 0xfffff000 = v / 4096 * 4096.
Proof.
  intros. change 0xfffff000 with (Z.shiftl (Z.ones 20) 12). rewrite land_mask by lia.
  change (2 ^ 12) with 4096. rewrite Z.mod_small; [done|]. change (2 ^ 20) with 1048576. dm.
Qed.
Lemma land_ffc00000 v : 0 ≤ v < 2 ^ 32 → Z.land v 0xffc00000 = v / 2 ^ 22 * 2 ^ 22.
Proof.
  intros. change 0xffc00000 with (Z.shiftl (Z.ones 10) 22). rewrite land_mask by lia.
  rewrite Z.mod_small; [done|]. change (2 ^ 22) with 4194304. change (2 ^ 10) with 1024. dm.
Qed.
Lemma land_003ff000 v : Z.land v 0x003ff000 = ((v / 4096) mod 1024) * 4096.
Proof. change 0x003ff000 with (Z.shiftl (Z.ones 10) 12). by rewrite land_mask by lia. Qed.
Lemma land_00000fff v : Z.land v 0x00000fff = v mod 4096.
Proof. change 0x00000fff with (Z.ones 12). by rewrite Z.land_ones by lia. Qed.
Lemma land_1 v : Z.land v 1 = v mod 2.
Proof. change 1 with (Z.ones 1). by rewrite Z.land_ones by lia. Qed.

Lemma elem_of_concat {A} (x : A) (ls : list (list A)) : x ∈ concat ls ↔ ∃ l, x ∈ l ∧ l ∈ ls.
Proof.
  rewrite list_elem_of_In, in_concat. split; intros (l & E1 & E2); exists l; split; by apply list_elem_of_In.
Qed.
