(* ===== verification/CString.v ===== *)
(** * Byte memory and the string routines (src/lib/string.c)

    [bmem] is the byte-addressed memory the routines work on: an address that
    is not in the map is not accessible, and reading or writing it is a
    [Fault].  Every routine of string.c is here with its loop; the loops that
    run to a terminating NUL get [S (size m)] as fuel, which is enough because
    each round reads one more accessible address ([strlen_total] and the
    [_spec] theorems show that fuel never runs out). *)

From S2P Require Import Prelude.

Abbreviation bmem := (gmap Z Z).

Definition NULL : Z := 0.

Definition load8 (m : bmem) (a : Z) : outcome Z := deref (m !! a).
Definition store8 (m : bmem) (a v : Z) : outcome bmem :=
  _ ← deref (m !! a); Ok (<[a := u8 v]> m).

(** Fuel of a loop that reads a new address in every round. *)
Definition mem_fuel (m : bmem) : nat := S (size m).

(** [while (size-- > 0) *dst++ = value;] *)
Fixpoint memset_loop (n : nat) (m : bmem) (dst value : Z) : outcome bmem :=
  match n with
  | O => Ok m
  | S n => m' ← store8 m dst value; memset_loop n m' (dst + 1) value
  end.

Definition memset (m : bmem) (dst value size : Z) : outcome bmem :=
  ASSERT (negb (dst =? NULL)) ;; memset_loop (Z.to_nat size) m dst value.

(** [while (size-- > 0) *dst++ = *src++;] *)
Fixpoint memcpy_loop (n : nat) (m : bmem) (dst src : Z) : outcome bmem :=
  match n with
  | O => Ok m
  | S n => v ← load8 m src; m' ← store8 m dst v; memcpy_loop n m' (dst + 1) (src + 1)
  end.

Definition memcpy (m : bmem) (dst src size : Z) : outcome bmem :=
  ASSERT (negb (dst =? NULL) && negb (src =? NULL)) ;;
  memcpy_loop (Z.to_nat size) m dst src.

(** The bytes are compared as [char], which is signed here. *)
Fixpoint memcmp_loop (n : nat) (m : bmem) (a b : Z) : outcome Z :=
  match n with
  | O => Ok 0
  | S n =>
      x ← load8 m a; y ← load8 m b;
      if s8 x =? s8 y then memcmp_loop n m (a + 1) (b + 1)
      else Ok (if s8 y <? s8 x then 1 else -1)
  end.

Definition memcmp (m : bmem) (a b size : Z) : outcome Z :=
  ASSERT (negb (a =? NULL) || negb (b =? NULL)) ;; memcmp_loop (Z.to_nat size) m a b.

(** [while (( *dst_++ = *src_++));] *)
Fixpoint strcpy_loop (fuel : nat) (m : bmem) (dst src : Z) : outcome bmem :=
  match fuel with
  | O => NoFuel
  | S fuel =>
      c ← load8 m src; m' ← store8 m dst c;
      if c =? 0 then Ok m' else strcpy_loop fuel m' (dst + 1) (src + 1)
  end.

Definition strcpy (m : bmem) (dst src : Z) : outcome (Z * bmem) :=
  ASSERT (negb (dst =? NULL) && negb (src =? NULL)) ;;
  m' ← strcpy_loop (mem_fuel m) m dst src; Ok (dst, m').

(** [while ( *p++);], giving the address after the NUL. *)
Fixpoint skip_loop (fuel : nat) (m : bmem) (p : Z) : outcome Z :=
  match fuel with
  | O => NoFuel
  | S fuel => c ← load8 m p; if c =? 0 then Ok (p + 1) else skip_loop fuel m (p + 1)
  end.

Definition strlen (m : bmem) (str : Z) : outcome Z :=
  ASSERT (negb (str =? NULL)) ;;
  p ← skip_loop (mem_fuel m) m str; Ok (u32 (p - str - 1)).

Fixpoint strcmp_loop (fuel : nat) (m : bmem) (a b : Z) : outcome Z :=
  match fuel with
  | O => NoFuel
  | S fuel =>
      x ← load8 m a; y ← load8 m b;
      if negb (x =? 0) && (s8 x =? s8 y) then strcmp_loop fuel m (a + 1) (b + 1)
      else Ok (if s8 x <? s8 y then -1 else if s8 y <? s8 x then 1 else 0)
  end.

Definition strcmp (m : bmem) (a b : Z) : outcome Z :=
  ASSERT (negb (a =? NULL) && negb (b =? NULL)) ;; strcmp_loop (mem_fuel m) m a b.

(** [*str == ch] compares a signed [char] with an unsigned byte. *)
Fixpoint strchr_loop (fuel : nat) (m : bmem) (str ch : Z) : outcome Z :=
  match fuel with
  | O => NoFuel
  | S fuel =>
      c ← load8 m str;
      if c =? 0 then Ok NULL
      else if s8 c =? ch then Ok str else strchr_loop fuel m (str + 1) ch
  end.

Definition strchr (m : bmem) (str ch : Z) : outcome Z :=
  ASSERT (negb (str =? NULL)) ;; strchr_loop (mem_fuel m) m str ch.

Fixpoint strrchr_loop (fuel : nat) (m : bmem) (str ch last_char : Z) : outcome Z :=
  match fuel with
  | O => NoFuel
  | S fuel =>
      c ← load8 m str;
      if c =? 0 then Ok last_char
      else strrchr_loop fuel m (str + 1) ch (if s8 c =? ch then str else last_char)
  end.

Definition strrchr (m : bmem) (str ch : Z) : outcome Z :=
  ASSERT (negb (str =? NULL)) ;; strrchr_loop (mem_fuel m) m str ch NULL.

(** [while ( *str++); --str; while (( *str++ = *src_++));] *)
Definition strcat (m : bmem) (dst src : Z) : outcome (Z * bmem) :=
  ASSERT (negb (dst =? NULL) && negb (src =? NULL)) ;;
  p ← skip_loop (mem_fuel m) m dst;
  m' ← strcpy_loop (mem_fuel m) m (p - 1) src; Ok (dst, m').

Fixpoint strchrs_loop (fuel : nat) (m : bmem) (p ch ch_cnt : Z) : outcome Z :=
  match fuel with
  | O => NoFuel
  | S fuel =>
      c ← load8 m p;
      if c =? 0 then Ok ch_cnt
      else strchrs_loop fuel m (p + 1) ch (if s8 c =? ch then u32 (ch_cnt + 1) else ch_cnt)
  end.

Definition strchrs (m : bmem) (str ch : Z) : outcome Z :=
  ASSERT (negb (str =? NULL)) ;; strchrs_loop (mem_fuel m) m str ch 0.

(** ** Specification: contents of memory *)

(** The bytes [bs] lie at address [a]. *)
Definition bytes_at (m : bmem) (a : Z) (bs : list Z) : Prop :=
  ∀ i v, bs !! i = Some v → m !! (a + Z.of_nat i) = Some v.

(** A NUL-terminated string of non-zero bytes lies at [a]. *)
Definition cstr (m : bmem) (a : Z) (s : list Z) : Prop :=
  bytes_at m a (s ++ [0]) ∧ Forall (λ c, 1 ≤ c < 256) s.

(** [n] bytes from [a] on are accessible. *)
Definition accessible (m : bmem) (a : Z) (n : nat) : Prop :=
  ∀ x, a ≤ x < a + Z.of_nat n → is_Some (m !! x).

(** Overwriting memory with a sequence of bytes. *)
Fixpoint put_bytes (m : bmem) (a : Z) (bs : list Z) : bmem :=
  match bs with
  | [] => m
  | b :: bs => put_bytes (<[a := b]> m) (a + 1) bs
  end.

Lemma lookup_put_bytes m a bs x :
  put_bytes m a bs !! x =
    if decide (a ≤ x < a + Z.of_nat (length bs)) then bs !! Z.to_nat (x - a) else m !! x.
Proof.
  revert m a. induction bs as [|b bs IH]; intros m a; simpl.
  - case_decide; [lia|done].
  - rewrite IH. destruct (decide (x = a)) as [->|Hne].
    + rewrite decide_False, decide_True by lia. rewrite Z.sub_diag, lookup_insert_eq. done.
    + destruct (decide (a + 1 ≤ x < a + 1 + Z.of_nat (length bs))).
      * rewrite decide_True by lia. replace (Z.to_nat (x - a)) with (S (Z.to_nat (x - (a + 1)))) by lia.
        done.
      * rewrite decide_False, lookup_insert_ne by lia. done.
Qed.

Lemma put_bytes_at m a bs : bytes_at (put_bytes m a bs) a bs.
Proof.
  intros i v Hi. rewrite lookup_put_bytes. pose proof (lookup_lt_Some _ _ _ Hi).
  rewrite decide_True by lia. rewrite <- Hi. f_equal. lia.
Qed.

Lemma put_bytes_frame m a bs b cs :
  bytes_at m b cs →
  b + Z.of_nat (length cs) ≤ a ∨ a + Z.of_nat (length bs) ≤ b →
  bytes_at (put_bytes m a bs) b cs.
Proof.
  intros Hc Hd i v Hi. pose proof (lookup_lt_Some _ _ _ Hi).
  rewrite lookup_put_bytes, decide_False by lia. by apply Hc.
Qed.

Lemma put_bytes_accessible m a bs b n : accessible m b n → accessible (put_bytes m a bs) b n.
Proof.
  intros H x Hx. rewrite lookup_put_bytes. case_decide; [|auto].
  apply lookup_lt_is_Some. lia.
Qed.

Lemma bytes_at_cons m a b bs : bytes_at m a (b :: bs) ↔ m !! a = Some b ∧ bytes_at m (a + 1) bs.
Proof.
  split.
  - intros H. split; [specialize (H 0%nat b eq_refl); by rewrite Z.add_0_r in H|].
    intros i v Hi. rewrite <- (H (S i) v Hi). f_equal. lia.
  - intros [H1 H2] [|i] v Hi; simplify_eq/=.
    + by rewrite Z.add_0_r.
    + rewrite <- (H2 i v Hi). f_equal. lia.
Qed.

Lemma bytes_at_app m a bs cs :
  bytes_at m a (bs ++ cs) ↔ bytes_at m a bs ∧ bytes_at m (a + Z.of_nat (length bs)) cs.
Proof.
  revert a. induction bs as [|b bs IH]; intros a; simpl.
  - rewrite Z.add_0_r. split; [intros; split; [intros ? ? [=]|done]|by intros []].
  - rewrite !bytes_at_cons, IH. replace (a + 1 + Z.of_nat (length bs))
      with (a + Z.of_nat (S (length bs))) by lia. tauto.
Qed.

Lemma bytes_at_accessible m a bs : bytes_at m a bs → accessible m a (length bs).
Proof.
  intros H x Hx. destruct (lookup_lt_is_Some_2 bs (Z.to_nat (x - a))) as [v Hv]; [lia|].
  exists v. rewrite <- (H _ _ Hv). f_equal. lia.
Qed.

Lemma cstr_nil m a : cstr m a [] ↔ m !! a = Some 0.
Proof.
  unfold cstr. simpl. rewrite bytes_at_cons. split; [tauto|]. intros; split; [|constructor].
  split; [done|]. intros ? ? [=].
Qed.

Lemma cstr_cons m a c s :
  cstr m a (c :: s) ↔ m !! a = Some c ∧ 1 ≤ c < 256 ∧ cstr m (a + 1) s.
Proof. unfold cstr. simpl. rewrite bytes_at_cons, Forall_cons. tauto. Qed.

(** The number of accessible consecutive addresses is bounded by the size of
    the map: the fuel argument of every loop below. *)
Lemma accessible_size m a n : accessible m a n → (n ≤ size m)%nat.
Proof.
  intros H. rewrite <- size_dom.
  replace n with (size (list_to_set (seqZ a (Z.of_nat n)) : gset Z)).
  - apply subseteq_size. intros x. rewrite elem_of_list_to_set, elem_of_seqZ, elem_of_dom. apply H.
  - rewrite size_list_to_set by apply NoDup_seqZ. rewrite length_seqZ. lia.
Qed.

Lemma cstr_fuel m a s : cstr m a s → (length s < mem_fuel m)%nat.
Proof.
  intros [H _]. apply bytes_at_accessible, accessible_size in H.
  rewrite length_app in H. simpl in H. unfold mem_fuel. lia.
Qed.
#[export] Hint Resolve cstr_fuel : forik.
Lemma mem_fuel_eq m : mem_fuel m = S (size m).
Proof. done. Qed.
#[global] Opaque mem_fuel.

(** ** Properties *)

Lemma load8_Some m a v : m !! a = Some v → load8 m a = Ok v.
Proof. unfold load8. by intros ->. Qed.
Lemma store8_Some m a v : is_Some (m !! a) → 0 ≤ v < 256 → store8 m a v = Ok (<[a := v]> m).
Proof. intros [w Hw] Hv. unfold store8. rewrite Hw. simpl. by rewrite u8_small by lia. Qed.

Lemma memset_loop_spec n m dst v :
  accessible m dst n → 0 ≤ v < 256 → memset_loop n m dst v = Ok (put_bytes m dst (replicate n v)).
Proof.
  intros H Hv. revert m dst H. induction n as [|n IH]; intros m dst H; simpl; [done|].
  rewrite store8_Some by (auto; apply H; lia). simpl. apply IH.
  intros x Hx. rewrite lookup_insert. case_decide; [done|]. apply H. lia.
Qed.

(** [memset] on an accessible buffer of [size] bytes stores the value in
    every byte of it and touches nothing else. *)
Lemma memset_ok m dst v size :
  dst ≠ NULL → 0 ≤ v < 256 → accessible m dst (Z.to_nat size) →
  memset m dst v size = Ok (put_bytes m dst (replicate (Z.to_nat size) v)).
Proof.
  intros Hd Hv Ha. unfold memset. apply Z.eqb_neq in Hd as ->. simpl. by apply memset_loop_spec.
Qed.

Lemma memcpy_loop_spec n m dst src bs :
  bytes_at m src bs → length bs = n → Forall (λ v, 0 ≤ v < 256) bs →
  accessible m dst n →
  dst + Z.of_nat n ≤ src ∨ src + Z.of_nat n ≤ dst →
  memcpy_loop n m dst src = Ok (put_bytes m dst bs).
Proof.
  revert m dst src bs. induction n as [|n IH]; intros m dst src bs Hb Hl Hr Ha Hd.
  - by destruct bs.
  - destruct bs as [|b bs]; [done|]. apply bytes_at_cons in Hb as [H0 Hb].
    apply Forall_cons in Hr as [Hb0 Hr]. simpl.
    rewrite (load8_Some _ _ _ H0). simpl. rewrite store8_Some by (auto; apply Ha; lia). simpl.
    apply IH; [|by simplify_eq/=|done| |lia].
    + apply (put_bytes_frame m dst [b]); [done|]. simpl in *. lia.
    + intros x Hx. rewrite lookup_insert. case_decide; [done|]. apply Ha. lia.
Qed.

(** [memcpy] between disjoint accessible buffers copies the source bytes
    and touches nothing else. *)
Lemma memcpy_ok m dst src size bs :
  dst ≠ NULL → src ≠ NULL → bytes_at m src bs → length bs = Z.to_nat size →
  Forall (λ v, 0 ≤ v < 256) bs → accessible m dst (Z.to_nat size) →
  dst + Z.of_nat (Z.to_nat size) ≤ src ∨ src + Z.of_nat (Z.to_nat size) ≤ dst →
  memcpy m dst src size = Ok (put_bytes m dst bs).
Proof.
  intros Hd Hs. intros. unfold memcpy. apply Z.eqb_neq in Hd as ->, Hs as ->. simpl.
  by apply memcpy_loop_spec.
Qed.

Lemma skip_loop_spec fuel m p s :
  cstr m p s → (length s < fuel)%nat → skip_loop fuel m p = Ok (p + Z.of_nat (length s) + 1).
Proof.
  revert p s. induction fuel as [|fuel IH]; intros p s Hs Hf; [lia|]. simpl.
  destruct s as [|c s].
  - apply cstr_nil in Hs. rewrite (load8_Some _ _ _ Hs). simpl. f_equal. lia.
  - apply cstr_cons in Hs as (H0 & Hc & Hs). rewrite (load8_Some _ _ _ H0). simpl.
    rewrite (proj2 (Z.eqb_neq c 0)) by lia. rewrite (IH _ _ Hs) by (simpl in Hf; lia).
    f_equal. simpl. lia.
Qed.

(** [strlen] of a NUL-terminated string is the number of its bytes. *)
Lemma strlen_ok m str s :
  str ≠ NULL → cstr m str s → Z.of_nat (length s) < 2 ^ 32 →
  strlen m str = Ok (Z.of_nat (length s)).
Proof.
  intros Hn Hs Hl. unfold strlen. apply Z.eqb_neq in Hn as ->. simpl.
  rewrite (skip_loop_spec _ _ _ _ Hs) by eauto with forik. simpl. f_equal. rewrite u32_small; lia.
Qed.

Lemma strcpy_loop_spec fuel m dst src s :
  cstr m src s → (length s < fuel)%nat → accessible m dst (S (length s)) →
  dst + Z.of_nat (length s) < src ∨ src + Z.of_nat (length s) < dst →
  strcpy_loop fuel m dst src = Ok (put_bytes m dst (s ++ [0])).
Proof.
  revert m dst src s. induction fuel as [|fuel IH]; intros m dst src s Hs Hf Ha Hd; [lia|]. simpl.
  destruct s as [|c s].
  - apply cstr_nil in Hs. rewrite (load8_Some _ _ _ Hs). simpl.
    rewrite store8_Some by (try lia; apply Ha; simpl; lia). done.
  - apply cstr_cons in Hs as (H0 & Hc & Hs). rewrite (load8_Some _ _ _ H0). simpl.
    rewrite store8_Some by (try lia; apply Ha; simpl; lia). simpl.
    rewrite (proj2 (Z.eqb_neq c 0)) by lia.
    apply IH; [|simpl in Hf; lia| |simpl in Hd; lia].
    + destruct Hs as [Hs ?]. split; [|done]. apply (put_bytes_frame m dst [c]); [done|].
      rewrite length_app. simpl in *. lia.
    + intros x Hx. rewrite lookup_insert. case_decide; [done|]. apply Ha. simpl. lia.
Qed.

(** [strcpy] to an accessible, disjoint destination returns the
    destination, which then holds the same string, and changes no byte outside
    it. *)
Theorem strcpy_spec m dst src s :
  dst ≠ NULL → src ≠ NULL → cstr m src s → accessible m dst (S (length s)) →
  dst + Z.of_nat (length s) < src ∨ src + Z.of_nat (length s) < dst →
  ∃ m', strcpy m dst src = Ok (dst, m') ∧ cstr m' dst s ∧
        (∀ x, x < dst ∨ dst + Z.of_nat (length s) < x → m' !! x = m !! x).
Proof.
  intros Hd Hn Hs Ha Hdisj. unfold strcpy. apply Z.eqb_neq in Hd as ->, Hn as ->. simpl.
  rewrite (strcpy_loop_spec _ _ _ _ _ Hs) by eauto with forik. simpl.
  eexists; split; [done|]. split.
  - split; [apply put_bytes_at|apply Hs].
  - intros x Hx. rewrite lookup_put_bytes, decide_False; [done|]. rewrite length_app. simpl. lia.
Qed.

(** [strcat] appends the second string to the first in place: the
    destination then holds the concatenation, everything past it is
    untouched. *)
Theorem strcat_spec m dst src s t :
  dst ≠ NULL → src ≠ NULL → cstr m dst s → cstr m src t →
  accessible m dst (S (length s + length t)) →
  dst + Z.of_nat (length s + length t) < src ∨ src + Z.of_nat (length t) < dst →
  ∃ m', strcat m dst src = Ok (dst, m') ∧ cstr m' dst (s ++ t) ∧
        (∀ x, x < dst ∨ dst + Z.of_nat (length s + length t) < x → m' !! x = m !! x).
Proof.
  intros Hd Hn Hs Ht Ha Hdisj. unfold strcat. apply Z.eqb_neq in Hd as ->, Hn as ->. simpl.
  rewrite (skip_loop_spec _ _ _ _ Hs) by eauto with forik. simpl.
  replace (dst + Z.of_nat (length s) + 1 - 1) with (dst + Z.of_nat (length s)) by lia.
  rewrite (strcpy_loop_spec _ _ _ _ _ Ht); [|by eauto with forik| |lia].
  2:{ intros x Hx. apply Ha. lia. }
  simpl. eexists; split; [done|]. destruct Hs as [Hs Hs'], Ht as [Ht Ht']. split.
  - split; [|by apply Forall_app]. rewrite <- app_assoc. apply bytes_at_app. split.
    + apply put_bytes_frame; [|lia]. apply bytes_at_app in Hs. tauto.
    + apply put_bytes_at.
  - intros x Hx. rewrite lookup_put_bytes, decide_False; [done|]. rewrite length_app. simpl. lia.
Qed.

(** The order [strcmp] decides: at the first position where the two strings
    (with their terminators) differ, the signed character of the first is the
    smaller one. *)
Definition str_lt (s t : list Z) : Prop :=
  ∃ p x y s' t', s ++ [0] = p ++ x :: s' ∧ t ++ [0] = p ++ y :: t' ∧ s8 x < s8 y.

Lemma s8_inj x y : 0 ≤ x < 256 → 0 ≤ y < 256 → s8 x = s8 y → x = y.
Proof. unfold s8. change (2 ^ 7) with 128. change (2 ^ 8) with 256. dm. Qed.

Lemma str_lt_irrefl s : ¬ str_lt s s.
Proof. intros (p & x & y & s' & t' & H1 & H2 & ?). rewrite H1 in H2. simplify_eq. lia. Qed.

Lemma str_lt_asym s t : ¬ (str_lt s t ∧ str_lt t s).
Proof.
  intros [(p & x & y & s1 & t1 & A1 & A2 & Hlt) (q & z & w & t2 & s2 & B1 & B2 & Hlt')].
  rewrite A1 in B2. rewrite A2 in B1. clear A1 A2 s t.
  revert q B1 B2. induction p as [|d p IH]; intros [|e q] B1 B2; simplify_eq/=; [lia|lia..|by eapply IH].
Qed.

(** What [strcmp_loop] answers on two strings that start with [x] and [y]. *)
Lemma str_lt_head x y s t s' t' :
  s ++ [0] = x :: s' → t ++ [0] = y :: t' → s8 x < s8 y → str_lt s t ∧ ¬ str_lt t s ∧ s ≠ t.
Proof.
  intros Hs Ht Hlt. split_and!.
  - exists [], x, y, s', t'. done.
  - intros ([|z p] & a & b & u & v & H1 & H2 & ?); simplify_eq/=; rewrite ?H1, ?H2 in *; simplify_eq/=; lia.
  - intros ->. rewrite Hs in Ht. simplify_eq. lia.
Qed.

Lemma str_lt_cons c s t : str_lt (c :: s) (c :: t) ↔ str_lt s t.
Proof.
  split.
  - intros ([|d p] & x & y & u & v & H1 & H2 & ?); simplify_eq/=; [lia|].
    by exists p, x, y, u, v.
  - intros (p & x & y & u & v & H1 & H2 & ?). exists (c :: p), x, y, u, v. simpl. by rewrite H1, H2.
Qed.

Definition strcmp_result (s t : list Z) (r : Z) : Prop :=
  (r = 0 ∧ s = t) ∨ (r = -1 ∧ str_lt s t) ∨ (r = 1 ∧ str_lt t s).

Lemma strcmp_result_head x y s t s' t' :
  s ++ [0] = x :: s' → t ++ [0] = y :: t' → s8 x ≠ s8 y →
  strcmp_result s t (if s8 x <? s8 y then -1 else if s8 y <? s8 x then 1 else 0).
Proof.
  intros Hs Ht Hne. destruct (Z.ltb_spec (s8 x) (s8 y)).
  - right; left. split; [done|]. by eapply str_lt_head.
  - rewrite (proj2 (Z.ltb_lt _ _)) by lia. right; right. split; [done|]. eapply str_lt_head; [done..|lia].
Qed.

Lemma strcmp_loop_spec fuel m a b s t :
  cstr m a s → cstr m b t → (length s < fuel)%nat →
  ∃ r, strcmp_loop fuel m a b = Ok r ∧ strcmp_result s t r.
Proof.
  revert a b s t. induction fuel as [|fuel IH]; intros a b s t Hs Ht Hf; [lia|]. simpl.
  destruct s as [|x s].
  - apply cstr_nil in Hs. rewrite (load8_Some _ _ _ Hs). simpl. destruct t as [|y t].
    + apply cstr_nil in Ht. rewrite (load8_Some _ _ _ Ht). exists 0. split; [done|by left].
    + apply cstr_cons in Ht as (H0 & Hy & Ht). rewrite (load8_Some _ _ _ H0). simpl.
      eexists; split; [done|]. eapply (strcmp_result_head 0 y); [done..|].
      intros Heq%s8_inj; lia.
  - apply cstr_cons in Hs as (H0 & Hx & Hs). rewrite (load8_Some _ _ _ H0). simpl.
    rewrite (proj2 (Z.eqb_neq x 0)) by lia. simpl. destruct t as [|y t].
    + apply cstr_nil in Ht. rewrite (load8_Some _ _ _ Ht). simpl.
      rewrite (proj2 (Z.eqb_neq (s8 x) (s8 0))) by (intros Heq%s8_inj; lia).
      eexists; split; [done|]. eapply (strcmp_result_head x 0); [done..|]. intros Heq%s8_inj; lia.
    + apply cstr_cons in Ht as (H1 & Hy & Ht). rewrite (load8_Some _ _ _ H1). simpl.
      destruct (Z.eqb_spec (s8 x) (s8 y)) as [Heq|Hne].
      * apply s8_inj in Heq as ->; [|lia..].
        destruct (IH _ _ _ _ Hs Ht) as (r & -> & Hr); [simpl in Hf; lia|]. exists r; split; [done|].
        unfold strcmp_result in *. rewrite !str_lt_cons. naive_solver.
      * eexists; split; [done|]. by eapply strcmp_result_head.
Qed.

(** [strcmp] of two NUL-terminated strings returns a result, which is 0
    exactly for equal strings, -1 when the first string precedes the second
    and 1 when it follows it, in the order of signed characters. *)
Theorem strcmp_spec m a b s t :
  a ≠ NULL → b ≠ NULL → cstr m a s → cstr m b t →
  ∃ r, strcmp m a b = Ok r ∧ (r = 0 ↔ s = t) ∧ (r = -1 ↔ str_lt s t) ∧ (r = 1 ↔ str_lt t s).
Proof.
  intros Ha Hb Hs Ht. unfold strcmp. apply Z.eqb_neq in Ha as ->, Hb as ->. simpl.
  destruct (strcmp_loop_spec (mem_fuel m) _ _ _ _ _ Hs Ht) as (r & -> & Hr); [eauto with forik|].
  exists r. split; [done|]. pose proof (str_lt_irrefl s). pose proof (str_lt_irrefl t).
  pose proof (str_lt_asym s t).
  destruct Hr as [[-> ->]|[[-> ?]|[-> ?]]]; naive_solver.
Qed.

(** The addresses at which the character [ch] occurs in [s], placed at [a]. *)
Definition occurs_at (s : list Z) (ch : Z) (i : nat) : Prop := ∃ c, s !! i = Some c ∧ s8 c = ch.

Lemma strchr_loop_spec fuel m p s ch :
  cstr m p s → (length s < fuel)%nat →
  ∃ r, strchr_loop fuel m p ch = Ok r ∧
    ((r = NULL ∧ ∀ i, ¬ occurs_at s ch i) ∨
     ∃ i, r = p + Z.of_nat i ∧ occurs_at s ch i ∧ ∀ j, (j < i)%nat → ¬ occurs_at s ch j).
Proof.
  revert p s. induction fuel as [|fuel IH]; intros p s Hs Hf; [lia|]. simpl.
  destruct s as [|c s].
  - apply cstr_nil in Hs. rewrite (load8_Some _ _ _ Hs). simpl. eexists; split; [done|].
    left. split; [done|]. intros i (? & ? & ?). by rewrite lookup_nil in *.
  - apply cstr_cons in Hs as (H0 & Hc & Hs). rewrite (load8_Some _ _ _ H0). simpl.
    rewrite (proj2 (Z.eqb_neq c 0)) by lia. destruct (Z.eqb_spec (s8 c) ch).
    + eexists; split; [done|]. right. exists 0%nat. split; [lia|]. split; [by exists c|lia].
    + destruct (IH _ _ Hs) as (r & -> & Hr); [simpl in Hf; lia|]. eexists; split; [done|].
      destruct Hr as [[-> Hn]|(i & -> & Ho & Hj)].
      * left. split; [done|]. intros [|i] (d & ? & ?); simplify_eq/=. apply (Hn i). by exists d.
      * right. exists (S i). split; [lia|]. split; [done|].
        intros [|j] Hj' (d & ? & ?); simplify_eq/=. apply (Hj j); [lia|]. by exists d.
Qed.

(** [strchr] returns the address of the first occurrence of the character
    in the string, or NULL when it does not occur. *)
Lemma strchr_ok m str s ch :
  str ≠ NULL → cstr m str s →
  ∃ r, strchr m str ch = Ok r ∧
    ((r = NULL ∧ ∀ i, ¬ occurs_at s ch i) ∨
     ∃ i, r = str + Z.of_nat i ∧ occurs_at s ch i ∧ ∀ j, (j < i)%nat → ¬ occurs_at s ch j).
Proof.
  intros Hn Hs. unfold strchr. apply Z.eqb_neq in Hn as ->. simpl.
  apply strchr_loop_spec; eauto with forik.
Qed.

Lemma strrchr_loop_spec fuel m p s ch last :
  cstr m p s → (length s < fuel)%nat →
  ∃ r, strrchr_loop fuel m p ch last = Ok r ∧
    ((r = last ∧ ∀ i, ¬ occurs_at s ch i) ∨
     ∃ i, r = p + Z.of_nat i ∧ occurs_at s ch i ∧ ∀ j, (i < j)%nat → ¬ occurs_at s ch j).
Proof.
  revert p s last. induction fuel as [|fuel IH]; intros p s last Hs Hf; [lia|]. simpl.
  destruct s as [|c s].
  - apply cstr_nil in Hs. rewrite (load8_Some _ _ _ Hs). simpl. eexists; split; [done|].
    left. split; [done|]. intros i (? & ? & ?). by rewrite lookup_nil in *.
  - apply cstr_cons in Hs as (H0 & Hc & Hs). rewrite (load8_Some _ _ _ H0). simpl.
    rewrite (proj2 (Z.eqb_neq c 0)) by lia.
    edestruct (IH (p + 1) s) as (r & -> & Hr); [done|simpl in Hf; lia|]. eexists; split; [done|].
    destruct Hr as [[-> Hn]|(i & -> & Ho & Hj)].
    + destruct (Z.eqb_spec (s8 c) ch).
      * right. exists 0%nat. split; [lia|]. split; [by exists c|]. intros [|j] ?; [lia|]. apply Hn.
      * left. split; [done|]. intros [|i] (d & ? & ?); simplify_eq/=. apply (Hn i). by exists d.
    + right. exists (S i). split; [lia|]. split; [done|]. intros [|j] ?; [lia|]. apply Hj. lia.
Qed.

(** [strrchr] returns the address of the last occurrence of the character
    in the string, or NULL when it does not occur. *)
Theorem strrchr_spec m str s ch :
  str ≠ NULL → cstr m str s →
  ∃ r, strrchr m str ch = Ok r ∧
    ((r = NULL ∧ ∀ i, ¬ occurs_at s ch i) ∨
     ∃ i, r = str + Z.of_nat i ∧ occurs_at s ch i ∧ ∀ j, (i < j)%nat → ¬ occurs_at s ch j).
Proof.
  intros Hn Hs. unfold strrchr. apply Z.eqb_neq in Hn as ->. simpl.
  apply strrchr_loop_spec; eauto with forik.
Qed.

Lemma strchrs_loop_spec fuel m p s ch cnt :
  cstr m p s → (length s < fuel)%nat →
  0 ≤ cnt → cnt + Z.of_nat (length s) < 2 ^ 32 →
  strchrs_loop fuel m p ch cnt = Ok (cnt + Z.of_nat (length (filter (λ c, s8 c = ch) s))).
Proof.
  revert p s cnt. induction fuel as [|fuel IH]; intros p s cnt Hs Hf H0 Hl; [lia|]. simpl.
  destruct s as [|c s].
  - apply cstr_nil in Hs. rewrite (load8_Some _ _ _ Hs). simpl. f_equal. lia.
  - apply cstr_cons in Hs as (Hp & Hc & Hs). rewrite (load8_Some _ _ _ Hp). simpl.
    rewrite (proj2 (Z.eqb_neq c 0)) by lia. rewrite filter_cons. simpl in *.
    destruct (Z.eqb_spec (s8 c) ch).
    + rewrite decide_True, u32_small by (done || lia). rewrite (IH _ _ _ Hs) by lia.
      f_equal. simpl. lia.
    + rewrite decide_False by done. apply IH; done || lia.
Qed.

(** [strchrs] counts the occurrences of the character. *)
Lemma strchrs_spec m str s ch :
  str ≠ NULL → cstr m str s → Z.of_nat (length s) < 2 ^ 32 →
  strchrs m str ch = Ok (Z.of_nat (length (filter (λ c, s8 c = ch) s))).
Proof.
  intros Hn Hs Hl. unfold strchrs. apply Z.eqb_neq in Hn as ->. simpl.
  rewrite (strchrs_loop_spec _ _ _ _ _ _ Hs); eauto with forik; lia.
Qed.

Lemma skip_loop_NoFuel fuel m p : skip_loop fuel m p = NoFuel → accessible m p fuel.
Proof.
  revert p. induction fuel as [|fuel IH]; intros p H; [intros x Hx; lia|]. simpl in H.
  unfold load8 in H. destruct (m !! p) as [c|] eqn:Hp; simplify_eq/=. case_match; [done|].
  intros x Hx. destruct (decide (x = p)) as [->|]; [by eexists|]. apply (IH _ H). lia.
Qed.

(** [strlen] always comes to an end, on every memory and address: with a
    length, or by leaving accessible memory, or by its assertion; the fuel of
    the model never runs out. *)
Theorem strlen_total m str : strlen m str ≠ NoFuel.
Proof.
  unfold strlen. destruct (str =? NULL); simpl; [done|].
  destruct (skip_loop _ _ _) eqn:E; simpl; try done.
  apply skip_loop_NoFuel, accessible_size in E. rewrite mem_fuel_eq in E. lia.
Qed.
