(* ===== verification/CArray.v ===== *)
(** * C arrays as lists

    The file system and the shell work on buffers that only the running
    function can reach: path names, name buffers, sector buffers.  Such a
    buffer is a list of bytes here and a pointer into it is the rest of the
    list from there on; an access behind the end of the list is a [Fault].
    This file has the routines of src/lib/string.c on arrays and shows that
    they compute what the routines of CString.v compute on a memory that
    holds the arrays. *)

From S2P Require Import Prelude CString.

Fixpoint astrcmp (a b : list Z) : outcome Z :=
  match a, b with
  | x :: a, y :: b =>
      if negb (x =? 0) && (s8 x =? s8 y) then astrcmp a b
      else Ok (if s8 x <? s8 y then -1 else if s8 y <? s8 x then 1 else 0)
  | _, _ => Fault
  end.

Fixpoint astrlen (a : list Z) : outcome Z :=
  match a with
  | [] => Fault
  | c :: a => if c =? 0 then Ok 0 else n ← astrlen a; Ok (n + 1)
  end.

(** The index of the last [ch], or [last]. *)
Fixpoint astrrchr_loop (a : list Z) (ch : Z) (i : nat) (last : option nat) : outcome (option nat) :=
  match a with
  | [] => Fault
  | c :: a => if c =? 0 then Ok last else astrrchr_loop a ch (S i) (if s8 c =? ch then Some i else last)
  end.
Definition astrrchr (a : list Z) (ch : Z) : outcome (option nat) := astrrchr_loop a ch 0 None.

Fixpoint astrcpy (dst src : list Z) : outcome (list Z) :=
  match dst, src with
  | _ :: dst, c :: src => if c =? 0 then Ok (0 :: dst) else r ← astrcpy dst src; Ok (c :: r)
  | _, _ => Fault
  end.

Fixpoint astrcat (dst src : list Z) : outcome (list Z) :=
  match dst with
  | [] => Fault
  | d :: dst' => if d =? 0 then astrcpy dst src else r ← astrcat dst' src; Ok (d :: r)
  end.

(** [a[i] = v] *)
Definition aset (a : list Z) (i : nat) (v : Z) : outcome (list Z) :=
  _ ← deref (a !! i); Ok (<[i := v]> a).

(** ** Contents *)

Definition char_ok (c : Z) : Prop := 1 ≤ c < 256.
(** The array starts with the string [s] and its NUL. *)
Definition holds (a s : list Z) : Prop := ∃ r, a = s ++ 0 :: r ∧ Forall char_ok s.

Lemma holds_nil a : holds a [] ↔ a !! 0%nat = Some 0.
Proof.
  split; [by intros (r & -> & _)|]. destruct a as [|x a]; [done|]. intros [= ->]. exists a. split; [done|constructor].
Qed.
Lemma holds_cons a c s : holds a (c :: s) ↔ ∃ a', a = c :: a' ∧ char_ok c ∧ holds a' s.
Proof.
  split.
  - intros (r & -> & [Hc Hs]%Forall_cons). exists (s ++ 0 :: r). split_and!; [done..|]. by exists r.
  - intros (a' & -> & Hc & r & -> & Hs). exists r. split; [done|by constructor].
Qed.
Lemma holds_inj a s t : holds a s → holds a t → s = t.
Proof.
  revert a t. induction s as [|c s IH]; intros a [|d t].
  - done.
  - intros Ha (a' & -> & Hd & _)%holds_cons. apply holds_nil in Ha. simplify_eq/=. unfold char_ok in Hd. lia.
  - intros (a' & -> & Hd & _)%holds_cons Ha. apply holds_nil in Ha. simplify_eq/=. unfold char_ok in Hd. lia.
  - intros (a' & -> & _ & Hs)%holds_cons (a'' & [= -> ->] & _ & Ht)%holds_cons. f_equal. by eapply IH.
Qed.
Lemma holds_length a s : holds a s → (length s < length a)%nat.
Proof. intros (r & -> & _). rewrite length_app. simpl. lia. Qed.

Lemma astrlen_ok a s : holds a s → astrlen a = Ok (Z.of_nat (length s)).
Proof.
  revert a. induction s as [|c s IH]; intros a.
  - intros Ha%holds_nil. destruct a; simplify_eq/=. done.
  - intros (a' & -> & Hc & Hs)%holds_cons. simpl. unfold char_ok in Hc.
    rewrite (proj2 (Z.eqb_neq c 0)) by lia. rewrite (IH _ Hs). bsimpl. f_equal. lia.
Qed.

Lemma cmp_sign x y : x ≠ y → (if x <? y then -1 else if y <? x then 1 else 0) ≠ 0.
Proof. intros Hne. destruct (Z.ltb_spec x y), (Z.ltb_spec y x); lia. Qed.

Lemma astrcmp_ok a b s t : holds a s → holds b t → ∃ r, astrcmp a b = Ok r ∧ (r = 0 ↔ s = t).
Proof.
  revert a b t. induction s as [|x s IH]; intros a b t Ha Hb.
  - apply holds_nil in Ha. destruct a as [|x a]; simplify_eq/=. destruct t as [|y t].
    + apply holds_nil in Hb. destruct b; simplify_eq/=. exists 0. done.
    + apply holds_cons in Hb as (b' & -> & Hy & Hb). unfold char_ok in Hy. eexists. split; [done|].
      assert (s8 0 ≠ s8 y) as Hne%cmp_sign by (intros ?%s8_inj; lia). naive_solver.
  - apply holds_cons in Ha as (a' & -> & Hx & Ha). unfold char_ok in Hx. destruct t as [|y t].
    + apply holds_nil in Hb. destruct b; simplify_eq/=. rewrite (proj2 (Z.eqb_neq x 0)) by lia. bsimpl.
      assert (s8 x ≠ s8 0) as Hne by (intros ?%s8_inj; lia). rewrite (proj2 (Z.eqb_neq _ _)) by done.
      apply cmp_sign in Hne. eexists. split; [done|]. naive_solver.
    + apply holds_cons in Hb as (b' & -> & Hy & Hb). unfold char_ok in Hy. simpl.
      rewrite (proj2 (Z.eqb_neq x 0)) by lia. bsimpl. destruct (Z.eqb_spec (s8 x) (s8 y)) as [He|He].
      * apply s8_inj in He as ->; [|lia..]. destruct (IH _ _ _ Ha Hb) as (r & -> & Hr). exists r.
        split; [done|]. rewrite Hr. split; [by intros ->|by intros [= ->]].
      * eexists. split; [done|]. pose proof (cmp_sign _ _ He). naive_solver.
Qed.

Lemma astrcpy_ok dst src t :
  holds src t → (length t < length dst)%nat → astrcpy dst src = Ok (t ++ 0 :: drop (S (length t)) dst).
Proof.
  revert dst src. induction t as [|c t IH]; intros dst src Hs Hl; destruct dst as [|d dst]; simpl in Hl; try lia.
  - apply holds_nil in Hs. destruct src; simplify_eq/=. by rewrite drop_0.
  - apply holds_cons in Hs as (a' & -> & Hc & Hs). unfold char_ok in Hc. simpl.
    rewrite (proj2 (Z.eqb_neq c 0)) by lia. rewrite (IH dst a' Hs) by lia. done.
Qed.

Lemma astrcat_ok s r src t :
  Forall char_ok s → holds src t → (length t ≤ length r)%nat →
  astrcat (s ++ 0 :: r) src = Ok (s ++ t ++ 0 :: drop (length t) r).
Proof.
  intros Hs Ht Hl. induction Hs as [|c s Hc Hs IH]; cbn [app astrcat].
  - rewrite Z.eqb_refl. by rewrite (astrcpy_ok _ _ _ Ht) by (simpl; lia).
  - unfold char_ok in Hc. rewrite (proj2 (Z.eqb_neq c 0)) by lia. by rewrite IH.
Qed.

(** The last [ch] of a string is where no [ch] follows. *)
Lemma astrrchr_none w r ch i last :
  Forall char_ok w → Forall (λ c, s8 c ≠ ch) w → astrrchr_loop (w ++ 0 :: r) ch i last = Ok last.
Proof.
  intros Hw Hn. revert i. induction Hw as [|c w Hc Hw IH]; intros i; [done|].
  apply Forall_cons in Hn as [Hn1 Hn2]. cbn [app astrrchr_loop]. unfold char_ok in Hc.
  rewrite (proj2 (Z.eqb_neq c 0)), (proj2 (Z.eqb_neq (s8 c) ch)) by (done || lia). by apply IH.
Qed.
Lemma astrrchr_last u c w r ch i last :
  Forall char_ok (u ++ c :: w) → s8 c = ch → Forall (λ c, s8 c ≠ ch) w →
  astrrchr_loop (u ++ c :: w ++ 0 :: r) ch i last = Ok (Some (i + length u)%nat).
Proof.
  intros Hc He Hw. revert i last Hc. induction u as [|d u IH]; intros i last [Hd Hu]%Forall_cons;
    cbn [app astrrchr_loop length]; unfold char_ok in Hd.
  - rewrite (proj2 (Z.eqb_neq c 0)), (proj2 (Z.eqb_eq (s8 c) ch)) by (done || lia).
    rewrite astrrchr_none by done. do 2 f_equal. lia.
  - rewrite (proj2 (Z.eqb_neq d 0)) by lia. rewrite IH by done. do 2 f_equal. lia.
Qed.

(** ** Words: the non-empty pieces of a string between tokens *)

Definition flush (w : list Z) : list (list Z) := match w with [] => [] | _ => [w] end.
Fixpoint split_on (tok : Z) (s w : list Z) : list (list Z) :=
  match s with
  | [] => flush w
  | c :: s => if c =? tok then flush w ++ split_on tok s [] else split_on tok s (w ++ [c])
  end.

Lemma split_on_word tok w s acc : Forall (λ c, c ≠ tok) w → split_on tok (w ++ s) acc = split_on tok s (acc ++ w).
Proof.
  intros Hw. revert acc. induction Hw as [|c w Hc Hw IH]; intros acc; cbn [app split_on]; [by rewrite app_nil_r|].
  rewrite (proj2 (Z.eqb_neq c _)) by done. rewrite IH. by rewrite <- app_assoc.
Qed.
Lemma split_on_tokens tok n s : split_on tok (replicate n tok ++ s) [] = split_on tok s [].
Proof. induction n as [|n IH]; [done|]. cbn [replicate app split_on flush]. by rewrite Z.eqb_refl. Qed.

(** A string is tokens, a word and the rest. *)
Definition starts_with (tok : Z) (s : list Z) : Prop := ∃ t, s = tok :: t.
Lemma word_split tok s : ∃ w s', s = w ++ s' ∧ Forall (λ c, c ≠ tok) w ∧ (s' = [] ∨ starts_with tok s').
Proof.
  induction s as [|c s (w & s' & -> & Hw & Hs)]; [by exists [], []; auto|].
  destruct (decide (c = tok)) as [-> |Hc].
  - exists [], (tok :: w ++ s'). split_and!; [done|constructor|]. right. by eexists.
  - exists (c :: w), s'. split_and!; [done|by constructor|done].
Qed.
Lemma tokens_split tok s : ∃ n s', s = replicate n tok ++ s' ∧ ¬ starts_with tok s'.
Proof.
  induction s as [|c s (n & s' & -> & Hs)]; [exists 0%nat, []; split; [done|by intros []]|].
  destruct (decide (c = tok)) as [-> |Hc].
  - by exists (S n), s'.
  - exists 0%nat, (c :: replicate n tok ++ s'). split; [done|]. by intros [t [= ? ?]].
Qed.

(** ** Agreement with the routines on memory *)

Lemma astrcmp_loop_memory fuel m a b x y r :
  bytes_at m x a → bytes_at m y b → astrcmp a b = Ok r → (length a ≤ fuel)%nat → strcmp_loop fuel m x y = Ok r.
Proof.
  revert m a b x y. induction fuel as [|fuel IH]; intros m a b x y Ha Hb Hr Hf; destruct a as [|c a];
    [done|simpl in Hf; lia|done|]. destruct b as [|d b]; [done|].
  apply bytes_at_cons in Ha as [Hc Ha], Hb as [Hd Hb]. simpl in *.
  rewrite (load8_Some _ _ _ Hc), (load8_Some _ _ _ Hd). bsimpl.
  destruct (negb (c =? 0) && (s8 c =? s8 d)); [|done]. eapply IH; [done..|lia].
Qed.

Lemma astrlen_loop_memory fuel m a x n :
  bytes_at m x a → astrlen a = Ok n → (length a ≤ fuel)%nat → skip_loop fuel m x = Ok (x + n + 1).
Proof.
  revert a x n. induction fuel as [|fuel IH]; intros a x n Ha Hn Hf; destruct a as [|c a];
    [done|simpl in Hf; lia|done|].
  apply bytes_at_cons in Ha as [Hc Ha]. simpl in *. rewrite (load8_Some _ _ _ Hc). bsimpl.
  destruct (c =? 0); [simplify_eq; f_equal; lia|]. apply bind_Ok in Hn as (k & Hk & [= <-]).
  rewrite (IH _ _ _ Ha Hk) by lia. f_equal. lia.
Qed.

Lemma bytes_at_fuel m x a : bytes_at m x a → (length a ≤ mem_fuel m)%nat.
Proof. intros Ha. apply bytes_at_accessible, accessible_size in Ha. rewrite mem_fuel_eq. lia. Qed.

(** On a memory that holds the arrays, [strcmp] and [strlen] return what
    their array forms return. *)
Lemma astrcmp_memory m a b x y r :
  x ≠ NULL → y ≠ NULL → bytes_at m x a → bytes_at m y b → astrcmp a b = Ok r → strcmp m x y = Ok r.
Proof.
  intros Hx Hy Ha Hb Hr. unfold strcmp. apply Z.eqb_neq in Hx as ->, Hy as ->. bsimpl.
  eapply astrcmp_loop_memory; [done..|by eapply bytes_at_fuel].
Qed.
Lemma astrlen_memory m a x n :
  x ≠ NULL → bytes_at m x a → astrlen a = Ok n → strlen m x = Ok (u32 n).
Proof.
  intros Hx Ha Hn. unfold strlen. apply Z.eqb_neq in Hx as ->. bsimpl.
  rewrite (astrlen_loop_memory _ _ _ _ _ Ha Hn) by (by eapply bytes_at_fuel). bsimpl. do 2 f_equal. lia.
Qed.
