(* ===== verification/Stdio.v ===== *)
(** * Formatted output (src/lib/stdio.c)

    [vsprintf] and its helper on arrays: [str] is the destination, an
    argument is a 32-bit word or a string.  The theorems compare it with
    [render], which says what a format and its arguments stand for, and show
    that the numerals it writes denote their numbers.  [vsprintf] does not
    terminate its result itself, so the theorems are about destinations that
    are cleared, as those of its callers are. *)

From S2P Require Import Prelude CString CArray.

Inductive arg := AInt (v : Z) | AStr (a : list Z).

(** [value], [base] and [**buf_ptr_addr]; 32 digits are enough for 32 bits. *)
Fixpoint itoa_loop (fuel : nat) (value base : Z) (str : list Z) (buf_ptr : nat) : outcome (list Z * nat) :=
  match fuel with
  | O => NoFuel
  | S fuel =>
      if base =? 0 then Fault
      else
        let m := value mod base in
        let i := value / base in
        '(str, buf_ptr) ← (if negb (i =? 0) then itoa_loop fuel i base str buf_ptr else Ok (str, buf_ptr));
        str ← aset str buf_ptr (u8 (if m <? 10 then m + 48 else m - 10 + 65));
        Ok (str, S buf_ptr)
  end.
Definition itoa (value base : Z) (str : list Z) (buf_ptr : nat) : outcome (list Z * nat) := itoa_loop 32 value base str buf_ptr.

(** The loop of [vsprintf]; [f] is the rest of the format from [index_ptr]
    on, its first character is [index_char].  A character after [%] that is
    no conversion is looked at again. *)
Fixpoint vsprintf_loop (f : list Z) (str : list Z) (buf_ptr : nat) (ap : list arg) : outcome (list Z) :=
  match f with
  | [] => Fault
  | index_char :: f =>
      if index_char =? 0 then Ok str
      else if negb (index_char =? 37) then
        str ← aset str buf_ptr index_char; vsprintf_loop f str (S buf_ptr) ap
      else
        match f with
        | [] => Fault
        | index_char :: f' =>
            if index_char =? 115 then
              match ap with
              | AStr arg_str :: ap =>
                  tl ← astrcpy (drop buf_ptr str) arg_str;
                  n ← astrlen arg_str;
                  vsprintf_loop f' (take buf_ptr str ++ tl) (buf_ptr + Z.to_nat n) ap
              | _ => Fault
              end
            else if index_char =? 99 then
              match ap with
              | AInt v :: ap => str ← aset str buf_ptr (u8 v); vsprintf_loop f' str (S buf_ptr) ap
              | _ => Fault
              end
            else if index_char =? 100 then
              match ap with
              | AInt v :: ap =>
                  let arg_int := s32 v in
                  '(str, buf_ptr, arg_int) ←
                    (if arg_int <? 0 then str ← aset str buf_ptr 45; Ok (str, S buf_ptr, s32 (0 - arg_int))
                     else Ok (str, buf_ptr, arg_int));
                  '(str, buf_ptr) ← itoa (u32 arg_int) 10 str buf_ptr;
                  vsprintf_loop f' str buf_ptr ap
              | _ => Fault
              end
            else if index_char =? 120 then
              match ap with
              | AInt v :: ap => '(str, buf_ptr) ← itoa (u32 (s32 v)) 16 str buf_ptr; vsprintf_loop f' str buf_ptr ap
              | _ => Fault
              end
            else vsprintf_loop f str buf_ptr ap
        end
  end.

(** The result is the length of the string and the destination. *)
Definition vsprintf (str format : list Z) (ap : list arg) : outcome (Z * list Z) :=
  str ← vsprintf_loop format str 0 ap; n ← astrlen str; Ok (n, str).
Definition sprintf (buf format : list Z) (ap : list arg) : outcome (Z * list Z) := vsprintf buf format ap.

(** The buffer of [printf] and [printk]. *)
Definition format_buf (format : list Z) (ap : list arg) : outcome (list Z) :=
  '(_, buf) ← vsprintf (replicate 1024 0) format ap; Ok buf.

(** ** What a format stands for *)

Definition digit (m : Z) : Z := if m <? 10 then m + 48 else m - 10 + 65.
Fixpoint numeral_fuel (fuel : nat) (base v : Z) : list Z :=
  match fuel with
  | O => []
  | S fuel => (if v / base =? 0 then [] else numeral_fuel fuel base (v / base)) ++ [digit (v mod base)]
  end.
Definition numeral (base v : Z) : list Z := numeral_fuel 32 base v.
Definition signed_numeral (v : Z) : list Z := if v <? 0 then 45 :: numeral 10 (- v) else numeral 10 v.

(** The characters of an array before its NUL. *)
Fixpoint chars (a : list Z) : list Z :=
  match a with [] => [] | c :: a => if c =? 0 then [] else c :: chars a end.

(** [None]: an argument is missing or of the wrong kind. *)
Fixpoint render (f : list Z) (ap : list arg) : option (list Z) :=
  match f with
  | [] => Some []
  | c :: f =>
      if c =? 37 then
        match f with
        | [] => Some []
        | d :: f' =>
            if d =? 115 then match ap with AStr a :: ap => (chars a ++.) <$> render f' ap | _ => None end
            else if d =? 99 then match ap with AInt v :: ap => ([u8 v] ++.) <$> render f' ap | _ => None end
            else if d =? 100 then match ap with AInt v :: ap => (signed_numeral (s32 v) ++.) <$> render f' ap | _ => None end
            else if d =? 120 then match ap with AInt v :: ap => (numeral 16 (u32 v) ++.) <$> render f' ap | _ => None end
            else render f ap
        end
      else ([c] ++.) <$> render f ap
  end.

(** Strings are terminated, characters are not NUL. *)
Definition arg_ok (x : arg) : Prop :=
  match x with AStr a => holds a (chars a) | AInt v => 0 ≤ v < 2 ^ 32 end.

(** The number a numeral denotes. *)
Definition digit_value (c : Z) : Z := if c <? 65 then c - 48 else c - 65 + 10.
Definition numeral_value (base : Z) (ds : list Z) : Z := foldl (λ acc c, acc * base + digit_value c) 0 ds.
Definition signed_value (ds : list Z) : Z :=
  match ds with 45 :: ds => - numeral_value 10 ds | _ => numeral_value 10 ds end.

(** ** Numerals *)

Lemma digit_ok base m : 2 ≤ base ≤ 16 → 0 ≤ m < base → 48 ≤ digit m ≤ 70 ∧ digit_value (digit m) = m.
Proof.
  intros Hb Hm. unfold digit, digit_value. destruct (Z.ltb_spec m 10).
  - rewrite (proj2 (Z.ltb_lt (m + 48) 65)) by lia. lia.
  - rewrite (proj2 (Z.ltb_ge (m - 10 + 65) 65)) by lia. lia.
Qed.

Lemma numeral_fuel_value fuel base v :
  2 ≤ base ≤ 16 → 0 ≤ v < 2 ^ Z.of_nat fuel → numeral_value base (numeral_fuel fuel base v) = v.
Proof.
  intros Hb. revert v. induction fuel as [|fuel IH]; intros v Hv.
  - change (2 ^ Z.of_nat 0) with 1 in Hv. cbn. lia.
  - rewrite Nat2Z.inj_succ, Z.pow_succ_r in Hv by lia. cbn [numeral_fuel]. unfold numeral_value in *. rewrite foldl_app.
    pose proof (Z.mod_pos_bound v base ltac:(lia)) as Hm. pose proof (Z.div_mod v base ltac:(lia)) as Hd.
    assert (0 ≤ v / base < 2 ^ Z.of_nat fuel) as Hq by (split; [apply Z.div_pos; lia|apply Z.div_lt_upper_bound; nia]).
    cbn [foldl]. rewrite (proj2 (digit_ok base (v mod base) Hb Hm)). destruct (Z.eqb_spec (v / base) 0) as [Hz|Hz].
    + cbn [foldl]. rewrite Hz in Hd. lia.
    + rewrite IH by done. lia.
Qed.

Lemma numeral_fuel_chars fuel base v : 2 ≤ base ≤ 16 → 0 ≤ v → Forall (λ c, 48 ≤ c ≤ 70) (numeral_fuel fuel base v).
Proof.
  intros Hb. revert v. induction fuel as [|fuel IH]; intros v Hv; [constructor|]. cbn [numeral_fuel]. apply Forall_app. split.
  - destruct (v / base =? 0); [constructor|]. apply IH. apply Z.div_pos; lia.
  - constructor; [|constructor]. apply (digit_ok base); [done|]. apply Z.mod_pos_bound. lia.
Qed.

Lemma numeral_value_ok base v : 2 ≤ base ≤ 16 → 0 ≤ v < 2 ^ 32 → numeral_value base (numeral base v) = v.
Proof. intros. by apply numeral_fuel_value. Qed.

Lemma signed_value_ok v : - 2 ^ 31 ≤ v < 2 ^ 31 → signed_value (signed_numeral v) = v.
Proof.
  intros Hv. unfold signed_numeral. destruct (Z.ltb_spec v 0).
  - cbn [signed_value]. rewrite numeral_value_ok by lia. lia.
  - pose proof (numeral_fuel_chars 32 10 v ltac:(lia) ltac:(lia)) as Hc. rewrite <- (numeral_value_ok 10 v) at 2 by lia. unfold numeral in *.
    destruct (numeral_fuel 32 10 v) as [|c ds]; [done|]. apply Forall_cons in Hc as [Hc _]. unfold signed_value.
    assert (c ≠ 45) as Hn by lia. destruct c as [|c|]; [done| |done]. do 6 (destruct c as [c|c|]; try done). all: done.
Qed.

(** ** Writing behind what is there *)

Lemma s32_range x : - 2 ^ 31 ≤ s32 x < 2 ^ 31.
Proof. unfold s32. change (2 ^ 32) with 4294967296. change (2 ^ 31) with 2147483648. dm. Qed.

Lemma aset_next out x rest c : aset (out ++ x :: rest) (length out) c = Ok ((out ++ [c]) ++ rest).
Proof.
  unfold aset. rewrite lookup_app_r, Nat.sub_diag by lia. cbn [lookup list_lookup deref]. bsimpl.
  rewrite insert_app_r_alt, Nat.sub_diag by lia. cbn [insert list_insert]. by rewrite <- app_assoc.
Qed.

Lemma itoa_loop_ok fuel v base out rest :
  2 ≤ base ≤ 16 → 0 ≤ v < 2 ^ Z.of_nat fuel → (0 < fuel)%nat → (length (numeral_fuel fuel base v) ≤ length rest)%nat →
  itoa_loop fuel v base (out ++ rest) (length out) =
    Ok ((out ++ numeral_fuel fuel base v) ++ drop (length (numeral_fuel fuel base v)) rest,
        length (out ++ numeral_fuel fuel base v)).
Proof.
  intros Hb. revert v rest. induction fuel as [|fuel IH]; intros v rest Hv Hf Hl; [lia|].
  rewrite Nat2Z.inj_succ, Z.pow_succ_r in Hv by lia. cbn [itoa_loop]. rewrite (proj2 (Z.eqb_neq base 0)) by lia. cbv zeta.
  cbn [numeral_fuel] in Hl |- *. rewrite length_app in Hl. cbn [length] in Hl.
  pose proof (Z.mod_pos_bound v base ltac:(lia)) as Hm. pose proof (digit_ok base _ Hb Hm) as [Hd _].
  fold (digit (v mod base)). rewrite u8_small by lia.
  set (pre := if v / base =? 0 then [] else numeral_fuel fuel base (v / base)) in *.
  assert ((if negb (v / base =? 0) then itoa_loop fuel (v / base) base (out ++ rest) (length out) else Ok (out ++ rest, length out)) =
    Ok ((out ++ pre) ++ drop (length pre) rest, length (out ++ pre))) as ->.
  { unfold pre in *. destruct (Z.eqb_spec (v / base) 0) as [Hz|Hz]; cbn [negb]; [by rewrite app_nil_r|].
    assert (0 ≤ v / base < 2 ^ Z.of_nat fuel) as Hq by (split; [apply Z.div_pos; lia|apply Z.div_lt_upper_bound; nia]).
    apply IH; [done| |lia]. destruct fuel; [|lia]. change (2 ^ Z.of_nat 0) with 1 in Hq. lia. }
  bsimpl. destruct (drop (length pre) rest) as [|x rest'] eqn:Er.
  { apply (f_equal length) in Er. rewrite length_drop in Er. cbn [length] in Er. lia. }
  rewrite aset_next. bsimpl. rewrite length_app. cbn [length].
  rewrite <- !app_assoc, !length_app. cbn [length app]. rewrite Nat.add_1_r, Nat.add_succ_r.
  replace (drop (S (length pre)) rest) with rest' by (rewrite <- Nat.add_1_r, <- drop_drop, Er; done). reflexivity.
Qed.

Lemma itoa_ok v base out rest :
  2 ≤ base ≤ 16 → 0 ≤ v < 2 ^ 32 → (length (numeral base v) ≤ length rest)%nat →
  itoa v base (out ++ rest) (length out) =
    Ok ((out ++ numeral base v) ++ drop (length (numeral base v)) rest, length (out ++ numeral base v)).
Proof. intros Hb Hv Hl. apply itoa_loop_ok; [done|done|lia|done]. Qed.

(** ** The loop, on a destination that is cleared behind [out] *)

Abbreviation cleared out k := (out ++ replicate k 0).

Lemma behind (out u w : list Z) k :
  (out ++ u) ++ w ++ replicate (k - length u - length w) 0 = out ++ (u ++ w) ++ replicate (k - length (u ++ w)) 0.
Proof. rewrite length_app, Nat.sub_add_distr, <- !app_assoc. done. Qed.
Lemma length_snoc (out : list Z) c : S (length out) = length (out ++ [c]).
Proof. rewrite length_app, Nat.add_1_r. done. Qed.

Lemma aset_cleared out k c : (0 < k)%nat → aset (cleared out k) (length out) c = Ok (cleared (out ++ [c]) (k - 1)).
Proof. intros Hk. destruct k as [|k]; [lia|]. cbn [replicate]. by rewrite aset_next, Nat.sub_succ, Nat.sub_0_r. Qed.
Lemma itoa_cleared v base out k :
  2 ≤ base ≤ 16 → 0 ≤ v < 2 ^ 32 → (length (numeral base v) < k)%nat →
  itoa v base (cleared out k) (length out) =
    Ok (cleared (out ++ numeral base v) (k - length (numeral base v)), length (out ++ numeral base v)).
Proof. intros Hb Hv Hk. rewrite itoa_ok; [by rewrite drop_replicate|done|done|]. rewrite length_replicate. lia. Qed.
Lemma strcpy_cleared a out k :
  holds a (chars a) → (length (chars a) < k)%nat →
  astrcpy (drop (length out) (cleared out k)) a = Ok (cleared (chars a) (k - length (chars a))).
Proof.
  intros Ha Hk. rewrite drop_app_length, (astrcpy_ok _ _ (chars a) Ha) by (rewrite length_replicate; lia).
  rewrite drop_replicate. replace (k - length (chars a))%nat with (S (k - S (length (chars a)))) by lia. done.
Qed.

(** A signed number, with its sign. *)
Lemma signed_cleared v out k :
  - 2 ^ 31 ≤ v < 2 ^ 31 → (length (signed_numeral v) < k)%nat →
  ('(str, p, i) ← (if v <? 0 then str ← aset (cleared out k) (length out) 45; Ok (str, S (length out), s32 (0 - v))
                   else Ok (cleared out k, length out, v)); itoa (u32 i) 10 str p) =
    Ok (cleared (out ++ signed_numeral v) (k - length (signed_numeral v)), length (out ++ signed_numeral v)).
Proof.
  intros Hv Hk. unfold signed_numeral in *. destruct (Z.ltb_spec v 0).
  - cbn [length] in *. rewrite aset_cleared by lia. bsimpl. rewrite (length_snoc out 45).
    replace (u32 (s32 (0 - v))) with (- v) by (unfold u32, s32; dm). rewrite itoa_cleared by lia.
    rewrite <- !app_assoc. cbn [app]. rewrite <- Nat.sub_add_distr. done.
  - bsimpl. rewrite u32_small by lia. rewrite itoa_cleared by lia. done.
Qed.

(** The arguments match the format, and the destination has room for what
    they stand for. *)
Lemma vsprintf_loop_ok n f r ap w out k :
  (length f ≤ n)%nat → Forall char_ok f → Forall arg_ok ap → render f ap = Some w → (length w < k)%nat →
  vsprintf_loop (f ++ 0 :: r) (cleared out k) (length out) ap = Ok (out ++ cleared w (k - length w)).
Proof.
  revert f ap w out k. induction n as [|n IH]; intros f ap w out k Hle Hf Ha Hr Hk;
    (destruct f as [|c f]; [injection Hr as <-; cbn; by rewrite Nat.sub_0_r|]); cbn [length] in Hle; [lia|].
  apply Forall_cons in Hf as [Hc Hf]. unfold char_ok in Hc. cbn [app vsprintf_loop]. cbn [render] in Hr.
  rewrite (proj2 (Z.eqb_neq c 0)) by lia.
  destruct (Z.eqb_spec c 37) as [-> | Hp]; cbn [negb].
  2:{ destruct (render f ap) as [w'|] eqn:Hw; [|done]. injection Hr as <-. cbn [length] in Hk.
      rewrite aset_cleared by lia. bsimpl. rewrite (length_snoc out c), (IH f ap w') by (done || lia). exact (f_equal Ok (behind out [c] w' k)). }
  destruct f as [|d f]; [injection Hr as <-; cbn; by rewrite Nat.sub_0_r|]. cbn [app length] in *.
  pose proof Hf as Hf'. apply Forall_cons in Hf as [Hd Hf].
  assert (∀ u ap' w', Forall arg_ok ap' → render f ap' = Some w' → (length (u ++ w') < k)%nat →
    vsprintf_loop (f ++ 0 :: r) (cleared (out ++ u) (k - length u)) (length (out ++ u)) ap' = Ok (out ++ cleared (u ++ w') (k - length (u ++ w')))) as Hgo.
  { intros u ap' w' Ha' Hw' Hk'. rewrite length_app in Hk'. rewrite (IH f ap' w') by (done || lia). by rewrite behind. }
  destruct (d =? 115); [|destruct (d =? 99); [|destruct (d =? 100); [|destruct (d =? 120)]]].
  5:{ exact (IH (d :: f) ap w out k ltac:(cbn [length]; lia) Hf' Ha Hr Hk). }
  all: destruct ap as [|[v|a] ap]; try done; apply Forall_cons in Ha as [Ha1 Ha];
    destruct (render f ap) as [w'|] eqn:Hw; [|done]; injection Hr as <-.
  - specialize (Hgo (chars a) ap w' Ha Hw Hk). rewrite length_app in Hk. rewrite strcpy_cleared by (done || lia). bsimpl. rewrite (astrlen_ok a (chars a) Ha1). bsimpl.
    rewrite take_app_length, Nat2Z.id, app_assoc, <- length_app. exact Hgo.
  - specialize (Hgo [u8 v] ap w' Ha Hw Hk). rewrite aset_cleared by (cbn [length] in Hk; lia). bsimpl. rewrite (length_snoc out (u8 v)). exact Hgo.
  - specialize (Hgo (signed_numeral (s32 v)) ap w' Ha Hw Hk). rewrite length_app in Hk.
    pose proof (signed_cleared (s32 v) out k (s32_range v) ltac:(lia)) as Hs.
    destruct (if s32 v <? 0 then _ else _) as [[[str p] i]| | |]; [|done..].
    cbn [mbind outcome_bind] in Hs |- *. rewrite Hs. exact Hgo.
  - specialize (Hgo (numeral 16 (u32 v)) ap w' Ha Hw Hk). rewrite length_app in Hk.
    replace (u32 (s32 v)) with (u32 v) by (unfold u32, s32; dm). rewrite itoa_cleared by (apply u32_range || lia). bsimpl. exact Hgo.
Qed.

Lemma numeral_fuel_length fuel base v n :
  2 ≤ base → 0 ≤ v < base ^ Z.of_nat n → (0 < n)%nat → (length (numeral_fuel fuel base v) ≤ n)%nat.
Proof.
  intros Hb. revert v n. induction fuel as [|fuel IH]; intros v n Hv Hn; [cbn; lia|]. cbn [numeral_fuel].
  rewrite length_app. cbn [length]. destruct n as [|n]; [lia|]. rewrite Nat2Z.inj_succ, Z.pow_succ_r in Hv by lia.
  assert (0 ≤ v / base < base ^ Z.of_nat n) as Hq by (split; [apply Z.div_pos; lia|apply Z.div_lt_upper_bound; nia]).
  destruct (Z.eqb_spec (v / base) 0); [cbn [length]; lia|].
  assert (0 < n)%nat as Hn' by (destruct n; [change (base ^ Z.of_nat 0) with 1 in Hq; lia|lia]).
  specialize (IH (v / base) n Hq Hn'). lia.
Qed.
Lemma signed_numeral_length v : - 2 ^ 31 ≤ v < 2 ^ 31 → (length (signed_numeral v) ≤ 11)%nat.
Proof.
  intros Hv. unfold signed_numeral, numeral. change (2 ^ 31) with 2147483648 in Hv.
  destruct (Z.ltb_spec v 0); cbn [length].
  - pose proof (numeral_fuel_length 32 10 (- v) 10 ltac:(lia) ltac:(change (10 ^ Z.of_nat 10) with 10000000000; lia) ltac:(lia)). lia.
  - pose proof (numeral_fuel_length 32 10 v 10 ltac:(lia) ltac:(change (10 ^ Z.of_nat 10) with 10000000000; lia) ltac:(lia)). lia.
Qed.
Lemma numeral_char_ok base v : 2 ≤ base ≤ 16 → 0 ≤ v → Forall char_ok (numeral base v).
Proof. intros Hb Hv. eapply Forall_impl; [by apply numeral_fuel_chars|]. unfold char_ok. cbn. lia. Qed.
Lemma signed_numeral_char_ok v : Forall char_ok (signed_numeral v).
Proof.
  unfold signed_numeral. destruct (Z.ltb_spec v 0); [constructor; [unfold char_ok; lia|]|]; apply numeral_char_ok; lia.
Qed.

Lemma vsprintf_ok f r ap w k :
  Forall char_ok f → Forall arg_ok ap → render f ap = Some w → Forall char_ok w → (length w < k)%nat →
  vsprintf (replicate k 0) (f ++ 0 :: r) ap = Ok (Z.of_nat (length w), cleared w (k - length w)).
Proof.
  intros Hf Ha Hr Hw Hk. unfold vsprintf. 
  pose proof (vsprintf_loop_ok (length f) f r ap w [] k ltac:(lia) Hf Ha Hr Hk) as Hlp. cbn [app length] in Hlp. rewrite Hlp. bsimpl.
  rewrite (astrlen_ok _ w); [done|]. exists (replicate (k - S (length w)) 0). split; [|done].
  replace (k - length w)%nat with (S (k - S (length w))) by lia. done.
Qed.

(** ** Properties *)

(** C28: for a cleared destination with room, [vsprintf] stores what the format
    and its arguments stand for, terminated, and returns its length: plain
    characters as they are, [%s] as the string, [%c] as the character, [%d] as
    the signed decimal numeral, [%x] as the hexadecimal one. *)
Theorem vsprintf_renders f r ap w k :
  Forall char_ok f → Forall arg_ok ap → render f ap = Some w → Forall char_ok w → (length w < k)%nat →
  vsprintf (replicate k 0) (f ++ 0 :: r) ap = Ok (Z.of_nat (length w), cleared w (k - length w)).
Proof. apply vsprintf_ok. Qed.

(** A number printed with [%d] denotes that number when it is read as a
    decimal numeral, for every 32-bit signed value, the least one included,
    and 12 characters are room enough. *)
Theorem sprintf_decimal_roundtrip v :
  - 2 ^ 31 ≤ v < 2 ^ 31 →
  ∃ w, sprintf (replicate 12 0) [37; 100; 0] [AInt (u32 v)] = Ok (Z.of_nat (length w), cleared w (12 - length w)) ∧
    signed_value w = v.
Proof.
  intros Hv. exists (signed_numeral v). split; [|by apply signed_value_ok].
  pose proof (signed_numeral_length v Hv) as Hl. unfold sprintf.
  apply (vsprintf_ok [37; 100] []); [repeat constructor; unfold char_ok; lia| | |apply signed_numeral_char_ok|lia].
  - constructor; [apply u32_range|constructor].
  - cbn [render]. change (37 =? 37) with true. change (100 =? 115) with false. change (100 =? 99) with false.
    change (100 =? 100) with true. cbn. rewrite app_nil_r. do 2 f_equal. change (2 ^ 31) with 2147483648 in Hv. unfold u32, s32. dm.
Qed.

(** ** Witnesses *)

(** "n=%d:%x %s" with -17, 255 and "ok". *)
Lemma vsprintf_renders_witness :
  vsprintf (replicate 20 0) ([110; 61; 37; 100; 58; 37; 120; 32; 37; 115] ++ [0]) [AInt (2 ^ 32 - 17); AInt 255; AStr [111; 107; 0; 9]] =
    Ok (11, [110; 61; 45; 49; 55; 58; 70; 70; 32; 111; 107] ++ replicate 9 0).
Proof.
  apply (vsprintf_renders _ [] _ [110; 61; 45; 49; 55; 58; 70; 70; 32; 111; 107] 20).
  - repeat constructor; discriminate.
  - repeat constructor; try discriminate. cbn. exists [9]. split; [reflexivity|]. repeat constructor; discriminate.
  - reflexivity.
  - repeat constructor; discriminate.
  - cbn. lia.
Defined.

Lemma sprintf_decimal_roundtrip_witness :
  ∃ w, sprintf (replicate 12 0) [37; 100; 0] [AInt (u32 (- 2 ^ 31))] = Ok (Z.of_nat (length w), cleared w (12 - length w)) ∧
    signed_value w = - 2 ^ 31.
Proof. apply (sprintf_decimal_roundtrip (- 2 ^ 31)). lia. Defined.
