(* ===== verification/Path.v ===== *)
(** * Path names (src/fs/fs.c: path_parse, path_depth_cnt; src/shell/buildin_cmd.c:
    wash_path, make_clear_abs_path)

    A path is a sequence of names between slashes.  [components] is the
    reference: the non-empty split_on SLASH of the string.  The code's loops consume
    at least one character of the path for every name, so the length of the
    path is enough fuel. *)

From S2P Require Import Prelude CString CArray.

Definition SLASH : Z := 47.
Definition DOT : Z := 46.
(** MAX_FILE_NAME_LEN and MAX_PATH_LEN. *)
Definition NAME_LEN : nat := 16.
Definition MAX_PATH_LEN : Z := 512.

(** [while ( *(++pathname) == '/');], entered behind the first slash. *)
Fixpoint skip_slashes (p : list Z) : outcome (list Z) :=
  match p with
  | [] => Fault
  | c :: p' => if c =? SLASH then skip_slashes p' else Ok p
  end.

(** [while ( *pathname != '/' && *pathname != 0) *name_store++ = *pathname++;] *)
Fixpoint copy_name (p name_store : list Z) (k : nat) : outcome (list Z * list Z) :=
  match p with
  | [] => Fault
  | c :: p' =>
      if (c =? SLASH) || (c =? 0) then Ok (p, name_store)
      else name_store ← aset name_store k c; copy_name p' name_store (S k)
  end.

(** The rest of the path, [None] for the NULL at its end, and the name. *)
Definition path_parse (pathname name_store : list Z) : outcome (option (list Z) * list Z) :=
  c ← deref (pathname !! 0%nat);
  pathname ← (if c =? SLASH then skip_slashes (drop 1 pathname) else Ok pathname);
  '(pathname, name_store) ← copy_name pathname name_store 0;
  c ← deref (pathname !! 0%nat);
  Ok (if c =? 0 then None else Some pathname, name_store).

(** [memset(name, 0, MAX_FILE_NAME_LEN)] and the parsing of the next name. *)
Definition next_name (p : option (list Z)) : outcome (option (list Z) * list Z) :=
  match p with
  | None => Ok (None, replicate NAME_LEN 0)
  | Some p => path_parse p (replicate NAME_LEN 0)
  end.

Fixpoint depth_loop (fuel : nat) (p : option (list Z)) (name : list Z) (depth : Z) : outcome Z :=
  match fuel with
  | O => NoFuel
  | S fuel =>
      c ← deref (name !! 0%nat);
      if c =? 0 then Ok depth
      else '(p, name) ← next_name p; depth_loop fuel p name (depth + 1)
  end.

(** [name] is what the stack held: the array is not initialised. *)
Definition path_depth_cnt (name pathname : list Z) : outcome Z :=
  '(p, name) ← path_parse pathname name;
  depth_loop (S (S (length pathname))) p name 0.

(** The body of the loop of [wash_path]: what a name does to the new path. *)
Definition wash_name (name new_abs_path : list Z) : outcome (list Z) :=
  r ← astrcmp [DOT; DOT; 0] name;
  if r =? 0 then
    slash_ptr ← astrrchr new_abs_path SLASH;
    match slash_ptr with
    | None => Fault
    | Some O => aset new_abs_path 1 0
    | Some k => aset new_abs_path k 0
    end
  else
    r ← astrcmp [DOT; 0] name;
    if negb (r =? 0) then
      r ← astrcmp new_abs_path [SLASH; 0];
      new_abs_path ← (if negb (r =? 0) then astrcat new_abs_path [SLASH; 0] else Ok new_abs_path);
      astrcat new_abs_path name
    else Ok new_abs_path.

Fixpoint wash_loop (fuel : nat) (sub_path : option (list Z)) (name new_abs_path : list Z) : outcome (list Z) :=
  match fuel with
  | O => NoFuel
  | S fuel =>
      c ← deref (name !! 0%nat);
      if c =? 0 then Ok new_abs_path
      else
        new_abs_path ← wash_name name new_abs_path;
        '(sub_path, name) ← next_name sub_path;
        wash_loop fuel sub_path name new_abs_path
  end.

Definition wash_path (old_abs_path new_abs_path : list Z) : outcome (list Z) :=
  c ← deref (old_abs_path !! 0%nat);
  ASSERT (c =? SLASH) ;;
  '(sub_path, name) ← path_parse old_abs_path (replicate NAME_LEN 0);
  c ← deref (name !! 0%nat);
  if c =? 0 then new_abs_path ← aset new_abs_path 0 SLASH; aset new_abs_path 1 0
  else
    new_abs_path ← aset new_abs_path 0 0;
    new_abs_path ← astrcat new_abs_path [SLASH; 0];
    wash_loop (S (S (length old_abs_path))) sub_path name new_abs_path.

(** [getcwd] is the system call's result: the array it filled, or [None]. *)
Definition make_clear_abs_path (getcwd : list Z → option (list Z)) (path final_path : list Z) : outcome (list Z) :=
  let abs_path := replicate (Z.to_nat MAX_PATH_LEN) 0 in
  c ← deref (path !! 0%nat);
  abs_path ←
    (if negb (c =? SLASH) then
       match getcwd abs_path with
       | Some abs_path =>
           a ← deref (abs_path !! 0%nat); b ← deref (abs_path !! 1%nat);
           if negb ((a =? SLASH) && (b =? 0)) then astrcat abs_path [SLASH; 0] else Ok abs_path
       | None => Ok abs_path
       end
     else Ok abs_path);
  abs_path ← astrcat abs_path path;
  wash_path abs_path final_path.

(** ** Reference: the names of a path *)

Definition components (s : list Z) : list (list Z) := split_on SLASH s [].

(** What a name does to the list of names so far. *)
Definition wash_step (st : list (list Z)) (w : list Z) : list (list Z) :=
  if bool_decide (w = [DOT; DOT]) then take (length st - 1) st
  else if bool_decide (w = [DOT]) then st else st ++ [w].
Definition normalise (ws : list (list Z)) : list (list Z) := foldl wash_step [] ws.
Definition join (st : list (list Z)) : list Z := concat ((λ w, SLASH :: w) <$> st).
Definition render (st : list (list Z)) : list Z := match st with [] => [SLASH] | _ => join st end.

(** A name: not empty, no slash, no NUL. *)
Definition name_ok (w : list Z) : Prop := w ≠ [] ∧ Forall (λ c, char_ok c ∧ c ≠ SLASH) w.

Example ex_wash :
  wash_path [47;97;47;46;46;47;47;98;47;46;47;99;0] (replicate 16 0) = Ok ([47;98;47;99;0] ++ replicate 11 0).
Proof. vm_compute. reflexivity. Qed.

Abbreviation starts_slash := (starts_with SLASH).

Lemma skip_slashes_ok n s r : ¬ starts_slash s → skip_slashes (replicate n SLASH ++ s ++ 0 :: r) = Ok (s ++ 0 :: r).
Proof.
  intros Hs. induction n as [|n IH]; cbn [replicate app skip_slashes]; [|by rewrite Z.eqb_refl].
  destruct s as [|c s]; [done|]. cbn [app skip_slashes]. rewrite (proj2 (Z.eqb_neq c _)); [done|].
  intros ->. apply Hs. by eexists.
Qed.

Lemma copy_name_ok w s r pre post :
  Forall char_ok w → Forall (λ c, c ≠ SLASH) w → s = [] ∨ starts_slash s → (length w ≤ length post)%nat →
  copy_name (w ++ s ++ 0 :: r) (pre ++ post) (length pre) = Ok (s ++ 0 :: r, pre ++ w ++ drop (length w) post).
Proof.
  intros Hw Hn Hs Hl. revert pre post Hl. induction Hw as [|c w Hc Hw IH]; intros pre post Hl.
  - cbn [app length]. rewrite drop_0. by destruct Hs as [-> | [t ->]].
  - apply Forall_cons in Hn as [Hcn Hn]. cbn [app copy_name]. unfold char_ok in Hc.
    rewrite (proj2 (Z.eqb_neq c _)), (proj2 (Z.eqb_neq c 0)) by (done || lia). bsimpl.
    destruct post as [|d post]; [simpl in Hl; lia|]. unfold aset. rewrite list_lookup_middle by done. bsimpl.
    rewrite insert_app_r_alt, Nat.sub_diag by lia. cbn [insert list_insert].
    specialize (IH Hn (pre ++ [c]) post). rewrite <- !app_assoc, length_app, Nat.add_1_r in IH. cbn [app] in IH.
    rewrite IH by (simpl in Hl; lia). done.
Qed.

(** What [path_parse] does at the beginning of a path. *)
Lemma path_parse_ok s r name :
  Forall char_ok s →
  match components s with
  | [] => path_parse (s ++ 0 :: r) name = Ok (None, name)
  | w :: ws =>
      (length w ≤ length name)%nat →
      ∃ p, path_parse (s ++ 0 :: r) name = Ok (p, w ++ drop (length w) name) ∧ name_ok w ∧
        match p with
        | None => ws = []
        | Some q => ∃ s', q = s' ++ 0 :: r ∧ Forall char_ok s' ∧ components s' = ws ∧ (length s' < length s)%nat
        end
  end.
Proof.
  intros Hs. destruct (tokens_split SLASH s) as (n & s1 & -> & Hns). destruct (word_split SLASH s1) as (w & s' & -> & Hw & Hs').
  unfold components. rewrite split_on_tokens, split_on_word by done. cbn [app].
  assert (path_parse ((replicate n SLASH ++ w ++ s') ++ 0 :: r) name =
    '(pathname, name_store) ← copy_name (w ++ s' ++ 0 :: r) name 0; c ← deref (pathname !! 0%nat);
    Ok (if c =? 0 then None else Some pathname, name_store)) as ->.
  { unfold path_parse. rewrite <- !app_assoc. destruct n as [|n].
    - cbn [replicate app]. destruct (w ++ s') as [|c l] eqn:E.
      + apply app_nil in E as [-> ->]. done.
      + rewrite app_assoc, E. cbn [app lookup list_lookup deref mbind outcome_bind].
        rewrite (proj2 (Z.eqb_neq c _)); [done|]. intros ->. apply Hns. by eexists.
    - cbn [replicate app lookup list_lookup deref mbind outcome_bind]. rewrite Z.eqb_refl. cbn [drop].
      pose proof (skip_slashes_ok n (w ++ s') r Hns) as Hk. rewrite <- app_assoc in Hk. rewrite drop_0, Hk. done. }
  apply Forall_app in Hs as [_ [Hcw Hcs]%Forall_app].
  destruct w as [|c w].
  - destruct Hs' as [-> | [t ->]]; [done|]. exfalso. apply Hns. by eexists.
  - assert (split_on SLASH s' (c :: w) = (c :: w) :: split_on SLASH s' []) as ->.
    { destruct Hs' as [-> | [t ->]]; [done|]. cbn [split_on flush app]. by rewrite Z.eqb_refl. }
    intros Hl. pose proof (copy_name_ok (c :: w) s' r [] name Hcw Hw Hs' Hl) as Hcp. cbn [app length] in Hcp |- *.
    rewrite Hcp. bsimpl. destruct Hs' as [-> | [t ->]]; cbn [app lookup list_lookup deref mbind outcome_bind].
    + eexists. split_and!; [done| |done]. split; [done|by apply Forall_and].
    + eexists. split_and!; [done| |].
      * split; [done|by apply Forall_and].
      * exists (SLASH :: t). split_and!; [done..|]. rewrite !length_app. simpl. rewrite length_app. simpl. lia.
Qed.

(** The parsing of the next name, into a cleared buffer. *)
Definition padded (w : list Z) : list Z := w ++ replicate (NAME_LEN - length w) 0.
Definition rest_ok (p : option (list Z)) (ws : list (list Z)) (n : nat) : Prop :=
  match p with
  | None => ws = []
  | Some q => ∃ s r, q = s ++ 0 :: r ∧ Forall char_ok s ∧ components s = ws ∧ (length s < n)%nat
  end.

Lemma next_name_ok p ws n :
  rest_ok p ws n → Forall (λ w, length w ≤ NAME_LEN)%nat ws →
  match ws with
  | [] => next_name p = Ok (None, replicate NAME_LEN 0)
  | w :: ws => ∃ p', next_name p = Ok (p', padded w) ∧ name_ok w ∧ rest_ok p' ws (n - 1)
  end.
Proof.
  intros Hp Hl. destruct p as [q|]; [|by simpl in Hp; subst].
  destruct Hp as (s & r & -> & Hs & Hc & Hn). pose proof (path_parse_ok s r (replicate NAME_LEN 0) Hs) as Hk.
  rewrite Hc in Hk. destruct ws as [|w ws]; [exact Hk|]. apply Forall_cons in Hl as [Hw _].
  rewrite length_replicate in Hk. destruct (Hk Hw) as (p' & Hp' & Hok & Hr). exists p'.
  rewrite drop_replicate in Hp'. split_and!; [done..|]. destruct p' as [q|]; [|done].
  destruct Hr as (s' & -> & ? & ? & ?). exists s', r. split_and!; [done..|lia].
Qed.

Lemma name_head w : name_ok w → ∃ c, padded w !! 0%nat = Some c ∧ c ≠ 0.
Proof.
  intros [Hne Hw]. destruct w as [|c w]; [done|]. exists c. split; [done|].
  apply Forall_cons in Hw as [[Hc _] _]. unfold char_ok in Hc. lia.
Qed.

Lemma depth_loop_S fuel p name depth :
  depth_loop (S fuel) p name depth =
    c ← deref (name !! 0%nat);
    if c =? 0 then Ok depth else '(p, name) ← next_name p; depth_loop fuel p name (depth + 1).
Proof. done. Qed.

Lemma depth_loop_ok fuel p ws n w d :
  rest_ok p ws n → Forall (λ w, length w ≤ NAME_LEN)%nat ws → (n < fuel)%nat → (∃ c, w !! 0%nat = Some c ∧ c ≠ 0) →
  depth_loop (S fuel) p w d = Ok (d + 1 + Z.of_nat (length ws)).
Proof.
  revert p ws n w d. induction fuel as [|fuel IH]; intros p ws n w d Hp Hl Hf (c & Hc & Hc0); [lia|].
  rewrite depth_loop_S, Hc. bsimpl. rewrite (proj2 (Z.eqb_neq c 0)) by done.
  pose proof (next_name_ok p ws n Hp Hl) as Hk. destruct ws as [|w' ws].
  - rewrite Hk. bsimpl. simpl. f_equal. lia.
  - destruct Hk as (p' & -> & Hok & Hr). bsimpl. apply Forall_cons in Hl as [_ Hl].
    destruct (decide (n = 0)%nat) as [->|].
    { destruct p as [q|]; [|done]. by destruct Hp as (? & ? & _ & _ & _ & ?); lia. }
    rewrite (IH p' ws (n - 1)%nat) by (done || lia || by apply name_head). f_equal. simpl. lia.
Qed.

(** [path_depth_cnt] counts the names of a path, whatever the stack held,
    when there is one; without a name it reads what the stack held. *)
Lemma path_depth_cnt_ok s r name :
  Forall char_ok s → length name = NAME_LEN → Forall (λ w, length w ≤ NAME_LEN)%nat (components s) →
  (components s = [] → name !! 0%nat = Some 0) →
  path_depth_cnt name (s ++ 0 :: r) = Ok (Z.of_nat (length (components s))).
Proof.
  intros Hs Hln Hl H0. unfold path_depth_cnt. pose proof (path_parse_ok s r name Hs) as Hk.
  destruct (components s) as [|w ws].
  - rewrite Hk. bsimpl. cbn [depth_loop]. rewrite H0 by done. done.
  - apply Forall_cons in Hl as [Hw Hl]. destruct Hk as (p & -> & Hok & Hr); [lia|]. bsimpl.
    rewrite (depth_loop_ok _ p ws (length s)); [f_equal; simpl; lia| |done| |].
    + destruct p as [q|]; [|done]. destruct Hr as (s' & -> & ? & ? & ?). exists s', r. done.
    + rewrite length_app. simpl. lia.
    + destruct Hok as [Hne Hc]. destruct w as [|c w]; [done|]. exists c. split; [done|].
      apply Forall_cons in Hc as [[Hc _] _]. unfold char_ok in Hc. lia.
Qed.

(** ** The effect of one name *)

Lemma join_app st w : join (st ++ [w]) = join st ++ SLASH :: w.
Proof. unfold join. rewrite fmap_app, concat_app. cbn. by rewrite app_nil_r. Qed.
Lemma join_chars st : Forall name_ok st → Forall char_ok (join st).
Proof.
  induction 1 as [|w st [_ Hw] _ IH]; [constructor|]. unfold join. cbn [fmap list_fmap concat].
  apply Forall_app. split; [constructor; [done|]|exact IH]. eapply Forall_impl; [exact Hw|]. by intros ? [].
Qed.
Lemma render_chars st : Forall name_ok st → Forall char_ok (render st).
Proof. intros Hst. destruct st; [by repeat constructor|by apply join_chars]. Qed.
Lemma render_eq st : render st = match st with [] => [SLASH] | _ => join st end.
Proof. done. Qed.

Lemma padded_holds w : name_ok w → (length w < NAME_LEN)%nat → holds (padded w) w.
Proof.
  intros [_ Hw] Hl. exists (replicate (NAME_LEN - length w - 1) 0). split.
  - unfold padded. destruct (NAME_LEN - length w)%nat as [|k] eqn:E; [lia|]. simpl. by rewrite Nat.sub_0_r.
  - eapply Forall_impl; [exact Hw|]. by intros ? [].
Qed.

Lemma not_slash c : char_ok c → c ≠ SLASH → s8 c ≠ SLASH.
Proof.
  unfold char_ok, SLASH. intros Hc Hn He. apply Hn, s8_inj; [lia..|]. by rewrite (s8_small 47) by lia.
Qed.

Lemma join_root st : Forall name_ok st → st ≠ [] → join st ≠ [SLASH].
Proof.
  intros Hst Hne He. destruct st as [|w st]; [done|]. apply Forall_cons in Hst as [[Hw _] _].
  unfold join in He. cbn [fmap list_fmap concat] in He. destruct w; done.
Qed.

(** ".." takes the last name away, if there is one. *)
Lemma wash_dotdot st r :
  Forall name_ok st → (1 ≤ length r)%nat →
  ∃ new', wash_name (padded [DOT; DOT]) (render st ++ 0 :: r) = Ok new' ∧
    holds new' (render (take (length st - 1) st)) ∧ length new' = length (render st ++ 0 :: r).
Proof.
  intros Hst Hr. unfold wash_name.
  assert (astrcmp [DOT; DOT; 0] (padded [DOT; DOT]) = Ok 0) as -> by done. bsimpl. rewrite Z.eqb_refl. unfold astrrchr.
  destruct st as [|x st _] using rev_ind.
  - assert (astrrchr_loop (render [] ++ 0 :: r) SLASH 0 None = Ok (Some 0%nat)) as -> by done. bsimpl. simpl.
    eexists. split; [done|]. split; [|done]. by exists r; repeat constructor.
  - apply Forall_app in Hst as [Hst [Hx _]%Forall_cons].
    assert (render (st ++ [x]) = join st ++ SLASH :: x) as -> by (rewrite <- join_app, render_eq; by destruct st).
    rewrite <- app_assoc. cbn [app]. rewrite (astrrchr_last (join st) SLASH x r SLASH 0 None).
    2:{ apply Forall_app. split; [by apply join_chars|]. constructor; [done|]. eapply Forall_impl; [apply Hx|]. by intros ? []. }
    2:{ by apply s8_small. }
    2:{ eapply Forall_impl; [apply Hx|]. intros c [? ?]. by apply not_slash. }
    bsimpl. rewrite length_app, Nat.add_sub, take_app_length. cbn [Nat.add]. destruct st as [|y st].
    + destruct Hx as [Hx _]. destruct x as [|c x]; [done|]. cbn. eexists. split; [done|]. split; [|done].
      exists (x ++ 0 :: r). by repeat constructor.
    + destruct (length (join (y :: st))) as [|k] eqn:E.
      { apply nil_length_inv in E. done. }
      rewrite <- E. unfold aset. rewrite list_lookup_middle by done. bsimpl.
      rewrite insert_app_r_alt, Nat.sub_diag by lia. eexists. split; [done|]. split.
      * exists (x ++ 0 :: r). split; [done|by apply join_chars].
      * rewrite !length_app. done.
Qed.

(** Any other name but "." is put behind. *)
Lemma wash_push st w r :
  Forall name_ok st → name_ok w → (length w < NAME_LEN)%nat → w ≠ [DOT; DOT] → w ≠ [DOT] → (S (length w) ≤ length r)%nat →
  ∃ new', wash_name (padded w) (render st ++ 0 :: r) = Ok new' ∧
    holds new' (render (st ++ [w])) ∧ length new' = length (render st ++ 0 :: r).
Proof.
  intros Hst Hw Hl H2 H1 Hr. unfold wash_name. pose proof (padded_holds w Hw Hl) as Hh.
  destruct (astrcmp_ok [DOT; DOT; 0] (padded w) [DOT; DOT] w) as (c & -> & Hc); [|done|].
  { exists []. by repeat constructor. }
  bsimpl. rewrite (proj2 (Z.eqb_neq c 0)) by naive_solver.
  destruct (astrcmp_ok [DOT; 0] (padded w) [DOT] w) as (d & -> & Hd); [|done|].
  { exists []. by repeat constructor. }
  bsimpl. rewrite (proj2 (Z.eqb_neq d 0)) by naive_solver. bsimpl.
  destruct (astrcmp_ok (render st ++ 0 :: r) [SLASH; 0] (render st) [SLASH]) as (e & -> & He).
  { exists r. split; [done|by apply render_chars]. }
  { exists []. by repeat constructor. }
  bsimpl. assert (Forall char_ok w) as Hwc by (eapply Forall_impl; [apply Hw|]; by intros ? []).
  destruct st as [|x st].
  - rewrite (proj2 (Z.eqb_eq e 0)) by by apply He. bsimpl. rewrite (astrcat_ok [SLASH] r _ w); [|by repeat constructor|done|lia].
    eexists. split; [done|]. split; [|rewrite !length_app; simpl; rewrite length_drop; lia].
    unfold render, join. cbn. rewrite app_nil_r. exists (drop (length w) r). split; [done|]. by constructor.
  - rewrite (proj2 (Z.eqb_neq e 0)) by (rewrite He; by apply join_root). bsimpl. cbn [render].
    rewrite (astrcat_ok (join (x :: st)) r [SLASH; 0] [SLASH]); [|by apply join_chars|by exists []; repeat constructor|simpl; lia].
    bsimpl. cbn [length]. rewrite (app_assoc (join (x :: st)) [SLASH]).
    rewrite (astrcat_ok (join (x :: st) ++ [SLASH]) (drop 1 r) _ w); [| |done|rewrite length_drop; lia].
    2:{ apply Forall_app. split; [by apply join_chars|by repeat constructor]. }
    eexists. split; [done|]. split.
    + exists (drop (length w) (drop 1 r)). change (render ((x :: st) ++ [w])) with (join ((x :: st) ++ [w])).
      rewrite join_app, <- !app_assoc. split; [done|].
      apply Forall_app. split; [by apply join_chars|]. by constructor.
    + rewrite !length_app. simpl. rewrite !length_drop. lia.
Qed.

Lemma wash_name_ok st w r :
  Forall name_ok st → name_ok w → (length w < NAME_LEN)%nat → (S (length w) ≤ length r)%nat →
  ∃ new', wash_name (padded w) (render st ++ 0 :: r) = Ok new' ∧
    holds new' (render (wash_step st w)) ∧ length new' = length (render st ++ 0 :: r).
Proof.
  intros Hst Hw Hl Hr. unfold wash_step. case_bool_decide as H2; [subst; apply wash_dotdot; [done|lia]|].
  case_bool_decide as H1; [|by apply wash_push]. subst.
  exists (render st ++ 0 :: r). split_and!; [done| |done]. exists r. split; [done|by apply render_chars].
Qed.

(** ** The loop *)

Definition cost (ws : list (list Z)) : nat := sum_list_with (λ w, S (length w)) ws.
Lemma cost_app ws1 ws2 : cost (ws1 ++ ws2) = (cost ws1 + cost ws2)%nat.
Proof. unfold cost. induction ws1; simpl; lia. Qed.
Lemma cost_pieces s w : (cost (split_on SLASH s w) ≤ length s + length w + 1)%nat.
Proof.
  revert w. induction s as [|c s IH]; intros w; cbn [split_on].
  - destruct w; simpl; lia.
  - case_match.
    + rewrite cost_app. specialize (IH []). destruct w; simpl in *; lia.
    + specialize (IH (w ++ [c])). rewrite length_app in IH. simpl in *. lia.
Qed.
Lemma cost_components s : (cost (components (SLASH :: s)) ≤ S (length s))%nat.
Proof. unfold components. cbn [split_on flush app]. rewrite Z.eqb_refl. pose proof (cost_pieces s []). simpl in *. lia. Qed.

Lemma wash_step_ok st w : Forall name_ok st → name_ok w → Forall name_ok (wash_step st w).
Proof.
  intros Hst Hw. unfold wash_step. repeat case_bool_decide; [by apply Forall_take|done|].
  apply Forall_app. split; [done|by constructor].
Qed.
Lemma join_length st : length (join st) = cost st.
Proof. induction st as [|w st IH]; [done|]. unfold join in *. cbn. rewrite length_app, IH. done. Qed.
Lemma render_step_length st w : (length (render (wash_step st w)) ≤ length (render st) + S (length w))%nat.
Proof.
  assert (∀ st, length (render st) = Nat.max 1 (cost st)) as Hr.
  { intros [|x st']; [done|]. cbn [render]. rewrite join_length. cbn. lia. }
  rewrite !Hr. unfold wash_step. repeat case_bool_decide.
  - pose proof (cost_app (take (length st - 1) st) (drop (length st - 1) st)) as Hc.
    rewrite take_drop in Hc. lia.
  - lia.
  - rewrite cost_app. simpl. lia.
Qed.

Lemma wash_loop_S fuel sub_path name new :
  wash_loop (S fuel) sub_path name new =
    c ← deref (name !! 0%nat);
    if c =? 0 then Ok new
    else new ← wash_name name new; '(sub_path, name) ← next_name sub_path; wash_loop fuel sub_path name new.
Proof. done. Qed.

Lemma wash_loop_ok fuel p ws n st w r :
  rest_ok p ws n → (n < fuel)%nat → Forall (λ w, length w < NAME_LEN)%nat (w :: ws) → Forall name_ok st → name_ok w →
  (cost (w :: ws) ≤ length r)%nat →
  ∃ new', wash_loop (S fuel) p (padded w) (render st ++ 0 :: r) = Ok new' ∧
    holds new' (render (foldl wash_step st (w :: ws))) ∧ length new' = length (render st ++ 0 :: r).
Proof.
  revert p ws n st w r. induction fuel as [|fuel IH]; intros p ws n st w r Hp Hf [Hl Hls]%Forall_cons Hst Hw Hc; [lia|].
  rewrite wash_loop_S. destruct (name_head w Hw) as (c & -> & Hc0). bsimpl. rewrite (proj2 (Z.eqb_neq c 0)) by done.
  cbn in Hc. destruct (wash_name_ok st w r Hst Hw Hl) as (new' & -> & (r' & -> & Hh) & Hlen); [lia|]. bsimpl.
  pose proof (next_name_ok p ws n Hp) as Hk. destruct ws as [|w' ws].
  - rewrite Hk by constructor. bsimpl. exists (render (wash_step st w) ++ 0 :: r'). split_and!; [done| |done].
    by exists r'.
  - destruct Hk as (p' & -> & Hok & Hr).
    { eapply Forall_impl; [exact Hls|]. simpl. lia. }
    bsimpl. destruct (decide (n = 0)%nat) as [->|].
    { destruct p as [q|]; [|done]. by destruct Hp as (? & ? & _ & _ & _ & ?); lia. }
    rewrite <- Hlen. apply (IH p' ws (n - 1)%nat); [done|lia|done|by apply wash_step_ok|done|].
    pose proof (render_step_length st w). rewrite !length_app in Hlen. unfold cost in *. simpl in *. lia.
Qed.

(** [wash_path] on an absolute path whose names fit the name buffer. *)
Lemma wash_path_ok s r new :
  Forall char_ok (SLASH :: s) → Forall (λ w, length w < NAME_LEN)%nat (components (SLASH :: s)) →
  (S (S (length s)) < length new)%nat →
  ∃ new', wash_path (SLASH :: s ++ 0 :: r) new = Ok new' ∧
    holds new' (render (normalise (components (SLASH :: s)))) ∧ length new' = length new.
Proof.
  intros Hs Hl Hn. unfold wash_path. cbn [lookup list_lookup deref]. bsimpl. rewrite Z.eqb_refl. bsimpl.
  pose proof (path_parse_ok (SLASH :: s) r (replicate NAME_LEN 0) Hs) as Hk. cbn [app] in Hk.
  pose proof (cost_components s) as Hcost. destruct new as [|x [|y new]]; [simpl in Hn; lia..|].
  destruct (components (SLASH :: s)) as [|w ws].
  - rewrite Hk. bsimpl. cbn. eexists. split; [done|]. split; [|done]. exists new. by repeat constructor.
  - rewrite length_replicate in Hk. destruct Hk as (p & -> & Hok & Hr).
    { apply Forall_cons in Hl as [? _]. lia. }
    bsimpl. rewrite drop_replicate. destruct (name_head w Hok) as (c & Hc & Hc0). unfold padded in Hc. rewrite Hc. bsimpl.
    rewrite (proj2 (Z.eqb_neq c 0)) by done.
    assert (aset (x :: y :: new) 0 0 = Ok (0 :: y :: new)) as -> by done. bsimpl.
    assert (astrcat (0 :: y :: new) [SLASH; 0] = Ok (render [] ++ 0 :: new)) as -> by done. bsimpl.
    apply (wash_loop_ok _ p ws (length (SLASH :: s)) [] w new); [|simpl; rewrite length_app; simpl; lia|done|constructor|done|].
    + destruct p as [q|]; [|done]. destruct Hr as (s' & -> & ? & ? & ?). by exists s', r.
    + simpl in *. lia.
Qed.

(** The names of a rendered list of names are the names. *)
Lemma components_join st : Forall name_ok st → components (join st) = st.
Proof.
  induction 1 as [|w st [Hne Hw] Hst IH]; [done|]. unfold components, join in *. cbn [fmap list_fmap concat app split_on flush].
  rewrite Z.eqb_refl. cbn [app].
  assert (Forall (λ c, c ≠ SLASH) w) as Hw' by (eapply Forall_impl; [exact Hw|]; by intros ? []).
  rewrite split_on_word by done. cbn [app]. destruct st as [|x st].
  - cbn. by destruct w.
  - cbn [fmap list_fmap concat app split_on] in IH |- *. rewrite Z.eqb_refl in IH |- *. cbn [flush app] in IH.
    rewrite IH. by destruct w.
Qed.
Lemma components_render st : Forall name_ok st → components (render st) = st.
Proof. intros Hst. destruct st; [done|by apply components_join]. Qed.

Lemma components_names s w : Forall char_ok s → w ∈ components s → name_ok w.
Proof.
  intros Hs. assert (∀ acc, Forall (λ c, char_ok c ∧ c ≠ SLASH) acc → w ∈ split_on SLASH s acc → name_ok w) as Hk; [|by apply Hk].
  assert (∀ acc, Forall (λ c, char_ok c ∧ c ≠ SLASH) acc → w ∈ flush acc → name_ok w) as Hf.
  { intros [|c acc] Ha; cbn; [by intros ?%not_elem_of_nil|]. intros ->%list_elem_of_singleton. by split. }
  induction Hs as [|c s Hc Hs IH]; intros acc Ha; cbn [split_on]; [by apply Hf|].
  destruct (Z.eqb_spec c SLASH) as [->|Hn].
  - rewrite elem_of_app. intros [?|?]; [by eapply Hf|by apply (IH [])].
  - apply IH. apply Forall_app. split; [done|by apply Forall_singleton].
Qed.

(** After washing, no name is "." or "..". *)
Definition clean (st : list (list Z)) : Prop := Forall (λ w, w ≠ [DOT] ∧ w ≠ [DOT; DOT]) st.
Lemma normalise_clean ws : clean (normalise ws).
Proof.
  unfold normalise, clean. assert (∀ st, clean st → clean (foldl wash_step st ws)) as H; [|by apply H; constructor].
  induction ws as [|w ws IH]; intros st Hst; [done|]. cbn. apply IH. unfold wash_step.
  repeat case_bool_decide; [by apply Forall_take|done|]. apply Forall_app. split; [done|by constructor].
Qed.
Lemma normalise_names ws : Forall name_ok ws → Forall name_ok (normalise ws).
Proof.
  unfold normalise. assert (∀ st, Forall name_ok st → Forall name_ok ws → Forall name_ok (foldl wash_step st ws)) as H;
    [|intros; apply H; [constructor|done]].
  induction ws as [|w ws IH]; intros st Hst; [done|]. intros [? ?]%Forall_cons. cbn. apply IH; [by apply wash_step_ok|done].
Qed.

(** ** Properties *)

(** C19: [wash_path] turns an absolute path whose names fit the name buffer
    (less than 16 characters) into its normal form, for a destination that has
    room for the path: the names of the result are those of the path with
    every "." dropped and every ".." taking the name before it away (at the
    root it does nothing); the result is absolute, has no "." or ".." left,
    and no double or trailing slash. *)
Theorem wash_path_normalises s r new :
  Forall char_ok (SLASH :: s) → Forall (λ w, length w < NAME_LEN)%nat (components (SLASH :: s)) →
  (S (S (length s)) < length new)%nat →
  let st := normalise (components (SLASH :: s)) in
  ∃ new', wash_path (SLASH :: s ++ 0 :: r) new = Ok new' ∧ holds new' (render st) ∧
    components (render st) = st ∧ clean st.
Proof.
  intros Hs Hl Hn st. destruct (wash_path_ok s r new Hs Hl Hn) as (new' & ? & ? & _). exists new'. split_and!; [done..| |].
  - apply components_render, normalise_names, Forall_forall. intros w Hw. by eapply components_names.
  - apply normalise_clean.
Qed.

(** C20: [path_depth_cnt] returns, and returns the number of names of the path,
    for names of at most 16 characters; the uninitialised name buffer does not
    matter when the path has a name. *)
Theorem path_depth_cnt_counts s r name :
  Forall char_ok s → length name = NAME_LEN → Forall (λ w, length w ≤ NAME_LEN)%nat (components s) →
  components s ≠ [] → path_depth_cnt name (s ++ 0 :: r) = Ok (Z.of_nat (length (components s))).
Proof. intros Hs Hn Hl Hc. by apply path_depth_cnt_ok. Qed.

(** ** Witnesses *)

(** "/a/../b" and a destination of 16 bytes. *)
Lemma wash_path_normalises_witness :
  ∃ new', wash_path (SLASH :: [97; 47; 46; 46; 47; 98] ++ [0]) (replicate 16 7) = Ok new' ∧ holds new' [47; 98].
Proof.
  destruct (wash_path_normalises [97; 47; 46; 46; 47; 98] [] (replicate 16 7)) as (new' & ? & ? & _).
  - repeat constructor; done.
  - vm_compute. repeat constructor.
  - vm_compute. repeat constructor.
  - by exists new'.
Defined.

(** "/a/bc" with an uninitialised buffer of 9s. *)
Lemma path_depth_cnt_counts_witness : path_depth_cnt (replicate 16 9) [47; 97; 47; 98; 99; 0] = Ok 2.
Proof.
  apply (path_depth_cnt_counts [47; 97; 47; 98; 99] [] (replicate 16 9)).
  - repeat constructor; done.
  - done.
  - vm_compute. repeat constructor.
  - done.
Defined.
