(* ===== verification/Bitmap.v ===== *)
(** * Bitmaps (src/lib/bitmap.c, src/include/lib/bitmap.h)

    A bitmap is a length in bytes and a pointer to its first byte; the bytes
    themselves are in the byte memory, so a scan that runs past the end reads
    whatever lies behind the bitmap.  Bit 1 means taken.  The pools of
    physical pages and virtual addresses, the process ids, the inodes and the
    blocks of a partition are all managed with this module. *)

From S2P Require Import Prelude CString.

Record bitmap := Bitmap { btmp_bytes_len : Z; bits : Z }.

#[export] Instance bitmap_eq_dec : EqDecision bitmap.
Proof. solve_decision. Defined.

Definition BITMAP_MASK : Z := 1.

(** [btmp->bits[idx]] *)
Definition bits_at (m : bmem) (b : bitmap) (idx : Z) : outcome Z := load8 m (bits b + idx).

Definition bitmap_init (m : bmem) (b : bitmap) : outcome bmem :=
  memset m (bits b) 0 (btmp_bytes_len b).

(** The C function returns the masked byte as its truth value. *)
Definition bitmap_scan_test (m : bmem) (b : bitmap) (bit_idx : Z) : outcome Z :=
  let byte_idx := bit_idx / 8 in
  let bit_odd := bit_idx mod 8 in
  v ← bits_at m b byte_idx;
  Ok (Z.land v (Z.shiftl BITMAP_MASK bit_odd)).

(** [while ((0xff == bits[idx_byte]) && (idx_byte < len)) idx_byte++;] *)
Fixpoint scan_bytes (n : nat) (m : bmem) (b : bitmap) (idx_byte : Z) : outcome Z :=
  v ← bits_at m b idx_byte;
  if (v =? 255) && (idx_byte <? btmp_bytes_len b) then
    match n with
    | O => NoFuel
    | S n => scan_bytes n m b (idx_byte + 1)
    end
  else Ok idx_byte.

(** [while ((uint8_t)(BITMAP_MASK << idx_bit) & bits[idx_byte]) idx_bit++;] *)
Fixpoint scan_bits (n : nat) (v : Z) (idx_bit : Z) : outcome Z :=
  if Z.land (u8 (Z.shiftl BITMAP_MASK idx_bit)) v =? 0 then Ok idx_bit
  else match n with
       | O => NoFuel
       | S n => scan_bits n v (idx_bit + 1)
       end.

(** The loop that counts free bits; [bit_left] rounds are left. *)
Fixpoint scan_run (bit_left : nat) (m : bmem) (b : bitmap) (cnt next_bit count : Z) : outcome Z :=
  match bit_left with
  | O => Ok (-1)
  | S bit_left =>
      t ← bitmap_scan_test m b next_bit;
      let count := if t =? 0 then u32 (count + 1) else 0 in
      if count =? cnt then Ok (s32 (next_bit - cnt + 1))
      else scan_run bit_left m b cnt (u32 (next_bit + 1)) count
  end.

Definition bitmap_scan (m : bmem) (b : bitmap) (cnt : Z) : outcome Z :=
  idx_byte ← scan_bytes (Z.to_nat (btmp_bytes_len b)) m b 0;
  ASSERT (idx_byte <? btmp_bytes_len b) ;;
  if idx_byte =? btmp_bytes_len b then Ok (-1) else
  v ← bits_at m b idx_byte;
  idx_bit ← scan_bits 8 v 0;
  let bit_idx_start := s32 (idx_byte * 8 + idx_bit) in
  if cnt =? 1 then Ok bit_idx_start else
  let bit_left := u32 (btmp_bytes_len b * 8 - bit_idx_start) in
  let next_bit := u32 (bit_idx_start + 1) in
  scan_run (Z.to_nat bit_left) m b cnt next_bit 1.

Definition bitmap_set (m : bmem) (b : bitmap) (bit_idx value : Z) : outcome bmem :=
  ASSERT ((value =? 0) || (value =? 1)) ;;
  let byte_idx := bit_idx / 8 in
  let bit_odd := bit_idx mod 8 in
  v ← bits_at m b byte_idx;
  if negb (value =? 0) then store8 m (bits b + byte_idx) (Z.lor v (Z.shiftl BITMAP_MASK bit_odd))
  else store8 m (bits b + byte_idx) (Z.land v (Z.lnot (Z.shiftl BITMAP_MASK bit_odd))).

(** ** Specification *)

(** Bit [i], counted from the first byte of the bitmap. *)
Definition bit (m : bmem) (b : bitmap) (i : Z) : bool :=
  match m !! (bits b + i / 8) with
  | Some v => Z.testbit v (i mod 8)
  | None => false
  end.

(** Well-formed: the bytes of the bitmap are accessible and hold bytes, and
    bit indices fit an [int]. *)
Record bitmap_wf (m : bmem) (b : bitmap) : Prop := {
  wf_len : 0 < btmp_bytes_len b;
  wf_max : btmp_bytes_len b * 8 < 2 ^ 31 - 8;
  wf_byte : ∀ i, 0 ≤ i < btmp_bytes_len b → ∃ v, m !! (bits b + i) = Some v ∧ 0 ≤ v < 256;
}.

(** The byte behind the bitmap is accessible, too. *)
Definition slack (m : bmem) (b : bitmap) : Prop :=
  ∃ v, m !! (bits b + btmp_bytes_len b) = Some v ∧ 0 ≤ v < 256.

(** [cnt] free bits from [i] on. *)
Definition run_free (m : bmem) (b : bitmap) (i cnt : Z) : Prop :=
  ∀ k, i ≤ k < i + cnt → bit m b k = false.

Definition full (m : bmem) (b : bitmap) : Prop :=
  ∀ i, 0 ≤ i < 8 * btmp_bytes_len b → bit m b i = true.

Lemma bitmap_scan_test_spec m b i :
  is_Some (m !! (bits b + i / 8)) →
  ∃ t, bitmap_scan_test m b i = Ok t ∧ (t =? 0) = negb (bit m b i).
Proof.
  intros [v Hv]. unfold bitmap_scan_test, bits_at. rewrite (load8_Some _ _ _ Hv). simpl.
  eexists; split; [done|]. unfold bit. rewrite Hv. unfold BITMAP_MASK.
  apply land_shiftl_1_eqb. apply Z.mod_pos_bound. lia.
Qed.

Lemma wf_bit_byte m b i :
  bitmap_wf m b → 0 ≤ i < 8 * btmp_bytes_len b →
  ∃ v, m !! (bits b + i / 8) = Some v ∧ 0 ≤ v < 256.
Proof. intros Hwf Hi. apply (wf_byte _ _ Hwf). dm. Qed.

Lemma byte_full m b i v :
  m !! (bits b + i) = Some v → 0 ≤ v < 256 →
  v = 255 ↔ ∀ k, 8 * i ≤ k < 8 * i + 8 → bit m b k = true.
Proof.
  intros Hv Hr. split.
  - intros -> k Hk. unfold bit. replace (k / 8) with i by dm. rewrite Hv. apply testbit_255. dm.
  - intros H. apply byte_all_ones; [done|]. intros j Hj.
    specialize (H (8 * i + j)). unfold bit in H. replace ((8 * i + j) / 8) with i in H by dm.
    rewrite Hv in H. replace ((8 * i + j) mod 8) with j in H by dm. apply H. lia.
Qed.

(** The byte loop stops at the first byte that is not 0xff. *)
Lemma scan_bytes_spec m b n i :
  bitmap_wf m b → 0 ≤ i ≤ btmp_bytes_len b → btmp_bytes_len b - i ≤ Z.of_nat n →
  (∀ k, 0 ≤ k < 8 * i → bit m b k = true) → ¬ full m b →
  ∃ j v, scan_bytes n m b i = Ok j ∧ 0 ≤ j < btmp_bytes_len b ∧
         m !! (bits b + j) = Some v ∧ 0 ≤ v < 256 ∧ v ≠ 255 ∧
         ∀ k, 0 ≤ k < 8 * j → bit m b k = true.
Proof.
  intros Hwf. revert i. induction n as [|n IH]; intros i Hi Hn Hpre Hnf.
  - exfalso. apply Hnf. intros k Hk. apply Hpre. lia.
  - assert (i < btmp_bytes_len b).
    { destruct (decide (i < btmp_bytes_len b)); [done|]. exfalso. apply Hnf. intros k Hk. apply Hpre. lia. }
    destruct (wf_byte _ _ Hwf i) as (v & Hv & Hr); [lia|].
    simpl. unfold bits_at. rewrite (load8_Some _ _ _ Hv). simpl.
    destruct (Z.eqb_spec v 255) as [->|Hne]; simpl.
    + rewrite (proj2 (Z.ltb_lt _ _)) by lia. apply IH; [lia..| |done].
      intros k Hk. destruct (decide (k < 8 * i)); [by apply Hpre; lia|].
      eapply (byte_full m b i); [done..|lia].
    + exists i, v. split_and!; (done || lia).
Qed.

Lemma scan_bits_spec v n i :
  0 ≤ v < 256 → 0 ≤ i → 8 - i ≤ Z.of_nat n → i ≤ 8 → v ≠ 255 →
  (∀ k, 0 ≤ k < i → Z.testbit v k = true) →
  ∃ j, scan_bits n v i = Ok j ∧ 0 ≤ j < 8 ∧ Z.testbit v j = false ∧
       ∀ k, 0 ≤ k < j → Z.testbit v k = true.
Proof.
  intros Hv. revert i. induction n as [|n IH]; intros i H0 Hn H8 Hne Hpre.
  - exfalso. apply Hne, byte_all_ones; [done|]. intros k Hk. apply Hpre. lia.
  - assert (i < 8).
    { destruct (decide (i < 8)); [done|]. exfalso. apply Hne, byte_all_ones; [done|].
      intros k Hk. apply Hpre. lia. }
    simpl. rewrite u8_small; [|unfold BITMAP_MASK; rewrite Z.shiftl_1_l; split; [lia|apply Z.pow_lt_mono_r; lia]].
    unfold BITMAP_MASK. rewrite Z.land_comm, land_shiftl_1_eqb by lia.
    destruct (Z.testbit v i) eqn:E; simpl.
    + apply IH; [lia..|done|]. intros k Hk. destruct (decide (k = i)) as [->|]; [done|apply Hpre; lia].
    + exists i. done.
Qed.

(** Both loops together find the first free bit. *)
Lemma scan_first_free m b :
  bitmap_wf m b → ¬ full m b →
  ∃ j v i, scan_bytes (Z.to_nat (btmp_bytes_len b)) m b 0 = Ok j ∧ 0 ≤ j < btmp_bytes_len b ∧
    bits_at m b j = Ok v ∧ scan_bits 8 v 0 = Ok i ∧ 0 ≤ i < 8 ∧
    bit m b (j * 8 + i) = false ∧ ∀ k, 0 ≤ k < j * 8 + i → bit m b k = true.
Proof.
  intros Hwf Hnf. pose proof (wf_len _ _ Hwf).
  destruct (scan_bytes_spec m b (Z.to_nat (btmp_bytes_len b)) 0 Hwf)
    as (j & v & Hj & Hr & Hv & Hvr & Hne & Hpre); [lia|lia|lia|done|].
  destruct (scan_bits_spec v 8 0) as (i & Hi & Hir & Hf & Hpre'); [done|lia..|done|lia|].
  exists j, v, i. split_and!; [done|lia..|by apply load8_Some|done|lia|lia| |].
  - unfold bit. replace ((j * 8 + i) / 8) with j by dm. rewrite Hv.
    replace ((j * 8 + i) mod 8) with i by dm. done.
  - intros k Hk. destruct (decide (k < 8 * j)); [apply Hpre; lia|].
    unfold bit. replace (k / 8) with j by dm. rewrite Hv. apply Hpre'. dm.
Qed.

(** The answer of a search for [cnt] free bits among the bits below [lim]:
    the first run of [cnt] free bits, or -1 when there is none. *)
Definition first_run (m : bmem) (b : bitmap) (cnt lim r : Z) : Prop :=
  (r = -1 ∧ ∀ i, 0 ≤ i → i + cnt ≤ lim → ¬ run_free m b i cnt) ∨
  (0 ≤ r ∧ r + cnt ≤ lim ∧ run_free m b r cnt ∧ ∀ i, 0 ≤ i < r → ¬ run_free m b i cnt).

Lemma run_free_blocked m b i cnt k :
  bit m b k = true → i ≤ k < i + cnt → ¬ run_free m b i cnt.
Proof. intros Hk Hi Hr. specialize (Hr k Hi). congruence. Qed.

Lemma slack_bit_byte m b i :
  bitmap_wf m b → slack m b → 0 ≤ i ≤ 8 * btmp_bytes_len b → is_Some (m !! (bits b + i / 8)).
Proof.
  intros Hwf (v & Hv & _) Hi. destruct (decide (i = 8 * btmp_bytes_len b)) as [->|].
  - exists v. rewrite <- Hv. f_equal. dm.
  - destruct (wf_bit_byte m b i Hwf) as (w & ? & _); [lia|by exists w].
Qed.

Lemma scan_run_spec m b cnt n next count :
  bitmap_wf m b → slack m b → 2 ≤ cnt →
  next + Z.of_nat n = 8 * btmp_bytes_len b + 1 →
  0 ≤ count < cnt → count ≤ next →
  run_free m b (next - count) count →
  (next - count = 0 ∨ bit m b (next - count - 1) = true) →
  (∀ i, 0 ≤ i → i + cnt ≤ next → ¬ run_free m b i cnt) →
  ∃ r, scan_run n m b cnt next count = Ok r ∧ first_run m b cnt (8 * btmp_bytes_len b + 1) r.
Proof.
  intros Hwf Hsl Hc. pose proof (wf_max _ _ Hwf) as Hmax. revert next count.
  induction n as [|n IH]; intros next count Hn Hcnt Hle Hrun Hprev Hno; simpl.
  { eexists; split; [done|]. left. split; [done|]. intros i Hi Hi'. apply Hno; lia. }
  destruct (bitmap_scan_test_spec m b next) as (t & -> & Ht); [apply slack_bit_byte; lia || done|].
  simpl. rewrite Ht. rewrite (u32_small (next + 1)) by lia.
  destruct (bit m b next) eqn:Hb; simpl.
  - (* a taken bit: the run starts again behind it *)
    rewrite (proj2 (Z.eqb_neq _ _)) by lia. apply IH; [lia..| | |].
    + intros k Hk. lia.
    + right. by replace (next + 1 - 0 - 1) with next by lia.
    + intros i Hi Hi'. destruct (decide (i + cnt ≤ next)); [by apply Hno|].
      apply (run_free_blocked _ _ _ _ next Hb). lia.
  - rewrite u32_small by lia.
    assert (Hrun' : run_free m b (next + 1 - (count + 1)) (count + 1)).
    { intros k Hk. destruct (decide (k = next)) as [->|]; [done|]. apply Hrun. lia. }
    destruct (Z.eqb_spec (count + 1) cnt) as [<-|Hne].
    + (* the run is complete *)
      eexists; split; [done|]. right. rewrite s32_small by lia. split_and!; [lia..| |].
      * intros k Hk. apply Hrun'. lia.
      * intros i Hi. apply Hno; lia.
    + apply IH; [lia..|done| |].
      * by replace (next + 1 - (count + 1)) with (next - count) by lia.
      * intros i Hi Hi'. destruct (decide (i + cnt ≤ next)); [by apply Hno|].
        destruct Hprev as [|Hp]; [lia|]. apply (run_free_blocked _ _ _ _ _ Hp). lia.
Qed.

(** A search for one bit in a bitmap that is not full returns the first
    free bit of it. *)
Lemma bitmap_scan_one m b :
  bitmap_wf m b → ¬ full m b →
  ∃ r, bitmap_scan m b 1 = Ok r ∧ 0 ≤ r < 8 * btmp_bytes_len b ∧
       bit m b r = false ∧ ∀ k, 0 ≤ k < r → bit m b k = true.
Proof.
  intros Hwf Hnf. pose proof (wf_max _ _ Hwf).
  destruct (scan_first_free m b Hwf Hnf) as (j & v & i & Hj & Hjr & Hv & Hi & Hir & Hf & Hpre).
  unfold bitmap_scan. rewrite Hj. bsimpl. rewrite (proj2 (Z.ltb_lt _ _)) by lia. bsimpl.
  rewrite (proj2 (Z.eqb_neq _ _)) by lia. rewrite Hv. bsimpl. rewrite Hi. bsimpl.
  rewrite s32_small by lia. eexists; split_and!; [done|lia..|done|done].
Qed.

(** A search for two or more bits in a bitmap that is not full returns the
    first run of that many free bits, or -1 when there is none; the run is
    looked for in one bit more than the bitmap has, bit 0 of the byte behind
    it. *)
Lemma bitmap_scan_many m b cnt :
  bitmap_wf m b → slack m b → ¬ full m b → 2 ≤ cnt →
  ∃ r, bitmap_scan m b cnt = Ok r ∧ first_run m b cnt (8 * btmp_bytes_len b + 1) r.
Proof.
  intros Hwf Hsl Hnf Hc. pose proof (wf_max _ _ Hwf).
  destruct (scan_first_free m b Hwf Hnf) as (j & v & i & Hj & Hjr & Hv & Hi & Hir & Hf & Hpre).
  unfold bitmap_scan. rewrite Hj. bsimpl. rewrite (proj2 (Z.ltb_lt _ _)) by lia. bsimpl.
  rewrite (proj2 (Z.eqb_neq j _)) by lia. rewrite Hv. bsimpl. rewrite Hi. bsimpl.
  rewrite (proj2 (Z.eqb_neq cnt _)) by lia. rewrite s32_small, !u32_small by lia.
  apply scan_run_spec; [done..|lia|lia|lia|lia| | |].
  - intros k Hk. by replace k with (j * 8 + i) by lia.
  - destruct (decide (j * 8 + i = 0)); [left; lia|right; apply Hpre; lia].
  - intros k Hk Hk'. destruct (decide (k = j * 8 + i)); [lia|].
    apply (run_free_blocked _ _ _ _ k); [apply Hpre; lia|lia].
Qed.

(** C1: a search for [cnt] bits in a bitmap that is not full returns the first
    run of [cnt] free bits, or -1 when there is none; the run is looked for in
    one bit more than the bitmap has, bit 0 of the byte behind it. *)
Theorem bitmap_scan_first_run m b cnt :
  bitmap_wf m b → slack m b → ¬ full m b → 1 ≤ cnt →
  ∃ r, bitmap_scan m b cnt = Ok r ∧ first_run m b cnt (8 * btmp_bytes_len b + 1) r.
Proof.
  intros Hwf Hsl Hnf Hc. destruct (decide (cnt = 1)) as [->|]; [|apply bitmap_scan_many; done || lia].
  destruct (bitmap_scan_one m b Hwf Hnf) as (r & Hr & Hi & Hf & Hpre).
  exists r. split; [done|]. right. split_and!; [lia..| |].
  - intros k Hk. by replace k with r by lia.
  - intros i Hi'. apply (run_free_blocked _ _ _ _ i); [by apply Hpre|lia].
Qed.

(** When the byte behind the bitmap has its bit 0 set, the run a search
    returns lies inside the bitmap, and it is the first one there. *)
Theorem bitmap_scan_in_range m b cnt :
  bitmap_wf m b → slack m b → ¬ full m b → 2 ≤ cnt →
  bit m b (8 * btmp_bytes_len b) = true →
  ∃ r, bitmap_scan m b cnt = Ok r ∧ first_run m b cnt (8 * btmp_bytes_len b) r.
Proof.
  intros Hwf Hsl Hnf Hc Hb. destruct (bitmap_scan_many m b cnt) as (r & Hr & Hf); [done..|].
  exists r. split; [done|]. destruct Hf as [[-> Hno]|(Hr0 & Hr1 & Hrun & Hno)].
  - left. split; [done|]. intros i ? ?. apply Hno; lia.
  - right. split_and!; [done| |done|done].
    destruct (decide (r + cnt = 8 * btmp_bytes_len b + 1)); [|lia].
    exfalso. by apply (run_free_blocked _ _ _ _ _ Hb) in Hrun; [|lia].
Qed.

(** The byte loop on a full bitmap walks to the byte behind it. *)
Lemma scan_bytes_full m b n i :
  bitmap_wf m b → slack m b → full m b →
  0 ≤ i ≤ btmp_bytes_len b → Z.of_nat n = btmp_bytes_len b - i →
  scan_bytes n m b i = Ok (btmp_bytes_len b).
Proof.
  intros Hwf (w & Hw & _) Hf. revert i. induction n as [|n IH]; intros i Hi Hn.
  - assert (i = btmp_bytes_len b) as -> by lia. simpl. unfold bits_at.
    rewrite (load8_Some _ _ _ Hw). simpl. rewrite Z.ltb_irrefl, andb_false_r. done.
  - destruct (wf_byte _ _ Hwf i) as (v & Hv & Hr); [lia|].
    assert (v = 255) as ->.
    { eapply (byte_full m b i); [done..|]. intros k Hk. apply Hf. lia. }
    simpl. unfold bits_at. rewrite (load8_Some _ _ _ Hv). simpl.
    rewrite (proj2 (Z.ltb_lt _ _)) by lia. apply IH; lia.
Qed.

Lemma bitmap_scan_full_ok m b cnt :
  bitmap_wf m b → slack m b → full m b → bitmap_scan m b cnt = Panic.
Proof.
  intros Hwf Hsl Hf. pose proof (wf_len _ _ Hwf). unfold bitmap_scan.
  rewrite scan_bytes_full by (done || lia). simpl. by rewrite Z.ltb_irrefl.
Qed.

(** A search in a full bitmap stops the kernel in the assertion after the
    byte loop, whatever the count: the -1 that the clients test for is
    returned only when a free bit exists. *)
Theorem bitmap_scan_full_panics m b cnt :
  bitmap_wf m b → slack m b → full m b → bitmap_scan m b cnt = Panic.
Proof. apply bitmap_scan_full_ok. Qed.

(** A concrete search whose answer leaves the bitmap: one byte with only
    its last bit free, followed by a byte with bit 0 clear, and a search for
    two bits answers bits 7 and 8, although the bitmap has the bits 0 to 7. *)
Theorem bitmap_scan_overrun :
  let m := {[ 100 := 0x7f; 101 := 0x00 ]} in
  let b := Bitmap 1 100 in
  bitmap_scan m b 2 = Ok 7 ∧ 8 * btmp_bytes_len b < 7 + 2.
Proof. split; reflexivity. Qed.

Lemma set_bit_byte v k : 0 ≤ v < 256 → 0 ≤ k < 8 →
  0 ≤ Z.lor v (Z.shiftl BITMAP_MASK k) < 256 ∧
  ∀ j, 0 ≤ j → Z.testbit (Z.lor v (Z.shiftl BITMAP_MASK k)) j = (j =? k) || Z.testbit v j.
Proof.
  intros Hv Hk. unfold BITMAP_MASK. rewrite Z.shiftl_1_l. split.
  - apply lor_byte_range; [done|]. split; [lia|]. change 256 with (2 ^ 8). apply Z.pow_lt_mono_r; lia.
  - intros j Hj. rewrite Z.lor_spec, Z.pow2_bits_eqb by lia.
    rewrite (Z.eqb_sym k j), orb_comm. done.
Qed.

Lemma clear_bit_byte v k : 0 ≤ v < 256 → 0 ≤ k < 8 →
  0 ≤ Z.land v (Z.lnot (Z.shiftl BITMAP_MASK k)) < 256 ∧
  ∀ j, 0 ≤ j → Z.testbit (Z.land v (Z.lnot (Z.shiftl BITMAP_MASK k))) j = negb (j =? k) && Z.testbit v j.
Proof.
  intros Hv Hk. unfold BITMAP_MASK. rewrite Z.shiftl_1_l. split; [by apply land_byte_range|].
  intros j Hj. rewrite Z.land_spec, Z.lnot_spec, Z.pow2_bits_eqb by lia.
  rewrite (Z.eqb_sym k j), andb_comm. done.
Qed.

Lemma bitmap_set_ok m b i value :
  bitmap_wf m b → 0 ≤ i < 8 * btmp_bytes_len b → value = 0 ∨ value = 1 →
  ∃ m', bitmap_set m b i value = Ok m' ∧ bitmap_wf m' b ∧
    bit m' b i = negb (value =? 0) ∧ (∀ j, j ≠ i → bit m' b j = bit m b j) ∧
    (∀ a, a ≠ bits b + i / 8 → m' !! a = m !! a).
Proof.
  intros Hwf Hi Hval. destruct (wf_bit_byte m b i Hwf Hi) as (v & Hv & Hr).
  assert (0 ≤ i mod 8 < 8) as Hm by dm.
  assert (∃ w, bitmap_set m b i value = Ok (<[bits b + i / 8 := w]> m) ∧ 0 ≤ w < 256 ∧
    Z.testbit w (i mod 8) = negb (value =? 0) ∧
    ∀ j, 0 ≤ j → j ≠ i mod 8 → Z.testbit w j = Z.testbit v j) as (w & Hset & Hw & Hself & Hoth).
  { destruct (set_bit_byte v (i mod 8) Hr Hm) as [Hs1 Hs2].
    destruct (clear_bit_byte v (i mod 8) Hr Hm) as [Hc1 Hc2].
    unfold bitmap_set, bits_at. rewrite (load8_Some _ _ _ Hv).
    destruct Hval as [-> | ->]; [change (0 =? 0) with true|change (1 =? 0) with false; change (1 =? 1) with true];
      bsimpl; rewrite store8_Some by (done || by eexists);
      eexists; split_and!; try done || lia.
    - rewrite Hc2, Z.eqb_refl by lia. done.
    - intros j Hj Hne. rewrite Hc2 by lia. by apply Z.eqb_neq in Hne as ->.
    - rewrite Hs2, Z.eqb_refl by lia. done.
    - intros j Hj Hne. rewrite Hs2 by lia. by apply Z.eqb_neq in Hne as ->. }
  exists (<[bits b + i / 8 := w]> m). split_and!; [done| | | |].
  - split; [apply Hwf..|]. intros k Hk. rewrite lookup_insert. case_decide; [by eexists|].
    by apply (wf_byte _ _ Hwf).
  - unfold bit. by rewrite lookup_insert_eq.
  - intros j Hj. unfold bit. rewrite lookup_insert. case_decide as He; [|done].
    assert (j / 8 = i / 8) as -> by lia. rewrite Hv. apply Hoth; dm.
  - intros a Ha. by rewrite lookup_insert_ne.
Qed.

(** [bitmap_set] gives the addressed bit the requested value, keeps the
    bitmap well-formed, and changes no other bit of the bitmap and no other
    byte of memory. *)
Theorem bitmap_set_spec m b i value :
  bitmap_wf m b → 0 ≤ i < 8 * btmp_bytes_len b → value = 0 ∨ value = 1 →
  ∃ m', bitmap_set m b i value = Ok m' ∧ bitmap_wf m' b ∧
    bit m' b i = negb (value =? 0) ∧ (∀ j, j ≠ i → bit m' b j = bit m b j) ∧
    (∀ a, a ≠ bits b + i / 8 → m' !! a = m !! a).
Proof. apply bitmap_set_ok. Qed.

(** [bitmap_set] with a value other than 0 and 1 stops in its assertion. *)
Lemma bitmap_set_panics m b i value :
  value ≠ 0 → value ≠ 1 → bitmap_set m b i value = Panic.
Proof.
  intros H0 H1. unfold bitmap_set. apply Z.eqb_neq in H0 as ->, H1 as ->. done.
Qed.

(** ** The set of taken bits: the abstraction the clients use *)

Definition taken (m : bmem) (b : bitmap) : gset Z :=
  list_to_set (filter (λ i : Z, bit m b i = true) (seqZ 0 (8 * btmp_bytes_len b))).

Lemma elem_of_taken m b i :
  i ∈ taken m b ↔ 0 ≤ i < 8 * btmp_bytes_len b ∧ bit m b i = true.
Proof.
  unfold taken. rewrite elem_of_list_to_set, list_elem_of_filter, elem_of_seqZ. naive_solver lia.
Qed.

Lemma full_taken m b : full m b ↔ ∀ i, 0 ≤ i < 8 * btmp_bytes_len b → i ∈ taken m b.
Proof. setoid_rewrite elem_of_taken. unfold full. naive_solver. Qed.

#[export] Instance full_dec m b : Decision (full m b).
Proof.
  refine (cast_if (decide (Forall (λ i, bit m b i = true) (seqZ 0 (8 * btmp_bytes_len b)))));
    unfold full; rewrite Forall_forall in *.
  - intros i Hi. apply f, elem_of_seqZ. lia.
  - intros H. apply n. intros i Hi%elem_of_seqZ. apply H. lia.
Defined.

(** Taking one bit: [bitmap_scan] for one bit followed by [bitmap_set] to 1,
    as every allocator of the kernel does it. *)
Lemma bitmap_take_one m b :
  bitmap_wf m b → ¬ full m b →
  ∃ i m', bitmap_scan m b 1 = Ok i ∧ bitmap_set m b i 1 = Ok m' ∧
    0 ≤ i < 8 * btmp_bytes_len b ∧ (i ∉ taken m b) ∧
    bitmap_wf m' b ∧ taken m' b = {[i]} ∪ taken m b ∧
    (∀ k, 0 ≤ k < i → k ∈ taken m b) ∧
    (∀ a, a ≠ bits b + i / 8 → m' !! a = m !! a).
Proof.
  intros Hwf Hnf. destruct (bitmap_scan_one m b Hwf Hnf) as (i & Hs & Hi & Hf & Hpre).
  destruct (bitmap_set_ok m b i 1 Hwf Hi) as (m' & Hset & Hwf' & Hb & Hoth & Hfr); [lia|].
  exists i, m'. split_and!; try done || lia.
  - rewrite elem_of_taken. rewrite Hf. naive_solver.
  - apply set_eq. intros j. rewrite elem_of_union, elem_of_singleton, !elem_of_taken.
    destruct (decide (j = i)) as [->|Hne]; [rewrite Hb; naive_solver|].
    rewrite Hoth by done. naive_solver.
  - intros k Hk. apply elem_of_taken. split; [lia|]. by apply Hpre.
Qed.

Lemma taken_clear m b i m' :
  bitmap_wf m b → 0 ≤ i < 8 * btmp_bytes_len b → bitmap_set m b i 0 = Ok m' →
  bitmap_wf m' b ∧ taken m' b = taken m b ∖ {[i]} ∧ (∀ a, a ≠ bits b + i / 8 → m' !! a = m !! a).
Proof.
  intros Hwf Hi Hset. destruct (bitmap_set_ok m b i 0 Hwf Hi) as (m2 & Hset' & ? & Hb & Hoth & ?); [lia|].
  rewrite Hset in Hset'. simplify_eq. split_and!; [done| |done].
  apply set_eq. intros j. rewrite elem_of_difference, elem_of_singleton, !elem_of_taken.
  destruct (decide (j = i)) as [->|Hne]; [rewrite Hb; naive_solver|].
  rewrite Hoth by done. naive_solver.
Qed.

(** A bitmap in memory that agrees on the bitmap's bytes is the same set. *)
Lemma bitmap_agree m m' b :
  (∀ i, 0 ≤ i < btmp_bytes_len b → m' !! (bits b + i) = m !! (bits b + i)) →
  bitmap_wf m b → bitmap_wf m' b ∧ taken m' b = taken m b.
Proof.
  intros Heq Hwf. split.
  - split; [apply Hwf..|]. intros i Hi. rewrite Heq by done. by apply (wf_byte _ _ Hwf).
  - apply set_eq. intros j. rewrite !elem_of_taken.
    split; intros [Hj Hb]; (split; [done|]); revert Hb; unfold bit; rewrite Heq by dm; done.
Qed.

Lemma bitmap_init_ok m b :
  0 < btmp_bytes_len b → btmp_bytes_len b * 8 < 2 ^ 31 - 8 → bits b ≠ NULL →
  accessible m (bits b) (Z.to_nat (btmp_bytes_len b)) →
  ∃ m', bitmap_init m b = Ok m' ∧ bitmap_wf m' b ∧ taken m' b = ∅ ∧
    (∀ a, a < bits b ∨ bits b + btmp_bytes_len b ≤ a → m' !! a = m !! a) ∧
    (∀ a, is_Some (m !! a) → is_Some (m' !! a)).
Proof.
  intros Hl Hm Hn Ha. unfold bitmap_init. eexists; split; [by apply memset_ok|].
  assert (∀ i, 0 ≤ i < btmp_bytes_len b →
    put_bytes m (bits b) (replicate (Z.to_nat (btmp_bytes_len b)) 0) !! (bits b + i) = Some 0) as H0.
  { intros i Hi. rewrite lookup_put_bytes, length_replicate, decide_True by lia.
    apply lookup_replicate. split; [done|lia]. }
  split_and!.
  - split; [done..|]. intros i Hi. exists 0. split; [by apply H0|lia].
  - apply set_eq. intros j. rewrite elem_of_taken. split; [|set_solver].
    intros [Hj Hb]. unfold bit in Hb. rewrite H0, Z.bits_0 in Hb by dm. done.
  - intros a Hx. rewrite lookup_put_bytes, length_replicate, decide_False by lia. done.
  - intros a Hx. rewrite lookup_put_bytes. case_decide; [apply lookup_lt_is_Some; lia|done].
Qed.

(** ** Witnesses *)

(** Two bytes behind each other: a bitmap of one byte with the bits 0, 1, 3
    and 7 taken, and a byte with bit 0 taken. *)
Definition ex_mem : bmem := {[ 100 := 0x8b; 101 := 1 ]}.
Definition ex_bitmap : bitmap := Bitmap 1 100.

Lemma ex_wf : bitmap_wf ex_mem ex_bitmap.
Proof. split; [done..|]. simpl. intros i Hi. assert (i = 0) as -> by lia. by exists 0x8b. Qed.
Lemma ex_slack : slack ex_mem ex_bitmap.
Proof. by exists 1. Qed.
Lemma ex_not_full : ¬ full ex_mem ex_bitmap.
Proof. intros H. specialize (H 2). assert (0 ≤ 2 < 8 * 1) as Hi by lia. by specialize (H Hi). Qed.

Lemma bitmap_scan_first_run_witness :
  bitmap_scan ex_mem ex_bitmap 3 = Ok 4 ∧ ∃ r, bitmap_scan ex_mem ex_bitmap 3 = Ok r ∧ first_run ex_mem ex_bitmap 3 (8 * 1 + 1) r.
Proof.
  split; [reflexivity|].
  apply (bitmap_scan_first_run ex_mem ex_bitmap 3); [apply ex_wf|apply ex_slack|apply ex_not_full|lia].
Defined.

Lemma bitmap_scan_in_range_witness :
  ∃ r, bitmap_scan ex_mem ex_bitmap 2 = Ok r ∧ first_run ex_mem ex_bitmap 2 (8 * 1) r.
Proof.
  apply (bitmap_scan_in_range ex_mem ex_bitmap 2);
    [apply ex_wf|apply ex_slack|apply ex_not_full|lia|reflexivity].
Defined.

Lemma bitmap_set_spec_witness :
  ∃ m', bitmap_set ex_mem ex_bitmap 2 1 = Ok m' ∧ bitmap_wf m' ex_bitmap ∧
    bit m' ex_bitmap 2 = true ∧ (∀ j, j ≠ 2 → bit m' ex_bitmap j = bit ex_mem ex_bitmap j) ∧
    (∀ a, a ≠ 100 → m' !! a = ex_mem !! a).
Proof. apply (bitmap_set_spec ex_mem ex_bitmap 2 1); [apply ex_wf|simpl; lia|by right]. Defined.

Lemma bitmap_scan_full_panics_witness :
  bitmap_scan {[ 100 := 0xff; 101 := 0 ]} (Bitmap 1 100) 1 = Panic.
Proof.
  apply (bitmap_scan_full_panics {[ 100 := 0xff; 101 := 0 ]} (Bitmap 1 100) 1).
  - split; [done..|]. simpl. intros i Hi. assert (i = 0) as -> by lia. by exists 0xff.
  - by exists 0.
  - intros i Hi. simpl in Hi.
    assert (i = 0 ∨ i = 1 ∨ i = 2 ∨ i = 3 ∨ i = 4 ∨ i = 5 ∨ i = 6 ∨ i = 7) by lia.
    naive_solver.
Defined.
