(* ===== verification/Lists.v ===== *)
(** * Intrusive doubly linked lists (src/lib/list.c, src/include/lib/list.h)

    A [struct list] at address [l] is two cells, the head at [l] and the tail
    at [l + 8]; the elements are cells embedded in other structures.  All the
    queues of the kernel (ready threads, all threads, waiters of a semaphore,
    free memory blocks, open inodes, partitions) are lists in one heap of
    cells; an address outside the heap is not an accessible cell.

    [queues h Q] says that heap [h] holds the family [Q] of disjoint lists,
    [Q] mapping the address of a list to the sequence of its elements; the
    class [Queues] is the interface the rest of the kernel is proved against,
    and its instance at the end is what list.c promises.

    The operations run with interrupts disabled and restore the interrupt
    status they found, so they are atomic here. *)

From S2P Require Import Prelude CString.

Record list_elem := ListElem { prev : Z; next : Z }.

#[export] Instance list_elem_eq_dec : EqDecision list_elem.
Proof. solve_decision. Defined.

Abbreviation lheap := (gmap Z list_elem).

(** [struct list]: the addresses of its two cells. *)
Definition head_of (l : Z) : Z := l.
Definition tail_of (l : Z) : Z := l + 8.

(** [p->next = v] and [p->prev = v]. *)
Definition set_next (h : lheap) (p v : Z) : outcome lheap :=
  e ← deref (h !! p); Ok (<[p := ListElem (prev e) v]> h).
Definition set_prev (h : lheap) (p v : Z) : outcome lheap :=
  e ← deref (h !! p); Ok (<[p := ListElem v (next e)]> h).
(** [p->next] and [p->prev]. *)
Definition get_next (h : lheap) (p : Z) : outcome Z := e ← deref (h !! p); Ok (next e).
Definition get_prev (h : lheap) (p : Z) : outcome Z := e ← deref (h !! p); Ok (prev e).

Definition list_init (h : lheap) (l : Z) : outcome lheap :=
  h ← set_prev h (head_of l) NULL;
  h ← set_next h (head_of l) (tail_of l);
  h ← set_prev h (tail_of l) (head_of l);
  set_next h (tail_of l) NULL.

Definition list_insert_before (h : lheap) (before elem : Z) : outcome lheap :=
  p ← get_prev h before; h ← set_next h p elem;
  p ← get_prev h before; h ← set_prev h elem p;
  h ← set_next h elem before;
  set_prev h before elem.

Definition list_push (h : lheap) (plist elem : Z) : outcome lheap :=
  n ← get_next h (head_of plist); list_insert_before h n elem.

Definition list_append (h : lheap) (plist elem : Z) : outcome lheap :=
  list_insert_before h (tail_of plist) elem.

Definition list_remove (h : lheap) (pelem : Z) : outcome lheap :=
  p ← get_prev h pelem; n ← get_next h pelem; h ← set_next h p n;
  n ← get_next h pelem; p ← get_prev h pelem; set_prev h n p.

Definition list_pop (h : lheap) (plist : Z) : outcome (Z * lheap) :=
  elem ← get_next h (head_of plist);
  h ← list_remove h elem;
  Ok (elem, h).

(** The loops over the elements visit a new cell in every round. *)
Definition heap_fuel (h : lheap) : nat := S (size h).

Fixpoint find_loop (fuel : nat) (h : lheap) (plist elem obj_elem : Z) : outcome bool :=
  match fuel with
  | O => NoFuel
  | S fuel =>
      if elem =? tail_of plist then Ok false
      else if elem =? obj_elem then Ok true
      else elem' ← get_next h elem; find_loop fuel h plist elem' obj_elem
  end.

Definition elem_find (h : lheap) (plist obj_elem : Z) : outcome bool :=
  elem ← get_next h (head_of plist); find_loop (heap_fuel h) h plist elem obj_elem.

Fixpoint len_loop (fuel : nat) (h : lheap) (plist elem length : Z) : outcome Z :=
  match fuel with
  | O => NoFuel
  | S fuel =>
      if elem =? tail_of plist then Ok length
      else elem' ← get_next h elem; len_loop fuel h plist elem' (u32 (length + 1))
  end.

Definition list_len (h : lheap) (plist : Z) : outcome Z :=
  elem ← get_next h (head_of plist); len_loop (heap_fuel h) h plist elem 0.

Definition list_empty (h : lheap) (plist : Z) : outcome bool :=
  n ← get_next h (head_of plist); Ok (n =? tail_of plist).

(** [list_traversal] calls back into code that may change other parts of the
    state [S]; [hp] is where the cells are in that state. *)
Section Traversal.
Context {S : Type} (hp : S → lheap).

Fixpoint traversal_loop (fuel : nat) (plist elem : Z) (func : Z → K S bool) : K S Z :=
  match fuel with
  | O => lift NoFuel
  | Datatypes.S fuel =>
      if elem =? tail_of plist then mret NULL
      else
        hit ← func elem;
        if (hit : bool) then mret elem
        else
          h ← gets hp; elem' ← lift (get_next h elem);
          traversal_loop fuel plist elem' func
  end.

Definition list_traversal (plist : Z) (func : Z → K S bool) : K S Z :=
  h ← gets hp;
  elem ← lift (get_next h (head_of plist));
  e ← lift (list_empty h plist);
  if (e : bool) then mret NULL
  else traversal_loop (heap_fuel h) plist elem func.
End Traversal.

(** ** Specification: segments of linked cells *)

Definition nxt (h : lheap) (a : Z) : option Z := next <$> h !! a.
Definition prv (h : lheap) (a : Z) : option Z := prev <$> h !! a.

(** [a] and [b] are neighbours. *)
Definition link (h : lheap) (a b : Z) : Prop := nxt h a = Some b ∧ prv h b = Some a.

(** The cells [xs], linked both ways, lie between [p] and [q]. *)
Fixpoint dseg (h : lheap) (p : Z) (xs : list Z) (q : Z) : Prop :=
  match xs with
  | [] => link h p q
  | x :: xs => link h p x ∧ dseg h x xs q
  end.

(** Every cell of the list at [l] with elements [xs]. *)
Definition cells (l : Z) (xs : list Z) : list Z := l :: (l + 8) :: xs.

(** The heap holds the disjoint lists [Q]. *)
Record queues (h : lheap) (Q : gmap Z (list Z)) : Prop := {
  q_seg : ∀ l xs, Q !! l = Some xs → dseg h l xs (l + 8);
  q_nodup : ∀ l xs, Q !! l = Some xs → NoDup (cells l xs);
  q_sep : ∀ l1 l2 xs1 xs2 a, Q !! l1 = Some xs1 → Q !! l2 = Some xs2 →
          a ∈ cells l1 xs1 → a ∈ cells l2 xs2 → l1 = l2;
}.

(** A cell that belongs to no list. *)
Definition unlinked (Q : gmap Z (list Z)) (a : Z) : Prop :=
  ∀ l xs, Q !! l = Some xs → a ∉ cells l xs.

Lemma unlinked_insert Q l ys a : unlinked Q a → a ∉ cells l ys → unlinked (<[l := ys]> Q) a.
Proof. intros Hu Ha l2 zs [[<- <-] | [_ Hl2]]%lookup_insert_Some; [done|by eapply Hu]. Qed.
Lemma unlinked_append Q l xs e e' :
  Q !! l = Some xs → unlinked Q e → e ≠ e' → unlinked (<[l := xs ++ [e']]> Q) e.
Proof.
  intros Hl Hu Hne l2 ys [[<- <-]|[_ Hl2]]%lookup_insert_Some; [|by eapply Hu].
  specialize (Hu _ _ Hl). unfold cells in *. set_solver.
Qed.

(** Both are decidable, so that a heap that is written out can be checked. *)
#[export] Instance dseg_dec h p xs q : Decision (dseg h p xs q).
Proof. revert p. induction xs; simpl; intros; apply _. Defined.

Definition queues_check (h : lheap) (Q : gmap Z (list Z)) : bool :=
  bool_decide (map_Forall (λ l xs, dseg h l xs (l + 8) ∧ NoDup (cells l xs) ∧
    map_Forall (λ l2 xs2, l = l2 ∨ Forall (λ a, a ∉ cells l2 xs2) (cells l xs)) Q) Q).

Lemma queues_check_ok h Q : queues_check h Q = true → queues h Q.
Proof.
  intros Hc%bool_decide_eq_true. split.
  - intros l xs Hl. by destruct (Hc _ _ Hl).
  - intros l xs Hl. by destruct (Hc _ _ Hl) as (_ & ? & _).
  - intros l1 l2 xs1 xs2 a H1 H2 Ha1 Ha2. destruct (Hc _ _ H1) as (_ & _ & Hs).
    destruct (Hs _ _ H2) as [|Hf]; [done|]. rewrite Forall_forall in Hf. by apply Hf in Ha1.
Qed.

Lemma dseg_app h p xs y ys q : dseg h p (xs ++ y :: ys) q ↔ dseg h p xs y ∧ dseg h y ys q.
Proof. revert p. induction xs as [|x xs IH]; intros p; simpl; [done|]. rewrite IH. tauto. Qed.

(** A segment stays one when the pointers it uses do not change. *)
Lemma dseg_frame h h' p xs q :
  dseg h p xs q →
  (∀ a, a ∈ p :: xs → nxt h' a = nxt h a) → (∀ a, a ∈ xs ++ [q] → prv h' a = prv h a) →
  dseg h' p xs q.
Proof.
  revert p. induction xs as [|x xs IH]; intros p; simpl.
  - intros [H1 H2] Hn Hp. split; [rewrite Hn|rewrite Hp]; set_solver.
  - intros [[H1 H2] H] Hn Hp. split.
    + split; [rewrite Hn|rewrite Hp]; set_solver.
    + apply IH; [done|set_solver..].
Qed.

(** The last cell before the end of a segment. *)
Fixpoint lastc (p : Z) (xs : list Z) : Z :=
  match xs with
  | [] => p
  | x :: xs => lastc x xs
  end.

Lemma lastc_in p xs : lastc p xs ∈ p :: xs.
Proof. revert p. induction xs as [|x xs IH]; intros p; simpl; [set_solver|]. specialize (IH x). set_solver. Qed.

Lemma dseg_last h p xs q : dseg h p xs q → link h (lastc p xs) q.
Proof. revert p. induction xs as [|x xs IH]; intros p; [done|]. intros [_ H]. by apply IH. Qed.

(** Redirecting the last pointer of a segment to another end. *)
Lemma dseg_relink h h' p xs q q' :
  dseg h p xs q → NoDup (p :: xs) →
  nxt h' (lastc p xs) = Some q' → prv h' q' = Some (lastc p xs) →
  (∀ a, a ∈ p :: xs → a ≠ lastc p xs → nxt h' a = nxt h a) →
  (∀ a, a ∈ xs → prv h' a = prv h a) →
  dseg h' p xs q'.
Proof.
  revert p. induction xs as [|x xs IH]; intros p; simpl; [done|].
  intros [[H1 H2] H] Hnd Hn Hp Hfn Hfp. apply NoDup_cons in Hnd as [Hpx Hnd].
  pose proof (lastc_in x xs). split.
  - split; [rewrite Hfn|rewrite Hfp]; set_solver.
  - apply IH; [done..| |]; set_solver.
Qed.

(** The cells of a segment are accessible. *)
Lemma dseg_dom h p xs q a : dseg h p xs q → a ∈ p :: xs ++ [q] → is_Some (h !! a).
Proof.
  revert p. induction xs as [|x xs IH]; intros p; simpl.
  - intros [H1 H2] Ha. unfold nxt, prv in *. destruct (h !! p) eqn:?, (h !! q) eqn:?; set_solver.
  - intros [[H1 _] H] Ha. destruct (decide (a = p)) as [->|].
    + unfold nxt in H1. destruct (h !! p); [by eexists|done].
    + apply (IH x); [done|]. set_solver.
Qed.

(** ** Effect of the pointer writes *)

Lemma set_next_ok h p v :
  is_Some (h !! p) →
  ∃ h', set_next h p v = Ok h' ∧
    (∀ a, nxt h' a = if decide (a = p) then Some v else nxt h a) ∧
    (∀ a, prv h' a = prv h a) ∧ dom h' = dom h.
Proof.
  intros [e He]. unfold set_next. rewrite He. eexists; split_and!; [done| | |].
  - intros a. unfold nxt. rewrite lookup_insert. repeat case_decide; naive_solver.
  - intros a. unfold prv. rewrite lookup_insert. case_decide; [|done]. subst. by rewrite He.
  - rewrite dom_insert_L. apply elem_of_dom_2 in He. set_solver.
Qed.

Lemma set_prev_ok h p v :
  is_Some (h !! p) →
  ∃ h', set_prev h p v = Ok h' ∧
    (∀ a, prv h' a = if decide (a = p) then Some v else prv h a) ∧
    (∀ a, nxt h' a = nxt h a) ∧ dom h' = dom h.
Proof.
  intros [e He]. unfold set_prev. rewrite He. eexists; split_and!; [done| | |].
  - intros a. unfold prv. rewrite lookup_insert. repeat case_decide; naive_solver.
  - intros a. unfold nxt. rewrite lookup_insert. case_decide; [|done]. subst. by rewrite He.
  - rewrite dom_insert_L. apply elem_of_dom_2 in He. set_solver.
Qed.

Lemma get_next_ok h p v : nxt h p = Some v → get_next h p = Ok v.
Proof. unfold nxt, get_next. destruct (h !! p); naive_solver. Qed.
Lemma get_prev_ok h p v : prv h p = Some v → get_prev h p = Ok v.
Proof. unfold prv, get_prev. destruct (h !! p); naive_solver. Qed.

Lemma is_Some_dom_eq (h h' : lheap) a : dom h' = dom h → is_Some (h !! a) → is_Some (h' !! a).
Proof. intros Hd. by rewrite <- !elem_of_dom, Hd. Qed.

Lemma insert_before_ok h before elem pr :
  prv h before = Some pr → is_Some (h !! pr) → is_Some (h !! elem) → elem ≠ before →
  ∃ h', list_insert_before h before elem = Ok h' ∧
    (∀ a, nxt h' a = if decide (a = elem) then Some before
                     else if decide (a = pr) then Some elem else nxt h a) ∧
    (∀ a, prv h' a = if decide (a = before) then Some elem
                     else if decide (a = elem) then Some pr else prv h a) ∧
    dom h' = dom h.
Proof.
  intros Hp Hpr He Hne. unfold list_insert_before. rewrite (get_prev_ok _ _ _ Hp). bsimpl.
  destruct (set_next_ok h pr elem Hpr) as (h1 & -> & Hn1 & Hp1 & Hd1). bsimpl.
  assert (is_Some (h !! before)) as Hb by (unfold prv in Hp; destruct (h !! before); by eauto).
  rewrite (get_prev_ok h1 before pr) by by rewrite Hp1. bsimpl.
  destruct (set_prev_ok h1 elem pr) as (h2 & -> & Hp2 & Hn2 & Hd2); [by eapply is_Some_dom_eq|]. bsimpl.
  destruct (set_next_ok h2 elem before) as (h3 & -> & Hn3 & Hp3 & Hd3);
    [eapply is_Some_dom_eq; [|exact He]; congruence|]. bsimpl.
  destruct (set_prev_ok h3 before elem) as (h4 & -> & Hp4 & Hn4 & Hd4);
    [eapply is_Some_dom_eq; [|exact Hb]; congruence|].
  exists h4. split_and!; [done| | |congruence].
  - intros a. by rewrite Hn4, Hn3, Hn2, Hn1.
  - intros a. by rewrite Hp4, Hp3, Hp2, Hp1.
Qed.

Lemma list_remove_ok h x pr nx :
  prv h x = Some pr → nxt h x = Some nx → is_Some (h !! pr) → is_Some (h !! nx) → pr ≠ x →
  ∃ h', list_remove h x = Ok h' ∧
    (∀ a, nxt h' a = if decide (a = pr) then Some nx else nxt h a) ∧
    (∀ a, prv h' a = if decide (a = nx) then Some pr else prv h a) ∧
    dom h' = dom h.
Proof.
  intros Hp Hn Hpr Hnx Hne. unfold list_remove.
  rewrite (get_prev_ok _ _ _ Hp), (get_next_ok _ _ _ Hn). bsimpl.
  destruct (set_next_ok h pr nx Hpr) as (h1 & -> & Hn1 & Hp1 & Hd1). bsimpl.
  rewrite (get_next_ok h1 x nx) by (rewrite Hn1, decide_False; done). bsimpl.
  rewrite (get_prev_ok h1 x pr) by by rewrite Hp1. bsimpl.
  destruct (set_prev_ok h1 nx pr) as (h2 & -> & Hp2 & Hn2 & Hd2); [by eapply is_Some_dom_eq|].
  exists h2. split_and!; [done| | |congruence].
  - intros a. by rewrite Hn2, Hn1.
  - intros a. by rewrite Hp2, Hp1.
Qed.

(** ** The operations on a family of disjoint lists *)

(** The cell in front of which an element between [xs1] and [xs2] goes. *)
Definition front (xs : list Z) (q : Z) : Z :=
  match xs with
  | [] => q
  | y :: _ => y
  end.

Lemma front_in xs q : front xs q ∈ xs ++ [q].
Proof. destruct xs; set_solver. Qed.

Lemma dseg_split h p xs1 xs2 q : dseg h p (xs1 ++ xs2) q → dseg h p xs1 (front xs2 q).
Proof. destruct xs2 as [|y ys]; simpl; [by rewrite app_nil_r|]. intros H. by apply dseg_app in H as [? _]. Qed.

(** The part of a segment behind [front], entered from another cell. *)
Lemma dseg_tail h h' p xs1 xs2 q e :
  dseg h p (xs1 ++ xs2) q → link h' e (front xs2 q) →
  (∀ a, a ∈ xs2 → nxt h' a = nxt h a) →
  (∀ a, a ∈ xs2 ++ [q] → a ≠ front xs2 q → prv h' a = prv h a) →
  NoDup (xs2 ++ [q]) → dseg h' e xs2 q.
Proof.
  destruct xs2 as [|y ys]; simpl; [done|]. intros H Hl Hn Hp Hnd. split; [done|].
  apply dseg_app in H as [_ H]. apply (dseg_frame h); [done| |].
  - intros a Ha. apply Hn. set_solver.
  - intros a Ha. apply Hp; [set_solver|]. apply NoDup_cons in Hnd as [Hy _]. set_solver.
Qed.

Lemma cells_insert l xs1 xs2 e a :
  a ∈ cells l (xs1 ++ e :: xs2) ↔ a = e ∨ a ∈ cells l (xs1 ++ xs2).
Proof. unfold cells. set_solver. Qed.

Lemma nodup_parts l xs1 xs2 :
  NoDup (cells l (xs1 ++ xs2)) →
  NoDup (l :: xs1) ∧ NoDup (xs2 ++ [l + 8]) ∧
  (∀ a, a ∈ l :: xs1 → a ∉ xs2 ++ [l + 8]) ∧ (∀ a, a ∈ xs2 ++ [l + 8] → a ∉ l :: xs1).
Proof.
  unfold cells. rewrite !NoDup_cons, !NoDup_app. intros (Hl & Ht & H1 & H2 & H3).
  split_and!.
  - set_solver.
  - done.
  - done.
  - intros x ? ->%list_elem_of_singleton. set_solver.
  - apply NoDup_singleton.
  - intros a Ha Ha'. set_solver.
  - intros a Ha Ha'. set_solver.
Qed.

(** A list whose cells avoid the changed pointers is unchanged. *)
Lemma queues_other h h' l xs (ch : list Z) :
  dseg h l xs (l + 8) →
  (∀ a, a ∉ ch → nxt h' a = nxt h a) → (∀ a, a ∉ ch → prv h' a = prv h a) →
  (∀ a : Z, a ∈ ch → a ∉ cells l xs) → dseg h' l xs (l + 8).
Proof.
  intros H Hn Hp Hc. unfold cells in Hc. apply (dseg_frame h); [done| |].
  - intros a Ha. apply Hn. intros Hx. apply (Hc a Hx). set_solver.
  - intros a Ha. apply Hp. intros Hx. apply (Hc a Hx). set_solver.
Qed.

Lemma front_cells l xs1 xs2 : front xs2 (l + 8) ∈ cells l (xs1 ++ xs2).
Proof. pose proof (front_in xs2 (l + 8)). unfold cells. set_solver. Qed.
Lemma lastc_cells l xs1 xs2 : lastc l xs1 ∈ cells l (xs1 ++ xs2).
Proof. pose proof (lastc_in l xs1). unfold cells. set_solver. Qed.

Lemma cells_nodup l xs1 x xs2 : NoDup (cells l (xs1 ++ x :: xs2)) ↔ (x ∉ cells l (xs1 ++ xs2)) ∧ NoDup (cells l (xs1 ++ xs2)).
Proof.
  rewrite <- NoDup_cons. unfold cells. apply NoDup_Permutation_proper.
  by rewrite <- (Permutation_middle xs1 xs2 x), !(Permutation_swap x).
Qed.

Lemma queues_insert h Q l xs1 xs2 e :
  queues h Q → Q !! l = Some (xs1 ++ xs2) → unlinked Q e → is_Some (h !! e) →
  ∃ h', list_insert_before h (front xs2 (l + 8)) e = Ok h' ∧
        queues h' (<[l := xs1 ++ e :: xs2]> Q) ∧ dom h' = dom h.
Proof.
  intros HQ Hl Hu He. pose proof (q_seg _ _ HQ _ _ Hl) as Hseg.
  pose proof (q_nodup _ _ HQ _ _ Hl) as Hnd. pose proof (Hu _ _ Hl) as Hel.
  destruct (nodup_parts _ _ _ Hnd) as (Hnd1 & Hnd2 & Hd12 & Hd21).
  pose proof (dseg_split _ _ _ _ _ Hseg) as Hs1. pose proof (dseg_last _ _ _ _ Hs1) as [Hn Hp].
  pose proof (front_cells l xs1 xs2) as Hfc. pose proof (lastc_cells l xs1 xs2) as Hlc.
  pose proof (lastc_in l xs1) as Hli. pose proof (front_in xs2 (l + 8)) as Hfi.
  assert (∀ a, a ∈ l :: xs1 → a ≠ e) as He1.
  { clear -Hel. intros a Ha ->. apply Hel. unfold cells. set_solver. }
  assert (∀ a, a ∈ xs2 ++ [l + 8] → a ≠ e) as He2.
  { clear -Hel. intros a Ha ->. apply Hel. unfold cells. set_solver. }
  assert (∀ a, a ∈ xs1 → a ∈ l :: xs1) as Hsub1 by (clear; set_solver).
  assert (∀ a, a ∈ xs2 → a ∈ xs2 ++ [l + 8]) as Hsub2 by (clear; set_solver).
  destruct (insert_before_ok h (front xs2 (l + 8)) e (lastc l xs1)) as (h' & Hok & Hn' & Hp' & Hd);
    [done|apply (dseg_dom _ _ _ _ _ Hs1); clear -Hli; set_solver|done|by intros ->; eapply He2|].
  exists h'. split_and!; [done| |done]. split.
  - intros l' ys. rewrite lookup_insert. case_decide as Hll; [subst l'|]; intros Hy; simplify_eq.
    + apply dseg_app. split.
      * eapply dseg_relink; [done|done|..].
        -- rewrite Hn', decide_False, decide_True; auto.
        -- assert (e ≠ front xs2 (l + 8)) by (apply not_eq_sym; auto).
           by rewrite Hp', decide_False, decide_True.
        -- intros a Ha Hne. rewrite Hn', !decide_False; auto.
        -- intros a Ha. assert (a ≠ front xs2 (l + 8)) by (intros ->; apply (Hd12 (front xs2 (l + 8))); auto).
           rewrite Hp', !decide_False; auto.
      * eapply dseg_tail; [done|split|..|done].
        -- rewrite Hn', decide_True; done.
        -- rewrite Hp', decide_True; done.
        -- intros a Ha. assert (a ≠ lastc l xs1) by (intros ->; apply (Hd12 (lastc l xs1)); auto).
           rewrite Hn', !decide_False; auto.
        -- intros a Ha Hne. rewrite Hp', !decide_False; auto.
    + apply (queues_other h h' _ _ [e; lastc l xs1; front xs2 (l + 8)]).
      * by apply (q_seg _ _ HQ).
      * intros a Ha. rewrite Hn', !decide_False; [done|clear -Ha; set_solver..].
      * intros a Ha. rewrite Hp', !decide_False; [done|clear -Ha; set_solver..].
      * intros a Ha Hc. apply Hll.
        assert (a = e ∨ a ∈ cells l (xs1 ++ xs2)) as [->|Hc'] by (clear -Ha Hfc Hlc; set_solver); [by apply Hu in Hy|].
        by eapply (q_sep _ _ HQ l l').
  - intros l' ys. rewrite lookup_insert. case_decide as Hll; intros Hy; simplify_eq; [|by apply (q_nodup _ _ HQ)].
    by apply cells_nodup.
  - intros l1 l2 ys1 ys2 a. rewrite !lookup_insert.
    repeat case_decide; intros; simplify_eq; try done.
    + destruct (proj1 (cells_insert l1 xs1 xs2 e a)) as [->|Hc']; [done|exfalso; by eapply Hu|by eapply (q_sep _ _ HQ)].
    + destruct (proj1 (cells_insert l2 xs1 xs2 e a)) as [->|Hc']; [done|exfalso; by eapply Hu|by eapply (q_sep _ _ HQ)].
    + by eapply (q_sep _ _ HQ).
Qed.

Lemma dseg_join h p xs1 xs2 q :
  dseg h p xs1 (front xs2 q) →
  match xs2 with [] => True | y :: ys => dseg h y ys q end → dseg h p (xs1 ++ xs2) q.
Proof. destruct xs2 as [|y ys]; simpl; [by rewrite app_nil_r|]. intros. by apply dseg_app. Qed.

Lemma cells_remove l xs1 xs2 x a : a ∈ cells l (xs1 ++ xs2) → a ∈ cells l (xs1 ++ x :: xs2).
Proof. rewrite cells_insert. auto. Qed.

Lemma queues_remove h Q l xs1 x xs2 :
  queues h Q → Q !! l = Some (xs1 ++ x :: xs2) →
  ∃ h', list_remove h x = Ok h' ∧ queues h' (<[l := xs1 ++ xs2]> Q) ∧
        unlinked (<[l := xs1 ++ xs2]> Q) x ∧ dom h' = dom h.
Proof.
  intros HQ Hl. pose proof (q_seg _ _ HQ _ _ Hl) as Hseg.
  pose proof (q_nodup _ _ HQ _ _ Hl) as Hnd.
  destruct (nodup_parts _ _ _ Hnd) as (Hnd1 & Hnd2 & Hd12 & _).
  apply dseg_app in Hseg as [Hs1 Hs2]. pose proof (dseg_last _ _ _ _ Hs1) as [Hn1 Hp1].
  pose proof (dseg_split _ _ [] _ _ Hs2) as [Hn2 Hp2].
  pose proof (lastc_in l xs1) as Hli. pose proof (front_in xs2 (l + 8)) as Hfi.
  apply NoDup_cons in Hnd2 as [Hx2 Hnd2].
  assert (∀ a, a ∈ l :: xs1 → a ≠ x) as Hx1.
  { clear -Hd12. intros a Ha ->. apply (Hd12 _ Ha). set_solver. }
  assert (∀ a, a ∈ l :: xs1 → a ∉ xs2 ++ [l + 8]) as Hd12' by (clear -Hd12; set_solver).
  assert (∀ a, a ∈ xs2 → a ∈ xs2 ++ [l + 8]) as Hsub2 by (clear; set_solver).
  assert (∀ a, a ∈ xs1 → a ∈ l :: xs1) as Hsub1 by (clear; set_solver).
  destruct (list_remove_ok h x (lastc l xs1) (front xs2 (l + 8))) as (h' & Hok & Hn' & Hp' & Hd);
    [done|done|apply (dseg_dom _ _ _ _ _ Hs1); clear -Hli; set_solver
    |apply (dseg_dom _ _ _ _ _ Hs2); clear -Hfi; set_solver|auto|].
  assert (∀ a, a ∈ cells l (xs1 ++ xs2) → a ∈ cells l (xs1 ++ x :: xs2)) as Hsub by apply cells_remove.
  exists h'. split_and!; [done| | |done].
  - split.
    + intros l' ys. rewrite lookup_insert. case_decide as Hll; [subst l'|]; intros Hy; simplify_eq.
      * apply dseg_join.
        -- eapply dseg_relink; [done|done|..].
           ++ by rewrite Hn', decide_True.
           ++ by rewrite Hp', decide_True.
           ++ intros a Ha Hne. by rewrite Hn', decide_False.
           ++ intros a Ha. rewrite Hp', decide_False; [done|]. intros ->. apply (Hd12' (front xs2 (l + 8))); auto.
        -- destruct xs2 as [|y ys]; [done|]. destruct Hs2 as [_ Hs2]. apply (dseg_frame h); [done| |].
           ++ intros a Ha. rewrite Hn', decide_False; [done|]. intros ->.
              apply (Hd12' _ Hli). auto.
           ++ intros a Ha. rewrite Hp', decide_False; [done|]. intros ->.
              by apply NoDup_cons in Hnd2 as [? _].
      * apply (queues_other h h' _ _ [lastc l xs1; front xs2 (l + 8)]).
        -- by apply (q_seg _ _ HQ).
        -- intros a Ha. rewrite Hn', !decide_False; [done|clear -Ha; set_solver].
        -- intros a Ha. rewrite Hp', !decide_False; [done|clear -Ha; set_solver].
        -- intros a Ha Hc. apply Hll. pose proof (front_cells l xs1 xs2). pose proof (lastc_cells l xs1 xs2).
           assert (a ∈ cells l (xs1 ++ x :: xs2)) by (apply Hsub; clear -Ha H H0; set_solver).
           by eapply (q_sep _ _ HQ l l').
    + intros l' ys. rewrite lookup_insert. case_decide; intros; simplify_eq; [|by apply (q_nodup _ _ HQ)].
      by apply cells_nodup in Hnd as [_ ?].
    + intros l1 l2 ys1 ys2 a. rewrite !lookup_insert.
      repeat case_decide; intros; simplify_eq; try done; eapply (q_sep _ _ HQ); eauto.
  - intros l' ys. rewrite lookup_insert. case_decide as Hll; [subst l'|]; intros Hy Hc; simplify_eq.
    + by apply cells_nodup in Hnd as [? _].
    + apply Hll. eapply (q_sep _ _ HQ); [done|done| |done]. apply cells_insert. by left.
Qed.

Lemma queues_head h Q l xs : queues h Q → Q !! l = Some xs → nxt h l = Some (front xs (l + 8)).
Proof. intros HQ Hl. apply (q_seg _ _ HQ) in Hl. destruct xs as [|x xs]; [apply Hl|apply Hl]. Qed.

Lemma queues_fuel h Q l xs : queues h Q → Q !! l = Some xs → (length xs < heap_fuel h)%nat.
Proof.
  intros HQ Hl. pose proof (q_nodup _ _ HQ _ _ Hl) as Hnd. apply (q_seg _ _ HQ) in Hl.
  unfold heap_fuel. rewrite <- size_dom.
  assert (size (list_to_set (cells l xs) : gset Z) ≤ size (dom h))%nat as Hle.
  { apply subseteq_size. intros a Ha%elem_of_list_to_set. apply elem_of_dom.
    eapply dseg_dom; [done|]. unfold cells in Ha. set_solver. }
  rewrite size_list_to_set in Hle by done. simpl in Hle. lia.
Qed.

Lemma nodup_tail l xs : NoDup (cells l xs) → (l + 8) ∉ xs.
Proof. unfold cells. rewrite !NoDup_cons. set_solver. Qed.

Lemma find_loop_ok fuel h l p xs obj :
  dseg h p xs (l + 8) → (l + 8) ∉ xs → (length xs < fuel)%nat →
  find_loop fuel h l (front xs (l + 8)) obj = Ok (bool_decide (obj ∈ xs)).
Proof.
  revert p xs. induction fuel as [|fuel IH]; intros p xs Hs Ht Hf; [lia|]. simpl. unfold tail_of.
  destruct xs as [|x xs]; simpl.
  - by rewrite Z.eqb_refl.
  - destruct Hs as [_ Hs]. rewrite (proj2 (Z.eqb_neq x _)) by set_solver.
    destruct (Z.eqb_spec x obj) as [->|Hne].
    + rewrite bool_decide_true; set_solver.
    + rewrite (get_next_ok h x (front xs (l + 8))).
      2:{ destruct xs as [|y xs]; [apply Hs|apply Hs]. }
      bsimpl. rewrite (IH x xs) by (done || set_solver || (simpl in Hf; lia)).
      f_equal. apply bool_decide_ext. set_solver.
Qed.

Lemma len_loop_ok fuel h l p xs n :
  dseg h p xs (l + 8) → (l + 8) ∉ xs → (length xs < fuel)%nat → 0 ≤ n →
  n + Z.of_nat (length xs) < 2 ^ 32 →
  len_loop fuel h l (front xs (l + 8)) n = Ok (n + Z.of_nat (length xs)).
Proof.
  revert p xs n. induction fuel as [|fuel IH]; intros p xs n Hs Ht Hf Hn Hb; [lia|]. simpl. unfold tail_of.
  destruct xs as [|x xs]; simpl.
  - rewrite Z.eqb_refl. f_equal. lia.
  - destruct Hs as [_ Hs]. rewrite (proj2 (Z.eqb_neq x _)) by set_solver.
    rewrite (get_next_ok h x (front xs (l + 8))).
    2:{ destruct xs as [|y xs]; [apply Hs|apply Hs]. }
    bsimpl. simpl in *. rewrite u32_small by lia.
    rewrite (IH x xs) by (done || set_solver || lia). f_equal. lia.
Qed.

Section Laws.
Context (h : lheap) (Q : gmap Z (list Z)) (l : Z) (xs : list Z).
Context (HQ : queues h Q) (Hl : Q !! l = Some xs).

Lemma list_append_ok e :
  unlinked Q e → is_Some (h !! e) →
  ∃ h', list_append h l e = Ok h' ∧ queues h' (<[l := xs ++ [e]]> Q) ∧ dom h' = dom h.
Proof. intros. eapply (queues_insert h Q l xs []); try done. by rewrite app_nil_r. Qed.

Lemma list_push_ok e :
  unlinked Q e → is_Some (h !! e) →
  ∃ h', list_push h l e = Ok h' ∧ queues h' (<[l := e :: xs]> Q) ∧ dom h' = dom h.
Proof.
  intros. unfold list_push, head_of. rewrite (get_next_ok _ _ _ (queues_head _ _ _ _ HQ Hl)). bsimpl.
  by eapply (queues_insert h Q l [] xs).
Qed.

Lemma list_pop_ok x ys :
  xs = x :: ys →
  ∃ h', list_pop h l = Ok (x, h') ∧ queues h' (<[l := ys]> Q) ∧ unlinked (<[l := ys]> Q) x ∧ dom h' = dom h.
Proof.
  intros ->. unfold list_pop, head_of. rewrite (get_next_ok _ _ _ (queues_head _ _ _ _ HQ Hl)). bsimpl. simpl.
  destruct (queues_remove h Q l [] x ys HQ Hl) as (h' & -> & ? & ? & ?). bsimpl. by eexists.
Qed.

Lemma list_empty_ok : list_empty h l = Ok (bool_decide (xs = [])).
Proof.
  unfold list_empty, head_of. rewrite (get_next_ok _ _ _ (queues_head _ _ _ _ HQ Hl)). bsimpl. f_equal.
  pose proof (nodup_tail _ _ (q_nodup _ _ HQ _ _ Hl)). unfold tail_of.
  destruct xs as [|x ys]; cbn [front]; [by rewrite Z.eqb_refl|].
  rewrite bool_decide_false by done. apply Z.eqb_neq. set_solver.
Qed.

Lemma elem_find_ok e : elem_find h l e = Ok (bool_decide (e ∈ xs)).
Proof.
  unfold elem_find, head_of. rewrite (get_next_ok _ _ _ (queues_head _ _ _ _ HQ Hl)). bsimpl.
  eapply find_loop_ok; [by apply (q_seg _ _ HQ)| |by eapply queues_fuel].
  apply nodup_tail. by apply (q_nodup _ _ HQ).
Qed.

Lemma list_len_ok : Z.of_nat (length xs) < 2 ^ 32 → list_len h l = Ok (Z.of_nat (length xs)).
Proof.
  intros Hb. unfold list_len, head_of. rewrite (get_next_ok _ _ _ (queues_head _ _ _ _ HQ Hl)). bsimpl.
  eapply len_loop_ok; [by apply (q_seg _ _ HQ)| |by eapply queues_fuel|lia|lia].
  apply nodup_tail. by apply (q_nodup _ _ HQ).
Qed.
End Laws.

Lemma list_init_ok h Q l :
  queues h Q → Q !! l = None → unlinked Q l → unlinked Q (l + 8) →
  is_Some (h !! l) → is_Some (h !! (l + 8)) →
  ∃ h', list_init h l = Ok h' ∧ queues h' (<[l := []]> Q) ∧ dom h' = dom h.
Proof.
  intros HQ Hl Hu1 Hu2 Hd1 Hd2. unfold list_init, head_of, tail_of.
  destruct (set_prev_ok h l NULL Hd1) as (h1 & -> & Hp1 & Hn1 & D1). bsimpl.
  destruct (set_next_ok h1 l (l + 8)) as (h2 & -> & Hn2 & Hp2 & D2); [by eapply is_Some_dom_eq|]. bsimpl.
  destruct (set_prev_ok h2 (l + 8) l) as (h3 & -> & Hp3 & Hn3 & D3);
    [eapply is_Some_dom_eq; [|exact Hd2]; congruence|]. bsimpl.
  destruct (set_next_ok h3 (l + 8) NULL) as (h4 & -> & Hn4 & Hp4 & D4);
    [eapply is_Some_dom_eq; [|exact Hd2]; congruence|].
  exists h4. split_and!; [done| |congruence]. split.
  - intros l' ys. rewrite lookup_insert. case_decide as Hll; [subst l'|]; intros Hy; simplify_eq.
    + split; [rewrite Hn4, Hn3, Hn2, decide_False, decide_True by (done || lia); done|].
      by rewrite Hp4, Hp3, decide_True.
    + apply (queues_other h h4 _ _ [l; l + 8]).
      * by apply (q_seg _ _ HQ).
      * intros a Ha. rewrite Hn4, Hn3, Hn2, Hn1, !decide_False; [done|clear -Ha; set_solver..].
      * intros a Ha. rewrite Hp4, Hp3, Hp2, Hp1, !decide_False; [done|clear -Ha; set_solver..].
      * intros a Ha Hc. assert (a = l ∨ a = l + 8) as [-> | ->] by (clear -Ha; set_solver);
          [by eapply Hu1|by eapply Hu2].
  - intros l' ys. rewrite lookup_insert. case_decide; intros; simplify_eq; [|by apply (q_nodup _ _ HQ)].
    unfold cells. rewrite !NoDup_cons. split_and!; [|set_solver|constructor]. intros Hx.
    apply list_elem_of_singleton in Hx. lia.
  - intros l1 l2 ys1 ys2 a. rewrite !lookup_insert.
    assert (∀ l' ys, Q !! l' = Some ys → a ∈ cells l [] → a ∈ cells l' ys → False) as Hx.
    { intros l' ys Hy Ha Hc. assert (a = l ∨ a = l + 8) as [-> | ->] by (unfold cells in Ha; clear -Ha; set_solver);
        [by eapply Hu1|by eapply Hu2]. }
    repeat case_decide; intros; simplify_eq; try done.
    + exfalso. by eapply (Hx l2).
    + exfalso. by eapply (Hx l1).
    + by eapply (q_sep _ _ HQ).
Qed.

(** Popping an empty list dereferences the NULL behind the tail. *)
Lemma list_pop_empty h Q l :
  queues h Q → Q !! l = Some [] → nxt h (l + 8) = Some NULL → h !! NULL = None → list_pop h l = Fault.
Proof.
  intros HQ Hl Ht H0. pose proof (q_seg _ _ HQ _ _ Hl) as [Hn Hp]. unfold list_pop, head_of.
  rewrite (get_next_ok _ _ _ Hn). bsimpl. unfold list_remove.
  rewrite (get_prev_ok _ _ _ Hp), (get_next_ok _ _ _ Ht). bsimpl.
  assert (is_Some (h !! l)) by (unfold nxt in Hn; destruct (h !! l); by eauto).
  destruct (set_next_ok h l NULL) as (h1 & -> & Hn1 & Hp1 & D1); [done|]. bsimpl.
  rewrite (get_next_ok h1 (l + 8) NULL) by (rewrite Hn1, decide_False by lia; done). bsimpl.
  rewrite (get_prev_ok h1 (l + 8) l) by by rewrite Hp1. bsimpl. unfold set_prev.
  destruct (h1 !! NULL) eqn:E; [|done]. apply elem_of_dom_2 in E. rewrite D1 in E.
  apply elem_of_dom in E as [? ?]. congruence.
Qed.

(** What a traversal does on the sequence of elements: call back on each in
    order until one says stop. *)
Fixpoint traverse {S} (func : Z → K S bool) (xs : list Z) : K S Z :=
  match xs with
  | [] => mret NULL
  | x :: xs => hit ← func x; if (hit : bool) then mret x else traverse func xs
  end.

Lemma traversal_loop_ok {S} (hp : S → lheap) fuel l p xs func s :
  (∀ x s b s', x ∈ xs → func x s = Ok (b, s') → hp s' = hp s) →
  dseg (hp s) p xs (l + 8) → (l + 8) ∉ xs → (length xs < fuel)%nat →
  traversal_loop hp fuel l (front xs (l + 8)) func s = traverse func xs s.
Proof.
  revert p xs s. induction fuel as [|fuel IH]; intros p xs s Hf Hs Ht Hl; [lia|]. simpl. unfold tail_of.
  destruct xs as [|x xs]; simpl; [by rewrite Z.eqb_refl|].
  rewrite (proj2 (Z.eqb_neq x _)) by set_solver. unfold mbind, K_bind.
  destruct (func x s) as [[b s']| | |] eqn:E; [|done..]. destruct b; [done|]. unfold gets, lift.
  assert (hp s' = hp s) as Hh by (eapply Hf; [|done]; set_solver). rewrite Hh. destruct Hs as [_ Hs].
  rewrite (get_next_ok (hp s) x (front xs (l + 8))).
  2:{ destruct xs as [|y xs]; [apply Hs|apply Hs]. }
  bsimpl. apply (IH x); [intros; eapply Hf; [|done]; set_solver|by rewrite Hh|set_solver|simpl in Hl; lia].
Qed.

Lemma list_traversal_ok {S} (hp : S → lheap) Q l xs func s :
  (∀ x s b s', x ∈ xs → func x s = Ok (b, s') → hp s' = hp s) →
  queues (hp s) Q → Q !! l = Some xs →
  list_traversal hp l func s = traverse func xs s.
Proof.
  intros Hf HQ Hl. unfold list_traversal, mbind, K_bind, gets, lift, head_of.
  rewrite (get_next_ok _ _ _ (queues_head _ _ _ _ HQ Hl)). bsimpl.
  rewrite (list_empty_ok _ _ _ _ HQ Hl). bsimpl. case_bool_decide as He; [by subst|].
  apply (traversal_loop_ok hp _ _ l); [done|by apply (q_seg _ _ HQ)| |by eapply queues_fuel].
  apply nodup_tail. by apply (q_nodup _ _ HQ).
Qed.

(** ** The interface of the lists

    What the other components rely on: a store of cells [H] with the
    operations of list.h, and a relation [qrep] to the family of sequences it
    stands for.  [qcell] are the accessible cells; [qzero] is the effect of a
    [memset] to 0 on a cell, which makes it accessible, and no other operation
    changes which cells are. *)

Definition list_zero (h : lheap) (a : Z) : lheap := <[a := ListElem NULL NULL]> h.

Lemma dseg_insert_other h p xs q a e :
  dseg h p xs q → a ∉ p :: q :: xs → dseg (<[a := e]> h) p xs q.
Proof.
  revert p. induction xs as [|x xs IH]; intros p; simpl; intros Hd Ha.
  - unfold link, nxt, prv in *. rewrite !lookup_insert_ne by set_solver. done.
  - destruct Hd as [Hl Hd]. split; [|apply IH; [done|set_solver]].
    unfold link, nxt, prv in *. rewrite !lookup_insert_ne by set_solver. done.
Qed.

(** Clearing the memory of a cell that is in no list. *)
Lemma list_zero_ok h Q a :
  queues h Q → unlinked Q a → queues (list_zero h a) Q ∧ dom (list_zero h a) = {[a]} ∪ dom h.
Proof.
  intros HQ Ha. split; [|apply dom_insert_L]. split.
  - intros l xs Hl. apply dseg_insert_other; [by eapply q_seg|]. specialize (Ha l xs Hl).
    unfold cells in Ha. set_solver.
  - apply HQ.
  - apply HQ.
Qed.

Class Queues (H : Type) := {
  qrep : H → gmap Z (list Z) → Prop;
  qcell : H → gset Z;
  qinit : H → Z → outcome H;
  qpush : H → Z → Z → outcome H;
  qappend : H → Z → Z → outcome H;
  qremove : H → Z → outcome H;
  qpop : H → Z → outcome (Z * H);
  qempty : H → Z → outcome bool;
  qfind : H → Z → Z → outcome bool;
  qtraverse {S} : (S → H) → Z → (Z → K S bool) → K S Z;
  qzero : H → Z → H;
  qinit_spec h Q l : qrep h Q → Q !! l = None → unlinked Q l → unlinked Q (l + 8) →
    l ∈ qcell h → l + 8 ∈ qcell h →
    ∃ h', qinit h l = Ok h' ∧ qrep h' (<[l := []]> Q) ∧ qcell h' = qcell h;
  qpush_spec h Q l xs e : qrep h Q → Q !! l = Some xs → unlinked Q e → e ∈ qcell h →
    ∃ h', qpush h l e = Ok h' ∧ qrep h' (<[l := e :: xs]> Q) ∧ qcell h' = qcell h;
  qappend_spec h Q l xs e : qrep h Q → Q !! l = Some xs → unlinked Q e → e ∈ qcell h →
    ∃ h', qappend h l e = Ok h' ∧ qrep h' (<[l := xs ++ [e]]> Q) ∧ qcell h' = qcell h;
  qremove_spec h Q l xs1 x xs2 : qrep h Q → Q !! l = Some (xs1 ++ x :: xs2) →
    ∃ h', qremove h x = Ok h' ∧ qrep h' (<[l := xs1 ++ xs2]> Q) ∧
          unlinked (<[l := xs1 ++ xs2]> Q) x ∧ qcell h' = qcell h;
  qpop_spec h Q l x xs : qrep h Q → Q !! l = Some (x :: xs) →
    ∃ h', qpop h l = Ok (x, h') ∧ qrep h' (<[l := xs]> Q) ∧ unlinked (<[l := xs]> Q) x ∧ qcell h' = qcell h;
  qempty_spec h Q l xs : qrep h Q → Q !! l = Some xs → qempty h l = Ok (bool_decide (xs = []));
  qfind_spec h Q l xs e : qrep h Q → Q !! l = Some xs → qfind h l e = Ok (bool_decide (e ∈ xs));
  qtraverse_spec {S} (hp : S → H) Q l xs func s : qrep (hp s) Q → Q !! l = Some xs →
    (∀ x s b s', x ∈ xs → func x s = Ok (b, s') → hp s' = hp s) →
    qtraverse hp l func s = traverse func xs s;
  qzero_spec h Q a : qrep h Q → unlinked Q a → qrep (qzero h a) Q ∧ qcell (qzero h a) = {[a]} ∪ qcell h;
}.

#[export] Program Instance list_queues : Queues lheap := {|
  qrep := queues; qcell := dom;
  qinit := list_init; qpush := list_push; qappend := list_append; qremove := list_remove;
  qpop := list_pop; qempty := list_empty; qfind := elem_find;
  qtraverse S := list_traversal; qzero h a := list_zero h a;
|}.
Next Obligation. intros. apply list_init_ok; by try apply elem_of_dom. Qed.
Next Obligation. intros. by apply list_push_ok; try apply elem_of_dom. Qed.
Next Obligation. intros. by apply list_append_ok; try apply elem_of_dom. Qed.
Next Obligation. intros. by apply queues_remove. Qed.
Next Obligation. intros. by eapply list_pop_ok. Qed.
Next Obligation. intros. by eapply list_empty_ok. Qed.
Next Obligation. intros. by eapply elem_find_ok. Qed.
Next Obligation. intros. by eapply list_traversal_ok. Qed.
Next Obligation. intros. by apply list_zero_ok. Qed.

(** ** Properties *)

(** C2: every operation that changes a list refines the operation on
    sequences: on a heap that holds a family of disjoint lists, [list_append]
    and [list_push] of an unlinked cell add it at the end and at the front,
    [list_remove] takes out exactly the given element, [list_pop] the first
    one; each succeeds and all the other lists of the heap stay what they
    are. *)
Theorem list_mutators_refine h Q l xs :
  queues h Q → Q !! l = Some xs →
  (∀ e, unlinked Q e → e ∈ dom h →
     (∃ h', list_append h l e = Ok h' ∧ queues h' (<[l := xs ++ [e]]> Q) ∧ dom h' = dom h) ∧
     (∃ h', list_push h l e = Ok h' ∧ queues h' (<[l := e :: xs]> Q) ∧ dom h' = dom h)) ∧
  (∀ xs1 x xs2, xs = xs1 ++ x :: xs2 →
     ∃ h', list_remove h x = Ok h' ∧ queues h' (<[l := xs1 ++ xs2]> Q) ∧
           unlinked (<[l := xs1 ++ xs2]> Q) x ∧ dom h' = dom h) ∧
  (∀ x ys, xs = x :: ys →
     ∃ h', list_pop h l = Ok (x, h') ∧ queues h' (<[l := ys]> Q) ∧
           unlinked (<[l := ys]> Q) x ∧ dom h' = dom h).
Proof.
  intros HQ Hl. split_and!.
  - intros e Hu He%elem_of_dom. by split; [apply list_append_ok|apply list_push_ok].
  - intros xs1 x xs2 ->. by apply queues_remove.
  - intros. by eapply list_pop_ok.
Qed.

(** The operations that look at a list see its sequence of elements:
    [list_empty] whether it is empty, [elem_find] whether an element is in it,
    [list_len] its length, and [list_traversal] runs its callback on the
    elements in order up to the first that says stop (callbacks that do not
    relink cells). *)
Theorem list_observers_refine {S} (hp : S → lheap) Q l xs s :
  queues (hp s) Q → Q !! l = Some xs →
  list_empty (hp s) l = Ok (bool_decide (xs = [])) ∧
  (∀ e, elem_find (hp s) l e = Ok (bool_decide (e ∈ xs))) ∧
  (Z.of_nat (length xs) < 2 ^ 32 → list_len (hp s) l = Ok (Z.of_nat (length xs))) ∧
  (∀ func, (∀ x s b s', x ∈ xs → func x s = Ok (b, s') → hp s' = hp s) →
     list_traversal hp l func s = traverse func xs s).
Proof.
  intros HQ Hl. split_and!.
  - by eapply list_empty_ok.
  - intros e. by eapply elem_find_ok.
  - by eapply list_len_ok.
  - intros func Hf. by eapply list_traversal_ok.
Qed.

(** Popping an empty list is not caught: it follows the NULL pointer
    behind the tail. *)
Theorem list_pop_empty_faults h Q l :
  queues h Q → Q !! l = Some [] → nxt h (l + 8) = Some NULL → h !! NULL = None →
  list_pop h l = Fault.
Proof. apply list_pop_empty. Qed.

(** ** Witnesses *)

(** A list at 16 with the element 100, and the unlinked cell 200. *)
Definition ex_heap : lheap :=
  {[ 16 := ListElem 0 100; 24 := ListElem 100 0; 100 := ListElem 16 24; 200 := ListElem 0 0 ]}.

Lemma ex_heap_queues : queues ex_heap {[ 16 := [100] ]}.
Proof.
  split.
  - intros l xs [<- <-]%lookup_singleton_Some. simpl. done.
  - intros l xs [<- <-]%lookup_singleton_Some. unfold cells. rewrite !NoDup_cons.
    split_and!; [set_solver..|constructor].
  - intros l1 l2 xs1 xs2 a [<- <-]%lookup_singleton_Some [<- <-]%lookup_singleton_Some. done.
Qed.

Lemma list_mutators_refine_witness :
  ∃ h', list_append ex_heap 16 200 = Ok h' ∧ queues h' {[ 16 := [100; 200] ]} ∧ dom h' = dom ex_heap.
Proof.
  destruct (list_mutators_refine ex_heap {[ 16 := [100] ]} 16 [100] ex_heap_queues eq_refl) as [H _].
  destruct (H 200) as [(h' & Hok & Hq & Hd) _].
  - intros l xs [<- <-]%lookup_singleton_Some. unfold cells. set_solver.
  - apply elem_of_dom. by eexists.
  - exists h'. split_and!; done.
Defined.

Lemma list_observers_refine_witness :
  list_empty ex_heap 16 = Ok false ∧ elem_find ex_heap 16 100 = Ok true ∧ list_len ex_heap 16 = Ok 1.
Proof.
  destruct (list_observers_refine id {[ 16 := [100] ]} 16 [100] ex_heap ex_heap_queues eq_refl)
    as (H1 & H2 & H3 & _).
  split_and!; [exact H1|exact (H2 100)|apply H3; reflexivity].
Defined.

Lemma list_pop_empty_faults_witness :
  list_pop {[ 16 := ListElem 0 24; 24 := ListElem 16 0 ]} 16 = Fault.
Proof.
  apply (list_pop_empty_faults _ {[ 16 := [] ]}); [|reflexivity..]. split.
  - intros l xs [<- <-]%lookup_singleton_Some. done.
  - intros l xs [<- <-]%lookup_singleton_Some. unfold cells. rewrite !NoDup_cons.
    split_and!; [set_solver..|constructor].
  - intros l1 l2 xs1 xs2 a [<- <-]%lookup_singleton_Some [<- <-]%lookup_singleton_Some. done.
Defined.
