(* ===== verification/PageTable.v ===== *)
(** * Page tables (pte_ptr, pde_ptr and addr_v2p of src/mm/memory.c)

    [phys] is the part of physical memory that holds page directories and page
    tables, as 32-bit words by physical address.  [translate] is what the
    processor does with a virtual address: the two-level walk from the page
    directory in [cr3].  The kernel reads and writes its own page tables
    through virtual addresses: the last entry of every page directory points
    to the directory itself, so that [pde_ptr] and [pte_ptr] compute virtual
    addresses at which the entries appear.  The theorems show that these
    addresses do reach the entries the processor uses. *)

From S2P Require Import Prelude.

Definition PG_SIZE : Z := 4096.
Definition PG_P_1 : Z := 1.
Definition PG_RW_W : Z := 2.
Definition PG_US_U : Z := 4.

Abbreviation pmem := (gmap Z Z).

Definition PDE_IDX (addr : Z) : Z := Z.shiftr (Z.land addr 0xffc00000) 22.
Definition PTE_IDX (addr : Z) : Z := Z.shiftr (Z.land addr 0x003ff000) 12.

Definition pte_ptr (vaddr : Z) : Z :=
  u32 (0xffc00000 + Z.shiftr (Z.land vaddr 0xffc00000) 10 + PTE_IDX vaddr * 4).

Definition pde_ptr (vaddr : Z) : Z := u32 (0xfffff000 + PDE_IDX vaddr * 4).

(** ** The processor's walk *)

Definition present (e : Z) : bool := negb (Z.land e 0x00000001 =? 0).

Definition translate (phys : pmem) (cr3 va : Z) : option Z :=
  pde ← phys !! (cr3 + va / 2 ^ 22 * 4);
  if present pde then
    pte ← phys !! (Z.land pde 0xfffff000 + (va / 2 ^ 12) mod 2 ^ 10 * 4);
    if present pte then Some (Z.land pte 0xfffff000 + va mod 2 ^ 12) else None
  else None.

(** A 32-bit load and store at a virtual address ([*p] and [*p = v]). *)
Definition vload (phys : pmem) (cr3 va : Z) : outcome Z :=
  pa ← deref (translate phys cr3 va); deref (phys !! pa).
Definition vstore (phys : pmem) (cr3 va v : Z) : outcome pmem :=
  pa ← deref (translate phys cr3 va); _ ← deref (phys !! pa); Ok (<[pa := u32 v]> phys).

Definition addr_v2p (phys : pmem) (cr3 vaddr : Z) : outcome Z :=
  pte ← vload phys cr3 (pte_ptr vaddr);
  Ok (u32 (Z.land pte 0xfffff000 + Z.land vaddr 0x00000fff)).

(** ** Page directories that map themselves *)

(** [cr3] is a page directory whose last entry points to itself, as the loader
    and [create_page_dir] leave it. *)
Record self_mapped (phys : pmem) (cr3 : Z) : Prop := {
  sm_aligned : cr3 mod 4096 = 0;
  sm_range : 0 ≤ cr3 < 2 ^ 32;
  sm_last : phys !! (cr3 + 4092) = Some (cr3 + 7);
}.

(** The physical addresses of the entries of a virtual address. *)
Definition pde_addr (cr3 va : Z) : Z := cr3 + va / 2 ^ 22 * 4.
Definition pte_addr (pde va : Z) : Z := Z.land pde 0xfffff000 + (va / 2 ^ 12) mod 2 ^ 10 * 4.

Lemma PDE_IDX_eq v : 0 ≤ v < 2 ^ 32 → PDE_IDX v = v / 2 ^ 22.
Proof.
  intros. unfold PDE_IDX. rewrite land_ffc00000, Z.shiftr_div_pow2 by lia. rewrite Z.div_mul; lia.
Qed.
Lemma PTE_IDX_eq v : PTE_IDX v = (v / 2 ^ 12) mod 2 ^ 10.
Proof.
  unfold PTE_IDX. rewrite land_003ff000, Z.shiftr_div_pow2 by lia.
  change (2 ^ 12) with 4096. rewrite Z.div_mul; [done|lia].
Qed.

Lemma pde_idx_range v : 0 ≤ v < 2 ^ 32 → 0 ≤ v / 2 ^ 22 < 1024.
Proof. change (2 ^ 22) with 4194304. dm. Qed.
Lemma pte_idx_range v : 0 ≤ (v / 2 ^ 12) mod 2 ^ 10 < 1024.
Proof. change (2 ^ 10) with 1024. apply Z.mod_pos_bound. lia. Qed.

Lemma pde_ptr_eq v : 0 ≤ v < 2 ^ 32 → pde_ptr v = 0xfffff000 + v / 2 ^ 22 * 4.
Proof.
  intros Hv. unfold pde_ptr. rewrite PDE_IDX_eq by done. pose proof (pde_idx_range v Hv).
  rewrite u32_small; lia.
Qed.
Lemma pte_ptr_eq v : 0 ≤ v < 2 ^ 32 →
  pte_ptr v = 0xffc00000 + v / 2 ^ 22 * 4096 + (v / 2 ^ 12) mod 2 ^ 10 * 4.
Proof.
  intros Hv. unfold pte_ptr. rewrite PTE_IDX_eq, land_ffc00000, Z.shiftr_div_pow2 by lia.
  replace (v / 2 ^ 22 * 2 ^ 22 / 2 ^ 10) with (v / 2 ^ 22 * 4096).
  2:{ change (2 ^ 22) with (4096 * 2 ^ 10). rewrite Z.mul_assoc, Z.div_mul; lia. }
  pose proof (pde_idx_range v Hv). pose proof (pte_idx_range v). rewrite u32_small; lia.
Qed.

Lemma self_entry cr3 : cr3 mod 4096 = 0 → 0 ≤ cr3 < 2 ^ 32 →
  present (cr3 + 7) = true ∧ Z.land (cr3 + 7) 0xfffff000 = cr3.
Proof.
  intros Ha Hr. split.
  - unfold present. rewrite land_1. apply negb_true_iff, Z.eqb_neq. dm.
  - rewrite land_fffff000 by dm. dm.
Qed.

Lemma translate_pde_ptr phys cr3 v :
  self_mapped phys cr3 → 0 ≤ v < 2 ^ 32 → translate phys cr3 (pde_ptr v) = Some (pde_addr cr3 v).
Proof.
  intros [Ha Hr Hl] Hv. pose proof (pde_idx_range v Hv) as Hi. rewrite pde_ptr_eq by done.
  destruct (self_entry cr3 Ha Hr) as [Hp He]. unfold translate, pde_addr.
  set (i := v / 2 ^ 22) in *.
  replace ((0xfffff000 + i * 4) / 2 ^ 22) with 1023 by (change (2 ^ 22) with 4194304; dm).
  change (1023 * 4) with 4092. rewrite Hl. cbn -[Z.land Z.div Z.modulo]. rewrite Hp, He.
  replace ((0xfffff000 + i * 4) / 2 ^ 12 mod 2 ^ 10) with 1023 by (change (2 ^ 12) with 4096; change (2 ^ 10) with 1024; dm).
  change (1023 * 4) with 4092. rewrite Hl. cbn -[Z.land Z.div Z.modulo]. rewrite Hp, He.
  f_equal. change (2 ^ 12) with 4096. dm.
Qed.

Lemma translate_pte_ptr phys cr3 v pde :
  self_mapped phys cr3 → 0 ≤ v < 2 ^ 32 → phys !! pde_addr cr3 v = Some pde → present pde = true →
  translate phys cr3 (pte_ptr v) = Some (pte_addr pde v).
Proof.
  intros [Ha Hr Hl] Hv Hpde Hpr. pose proof (pde_idx_range v Hv) as Hi. pose proof (pte_idx_range v) as Hj.
  rewrite pte_ptr_eq by done. unfold pde_addr in Hpde. unfold translate, pte_addr.
  destruct (self_entry cr3 Ha Hr) as [Hp He].
  set (i := v / 2 ^ 22) in *. set (j := (v / 2 ^ 12) mod 2 ^ 10) in *.
  replace ((0xffc00000 + i * 4096 + j * 4) / 2 ^ 22) with 1023 by (change (2 ^ 22) with 4194304; dm).
  change (1023 * 4) with 4092. rewrite Hl. cbn -[Z.land Z.div Z.modulo]. rewrite Hp, He.
  replace ((0xffc00000 + i * 4096 + j * 4) / 2 ^ 12 mod 2 ^ 10) with i
    by (change (2 ^ 12) with 4096; change (2 ^ 10) with 1024; dm).
  rewrite Hpde. cbn -[Z.land Z.div Z.modulo]. rewrite Hpr. f_equal. change (2 ^ 12) with 4096. dm.
Qed.

(** ** Updates of the tables

    The part of the address space above the first 4 MB (whose table the
    loader shares with the kernel's first table) and below the window in which
    the tables themselves appear. *)

Definition managed (va : Z) : Prop := 0x400000 ≤ va < 0xffc00000.
Definition frame (e : Z) : Z := Z.land e 0xfffff000.
Definition same_page (va va' : Z) : Prop := va / 4096 = va' / 4096.
#[export] Instance same_page_dec va va' : Decision (same_page va va').
Proof. unfold same_page. apply _. Defined.

(** The tables of the directory [c] are all there, are pages of their own, and
    no two entries share one. *)
Record tables_ok (m : pmem) (c : Z) : Prop := {
  t_self : self_mapped m c;
  t_words : ∀ a e, m !! a = Some e → 0 ≤ e < 2 ^ 32;
  t_dir : ∀ i, 0 ≤ i < 1024 → is_Some (m !! (c + i * 4));
  t_table : ∀ i pde, 1 ≤ i < 1023 → m !! (c + i * 4) = Some pde → present pde = true →
    frame pde ≠ c ∧ ∀ k, 0 ≤ k < 1024 → is_Some (m !! (frame pde + k * 4));
  t_inj : ∀ i j pi pj, 1 ≤ i < 1023 → 1 ≤ j < 1023 → m !! (c + i * 4) = Some pi →
    m !! (c + j * 4) = Some pj → present pi = true → present pj = true →
    frame pi = frame pj → i = j;
}.

Lemma frame_aligned e : 0 ≤ e < 2 ^ 32 → frame e mod 4096 = 0.
Proof. intros. unfold frame. rewrite land_fffff000 by done. dm. Qed.
Lemma frame_range e : 0 ≤ e < 2 ^ 32 → 0 ≤ frame e < 2 ^ 32.
Proof. intros. unfold frame. rewrite land_fffff000 by done. dm. Qed.

(** Words of two pages are at the same address only for the same page. *)
Lemma page_word_inj f g i j :
  f mod 4096 = 0 → g mod 4096 = 0 → 0 ≤ i < 1024 → 0 ≤ j < 1024 → f + i * 4 = g + j * 4 → f = g ∧ i = j.
Proof. intros. dm. Qed.

Lemma managed_pde_idx va : managed va → 1 ≤ va / 2 ^ 22 < 1023.
Proof. unfold managed. change (2 ^ 22) with 4194304. dm. Qed.

(** The entry that the code writes for the page at [f]. *)
Lemma entry_7 f : 0 ≤ f < 2 ^ 32 → f mod 4096 = 0 →
  Z.lor (Z.lor (Z.lor f PG_US_U) PG_RW_W) PG_P_1 = f + 7.
Proof.
  intros Hf Ha. unfold PG_US_U, PG_RW_W, PG_P_1. rewrite <- !Z.lor_assoc. change (Z.lor 4 (Z.lor 2 1)) with 7.
  apply Z.bits_inj'. intros i Hi. rewrite Z.lor_spec.
  assert (f = Z.shiftl (f / 4096) 12) as E by (rewrite Z.shiftl_mul_pow2 by lia; dm).
  rewrite (Z.add_nocarry_lxor f 7), Z.lxor_spec.
  - destruct (Z.testbit f i) eqn:Ef, (Z.testbit 7 i) eqn:E7; try done. exfalso.
    destruct (decide (i < 12)).
    + rewrite E, Z.shiftl_spec_low in Ef by lia. done.
    + rewrite Z.bits_above_log2 in E7; [done|lia|]. change (Z.log2 7) with 2. lia.
  - apply Z.bits_inj'. intros j Hj. rewrite Z.land_spec, Z.bits_0.
    destruct (decide (j < 12)).
    + rewrite E, Z.shiftl_spec_low by lia. done.
    + rewrite (Z.bits_above_log2 7); [apply andb_false_r|lia|]. change (Z.log2 7) with 2. lia.
Qed.

(** The walk, in terms of the entries. *)
Lemma translate_walk m c va pde :
  m !! pde_addr c va = Some pde →
  translate m c va =
    if present pde then
      pte ← m !! pte_addr pde va;
      if present pte then Some (frame pte + va mod 4096) else None
    else None.
Proof. intros Hp. unfold translate. unfold pde_addr in Hp. by rewrite Hp. Qed.

Lemma managed_pde m c va : tables_ok m c → managed va → ∃ pde, m !! pde_addr c va = Some pde.
Proof.
  intros T Hv. apply managed_pde_idx in Hv. destruct (t_dir _ _ T (va / 2 ^ 22)) as [pde Hp]; [lia|].
  by exists pde.
Qed.

Lemma managed_pte m c va pde :
  tables_ok m c → managed va → m !! pde_addr c va = Some pde → present pde = true →
  ∃ pte, m !! pte_addr pde va = Some pte.
Proof.
  intros T Hv Hp Hpr. apply managed_pde_idx in Hv.
  destruct (t_table _ _ T _ _ Hv Hp Hpr) as [_ Hk]. destruct (Hk _ (pte_idx_range va)) as [pte Hpte].
  by exists pte.
Qed.

(** Two addresses with the same entries are on the same page. *)
Lemma same_page_idx va va' :
  va / 2 ^ 22 = va' / 2 ^ 22 → (va / 2 ^ 12) mod 2 ^ 10 = (va' / 2 ^ 12) mod 2 ^ 10 → same_page va va'.
Proof.
  unfold same_page. change (2 ^ 22) with 4194304. change (2 ^ 12) with 4096. change (2 ^ 10) with 1024. dm.
Qed.
Lemma same_page_idx_1 va va' :
  same_page va va' → va / 2 ^ 22 = va' / 2 ^ 22 ∧ (va / 2 ^ 12) mod 2 ^ 10 = (va' / 2 ^ 12) mod 2 ^ 10.
Proof.
  unfold same_page. change (2 ^ 22) with 4194304. change (2 ^ 12) with 4096. change (2 ^ 10) with 1024.
  intros E. rewrite E. split; [|done]. dm.
Qed.

Lemma pte_addr_not_dir m c va pde i :
  tables_ok m c → managed va → m !! pde_addr c va = Some pde → present pde = true →
  0 ≤ i < 1024 → pte_addr pde va ≠ c + i * 4.
Proof.
  intros T Hv Hp Hpr Hi E. destruct (t_table _ _ T _ _ (managed_pde_idx _ Hv) Hp Hpr) as [Hf _].
  apply (page_word_inj (frame pde) c) in E as [E _]; [done|apply frame_aligned, (t_words _ _ T _ _ Hp)|
    apply (t_self _ _ T)|apply pte_idx_range|done].
Qed.

(** Writing the table entry of [va] changes the translation of its page only. *)
Lemma translate_set_pte m c va pde e va' :
  tables_ok m c → managed va → managed va' → m !! pde_addr c va = Some pde → present pde = true →
  translate (<[pte_addr pde va := e]> m) c va' =
    if decide (same_page va va') then (if present e then Some (frame e + va' mod 4096) else None)
    else translate m c va'.
Proof.
  intros T Hv Hv' Hp Hpr. destruct (managed_pde m c va' T Hv') as [pde' Hp'].
  pose proof (managed_pde_idx _ Hv) as Hi. pose proof (managed_pde_idx _ Hv') as Hi'.
  assert (<[pte_addr pde va := e]> m !! pde_addr c va' = Some pde') as Hp2.
  { rewrite lookup_insert_ne; [done|]. eapply pte_addr_not_dir; [done..|]. lia. }
  rewrite (translate_walk _ _ _ _ Hp2), (translate_walk _ _ _ _ Hp').
  destruct (decide (same_page va va')) as [Hs|Hs].
  - apply same_page_idx_1 in Hs as [E1 E2].
    assert (pde' = pde) as ->. { unfold pde_addr in *. rewrite E1 in Hp. congruence. }
    rewrite Hpr. assert (pte_addr pde va' = pte_addr pde va) as -> by (unfold pte_addr; by rewrite E2).
    by rewrite lookup_insert_eq.
  - destruct (present pde') eqn:Hpr'; [|done]. rewrite lookup_insert_ne; [done|].
    intros E. apply Hs. apply (page_word_inj (frame pde) (frame pde')) in E as [Ef Ei];
      [|apply frame_aligned, (t_words _ _ T _ _ Hp)|apply frame_aligned, (t_words _ _ T _ _ Hp')|apply pte_idx_range..].
    apply same_page_idx; [|done]. by eapply (t_inj _ _ T).
Qed.

Lemma tables_ok_set_pte m c va pde e :
  tables_ok m c → managed va → m !! pde_addr c va = Some pde → present pde = true → 0 ≤ e < 2 ^ 32 →
  tables_ok (<[pte_addr pde va := e]> m) c.
Proof.
  intros T Hv Hp Hpr He.
  assert (∀ i, 0 ≤ i < 1024 → <[pte_addr pde va := e]> m !! (c + i * 4) = m !! (c + i * 4)) as Hdir.
  { intros i Hi. apply lookup_insert_ne. by eapply pte_addr_not_dir. }
  split.
  - destruct (t_self _ _ T) as [? ? Hl]. split; [done..|].
    pose proof (Hdir 1023 ltac:(lia)) as E. change (1023 * 4) with 4092 in E. by rewrite E.
  - intros a e' [[_ <-]|[_ Ha]]%lookup_insert_Some; [done|by eapply t_words].
  - intros i Hi. rewrite Hdir by done. by apply T.
  - intros i pde'. intros Hi. rewrite Hdir by lia. intros Hp' Hpr'. destruct (t_table _ _ T _ _ Hi Hp' Hpr') as [? Hk].
    split; [done|]. intros k Hk'. rewrite lookup_insert_is_Some'. right. by apply Hk.
  - intros i j p1 p2 Hi Hj. rewrite !Hdir by lia. by apply T.
Qed.

(** Zeroed words, and a new table. *)
Fixpoint zero_words (n : nat) (a : Z) (m : pmem) : pmem :=
  match n with
  | O => m
  | S n => zero_words n (a + 4) (<[a := 0]> m)
  end.

Lemma zero_words_lookup n : ∀ a m b,
  zero_words n a m !! b =
    if decide (a ≤ b < a + Z.of_nat n * 4 ∧ (b - a) mod 4 = 0) then Some 0 else m !! b.
Proof.
  induction n as [|n IH]; intros a m b; simpl.
  - rewrite decide_False; [done|]. lia.
  - rewrite IH. destruct (decide (b = a)) as [->|Hne].
    + rewrite lookup_insert_eq, (decide_True (P := a ≤ a < _ ∧ _)) by dm. by destruct (decide _).
    + rewrite lookup_insert_ne by done. destruct (decide (a + 4 ≤ b < _ ∧ _)) as [Hd|Hd].
      * rewrite decide_True; [done|]. dm.
      * rewrite decide_False; [done|]. contradict Hd. dm.
Qed.

(** [f] is a page of memory that is no table of [c]. *)
Record fresh_frame (m : pmem) (c f : Z) : Prop := {
  ff_aligned : f mod 4096 = 0;
  ff_range : 0 ≤ f < 2 ^ 32 - 4096;
  ff_words : ∀ k, 0 ≤ k < 1024 → is_Some (m !! (f + k * 4));
  ff_dir : f ≠ c;
  ff_new : ∀ i pde, 1 ≤ i < 1023 → m !! (c + i * 4) = Some pde → present pde = true → frame pde ≠ f;
}.

(** The memory with the zeroed table [f] entered for [va]. *)
Definition new_table (m : pmem) (c va f : Z) : pmem :=
  zero_words 1024 f (<[pde_addr c va := f + 7]> m).

Lemma new_table_lookup_frame m c va f k : 0 ≤ k < 1024 → new_table m c va f !! (f + k * 4) = Some 0.
Proof. intros Hk. unfold new_table. rewrite zero_words_lookup, decide_True; [done|]. dm. Qed.

Lemma new_table_lookup_other m c va f a :
  (∀ k, 0 ≤ k < 1024 → a ≠ f + k * 4) →
  new_table m c va f !! a = <[pde_addr c va := f + 7]> m !! a.
Proof.
  intros Ha. unfold new_table. rewrite zero_words_lookup, decide_False; [done|].
  intros [Hr Hm]. apply (Ha ((a - f) / 4)); dm.
Qed.

Lemma new_table_dir m c va f i :
  self_mapped m c → fresh_frame m c f → managed va → 0 ≤ i < 1024 →
  new_table m c va f !! (c + i * 4) = if decide (i = va / 2 ^ 22) then Some (f + 7) else m !! (c + i * 4).
Proof.
  intros Hs F Hv Hi. apply managed_pde_idx in Hv. rewrite new_table_lookup_other.
  - unfold pde_addr. destruct (decide _) as [->|Hne]; [apply lookup_insert_eq|apply lookup_insert_ne; lia].
  - intros k Hk E. apply page_word_inj in E as [E _]; [|apply Hs|apply F|done..]. by apply (ff_dir _ _ _ F).
Qed.

Lemma frame_entry f : f mod 4096 = 0 → 0 ≤ f < 2 ^ 32 - 4096 → present (f + 7) = true ∧ frame (f + 7) = f.
Proof. intros. apply self_entry; [done|lia]. Qed.

Lemma tables_ok_new_table m c va f :
  tables_ok m c → fresh_frame m c f → managed va → tables_ok (new_table m c va f) c.
Proof.
  intros T F Hv. pose proof (managed_pde_idx _ Hv) as Hi. destruct (t_self _ _ T) as [Hca Hcr Hl] eqn:Es.
  destruct (frame_entry f) as [Hpf Hff]; [apply F|apply F|].
  assert (∀ a, is_Some (m !! a) → is_Some (new_table m c va f !! a)) as Hmono.
  { intros a Ha. unfold new_table. rewrite zero_words_lookup. destruct (decide _); [by eexists|].
    rewrite lookup_insert_is_Some'. by right. }
  pose proof (λ i, new_table_dir m c va f i (t_self _ _ T) F Hv) as Hdir.
  split.
  - split; [done..|]. pose proof (Hdir 1023 ltac:(lia)) as E. change (1023 * 4) with 4092 in E.
    rewrite E, decide_False by lia. done.
  - intros a e. unfold new_table. rewrite zero_words_lookup. destruct (decide _); [intros [= <-]; lia|].
    intros [[_ <-]|[_ Ha]]%lookup_insert_Some; [pose proof (ff_range _ _ _ F); lia|by eapply t_words].
  - intros i Hir. by apply Hmono, T.
  - intros i pde Hir. rewrite Hdir by lia. destruct (decide _) as [->|Hne].
    + intros [= <-] _. rewrite Hff. split; [apply F|]. intros k Hk. apply Hmono. by apply F.
    + intros Hp Hpr. destruct (t_table _ _ T _ _ Hir Hp Hpr) as [? Hk]. split; [done|]. intros. by apply Hmono, Hk.
  - intros i j pi pj Hir Hjr. rewrite !Hdir by lia.
    destruct (decide (i = _)) as [->|Hne], (decide (j = _)) as [->|Hne']; [done|..].
    + intros [= <-] Hp _ Hpr. rewrite Hff. intros E. by destruct (ff_new _ _ _ F _ _ Hjr Hp Hpr).
    + intros Hp [= <-] Hpr _. rewrite Hff. intros E. by destruct (ff_new _ _ _ F _ _ Hir Hp Hpr).
    + by apply T.
Qed.

(** A new table changes no translation: its 4 MB had none, and has none. *)
Lemma translate_new_table m c va f va' pde :
  tables_ok m c → fresh_frame m c f → managed va → managed va' →
  m !! pde_addr c va = Some pde → present pde = false →
  translate (new_table m c va f) c va' = translate m c va'.
Proof.
  intros T F Hv Hv' Hp Hpr. pose proof (managed_pde_idx _ Hv) as Hi. pose proof (managed_pde_idx _ Hv') as Hi'.
  destruct (frame_entry f) as [Hpf Hff]; [apply F|apply F|].
  destruct (managed_pde m c va' T Hv') as [pde' Hp'].
  pose proof (new_table_dir m c va f (va' / 2 ^ 22) (t_self _ _ T) F Hv ltac:(lia)) as Hd.
  rewrite (translate_walk _ _ _ _ Hp'). destruct (decide (va' / 2 ^ 22 = va / 2 ^ 22)) as [E|Hne].
  - rewrite (translate_walk _ _ _ _ Hd), Hpf. unfold pte_addr. fold (frame (f + 7)). rewrite Hff.
    rewrite new_table_lookup_frame by apply pte_idx_range. simpl.
    assert (pde' = pde) as -> by (unfold pde_addr in *; rewrite E in Hp'; congruence). by rewrite Hpr.
  - unfold pde_addr in Hp'. rewrite Hp' in Hd. rewrite (translate_walk _ _ _ _ Hd).
    destruct (present pde') eqn:Hpr'; [|done].
    destruct (t_table _ _ T _ _ Hi' Hp' Hpr') as [Hfc _].
    assert (new_table m c va f !! pte_addr pde' va' = m !! pte_addr pde' va') as ->; [|done].
    rewrite new_table_lookup_other.
    + apply lookup_insert_ne. unfold pde_addr. intros E. symmetry in E. revert E.
      eapply (pte_addr_not_dir m c va' pde' (va / 2 ^ 22)); [done..|lia].
    + intros k Hk E. apply (page_word_inj (frame pde') f) in E as [E _];
        [|apply frame_aligned, (t_words _ _ T _ _ Hp')|apply F|apply pte_idx_range|done].
      by destruct (ff_new _ _ _ F _ _ Hi' Hp' Hpr').
Qed.

Lemma new_table_eq m c va f : new_table m c va f = zero_words 1024 f (<[pde_addr c va := f + 7]> m).
Proof. done. Qed.
#[global] Opaque new_table.

(** ** Properties *)

(** In a page directory that maps itself, dereferencing [pde_ptr v] and
    [pte_ptr v] reads exactly the directory entry and the table entry that the
    processor uses for [v]. *)
Theorem recursive_mapping phys cr3 v pde pte :
  self_mapped phys cr3 → 0 ≤ v < 2 ^ 32 →
  phys !! pde_addr cr3 v = Some pde → present pde = true → phys !! pte_addr pde v = Some pte →
  vload phys cr3 (pde_ptr v) = Ok pde ∧ vload phys cr3 (pte_ptr v) = Ok pte.
Proof.
  intros Hs Hv Hpde Hp Hpte. unfold vload.
  rewrite translate_pde_ptr by done. rewrite (translate_pte_ptr _ _ _ pde) by done.
  bsimpl. by rewrite Hpde, Hpte.
Qed.

(** [addr_v2p] agrees with the processor: for a mapped virtual address it
    returns the physical address the processor computes. *)
Theorem addr_v2p_translate phys cr3 v pa :
  self_mapped phys cr3 → 0 ≤ v < 2 ^ 32 → (∀ a e, phys !! a = Some e → 0 ≤ e < 2 ^ 32) →
  translate phys cr3 v = Some pa → addr_v2p phys cr3 v = Ok pa.
Proof.
  intros Hs Hv Hw Ht. unfold addr_v2p, vload. unfold translate in Ht.
  destruct (phys !! (cr3 + v / 2 ^ 22 * 4)) as [pde|] eqn:Hpde; simplify_eq/=.
  destruct (present pde) eqn:Hp; [|done].
  destruct (phys !! _) as [pte|] eqn:Hpte in Ht; simplify_eq/=.
  destruct (present pte) eqn:Hp'; simplify_eq/=.
  rewrite (translate_pte_ptr _ _ _ pde) by done. bsimpl. unfold pte_addr. rewrite Hpte. bsimpl.
  f_equal. rewrite land_00000fff. pose proof (Hw _ _ Hpte). rewrite land_fffff000 by done.
  change (2 ^ 12) with 4096. rewrite u32_small; [done|dm].
Qed.

(** Memory from 1 MB on with the words that a function gives. *)
Lemma words_lookup (word : Z → Z) n a :
  (list_to_map ((λ k, (0x100000 + k * 4, word (0x100000 + k * 4))) <$> seqZ 0 n) : pmem) !! a =
  if decide (0x100000 ≤ a < 0x100000 + 4 * n ∧ a mod 4 = 0) then Some (word a) else None.
Proof.
  set (l := _ <$> _).
  assert (∀ x, (a, x) ∈ l ↔ x = word a ∧ 0x100000 ≤ a < 0x100000 + 4 * n ∧ a mod 4 = 0) as Hl.
  { intros x. unfold l. rewrite list_elem_of_fmap. setoid_rewrite elem_of_seqZ. split.
    - intros (k & [= -> ->] & Hk). split; [done|]. split; [lia|]. replace (1048576 + k * 4) with ((262144 + k) * 4) by lia. by apply Z.mod_mul.
    - intros (-> & Ha & Hm). exists ((a - 0x100000) / 4). assert (0x100000 + (a - 0x100000) / 4 * 4 = a) as -> by dm. split; [done|dm]. }
  destruct (decide _) as [Ha|Ha].
  - apply elem_of_list_to_map_1'; [intros y [-> _]%Hl; done|by apply Hl].
  - apply not_elem_of_list_to_map_1. intros ((a' & x) & Ea & Hin)%list_elem_of_fmap. simpl in Ea. subst a'. apply Hl in Hin. tauto.
Qed.

(** ** Witnesses *)

(** The loader's page directory at 0x100000, with the first page of the kernel
    mapped to the first page of memory. *)
Definition ex_phys : pmem :=
  {[ 0x100000 + 4092 := 0x100007; 0x100000 + 3072 := 0x101007; 0x101000 := 0x7 ]}.

Lemma ex_self_mapped : self_mapped ex_phys 0x100000.
Proof. split; by vm_compute. Qed.

Lemma recursive_mapping_witness :
  vload ex_phys 0x100000 (pde_ptr 0xc0000000) = Ok 0x101007 ∧
  vload ex_phys 0x100000 (pte_ptr 0xc0000000) = Ok 0x7.
Proof.
  apply (recursive_mapping ex_phys 0x100000 0xc0000000).
  - apply ex_self_mapped.
  - lia.
  - by vm_compute.
  - by vm_compute.
  - by vm_compute.
Defined.

Lemma addr_v2p_translate_witness : addr_v2p ex_phys 0x100000 0xc0000b00 = Ok 0xb00.
Proof.
  apply (addr_v2p_translate ex_phys 0x100000 0xc0000b00).
  - apply ex_self_mapped.
  - lia.
  - intros a e Ha. map_cases Ha; lia.
  - by vm_compute.
Defined.
