(* ===== verification/Disk.v ===== *)
(** * Sectors and on-disk structures (src/include/fs/inode.h, super_block.h, dir.h)

    A disk is a map from sector numbers to 512 bytes.  [disk_read] and
    [disk_write] are what the file system needs of the driver; Ide.v shows
    when the driver provides it: for single sectors, and for reading several
    from a drive that does not pause between them.  Structures are stored as C lays them out:
    32-bit words in little-endian order, with the file name of a directory
    entry as 16 bytes. *)

From S2P Require Import Prelude CString Bitmap.

Definition SECTOR_SIZE : Z := 512.
Definition BLOCK_SIZE : Z := SECTOR_SIZE.
(** (80 * 1024 * 1024 / 512) - 1. *)
Definition max_lba : Z := 80 * 1024 * 1024 / 512 - 1.

Abbreviation sectors := (gmap Z (list Z)).

(** ** Runs of sectors *)

Fixpoint read_run (d : sectors) (lba : Z) (n : nat) : option (list Z) :=
  match n with
  | O => Some []
  | S n => s ← d !! lba; rest ← read_run d (lba + 1) n; Some (s ++ rest)
  end.

(** The sectors exist already; a write replaces them. *)
Fixpoint write_run (d : sectors) (lba : Z) (n : nat) (bs : list Z) : option sectors :=
  match n with
  | O => Some d
  | S n =>
      _ ← d !! lba;
      if bool_decide (length (take 512 bs) = 512%nat)
      then write_run (<[lba := take 512 bs]> d) (lba + 1) n (drop 512 bs) else None
  end.

Definition disk_read (d : sectors) (lba sec_cnt : Z) : outcome (list Z) :=
  ASSERT (lba <=? max_lba) ;; ASSERT (0 <? sec_cnt) ;;
  deref (read_run d lba (Z.to_nat sec_cnt)).

Definition disk_write (d : sectors) (lba : Z) (bs : list Z) (sec_cnt : Z) : outcome sectors :=
  ASSERT (lba <=? max_lba) ;; ASSERT (0 <? sec_cnt) ;;
  deref (write_run d lba (Z.to_nat sec_cnt) bs).

(** Every sector has 512 bytes. *)
Definition sectors_ok (d : sectors) : Prop :=
  ∀ lba s, d !! lba = Some s → length s = 512%nat ∧ Forall (λ b, 0 ≤ b < 256) s.

(** ** Words *)

Definition le32 (w : Z) : list Z := [w mod 256; w / 256 mod 256; w / 65536 mod 256; w / 16777216 mod 256].
Definition un32 (bs : list Z) : Z :=
  match bs with
  | [a; b; c; d] => a + 256 * b + 65536 * c + 16777216 * d
  | _ => 0
  end.

Definition words_bytes (ws : list Z) : list Z := concat (le32 <$> ws).
Fixpoint bytes_words (bs : list Z) : list Z :=
  match bs with
  | a :: b :: c :: d :: bs => un32 [a; b; c; d] :: bytes_words bs
  | _ => []
  end.

Definition word_ok (w : Z) : Prop := 0 ≤ w < 2 ^ 32.

Lemma un32_le32 w : word_ok w → un32 (le32 w) = w.
Proof. unfold word_ok. intros Hw. simpl. dm. Qed.

Lemma words_bytes_cons w ws : words_bytes (w :: ws) = le32 w ++ words_bytes ws.
Proof. done. Qed.

Lemma bytes_words_bytes ws : Forall word_ok ws → bytes_words (words_bytes ws) = ws.
Proof.
  induction 1 as [|w ws Hw _ IH]; [done|]. rewrite words_bytes_cons. cbn [app bytes_words le32]. rewrite IH. f_equal.
  exact (un32_le32 w Hw).
Qed.

Lemma words_bytes_length ws : length (words_bytes ws) = (4 * length ws)%nat.
Proof. induction ws as [|w ws IH]; [done|]. rewrite words_bytes_cons, length_app, IH. simpl. lia. Qed.

Lemma words_bytes_app xs ys : words_bytes (xs ++ ys) = words_bytes xs ++ words_bytes ys.
Proof. unfold words_bytes. by rewrite fmap_app, concat_app. Qed.

Lemma le32_range w : Forall (λ b, 0 ≤ b < 256) (le32 w).
Proof. repeat constructor; dm. Qed.
Lemma words_bytes_range ws : Forall (λ b, 0 ≤ b < 256) (words_bytes ws).
Proof.
  induction ws as [|w ws IH]; [by constructor|]. rewrite words_bytes_cons. apply Forall_app. split; [apply le32_range|done].
Qed.

(** ** Inodes: 19 words, of which the last two are the list cell *)

Record inode := Inode {
  i_no : Z; i_size : Z; i_open_cnts : Z; write_deny : Z; i_sectors : list Z;
}.
Definition sizeof_inode : Z := 76.
Definition set_i_size v (i : inode) : inode := Inode (i_no i) v (i_open_cnts i) (write_deny i) (i_sectors i).
Definition set_i_open_cnts v (i : inode) : inode := Inode (i_no i) (i_size i) v (write_deny i) (i_sectors i).
Definition set_write_deny v (i : inode) : inode := Inode (i_no i) (i_size i) (i_open_cnts i) v (i_sectors i).
Definition set_i_sector (k : nat) v (i : inode) : inode :=
  Inode (i_no i) (i_size i) (i_open_cnts i) (write_deny i) (<[k := v]> (i_sectors i)).

Definition inode_words (i : inode) : list Z :=
  [i_no i; i_size i; i_open_cnts i; write_deny i] ++ i_sectors i ++ [0; 0].
Definition inode_bytes (i : inode) : list Z := words_bytes (inode_words i).
Definition inode_of_bytes (bs : list Z) : inode :=
  let ws := bytes_words bs in
  Inode (default 0 (ws !! 0%nat)) (default 0 (ws !! 1%nat)) (default 0 (ws !! 2%nat)) (default 0 (ws !! 3%nat))
    (take 13 (drop 4 ws)).

Definition inode_ok (i : inode) : Prop :=
  word_ok (i_no i) ∧ word_ok (i_size i) ∧ word_ok (i_open_cnts i) ∧ word_ok (write_deny i) ∧
  length (i_sectors i) = 13%nat ∧ Forall word_ok (i_sectors i).

Lemma inode_bytes_length i : inode_ok i → length (inode_bytes i) = 76%nat.
Proof.
  intros (_ & _ & _ & _ & Hl & _). unfold inode_bytes, inode_words. rewrite words_bytes_length, !length_app. simpl. lia.
Qed.

Lemma inode_roundtrip i : inode_ok i → inode_of_bytes (inode_bytes i) = i.
Proof.
  intros (H1 & H2 & H3 & H4 & Hl & Hs). unfold inode_of_bytes, inode_bytes. rewrite bytes_words_bytes.
  - destruct i as [a b c d l]. simpl in Hl |- *. f_equal. exact (take_app_length' l [0; 0] 13 (eq_sym Hl)).
  - unfold inode_words. repeat (constructor; [done|]). apply Forall_app. split; [done|].
    repeat constructor; unfold word_ok; lia.
Qed.

(** ** The super block: 13 words and padding *)

Record super_block := SuperBlock {
  magic : Z; sb_sec_cnt : Z; inode_cnt : Z; part_lba_base : Z;
  block_bitmap_lba : Z; block_bitmap_sects : Z; inode_bitmap_lba : Z; inode_bitmap_sects : Z;
  inode_table_lba : Z; inode_table_sects : Z; data_start_lba : Z; root_inode_no : Z; dir_entry_size : Z;
}.
Definition super_words (s : super_block) : list Z :=
  [magic s; sb_sec_cnt s; inode_cnt s; part_lba_base s; block_bitmap_lba s; block_bitmap_sects s;
   inode_bitmap_lba s; inode_bitmap_sects s; inode_table_lba s; inode_table_sects s; data_start_lba s;
   root_inode_no s; dir_entry_size s].
(** [pad] is the contents of the padding. *)
Definition super_bytes (s : super_block) (pad : list Z) : list Z := words_bytes (super_words s) ++ pad.
Definition super_of_bytes (bs : list Z) : super_block :=
  let w k := default 0 (bytes_words bs !! k) in
  SuperBlock (w 0%nat) (w 1%nat) (w 2%nat) (w 3%nat) (w 4%nat) (w 5%nat) (w 6%nat) (w 7%nat) (w 8%nat)
    (w 9%nat) (w 10%nat) (w 11%nat) (w 12%nat).

Lemma bytes_words_prefix ws bs k w : Forall word_ok ws → ws !! k = Some w → bytes_words (words_bytes ws ++ bs) !! k = Some w.
Proof.
  intros Hws. revert k. induction Hws as [|v ws Hv _ IH]; intros k; [done|]. rewrite words_bytes_cons, <- app_assoc.
  destruct k as [|k]; cbn [app bytes_words le32 lookup list_lookup].
  - intros [= <-]. f_equal. exact (un32_le32 v Hv).
  - apply IH.
Qed.

Lemma super_roundtrip s pad : Forall word_ok (super_words s) → super_of_bytes (super_bytes s pad) = s.
Proof.
  intros Hw. unfold super_of_bytes, super_bytes. destruct s as [a b c d e f g h i j k l m].
  repeat erewrite (bytes_words_prefix _ pad) by (exact Hw || reflexivity). done.
Qed.

(** ** Directory entries: 16 bytes and two words *)

Definition MAX_FILE_NAME_LEN : Z := 16.
Inductive file_types := FT_UNKNOWN | FT_REGULAR | FT_DIRECTORY.
#[export] Instance file_types_eq_dec : EqDecision file_types.
Proof. solve_decision. Defined.

(** [f_type] is kept as the number that is stored. *)
Record dir_entry := DirEntry { filename : list Z; de_i_no : Z; f_type : Z }.
Definition sizeof_dir_entry : Z := 24.
Definition type_nr (t : file_types) : Z := match t with FT_UNKNOWN => 0 | FT_REGULAR => 1 | FT_DIRECTORY => 2 end.

Definition entry_bytes (e : dir_entry) : list Z := filename e ++ le32 (de_i_no e) ++ le32 (f_type e).
Definition entry_of_bytes (bs : list Z) : dir_entry :=
  DirEntry (take 16 bs) (un32 (take 4 (drop 16 bs))) (un32 (take 4 (drop 20 bs))).

Definition entry_ok (e : dir_entry) : Prop :=
  length (filename e) = 16%nat ∧ Forall (λ b, 0 ≤ b < 256) (filename e) ∧ word_ok (de_i_no e) ∧ word_ok (f_type e).

Lemma entry_bytes_length e : entry_ok e → length (entry_bytes e) = 24%nat.
Proof. intros (Hl & _). unfold entry_bytes. rewrite !length_app. simpl. lia. Qed.

Lemma entry_roundtrip e : entry_ok e → entry_of_bytes (entry_bytes e) = e.
Proof.
  intros (Hl & _ & Hi & Ht). unfold entry_of_bytes, entry_bytes. destruct e as [n i t]. simpl in Hl, Hi, Ht.
  cbn [filename de_i_no f_type]. rewrite take_app_length' by done. rewrite drop_app_length' by done.
  replace (drop 20 (n ++ _)) with (le32 t).
  2:{ rewrite app_assoc, drop_app_length'; [done|]. rewrite length_app. simpl. lia. }
  f_equal; [exact (un32_le32 i Hi)|exact (un32_le32 t Ht)].
Qed.

(** Piece [k] of [n] bytes of a block. *)
Definition piece (n k : nat) (bs : list Z) : list Z := take n (drop (k * n) bs).
(** [bs] with the bytes [xs] put at [k]. *)
Definition patch (k : nat) (xs bs : list Z) : list Z := take k bs ++ xs ++ drop (k + length xs) bs.

Lemma patch_length k xs bs : (k + length xs ≤ length bs)%nat → length (patch k xs bs) = length bs.
Proof. intros Hl. unfold patch. rewrite !length_app, length_take, length_drop. lia. Qed.
Lemma patch_same k xs bs : (k + length xs ≤ length bs)%nat → take (length xs) (drop k (patch k xs bs)) = xs.
Proof.
  intros Hl. unfold patch. rewrite drop_app_length' by (rewrite length_take; lia). by apply take_app_length'.
Qed.
Lemma patch_before k xs bs j n : (k ≤ length bs)%nat → (j + n ≤ k)%nat → take n (drop j (patch k xs bs)) = take n (drop j bs).
Proof.
  intros Hl Hj. unfold patch. rewrite drop_app_le by (rewrite length_take; lia).
  rewrite take_app_le by (rewrite length_drop, length_take; lia).
  rewrite skipn_firstn_comm, take_take. f_equal. lia.
Qed.
Lemma patch_after k xs bs j n : (k + length xs ≤ length bs)%nat → (k + length xs ≤ j)%nat →
  take n (drop j (patch k xs bs)) = take n (drop j bs).
Proof.
  intros Hl Hj. unfold patch. f_equal. rewrite app_assoc.
  rewrite drop_app_ge by (rewrite length_app, length_take; lia). rewrite drop_drop. f_equal.
  rewrite length_app, length_take. lia.
Qed.

Lemma patch_app k xs t1 bs t3 :
  (k + length xs ≤ length bs)%nat → patch (length t1 + k) xs (t1 ++ bs ++ t3) = t1 ++ patch k xs bs ++ t3.
Proof.
  intros Hl. unfold patch. rewrite take_app_add.
  rewrite take_app_le by lia. rewrite <- Nat.add_assoc, drop_app_add, drop_app_le by lia. by rewrite <- !app_assoc.
Qed.

(** ** What reading and writing a run does *)

Lemma read_run_app d lba n m :
  read_run d lba (n + m) = a ← read_run d lba n; b ← read_run d (lba + Z.of_nat n) m; Some (a ++ b).
Proof.
  revert lba. induction n as [|n IH]; intros lba; cbn [Nat.add read_run].
  - rewrite Z.add_0_r. cbn. by destruct (read_run d lba m).
  - destruct (d !! lba) as [s|]; [|done]. cbn. rewrite IH. destruct (read_run d (lba + 1) n) as [a|]; [|done]. cbn.
    replace (lba + 1 + Z.of_nat n) with (lba + Z.of_nat (S n)) by lia.
    destruct (read_run d (lba + Z.of_nat (S n)) m); [|done]. cbn. by rewrite app_assoc.
Qed.

Lemma read_run_ok d lba n bs :
  sectors_ok d → read_run d lba n = Some bs → length bs = (512 * n)%nat ∧ Forall (λ b, 0 ≤ b < 256) bs.
Proof.
  intros Hd. revert lba bs. induction n as [|n IH]; intros lba bs; cbn [read_run].
  - intros [= <-]. split; [done|constructor].
  - destruct (d !! lba) as [s|] eqn:E; [|done]. cbn. destruct (read_run d (lba + 1) n) as [r|] eqn:Er; [|done].
    intros [= <-]. destruct (Hd _ _ E), (IH _ _ Er). rewrite length_app. split; [lia|by apply Forall_app].
Qed.

Lemma read_run_frame d d' lba n :
  (∀ l, lba ≤ l < lba + Z.of_nat n → d' !! l = d !! l) → read_run d' lba n = read_run d lba n.
Proof.
  revert lba. induction n as [|n IH]; intros lba Hf; [done|]. cbn [read_run]. rewrite Hf by lia.
  rewrite IH; [done|]. intros l Hl. apply Hf. lia.
Qed.

Lemma write_run_take d lba n bs : (512 * n ≤ length bs)%nat → write_run d lba n bs = write_run d lba n (take (512 * n) bs).
Proof.
  revert d lba bs. induction n as [|n IH]; intros d lba bs Hl; [done|]. cbn [write_run].
  rewrite take_take. replace (512 `min` (512 * S n))%nat with 512%nat by lia.
  destruct (d !! lba); [|done]. cbn [mbind option_bind]. case_bool_decide; [|done].
  rewrite IH by (rewrite length_drop; lia). f_equal. rewrite skipn_firstn_comm. f_equal. lia.
Qed.
Lemma write_run_length d lba n bs d' : write_run d lba n bs = Some d' → (512 * n ≤ length bs)%nat.
Proof.
  revert d lba bs. induction n as [|n IH]; intros d lba bs; cbn [write_run]; [lia|].
  destruct (d !! lba); [|done]. cbn [mbind option_bind]. case_bool_decide as Hb; [|done]. intros ?%IH.
  rewrite length_take in Hb. rewrite length_drop in *. lia.
Qed.
Lemma write_run_app d lba n m bs :
  write_run d lba (n + m) bs = d' ← write_run d lba n bs; write_run d' (lba + Z.of_nat n) m (drop (512 * n) bs).
Proof.
  revert d lba bs. induction n as [|n IH]; intros d lba bs; [cbn; by rewrite Z.add_0_r|]. cbn [Nat.add write_run].
  destruct (d !! lba); [|done]. cbn [mbind option_bind]. case_bool_decide; [|done]. rewrite IH, drop_drop.
  replace (lba + 1 + Z.of_nat n) with (lba + Z.of_nat (S n)) by lia. replace (512 + 512 * n)%nat with (512 * S n)%nat by lia. done.
Qed.

Lemma write_run_ok d lba n bs :
  (∀ l, lba ≤ l < lba + Z.of_nat n → is_Some (d !! l)) → length bs = (512 * n)%nat →
  ∃ d', write_run d lba n bs = Some d' ∧ read_run d' lba n = Some bs ∧
    (∀ l, l < lba ∨ lba + Z.of_nat n ≤ l → d' !! l = d !! l) ∧
    (sectors_ok d → Forall (λ b, 0 ≤ b < 256) bs → sectors_ok d').
Proof.
  revert d lba bs. induction n as [|n IH]; intros d lba bs Hs Hl.
  - exists d. destruct bs; [|simpl in Hl; lia]. done.
  - cbn [write_run]. destruct (Hs lba) as [s Es]; [lia|]. rewrite Es. cbn [mbind option_bind].
    assert (length (take 512 bs) = 512%nat) as Ht by (rewrite length_take; lia).
    rewrite bool_decide_true by done.
    destruct (IH (<[lba := take 512 bs]> d) (lba + 1) (drop 512 bs)) as (d' & Hw & Hr & Hf & Hok).
    { intros l ?. rewrite lookup_insert_ne by lia. apply Hs. lia. }
    { rewrite length_drop. lia. }
    exists d'. split_and!; [done| | |].
    + cbn [read_run]. rewrite Hf, lookup_insert_eq by lia. cbn [mbind option_bind]. rewrite Hr. cbn [mbind option_bind].
      by rewrite take_drop.
    + intros l Hl'. rewrite Hf by lia. by rewrite lookup_insert_ne by lia.
    + intros Hd Hb. apply Hok; [|by apply Forall_drop]. intros l s'. rewrite lookup_insert_Some.
      intros [[<- <-] | [_ ?]]; [|by eapply Hd]. split; [done|by apply Forall_take].
Qed.

Lemma read_run_some d lba n bs l :
  read_run d lba n = Some bs → lba ≤ l < lba + Z.of_nat n → is_Some (d !! l).
Proof.
  revert lba bs. induction n as [|n IH]; intros lba bs; cbn [read_run]; [lia|].
  destruct (d !! lba) as [s|] eqn:E; [|done]. cbn. destruct (read_run d (lba + 1) n) as [r|] eqn:Er; [|done].
  intros _ Hl. destruct (decide (l = lba)) as [->|]; [by eexists|]. apply (IH (lba + 1) r); [done|lia].
Qed.

(** Rewriting a piece of a run: [xs] at byte [off] of the sectors from [k] on. *)
Lemma rewrite_run d base N tb k n off xs :
  read_run d base N = Some tb → sectors_ok d → (k + n ≤ N)%nat → (off + length xs ≤ 512 * n)%nat →
  Forall (λ b, 0 ≤ b < 256) xs →
  ∃ bs d', read_run d (base + Z.of_nat k) n = Some bs ∧ bs = take (512 * n) (drop (512 * k) tb) ∧
    write_run d (base + Z.of_nat k) n (patch off xs bs) = Some d' ∧
    read_run d' base N = Some (patch (512 * k + off) xs tb) ∧ sectors_ok d' ∧
    (∀ l, l < base ∨ base + Z.of_nat N ≤ l → d' !! l = d !! l).
Proof.
  intros Hr Hd Hk Ho Hx. replace N with (k + (n + (N - k - n)))%nat in Hr by lia.
  rewrite read_run_app in Hr. destruct (read_run d base k) as [t1|] eqn:E1; [|done]. cbn in Hr.
  rewrite read_run_app in Hr. destruct (read_run d (base + Z.of_nat k) n) as [bs|] eqn:E2; [|done]. cbn in Hr.
  destruct (read_run d _ (N - k - n)) as [t3|] eqn:E3; [|done]. cbn in Hr. injection Hr as <-.
  destruct (read_run_ok _ _ _ _ Hd E1) as [L1 _], (read_run_ok _ _ _ _ Hd E2) as [L2 R2].
  assert (length (patch off xs bs) = length bs) as Lp by (apply patch_length; lia).
  destruct (write_run_ok d (base + Z.of_nat k) n (patch off xs bs)) as (d' & Hw & Hr' & Hf & Hok).
  { intros l Hl. apply (read_run_some d (base + Z.of_nat k) n bs); [done|lia]. }
  { lia. }
  exists bs, d'. split_and!; [done| |done| | |].
  - rewrite drop_app_length' by lia. by rewrite take_app_length' by lia.
  - replace N with (k + (n + (N - k - n)))%nat by lia. rewrite read_run_app.
    rewrite (read_run_frame d d' base k) by (intros; apply Hf; lia). rewrite E1. cbn [mbind option_bind].
    rewrite read_run_app, Hr'. cbn [mbind option_bind]. rewrite (read_run_frame d d' _ (N - k - n)) by (intros; apply Hf; lia).
    rewrite E3. cbn [mbind option_bind].
    rewrite <- L1, patch_app by lia. done.
  - apply Hok; [done|]. unfold patch. apply Forall_app. split; [by apply Forall_take|].
    apply Forall_app. split; [done|by apply Forall_drop].
  - intros l Hl. apply Hf. lia.
Qed.
