(* ===== verification/Ata.v ===== *)
(** * The disk controller

    What the driver of src/device/ide.c sees of the hardware: one controller
    with two drives, in the programmed-input-output protocol of the ATA
    standard.  Registers 2 to 6 hold the number of sectors (0 for 256), the
    low 24 bits of the first sector, and the drive with the highest 4 bits;
    register 7 takes commands and gives the status, register 0 transfers data.

    Data is transferred in blocks of one sector.  After a command the drive is
    busy; when it has a block to give or is ready to take one it asks for the
    transfer (DRQ).  After the block, while more sectors of the command are
    left, it is busy again and then asks for the next transfer, each time with
    an interrupt.  [busy] is the number of times the status will still say so,
    [latency] what it becomes after a command and after the last sector of a
    write, [gap] what it becomes between two sectors.  A transfer that the
    drive has not asked for is undefined.  [pending] is an interrupt of the
    drive that the processor has not taken, because interrupts were off. *)

From S2P Require Import Prelude Disk.

Inductive ata_phase :=
  | Quiet                           (** nothing to transfer *)
  | Giving (data : list Z)          (** bytes to be read *)
  | Taking (lba : Z) (cnt : nat).   (** sectors to be written *)

Record ata := Ata {
  sect_cnt : Z;
  lba_l : Z;
  lba_m : Z;
  lba_h : Z;
  device : Z;
  phase : ata_phase;
  busy : nat;
  latency : nat;
  gap : nat;
  pending : bool;
  drive0 : sectors;
  drive1 : sectors;
  ident0 : list Z;
  ident1 : list Z;
}.

Definition set_phase (p : ata_phase) (b : nat) (a : ata) : ata :=
  Ata (sect_cnt a) (lba_l a) (lba_m a) (lba_h a) (device a) p b (latency a) (gap a) (pending a) (drive0 a) (drive1 a) (ident0 a) (ident1 a).
Definition set_busy (b : nat) (a : ata) : ata := set_phase (phase a) b a.
Definition set_pending (a : ata) : ata :=
  Ata (sect_cnt a) (lba_l a) (lba_m a) (lba_h a) (device a) (phase a) (busy a) (latency a) (gap a) true (drive0 a) (drive1 a)
    (ident0 a) (ident1 a).

(** The selected drive, the sector and the number of sectors. *)
Definition slave (a : ata) : bool := Z.testbit (device a) 4.
Definition drive (a : ata) : sectors := if slave a then drive1 a else drive0 a.
Definition ident (a : ata) : list Z := if slave a then ident1 a else ident0 a.
Definition set_drive (d : sectors) (a : ata) : ata :=
  Ata (sect_cnt a) (lba_l a) (lba_m a) (lba_h a) (device a) (phase a) (busy a) (latency a) (gap a) (pending a)
    (if slave a then drive0 a else d) (if slave a then d else drive1 a) (ident0 a) (ident1 a).
Definition ata_lba (a : ata) : Z := lba_l a + 256 * lba_m a + 65536 * lba_h a + 16777216 * (device a mod 16).
Definition ata_count (a : ata) : nat := if sect_cnt a =? 0 then 256 else Z.to_nat (sect_cnt a).

(** The sectors from [lba] on, up to the first that the drive does not have. *)
Fixpoint read_prefix (d : sectors) (lba : Z) (n : nat) : list Z :=
  match n with
  | O => []
  | S n => match d !! lba with Some s => s ++ read_prefix d (lba + 1) n | None => [] end
  end.
Definition giving (data : list Z) : ata_phase := match data with [] => Quiet | _ => Giving data end.

Lemma read_run_prefix d n : ∀ lba bs, read_run d lba n = Some bs → read_prefix d lba n = bs.
Proof.
  induction n as [|n IH]; intros lba bs Hr; cbn in *; [by injection Hr|].
  destruct (d !! lba) as [x|]; [|done]. cbn in Hr. destruct (read_run d (lba + 1) n) as [y|] eqn:E; [|done]. cbn in Hr.
  injection Hr as <-. by rewrite (IH _ _ E).
Qed.

(** A command: read sectors, write sectors, identify. *)
Definition ata_command (a : ata) (cmd : Z) : ata :=
  if cmd =? 0x20 then
    set_phase (giving (read_prefix (drive a) (ata_lba a) (ata_count a))) (latency a) a
  else if cmd =? 0x30 then set_phase (Taking (ata_lba a) (ata_count a)) (latency a) a
  else if cmd =? 0xec then set_phase (giving (ident a)) (latency a) a
  else a.

(** A byte written to register [reg]. *)
Definition ata_outb (a : ata) (reg v : Z) : ata :=
  if reg =? 2 then Ata v (lba_l a) (lba_m a) (lba_h a) (device a) (phase a) (busy a) (latency a) (gap a) (pending a) (drive0 a) (drive1 a) (ident0 a) (ident1 a)
  else if reg =? 3 then Ata (sect_cnt a) v (lba_m a) (lba_h a) (device a) (phase a) (busy a) (latency a) (gap a) (pending a) (drive0 a) (drive1 a) (ident0 a) (ident1 a)
  else if reg =? 4 then Ata (sect_cnt a) (lba_l a) v (lba_h a) (device a) (phase a) (busy a) (latency a) (gap a) (pending a) (drive0 a) (drive1 a) (ident0 a) (ident1 a)
  else if reg =? 5 then Ata (sect_cnt a) (lba_l a) (lba_m a) v (device a) (phase a) (busy a) (latency a) (gap a) (pending a) (drive0 a) (drive1 a) (ident0 a) (ident1 a)
  else if reg =? 6 then Ata (sect_cnt a) (lba_l a) (lba_m a) (lba_h a) v (phase a) (busy a) (latency a) (gap a) (pending a) (drive0 a) (drive1 a) (ident0 a) (ident1 a)
  else if reg =? 7 then ata_command a v
  else a.

(** The status: busy, or ready with or without a transfer to make. *)
Definition ata_inb (a : ata) (reg : Z) : Z * ata :=
  if reg =? 7 then
    match busy a with
    | S b => (0x80, set_busy b a)
    | O => (match phase a with Quiet => 0x40 | _ => 0x48 end, a)
    end
  else (0, a).

(** What is left of the block that is being read. *)
Definition block_rest (data : list Z) : nat := S ((length data - 1) mod 512).

(** [n] bytes from the data register, at most the rest of a block, and a block
    to it.  The last value says whether the drive asks for the next block: then
    there is an interrupt. *)
Definition ata_in (a : ata) (n : nat) : option (list Z * ata * bool) :=
  match phase a, busy a with
  | Giving data, O =>
      if bool_decide (n ≤ block_rest data)%nat then
        let more := bool_decide (n = block_rest data) && bool_decide (n < length data)%nat in
        Some (take n data, set_phase (giving (drop n data)) (if more then gap a else 0%nat) a, more)
      else None
  | _, _ => None
  end.
Definition ata_out (a : ata) (bs : list Z) : option (ata * bool) :=
  match phase a, busy a with
  | Taking lba (S cnt), O =>
      if bool_decide (length bs = 512)%nat then
        d ← write_run (drive a) lba 1 bs;
        let more := bool_decide (cnt ≠ 0%nat) in
        Some (set_phase (if more then Taking (lba + 1) cnt else Quiet) (if more then gap a else latency a) (set_drive d a), more)
      else None
  | _, _ => None
  end.
