(* ===== verification/Kernel.v ===== *)
(** * The kernel's state

    One record holds what the components of the kernel share.  Objects that C
    code reaches through pointers are kept by address, one map for each type:
    task structures, list cells, locks, semaphores, block descriptors and
    arena headers, the bytes of bitmaps and strings, and the words of physical
    memory.  The list cells are any implementation of the interface [Queues]
    of Lists.v.  Global variables and the processor's registers that matter
    (stack pointer, interrupt flag, [cr3]) are fields.

    Static objects of the kernel image have addresses; which ones is the
    linker's choice, and one choice is fixed here. *)

From S2P Require Import Prelude CString Bitmap Lists PageTable Disk Ata.

(** ** Data of include/thread/thread.h, include/thread/sync.h and include/mm/memory.h *)

Inductive task_status :=
  | TASK_RUNNING | TASK_READY | TASK_BLOCKED | TASK_WAITING | TASK_HANGING | TASK_DIED.

#[export] Instance task_status_eq_dec : EqDecision task_status.
Proof. solve_decision. Defined.

Inductive pool_flags := PF_KERNEL | PF_USER.

#[export] Instance pool_flags_eq_dec : EqDecision pool_flags.
Proof. solve_decision. Defined.

Record virtual_addr := VirtualAddr { vaddr_bitmap : bitmap; vaddr_start : Z }.

(** [general_tag], [all_list_tag] and [u_block_desc] of a task are in the maps
    of cells and descriptors, at their offsets. *)
Record task_struct := Task {
  self_kstack : Z;
  pid : Z;
  status : task_status;
  name : list Z;
  priority : Z;
  ticks : Z;
  elapsed_ticks : Z;
  pgdir : Z;
  user_vaddr : virtual_addr;
  fd_table : list Z;
  cwd_inode_nr : Z;
  parent_pid : Z;
  exit_status : Z;
  stack_magic : Z;
}.

Definition set_self_kstack v (r : task_struct) : task_struct := Task v (pid r) (status r) (name r) (priority r) (ticks r) (elapsed_ticks r) (pgdir r) (user_vaddr r) (fd_table r) (cwd_inode_nr r) (parent_pid r) (exit_status r) (stack_magic r).
Definition set_pid v (r : task_struct) : task_struct := Task (self_kstack r) v (status r) (name r) (priority r) (ticks r) (elapsed_ticks r) (pgdir r) (user_vaddr r) (fd_table r) (cwd_inode_nr r) (parent_pid r) (exit_status r) (stack_magic r).
Definition set_status v (r : task_struct) : task_struct := Task (self_kstack r) (pid r) v (name r) (priority r) (ticks r) (elapsed_ticks r) (pgdir r) (user_vaddr r) (fd_table r) (cwd_inode_nr r) (parent_pid r) (exit_status r) (stack_magic r).
Definition set_name v (r : task_struct) : task_struct := Task (self_kstack r) (pid r) (status r) v (priority r) (ticks r) (elapsed_ticks r) (pgdir r) (user_vaddr r) (fd_table r) (cwd_inode_nr r) (parent_pid r) (exit_status r) (stack_magic r).
Definition set_priority v (r : task_struct) : task_struct := Task (self_kstack r) (pid r) (status r) (name r) v (ticks r) (elapsed_ticks r) (pgdir r) (user_vaddr r) (fd_table r) (cwd_inode_nr r) (parent_pid r) (exit_status r) (stack_magic r).
Definition set_ticks v (r : task_struct) : task_struct := Task (self_kstack r) (pid r) (status r) (name r) (priority r) v (elapsed_ticks r) (pgdir r) (user_vaddr r) (fd_table r) (cwd_inode_nr r) (parent_pid r) (exit_status r) (stack_magic r).
Definition set_elapsed_ticks v (r : task_struct) : task_struct := Task (self_kstack r) (pid r) (status r) (name r) (priority r) (ticks r) v (pgdir r) (user_vaddr r) (fd_table r) (cwd_inode_nr r) (parent_pid r) (exit_status r) (stack_magic r).
Definition set_pgdir v (r : task_struct) : task_struct := Task (self_kstack r) (pid r) (status r) (name r) (priority r) (ticks r) (elapsed_ticks r) v (user_vaddr r) (fd_table r) (cwd_inode_nr r) (parent_pid r) (exit_status r) (stack_magic r).
Definition set_user_vaddr v (r : task_struct) : task_struct := Task (self_kstack r) (pid r) (status r) (name r) (priority r) (ticks r) (elapsed_ticks r) (pgdir r) v (fd_table r) (cwd_inode_nr r) (parent_pid r) (exit_status r) (stack_magic r).
Definition set_fd_table v (r : task_struct) : task_struct := Task (self_kstack r) (pid r) (status r) (name r) (priority r) (ticks r) (elapsed_ticks r) (pgdir r) (user_vaddr r) v (cwd_inode_nr r) (parent_pid r) (exit_status r) (stack_magic r).
Definition set_cwd_inode_nr v (r : task_struct) : task_struct := Task (self_kstack r) (pid r) (status r) (name r) (priority r) (ticks r) (elapsed_ticks r) (pgdir r) (user_vaddr r) (fd_table r) v (parent_pid r) (exit_status r) (stack_magic r).
Definition set_parent_pid v (r : task_struct) : task_struct := Task (self_kstack r) (pid r) (status r) (name r) (priority r) (ticks r) (elapsed_ticks r) (pgdir r) (user_vaddr r) (fd_table r) (cwd_inode_nr r) v (exit_status r) (stack_magic r).
Definition set_exit_status v (r : task_struct) : task_struct := Task (self_kstack r) (pid r) (status r) (name r) (priority r) (ticks r) (elapsed_ticks r) (pgdir r) (user_vaddr r) (fd_table r) (cwd_inode_nr r) (parent_pid r) v (stack_magic r).
Definition set_stack_magic v (r : task_struct) : task_struct := Task (self_kstack r) (pid r) (status r) (name r) (priority r) (ticks r) (elapsed_ticks r) (pgdir r) (user_vaddr r) (fd_table r) (cwd_inode_nr r) (parent_pid r) (exit_status r) v.

(** The members of a task structure that have their own place: 36, 44 and 68
    bytes behind its start; [elem2entry] goes back. *)
Definition general_tag (p : Z) : Z := p + 36.
Definition all_list_tag (p : Z) : Z := p + 44.
Definition u_block_desc (p : Z) : Z := p + 68.
Definition general_entry (e : Z) : Z := e - 36.
Definition all_list_entry (e : Z) : Z := e - 44.
(** [sizeof(struct task_struct)], [struct intr_stack], [struct thread_stack]. *)
Definition sizeof_task_struct : Z := 280.
Definition sizeof_intr_stack : Z := 76.
Definition sizeof_thread_stack : Z := 32.

(** [struct thread_stack], without the unused return address, and [struct
    intr_stack]. *)
Record thread_stack := ThreadStack {
  ts_ebp : Z; ts_ebx : Z; ts_edi : Z; ts_esi : Z; ts_eip : Z; ts_function : Z; ts_func_arg : Z;
}.
Record intr_stack := IntrStack {
  is_vec_no : Z; is_edi : Z; is_esi : Z; is_ebp : Z; is_esp_dummy : Z; is_ebx : Z; is_edx : Z; is_ecx : Z;
  is_eax : Z; is_gs : Z; is_fs : Z; is_es : Z; is_ds : Z; is_err_code : Z; is_eip : Z; is_cs : Z;
  is_eflags : Z; is_esp : Z; is_ss : Z;
}.

(** [struct lock] without its semaphore, which is 4 bytes behind its start;
    the waiters of a semaphore are 4 bytes behind the start of it. *)
Record lock := Lock { holder : Z; holder_repeat_nr : Z }.
Definition lock_semaphore (l : Z) : Z := l + 4.
Definition waiters (s : Z) : Z := s + 4.

(** [struct mem_block_desc] without its list, 8 bytes behind its start. *)
Record mem_block_desc := MemBlockDesc { block_size : Z; blocks_per_arena : Z }.
Definition free_list (d : Z) : Z := d + 8.
Definition sizeof_mem_block_desc : Z := 24.

Record arena := Arena { a_desc : Z; a_cnt : Z; a_large : bool }.
Definition sizeof_arena : Z := 12.

(** [struct pool] without its lock, which is kept with the locks. *)
Record pool := Pool { pool_bitmap : bitmap; phy_addr_start : Z; pool_size : Z }.

(** [struct ioqueue] of device/ioqueue.h without its lock, which is at its
    start and is kept with the locks. *)
Record ioqueue := IoQueue { producer : Z; consumer : Z; buf : list Z; ioq_head : Z; ioq_tail : Z }.
Definition set_producer v (q : ioqueue) : ioqueue := IoQueue v (consumer q) (buf q) (ioq_head q) (ioq_tail q).
Definition set_consumer v (q : ioqueue) : ioqueue := IoQueue (producer q) v (buf q) (ioq_head q) (ioq_tail q).

(** The static flags of device/keyboard.c. *)
Record kbd_flags := KbdFlags {
  ctrl_status : bool; shift_status : bool; alt_status : bool; caps_lock_status : bool; ext_scancode : bool;
}.

(** [struct ide_channel] of device/ide.h without its lock and semaphore, 12
    and 44 bytes behind its start, and its disks; the name is a string that is
    only printed. *)
Record ide_channel := IdeChannel { port_base : Z; irq_no : Z; expecting_intr : bool }.
Definition chan_lock (c : Z) : Z := c + 12.
Definition disk_done (c : Z) : Z := c + 44.
Definition sizeof_ide_channel : Z := 1632.
(** The two disks of a channel. *)
Definition devices (c i : Z) : Z := c + 64 + 784 * i.

(** What the driver uses of [struct partition], and [struct disk]. *)
Record disk_part := DiskPart { dp_start_lba : Z; dp_sec_cnt : Z; dp_my_disk : Z; dp_name : list Z }.
Record disk := Disk { hd_name : list Z; my_channel : Z; dev_no : Z; prim_parts : list disk_part; logic_parts : list disk_part }.
(** The tags of the partitions in [partition_list]. *)
Definition prim_tag (hd i : Z) : Z := hd + 16 + 64 * i + 12.
Definition logic_tag (hd i : Z) : Z := hd + 16 + 64 * (4 + i) + 12.

(** The variables of device/ide.c. *)
Record ide_globals := IdeGlobals { channel_cnt : Z; ext_lba_base : Z; p_no : Z; l_no : Z }.

(** [struct gate_desc] of kernel/interrupt.c and [struct gdt_desc] of
    include/global.h. *)
Record gate_desc := GateDesc {
  func_offset_low_word : Z; selector : Z; dcount : Z; attribute : Z; func_offset_high_word : Z;
}.
Record gdt_desc := GdtDesc {
  limit_low_word : Z; base_low_word : Z; base_mid_byte : Z; attr_low_byte : Z; limit_high_attr_high : Z; base_high_byte : Z;
}.

(** The interrupt descriptors, the names of the interrupts, the segment
    descriptors by address, the 27 words of [struct tss], of which [esp0] is
    kept below, and the registers that tell the processor where they are
    (limit and base, selector). *)
Record cpu_tables := CpuTables {
  idt : list gate_desc; intr_name : list (list Z); gdt : gmap Z gdt_desc; tss_seg : list Z;
  idtr : Z * Z; gdtr : Z * Z; task_register : Z;
}.

(** The functions of the system call table. *)
Inductive kernel_fn :=
  | Fn_getpid | Fn_write | Fn_malloc | Fn_free | Fn_fork | Fn_read | Fn_putchar | Fn_cls_screen
  | Fn_getcwd | Fn_open | Fn_close | Fn_lseek | Fn_unlink | Fn_mkdir | Fn_opendir | Fn_closedir
  | Fn_chdir | Fn_rmdir | Fn_readdir | Fn_rewinddir | Fn_stat | Fn_ps | Fn_execv | Fn_exit | Fn_wait.

#[export] Instance kernel_fn_eq_dec : EqDecision kernel_fn.
Proof. solve_decision. Defined.

(** ** The static objects *)

Definition thread_ready_list : Z := 0xc0008000.
Definition thread_all_list : Z := 0xc0008010.
Definition pid_lock : Z := 0xc0008020.
Definition kernel_pool_lock : Z := 0xc0008040.
Definition user_pool_lock : Z := 0xc0008060.
Definition console_lock : Z := 0xc0008080.
Definition k_block_descs : Z := 0xc0008100.
Definition pid_bitmap_bits : Z := 0xc0008200.
Definition kbd_buf : Z := 0xc0008400.
Definition partition_list : Z := 0xc0008600.
Definition channels : Z := 0xc0009000.

(** ** The state *)

Record kst (H : Type) := Kst {
  heap : H;  (** the list cells *)
  bytes : bmem;  (** bitmaps and strings, by byte *)
  phys : pmem;  (** page tables and pages, by word *)
  tasks : gmap Z task_struct;  (** task structures *)
  semas : gmap Z Z;  (** values of semaphores *)
  locks : gmap Z lock;  (** locks, without their semaphores *)
  descs : gmap Z mem_block_desc;  (** block descriptors, without their lists *)
  arenas : gmap Z arena;  (** arena headers *)
  esp : Z;  (** stack pointer *)
  intr : bool;  (** interrupt flag *)
  cr3 : Z;  (** page directory register *)
  tss_esp0 : Z;  (** esp0 of the task state segment *)
  idle_thread : Z;
  main_thread : Z;
  timer_ticks : Z;  (** [ticks] of timer.c *)
  kernel_pool : pool;
  user_pool : pool;
  kernel_vaddr : virtual_addr;
  pid_bitmap : bitmap;  (** [pid_pool.pid_bitmap] *)
  pid_start : Z;  (** [pid_pool.pid_start] *)
  tstacks : gmap Z thread_stack;  (** thread stacks *)
  istacks : gmap Z intr_stack;  (** interrupt stacks *)
  ioqs : gmap Z ioqueue;  (** ring buffers, without their locks *)
  kbd : kbd_flags;  (** the flags of keyboard.c *)
  chans : gmap Z ide_channel;  (** channels, without their locks and semaphores *)
  disks : gmap Z disk;  (** disks *)
  ide : ide_globals;  (** the variables of ide.c *)
  atas : gmap Z ata;  (** disk controllers, by their first port *)
  idt_table : gmap Z Z;  (** interrupt handlers *)
  port_log : list (Z * Z);  (** what was written to other ports, last first *)
  cpu : cpu_tables;  (** descriptor tables and their registers *)
  syscall_table : gmap Z kernel_fn;
  screen : list Z;  (** the characters the kernel has put on the screen *)
}.
Arguments Kst {H}.
Arguments heap {H}.
Arguments bytes {H}.
Arguments phys {H}.
Arguments tasks {H}.
Arguments semas {H}.
Arguments locks {H}.
Arguments descs {H}.
Arguments arenas {H}.
Arguments esp {H}.
Arguments intr {H}.
Arguments cr3 {H}.
Arguments tss_esp0 {H}.
Arguments idle_thread {H}.
Arguments main_thread {H}.
Arguments timer_ticks {H}.
Arguments kernel_pool {H}.
Arguments user_pool {H}.
Arguments kernel_vaddr {H}.
Arguments pid_bitmap {H}.
Arguments pid_start {H}.
Arguments tstacks {H}.
Arguments istacks {H}.
Arguments ioqs {H}.
Arguments kbd {H}.
Arguments chans {H}.
Arguments disks {H}.
Arguments ide {H}.
Arguments atas {H}.
Arguments idt_table {H}.
Arguments port_log {H}.
Arguments cpu {H}.
Arguments syscall_table {H}.
Arguments screen {H}.

Definition set_heap {H} v (r : kst H) : kst H := Kst v (bytes r) (phys r) (tasks r) (semas r) (locks r) (descs r) (arenas r) (esp r) (intr r) (cr3 r) (tss_esp0 r) (idle_thread r) (main_thread r) (timer_ticks r) (kernel_pool r) (user_pool r) (kernel_vaddr r) (pid_bitmap r) (pid_start r) (tstacks r) (istacks r) (ioqs r) (kbd r) (chans r) (disks r) (ide r) (atas r) (idt_table r) (port_log r) (cpu r) (syscall_table r) (screen r).
Definition set_bytes {H} v (r : kst H) : kst H := Kst (heap r) v (phys r) (tasks r) (semas r) (locks r) (descs r) (arenas r) (esp r) (intr r) (cr3 r) (tss_esp0 r) (idle_thread r) (main_thread r) (timer_ticks r) (kernel_pool r) (user_pool r) (kernel_vaddr r) (pid_bitmap r) (pid_start r) (tstacks r) (istacks r) (ioqs r) (kbd r) (chans r) (disks r) (ide r) (atas r) (idt_table r) (port_log r) (cpu r) (syscall_table r) (screen r).
Definition set_phys {H} v (r : kst H) : kst H := Kst (heap r) (bytes r) v (tasks r) (semas r) (locks r) (descs r) (arenas r) (esp r) (intr r) (cr3 r) (tss_esp0 r) (idle_thread r) (main_thread r) (timer_ticks r) (kernel_pool r) (user_pool r) (kernel_vaddr r) (pid_bitmap r) (pid_start r) (tstacks r) (istacks r) (ioqs r) (kbd r) (chans r) (disks r) (ide r) (atas r) (idt_table r) (port_log r) (cpu r) (syscall_table r) (screen r).
Definition set_tasks {H} v (r : kst H) : kst H := Kst (heap r) (bytes r) (phys r) v (semas r) (locks r) (descs r) (arenas r) (esp r) (intr r) (cr3 r) (tss_esp0 r) (idle_thread r) (main_thread r) (timer_ticks r) (kernel_pool r) (user_pool r) (kernel_vaddr r) (pid_bitmap r) (pid_start r) (tstacks r) (istacks r) (ioqs r) (kbd r) (chans r) (disks r) (ide r) (atas r) (idt_table r) (port_log r) (cpu r) (syscall_table r) (screen r).
Definition set_semas {H} v (r : kst H) : kst H := Kst (heap r) (bytes r) (phys r) (tasks r) v (locks r) (descs r) (arenas r) (esp r) (intr r) (cr3 r) (tss_esp0 r) (idle_thread r) (main_thread r) (timer_ticks r) (kernel_pool r) (user_pool r) (kernel_vaddr r) (pid_bitmap r) (pid_start r) (tstacks r) (istacks r) (ioqs r) (kbd r) (chans r) (disks r) (ide r) (atas r) (idt_table r) (port_log r) (cpu r) (syscall_table r) (screen r).
Definition set_locks {H} v (r : kst H) : kst H := Kst (heap r) (bytes r) (phys r) (tasks r) (semas r) v (descs r) (arenas r) (esp r) (intr r) (cr3 r) (tss_esp0 r) (idle_thread r) (main_thread r) (timer_ticks r) (kernel_pool r) (user_pool r) (kernel_vaddr r) (pid_bitmap r) (pid_start r) (tstacks r) (istacks r) (ioqs r) (kbd r) (chans r) (disks r) (ide r) (atas r) (idt_table r) (port_log r) (cpu r) (syscall_table r) (screen r).
Definition set_descs {H} v (r : kst H) : kst H := Kst (heap r) (bytes r) (phys r) (tasks r) (semas r) (locks r) v (arenas r) (esp r) (intr r) (cr3 r) (tss_esp0 r) (idle_thread r) (main_thread r) (timer_ticks r) (kernel_pool r) (user_pool r) (kernel_vaddr r) (pid_bitmap r) (pid_start r) (tstacks r) (istacks r) (ioqs r) (kbd r) (chans r) (disks r) (ide r) (atas r) (idt_table r) (port_log r) (cpu r) (syscall_table r) (screen r).
Definition set_arenas {H} v (r : kst H) : kst H := Kst (heap r) (bytes r) (phys r) (tasks r) (semas r) (locks r) (descs r) v (esp r) (intr r) (cr3 r) (tss_esp0 r) (idle_thread r) (main_thread r) (timer_ticks r) (kernel_pool r) (user_pool r) (kernel_vaddr r) (pid_bitmap r) (pid_start r) (tstacks r) (istacks r) (ioqs r) (kbd r) (chans r) (disks r) (ide r) (atas r) (idt_table r) (port_log r) (cpu r) (syscall_table r) (screen r).
Definition set_esp {H} v (r : kst H) : kst H := Kst (heap r) (bytes r) (phys r) (tasks r) (semas r) (locks r) (descs r) (arenas r) v (intr r) (cr3 r) (tss_esp0 r) (idle_thread r) (main_thread r) (timer_ticks r) (kernel_pool r) (user_pool r) (kernel_vaddr r) (pid_bitmap r) (pid_start r) (tstacks r) (istacks r) (ioqs r) (kbd r) (chans r) (disks r) (ide r) (atas r) (idt_table r) (port_log r) (cpu r) (syscall_table r) (screen r).
Definition set_intr {H} v (r : kst H) : kst H := Kst (heap r) (bytes r) (phys r) (tasks r) (semas r) (locks r) (descs r) (arenas r) (esp r) v (cr3 r) (tss_esp0 r) (idle_thread r) (main_thread r) (timer_ticks r) (kernel_pool r) (user_pool r) (kernel_vaddr r) (pid_bitmap r) (pid_start r) (tstacks r) (istacks r) (ioqs r) (kbd r) (chans r) (disks r) (ide r) (atas r) (idt_table r) (port_log r) (cpu r) (syscall_table r) (screen r).
Definition set_cr3 {H} v (r : kst H) : kst H := Kst (heap r) (bytes r) (phys r) (tasks r) (semas r) (locks r) (descs r) (arenas r) (esp r) (intr r) v (tss_esp0 r) (idle_thread r) (main_thread r) (timer_ticks r) (kernel_pool r) (user_pool r) (kernel_vaddr r) (pid_bitmap r) (pid_start r) (tstacks r) (istacks r) (ioqs r) (kbd r) (chans r) (disks r) (ide r) (atas r) (idt_table r) (port_log r) (cpu r) (syscall_table r) (screen r).
Definition set_tss_esp0 {H} v (r : kst H) : kst H := Kst (heap r) (bytes r) (phys r) (tasks r) (semas r) (locks r) (descs r) (arenas r) (esp r) (intr r) (cr3 r) v (idle_thread r) (main_thread r) (timer_ticks r) (kernel_pool r) (user_pool r) (kernel_vaddr r) (pid_bitmap r) (pid_start r) (tstacks r) (istacks r) (ioqs r) (kbd r) (chans r) (disks r) (ide r) (atas r) (idt_table r) (port_log r) (cpu r) (syscall_table r) (screen r).
Definition set_idle_thread {H} v (r : kst H) : kst H := Kst (heap r) (bytes r) (phys r) (tasks r) (semas r) (locks r) (descs r) (arenas r) (esp r) (intr r) (cr3 r) (tss_esp0 r) v (main_thread r) (timer_ticks r) (kernel_pool r) (user_pool r) (kernel_vaddr r) (pid_bitmap r) (pid_start r) (tstacks r) (istacks r) (ioqs r) (kbd r) (chans r) (disks r) (ide r) (atas r) (idt_table r) (port_log r) (cpu r) (syscall_table r) (screen r).
Definition set_main_thread {H} v (r : kst H) : kst H := Kst (heap r) (bytes r) (phys r) (tasks r) (semas r) (locks r) (descs r) (arenas r) (esp r) (intr r) (cr3 r) (tss_esp0 r) (idle_thread r) v (timer_ticks r) (kernel_pool r) (user_pool r) (kernel_vaddr r) (pid_bitmap r) (pid_start r) (tstacks r) (istacks r) (ioqs r) (kbd r) (chans r) (disks r) (ide r) (atas r) (idt_table r) (port_log r) (cpu r) (syscall_table r) (screen r).
Definition set_timer_ticks {H} v (r : kst H) : kst H := Kst (heap r) (bytes r) (phys r) (tasks r) (semas r) (locks r) (descs r) (arenas r) (esp r) (intr r) (cr3 r) (tss_esp0 r) (idle_thread r) (main_thread r) v (kernel_pool r) (user_pool r) (kernel_vaddr r) (pid_bitmap r) (pid_start r) (tstacks r) (istacks r) (ioqs r) (kbd r) (chans r) (disks r) (ide r) (atas r) (idt_table r) (port_log r) (cpu r) (syscall_table r) (screen r).
Definition set_kernel_pool {H} v (r : kst H) : kst H := Kst (heap r) (bytes r) (phys r) (tasks r) (semas r) (locks r) (descs r) (arenas r) (esp r) (intr r) (cr3 r) (tss_esp0 r) (idle_thread r) (main_thread r) (timer_ticks r) v (user_pool r) (kernel_vaddr r) (pid_bitmap r) (pid_start r) (tstacks r) (istacks r) (ioqs r) (kbd r) (chans r) (disks r) (ide r) (atas r) (idt_table r) (port_log r) (cpu r) (syscall_table r) (screen r).
Definition set_user_pool {H} v (r : kst H) : kst H := Kst (heap r) (bytes r) (phys r) (tasks r) (semas r) (locks r) (descs r) (arenas r) (esp r) (intr r) (cr3 r) (tss_esp0 r) (idle_thread r) (main_thread r) (timer_ticks r) (kernel_pool r) v (kernel_vaddr r) (pid_bitmap r) (pid_start r) (tstacks r) (istacks r) (ioqs r) (kbd r) (chans r) (disks r) (ide r) (atas r) (idt_table r) (port_log r) (cpu r) (syscall_table r) (screen r).
Definition set_kernel_vaddr {H} v (r : kst H) : kst H := Kst (heap r) (bytes r) (phys r) (tasks r) (semas r) (locks r) (descs r) (arenas r) (esp r) (intr r) (cr3 r) (tss_esp0 r) (idle_thread r) (main_thread r) (timer_ticks r) (kernel_pool r) (user_pool r) v (pid_bitmap r) (pid_start r) (tstacks r) (istacks r) (ioqs r) (kbd r) (chans r) (disks r) (ide r) (atas r) (idt_table r) (port_log r) (cpu r) (syscall_table r) (screen r).
Definition set_pid_bitmap {H} v (r : kst H) : kst H := Kst (heap r) (bytes r) (phys r) (tasks r) (semas r) (locks r) (descs r) (arenas r) (esp r) (intr r) (cr3 r) (tss_esp0 r) (idle_thread r) (main_thread r) (timer_ticks r) (kernel_pool r) (user_pool r) (kernel_vaddr r) v (pid_start r) (tstacks r) (istacks r) (ioqs r) (kbd r) (chans r) (disks r) (ide r) (atas r) (idt_table r) (port_log r) (cpu r) (syscall_table r) (screen r).
Definition set_pid_start {H} v (r : kst H) : kst H := Kst (heap r) (bytes r) (phys r) (tasks r) (semas r) (locks r) (descs r) (arenas r) (esp r) (intr r) (cr3 r) (tss_esp0 r) (idle_thread r) (main_thread r) (timer_ticks r) (kernel_pool r) (user_pool r) (kernel_vaddr r) (pid_bitmap r) v (tstacks r) (istacks r) (ioqs r) (kbd r) (chans r) (disks r) (ide r) (atas r) (idt_table r) (port_log r) (cpu r) (syscall_table r) (screen r).
Definition set_tstacks {H} v (r : kst H) : kst H := Kst (heap r) (bytes r) (phys r) (tasks r) (semas r) (locks r) (descs r) (arenas r) (esp r) (intr r) (cr3 r) (tss_esp0 r) (idle_thread r) (main_thread r) (timer_ticks r) (kernel_pool r) (user_pool r) (kernel_vaddr r) (pid_bitmap r) (pid_start r) v (istacks r) (ioqs r) (kbd r) (chans r) (disks r) (ide r) (atas r) (idt_table r) (port_log r) (cpu r) (syscall_table r) (screen r).
Definition set_istacks {H} v (r : kst H) : kst H := Kst (heap r) (bytes r) (phys r) (tasks r) (semas r) (locks r) (descs r) (arenas r) (esp r) (intr r) (cr3 r) (tss_esp0 r) (idle_thread r) (main_thread r) (timer_ticks r) (kernel_pool r) (user_pool r) (kernel_vaddr r) (pid_bitmap r) (pid_start r) (tstacks r) v (ioqs r) (kbd r) (chans r) (disks r) (ide r) (atas r) (idt_table r) (port_log r) (cpu r) (syscall_table r) (screen r).
Definition set_ioqs {H} v (r : kst H) : kst H := Kst (heap r) (bytes r) (phys r) (tasks r) (semas r) (locks r) (descs r) (arenas r) (esp r) (intr r) (cr3 r) (tss_esp0 r) (idle_thread r) (main_thread r) (timer_ticks r) (kernel_pool r) (user_pool r) (kernel_vaddr r) (pid_bitmap r) (pid_start r) (tstacks r) (istacks r) v (kbd r) (chans r) (disks r) (ide r) (atas r) (idt_table r) (port_log r) (cpu r) (syscall_table r) (screen r).
Definition set_kbd {H} v (r : kst H) : kst H := Kst (heap r) (bytes r) (phys r) (tasks r) (semas r) (locks r) (descs r) (arenas r) (esp r) (intr r) (cr3 r) (tss_esp0 r) (idle_thread r) (main_thread r) (timer_ticks r) (kernel_pool r) (user_pool r) (kernel_vaddr r) (pid_bitmap r) (pid_start r) (tstacks r) (istacks r) (ioqs r) v (chans r) (disks r) (ide r) (atas r) (idt_table r) (port_log r) (cpu r) (syscall_table r) (screen r).
Definition set_chans {H} v (r : kst H) : kst H := Kst (heap r) (bytes r) (phys r) (tasks r) (semas r) (locks r) (descs r) (arenas r) (esp r) (intr r) (cr3 r) (tss_esp0 r) (idle_thread r) (main_thread r) (timer_ticks r) (kernel_pool r) (user_pool r) (kernel_vaddr r) (pid_bitmap r) (pid_start r) (tstacks r) (istacks r) (ioqs r) (kbd r) v (disks r) (ide r) (atas r) (idt_table r) (port_log r) (cpu r) (syscall_table r) (screen r).
Definition set_disks {H} v (r : kst H) : kst H := Kst (heap r) (bytes r) (phys r) (tasks r) (semas r) (locks r) (descs r) (arenas r) (esp r) (intr r) (cr3 r) (tss_esp0 r) (idle_thread r) (main_thread r) (timer_ticks r) (kernel_pool r) (user_pool r) (kernel_vaddr r) (pid_bitmap r) (pid_start r) (tstacks r) (istacks r) (ioqs r) (kbd r) (chans r) v (ide r) (atas r) (idt_table r) (port_log r) (cpu r) (syscall_table r) (screen r).
Definition set_ide {H} v (r : kst H) : kst H := Kst (heap r) (bytes r) (phys r) (tasks r) (semas r) (locks r) (descs r) (arenas r) (esp r) (intr r) (cr3 r) (tss_esp0 r) (idle_thread r) (main_thread r) (timer_ticks r) (kernel_pool r) (user_pool r) (kernel_vaddr r) (pid_bitmap r) (pid_start r) (tstacks r) (istacks r) (ioqs r) (kbd r) (chans r) (disks r) v (atas r) (idt_table r) (port_log r) (cpu r) (syscall_table r) (screen r).
Definition set_atas {H} v (r : kst H) : kst H := Kst (heap r) (bytes r) (phys r) (tasks r) (semas r) (locks r) (descs r) (arenas r) (esp r) (intr r) (cr3 r) (tss_esp0 r) (idle_thread r) (main_thread r) (timer_ticks r) (kernel_pool r) (user_pool r) (kernel_vaddr r) (pid_bitmap r) (pid_start r) (tstacks r) (istacks r) (ioqs r) (kbd r) (chans r) (disks r) (ide r) v (idt_table r) (port_log r) (cpu r) (syscall_table r) (screen r).
Definition set_idt_table {H} v (r : kst H) : kst H := Kst (heap r) (bytes r) (phys r) (tasks r) (semas r) (locks r) (descs r) (arenas r) (esp r) (intr r) (cr3 r) (tss_esp0 r) (idle_thread r) (main_thread r) (timer_ticks r) (kernel_pool r) (user_pool r) (kernel_vaddr r) (pid_bitmap r) (pid_start r) (tstacks r) (istacks r) (ioqs r) (kbd r) (chans r) (disks r) (ide r) (atas r) v (port_log r) (cpu r) (syscall_table r) (screen r).
Definition set_port_log {H} v (r : kst H) : kst H := Kst (heap r) (bytes r) (phys r) (tasks r) (semas r) (locks r) (descs r) (arenas r) (esp r) (intr r) (cr3 r) (tss_esp0 r) (idle_thread r) (main_thread r) (timer_ticks r) (kernel_pool r) (user_pool r) (kernel_vaddr r) (pid_bitmap r) (pid_start r) (tstacks r) (istacks r) (ioqs r) (kbd r) (chans r) (disks r) (ide r) (atas r) (idt_table r) v (cpu r) (syscall_table r) (screen r).
Definition set_cpu {H} v (r : kst H) : kst H := Kst (heap r) (bytes r) (phys r) (tasks r) (semas r) (locks r) (descs r) (arenas r) (esp r) (intr r) (cr3 r) (tss_esp0 r) (idle_thread r) (main_thread r) (timer_ticks r) (kernel_pool r) (user_pool r) (kernel_vaddr r) (pid_bitmap r) (pid_start r) (tstacks r) (istacks r) (ioqs r) (kbd r) (chans r) (disks r) (ide r) (atas r) (idt_table r) (port_log r) v (syscall_table r) (screen r).
Definition set_syscall_table {H} v (r : kst H) : kst H := Kst (heap r) (bytes r) (phys r) (tasks r) (semas r) (locks r) (descs r) (arenas r) (esp r) (intr r) (cr3 r) (tss_esp0 r) (idle_thread r) (main_thread r) (timer_ticks r) (kernel_pool r) (user_pool r) (kernel_vaddr r) (pid_bitmap r) (pid_start r) (tstacks r) (istacks r) (ioqs r) (kbd r) (chans r) (disks r) (ide r) (atas r) (idt_table r) (port_log r) (cpu r) v (screen r).
Definition set_screen {H} v (r : kst H) : kst H := Kst (heap r) (bytes r) (phys r) (tasks r) (semas r) (locks r) (descs r) (arenas r) (esp r) (intr r) (cr3 r) (tss_esp0 r) (idle_thread r) (main_thread r) (timer_ticks r) (kernel_pool r) (user_pool r) (kernel_vaddr r) (pid_bitmap r) (pid_start r) (tstacks r) (istacks r) (ioqs r) (kbd r) (chans r) (disks r) (ide r) (atas r) (idt_table r) (port_log r) (cpu r) (syscall_table r) v.

(** Access to an object through a pointer [p]. *)
Definition task_at {H} (p : Z) : K (kst H) task_struct := λ s, t ← deref (tasks s !! p); Ok (t, s).
Definition upd_task {H} (p : Z) (f : task_struct → task_struct) : K (kst H) unit := λ s,
  _ ← deref (tasks s !! p); Ok (tt, set_tasks (alter f p (tasks s)) s).
Definition lock_at {H} (p : Z) : K (kst H) lock := λ s, l ← deref (locks s !! p); Ok (l, s).
Definition upd_lock {H} (p : Z) (l : lock) : K (kst H) unit := λ s,
  _ ← deref (locks s !! p); Ok (tt, set_locks (<[p := l]> (locks s)) s).
Definition sema_at {H} (p : Z) : K (kst H) Z := λ s, v ← deref (semas s !! p); Ok (v, s).
Definition upd_sema {H} (p : Z) (v : Z) : K (kst H) unit := λ s,
  _ ← deref (semas s !! p); Ok (tt, set_semas (<[p := v]> (semas s)) s).

(** Run an operation of a component on its part of the state. *)
Definition on_heap {H} (f : H → outcome H) : K (kst H) unit := λ s,
  h ← f (heap s); Ok (tt, set_heap h s).
Definition on_bytes {H} (f : bmem → outcome bmem) : K (kst H) unit := λ s,
  b ← f (bytes s); Ok (tt, set_bytes b s).
Definition on_phys {H} (f : pmem → outcome pmem) : K (kst H) unit := λ s,
  m ← f (phys s); Ok (tt, set_phys m s).
