(* ===== verification/Sched.v ===== *)
(** * The scheduler (src/thread/thread.c, src/thread/switch.asm,
    src/device/timer.c, the interrupt status of src/kernel/interrupt.c, the
    activation of src/user/process.c and src/user/tss.c)

    A task structure sits at the bottom of the page that holds its kernel
    stack, and [running_thread] recovers it from the stack pointer.
    [schedule] ends in [switch_to]: the state it leaves is the one in which the
    thread that was switched to goes on.  Code behind a call of [schedule]
    runs when its own thread is switched to again; [others] stands for all
    that the other threads do until then, and is a parameter. *)

From S2P Require Import Prelude CString Bitmap Lists PageTable Kernel.

(** [enum intr_status]. *)
Definition INTR_OFF : bool := false.
Definition INTR_ON : bool := true.

(** What the other threads do between a switch away from the thread [me] and
    the switch back to it, how often a thread that waits for a semaphore
    is woken up only to find it taken again, and which pages the processor
    still reaches, through a translation it has kept, after their page table
    entry was cleared. *)
Class World (H : Type) := {
  others : Z → kst H → outcome (kst H);
  rounds : nat;
  stale : Z → bool;
}.

Section Sched.
Context {H : Type} `{Queues H}.

(** ** kernel/interrupt.c *)

Definition intr_get_status : K (kst H) bool := gets intr.

Definition intr_enable : K (kst H) bool :=
  st ← intr_get_status;
  if bool_decide (INTR_ON = st) then mret INTR_ON
  else modify (set_intr true) ;; mret INTR_OFF.

Definition intr_disable : K (kst H) bool :=
  st ← intr_get_status;
  if bool_decide (INTR_ON = st) then modify (set_intr false) ;; mret INTR_ON
  else mret INTR_OFF.

Definition intr_set_status (st : bool) : K (kst H) bool :=
  if st then intr_enable else intr_disable.

(** [idt_table] has [IDT_DESC_CNT] entries. *)
Definition IDT_DESC_CNT : Z := 0x81.
Definition register_handler (vector_no function : Z) : K (kst H) unit :=
  lift (if u8 vector_no <? IDT_DESC_CNT then Ok tt else Fault) ;;
  modify (λ s, set_idt_table (<[u8 vector_no := function]> (idt_table s)) s).

(** ** thread/thread.c and what it calls *)

Definition running_thread : K (kst H) Z := e ← gets esp; mret (Z.land e 0xfffff000).

(** The same address as a function of the state. *)
Definition current (s : kst H) : Z := Z.land (esp s) 0xfffff000.
Lemma running_thread_current s : running_thread s = Ok (current s, s).
Proof. done. Qed.

Definition page_dir_activate (p : Z) : K (kst H) unit :=
  t ← task_at p;
  pagedir_phy_addr ←
    (if pgdir t =? NULL then mret 0x100000
     else m ← gets phys; c ← gets cr3; lift (addr_v2p m c (pgdir t)));
  modify (set_cr3 pagedir_phy_addr).

Definition update_tss_esp (p : Z) : K (kst H) unit := modify (set_tss_esp0 (u32 (p + PG_SIZE))).

Definition process_activate (p : Z) : K (kst H) unit :=
  kASSERT (negb (p =? NULL)) ;;
  page_dir_activate p ;;
  t ← task_at p;
  when (negb (pgdir t =? NULL)) (update_tss_esp p).

(** switch.asm, called with [esp] at the return address: push the four
    registers, save the stack pointer in [cur], load it from [next], pop the
    four registers and return. *)
Definition switch_to (cur next : Z) : K (kst H) unit :=
  e ← gets esp;
  modify (set_esp (u32 (e - 16))) ;;
  e ← gets esp;
  upd_task cur (set_self_kstack e) ;;
  t ← task_at next;
  modify (set_esp (u32 (self_kstack t + 20))).

(** The call instruction pushes the return address. *)
Definition call_switch_to (cur next : Z) : K (kst H) unit :=
  e ← gets esp; modify (set_esp (u32 (e - 4))) ;; switch_to cur next.

Definition find_in (l e : Z) : K (kst H) bool := h ← gets heap; lift (qfind h l e).
Definition is_empty (l : Z) : K (kst H) bool := h ← gets heap; lift (qempty h l).
Definition pop_from (l : Z) : K (kst H) Z :=
  h ← gets heap; r ← lift (qpop h l); modify (set_heap r.2) ;; mret r.1.

Definition blocked_status (st : task_status) : bool :=
  match st with TASK_BLOCKED | TASK_WAITING | TASK_HANGING => true | _ => false end.

Definition thread_unblock (p : Z) : K (kst H) unit :=
  old_status ← intr_disable;
  t ← task_at p;
  kASSERT (blocked_status (status t)) ;;
  (if bool_decide (status t ≠ TASK_READY) then
     f ← find_in thread_ready_list (general_tag p);
     kASSERT (negb f) ;;
     f ← find_in thread_ready_list (general_tag p);
     (if (f : bool) then lift Panic else mret tt) ;;
     on_heap (λ h, qpush h thread_ready_list (general_tag p)) ;;
     upd_task p (set_status TASK_READY)
   else mret tt) ;;
  intr_set_status old_status ;; mret tt.

Definition schedule : K (kst H) unit :=
  st ← intr_get_status;
  kASSERT (bool_decide (st = INTR_OFF)) ;;
  cur ← running_thread;
  t ← task_at cur;
  (if bool_decide (status t = TASK_RUNNING) then
     f ← find_in thread_ready_list (general_tag cur);
     kASSERT (negb f) ;;
     on_heap (λ h, qappend h thread_ready_list (general_tag cur)) ;;
     upd_task cur (λ t, set_ticks (priority t) t) ;;
     upd_task cur (set_status TASK_READY)
   else mret tt) ;;
  e ← is_empty thread_ready_list;
  (if (e : bool) then p ← gets idle_thread; thread_unblock p else mret tt) ;;
  e ← is_empty thread_ready_list;
  kASSERT (negb e) ;;
  thread_tag ← pop_from thread_ready_list;
  let next := general_entry thread_tag in
  upd_task next (set_status TASK_RUNNING) ;;
  process_activate next ;;
  call_switch_to cur next.

Definition run_others `{World H} (me : Z) : K (kst H) unit := λ s, s' ← others me s; Ok (tt, s').

(** [schedule] as its caller [me] sees it: it returns when [me] runs again. *)
Definition schedule_return `{World H} : K (kst H) unit :=
  me ← running_thread;
  schedule ;;
  cur ← running_thread;
  if cur =? me then mret tt else run_others me.

Definition thread_block `{World H} (stat : task_status) : K (kst H) unit :=
  kASSERT (blocked_status stat) ;;
  old_status ← intr_disable;
  cur ← running_thread;
  upd_task cur (set_status stat) ;;
  schedule_return ;;
  intr_set_status old_status ;; mret tt.

Definition thread_yield `{World H} : K (kst H) unit :=
  cur ← running_thread;
  old_status ← intr_disable;
  f ← find_in thread_ready_list (general_tag cur);
  kASSERT (negb f) ;;
  on_heap (λ h, qappend h thread_ready_list (general_tag cur)) ;;
  upd_task cur (set_status TASK_READY) ;;
  schedule_return ;;
  intr_set_status old_status ;; mret tt.

(** ** device/timer.c *)

Definition intr_timer_handler : K (kst H) unit :=
  cur ← running_thread;
  t ← task_at cur;
  kASSERT (stack_magic t =? 0x19870916) ;;
  upd_task cur (λ t, set_elapsed_ticks (u32 (elapsed_ticks t + 1)) t) ;;
  n ← gets timer_ticks; modify (set_timer_ticks (u32 (n + 1))) ;;
  t ← task_at cur;
  if ticks t =? 0 then schedule
  else upd_task cur (λ t, set_ticks (u8 (ticks t - 1)) t).

Fixpoint ticks_to_sleep_loop `{World H} (fuel : nat) (start_tick sleep_ticks : Z) : K (kst H) unit :=
  match fuel with
  | O => lift NoFuel
  | S fuel =>
      n ← gets timer_ticks;
      if u32 (n - start_tick) <? sleep_ticks then
        thread_yield ;; ticks_to_sleep_loop fuel start_tick sleep_ticks
      else mret tt
  end.

Definition ticks_to_sleep `{World H} (fuel : nat) (sleep_ticks : Z) : K (kst H) unit :=
  start_tick ← gets timer_ticks; ticks_to_sleep_loop fuel start_tick sleep_ticks.

Definition mtime_sleep `{World H} (fuel : nat) (m_seconds : Z) : K (kst H) unit :=
  let sleep_ticks := u32 (m_seconds + 10 - 1) / 10 in
  kASSERT (0 <? sleep_ticks) ;;
  ticks_to_sleep fuel sleep_ticks.

(** ** Invariant

    [run] is on the processor and [ready] is the ready queue.  Every task
    structure is at the bottom of a page, every task but the running one has
    its stack pointer saved inside its page, the stack pointer is in the page
    of the running task, exactly the tasks in the ready queue have the status
    [TASK_READY], and [cr3] holds the page directory of the running task.  [D]
    gives the physical address of every page directory; all of them map the
    page directories in the same way ([create_page_dir] copies the kernel's
    part of the directory). *)

Definition page_ok (p : Z) : Prop := p mod 4096 = 0 ∧ 0 < p < 2 ^ 32 - 4096.
Definition stack_ok (p e : Z) : Prop := p + 300 ≤ e < p + 4096.

Definition dir_of (D : gmap Z Z) (t : task_struct) : Z :=
  if pgdir t =? NULL then 0x100000 else default 0 (D !! pgdir t).

Definition dirs_ok (m : pmem) (D : gmap Z Z) : Prop :=
  ∀ c v pa, c = 0x100000 ∨ (∃ v', D !! v' = Some c) → D !! v = Some pa → addr_v2p m c v = Ok pa.

Record sched_inv (s : kst H) (D : gmap Z Z) (Q : gmap Z (list Z)) (run : Z) (ready : list Z) : Prop := {
  si_heap : qrep (heap s) Q;
  si_ready : Q !! thread_ready_list = Some (general_tag <$> ready);
  si_page : ∀ p t, tasks s !! p = Some t →
    page_ok p ∧ general_tag p ∈ qcell (heap s) ∧ (pgdir t = NULL ∨ is_Some (D !! pgdir t));
  si_stack : ∀ p t, tasks s !! p = Some t → p ≠ run → stack_ok p (self_kstack t + 20);
  si_esp : stack_ok run (esp s);
  si_run : ∃ t, tasks s !! run = Some t ∧ cr3 s = dir_of D t;
  si_known : ∀ p, p ∈ ready → is_Some (tasks s !! p);
  si_status : ∀ p t, tasks s !! p = Some t → status t = TASK_READY ↔ p ∈ ready;
  si_dirs : dirs_ok (phys s) D;
}.

#[local] Arguments si_heap {_ _ _ _ _}.
#[local] Arguments si_ready {_ _ _ _ _}.
#[local] Arguments si_page {_ _ _ _ _} _ {_ _}.
#[local] Arguments si_stack {_ _ _ _ _} _ {_ _}.
#[local] Arguments si_esp {_ _ _ _ _}.
#[local] Arguments si_run {_ _ _ _ _}.
#[local] Arguments si_known {_ _ _ _ _} _ {_}.
#[local] Arguments si_status {_ _ _ _ _} _ {_ _}.
#[local] Arguments si_dirs {_ _ _ _ _}.

(** All that the scheduler leaves alone. *)
Definition same_rest (s s' : kst H) : Prop :=
  s' = set_heap (heap s') (set_tasks (tasks s') (set_esp (esp s') (set_cr3 (cr3 s')
         (set_tss_esp0 (tss_esp0 s') s)))).

Lemma general_tag_inj p q : general_tag p = general_tag q → p = q.
Proof. unfold general_tag. lia. Qed.
#[local] Instance general_tag_Inj : Inj eq eq general_tag := general_tag_inj.

Lemma si_run_page s D Q run ready : sched_inv s D Q run ready → page_ok run.
Proof. intros I. destruct (si_run I) as (t & Ht & _). by eapply si_page. Qed.

(** The stack pointer finds the task. *)
Lemma running_thread_eq s run :
  page_ok run → stack_ok run (esp s) → running_thread s = Ok (run, s).
Proof.
  intros [Hm Hr] He. unfold stack_ok in He. unfold running_thread. kgo. unfold mret, K_ret.
  do 2 f_equal. rewrite land_fffff000 by lia. dm.
Qed.

Lemma running_thread_ok s D Q run ready :
  sched_inv s D Q run ready → running_thread s = Ok (run, s).
Proof. intros I. apply running_thread_eq; [by eapply si_run_page|apply I]. Qed.

Lemma find_in_ok s Q l xs e :
  qrep (heap s) Q → Q !! l = Some xs → find_in l e s = Ok (bool_decide (e ∈ xs), s).
Proof. intros HQ Hl. unfold find_in. kgo. by rewrite (qfind_spec _ _ _ _ _ HQ Hl). Qed.
Lemma is_empty_ok s Q l xs :
  qrep (heap s) Q → Q !! l = Some xs → is_empty l s = Ok (bool_decide (xs = []), s).
Proof. intros HQ Hl. unfold is_empty. kgo. by rewrite (qempty_spec _ _ _ _ HQ Hl). Qed.

Lemma task_at_ok (s : kst H) p t : tasks s !! p = Some t → task_at p s = Ok (t, s).
Proof. intros Ht. unfold task_at. by rewrite Ht. Qed.
Lemma upd_task_ok (s : kst H) p f :
  is_Some (tasks s !! p) → upd_task p f s = Ok (tt, set_tasks (alter f p (tasks s)) s).
Proof. intros [t Ht]. unfold upd_task. by rewrite Ht. Qed.

Lemma find_ready_false s Q ready p :
  qrep (heap s) Q → Q !! thread_ready_list = Some (general_tag <$> ready) → p ∉ ready →
  find_in thread_ready_list (general_tag p) s = Ok (false, s).
Proof.
  intros HQ Hr Hp. rewrite (find_in_ok _ _ _ _ _ HQ Hr), bool_decide_eq_false_2; [done|].
  intros (q & Hq & Hin)%list_elem_of_fmap. apply general_tag_inj in Hq as ->. done.
Qed.

Lemma intr_disable_ok s : intr_disable s = Ok (intr s, set_intr false s).
Proof. unfold intr_disable. kgo. destruct s as [????????? [] ??????????????]; done. Qed.
Lemma intr_set_status_ok b s : ∃ r, intr_set_status b s = Ok (r, set_intr b s).
Proof.
  unfold intr_set_status, intr_enable. destruct b.
  - exists (intr s). kgo. destruct s as [????????? [] ??????????????]; done.
  - eexists. apply intr_disable_ok.
Qed.

(** A change of statuses and of the ready queue that belong together. *)
Lemma sched_inv_upd s D Q run ready h' T' Q' ready' :
  sched_inv s D Q run ready → qrep h' Q' → qcell (heap s) ⊆ qcell h' →
  Q' !! thread_ready_list = Some (general_tag <$> ready') →
  (∀ p t', T' !! p = Some t' → ∃ t, tasks s !! p = Some t ∧ self_kstack t' = self_kstack t ∧
     pgdir t' = pgdir t ∧ (status t' = TASK_READY ↔ p ∈ ready')) →
  dom (tasks s) = dom T' → (∀ p, p ∈ ready' → is_Some (tasks s !! p)) →
  sched_inv (set_tasks T' (set_heap h' s)) D Q' run ready'.
Proof.
  intros I Hq Hc Hr HT Hdom Hk. split; simpl; try done.
  - intros p t' (t & Ht & _ & Hp & _)%HT. rewrite Hp. destruct (si_page I Ht) as (? & ? & ?).
    split_and!; [done|by apply Hc|done].
  - intros p t' (t & Ht & -> & _)%HT. by eapply si_stack.
  - apply I.
  - destruct (si_run I) as (t & Ht & Hcr). destruct (T' !! run) as [t'|] eqn:HT'.
    + exists t'. split; [done|]. destruct (HT _ _ HT') as (t2 & ? & _ & Hp & _). simplify_eq.
      unfold dir_of in *. by rewrite Hp.
    + apply not_elem_of_dom in HT'. apply elem_of_dom_2 in Ht. set_solver.
  - intros p Hp. apply elem_of_dom. rewrite <- Hdom. by apply elem_of_dom, Hk.
  - intros p t' (t & Ht & _ & _ & Hs)%HT. done.
  - apply I.
Qed.

(** The lookups of a status change. *)
Lemma lookup_alter_status (T : gmap Z task_struct) p f q t' :
  alter f p T !! q = Some t' →
  ∃ t, T !! q = Some t ∧ (q = p ∧ t' = f t ∨ q ≠ p ∧ t' = t).
Proof.
  destruct (decide (q = p)) as [->|Hne].
  - rewrite lookup_alter_eq. intros (t & ? & ?)%fmap_Some. naive_solver.
  - rewrite lookup_alter_ne by done. naive_solver.
Qed.

Lemma thread_unblock_ok s D Q run ready p t :
  sched_inv s D Q run ready → tasks s !! p = Some t → blocked_status (status t) = true →
  unlinked Q (general_tag p) →
  ∃ h', let s' := set_tasks (alter (set_status TASK_READY) p (tasks s)) (set_heap h' s) in
    thread_unblock p s = Ok (tt, s') ∧ qcell h' = qcell (heap s) ∧
    sched_inv s' D (<[thread_ready_list := general_tag <$> p :: ready]> Q) run (p :: ready).
Proof.
  intros I Ht Hb Hu. pose proof (si_heap I) as Hq. pose proof (si_ready I) as Hr.
  assert (p ∉ ready) as Hp.
  { intros Hin. apply (si_status I Ht) in Hin. by rewrite Hin in Hb. }
  destruct (si_page I Ht) as (_ & Hcell & _).
  destruct (qpush_spec _ _ _ _ _ Hq Hr Hu Hcell) as (h' & Hpush & Hq' & Hc').
  exists h'. simpl. split_and!; [|done|].
  - unfold thread_unblock. kstep (intr_disable_ok s). kstep (task_at_ok (set_intr false s) _ _ Ht).
    rewrite Hb. kgo. rewrite bool_decide_eq_true_2 by (intros E; by rewrite E in Hb). kgo.
    kstep (find_ready_false (set_intr false s) _ _ _ Hq Hr Hp).
    kstep (find_ready_false (set_intr false s) _ _ _ Hq Hr Hp).
    erewrite K_step by (unfold on_heap; simpl; rewrite Hpush; done). kgo.
    erewrite K_step by (apply upd_task_ok; by eexists). kgo.
    match goal with |- (intr_set_status ?b ≫= _) ?s = _ => destruct (intr_set_status_ok b s) as [r Hs] end.
    kstep Hs. by destruct s.
  - eapply sched_inv_upd; [done|done|by rewrite Hc'| | | |].
    + by rewrite lookup_insert_eq.
    + intros q t' (t0 & Ht0 & Hcase)%lookup_alter_status. exists t0. split; [done|].
      pose proof (si_status I Ht0). destruct Hcase as [[-> ->]|[? ->]]; set_solver.
    + by rewrite dom_alter_L.
    + intros q [->|Hin]%elem_of_cons; [by eexists|]. by eapply si_known.
Qed.

(** The running task goes to the end of the ready queue, with [f] applied to
    its structure (the first step of [schedule], and [thread_yield]). *)
Lemma requeue_ok s D Q run ready t f :
  sched_inv s D Q run ready → tasks s !! run = Some t → run ∉ ready → unlinked Q (general_tag run) →
  self_kstack (f t) = self_kstack t → pgdir (f t) = pgdir t → status (f t) = TASK_READY →
  ∃ h', let s' := set_tasks (alter f run (tasks s)) (set_heap h' s) in
    qappend (heap s) thread_ready_list (general_tag run) = Ok h' ∧ qcell h' = qcell (heap s) ∧
    sched_inv s' D (<[thread_ready_list := general_tag <$> ready ++ [run]]> Q) run (ready ++ [run]).
Proof.
  intros I Ht Hn Hu Hk Hd Hs. pose proof (si_heap I) as Hq. pose proof (si_ready I) as Hr.
  destruct (si_page I Ht) as (_ & Hcell & _).
  destruct (qappend_spec _ _ _ _ _ Hq Hr Hu Hcell) as (h' & Happ & Hq' & Hc').
  exists h'. split_and!; [done|done|]. eapply sched_inv_upd; [done| |by rewrite Hc'| | | |].
  - rewrite fmap_app. apply Hq'.
  - by rewrite lookup_insert_eq.
  - intros q t' (t0 & Ht0 & Hcase)%lookup_alter_status. exists t0. split; [done|].
    pose proof (si_status I Ht0). destruct Hcase as [[-> ->]|[? ->]]; simplify_eq; set_solver.
  - by rewrite dom_alter_L.
  - intros q [Hin|Hin]%elem_of_app; [by eapply si_known|]. apply list_elem_of_singleton in Hin as ->. by eexists.
Qed.

Lemma process_activate_ok s D t p c :
  tasks s !! p = Some t → p ≠ NULL → (c = 0x100000 ∨ ∃ v, D !! v = Some c) → cr3 s = c →
  dirs_ok (phys s) D → pgdir t = NULL ∨ is_Some (D !! pgdir t) →
  ∃ e0, process_activate p s = Ok (tt, set_tss_esp0 e0 (set_cr3 (dir_of D t) s)) ∧
        (pgdir t ≠ NULL → e0 = u32 (p + 4096)).
Proof.
  intros Ht Hp Hc Hcr HD Hd. unfold process_activate, page_dir_activate, dir_of.
  apply Z.eqb_neq in Hp. rewrite Hp. simpl negb. kgo. kstep (task_at_ok _ _ _ Ht).
  destruct (Z.eqb_spec (pgdir t) NULL) as [HN|HN]; kgo.
  - erewrite K_step by (by apply task_at_ok). rewrite (proj2 (Z.eqb_eq _ _) HN).
    exists (tss_esp0 s). by destruct s.
  - destruct Hd as [?|[pa Hpa]]; [done|]. rewrite Hcr, (HD _ _ _ Hc Hpa). kgo.
    erewrite K_step by (by apply task_at_ok). apply Z.eqb_neq in HN. rewrite HN, Hpa.
    eexists. split; [|done]. by destruct s.
Qed.

Lemma dir_of_cases D t : pgdir t = NULL ∨ is_Some (D !! pgdir t) →
  dir_of D t = 0x100000 ∨ ∃ v, D !! v = Some (dir_of D t).
Proof.
  unfold dir_of. intros [->|[pa Hpa]]; [by left|]. destruct (_ =? _); [by left|].
  right. rewrite Hpa. eauto.
Qed.

Lemma call_switch_to_ok s cur next t :
  page_ok cur → stack_ok cur (esp s) → page_ok next → is_Some (tasks s !! cur) →
  tasks s !! next = Some t → (next ≠ cur → stack_ok next (self_kstack t + 20)) →
  ∃ e, call_switch_to cur next s =
         Ok (tt, set_esp e (set_tasks (alter (set_self_kstack (esp s - 20)) cur (tasks s)) s)) ∧
       stack_ok next e ∧ (next = cur → e = esp s).
Proof.
  intros [_ Hcr] He [_ Hnr] Hcur Hn Hst. unfold stack_ok in *. unfold call_switch_to, switch_to. kgo.
  simpl. rewrite (u32_small (esp s - 4)) by lia. rewrite (u32_small (_ - 16)) by lia.
  replace (esp s - 4 - 16) with (esp s - 20) by lia.
  erewrite K_step by (by apply upd_task_ok). kgo. simpl.
  destruct (decide (next = cur)) as [->|Hne].
  - erewrite K_step.
    2:{ apply task_at_ok. simpl. by rewrite lookup_alter_eq, Hn. }
    kgo. simpl. rewrite u32_small by lia. eexists. split; [done|]. lia.
  - erewrite K_step.
    2:{ apply task_at_ok. simpl. by rewrite lookup_alter_ne, Hn. }
    kgo. specialize (Hst Hne). rewrite u32_small by lia. eexists. split; [done|]. lia.
Qed.

(** The state in which [next] goes on, when it is switched to from [cur]. *)
Definition dispatched (s : kst H) (cur next d e0 e : Z) (h : H) : kst H :=
  set_esp e (set_tasks (alter (set_self_kstack (esp s - 20)) cur
                          (alter (set_status TASK_RUNNING) next (tasks s)))
    (set_tss_esp0 e0 (set_cr3 d (set_heap h s)))).

Lemma dispatched_inv s D Q cur next rest t e0 e h :
  sched_inv s D Q cur (next :: rest) → tasks s !! next = Some t →
  qrep h (<[thread_ready_list := general_tag <$> rest]> Q) → qcell h = qcell (heap s) →
  next ∉ rest → stack_ok next e →
  sched_inv (dispatched s cur next (dir_of D t) e0 e h) D
    (<[thread_ready_list := general_tag <$> rest]> Q) next rest.
Proof.
  intros I Hn Hq Hc Hnr He. unfold dispatched. split; simpl; try done.
  - by rewrite lookup_insert_eq.
  - intros p t' (t1 & (t0 & Ht0 & Hcase)%lookup_alter_status & Hcase1)%lookup_alter_status.
    destruct (si_page I Ht0) as (? & ? & ?). rewrite Hc. naive_solver.
  - intros p t' (t1 & (t0 & Ht0 & Hcase)%lookup_alter_status & Hcase1)%lookup_alter_status Hp.
    destruct Hcase as [[??]|[_ ->]]; [done|]. destruct Hcase1 as [[-> ->]|[Hpc ->]].
    + simpl. replace (esp s - 20 + 20) with (esp s) by lia. apply I.
    + by eapply si_stack.
  - destruct (decide (next = cur)) as [->|Hne].
    + rewrite !lookup_alter_eq, Hn. simpl. eexists. split; [done|]. done.
    + rewrite lookup_alter_ne, lookup_alter_eq, Hn by done. simpl. eexists. done.
  - intros p Hp. rewrite !lookup_alter_is_Some. eapply si_known; [done|]. set_solver.
  - intros p t' (t1 & (t0 & Ht0 & Hcase)%lookup_alter_status & Hcase1)%lookup_alter_status.
    pose proof (si_status I Ht0) as Hs.
    assert (status t' = status t1) as -> by (destruct Hcase1 as [[_ ->]|[_ ->]]; done).
    destruct Hcase as [[-> ->]|[Hpn ->]]; [simpl; split; [done|set_solver]|]. rewrite Hs. set_solver.
  - apply I.
Qed.

Lemma dispatch_ok s D Q cur next rest t :
  sched_inv s D Q cur (next :: rest) → tasks s !! next = Some t →
  ∃ h e0 e, let s' := dispatched s cur next (dir_of D t) e0 e h in
    (thread_tag ← pop_from thread_ready_list;
     upd_task (general_entry thread_tag) (set_status TASK_RUNNING) ;;
     process_activate (general_entry thread_tag) ;;
     call_switch_to cur (general_entry thread_tag)) s = Ok (tt, s') ∧
    sched_inv s' D (<[thread_ready_list := general_tag <$> rest]> Q) next rest ∧
    unlinked (<[thread_ready_list := general_tag <$> rest]> Q) (general_tag next) ∧
    (pgdir t ≠ NULL → e0 = u32 (next + 4096)) ∧ (next = cur → e = esp s).
Proof.
  intros I Hn. pose proof (si_heap I) as Hq. pose proof (si_ready I) as Hr.
  destruct (qpop_spec _ _ _ _ _ Hq Hr) as (h & Hpop & Hq' & Hu & Hc).
  assert (next ∉ rest) as Hnr.
  { intros Hin. eapply Hu; [by rewrite lookup_insert_eq|]. unfold cells. do 2 right.
    by apply list_elem_of_fmap_2. }
  destruct (si_page I Hn) as (Hpg & _ & Hd). destruct (si_run I) as (tc & Htc & Hcr).
  destruct (si_page I Htc) as (_ & _ & Hdc).
  destruct (process_activate_ok (set_tasks (alter (set_status TASK_RUNNING) next (tasks s)) (set_heap h s))
              D (set_status TASK_RUNNING t) next (dir_of D tc)) as (e0 & Hact & He0); simpl; try done.
  { by rewrite lookup_alter_eq, Hn. }
  { intros ->. unfold page_ok, NULL in Hpg. lia. }
  { by apply dir_of_cases. }
  { apply I. }
  destruct (call_switch_to_ok (set_tss_esp0 e0 (set_cr3 (dir_of D t)
     (set_tasks (alter (set_status TASK_RUNNING) next (tasks s)) (set_heap h s)))) cur next
     (set_status TASK_RUNNING t)) as (e & Hsw & He & Heq); simpl; try done.
  { by eapply si_run_page. }
  { apply I. }
  { rewrite lookup_alter_is_Some. by eexists. }
  { by rewrite lookup_alter_eq, Hn. }
  { intros Hne. by apply (si_stack I Hn). }
  exists h, e0, e. split_and!; try done.
  - unfold pop_from. kgo. rewrite Hpop. kgo. simpl.
    replace (general_entry (general_tag next)) with next by (unfold general_entry, general_tag; lia).
    erewrite K_step by (apply upd_task_ok; by eexists). kstep Hact. etrans; [exact Hsw|]. by destruct s.
  - by apply dispatched_inv.
Qed.

(** ** The scheduler's specification: who runs next *)

(** The ready queue once the running task [t] has been put back if it only
    used up its time, and the queue from which the next task is taken. *)
Definition requeued (t : task_struct) (run : Z) (ready : list Z) : list Z :=
  if bool_decide (status t = TASK_RUNNING) then ready ++ [run] else ready.
Definition candidates (t : task_struct) (run idle : Z) (ready : list Z) : list Z :=
  match requeued t run ready with [] => [idle] | r => r end.
(** A task that used up its time gets a new time slice. *)
Definition expired (t : task_struct) : task_struct := set_status TASK_READY (set_ticks (priority t) t).
Definition requeued_tasks (t : task_struct) (run : Z) (T : gmap Z task_struct) : gmap Z task_struct :=
  if bool_decide (status t = TASK_RUNNING) then alter expired run T else T.

(** What the idle thread must satisfy when nobody else can run. *)
Definition idle_waiting (s : kst H) (Q : gmap Z (list Z)) : Prop :=
  ∃ ti, tasks s !! idle_thread s = Some ti ∧ blocked_status (status ti) = true ∧
        unlinked Q (general_tag (idle_thread s)).

Lemma schedule_requeue s D Q run ready t :
  sched_inv s D Q run ready → tasks s !! run = Some t →
  (status t = TASK_RUNNING → unlinked Q (general_tag run)) →
  ∃ h, let s' := set_tasks (requeued_tasks t run (tasks s)) (set_heap h s) in
    (if bool_decide (status t = TASK_RUNNING) then
       f ← find_in thread_ready_list (general_tag run);
       kASSERT (negb f) ;;
       on_heap (λ h, qappend h thread_ready_list (general_tag run)) ;;
       upd_task run (λ t, set_ticks (priority t) t) ;;
       upd_task run (set_status TASK_READY)
     else mret tt) s = Ok (tt, s') ∧ qcell h = qcell (heap s) ∧
    sched_inv s' D (<[thread_ready_list := general_tag <$> requeued t run ready]> Q) run (requeued t run ready).
Proof.
  intros I Ht Hu. unfold requeued, requeued_tasks. case_bool_decide as Hs.
  - assert (run ∉ ready) as Hn. { intros Hin%(si_status I Ht). congruence. }
    destruct (requeue_ok _ _ _ _ _ _ expired I Ht Hn (Hu Hs)) as (h & Happ & Hc & I'); try done.
    exists h. split_and!; [|done|done].
    kstep (find_ready_false _ _ _ _ (si_heap I) (si_ready I) Hn).
    erewrite K_step by (unfold on_heap; rewrite Happ; done). kgo.
    erewrite K_step by (apply upd_task_ok; by eexists). kgo.
    rewrite upd_task_ok by (simpl; rewrite lookup_alter_is_Some; by eexists). simpl.
    by rewrite alter_alter_eq.
  - exists (heap s). split_and!; [by destruct s|done|]. rewrite insert_id by apply I. by destruct s.
Qed.

Lemma schedule_ok s D Q run ready t :
  sched_inv s D Q run ready → intr s = false → tasks s !! run = Some t →
  (status t = TASK_RUNNING → unlinked Q (general_tag run)) →
  (requeued t run ready = [] → idle_waiting s Q) →
  ∃ next rest s', candidates t run (idle_thread s) ready = next :: rest ∧
    schedule s = Ok (tt, s') ∧
    sched_inv s' D (<[thread_ready_list := general_tag <$> rest]> Q) next rest ∧
    unlinked (<[thread_ready_list := general_tag <$> rest]> Q) (general_tag next) ∧
    tasks s' = alter (set_self_kstack (esp s - 20)) run
                 (alter (set_status TASK_RUNNING) next (requeued_tasks t run (tasks s))) ∧
    same_rest s s' ∧ (next = run → esp s' = esp s).
Proof.
  intros I Hi Ht Hu Hidle. unfold schedule, candidates.
  unfold intr_get_status. kgo. rewrite Hi. rewrite bool_decide_eq_true_2 by done. kgo.
  kstep (running_thread_ok _ _ _ _ _ I). kstep (task_at_ok _ _ _ Ht).
  destruct (schedule_requeue _ _ _ _ _ _ I Ht Hu) as (h & Hrq & Hc & I1). kstep Hrq.
  set (s1 := set_tasks _ _) in *. set (Q1 := <[_ := _]> Q) in *.
  kstep (is_empty_ok _ _ _ _ (si_heap I1) (si_ready I1)).
  destruct (requeued t run ready) as [|next rest] eqn:Er.
  - destruct (Hidle eq_refl) as (ti & Hti & Hb & Hui).
    assert (bool_decide (status t = TASK_RUNNING) = false) as Hs.
    { unfold requeued in Er. case_bool_decide; [|done]. by destruct ready. }
    assert (tasks s1 = tasks s) as HT by (unfold s1, requeued_tasks; by rewrite Hs).
    assert (Q1 = Q) as HQ.
    { apply insert_id. rewrite (si_ready I). unfold requeued in Er. rewrite Hs in Er. by rewrite Er. }
    destruct (thread_unblock_ok s1 D Q1 run [] (idle_thread s) ti I1) as (h2 & Hub & Hc2 & I2).
    { by rewrite HT. } { done. } { by rewrite HQ. }
    rewrite bool_decide_eq_true_2 by done. kgo. kstep Hub. set (s2 := set_tasks _ (set_heap h2 s1)) in *.
    kstep (is_empty_ok _ _ _ _ (si_heap I2) (si_ready I2)). 
    destruct (dispatch_ok s2 _ _ _ _ _ (set_status TASK_READY ti) I2) as (h3 & e0 & e & Hd & I3 & Hu3 & _ & He).
    { change (alter (set_status TASK_READY) (idle_thread s) (tasks s1) !! idle_thread s = Some (set_status TASK_READY ti)). by rewrite HT, lookup_alter_eq, Hti. }
    rewrite insert_insert_eq in I3, Hu3. unfold Q1 in I3, Hu3. rewrite insert_insert_eq in I3, Hu3.
    eexists _, _, _. split_and!; [done|exact Hd|done|done| |done|done].
    simpl. by rewrite alter_alter_eq.
  - rewrite bool_decide_eq_false_2 by done. kgo.
    kstep (is_empty_ok _ _ _ _ (si_heap I1) (si_ready I1)). 
    destruct (si_known I1 (p:=next)) as [tn Htn]; [set_solver|].
    destruct (dispatch_ok s1 _ _ _ _ _ tn I1 Htn) as (h3 & e0 & e & Hd & I3 & Hu3 & _ & He).
    unfold Q1 in I3, Hu3. rewrite insert_insert_eq in I3, Hu3.
    eexists _, _, _. split_and!; [done|exact Hd|done|done|done|done|done].
Qed.

(** The invariant depends on these parts of the state only. *)
Lemma sched_inv_ext s s' D Q run ready :
  heap s' = heap s → tasks s' = tasks s → esp s' = esp s → cr3 s' = cr3 s → phys s' = phys s →
  sched_inv s D Q run ready → sched_inv s' D Q run ready.
Proof. intros Eh Et Ee Ec Ep []. split; rewrite ?Eh, ?Et, ?Ee, ?Ec, ?Ep; done. Qed.

(** A change of the running task's structure that the scheduler does not see. *)
Lemma sched_inv_alter s D Q run ready p f :
  sched_inv s D Q run ready →
  (∀ t, tasks s !! p = Some t → self_kstack (f t) = self_kstack t ∧ pgdir (f t) = pgdir t ∧
        (status (f t) = TASK_READY ↔ p ∈ ready)) →
  sched_inv (set_tasks (alter f p (tasks s)) s) D Q run ready.
Proof.
  intros I Hf. eapply (sched_inv_ext (set_tasks (alter f p (tasks s)) (set_heap (heap s) s))); try done.
  eapply sched_inv_upd; [done|apply I|done|apply I| | |].
  - intros q t' (t & Ht & Hcase)%lookup_alter_status. exists t. split; [done|].
    destruct Hcase as [[-> ->]|[? ->]]; [naive_solver|]. split_and!; [done..|by apply (si_status I)].
  - by rewrite dom_alter_L.
  - intros q. apply (si_known I).
Qed.

(** ** The timer *)

Definition ticked (t : task_struct) : task_struct := set_elapsed_ticks (u32 (elapsed_ticks t + 1)) t.
Definition tick_state (s : kst H) (run : Z) : kst H :=
  set_timer_ticks (u32 (timer_ticks s + 1)) (set_tasks (alter ticked run (tasks s)) s).

Lemma timer_handler_eq s run t :
  page_ok run → stack_ok run (esp s) → tasks s !! run = Some t → stack_magic t = 0x19870916 →
  intr_timer_handler s =
    if ticks t =? 0 then schedule (tick_state s run)
    else Ok (tt, set_tasks (alter (λ t, set_ticks (u8 (ticks t - 1)) t) run (tasks (tick_state s run)))
                   (tick_state s run)).
Proof.
  intros Hp He Ht Hm. unfold intr_timer_handler. kstep (running_thread_eq _ _ Hp He).
  kstep (task_at_ok _ _ _ Ht). rewrite (proj2 (Z.eqb_eq _ _) Hm). kgo.
  erewrite K_step by (apply upd_task_ok; by eexists). kgo.
  fold (ticked). change (set_timer_ticks _ _) with (tick_state s run).
  erewrite K_step.
  2:{ apply task_at_ok. simpl. by rewrite lookup_alter_eq, Ht. }
  cbn [ticks ticked set_elapsed_ticks]. destruct (ticks t =? 0); [reflexivity|].
  apply upd_task_ok. simpl. rewrite lookup_alter_eq, Ht. by eexists.
Qed.

Lemma tick_state_inv s D Q run ready :
  sched_inv s D Q run ready → sched_inv (tick_state s run) D Q run ready.
Proof.
  intros I. eapply sched_inv_ext; [..|eapply (sched_inv_alter _ _ _ _ _ run ticked I)]; try done.
  intros t Ht. split_and!; [done..|]. exact (si_status I Ht).
Qed.

(** [n] timer interrupts, [n] calls of [schedule]. *)
Fixpoint repeat_op (n : nat) (op : K (kst H) unit) : K (kst H) unit :=
  match n with O => mret tt | S n => op ;; repeat_op n op end.

(** The last [k] ticks of a time slice. *)
Lemma timer_slice n : ∀ s D Q run ready t,
  sched_inv s D Q run ready → tasks s !! run = Some t → stack_magic t = 0x19870916 →
  0 ≤ ticks t < 256 → Z.of_nat n ≤ ticks t →
  ∃ s' t', repeat_op n intr_timer_handler s = Ok (tt, s') ∧ sched_inv s' D Q run ready ∧
    tasks s' !! run = Some t' ∧ ticks t' = ticks t - Z.of_nat n ∧
    stack_magic t' = stack_magic t ∧ status t' = status t ∧ priority t' = priority t ∧
    intr s' = intr s ∧ idle_thread s' = idle_thread s ∧
    (∀ p, p ≠ run → tasks s' !! p = tasks s !! p).
Proof.
  induction n as [|n IH]; intros s D Q run ready t I Ht Hm Hr Hn.
  - exists s, t. split_and!; try done. lia.
  - simpl. pose proof (si_run_page _ _ _ _ _ I) as Hp.
    pose proof (timer_handler_eq s run t Hp (si_esp I) Ht Hm) as Hh.
    rewrite (proj2 (Z.eqb_neq (ticks t) 0)) in Hh by lia. kstep Hh.
    set (s1 := set_tasks _ _).
    destruct (IH s1 D Q run ready (set_ticks (ticks t - 1) (ticked t))) as (s' & t' & ? & ? & ? & Htk & ? & ? & ? & ? & ? & Hoth).
    { eapply sched_inv_alter; [by apply tick_state_inv|].
      intros t0 Ht0. split_and!; [done..|]. simpl in Ht0.
      rewrite lookup_alter_eq, Ht in Ht0. simplify_eq/=. exact (si_status I Ht). }
    { unfold s1. simpl. rewrite lookup_alter_eq. simpl. rewrite lookup_alter_eq, Ht. simpl.
      rewrite u8_small by lia. done. }
    { done. } { simpl. lia. } { simpl. lia. }
    exists s', t'. split_and!; try done.
    + simpl in Htk. lia.
    + intros p Hpr. rewrite Hoth by done. unfold s1. simpl. by rewrite !lookup_alter_ne.
Qed.

(** ** Calls of [schedule] that return *)

(** Switching to another task: the caller goes on in the state in which the
    others leave it. *)
Lemma schedule_return_switch `{World H} s D Q Q' run ready next rest s1 :
  sched_inv s D Q run ready → schedule s = Ok (tt, s1) → sched_inv s1 D Q' next rest → next ≠ run →
  schedule_return s = (s2 ← others run s1; Ok (tt, s2)).
Proof.
  intros I Hs I1 Hne. unfold schedule_return. kstep (running_thread_ok _ _ _ _ _ I). kstep Hs.
  kstep (running_thread_ok _ _ _ _ _ I1). apply Z.eqb_neq in Hne. by rewrite Hne.
Qed.

Lemma schedule_return_stay `{World H} s D Q Q' run ready rest s1 :
  sched_inv s D Q run ready → schedule s = Ok (tt, s1) → sched_inv s1 D Q' run rest →
  schedule_return s = Ok (tt, s1).
Proof.
  intros I Hs I1. unfold schedule_return. kstep (running_thread_ok _ _ _ _ _ I). kstep Hs.
  kstep (running_thread_ok _ _ _ _ _ I1). by rewrite Z.eqb_refl.
Qed.

(** The running task takes itself off the processor. *)
Lemma block_schedule s D Q run ready stat t :
  sched_inv s D Q run ready → intr s = false → tasks s !! run = Some t → status t = TASK_RUNNING →
  blocked_status stat = true → (ready = [] → idle_waiting s Q ∧ idle_thread s ≠ run) →
  ∃ next rest s1, match ready with [] => [idle_thread s] | _ => ready end = next :: rest ∧
    schedule (set_tasks (alter (set_status stat) run (tasks s)) s) = Ok (tt, s1) ∧
    sched_inv s1 D (<[thread_ready_list := general_tag <$> rest]> Q) next rest ∧ next ≠ run ∧
    (∃ t1, tasks s1 !! run = Some t1 ∧ status t1 = stat) ∧
    sched_inv (set_tasks (alter (set_status stat) run (tasks s)) s) D Q run ready ∧ same_rest s s1 ∧
    unlinked (<[thread_ready_list := general_tag <$> rest]> Q) (general_tag next) ∧
    (∃ t1, tasks s1 !! next = Some t1 ∧ status t1 = TASK_RUNNING) ∧
    tasks s1 = alter (set_self_kstack (esp s - 20)) run (alter (set_status TASK_RUNNING) next (alter (set_status stat) run (tasks s))).
Proof.
  intros I Hi Ht Hs Hb Hid. set (s0 := set_tasks _ s).
  assert (run ∉ ready) as Hn by (intros Hin%(si_status I Ht); congruence).
  assert (stat ≠ TASK_READY ∧ stat ≠ TASK_RUNNING) as [Hsr Hsn] by (by destruct stat).
  assert (sched_inv s0 D Q run ready) as I0.
  { apply sched_inv_alter; [done|]. intros t0 _. split_and!; [done..|]. simpl. naive_solver. }
  assert (tasks s0 !! run = Some (set_status stat t)) as Ht0 by (unfold s0; simpl; by rewrite lookup_alter_eq, Ht).
  assert (requeued (set_status stat t) run ready = ready) as Er
    by (unfold requeued; by rewrite bool_decide_eq_false_2).
  destruct (schedule_ok s0 D Q run ready _ I0 Hi Ht0) as (next & rest & s1 & Hc & Hsc & I1 & Hun & HT & Hsame & _).
  { done. }
  { rewrite Er. intros E. destruct (Hid E) as [(ti & Hti & ? & ?) Hne]. exists ti. split; [|done].
    unfold s0. simpl. by rewrite lookup_alter_ne. }
  unfold candidates in Hc. rewrite Er in Hc.
  assert (next ≠ run) as Hne.
  { intros ->. destruct ready as [|r0 ready]; simplify_eq; [|set_solver]. by destruct (Hid eq_refl). }
  exists next, rest, s1. rewrite HT. unfold requeued_tasks. rewrite bool_decide_eq_false_2 by done.
  split_and!; [by destruct ready|exact Hsc|done|done| |done|exact Hsame|exact Hun| |done].
  - rewrite lookup_alter_eq, lookup_alter_ne, Ht0 by done. simpl. eexists. done.
  - destruct (si_run I1) as (t' & Ht' & _). rewrite HT in Ht'. unfold requeued_tasks in Ht'.
    rewrite bool_decide_eq_false_2 in Ht' by done. rewrite lookup_alter_ne in Ht' |- * by done. rewrite Ht'. eexists. split; [done|].
    apply lookup_alter_status in Ht' as (t2 & _ & [[_ ->] | [? _]]); done.
Qed.

(** ** Properties *)

(** C4: [schedule] keeps the scheduler's invariant and picks the next task in
    turn: a task that only used up its time goes to the end of the ready
    queue with a fresh time slice, the first task of the queue (the idle
    thread when the queue is empty) becomes the running one, its page
    directory is loaded, the stack pointer is in its page, and the stack
    pointer of the old task is saved. *)
Theorem schedule_next s D Q run ready t :
  sched_inv s D Q run ready → intr s = false → tasks s !! run = Some t →
  (status t = TASK_RUNNING → unlinked Q (general_tag run)) →
  (requeued t run ready = [] → idle_waiting s Q) →
  ∃ next rest s', candidates t run (idle_thread s) ready = next :: rest ∧
    schedule s = Ok (tt, s') ∧
    sched_inv s' D (<[thread_ready_list := general_tag <$> rest]> Q) next rest ∧
    unlinked (<[thread_ready_list := general_tag <$> rest]> Q) (general_tag next) ∧
    tasks s' = alter (set_self_kstack (esp s - 20)) run
                 (alter (set_status TASK_RUNNING) next (requeued_tasks t run (tasks s))) ∧
    same_rest s s' ∧ (next = run → esp s' = esp s).
Proof. apply schedule_ok. Qed.

(** [schedule] when the running task is runnable: the queue rotates. *)
Lemma schedule_rotate s D Q run ready t next rest :
  sched_inv s D Q run ready → intr s = false → tasks s !! run = Some t → status t = TASK_RUNNING →
  unlinked Q (general_tag run) → ready ++ [run] = next :: rest →
  ∃ s' t', schedule s = Ok (tt, s') ∧
    sched_inv s' D (<[thread_ready_list := general_tag <$> rest]> Q) next rest ∧ intr s' = false ∧
    tasks s' !! next = Some t' ∧ status t' = TASK_RUNNING ∧
    unlinked (<[thread_ready_list := general_tag <$> rest]> Q) (general_tag next).
Proof.
  intros I Hi Ht Hs Hu Hr.
  assert (requeued t run ready = next :: rest) as Er
    by (unfold requeued; by rewrite bool_decide_eq_true_2).
  destruct (schedule_ok _ _ _ _ _ _ I Hi Ht) as (n' & r' & s' & Hc & Hsc & I' & Hu' & HT & Hsame & _); [done|by rewrite Er|].
  unfold candidates in Hc. rewrite Er in Hc. simplify_eq.
  destruct (si_run I') as (t' & Ht' & _). exists s', t'. split_and!; try done.
  - rewrite Hsame. done.
  - rewrite HT in Ht'. apply lookup_alter_status in Ht' as (t1 & Ht1 & Hc1).
    apply lookup_alter_status in Ht1 as (t2 & _ & Hc2).
    destruct Hc2 as [[_ ->]|[? _]]; [|done]. by destruct Hc1 as [[_ ->]|[_ ->]].
Qed.

(** One turn of the queue. *)
Definition turn (l : list Z) : list Z := match l with [] => [] | x :: l => l ++ [x] end.
Fixpoint turns (n : nat) (l : list Z) : list Z := match n with O => l | S n => turns n (turn l) end.

Lemma turns_app l1 l2 : turns (length l1) (l1 ++ l2) = l2 ++ l1.
Proof.
  revert l2. induction l1 as [|x l1 IH]; intros l2; simpl; [by rewrite app_nil_r|].
  by rewrite <- app_assoc, IH, <- app_assoc.
Qed.
Lemma turns_head n l : (n < length l)%nat → head (turns n l) = l !! n.
Proof.
  intros Hn. rewrite <- (take_drop n l) at 1.
  replace n with (length (take n l)) at 1 by (rewrite length_take; lia).
  rewrite turns_app. destruct (lookup_lt_is_Some_2 l n Hn) as [x Hx].
  by rewrite (drop_S _ _ _ Hx), Hx.
Qed.

(** C5: the scheduler is round robin: when every task stays runnable, [n]
    calls of [schedule] turn the cycle of the running task and the ready
    queue by [n] places, so that after [n] calls, for [n] up to the number
    of waiting tasks, the [n]-th of them is the running one. *)
Theorem schedule_round_robin n s D Q run ready t :
  sched_inv s D Q run ready → intr s = false → tasks s !! run = Some t → status t = TASK_RUNNING →
  unlinked Q (general_tag run) →
  ∃ s' run' ready', repeat_op n schedule s = Ok (tt, s') ∧
    running_thread s' = Ok (run', s') ∧ turns n (run :: ready) = run' :: ready' ∧
    ((n ≤ length ready)%nat → (run :: ready) !! n = Some run') ∧
    sched_inv s' D (<[thread_ready_list := general_tag <$> ready']> Q) run' ready'.
Proof.
  intros I Hi Ht Hs Hu. cut (∃ s' run' ready', repeat_op n schedule s = Ok (tt, s') ∧
    turns n (run :: ready) = run' :: ready' ∧
    sched_inv s' D (<[thread_ready_list := general_tag <$> ready']> Q) run' ready').
  { intros (s' & run' & ready' & Hrep & Hturn & I'). exists s', run', ready'. split_and!; try done.
    - by eapply running_thread_ok.
    - intros Hn. rewrite <- turns_head by (simpl; lia). by rewrite Hturn. }
  revert s Q run ready t I Hi Ht Hs Hu. induction n as [|n IH]; intros s Q run ready t I Hi Ht Hs Hu.
  - exists s, run, ready. split_and!; [done|done|].
    rewrite insert_id; [done|apply I].
  - destruct (ready ++ [run]) as [|next rest] eqn:Er; [by destruct ready|].
    destruct (schedule_rotate _ _ _ _ _ _ _ _ I Hi Ht Hs Hu Er) as (s1 & t1 & Hsc & I1 & Hi1 & Ht1 & Hs1 & Hu1).
    destruct (IH _ _ _ _ _ I1 Hi1 Ht1 Hs1 Hu1) as (s' & run' & ready' & Hn & Hrot & I').
    exists s', run', ready'. simpl. kstep Hsc. rewrite Er. split_and!; try done.
    by rewrite insert_insert_eq in I'.
Qed.

(** A time slice lasts [ticks + 1] timer interrupts: the first [ticks] of
    them leave the running task on the processor and count its slice down to
    0, and the next one hands the processor over exactly as [schedule] does. *)
Theorem timer_preempts s D Q run ready t :
  sched_inv s D Q run ready → tasks s !! run = Some t → stack_magic t = 0x19870916 →
  0 ≤ ticks t < 256 →
  ∃ s', repeat_op (Z.to_nat (ticks t)) intr_timer_handler s = Ok (tt, s') ∧
    sched_inv s' D Q run ready ∧ (∀ p, p ≠ run → tasks s' !! p = tasks s !! p) ∧
    intr_timer_handler s' = schedule (tick_state s' run) ∧ sched_inv (tick_state s' run) D Q run ready.
Proof.
  intros I Ht Hm Hr.
  destruct (timer_slice (Z.to_nat (ticks t)) _ _ _ _ _ _ I Ht Hm Hr) as
    (s' & t' & Hrep & I' & Ht' & Htk & Hm' & _ & _ & _ & _ & Hoth); [lia|].
  exists s'. split_and!; try done; [|by apply tick_state_inv].
  rewrite (timer_handler_eq s' run t') by (done || (by eapply si_run_page) || apply I' || congruence).
  by rewrite (proj2 (Z.eqb_eq (ticks t') 0)) by lia.
Qed.

Lemma thread_block_full `{World H} s D Q run ready stat t :
  sched_inv s D Q run ready → tasks s !! run = Some t → status t = TASK_RUNNING →
  blocked_status stat = true → (ready = [] → idle_waiting s Q ∧ idle_thread s ≠ run) →
  ∃ next rest s1, match ready with [] => [idle_thread s] | _ => ready end = next :: rest ∧
    sched_inv s1 D (<[thread_ready_list := general_tag <$> rest]> Q) next rest ∧
    (∃ t1, tasks s1 !! run = Some t1 ∧ status t1 = stat) ∧ (run ∉ next :: rest) ∧
    thread_block stat s = (s2 ← others run s1; Ok (tt, set_intr (intr s) s2)) ∧
    same_rest (set_intr false s) s1 ∧
    unlinked (<[thread_ready_list := general_tag <$> rest]> Q) (general_tag next) ∧
    (∃ t1, tasks s1 !! next = Some t1 ∧ status t1 = TASK_RUNNING) ∧
    tasks s1 = alter (set_self_kstack (esp s - 20)) run (alter (set_status TASK_RUNNING) next (alter (set_status stat) run (tasks s))).
Proof.
  intros I Ht Hs Hb Hid. unfold thread_block. rewrite Hb. kgo. kstep (intr_disable_ok s).
  set (s0 := set_intr false s).
  assert (sched_inv s0 D Q run ready) as I0 by (by eapply sched_inv_ext; [..|exact I]).
  kstep (running_thread_ok _ _ _ _ _ I0).
  erewrite K_step by (apply upd_task_ok; by eexists). kgo.
  destruct (block_schedule s0 D Q run ready stat t) as (next & rest & s1 & Hc & Hsc & I1 & Hne & Hst & Ib & Hsame & Hun & Hrn & HT); try done.
  exists next, rest, s1. split_and!; try done.
  - destruct Hst as (t1 & Ht1 & Hst). apply not_elem_of_cons. split; [done|].
    intros Hin%(si_status I1 Ht1). rewrite Hst in Hin. by destruct stat.
  - unfold mbind at 1, K_bind. unfold schedule_return. kstep (running_thread_ok _ _ _ _ _ Ib). kstep Hsc.
    kstep (running_thread_ok _ _ _ _ _ I1). apply Z.eqb_neq in Hne. rewrite Hne. unfold run_others.
    destruct (others run s1) as [s2| | |]; try done. simpl.
    destruct (intr_set_status_ok (intr s) s2) as [r Hr]. unfold mbind, K_bind. by rewrite Hr.
Qed.
Lemma thread_block_ok `{World H} s D Q run ready stat t :
  sched_inv s D Q run ready → tasks s !! run = Some t → status t = TASK_RUNNING →
  blocked_status stat = true → (ready = [] → idle_waiting s Q ∧ idle_thread s ≠ run) →
  ∃ next rest s1, match ready with [] => [idle_thread s] | _ => ready end = next :: rest ∧
    sched_inv s1 D (<[thread_ready_list := general_tag <$> rest]> Q) next rest ∧
    (∃ t1, tasks s1 !! run = Some t1 ∧ status t1 = stat) ∧ (run ∉ next :: rest) ∧
    thread_block stat s = (s2 ← others run s1; Ok (tt, set_intr (intr s) s2)).
Proof.
  intros I Ht Hs Hb Hid. destruct (thread_block_full s D Q run ready stat t I Ht Hs Hb Hid) as (next & rest & s1 & ? & ? & ? & ? & ? & _).
  by exists next, rest, s1.
Qed.

(** [thread_block] hands the processor to the first ready task, or to the
    idle thread, with the caller in the given state and out of the ready
    queue; it returns when the others have switched back, with the
    interrupt flag as it was before the call. *)
Theorem thread_block_switches `{World H} s D Q run ready stat t :
  sched_inv s D Q run ready → tasks s !! run = Some t → status t = TASK_RUNNING →
  blocked_status stat = true → (ready = [] → idle_waiting s Q ∧ idle_thread s ≠ run) →
  ∃ next rest s1, match ready with [] => [idle_thread s] | _ => ready end = next :: rest ∧
    sched_inv s1 D (<[thread_ready_list := general_tag <$> rest]> Q) next rest ∧
    (∃ t1, tasks s1 !! run = Some t1 ∧ status t1 = stat) ∧ (run ∉ next :: rest) ∧
    thread_block stat s = (s2 ← others run s1; Ok (tt, set_intr (intr s) s2)).
Proof. apply thread_block_ok. Qed.

(** [thread_unblock] makes a blocked task the next one to run: it becomes
    ready, at the front of the queue, and nothing else changes; for a task
    that is not blocked it stops the kernel. *)
Theorem thread_unblock_front s D Q run ready p t :
  sched_inv s D Q run ready → tasks s !! p = Some t → unlinked Q (general_tag p) →
  (blocked_status (status t) = true →
     ∃ h', let s' := set_tasks (alter (set_status TASK_READY) p (tasks s)) (set_heap h' s) in
       thread_unblock p s = Ok (tt, s') ∧
       sched_inv s' D (<[thread_ready_list := general_tag <$> p :: ready]> Q) run (p :: ready)) ∧
  (blocked_status (status t) = false → thread_unblock p s = Panic).
Proof.
  intros I Ht Hu. split.
  - intros Hb. destruct (thread_unblock_ok _ _ _ _ _ _ _ I Ht Hb Hu) as (h' & ? & ? & ?). by exists h'.
  - intros Hb. unfold thread_unblock. kstep (intr_disable_ok s).
    kstep (task_at_ok (set_intr false s) _ _ Ht). by rewrite Hb.
Qed.

End Sched.

#[global] Arguments current {H}.
#[global] Arguments sched_inv {H _}.
#[global] Arguments idle_waiting {H}.

(** ** Witnesses *)

(** Three kernel threads: A runs, B is ready, and the idle thread is blocked. *)
Definition ex_A : Z := 0xc0200000.
Definition ex_B : Z := 0xc0201000.
Definition ex_idle : Z := 0xc0202000.

Definition ex_task (p : Z) (st : task_status) : task_struct :=
  Task (p + 2048) 1 st [] 2 2 0 NULL (VirtualAddr (Bitmap 0 0) 0) [] 0 (-1) 0 0x19870916.

Definition ex_cells : lheap :=
  {[ thread_ready_list := ListElem 0 (general_tag ex_B);
     thread_ready_list + 8 := ListElem (general_tag ex_B) 0;
     general_tag ex_B := ListElem thread_ready_list (thread_ready_list + 8);
     general_tag ex_A := ListElem 0 0; general_tag ex_idle := ListElem 0 0 ]}.

Definition ex_pool : pool := Pool (Bitmap 0 0) 0 0.

Definition ex_kst : kst lheap :=
  Kst ex_cells ∅ ∅
    {[ ex_A := ex_task ex_A TASK_RUNNING; ex_B := ex_task ex_B TASK_READY;
       ex_idle := ex_task ex_idle TASK_BLOCKED ]}
    ∅ ∅ ∅ ∅ (ex_A + 4000) false 0x100000 0 ex_idle ex_A 0
    ex_pool ex_pool (VirtualAddr (Bitmap 0 0) 0) (Bitmap 0 0) 1 ∅ ∅ ∅ (KbdFlags false false false false false)
    ∅ ∅ (IdeGlobals 0 0 0 0) ∅ ∅ [] (CpuTables [] [] ∅ (replicate 27 0) (0, 0) (0, 0) 0) ∅ [].

Definition ex_queues : gmap Z (list Z) := {[ thread_ready_list := [general_tag ex_B] ]}.

Lemma ex_cells_queues : queues ex_cells ex_queues.
Proof. apply queues_check_ok. by vm_compute. Qed.

Lemma ex_unlinked p : p ∈ [ex_A; ex_idle] → unlinked ex_queues (general_tag p).
Proof.
  intros Hp l xs Hl. map_cases Hl. revert p Hp. apply Forall_forall. by apply (bool_decide_unpack _).
Qed.

Lemma ex_sched_inv : sched_inv ex_kst ∅ ex_queues ex_A [ex_B].
Proof.
  split; simpl.
  - apply ex_cells_queues.
  - done.
  - intros p t Ht. map_cases Ht; (split_and!; [split; [done|by vm_compute]|by apply elem_of_dom; vm_compute; eexists|by left]).
  - intros p t Ht Hp. map_cases Ht; (done || by vm_compute).
  - by vm_compute.
  - eexists. split; [by vm_compute|done].
  - intros p Hp. apply list_elem_of_singleton in Hp as ->. by vm_compute; eexists.
  - intros p t Ht. rewrite list_elem_of_singleton. map_cases Ht; by vm_compute.
  - intros c v pa _ Hv. done.
Qed.

Lemma schedule_next_witness : ∃ next rest s', [ex_B; ex_A] = next :: rest ∧ schedule ex_kst = Ok (tt, s').
Proof.
  destruct (schedule_next ex_kst ∅ ex_queues ex_A [ex_B] (ex_task ex_A TASK_RUNNING)) as (n & r & s' & Hc & Hs & _).
  - apply ex_sched_inv.
  - done.
  - done.
  - intros _. apply ex_unlinked. set_solver.
  - done.
  - exists n, r, s'. split; [exact Hc|exact Hs].
Defined.

Lemma schedule_round_robin_witness : ∃ s', repeat_op 2 schedule ex_kst = Ok (tt, s').
Proof.
  destruct (schedule_round_robin 2 ex_kst ∅ ex_queues ex_A [ex_B] (ex_task ex_A TASK_RUNNING)) as (s' & r & q & Hs & _).
  - apply ex_sched_inv.
  - done.
  - done.
  - done.
  - apply ex_unlinked. set_solver.
  - exists s'. exact Hs.
Defined.

Lemma timer_preempts_witness : ∃ s', repeat_op 2 intr_timer_handler ex_kst = Ok (tt, s').
Proof.
  destruct (timer_preempts ex_kst ∅ ex_queues ex_A [ex_B] (ex_task ex_A TASK_RUNNING)) as (s' & Hs & _).
  - apply ex_sched_inv.
  - done.
  - done.
  - simpl. lia.
  - exists s'. exact Hs.
Defined.

(** A world in which the other threads switch straight back. *)
Definition ex_world : World lheap := {| others me s := Ok (set_esp (me + 4000) s); rounds := 0; stale _ := true |}.

Lemma thread_block_switches_witness :
  ∃ s1, thread_block (H1 := ex_world) TASK_BLOCKED ex_kst = Ok (tt, set_intr false (set_esp (ex_A + 4000) s1)).
Proof.
  destruct (thread_block_switches (H1 := ex_world) ex_kst ∅ ex_queues ex_A [ex_B] TASK_BLOCKED (ex_task ex_A TASK_RUNNING))
    as (n & r & s1 & _ & _ & _ & _ & Hs).
  - apply ex_sched_inv.
  - done.
  - done.
  - done.
  - done.
  - exists s1. exact Hs.
Defined.

Lemma thread_unblock_front_witness : ∃ s', thread_unblock ex_idle ex_kst = Ok (tt, s').
Proof.
  destruct (thread_unblock_front ex_kst ∅ ex_queues ex_A [ex_B] ex_idle (ex_task ex_idle TASK_BLOCKED)) as [Hs _].
  - apply ex_sched_inv.
  - done.
  - apply ex_unlinked. set_solver.
  - destruct (Hs eq_refl) as (h & Hs' & _). eexists. apply Hs'.
Defined.
