(* ===== verification/Sync.v ===== *)
(** * Semaphores and locks (src/thread/sync.c)

    The operations on the kernel's state, as one thread executes them.  What
    other threads do while it waits is [others] of Sched.v; the interleaving
    of several threads on one lock is in LockMachine.v. *)

From S2P Require Import Prelude CString Bitmap Lists PageTable Kernel Sched.

Section Sync.
Context {H : Type} `{Queues H} `{World H}.

Definition sema_init (psema value : Z) : K (kst H) unit :=
  upd_sema psema (u8 value) ;;
  on_heap (λ h, qinit h (waiters psema)).

Definition lock_init (plock : Z) : K (kst H) unit :=
  l ← lock_at plock; upd_lock plock (Lock NULL (holder_repeat_nr l)) ;;
  l ← lock_at plock; upd_lock plock (Lock (holder l) 0) ;;
  sema_init (lock_semaphore plock) 1.

(** The loop of [sema_down]. *)
Fixpoint sema_down_loop (fuel : nat) (psema : Z) : K (kst H) unit :=
  match fuel with
  | O => lift NoFuel
  | S fuel =>
      value ← sema_at psema;
      if value =? 0 then
        me ← running_thread;
        f ← find_in (waiters psema) (general_tag me);
        kASSERT (negb f) ;;
        me ← running_thread;
        f ← find_in (waiters psema) (general_tag me);
        (if (f : bool) then lift Panic else mret tt) ;;
        me ← running_thread;
        on_heap (λ h, qappend h (waiters psema) (general_tag me)) ;;
        thread_block TASK_BLOCKED ;;
        sema_down_loop fuel psema
      else mret tt
  end.

Definition sema_down (psema : Z) : K (kst H) unit :=
  old_status ← intr_disable;
  sema_down_loop (S rounds) psema ;;
  value ← sema_at psema;
  upd_sema psema (u8 (value - 1)) ;;
  value ← sema_at psema;
  kASSERT (value =? 0) ;;
  intr_set_status old_status ;; mret tt.

Definition sema_up (psema : Z) : K (kst H) unit :=
  old_status ← intr_disable;
  value ← sema_at psema;
  kASSERT (value =? 0) ;;
  e ← is_empty (waiters psema);
  (if negb e then
     tag ← pop_from (waiters psema);
     thread_unblock (general_entry tag)
   else mret tt) ;;
  value ← sema_at psema;
  upd_sema psema (u8 (value + 1)) ;;
  value ← sema_at psema;
  kASSERT (value =? 1) ;;
  intr_set_status old_status ;; mret tt.

Definition lock_acquire (plock : Z) : K (kst H) unit :=
  me ← running_thread;
  l ← lock_at plock;
  if negb (holder l =? me) then
    sema_down (lock_semaphore plock) ;;
    me ← running_thread;
    l ← lock_at plock;
    upd_lock plock (Lock me (holder_repeat_nr l)) ;;
    l ← lock_at plock;
    kASSERT (holder_repeat_nr l =? 0) ;;
    upd_lock plock (Lock (holder l) 1)
  else upd_lock plock (Lock (holder l) (u32 (holder_repeat_nr l + 1))).

Definition lock_release (plock : Z) : K (kst H) unit :=
  me ← running_thread;
  l ← lock_at plock;
  kASSERT (holder l =? me) ;;
  if 1 <? holder_repeat_nr l then
    upd_lock plock (Lock (holder l) (u32 (holder_repeat_nr l - 1)))
  else
    kASSERT (holder_repeat_nr l =? 1) ;;
    upd_lock plock (Lock NULL (holder_repeat_nr l)) ;;
    l ← lock_at plock;
    upd_lock plock (Lock (holder l) 0) ;;
    sema_up (lock_semaphore plock).

(** ** A lock nobody else uses *)

(** The lock at [l] is free, with nobody waiting. *)
Definition lock_free (s : kst H) (Q : gmap Z (list Z)) (l : Z) : Prop :=
  locks s !! l = Some (Lock NULL 0) ∧ semas s !! lock_semaphore l = Some 1 ∧
  Q !! waiters (lock_semaphore l) = Some [].

(** The thread [me] holds it [n] times, with [ws] waiting. *)
Definition lock_held (s : kst H) (Q : gmap Z (list Z)) (l me n : Z) (ws : list Z) : Prop :=
  locks s !! l = Some (Lock me n) ∧ semas s !! lock_semaphore l = Some 0 ∧
  Q !! waiters (lock_semaphore l) = Some (general_tag <$> ws).

(** The states an acquisition and a release leave. *)
Definition acquired (s : kst H) (l me : Z) : kst H :=
  set_locks (<[l := Lock me 1]> (locks s)) (set_semas (<[lock_semaphore l := 0]> (semas s)) s).
Definition released (s : kst H) (l : Z) : kst H :=
  set_locks (<[l := Lock NULL 0]> (locks s)) (set_semas (<[lock_semaphore l := 1]> (semas s)) s).

Lemma lock_at_ok (s : kst H) p l : locks s !! p = Some l → lock_at p s = Ok (l, s).
Proof. intros Hl. unfold lock_at. by rewrite Hl. Qed.
Lemma upd_lock_ok (s : kst H) p l :
  is_Some (locks s !! p) → upd_lock p l s = Ok (tt, set_locks (<[p := l]> (locks s)) s).
Proof. intros [l0 Hl]. unfold upd_lock. by rewrite Hl. Qed.
Lemma sema_at_ok (s : kst H) p v : semas s !! p = Some v → sema_at p s = Ok (v, s).
Proof. intros Hl. unfold sema_at. by rewrite Hl. Qed.
Lemma upd_sema_ok (s : kst H) p v :
  is_Some (semas s !! p) → upd_sema p v s = Ok (tt, set_semas (<[p := v]> (semas s)) s).
Proof. intros [l0 Hl]. unfold upd_sema. by rewrite Hl. Qed.

Lemma sema_down_free s p : semas s !! p = Some 1 →
  sema_down p s = Ok (tt, set_semas (<[p := 0]> (semas s)) s).
Proof.
  intros Hv. unfold sema_down. kstep (intr_disable_ok s). simpl sema_down_loop. kgo.
  kstep (sema_at_ok (set_intr false s) _ _ Hv). kstep (sema_at_ok (set_intr false s) _ _ Hv).
  erewrite K_step by (apply upd_sema_ok; by eexists). kgo.
  erewrite K_step by (apply sema_at_ok; simpl; apply lookup_insert_eq). kgo.
  match goal with |- (intr_set_status ?b ≫= _) ?s = _ => destruct (intr_set_status_ok b s) as [r Hs] end.
  kstep Hs. by destruct s.
Qed.

Lemma lock_acquire_free s Q l :
  current s ≠ NULL → lock_free s Q l → lock_acquire l s = Ok (tt, acquired s l (current s)).
Proof.
  intros Hme (Hl & Hv & _). unfold lock_acquire. kstep (running_thread_current s).
  kstep (lock_at_ok _ _ _ Hl). cbn [holder]. rewrite (proj2 (Z.eqb_neq NULL (current s))) by done.
  cbn [negb]. kstep (sema_down_free _ _ Hv). erewrite K_step by apply running_thread_current. kgo.
  erewrite K_step by (apply lock_at_ok; exact Hl). kgo.
  erewrite K_step by (apply upd_lock_ok; by eexists). kgo.
  erewrite K_step by (apply lock_at_ok; simpl; apply lookup_insert_eq). kgo.
  rewrite upd_lock_ok by (simpl; rewrite lookup_insert_eq; by eexists). simpl.
  unfold acquired. by rewrite insert_insert_eq.
Qed.

Lemma lock_acquire_again s Q l n ws :
  lock_held s Q l (current s) n ws → 0 ≤ n < 2 ^ 32 - 1 →
  lock_acquire l s = Ok (tt, set_locks (<[l := Lock (current s) (n + 1)]> (locks s)) s).
Proof.
  intros (Hl & _ & _) Hn. unfold lock_acquire. kstep (running_thread_current s).
  kstep (lock_at_ok _ _ _ Hl). cbn [holder]. rewrite Z.eqb_refl. cbn [negb holder_repeat_nr].
  rewrite u32_small by lia. apply upd_lock_ok. by eexists.
Qed.

Lemma lock_release_nested s Q l n ws :
  lock_held s Q l (current s) n ws → 1 < n < 2 ^ 32 →
  lock_release l s = Ok (tt, set_locks (<[l := Lock (current s) (n - 1)]> (locks s)) s).
Proof.
  intros (Hl & _ & _) Hn. unfold lock_release. kstep (running_thread_current s).
  kstep (lock_at_ok _ _ _ Hl). cbn [holder holder_repeat_nr]. rewrite Z.eqb_refl. kgo.
  rewrite (proj2 (Z.ltb_lt 1 n)) by lia. rewrite u32_small by lia. apply upd_lock_ok. by eexists.
Qed.

(** [sema_up] with nobody waiting, and with a first waiter [w]. *)
Lemma sema_up_quiet s Q p :
  semas s !! p = Some 0 → qrep (heap s) Q → Q !! waiters p = Some [] →
  sema_up p s = Ok (tt, set_semas (<[p := 1]> (semas s)) s).
Proof.
  intros Hv Hq Hw. unfold sema_up. kstep (intr_disable_ok s).
  kstep (sema_at_ok (set_intr false s) _ _ Hv).
  kstep (is_empty_ok (set_intr false s) _ _ _ Hq Hw). cbn [negb]. kgo.
  kstep (sema_at_ok (set_intr false s) _ _ Hv).
  erewrite K_step by (apply upd_sema_ok; by eexists). kgo.
  erewrite K_step by (apply sema_at_ok; simpl; apply lookup_insert_eq). kgo.
  match goal with |- (intr_set_status ?b ≫= _) ?s = _ => destruct (intr_set_status_ok b s) as [r Hs] end.
  kstep Hs. by destruct s.
Qed.

Lemma lock_release_last s Q l :
  lock_held s Q l (current s) 1 [] → qrep (heap s) Q → lock_release l s = Ok (tt, released s l).
Proof.
  intros (Hl & Hv & Hw) Hq. unfold lock_release. kstep (running_thread_current s).
  kstep (lock_at_ok _ _ _ Hl). cbn [holder holder_repeat_nr]. rewrite (Z.eqb_refl (current s)). kgo.
  change (1 <? 1) with false. kgo.
  erewrite K_step by (apply upd_lock_ok; by eexists). kgo.
  erewrite K_step by (apply lock_at_ok; simpl; apply lookup_insert_eq). kgo.
  erewrite K_step by (apply upd_lock_ok; simpl; rewrite lookup_insert_eq; by eexists). kgo.
  erewrite sema_up_quiet; [|exact Hv|exact Hq|exact Hw]. unfold released. simpl. by rewrite insert_insert_eq.
Qed.

(** The waiter [w], popped from the list of waiters, becomes the first ready
    task. *)
Lemma sema_up_wakes s D Q run ready p w ws tw :
  sched_inv s D Q run ready → semas s !! p = Some 0 → Q !! waiters p = Some (general_tag <$> w :: ws) →
  waiters p ≠ thread_ready_list → tasks s !! w = Some tw → blocked_status (status tw) = true →
  ∃ h, let s' := set_semas (<[p := 1]> (semas s))
                   (set_tasks (alter (set_status TASK_READY) w (tasks s)) (set_heap h s)) in
    sema_up p s = Ok (tt, s') ∧
    sched_inv s' D (<[thread_ready_list := general_tag <$> w :: ready]>
                     (<[waiters p := general_tag <$> ws]> Q)) run (w :: ready).
Proof.
  intros I Hv Hw Hne Htw Hb. unfold sema_up. kstep (intr_disable_ok s).
  kstep (sema_at_ok (set_intr false s) _ _ Hv).
  kstep (is_empty_ok (set_intr false s) _ _ _ (si_heap _ _ _ _ _ I) Hw). rewrite bool_decide_eq_false_2 by done. cbn [negb]. kgo.
  destruct (qpop_spec _ _ _ _ _ (si_heap _ _ _ _ _ I) Hw) as (h1 & Hpop & Hq1 & Hu1 & Hc1).
  unfold pop_from. kgo. cbn [heap set_intr]. rewrite Hpop. kgo. cbn [fst snd].
  replace (general_entry (general_tag w)) with w by (unfold general_entry, general_tag; lia).
  set (s1 := set_heap h1 (set_intr false s)).
  assert (sched_inv s1 D (<[waiters p := general_tag <$> ws]> Q) run ready) as I1.
  { eapply (sched_inv_ext (set_tasks (tasks s) (set_heap h1 s))); [done..|].
    eapply (sched_inv_upd s); try done; [by rewrite Hc1|..].
    - rewrite lookup_insert_ne by done. apply I.
    - intros q t Ht. exists t. split_and!; try done; by apply (si_status _ _ _ _ _ I).
    - intros q. apply (si_known _ _ _ _ _ I). }
  destruct (thread_unblock_ok s1 D _ run ready w tw I1 Htw Hb Hu1) as (h2 & Hub & Hc2 & I2).
  kstep Hub. set (s2 := set_tasks _ _) in *.
  kstep (sema_at_ok s2 _ _ Hv).
  erewrite K_step by (apply upd_sema_ok; by eexists). kgo.
  erewrite K_step by (apply sema_at_ok; simpl; apply lookup_insert_eq). kgo.
  match goal with |- context [(intr_set_status ?b ≫= _) ?s] => destruct (intr_set_status_ok b s) as [r Hs] end.
  kstep Hs. exists h2. split; [by destruct s|]. by eapply sched_inv_ext; [..|exact I2].
Qed.

(** [sema_down] of a semaphore that is taken: the thread goes to sleep at the
    end of the waiters, and goes on when the semaphore has been raised. *)
Lemma sema_down_blocks s D Q run ready p ws t :
  sched_inv s D Q run ready → semas s !! p = Some 0 → Q !! waiters p = Some (general_tag <$> ws) →
  waiters p ≠ thread_ready_list → unlinked Q (general_tag run) →
  tasks s !! run = Some t → status t = TASK_RUNNING → (ready = [] → idle_waiting s Q ∧ idle_thread s ≠ run) →
  (0 < rounds)%nat →
  ∃ next rest s1, let Q1 := <[thread_ready_list := general_tag <$> rest]> (<[waiters p := general_tag <$> ws ++ [run]]> Q) in
    sched_inv s1 D Q1 next rest ∧ unlinked Q1 (general_tag next) ∧
    (∃ t1, tasks s1 !! next = Some t1 ∧ status t1 = TASK_RUNNING) ∧
    (∃ t1, tasks s1 !! run = Some t1 ∧ status t1 = TASK_BLOCKED) ∧ same_rest (set_heap (heap s1) (set_intr false s)) s1 ∧
    ∀ s2, others run s1 = Ok s2 → semas s2 !! p = Some 1 →
      sema_down p s = Ok (tt, set_intr (intr s) (set_semas (<[p := 0]> (semas s2)) s2)).
Proof.
  intros I Hv Hw Hne Hu Ht Hs Hid Hrd.
  assert (general_tag run ∉ general_tag <$> ws) as Hnw by (intros Hin; apply (Hu _ _ Hw); unfold cells; set_solver).
  destruct (si_page _ _ _ _ _ I run t Ht) as (_ & Hcell & _).
  destruct (qappend_spec _ _ _ _ _ (si_heap _ _ _ _ _ I) Hw Hu Hcell) as (h & Happ & Hq & Hqc).
  set (s0 := set_heap h (set_intr false s)). set (Q0 := <[waiters p := (general_tag <$> ws) ++ [general_tag run]]> Q) in *.
  assert (sched_inv s0 D Q0 run ready) as I0.
  { eapply (sched_inv_ext (set_tasks (tasks s) (set_heap h s))); [done..|].
    eapply (sched_inv_upd s); try done; [by rewrite Hqc|..].
    - unfold Q0. rewrite lookup_insert_ne by done. apply I.
    - intros q u Hq'. exists u. split_and!; try done; by apply (si_status _ _ _ _ _ I).
    - intros q. apply (si_known _ _ _ _ _ I). }
  assert (ready = [] → idle_waiting s0 Q0 ∧ idle_thread s0 ≠ run) as Hid0.
  { intros E. destruct (Hid E) as [(ti & Hti & Hb & Hui) Hni]. split; [|done]. exists ti. split_and!; [done|done|].
    apply unlinked_append; [exact Hw|done|]. intros Heq. apply Hni. by apply general_tag_inj. }
  destruct (thread_block_full s0 D Q0 run ready TASK_BLOCKED t I0 Ht Hs eq_refl Hid0)
    as (next & rest & s1 & _ & I1 & Hr1 & Hnr & Hblk & Hsame & Hun & Hn1 & _).
  exists next, rest, s1. cbv zeta. rewrite fmap_app. split_and!; [exact I1|exact Hun|exact Hn1|exact Hr1|by rewrite Hsame|].
  intros s2 Ho Hv2. unfold sema_down. kstep (intr_disable_ok s). destruct rounds as [|rd]; [lia|]. cbn [sema_down_loop]. kgo.
  assert (sched_inv (set_intr false s) D Q run ready) as Ii by (by eapply sched_inv_ext; [..|exact I]).
  kstep (sema_at_ok (set_intr false s) _ _ Hv). change (0 =? 0) with true. cbv iota. kgo. kstep (running_thread_ok _ _ _ _ _ Ii).
  kstep (find_in_ok (set_intr false s) _ _ _ (general_tag run) (si_heap _ _ _ _ _ I) Hw). rewrite bool_decide_eq_false_2 by done. kgo.
  kstep (running_thread_ok _ _ _ _ _ Ii).
  kstep (find_in_ok (set_intr false s) _ _ _ (general_tag run) (si_heap _ _ _ _ _ I) Hw). rewrite bool_decide_eq_false_2 by done. kgo.
  kstep (running_thread_ok _ _ _ _ _ Ii).
  erewrite K_step by (unfold on_heap; cbn [heap set_intr]; rewrite Happ; reflexivity). kgo. fold s0.
  erewrite K_step by (etrans; [exact Hblk|]; rewrite Ho; reflexivity). kgo. cbn [sema_down_loop].
  set (s3 := set_intr (intr s0) s2). kstep (sema_at_ok s3 _ _ Hv2). kstep (sema_at_ok s3 _ _ Hv2).
  erewrite K_step by (apply upd_sema_ok; by eexists). kgo.
  erewrite K_step by (apply sema_at_ok; simpl; apply lookup_insert_eq). kgo.
  match goal with |- context [(intr_set_status ?b ≫= _) ?s] => destruct (intr_set_status_ok b s) as [r Hr] end.
  kstep Hr. by destruct s2.
Qed.

(** What a critical section finds, and that it puts everything back. *)
Lemma acquired_held s Q l : lock_free s Q l → lock_held (acquired s l (current s)) Q l (current s) 1 [].
Proof. intros (Hl & Hv & Hw). unfold lock_held, acquired. simpl. by rewrite !lookup_insert_eq. Qed.

Lemma released_acquired s Q l me : lock_free s Q l → released (acquired s l me) l = s.
Proof.
  intros (Hl & Hv & _). unfold released, acquired. simpl. rewrite !insert_insert_eq.
  rewrite !insert_id by done. by destruct s.
Qed.

(** Setting up a lock whose list of waiters is nowhere in use. *)
Definition lock_memory (s : kst H) (Q : gmap Z (list Z)) (l : Z) : Prop :=
  let w := waiters (lock_semaphore l) in
  is_Some (locks s !! l) ∧ is_Some (semas s !! lock_semaphore l) ∧ Q !! w = None ∧
  unlinked Q w ∧ unlinked Q (w + 8) ∧ w ∈ qcell (heap s) ∧ w + 8 ∈ qcell (heap s).

Lemma lock_init_ok s Q l :
  qrep (heap s) Q → lock_memory s Q l →
  ∃ h, let s' := set_heap h (released s l) in
    let Q' := <[waiters (lock_semaphore l) := []]> Q in
    lock_init l s = Ok (tt, s') ∧ qrep h Q' ∧ qcell h = qcell (heap s) ∧ lock_free s' Q' l.
Proof.
  intros Hq ([[h0 n0] Hl] & Hv & Hn & Hu1 & Hu2 & Hc1 & Hc2).
  destruct (qinit_spec _ _ _ Hq Hn Hu1 Hu2 Hc1 Hc2) as (h & Hi & Hq' & Hc').
  exists h. split_and!; [|done|done|split_and!; apply lookup_insert_eq].
  unfold lock_init, sema_init. kstep (lock_at_ok _ _ _ Hl).
  erewrite K_step by (apply upd_lock_ok; by eexists). kgo.
  erewrite K_step by (apply lock_at_ok; simpl; apply lookup_insert_eq). kgo.
  erewrite K_step by (apply upd_lock_ok; simpl; rewrite lookup_insert_eq; by eexists). kgo.
  erewrite K_step by (apply upd_sema_ok; exact Hv). kgo.
  unfold on_heap. simpl. rewrite Hi. simpl. unfold released. simpl. by rewrite insert_insert_eq.
Qed.

(** ** Properties *)

(** C6: acquiring a free lock and releasing it brackets a critical section:
    the lock is taken at once, with its semaphore at 0 and its holder the
    caller, and the release restores the state as it was before, interrupt
    flag included. *)
Theorem lock_bracket s Q l :
  qrep (heap s) Q → lock_free s Q l → current s ≠ NULL →
  ∃ s1, lock_acquire l s = Ok (tt, s1) ∧ lock_held s1 Q l (current s) 1 [] ∧
        lock_release l s1 = Ok (tt, s).
Proof.
  intros Hq Hf Hme. exists (acquired s l (current s)). split_and!.
  - by eapply lock_acquire_free.
  - by apply acquired_held.
  - rewrite (lock_release_last (acquired s l (current s)) Q).
    + by rewrite (released_acquired _ Q).
    + by apply (acquired_held s).
    + done.
Qed.

(** The lock is reentrant: its holder takes it again without waiting, and
    only counts; a nested release undoes exactly that. *)
Theorem lock_reentrant s Q l n ws :
  lock_held s Q l (current s) n ws → 0 < n < 2 ^ 32 - 1 →
  ∃ s1, lock_acquire l s = Ok (tt, s1) ∧ lock_held s1 Q l (current s) (n + 1) ws ∧
        lock_release l s1 = Ok (tt, s).
Proof.
  intros Hh Hn. eexists. rewrite (lock_acquire_again _ _ _ _ _ Hh) by lia. split; [done|].
  set (s1 := set_locks _ s).
  assert (lock_held s1 Q l (current s) (n + 1) ws) as Hh1.
  { destruct Hh as (? & ? & ?). split_and!; try done. apply lookup_insert_eq. }
  split; [done|]. rewrite (lock_release_nested s1 _ _ _ _ Hh1) by lia.
  unfold s1. simpl. rewrite insert_insert_eq. destruct Hh as (Hl & _ & _).
  rewrite insert_id; [by destruct s|]. rewrite Hl. do 2 f_equal. lia.
Qed.

(** The last release of a lock that others wait for frees it and wakes the
    first waiter up, which becomes the next thread to run; the other waiters
    keep waiting, in their order. *)
Theorem lock_release_wakes s D Q run ready l w ws tw :
  sched_inv s D Q run ready → lock_held s Q l (current s) 1 (w :: ws) →
  waiters (lock_semaphore l) ≠ thread_ready_list →
  tasks s !! w = Some tw → blocked_status (status tw) = true →
  ∃ s', lock_release l s = Ok (tt, s') ∧ locks s' !! l = Some (Lock NULL 0) ∧
    semas s' !! lock_semaphore l = Some 1 ∧
    sched_inv s' D (<[thread_ready_list := general_tag <$> w :: ready]>
                     (<[waiters (lock_semaphore l) := general_tag <$> ws]> Q)) run (w :: ready).
Proof.
  intros I (Hl & Hv & Hw) Hne Htw Hb. unfold lock_release. kstep (running_thread_current s).
  kstep (lock_at_ok _ _ _ Hl). cbn [holder holder_repeat_nr]. rewrite (Z.eqb_refl (current s)). kgo.
  change (1 <? 1) with false. kgo.
  erewrite K_step by (apply upd_lock_ok; by eexists). kgo.
  erewrite K_step by (apply lock_at_ok; simpl; apply lookup_insert_eq). kgo.
  erewrite K_step by (apply upd_lock_ok; simpl; rewrite lookup_insert_eq; by eexists). kgo.
  set (s1 := set_locks _ _).
  assert (sched_inv s1 D Q run ready) as I1 by (by eapply sched_inv_ext; [..|exact I]).
  destruct (sema_up_wakes s1 D Q run ready (lock_semaphore l) w ws tw I1 Hv Hw Hne Htw Hb) as (h & Hup & I2).
  eexists. split_and!; [exact Hup| | |exact I2]; simpl; by rewrite ?lookup_insert_eq.
Qed.

(** Only the holder may release: anybody else is stopped by the
    assertion. *)
Theorem lock_release_foreign s l lk :
  locks s !! l = Some lk → holder lk ≠ current s → lock_release l s = Panic.
Proof.
  intros Hl Hh. unfold lock_release. kstep (running_thread_current s). kstep (lock_at_ok _ _ _ Hl).
  by rewrite (proj2 (Z.eqb_neq (holder lk) (current s))).
Qed.

End Sync.

(** ** Witnesses *)

(** The threads of [ex_kst]: A holds the lock at [pid_lock], for which the
    idle thread waits, and the lock at [kernel_pool_lock] is free. *)
Definition ex_sync_queues : gmap Z (list Z) :=
  {[ thread_ready_list := [general_tag ex_B];
     waiters (lock_semaphore pid_lock) := [general_tag ex_idle];
     waiters (lock_semaphore kernel_pool_lock) := [] ]}.

Definition ex_sync_cells : lheap :=
  let l := waiters (lock_semaphore pid_lock) in
  let m := waiters (lock_semaphore kernel_pool_lock) in
  <[l := ListElem 0 (general_tag ex_idle)]> (<[l + 8 := ListElem (general_tag ex_idle) 0]>
  (<[general_tag ex_idle := ListElem l (l + 8)]> (<[m := ListElem 0 (m + 8)]>
  (<[m + 8 := ListElem m 0]> ex_cells)))).

Definition ex_sync : kst lheap :=
  set_heap ex_sync_cells
  (set_locks {[ pid_lock := Lock ex_A 1; kernel_pool_lock := Lock NULL 0 ]}
  (set_semas {[ lock_semaphore pid_lock := 0; lock_semaphore kernel_pool_lock := 1 ]} ex_kst)).

Lemma ex_sync_inv : sched_inv ex_sync ∅ ex_sync_queues ex_A [ex_B].
Proof.
  eapply (sched_inv_ext (set_tasks (tasks ex_kst) (set_heap ex_sync_cells ex_kst))); [done..|].
  eapply (sched_inv_upd ex_kst); [apply ex_sched_inv|by apply queues_check_ok; vm_compute|by apply (bool_decide_unpack _); vm_compute|done| |done|].
  - intros p t Ht. exists t. split_and!; try done; by apply (si_status _ _ _ _ _ ex_sched_inv).
  - intros p Hp. apply (si_known _ _ _ _ _ ex_sched_inv _ Hp).
Qed.

Lemma lock_bracket_witness :
  ∃ s1, lock_acquire (H1 := ex_world) kernel_pool_lock ex_sync = Ok (tt, s1) ∧
        lock_release kernel_pool_lock s1 = Ok (tt, ex_sync).
Proof.
  destruct (lock_bracket (H1 := ex_world) ex_sync ex_sync_queues kernel_pool_lock) as (s1 & Ha & _ & Hr).
  - apply ex_sync_inv.
  - done.
  - done.
  - exists s1. split; [exact Ha|exact Hr].
Defined.

Lemma lock_reentrant_witness :
  ∃ s1, lock_acquire (H1 := ex_world) pid_lock ex_sync = Ok (tt, s1) ∧
        lock_release pid_lock s1 = Ok (tt, ex_sync).
Proof.
  destruct (lock_reentrant (H1 := ex_world) ex_sync ex_sync_queues pid_lock 1 [ex_idle]) as (s1 & Ha & _ & Hr).
  - done.
  - lia.
  - exists s1. split; [exact Ha|exact Hr].
Defined.

Lemma lock_release_wakes_witness : ∃ s', lock_release pid_lock ex_sync = Ok (tt, s').
Proof.
  destruct (lock_release_wakes ex_sync ∅ ex_sync_queues ex_A [ex_B] pid_lock ex_idle []
    (ex_task ex_idle TASK_BLOCKED)) as (s' & Hr & _).
  - apply ex_sync_inv.
  - done.
  - done.
  - done.
  - done.
  - exists s'. exact Hr.
Defined.

Lemma lock_release_foreign_witness : lock_release kernel_pool_lock ex_sync = Panic.
Proof. apply (lock_release_foreign ex_sync kernel_pool_lock (Lock NULL 0)); done. Defined.
