(* ===== verification/LockMachine.v ===== *)
(** * Threads competing for one lock (src/thread/sync.c, interleaved)

    The code of [lock_acquire], [lock_release], [sema_down] and [sema_up] as a
    machine of threads that share one lock.  The timer may switch threads
    between any two statements, except in [sema_down] and [sema_up], which run
    with interrupts off: each of them is one step, up to the point where
    [sema_down] blocks.  Which thread moves next is arbitrary, so that the
    theorems hold for every scheduling. *)

From S2P Require Import Prelude CString Bitmap Lists PageTable Kernel Sched Sync.

(** Where a thread is.  [Outside]: it is not in the code of the lock and does
    not hold it.  [Inside]: it holds it and is not in the code of the lock. *)
Inductive pc :=
  | Outside
  | A_test      (** lock_acquire: [if (plock->holder != running_thread())] *)
  | A_down      (** sema_down: the test of [value] with interrupts off *)
  | A_blocked   (** sema_down: in [thread_block], in the list of waiters *)
  | A_holder    (** [plock->holder = running_thread()] *)
  | A_count     (** [ASSERT(holder_repeat_nr == 0); holder_repeat_nr = 1] *)
  | A_again     (** [plock->holder_repeat_nr++] *)
  | Inside
  | R_test      (** lock_release: the assertion and the test of the counter *)
  | R_nested    (** [plock->holder_repeat_nr--; return] *)
  | R_holder    (** [ASSERT(holder_repeat_nr == 1); plock->holder = NULL] *)
  | R_count     (** [plock->holder_repeat_nr = 0] *)
  | R_up.       (** sema_up, with interrupts off *)

#[export] Instance pc_eq_dec : EqDecision pc.
Proof. solve_decision. Defined.

(** [depth] counts the acquisitions a thread has not released; the code has no
    such variable. *)
Record thr := Thr { at_pc : pc; depth : Z }.

Record machine := Machine {
  m_value : Z;
  m_waiters : list Z;
  m_lock : lock;
  m_thr : gmap Z thr;
}.

(** What a thread outside the code of the lock does next. *)
Inductive action := Acquire | Release | Go.

Definition goto (m : machine) (t : Z) (p : pc) (d : Z) : machine :=
  Machine (m_value m) (m_waiters m) (m_lock m) (<[t := Thr p d]> (m_thr m)).
Definition with_lock (m : machine) (l : lock) : machine :=
  Machine (m_value m) (m_waiters m) l (m_thr m).

Lemma with_lock_id m : with_lock m (m_lock m) = m.
Proof. by destruct m. Qed.

(** One step of thread [t].  [Panic] is a failed assertion, [Fault] a step the
    thread cannot make (it is blocked, or it uses the lock against its rules:
    it releases a lock it does not hold, or nests 2^32 - 1 deep). *)
Definition step (m : machine) (t : Z) (a : action) : outcome machine :=
  th ← deref (m_thr m !! t);
  let d := depth th in
  let l := m_lock m in
  match at_pc th, a with
  | Outside, Acquire => Ok (goto m t A_test d)
  | Inside, Acquire => if d <? 2 ^ 32 - 1 then Ok (goto m t A_test d) else Fault
  | Inside, Release => Ok (goto m t R_test d)
  | A_test, Go => Ok (goto m t (if negb (holder l =? t) then A_down else A_again) d)
  | A_down, Go =>
      if m_value m =? 0 then
        ASSERT (bool_decide (t ∉ m_waiters m)) ;;
        Ok (goto (Machine (m_value m) (m_waiters m ++ [t]) l (m_thr m)) t A_blocked d)
      else
        let v := u8 (m_value m - 1) in
        ASSERT (v =? 0) ;;
        Ok (goto (Machine v (m_waiters m) l (m_thr m)) t A_holder d)
  | A_holder, Go => Ok (goto (with_lock m (Lock t (holder_repeat_nr l))) t A_count d)
  | A_count, Go =>
      ASSERT (holder_repeat_nr l =? 0) ;; Ok (goto (with_lock m (Lock (holder l) 1)) t Inside 1)
  | A_again, Go =>
      Ok (goto (with_lock m (Lock (holder l) (u32 (holder_repeat_nr l + 1)))) t Inside (d + 1))
  | R_test, Go =>
      ASSERT (holder l =? t) ;;
      Ok (goto m t (if 1 <? holder_repeat_nr l then R_nested else R_holder) d)
  | R_nested, Go =>
      Ok (goto (with_lock m (Lock (holder l) (u32 (holder_repeat_nr l - 1)))) t Inside (d - 1))
  | R_holder, Go =>
      ASSERT (holder_repeat_nr l =? 1) ;; Ok (goto (with_lock m (Lock NULL (holder_repeat_nr l))) t R_count d)
  | R_count, Go => Ok (goto (with_lock m (Lock (holder l) 0)) t R_up d)
  | R_up, Go =>
      ASSERT (m_value m =? 0) ;;
      m ← match m_waiters m with
          | [] => Ok m
          | w :: ws =>
              tw ← deref (m_thr m !! w);
              ASSERT (bool_decide (at_pc tw = A_blocked)) ;;
              Ok (goto (Machine (m_value m) ws l (m_thr m)) w A_down (depth tw))
          end;
      let v := u8 (m_value m + 1) in
      ASSERT (v =? 1) ;;
      Ok (goto (Machine v (m_waiters m) (m_lock m) (m_thr m)) t Outside 0)
  | _, _ => Fault
  end.

(** The threads [T] before any of them has touched the lock. *)
Definition start (T : gset Z) : machine :=
  Machine 1 [] (Lock NULL 0) (gset_to_gmap (Thr Outside 0) T).

Inductive reach (T : gset Z) : machine → Prop :=
  | reach_start : reach T (start T)
  | reach_step m t a m' : reach T m → step m t a = Ok m' → reach T m'.

(** ** Invariant *)

(** What holds of a thread, for the owner of the semaphore ... *)
Definition owner_ok (l : lock) (t : Z) (th : thr) : Prop :=
  match at_pc th with
  | A_holder => l = Lock NULL 0 ∧ depth th = 0
  | A_count => l = Lock t 0 ∧ depth th = 0
  | A_test | A_again => l = Lock t (depth th) ∧ 0 < depth th < 2 ^ 32 - 1
  | Inside | R_test => l = Lock t (depth th) ∧ 0 < depth th < 2 ^ 32
  | R_nested => l = Lock t (depth th) ∧ 1 < depth th < 2 ^ 32
  | R_holder => l = Lock t 1 ∧ depth th = 1
  | R_count => l = Lock NULL 1 ∧ depth th = 1
  | R_up => l = Lock NULL 0 ∧ depth th = 1
  | _ => False
  end.
(** ... and for everybody else. *)
Definition other_ok (th : thr) : Prop :=
  depth th = 0 ∧
  match at_pc th with Outside | A_test | A_down | A_blocked => True | _ => False end.

Record inv (m : machine) (o : option Z) : Prop := {
  i_thr : ∀ t th, m_thr m !! t = Some th →
    t ≠ NULL ∧ if decide (o = Some t) then owner_ok (m_lock m) t th else other_ok th;
  i_owner : ∀ t, o = Some t → is_Some (m_thr m !! t);
  i_value : m_value m = match o with Some _ => 0 | None => 1 end;
  i_free : o = None → m_lock m = Lock NULL 0;
  i_nodup : NoDup (m_waiters m);
  i_wait : ∀ t, t ∈ m_waiters m ↔ ∃ d, m_thr m !! t = Some (Thr A_blocked d);
  i_wake : o = None → m_waiters m ≠ [] → ∃ t d, m_thr m !! t = Some (Thr A_down d);
}.

(** Thread [t] moves to [p] without blocking or being woken, and leaves the
    owner, the value and the lock as [o'], [v] and [l]. *)
Lemma inv_move m o o' t th v l p d :
  inv m o → m_thr m !! t = Some th → at_pc th ≠ A_blocked → p ≠ A_blocked →
  (∀ t', t' ≠ t → (o' = Some t' ↔ o = Some t') ∧ (o = Some t' → l = m_lock m)) →
  (if decide (o' = Some t) then owner_ok l t (Thr p d) else other_ok (Thr p d)) →
  v = match o' with Some _ => 0 | None => 1 end → (o' = None → l = Lock NULL 0) →
  (o' = None → m_waiters m ≠ [] → o = None ∧ (p = A_down ∨ at_pc th ≠ A_down)) →
  inv (goto (Machine v (m_waiters m) l (m_thr m)) t p d) o'.
Proof.
  intros I Ht Hb Hp Ho Hok Hv Hf Hw. split; simpl; try done.
  - intros t' th'. destruct (decide (t' = t)) as [->|Hne].
    + rewrite lookup_insert_eq. intros [= <-]. split; [by eapply i_thr|done].
    + rewrite lookup_insert_ne by done. intros Ht'. destruct (i_thr _ _ I _ _ Ht') as [Hn Hth].
      split; [done|]. destruct (Ho t' Hne) as [Hiff Hl].
      destruct (decide (o = Some t')) as [E|E].
      * rewrite decide_True by naive_solver. by rewrite Hl.
      * rewrite decide_False by naive_solver. done.
  - intros t' Ho'. rewrite lookup_insert_is_Some'. destruct (decide (t' = t)) as [->|Hne]; [by right; eexists|].
    right. eapply i_owner; [done|]. by apply Ho.
  - apply I.
  - intros t'. rewrite (i_wait _ _ I). destruct (decide (t' = t)) as [->|Hne].
    + rewrite lookup_insert_eq, Ht. split; intros [d' [=]]; subst; done.
    + by rewrite lookup_insert_ne.
  - intros HN Hne. destruct (Hw HN Hne) as [Ho' [->|Hnd]].
    + exists t, d. by rewrite lookup_insert_eq.
    + destruct (i_wake _ _ I Ho' Hne) as (t2 & d2 & Ht2). exists t2, d2. rewrite lookup_insert_ne; [done|].
      intros <-. by simplify_eq.
Qed.

(** The owner [t] goes on, with the lock left as [l]. *)
Lemma inv_owner m t th l p d :
  inv m (Some t) → m_thr m !! t = Some th → at_pc th ≠ A_blocked →
  owner_ok l t (Thr p d) → inv (goto (with_lock m l) t p d) (Some t).
Proof.
  intros I Ht Hb Hok. unfold with_lock. eapply inv_move; [done..| | | | | |].
  - intros ->. done.
  - intros t' Hne. split; [done|congruence].
  - by rewrite decide_True.
  - apply (i_value _ _ I).
  - done.
  - done.
Qed.

(** A thread that does not own the lock moves on without owning it. *)
Lemma inv_other m o t th p :
  inv m o → m_thr m !! t = Some th → o ≠ Some t → at_pc th ≠ A_blocked → at_pc th ≠ A_down →
  p ≠ A_blocked → other_ok (Thr p 0) → inv (goto m t p 0) o.
Proof.
  intros I Ht Ho Hb Hd Hp Hok.
  replace (goto m t p 0) with (goto (Machine (m_value m) (m_waiters m) (m_lock m) (m_thr m)) t p 0)
    by (by destruct m).
  eapply inv_move; [done..| | | | |].
  - done.
  - by rewrite decide_False.
  - apply (i_value _ _ I).
  - apply (i_free _ _ I).
  - intros. eauto.
Qed.

(** [sema_down] finds the semaphore taken: [t] joins the waiters. *)
Lemma inv_block m o t d :
  inv m o → m_thr m !! t = Some (Thr A_down d) → o ≠ None → t ∉ m_waiters m →
  inv (goto (Machine (m_value m) (m_waiters m ++ [t]) (m_lock m) (m_thr m)) t A_blocked d) o.
Proof.
  intros I Ht Ho Hn. destruct (i_thr _ _ I _ _ Ht) as [Htn Hth].
  assert (o ≠ Some t) as Hot. { intros ->. by rewrite decide_True in Hth. }
  split; simpl; try done.
  - intros t' th'. destruct (decide (t' = t)) as [->|Hne].
    + rewrite lookup_insert_eq. intros [= <-]. split; [done|]. rewrite decide_False in Hth |- * by done. done.
    + rewrite lookup_insert_ne by done. apply I.
  - intros t' Ho'. rewrite lookup_insert_is_Some'. right. by eapply i_owner.
  - apply (i_value _ _ I).
  - apply NoDup_app. split_and!; [apply I| |apply NoDup_singleton].
    intros x Hx Hx'%list_elem_of_singleton. by subst.
  - intros t'. rewrite elem_of_app, list_elem_of_singleton, (i_wait _ _ I).
    destruct (decide (t' = t)) as [->|Hne].
    + rewrite lookup_insert_eq. naive_solver.
    + rewrite lookup_insert_ne by done. naive_solver.
Qed.

(** [sema_up]: the owner leaves, and the first waiter, if any, is woken. *)
Lemma inv_up_quiet m t :
  inv m (Some t) → m_thr m !! t = Some (Thr R_up 1) → m_waiters m = [] →
  inv (goto (Machine 1 [] (m_lock m) (m_thr m)) t Outside 0) None.
Proof.
  intros I Ht Hw. destruct (i_thr _ _ I _ _ Ht) as [_ Hok]. rewrite decide_True in Hok by done.
  rewrite <- Hw. eapply inv_move; [done|done|done|done| |done|done| |].
  - intros t' Hne. split; [|congruence]. split; congruence.
  - intros _. apply Hok.
  - by rewrite Hw.
Qed.

Lemma inv_up_wake m t w ws d :
  inv m (Some t) → m_thr m !! t = Some (Thr R_up 1) → m_waiters m = w :: ws →
  m_thr m !! w = Some (Thr A_blocked d) →
  inv (goto (goto (Machine 1 ws (m_lock m) (m_thr m)) w A_down d) t Outside 0) None.
Proof.
  intros I Ht Hw Hwd. destruct (i_thr _ _ I _ _ Ht) as [Htn Hok]. rewrite decide_True in Hok by done.
  destruct (i_thr _ _ I _ _ Hwd) as [Hwn Hwok].
  assert (w ≠ t) as Hwt by (intros ->; congruence).
  rewrite decide_False in Hwok by congruence.
  assert (NoDup (w :: ws)) as [Hnw Hnd]%NoDup_cons by (rewrite <- Hw; apply I).
  split; simpl; try done.
  - intros t' th' Ht'. apply lookup_insert_Some in Ht' as [[<- <-]|[Hne Ht']]; [done|].
    apply lookup_insert_Some in Ht' as [[<- <-]|[Hne' Ht']]; [done|].
    destruct (i_thr _ _ I _ _ Ht') as [? Hx]. split; [done|]. by rewrite decide_False in Hx by congruence.
  - intros _. apply Hok.
  - intros t'. split.
    + intros Hin. assert (t' ∈ m_waiters m) as [d' Hd']%(i_wait _ _ I) by (rewrite Hw; set_solver).
      exists d'. rewrite !lookup_insert_ne; [done|set_solver|]. intros <-. congruence.
    + intros [d' Hd']. apply lookup_insert_Some in Hd' as [[<- ?]|[Hne Hd']]; [done|].
      apply lookup_insert_Some in Hd' as [[<- ?]|[Hne' Hd']]; [done|].
      assert (t' ∈ m_waiters m) as Hin by (apply (i_wait _ _ I); eauto). rewrite Hw in Hin. set_solver.
  - intros _ _. exists w, d. by rewrite lookup_insert_ne, lookup_insert_eq.
Qed.

(** A thread that is where only the owner can be is the owner. *)
Lemma inv_is_owner m o t th :
  inv m o → m_thr m !! t = Some th → ~ other_ok th → o = Some t ∧ owner_ok (m_lock m) t th.
Proof. intros I Ht Hn. destruct (i_thr _ _ I _ _ Ht) as [_ Hok]. by destruct (decide (o = Some t)). Qed.
Lemma inv_not_owner m o t th :
  inv m o → m_thr m !! t = Some th → ~ owner_ok (m_lock m) t th → o ≠ Some t ∧ other_ok th.
Proof. intros I Ht Hn. destruct (i_thr _ _ I _ _ Ht) as [_ Hok]. by destruct (decide (o = Some t)). Qed.

(** What a step leads to: a state that satisfies the invariant again, or a
    move the thread cannot make; never a failed assertion. *)
Definition step_ok (r : outcome machine) : Prop :=
  match r with Ok m => ∃ o, inv m o | Fault => True | _ => False end.

Lemma inv_holder m o t th :
  inv m o → m_thr m !! t = Some th → o ≠ Some t → holder (m_lock m) ≠ t.
Proof.
  intros I Ht Ho E. destruct (i_thr _ _ I _ _ Ht) as [Hn _]. destruct o as [t2|].
  - destruct (i_owner _ _ I t2 eq_refl) as [th2 Ht2]. destruct (i_thr _ _ I _ _ Ht2) as [_ Hok2].
    rewrite decide_True in Hok2 by done. unfold owner_ok in Hok2.
    destruct (at_pc th2); try done; destruct Hok2 as [Hl _]; rewrite Hl in E; simpl in E; congruence.
  - rewrite (i_free _ _ I eq_refl) in E. by simpl in E.
Qed.

Lemma step_test m o t d :
  inv m o → m_thr m !! t = Some (Thr A_test d) → step_ok (step m t Go).
Proof.
  intros I Ht. unfold step. rewrite Ht. simpl. destruct (i_thr _ _ I _ _ Ht) as [Hn Hok].
  destruct (decide (o = Some t)) as [->|Ho].
  - destruct Hok as [Hl Hd]. rewrite Hl. simpl. rewrite Z.eqb_refl. simpl.
    exists (Some t). rewrite <- (with_lock_id m), Hl. by eapply inv_owner.
  - destruct Hok as [Hd _]. simpl in Hd. subst d. exists o.
    rewrite (proj2 (Z.eqb_neq (holder (m_lock m)) t)); [by eapply inv_other|by eapply inv_holder].
Qed.

Lemma step_down m o t d :
  inv m o → m_thr m !! t = Some (Thr A_down d) → step_ok (step m t Go).
Proof.
  intros I Ht. destruct (inv_not_owner m o t _ I Ht) as [Ho [Hd _]]; [by intros []|]. simpl in Hd. subst d.
  unfold step. rewrite Ht. simpl. rewrite (i_value _ _ I). destruct o as [t2|]; simpl.
  - assert (t ∉ m_waiters m) as Hn by (intros [d Hd]%(i_wait _ _ I); congruence).
    rewrite bool_decide_eq_true_2 by done. simpl. exists (Some t2).
    pose proof (inv_block m (Some t2) t 0 I Ht) as Hi. rewrite (i_value _ _ I) in Hi. by apply Hi.
  - exists (Some t). eapply inv_move; [done..| | | |done|done].
    + intros t' Hne. split; [|done]. split; congruence.
    + rewrite decide_True by done. split; [apply (i_free _ _ I eq_refl)|done].
    + done.
Qed.

Lemma step_up m o t d :
  inv m o → m_thr m !! t = Some (Thr R_up d) → step_ok (step m t Go).
Proof.
  intros I Ht. destruct (inv_is_owner m o t _ I Ht) as [-> [Hl Hd]]; [by intros []|]. simpl in Hd. subst d.
  unfold step. rewrite Ht. simpl. rewrite (i_value _ _ I). simpl.
  destruct (m_waiters m) as [|w ws] eqn:Hw; simpl.
  - rewrite (i_value _ _ I), Hw. simpl. exists None. by apply inv_up_quiet.
  - assert (w ∈ m_waiters m) as [d Hwd]%(i_wait _ _ I) by (rewrite Hw; set_solver).
    rewrite Hwd. simpl. exists None. by eapply (inv_up_wake m t w ws d).
Qed.

(** The steps the owner makes on the lock's fields. *)
Lemma step_owner m o t p d :
  inv m o → m_thr m !! t = Some (Thr p d) →
  p ∈ [A_holder; A_count; A_again; R_test; R_nested; R_holder; R_count] → step_ok (step m t Go).
Proof.
  intros I Ht Hp. destruct (inv_is_owner m o t _ I Ht) as [-> Hok].
  { intros [_ Hx]. simpl in Hx. by repeat (apply elem_of_cons in Hp as [->|Hp]; [done|]); apply elem_of_nil in Hp. }
  unfold step. rewrite Ht. simpl.
  repeat (apply elem_of_cons in Hp as [->|Hp]); [..|by apply elem_of_nil in Hp]; destruct Hok as [Hl Hd];
    simpl in Hd; rewrite Hl; simpl; rewrite ?Z.eqb_refl; simpl; exists (Some t).
  - by eapply inv_owner.
  - by eapply inv_owner; [..|split; simpl; [done|lia]].
  - eapply inv_owner; [done..|]. split; simpl; [|lia]. f_equal. apply u32_small. lia.
  - rewrite <- (with_lock_id m), Hl. eapply inv_owner; [done..|].
    destruct (Z.ltb_spec 1 d); (split; simpl; [|lia]); [done|]. f_equal. lia.
  - eapply inv_owner; [done..|]. split; simpl; [|lia]. f_equal. apply u32_small. lia.
  - by eapply inv_owner.
  - by eapply inv_owner.
Qed.

Lemma step_inv m o t a : inv m o → step_ok (step m t a).
Proof.
  intros I. destruct (m_thr m !! t) as [[p d]|] eqn:Ht; [|unfold step; by rewrite Ht].
  destruct a; [| |destruct p; try (by (eapply step_owner; [done..|set_solver]));
    try (by eapply step_test); try (by eapply step_down); try (by eapply step_up);
    unfold step; rewrite Ht; done].
  - unfold step. rewrite Ht. destruct p; simpl; try done.
    + destruct (inv_not_owner m o t _ I Ht) as [Ho [Hd _]]; [by intros []|]. simpl in Hd. subst d.
      exists o. by eapply inv_other.
    + destruct (inv_is_owner m o t _ I Ht) as [-> [Hl Hd]]; [by intros []|]. simpl in Hd.
      destruct (Z.ltb_spec d (2 ^ 32 - 1)); [|done]. exists (Some t).
      rewrite <- (with_lock_id m). eapply inv_owner; [done..|]. split; [done|simpl; lia].
  - unfold step. rewrite Ht. destruct p; simpl; try done.
    destruct (inv_is_owner m o t _ I Ht) as [-> [Hl Hd]]; [by intros []|]. simpl in Hd.
    exists (Some t). rewrite <- (with_lock_id m). eapply inv_owner; [done..|]. split; [done|simpl; lia].
Qed.

Lemma start_inv T : NULL ∉ T → inv (start T) None.
Proof.
  intros HT. split; simpl; try done.
  - intros t th Ht. apply lookup_gset_to_gmap_Some in Ht as [Hin <-]. split; [set_solver|done].
  - apply NoDup_nil_2.
  - intros t. split; [by intros ?%elem_of_nil|].
    intros [d Hd]. apply lookup_gset_to_gmap_Some in Hd as [_ [=]].
Qed.

Lemma reach_inv T m : NULL ∉ T → reach T m → ∃ o, inv m o.
Proof.
  intros HT. induction 1 as [|m t a m' _ [o I] Hs]; [eexists; by apply start_inv|].
  pose proof (step_inv m o t a I) as Hok. by rewrite Hs in Hok.
Qed.

(** ** Properties *)

(** The thread has the lock: it is between the acquisition of the semaphore and
    its release. *)
Definition holds_lock (th : thr) : Prop := ~ other_ok th.

(** C7: mutual exclusion: however the threads are scheduled, at most one of
    them is between acquiring the lock and releasing it. *)
Theorem lock_mutual_exclusion T m t1 t2 th1 th2 :
  NULL ∉ T → reach T m → m_thr m !! t1 = Some th1 → m_thr m !! t2 = Some th2 →
  holds_lock th1 → holds_lock th2 → t1 = t2.
Proof.
  intros HT [o I]%(reach_inv _ _ HT) H1 H2 Hh1 Hh2.
  destruct (inv_is_owner _ _ _ _ I H1 Hh1) as [-> _]. destruct (inv_is_owner _ _ _ _ I H2 Hh2) as [[=] _]. done.
Qed.

(** No assertion of the lock's code fails, whatever the scheduling, for
    threads that release only what they hold. *)
Theorem lock_never_panics T m t a : NULL ∉ T → reach T m → step m t a ≠ Panic.
Proof.
  intros HT [o I]%(reach_inv _ _ HT) E. pose proof (step_inv m o t a I) as Hok. by rewrite E in Hok.
Qed.

(** C8: no wakeup is lost: while a thread waits, some thread that is not
    blocked has the lock, or some thread is just about to take it and its
    next step does. *)
Theorem lock_no_lost_wakeup T m w d :
  NULL ∉ T → reach T m → m_thr m !! w = Some (Thr A_blocked d) →
  (∃ t th, m_thr m !! t = Some th ∧ holds_lock th ∧ at_pc th ≠ A_blocked) ∨
  (∃ t m', m_value m = 1 ∧ step m t Go = Ok m' ∧ m_thr m' !! t = Some (Thr A_holder 0)).
Proof.
  intros HT [o I]%(reach_inv _ _ HT) Hw. destruct o as [t|].
  - left. destruct (i_owner _ _ I t eq_refl) as [th Hth]. exists t, th. split; [done|].
    destruct (i_thr _ _ I _ _ Hth) as [_ Hok]. rewrite decide_True in Hok by done. split.
    + intros [Hd Hx]. unfold owner_ok in Hok. destruct (at_pc th); try done. lia.
    + intros E. unfold owner_ok in Hok. by rewrite E in Hok.
  - right. assert (w ∈ m_waiters m) as Hin by (apply (i_wait _ _ I); eauto).
    destruct (i_wake _ _ I eq_refl) as (t & d' & Ht); [intros E; rewrite E in Hin; set_solver|].
    destruct (inv_not_owner m None t _ I Ht) as [_ [Hd _]]; [by intros []|]. simpl in Hd. subst d'.
    exists t. unfold step. rewrite Ht. simpl. rewrite (i_value _ _ I). simpl.
    eexists. split_and!; [done|done|]. simpl. apply lookup_insert_eq.
Qed.

(** Several steps, each of a given thread. *)
Fixpoint run (m : machine) (l : list (Z * action)) : outcome machine :=
  match l with
  | [] => Ok m
  | (t, a) :: l => m' ← step m t a; run m' l
  end.

Lemma run_reach T m l m' : reach T m → run m l = Ok m' → reach T m'.
Proof.
  revert m. induction l as [|[t a] l IH]; simpl; intros m Hr H; [by simplify_eq|].
  apply bind_Ok in H as (m1 & H1 & H2). eapply IH; [|done]. by econstructor.
Qed.

Lemma run_cons m t a l m' : step m t a = Ok m' → run m ((t, a) :: l) = run m' l.
Proof. intros Hs. simpl. by rewrite Hs. Qed.

(** The next step of a thread that has just moved; [rw] decides its tests. *)
Ltac mstep rw :=
  erewrite run_cons by (unfold step; simpl; rewrite lookup_insert_eq; simpl; rw; reflexivity).

(** The steps of one call, and where they lead: an acquisition of the free
    lock, a nested one, one that blocks, the rest of it after the wake-up, ... *)
Definition steps (me : Z) (l : list action) : list (Z * action) := (λ a, (me, a)) <$> l.

Ltac msteps := unfold steps; cbn [fmap list_fmap].
Ltac mrun := unfold goto, with_lock; simpl; by rewrite ?insert_insert_eq.

Lemma run_acquire_free ws T me :
  T !! me = Some (Thr Outside 0) → me ≠ NULL →
  run (Machine 1 ws (Lock NULL 0) T) (steps me [Acquire; Go; Go; Go; Go]) =
  Ok (Machine 0 ws (Lock me 1) (<[me := Thr Inside 1]> T)).
Proof.
  intros HT Hme. msteps. erewrite run_cons by (unfold step; simpl; rewrite HT; reflexivity).
  mstep ltac:(rewrite (proj2 (Z.eqb_neq NULL me)) by done). do 3 mstep idtac. mrun.
Qed.

Lemma run_acquire_again v ws T me d :
  T !! me = Some (Thr Inside d) → 0 < d < 2 ^ 32 - 1 →
  run (Machine v ws (Lock me d) T) (steps me [Acquire; Go; Go]) =
  Ok (Machine v ws (Lock me (d + 1)) (<[me := Thr Inside (d + 1)]> T)).
Proof.
  intros HT Hd. msteps.
  erewrite run_cons by (unfold step; simpl; rewrite HT; simpl; rewrite (proj2 (Z.ltb_lt _ _)) by lia; reflexivity).
  mstep ltac:(rewrite Z.eqb_refl). mstep ltac:(rewrite u32_small by lia). mrun.
Qed.

Lemma run_acquire_blocks ws lk T me :
  T !! me = Some (Thr Outside 0) → holder lk ≠ me → me ∉ ws →
  run (Machine 0 ws lk T) (steps me [Acquire; Go; Go]) =
  Ok (Machine 0 (ws ++ [me]) lk (<[me := Thr A_blocked 0]> T)).
Proof.
  intros HT Hh Hw. msteps. erewrite run_cons by (unfold step; simpl; rewrite HT; reflexivity).
  mstep ltac:(rewrite (proj2 (Z.eqb_neq _ me)) by done).
  mstep ltac:(rewrite bool_decide_eq_true_2 by done). mrun.
Qed.

Lemma run_acquire_woken ws T me :
  T !! me = Some (Thr A_down 0) →
  run (Machine 1 ws (Lock NULL 0) T) (steps me [Go; Go; Go]) =
  Ok (Machine 0 ws (Lock me 1) (<[me := Thr Inside 1]> T)).
Proof.
  intros HT. msteps. erewrite run_cons by (unfold step; simpl; rewrite HT; reflexivity).
  do 2 mstep idtac. mrun.
Qed.

(** ... a nested release, and the last one, without and with a waiter. *)
Lemma run_release_nested v ws T me d :
  T !! me = Some (Thr Inside d) → 1 < d < 2 ^ 32 →
  run (Machine v ws (Lock me d) T) (steps me [Release; Go; Go]) =
  Ok (Machine v ws (Lock me (d - 1)) (<[me := Thr Inside (d - 1)]> T)).
Proof.
  intros HT Hd. msteps. erewrite run_cons by (unfold step; simpl; rewrite HT; reflexivity).
  mstep ltac:(rewrite Z.eqb_refl, (proj2 (Z.ltb_lt 1 d)) by lia). mstep ltac:(rewrite u32_small by lia). mrun.
Qed.

Lemma run_release_last T me :
  T !! me = Some (Thr Inside 1) →
  run (Machine 0 [] (Lock me 1) T) (steps me [Release; Go; Go; Go; Go]) =
  Ok (Machine 1 [] (Lock NULL 0) (<[me := Thr Outside 0]> T)).
Proof.
  intros HT. msteps. erewrite run_cons by (unfold step; simpl; rewrite HT; reflexivity).
  mstep ltac:(rewrite Z.eqb_refl). do 3 mstep idtac. mrun.
Qed.

Lemma run_release_wakes w ws T me :
  T !! me = Some (Thr Inside 1) → T !! w = Some (Thr A_blocked 0) →
  run (Machine 0 (w :: ws) (Lock me 1) T) (steps me [Release; Go; Go; Go; Go]) =
  Ok (Machine 1 ws (Lock NULL 0) (<[me := Thr Outside 0]> (<[w := Thr A_down 0]> T))).
Proof.
  intros HT Hw. assert (w ≠ me) as Hne by congruence. msteps.
  erewrite run_cons by (unfold step; simpl; rewrite HT; reflexivity).
  mstep ltac:(rewrite Z.eqb_refl). do 2 mstep idtac.
  mstep ltac:(rewrite !(lookup_insert_ne _ me w), Hw by done; simpl).
  unfold goto, with_lock. simpl.
  by rewrite !insert_insert_eq, (insert_insert_ne _ w me), insert_insert_eq.
Qed.

Section Simulation.
Context {H : Type} `{Queues H} `{World H}.

(** The kernel's state shows the machine's lock: its fields, the value of its
    semaphore and the tags of the waiting threads, in their order. *)
Definition views (s : kst H) (Q : gmap Z (list Z)) (l : Z) (m : machine) : Prop :=
  locks s !! l = Some (m_lock m) ∧ semas s !! lock_semaphore l = Some (m_value m) ∧
  Q !! waiters (lock_semaphore l) = Some (general_tag <$> m_waiters m).

Lemma lock_acquire_value s l :
  current s ≠ NULL → locks s !! l = Some (Lock NULL 0) → semas s !! lock_semaphore l = Some 1 →
  lock_acquire l s = Ok (tt, acquired s l (current s)).
Proof.
  intros Hc Hl Hv. eapply (lock_acquire_free s {[ waiters (lock_semaphore l) := [] ]}); [done|].
  split_and!; [done|done|apply lookup_singleton_eq].
Qed.

(** [lock_acquire] of a lock somebody else has: what [sema_down] does, and
    the rest of the call. *)
Lemma lock_acquire_blocks s D Q me ready l lk ws t :
  sched_inv s D Q me ready → locks s !! l = Some lk → holder lk ≠ me →
  semas s !! lock_semaphore l = Some 0 → Q !! waiters (lock_semaphore l) = Some (general_tag <$> ws) →
  waiters (lock_semaphore l) ≠ thread_ready_list → unlinked Q (general_tag me) →
  tasks s !! me = Some t → status t = TASK_RUNNING → (ready = [] → idle_waiting s Q ∧ idle_thread s ≠ me) →
  (0 < rounds)%nat →
  ∃ next rest s1, let Q1 := <[thread_ready_list := general_tag <$> rest]>
                      (<[waiters (lock_semaphore l) := general_tag <$> ws ++ [me]]> Q) in
    sched_inv s1 D Q1 next rest ∧ (∃ t1, tasks s1 !! me = Some t1 ∧ status t1 = TASK_BLOCKED) ∧
    locks s1 = locks s ∧ semas s1 = semas s ∧
    ∀ s2, others me s1 = Ok s2 → current s2 = me → locks s2 !! l = Some (Lock NULL 0) →
      semas s2 !! lock_semaphore l = Some 1 → lock_acquire l s = Ok (tt, set_intr (intr s) (acquired s2 l me)).
Proof.
  intros I Hl Hh Hv Hw Hne Hu Ht Hs Hid Hrd.
  destruct (sema_down_blocks s D Q me ready _ ws t I Hv Hw Hne Hu Ht Hs Hid Hrd)
    as (next & rest & s1 & I1 & _ & _ & Hb & Hsame & Hdown).
  exists next, rest, s1. cbv zeta. split_and!; [exact I1|exact Hb|by rewrite Hsame|by rewrite Hsame|].
  intros s2 Ho Hc2 Hl2 Hv2. unfold lock_acquire. kstep (running_thread_ok _ _ _ _ _ I).
  kstep (lock_at_ok _ _ _ Hl). rewrite (proj2 (Z.eqb_neq _ me)) by done. cbn [negb]. kstep (Hdown s2 Ho Hv2).
  erewrite K_step by apply running_thread_current. kgo.
  erewrite K_step by (apply lock_at_ok; exact Hl2). kgo.
  erewrite K_step by (apply upd_lock_ok; by eexists). kgo.
  erewrite K_step by (apply lock_at_ok; simpl; apply lookup_insert_eq). kgo.
  rewrite upd_lock_ok by (simpl; rewrite lookup_insert_eq; by eexists). simpl.
  unfold acquired. change (current (set_intr (intr s) (set_semas (<[lock_semaphore l := 0]> (semas s2)) s2))) with (current s2).
  rewrite Hc2, insert_insert_eq. by destruct s2.
Qed.

(** A thread that runs and is not in the code of the lock: what it knows of
    the machine. *)
Lemma inside_lock T m me d :
  NULL ∉ T → reach T m → m_thr m !! me = Some (Thr Inside d) →
  m_value m = 0 ∧ m_lock m = Lock me d ∧ 0 < d < 2 ^ 32.
Proof.
  intros HT [o I]%(reach_inv _ _ HT) Hm. destruct (inv_is_owner m o me _ I Hm) as [-> [Hl Hd]]; [by intros []|].
  split; [apply (i_value _ _ I)|done].
Qed.

Lemma outside_lock T m me d p :
  NULL ∉ T → reach T m → m_thr m !! me = Some (Thr p d) → p = Outside ∨ p = A_down →
  me ≠ NULL ∧ d = 0 ∧ holder (m_lock m) ≠ me ∧ (me ∉ m_waiters m) ∧
  (m_value m = 0 ∨ m_value m = 1 ∧ m_lock m = Lock NULL 0).
Proof.
  intros HT [o I]%(reach_inv _ _ HT) Hm Hp.
  destruct (inv_not_owner m o me _ I Hm) as [Ho [Hd _]]; [by destruct Hp as [-> | ->]; intros []|].
  split_and!; [by eapply i_thr|done|by eapply inv_holder| |].
  - intros [d' Hd']%(i_wait _ _ I). rewrite Hm in Hd'. destruct Hp; congruence.
  - rewrite (i_value _ _ I). destruct o; [by left|right]. split; [done|by apply (i_free _ _ I)].
Qed.

Lemma waiter_blocked T m w :
  NULL ∉ T → reach T m → w ∈ m_waiters m → m_thr m !! w = Some (Thr A_blocked 0).
Proof.
  intros HT [o I]%(reach_inv _ _ HT) [d Hd]%(i_wait _ _ I).
  destruct (inv_not_owner m o w _ I Hd) as [_ [E _]]; [by intros []|]. by simpl in E; subst.
Qed.

(** A call of the code by the running thread [me] that ends with the result [r]
    follows the steps [acts] of the machine, and leaves [me] at [p]. *)
Definition follows (r : outcome (unit * kst H)) (D : gmap Z Z) (Q : gmap Z (list Z)) (me : Z) (ready : list Z) (l : Z)
    (m : machine) (acts : list action) (p : thr) : Prop :=
  ∃ s1 m1, r = Ok (tt, s1) ∧ run m (steps me acts) = Ok m1 ∧ views s1 Q l m1 ∧ m_thr m1 !! me = Some p ∧
    sched_inv s1 D Q me ready.

Section Calls.
Context (s : kst H) (D : gmap Z Z) (Q : gmap Z (list Z)) (me : Z) (ready : list Z) (l : Z) (T : gset Z) (m : machine).
Hypothesis HT : NULL ∉ T.
Hypothesis HR : reach T m.
Hypothesis I : sched_inv s D Q me ready.
Hypothesis V : views s Q l m.
Hypothesis Hne : waiters (lock_semaphore l) ≠ thread_ready_list.

Lemma me_current : current s = me.
Proof. pose proof (running_thread_ok _ _ _ _ _ I) as Hr. rewrite running_thread_current in Hr. by injection Hr. Qed.

Lemma acquire_free_follows d :
  m_thr m !! me = Some (Thr Outside d) → m_value m = 1 →
  follows (lock_acquire l s) D Q me ready l m [Acquire; Go; Go; Go; Go] (Thr Inside 1).
Proof.
  intros Hm Hv. destruct (outside_lock T m me d _ HT HR Hm) as (Hn & -> & _ & _ & [?|[_ Hl]]); [by left|lia|].
  destruct V as (Vl & Vv & Vw). rewrite Hl in Vl. rewrite Hv in Vv.
  destruct m as [v ws lk Th]. simpl in *. subst v lk. eexists _, _.
  split_and!; [apply lock_acquire_value; [by rewrite me_current|done..]|by apply run_acquire_free| |apply lookup_insert_eq|].
  - rewrite me_current. split_and!; [apply lookup_insert_eq..|done].
  - by eapply sched_inv_ext; [..|exact I].
Qed.

Lemma acquire_again_follows d :
  m_thr m !! me = Some (Thr Inside d) → d < 2 ^ 32 - 1 →
  follows (lock_acquire l s) D Q me ready l m [Acquire; Go; Go] (Thr Inside (d + 1)).
Proof.
  intros Hm Hd. destruct (inside_lock T m me d HT HR Hm) as (Hv & Hl & Hd'). destruct V as (Vl & Vv & Vw).
  rewrite Hl in Vl. rewrite Hv in Vv. destruct m as [v ws lk Th]. simpl in *. subst v lk. eexists _, _.
  split_and!; [eapply (lock_acquire_again s Q l d ws); [by rewrite me_current|lia]
    |apply run_acquire_again; [done|lia]| |apply lookup_insert_eq|].
  - rewrite me_current. split_and!; [apply lookup_insert_eq|done..].
  - by eapply sched_inv_ext; [..|exact I].
Qed.

Lemma release_nested_follows d :
  m_thr m !! me = Some (Thr Inside d) → 1 < d →
  follows (lock_release l s) D Q me ready l m [Release; Go; Go] (Thr Inside (d - 1)).
Proof.
  intros Hm Hd. destruct (inside_lock T m me d HT HR Hm) as (Hv & Hl & Hd'). destruct V as (Vl & Vv & Vw).
  rewrite Hl in Vl. rewrite Hv in Vv. destruct m as [v ws lk Th]. simpl in *. subst v lk. eexists _, _.
  split_and!; [eapply (lock_release_nested s Q l d ws); [by rewrite me_current|lia]
    |apply run_release_nested; [done|lia]| |apply lookup_insert_eq|].
  - rewrite me_current. split_and!; [apply lookup_insert_eq|done..].
  - by eapply sched_inv_ext; [..|exact I].
Qed.

Lemma release_last_follows :
  m_thr m !! me = Some (Thr Inside 1) → m_waiters m = [] →
  follows (lock_release l s) D Q me ready l m [Release; Go; Go; Go; Go] (Thr Outside 0).
Proof.
  intros Hm Hw. destruct (inside_lock T m me 1 HT HR Hm) as (Hv & Hl & _). destruct V as (Vl & Vv & Vw).
  rewrite Hl in Vl. rewrite Hv in Vv. rewrite Hw in Vw. destruct m as [v ws lk Th]. simpl in *. subst v lk ws. eexists _, _.
  split_and!; [eapply (lock_release_last s Q l); [by rewrite me_current|apply I]
    |by apply run_release_last| |apply lookup_insert_eq|].
  - split_and!; [apply lookup_insert_eq..|done].
  - by eapply sched_inv_ext; [..|exact I].
Qed.

Lemma release_wakes_follows w ws tw :
  m_thr m !! me = Some (Thr Inside 1) → m_waiters m = w :: ws →
  tasks s !! w = Some tw → blocked_status (status tw) = true →
  ∃ s1 m1, let Q1 := <[thread_ready_list := general_tag <$> w :: ready]>
                       (<[waiters (lock_semaphore l) := general_tag <$> ws]> Q) in
    lock_release l s = Ok (tt, s1) ∧ run m (steps me [Release; Go; Go; Go; Go]) = Ok m1 ∧
    views s1 Q1 l m1 ∧ m_thr m1 !! me = Some (Thr Outside 0) ∧ m_thr m1 !! w = Some (Thr A_down 0) ∧
    sched_inv s1 D Q1 me (w :: ready).
Proof.
  intros Hm Hw Htw Hb. destruct (inside_lock T m me 1 HT HR Hm) as (Hv & Hl & _).
  assert (m_thr m !! w = Some (Thr A_blocked 0)) as Hwb by (eapply waiter_blocked; [done..|rewrite Hw; set_solver]).
  destruct V as (Vl & Vv & Vw). rewrite Hl in Vl. rewrite Hv in Vv. rewrite Hw in Vw.
  destruct m as [v ws' lk Th]. simpl in *. subst v lk ws'.
  destruct (lock_release_wakes s D Q me ready l w ws tw I) as (s1 & Hr & Hl1 & Hv1 & I1);
    [by rewrite me_current|done..|].
  eexists s1, _. cbv zeta. split_and!; [exact Hr|by apply run_release_wakes| |apply lookup_insert_eq| |exact I1].
  - split_and!; [done..|]. rewrite lookup_insert_ne by done. apply lookup_insert_eq.
  - simpl. rewrite lookup_insert_ne by congruence. apply lookup_insert_eq.
Qed.

Lemma acquire_blocks_follows d t :
  m_thr m !! me = Some (Thr Outside d) → m_value m = 0 → unlinked Q (general_tag me) →
  tasks s !! me = Some t → status t = TASK_RUNNING → (ready = [] → idle_waiting s Q ∧ idle_thread s ≠ me) →
  (0 < rounds)%nat →
  ∃ next rest s1 m1, let Q1 := <[thread_ready_list := general_tag <$> rest]>
                         (<[waiters (lock_semaphore l) := general_tag <$> m_waiters m ++ [me]]> Q) in
    run m (steps me [Acquire; Go; Go]) = Ok m1 ∧ views s1 Q1 l m1 ∧ m_thr m1 !! me = Some (Thr A_blocked 0) ∧
    sched_inv s1 D Q1 next rest ∧ (∃ t1, tasks s1 !! me = Some t1 ∧ status t1 = TASK_BLOCKED) ∧
    ∀ s2 D2 Q2 ready2 m2, others me s1 = Ok s2 → reach T m2 → sched_inv s2 D2 Q2 me ready2 → views s2 Q2 l m2 →
      m_thr m2 !! me = Some (Thr A_down 0) → m_value m2 = 1 →
      follows (lock_acquire l s) D2 Q2 me ready2 l m2 [Go; Go; Go] (Thr Inside 1).
Proof.
  intros Hm Hv Hu Ht Hs Hid Hrd. destruct (outside_lock T m me d _ HT HR Hm) as (Hn & -> & Hh & Hw & _); [by left|].
  destruct V as (Vl & Vv & Vw). rewrite Hv in Vv. destruct m as [v ws lk Th]. simpl in *. subst v.
  destruct (lock_acquire_blocks s D Q me ready l lk ws t) as (next & rest & s1 & I1 & Hb & El & Ev & Hgo); try done.
  eexists next, rest, s1, _. cbv zeta.
  split_and!; [by apply run_acquire_blocks| |apply lookup_insert_eq|exact I1|exact Hb|].
  - split_and!; [by rewrite El|by rewrite Ev|]. rewrite lookup_insert_ne by done. apply lookup_insert_eq.
  - intros s2 D2 Q2 ready2 m2 Ho HR2 I2 (Vl2 & Vv2 & Vw2) Hm2 Hv2.
    destruct (outside_lock T m2 me 0 _ HT HR2 Hm2) as (_ & _ & _ & _ & [?|[_ Hl2]]); [by right|lia|].
    rewrite Hl2 in Vl2. rewrite Hv2 in Vv2. destruct m2 as [v2 ws2 lk2 Th2]. simpl in *. subst v2 lk2.
    pose proof (running_thread_ok _ _ _ _ _ I2) as Hr2. rewrite running_thread_current in Hr2. injection Hr2 as Hc2.
    eexists _, _. split_and!; [by eapply Hgo|by apply run_acquire_woken| |apply lookup_insert_eq|].
    + split_and!; [apply lookup_insert_eq..|done].
    + by eapply sched_inv_ext; [..|exact I2].
Qed.

(** C9: the code of Sync.v makes the steps of the machine.  In a state of the
    kernel that shows a reachable state of the machine:
    - [lock_acquire] by a thread outside, with the semaphore at 1, leads where
      five steps of the machine lead, and by the thread that has the lock, where
      three lead;
    - with the semaphore at 0, the three steps that end in [A_blocked] are
      what it does before it gives the processor away: the calling thread is
      then the last of the waiters, blocked, and another one runs; when it
      runs again, woken and with the semaphore at 1, the call ends where the
      remaining three steps lead;
    - [lock_release] by the thread that has the lock leads where three steps
      lead if it is nested and where five steps lead if it is the last one;
      the first of the waiters, if there are any, then is the first ready
      thread and stands before the test of the value. *)
Theorem lock_code_matches_machine :
  (∀ d, m_thr m !! me = Some (Thr Outside d) → m_value m = 1 →
     follows (lock_acquire l s) D Q me ready l m [Acquire; Go; Go; Go; Go] (Thr Inside 1)) ∧
  (∀ d, m_thr m !! me = Some (Thr Inside d) → d < 2 ^ 32 - 1 →
     follows (lock_acquire l s) D Q me ready l m [Acquire; Go; Go] (Thr Inside (d + 1))) ∧
  (∀ d t, m_thr m !! me = Some (Thr Outside d) → m_value m = 0 → unlinked Q (general_tag me) →
     tasks s !! me = Some t → status t = TASK_RUNNING → (ready = [] → idle_waiting s Q ∧ idle_thread s ≠ me) →
     (0 < rounds)%nat →
     ∃ next rest s1 m1, let Q1 := <[thread_ready_list := general_tag <$> rest]>
                            (<[waiters (lock_semaphore l) := general_tag <$> m_waiters m ++ [me]]> Q) in
       run m (steps me [Acquire; Go; Go]) = Ok m1 ∧ views s1 Q1 l m1 ∧ m_thr m1 !! me = Some (Thr A_blocked 0) ∧
       sched_inv s1 D Q1 next rest ∧ (∃ t1, tasks s1 !! me = Some t1 ∧ status t1 = TASK_BLOCKED) ∧
       ∀ s2 D2 Q2 ready2 m2, others me s1 = Ok s2 → reach T m2 → sched_inv s2 D2 Q2 me ready2 → views s2 Q2 l m2 →
         m_thr m2 !! me = Some (Thr A_down 0) → m_value m2 = 1 →
         follows (lock_acquire l s) D2 Q2 me ready2 l m2 [Go; Go; Go] (Thr Inside 1)) ∧
  (∀ d, m_thr m !! me = Some (Thr Inside d) → 1 < d →
     follows (lock_release l s) D Q me ready l m [Release; Go; Go] (Thr Inside (d - 1))) ∧
  (m_thr m !! me = Some (Thr Inside 1) → m_waiters m = [] →
     follows (lock_release l s) D Q me ready l m [Release; Go; Go; Go; Go] (Thr Outside 0)) ∧
  (∀ w ws tw, m_thr m !! me = Some (Thr Inside 1) → m_waiters m = w :: ws →
     tasks s !! w = Some tw → blocked_status (status tw) = true →
     ∃ s1 m1, let Q1 := <[thread_ready_list := general_tag <$> w :: ready]>
                          (<[waiters (lock_semaphore l) := general_tag <$> ws]> Q) in
       lock_release l s = Ok (tt, s1) ∧ run m (steps me [Release; Go; Go; Go; Go]) = Ok m1 ∧
       views s1 Q1 l m1 ∧ m_thr m1 !! me = Some (Thr Outside 0) ∧ m_thr m1 !! w = Some (Thr A_down 0) ∧
       sched_inv s1 D Q1 me (w :: ready)).
Proof.
  split_and!; [exact acquire_free_follows|exact acquire_again_follows|exact acquire_blocks_follows
    |exact release_nested_follows|exact release_last_follows|exact release_wakes_follows].
Qed.

End Calls.

End Simulation.

(** ** Witnesses *)

(** Thread 1 takes the lock and thread 2 runs into it. *)
Definition ex_threads : gset Z := {[ 1; 2 ]}.
Definition ex_run : list (Z * action) :=
  [(1, Acquire); (1, Go); (1, Go); (2, Acquire); (2, Go); (1, Go); (2, Go); (1, Go)].
Definition ex_machine : machine :=
  Machine 0 [2] (Lock 1 1) {[ 1 := Thr Inside 1; 2 := Thr A_blocked 0 ]}.

Lemma ex_reach : reach ex_threads ex_machine.
Proof. eapply (run_reach _ _ ex_run); [constructor|by vm_compute]. Qed.

Lemma ex_threads_ok : NULL ∉ ex_threads.
Proof. by apply (bool_decide_unpack _). Qed.

Lemma lock_mutual_exclusion_witness : holds_lock (Thr Inside 1) ∧ ~ holds_lock (Thr A_blocked 0).
Proof.
  assert (holds_lock (Thr Inside 1)) as H1 by (intros [? _]; done). split; [exact H1|]. intros H2.
  enough ((1 : Z) = 2) by done.
  apply (lock_mutual_exclusion ex_threads ex_machine 1 2 (Thr Inside 1) (Thr A_blocked 0));
    [apply ex_threads_ok|apply ex_reach|done|done|exact H1|exact H2].
Defined.

Lemma lock_never_panics_witness : step ex_machine 1 Release ≠ Panic.
Proof. apply (lock_never_panics ex_threads); [apply ex_threads_ok|apply ex_reach]. Defined.

Lemma lock_no_lost_wakeup_witness :
  (∃ t th, m_thr ex_machine !! t = Some th ∧ holds_lock th ∧ at_pc th ≠ A_blocked) ∨
  (∃ t m', m_value ex_machine = 1 ∧ step ex_machine t Go = Ok m' ∧ m_thr m' !! t = Some (Thr A_holder 0)).
Proof.
  apply (lock_no_lost_wakeup ex_threads ex_machine 2 0); [apply ex_threads_ok|apply ex_reach|done].
Defined.

(** In [ex_sync] the thread A has the lock at [pid_lock] and the idle thread
    waits for it; so it is after these steps of the machine. *)
Definition ex_lock_threads : gset Z := {[ ex_A; ex_idle ]}.
Definition ex_lock_machine : machine :=
  Machine 0 [ex_idle] (Lock ex_A 1) {[ ex_A := Thr Inside 1; ex_idle := Thr A_blocked 0 ]}.
Lemma ex_lock_reach : reach ex_lock_threads ex_lock_machine.
Proof.
  eapply (run_reach _ _ (steps ex_A [Acquire; Go; Go; Go; Go] ++ steps ex_idle [Acquire; Go; Go])); [constructor|by vm_compute].
Qed.

Lemma lock_code_matches_machine_witness :
  ∃ s1 m1, lock_release pid_lock ex_sync = Ok (tt, s1) ∧
    run ex_lock_machine (steps ex_A [Release; Go; Go; Go; Go]) = Ok m1 ∧
    semas s1 !! lock_semaphore pid_lock = Some (m_value m1).
Proof.
  destruct (lock_code_matches_machine (H := lheap) (H1 := ex_world) ex_sync ∅ ex_sync_queues ex_A [ex_B] pid_lock
    ex_lock_threads ex_lock_machine) as (_ & _ & _ & _ & _ & Hw).
  - by apply (bool_decide_unpack _).
  - apply ex_lock_reach.
  - apply ex_sync_inv.
  - done.
  - done.
  - destruct (Hw ex_idle [] (ex_task ex_idle TASK_BLOCKED)) as (s1 & m1 & Hr & Hrun & (_ & Hv & _) & _); [done..|].
    exists s1, m1. split_and!; [exact Hr|exact Hrun|exact Hv].
Defined.
