(* ===== verification/IoQueue.v ===== *)
(** * Ring buffers (src/device/ioqueue.c)

    A buffer of 64 characters between one producer and one consumer, either
    of which sleeps while it cannot go on and is woken up by the other.  One
    of the 64 places stays empty, so that the positions tell a full buffer
    from an empty one.  The theorems show that the buffer is a queue of at
    most 63 characters. *)

From S2P Require Import Prelude CString Bitmap Lists PageTable Kernel Sched Sync.

Definition bufsize : Z := 64.

(** [&ioq->producer] and [&ioq->consumer]. *)
Inductive side := PRODUCER | CONSUMER.
Definition waiter_of (w : side) (i : ioqueue) : Z :=
  match w with PRODUCER => producer i | CONSUMER => consumer i end.
Definition set_waiter (w : side) (v : Z) (i : ioqueue) : ioqueue :=
  match w with PRODUCER => set_producer v i | CONSUMER => set_consumer v i end.

Section IoQueue.
Context {H : Type} `{Queues H} `{World H}.

Definition ioq_at (q : Z) : K (kst H) ioqueue := λ s, i ← deref (ioqs s !! q); Ok (i, s).
Definition upd_ioq (q : Z) (f : ioqueue → ioqueue) : K (kst H) unit := λ s,
  i ← deref (ioqs s !! q); Ok (tt, set_ioqs (<[q := f i]> (ioqs s)) s).

(** The lock of a buffer is its first member. *)
Definition ioqueue_init (ioq : Z) : K (kst H) unit :=
  lock_init ioq ;;
  upd_ioq ioq (λ i, set_producer NULL i) ;;
  upd_ioq ioq (λ i, set_consumer NULL i) ;;
  upd_ioq ioq (λ i, IoQueue (producer i) (consumer i) (buf i) (ioq_head i) 0) ;;
  upd_ioq ioq (λ i, IoQueue (producer i) (consumer i) (buf i) 0 (ioq_tail i)).

Definition next_pos (pos : Z) : Z := Z.rem (s32 (pos + 1)) bufsize.

Definition ioq_full (ioq : Z) : K (kst H) bool :=
  st ← intr_get_status;
  kASSERT (bool_decide (st = INTR_OFF)) ;;
  i ← ioq_at ioq;
  mret (next_pos (ioq_head i) =? ioq_tail i).

Definition ioq_empty (ioq : Z) : K (kst H) bool :=
  st ← intr_get_status;
  kASSERT (bool_decide (st = INTR_OFF)) ;;
  i ← ioq_at ioq;
  mret (ioq_head i =? ioq_tail i).

Definition ioq_wait (ioq : Z) (w : side) : K (kst H) unit :=
  i ← ioq_at ioq;
  kASSERT (waiter_of w i =? NULL) ;;
  cur ← running_thread;
  upd_ioq ioq (set_waiter w cur) ;;
  thread_block TASK_BLOCKED.

Definition wakeup (ioq : Z) (w : side) : K (kst H) unit :=
  i ← ioq_at ioq;
  kASSERT (negb (waiter_of w i =? NULL)) ;;
  thread_unblock (waiter_of w i) ;;
  upd_ioq ioq (set_waiter w NULL).

(** The loop of [ioq_getchar] and [ioq_putchar]: [cond] is [ioq_empty] or
    [ioq_full]. *)
Fixpoint ioq_loop (fuel : nat) (cond : K (kst H) bool) (ioq : Z) (w : side) : K (kst H) unit :=
  match fuel with
  | O => lift NoFuel
  | S fuel =>
      b ← cond;
      if (b : bool) then
        lock_acquire ioq ;; ioq_wait ioq w ;; lock_release ioq ;;
        ioq_loop fuel cond ioq w
      else mret tt
  end.

Definition ioq_getchar (ioq : Z) : K (kst H) Z :=
  st ← intr_get_status;
  kASSERT (bool_decide (st = INTR_OFF)) ;;
  ioq_loop (S (S rounds)) (ioq_empty ioq) ioq CONSUMER ;;
  i ← ioq_at ioq;
  byte ← lift (deref (if bool_decide (0 ≤ ioq_tail i) then buf i !! Z.to_nat (ioq_tail i) else None));
  upd_ioq ioq (λ i, IoQueue (producer i) (consumer i) (buf i) (ioq_head i) (next_pos (ioq_tail i))) ;;
  i ← ioq_at ioq;
  (if negb (producer i =? NULL) then wakeup ioq PRODUCER else mret tt) ;;
  mret byte.

Definition ioq_putchar (ioq byte : Z) : K (kst H) unit :=
  st ← intr_get_status;
  kASSERT (bool_decide (st = INTR_OFF)) ;;
  ioq_loop (S (S rounds)) (ioq_full ioq) ioq PRODUCER ;;
  i ← ioq_at ioq;
  lift (if bool_decide (0 ≤ ioq_head i < Z.of_nat (length (buf i))) then Ok tt else Fault) ;;
  upd_ioq ioq (λ i, IoQueue (producer i) (consumer i) (<[Z.to_nat (ioq_head i) := byte]> (buf i)) (ioq_head i) (ioq_tail i)) ;;
  upd_ioq ioq (λ i, IoQueue (producer i) (consumer i) (buf i) (next_pos (ioq_head i)) (ioq_tail i)) ;;
  i ← ioq_at ioq;
  if negb (consumer i =? NULL) then wakeup ioq CONSUMER else mret tt.

(** ** The queue a buffer stands for *)

Record ioq_ok (i : ioqueue) : Prop := {
  io_len : length (buf i) = 64%nat;
  io_head : 0 ≤ ioq_head i < 64;
  io_tail : 0 ≤ ioq_tail i < 64;
}.

Definition count (i : ioqueue) : Z := (ioq_head i - ioq_tail i) mod 64.
Definition place (i : ioqueue) (k : Z) : nat := Z.to_nat ((ioq_tail i + k) mod 64).
Definition items (i : ioqueue) : list Z := (λ k, buf i !!! place i k) <$> seqZ 0 (count i).

Definition put (c : Z) (i : ioqueue) : ioqueue :=
  IoQueue (producer i) (consumer i) (<[Z.to_nat (ioq_head i) := c]> (buf i)) (next_pos (ioq_head i)) (ioq_tail i).
Definition got (i : ioqueue) : ioqueue :=
  IoQueue (producer i) (consumer i) (buf i) (ioq_head i) (next_pos (ioq_tail i)).

Lemma next_pos_eq p : 0 ≤ p < 64 → next_pos p = (p + 1) mod 64.
Proof. intros Hp. unfold next_pos, bufsize. rewrite s32_small by lia. apply Z.rem_mod_nonneg; lia. Qed.

Lemma count_range i : 0 ≤ count i < 64.
Proof. apply Z.mod_pos_bound. lia. Qed.
Lemma items_length i : Z.of_nat (length (items i)) = count i.
Proof. unfold items. rewrite length_fmap, length_seqZ. pose proof (count_range i). lia. Qed.

Lemma full_count i : ioq_ok i → (next_pos (ioq_head i) =? ioq_tail i) = bool_decide (length (items i) = 63%nat).
Proof.
  intros [_ Hh Ht]. pose proof (items_length i) as Hl. rewrite next_pos_eq by done. unfold count in Hl.
  case_bool_decide as E; [apply Z.eqb_eq|apply Z.eqb_neq]; dm.
Qed.
Lemma empty_count i : ioq_ok i → (ioq_head i =? ioq_tail i) = bool_decide (items i = []).
Proof.
  intros [_ Hh Ht]. pose proof (items_length i) as Hl. unfold count in Hl.
  case_bool_decide as E; [apply Z.eqb_eq; rewrite E in Hl; simpl in Hl; dm|apply Z.eqb_neq].
  intros Eq. apply E, length_zero_iff_nil. rewrite Eq, Z.sub_diag, Z.mod_0_l in Hl; lia.
Qed.

Lemma put_ok c i : ioq_ok i → (length (items i) < 63)%nat → ioq_ok (put c i) ∧ items (put c i) = items i ++ [c].
Proof.
  intros [Hl Hh Ht] Hn. pose proof (items_length i) as Hc.
  assert (next_pos (ioq_head i) = (ioq_head i + 1) mod 64) as Hnx by (by apply next_pos_eq).
  split.
  - split; simpl; [by rewrite length_insert|rewrite Hnx; dm|done].
  - unfold items. assert (count (put c i) = count i + 1) as ->.
    { unfold count in *. simpl. rewrite Hnx. dm. }
    pose proof (count_range i). rewrite seqZ_app, fmap_app by lia. f_equal.
    + apply list_fmap_ext. intros j k [-> Hk]%lookup_seqZ. unfold place. simpl. rewrite list_lookup_total_insert_ne; [done|].
      unfold count in *. dm.
    + simpl. f_equal. unfold place. simpl. rewrite list_lookup_total_insert, decide_True; [done|].
      rewrite Hl. unfold count. dm.
Qed.

Lemma got_ok i c xs : ioq_ok i → items i = c :: xs →
  ioq_ok (got i) ∧ items (got i) = xs ∧ buf i !! Z.to_nat (ioq_tail i) = Some c.
Proof.
  intros [Hl Hh Ht] Hi. pose proof (items_length i) as Hc. rewrite Hi in Hc. simpl in Hc.
  assert (next_pos (ioq_tail i) = (ioq_tail i + 1) mod 64) as Hnx by (by apply next_pos_eq).
  unfold items in Hi. pose proof (count_range i). rewrite seqZ_cons in Hi by lia. simpl in Hi. injection Hi as Hc0 Hxs.
  split_and!.
  - split; simpl; [done|done|rewrite Hnx; dm].
  - unfold items. assert (count (got i) = Z.pred (count i)) as ->.
    { unfold count in *. simpl. rewrite Hnx. dm. }
    rewrite <- Hxs. replace (seqZ (Z.succ 0) (Z.pred (count i))) with (Z.add 1 <$> seqZ 0 (Z.pred (count i))) by apply fmap_add_seqZ.
    rewrite <- list_fmap_compose. apply list_fmap_ext. intros j k [-> Hk]%lookup_seqZ. simpl. unfold place. simpl. rewrite Hnx.
    do 2 f_equal. dm.
  - assert (place i 0 = Z.to_nat (ioq_tail i)) as <- by (unfold place; rewrite Z.add_0_r, Z.mod_small; lia).
    rewrite <- Hc0. apply list_lookup_lookup_total, lookup_lt_is_Some. rewrite Hl. unfold place. dm.
Qed.


(** ** The operations *)

Lemma ioq_at_ok (s : kst H) q i : ioqs s !! q = Some i → ioq_at q s = Ok (i, s).
Proof. intros Hi. unfold ioq_at. by rewrite Hi. Qed.
Lemma upd_ioq_ok (s : kst H) q i f :
  ioqs s !! q = Some i → upd_ioq q f s = Ok (tt, set_ioqs (<[q := f i]> (ioqs s)) s).
Proof. intros Hi. unfold upd_ioq. by rewrite Hi. Qed.
Lemma upd_ioq_again (s : kst H) M q i f :
  upd_ioq q f (set_ioqs (<[q := i]> M) s) = Ok (tt, set_ioqs (<[q := f i]> M) s).
Proof. rewrite (upd_ioq_ok _ _ i) by apply lookup_insert_eq. simpl. by rewrite insert_insert_eq. Qed.

Lemma ioq_full_ok (s : kst H) q i :
  intr s = false → ioqs s !! q = Some i → ioq_ok i → ioq_full q s = Ok (bool_decide (length (items i) = 63%nat), s).
Proof.
  intros Hf Hi Hok. unfold ioq_full, intr_get_status. kgo. rewrite Hf. kgo. kstep (ioq_at_ok _ _ _ Hi).
  by rewrite full_count.
Qed.
Lemma ioq_empty_ok (s : kst H) q i :
  intr s = false → ioqs s !! q = Some i → ioq_ok i → ioq_empty q s = Ok (bool_decide (items i = []), s).
Proof.
  intros Hf Hi Hok. unfold ioq_empty, intr_get_status. kgo. rewrite Hf. kgo. kstep (ioq_at_ok _ _ _ Hi).
  by rewrite empty_count.
Qed.

(** The thread that waits on one side, if there is one, is blocked. *)
Definition waits (s : kst H) (Q : gmap Z (list Z)) (w : Z) : Prop :=
  w = NULL ∨ ∃ t, tasks s !! w = Some t ∧ blocked_status (status t) = true ∧ unlinked Q (general_tag w).
Definition woken (w : Z) (ready : list Z) : list Z := if w =? NULL then ready else w :: ready.

(** The end of both operations: wake the other side up. *)
Lemma wake_other s D Q run ready q i w :
  sched_inv s D Q run ready → ioqs s !! q = Some i → waits s Q (waiter_of w i) →
  ∃ s', (if negb (waiter_of w i =? NULL) then wakeup q w else mret tt) s = Ok (tt, s') ∧
    ioqs s' = <[q := set_waiter w NULL i]> (ioqs s) ∧ kbd s' = kbd s ∧
    sched_inv s' D (<[thread_ready_list := general_tag <$> woken (waiter_of w i) ready]> Q) run (woken (waiter_of w i) ready).
Proof.
  intros I Hi Hw. unfold woken. destruct (Z.eqb_spec (waiter_of w i) NULL) as [E|Hne]; simpl.
  - exists s. split_and!; [done| |done|].
    + rewrite insert_id; [done|]. rewrite Hi. f_equal. destruct i, w; simpl in *; by subst.
    + rewrite insert_id; [done|]. apply (si_ready _ _ _ _ _ I).
  - destruct Hw as [?|(t & Ht & Hb & Hu)]; [done|].
    destruct (thread_unblock_ok s D Q run ready _ t I Ht Hb Hu) as (h' & Hub & _ & I').
    set (s1 := set_tasks _ _) in *. exists (set_ioqs (<[q := set_waiter w NULL i]> (ioqs s)) s1). split_and!; [|done|done|].
    + unfold wakeup. kstep (ioq_at_ok _ _ _ Hi). rewrite (proj2 (Z.eqb_neq _ NULL)) by done. cbn [negb]. kgo.
      kstep Hub. by rewrite (upd_ioq_ok _ _ i).
    + by eapply sched_inv_ext; [..|exact I'].
Qed.

Lemma ioq_loop_skip (s : kst H) cond q w n : cond s = Ok (false, s) → ioq_loop (S n) cond q w s = Ok (tt, s).
Proof. intros Hc. simpl. by kstep Hc. Qed.

Lemma ioq_putchar_ok s D Q run ready q i c :
  sched_inv s D Q run ready → intr s = false → ioqs s !! q = Some i → ioq_ok i →
  (length (items i) < 63)%nat → waits s Q (consumer i) →
  ∃ s' i', ioq_putchar q c s = Ok (tt, s') ∧ ioqs s' = <[q := i']> (ioqs s) ∧ ioq_ok i' ∧
    items i' = items i ++ [c] ∧ consumer i' = NULL ∧ producer i' = producer i ∧ kbd s' = kbd s ∧
    sched_inv s' D (<[thread_ready_list := general_tag <$> woken (consumer i) ready]> Q) run (woken (consumer i) ready).
Proof.
  intros I Hf Hi Hok Hn Hw. destruct (put_ok c i Hok Hn) as [Hok' Hit].
  set (s1 := set_ioqs (<[q := put c i]> (ioqs s)) s).
  destruct (wake_other s1 D Q run ready q (put c i) CONSUMER) as (s' & Hwk & Hio & Hkb & I').
  { by eapply sched_inv_ext; [..|exact I]. }
  { apply lookup_insert_eq. }
  { exact Hw. }
  exists s', (set_consumer NULL (put c i)). split_and!; try done.
  - unfold ioq_putchar, intr_get_status. kgo. rewrite Hf. kgo.
    erewrite K_step.
    2:{ apply ioq_loop_skip. rewrite (ioq_full_ok _ _ i) by done. by rewrite bool_decide_eq_false_2 by lia. }
    kgo. kstep (ioq_at_ok _ _ _ Hi). destruct Hok as [Hl Hh Ht]. rewrite bool_decide_eq_true_2 by (rewrite Hl; lia). kgo.
    erewrite K_step by (by apply upd_ioq_ok). kgo. erewrite K_step by apply upd_ioq_again. kgo.
    erewrite K_step by (apply ioq_at_ok, lookup_insert_eq). exact Hwk.
  - rewrite Hio. apply insert_insert_eq.
  - by destruct Hok'.
Qed.

Lemma ioq_getchar_ok s D Q run ready q i c xs :
  sched_inv s D Q run ready → intr s = false → ioqs s !! q = Some i → ioq_ok i →
  items i = c :: xs → waits s Q (producer i) →
  ∃ s' i', ioq_getchar q s = Ok (c, s') ∧ ioqs s' = <[q := i']> (ioqs s) ∧ ioq_ok i' ∧
    items i' = xs ∧ producer i' = NULL ∧ consumer i' = consumer i ∧
    sched_inv s' D (<[thread_ready_list := general_tag <$> woken (producer i) ready]> Q) run (woken (producer i) ready).
Proof.
  intros I Hf Hi Hok Hn Hw. destruct (got_ok i c xs Hok Hn) as (Hok' & Hit & Hc).
  set (s1 := set_ioqs (<[q := got i]> (ioqs s)) s).
  destruct (wake_other s1 D Q run ready q (got i) PRODUCER) as (s' & Hwk & Hio & Hkb & I').
  { by eapply sched_inv_ext; [..|exact I]. }
  { apply lookup_insert_eq. }
  { exact Hw. }
  exists s', (set_producer NULL (got i)). split_and!; try done.
  - unfold ioq_getchar, intr_get_status. kgo. rewrite Hf. kgo.
    erewrite K_step.
    2:{ apply ioq_loop_skip. rewrite (ioq_empty_ok _ _ i) by done. by rewrite bool_decide_eq_false_2 by (by rewrite Hn). }
    kgo. kstep (ioq_at_ok _ _ _ Hi). destruct Hok as [Hl Hh Ht]. rewrite bool_decide_eq_true_2 by lia. rewrite Hc. cbn [deref]. kgo.
    erewrite K_step by (by apply upd_ioq_ok). kgo.
    erewrite K_step by (apply ioq_at_ok, lookup_insert_eq). kgo. erewrite K_step by exact Hwk. done.
  - rewrite Hio. apply insert_insert_eq.
  - by destruct Hok'.
Qed.

(** ** Properties *)

(** C16: the ring buffer is a bounded queue: it never holds more than 63
    characters, [ioq_full] says whether it holds 63, [ioq_putchar] into a
    buffer that is not full adds the character at the end and wakes a waiting
    consumer up, and [ioq_getchar] from a buffer that is not empty takes the
    first character and wakes a waiting producer up; all other buffers and
    the scheduler's invariant are kept. *)
Theorem ioqueue_refines_queue s D Q run ready q i :
  sched_inv s D Q run ready → intr s = false → ioqs s !! q = Some i → ioq_ok i →
  (length (items i) ≤ 63)%nat ∧
  ioq_full q s = Ok (bool_decide (length (items i) = 63%nat), s) ∧
  (∀ c, (length (items i) < 63)%nat → waits s Q (consumer i) →
     ∃ s' i', ioq_putchar q c s = Ok (tt, s') ∧ ioqs s' = <[q := i']> (ioqs s) ∧ ioq_ok i' ∧
       items i' = items i ++ [c] ∧ consumer i' = NULL ∧ producer i' = producer i ∧
       sched_inv s' D (<[thread_ready_list := general_tag <$> woken (consumer i) ready]> Q) run (woken (consumer i) ready)) ∧
  (∀ c xs, items i = c :: xs → waits s Q (producer i) →
     ∃ s' i', ioq_getchar q s = Ok (c, s') ∧ ioqs s' = <[q := i']> (ioqs s) ∧ ioq_ok i' ∧
       items i' = xs ∧ producer i' = NULL ∧ consumer i' = consumer i ∧
       sched_inv s' D (<[thread_ready_list := general_tag <$> woken (producer i) ready]> Q) run (woken (producer i) ready)).
Proof.
  intros I Hf Hi Hok. split_and!.
  - pose proof (items_length i). pose proof (count_range i). lia.
  - by apply ioq_full_ok.
  - intros. destruct (ioq_putchar_ok s D Q run ready q i c) as (s' & i' & ? & ? & ? & ? & ? & ? & _ & ?); try done. by exists s', i'.
  - intros. by apply ioq_getchar_ok.
Qed.

(** C17: a consumer that finds the buffer empty takes the buffer's lock, leaves
    its name as the waiting consumer and gives the processor to another
    thread: in the state in which that thread runs, the consumer is blocked
    and out of the ready queue, the lock is held by it, once and with nobody
    waiting, and the buffer is as it was but for the name.  When it runs again,
    with a character in the buffer and the lock still its own, it releases the
    lock and goes on to take the character. *)
Theorem ioq_getchar_waits s D Q run ready q i t :
  sched_inv s D Q run ready → intr s = false → ioqs s !! q = Some i → ioq_ok i → items i = [] →
  consumer i = NULL → lock_free s Q q → waiters (lock_semaphore q) ≠ thread_ready_list →
  tasks s !! run = Some t → status t = TASK_RUNNING →
  (ready = [] → idle_waiting s Q ∧ idle_thread s ≠ run) →
  ∃ next rest s1, let Q1 := <[thread_ready_list := general_tag <$> rest]> Q in
    sched_inv s1 D Q1 next rest ∧ (run ∉ next :: rest) ∧
    (∃ t1, tasks s1 !! run = Some t1 ∧ status t1 = TASK_BLOCKED) ∧
    lock_held s1 Q1 q run 1 [] ∧ ioqs s1 = <[q := set_consumer run i]> (ioqs s) ∧
    ∀ s2 Q2 i2, others run s1 = Ok s2 → qrep (heap s2) Q2 → current s2 = run → lock_held s2 Q2 q run 1 [] →
      ioqs s2 !! q = Some i2 → ioq_ok i2 → items i2 ≠ [] →
      ioq_getchar q s = ioq_getchar q (released (set_intr false s2) q).
Proof.
  intros I Hf Hi Hok He Hcn Hlk Hw Ht Hst Hid.
  pose proof (running_thread_ok _ _ _ _ _ I) as Hrt. rewrite running_thread_current in Hrt. injection Hrt as Hcur.
  assert (run ≠ NULL) as Hrn by (destruct (si_run_page _ _ _ _ _ I); unfold NULL; lia).
  set (sa := set_ioqs (<[q := set_consumer run i]> (ioqs s)) (acquired s q run)).
  assert (sched_inv sa D Q run ready) as Ia by (by eapply sched_inv_ext; [..|exact I]).
  destruct (thread_block_full sa D Q run ready TASK_BLOCKED t Ia Ht Hst eq_refl Hid)
    as (next & rest & s1 & _ & I1 & Ht1 & Hnot & Hblk & Hsame & _).
  exists next, rest, s1. split_and!; [done|done|done| |by rewrite Hsame|].
  { destruct Hlk as (_ & _ & Hlw). split_and!; [rewrite Hsame; cbn; apply lookup_insert_eq..|]. by rewrite lookup_insert_ne by done. }
  intros s2 Q2 i2 Ho Hq2 Hc2 Hl2 Hi2 Hok2 Hne.
  set (s3 := released (set_intr false s2) q).
  assert (ioq_empty q s3 = Ok (false, s3)) as Hem.
  { rewrite (ioq_empty_ok _ _ i2) by done. by rewrite bool_decide_eq_false_2. }
  assert (ioq_loop (S (S rounds)) (ioq_empty q) q CONSUMER s = Ok (tt, s3)) as Hlp.
  { cbn [ioq_loop]. kstep (ioq_empty_ok _ _ _ Hf Hi Hok). rewrite bool_decide_eq_true_2 by done.
    assert (current s ≠ NULL) as Hcn' by congruence.
    kstep (lock_acquire_free s Q q Hcn' Hlk). unfold ioq_wait. kgo.
    erewrite K_step by (apply ioq_at_ok; exact Hi). cbn [waiter_of]. rewrite Hcn. kgo.
    erewrite K_step by apply running_thread_current. kgo.
    erewrite K_step by (by apply upd_ioq_ok). kgo.
    change (current (acquired s q (current s))) with (current s). rewrite Hcur. cbn [set_waiter].
    erewrite K_step by (etrans; [exact Hblk|rewrite Ho; cbn; rewrite Hf; reflexivity]). kgo.
    erewrite K_step by (by eapply (lock_release_last (set_intr false s2) Q2); [rewrite <- Hc2 in Hl2|]). fold s3.
    etrans; [apply (ioq_loop_skip _ _ q CONSUMER rounds Hem)|done]. }
  unfold ioq_getchar, intr_get_status. kgo. rewrite Hf. change (intr s3) with false. kgo.
  rewrite (K_step _ _ _ _ _ Hlp), (K_step _ _ _ _ _ (ioq_loop_skip _ _ q CONSUMER (S rounds) Hem)). done.
Qed.

End IoQueue.

(** ** Witnesses *)

(** The threads of [ex_kst] and a keyboard buffer whose lock is free. *)
Definition ex_kbd_waiters : Z := waiters (lock_semaphore kbd_buf).
Definition ex_ioq_queues : gmap Z (list Z) := <[ex_kbd_waiters := []]> ex_queues.
Definition ex_ioq_cells : lheap :=
  <[ex_kbd_waiters := ListElem 0 (ex_kbd_waiters + 8)]> (<[ex_kbd_waiters + 8 := ListElem ex_kbd_waiters 0]> ex_cells).
Definition ex_ring (h t : Z) : ioqueue := IoQueue NULL NULL (replicate 64 97) h t.
Definition ex_ioq (h t : Z) : kst lheap :=
  set_ioqs {[ kbd_buf := ex_ring h t ]}
    (set_heap ex_ioq_cells
      (set_locks {[ kbd_buf := Lock NULL 0 ]} (set_semas {[ lock_semaphore kbd_buf := 1 ]} ex_kst))).

Lemma ex_ioq_inv h t : sched_inv (ex_ioq h t) ∅ ex_ioq_queues ex_A [ex_B].
Proof.
  split; simpl.
  - apply queues_check_ok. by vm_compute.
  - by vm_compute.
  - intros p u Ht. map_cases Ht; (split_and!; [split; [done|by vm_compute]|by apply elem_of_dom; vm_compute; eexists|by left]).
  - intros p u Ht Hp. map_cases Ht; (done || by vm_compute).
  - by vm_compute.
  - eexists. split; [by vm_compute|done].
  - intros p Hp. apply list_elem_of_singleton in Hp as ->. by vm_compute; eexists.
  - intros p u Ht. rewrite list_elem_of_singleton. map_cases Ht; by vm_compute.
  - intros c v pa _ Hv. done.
Qed.

Lemma ioqueue_refines_queue_witness : ∃ s', ioq_getchar (H1 := ex_world) kbd_buf (ex_ioq 5 3) = Ok (97, s').
Proof.
  destruct (ioqueue_refines_queue (H1 := ex_world) (ex_ioq 5 3) ∅ ex_ioq_queues ex_A [ex_B] kbd_buf (ex_ring 5 3))
    as (_ & _ & _ & Hg).
  - apply ex_ioq_inv.
  - done.
  - done.
  - split; simpl; [done|lia|lia].
  - destruct (Hg 97 [97]) as (s' & i' & Hs & _).
    + by vm_compute.
    + by left.
    + exists s'. exact Hs.
Defined.

(** The other thread puts a character into the buffer and yields. *)
Definition ex_typist : World lheap :=
  {| others me s := r ← (ioq_putchar (H1 := ex_world) kbd_buf 98 ;; schedule) s; Ok r.2; rounds := 0; stale _ := false |}.

Lemma ioq_getchar_waits_witness :
  (∃ s', ioq_getchar (H1 := ex_typist) kbd_buf (ex_ioq 3 3) = Ok (98, s')) ∧
  ∃ s1 : kst lheap, (∃ t1, tasks s1 !! ex_A = Some t1 ∧ status t1 = TASK_BLOCKED) ∧ locks s1 !! kbd_buf = Some (Lock ex_A 1).
Proof.
  split.
  - eexists. by vm_compute.
  - destruct (ioq_getchar_waits (H1 := ex_typist) (ex_ioq 3 3) ∅ ex_ioq_queues ex_A [ex_B] kbd_buf (ex_ring 3 3)
      (ex_task ex_A TASK_RUNNING)) as (n & r & s1 & _ & _ & Ht & Hl & _).
    + apply ex_ioq_inv.
    + done.
    + done.
    + split; simpl; [done|lia|lia].
    + by vm_compute.
    + done.
    + split_and!; by vm_compute.
    + done.
    + done.
    + done.
    + done.
    + exists s1. split; [exact Ht|apply Hl].
Defined.
