(* ===== verification/Keyboard.v ===== *)
(** * The keyboard driver (src/device/keyboard.c)

    The interrupt handler turns scan codes into characters.  It keeps five
    flags between interrupts: which of ctrl, shift and alt are down, whether
    caps lock is on, and whether the last byte was the prefix 0xe0.  The byte
    read from the port is an argument of the model. *)

From S2P Require Import Prelude CString Bitmap Lists PageTable Kernel Sched Sync IoQueue.

(** The address of [intr_keyboard_handler]. *)
Definition intr_keyboard_code : Z := 0xc0001a00.

Definition esc : Z := 27.
Definition backspace : Z := 8.
Definition tab : Z := 9.
Definition enter : Z := 13.
Definition char_invisible : Z := 0.

Definition shift_l_make : Z := 0x2a.
Definition shift_r_make : Z := 0x36.
Definition alt_l_make : Z := 0x38.
Definition alt_r_make : Z := 0xe038.
Definition ctrl_l_make : Z := 0x1d.
Definition ctrl_r_make : Z := 0xe01d.
Definition caps_lock_make : Z := 0x3a.

(** Without shift, with shift. *)
Definition keymap : list (Z * Z) :=
  [(0, 0); (esc, esc); (49, 33); (50, 64); (51, 35); (52, 36); (53, 37); (54, 94);
   (55, 38); (56, 42); (57, 40); (48, 41); (45, 95); (61, 43); (backspace, backspace); (tab, tab);
   (113, 81); (119, 87); (101, 69); (114, 82); (116, 84); (121, 89); (117, 85); (105, 73);
   (111, 79); (112, 80); (91, 123); (93, 125); (enter, enter); (char_invisible, char_invisible); (97, 65); (115, 83);
   (100, 68); (102, 70); (103, 71); (104, 72); (106, 74); (107, 75); (108, 76); (59, 58);
   (39, 34); (96, 126); (char_invisible, char_invisible); (92, 124); (122, 90); (120, 88); (99, 67); (118, 86);
   (98, 66); (110, 78); (109, 77); (44, 60); (46, 62); (47, 63); (char_invisible, char_invisible); (42, 42);
   (char_invisible, char_invisible); (32, 32); (char_invisible, char_invisible)].

Definition keymap_at (index : Z) (shift : bool) : outcome Z :=
  '(a, b) ← deref (keymap !! Z.to_nat index); Ok (if shift then b else a).

Definition set_ctrl b (f : kbd_flags) : kbd_flags :=
  KbdFlags b (shift_status f) (alt_status f) (caps_lock_status f) (ext_scancode f).
Definition set_shift b (f : kbd_flags) : kbd_flags :=
  KbdFlags (ctrl_status f) b (alt_status f) (caps_lock_status f) (ext_scancode f).
Definition set_alt b (f : kbd_flags) : kbd_flags :=
  KbdFlags (ctrl_status f) (shift_status f) b (caps_lock_status f) (ext_scancode f).
Definition set_caps b (f : kbd_flags) : kbd_flags :=
  KbdFlags (ctrl_status f) (shift_status f) (alt_status f) b (ext_scancode f).
Definition set_ext b (f : kbd_flags) : kbd_flags :=
  KbdFlags (ctrl_status f) (shift_status f) (alt_status f) (caps_lock_status f) b.

(** The keys with two characters that caps lock does not change. *)
Definition two_char_key (scancode : Z) : bool :=
  (scancode <? 0x0e) || (scancode =? 0x29) || (scancode =? 0x1a) || (scancode =? 0x1b) || (scancode =? 0x2b) ||
  (scancode =? 0x27) || (scancode =? 0x28) || (scancode =? 0x33) || (scancode =? 0x34) || (scancode =? 0x35).

Section Keyboard.
Context {H : Type} `{Queues H} `{World H}.

Definition upd_kbd (f : kbd_flags → kbd_flags) : K (kst H) unit := modify (λ s, set_kbd (f (kbd s)) s).

Definition intr_keyboard_handler (inb : Z) : K (kst H) unit :=
  flags ← gets kbd;
  let ctrl_down_last := ctrl_status flags in
  let shift_down_last := shift_status flags in
  let caps_lock_last := caps_lock_status flags in
  let scancode := inb in
  if scancode =? 0xe0 then upd_kbd (set_ext true) else
  scancode ← (if ext_scancode flags then upd_kbd (set_ext false) ;; mret (Z.lor 0xe000 scancode) else mret scancode);
  let break_code := negb (Z.land scancode 0x0080 =? 0) in
  if break_code then
    let make_code := Z.land scancode 0xff7f in
    if (make_code =? ctrl_l_make) || (make_code =? ctrl_r_make) then upd_kbd (set_ctrl false)
    else if (make_code =? shift_l_make) || (make_code =? shift_r_make) then upd_kbd (set_shift false)
    else if (make_code =? alt_l_make) || (make_code =? alt_r_make) then upd_kbd (set_alt false)
    else mret tt
  else if ((0 <? scancode) && (scancode <? 0x3b)) || (scancode =? alt_r_make) || (scancode =? ctrl_r_make) then
    let shift :=
      if two_char_key scancode then shift_down_last
      else if shift_down_last && caps_lock_last then false
      else if shift_down_last || caps_lock_last then true else false in
    let scancode := Z.land scancode 0x00ff in
    let index := u8 scancode in
    cur_char ← lift (keymap_at index shift);
    if negb (cur_char =? 0) then
      let cur_char :=
        if (ctrl_down_last && (cur_char =? 108)) || (ctrl_down_last && (cur_char =? 117)) then s8 (cur_char - 97)
        else cur_char in
      full ← ioq_full kbd_buf;
      if negb full then ioq_putchar kbd_buf cur_char else mret tt
    else if (scancode =? ctrl_l_make) || (scancode =? ctrl_r_make) then upd_kbd (set_ctrl true)
    else if (scancode =? shift_l_make) || (scancode =? shift_r_make) then upd_kbd (set_shift true)
    else if (scancode =? alt_l_make) || (scancode =? alt_r_make) then upd_kbd (set_alt true)
    else if scancode =? caps_lock_make then upd_kbd (λ f, set_caps (negb (caps_lock_status f)) f)
    else mret tt
  else mret tt.

Definition keyboard_init : K (kst H) unit :=
  ioqueue_init kbd_buf ;;
  register_handler 0x21 intr_keyboard_code.

End Keyboard.

(** ** What the handler should do

    In terms of keys: the byte without its top bit is the key, the top bit
    says up or down, and the prefix selects the right ctrl and alt.  Letters
    are shifted by shift or caps lock but not both, the other keys with two
    characters by shift alone; ctrl with l and u gives 11 and 20. *)

Definition spec_flags (f : kbd_flags) (b : Z) : kbd_flags :=
  if b =? 0xe0 then set_ext true f else
  let f' := set_ext false f in
  let down := b <? 128 in
  let key := b mod 128 in
  if key =? 0x1d then set_ctrl down f'
  else if key =? 0x38 then set_alt down f'
  else if ext_scancode f then f'
  else if (key =? 0x2a) || (key =? 0x36) then set_shift down f'
  else if (key =? 0x3a) && down then set_caps (negb (caps_lock_status f)) f'
  else f'.

Definition spec_char (f : kbd_flags) (b : Z) : option Z :=
  if (128 <=? b) || ext_scancode f then None else
  '(lower, upper) ← keymap !! Z.to_nat b;
  let shifted := if two_char_key b then shift_status f else xorb (shift_status f) (caps_lock_status f) in
  let c := if shifted then upper else lower in
  if c =? 0 then None
  else Some (if ctrl_status f && ((c =? 108) || (c =? 117)) then c - 97 else c).

(** The decisions of the handler, apart from its effects. *)
Definition decode (f : kbd_flags) (scancode : Z) : outcome (kbd_flags * option Z) :=
  if scancode =? 0xe0 then Ok (set_ext true f, None) else
  let '(f', scancode) := if ext_scancode f then (set_ext false f, Z.lor 0xe000 scancode) else (f, scancode) in
  if negb (Z.land scancode 0x0080 =? 0) then
    let make_code := Z.land scancode 0xff7f in
    Ok (if (make_code =? ctrl_l_make) || (make_code =? ctrl_r_make) then set_ctrl false f'
        else if (make_code =? shift_l_make) || (make_code =? shift_r_make) then set_shift false f'
        else if (make_code =? alt_l_make) || (make_code =? alt_r_make) then set_alt false f' else f', None)
  else if ((0 <? scancode) && (scancode <? 0x3b)) || (scancode =? alt_r_make) || (scancode =? ctrl_r_make) then
    let shift :=
      if two_char_key scancode then shift_status f
      else if shift_status f && caps_lock_status f then false
      else if shift_status f || caps_lock_status f then true else false in
    let scancode := Z.land scancode 0x00ff in
    cur_char ← keymap_at (u8 scancode) shift;
    if negb (cur_char =? 0) then
      Ok (f', Some (if (ctrl_status f && (cur_char =? 108)) || (ctrl_status f && (cur_char =? 117)) then s8 (cur_char - 97)
                    else cur_char))
    else Ok (if (scancode =? ctrl_l_make) || (scancode =? ctrl_r_make) then set_ctrl true f'
             else if (scancode =? shift_l_make) || (scancode =? shift_r_make) then set_shift true f'
             else if (scancode =? alt_l_make) || (scancode =? alt_r_make) then set_alt true f'
             else if scancode =? caps_lock_make then set_caps (negb (caps_lock_status f')) f' else f', None)
  else Ok (f', None).

#[export] Instance kbd_flags_eq_dec : EqDecision kbd_flags.
Proof. solve_decision. Defined.

Definition all_flags : list kbd_flags :=
  a ← [false; true]; b ← [false; true]; c ← [false; true]; d ← [false; true]; e ← [false; true]; [KbdFlags a b c d e].

Lemma decode_spec f b : 0 ≤ b < 256 → decode f b = Ok (spec_flags f b, spec_char f b).
Proof.
  intros Hb.
  assert (Forall (λ b, Forall (λ f, decode f b = Ok (spec_flags f b, spec_char f b)) all_flags) (seqZ 0 256)) as Hall.
  { apply (bool_decide_unpack _). by vm_compute. }
  assert (b ∈ seqZ 0 256) as Hin by (apply elem_of_seqZ; lia).
  rewrite Forall_forall in Hall. specialize (Hall b Hin).
  rewrite Forall_forall in Hall. apply Hall. destruct f as [[] [] [] [] []]; unfold all_flags; simpl; set_solver.
Qed.

Section Spec.
Context {H : Type} `{Queues H} `{World H}.

(** Store the flags, and put the character into the buffer unless it is full. *)
Definition act (f : kbd_flags) (oc : option Z) : K (kst H) unit :=
  modify (set_kbd f) ;;
  match oc with
  | None => mret tt
  | Some c => full ← ioq_full kbd_buf; if negb full then ioq_putchar kbd_buf c else mret tt
  end.

Lemma set_kbd_same (s : kst H) : set_kbd (kbd s) s = s.
Proof. by destruct s. Qed.

Lemma handler_decode b (s : kst H) :
  intr_keyboard_handler b s = (r ← decode (kbd s) b; act r.1 r.2 s).
Proof.
  unfold intr_keyboard_handler, decode, act, upd_kbd. kgo. destruct (b =? 0xe0); [done|].
  destruct (ext_scancode (kbd s)) eqn:He; kgo.
  all: destruct (negb _); [repeat case_match; cbn [fst snd mbind outcome_bind]; kgo; by rewrite ?set_kbd_same|].
  all: destruct (_ || _ || _); [|cbn [fst snd mbind outcome_bind]; kgo; by rewrite ?set_kbd_same].
  all: destruct (keymap_at _ _) as [c| | |]; [|done..].
  all: cbn [fst snd mbind outcome_bind]; kgo; destruct (negb (c =? 0));
    [|repeat case_match; cbn [fst snd mbind outcome_bind]; kgo; by rewrite ?set_kbd_same].
  all: cbn [fst snd mbind outcome_bind]; kgo; by rewrite ?set_kbd_same.
Qed.

(** ** Properties *)

(** C18: the keyboard interrupt handler, for every byte the keyboard can send and
    every combination of its flags, stays inside the key map, leaves the
    flags that the key event calls for, puts exactly the character of the
    event at the end of the buffer, drops it when the buffer is full, and
    wakes a thread up that waits for input. *)
Theorem keyboard_handler_types s D Q run ready i b :
  0 ≤ b < 256 → sched_inv s D Q run ready → intr s = false → ioqs s !! kbd_buf = Some i → ioq_ok i →
  waits s Q (consumer i) →
  let typed := if decide (length (items i) < 63)%nat then spec_char (kbd s) b else None in
  let ready' := match typed with Some _ => woken (consumer i) ready | None => ready end in
  ∃ s' i', intr_keyboard_handler b s = Ok (tt, s') ∧ kbd s' = spec_flags (kbd s) b ∧
    ioqs s' = <[kbd_buf := i']> (ioqs s) ∧ ioq_ok i' ∧
    items i' = items i ++ match typed with Some c => [c] | None => [] end ∧
    sched_inv s' D (<[thread_ready_list := general_tag <$> ready']> Q) run ready'.
Proof.
  intros Hb I Hf Hi Hok Hw typed ready'. rewrite handler_decode, decode_spec by done. cbn [mbind outcome_bind fst snd].
  unfold act. kgo. set (s1 := set_kbd (spec_flags (kbd s) b) s).
  assert (sched_inv s1 D Q run ready) as I1 by (by eapply sched_inv_ext; [..|exact I]).
  assert (sched_inv s1 D (<[thread_ready_list := general_tag <$> ready]> Q) run ready) as I1'.
  { rewrite insert_id; [done|]. apply (si_ready _ _ _ _ _ I1). }
  assert (<[kbd_buf := i]> (ioqs s) = ioqs s) as Hid by (by apply insert_id).
  destruct (spec_char (kbd s) b) as [c|] eqn:Hc.
  - kstep (ioq_full_ok s1 _ _ Hf Hi Hok). subst typed ready'. case_decide as Hn.
    + rewrite bool_decide_eq_false_2 by lia. cbn [negb].
      destruct (ioq_putchar_ok s1 D Q run ready kbd_buf i c I1 Hf Hi Hok Hn Hw) as (s' & i' & Hp & Hio & Hok' & Hit & _ & _ & Hk & I').
      by exists s', i'.
    + pose proof (items_length i). pose proof (count_range i). rewrite bool_decide_eq_true_2 by lia. cbn [negb].
      exists s1, i. rewrite app_nil_r. by rewrite Hid.
  - assert (typed = None) as Et by (subst typed; by case_decide). subst ready'. rewrite Et.
    exists s1, i. rewrite app_nil_r. by rewrite Hid.
Qed.

End Spec.

(** ** Witnesses *)

(** The left shift key is down, and then the key "a": the buffer gets an "A". *)
Lemma keyboard_handler_types_witness :
  spec_flags (KbdFlags false false false false false) 0x2a = KbdFlags false true false false false ∧
  spec_char (KbdFlags false true false false false) 0x1e = Some 65 ∧
  ∃ s', intr_keyboard_handler (H1 := ex_world) 0x2a (ex_ioq 5 3) = Ok (tt, s').
Proof.
  split; [by vm_compute|]. split; [by vm_compute|].
  destruct (keyboard_handler_types (H1 := ex_world) (ex_ioq 5 3) ∅ ex_ioq_queues ex_A [ex_B] (ex_ring 5 3) 0x2a)
    as (s' & i' & Hs & _).
  - lia.
  - apply ex_ioq_inv.
  - done.
  - done.
  - split; simpl; [done|lia|lia].
  - by left.
  - exists s'. exact Hs.
Defined.
