(* ===== verification/Memory.v ===== *)
(** * Pages (src/mm/memory.c, without the block allocator)

    Physical pages come from two pools, each with a bitmap; virtual pages of
    the kernel from [kernel_vaddr], those of a process from its own bitmap;
    the page tables connect them.  The page tables are read and written
    through the virtual addresses of PageTable.v, in the directory [cr3]
    holds. *)

From S2P Require Import Prelude CString Bitmap Lists PageTable Kernel Sched Sync.

Definition MEM_BITMAP_BASE : Z := 0xc009a000.
Definition K_HEAP_START : Z := 0xc0100000.

(** ** Bytes of physical memory

    A byte is part of the word at the multiple of 4 below it. *)

Definition byte_of (w k : Z) : Z := (w / 256 ^ k) mod 256.
Definition with_byte (w k v : Z) : Z := w - byte_of w k * 256 ^ k + v * 256 ^ k.

Definition pstore8 (m : pmem) (pa v : Z) : outcome pmem :=
  let a := pa - pa mod 4 in
  w ← deref (m !! a); Ok (<[a := with_byte w (pa mod 4) (u8 v)]> m).

Definition vstore8 (m : pmem) (c va v : Z) : outcome pmem :=
  pa ← deref (translate m c va); pstore8 m pa v.

(** [memset] of lib/string.c on virtual addresses. *)
Fixpoint vmemset_loop (n : nat) (m : pmem) (c dst value : Z) : outcome pmem :=
  match n with
  | O => Ok m
  | S n => m ← vstore8 m c dst value; vmemset_loop n m c (dst + 1) value
  end.
Definition vmemset (m : pmem) (c dst value size : Z) : outcome pmem :=
  ASSERT (negb (dst =? NULL)) ;; vmemset_loop (Z.to_nat size) m c dst value.

(** ** Clearing a page *)

Lemma with_byte_zero w : 0 ≤ w < 2 ^ 32 →
  with_byte (with_byte (with_byte (with_byte w 0 0) 1 0) 2 0) 3 0 = 0.
Proof.
  intros Hw. unfold with_byte, byte_of.
  change (256 ^ 0) with 1. change (256 ^ 1) with 256. change (256 ^ 2) with 65536. change (256 ^ 3) with 16777216.
  rewrite Z.div_1_r. set (w0 := w - w mod 256 * 1 + 0 * 1).
  assert (w0 = w / 256 * 256) as E0 by (unfold w0; dm).
  set (w1 := w0 - (w0 / 256) mod 256 * 256 + 0 * 256).
  assert (w1 = w / 65536 * 65536) as E1 by (unfold w1; rewrite E0; dm).
  set (w2 := w1 - (w1 / 65536) mod 256 * 65536 + 0 * 65536).
  assert (w2 = w / 16777216 * 16777216) as E2 by (unfold w2; rewrite E1; dm).
  rewrite E2. dm.
Qed.

(** Four byte stores clear a word. *)
Lemma pstore8_at m a k w : a mod 4 = 0 → 0 ≤ k < 4 → m !! a = Some w →
  pstore8 m (a + k) 0 = Ok (<[a := with_byte w k 0]> m).
Proof.
  intros Ha Hk Hw. unfold pstore8. assert ((a + k) mod 4 = k) as -> by dm.
  replace (a + k - k) with a by lia. by rewrite Hw.
Qed.

(** The addresses [va .. va + 4 * n) stay mapped to [a ..], whatever is stored
    in the page [f]. *)
Definition stably_mapped (m : pmem) (c va a f : Z) (n : nat) : Prop :=
  ∀ m' j, 0 ≤ j < 4 * Z.of_nat n → (∀ b, b < f ∨ f + 4096 ≤ b → m' !! b = m !! b) →
    translate m' c (va + j) = Some (a + j).

Lemma vmemset_word m c va a f n w :
  stably_mapped m c va a f (S n) → a mod 4 = 0 → f ≤ a → a + 4 ≤ f + 4096 →
  m !! a = Some w → 0 ≤ w < 2 ^ 32 →
  vmemset_loop (4 + 4 * n) m c va 0 = vmemset_loop (4 * n) (<[a := 0]> m) c (va + 4) 0.
Proof.
  intros Hs Ha Hf Hf' Hw Hwr.
  assert (∀ v b, b < f ∨ f + 4096 ≤ b → <[a := v]> m !! b = m !! b) as Hout.
  { intros v b Hb. apply lookup_insert_ne. lia. }
  simpl. unfold vstore8.
  pose proof (Hs m 0 ltac:(lia) (λ _ _, eq_refl)) as T0. rewrite !Z.add_0_r in T0. rewrite T0. simpl.
  rewrite <- (Z.add_0_r a) at 1. rewrite (pstore8_at m a 0 w) by (done || lia). simpl.
  rewrite (Hs _ 1 ltac:(lia) (Hout _)). simpl.
  rewrite (pstore8_at _ a 1 (with_byte w 0 0)) by (done || lia || apply lookup_insert_eq). simpl.
  rewrite insert_insert_eq. replace (va + 1 + 1) with (va + 2) by lia.
  rewrite (Hs _ 2 ltac:(lia) (Hout _)). simpl.
  rewrite (pstore8_at _ a 2 (with_byte (with_byte w 0 0) 1 0)) by (done || lia || apply lookup_insert_eq). simpl.
  rewrite insert_insert_eq. replace (va + 2 + 1) with (va + 3) by lia.
  rewrite (Hs _ 3 ltac:(lia) (Hout _)). simpl.
  rewrite (pstore8_at _ a 3 (with_byte (with_byte (with_byte w 0 0) 1 0) 2 0)) by (done || lia || apply lookup_insert_eq).
  simpl. rewrite insert_insert_eq, with_byte_zero by done. by replace (va + 3 + 1) with (va + 4) by lia.
Qed.

Lemma vmemset_loop_words n : ∀ m c va a f,
  stably_mapped m c va a f n → a mod 4 = 0 → f ≤ a → a + 4 * Z.of_nat n ≤ f + 4096 →
  (∀ k, 0 ≤ k < Z.of_nat n → ∃ w, m !! (a + k * 4) = Some w ∧ 0 ≤ w < 2 ^ 32) →
  vmemset_loop (4 * n) m c va 0 = Ok (zero_words n a m).
Proof.
  induction n as [|n IH]; intros m c va a f Hs Ha Hf Hf' Hw; [done|].
  destruct (Hw 0) as (w & Hw0 & Hwr); [lia|]. rewrite Z.mul_0_l, Z.add_0_r in Hw0.
  replace (4 * S n)%nat with (4 + 4 * n)%nat by lia.
  rewrite (vmemset_word m c va a f n w) by (done || lia). simpl zero_words. eapply (IH _ _ _ _ f).
  - intros m' j Hj Hm'. replace (va + 4 + j) with (va + (4 + j)) by lia.
    rewrite (Hs m' (4 + j)); [f_equal; lia|lia|]. intros b Hb. rewrite Hm' by done. apply lookup_insert_ne. lia.
  - dm.
  - lia.
  - lia.
  - intros k Hk. destruct (Hw (k + 1)) as (w' & Hw' & ?); [lia|]. exists w'. split; [|done].
    rewrite lookup_insert_ne by lia. rewrite <- Hw'. f_equal. lia.
Qed.

(** The window in which the table of entry [i] appears. *)
Lemma translate_window m c f i j :
  c mod 4096 = 0 → 0 ≤ c < 2 ^ 32 → m !! (c + 4092) = Some (c + 7) →
  m !! (c + i * 4) = Some (f + 7) → f mod 4096 = 0 → 0 ≤ f < 2 ^ 32 - 4096 →
  0 ≤ i < 1024 → 0 ≤ j < 4096 →
  translate m c (0xffc00000 + i * 4096 + j) = Some (f + j).
Proof.
  intros Hca Hcr Hl Hi Hfa Hfr Hir Hj. destruct (self_entry c Hca Hcr) as [Hp He].
  destruct (frame_entry f Hfa Hfr) as [Hpf Hff]. unfold frame in Hff. unfold translate.
  replace ((0xffc00000 + i * 4096 + j) / 2 ^ 22) with 1023 by (change (2 ^ 22) with 4194304; dm).
  change (1023 * 4) with 4092. rewrite Hl. cbn -[Z.land Z.div Z.modulo]. rewrite Hp, He.
  replace ((0xffc00000 + i * 4096 + j) / 2 ^ 12 mod 2 ^ 10) with i
    by (change (2 ^ 12) with 4096; change (2 ^ 10) with 1024; dm).
  rewrite Hi. cbn -[Z.land Z.div Z.modulo]. rewrite Hpf, Hff. f_equal. change (2 ^ 12) with 4096. dm.
Qed.

(** Clearing a new table through that window. *)
Lemma vmemset_new_table m c va f :
  tables_ok m c → fresh_frame m c f → managed va →
  vmemset (<[pde_addr c va := f + 7]> m) c (Z.land (pte_ptr va) 0xfffff000) 0 PG_SIZE =
  Ok (new_table m c va f).
Proof.
  intros T F Hv. pose proof (managed_pde_idx _ Hv) as Hi. destruct (t_self _ _ T) as [Hca Hcr Hl].
  pose proof (ff_aligned _ _ _ F) as Hfa. pose proof (ff_range _ _ _ F) as Hfr.
  assert (Z.land (pte_ptr va) 0xfffff000 = 0xffc00000 + va / 2 ^ 22 * 4096) as ->.
  { unfold managed in Hv. rewrite pte_ptr_eq by lia. pose proof (pte_idx_range va).
    rewrite land_fffff000 by lia. set (i := va / 2 ^ 22) in *. set (k := (va / 2 ^ 12) mod 2 ^ 10) in *. dm. }
  unfold vmemset. rewrite (proj2 (Z.eqb_neq _ NULL)) by (unfold NULL; lia). cbn [negb ASSERT].
  unfold mbind at 1, outcome_bind. replace (Z.to_nat PG_SIZE) with (4 * 1024)%nat by reflexivity.
  rewrite new_table_eq. apply (vmemset_loop_words 1024 _ c _ f f); [|dm|lia|lia|].
  - intros m' j Hj Hm'.
    assert (∀ i, 0 ≤ i < 1024 → m' !! (c + i * 4) = <[pde_addr c va := f + 7]> m !! (c + i * 4)) as Hd.
    { intros i Hir. apply Hm'. pose proof (ff_dir _ _ _ F). dm. }
    apply translate_window; try done || lia.
    + pose proof (Hd 1023 ltac:(lia)) as E. change (1023 * 4) with 4092 in E. rewrite E.
      rewrite lookup_insert_ne; [done|]. unfold pde_addr. lia.
    + rewrite Hd by lia. apply lookup_insert_eq.
  - intros k Hk. destruct (ff_words _ _ _ F k) as [w Hw]; [lia|].
    destruct (decide (pde_addr c va = f + k * 4)) as [E|Hne].
    + rewrite <- E, lookup_insert_eq. eexists. split; [done|lia].
    + rewrite lookup_insert_ne by done. exists w. split; [done|]. by eapply t_words.
Qed.

(** ** Writing to a page that is no table *)

Definition data_write (m m' : pmem) (f : Z) : Prop :=
  (∀ b, b < f ∨ f + 4096 ≤ b → m' !! b = m !! b) ∧
  (∀ b, is_Some (m !! b) → is_Some (m' !! b)) ∧ (∀ b w, m' !! b = Some w → 0 ≤ w < 2 ^ 32).

Lemma data_write_other m m' f g k :
  data_write m m' f → f mod 4096 = 0 → g mod 4096 = 0 → g ≠ f → 0 ≤ k < 1024 → m' !! (g + k * 4) = m !! (g + k * 4).
Proof. intros [Hd _] Hf Hg Hne Hk. apply Hd. dm. Qed.

Section DataWrite.
Context (m m' : pmem) (c f : Z).
Hypothesis T : tables_ok m c.
Hypothesis F : fresh_frame m c f.
Hypothesis D : data_write m m' f.

Lemma data_write_dir i : 0 ≤ i < 1024 → m' !! (c + i * 4) = m !! (c + i * 4).
Proof using T F D.
  intros Hi. eapply data_write_other; [done|apply F|apply T| |done]. intros E. by apply (ff_dir _ _ _ F).
Qed.

Lemma data_write_tables : tables_ok m' c.
Proof using T F D.
  destruct D as (Ho & Hs & Hw). split.
  - destruct (t_self _ _ T) as [? ? Hl]. split; [done..|].
    pose proof (data_write_dir 1023 ltac:(lia)) as E. change (1023 * 4) with 4092 in E. by rewrite E.
  - done.
  - intros i Hi. by apply Hs, T.
  - intros i pde Hi. rewrite data_write_dir by lia. intros Hp Hpr.
    destruct (t_table _ _ T _ _ Hi Hp Hpr) as [? Hk]. split; [done|]. intros. by apply Hs, Hk.
  - intros i j pi pj Hi Hj. rewrite !data_write_dir by lia. by apply T.
Qed.

Lemma data_write_translate va : managed va → translate m' c va = translate m c va.
Proof using T F D.
  intros Hv. destruct (managed_pde m c va T Hv) as [pde Hp]. pose proof (managed_pde_idx _ Hv) as Hi.
  rewrite (translate_walk _ _ _ _ Hp). rewrite (translate_walk m' c va pde).
  2:{ unfold pde_addr in *. by rewrite data_write_dir by lia. }
  destruct (present pde) eqn:Hpr; [|done].
  assert (m' !! pte_addr pde va = m !! pte_addr pde va) as ->; [|done].
  eapply (data_write_other m m' f (frame pde)); [done|apply F|apply frame_aligned, (t_words _ _ T _ _ Hp)| |apply pte_idx_range].
  by apply (ff_new _ _ _ F _ _ Hi Hp).
Qed.

Lemma data_write_fresh g : fresh_frame m c g → fresh_frame m' c g.
Proof using T F D.
  intros G. split; try apply G.
  - intros k Hk. destruct D as (_ & Hs & _). by apply Hs, G.
  - intros i pde Hi. rewrite data_write_dir by lia. by apply G.
Qed.
End DataWrite.

Lemma zero_words_write m f : (∀ b w, m !! b = Some w → 0 ≤ w < 2 ^ 32) → data_write m (zero_words 1024 f m) f.
Proof.
  intros Hw. split_and!.
  - intros b Hb. rewrite zero_words_lookup, decide_False by lia. done.
  - intros b Hb. rewrite zero_words_lookup. destruct (decide _); [by eexists|done].
  - intros b w. rewrite zero_words_lookup. destruct (decide _); [intros [= <-]; lia|apply Hw].
Qed.

Lemma vmemset_loop_app a b m c dst v :
  vmemset_loop (a + b) m c dst v = (m' ← vmemset_loop a m c dst v; vmemset_loop b m' c (dst + Z.of_nat a) v).
Proof.
  revert m dst. induction a as [|a IH]; intros m dst; simpl.
  - by rewrite Z.add_0_r.
  - destruct (vstore8 m c dst v) as [m1| | |]; simpl; [|done..]. rewrite IH.
    destruct (vmemset_loop a m1 c (dst + 1) v); simpl; [|done..]. f_equal. lia.
Qed.

(** Writing to a page that is no table leaves a mapped page mapped. *)
Lemma page_stays_mapped m c va g f :
  tables_ok m c → managed va → va mod 4096 = 0 → translate m c va = Some g → fresh_frame m c f →
  stably_mapped m c va g f 1024.
Proof.
  intros T Hv Ha Ht F m' j Hj Hm'. pose proof (ff_aligned _ _ _ F) as Hfa. pose proof (ff_range _ _ _ F) as Hfr.
  destruct (managed_pde m c va T Hv) as [pde Hp]. pose proof (managed_pde_idx _ Hv) as Hi.
  rewrite (translate_walk _ _ _ _ Hp) in Ht. destruct (present pde) eqn:Hpr; [|done].
  assert (same_page va (va + j)) as Hs by (unfold same_page; dm).
  apply same_page_idx_1 in Hs as [E1 E2].
  assert (m' !! pde_addr c (va + j) = Some pde) as Hp'.
  { unfold pde_addr. rewrite <- E1. rewrite Hm'; [done|]. pose proof (ff_dir _ _ _ F). pose proof (sm_aligned _ _ (t_self _ _ T)).
    set (k := va / 2 ^ 22) in *. dm. }
  rewrite (translate_walk _ _ _ _ Hp'), Hpr. unfold pte_addr in *. rewrite <- E2.
  rewrite Hm'.
  2:{ pose proof (ff_new _ _ _ F _ _ Hi Hp Hpr) as Hne. unfold frame in Hne.
      pose proof (frame_aligned pde (t_words _ _ T _ _ Hp)) as Hpa. unfold frame in Hpa.
      pose proof (pte_idx_range va). set (k := (va / 2 ^ 12) mod 2 ^ 10) in *. set (h := Z.land pde _) in *. dm. }
  destruct (m !! _) as [pte|] eqn:Hpte; simpl in Ht |- *; [|done].
  destruct (present pte); [|done]. injection Ht as Ht. f_equal.
  rewrite Ha in Ht. rewrite (Z.add_mod va j), Ha, Z.add_0_l, Z.mod_mod by lia. rewrite Z.mod_small by lia. lia.
Qed.

Lemma page_stably_mapped m c va f :
  tables_ok m c → managed va → va mod 4096 = 0 → translate m c va = Some f → fresh_frame m c f →
  stably_mapped m c va f f 1024.
Proof. apply page_stays_mapped. Qed.

(** Clearing [n] words of a mapped page from the offset [o] on. *)
Lemma vmemset_in_page m c va f o n :
  tables_ok m c → managed va → va mod 4096 = 0 → translate m c va = Some f → fresh_frame m c f →
  0 ≤ o → o mod 4 = 0 → o + 4 * Z.of_nat n ≤ 4096 →
  vmemset_loop (4 * n) m c (va + o) 0 = Ok (zero_words n (f + o) m).
Proof.
  intros T Hv Ha Ht F Ho Hom Hn. pose proof (page_stably_mapped _ _ _ _ T Hv Ha Ht F) as Hs.
  pose proof (ff_aligned _ _ _ F) as Hfa. pose proof (ff_range _ _ _ F) as Hfr.
  apply (vmemset_loop_words n m c (va + o) (f + o) f); [|dm|lia|lia|].
  - intros m' j Hj Hm'. rewrite <- !Z.add_assoc. apply Hs; [lia|done].
  - intros k Hk. destruct (ff_words _ _ _ F (o / 4 + k)) as [w Hw]; [dm|].
    exists w. replace (f + o + k * 4) with (f + (o / 4 + k) * 4) by dm. split; [done|]. by eapply t_words.
Qed.

(** Clearing one mapped page. *)
Lemma vmemset_page m c va f :
  tables_ok m c → managed va → va mod 4096 = 0 → translate m c va = Some f → fresh_frame m c f →
  vmemset_loop (4 * 1024) m c va 0 = Ok (zero_words 1024 f m).
Proof.
  intros T Hv Ha Ht F. pose proof (vmemset_in_page m c va f 0 1024 T Hv Ha Ht F) as Hz.
  rewrite !Z.add_0_r in Hz. apply Hz; [lia|done|lia].
Qed.

Section Memory.
Context {H : Type} `{Queues H} `{World H}.

(** [*p], [*p = v] and [memset] in the directory that is loaded. *)
Definition read_word (p : Z) : K (kst H) Z := m ← gets phys; c ← gets cr3; lift (vload m c p).
Definition write_word (p v : Z) : K (kst H) unit := c ← gets cr3; on_phys (λ m, vstore m c p v).
Definition kmemset (dst value size : Z) : K (kst H) unit :=
  c ← gets cr3; on_phys (λ m, vmemset m c dst value size).

Definition scan (b : bitmap) (cnt : Z) : K (kst H) Z := m ← gets bytes; lift (bitmap_scan m b cnt).
Definition set_bit (b : bitmap) (i v : Z) : K (kst H) unit := on_bytes (λ m, bitmap_set m b i v).

(** [while (cnt < pg_cnt) bitmap_set(b, bit_idx_start + cnt++, v)]. *)
Fixpoint set_bits (n : nat) (b : bitmap) (i v : Z) : K (kst H) unit :=
  match n with
  | O => mret tt
  | S n => set_bit b (u32 i) v ;; set_bits n b (i + 1) v
  end.

Definition vaddr_get (pf : pool_flags) (pg_cnt : Z) : K (kst H) Z :=
  match pf with
  | PF_KERNEL =>
      kv ← gets kernel_vaddr;
      bit_idx_start ← scan (vaddr_bitmap kv) pg_cnt;
      if bit_idx_start =? -1 then mret NULL else
      set_bits (Z.to_nat pg_cnt) (vaddr_bitmap kv) bit_idx_start 1 ;;
      mret (u32 (vaddr_start kv + bit_idx_start * PG_SIZE))
  | PF_USER =>
      cur ← running_thread;
      t ← task_at cur;
      let uv := user_vaddr t in
      bit_idx_start ← scan (vaddr_bitmap uv) pg_cnt;
      if bit_idx_start =? -1 then mret NULL else
      set_bits (Z.to_nat pg_cnt) (vaddr_bitmap uv) bit_idx_start 1 ;;
      let vaddr_start := u32 (vaddr_start uv + bit_idx_start * PG_SIZE) in
      kASSERT (vaddr_start <? 0xc0000000 - PG_SIZE) ;;
      mret vaddr_start
  end.

Definition pool_of (pf : pool_flags) (s : kst H) : pool :=
  match pf with PF_KERNEL => kernel_pool s | PF_USER => user_pool s end.
Definition pool_lock (pf : pool_flags) : Z :=
  match pf with PF_KERNEL => kernel_pool_lock | PF_USER => user_pool_lock end.

Definition palloc (pf : pool_flags) : K (kst H) Z :=
  mp ← gets (pool_of pf);
  bit_idx ← scan (pool_bitmap mp) 1;
  if bit_idx =? -1 then mret NULL else
  set_bit (pool_bitmap mp) bit_idx 1 ;;
  mret (u32 (bit_idx * PG_SIZE + phy_addr_start mp)).

Definition page_table_add (vaddr page_phyaddr : Z) : K (kst H) unit :=
  let pde := pde_ptr vaddr in
  let pte := pte_ptr vaddr in
  let entry := Z.lor (Z.lor (Z.lor page_phyaddr PG_US_U) PG_RW_W) PG_P_1 in
  e ← read_word pde;
  if present e then
    e ← read_word pte;
    kASSERT (negb (present e)) ;;
    e ← read_word pte;
    if negb (present e) then write_word pte entry else lift Panic
  else
    pde_phyaddr ← palloc PF_KERNEL;
    write_word pde (Z.lor (Z.lor (Z.lor pde_phyaddr PG_US_U) PG_RW_W) PG_P_1) ;;
    kmemset (Z.land pte 0xfffff000) 0 PG_SIZE ;;
    e ← read_word pte;
    kASSERT (negb (present e)) ;;
    write_word pte entry.

(** The loop of [malloc_page]; [false] when the pool has no page. *)
Fixpoint malloc_page_loop (cnt : nat) (pf : pool_flags) (vaddr : Z) : K (kst H) bool :=
  match cnt with
  | O => mret true
  | S cnt =>
      page_phyaddr ← palloc pf;
      if page_phyaddr =? NULL then mret false else
      page_table_add vaddr page_phyaddr ;;
      malloc_page_loop cnt pf (u32 (vaddr + PG_SIZE))
  end.

Definition malloc_page (pf : pool_flags) (pg_cnt : Z) : K (kst H) Z :=
  kASSERT ((0 <? pg_cnt) && (pg_cnt <? 3840)) ;;
  vaddr_start ← vaddr_get pf pg_cnt;
  if vaddr_start =? NULL then mret NULL else
  ok ← malloc_page_loop (Z.to_nat pg_cnt) pf vaddr_start;
  mret (if (ok : bool) then vaddr_start else NULL).

Definition get_pages (pf : pool_flags) (pg_cnt : Z) : K (kst H) Z :=
  lock_acquire (pool_lock pf) ;;
  vaddr ← malloc_page pf pg_cnt;
  (if negb (vaddr =? NULL) then kmemset vaddr 0 (u32 (pg_cnt * PG_SIZE)) else mret tt) ;;
  lock_release (pool_lock pf) ;;
  mret vaddr.
Definition get_kernel_pages : Z → K (kst H) Z := get_pages PF_KERNEL.
Definition get_user_pages : Z → K (kst H) Z := get_pages PF_USER.

Definition get_a_page (pf : pool_flags) (vaddr : Z) : K (kst H) Z :=
  lock_acquire (pool_lock pf) ;;
  cur ← running_thread;
  t ← task_at cur;
  (if negb (pgdir t =? NULL) && bool_decide (pf = PF_USER) then
     let bit_idx := s32 (u32 (vaddr - vaddr_start (user_vaddr t)) / PG_SIZE) in
     kASSERT (0 <=? bit_idx) ;;
     set_bit (vaddr_bitmap (user_vaddr t)) bit_idx 1
   else if (pgdir t =? NULL) && bool_decide (pf = PF_KERNEL) then
     kv ← gets kernel_vaddr;
     let bit_idx := s32 (u32 (vaddr - vaddr_start kv) / PG_SIZE) in
     kASSERT (0 <? bit_idx) ;;
     set_bit (vaddr_bitmap kv) bit_idx 1
   else lift Panic) ;;
  page_phyaddr ← palloc pf;
  if page_phyaddr =? NULL then lock_release (pool_lock pf) ;; mret NULL else
  page_table_add vaddr page_phyaddr ;;
  lock_release (pool_lock pf) ;;
  mret vaddr.

Definition get_a_page_without_opvaddrbitmap (pf : pool_flags) (vaddr : Z) : K (kst H) Z :=
  lock_acquire (pool_lock pf) ;;
  page_phyaddr ← palloc pf;
  if page_phyaddr =? NULL then lock_release (pool_lock pf) ;; mret NULL else
  page_table_add vaddr page_phyaddr ;;
  lock_release (pool_lock pf) ;;
  mret vaddr.

(** ** Giving pages back *)

Definition pfree (pg_phy_addr : Z) : K (kst H) unit :=
  up ← gets user_pool;
  if phy_addr_start up <=? pg_phy_addr then
    set_bit (pool_bitmap up) (u32 (pg_phy_addr - phy_addr_start up) / PG_SIZE) 0
  else
    kp ← gets kernel_pool;
    set_bit (pool_bitmap kp) (u32 (pg_phy_addr - phy_addr_start kp) / PG_SIZE) 0.

(** The same body under its other name. *)
Definition free_a_phy_page (pg_phy_addr : Z) : K (kst H) unit := pfree pg_phy_addr.

(** Without the flush of the translation cache, which the model does not have. *)
Definition page_table_pte_remove (vaddr : Z) : K (kst H) unit :=
  let pte := pte_ptr vaddr in
  e ← read_word pte;
  write_word pte (Z.land e (u32 (Z.lnot PG_P_1))).

Definition vaddr_remove (pf : pool_flags) (vaddr pg_cnt : Z) : K (kst H) unit :=
  match pf with
  | PF_KERNEL =>
      kv ← gets kernel_vaddr;
      set_bits (Z.to_nat pg_cnt) (vaddr_bitmap kv) (u32 (vaddr - vaddr_start kv) / PG_SIZE) 0
  | PF_USER =>
      cur ← running_thread;
      t ← task_at cur;
      let uv := user_vaddr t in
      set_bits (Z.to_nat pg_cnt) (vaddr_bitmap uv) (u32 (vaddr - vaddr_start uv) / PG_SIZE) 0
  end.

Definition v2p (vaddr : Z) : K (kst H) Z := m ← gets phys; c ← gets cr3; lift (addr_v2p m c vaddr).

(** The loops of [mfree_page], with the assertion of the pool they free to. *)
Fixpoint mfree_loop (n : nat) (vaddr : Z) (in_pool : Z → bool) : K (kst H) unit :=
  match n with
  | O => mret tt
  | S n =>
      let vaddr := u32 (vaddr + PG_SIZE) in
      pg_phy_addr ← v2p vaddr;
      kASSERT ((pg_phy_addr mod PG_SIZE =? 0) && in_pool pg_phy_addr) ;;
      pfree pg_phy_addr ;;
      page_table_pte_remove vaddr ;;
      mfree_loop n vaddr in_pool
  end.

Definition mfree_page (pf : pool_flags) (vaddr pg_cnt : Z) : K (kst H) unit :=
  kASSERT ((1 <=? pg_cnt) && (vaddr mod PG_SIZE =? 0)) ;;
  pg_phy_addr ← v2p vaddr;
  kASSERT ((pg_phy_addr mod PG_SIZE =? 0) && (0x102000 <=? pg_phy_addr)) ;;
  up ← gets user_pool;
  kp ← gets kernel_pool;
  if phy_addr_start up <=? pg_phy_addr then
    mfree_loop (Z.to_nat pg_cnt) (u32 (vaddr - PG_SIZE)) (λ a, phy_addr_start up <=? a) ;;
    vaddr_remove pf vaddr pg_cnt
  else
    mfree_loop (Z.to_nat pg_cnt) (u32 (vaddr - PG_SIZE))
      (λ a, (phy_addr_start kp <=? a) && (a <? phy_addr_start up)) ;;
    vaddr_remove pf vaddr pg_cnt.

(** ** Setting the pools up *)

Definition mem_pool_init (all_mem : Z) : K (kst H) unit :=
  let page_table_size := PG_SIZE * 256 in
  let used_mem := page_table_size + 0x100000 in
  let free_mem := u32 (all_mem - used_mem) in
  let all_free_pages := u16 (free_mem / PG_SIZE) in
  let kernel_free_pages := u16 (all_free_pages / 2) in
  let user_free_pages := u16 (all_free_pages - kernel_free_pages) in
  let kbm_length := kernel_free_pages / 8 in
  let ubm_length := user_free_pages / 8 in
  let kp_start := used_mem in
  let up_start := u32 (kp_start + kernel_free_pages * PG_SIZE) in
  let kp := Pool (Bitmap kbm_length MEM_BITMAP_BASE) kp_start (u32 (kernel_free_pages * PG_SIZE)) in
  let up := Pool (Bitmap ubm_length (u32 (MEM_BITMAP_BASE + kbm_length))) up_start
                 (u32 (user_free_pages * PG_SIZE)) in
  modify (set_kernel_pool kp) ;;
  modify (set_user_pool up) ;;
  on_bytes (λ m, bitmap_init m (pool_bitmap kp)) ;;
  on_bytes (λ m, bitmap_init m (pool_bitmap up)) ;;
  lock_init kernel_pool_lock ;;
  lock_init user_pool_lock ;;
  let kv := VirtualAddr (Bitmap kbm_length (u32 (MEM_BITMAP_BASE + kbm_length + ubm_length))) K_HEAP_START in
  modify (set_kernel_vaddr kv) ;;
  on_bytes (λ m, bitmap_init m (vaddr_bitmap kv)).

(** ** The pools and their bitmaps *)

Definition bitmaps_apart (b1 b2 : bitmap) : Prop :=
  bits b1 + btmp_bytes_len b1 ≤ bits b2 ∨ bits b2 + btmp_bytes_len b2 ≤ bits b1.

(** The three bitmaps are well formed and apart, and the pages of the kernel's
    pool are below those of the user pool. *)
Record pools_ok (s : kst H) : Prop := {
  po_pool : ∀ pf, bitmap_wf (bytes s) (pool_bitmap (pool_of pf s));
  po_heap : bitmap_wf (bytes s) (vaddr_bitmap (kernel_vaddr s));
  po_apart : bitmaps_apart (pool_bitmap (kernel_pool s)) (pool_bitmap (user_pool s));
  po_apart_heap : ∀ pf, bitmaps_apart (pool_bitmap (pool_of pf s)) (vaddr_bitmap (kernel_vaddr s));
  po_frames : ∀ pf, phy_addr_start (pool_of pf s) mod 4096 = 0 ∧ 0x102000 ≤ phy_addr_start (pool_of pf s) ∧
    phy_addr_start (pool_of pf s) + 8 * btmp_bytes_len (pool_bitmap (pool_of pf s)) * 4096 < 2 ^ 32 - 4096;
  po_order : phy_addr_start (kernel_pool s) + 8 * btmp_bytes_len (pool_bitmap (kernel_pool s)) * 4096
             ≤ phy_addr_start (user_pool s);
}.

(** The pages in use, as sets of bit numbers, and the page of a bit. *)
Definition pool_taken (pf : pool_flags) (s : kst H) : gset Z := taken (bytes s) (pool_bitmap (pool_of pf s)).
Definition heap_taken (s : kst H) : gset Z := taken (bytes s) (vaddr_bitmap (kernel_vaddr s)).
Definition pool_len (pf : pool_flags) (s : kst H) : Z := 8 * btmp_bytes_len (pool_bitmap (pool_of pf s)).
Definition page_at (pf : pool_flags) (s : kst H) (i : Z) : Z := phy_addr_start (pool_of pf s) + i * 4096.

Lemma pools_apart s pf pf' : pools_ok s → pf ≠ pf' →
  bitmaps_apart (pool_bitmap (pool_of pf s)) (pool_bitmap (pool_of pf' s)).
Proof.
  intros P Hne. pose proof (po_apart _ P) as Ha. unfold bitmaps_apart in *. destruct pf, pf'; simpl; try done; lia.
Qed.

Lemma pools_ok_ext s s' :
  bytes s' = bytes s → kernel_pool s' = kernel_pool s → user_pool s' = user_pool s →
  kernel_vaddr s' = kernel_vaddr s → pools_ok s → pools_ok s'.
Proof.
  intros Eb Ek Eu Ev [P1 P2 P3 P4 P5 P6].
  assert (∀ pf, pool_of pf s' = pool_of pf s) as Ep by (intros []; done).
  split; intros; rewrite ?Ep, ?Eb, ?Ek, ?Eu, ?Ev; auto.
Qed.

(** A change of the bytes of one bitmap leaves the one apart from it. *)
Lemma bitmap_untouched m m' b b' i :
  bitmaps_apart b b' → bitmap_wf m b → bitmap_wf m b' → 0 ≤ i < 8 * btmp_bytes_len b →
  (∀ a, a ≠ bits b + i / 8 → m' !! a = m !! a) → bitmap_wf m' b' ∧ taken m' b' = taken m b'.
Proof.
  intros Ha Hwf Hwf' Hi Hfr. apply bitmap_agree; [|done]. intros j Hj. apply Hfr.
  unfold bitmaps_apart in Ha. dm.
Qed.

(** No byte outside the three bitmaps changes. *)
Definition in_bitmap (b : bitmap) (a : Z) : Prop := bits b ≤ a < bits b + btmp_bytes_len b.
Definition in_bitmaps (s : kst H) (a : Z) : Prop :=
  (∃ pf, in_bitmap (pool_bitmap (pool_of pf s)) a) ∨ in_bitmap (vaddr_bitmap (kernel_vaddr s)) a.
Definition same_bytes (s s' : kst H) : Prop := ∀ a, ~ in_bitmaps s a → bytes s' !! a = bytes s !! a.

(** One pool's bitmap changes to [T] and all else is kept. *)
Definition pool_changed (pf : pool_flags) (s s' : kst H) (T : gset Z) : Prop :=
  pools_ok s' ∧ pool_taken pf s' = T ∧ (∀ pf', pf' ≠ pf → pool_taken pf' s' = pool_taken pf' s) ∧
  heap_taken s' = heap_taken s ∧ same_bytes s s'.

Lemma pool_changed_intro pf s b' i T :
  pools_ok s → 0 ≤ i < pool_len pf s → bitmap_wf b' (pool_bitmap (pool_of pf s)) →
  taken b' (pool_bitmap (pool_of pf s)) = T →
  (∀ a, a ≠ bits (pool_bitmap (pool_of pf s)) + i / 8 → b' !! a = bytes s !! a) →
  pool_changed pf s (set_bytes b' s) T.
Proof.
  intros P Hi Hwf HT Hfr.
  assert (∀ pf', pf' ≠ pf → bitmap_wf b' (pool_bitmap (pool_of pf' s)) ∧
    taken b' (pool_bitmap (pool_of pf' s)) = pool_taken pf' s) as Hoth.
  { intros pf' Hne. eapply (bitmap_untouched (bytes s)); [by apply (pools_apart s pf pf')|apply P|apply P|done|done]. }
  destruct (bitmap_untouched (bytes s) b' _ _ i (po_apart_heap _ P pf) (po_pool _ P pf) (po_heap _ P) Hi Hfr) as [Hh1 Hh2].
  split_and!; [|by destruct pf|intros pf' Hne; destruct (Hoth _ Hne); by destruct pf'|done|].
  2:{ intros a Ha. apply Hfr. intros ->. apply Ha. left. exists pf. unfold in_bitmap, pool_len in *. dm. }
  split; simpl; [|done|apply P|apply P|apply P|apply P].
  intros pf'. destruct (decide (pf' = pf)) as [->|Hne]; [by destruct pf|].
  destruct (Hoth _ Hne) as [Hx _]. by destruct pf'.
Qed.

Lemma palloc_ok pf s :
  pools_ok s → ~ full (bytes s) (pool_bitmap (pool_of pf s)) →
  ∃ i b', palloc pf s = Ok (page_at pf s i, set_bytes b' s) ∧ 0 ≤ i < pool_len pf s ∧
    (i ∉ pool_taken pf s) ∧ (∀ k, 0 ≤ k < i → k ∈ pool_taken pf s) ∧
    pool_changed pf s (set_bytes b' s) ({[i]} ∪ pool_taken pf s).
Proof.
  intros P Hnf. destruct (bitmap_take_one _ _ (po_pool _ P pf) Hnf) as (i & b' & Hs & Hset & Hi & Hn & Hwf & HT & Hpre & Hfr).
  exists i, b'. unfold pool_len. split_and!; try done || lia.
  - unfold palloc, scan, set_bit, on_bytes. kgo. rewrite Hs. kgo.
    rewrite (proj2 (Z.eqb_neq i (-1))) by lia. unfold mbind, K_bind. rewrite Hset. simpl.
    unfold page_at, mret, K_ret. do 2 f_equal. unfold PG_SIZE.
    destruct (po_frames _ P pf) as (_ & ? & ?). rewrite u32_small by lia. lia.
  - by eapply pool_changed_intro.
Qed.

(** ** Mapping a page *)

Lemma read_word_ok (s : kst H) p v : vload (phys s) (cr3 s) p = Ok v → read_word p s = Ok (v, s).
Proof. intros Hv. unfold read_word. kgo. by rewrite Hv. Qed.
Lemma write_word_ok (s : kst H) p v m : vstore (phys s) (cr3 s) p v = Ok m → write_word p v s = Ok (tt, set_phys m s).
Proof. intros Hv. unfold write_word, on_phys. kgo. by rewrite Hv. Qed.

Lemma managed_range va : managed va → 0 ≤ va < 2 ^ 32.
Proof. unfold managed. lia. Qed.

Lemma vload_pde m c va pde : tables_ok m c → managed va → m !! pde_addr c va = Some pde →
  vload m c (pde_ptr va) = Ok pde.
Proof.
  intros T Hv Hp. unfold vload. rewrite translate_pde_ptr by (apply T || by apply managed_range). simpl. by rewrite Hp.
Qed.
Lemma vstore_pde m c va e : tables_ok m c → managed va →
  vstore m c (pde_ptr va) e = Ok (<[pde_addr c va := u32 e]> m).
Proof.
  intros T Hv. destruct (managed_pde m c va T Hv) as [pde Hp]. unfold vstore.
  rewrite translate_pde_ptr by (apply T || by apply managed_range). simpl. by rewrite Hp.
Qed.
Lemma vload_pte m c va pde pte : tables_ok m c → managed va → m !! pde_addr c va = Some pde →
  present pde = true → m !! pte_addr pde va = Some pte → vload m c (pte_ptr va) = Ok pte.
Proof.
  intros T Hv Hp Hpr Hpte. unfold vload.
  rewrite (translate_pte_ptr _ _ _ pde) by (done || apply T || by apply managed_range). simpl. by rewrite Hpte.
Qed.
Lemma vstore_pte m c va pde e : tables_ok m c → managed va → m !! pde_addr c va = Some pde →
  present pde = true → vstore m c (pte_ptr va) e = Ok (<[pte_addr pde va := u32 e]> m).
Proof.
  intros T Hv Hp Hpr. destruct (managed_pte m c va pde T Hv Hp Hpr) as [pte Hpte]. unfold vstore.
  rewrite (translate_pte_ptr _ _ _ pde) by (done || apply T || by apply managed_range). simpl. by rewrite Hpte.
Qed.

(** The memory after the page [f] is mapped at [va]: other pages keep their
    translation. *)
Definition maps_page (m m' : pmem) (c va f : Z) : Prop :=
  tables_ok m' c ∧ ∀ va', managed va' →
    translate m' c va' = if decide (same_page va va') then Some (f + va' mod 4096) else translate m c va'.

Lemma set_pte_maps m c va pde f :
  tables_ok m c → managed va → m !! pde_addr c va = Some pde → present pde = true →
  f mod 4096 = 0 → 0 ≤ f < 2 ^ 32 - 4096 → maps_page m (<[pte_addr pde va := f + 7]> m) c va f.
Proof.
  intros T Hv Hp Hpr Hfa Hfr. destruct (frame_entry f Hfa Hfr) as [Hpf Hff]. split.
  - apply tables_ok_set_pte; try done. lia.
  - intros va' Hv'. rewrite translate_set_pte by done. by rewrite Hpf, Hff.
Qed.

(** The entry is not there before. *)
Lemma unmapped_pte m c va pde :
  tables_ok m c → managed va → m !! pde_addr c va = Some pde → present pde = true →
  translate m c va = None → ∃ pte, m !! pte_addr pde va = Some pte ∧ present pte = false.
Proof.
  intros T Hv Hp Hpr Hn. destruct (managed_pte m c va pde T Hv Hp Hpr) as [pte Hpte].
  rewrite (translate_walk _ _ _ _ Hp), Hpr, Hpte in Hn. simpl in Hn.
  exists pte. split; [done|]. by destruct (present pte).
Qed.

Lemma page_table_add_present s va f pde :
  tables_ok (phys s) (cr3 s) → managed va → phys s !! pde_addr (cr3 s) va = Some pde → present pde = true →
  translate (phys s) (cr3 s) va = None → f mod 4096 = 0 → 0 ≤ f < 2 ^ 32 - 4096 →
  page_table_add va f s = Ok (tt, set_phys (<[pte_addr pde va := f + 7]> (phys s)) s).
Proof.
  intros T Hv Hp Hpr Hn Hfa Hfr. destruct (unmapped_pte _ _ _ _ T Hv Hp Hpr Hn) as (pte & Hpte & Hnp).
  unfold page_table_add. kstep (read_word_ok s _ _ (vload_pde _ _ _ _ T Hv Hp)). rewrite Hpr.
  kstep (read_word_ok s _ _ (vload_pte _ _ _ _ _ T Hv Hp Hpr Hpte)). rewrite Hnp. cbn [negb]. kgo.
  kstep (read_word_ok s _ _ (vload_pte _ _ _ _ _ T Hv Hp Hpr Hpte)). rewrite Hnp. cbn [negb].
  rewrite entry_7 by (done || lia). rewrite (write_word_ok s _ _ _ (vstore_pte _ _ _ _ _ T Hv Hp Hpr)).
  by rewrite u32_small by lia.
Qed.

Lemma fresh_frame_set_pte m c va pde e g :
  tables_ok m c → managed va → m !! pde_addr c va = Some pde → present pde = true →
  fresh_frame m c g → fresh_frame (<[pte_addr pde va := e]> m) c g.
Proof.
  intros T Hv Hp Hpr F. split; try apply F.
  - intros k Hk. rewrite lookup_insert_is_Some'. right. by apply F.
  - intros i pde' Hi. rewrite lookup_insert_ne; [by apply F|]. eapply pte_addr_not_dir; try done. lia.
Qed.

Lemma fresh_frame_new_table m c va t g :
  tables_ok m c → managed va → fresh_frame m c t → fresh_frame m c g → g ≠ t →
  fresh_frame (new_table m c va t) c g.
Proof.
  intros T Hv Ft F Hne. destruct (frame_entry t) as [_ Hff]; [apply Ft..|]. split; try apply F.
  - intros k Hk. rewrite new_table_lookup_other.
    + rewrite lookup_insert_is_Some'. right. by apply F.
    + intros k' Hk' E. apply page_word_inj in E as [E _]; [done|apply F|apply Ft|done..].
  - intros i pde' Hi. rewrite new_table_dir by (done || apply T || lia). destruct (decide _); [|by apply F].
    intros [= <-] _. by rewrite Hff.
Qed.

(** ** The invariant of the page allocator

    A page that is free in its pool is no page table, and no managed address
    is mapped to it. *)

Definition free_page (s : kst H) (f : Z) : Prop :=
  ∃ pf i, 0 ≤ i < pool_len pf s ∧ (i ∉ pool_taken pf s) ∧ f = page_at pf s i.

Record vm_ok (s : kst H) : Prop := {
  vm_pools : pools_ok s;
  vm_tables : tables_ok (phys s) (cr3 s);
  vm_fresh : ∀ f, free_page s f → fresh_frame (phys s) (cr3 s) f;
  vm_unmapped : ∀ f va pa, free_page s f → managed va →
    translate (phys s) (cr3 s) va = Some pa → frame pa ≠ f;
}.

Lemma frame_offset f k : f mod 4096 = 0 → 0 ≤ f < 2 ^ 32 - 4096 → frame (f + k mod 4096) = f.
Proof. intros. unfold frame. rewrite land_fffff000 by dm. dm. Qed.

(** Mapping the page [f], which is not free, keeps the invariant. *)
Lemma vm_ok_maps s s' va f :
  vm_ok s → pools_ok s' → cr3 s' = cr3 s → maps_page (phys s) (phys s') (cr3 s) va f →
  (∀ g, free_page s' g → free_page s g ∧ fresh_frame (phys s') (cr3 s) g ∧ g ≠ f) →
  f mod 4096 = 0 → 0 ≤ f < 2 ^ 32 - 4096 → vm_ok s'.
Proof.
  intros V P Hc [T M] Hg Hfa Hfr. split; rewrite ?Hc; try done.
  - intros g Hf. by apply Hg.
  - intros g va' pa Hf Hv'. destruct (Hg g Hf) as (Hf' & _ & Hne). rewrite M by done.
    destruct (decide _); [|by apply (vm_unmapped _ V)].
    intros [= <-]. rewrite frame_offset by done. done.
Qed.

Lemma page_table_add_absent s va f pde :
  vm_ok s → managed va → phys s !! pde_addr (cr3 s) va = Some pde → present pde = false →
  ~ full (bytes s) (pool_bitmap (kernel_pool s)) → f mod 4096 = 0 → 0 ≤ f < 2 ^ 32 - 4096 →
  ∃ t b', let m' := <[pte_addr (page_at PF_KERNEL s t + 7) va := f + 7]> (new_table (phys s) (cr3 s) va (page_at PF_KERNEL s t)) in
    page_table_add va f s = Ok (tt, set_phys m' (set_bytes b' s)) ∧
    0 ≤ t < pool_len PF_KERNEL s ∧ (t ∉ pool_taken PF_KERNEL s) ∧
    pool_changed PF_KERNEL s (set_bytes b' s) ({[t]} ∪ pool_taken PF_KERNEL s) ∧
    fresh_frame (phys s) (cr3 s) (page_at PF_KERNEL s t) ∧
    maps_page (phys s) m' (cr3 s) va f.
Proof.
  intros V Hv Hp Hpr Hnf Hfa Hfr. pose proof (vm_tables _ V) as T.
  destruct (palloc_ok PF_KERNEL s (vm_pools _ V) Hnf) as (t & b' & Hpa & Ht & Hn & _ & Hch).
  set (ft := page_at PF_KERNEL s t) in *.
  assert (fresh_frame (phys s) (cr3 s) ft) as F by (apply (vm_fresh _ V); by exists PF_KERNEL, t).
  pose proof (ff_aligned _ _ _ F) as Hta. pose proof (ff_range _ _ _ F) as Htr.
  destruct (frame_entry ft Hta Htr) as [Hpt Hft].
  pose proof (tables_ok_new_table _ _ va _ T F Hv) as T2.
  assert (new_table (phys s) (cr3 s) va ft !! pde_addr (cr3 s) va = Some (ft + 7)) as Hpde2.
  { pose proof (managed_pde_idx _ Hv). unfold pde_addr. rewrite new_table_dir by (done || apply T || lia). by rewrite decide_True. }
  assert (new_table (phys s) (cr3 s) va ft !! pte_addr (ft + 7) va = Some 0) as Hpte2.
  { unfold pte_addr. fold (frame (ft + 7)). rewrite Hft. apply new_table_lookup_frame, pte_idx_range. }
  exists t, b'. split_and!; [|lia|lia|exact Hn|exact Hch|exact F|].
  - unfold page_table_add. kstep (read_word_ok s _ _ (vload_pde _ _ _ _ T Hv Hp)). rewrite Hpr.
    kstep Hpa. rewrite (entry_7 ft ltac:(lia) Hta), (entry_7 f ltac:(lia) Hfa).
    set (s1 := set_bytes b' s).
    kstep (write_word_ok s1 _ _ _ (vstore_pde (phys s1) (cr3 s1) va (ft + 7) T Hv)).
    rewrite u32_small by lia.
    erewrite K_step by (unfold kmemset, on_phys; kgo; simpl; rewrite (vmemset_new_table _ _ _ _ T F Hv); reflexivity).
    kgo. set (s2 := set_phys (new_table _ _ _ _) _).
    kstep (read_word_ok s2 _ _ (vload_pte (phys s2) (cr3 s2) _ _ _ T2 Hv Hpde2 Hpt Hpte2)).
    rewrite (write_word_ok s2 _ _ _ (vstore_pte (phys s2) (cr3 s2) _ _ _ T2 Hv Hpde2 Hpt)).
    by rewrite u32_small by lia.
  - destruct (set_pte_maps _ _ _ _ f T2 Hv Hpde2 Hpt Hfa Hfr) as [Tm Mm]. split; [done|].
    intros va' Hv'. rewrite Mm by done. destruct (decide _); [done|]. by eapply translate_new_table.
Qed.

(** There is a table for [va], or a page for a new one. *)
Definition table_available (s : kst H) (va : Z) : Prop :=
  (∃ pde, phys s !! pde_addr (cr3 s) va = Some pde ∧ present pde = true) ∨
  ~ full (bytes s) (pool_bitmap (kernel_pool s)).

Lemma page_table_add_ok s va f :
  vm_ok s → managed va → translate (phys s) (cr3 s) va = None →
  f mod 4096 = 0 → 0 ≤ f < 2 ^ 32 - 4096 → ~ free_page s f → table_available s va →
  ∃ m' b', let s' := set_phys m' (set_bytes b' s) in
    page_table_add va f s = Ok (tt, s') ∧ vm_ok s' ∧ maps_page (phys s) m' (cr3 s) va f ∧
    (∀ g, free_page s' g → free_page s g) ∧
    pool_taken PF_USER s' = pool_taken PF_USER s ∧ heap_taken s' = heap_taken s ∧
    ((∃ pde, phys s !! pde_addr (cr3 s) va = Some pde ∧ present pde = true ∧
        m' = <[pte_addr pde va := f + 7]> (phys s)) ∧ b' = bytes s ∨
     (∃ t, (t ∉ pool_taken PF_KERNEL s) ∧ pool_taken PF_KERNEL s' = {[t]} ∪ pool_taken PF_KERNEL s)).
Proof.
  intros V Hv Hn Hfa Hfr Hnf Hav. pose proof (vm_tables _ V) as T.
  destruct (managed_pde _ _ _ T Hv) as [pde Hp]. destruct (present pde) eqn:Hpr.
  - pose proof (page_table_add_present s va f pde T Hv Hp Hpr Hn Hfa Hfr) as Hadd.
    pose proof (set_pte_maps _ _ _ _ f T Hv Hp Hpr Hfa Hfr) as M.
    eexists _, (bytes s). assert (set_bytes (bytes s) s = s) as -> by (by destruct s).
    split_and!; [exact Hadd| |exact M|done|done|done|left; eauto].
    eapply vm_ok_maps; [done|by eapply pools_ok_ext; [..|apply V]|done|exact M| |done|done].
    intros g Hg. split_and!; [done| |intros ->; done].
    eapply fresh_frame_set_pte; try done. by apply (vm_fresh _ V).
  - destruct Hav as [(pde' & Hp' & Hpr')|Hav]; [congruence|].
    destruct (page_table_add_absent s va f pde V Hv Hp Hpr Hav Hfa Hfr) as (t & b' & Hadd & Ht & Htn & Hch & F & M).
    destruct Hch as (P' & HT & HTo & HH & _).
    eexists _, b'. assert (∀ m g, free_page (set_phys m (set_bytes b' s)) g → free_page s g ∧ g ≠ page_at PF_KERNEL s t) as Hfree.
    { intros m g (pf & i & Hi & Hin & ->). destruct (decide (pf = PF_KERNEL)) as [->|Hne].
      - change (i ∉ pool_taken PF_KERNEL (set_bytes b' s)) in Hin. rewrite HT in Hin.
        split; [exists PF_KERNEL, i; set_solver|]. unfold page_at. simpl. intros E. assert (i = t) by lia. set_solver.
      - change (i ∉ pool_taken pf (set_bytes b' s)) in Hin. rewrite HTo in Hin by done. destruct pf; [done|].
        split; [by exists PF_USER, i|]. pose proof (po_order _ (vm_pools _ V)). unfold page_at, pool_len in *. simpl in *. lia. }
    split_and!; [exact Hadd| |exact M|intros g Hg; apply (Hfree _ g Hg)|exact (HTo PF_USER ltac:(done))|exact HH|right; by exists t].
    eapply vm_ok_maps; [exact V|by eapply pools_ok_ext; [..|exact P']|done|exact M| |done|done].
    intros g Hg. destruct (Hfree _ g Hg) as [Hg' Hgt]. split_and!; [done| |intros ->; done].
    eapply (fresh_frame_set_pte _ _ _ (page_at PF_KERNEL s t + 7)).
    + apply tables_ok_new_table; done.
    + done.
    + pose proof (managed_pde_idx _ Hv). unfold pde_addr. simpl. rewrite new_table_dir by (done || apply T || lia). by rewrite decide_True.
    + apply frame_entry; apply F.
    + apply fresh_frame_new_table; try done. by apply (vm_fresh _ V).
Qed.

(** ** Pages of the kernel's heap *)

Definition heap_page (i : Z) : Z := K_HEAP_START + i * 4096.
Definition heap_len (s : kst H) : Z := 8 * btmp_bytes_len (vaddr_bitmap (kernel_vaddr s)).
Definition interval (i n : Z) : gset Z := list_to_set (seqZ i n).

Lemma elem_of_interval i n k : k ∈ interval i n ↔ i ≤ k < i + n.
Proof. unfold interval. rewrite elem_of_list_to_set, elem_of_seqZ. lia. Qed.

(** The heap's virtual pages lie in the kernel's part of the address space,
    whose tables the loader has made; a page that is not taken is not
    mapped. *)
Record heap_ok (s : kst H) : Prop := {
  ho_vm : vm_ok s;
  ho_start : vaddr_start (kernel_vaddr s) = K_HEAP_START;
  ho_len : heap_page (heap_len s) ≤ 0xffc00000;
  ho_tables : ∀ i, 0 ≤ i < heap_len s →
    ∃ pde, phys s !! pde_addr (cr3 s) (heap_page i) = Some pde ∧ present pde = true;
  ho_free : ∀ i, 0 ≤ i < heap_len s → i ∉ heap_taken s → translate (phys s) (cr3 s) (heap_page i) = None;
}.

Lemma heap_page_managed s i : heap_ok s → 0 ≤ i < heap_len s → managed (heap_page i).
Proof. intros Hh Hi. pose proof (ho_len _ Hh). unfold managed, heap_page, K_HEAP_START in *. lia. Qed.

Lemma heap_page_same i j : same_page (heap_page i) (heap_page j) ↔ i = j.
Proof. unfold same_page, heap_page, K_HEAP_START. split; [dm|by intros ->]. Qed.

Lemma heap_page_idx s i : heap_ok s → 0 ≤ i < heap_len s → 0 ≤ heap_page i / 2 ^ 22 < 1024.
Proof. intros Hh Hi. pose proof (managed_pde_idx _ (heap_page_managed s i Hh Hi)). lia. Qed.

(** Only the heap's bitmap changes. *)
Definition heap_changed (s s' : kst H) (T : gset Z) : Prop :=
  pools_ok s' ∧ heap_taken s' = T ∧ (∀ pf, pool_taken pf s' = pool_taken pf s) ∧ same_bytes s s'.

Lemma set_heap_bit s i v :
  pools_ok s → 0 ≤ i < heap_len s → v = 0 ∨ v = 1 →
  ∃ b', set_bit (vaddr_bitmap (kernel_vaddr s)) i v s = Ok (tt, set_bytes b' s) ∧
    heap_changed s (set_bytes b' s) (if v =? 0 then heap_taken s ∖ {[i]} else {[i]} ∪ heap_taken s).
Proof.
  intros P Hi Hv. set (b := vaddr_bitmap (kernel_vaddr s)) in *.
  destruct (bitmap_set_ok (bytes s) b i v (po_heap _ P) Hi Hv) as (b' & Hset & Hwf & Hb & Hoth & Hfr).
  exists b'. split; [unfold set_bit, on_bytes; by rewrite Hset|].
  assert (∀ pf, bitmap_wf b' (pool_bitmap (pool_of pf s)) ∧ taken b' (pool_bitmap (pool_of pf s)) = pool_taken pf s) as Hp.
  { intros pf. eapply (bitmap_untouched (bytes s) b' b); [|apply P|apply P|done|done].
    pose proof (po_apart_heap _ P pf). unfold bitmaps_apart in *. fold b in H2. lia. }
  split_and!.
  - split; simpl; [|done|apply P|apply P|apply P|apply P]. intros pf. destruct (Hp pf). by destruct pf.
  - apply set_eq. intros j. unfold heap_taken. simpl. fold b. rewrite elem_of_taken.
    destruct (decide (j = i)) as [->|Hne].
    + rewrite Hb. destruct Hv as [-> | ->]; simpl; set_solver.
    + rewrite Hoth by done. destruct Hv as [-> | ->]; simpl;
        rewrite ?elem_of_difference, ?elem_of_union, elem_of_taken; set_solver.
  - intros pf. destruct (Hp pf) as [_ E]. unfold pool_taken in *. by destruct pf.
  - intros a Ha. apply Hfr. intros ->. apply Ha. right. fold b. unfold in_bitmap, heap_len in *. fold b in Hi. dm.
Qed.

Lemma set_heap_bits n : ∀ s i v,
  pools_ok s → 0 ≤ i → i + Z.of_nat n ≤ heap_len s → v = 0 ∨ v = 1 →
  ∃ b', set_bits n (vaddr_bitmap (kernel_vaddr s)) i v s = Ok (tt, set_bytes b' s) ∧
    heap_changed s (set_bytes b' s)
      (if v =? 0 then heap_taken s ∖ interval i (Z.of_nat n) else interval i (Z.of_nat n) ∪ heap_taken s).
Proof.
  induction n as [|n IH]; intros s i v P Hi Hn Hv.
  - exists (bytes s). assert (set_bytes (bytes s) s = s) as -> by (by destruct s).
    split; [done|]. split_and!; [done| |done|done]. unfold interval. simpl. destruct (v =? 0); set_solver.
  - simpl. pose proof (wf_max _ _ (po_heap _ P)) as Hmax. unfold heap_len in Hn.
    rewrite u32_small by lia. destruct (set_heap_bit s i v P) as (b1 & Hs & P1 & HT1 & Hp1 & Hb1); [unfold heap_len; lia|done|].
    kstep Hs. destruct (IH (set_bytes b1 s) (i + 1) v P1) as (b' & Hs' & P' & HT' & Hp' & Hb'); [lia|unfold heap_len; simpl; lia|done|].
    exists b'. split; [etrans; [exact Hs'|by destruct s]|]. split_and!.
    + by eapply pools_ok_ext; [..|exact P'].
    + etrans; [exact HT'|]. rewrite HT1. apply set_eq. intros k.
      destruct (v =? 0); rewrite ?elem_of_difference, ?elem_of_union, ?elem_of_difference, ?elem_of_union, ?elem_of_interval, ?elem_of_singleton; naive_solver lia.
    + intros pf. etrans; [apply (Hp' pf)|]. apply Hp1.
    + intros a Ha. etrans; [by apply (Hb' a)|by apply Hb1].
Qed.

Lemma page_at_inj s pf pf' i j :
  pools_ok s → 0 ≤ i < pool_len pf s → 0 ≤ j < pool_len pf' s →
  page_at pf s i = page_at pf' s j → pf = pf' ∧ i = j.
Proof.
  intros P Hi Hj. pose proof (po_order _ P). unfold page_at, pool_len in *.
  destruct pf, pf'; simpl in *; intros E; (split; [done|lia]) || lia.
Qed.

Lemma page_at_range s pf i : pools_ok s → 0 ≤ i < pool_len pf s →
  page_at pf s i mod 4096 = 0 ∧ 0x102000 ≤ page_at pf s i < 2 ^ 32 - 4096.
Proof.
  intros P Hi. destruct (po_frames _ P pf) as (Ha & Hl & Hh). unfold page_at, pool_len in *. split; [dm|lia].
Qed.

(** The number of free pages. *)
Definition free_count (pf : pool_flags) (s : kst H) : Z := pool_len pf s - Z.of_nat (size (pool_taken pf s)).

Lemma free_count_not_full pf s : 0 < free_count pf s → ~ full (bytes s) (pool_bitmap (pool_of pf s)).
Proof.
  unfold free_count. intros Hc Hf.
  assert (interval 0 (pool_len pf s) ⊆ pool_taken pf s) as Hsub.
  { intros k Hk%elem_of_interval. apply elem_of_taken. unfold pool_len in Hk. split; [lia|]. apply Hf. lia. }
  apply subseteq_size in Hsub. unfold interval in Hsub. rewrite size_list_to_set in Hsub by apply NoDup_seqZ.
  rewrite length_seqZ in Hsub. lia.
Qed.

(** The bit of a page of the kernel's pool. *)
Definition page_no (s : kst H) (f : Z) : Z := (f - phy_addr_start (kernel_pool s)) / 4096.

Lemma page_no_page_at s j : page_no s (page_at PF_KERNEL s j) = j.
Proof. unfold page_no, page_at. simpl. replace (_ - _) with (j * 4096) by lia. by rewrite Z.div_mul. Qed.

(** A free page of the kernel's pool. *)
Definition free_kernel_page (s : kst H) (f : Z) : Prop :=
  ∃ t, 0 ≤ t < pool_len PF_KERNEL s ∧ (t ∉ pool_taken PF_KERNEL s) ∧ f = page_at PF_KERNEL s t.

Lemma free_kernel_page_free s f : free_kernel_page s f → free_page s f.
Proof. intros (t & Ht & Hn & ->). by exists PF_KERNEL, t. Qed.

(** Bytes outside the bitmaps, the words of pages that are no tables, and not
    among [fs], and those of the directory stay. *)
Definition keeps_data (s s' : kst H) (fs : list Z) : Prop :=
  same_bytes s s' ∧
  (∀ g, fresh_frame (phys s) (cr3 s) g → g ∉ fs →
    fresh_frame (phys s') (cr3 s) g ∧ ∀ k, 0 ≤ k < 1024 → phys s' !! (g + k * 4) = phys s !! (g + k * 4)) ∧
  ∀ i, 0 ≤ i < 1024 → phys s' !! (cr3 s + i * 4) = phys s !! (cr3 s + i * 4).

Lemma keeps_data_trans s m1 b1 m2 b2 fs :
  let s1 := set_phys m1 (set_bytes b1 s) in let s2 := set_phys m2 (set_bytes b2 s) in
  keeps_data s s1 fs → keeps_data s1 s2 fs → keeps_data s s2 fs.
Proof.
  intros s1 s2 (B1 & K1 & D1) (B2 & K2 & D2). split_and!.
  - intros a Ha. etrans; [exact (B2 a Ha)|exact (B1 a Ha)].
  - intros g G Hn. destruct (K1 g G Hn) as [G1 W1]. destruct (K2 g G1 Hn) as [G2 W2]. split; [exact G2|].
    intros k Hk. rewrite (W2 k Hk). exact (W1 k Hk).
  - intros i Hi. etrans; [exact (D2 i Hi)|exact (D1 i Hi)].
Qed.

Lemma set_pte_words m c va pde e g k :
  tables_ok m c → managed va → m !! pde_addr c va = Some pde → present pde = true →
  fresh_frame m c g → 0 ≤ k < 1024 → <[pte_addr pde va := e]> m !! (g + k * 4) = m !! (g + k * 4).
Proof.
  intros T Hv Hp Hpr G Hk. apply lookup_insert_ne. intros E. apply (page_word_inj (frame pde) g) in E as [E _];
    [|apply frame_aligned, (t_words _ _ T _ _ Hp)|apply G|apply pte_idx_range|done].
  by apply (ff_new _ _ _ G _ _ (managed_pde_idx _ Hv) Hp Hpr).
Qed.

(** The word at [a] is the entry of heap page [k] in its page table. *)
Definition heap_pte (s : kst H) (k a : Z) : Prop :=
  ∃ pde, phys s !! pde_addr (cr3 s) (heap_page k) = Some pde ∧ a = pte_addr pde (heap_page k).
(** No word of memory changes but the entries of [n] heap pages from [i] on,
    and the words of the pages [fs]. *)
Definition writes_only (s s' : kst H) (i n : Z) (fs : list Z) : Prop :=
  ∀ a, (∀ k, i ≤ k < i + n → ~ heap_pte s k a) → (∀ f, f ∈ fs → a < f ∨ f + 4096 ≤ a) → phys s' !! a = phys s !! a.

(** Taking one page from the kernel's pool and mapping it at an unmapped heap
    page. *)
Lemma map_heap_page s i :
  heap_ok s → 0 ≤ i < heap_len s → i ∈ heap_taken s → translate (phys s) (cr3 s) (heap_page i) = None →
  0 < free_count PF_KERNEL s →
  ∃ f b' m', let s' := set_phys m' (set_bytes b' s) in
    palloc PF_KERNEL s = Ok (f, set_bytes b' s) ∧ f ≠ NULL ∧
    page_table_add (heap_page i) f (set_bytes b' s) = Ok (tt, s') ∧ heap_ok s' ∧
    maps_page (phys s) m' (cr3 s) (heap_page i) f ∧ free_kernel_page s f ∧
    pool_taken PF_KERNEL s' = {[page_no s f]} ∪ pool_taken PF_KERNEL s ∧
    (∀ g, free_page s' g → free_page s g ∧ g ≠ f) ∧ keeps_data s s' [] ∧
    heap_taken s' = heap_taken s ∧ pool_taken PF_USER s' = pool_taken PF_USER s ∧
    free_count PF_KERNEL s' = free_count PF_KERNEL s - 1 ∧ writes_only s s' i 1 [].
Proof.
  intros Hh Hi Hit Hn Hc. pose proof (ho_vm _ Hh) as V. pose proof (vm_pools _ V) as P. pose proof (vm_tables _ V) as T.
  destruct (palloc_ok PF_KERNEL s P (free_count_not_full _ _ Hc)) as (t & b' & Hpa & Ht & Htn & _ & P' & HT & HTo & HH & Hsb).
  set (f := page_at PF_KERNEL s t) in *. destruct (page_at_range s PF_KERNEL t P Ht) as [Hfa Hfr]. fold f in Hfa, Hfr.
  pose proof (heap_page_managed s i Hh Hi) as Hv. destruct (ho_tables _ Hh i Hi) as (pde & Hp & Hpr).
  set (m' := <[pte_addr pde (heap_page i) := f + 7]> (phys s)).
  pose proof (set_pte_maps _ _ _ _ f T Hv Hp Hpr Hfa ltac:(lia)) as M. fold m' in M.
  assert (∀ m g, free_page (set_phys m (set_bytes b' s)) g → free_page s g ∧ g ≠ f) as Hfree.
  { intros m g (pf & j & Hj & Hjn & ->).
    change (j ∉ pool_taken pf (set_bytes b' s)) in Hjn.
    assert (page_at pf (set_phys m (set_bytes b' s)) j = page_at pf s j) as -> by (by destruct pf).
    assert (0 ≤ j < pool_len pf s) as Hj' by (by destruct pf). destruct (decide (pf = PF_KERNEL)) as [->|Hne].
    - rewrite HT in Hjn. split; [exists PF_KERNEL, j; set_solver|]. unfold f, page_at. intros E.
      assert (j = t) by lia. set_solver.
    - rewrite HTo in Hjn by done. split; [by exists pf, j|]. intros E. by apply page_at_inj in E as [? _]. }
  exists f, b', m'. split_and!; [exact Hpa|unfold NULL; lia| | |exact M|by exists t|unfold f; rewrite page_no_page_at; exact HT|apply Hfree| |exact HH|exact (HTo PF_USER ltac:(done))| | ].
  - exact (page_table_add_present (set_bytes b' s) _ _ pde T Hv Hp Hpr Hn Hfa ltac:(lia)).
  - split; simpl; try apply Hh.
    + eapply vm_ok_maps; [exact V|by eapply pools_ok_ext; [..|exact P']|done|exact M| |exact Hfa|lia].
      intros g Hg. destruct (Hfree _ g Hg) as [Hg' Hgf]. split_and!; [done| |done].
      apply fresh_frame_set_pte; try done. by apply (vm_fresh _ V).
    + intros k Hk. unfold m'. rewrite lookup_insert_ne; [by apply Hh|]. eapply pte_addr_not_dir; try done. by eapply heap_page_idx.
    + intros j Hj Hjn. assert (j ∉ heap_taken s) as Hjn' by (rewrite <- HH; done).
      destruct M as [_ M]. rewrite M by (by apply (heap_page_managed s)).
      rewrite decide_False by (rewrite heap_page_same; set_solver). by apply (ho_free _ Hh).
  - split; [exact Hsb|]. split; [intros g G _; split; [by eapply fresh_frame_set_pte|intros k Hk; by eapply set_pte_words]|].
    intros k Hk. unfold m'. simpl. apply lookup_insert_ne. eapply pte_addr_not_dir; try done.
  - unfold free_count. change (pool_taken PF_KERNEL (set_phys m' (set_bytes b' s))) with (pool_taken PF_KERNEL (set_bytes b' s)).
    rewrite HT, size_union, size_singleton by set_solver. change (pool_len PF_KERNEL (set_phys m' (set_bytes b' s))) with (pool_len PF_KERNEL s). lia.
  - intros a Ha _. simpl. unfold m'. apply lookup_insert_ne. intros <-. apply (Ha i); [lia|]. by exists pde.
Qed.

(** The pages [fs] are cleared, in place: no translation changes. *)
Definition cleared (m m' : pmem) (c : Z) (fs : list Z) : Prop :=
  tables_ok m' c ∧ (∀ va, managed va → translate m' c va = translate m c va) ∧
  (∀ g, fresh_frame m c g → fresh_frame m' c g) ∧
  (∀ i, 0 ≤ i < 1024 → m' !! (c + i * 4) = m !! (c + i * 4)) ∧
  (∀ f k, f ∈ fs → 0 ≤ k < 1024 → m' !! (f + k * 4) = Some 0) ∧
  (∀ b, (∀ f, f ∈ fs → b < f ∨ f + 4096 ≤ b) → m' !! b = m !! b) ∧
  (∀ b, m !! b = Some 0 → m' !! b = Some 0).

Lemma clear_pages fs : ∀ m c i,
  tables_ok m c → (∀ k f, fs !! k = Some f → managed (heap_page (i + Z.of_nat k)) ∧
    translate m c (heap_page (i + Z.of_nat k)) = Some f ∧ fresh_frame m c f) →
  ∃ m', vmemset_loop (length fs * (4 * 1024)) m c (heap_page i) 0 = Ok m' ∧ cleared m m' c fs.
Proof.
  induction fs as [|f fs IH]; intros m c i T Hfs.
  - exists m. split; [done|]. split_and!; try done. intros f k Hf. by apply elem_of_nil in Hf.
  - destruct (Hfs 0%nat f eq_refl) as (Hv & Ht & F). rewrite Z.add_0_r in Hv, Ht.
    assert (heap_page i mod 4096 = 0) as Ha by (unfold heap_page, K_HEAP_START; dm).
    pose proof (zero_words_write m f (t_words _ _ T)) as D. pose proof (zero_words_lookup 1024 f m) as Hz1.
    pose proof (vmemset_page m c _ f T Hv Ha Ht F) as Hpage.
    set (m1 := zero_words 1024 f m) in *. clearbody m1.
    destruct (IH m1 c (i + 1)) as (m' & Hm' & T' & Htr & Hfr & Hdir & Hz & Ho & H0').
    { by eapply data_write_tables. }
    { intros k g Hk. destruct (Hfs (S k) g Hk) as (Hv' & Ht' & G).
      replace (i + Z.of_nat (S k)) with (i + 1 + Z.of_nat k) in * by lia. split_and!; [done| |].
      - by rewrite (data_write_translate m m1 c f).
      - by eapply (data_write_fresh m m1 c f). }
    exists m'. split.
    { change (length (f :: fs) * (4 * 1024))%nat with (4 * 1024 + length fs * (4 * 1024))%nat.
      rewrite vmemset_loop_app, Hpage. cbn [mbind outcome_bind].
      replace (heap_page i + Z.of_nat (4 * 1024)) with (heap_page (i + 1)) by (unfold heap_page; lia). exact Hm'. }
    split_and!; [done| | | | | |].
    + intros va Hva. by rewrite Htr, (data_write_translate m m1 c f).
    + intros g G. apply Hfr. by eapply (data_write_fresh m m1 c f).
    + intros j Hj. by rewrite Hdir, (data_write_dir m m1 c f).
    + intros g k [->|Hg]%elem_of_cons Hk; [|by apply Hz]. apply H0'. rewrite Hz1, decide_True; [done|]. dm.
    + intros b Hb. rewrite Ho; [apply D, Hb; left|]. intros g Hg. apply Hb. by right.
    + intros b Hb. apply H0'. rewrite Hz1. by destruct (decide _).
Qed.

(** [n] pages of the pool, [fs], have been mapped from heap page [i] on. *)
Record allocated (s s' : kst H) (i : Z) (fs : list Z) : Prop := {
  al_ok : heap_ok s';
  al_new : ∀ f, f ∈ fs → free_kernel_page s f;
  al_pool : pool_taken PF_KERNEL s' = list_to_set (page_no s <$> fs) ∪ pool_taken PF_KERNEL s;
  al_nodup : NoDup fs;
  al_gone : ∀ g, free_page s' g → free_page s g ∧ g ∉ fs;
  al_map : ∀ k f, fs !! k = Some f → translate (phys s') (cr3 s) (heap_page (i + Z.of_nat k)) = Some f;
  al_other : ∀ va, managed va →
    (∀ k, i ≤ k < i + Z.of_nat (length fs) → ~ same_page (heap_page k) va) →
    translate (phys s') (cr3 s) va = translate (phys s) (cr3 s) va;
  al_user : pool_taken PF_USER s' = pool_taken PF_USER s;
}.

Lemma malloc_page_loop_ok n : ∀ s i,
  heap_ok s → 0 ≤ i → i + Z.of_nat n ≤ heap_len s → interval i (Z.of_nat n) ⊆ heap_taken s →
  (∀ k, i ≤ k < i + Z.of_nat n → translate (phys s) (cr3 s) (heap_page k) = None) →
  Z.of_nat n ≤ free_count PF_KERNEL s →
  ∃ fs m' b', let s' := set_phys m' (set_bytes b' s) in length fs = n ∧
    malloc_page_loop n PF_KERNEL (heap_page i) s = Ok (true, s') ∧ allocated s s' i fs ∧
    heap_taken s' = heap_taken s ∧ free_count PF_KERNEL s' = free_count PF_KERNEL s - Z.of_nat n ∧ keeps_data s s' [] ∧
    writes_only s s' i (Z.of_nat n) [].
Proof.
  induction n as [|n IH]; intros s i Hh Hi Hlen Hsub Hun Hc.
  - exists [], (phys s), (bytes s). assert (set_phys (phys s) (set_bytes (bytes s) s) = s) as -> by (by destruct s).
    split_and!; try done || lia. split; try done; [intros f Hf; by apply elem_of_nil in Hf|simpl; set_solver|apply NoDup_nil_2|].
    intros g Hg. split; [done|]. intros Hx. by apply elem_of_nil in Hx.
  - destruct (map_heap_page s i) as (f & b1 & m1 & Hpa & Hfn & Hadd & Hh1 & [T1 M1] & Hff & Hpt1 & Hg1 & Hfr1 & HH1 & HU1 & Hc1 & Hw1);
      [done|lia|apply Hsub, elem_of_interval; lia|apply Hun; lia|lia|].
    set (s1 := set_phys m1 (set_bytes b1 s)) in *.
    destruct (IH s1 (i + 1)) as (fs & m' & b' & Hl & Hloop & A & HH & Hc' & Hfr & Hw); [done|lia|change (heap_len s1) with (heap_len s); lia| | |lia|].
    { rewrite HH1. intros k Hk. apply Hsub. rewrite elem_of_interval in *. lia. }
    { intros k Hk. simpl. rewrite M1 by (apply (heap_page_managed s); [done|lia]).
      rewrite decide_False by (rewrite heap_page_same; lia). apply Hun. lia. }
    exists (f :: fs), m', b'. split_and!; [simpl; lia| | |by rewrite <- HH1|etrans; [exact Hc'|rewrite Hc1; lia]|exact (keeps_data_trans s m1 b1 m' b' [] Hfr1 Hfr)|].
    + simpl. kstep Hpa. rewrite (proj2 (Z.eqb_neq f NULL)) by done. kstep Hadd.
      replace (u32 (heap_page i + PG_SIZE)) with (heap_page (i + 1)).
      2:{ pose proof (ho_len _ Hh). unfold heap_page, PG_SIZE, K_HEAP_START in *. rewrite u32_small; lia. }
      exact Hloop.
    + destruct A as [A1 A2 Ap A3 A4 A5 A6 A7].
      assert (∀ g, free_kernel_page s1 g → free_kernel_page s g ∧ g ≠ f) as Hk1.
      { intros g Hg. destruct (Hg1 g (free_kernel_page_free _ _ Hg)) as [_ Hne]. split; [|done].
        destruct Hg as (t & Ht & Htn & ->). exists t. split; [exact Ht|split; [|done]]. rewrite Hpt1 in Htn. set_solver. }
      split.
      * exact A1.
      * intros g [->|Hg]%elem_of_cons; [done|]. by apply Hk1, A2.
      * etrans; [exact Ap|]. rewrite Hpt1. change (page_no s1) with (page_no s). simpl. set_solver.
      * apply NoDup_cons. split; [|done]. intros Hin%A2. by apply Hk1 in Hin as [_ ?].
      * intros g Hg. apply A4 in Hg as [Hg Hn]. apply Hg1 in Hg as [Hg Hne]. split; [done|].
        apply not_elem_of_cons. done.
      * intros [|k] g Hk; simpl in Hk.
        -- injection Hk as ->. rewrite Z.add_0_r. etrans; [apply (A6 (heap_page i))|].
           ++ apply (heap_page_managed s); [done|lia].
           ++ intros k Hk. rewrite heap_page_same. lia.
           ++ simpl. rewrite M1, decide_True by (done || (apply (heap_page_managed s); [done|lia])).
              f_equal. unfold heap_page, K_HEAP_START. dm.
        -- replace (i + Z.of_nat (S k)) with (i + 1 + Z.of_nat k) by lia. by apply A5.
      * intros va Hva Hno. etrans; [apply (A6 va Hva)|].
        -- intros k Hk. apply Hno. simpl. lia.
        -- simpl. rewrite M1 by done. rewrite decide_False; [done|]. apply Hno. simpl. lia.
      * etrans; [apply A7|done].
    + intros a Ha _. etrans; [apply Hw|apply Hw1]; try (by intros g Hg%elem_of_nil).
      * intros k Hk (pde & Hp & E). apply (Ha k); [lia|]. exists pde. split; [|exact E].
        rewrite <- Hp. symmetry. apply (proj2 (proj2 Hfr1)).
        destruct (managed_pde_idx (heap_page k)); [apply (heap_page_managed s); [done|lia]|lia].
      * intros k Hk. apply Ha. lia.
Qed.

(** There are [n] free heap pages in a row. *)
Definition heap_room (s : kst H) (n : Z) : Prop :=
  ∃ i, 0 ≤ i ∧ i + n ≤ heap_len s ∧ ∀ k, i ≤ k < i + n → k ∉ heap_taken s.

Lemma heap_scan_ok s n :
  pools_ok s → slack (bytes s) (vaddr_bitmap (kernel_vaddr s)) → 0 < n → heap_room s n →
  ∃ r, bitmap_scan (bytes s) (vaddr_bitmap (kernel_vaddr s)) n = Ok r ∧ 0 ≤ r ∧ r + n ≤ heap_len s ∧
       ∀ k, r ≤ k < r + n → k ∉ heap_taken s.
Proof.
  intros P Hsl Hn (i & Hi & Hin & Hfree). pose proof (po_heap _ P) as Hwf.
  unfold heap_taken, heap_len in *. set (b := vaddr_bitmap (kernel_vaddr s)) in *.
  assert (∀ k, i ≤ k < i + n → bit (bytes s) b k = false) as Hrun.
  { intros k Hk. specialize (Hfree k Hk). rewrite elem_of_taken in Hfree. apply not_true_is_false. intros E.
    apply Hfree. split; [lia|done]. }
  assert (~ full (bytes s) b) as Hnf.
  { intros Hf. specialize (Hf i ltac:(lia)). rewrite Hrun in Hf by lia. done. }
  assert (∀ k, bit (bytes s) b k = false → k ∉ taken (bytes s) b) as Hnt.
  { intros k Hk. rewrite elem_of_taken. rewrite Hk. naive_solver. }
  destruct (decide (n = 1)) as [->|Hne].
  - destruct (bitmap_scan_one _ _ Hwf Hnf) as (r & Hs & Hr & Hb & Hpre). exists r.
    split_and!; [done|lia|lia|]. intros k Hk. replace k with r by lia. by apply Hnt.
  - destruct (bitmap_scan_many _ _ n Hwf Hsl Hnf) as (r & Hs & Hfr); [lia|].
    exists r. destruct Hfr as [[-> Hno]|(Hr & Hlim & Hrf & Hmin)].
    + exfalso. by apply (Hno i); [lia|lia|].
    + assert (r ≤ i) as Hle.
      { destruct (decide (r ≤ i)); [done|]. exfalso. by apply (Hmin i); [lia|]. }
      split_and!; [done|lia|lia|]. intros k Hk. by apply Hnt, Hrf.
Qed.

Lemma vaddr_get_kernel s n :
  heap_ok s → slack (bytes s) (vaddr_bitmap (kernel_vaddr s)) → 0 < n → heap_room s n →
  ∃ r b', vaddr_get PF_KERNEL n s = Ok (heap_page r, set_bytes b' s) ∧ 0 ≤ r ∧ r + n ≤ heap_len s ∧
    (∀ k, r ≤ k < r + n → k ∉ heap_taken s) ∧ heap_changed s (set_bytes b' s) (interval r n ∪ heap_taken s).
Proof.
  intros Hh Hsl Hn Hroom. pose proof (vm_pools _ (ho_vm _ Hh)) as P.
  destruct (heap_scan_ok s n P Hsl Hn Hroom) as (r & Hs & Hr & Hrn & Hfree).
  destruct (set_heap_bits (Z.to_nat n) s r 1 P Hr) as (b' & Hset & Hch); [lia|by right|].
  rewrite Z2Nat.id in Hch by lia. exists r, b'. split_and!; try done.
  unfold vaddr_get, scan. kgo. rewrite Hs. kgo. rewrite (proj2 (Z.eqb_neq r (-1))) by lia. kstep Hset.
  unfold mret, K_ret. do 2 f_equal. rewrite (ho_start _ Hh). pose proof (ho_len _ Hh).
  unfold heap_page, K_HEAP_START, PG_SIZE in *. rewrite u32_small; lia.
Qed.

Lemma malloc_page_kernel s n :
  heap_ok s → slack (bytes s) (vaddr_bitmap (kernel_vaddr s)) → 0 < n < 3840 → heap_room s n →
  n ≤ free_count PF_KERNEL s →
  ∃ r fs m' b', let s' := set_phys m' (set_bytes b' s) in Z.of_nat (length fs) = n ∧
    malloc_page PF_KERNEL n s = Ok (heap_page r, s') ∧ 0 ≤ r ∧ r + n ≤ heap_len s ∧
    (∀ k, r ≤ k < r + n → k ∉ heap_taken s) ∧ heap_taken s' = interval r n ∪ heap_taken s ∧
    allocated s s' r fs ∧ free_count PF_KERNEL s' = free_count PF_KERNEL s - n ∧ keeps_data s s' [] ∧
    writes_only s s' r n [].
Proof.
  intros Hh Hsl Hn Hroom Hc.
  destruct (vaddr_get_kernel s n Hh Hsl) as (r & b1 & Hvg & Hr & Hrn & Hfree & P1 & HT1 & Hp1 & Hsb); [lia|done|].
  set (s1 := set_bytes b1 s) in *. destruct Hh as [V Hst Hlen Htab Hhf].
  assert (∀ g, free_page s1 g ↔ free_page s g) as Hfp.
  { intros g. unfold free_page. split; intros (pf & i & Hi & Hin & ->); exists pf, i;
      (split; [exact Hi|split; [|reflexivity]]); [by rewrite <- Hp1|by rewrite Hp1]. }
  assert (heap_ok s1) as Hh1.
  { split; try done.
    - split; [done|apply V| |].
      + intros f Hf. by apply (vm_fresh _ V), Hfp.
      + intros f va pa Hf. by apply (vm_unmapped _ V), Hfp.
    - intros i Hi Hin. rewrite HT1 in Hin. apply Hhf; [done|set_solver]. }
  destruct (malloc_page_loop_ok (Z.to_nat n) s1 r) as (fs & m' & b' & Hl & Hloop & A & HH & Hc' & Hfr & Hw);
    [done|done|change (heap_len s1) with (heap_len s); lia|rewrite HT1, Z2Nat.id by lia; set_solver| | |].
  { intros k Hk. apply Hhf; [lia|]. apply Hfree. lia. }
  { unfold free_count. rewrite Hp1. change (pool_len PF_KERNEL s1) with (pool_len PF_KERNEL s). unfold free_count in Hc. lia. }
  exists r, fs, m', b'. split_and!; [lia| |done|done|done|by rewrite <- HT1| | | |].
  - unfold malloc_page. rewrite (proj2 (Z.ltb_lt 0 n)), (proj2 (Z.ltb_lt n 3840)) by lia. kgo. kstep Hvg.
    rewrite (proj2 (Z.eqb_neq (heap_page r) NULL)) by (unfold heap_page, K_HEAP_START, NULL; lia).
    kstep Hloop. done.
  - destruct A as [A1 A2 Ap A3 A4 A5 A6 A7]. split; try done.
    + intros f Hf. destruct (A2 f Hf) as (t & Ht & Htn & ->). exists t. rewrite Hp1 in Htn. done.
    + etrans; [exact Ap|]. by rewrite Hp1.
    + intros g Hg. destruct (A4 g Hg). split; [by apply Hfp|done].
    + etrans; [exact A7|apply Hp1].
  - etrans; [exact Hc'|]. unfold free_count. rewrite Hp1. change (pool_len PF_KERNEL s1) with (pool_len PF_KERNEL s). lia.
  - destruct Hfr as [Hsb' Hfr]. split; [|exact Hfr]. intros a Ha. etrans; [exact (Hsb' a Ha)|exact (Hsb a Ha)].
  - rewrite Z2Nat.id in Hw by lia. exact Hw.
Qed.

(** The invariants read these parts of the state only. *)
Definition same_memory (s s' : kst H) : Prop :=
  bytes s' = bytes s ∧ phys s' = phys s ∧ cr3 s' = cr3 s ∧ kernel_pool s' = kernel_pool s ∧
  user_pool s' = user_pool s ∧ kernel_vaddr s' = kernel_vaddr s.

Lemma same_memory_views s s' : same_memory s s' →
  (∀ pf, pool_taken pf s' = pool_taken pf s) ∧ heap_taken s' = heap_taken s ∧
  (∀ pf, free_count pf s' = free_count pf s) ∧ (∀ f, free_page s' f ↔ free_page s f) ∧
  heap_len s' = heap_len s.
Proof.
  intros (Eb & _ & _ & Ek & Eu & Ev).
  assert (∀ pf, pool_of pf s' = pool_of pf s) as Ep by (intros []; done).
  unfold pool_taken, heap_taken, free_count, free_page, pool_taken, pool_len, page_at, heap_len.
  split_and!; intros; rewrite ?Eb, ?Ev, ?Ep; try done.
  split; intros (pf & i & Hi & Hn & ->); exists pf, i; revert Hi Hn; rewrite ?Ep, ?Eb; auto.
Qed.

Lemma heap_ok_same s s' : same_memory s s' → heap_ok s → heap_ok s'.
Proof.
  intros E Hh. destruct (same_memory_views s s' E) as (_ & ET & _ & EF & EL).
  destruct E as (Eb & Em & Ec & Ek & Eu & Ev). destruct Hh as [[P T Hf Hu] Hst Hlen Htab Hfree]. split.
  - split; rewrite ?Em, ?Ec; [by eapply pools_ok_ext|done| |].
    + intros f ?%EF. by apply Hf.
    + intros f va pa ?%EF. by apply Hu.
  - by rewrite Ev.
  - by rewrite EL.
  - by rewrite EL, Em, Ec.
  - rewrite EL, ET, Em, Ec. done.
Qed.

(** Clearing pages that are not free keeps the heap's invariant. *)
Lemma heap_ok_cleared s m' fs : heap_ok s → cleared (phys s) m' (cr3 s) fs → heap_ok (set_phys m' s).
Proof.
  intros [[P T Hf Hu] Hst Hlen Htab Hfree] (T' & Htr & Hfr & Hdir & _).
  split; [split|..]; simpl; try done.
  - by eapply pools_ok_ext; [..|exact P].
  - intros f Hf'. by apply Hfr, Hf.
  - intros f va pa Hf' Hv. rewrite Htr by done. by apply Hu.
  - intros i Hi. unfold pde_addr. rewrite Hdir; [by apply Htab|].
    unfold heap_len, heap_page, K_HEAP_START in *. simpl in *. change (2 ^ 22) with 4194304. dm.
  - intros i Hi Hn. rewrite Htr; [by apply Hfree|].
    unfold managed, heap_page, K_HEAP_START, heap_len in *. simpl in *. lia.
Qed.

(** ** Giving pages back *)

Lemma clear_present e : 0 ≤ e < 2 ^ 32 →
  present (Z.land e (u32 (Z.lnot PG_P_1))) = false ∧ 0 ≤ Z.land e (u32 (Z.lnot PG_P_1)) < 2 ^ 32.
Proof.
  intros He. change (u32 (Z.lnot PG_P_1)) with (Z.shiftl (Z.ones 31) 1). rewrite land_mask by lia.
  change (2 ^ 1) with 2. change (2 ^ 31) with 2147483648. split; [|dm].
  unfold present. rewrite land_1. apply negb_false_iff, Z.eqb_eq. dm.
Qed.

(** The pages [fs] of the kernel's pool are mapped from heap page [i] on, and
    nowhere else. *)
Definition owned (s : kst H) (i : Z) (fs : list Z) : Prop :=
  ∀ k f, fs !! k = Some f →
    translate (phys s) (cr3 s) (heap_page (i + Z.of_nat k)) = Some f ∧
    (∃ j, j ∈ pool_taken PF_KERNEL s ∧ f = page_at PF_KERNEL s j) ∧ fresh_frame (phys s) (cr3 s) f ∧
    ∀ va pa, managed va → translate (phys s) (cr3 s) va = Some pa → frame pa = f →
      same_page (heap_page (i + Z.of_nat k)) va.

Lemma pfree_kernel s j :
  pools_ok s → j ∈ pool_taken PF_KERNEL s →
  ∃ b', pfree (page_at PF_KERNEL s j) s = Ok (tt, set_bytes b' s) ∧
    pool_changed PF_KERNEL s (set_bytes b' s) (pool_taken PF_KERNEL s ∖ {[j]}).
Proof.
  intros P Hj. assert (0 ≤ j < pool_len PF_KERNEL s) as Hjr by (by apply elem_of_taken in Hj as [? _]).
  destruct (bitmap_set_ok _ _ j 0 (po_pool _ P PF_KERNEL) Hjr) as (b' & Hset & _); [by left|].
  destruct (taken_clear _ _ _ _ (po_pool _ P PF_KERNEL) Hjr Hset) as (Hwf & HT & Hfr).
  exists b'. split; [|by eapply pool_changed_intro].
  pose proof (po_order _ P). destruct (po_frames _ P PF_KERNEL) as (_ & ? & ?). unfold pfree. kgo.
  unfold page_at, pool_len in *. simpl in *.
  rewrite (proj2 (Z.leb_gt _ _)) by lia. kgo. unfold set_bit, on_bytes.
  replace (u32 (_ - _) / PG_SIZE) with j; [by rewrite Hset|].
  rewrite u32_small by lia. unfold PG_SIZE. replace (_ - _) with (j * 4096) by lia. by rewrite Z.div_mul.
Qed.

Lemma v2p_ok s va pa : tables_ok (phys s) (cr3 s) → managed va →
  translate (phys s) (cr3 s) va = Some pa → v2p va s = Ok (pa, s).
Proof.
  intros T Hv Ht. unfold v2p. kgo. destruct (managed_pde _ _ _ T Hv) as [pde Hp].
  rewrite (translate_walk _ _ _ _ Hp) in Ht. destruct (present pde) eqn:Hpr; [|done].
  destruct (phys s !! pte_addr pde va) as [pte|] eqn:Hpte; simpl in Ht; [|done].
  destruct (present pte); [|done]. injection Ht as <-.
  unfold addr_v2p. rewrite (vload_pte _ _ _ _ _ T Hv Hp Hpr Hpte). unfold lift. simpl.
  rewrite land_00000fff. fold (frame pte). pose proof (t_words _ _ T _ _ Hpte).
  rewrite u32_small; [done|]. unfold frame. rewrite land_fffff000 by done. dm.
Qed.

(** Unmapping a heap page and freeing its page of the pool. *)
Lemma unmap_heap_page s i f j :
  heap_ok s → 0 ≤ i < heap_len s → i ∈ heap_taken s → owned s i [f] →
  j ∈ pool_taken PF_KERNEL s → f = page_at PF_KERNEL s j →
  ∃ m' b', let s' := set_phys m' (set_bytes b' s) in
    pfree f s = Ok (tt, set_bytes b' s) ∧ page_table_pte_remove (heap_page i) (set_bytes b' s) = Ok (tt, s') ∧
    heap_ok s' ∧ pool_changed PF_KERNEL s s' (pool_taken PF_KERNEL s ∖ {[j]}) ∧
    (∀ va, managed va → translate m' (cr3 s) va =
       if decide (same_page (heap_page i) va) then None else translate (phys s) (cr3 s) va) ∧
    (∀ g, fresh_frame (phys s) (cr3 s) g → fresh_frame m' (cr3 s) g).
Proof.
  intros Hh Hi Hit Hown Hj ->. destruct (Hown 0%nat _ eq_refl) as (Htr & _ & F & Huniq). rewrite Z.add_0_r in *.
  pose proof (ho_vm _ Hh) as V. pose proof (vm_tables _ V) as T. pose proof (vm_pools _ V) as P.
  pose proof (heap_page_managed s i Hh Hi) as Hv. destruct (ho_tables _ Hh i Hi) as (pde & Hp & Hpr).
  destruct (managed_pte _ _ _ _ T Hv Hp Hpr) as [pte Hpte]. pose proof (t_words _ _ T _ _ Hpte) as Hpr'.
  destruct (clear_present pte Hpr') as [Hcp Hcr]. set (e := Z.land pte _) in *.
  destruct (pfree_kernel s j P Hj) as (b' & Hpf & Hch).
  set (m' := <[pte_addr pde (heap_page i) := e]> (phys s)).
  assert (∀ va, managed va → translate m' (cr3 s) va =
    if decide (same_page (heap_page i) va) then None else translate (phys s) (cr3 s) va) as Htr'.
  { intros va Hva. unfold m'. rewrite translate_set_pte by done. by rewrite Hcp. }
  assert (∀ g, fresh_frame (phys s) (cr3 s) g → fresh_frame m' (cr3 s) g) as Hfr'.
  { intros g G. by eapply fresh_frame_set_pte. }
  pose proof Hch as (P' & HT' & HTo & HH' & HB').
  exists m', b'. split_and!; [exact Hpf| | |split_and!; [by eapply pools_ok_ext; [..|exact P']|exact HT'|exact HTo|exact HH'|exact HB']|done|done].
  - unfold page_table_pte_remove. kstep (read_word_ok (set_bytes b' s) _ _ (vload_pte _ _ _ _ _ T Hv Hp Hpr Hpte)).
    rewrite (write_word_ok (set_bytes b' s) _ _ _ (vstore_pte _ _ _ _ _ T Hv Hp Hpr)). fold e. by rewrite u32_small.
  - assert (∀ g, free_page (set_phys m' (set_bytes b' s)) g → free_page s g ∨ g = page_at PF_KERNEL s j) as Hfree.
    { intros g (pf & k & Hk & Hkn & ->). change (k ∉ pool_taken pf (set_bytes b' s)) in Hkn.
      destruct (decide (pf = PF_KERNEL)) as [->|Hne].
      - rewrite HT' in Hkn. destruct (decide (k = j)) as [->|Hkj]; [by right|]. left. exists PF_KERNEL, k. set_solver.
      - rewrite HTo in Hkn by done. left. by exists pf, k. }
    split; simpl; try apply Hh.
    + split; simpl.
      * by eapply pools_ok_ext; [..|exact P'].
      * by apply tables_ok_set_pte.
      * intros g [Hg| ->]%Hfree; apply Hfr'; [by apply (vm_fresh _ V)|exact F].
      * intros g va pa [Hg| ->]%Hfree Hva; rewrite Htr' by done; destruct (decide _) as [Hs|Hs]; try done.
        -- by apply (vm_unmapped _ V).
        -- intros Hpa E. by apply Hs, (Huniq va pa).
    + intros k Hk. unfold m'. rewrite lookup_insert_ne; [by apply Hh|]. eapply pte_addr_not_dir; try done. by eapply heap_page_idx.
    + intros k Hk Hkn. rewrite Htr' by (by apply (heap_page_managed s)). destruct (decide _); [done|].
      apply (ho_free _ Hh); [done|]. rewrite <- HH'. exact Hkn.
Qed.

Lemma owned_head s i f fs : owned s i (f :: fs) → owned s i [f].
Proof. intros Ho [|k] g Hk; [|done]. simpl in Hk. injection Hk as <-. by apply (Ho 0%nat). Qed.

(** The pages behind the first one are still owned when that is unmapped. *)
Lemma owned_tail s i f fs j m' b' :
  heap_ok s → 0 ≤ i → i + 1 + Z.of_nat (length fs) ≤ heap_len s → owned s i (f :: fs) →
  f = page_at PF_KERNEL s j →
  pool_changed PF_KERNEL s (set_phys m' (set_bytes b' s)) (pool_taken PF_KERNEL s ∖ {[j]}) →
  (∀ va, managed va → translate m' (cr3 s) va =
     if decide (same_page (heap_page i) va) then None else translate (phys s) (cr3 s) va) →
  (∀ g, fresh_frame (phys s) (cr3 s) g → fresh_frame m' (cr3 s) g) →
  owned (set_phys m' (set_bytes b' s)) (i + 1) fs.
Proof.
  intros Hh Hi Hlen Ho -> (_ & HT & _) Htr Hfr k g Hk. pose proof (lookup_lt_Some _ _ _ Hk) as Hlt.
  destruct (Ho (S k) g Hk) as (Ht & (j' & Hj' & ->) & F & Hu).
  replace (i + Z.of_nat (S k)) with (i + 1 + Z.of_nat k) in * by lia. simpl.
  assert (managed (heap_page (i + 1 + Z.of_nat k))) as Hv by (apply (heap_page_managed s); [done|lia]).
  assert (managed (heap_page i)) as Hv0 by (apply (heap_page_managed s); [done|lia]).
  split_and!.
  - rewrite Htr by done. rewrite decide_False; [done|]. rewrite heap_page_same. lia.
  - exists j'. split; [|done]. rewrite HT. apply elem_of_difference. split; [done|]. intros ->%elem_of_singleton.
    destruct (Ho 0%nat _ eq_refl) as (Ht0 & _). rewrite Z.add_0_r in Ht0.
    assert (same_page (heap_page (i + 1 + Z.of_nat k)) (heap_page i)) as E.
    { eapply Hu; [done|exact Ht0|]. pose proof (ff_range _ _ _ F). pose proof (ff_aligned _ _ _ F).
      unfold frame. rewrite land_fffff000 by lia. dm. }
    apply (proj1 (heap_page_same _ _)) in E. clear -E. lia.
  - by apply Hfr.
  - intros va pa Hva. rewrite Htr by done. destruct (decide _); [done|]. by apply Hu.
Qed.

Lemma mfree_loop_ok fs : ∀ s i,
  heap_ok s → 0 ≤ i → i + Z.of_nat (length fs) ≤ heap_len s →
  interval i (Z.of_nat (length fs)) ⊆ heap_taken s → owned s i fs →
  let in_pool a := (phy_addr_start (kernel_pool s) <=? a) && (a <? phy_addr_start (user_pool s)) in
  ∃ m' b', let s' := set_phys m' (set_bytes b' s) in
    mfree_loop (length fs) (heap_page (i - 1)) in_pool s = Ok (tt, s') ∧ heap_ok s' ∧
    pool_changed PF_KERNEL s s' (pool_taken PF_KERNEL s ∖ list_to_set (page_no s <$> fs)) ∧
    (∀ va, managed va → (∀ k, i ≤ k < i + Z.of_nat (length fs) → ~ same_page (heap_page k) va) →
       translate m' (cr3 s) va = translate (phys s) (cr3 s) va) ∧
    (∀ k, i ≤ k < i + Z.of_nat (length fs) → translate m' (cr3 s) (heap_page k) = None) ∧
    (∀ g, fresh_frame (phys s) (cr3 s) g → fresh_frame m' (cr3 s) g).
Proof.
  induction fs as [|f fs IH]; intros s i Hh Hi Hlen Hsub Ho in_pool.
  - exists (phys s), (bytes s). assert (set_phys (phys s) (set_bytes (bytes s) s) = s) as -> by (by destruct s).
    split_and!; try done; [split_and!; [apply Hh|simpl; set_solver|done|done|done]|simpl; lia].
  - simpl in Hlen. destruct (Ho 0%nat f eq_refl) as (Ht & (j & Hj & Hfj) & F & _). rewrite Z.add_0_r in Ht.
    destruct (unmap_heap_page s i f j Hh) as (m1 & b1 & Hpf & Hrm & Hh1 & Hch & Htr & Hfr);
      [lia|apply Hsub, elem_of_interval; simpl; lia|by eapply owned_head|done|done|].
    pose proof Hch as (P1 & HT1 & HTo1 & HH1 & HB1).
    pose proof (owned_tail s i f fs j m1 b1 Hh Hi ltac:(lia) Ho Hfj Hch Htr Hfr) as Ho1.
    set (s1 := set_phys m1 (set_bytes b1 s)) in *.
    destruct (IH s1 (i + 1)) as (m' & b' & Hloop & Hh' & (P' & HT' & HTo' & HH' & HB') & Ha & Hb & Hfr');
      [done|lia|change (heap_len s1) with (heap_len s); lia| |done|].
    { rewrite HH1. intros k Hk. apply Hsub. rewrite elem_of_interval in *. simpl. lia. }
    exists m', b'.
    assert (managed (heap_page i)) as Hv by (apply (heap_page_managed s); [done|lia]).
    pose proof (page_at_range s PF_KERNEL j (vm_pools _ (ho_vm _ Hh)) ltac:(by apply elem_of_taken in Hj as [? _])) as [Hfa Hfb].
    rewrite <- Hfj in Hfa, Hfb. split_and!.
    + simpl. replace (u32 (heap_page (i - 1) + PG_SIZE)) with (heap_page i).
      2:{ pose proof (ho_len _ Hh). unfold heap_page, PG_SIZE, K_HEAP_START in *. rewrite u32_small; lia. }
      kstep (v2p_ok s _ _ (vm_tables _ (ho_vm _ Hh)) Hv Ht).
      assert ((f mod PG_SIZE =? 0) && in_pool f = true) as ->.
      { apply andb_true_iff. split; [by apply Z.eqb_eq|]. unfold in_pool. apply andb_true_iff.
        apply elem_of_taken in Hj as [Hjr _]. pose proof (po_order _ (vm_pools _ (ho_vm _ Hh))).
        subst f. unfold page_at in *. simpl in *. split; [apply Z.leb_le|apply Z.ltb_lt]; lia. }
      kgo. kstep Hpf. kstep Hrm. replace i with (i + 1 - 1) by lia. exact Hloop.
    + exact Hh'.
    + split_and!; [exact P'| |intros pf Hpf'; etrans; [by apply HTo'|by apply HTo1]|by etrans; [exact HH'|]|intros a Hx; etrans; [by apply (HB' a)|by apply HB1]].
      etrans; [exact HT'|]. rewrite HT1. simpl. rewrite Hfj, page_no_page_at.
      change (page_no s1) with (page_no s). set_solver.
    + intros va Hva Hno. etrans; [apply Ha; [done|intros k Hk; apply Hno; simpl; lia]|]. simpl.
      rewrite Htr by done. rewrite decide_False; [done|]. apply Hno. simpl. lia.
    + intros k Hk. destruct (decide (k = i)) as [->|Hne]; [|apply Hb; simpl in Hk; lia].
      etrans; [apply Ha|]; [done| |].
      * intros k Hk'. rewrite heap_page_same. lia.
      * simpl. rewrite Htr by done. by rewrite decide_True.
    + intros g G. by apply Hfr', Hfr.
Qed.

(** ** Allocation and its inverse *)

Lemma get_kernel_pages_full s Q n :
  heap_ok s → slack (bytes s) (vaddr_bitmap (kernel_vaddr s)) → 0 < n < 3840 → heap_room s n →
  n ≤ free_count PF_KERNEL s →
  qrep (heap s) Q → lock_free s Q kernel_pool_lock → current s ≠ NULL →
  ∃ r fs m' b', let s' := set_phys m' (set_bytes b' s) in
    get_kernel_pages n s = Ok (heap_page r, s') ∧ Z.of_nat (length fs) = n ∧
    0 ≤ r ∧ r + n ≤ heap_len s ∧ (∀ k, r ≤ k < r + n → k ∉ heap_taken s) ∧
    heap_taken s' = interval r n ∪ heap_taken s ∧ allocated s s' r fs ∧
    (∀ f k, f ∈ fs → 0 ≤ k < 1024 → m' !! (f + k * 4) = Some 0) ∧
    (∀ f, f ∈ fs → fresh_frame m' (cr3 s) f) ∧
    free_count PF_KERNEL s' = free_count PF_KERNEL s - n ∧ keeps_data s s' fs ∧
    writes_only s s' r n fs.
Proof.
  intros Hh Hsl Hn Hroom Hc Hq Hlf Hcur. set (s1 := acquired s kernel_pool_lock (current s)).
  assert (same_memory s s1) as E1 by done.
  destruct (malloc_page_kernel s1 n (heap_ok_same _ _ E1 Hh) Hsl Hn Hroom Hc)
    as (r & fs & m1 & b' & Hl & Hmal & Hr & Hrn & Hfree & HT & [A1 A2 Ap A3 A4 A5 A6 A7] & Hc' & Hfr & Hw).
  change (heap_len s1) with (heap_len s) in Hrn.
  set (s2 := set_phys m1 (set_bytes b' s1)) in *. pose proof (ho_vm _ A1) as V2.
  assert (∀ f, f ∈ fs → fresh_frame m1 (cr3 s) f) as Hfrs.
  { intros f Hf. apply (proj1 (proj2 Hfr)); [|by intros ?%elem_of_nil]. apply (vm_fresh _ (ho_vm _ Hh)), free_kernel_page_free. by apply (A2 f). }
  destruct (clear_pages fs m1 (cr3 s) r (vm_tables _ V2)) as (m2 & Hclr & C).
  { intros k f Hk. split_and!; [|by apply A5|].
    - pose proof (lookup_lt_Some _ _ _ Hk). apply (heap_page_managed s); [done|lia].
    - apply Hfrs. by eapply list_elem_of_lookup_2. }
  set (s3 := set_phys m2 s2). exists r, fs, m2, b'.
  assert (released s3 kernel_pool_lock = set_phys m2 (set_bytes b' s)) as Erel.
  { pose proof (released_acquired s Q kernel_pool_lock (current s) Hlf) as E. unfold released, acquired in *.
    destruct s; simpl in *. by injection E as -> ->. }
  pose proof (heap_ok_cleared s2 m2 fs A1 C) as Hh3. destruct C as (C1 & C2 & C3 & C4 & C5 & C6 & C7).
  split_and!; try done.
  - unfold get_kernel_pages, get_pages. kstep (lock_acquire_free s Q _ Hcur Hlf). kstep Hmal.
    rewrite (proj2 (Z.eqb_neq (heap_page r) NULL)) by (unfold heap_page, K_HEAP_START, NULL; lia). cbn [negb].
    erewrite K_step.
    2:{ unfold kmemset, on_phys. kgo. unfold vmemset.
        rewrite (proj2 (Z.eqb_neq (heap_page r) NULL)) by (unfold heap_page, K_HEAP_START, NULL; lia).
        cbn [negb ASSERT mbind outcome_bind]. unfold PG_SIZE. rewrite u32_small by lia.
        replace (Z.to_nat (n * 4096)) with (length fs * (4 * 1024))%nat by lia.
        change (phys s2) with m1. change (cr3 s2) with (cr3 s). rewrite Hclr. reflexivity. }
    kgo. rewrite (K_step _ _ _ _ _ (lock_release_last s3 Q kernel_pool_lock (acquired_held s Q _ Hlf) Hq)).
    by rewrite Erel.
  - split; try done.
    + by eapply (heap_ok_same s3).
    + intros k f Hk. etrans; [apply C2|by apply A5]. pose proof (lookup_lt_Some _ _ _ Hk).
      apply (heap_page_managed s); [done|lia].
    + intros va Hva Hno. etrans; [by apply C2|]. by apply A6.
  - intros f Hf. by apply C3, Hfrs.
  - split; [exact (proj1 Hfr)|split].
    + intros g G Hg. destruct (proj1 (proj2 Hfr) g G ltac:(by intros ?%elem_of_nil)) as [G1 W1]. split; [exact (C3 g G1)|]. intros k Hk.
      etrans; [|exact (W1 k Hk)]. apply C6. intros f Hf. pose proof (ff_aligned _ _ _ (Hfrs f Hf)). pose proof (ff_aligned _ _ _ G).
      assert (f ≠ g) by (intros ->; exact (Hg Hf)). dm.
    + intros i Hi. etrans; [exact (C4 i Hi)|]. exact (proj2 (proj2 Hfr) i Hi).
  - intros a Ha Hf. etrans; [exact (C6 a Hf)|]. apply Hw; [exact Ha|]. by intros g Hg%elem_of_nil.
Qed.

Lemma get_kernel_pages_ok s Q n :
  heap_ok s → slack (bytes s) (vaddr_bitmap (kernel_vaddr s)) → 0 < n < 3840 → heap_room s n →
  n ≤ free_count PF_KERNEL s →
  qrep (heap s) Q → lock_free s Q kernel_pool_lock → current s ≠ NULL →
  ∃ r fs m' b', let s' := set_phys m' (set_bytes b' s) in
    get_kernel_pages n s = Ok (heap_page r, s') ∧ Z.of_nat (length fs) = n ∧
    0 ≤ r ∧ r + n ≤ heap_len s ∧ (∀ k, r ≤ k < r + n → k ∉ heap_taken s) ∧
    heap_taken s' = interval r n ∪ heap_taken s ∧ allocated s s' r fs ∧
    (∀ f k, f ∈ fs → 0 ≤ k < 1024 → m' !! (f + k * 4) = Some 0) ∧
    (∀ f, f ∈ fs → fresh_frame m' (cr3 s) f).
Proof.
  intros Hh Hsl Hn Hroom Hc Hq Hlf Hcur.
  destruct (get_kernel_pages_full s Q n Hh Hsl Hn Hroom Hc Hq Hlf Hcur) as (r & fs & m' & b' & R1 & R2 & R3 & R4 & R5 & R6 & R7 & R8 & R9 & _).
  exists r, fs, m', b'. exact (conj R1 (conj R2 (conj R3 (conj R4 (conj R5 (conj R6 (conj R7 (conj R8 R9)))))))).
Qed.

(** Addresses on one page have one page of the pool behind them. *)
Lemma same_page_frame m c va va' pa pa' :
  tables_ok m c → managed va → managed va' → same_page va va' →
  translate m c va = Some pa → translate m c va' = Some pa' → frame pa = frame pa'.
Proof.
  intros T Hv Hv' Hs. destruct (managed_pde m c va T Hv) as [pde Hp].
  destruct (same_page_idx_1 _ _ Hs) as [E1 E2].
  assert (m !! pde_addr c va' = Some pde) as Hp' by (unfold pde_addr in *; by rewrite <- E1).
  rewrite (translate_walk _ _ _ _ Hp), (translate_walk _ _ _ _ Hp').
  assert (pte_addr pde va' = pte_addr pde va) as -> by (unfold pte_addr; by rewrite E2).
  destruct (present pde); [|done]. destruct (m !! pte_addr pde va) as [pte|] eqn:Hpte; simpl; [|done].
  destruct (present pte); [|done]. intros [= <-] [= <-]. pose proof (t_words _ _ T _ _ Hpte).
  unfold frame. rewrite (land_fffff000 pte) by done. rewrite !land_fffff000 by dm. dm.
Qed.

Lemma same_page_none m c va va' :
  tables_ok m c → managed va → managed va' → same_page va va' →
  translate m c va = None → translate m c va' = None.
Proof.
  intros T Hv Hv' Hs. destruct (managed_pde m c va T Hv) as [pde Hp].
  destruct (same_page_idx_1 _ _ Hs) as [E1 E2].
  assert (m !! pde_addr c va' = Some pde) as Hp' by (unfold pde_addr in *; by rewrite <- E1).
  rewrite (translate_walk _ _ _ _ Hp), (translate_walk _ _ _ _ Hp').
  assert (pte_addr pde va' = pte_addr pde va) as -> by (unfold pte_addr; by rewrite E2).
  destruct (present pde); [|done]. destruct (m !! pte_addr pde va) as [pte|]; simpl; [|done].
  by destruct (present pte).
Qed.

(** What an allocation leaves is owned. *)
Lemma allocated_owned s m' b' r fs :
  let s' := set_phys m' (set_bytes b' s) in
  heap_ok s → allocated s s' r fs → 0 ≤ r → r + Z.of_nat (length fs) ≤ heap_len s →
  (∀ f, f ∈ fs → fresh_frame m' (cr3 s) f) → owned s' r fs.
Proof.
  intros s' Hh A Hr Hlen Hfr k f Hk.
  pose proof (lookup_lt_Some _ _ _ Hk) as Hlt. pose proof (list_elem_of_lookup_2 _ _ _ Hk) as Hin.
  destruct (al_new _ _ _ _ A f Hin) as (j & Hj & Hjn & Hf). split_and!.
  - by apply A.
  - exists j. split; [|exact Hf]. rewrite (al_pool _ _ _ _ A). apply elem_of_union_l, elem_of_list_to_set.
    rewrite <- (page_no_page_at s j), <- Hf. by apply list_elem_of_fmap_2.
  - by apply Hfr.
  - intros va pa Hva Ht Hpa. set (k' := (va - K_HEAP_START) / 4096).
    assert (same_page (heap_page k') va) as Hs by (unfold same_page, heap_page, k', K_HEAP_START; dm).
    destruct (decide (r ≤ k' < r + Z.of_nat (length fs))) as [Hk'|Hk'].
    + destruct (lookup_lt_is_Some_2 fs (Z.to_nat (k' - r))) as [g Hg]; [lia|].
      pose proof (al_map _ _ _ _ A _ _ Hg) as Htg. rewrite Z2Nat.id in Htg by lia.
      replace (r + (k' - r)) with k' in Htg by lia.
      assert (frame g = frame pa) as Efg.
      { eapply (same_page_frame (phys s') (cr3 s) (heap_page k') va); try done; [apply (ho_vm _ (al_ok _ _ _ _ A))|].
        apply (heap_page_managed s); [done|lia]. }
      pose proof (Hfr g ltac:(by eapply list_elem_of_lookup_2)) as G.
      assert (frame g = g) as Eg.
      { pose proof (ff_range _ _ _ G). pose proof (ff_aligned _ _ _ G). unfold frame. rewrite land_fffff000 by lia. dm. }
      assert (g = f) as -> by congruence.
      pose proof (NoDup_lookup _ _ _ _ (al_nodup _ _ _ _ A) Hk Hg) as ->. rewrite Z2Nat.id by lia.
      by replace (r + (k' - r)) with k' by lia.
    + exfalso. simpl in Ht. rewrite (al_other _ _ _ _ A) in Ht; [|done|].
      * eapply (vm_unmapped _ (ho_vm _ Hh) f); [|done..]. apply free_kernel_page_free. by apply A.
      * intros k'' Hk'' Hs''. apply Hk'. assert (same_page (heap_page k'') (heap_page k')) as E%(proj1 (heap_page_same _ _))
          by (unfold same_page in *; congruence). by rewrite <- E.
Qed.

Lemma mfree_page_kernel s r fs n :
  heap_ok s → 0 ≤ r → Z.of_nat (length fs) = n → 1 ≤ n → r + n ≤ heap_len s →
  interval r n ⊆ heap_taken s → owned s r fs →
  ∃ m' b', let s' := set_phys m' (set_bytes b' s) in
    mfree_page PF_KERNEL (heap_page r) n s = Ok (tt, s') ∧ heap_ok s' ∧
    heap_taken s' = heap_taken s ∖ interval r n ∧
    pool_taken PF_KERNEL s' = pool_taken PF_KERNEL s ∖ list_to_set (page_no s <$> fs) ∧
    pool_taken PF_USER s' = pool_taken PF_USER s ∧
    (∀ va, managed va → (∀ k, r ≤ k < r + n → ~ same_page (heap_page k) va) →
       translate m' (cr3 s) va = translate (phys s) (cr3 s) va) ∧
    (∀ k, r ≤ k < r + n → translate m' (cr3 s) (heap_page k) = None) ∧
    (∀ g, fresh_frame (phys s) (cr3 s) g → fresh_frame m' (cr3 s) g) ∧ same_bytes s s'.
Proof.
  intros Hh Hr Hn Hn1 Hlen Hsub Ho. pose proof (ho_len _ Hh) as Hhl. pose proof (ho_vm _ Hh) as V.
  destruct (mfree_loop_ok fs s r Hh Hr) as (m1 & b1 & Hloop & Hh1 & (P1 & HT1 & HTo1 & HH1 & HB1) & Ha & Hb & Hfr); [lia|by rewrite Hn|done|].
  rewrite Hn in *. set (s1 := set_phys m1 (set_bytes b1 s)) in *.
  destruct (set_heap_bits (Z.to_nat n) s1 r 0 P1 Hr) as (b2 & Hset & P2 & HT2 & Hp2 & Hb2);
    [change (heap_len s1) with (heap_len s); lia|by left|]. rewrite Z2Nat.id in HT2 by lia. simpl in HT2.
  exists m1, b2. set (s2 := set_phys m1 (set_bytes b2 s)).
  assert (set_bytes b2 s1 = s2) as E2 by (by destruct s). rewrite E2 in *.
  destruct fs as [|f fs]; [simpl in Hn; lia|]. destruct (Ho 0%nat f eq_refl) as (Ht & (j & Hj & Hfj) & F & _).
  rewrite Z.add_0_r in Ht. apply elem_of_taken in Hj as [Hjr _].
  destruct (page_at_range s PF_KERNEL j (vm_pools _ V) Hjr) as [Hfa Hfb]. rewrite <- Hfj in Hfa, Hfb.
  split_and!; [| |by rewrite HT2, HH1|by rewrite Hp2|by rewrite Hp2; apply HTo1|done|done|done|
    intros a Hx; etrans; [by apply (Hb2 a)|by apply HB1]].
  - unfold mfree_page. rewrite (proj2 (Z.leb_le 1 n)) by lia.
    assert ((heap_page r mod PG_SIZE =? 0) = true) as -> by (apply Z.eqb_eq; unfold heap_page, K_HEAP_START, PG_SIZE; dm).
    kgo. kstep (v2p_ok s _ _ (vm_tables _ V) (heap_page_managed s r Hh ltac:(lia)) Ht).
    rewrite (proj2 (Z.eqb_eq (f mod PG_SIZE) 0)), (proj2 (Z.leb_le 0x102000 f)) by (done || lia). kgo.
    pose proof (po_order _ (vm_pools _ V)). unfold page_at, pool_len in *. simpl in Hfj, Hjr.
    rewrite (proj2 (Z.leb_gt _ f)) by lia.
    replace (u32 (heap_page r - PG_SIZE)) with (heap_page (r - 1))
      by (unfold heap_page, PG_SIZE, K_HEAP_START in *; rewrite u32_small; lia).
    replace (Z.to_nat n) with (length (f :: fs)) at 1 by lia. kstep Hloop.
    unfold vaddr_remove. kgo. change (kernel_vaddr s1) with (kernel_vaddr s) in *. rewrite (ho_start _ Hh).
    replace (u32 (heap_page r - K_HEAP_START) / PG_SIZE) with r.
    2:{ unfold heap_page, PG_SIZE, K_HEAP_START in *. rewrite u32_small by lia.
        replace (0xc0100000 + r * 4096 - 0xc0100000) with (r * 4096) by lia. by rewrite Z.div_mul. }
    exact Hset.
  - assert (∀ g, free_page s2 g ↔ free_page s1 g) as Hfp.
    { intros g. unfold free_page. split; intros (pf & i & Hi & Hin & ->); exists pf, i;
        (split; [exact Hi|split; [|reflexivity]]); [by rewrite <- Hp2|by rewrite Hp2]. }
    destruct Hh1 as [[_ T1 F1 U1] S1 L1 B1 R1]. split; try done.
    + split; [done|done| |].
      * intros g Hg. by apply F1, Hfp.
      * intros g va pa Hg. by apply U1, Hfp.
    + intros i Hi Hin. rewrite HT2 in Hin. destruct (decide (r ≤ i < r + n)) as [Hir|Hir]; [by apply Hb|].
      apply R1; [done|]. intros Hx. apply Hin. apply elem_of_difference. split; [done|]. rewrite elem_of_interval. lia.
Qed.

(** ** The pools after start-up *)

(** A bitmap that is set up, next to the memory it does not touch. *)
Lemma bitmap_init_step (s : kst H) b :
  0 < btmp_bytes_len b → btmp_bytes_len b * 8 < 2 ^ 31 - 8 → bits b ≠ NULL →
  accessible (bytes s) (bits b) (Z.to_nat (btmp_bytes_len b)) →
  ∃ m', on_bytes (λ m, bitmap_init m b) s = Ok (tt, set_bytes m' s) ∧ bitmap_wf m' b ∧ taken m' b = ∅ ∧
    (∀ a, a < bits b ∨ bits b + btmp_bytes_len b ≤ a → m' !! a = bytes s !! a) ∧
    (∀ a, is_Some (bytes s !! a) → is_Some (m' !! a)).
Proof.
  intros Hl Hm Hn Ha. destruct (bitmap_init_ok _ _ Hl Hm Hn Ha) as (m' & Hi & Hrest). exists m'.
  split; [|exact Hrest]. unfold on_bytes. by rewrite Hi.
Qed.

(** ** Properties *)

(** C10: [get_kernel_pages] returns [n] heap pages in a row that were free; it
    maps them to [n] different physical pages that were free in the
    kernel's pool and are full of zeros; they are now taken in both bitmaps;
    every other managed address keeps its translation, and the allocator's
    invariant holds.  Nothing else changes: no byte outside the bitmaps, no
    word of physical memory but those of the new pages and the page table
    entries of the returned addresses, and no other part of the kernel's
    state. *)
Theorem get_kernel_pages_spec s Q n :
  heap_ok s → slack (bytes s) (vaddr_bitmap (kernel_vaddr s)) → 0 < n < 3840 → heap_room s n →
  n ≤ free_count PF_KERNEL s →
  qrep (heap s) Q → lock_free s Q kernel_pool_lock → current s ≠ NULL →
  ∃ r fs m' b', let s' := set_phys m' (set_bytes b' s) in
    get_kernel_pages n s = Ok (heap_page r, s') ∧ Z.of_nat (length fs) = n ∧
    0 ≤ r ∧ r + n ≤ heap_len s ∧ (∀ k, r ≤ k < r + n → k ∉ heap_taken s) ∧
    heap_taken s' = interval r n ∪ heap_taken s ∧ allocated s s' r fs ∧
    (∀ f k, f ∈ fs → 0 ≤ k < 1024 → m' !! (f + k * 4) = Some 0) ∧
    (∀ f, f ∈ fs → fresh_frame m' (cr3 s) f) ∧
    (∀ a, ~ in_bitmaps s a → b' !! a = bytes s !! a) ∧ writes_only s s' r n fs.
Proof.
  intros Hh Hsl Hn Hroom Hc Hq Hlf Hcur.
  destruct (get_kernel_pages_full s Q n Hh Hsl Hn Hroom Hc Hq Hlf Hcur)
    as (r & fs & m' & b' & R1 & R2 & R3 & R4 & R5 & R6 & R7 & R8 & R9 & _ & [R10 _] & R11).
  exists r, fs, m', b'.
  exact (conj R1 (conj R2 (conj R3 (conj R4 (conj R5 (conj R6 (conj R7 (conj R8 (conj R9 (conj R10 R11)))))))))).
Qed.

(** C11: freeing undoes allocating: [mfree_page] of the pages
    [get_kernel_pages] has just returned succeeds and leaves both bitmaps and
    the translation of every managed address as they were before. *)
Theorem mfree_get_kernel_pages s Q n :
  heap_ok s → slack (bytes s) (vaddr_bitmap (kernel_vaddr s)) → 0 < n < 3840 → heap_room s n →
  n ≤ free_count PF_KERNEL s →
  qrep (heap s) Q → lock_free s Q kernel_pool_lock → current s ≠ NULL →
  ∃ p s1 m2 b2, let s2 := set_phys m2 (set_bytes b2 s) in
    get_kernel_pages n s = Ok (p, s1) ∧ mfree_page PF_KERNEL p n s1 = Ok (tt, s2) ∧
    heap_ok s2 ∧ heap_taken s2 = heap_taken s ∧ (∀ pf, pool_taken pf s2 = pool_taken pf s) ∧
    (∀ va, managed va → translate m2 (cr3 s) va = translate (phys s) (cr3 s) va).
Proof.
  intros Hh Hsl Hn Hroom Hc Hq Hlf Hcur.
  destruct (get_kernel_pages_ok s Q n Hh Hsl Hn Hroom Hc Hq Hlf Hcur)
    as (r & fs & m1 & b1 & Hget & Hl & Hr & Hrn & Hfree & HT & A & _ & Hfr).
  set (s1 := set_phys m1 (set_bytes b1 s)) in *.
  pose proof (allocated_owned s m1 b1 r fs Hh A Hr ltac:(lia) Hfr) as Ho.
  destruct (mfree_page_kernel s1 r fs n (al_ok _ _ _ _ A) Hr Hl) as (m2 & b2 & Hmf & Hh2 & HT2 & Hk2 & Hu2 & Ha & Hb & _);
    [lia|done|rewrite HT; set_solver|done|].
  assert (set_phys m2 (set_bytes b2 s1) = set_phys m2 (set_bytes b2 s)) as E by (by destruct s). rewrite E in *.
  exists (heap_page r), s1, m2, b2. split_and!; [done|done|done| | |].
  - rewrite HT2, HT. apply set_eq. intros k. rewrite elem_of_difference, elem_of_union, elem_of_interval.
    specialize (Hfree k). split; [tauto|]. intros Hk. split; [tauto|]. intros ?. by apply Hfree.
  - intros []; [|by rewrite Hu2; apply A]. rewrite Hk2, (al_pool _ _ _ _ A). change (page_no s1) with (page_no s).
    apply set_eq. intros k. rewrite elem_of_difference, elem_of_union. split; [tauto|]. intros Hk.
    split; [tauto|]. intros (f & -> & Hf)%elem_of_list_to_set%list_elem_of_fmap.
    destruct (al_new _ _ _ _ A f Hf) as (t & _ & Htn & ->). by rewrite page_no_page_at in Hk.
  - intros va Hva. set (k := (va - K_HEAP_START) / 4096).
    assert (same_page (heap_page k) va) as Hs by (unfold same_page, heap_page, k, K_HEAP_START; dm).
    destruct (decide (r ≤ k < r + n)) as [Hk|Hk].
    + assert (managed (heap_page k)) as Hvk by (apply (heap_page_managed s); [done|lia]).
      rewrite (same_page_none m2 (cr3 s) (heap_page k)); [|apply (ho_vm _ Hh2)|done..|by apply Hb].
      symmetry. apply (same_page_none _ _ (heap_page k)); [apply (ho_vm _ Hh)|done..|].
      apply (ho_free _ Hh); [lia|by apply Hfree].
    + assert (∀ k', r ≤ k' < r + n → ~ same_page (heap_page k') va) as Hno.
      { intros k' Hk' Hs'. assert (same_page (heap_page k') (heap_page k)) as E'%(proj1 (heap_page_same _ _))
          by (unfold same_page in *; congruence). by rewrite E' in Hk'. }
      etrans; [by apply Ha|]. apply (al_other _ _ _ _ A); [done|]. by rewrite Hl.
Qed.

(** [page_table_add] maps exactly one page, with or without a table for
    it: it makes the table, cleared, from a page of the kernel's pool when
    there is none; afterwards the address translates to the given page and
    every other managed address as before. *)
Theorem page_table_add_maps s va f :
  vm_ok s → managed va → translate (phys s) (cr3 s) va = None →
  f mod 4096 = 0 → 0 ≤ f < 2 ^ 32 - 4096 → ~ free_page s f → table_available s va →
  ∃ m' b', let s' := set_phys m' (set_bytes b' s) in
    page_table_add va f s = Ok (tt, s') ∧ vm_ok s' ∧
    (∀ va', managed va' → translate m' (cr3 s) va' =
       if decide (same_page va va') then Some (f + va' mod 4096) else translate (phys s) (cr3 s) va') ∧
    pool_taken PF_USER s' = pool_taken PF_USER s ∧ heap_taken s' = heap_taken s.
Proof.
  intros. destruct (page_table_add_ok s va f) as (m' & b' & Hadd & V & [_ M] & _ & HU & HH & _); try done.
  by exists m', b'.
Qed.

(** The numbers of pages and of bytes of bitmaps that [mem_pool_init] computes. *)
Lemma pool_sizes all_mem : 0x200000 + 16 * 4096 ≤ all_mem < 0x200000 + 65536 * 4096 →
  let p := (all_mem - 0x200000) / 4096 in let kf := p / 2 in let uf := p - kf in
  16 ≤ p ≤ 65535 ∧ p * 4096 ≤ all_mem - 0x200000 ∧ 8 ≤ kf ≤ 32767 ∧ 8 ≤ uf ≤ 32768 ∧
  (1 ≤ kf / 8 ≤ 4095 ∧ 8 * (kf / 8) ≤ kf) ∧ (1 ≤ uf / 8 ≤ 4096 ∧ 8 * (uf / 8) ≤ uf).
Proof. intros Hmem p kf uf. unfold uf, kf, p. split_and!; dm. Qed.

(** Its two locks. *)
Definition pool_queues (Q : gmap Z (list Z)) : gmap Z (list Z) :=
  <[waiters (lock_semaphore user_pool_lock) := []]> (<[waiters (lock_semaphore kernel_pool_lock) := []]> Q).
Lemma pool_locks_ok (s : kst H) Q :
  qrep (heap s) Q → lock_memory s Q kernel_pool_lock →
  lock_memory s (<[waiters (lock_semaphore kernel_pool_lock) := []]> Q) user_pool_lock →
  ∃ s', lock_init kernel_pool_lock s = Ok (tt, s') ∧
    ∃ h, let s2 := set_heap h (released (released s kernel_pool_lock) user_pool_lock) in
      lock_init user_pool_lock s' = Ok (tt, s2) ∧ qcell h = qcell (heap s) ∧
      qrep h (pool_queues Q) ∧ lock_free s2 (pool_queues Q) kernel_pool_lock ∧ lock_free s2 (pool_queues Q) user_pool_lock.
Proof.
  intros Hq Hl1 Hl2. destruct (lock_init_ok s Q kernel_pool_lock Hq Hl1) as (h1 & Hli1 & Hq1 & Hc1 & F1 & F2 & F3).
  set (s3 := set_heap h1 _) in *. destruct (lock_init_ok s3 _ user_pool_lock Hq1) as (h2 & Hli2 & Hq2 & Hc2 & Hf2).
  { destruct Hl2 as (L1 & L2 & L3 & L4 & L5 & L6 & L7). split_and!; try done; simpl; rewrite ?Hc1; try done;
      rewrite lookup_insert_is_Some'; by right. }
  exists s3. split; [exact Hli1|]. exists h2. split; [exact Hli2|]. split; [rewrite Hc2; exact Hc1|]. split; [exact Hq2|]. split; [|exact Hf2].
  split_and!; [simpl; rewrite lookup_insert_ne by done; exact F1|simpl; rewrite lookup_insert_ne by done; exact F2|].
  unfold pool_queues. rewrite lookup_insert_ne by done. exact F3.
Qed.

(** The pools after start-up: three empty bitmaps one behind the other, the
    pages from 2 MB on. *)
Record pools_made (s s' : kst H) (Q : gmap Z (list Z)) (all_mem : Z) : Prop := {
  pm_ok : pools_ok s';
  pm_pools : ∀ pf, pool_taken pf s' = ∅;
  pm_heap : heap_taken s' = ∅;
  pm_start : vaddr_start (kernel_vaddr s') = K_HEAP_START;
  pm_len : pool_len PF_KERNEL s' = heap_len s' ∧ (all_mem - 0x200000) / 4096 / 2 - 8 < heap_len s' ≤ 32760;
  pm_pages : ∀ pf i, 0 ≤ i < pool_len pf s' → 0x200000 ≤ page_at pf s' i ∧ page_at pf s' i + 4096 ≤ all_mem ∧ page_at pf s' i mod 4096 = 0;
  pm_end : page_at PF_USER s' (pool_len PF_USER s') ≤ all_mem;
  pm_bitmaps : ∀ a, in_bitmaps s' a → MEM_BITMAP_BASE ≤ a < MEM_BITMAP_BASE + 0x3000;
  pm_behind : bits (vaddr_bitmap (kernel_vaddr s')) + btmp_bytes_len (vaddr_bitmap (kernel_vaddr s')) < MEM_BITMAP_BASE + 0x3000;
  pm_bytes : ∀ a, ~ in_bitmaps s' a → bytes s' !! a = bytes s !! a;
  pm_queues : qrep (heap s') (pool_queues Q);
  pm_cells : qcell (heap s') = qcell (heap s);
  pm_kernel_lock : lock_free s' (pool_queues Q) kernel_pool_lock;
  pm_user_lock : lock_free s' (pool_queues Q) user_pool_lock;
  pm_rest : s' = set_heap (heap s') (set_bytes (bytes s') (set_kernel_pool (kernel_pool s') (set_user_pool (user_pool s')
    (set_kernel_vaddr (kernel_vaddr s') (released (released s kernel_pool_lock) user_pool_lock)))));
}.

Lemma mem_pool_init_ok (s : kst H) Q all_mem :
  0x200000 + 16 * 4096 ≤ all_mem < 0x200000 + 65536 * 4096 →
  accessible (bytes s) MEM_BITMAP_BASE (Z.to_nat 0x4000) → qrep (heap s) Q →
  lock_memory s Q kernel_pool_lock →
  lock_memory s (<[waiters (lock_semaphore kernel_pool_lock) := []]> Q) user_pool_lock →
  ∃ s', mem_pool_init all_mem s = Ok (tt, s') ∧ pools_made s s' Q all_mem.
Proof.
  intros Hmem Hacc Hq Hl1 Hl2. unfold mem_pool_init. cbv zeta.
  change (PG_SIZE * 256 + 1048576) with 0x200000. change PG_SIZE with 4096.
  destruct (pool_sizes all_mem Hmem) as (Hp & Hpm & Hk & Hu & Hkb & Hub). set (p := (all_mem - 0x200000) / 4096) in *.
  rewrite (u32_small (all_mem - _)) by lia. fold p. rewrite (u16_small p) by lia.
  rewrite (u16_small (p / 2)) by lia. set (kf := p / 2) in *. rewrite (u16_small (p - kf)) by lia.
  set (uf := p - kf) in *. set (kb := kf / 8) in *. set (ub := uf / 8) in *.
  rewrite !u32_small by (unfold MEM_BITMAP_BASE; lia). kgo.
  set (bk := Bitmap kb MEM_BITMAP_BASE). set (bu := Bitmap ub (MEM_BITMAP_BASE + kb)).
  set (bh := Bitmap kb (MEM_BITMAP_BASE + kb + ub)).
  set (s0 := set_user_pool _ _).
  destruct (bitmap_init_step s0 bk) as (m1 & Hi1 & Hwf1 & HT1 & Ho1 & Hs1);
    [simpl; lia|simpl; lia|done|intros x Hx; apply Hacc; simpl in Hx; lia|].
  kstep Hi1. set (s1 := set_bytes m1 s0).
  destruct (bitmap_init_step s1 bu) as (m2 & Hi2 & Hwf2 & HT2 & Ho2 & Hs2);
    [simpl; lia|simpl; lia|unfold bu, bh, MEM_BITMAP_BASE, NULL; cbn [bits]; lia|intros x Hx; apply Hs1, Hacc; simpl in Hx; lia|].
  kstep Hi2. set (s2 := set_bytes m2 s1).
  destruct (pool_locks_ok s2 Q Hq Hl1 Hl2) as (s3 & Hli1 & h2 & Hli2 & Hc2 & Hq2 & Hf1 & Hf2).
  kstep Hli1. kstep Hli2. set (s4 := set_heap h2 _) in *.
  destruct (bitmap_init_step (set_kernel_vaddr (VirtualAddr bh K_HEAP_START) s4) bh) as (m3 & Hi3 & Hwf3 & HT3 & Ho3 & Hs3);
    [simpl; lia|simpl; lia|unfold bu, bh, MEM_BITMAP_BASE, NULL; cbn [bits]; lia|intros x Hx; apply Hs2, Hs1, Hacc; simpl in Hx; lia|].
  eexists. split; [exact Hi3|].
  assert (bitmap_wf m3 bk ∧ taken m3 bk = ∅) as [Wk Tk].
  { rewrite <- HT1. destruct (bitmap_agree m1 m3 bk) as [? ->]; try done. intros i Hi. simpl in Hi.
    rewrite Ho3, Ho2 by (simpl; lia). done. }
  assert (bitmap_wf m3 bu ∧ taken m3 bu = ∅) as [Wu Tu].
  { rewrite <- HT2. destruct (bitmap_agree m2 m3 bu) as [? ->]; try done. intros i Hi. simpl in Hi.
    rewrite Ho3 by (simpl; lia). done. }
  split; try done.
  - split; simpl; [intros []; done|done|left; simpl; lia|intros []; simpl; left; simpl; lia|intros []; simpl; (split_and!; [dm|lia|lia])|lia].
  - intros []; done.
  - unfold pool_len, heap_len. simpl. split; [lia|]. unfold kb, kf, p. dm.
  - intros pf i Hi. unfold pool_len, page_at in *. destruct pf; simpl in *; split_and!; try dm.
  - unfold page_at, pool_len. simpl. unfold uf in *. lia.
  - intros a [[pf Ha]|Ha]; [destruct pf|]; unfold in_bitmap in Ha; simpl in Ha; lia.
  - simpl. lia.
  - intros a Ha. simpl. assert (∀ b, b = bk ∨ b = bu ∨ b = bh → a < bits b ∨ bits b + btmp_bytes_len b ≤ a) as Ho.
    { intros b Hb. destruct (decide (a < bits b ∨ bits b + btmp_bytes_len b ≤ a)) as [|Hn]; [done|]. exfalso. apply Ha.
      destruct Hb as [->|[->| ->]]; [left; exists PF_KERNEL|left; exists PF_USER|right]; unfold in_bitmap; simpl in *; lia. }
    rewrite Ho3 by (apply Ho; auto). simpl. rewrite Ho2 by (apply Ho; auto). apply Ho1. apply Ho. auto.
Qed.

(** C12: start-up splits the memory above 2 MB into two pools: for up to 258 MB
    of memory, [mem_pool_init] leaves three well-formed empty bitmaps that do
    not overlap, a kernel pool and a user pool of pages that do not overlap
    and lie within the memory, and two free locks. *)
Theorem mem_pool_init_splits (s : kst H) Q all_mem :
  0x200000 + 16 * 4096 ≤ all_mem < 0x200000 + 65536 * 4096 →
  accessible (bytes s) MEM_BITMAP_BASE (Z.to_nat 0x4000) → qrep (heap s) Q →
  lock_memory s Q kernel_pool_lock →
  lock_memory s (<[waiters (lock_semaphore kernel_pool_lock) := []]> Q) user_pool_lock →
  ∃ s' Q', mem_pool_init all_mem s = Ok (tt, s') ∧ pools_ok s' ∧
    (∀ pf, pool_taken pf s' = ∅) ∧ heap_taken s' = ∅ ∧
    page_at PF_USER s' (pool_len PF_USER s') ≤ all_mem ∧
    vaddr_start (kernel_vaddr s') = K_HEAP_START ∧
    qrep (heap s') Q' ∧ lock_free s' Q' kernel_pool_lock ∧ lock_free s' Q' user_pool_lock.
Proof.
  intros Hmem Hacc Hq Hl1 Hl2. destruct (mem_pool_init_ok s Q all_mem Hmem Hacc Hq Hl1 Hl2) as (s' & Hrun & M).
  exists s', (pool_queues Q). split; [exact Hrun|]. split_and!; apply M.
Qed.

End Memory.

(** ** Witnesses *)

(** A small machine: the directory at 0x100000, the kernel's first table behind
    it, eight pages of each pool behind that, and a heap of eight pages. *)
Definition ex_ram : pmem :=
  <[0x100000 + 4092 := 0x100007]> (<[0x100000 + 768 * 4 := 0x101007]> (zero_words (18 * 1024) 0x100000 ∅)).

Definition ex_mem : kst lheap :=
  set_bytes {[ MEM_BITMAP_BASE := 0; MEM_BITMAP_BASE + 1 := 0; MEM_BITMAP_BASE + 2 := 0; MEM_BITMAP_BASE + 3 := 0 ]}
  (set_phys ex_ram
  (set_kernel_pool (Pool (Bitmap 1 MEM_BITMAP_BASE) 0x102000 0x8000)
  (set_user_pool (Pool (Bitmap 1 (MEM_BITMAP_BASE + 1)) 0x10a000 0x8000)
  (set_kernel_vaddr (VirtualAddr (Bitmap 1 (MEM_BITMAP_BASE + 2)) K_HEAP_START) ex_sync)))).

Lemma ex_ram_lookup a :
  ex_ram !! a =
    if decide (a = 0x100ffc) then Some 0x100007
    else if decide (a = 0x100c00) then Some 0x101007
    else if decide (0x100000 ≤ a < 0x112000 ∧ a mod 4 = 0) then Some 0 else None.
Proof.
  unfold ex_ram. change (0x100000 + 4092) with 0x100ffc. change (0x100000 + 768 * 4) with 0x100c00.
  destruct (decide (a = 0x100ffc)) as [->|H1]; [apply lookup_insert_eq|].
  rewrite lookup_insert_ne by done. destruct (decide (a = 0x100c00)) as [->|H2]; [apply lookup_insert_eq|].
  rewrite lookup_insert_ne by done. rewrite zero_words_lookup, lookup_empty.
  replace (Z.of_nat (18 * 1024)) with 18432 by lia.
  destruct (decide (0x100000 ≤ a < 0x100000 + _ ∧ _)) as [H3|H3], (decide (0x100000 ≤ a < 0x112000 ∧ _)) as [H4|H4]; try done; exfalso.
  - apply H4. dm.
  - apply H3. dm.
Qed.

#[global] Opaque ex_ram.

(** The present entries of the directory. *)
Lemma ex_ram_pde i pde : 0 ≤ i < 1023 → ex_ram !! (0x100000 + i * 4) = Some pde → present pde = true → i = 768 ∧ pde = 0x101007.
Proof.
  intros Hi. rewrite ex_ram_lookup. rewrite decide_False by lia.
  destruct (decide (0x100000 + i * 4 = 0x100c00)); [intros [= <-] _; split; [lia|done]|].
  destruct (decide _); [|done]. by intros [= <-].
Qed.

Lemma ex_ram_word a k : 0x100000 ≤ a + k * 4 < 0x112000 → a mod 4 = 0 → is_Some (ex_ram !! (a + k * 4)).
Proof.
  intros Ha Hm. rewrite <- (Z.mod_add a k 4) in Hm by done. rewrite ex_ram_lookup. repeat (destruct (decide _); [by eexists|]). naive_solver.
Qed.

Lemma ex_tables_ok : tables_ok ex_ram 0x100000.
Proof.
  split.
  - split; [done|lia|]. by rewrite ex_ram_lookup.
  - intros a e. rewrite ex_ram_lookup. repeat (destruct (decide _); [intros [= <-]; lia|]). done.
  - intros i Hi. apply ex_ram_word; [lia|done].
  - intros i pde Hi Hp Hpr. destruct (ex_ram_pde i pde) as [-> ->]; [lia|done..|].
    change (frame 0x101007) with 0x101000. split; [done|]. intros k Hk. apply ex_ram_word; [lia|done].
  - intros i j pi pj Hi Hj Hp1 Hp2 Hpr1 Hpr2 _.
    destruct (ex_ram_pde i pi) as [-> _]; [lia|done..|]. destruct (ex_ram_pde j pj) as [-> _]; [lia|done..|]. done.
Qed.

Lemma ex_pools_ok : pools_ok ex_mem.
Proof.
  assert (∀ k, 0 ≤ k < 3 → bitmap_wf (bytes ex_mem) (Bitmap 1 (MEM_BITMAP_BASE + k))) as Hwf.
  { intros k Hk. split; simpl; [lia|lia|]. intros i Hi. replace i with 0 by lia. exists 0. split; [|lia].
    assert (k = 0 ∨ k = 1 ∨ k = 2) as [->|[->| ->]] by lia; by vm_compute. }
  split; simpl.
  - intros []; simpl; [apply (Hwf 0)|apply (Hwf 1)]; lia.
  - apply (Hwf 2). lia.
  - left. simpl. lia.
  - intros []; left; simpl; lia.
  - intros []; simpl; (split; [done|lia]).
  - lia.
Qed.

(** Nothing is mapped in the managed part of the address space. *)
Lemma ex_unmapped va : managed va → translate ex_ram 0x100000 va = None.
Proof.
  intros Hv. destruct (managed_pde _ _ _ ex_tables_ok Hv) as [pde Hp]. pose proof (managed_pde_idx _ Hv) as Hi.
  rewrite (translate_walk _ _ _ _ Hp). destruct (present pde) eqn:Hpr; [|done].
  unfold pde_addr in Hp. destruct (ex_ram_pde (va / 2 ^ 22) pde) as [_ ->]; [lia|done..|].
  unfold pte_addr. change (Z.land 0x101007 0xfffff000) with 0x101000. pose proof (pte_idx_range va).
  set (k := (va / 2 ^ 12) mod 2 ^ 10) in *. rewrite ex_ram_lookup, !decide_False by lia.
  rewrite decide_True; [done|]. split; [lia|]. by rewrite Z.mod_add.
Qed.

Lemma ex_heap_ok : heap_ok ex_mem.
Proof.
  split.
  - split; [apply ex_pools_ok|apply ex_tables_ok| |].
    + intros f (pf & i & Hi & _ & ->). unfold pool_len, page_at in *.
      assert (∃ k, 0 ≤ k < 16 ∧ phy_addr_start (pool_of pf ex_mem) + i * 4096 = 0x102000 + k * 4096) as (k & Hk & ->).
      { destruct pf; simpl in *; [exists i|exists (i + 8)]; lia. }
      split; [dm|lia|intros j Hj; apply ex_ram_word; [lia|dm]|simpl; lia|].
      intros j pde Hj Hp Hpr. destruct (ex_ram_pde j pde) as [_ ->]; [lia|done..|].
      change (frame 0x101007) with 0x101000. lia.
    + intros f va pa _ Hv. change (translate (phys ex_mem) (cr3 ex_mem)) with (translate ex_ram 0x100000).
      by rewrite ex_unmapped.
  - done.
  - unfold heap_page, heap_len, K_HEAP_START. simpl. lia.
  - intros i Hi. unfold heap_len in Hi. simpl in Hi. exists 0x101007. split; [|done].
    unfold pde_addr. replace (heap_page i / 2 ^ 22) with 768 by (unfold heap_page, K_HEAP_START; change (2 ^ 22) with 4194304; dm).
    simpl phys. simpl cr3. by rewrite ex_ram_lookup.
  - intros i Hi _. apply ex_unmapped. unfold managed, heap_page, K_HEAP_START, heap_len in *. simpl in Hi. lia.
Qed.

Lemma ex_heap_slack : slack (bytes ex_mem) (vaddr_bitmap (kernel_vaddr ex_mem)).
Proof. exists 0. split; [by vm_compute|lia]. Qed.

Lemma ex_room : heap_room ex_mem 2.
Proof.
  exists 0. split_and!; [lia|done|]. intros k Hk. unfold heap_taken.
  replace (taken _ _) with (∅ : gset Z) by (by vm_compute). set_solver.
Qed.

Lemma ex_free : 2 ≤ free_count PF_KERNEL ex_mem.
Proof. by vm_compute. Qed.

Lemma ex_lock_free : lock_free ex_mem ex_sync_queues kernel_pool_lock.
Proof. done. Qed.

Lemma get_kernel_pages_spec_witness :
  ∃ r s', get_kernel_pages (H1 := ex_world) 2 ex_mem = Ok (heap_page r, s').
Proof.
  destruct (get_kernel_pages_spec (H1 := ex_world) ex_mem ex_sync_queues 2) as (r & fs & m' & b' & Hg & _);
    [apply ex_heap_ok|apply ex_heap_slack|lia|apply ex_room|apply ex_free|apply ex_sync_inv|apply ex_lock_free|done|].
  eexists r, _. exact Hg.
Defined.

Lemma mfree_get_kernel_pages_witness :
  ∃ p s1 s2, get_kernel_pages (H1 := ex_world) 2 ex_mem = Ok (p, s1) ∧ mfree_page PF_KERNEL p 2 s1 = Ok (tt, s2).
Proof.
  destruct (mfree_get_kernel_pages (H1 := ex_world) ex_mem ex_sync_queues 2) as (p & s1 & m2 & b2 & Hg & Hf & _);
    [apply ex_heap_ok|apply ex_heap_slack|lia|apply ex_room|apply ex_free|apply ex_sync_inv|apply ex_lock_free|done|].
  eexists p, s1, _. split; [exact Hg|exact Hf].
Defined.

(** The page of a user program, for which a table has to be made. *)
Lemma page_table_add_maps_witness : ∃ s', page_table_add 0x8048000 0x300000 ex_mem = Ok (tt, s').
Proof.
  destruct (page_table_add_maps ex_mem 0x8048000 0x300000) as (m' & b' & Hadd & _).
  - apply ex_heap_ok.
  - unfold managed. lia.
  - apply ex_unmapped. unfold managed. lia.
  - done.
  - lia.
  - intros (pf & i & Hi & _ & E). unfold page_at, pool_len in *. destruct pf; simpl in *; lia.
  - right. apply (free_count_not_full PF_KERNEL ex_mem). by vm_compute.
  - eexists. exact Hadd.
Defined.

(** Memory at start-up: the area of the bitmaps and two locks. *)
Definition ex_boot_cells : lheap :=
  let w1 := waiters (lock_semaphore kernel_pool_lock) in
  let w2 := waiters (lock_semaphore user_pool_lock) in
  {[ w1 := ListElem 0 0; w1 + 8 := ListElem 0 0; w2 := ListElem 0 0; w2 + 8 := ListElem 0 0 ]}.
Definition ex_boot_bytes : bmem := gset_to_gmap 0 (list_to_set (seqZ MEM_BITMAP_BASE 0x4000)).

Lemma ex_boot_accessible : accessible ex_boot_bytes MEM_BITMAP_BASE (Z.to_nat 0x4000).
Proof.
  intros x Hx. exists 0. apply lookup_gset_to_gmap_Some. split; [|done].
  apply elem_of_list_to_set, elem_of_seqZ. lia.
Qed.
#[global] Opaque ex_boot_bytes.

Definition ex_boot : kst lheap :=
  set_heap ex_boot_cells
  (set_bytes ex_boot_bytes
  (set_locks {[ kernel_pool_lock := Lock 0 0; user_pool_lock := Lock 0 0 ]}
  (set_semas {[ lock_semaphore kernel_pool_lock := 0; lock_semaphore user_pool_lock := 0 ]} ex_kst))).

Lemma mem_pool_init_splits_witness : ∃ s', mem_pool_init (32 * 1024 * 1024) ex_boot = Ok (tt, s').
Proof.
  destruct (mem_pool_init_splits ex_boot ∅ (32 * 1024 * 1024)) as (s' & Q' & Hi & _).
  - lia.
  - apply ex_boot_accessible.
  - apply (queues_check_ok ex_boot_cells). by vm_compute.
  - split_and!; [by eexists|by eexists|done|by intros ???|by intros ???|..]; by apply elem_of_dom; eexists.
  - split_and!; [by eexists|by eexists|done|..]; try (by apply elem_of_dom; eexists);
      intros l xs Hl; apply lookup_insert_Some in Hl as [[<- <-]|[_ Hl]]; [|done| |done]; by apply (bool_decide_unpack _).
  - exists s'. exact Hi.
Defined.
