(* ===== verification/Malloc.v ===== *)
(** * Blocks of memory (the block allocator of src/mm/memory.c)

    A request for more than 1024 bytes gets pages of its own; a smaller one a
    block from the free list of the smallest of seven sizes.  The blocks of
    one size come from arenas: pages with a header of 12 bytes.  The headers
    are in [arenas], the descriptors of the seven sizes in [descs], by
    address; the list cell of a free block is its first 8 bytes.

    A [memset] to 0 of memory that holds list cells clears the words of the
    page and the cells in it. *)

From S2P Require Import Prelude CString Bitmap Lists PageTable Kernel Sched Sync Memory.

Definition DESC_CNT : Z := 7.

Section Malloc.
Context {H : Type} `{Queues H} `{World H}.

Definition desc_at (d : Z) : K (kst H) mem_block_desc := λ s, x ← deref (descs s !! d); Ok (x, s).
Definition arena_at (a : Z) : K (kst H) arena := λ s, x ← deref (arenas s !! a); Ok (x, s).
Definition upd_arena (a : Z) (f : arena → arena) : K (kst H) unit := λ s,
  _ ← deref (arenas s !! a); Ok (tt, set_arenas (alter f a (arenas s)) s).

(** [&descs[desc_idx]]. *)
Definition desc_ptr (descs desc_idx : Z) : Z := descs + desc_idx * sizeof_mem_block_desc.

Definition arena2block (a idx : Z) : K (kst H) Z :=
  ar ← arena_at a;
  d ← desc_at (a_desc ar);
  mret (u32 (a + sizeof_arena + idx * block_size d)).

Definition block2arena (b : Z) : Z := Z.land b 0xfffff000.

(** [for (desc_idx = 0; desc_idx < DESC_CNT; desc_idx++) if (size <= ...) break]. *)
Fixpoint find_desc (n : nat) (descs desc_idx size : Z) : K (kst H) Z :=
  match n with
  | O => mret desc_idx
  | S n =>
      d ← desc_at (desc_ptr descs desc_idx);
      if size <=? block_size d then mret desc_idx else find_desc n descs (desc_idx + 1) size
  end.

(** The cells of [n] blocks from [b] on, cleared. *)
Fixpoint zero_cells (n : nat) (b size : Z) (h : H) : H :=
  match n with O => h | S n => zero_cells n (b + size) size (qzero h b) end.

(** The loop that puts the blocks of a new arena into the free list. *)
Fixpoint split_arena (n : nat) (a block_idx : Z) : K (kst H) unit :=
  match n with
  | O => mret tt
  | S n =>
      b ← arena2block a block_idx;
      ar ← arena_at a;
      f ← find_in (free_list (a_desc ar)) b;
      kASSERT (negb f) ;;
      on_heap (λ h, qappend h (free_list (a_desc ar)) b) ;;
      split_arena n a (block_idx + 1)
  end.

Definition sys_malloc (size : Z) : K (kst H) Z :=
  cur ← running_thread;
  t ← task_at cur;
  let PF := if pgdir t =? NULL then PF_KERNEL else PF_USER in
  mp ← gets (pool_of PF);
  let descs := if pgdir t =? NULL then k_block_descs else u_block_desc cur in
  if negb ((0 <? size) && (size <? pool_size mp)) then mret NULL else
  lock_acquire (pool_lock PF) ;;
  if 1024 <? size then
    let page_cnt := u32 (size + sizeof_arena + PG_SIZE - 1) / PG_SIZE in
    a ← malloc_page PF page_cnt;
    if negb (a =? NULL) then
      kmemset a 0 (u32 (page_cnt * PG_SIZE)) ;;
      modify (λ s, set_arenas (<[a := Arena NULL page_cnt true]> (arenas s)) s) ;;
      lock_release (pool_lock PF) ;;
      mret (u32 (a + sizeof_arena))
    else lock_release (pool_lock PF) ;; mret NULL
  else
    desc_idx ← find_desc (Z.to_nat DESC_CNT) descs 0 size;
    let dp := desc_ptr descs desc_idx in
    d ← desc_at dp;
    e ← is_empty (free_list dp);
    ok ← (if (e : bool) then
            a ← malloc_page PF 1;
            if a =? NULL then mret false else
            kmemset a 0 PG_SIZE ;;
            modify (λ s, set_heap (zero_cells (Z.to_nat (blocks_per_arena d)) (a + sizeof_arena) (block_size d) (heap s)) s) ;;
            modify (λ s, set_arenas (<[a := Arena dp (blocks_per_arena d) false]> (arenas s)) s) ;;
            old_status ← intr_disable;
            split_arena (Z.to_nat (blocks_per_arena d)) a 0 ;;
            intr_set_status old_status ;;
            mret true
          else mret true);
    if negb ok then lock_release (pool_lock PF) ;; mret NULL else
    b ← pop_from (free_list dp);
    kmemset b 0 (block_size d) ;;
    modify (λ s, set_heap (qzero (heap s) b) s) ;;
    let a := block2arena b in
    upd_arena a (λ ar, Arena (a_desc ar) (u32 (a_cnt ar - 1)) (a_large ar)) ;;
    lock_release (pool_lock PF) ;;
    mret b.

(** The loop that takes the blocks of an arena out of the free list. *)
Fixpoint unlink_arena (n : nat) (a block_idx : Z) : K (kst H) unit :=
  match n with
  | O => mret tt
  | S n =>
      b ← arena2block a block_idx;
      ar ← arena_at a;
      f ← find_in (free_list (a_desc ar)) b;
      kASSERT f ;;
      on_heap (λ h, qremove h b) ;;
      unlink_arena n a (block_idx + 1)
  end.

Definition sys_free (ptr : Z) : K (kst H) unit :=
  kASSERT (negb (ptr =? NULL)) ;;
  cur ← running_thread;
  t ← task_at cur;
  PF ← (if pgdir t =? NULL then kASSERT (K_HEAP_START <=? ptr) ;; mret PF_KERNEL else mret PF_USER);
  lock_acquire (pool_lock PF) ;;
  let b := ptr in
  let a := block2arena b in
  ar ← arena_at a;
  (if (a_desc ar =? NULL) && a_large ar then mfree_page PF a (a_cnt ar)
   else
     d ← desc_at (a_desc ar);
     on_heap (λ h, qappend h (free_list (a_desc ar)) b) ;;
     upd_arena a (λ ar, Arena (a_desc ar) (u32 (a_cnt ar + 1)) (a_large ar)) ;;
     ar ← arena_at a;
     if a_cnt ar =? blocks_per_arena d then
       unlink_arena (Z.to_nat (blocks_per_arena d)) a 0 ;;
       mfree_page PF a 1
     else mret tt) ;;
  lock_release (pool_lock PF).

(** [block_size] is a [uint16_t]. *)
Fixpoint block_desc_init_loop (n : nat) (desc_array desc_idx size : Z) : K (kst H) unit :=
  match n with
  | O => mret tt
  | S n =>
      let dp := desc_ptr desc_array desc_idx in
      modify (λ s, set_descs (<[dp := MemBlockDesc size ((PG_SIZE - sizeof_arena) / size)]> (descs s)) s) ;;
      on_heap (λ h, qinit h (free_list dp)) ;;
      block_desc_init_loop n desc_array (desc_idx + 1) (u16 (size * 2))
  end.
Definition block_desc_init (desc_array : Z) : K (kst H) unit :=
  block_desc_init_loop (Z.to_nat DESC_CNT) desc_array 0 16.

(** The size of memory is what the loader left at address 0xb00. *)
Definition mem_init (mem_bytes_total : Z) : K (kst H) unit :=
  mem_pool_init mem_bytes_total ;; block_desc_init k_block_descs.

(** ** The seven sizes *)

Definition size_of (i : Z) : Z := 16 * 2 ^ i.
Definition per_arena (i : Z) : Z := (PG_SIZE - sizeof_arena) / size_of i.

(** The descriptors at [dt] as [block_desc_init] leaves them. *)
Definition desc_table (s : kst H) (dt : Z) : Prop :=
  ∀ i, 0 ≤ i < DESC_CNT → descs s !! desc_ptr dt i = Some (MemBlockDesc (size_of i) (per_arena i)).

Lemma size_of_cases i : 0 ≤ i < DESC_CNT →
  (size_of i = 16 ∨ size_of i = 32 ∨ size_of i = 64 ∨ size_of i = 128 ∨ size_of i = 256 ∨
   size_of i = 512 ∨ size_of i = 1024) ∧ per_arena i * size_of i ≤ 4084 < per_arena i * size_of i + size_of i.
Proof.
  unfold DESC_CNT. intros Hi. unfold per_arena, size_of, PG_SIZE, sizeof_arena.
  assert (i = 0 ∨ i = 1 ∨ i = 2 ∨ i = 3 ∨ i = 4 ∨ i = 5 ∨ i = 6)
    as [->|[->|[->|[->|[->|[->| ->]]]]]] by lia; vm_compute; intuition congruence.
Qed.

(** Block [idx] of an arena of size [i]: where it is. *)
Lemma block_place i a idx :
  0 ≤ i < DESC_CNT → a mod 4096 = 0 → 0 ≤ a < 2 ^ 32 - 4096 → 0 ≤ idx < per_arena i →
  let b := a + sizeof_arena + idx * size_of i in
  block2arena b = a ∧ a + 12 ≤ b ∧ b + size_of i ≤ a + 4096 ∧ (b - a) mod 4 = 0.
Proof.
  intros Hi Ha Hr Hidx b. destruct (size_of_cases i Hi) as [Hs Hp].
  assert (idx * size_of i + size_of i ≤ 4084) as Hb by nia.
  assert (0 ≤ idx * size_of i) by nia. unfold b, block2arena, sizeof_arena.
  set (o := idx * size_of i) in *. assert (o mod 4 = 0) as Ho.
  { unfold o. destruct Hs as [->|[->|[->|[->|[->|[->| ->]]]]]]; dm. }
  split_and!; [|lia|lia|dm]. rewrite land_fffff000 by lia. dm.
Qed.

Lemma find_desc_ok n : ∀ s dt k size,
  desc_table s dt → 0 ≤ k → k + Z.of_nat n = DESC_CNT → size ≤ 1024 → (∀ j, 0 ≤ j < k → size_of j < size) →
  ∃ i, find_desc n dt k size s = Ok (i, s) ∧ 0 ≤ i < DESC_CNT ∧ size ≤ size_of i ∧
       ∀ j, 0 ≤ j < i → size_of j < size.
Proof.
  induction n as [|n IH]; intros s dt k size Ht Hk Hn Hs Hpre.
  - exfalso. specialize (Hpre 6 ltac:(unfold DESC_CNT in Hn; lia)). change (size_of 6) with 1024 in Hpre. lia.
  - simpl. assert (desc_at (desc_ptr dt k) s = Ok (MemBlockDesc (size_of k) (per_arena k), s)) as Hd.
    { unfold desc_at. rewrite Ht; [done|]. unfold DESC_CNT in *. lia. }
    kstep Hd. cbn [block_size]. destruct (Z.leb_spec size (size_of k)) as [Hle|Hgt].
    + exists k. split_and!; try done. unfold DESC_CNT in *. lia.
    + apply IH; try done; [lia|lia|]. intros j Hj. destruct (decide (j = k)) as [->|]; [done|]. apply Hpre. lia.
Qed.

(** ** A block from a free list *)

(** The running thread is a kernel thread. *)
Definition kernel_thread (s : kst H) : Prop :=
  current s ≠ NULL ∧ ∃ t, tasks s !! current s = Some t ∧ pgdir t = NULL.

(** [b] is a block of [size] bytes in a mapped arena page at [a], backed by
    [f]. *)
Record block_mapped (s : kst H) (a b f size : Z) : Prop := {
  bm_arena : block2arena b = a;
  bm_place : a + 12 ≤ b ∧ b + size ≤ a + 4096 ∧ (b - a) mod 4 = 0;
  bm_managed : managed a ∧ a mod 4096 = 0;
  bm_frame : translate (phys s) (cr3 s) a = Some f ∧ fresh_frame (phys s) (cr3 s) f;
}.

Lemma lock_fields (s : kst H) Q l me : lock_free s Q l →
  <[l := Lock NULL 0]> (<[l := Lock me 1]> (locks s)) = locks s ∧
  <[lock_semaphore l := 1]> (<[lock_semaphore l := 0]> (semas s)) = semas s.
Proof. intros (Hl & Hv & _). by rewrite !insert_insert_eq, !insert_id. Qed.

Lemma kmemset_block s a b f size :
  tables_ok (phys s) (cr3 s) → block_mapped s a b f size → 0 < size → size mod 4 = 0 →
  kmemset b 0 size s = Ok (tt, set_phys (zero_words (Z.to_nat (size / 4)) (f + (b - a)) (phys s)) s).
Proof.
  intros T [Ha (Hp1 & Hp2 & Hp3) [Hm Hal] [Ht F]] Hs Hs4. unfold kmemset, on_phys, vmemset. kgo.
  unfold managed in Hm. rewrite (proj2 (Z.eqb_neq b NULL)) by (unfold NULL; lia). cbn [negb ASSERT mbind outcome_bind].
  replace (Z.to_nat size) with (4 * Z.to_nat (size / 4))%nat by dm.
  pose proof (vmemset_in_page (phys s) (cr3 s) a f (b - a) (Z.to_nat (size / 4)) T Hm Hal Ht F) as Hz.
  replace (a + (b - a)) with b in Hz by lia. rewrite Hz; [done|lia|done|dm].
Qed.

Lemma upd_arena_ok (s : kst H) a f : is_Some (arenas s !! a) →
  upd_arena a f s = Ok (tt, set_arenas (alter f a (arenas s)) s).
Proof. intros [x Hx]. unfold upd_arena. by rewrite Hx. Qed.

Definition one_less (ar : arena) : arena := Arena (a_desc ar) (u32 (a_cnt ar - 1)) (a_large ar).
Definition one_more (ar : arena) : arena := Arena (a_desc ar) (u32 (a_cnt ar + 1)) (a_large ar).

Lemma sys_malloc_block s Q size i a b bs f :
  kernel_thread s → qrep (heap s) Q → lock_free s Q kernel_pool_lock → tables_ok (phys s) (cr3 s) →
  desc_table s k_block_descs → 0 < size ≤ 1024 → size < pool_size (kernel_pool s) →
  0 ≤ i < DESC_CNT → size ≤ size_of i → (∀ j, 0 ≤ j < i → size_of j < size) →
  Q !! free_list (desc_ptr k_block_descs i) = Some (b :: bs) → block_mapped s a b f (size_of i) →
  is_Some (arenas s !! a) →
  ∃ h, let s' := set_arenas (alter one_less a (arenas s)) (set_heap h
                   (set_phys (zero_words (Z.to_nat (size_of i / 4)) (f + (b - a)) (phys s)) s)) in
    let Q' := <[free_list (desc_ptr k_block_descs i) := bs]> Q in
    sys_malloc size s = Ok (b, s') ∧ qrep h Q' ∧ unlinked Q' b ∧ b ∈ qcell h ∧ qcell (heap s) ⊆ qcell h ∧
    lock_free s' Q' kernel_pool_lock.
Proof.
  intros [Hcur (t & Ht & Hpg)] Hq Hlf T Hdt Hsz Hpool Hi Hfit Hmin Hfl Hbm Har.
  set (dp := desc_ptr k_block_descs i) in *. set (s1 := acquired s kernel_pool_lock (current s)).
  destruct (qpop_spec _ _ _ _ _ Hq Hfl) as (h1 & Hpop & Hq1 & Hu1 & Hc1).
  destruct (qzero_spec _ _ _ Hq1 Hu1) as [Hq2 Hc2].
  destruct (size_of_cases i Hi) as [Hso _]. assert (0 < size_of i ∧ size_of i mod 4 = 0) as [Hso1 Hso2].
  { destruct Hso as [->|[->|[->|[->|[->|[->| ->]]]]]]; done. }
  destruct (find_desc_ok (Z.to_nat DESC_CNT) s1 k_block_descs 0 size Hdt) as (i' & Hfd & Hi' & Hfit' & Hmin');
    [lia|done|lia|intros; lia|].
  assert (i' = i) as ->.
  { destruct (Z.lt_trichotomy i' i) as [Hlt|[->|Hlt]]; [|done|].
    - specialize (Hmin i' ltac:(lia)). lia.
    - specialize (Hmin' i ltac:(lia)). lia. }
  exists (qzero h1 b).
  assert (free_list dp ≠ waiters (lock_semaphore kernel_pool_lock)) as Hne.
  { intros E. destruct Hlf as (_ & _ & Hw). rewrite E, Hw in Hfl. done. }
  pose proof Hlf as (Hl1 & Hl2 & Hl3). pose proof (lock_fields s Q kernel_pool_lock (current s) Hlf) as [EL ES].
  split_and!; [|done|done|rewrite Hc2; set_solver|rewrite Hc2, Hc1; set_solver|].
  2:{ split_and!; [done|done|simpl; by rewrite lookup_insert_ne]. }
  unfold sys_malloc. kstep (running_thread_current s). kstep (task_at_ok _ _ _ Ht).
  rewrite (proj2 (Z.eqb_eq (pgdir t) NULL) Hpg). kgo. cbn [pool_of pool_lock].
  rewrite (proj2 (Z.ltb_lt 0 size)), (proj2 (Z.ltb_lt size _)) by lia. cbn [andb negb].
  kstep (lock_acquire_free s Q _ Hcur Hlf). rewrite (proj2 (Z.ltb_ge 1024 size)) by lia.
  kstep Hfd. fold dp. assert (desc_at dp s1 = Ok (MemBlockDesc (size_of i) (per_arena i), s1)) as Hd.
  { unfold desc_at. change (descs s1 !! dp) with (descs s !! desc_ptr k_block_descs i). by rewrite (Hdt i Hi). }
  kstep Hd. kstep (is_empty_ok s1 Q (free_list dp) (b :: bs) Hq Hfl). rewrite bool_decide_eq_false_2 by done. kgo. cbn [negb block_size].
  unfold pop_from. kgo. change (heap s1) with (heap s). rewrite Hpop. kgo. cbn [fst snd].
  kstep (kmemset_block (set_heap h1 s1) a b f (size_of i) T ltac:(by destruct Hbm) Hso1 Hso2).
  rewrite (bm_arena _ _ _ _ _ Hbm). erewrite K_step by (apply upd_arena_ok; exact Har). kgo.
  match goal with |- (lock_release _ ≫= _) ?x = _ => set (s4 := x) end.
  erewrite K_step.
  2:{ apply (lock_release_last s4 (<[free_list dp := bs]> Q)); [|exact Hq2].
      split_and!; [simpl; apply lookup_insert_eq..|simpl; by rewrite lookup_insert_ne]. }
  unfold mret, K_ret. do 2 f_equal. unfold released, s4, s1, acquired. destruct s; simpl in *. by rewrite EL, ES.
Qed.

(** ** Giving a block back *)

Lemma sys_free_block s Q dp d a b bs ar :
  kernel_thread s → qrep (heap s) Q → lock_free s Q kernel_pool_lock →
  block2arena b = a → K_HEAP_START ≤ b → arenas s !! a = Some ar → a_desc ar = dp → a_large ar = false →
  descs s !! dp = Some d → 0 ≤ a_cnt ar < 2 ^ 32 - 1 → a_cnt ar + 1 ≠ blocks_per_arena d →
  Q !! free_list dp = Some bs → free_list dp ≠ waiters (lock_semaphore kernel_pool_lock) →
  unlinked Q b → b ∈ qcell (heap s) →
  ∃ h, let s' := set_arenas (alter one_more a (arenas s)) (set_heap h s) in
    sys_free b s = Ok (tt, s') ∧ qrep h (<[free_list dp := bs ++ [b]]> Q) ∧ qcell h = qcell (heap s).
Proof.
  intros [Hcur (t & Ht & Hpg)] Hq Hlf Hba Hbk Har Hdp Hlg Hd Hcnt Hne Hfl Hnw Hu Hbc.
  set (s1 := acquired s kernel_pool_lock (current s)).
  destruct (qappend_spec _ _ _ _ _ Hq Hfl Hu Hbc) as (h & Happ & Hq' & Hc'). exists h. split_and!; [|done|done].
  pose proof Hlf as (Hl1 & Hl2 & Hl3). pose proof (lock_fields s Q kernel_pool_lock (current s) Hlf) as [EL ES].
  unfold sys_free. unfold K_HEAP_START in Hbk. rewrite (proj2 (Z.eqb_neq b NULL)) by (unfold NULL; lia). cbn [negb]. kgo.
  kstep (running_thread_current s). kstep (task_at_ok _ _ _ Ht). rewrite (proj2 (Z.eqb_eq (pgdir t) NULL) Hpg).
  kgo. unfold K_HEAP_START. rewrite (proj2 (Z.leb_le _ b)) by lia. kgo. cbn [pool_lock].
  kstep (lock_acquire_free s Q _ Hcur Hlf). rewrite Hba.
  assert (arena_at a s1 = Ok (ar, s1)) as Ha1 by (unfold arena_at, s1; simpl; by rewrite Har). kstep Ha1.
  rewrite Hlg, andb_false_r. kgo. rewrite Hdp.
  assert (desc_at dp s1 = Ok (d, s1)) as Hd1 by (unfold desc_at, s1; simpl; by rewrite Hd). kstep Hd1.
  erewrite K_step by (unfold on_heap, s1; simpl; rewrite Happ; reflexivity). kgo.
  erewrite K_step by (apply upd_arena_ok; by eexists). kgo. fold one_more.
  match goal with |- (arena_at _ ≫= _) ?x = _ => set (s3 := x) end.
  assert (arena_at a s3 = Ok (one_more ar, s3)) as Ha3.
  { unfold arena_at, s3. simpl. by rewrite lookup_alter_eq, Har. }
  kstep Ha3. cbn [a_cnt one_more]. rewrite u32_small by lia. rewrite (proj2 (Z.eqb_neq _ _)) by done. kgo.
  rewrite (lock_release_last s3 (<[free_list dp := bs ++ [b]]> Q)); [| |exact Hq'].
  - unfold released, s3, s1, acquired. destruct s; simpl in *. by rewrite EL, ES.
  - split_and!; [simpl; apply lookup_insert_eq..|simpl; by rewrite lookup_insert_ne].
Qed.

(** ** Properties *)

(** The blocks of an arena fit: for each of the seven sizes the blocks
    [arena2block] hands out lie behind the header, inside the page and do
    not overlap, and [block2arena] finds the arena of each. *)
Theorem arena_blocks_fit s a i idx ar :
  0 ≤ i < DESC_CNT → a mod 4096 = 0 → 0 ≤ a < 2 ^ 32 - 4096 →
  desc_table s k_block_descs →
  arenas s !! a = Some ar → a_desc ar = desc_ptr k_block_descs i →
  0 ≤ idx < per_arena i →
  ∃ b, arena2block a idx s = Ok (b, s) ∧ block2arena b = a ∧
    a + sizeof_arena ≤ b ∧ b + size_of i ≤ a + PG_SIZE ∧
    (∀ idx' b', 0 ≤ idx' < per_arena i → idx' ≠ idx → arena2block a idx' s = Ok (b', s) →
       b' + size_of i ≤ b ∨ b + size_of i ≤ b').
Proof.
  intros Hi Ha Hr Hdt Har Hard Hidx.
  assert (∀ k, 0 ≤ k < per_arena i → arena2block a k s = Ok (a + sizeof_arena + k * size_of i, s)) as Hab.
  { intros k Hk. destruct (block_place i a k Hi Ha Hr Hk) as (_ & H1' & H2' & _).
    unfold arena2block, arena_at, desc_at. unfold mbind, K_bind. rewrite Har. bsimpl. rewrite Hard, (Hdt i Hi). bsimpl. cbn [block_size].
    destruct (size_of_cases i Hi) as [Hs _]. rewrite u32_small; [done|]. unfold sizeof_arena in *. lia. }
  destruct (block_place i a idx Hi Ha Hr Hidx) as (Hb & H1' & H2' & _).
  eexists. split; [by apply Hab|]. split_and!; [done|unfold sizeof_arena in *; lia|unfold PG_SIZE; lia|].
  intros k b' Hk Hne. rewrite Hab by done. intros [= <-]. destruct (size_of_cases i Hi) as [Hs _].
  destruct (decide (k < idx)); [left|right]; nia.
Qed.

(** A request of at most 1024 bytes gets the first block of the free list
    of the smallest size that fits it, cleared; the block leaves the list,
    its arena has one free block less, and the pool's lock is free again;
    no other list, task or page changes. *)
Theorem sys_malloc_small s Q size i a b bs f :
  kernel_thread s → qrep (heap s) Q → lock_free s Q kernel_pool_lock → tables_ok (phys s) (cr3 s) →
  desc_table s k_block_descs → 0 < size ≤ 1024 → size < pool_size (kernel_pool s) →
  0 ≤ i < DESC_CNT → size ≤ size_of i → (∀ j, 0 ≤ j < i → size_of j < size) →
  Q !! free_list (desc_ptr k_block_descs i) = Some (b :: bs) → block_mapped s a b f (size_of i) →
  is_Some (arenas s !! a) →
  ∃ h, let s' := set_arenas (alter one_less a (arenas s)) (set_heap h
                   (set_phys (zero_words (Z.to_nat (size_of i / 4)) (f + (b - a)) (phys s)) s)) in
    let Q' := <[free_list (desc_ptr k_block_descs i) := bs]> Q in
    sys_malloc size s = Ok (b, s') ∧ qrep h Q' ∧ unlinked Q' b ∧ lock_free s' Q' kernel_pool_lock.
Proof.
  intros. destruct (sys_malloc_block s Q size i a b bs f) as (h & Hm & Hq' & Hu & _ & _ & Hl); try done.
  by exists h.
Qed.

(** C13: freeing a block that a kernel thread has just allocated, of at most
    1024 bytes and from a free list that was not empty, puts it back: it is at
    the end of its free list, its arena counts as many free blocks as before,
    and the rest of the state is as before the allocation, physical memory as
    behind it (when not all blocks of the arena are free then, which would
    give the arena back). *)
Theorem sys_free_malloc s Q size i a b bs f ar :
  kernel_thread s → qrep (heap s) Q → lock_free s Q kernel_pool_lock → tables_ok (phys s) (cr3 s) →
  desc_table s k_block_descs → 0 < size ≤ 1024 → size < pool_size (kernel_pool s) →
  0 ≤ i < DESC_CNT → size ≤ size_of i → (∀ j, 0 ≤ j < i → size_of j < size) →
  Q !! free_list (desc_ptr k_block_descs i) = Some (b :: bs) → block_mapped s a b f (size_of i) →
  K_HEAP_START ≤ a → arenas s !! a = Some ar → a_desc ar = desc_ptr k_block_descs i →
  a_large ar = false → 0 < a_cnt ar < per_arena i →
  ∃ s1 s2 h, sys_malloc size s = Ok (b, s1) ∧ sys_free b s1 = Ok (tt, s2) ∧
    s2 = set_heap h (set_phys (phys s1) s) ∧
    qrep h (<[free_list (desc_ptr k_block_descs i) := bs ++ [b]]> Q).
Proof.
  intros Hk Hq Hlf T Hdt Hsz Hpool Hi Hfit Hmin Hfl Hbm Hka Har Hdp Hlg Hcnt.
  destruct (sys_malloc_block s Q size i a b bs f Hk Hq Hlf T Hdt Hsz Hpool Hi Hfit Hmin Hfl Hbm (mk_is_Some _ _ Har))
    as (h & Hm & Hq' & Hu & Hbc & _ & Hl').
  set (s1 := set_arenas _ _) in *. set (dp := desc_ptr k_block_descs i) in *.
  destruct (size_of_cases i Hi) as [Hso Hpa]. assert (per_arena i ≤ 255) as Hp255.
  { destruct Hso as [E|[E|[E|[E|[E|[E|E]]]]]]; rewrite E in Hpa; lia. }
  destruct (sys_free_block s1 _ dp (MemBlockDesc (size_of i) (per_arena i)) a b bs (one_less ar) Hk Hq' Hl') as (h2 & Hf & Hq2 & _).
  - by apply (bm_arena _ _ _ _ _ Hbm).
  - destruct (bm_place _ _ _ _ _ Hbm). lia.
  - unfold s1. simpl. by rewrite lookup_alter_eq, Har.
  - done.
  - done.
  - exact (Hdt i Hi).
  - simpl. rewrite u32_small; lia.
  - simpl. rewrite u32_small; lia.
  - by rewrite lookup_insert_eq.
  - intros E. destruct Hlf as (_ & _ & Hw). rewrite E, Hw in Hfl. done.
  - done.
  - done.
  - exists s1. eexists _, h2. split_and!; [exact Hm|exact Hf| |by rewrite insert_insert_eq in Hq2].
    unfold s1. simpl. rewrite alter_alter_eq.
    assert (alter (one_more ∘ one_less) a (arenas s) = arenas s) as ->; [|by destruct s].
    rewrite <- (alter_id (λ x, x) (arenas s) a) at 2 by done. apply alter_ext. intros x Hx. simplify_eq.
    destruct ar as [d0 c0 l0]. unfold one_more, one_less. simpl in *. rewrite (u32_small (c0 - 1)) by lia. rewrite u32_small by lia. f_equal. lia.
Qed.

End Malloc.

(** ** Witnesses *)

(** The machine of Memory.v with one arena of 16-byte blocks, of which two are
    free. *)
Definition ex_arena : Z := 0xc0100000.
Definition ex_b0 : Z := ex_arena + 12.
Definition ex_b1 : Z := ex_arena + 28.

Definition ex_malloc_queues : gmap Z (list Z) :=
  <[free_list (desc_ptr k_block_descs 0) := [ex_b0; ex_b1]]> ex_sync_queues.
Definition ex_malloc_cells : lheap :=
  let l := free_list (desc_ptr k_block_descs 0) in
  <[l := ListElem 0 ex_b0]> (<[l + 8 := ListElem ex_b1 0]>
  (<[ex_b0 := ListElem l ex_b1]> (<[ex_b1 := ListElem ex_b0 (l + 8)]> ex_sync_cells))).
Definition ex_descs : gmap Z mem_block_desc :=
  list_to_map ((λ i, (desc_ptr k_block_descs i, MemBlockDesc (size_of i) (per_arena i))) <$> seqZ 0 7).

Definition ex_malloc : kst lheap :=
  set_heap ex_malloc_cells
  (set_phys (<[0x101000 + 256 * 4 := 0x102000 + 7]> ex_ram)
  (set_descs ex_descs
  (set_arenas {[ ex_arena := Arena (desc_ptr k_block_descs 0) 2 false ]} ex_mem))).

Lemma ex_malloc_mapped :
  tables_ok (phys ex_malloc) (cr3 ex_malloc) ∧
  translate (phys ex_malloc) (cr3 ex_malloc) ex_arena = Some 0x102000 ∧
  fresh_frame (phys ex_malloc) (cr3 ex_malloc) 0x102000.
Proof.
  assert (managed ex_arena) as Hv by (unfold managed, ex_arena; lia).
  assert (ex_ram !! pde_addr 0x100000 ex_arena = Some 0x101007) as Hp by (by rewrite ex_ram_lookup).
  destruct (set_pte_maps ex_ram 0x100000 ex_arena 0x101007 0x102000 ex_tables_ok Hv Hp) as [T M]; [done|done|lia|].
  split_and!; [exact T| |].
  - etrans; [apply (M ex_arena Hv)|]. by rewrite decide_True.
  - apply (fresh_frame_set_pte ex_ram 0x100000 ex_arena 0x101007); [apply ex_tables_ok|done|done|done|].
    apply (vm_fresh _ (ho_vm _ ex_heap_ok)). exists PF_KERNEL, 0. split_and!; [lia|done| |done].
    replace (pool_taken PF_KERNEL ex_mem) with (∅ : gset Z) by (by vm_compute). apply not_elem_of_empty.
Qed.

Lemma ex_malloc_queues_ok : queues (heap ex_malloc) ex_malloc_queues.
Proof. apply (queues_check_ok ex_malloc_cells). by vm_compute. Qed.

Lemma ex_malloc_thread : kernel_thread ex_malloc.
Proof. split; [done|]. eexists. split; [by vm_compute|done]. Qed.

Lemma ex_malloc_table : desc_table ex_malloc k_block_descs.
Proof.
  intros i Hi. unfold DESC_CNT in Hi.
  assert (i = 0 ∨ i = 1 ∨ i = 2 ∨ i = 3 ∨ i = 4 ∨ i = 5 ∨ i = 6)
    as [->|[->|[->|[->|[->|[->| ->]]]]]] by lia; reflexivity.
Qed.

Lemma ex_block_mapped : block_mapped ex_malloc ex_arena ex_b0 0x102000 (size_of 0).
Proof.
  split; [reflexivity|unfold ex_b0, size_of; split_and!; [lia|lia|reflexivity]| |apply ex_malloc_mapped].
  unfold managed, ex_arena. split; [lia|reflexivity].
Qed.

Lemma arena_blocks_fit_witness : ∃ b, arena2block ex_arena 3 ex_malloc = Ok (b, ex_malloc) ∧ block2arena b = ex_arena.
Proof.
  destruct (arena_blocks_fit ex_malloc ex_arena 0 3 (Arena (desc_ptr k_block_descs 0) 2 false)) as (b & Hb & Ha & _).
  - split; [lia|reflexivity].
  - reflexivity.
  - unfold ex_arena. lia.
  - apply ex_malloc_table.
  - reflexivity.
  - reflexivity.
  - split; [lia|reflexivity].
  - exists b. split; [exact Hb|exact Ha].
Defined.

Lemma sys_malloc_small_witness : ∃ s', sys_malloc (H1 := ex_world) 10 ex_malloc = Ok (ex_b0, s').
Proof.
  destruct (sys_malloc_small (H1 := ex_world) ex_malloc ex_malloc_queues 10 0 ex_arena ex_b0 [ex_b1] 0x102000) as (h & Hm & _).
  - apply ex_malloc_thread.
  - apply ex_malloc_queues_ok.
  - split_and!; reflexivity.
  - apply ex_malloc_mapped.
  - apply ex_malloc_table.
  - lia.
  - reflexivity.
  - split; [lia|reflexivity].
  - unfold size_of. lia.
  - lia.
  - reflexivity.
  - apply ex_block_mapped.
  - by eexists.
  - eexists. exact Hm.
Defined.

Lemma sys_free_malloc_witness :
  ∃ s1 s2, sys_malloc (H1 := ex_world) 10 ex_malloc = Ok (ex_b0, s1) ∧ sys_free (H1 := ex_world) ex_b0 s1 = Ok (tt, s2).
Proof.
  destruct (sys_free_malloc (H1 := ex_world) ex_malloc ex_malloc_queues 10 0 ex_arena ex_b0 [ex_b1] 0x102000
    (Arena (desc_ptr k_block_descs 0) 2 false)) as (s1 & s2 & h & Hm & Hf & _).
  - apply ex_malloc_thread.
  - apply ex_malloc_queues_ok.
  - split_and!; reflexivity.
  - apply ex_malloc_mapped.
  - apply ex_malloc_table.
  - lia.
  - reflexivity.
  - split; [lia|reflexivity].
  - unfold size_of. lia.
  - lia.
  - reflexivity.
  - apply ex_block_mapped.
  - unfold K_HEAP_START, ex_arena. lia.
  - reflexivity.
  - reflexivity.
  - reflexivity.
  - split; [simpl; lia|reflexivity].
  - exists s1, s2. split; [exact Hm|exact Hf].
Defined.
