(* ===== verification/Ide.v ===== *)
(** * The disk driver (src/device/ide.c, src/include/kernel/io.h)

    The driver on the kernel's state, with the controllers of Ata.v behind the
    ports.  A thread that waits for the disk sleeps on the semaphore
    [disk_done] of the channel; [intr_hd_handler] wakes it.  What happens
    while it sleeps is [others] of Sched.v; [disk_world] is the case in which
    the drive finishes, its interrupt is handled and the scheduler runs.

    The interrupts that the drive raises between the sectors of a transfer are
    taken where they occur, in the middle of [insw] or [outsw], if interrupts
    are on; otherwise they stay pending.

    Buffers are lists of bytes: [ide_read] returns what it stored.  Messages
    are left out. *)

From S2P Require Import Prelude CString CArray Stdio Bitmap Lists PageTable Disk Ata Kernel Sched Sync Memory Malloc.

(** ** Ports *)

Section Ports.
Context {H : Type}.

(** The controller that listens at [port], and the register; controllers have
    8 ports from a multiple of 8 on. *)
Definition ata_base (port : Z) : Z := port - port mod 8.
Definition upd_ata (base : Z) (a : ata) : K (kst H) unit := modify (λ s, set_atas (<[base := a]> (atas s)) s).

Definition outb (port data : Z) : K (kst H) unit :=
  t ← gets atas;
  match t !! ata_base port with
  | Some a => upd_ata (ata_base port) (ata_outb a (port mod 8) (u8 data))
  | None => modify (λ s, set_port_log ((u16 port, u8 data) :: port_log s) s)
  end.
Definition inb (port : Z) : K (kst H) Z :=
  t ← gets atas;
  match t !! ata_base port with
  | Some a => let '(v, a) := ata_inb a (port mod 8) in upd_ata (ata_base port) a ;; mret v
  | None => mret 0xff
  end.
(** The drive at [base] asks for an interrupt with the handler [intrq]. *)
Definition raise_intr (intrq : K (kst H) unit) (base : Z) : K (kst H) unit :=
  i ← gets intr;
  if i : bool then modify (set_intr false) ;; intrq ;; modify (set_intr true)
  else t ← gets atas; a ← lift (deref (t !! base)); upd_ata base (set_pending a).

(** [rep insw] and [rep outsw], block by block; [left] bytes are still to be
    read. *)
Definition block_of (a : ata) : nat := match phase a with Giving data => block_rest data | _ => 1%nat end.
Fixpoint insw_loop (fuel : nat) (intrq : K (kst H) unit) (base : Z) (left : nat) : K (kst H) (list Z) :=
  match left, fuel with
  | O, _ => mret []
  | _, O => lift NoFuel
  | _, S fuel =>
      t ← gets atas;
      a ← lift (deref (t !! base));
      let n := Nat.min left (block_of a) in
      '(bs, a, more) ← lift (deref (ata_in a n));
      upd_ata base a ;;
      (if more : bool then raise_intr intrq base else mret tt) ;;
      rest ← insw_loop fuel intrq base (left - n);
      mret (bs ++ rest)
  end.
Definition insw (intrq : K (kst H) unit) (port word_cnt : Z) : K (kst H) (list Z) :=
  insw_loop (Z.to_nat (2 * word_cnt)) intrq (ata_base port) (Z.to_nat (2 * word_cnt)).
Fixpoint outsw_loop (fuel : nat) (intrq : K (kst H) unit) (base : Z) (bs : list Z) : K (kst H) unit :=
  match bs, fuel with
  | [], _ => mret tt
  | _, O => lift NoFuel
  | _, S fuel =>
      t ← gets atas;
      a ← lift (deref (t !! base));
      '(a, more) ← lift (deref (ata_out a (take 512 bs)));
      upd_ata base a ;;
      (if more : bool then raise_intr intrq base else mret tt) ;;
      outsw_loop fuel intrq base (drop 512 bs)
  end.
Definition outsw (intrq : K (kst H) unit) (port : Z) (bs : list Z) (word_cnt : Z) : K (kst H) unit :=
  lift (if bool_decide (length bs < Z.to_nat (2 * word_cnt))%nat then Fault else Ok tt) ;;
  outsw_loop (Z.to_nat (2 * word_cnt)) intrq (ata_base port) (take (Z.to_nat (2 * word_cnt)) bs).
End Ports.

Definition BIT_STAT_BSY : Z := 0x80.
Definition BIT_STAT_DRQ : Z := 0x8.
Definition BIT_DEV_MBS : Z := 0xa0.
Definition BIT_DEV_LBA : Z := 0x40.
Definition BIT_DEV_DEV : Z := 0x10.
Definition CMD_IDENTIFY : Z := 0xec.
Definition CMD_READ_SECTOR : Z := 0x20.
Definition CMD_WRITE_SECTOR : Z := 0x30.

Section Driver.
Context {H : Type} `{Queues H} `{World H}.

Definition chan_at (c : Z) : K (kst H) ide_channel := λ s, x ← deref (chans s !! c); Ok (x, s).
Definition upd_chan (c : Z) (f : ide_channel → ide_channel) : K (kst H) unit := λ s,
  x ← deref (chans s !! c); Ok (tt, set_chans (<[c := f x]> (chans s)) s).
Definition set_expecting (b : bool) (x : ide_channel) : ide_channel := IdeChannel (port_base x) (irq_no x) b.
Definition disk_at (hd : Z) : K (kst H) disk := λ s, x ← deref (disks s !! hd); Ok (x, s).
Definition upd_disk (hd : Z) (f : disk → disk) : K (kst H) unit := λ s,
  x ← deref (disks s !! hd); Ok (tt, set_disks (<[hd := f x]> (disks s)) s).

Definition reg_data (x : ide_channel) : Z := port_base x + 0.
Definition reg_sect_cnt (x : ide_channel) : Z := port_base x + 2.
Definition reg_lba_l (x : ide_channel) : Z := port_base x + 3.
Definition reg_lba_m (x : ide_channel) : Z := port_base x + 4.
Definition reg_lba_h (x : ide_channel) : Z := port_base x + 5.
Definition reg_dev (x : ide_channel) : Z := port_base x + 6.
Definition reg_status (x : ide_channel) : Z := port_base x + 7.
Definition reg_cmd (x : ide_channel) : Z := reg_status x.

Definition select_disk (hd : Z) : K (kst H) unit :=
  d ← disk_at hd;
  let reg_device := Z.lor BIT_DEV_MBS BIT_DEV_LBA in
  let reg_device := if dev_no d =? 1 then Z.lor reg_device BIT_DEV_DEV else reg_device in
  x ← chan_at (my_channel d); outb (reg_dev x) reg_device.

(** [sec_cnt] is a byte. *)
Definition select_sector (hd lba sec_cnt : Z) : K (kst H) unit :=
  kASSERT (lba <=? max_lba) ;;
  d ← disk_at hd;
  x ← chan_at (my_channel d);
  outb (reg_sect_cnt x) (u8 sec_cnt) ;;
  outb (reg_lba_l x) lba ;;
  outb (reg_lba_m x) (Z.shiftr lba 8) ;;
  outb (reg_lba_h x) (Z.shiftr lba 16) ;;
  outb (reg_dev x)
    (Z.lor (Z.lor (Z.lor BIT_DEV_MBS BIT_DEV_LBA) (if dev_no d =? 1 then BIT_DEV_DEV else 0)) (Z.shiftr lba 24)).

Definition cmd_out (c cmd : Z) : K (kst H) unit :=
  upd_chan c (set_expecting true) ;; x ← chan_at c; outb (reg_cmd x) cmd.

(** The channel of an interrupt is found by its number. *)
Definition intr_hd_handler (irq : Z) : K (kst H) unit :=
  kASSERT ((irq =? 0x2e) || (irq =? 0x2f)) ;;
  let ch_no := u8 (irq - 0x2e) in
  let c := channels + sizeof_ide_channel * ch_no in
  x ← chan_at c;
  kASSERT (irq_no x =? irq) ;;
  if expecting_intr x then
    upd_chan c (set_expecting false) ;;
    sema_up (disk_done c) ;;
    x ← chan_at c; inb (reg_status x) ;; mret tt
  else mret tt.

(** The number of bytes of [sec_cnt] sectors, a byte in which 0 is 256. *)
Definition size_in_byte (sec_cnt : Z) : Z := if u8 sec_cnt =? 0 then 256 * 512 else u8 sec_cnt * 512.
Definition read_from_sector (hd sec_cnt : Z) : K (kst H) (list Z) :=
  d ← disk_at hd; x ← chan_at (my_channel d);
  insw (intr_hd_handler (irq_no x)) (reg_data x) (size_in_byte sec_cnt / 2).
Definition write2sector (hd : Z) (buf : list Z) (sec_cnt : Z) : K (kst H) unit :=
  d ← disk_at hd; x ← chan_at (my_channel d);
  outsw (intr_hd_handler (irq_no x)) (reg_data x) buf (size_in_byte sec_cnt / 2).

(** [time_limit -= 10 >= 0] takes 1 from the limit. *)
Fixpoint busy_wait_loop (fuel : nat) (c time_limit : Z) : K (kst H) bool :=
  match fuel with
  | O => lift NoFuel
  | S fuel =>
      let time_limit := u16 (time_limit - 1) in
      if time_limit =? 0 then mret false
      else
        x ← chan_at c; st ← inb (reg_status x);
        if Z.land st BIT_STAT_BSY =? 0 then st ← inb (reg_status x); mret (negb (Z.land st BIT_STAT_DRQ =? 0))
        else mtime_sleep (S rounds) 10 ;; busy_wait_loop fuel c time_limit
  end.
Definition busy_wait (hd : Z) : K (kst H) bool :=
  d ← disk_at hd; busy_wait_loop (Z.to_nat 30000) (my_channel d) (30 * 1000).

(** The sectors of the next round. *)
Definition secs_op (secs_done sec_cnt : Z) : Z := if u32 (secs_done + 256) <=? sec_cnt then 256 else u32 (sec_cnt - secs_done).

Fixpoint ide_read_loop (fuel : nat) (hd lba secs_done sec_cnt : Z) : K (kst H) (list Z) :=
  match fuel with
  | O => lift NoFuel
  | S fuel =>
      if secs_done <? sec_cnt then
        let op := secs_op secs_done sec_cnt in
        select_sector hd (u32 (lba + secs_done)) op ;;
        d ← disk_at hd;
        cmd_out (my_channel d) CMD_READ_SECTOR ;;
        sema_down (disk_done (my_channel d)) ;;
        ok ← busy_wait hd;
        if negb ok then lift Panic
        else
          bs ← read_from_sector hd op;
          rest ← ide_read_loop fuel hd lba (u32 (secs_done + op)) sec_cnt;
          mret (bs ++ rest)
      else mret []
  end.

(** A round transfers up to 256 sectors. *)
Definition rounds_for (sec_cnt : Z) : nat := S (Z.to_nat (sec_cnt / 256 + 1)).

Definition ide_read (hd lba sec_cnt : Z) : K (kst H) (list Z) :=
  kASSERT (lba <=? max_lba) ;;
  kASSERT (0 <? sec_cnt) ;;
  d ← disk_at hd;
  lock_acquire (chan_lock (my_channel d)) ;;
  select_disk hd ;;
  bs ← ide_read_loop (rounds_for sec_cnt) hd lba 0 sec_cnt;
  lock_release (chan_lock (my_channel d)) ;;
  mret bs.

(** [buf] is what follows in the buffer. *)
Fixpoint ide_write_loop (fuel : nat) (hd lba : Z) (buf : list Z) (secs_done sec_cnt : Z) : K (kst H) unit :=
  match fuel with
  | O => lift NoFuel
  | S fuel =>
      if secs_done <? sec_cnt then
        let op := secs_op secs_done sec_cnt in
        select_sector hd (u32 (lba + secs_done)) op ;;
        d ← disk_at hd;
        cmd_out (my_channel d) CMD_WRITE_SECTOR ;;
        ok ← busy_wait hd;
        if negb ok then lift Panic
        else
          write2sector hd buf op ;;
          sema_down (disk_done (my_channel d)) ;;
          ide_write_loop fuel hd lba (drop (Z.to_nat (512 * op)) buf) (u32 (secs_done + op)) sec_cnt
      else mret tt
  end.

Definition ide_write (hd lba : Z) (buf : list Z) (sec_cnt : Z) : K (kst H) unit :=
  kASSERT (lba <=? max_lba) ;;
  kASSERT (0 <? sec_cnt) ;;
  d ← disk_at hd;
  lock_acquire (chan_lock (my_channel d)) ;;
  select_disk hd ;;
  ide_write_loop (rounds_for sec_cnt) hd lba buf 0 sec_cnt ;;
  lock_release (chan_lock (my_channel d)).

(** ** Finding the disks and their partitions *)

(** Two bytes at a time, in a byte [idx]. *)
Fixpoint swap_loop (fuel : nat) (dst buf : list Z) (idx len : Z) : outcome (list Z * Z) :=
  match fuel with
  | O => NoFuel
  | S fuel =>
      if idx <? len then
        match dst with
        | x :: y :: dst =>
            buf ← aset buf (Z.to_nat (idx + 1)) x;
            buf ← aset buf (Z.to_nat idx) y;
            swap_loop fuel dst buf (u8 (idx + 2)) len
        | _ => Fault
        end
      else Ok (buf, idx)
  end.
Definition swap_pairs_bytes (dst buf : list Z) (len : Z) : outcome (list Z) :=
  '(buf, idx) ← swap_loop (S (Z.to_nat len)) dst buf 0 len; aset buf (Z.to_nat idx) 0.

(** The result is what is printed: serial number, model and sectors. *)
Definition identify_disk (hd : Z) : K (kst H) (list Z * list Z * Z) :=
  select_disk hd ;;
  d ← disk_at hd;
  cmd_out (my_channel d) CMD_IDENTIFY ;;
  sema_down (disk_done (my_channel d)) ;;
  ok ← busy_wait hd;
  if negb ok then lift Panic
  else
    id_info ← read_from_sector hd 1;
    sn ← lift (swap_pairs_bytes (drop 20 id_info) (replicate 64 0) 20);
    md ← lift (swap_pairs_bytes (drop 54 id_info) (replicate 64 0) 40);
    mret (sn, md, un32 (take 4 (drop 120 id_info))).

(** [struct partition_table_entry] and the table of a boot sector. *)
Record partition_table_entry := PartitionTableEntry { fs_type : Z; pe_start_lba : Z; pe_sec_cnt : Z }.
Definition table_entry (bs : list Z) (i : nat) : partition_table_entry :=
  let e := take 16 (drop (446 + 16 * i) bs) in
  PartitionTableEntry (nth 4 e 0) (un32 (take 4 (drop 8 e))) (un32 (take 4 (drop 12 e))).
Definition partition_table (bs : list Z) : list partition_table_entry := table_entry bs <$> seq 0 4.

Definition upd_ide (f : ide_globals → ide_globals) : K (kst H) unit := modify (λ s, set_ide (f (ide s)) s).
(** [sprintf(name, "%s%d", hd->name, n)] into a name of 8 characters. *)
Definition part_name (hd_name old : list Z) (n : Z) : outcome (list Z) :=
  '(_, nm) ← sprintf old [37; 115; 37; 100; 0] [AStr hd_name; AInt n]; Ok nm.
Definition set_part (parts : list disk_part) (i : Z) (f : disk_part → outcome disk_part) : outcome (list disk_part) :=
  x ← deref (parts !! Z.to_nat i); x ← f x; Ok (<[Z.to_nat i := x]> parts).

(** The entry of a primary partition, and of a logical one. *)
Definition add_prim (hd ext_lba : Z) (p : partition_table_entry) : K (kst H) unit :=
  d ← disk_at hd; g ← gets ide;
  parts ← lift (set_part (prim_parts d) (p_no g) (λ x,
    nm ← part_name (hd_name d) (dp_name x) (p_no g + 1);
    Ok (DiskPart (u32 (ext_lba + pe_start_lba p)) (pe_sec_cnt p) hd nm)));
  upd_disk hd (λ d, Disk (hd_name d) (my_channel d) (dev_no d) parts (logic_parts d)) ;;
  on_heap (λ h, qappend h partition_list (prim_tag hd (p_no g))) ;;
  upd_ide (λ g, IdeGlobals (channel_cnt g) (ext_lba_base g) (u8 (p_no g + 1)) (l_no g)) ;;
  g ← gets ide; kASSERT (p_no g <? 4).
Definition add_logic (hd ext_lba : Z) (p : partition_table_entry) : K (kst H) bool :=
  d ← disk_at hd; g ← gets ide;
  parts ← lift (set_part (logic_parts d) (l_no g) (λ x,
    nm ← part_name (hd_name d) (dp_name x) (l_no g + 5);
    Ok (DiskPart (u32 (ext_lba + pe_start_lba p)) (pe_sec_cnt p) hd nm)));
  upd_disk hd (λ d, Disk (hd_name d) (my_channel d) (dev_no d) (prim_parts d) parts) ;;
  on_heap (λ h, qappend h partition_list (logic_tag hd (l_no g))) ;;
  upd_ide (λ g, IdeGlobals (channel_cnt g) (ext_lba_base g) (p_no g) (u8 (l_no g + 1))) ;;
  g ← gets ide; mret (8 <=? l_no g).

(** The four entries of a table; the result says whether the scan returned
    early.  [scan] is the recursive call. *)
Fixpoint scan_table (scan : Z → K (kst H) unit) (hd ext_lba : Z) (ps : list partition_table_entry) : K (kst H) bool :=
  match ps with
  | [] => mret false
  | p :: ps =>
      early ← (if fs_type p =? 5 then
                 g ← gets ide;
                 if negb (ext_lba_base g =? 0) then scan (u32 (pe_start_lba p + ext_lba_base g)) ;; mret false
                 else
                   upd_ide (λ g, IdeGlobals (channel_cnt g) (s32 (pe_start_lba p)) (p_no g) (l_no g)) ;;
                   scan (pe_start_lba p) ;; mret false
               else if negb (fs_type p =? 0) then
                 if ext_lba =? 0 then add_prim hd ext_lba p ;; mret false else add_logic hd ext_lba p
               else mret false);
      if early : bool then mret true else scan_table scan hd ext_lba ps
  end.

(** The chain of extended partitions may be circular: the scan has fuel. *)
Fixpoint partition_scan (fuel : nat) (hd ext_lba : Z) : K (kst H) unit :=
  match fuel with
  | O => lift NoFuel
  | S fuel =>
      bs ← sys_malloc 512;
      (if bs =? NULL then lift Fault else mret tt) ;;
      sec ← ide_read hd ext_lba 1;
      early ← scan_table (partition_scan fuel hd) hd ext_lba (partition_table sec);
      if early : bool then mret tt else sys_free bs
  end.

(** The two disks of the channel [c] with number [channel_no]. *)
Definition init_disk (fuel : nat) (c channel_no i : Z) : K (kst H) unit :=
  let hd := devices c i in
  upd_disk hd (λ d, Disk (hd_name d) c (dev_no d) (prim_parts d) (logic_parts d)) ;;
  upd_disk hd (λ d, Disk (hd_name d) (my_channel d) i (prim_parts d) (logic_parts d)) ;;
  d ← disk_at hd;
  '(_, nm) ← lift (sprintf (hd_name d) [115; 100; 37; 99; 0] [AInt (97 + channel_no * 2 + i)]);
  upd_disk hd (λ d, Disk nm (my_channel d) (dev_no d) (prim_parts d) (logic_parts d)) ;;
  identify_disk hd ;;
  (if negb (i =? 0) then partition_scan fuel hd 0 else mret tt) ;;
  upd_ide (λ g, IdeGlobals (channel_cnt g) (ext_lba_base g) 0 (l_no g)) ;;
  upd_ide (λ g, IdeGlobals (channel_cnt g) (ext_lba_base g) (p_no g) 0).

(** [n] channels are left; the address of [intr_hd_handler] is [handler]. *)
Fixpoint init_channels (n : nat) (fuel : nat) (channel_no handler : Z) : K (kst H) unit :=
  match n with
  | O => mret tt
  | S n =>
      let c := channels + sizeof_ide_channel * channel_no in
      (if channel_no =? 0 then upd_chan c (λ x, IdeChannel 0x1f0 (0x20 + 14) (expecting_intr x))
       else if channel_no =? 1 then upd_chan c (λ x, IdeChannel 0x170 (0x20 + 15) (expecting_intr x))
       else mret tt) ;;
      upd_chan c (set_expecting false) ;;
      lock_init (chan_lock c) ;;
      sema_init (disk_done c) 0 ;;
      x ← chan_at c;
      register_handler (irq_no x) handler ;;
      init_disk fuel c channel_no 0 ;;
      init_disk fuel c channel_no 1 ;;
      init_channels n fuel (u8 (channel_no + 1)) handler
  end.

Definition ide_init (fuel : nat) (handler : Z) : K (kst H) unit :=
  m ← gets bytes;
  hd_cnt ← lift (load8 m 0x475);
  kASSERT (0 <? hd_cnt) ;;
  on_heap (λ h, qinit h partition_list) ;;
  upd_ide (λ g, IdeGlobals (u8 ((hd_cnt + 2 - 1) / 2)) (ext_lba_base g) (p_no g) (l_no g)) ;;
  g ← gets ide;
  init_channels (Z.to_nat (channel_cnt g)) fuel 0 handler.
End Driver.

(** ** Waiting for the disk *)

Section World.
Context {H : Type} `{Queues H}.

(** The drive at [base] finishes what it does. *)
Definition drive_done (base : Z) : K (kst H) unit :=
  t ← gets atas; a ← lift (deref (t !! base)); upd_ata base (set_busy 0 a).

(** While a thread waits for the channel with interrupt [irq], the drive
    finishes, the interrupt is handled, and the running thread is preempted. *)
Definition disk_world (base irq : Z) : World H :=
  {| others me s := r ← (drive_done base ;; intr_hd_handler irq ;; schedule) s; Ok r.2; rounds := 1; stale _ := false |}.
End World.

(** ** The driver at work on one channel *)

Section Channel.
Context {H : Type} `{Queues H} (no base : Z) (Hno : 0 ≤ no ≤ 1) (Hbase : base mod 8 = 0).

Definition the_channel : Z := channels + sizeof_ide_channel * no.
Definition the_irq : Z := 0x2e + no.
#[local] Instance the_world : World H := disk_world base the_irq.

(** The thread [run] uses the channel: the semaphore is down, nobody waits
    for it, the drive of the disk [hd] is number [dv] of the controller [a]. *)
Record at_work (s : kst H) D Q (run : Z) (ready : list Z) (hd dv : Z) (a : ata) (ex : bool) : Prop := {
  aw_inv : sched_inv s D Q run ready;
  aw_run : ∃ t, tasks s !! run = Some t ∧ status t = TASK_RUNNING;
  aw_tag : unlinked Q (general_tag run);
  aw_idle : ready = [] → idle_waiting s Q ∧ idle_thread s ≠ run;
  aw_hd : ∃ dk, disks s !! hd = Some dk ∧ my_channel dk = the_channel ∧ dev_no dk = dv;
  aw_chan : chans s !! the_channel = Some (IdeChannel base the_irq ex);
  aw_ata : atas s !! base = Some a;
  aw_sema : semas s !! disk_done the_channel = Some 0;
  aw_wait : Q !! waiters (disk_done the_channel) = Some [];
}.

(** What waiting leaves alone. *)
Definition same_locks (s s' : kst H) : Prop :=
  locks s' = locks s ∧ semas s' = semas s ∧ disks s' = disks s ∧ intr s' = intr s.

Lemma at_work_ata s D Q run ready hd dv a ex a' :
  at_work s D Q run ready hd dv a ex → at_work (set_atas (<[base := a']> (atas s)) s) D Q run ready hd dv a' ex.
Proof.
  intros []. split; try done; [by eapply sched_inv_ext; [..|done]|]. cbn. apply lookup_insert_eq.
Qed.
Lemma at_work_chan s D Q run ready hd dv a ex ex' :
  at_work s D Q run ready hd dv a ex →
  at_work (set_chans (<[the_channel := IdeChannel base the_irq ex']> (chans s)) s) D Q run ready hd dv a ex'.
Proof.
  intros []. split; try done; [by eapply sched_inv_ext; [..|done]|]. cbn. apply lookup_insert_eq.
Qed.

Lemma chan_at_ok (s : kst H) c x : chans s !! c = Some x → chan_at c s = Ok (x, s).
Proof. intros Hc. unfold chan_at. by rewrite Hc. Qed.
Lemma upd_chan_ok (s : kst H) c x f : chans s !! c = Some x → upd_chan c f s = Ok (tt, set_chans (<[c := f x]> (chans s)) s).
Proof. intros Hc. unfold upd_chan. by rewrite Hc. Qed.
Lemma disk_at_ok (s : kst H) hd d : disks s !! hd = Some d → disk_at hd s = Ok (d, s).
Proof. intros Hd. unfold disk_at. by rewrite Hd. Qed.

Lemma port_base_eq reg : 0 ≤ reg < 8 → ata_base (base + reg) = base ∧ (base + reg) mod 8 = reg.
Proof. intros Hr. unfold ata_base. dm. Qed.
Lemma outb_ok (s : kst H) a reg v :
  atas s !! base = Some a → 0 ≤ reg < 8 →
  outb (base + reg) v s = Ok (tt, set_atas (<[base := ata_outb a reg (u8 v)]> (atas s)) s).
Proof. intros Ha Hr. unfold outb. destruct (port_base_eq reg Hr) as [-> ->]. kgo. by rewrite Ha. Qed.
Lemma inb_ready (s : kst H) a :
  atas s !! base = Some a → busy a = 0%nat →
  inb (base + 7) s = Ok (match phase a with Quiet => 0x40 | _ => 0x48 end, set_atas (<[base := a]> (atas s)) s).
Proof.
  intros Ha Hb. unfold inb. destruct (port_base_eq 7 ltac:(lia)) as [-> ->]. kgo. rewrite Ha. unfold ata_inb.
  change (7 =? 7) with true. cbv iota. rewrite Hb. done.
Qed.

Lemma channel_facts : u8 (the_irq - 0x2e) = no ∧ waiters (disk_done the_channel) ≠ thread_ready_list ∧
  (the_irq =? 0x2e) || (the_irq =? 0x2f) = true.
Proof.
  unfold the_irq, the_channel, waiters, disk_done, channels, thread_ready_list, sizeof_ide_channel.
  assert (no = 0 ∨ no = 1) as [-> | ->] by lia; split_and!; (reflexivity || discriminate || lia).
Qed.

(** The interrupt of the drive, while [run] sleeps and [next] is running. *)
Lemma disk_interrupt_ok s D Q run next rest a :
  sched_inv s D Q next rest → intr s = false → unlinked Q (general_tag next) →
  (∃ t, tasks s !! next = Some t ∧ status t = TASK_RUNNING) →
  (∃ t, tasks s !! run = Some t ∧ status t = TASK_BLOCKED) →
  chans s !! the_channel = Some (IdeChannel base the_irq true) → atas s !! base = Some a →
  semas s !! disk_done the_channel = Some 0 → Q !! waiters (disk_done the_channel) = Some [general_tag run] →
  ∃ s' Q', others run s = Ok s' ∧ sched_inv s' D Q' run (rest ++ [next]) ∧ unlinked Q' (general_tag run) ∧
    (∃ t, tasks s' !! run = Some t ∧ status t = TASK_RUNNING) ∧
    (∀ l, l ≠ thread_ready_list → l ≠ waiters (disk_done the_channel) → Q' !! l = Q !! l) ∧
    Q' !! waiters (disk_done the_channel) = Some [] ∧
    s' = set_heap (heap s') (set_tasks (tasks s') (set_esp (esp s') (set_cr3 (cr3 s') (set_tss_esp0 (tss_esp0 s')
      (set_chans (<[the_channel := IdeChannel base the_irq false]> (chans s)) (set_atas (<[base := set_busy 0 a]> (atas s))
        (set_semas (<[disk_done the_channel := 1]> (semas s)) s))))))).
Proof.
  intros I Hi Hu (tn & Htn & Hsn) (tr & Htr & Hsr) Hc Ha Hv Hw. destruct channel_facts as (Hirq & Hwr & Hirq2).
  assert (next ≠ run) as Hne by (intros ->; congruence).
  set (sb := set_chans (<[the_channel := IdeChannel base the_irq false]> (chans s)) (set_atas (<[base := set_busy 0 a]> (atas s)) s)).
  assert (sched_inv sb D Q next rest) as Ib by (by eapply sched_inv_ext; [..|exact I]).
  destruct (sema_up_wakes sb D Q next rest (disk_done the_channel) run [] tr Ib Hv Hw Hwr Htr) as (h & Hup & Ic); [by rewrite Hsr|].
  set (sc := set_semas _ _) in Hup, Ic. set (Qc := <[thread_ready_list := _]> _) in Ic.
  assert (tasks sc !! next = Some tn) as Htc by (cbn; by rewrite lookup_alter_ne).
  assert (unlinked Qc (general_tag next)) as Huc.
  { apply unlinked_insert; [apply unlinked_insert; [done|]|].
    - specialize (Hu _ _ Hw). unfold cells in *. cbn. set_solver.
    - specialize (Hu _ _ (si_ready _ _ _ _ _ I)). unfold cells in *. rewrite fmap_cons. intros Hin.
      assert (general_tag next ≠ general_tag run) by (intros ?%general_tag_inj; done). set_solver. }
  assert (requeued tn next (run :: rest) = run :: rest ++ [next]) as Hrq by (unfold requeued; by rewrite bool_decide_eq_true_2).
  destruct (schedule_ok sc D Qc next (run :: rest) tn Ic Hi Htc (λ _, Huc)) as (n' & r' & s' & Hcand & Hsc & I' & Hu' & HT & Hsame & _);
    [by rewrite Hrq|]. unfold candidates in Hcand. rewrite Hrq in Hcand. injection Hcand as <- <-.
  exists s', (<[thread_ready_list := general_tag <$> rest ++ [next]]> Qc). split_and!; [|exact I'|exact Hu'| | | |].
  - cbn [others the_world disk_world]. enough ((drive_done base ;; intr_hd_handler the_irq ;; schedule) s = Ok (tt, s')) as -> by done.
    unfold drive_done. kgo. rewrite Ha. cbn [deref]. kgo. unfold upd_ata. kgo. unfold intr_hd_handler. rewrite Hirq2. kgo. rewrite Hirq. fold the_channel.
    erewrite K_step by (apply chan_at_ok; exact Hc). cbn [irq_no]. rewrite Z.eqb_refl. kgo. cbn [expecting_intr]. cbv iota. kgo.
    erewrite K_step by (apply upd_chan_ok; exact Hc). kgo.
    erewrite K_step by exact Hup. kgo. erewrite K_step by (apply chan_at_ok; cbn; apply lookup_insert_eq). kgo.
    erewrite K_step by (apply (inb_ready sc (set_busy 0 a)); [apply lookup_insert_eq|done]). kgo.
    replace (set_atas _ sc) with sc; [exact Hsc|]. unfold sc, sb. cbn. by rewrite insert_insert_eq.
  - rewrite HT, lookup_alter_ne, lookup_alter_eq by done. unfold requeued_tasks. rewrite bool_decide_eq_true_2 by done.
    rewrite lookup_alter_ne by done. cbn. rewrite lookup_alter_eq, Htr. cbn. eexists. done.
  - intros l Hl1 Hl2. rewrite lookup_insert_ne by done. unfold Qc. by rewrite !lookup_insert_ne by done.
  - rewrite lookup_insert_ne by done. unfold Qc. by rewrite lookup_insert_ne, lookup_insert_eq by done.
  - rewrite Hsame. destruct s. reflexivity.
Qed.

Lemma disk_wait_ok s D Q run ready hd dv a :
  at_work s D Q run ready hd dv a true →
  ∃ s' Q' ready', sema_down (disk_done the_channel) s = Ok (tt, s') ∧ at_work s' D Q' run ready' hd dv (set_busy 0 a) false ∧
    same_locks s s' ∧ ∀ l, l ≠ thread_ready_list → Q' !! l = Q !! l.
Proof.
  intros [I (t & Ht & Hs) Hu Hid Hhd Hc Ha Hv Hw]. destruct channel_facts as (_ & Hwr & _).
  destruct (sema_down_blocks (H1 := the_world) s D Q run ready (disk_done the_channel) [] t I Hv Hw Hwr Hu Ht Hs Hid Nat.lt_0_1)
    as (next & rest & s1 & I1 & Hu1 & Hn1 & Hr1 & Hsame & Hgo).
  destruct (disk_interrupt_ok s1 D _ run next rest a I1 ltac:(by rewrite Hsame) Hu1 Hn1 Hr1 ltac:(by rewrite Hsame) ltac:(by rewrite Hsame)
    ltac:(by rewrite Hsame) ltac:(rewrite lookup_insert_ne, lookup_insert_eq by done; done)) as (s2 & Q2 & Ho & I2 & Hu2 & Hr2 & HQ & HQw & E2).
  specialize (Hgo s2 Ho ltac:(rewrite E2; cbn; apply lookup_insert_eq)).
  eexists _, Q2, (rest ++ [next]). split; [exact Hgo|]. split; [|split].
  - split; cbn.
    + by eapply sched_inv_ext; [..|exact I2].
    + exact Hr2.
    + exact Hu2.
    + intros E. by destruct rest.
    + rewrite E2. cbn. rewrite Hsame. exact Hhd.
    + rewrite E2. cbn. apply lookup_insert_eq.
    + rewrite E2. cbn. apply lookup_insert_eq.
    + apply lookup_insert_eq.
    + exact HQw.
  - unfold same_locks. cbn. rewrite E2. cbn. rewrite Hsame. cbn. rewrite insert_insert_eq, insert_id by done. done.
  - intros l Hl. destruct (decide (l = waiters (disk_done the_channel))) as [-> |Hlw]; [by rewrite HQw, Hw|].
    rewrite HQ by done. by rewrite !lookup_insert_ne by done.
Qed.

(** ** The steps of a transfer *)

Definition drive_of (dv : Z) (a : ata) : sectors := if dv =? 1 then drive1 a else drive0 a.
Definition other_of (dv : Z) (a : ata) : sectors := if dv =? 1 then drive0 a else drive1 a.

(** The controller has [d] on the drive [dv] and all else as it was: the other
    drive, the times it takes, and no new interrupt is left pending. *)
Definition keeps (dv : Z) (d : sectors) (a a' : ata) : Prop :=
  drive_of dv a' = d ∧ other_of dv a' = other_of dv a ∧ latency a' = latency a ∧ gap a' = gap a ∧ pending a' = pending a.

(** The controller after [select_sector]. *)
Definition selected (dv lba op : Z) (a : ata) : ata :=
  Ata (u8 (u8 op)) (u8 lba) (u8 (Z.shiftr lba 8)) (u8 (Z.shiftr lba 16))
    (u8 (Z.lor (Z.lor (Z.lor BIT_DEV_MBS BIT_DEV_LBA) (if dv =? 1 then BIT_DEV_DEV else 0)) (Z.shiftr lba 24)))
    (phase a) (busy a) (latency a) (gap a) (pending a) (drive0 a) (drive1 a) (ident0 a) (ident1 a).

Lemma selected_ok dv lba op a :
  0 ≤ lba ≤ max_lba → 1 ≤ op ≤ 256 →
  ata_lba (selected dv lba op a) = lba ∧ ata_count (selected dv lba op a) = Z.to_nat op ∧
  slave (selected dv lba op a) = (dv =? 1) ∧ drive (selected dv lba op a) = drive_of dv a.
Proof.
  intros Hl Ho. change max_lba with 163839 in Hl.
  assert (Z.shiftr lba 24 = 0) as H24 by (rewrite Z.shiftr_div_pow2 by lia; dm).
  assert (slave (selected dv lba op a) = (dv =? 1)) as Hs.
  { unfold slave, selected. cbn [device]. rewrite H24. destruct (dv =? 1); reflexivity. }
  split_and!; [| |exact Hs|].
  - unfold ata_lba, selected. cbn [lba_l lba_m lba_h device]. rewrite H24. rewrite !Z.shiftr_div_pow2 by lia.
    change (2 ^ 8) with 256. change (2 ^ 16) with 65536.
    assert (u8 (Z.lor (Z.lor (Z.lor BIT_DEV_MBS BIT_DEV_LBA) (if dv =? 1 then BIT_DEV_DEV else 0)) 0) mod 16 = 0) as ->
      by (destruct (dv =? 1); reflexivity). unfold u8. change (2 ^ 8) with 256. dm.
  - unfold ata_count, selected. cbn [sect_cnt]. unfold u8. change (2 ^ 8) with 256. rewrite Zmod_mod.
    destruct (Z.eqb_spec (op mod 256) 0); [replace op with 256 by dm; reflexivity|]. f_equal. dm.
  - unfold drive. rewrite Hs. reflexivity.
Qed.

Lemma select_sector_ok s D Q run ready hd dv a ex lba op :
  at_work s D Q run ready hd dv a ex → lba ≤ max_lba →
  select_sector hd lba op s = Ok (tt, set_atas (<[base := selected dv lba op a]> (atas s)) s).
Proof.
  intros [_ _ _ _ (dk & Hd & Hmc & Hdv) Hc Ha _ _] Hl. unfold select_sector. rewrite (proj2 (Z.leb_le _ _)) by done. kgo.
  kstep (disk_at_ok _ _ _ Hd). rewrite Hmc, Hdv. kstep (chan_at_ok _ _ _ Hc).
  unfold reg_sect_cnt, reg_lba_l, reg_lba_m, reg_lba_h, reg_dev. cbn [port_base].
  erewrite K_step by (apply outb_ok; [exact Ha|lia]). kgo.
  erewrite K_step by (apply outb_ok; [cbn; apply lookup_insert_eq|lia]). kgo.
  erewrite K_step by (apply outb_ok; [cbn; apply lookup_insert_eq|lia]). kgo.
  erewrite K_step by (apply outb_ok; [cbn; apply lookup_insert_eq|lia]). kgo.
  erewrite outb_ok; [|cbn; apply lookup_insert_eq|lia]. cbn. rewrite !insert_insert_eq. done.
Qed.

Lemma select_disk_ok s D Q run ready hd dv a ex :
  at_work s D Q run ready hd dv a ex →
  ∃ a', select_disk hd s = Ok (tt, set_atas (<[base := a']> (atas s)) s) ∧
    keeps dv (drive_of dv a) a a'.
Proof.
  intros [_ _ _ _ (dk & Hd & Hmc & Hdv) Hc Ha _ _]. unfold select_disk. kstep (disk_at_ok _ _ _ Hd). rewrite Hmc.
  kstep (chan_at_ok _ _ _ Hc). unfold reg_dev. cbn [port_base]. eexists. split; [apply outb_ok; [exact Ha|lia]|].
  unfold keeps, drive_of, other_of. split_and!; reflexivity.
Qed.

Lemma cmd_out_ok s D Q run ready hd dv a ex cmd :
  at_work s D Q run ready hd dv a ex →
  ∃ s', cmd_out the_channel cmd s = Ok (tt, s') ∧ at_work s' D Q run ready hd dv (ata_command a (u8 cmd)) true ∧ same_locks s s'.
Proof.
  intros Hw. pose proof Hw as [_ _ _ _ _ Hc Ha _ _]. unfold cmd_out. erewrite K_step by (apply upd_chan_ok; exact Hc). kgo.
  set (s1 := set_chans _ s). pose proof (at_work_chan _ _ _ _ _ _ _ _ _ true Hw : at_work s1 _ _ _ _ _ _ _ _) as Hw1.
  erewrite K_step by (apply chan_at_ok; apply Hw1). unfold reg_cmd, reg_status. cbn [port_base].
  eexists. split; [apply outb_ok; [apply Hw1|lia]|]. split; [eapply at_work_ata; exact Hw1|done].
Qed.

Lemma busy_wait_ok s D Q run ready hd dv a ex :
  at_work s D Q run ready hd dv a ex → busy a = 0%nat →
  busy_wait hd s = Ok (match phase a with Quiet => false | _ => true end, s).
Proof.
  intros [_ _ _ _ (dk & Hd & Hmc & Hdv) Hc Ha _ _] Hb. unfold busy_wait. kstep (disk_at_ok _ _ _ Hd). rewrite Hmc.
  destruct (Z.to_nat 30000) as [|fuel] eqn:Ef; [lia|]. cbn [busy_wait_loop].
  change (u16 (30 * 1000 - 1) =? 0) with false. cbv iota. kstep (chan_at_ok _ _ _ Hc). unfold reg_status. cbn [port_base].
  pose proof (inb_ready s a Ha Hb) as Hi. rewrite (insert_id (atas s)) in Hi by done.
  replace (set_atas (atas s) s) with s in Hi by (by destruct s). kstep Hi.
  destruct (phase a); cbn [Z.land]; unfold BIT_STAT_BSY.
  - change (Z.land 64 128 =? 0) with true. cbv iota. kstep Hi. reflexivity.
  - change (Z.land 72 128 =? 0) with true. cbv iota. kstep Hi. reflexivity.
  - change (Z.land 72 128 =? 0) with true. cbv iota. kstep Hi. reflexivity.
Qed.

Lemma transfer_size op : 1 ≤ op ≤ 256 → Z.to_nat (2 * (size_in_byte op / 2)) = (512 * Z.to_nat op)%nat.
Proof.
  intros Ho. unfold size_in_byte, u8. change (2 ^ 8) with 256. destruct (Z.eqb_spec (op mod 256) 0).
  - replace op with 256 by dm. change (256 * 512 / 2) with 65536. lia.
  - rewrite (Z.mod_small op) by dm. replace (op * 512) with (op * 256 * 2) by lia. rewrite Z.div_mul by lia. lia.
Qed.

(** An interrupt that nobody expects changes nothing. *)
Lemma intr_unexpected (s : kst H) : chans s !! the_channel = Some (IdeChannel base the_irq false) →
  intr_hd_handler the_irq s = Ok (tt, s).
Proof.
  intros Hc. destruct channel_facts as (Hirq & _ & Hirq2). unfold intr_hd_handler. rewrite Hirq2. kgo. rewrite Hirq. fold the_channel.
  kstep (chan_at_ok _ _ _ Hc). cbn [irq_no]. rewrite Z.eqb_refl. kgo. done.
Qed.
Lemma raise_unexpected (s : kst H) : chans s !! the_channel = Some (IdeChannel base the_irq false) → intr s = true →
  raise_intr (intr_hd_handler the_irq) base s = Ok (tt, s).
Proof.
  intros Hc Hi. unfold raise_intr. kgo. rewrite Hi. kgo. erewrite K_step by (by apply intr_unexpected). unfold modify. destruct s. cbn in *. by rewrite Hi.
Qed.

Lemma block_rest_full (data : list Z) k : length data = (512 * S k)%nat → block_rest data = 512%nat.
Proof.
  intros Hl. unfold block_rest. rewrite Hl. replace (512 * S k - 1)%nat with (511 + k * 512)%nat by lia.
  rewrite Nat.Div0.mod_add. reflexivity.
Qed.

(** One block of several. *)
Lemma ata_in_block a data k : phase a = Giving data → busy a = 0%nat → length data = (512 * S k)%nat →
  ata_in a 512 = Some (take 512 data, set_phase (giving (drop 512 data)) (if bool_decide (k ≠ 0%nat) then gap a else 0%nat) a,
    bool_decide (k ≠ 0%nat)).
Proof.
  intros Hp Hb Hl. unfold ata_in. rewrite Hp, Hb, (block_rest_full data k Hl), !bool_decide_eq_true_2 by lia.
  replace (bool_decide (512 < length data)%nat) with (bool_decide (k ≠ 0%nat)) by (apply bool_decide_ext; lia). done.
Qed.
Lemma insw_loop_step fuel intrq k (s : kst H) a data : atas s !! base = Some a → phase a = Giving data → busy a = 0%nat →
  length data = (512 * S k)%nat →
  insw_loop (S fuel) intrq base (512 * S k) s =
    ((if bool_decide (k ≠ 0%nat) then raise_intr intrq base else mret tt) ;;
     rest ← insw_loop fuel intrq base (512 * k); mret (take 512 data ++ rest))
      (set_atas (<[base := set_phase (giving (drop 512 data)) (if bool_decide (k ≠ 0%nat) then gap a else 0%nat) a]> (atas s)) s).
Proof.
  intros Ha Hp Hb Hl. replace (512 * S k)%nat with (S (511 + 512 * k))%nat by lia. cbn [insw_loop]. kgo. rewrite Ha. cbn [deref]. kgo.
  unfold block_of. rewrite Hp, (block_rest_full data k Hl).
  replace (Nat.min (S (511 + 512 * k)) 512) with 512%nat by lia. rewrite (ata_in_block a data k Hp Hb Hl). cbn [deref]. kgo.
  unfold upd_ata. kgo. replace (S (511 + 512 * k) - 512)%nat with (512 * k)%nat by lia. done.
Qed.

Lemma giving_some data : data ≠ [] → giving data = Giving data.
Proof. by destruct data. Qed.

Lemma insw_loop_ok k : ∀ fuel (s : kst H) a data, chans s !! the_channel = Some (IdeChannel base the_irq false) →
  atas s !! base = Some a → phase a = Giving data → busy a = 0%nat → length data = (512 * S k)%nat → (k < fuel)%nat →
  k = 0%nat ∨ (gap a = 0%nat ∧ intr s = true) →
  insw_loop fuel (intr_hd_handler the_irq) base (512 * S k) s = Ok (data, set_atas (<[base := set_phase Quiet 0 a]> (atas s)) s).
Proof.
  induction k as [|k IH]; intros fuel s a data Hc Ha Hp Hb Hl Hf Hg; (destruct fuel as [|fuel]; [lia|]);
    rewrite (insw_loop_step _ _ _ s a data Ha Hp Hb Hl).
  - rewrite bool_decide_eq_false_2 by lia. kgo. replace (512 * 0)%nat with 0%nat by lia. rewrite drop_ge, take_ge by lia.
    destruct fuel; cbn [insw_loop]; kgo; by rewrite app_nil_r.
  - rewrite bool_decide_eq_true_2 by lia. destruct Hg as [|[Hg Hi]]; [lia|].
    rewrite giving_some by (intros E; apply (f_equal length) in E; rewrite length_drop in E; simpl in E; lia).
    set (a1 := set_phase _ _ a). set (s1 := set_atas _ s). kstep (raise_unexpected s1 Hc Hi).
    erewrite K_step by (apply (IH fuel s1 a1 (drop 512 data)); [exact Hc|apply lookup_insert_eq|done|exact Hg|rewrite length_drop; lia|lia|by right]).
    unfold mret, K_ret. rewrite take_drop. unfold s1. cbn [atas set_atas]. by rewrite insert_insert_eq.
Qed.

(** No block is transferred while the drive is busy. *)
Lemma insw_loop_stuck fuel intrq left (s : kst H) a : left ≠ 0%nat → atas s !! base = Some a → busy a ≠ 0%nat →
  insw_loop (S fuel) intrq base left s = Fault.
Proof.
  intros Hl Ha Hb. destruct left as [|left]; [done|]. cbn [insw_loop]. kgo. rewrite Ha. cbn [deref]. kgo.
  unfold ata_in. destruct (phase a), (busy a); done.
Qed.

(** A drive that is busy between two sectors, and more than one of them. *)
Lemma insw_loop_gap k fuel (s : kst H) a data : chans s !! the_channel = Some (IdeChannel base the_irq false) →
  atas s !! base = Some a → phase a = Giving data → busy a = 0%nat → length data = (512 * S (S k))%nat → gap a ≠ 0%nat →
  insw_loop (S (S fuel)) (intr_hd_handler the_irq) base (512 * S (S k)) s = Fault.
Proof.
  intros Hc Ha Hp Hb Hl Hg. rewrite (insw_loop_step _ _ _ s a data Ha Hp Hb Hl), bool_decide_eq_true_2 by lia.
  rewrite giving_some by (intros E; apply (f_equal length) in E; rewrite length_drop in E; simpl in E; lia).
  set (a1 := set_phase _ _ a). set (s1 := set_atas _ s).
  assert (∃ s2 a2, raise_intr (intr_hd_handler the_irq) base s1 = Ok (tt, s2) ∧ atas s2 !! base = Some a2 ∧
    phase a2 = phase a1 ∧ busy a2 = gap a) as (s2 & a2 & Hr & Ha2 & Hp2 & Hb2).
  { destruct (intr s) eqn:Hi.
    - exists s1, a1. split_and!; [by apply raise_unexpected|apply lookup_insert_eq|done|done].
    - exists (set_atas (<[base := set_pending a1]> (atas s1)) s1), (set_pending a1). split_and!; [|apply lookup_insert_eq|done|done].
      unfold raise_intr. kgo. change (intr s1) with (intr s). rewrite Hi. kgo. unfold s1 at 1. cbn [atas set_atas].
      rewrite lookup_insert_eq. cbn [deref]. kgo. done. }
  kstep Hr. apply K_fault. apply (insw_loop_stuck _ _ _ _ a2); [lia|exact Ha2|congruence].
Qed.

(** The bytes of a transfer, and a transfer. *)
Lemma read_from_sector_eq s D Q run ready hd dv a ex op :
  at_work s D Q run ready hd dv a ex → 1 ≤ op ≤ 256 →
  read_from_sector hd op s = insw_loop (512 * Z.to_nat op) (intr_hd_handler the_irq) base (512 * Z.to_nat op) s.
Proof.
  intros [_ _ _ _ (dk & Hd & Hmc & Hdv) Hc Ha _ _] Ho. unfold read_from_sector. kstep (disk_at_ok _ _ _ Hd). rewrite Hmc.
  kstep (chan_at_ok _ _ _ Hc). unfold reg_data. cbn [port_base irq_no]. unfold insw. destruct (port_base_eq 0 ltac:(lia)) as [-> _].
  by rewrite transfer_size.
Qed.
Lemma read_from_sector_ok s D Q run ready hd dv a op data :
  at_work s D Q run ready hd dv a false → 1 ≤ op ≤ 256 → phase a = Giving data → busy a = 0%nat → length data = (512 * Z.to_nat op)%nat →
  op = 1 ∨ (gap a = 0%nat ∧ intr s = true) →
  read_from_sector hd op s = Ok (data, set_atas (<[base := set_phase Quiet 0 a]> (atas s)) s).
Proof.
  intros Hw Ho Hp Hb Hl Hg. rewrite (read_from_sector_eq _ _ _ _ _ _ _ _ _ _ Hw Ho).
  destruct (Z.to_nat op) as [|k] eqn:Ek; [lia|]. eapply insw_loop_ok; [apply Hw|apply Hw|exact Hp|exact Hb|exact Hl|lia|].
  destruct Hg; [left; lia|by right].
Qed.
Lemma read_from_sector_gap s D Q run ready hd dv a op data :
  at_work s D Q run ready hd dv a false → 2 ≤ op ≤ 256 → phase a = Giving data → busy a = 0%nat → length data = (512 * Z.to_nat op)%nat →
  gap a ≠ 0%nat → read_from_sector hd op s = Fault.
Proof.
  intros Hw Ho Hp Hb Hl Hg. rewrite (read_from_sector_eq _ _ _ _ _ _ _ _ _ op Hw ltac:(lia)).
  destruct (Z.to_nat op) as [|[|k]] eqn:Ek; [lia|lia|]. replace (512 * S (S k))%nat with (S (S (1022 + 512 * k)))%nat at 1 by lia.
  eapply insw_loop_gap; [apply Hw|apply Hw|exact Hp|exact Hb|exact Hl|exact Hg].
Qed.

(** ** Reading *)

Lemma same_locks_trans (s1 s2 s3 : kst H) : same_locks s1 s2 → same_locks s2 s3 → same_locks s1 s3.
Proof. intros (L1 & L2 & L3 & L4) (M1 & M2 & M3 & M4). split_and!; congruence. Qed.

(** [s'] and the queues [Q'] are what a round leaves. *)
Definition round_done (s s' : kst H) (Q Q' : gmap Z (list Z)) : Prop :=
  same_locks s s' ∧ ∀ l, l ≠ thread_ready_list → Q' !! l = Q !! l.

Lemma round_done_trans s1 s2 s3 Q1 Q2 Q3 : round_done s1 s2 Q1 Q2 → round_done s2 s3 Q2 Q3 → round_done s1 s3 Q1 Q3.
Proof.
  intros [L1 E1] [L2 E2]. split; [by eapply same_locks_trans|]. intros l Hl. by rewrite E2, E1.
Qed.

(** A round up to the answer of the drive, which has the sectors or not. *)
Lemma read_request s D Q run ready hd dv a lba op {B} (f : K (kst H) B) :
  at_work s D Q run ready hd dv a false → 0 ≤ lba ≤ max_lba → 1 ≤ op ≤ 256 →
  ∃ s' Q' ready' a', (select_sector hd lba op ;; d ← disk_at hd; cmd_out (my_channel d) CMD_READ_SECTOR ;;
      sema_down (disk_done (my_channel d)) ;; ok ← busy_wait hd; if negb ok then lift Panic else f) s =
      (if bool_decide (read_prefix (drive_of dv a) lba (Z.to_nat op) = []) then Panic else f s') ∧
    at_work s' D Q' run ready' hd dv a' false ∧ keeps dv (drive_of dv a) a a' ∧ busy a' = 0%nat ∧
    phase a' = giving (read_prefix (drive_of dv a) lba (Z.to_nat op)) ∧
    round_done s s' Q Q'.
Proof.
  intros Hw Hl Ho. destruct (selected_ok dv lba op a Hl Ho) as (Sl & Sc & Ss & Sd).
  kstep (select_sector_ok s _ _ _ _ _ _ _ _ lba op Hw ltac:(lia)). pose proof (at_work_ata _ _ _ _ _ _ _ _ _ (selected dv lba op a) Hw) as Hw1.
  set (s1 := set_atas _ s) in *. destruct (aw_hd _ _ _ _ _ _ _ _ _ Hw1) as (dk & Hd & Hmc & _). kstep (disk_at_ok _ _ _ Hd). rewrite Hmc.
  destruct (cmd_out_ok s1 _ _ _ _ _ _ _ _ CMD_READ_SECTOR Hw1) as (s2 & Hcmd & Hw2 & L2). kstep Hcmd.
  destruct (disk_wait_ok s2 _ _ _ _ _ _ _ Hw2) as (s3 & Q3 & ready3 & Hsd & Hw3 & L3 & HQ3). kstep Hsd.
  change (u8 CMD_READ_SECTOR) with 0x20 in Hw3. unfold ata_command in Hw3. change (0x20 =? 0x20) with true in Hw3. cbv iota in Hw3.
  rewrite Sd, Sl, Sc in Hw3. kstep (busy_wait_ok s3 _ _ _ _ _ _ _ _ Hw3 eq_refl).
  eexists s3, Q3, ready3, _. split; [|split; [exact Hw3|]].
  - cbn [phase set_busy set_phase]. destruct (read_prefix _ _ _); reflexivity.
  - split_and!; [split_and!; reflexivity|reflexivity|reflexivity|]. split; [|exact HQ3].
    exact (same_locks_trans s1 s2 s3 L2 L3).
Qed.

Lemma secs_op_ok secs_done sec_cnt :
  0 ≤ secs_done < sec_cnt → sec_cnt < 2 ^ 32 - 256 →
  secs_op secs_done sec_cnt = Z.min 256 (sec_cnt - secs_done) ∧ u32 (secs_done + secs_op secs_done sec_cnt) = secs_done + secs_op secs_done sec_cnt.
Proof.
  intros Hs Hc. unfold secs_op. rewrite (u32_small (secs_done + 256)), (u32_small (sec_cnt - secs_done)) by lia.
  destruct (Z.leb_spec (secs_done + 256) sec_cnt); rewrite u32_small by lia; lia.
Qed.

(** The loop, when there is something left to do. *)
Lemma ide_read_loop_next fuel hd lba secs_done sec_cnt :
  secs_done < sec_cnt →
  ide_read_loop (S fuel) hd lba secs_done sec_cnt =
    (select_sector hd (u32 (lba + secs_done)) (secs_op secs_done sec_cnt) ;;
     d ← disk_at hd;
     cmd_out (my_channel d) CMD_READ_SECTOR ;;
     sema_down (disk_done (my_channel d)) ;;
     ok ← busy_wait hd;
     if negb ok then lift Panic
     else
       bs ← read_from_sector hd (secs_op secs_done sec_cnt);
       rest ← ide_read_loop fuel hd lba (u32 (secs_done + secs_op secs_done sec_cnt)) sec_cnt;
       mret (bs ++ rest)).
Proof. intros Hs. cbn [ide_read_loop]. by rewrite (proj2 (Z.ltb_lt _ _)) by lia. Qed.

Lemma ide_read_loop_ok fuel s D Q run ready hd dv a lba secs_done sec_cnt bs :
  at_work s D Q run ready hd dv a false → sectors_ok (drive_of dv a) → 0 ≤ lba → 0 ≤ secs_done ≤ sec_cnt →
  lba + sec_cnt ≤ max_lba + 1 → sec_cnt - secs_done ≤ 256 * Z.of_nat fuel →
  sec_cnt = 1 ∨ (gap a = 0%nat ∧ intr s = true) →
  read_run (drive_of dv a) (lba + secs_done) (Z.to_nat (sec_cnt - secs_done)) = Some bs →
  ∃ s' Q' ready' a', ide_read_loop (S fuel) hd lba secs_done sec_cnt s = Ok (bs, s') ∧
    at_work s' D Q' run ready' hd dv a' false ∧ keeps dv (drive_of dv a) a a' ∧ round_done s s' Q Q'.
Proof.
  intros Hw Hok Hl. change max_lba with 163839. revert s Q ready a secs_done bs Hw Hok.
  induction fuel as [|fuel IH]; intros s Q ready a secs_done bs Hw Hok Hs Hm Hf Hg Hr.
  1: assert (secs_done = sec_cnt) as -> by lia. 2: destruct (decide (secs_done = sec_cnt)) as [-> | Hne].
  1, 2: rewrite Z.sub_diag in Hr; injection Hr as <-; exists s, Q, ready, a; cbn [ide_read_loop]; rewrite Z.ltb_irrefl; split_and!; done.
  destruct (secs_op_ok secs_done sec_cnt ltac:(lia) ltac:(lia)) as (Hop & Hadd). rewrite ide_read_loop_next by lia.
  rewrite Hadd, (u32_small (lba + secs_done)) by lia.
  remember (secs_op secs_done sec_cnt) as op eqn:Eop. clear Eop.
  replace (Z.to_nat (sec_cnt - secs_done)) with (Z.to_nat op + Z.to_nat (sec_cnt - (secs_done + op)))%nat in Hr by lia.
  rewrite read_run_app in Hr. destruct (read_run (drive_of dv a) (lba + secs_done) (Z.to_nat op)) as [b1|] eqn:R1; [|done].
  cbn [mbind option_bind] in Hr. replace (lba + secs_done + Z.of_nat (Z.to_nat op)) with (lba + (secs_done + op)) in Hr by lia.
  destruct (read_run _ (lba + (secs_done + op)) _) as [b2|] eqn:R2; [|done]. cbn [mbind option_bind] in Hr. injection Hr as <-.
  match goal with |- context [busy_wait hd ≫= λ ok, if negb ok then lift Panic else ?f] =>
    destruct (read_request s D Q run ready hd dv a (lba + secs_done) op f Hw) as (s1 & Q1 & ready1 & a1 & Hreq & Hw1 & (K1 & K2 & K3 & K4 & K5) & Hb1 & Hp1 & Hrd1);
      [change max_lba with 163839; lia|lia|] end.
  destruct (read_run_ok _ _ _ _ Hok R1) as [Hlen _]. rewrite (read_run_prefix _ _ _ _ R1) in Hreq, Hp1.
  assert (b1 ≠ []) as Hb1n by (intros ->; cbn [length] in Hlen; lia). rewrite bool_decide_eq_false_2 in Hreq by done. rewrite giving_some in Hp1 by done.
  assert (intr s1 = intr s) as Hi1 by apply Hrd1.
  pose proof (read_from_sector_ok s1 _ _ _ _ _ _ _ op b1 Hw1 ltac:(lia) Hp1 Hb1 Hlen ltac:(rewrite K4, Hi1; destruct Hg; [left; lia|by right])) as Hrs.
  pose proof (at_work_ata _ _ _ _ _ _ _ _ _ (set_phase Quiet 0 a1) Hw1) as Hw2. set (s2 := set_atas _ s1) in Hrs, Hw2.
  set (a2 := set_phase _ _ a1) in *. assert (drive_of dv a2 = drive_of dv a) as Kd by exact K1. rewrite <- Kd in R2, Hok.
  destruct (IH s2 Q1 ready1 a2 (secs_done + op) b2 Hw2 Hok ltac:(lia) Hm ltac:(lia) ltac:(change (gap a2) with (gap a1); change (intr s2) with (intr s1); by rewrite K4, Hi1) R2)
    as (s3 & Q3 & ready3 & a3 & Hlp & Hw3 & (M1 & M2 & M3 & M4 & M5) & Hrd3).
  exists s3, Q3, ready3, a3. split_and!; [|exact Hw3| |].
  - rewrite Hreq. kstep Hrs. kstep Hlp. done.
  - split_and!; [by rewrite M1|by rewrite M2|by rewrite M3|by rewrite M4|by rewrite M5].
  - eapply round_done_trans; [exact Hrd1|exact Hrd3].
Qed.

(** The channel is free: nobody holds its lock. *)
Lemma at_work_acquired s D Q run ready hd dv a ex :
  at_work s D Q run ready hd dv a ex → lock_free s Q (chan_lock the_channel) →
  current s = run ∧ lock_acquire (chan_lock the_channel) s = Ok (tt, acquired s (chan_lock the_channel) run) ∧
  at_work (acquired s (chan_lock the_channel) run) D Q run ready hd dv a ex.
Proof.
  intros Hw Hf. pose proof (running_thread_ok _ _ _ _ _ (aw_inv _ _ _ _ _ _ _ _ _ Hw)) as Hrt.
  rewrite running_thread_current in Hrt. injection Hrt as Hcur. split; [done|]. split.
  - rewrite <- Hcur. apply (lock_acquire_free s Q); [|done]. rewrite Hcur.
    destruct (si_run_page _ _ _ _ _ (aw_inv _ _ _ _ _ _ _ _ _ Hw)). unfold NULL. lia.
  - destruct Hw. split; try done; [by eapply sched_inv_ext; [..|done]|]. cbn.
    rewrite lookup_insert_ne; [done|]. unfold lock_semaphore, chan_lock, disk_done. lia.
Qed.

Lemma at_work_released s s1 D Q Q1 run ready hd dv a ex :
  lock_free s Q (chan_lock the_channel) → at_work s1 D Q1 run ready hd dv a ex →
  round_done (acquired s (chan_lock the_channel) run) s1 Q Q1 →
  lock_release (chan_lock the_channel) s1 = Ok (tt, released s1 (chan_lock the_channel)) ∧
  at_work (released s1 (chan_lock the_channel)) D Q1 run ready hd dv a ex ∧
  lock_free (released s1 (chan_lock the_channel)) Q1 (chan_lock the_channel).
Proof.
  intros (Hl & Hv & Hq) Hw [(L1 & L2 & _ & _) HQ].
  pose proof (running_thread_ok _ _ _ _ _ (aw_inv _ _ _ _ _ _ _ _ _ Hw)) as Hrt.
  rewrite running_thread_current in Hrt. injection Hrt as Hcur.
  assert (Q1 !! waiters (lock_semaphore (chan_lock the_channel)) = Some []) as Hq1.
  { rewrite HQ; [done|]. unfold waiters, lock_semaphore, chan_lock, the_channel, channels, thread_ready_list, sizeof_ide_channel. lia. }
  split; [|split].
  - apply (lock_release_last s1 Q1); [|apply Hw]. rewrite Hcur. unfold lock_held. rewrite L1, L2. cbn. rewrite !lookup_insert_eq. done.
  - destruct Hw. split; try done; [by eapply sched_inv_ext; [..|done]|]. cbn.
    rewrite lookup_insert_ne; [done|]. unfold lock_semaphore, chan_lock, disk_done. lia.
  - unfold lock_free. cbn. rewrite !lookup_insert_eq. done.
Qed.

Lemma ide_read_ok s D Q run ready hd dv a lba sec_cnt bs :
  at_work s D Q run ready hd dv a false → lock_free s Q (chan_lock the_channel) → sectors_ok (drive_of dv a) →
  0 ≤ lba → 0 < sec_cnt → lba + sec_cnt ≤ max_lba + 1 → sec_cnt = 1 ∨ (gap a = 0%nat ∧ intr s = true) →
  read_run (drive_of dv a) lba (Z.to_nat sec_cnt) = Some bs →
  ∃ s' Q' ready' a', ide_read hd lba sec_cnt s = Ok (bs, s') ∧ at_work s' D Q' run ready' hd dv a' false ∧
    lock_free s' Q' (chan_lock the_channel) ∧ keeps dv (drive_of dv a) a a'.
Proof.
  intros Hw Hf Hok Hl Hc Hm Hg Hr. destruct (at_work_acquired _ _ _ _ _ _ _ _ _ Hw Hf) as (Hcur & Hacq & Hw1).
  destruct (select_disk_ok _ _ _ _ _ _ _ _ _ Hw1) as (a1 & Hsel & K1 & K2 & K3 & K4 & K5).
  pose proof (at_work_ata _ _ _ _ _ _ _ _ _ a1 Hw1) as Hw2. set (s1 := acquired s _ run) in *. set (s2 := set_atas _ s1) in *.
  rewrite <- K1 in Hok, Hr. rewrite <- (Z.add_0_r lba) in Hr. rewrite <- (Z.sub_0_r sec_cnt) in Hr.
  destruct (ide_read_loop_ok (Z.to_nat (sec_cnt / 256 + 1)) s2 D Q run ready hd dv a1 lba 0 sec_cnt bs Hw2 Hok Hl ltac:(lia) Hm ltac:(dm) ltac:(by rewrite K4) Hr)
    as (s3 & Q3 & ready3 & a3 & Hlp & Hw3 & (M1 & M2 & M3 & M4 & M5) & Hrd).
  destruct (at_work_released s s3 D Q Q3 run ready3 hd dv a3 false Hf Hw3 Hrd) as (Hrel & Hw4 & Hf4).
  eexists _, Q3, ready3, a3. split; [|split; [exact Hw4|split; [exact Hf4|split_and!; congruence]]].
  unfold ide_read. change max_lba with 163839 in *. rewrite (proj2 (Z.leb_le _ _)), (proj2 (Z.ltb_lt _ _)) by lia. kgo.
  destruct (aw_hd _ _ _ _ _ _ _ _ _ Hw) as (dk & Hd & Hmc & _). kstep (disk_at_ok _ _ _ Hd). rewrite Hmc. kstep Hacq. kstep Hsel.
  unfold rounds_for. kstep Hlp. kstep Hrel. done.
Qed.

(** Sectors that the drive does not have. *)
Lemma ide_read_missing_ok s D Q run ready hd dv a lba sec_cnt :
  at_work s D Q run ready hd dv a false → lock_free s Q (chan_lock the_channel) →
  0 ≤ lba ≤ max_lba → 0 < sec_cnt < 2 ^ 32 - 256 → drive_of dv a !! lba = None →
  ide_read hd lba sec_cnt s = Panic.
Proof.
  intros Hw Hf Hl Hc Hr. destruct (at_work_acquired _ _ _ _ _ _ _ _ _ Hw Hf) as (Hcur & Hacq & Hw1).
  destruct (select_disk_ok _ _ _ _ _ _ _ _ _ Hw1) as (a1 & Hsel & K1 & _).
  pose proof (at_work_ata _ _ _ _ _ _ _ _ _ a1 Hw1) as Hw2. rewrite <- K1 in Hr.
  unfold ide_read. rewrite (proj2 (Z.leb_le _ _)), (proj2 (Z.ltb_lt _ _)) by lia. kgo.
  destruct (aw_hd _ _ _ _ _ _ _ _ _ Hw) as (dk & Hd & Hmc & _). kstep (disk_at_ok _ _ _ Hd). rewrite Hmc. kstep Hacq. kstep Hsel.
  unfold rounds_for. destruct (secs_op_ok 0 sec_cnt ltac:(lia) ltac:(lia)) as (Hop & _). apply K_panic.
  change max_lba with 163839 in *. rewrite ide_read_loop_next, Z.add_0_r, (u32_small lba) by lia.
  match goal with |- context [busy_wait hd ≫= λ ok, if negb ok then lift Panic else ?f] =>
    destruct (read_request _ D Q run ready hd dv a1 lba (secs_op 0 sec_cnt) f Hw2 ltac:(change max_lba with 163839; lia) ltac:(lia)) as (s3 & Q3 & r3 & a3 & Hreq & _) end.
  rewrite bool_decide_eq_true_2 in Hreq; [exact Hreq|]. destruct (Z.to_nat (secs_op 0 sec_cnt)); [done|]. cbn [read_prefix]. by rewrite Hr.
Qed.

(** More than one sector, from a drive that pauses between them. *)
Lemma ide_read_gap s D Q run ready hd dv a lba sec_cnt bs :
  at_work s D Q run ready hd dv a false → lock_free s Q (chan_lock the_channel) → sectors_ok (drive_of dv a) →
  0 ≤ lba → 2 ≤ sec_cnt → lba + sec_cnt ≤ max_lba + 1 → gap a ≠ 0%nat →
  read_run (drive_of dv a) lba (Z.to_nat sec_cnt) = Some bs → ide_read hd lba sec_cnt s = Fault.
Proof.
  intros Hw Hf Hok Hl Hc Hm Hg Hr. destruct (at_work_acquired _ _ _ _ _ _ _ _ _ Hw Hf) as (Hcur & Hacq & Hw1).
  destruct (select_disk_ok _ _ _ _ _ _ _ _ _ Hw1) as (a1 & Hsel & K1 & _ & _ & K4 & _).
  pose proof (at_work_ata _ _ _ _ _ _ _ _ _ a1 Hw1) as Hw2. rewrite <- K1 in Hr, Hok. change max_lba with 163839 in *.
  unfold ide_read. change max_lba with 163839. rewrite (proj2 (Z.leb_le _ _)), (proj2 (Z.ltb_lt _ _)) by lia. kgo.
  destruct (aw_hd _ _ _ _ _ _ _ _ _ Hw) as (dk & Hd & Hmc & _). kstep (disk_at_ok _ _ _ Hd). rewrite Hmc. kstep Hacq. kstep Hsel.
  unfold rounds_for. destruct (secs_op_ok 0 sec_cnt ltac:(lia) ltac:(lia)) as (Hop & _). apply K_fault.
  rewrite ide_read_loop_next, Z.add_0_r, (u32_small lba) by lia. set (op := secs_op 0 sec_cnt) in *.
  replace (Z.to_nat sec_cnt) with (Z.to_nat op + Z.to_nat (sec_cnt - op))%nat in Hr by lia. rewrite read_run_app in Hr.
  destruct (read_run (drive_of dv a1) lba (Z.to_nat op)) as [b1|] eqn:R1; [|done].
  match goal with |- context [busy_wait hd ≫= λ ok, if negb ok then lift Panic else ?f] =>
    destruct (read_request _ D Q run ready hd dv a1 lba op f Hw2 ltac:(change max_lba with 163839; lia) ltac:(lia))
      as (s3 & Q3 & r3 & a3 & Hreq & Hw3 & (_ & _ & _ & M4 & _) & Hb3 & Hp3 & _) end.
  destruct (read_run_ok _ _ _ _ Hok R1) as [Hlen _]. rewrite (read_run_prefix _ _ _ _ R1) in Hreq, Hp3.
  assert (b1 ≠ []) as Hb1n by (intros ->; cbn [length] in Hlen; lia). rewrite bool_decide_eq_false_2 in Hreq by done. rewrite giving_some in Hp3 by done.
  rewrite Hreq. apply K_fault. eapply read_from_sector_gap; [exact Hw3|lia|exact Hp3|exact Hb3|exact Hlen|congruence].
Qed.

(** ** Writing *)

Lemma outsw_block fuel intrq (s : kst H) a bs a' : atas s !! base = Some a → length bs = 512%nat →
  ata_out a bs = Some (a', false) → outsw_loop (S fuel) intrq base bs s = Ok (tt, set_atas (<[base := a']> (atas s)) s).
Proof.
  intros Ha Hl Ho. assert (take 512 bs = bs ∧ drop 512 bs = []) as [E1 E2] by (by rewrite take_ge, drop_ge by lia).
  destruct bs as [|x bs]; [done|]. cbn [outsw_loop]. kgo. rewrite Ha. cbn [deref]. kgo. rewrite E1, Ho. cbn [deref]. kgo.
  unfold upd_ata. kgo. rewrite E2. by destruct fuel.
Qed.

Lemma write2sector_ok s D Q run ready hd dv a ex lba bs d' :
  at_work s D Q run ready hd dv a ex → phase a = Taking lba 1 → busy a = 0%nat → (512 ≤ length bs)%nat →
  write_run (drive a) lba 1 (take 512 bs) = Some d' →
  write2sector hd bs 1 s = Ok (tt, set_atas (<[base := set_phase Quiet (latency a) (set_drive d' a)]> (atas s)) s).
Proof.
  intros [_ _ _ _ (dk & Hd & Hmc & Hdv) Hc Ha _ _] Hp Hb Hl Hwr. unfold write2sector. kstep (disk_at_ok _ _ _ Hd). rewrite Hmc.
  kstep (chan_at_ok _ _ _ Hc). unfold reg_data. cbn [port_base irq_no]. unfold outsw. rewrite transfer_size by lia.
  change (512 * Z.to_nat 1)%nat with 512%nat. rewrite bool_decide_eq_false_2 by lia. kgo. destruct (port_base_eq 0 ltac:(lia)) as [-> _].
  assert (length (take 512 bs) = 512%nat) as Ht by (rewrite length_take; lia).
  apply (outsw_block 511 _ s a); [exact Ha|exact Ht|].
  unfold ata_out. rewrite Hp, Hb, bool_decide_eq_true_2 by done. by rewrite Hwr.
Qed.

(** A round of writing one sector, for a drive that takes data at once. *)
Lemma write_round s D Q run ready hd dv a lba bs d' {B} (f : K (kst H) B) :
  at_work s D Q run ready hd dv a false → latency a = 0%nat → 0 ≤ lba ≤ max_lba → (512 ≤ length bs)%nat →
  write_run (drive_of dv a) lba 1 (take 512 bs) = Some d' →
  ∃ s' Q' ready' a', (select_sector hd lba 1 ;; d ← disk_at hd; cmd_out (my_channel d) CMD_WRITE_SECTOR ;;
      ok ← busy_wait hd; if negb ok then lift Panic else write2sector hd bs 1 ;; sema_down (disk_done (my_channel d)) ;; f) s = f s' ∧
    at_work s' D Q' run ready' hd dv a' false ∧ keeps dv d' a a' ∧ round_done s s' Q Q'.
Proof.
  intros Hw Hlat Hl Hb Hwr. destruct (selected_ok dv lba 1 a Hl ltac:(lia)) as (Sl & Sc & Ss & Sd).
  kstep (select_sector_ok s _ _ _ _ _ _ _ _ lba 1 Hw ltac:(lia)). pose proof (at_work_ata _ _ _ _ _ _ _ _ _ (selected dv lba 1 a) Hw) as Hw1.
  set (s1 := set_atas _ s) in *. destruct (aw_hd _ _ _ _ _ _ _ _ _ Hw1) as (dk & Hd & Hmc & _). kstep (disk_at_ok _ _ _ Hd). rewrite Hmc.
  destruct (cmd_out_ok s1 _ _ _ _ _ _ _ _ CMD_WRITE_SECTOR Hw1) as (s2 & Hcmd & Hw2 & L2). kstep Hcmd.
  change (u8 CMD_WRITE_SECTOR) with 0x30 in Hw2. unfold ata_command in Hw2. change (0x30 =? 0x20) with false in Hw2.
  change (0x30 =? 0x30) with true in Hw2. cbv iota in Hw2. rewrite Sl, Sc in Hw2. set (a2 := set_phase _ _ _) in Hw2.
  kstep (busy_wait_ok s2 _ _ _ _ _ _ _ _ Hw2 Hlat). cbn [phase a2 set_phase negb]. cbv iota. kgo.
  assert (slave a2 = (dv =? 1)) as Ss2 by exact Ss. assert (drive a2 = drive_of dv a) as Sd2 by exact Sd. rewrite <- Sd2 in Hwr.
  kstep (write2sector_ok s2 _ _ _ _ _ _ _ _ lba bs d' Hw2 eq_refl Hlat Hb Hwr).
  pose proof (at_work_ata _ _ _ _ _ _ _ _ _ (set_phase Quiet (latency a2) (set_drive d' a2)) Hw2) as Hw3. set (s3 := set_atas _ s2) in *.
  destruct (disk_wait_ok s3 _ _ _ _ _ _ _ Hw3) as (s4 & Q4 & ready4 & Hsd & Hw4 & L4 & HQ4). kstep Hsd.
  eexists s4, Q4, ready4, _. split; [reflexivity|]. split; [exact Hw4|]. split; [|split; [|exact HQ4]].
  - unfold keeps, drive_of, other_of. cbn [drive0 drive1 latency gap pending set_busy set_phase set_drive]. rewrite Ss2.
    destruct (dv =? 1); split_and!; reflexivity.
  - exact (same_locks_trans s1 s3 s4 L2 L4).
Qed.

(** The loop, when there is something left to do. *)
Lemma ide_write_loop_next fuel hd lba buf secs_done sec_cnt :
  secs_done < sec_cnt →
  ide_write_loop (S fuel) hd lba buf secs_done sec_cnt =
    (select_sector hd (u32 (lba + secs_done)) (secs_op secs_done sec_cnt) ;;
     d ← disk_at hd;
     cmd_out (my_channel d) CMD_WRITE_SECTOR ;;
     ok ← busy_wait hd;
     if negb ok then lift Panic
     else
       write2sector hd buf (secs_op secs_done sec_cnt) ;;
       sema_down (disk_done (my_channel d)) ;;
       ide_write_loop fuel hd lba (drop (Z.to_nat (512 * secs_op secs_done sec_cnt)) buf)
         (u32 (secs_done + secs_op secs_done sec_cnt)) sec_cnt).
Proof. intros Hs. cbn [ide_write_loop]. by rewrite (proj2 (Z.ltb_lt _ _)) by lia. Qed.

Lemma ide_write_ok s D Q run ready hd dv a lba buf d' :
  at_work s D Q run ready hd dv a false → lock_free s Q (chan_lock the_channel) → latency a = 0%nat →
  0 ≤ lba ≤ max_lba → (512 ≤ length buf)%nat → write_run (drive_of dv a) lba 1 (take 512 buf) = Some d' →
  ∃ s' Q' ready' a', ide_write hd lba buf 1 s = Ok (tt, s') ∧ at_work s' D Q' run ready' hd dv a' false ∧
    lock_free s' Q' (chan_lock the_channel) ∧ keeps dv d' a a'.
Proof.
  intros Hw Hf Hlat Hl Hb Hr. destruct (at_work_acquired _ _ _ _ _ _ _ _ _ Hw Hf) as (Hcur & Hacq & Hw1).
  destruct (select_disk_ok _ _ _ _ _ _ _ _ _ Hw1) as (a1 & Hsel & K1 & K2 & K3 & K4 & K5).
  pose proof (at_work_ata _ _ _ _ _ _ _ _ _ a1 Hw1) as Hw2. set (s1 := acquired s _ run) in *. set (s2 := set_atas _ s1) in *.
  rewrite <- K1 in Hr.
  match goal with |- context [ide_write hd lba buf 1] =>
    destruct (write_round s2 D Q run ready hd dv a1 lba buf d' (ide_write_loop 1 hd lba (drop (Z.to_nat (512 * 1)) buf) 1 1) Hw2 ltac:(congruence) Hl Hb Hr)
      as (s3 & Q3 & ready3 & a3 & Hlp & Hw3 & (M1 & M2 & M3 & M4 & M5) & Hrd) end.
  destruct (at_work_released s s3 D Q Q3 run ready3 hd dv a3 false Hf Hw3 Hrd) as (Hrel & Hw4 & Hf4).
  eexists _, Q3, ready3, a3. split; [|split; [exact Hw4|split; [exact Hf4|split_and!; congruence]]].
  unfold ide_write. change max_lba with 163839 in *. rewrite (proj2 (Z.leb_le _ _)) by lia. kgo.
  destruct (aw_hd _ _ _ _ _ _ _ _ _ Hw) as (dk & Hd & Hmc & _). kstep (disk_at_ok _ _ _ Hd). rewrite Hmc. kstep Hacq. kstep Hsel.
  change (rounds_for 1) with 2%nat. erewrite K_step; [exact Hrel|]. rewrite ide_write_loop_next by lia.
  change (secs_op 0 1) with 1. change (u32 (0 + 1)) with 1. rewrite Z.add_0_r, (u32_small lba) by lia. etrans; [exact Hlp|]. done.
Qed.

(** ** Properties *)

(** C29: the driver reads what the file system expects of the disk
    ([disk_read]), if the drive allows it: [ide_read] of one sector, from any
    drive, and of several sectors, from a drive that has the next sector ready
    as soon as one was read and with interrupts on, works in rounds of up to
    256 sectors, sleeps in each until the interrupt of the drive wakes it, is
    not disturbed by the interrupts of the further sectors, returns the
    contents of the sectors, and leaves the drives, the lock and the semaphore
    of the channel as they were, with the thread running again and no
    interrupt pending.  With a drive that is busy between two sectors, a read
    of several sectors takes data that is not there yet: the driver waits only
    for the first sector of a round. *)
Theorem ide_read_refines s D Q run ready hd dv a lba sec_cnt bs :
  at_work s D Q run ready hd dv a false → lock_free s Q (chan_lock the_channel) → sectors_ok (drive_of dv a) →
  0 ≤ lba → lba + sec_cnt ≤ max_lba + 1 → disk_read (drive_of dv a) lba sec_cnt = Ok bs →
  (sec_cnt = 1 ∨ (gap a = 0%nat ∧ intr s = true) →
   ∃ s' Q' ready' a', ide_read hd lba sec_cnt s = Ok (bs, s') ∧ at_work s' D Q' run ready' hd dv a' false ∧
     lock_free s' Q' (chan_lock the_channel) ∧ keeps dv (drive_of dv a) a a') ∧
  (1 < sec_cnt → gap a ≠ 0%nat → ide_read hd lba sec_cnt s = Fault).
Proof.
  intros Hw Hf Hok Hl Hm Hr. unfold disk_read in Hr. invbind. apply Z.ltb_lt in H2. split.
  - intros Hg. by eapply ide_read_ok.
  - intros Hc Hg. eapply ide_read_gap; try done. lia.
Qed.

(** The driver writes a sector as the file system expects of the disk
    ([disk_write]), for a drive that takes data as soon as it has the command:
    after [ide_write] the drive has the new sector, the other drive is as it
    was, and the channel is free again. *)
Theorem ide_write_refines s D Q run ready hd dv a lba buf d' :
  at_work s D Q run ready hd dv a false → lock_free s Q (chan_lock the_channel) → latency a = 0%nat →
  0 ≤ lba → disk_write (drive_of dv a) lba buf 1 = Ok d' →
  ∃ s' Q' ready' a', ide_write hd lba buf 1 s = Ok (tt, s') ∧ at_work s' D Q' run ready' hd dv a' false ∧
    lock_free s' Q' (chan_lock the_channel) ∧ keeps dv d' a a'.
Proof.
  intros Hw Hf Hok Hl Hr. unfold disk_write in Hr. invbind. apply Z.leb_le in H1. change (Z.to_nat 1) with 1%nat in *.
  change (write_run (drive_of dv a) lba 1 buf = Some d') in Hr. pose proof (write_run_length _ _ _ _ _ Hr) as Hlen.
  rewrite (write_run_take _ _ 1) in Hr by lia. eapply ide_write_ok; [done|done|done|lia|lia|exact Hr].
Qed.

(** Reading from a sector on that the drive does not have stops the kernel. *)
Theorem ide_read_missing_panics s D Q run ready hd dv a lba sec_cnt :
  at_work s D Q run ready hd dv a false → lock_free s Q (chan_lock the_channel) →
  0 ≤ lba ≤ max_lba → 0 < sec_cnt < 2 ^ 32 - 256 → drive_of dv a !! lba = None →
  ide_read hd lba sec_cnt s = Panic.
Proof. apply ide_read_missing_ok. Qed.

End Channel.

(** ** Examples *)

(** The threads of Sched.v and a channel with a slave drive of 700 sectors;
    the master holds the kernel. *)
Definition ex_hd : Z := devices channels 1.
Definition ex_ch_waiters : Z := waiters (disk_done channels).
Definition ex_ch_lock_waiters : Z := waiters (lock_semaphore (chan_lock channels)).
Definition ex_ide_cells : lheap :=
  <[ex_ch_waiters := ListElem 0 (ex_ch_waiters + 8)]> (<[ex_ch_waiters + 8 := ListElem ex_ch_waiters 0]>
  (<[ex_ch_lock_waiters := ListElem 0 (ex_ch_lock_waiters + 8)]> (<[ex_ch_lock_waiters + 8 := ListElem ex_ch_lock_waiters 0]> ex_cells))).
Definition ex_sector (k : nat) : list Z := Z.of_nat k mod 256 :: replicate 511 (Z.of_nat k / 256).
Definition ex_drive : sectors := list_to_map ((λ k, (Z.of_nat k, ex_sector k)) <$> seq 0 (Z.to_nat 700)).
Definition ex_ata : ata := Ata 0 0 0 0 0 Quiet 0 0 0 false ∅ ex_drive (replicate 512 0) (replicate 512 0).
Definition ex_part_entry : disk_part := DiskPart 0 0 0 (replicate 8 0).
Definition ex_ide : kst lheap :=
  set_atas {[ 0x1f0 := ex_ata ]}
    (set_chans {[ channels := IdeChannel 0x1f0 0x2e false ]}
      (set_disks {[ ex_hd := Disk [115; 100; 98; 0; 0; 0; 0; 0] channels 1 (replicate 4 ex_part_entry) (replicate 8 ex_part_entry) ]}
        (set_semas {[ lock_semaphore (chan_lock channels) := 1; disk_done channels := 0 ]}
          (set_locks {[ chan_lock channels := Lock NULL 0 ]} (set_heap ex_ide_cells ex_kst))))).

Definition ex_ide_queues : gmap Z (list Z) := <[ex_ch_waiters := []]> (<[ex_ch_lock_waiters := []]> ex_queues).
Lemma ex_ide_inv : sched_inv ex_ide ∅ ex_ide_queues ex_A [ex_B].
Proof.
  split; cbn [heap tasks esp cr3 phys ex_ide set_atas set_chans set_disks set_semas set_locks set_heap].
  - apply queues_check_ok. vm_compute. reflexivity.
  - vm_compute. reflexivity.
  - intros p u Ht. cbn [tasks ex_kst] in Ht. map_cases Ht; (split_and!; [split; [done|by vm_compute]|apply elem_of_dom; vm_compute; eexists; reflexivity|by left]).
  - intros p u Ht Hp. cbn [tasks ex_kst] in Ht. map_cases Ht; (done || by vm_compute).
  - by vm_compute.
  - eexists. split; [by vm_compute|done].
  - intros p Hp. apply list_elem_of_singleton in Hp as ->. by vm_compute; eexists.
  - intros p u Ht. rewrite list_elem_of_singleton. cbn [tasks ex_kst] in Ht. map_cases Ht; by vm_compute.
  - intros c v pa _ Hv. done.
Qed.
Lemma ex_at_work : at_work 0 0x1f0 ex_ide ∅ ex_ide_queues ex_A [ex_B] ex_hd 1 ex_ata false.
Proof.
  split.
  - exact ex_ide_inv.
  - eexists. split; reflexivity.
  - apply unlinked_insert; [apply unlinked_insert; [apply ex_unlinked; set_solver|]|]; apply (bool_decide_unpack _); vm_compute; exact I.
  - discriminate.
  - eexists. split; [reflexivity|]. split; reflexivity.
  - reflexivity.
  - reflexivity.
  - reflexivity.
  - reflexivity.
Qed.
Lemma ex_ide_lock : lock_free ex_ide ex_ide_queues (chan_lock (the_channel 0)).
Proof. split; [reflexivity|]. split; reflexivity. Qed.
Lemma ex_drive_lookup l : 0 ≤ l < 700 → ex_drive !! l = Some (ex_sector (Z.to_nat l)).
Proof.
  intros Hl. unfold ex_drive. apply elem_of_list_to_map_1.
  - rewrite <- list_fmap_compose. apply NoDup_fmap_2; [intros ? ? ?; cbn in *; lia|apply NoDup_seq].
  - apply list_elem_of_fmap. exists (Z.to_nat l). split; [by rewrite Z2Nat.id by lia|]. apply elem_of_seq. lia.
Qed.
Lemma ex_drive_ok : sectors_ok ex_drive.
Proof.
  intros l s Hl. unfold ex_drive in Hl. apply elem_of_list_to_map_2, list_elem_of_fmap in Hl as (k & Hk & Hin).
  apply elem_of_seq in Hin. apply (f_equal snd) in Hk. cbn [snd] in Hk. subst s. unfold ex_sector.
  split; [reflexivity|]. constructor; [dm|]. apply Forall_replicate. dm.
Qed.

(** Sectors 3 and 4, and the same from a drive with a pause between them. *)
Definition ex_slow : ata := Ata 0 0 0 0 0 Quiet 0 0 3 false ∅ ex_drive (replicate 512 0) (replicate 512 0).
Definition ex_with (a : ata) : kst lheap := set_intr true (set_atas {[ 0x1f0 := a ]} ex_ide).
Lemma ex_with_at_work a : at_work 0 0x1f0 (ex_with a) ∅ ex_ide_queues ex_A [ex_B] ex_hd 1 a false.
Proof.
  destruct ex_at_work as [W1 W2 W3 W4 W5 W6 W7 W8 W9]. split;
    [|exact W2|exact W3|exact W4|exact W5|exact W6|apply lookup_singleton_eq|exact W8|exact W9].
  eapply (sched_inv_ext ex_ide); [exact eq_refl..|exact W1].
Qed.
Lemma ex_drives : drive_of 1 ex_ata = ex_drive ∧ drive_of 1 ex_slow = ex_drive.
Proof. unfold ex_slow, ex_ata, drive_of. by split. Qed.
Lemma ex_with_lock a : lock_free (ex_with a) ex_ide_queues (chan_lock (the_channel 0)).
Proof. exact ex_ide_lock. Qed.
Lemma ide_read_refines_witness :
  (∃ s', ide_read (H1 := the_world 0 0x1f0) ex_hd 3 2 (ex_with ex_ata) = Ok (ex_sector 3 ++ ex_sector 4 ++ [], s')) ∧
  ide_read (H1 := the_world 0 0x1f0) ex_hd 3 2 (ex_with ex_slow) = Fault.
Proof.
  assert (disk_read ex_drive 3 2 = Ok (ex_sector 3 ++ ex_sector 4 ++ [])) as Hd.
  { unfold disk_read. change (Z.to_nat 2) with 2%nat. cbn [read_run]. rewrite !ex_drive_lookup by lia. reflexivity. }
  destruct ex_drives as [E1 E2]. pose proof ex_drive_ok as Hok.
  assert (3 + 2 ≤ max_lba + 1) as Hm by (change max_lba with 163839; lia). assert (0 ≤ 0 ≤ 1) as H01 by lia. assert (0 ≤ 3) as H3 by lia. split.
  - rewrite <- E1 in Hok, Hd. clear E1 E2.
    destruct (ide_read_refines 0 0x1f0 H01 eq_refl (ex_with ex_ata) ∅ ex_ide_queues ex_A [ex_B] ex_hd 1 ex_ata 3 2 _
      (ex_with_at_work ex_ata) (ex_with_lock ex_ata) Hok H3 Hm Hd) as [Hr _].
    destruct (Hr (or_intror (conj eq_refl eq_refl))) as (s' & Q' & r' & a' & Hs & _). exists s'. exact Hs.
  - rewrite <- E2 in Hok, Hd. clear E1 E2.
    destruct (ide_read_refines 0 0x1f0 H01 eq_refl (ex_with ex_slow) ∅ ex_ide_queues ex_A [ex_B] ex_hd 1 ex_slow 3 2 _
      (ex_with_at_work ex_slow) (ex_with_lock ex_slow) Hok H3 Hm Hd) as [_ Hr].
    apply Hr; [lia|discriminate].
Defined.

Lemma ide_write_refines_witness :
  ∃ s' d', disk_write ex_drive 5 (replicate 512 9) 1 = Ok d' ∧
    ide_write (H1 := the_world 0 0x1f0) ex_hd 5 (replicate 512 9) 1 ex_ide = Ok (tt, s').
Proof.
  assert (disk_write ex_drive 5 (replicate 512 9) 1 = Ok (<[5 := replicate 512 9]> ex_drive)) as Hd.
  { unfold disk_write. change (Z.to_nat 1) with 1%nat. cbn [write_run]. rewrite ex_drive_lookup by lia. reflexivity. }
  destruct (ide_write_refines 0 0x1f0 ltac:(lia) eq_refl ex_ide ∅ ex_ide_queues ex_A [ex_B] ex_hd 1 ex_ata 5 (replicate 512 9) _
    ex_at_work ex_ide_lock eq_refl ltac:(lia) Hd) as (s' & Q' & r' & a' & Hr & _).
  exists s', (<[5 := replicate 512 9]> ex_drive). split; [exact Hd|exact Hr].
Defined.

Lemma ide_read_missing_panics_witness : ide_read (H1 := the_world 0 0x1f0) ex_hd 700 2 ex_ide = Panic.
Proof.
  apply (ide_read_missing_panics 0 0x1f0 ltac:(lia) eq_refl ex_ide ∅ ex_ide_queues ex_A [ex_B] ex_hd 1 ex_ata 700 2
    ex_at_work ex_ide_lock).
  - change max_lba with 163839. lia.
  - lia.
  - change (drive_of 1 ex_ata) with ex_drive. vm_compute. reflexivity.
Defined.

(** ** Scanning partition tables *)

(** The allocator of Malloc.v with two blocks of 512 bytes, and the disk. *)
Definition ex_scan_desc : Z := desc_ptr k_block_descs 5.
Definition ex_scan_block (i : Z) : Z := ex_arena + 12 + 512 * i.
Definition ex_scan_cells : lheap :=
  let l := free_list ex_scan_desc in
  <[l := ListElem 0 (ex_scan_block 0)]> (<[ex_scan_block 0 := ListElem l (ex_scan_block 1)]>
  (<[ex_scan_block 1 := ListElem (ex_scan_block 0) (l + 8)]> (<[l + 8 := ListElem (ex_scan_block 1) 0]>
  (<[partition_list := ListElem 0 (partition_list + 8)]> (<[partition_list + 8 := ListElem partition_list 0]>
  (list_to_map ((λ i, (prim_tag ex_hd i, ListElem 0 0)) <$> seqZ 0 4) ∪
   list_to_map ((λ i, (logic_tag ex_hd i, ListElem 0 0)) <$> seqZ 0 8) ∪ ex_ide_cells ∪ ex_sync_cells)))))).
Definition ex_scan (d : sectors) : kst lheap :=
  set_heap ex_scan_cells (set_locks (locks ex_ide ∪ locks ex_malloc) (set_semas (semas ex_ide ∪ semas ex_malloc)
    (set_arenas {[ ex_arena := Arena ex_scan_desc 2 false ]} (set_chans (chans ex_ide) (set_disks (disks ex_ide)
      (set_atas {[ 0x1f0 := Ata 0 0 0 0 0 Quiet 0 0 0 false ∅ d [] [] ]} ex_malloc)))))).
(** A boot sector with entries of type, first sector and number of sectors. *)
Definition ex_boot_sector (es : list (Z * Z * Z)) : list Z :=
  replicate 446 0 ++ concat ((λ '(ty, st, cnt), [0; 0; 0; 0; ty; 0; 0; 0] ++ le32 st ++ le32 cnt) <$> es) ++ [85; 170].
Definition ex_scanned (d : sectors) : outcome (list disk_part) :=
  '(_, s) ← partition_scan (H1 := disk_world 0x1f0 0x2e) 3 ex_hd 0 (ex_scan d);
  dk ← deref (disks s !! ex_hd);
  Ok (filter (λ p, dp_sec_cnt p ≠ 0) (prim_parts dk ++ logic_parts dk)).

(** A primary partition and a logical one in an extended partition get the
    names sdb1 and sdb5; the sectors of the logical one count from the boot
    sector of the extended partition. *)
Example scan_finds :
  ex_scanned {[ 0 := ex_boot_sector [(0x83, 63, 100); (5, 200, 400); (0, 0, 0); (0, 0, 0)];
                200 := ex_boot_sector [(0x66, 63, 100); (0, 0, 0); (0, 0, 0); (0, 0, 0)] ]} =
  Ok [DiskPart 63 100 ex_hd [115; 100; 98; 49; 0; 0; 0; 0]; DiskPart 263 100 ex_hd [115; 100; 98; 53; 0; 0; 0; 0]].
Proof. vm_compute. reflexivity. Qed.

(** A disk with four primary partitions stops the kernel: the number is
    checked after it has been counted up. *)
Example scan_four_primaries_panics :
  ex_scanned {[ 0 := ex_boot_sector [(0x83, 63, 100); (0x83, 200, 100); (0x83, 300, 100); (0x83, 400, 100)] ]} = Panic.
Proof. vm_compute. reflexivity. Qed.
