(* ===== verification/Interrupt.v ===== *)
(** * Interrupts, descriptors and the timer chip (src/kernel/interrupt.c,
    src/user/tss.c, timer_init of src/device/timer.c, src/device/console.c)

    Setting up the interrupt descriptors, the interrupt controllers, the
    segment descriptors of user code, the timer and the lock of the console.
    What the hardware makes of it is modelled next to the code: [soft_int] is
    the [int] instruction of the processor, [pic] the 8259A interrupt
    controller, [pit] the 8253 timer; the last two are run on the record of
    what was written to the ports.

    [intr_entry_table], the array of entry points that kernel.asm makes, is a
    parameter, with whatever lies behind its 48 entries.  Messages of the
    initialisation functions are left out. *)

From S2P Require Import Prelude CString CArray Bitmap Lists PageTable Disk Ata Kernel Sched Sync IoQueue Keyboard Memory Malloc Ide.

Definition PIC_M_CTRL : Z := 0x20.
Definition PIC_M_DATA : Z := 0x21.
Definition PIC_S_CTRL : Z := 0xa0.
Definition PIC_S_DATA : Z := 0xa1.

(** Addresses that are stored as values. *)
Definition syscall_handler_code : Z := 0xc0001b00.
Definition general_intr_code : Z := 0xc0001c00.
Definition intr_timer_code : Z := 0xc0001d00.
Definition idt_addr : Z := 0xc0007000.
Definition tss_addr : Z := 0xc0007800.

Definition SELECTOR_K_CODE : Z := Z.shiftl 1 3 + Z.shiftl 0 2 + 0.
Definition SELECTOR_K_STACK : Z := Z.shiftl 2 3 + Z.shiftl 0 2 + 0.
Definition SELECTOR_TSS : Z := Z.shiftl 4 3 + Z.shiftl 0 2 + 0.
Definition GDT_ATTR_HIGH : Z := Z.shiftl 1 7 + Z.shiftl 1 6 + Z.shiftl 0 5 + Z.shiftl 0 4.
Definition GDT_CODE_ATTR_LOW_DPL3 : Z := Z.shiftl 1 7 + Z.shiftl 3 5 + Z.shiftl 1 4 + 8.
Definition GDT_DATA_ATTR_LOW_DPL3 : Z := Z.shiftl 1 7 + Z.shiftl 3 5 + Z.shiftl 1 4 + 2.
Definition TSS_ATTR_HIGH : Z := Z.shiftl 1 7 + Z.shiftl 0 6 + Z.shiftl 0 5 + Z.shiftl 0 4 + 0.
Definition TSS_ATTR_LOW : Z := Z.shiftl 1 7 + Z.shiftl 0 5 + Z.shiftl 0 4 + 9.
Definition IDT_DESC_ATTR_DPL0 : Z := Z.shiftl 1 7 + Z.shiftl 0 5 + 0xE.
Definition IDT_DESC_ATTR_DPL3 : Z := Z.shiftl 1 7 + Z.shiftl 3 5 + 0xE.
(** [struct tss] has 27 words; the places of [esp0], [ss0] and [io_base]. *)
Definition sizeof_tss : Z := 108.
Definition TSS_ESP0 : nat := 1.
Definition TSS_SS0 : nat := 2.
Definition TSS_IO_BASE : nat := 26.

(** The names of the exceptions. *)
Definition unknown : list Z := [117; 110; 107; 110; 111; 119; 110].
Definition exception_names : list (Z * list Z) := [
  (** #DE Divide Error *)
  (0, [35; 68; 69; 32; 68; 105; 118; 105; 100; 101; 32; 69; 114; 114; 111; 114]);
  (** #DB Debug Exception *)
  (1, [35; 68; 66; 32; 68; 101; 98; 117; 103; 32; 69; 120; 99; 101; 112; 116; 105; 111; 110]);
  (** NMI Interrupt *)
  (2, [78; 77; 73; 32; 73; 110; 116; 101; 114; 114; 117; 112; 116]);
  (** #BP Breakpoint Exception *)
  (3, [35; 66; 80; 32; 66; 114; 101; 97; 107; 112; 111; 105; 110; 116; 32; 69; 120; 99; 101; 112; 116; 105; 111; 110]);
  (** #OF Overflow Exception *)
  (4, [35; 79; 70; 32; 79; 118; 101; 114; 102; 108; 111; 119; 32; 69; 120; 99; 101; 112; 116; 105; 111; 110]);
  (** #BR BOUND Range Exceeded Exception *)
  (5, [35; 66; 82; 32; 66; 79; 85; 78; 68; 32; 82; 97; 110; 103; 101; 32; 69; 120; 99; 101; 101; 100; 101; 100; 32; 69; 120; 99; 101; 112; 116; 105; 111; 110]);
  (** #UD Invalid Opcode Exception *)
  (6, [35; 85; 68; 32; 73; 110; 118; 97; 108; 105; 100; 32; 79; 112; 99; 111; 100; 101; 32; 69; 120; 99; 101; 112; 116; 105; 111; 110]);
  (** #NM Device Not Available Exception *)
  (7, [35; 78; 77; 32; 68; 101; 118; 105; 99; 101; 32; 78; 111; 116; 32; 65; 118; 97; 105; 108; 97; 98; 108; 101; 32; 69; 120; 99; 101; 112; 116; 105; 111; 110]);
  (** #DF Double Fault Exception *)
  (8, [35; 68; 70; 32; 68; 111; 117; 98; 108; 101; 32; 70; 97; 117; 108; 116; 32; 69; 120; 99; 101; 112; 116; 105; 111; 110]);
  (** Coprocessor Segment Overrun *)
  (9, [67; 111; 112; 114; 111; 99; 101; 115; 115; 111; 114; 32; 83; 101; 103; 109; 101; 110; 116; 32; 79; 118; 101; 114; 114; 117; 110]);
  (** #TS Invalid TSS Exception *)
  (10, [35; 84; 83; 32; 73; 110; 118; 97; 108; 105; 100; 32; 84; 83; 83; 32; 69; 120; 99; 101; 112; 116; 105; 111; 110]);
  (** #NP Segment Not Present *)
  (11, [35; 78; 80; 32; 83; 101; 103; 109; 101; 110; 116; 32; 78; 111; 116; 32; 80; 114; 101; 115; 101; 110; 116]);
  (** #SS Stack Fault Exception *)
  (12, [35; 83; 83; 32; 83; 116; 97; 99; 107; 32; 70; 97; 117; 108; 116; 32; 69; 120; 99; 101; 112; 116; 105; 111; 110]);
  (** #GP General Protection Exception *)
  (13, [35; 71; 80; 32; 71; 101; 110; 101; 114; 97; 108; 32; 80; 114; 111; 116; 101; 99; 116; 105; 111; 110; 32; 69; 120; 99; 101; 112; 116; 105; 111; 110]);
  (** #PF Page-Fault Exception *)
  (14, [35; 80; 70; 32; 80; 97; 103; 101; 45; 70; 97; 117; 108; 116; 32; 69; 120; 99; 101; 112; 116; 105; 111; 110]);
  (** #MF x87 FPU Floating-Point Error *)
  (16, [35; 77; 70; 32; 120; 56; 55; 32; 70; 80; 85; 32; 70; 108; 111; 97; 116; 105; 110; 103; 45; 80; 111; 105; 110; 116; 32; 69; 114; 114; 111; 114]);
  (** #AC Alignment Check Exception *)
  (17, [35; 65; 67; 32; 65; 108; 105; 103; 110; 109; 101; 110; 116; 32; 67; 104; 101; 99; 107; 32; 69; 120; 99; 101; 112; 116; 105; 111; 110]);
  (** #MC Machine-Check Exception *)
  (18, [35; 77; 67; 32; 77; 97; 99; 104; 105; 110; 101; 45; 67; 104; 101; 99; 107; 32; 69; 120; 99; 101; 112; 116; 105; 111; 110]);
  (** #XF SIMD Floating-Point Exception *)
  (19, [35; 88; 70; 32; 83; 73; 77; 68; 32; 70; 108; 111; 97; 116; 105; 110; 103; 45; 80; 111; 105; 110; 116; 32; 69; 120; 99; 101; 112; 116; 105; 111; 110])].

(** ** The functions *)

(** [(uint32_t)function] of the C code is the address. *)
Definition make_idt_desc (attr function : Z) : gate_desc :=
  GateDesc (u16 (Z.land function 0x0000FFFF)) SELECTOR_K_CODE 0 (u8 attr)
    (u16 (Z.shiftr (Z.land function 0xFFFF0000) 16)).

Definition make_gdt_desc (desc_addr limit attr_low attr_high : Z) : gdt_desc :=
  let desc_base := desc_addr in
  {| limit_low_word := u16 (Z.land limit 0x0000ffff);
     base_low_word := u16 (Z.land desc_base 0x0000ffff);
     base_mid_byte := u8 (Z.shiftr (Z.land desc_base 0x00ff0000) 16);
     attr_low_byte := u8 attr_low;
     limit_high_attr_high := u8 (Z.shiftr (Z.land limit 0x000f0000) 16 + u8 attr_high);
     base_high_byte := u8 (Z.shiftr desc_base 24) |}.

Section Interrupt.
Context {H : Type} `{Queues H} `{World H}.
Context (intr_entry_table : list Z).

Definition upd_cpu (f : cpu_tables → cpu_tables) : K (kst H) unit := modify (λ s, set_cpu (f (cpu s)) s).

Definition pic_init : K (kst H) unit :=
  outb PIC_M_CTRL 0x11 ;; outb PIC_M_DATA 0x20 ;; outb PIC_M_DATA 0x04 ;; outb PIC_M_DATA 0x01 ;;
  outb PIC_S_CTRL 0x11 ;; outb PIC_S_DATA 0x28 ;; outb PIC_S_DATA 0x02 ;; outb PIC_S_DATA 0x01 ;;
  outb PIC_M_DATA 0xf8 ;;
  outb PIC_S_DATA 0xbf.

(** [make_idt_desc(&idt[i], attr, function)]. *)
Definition set_gate (i : nat) (g : gate_desc) : K (kst H) unit :=
  upd_cpu (λ c, CpuTables (<[i := g]> (idt c)) (intr_name c) (gdt c) (tss_seg c) (idtr c) (gdtr c) (task_register c)).
Fixpoint idt_loop (n i : nat) : K (kst H) unit :=
  match n with
  | O => mret tt
  | S n => function ← lift (deref (intr_entry_table !! i));
           set_gate i (make_idt_desc IDT_DESC_ATTR_DPL0 function) ;; idt_loop n (S i)
  end.
Definition idt_desc_init : K (kst H) unit :=
  let lastindex := Z.to_nat (IDT_DESC_CNT - 1) in
  idt_loop (Z.to_nat IDT_DESC_CNT) 0 ;;
  set_gate lastindex (make_idt_desc IDT_DESC_ATTR_DPL3 syscall_handler_code).

(** The message on the screen is left out; [while (1)] stops the kernel. *)
Definition general_intr_handler (vec_nr : Z) : K (kst H) unit :=
  if (vec_nr =? 0x27) || (vec_nr =? 0x2f) then mret tt
  else c ← gets cpu; _ ← lift (deref (intr_name c !! Z.to_nat vec_nr)); lift Panic.

Definition set_intr_name (i : nat) (str : list Z) : K (kst H) unit :=
  upd_cpu (λ c, CpuTables (idt c) (<[i := str]> (intr_name c)) (gdt c) (tss_seg c) (idtr c) (gdtr c) (task_register c)).
Fixpoint exception_loop (n i : nat) : K (kst H) unit :=
  match n with
  | O => mret tt
  | S n => modify (λ s, set_idt_table (<[Z.of_nat i := general_intr_code]> (idt_table s)) s) ;;
           set_intr_name i unknown ;; exception_loop n (S i)
  end.
Fixpoint name_exceptions (l : list (Z * list Z)) : K (kst H) unit :=
  match l with [] => mret tt | (i, str) :: l => set_intr_name (Z.to_nat i) str ;; name_exceptions l end.
Definition exception_init : K (kst H) unit :=
  exception_loop (Z.to_nat IDT_DESC_CNT) 0 ;; name_exceptions exception_names.

(** [lidt] loads 16 bits of limit and 32 bits of base from the operand. *)
Definition descriptor_operand (limit base : Z) : Z := Z.lor limit (Z.shiftl base 16).
Definition load_operand (operand : Z) : Z * Z := (u16 operand, u32 (Z.shiftr operand 16)).

Definition idt_init : K (kst H) unit :=
  idt_desc_init ;;
  exception_init ;;
  pic_init ;;
  let idt_operand := descriptor_operand (8 * IDT_DESC_CNT - 1) idt_addr in
  upd_cpu (λ c, CpuTables (idt c) (intr_name c) (gdt c) (tss_seg c) (load_operand idt_operand) (gdtr c) (task_register c)).

(** tss.c; the [memset] clears [esp0] too. *)
Definition set_gdt (a : Z) (d : gdt_desc) : K (kst H) unit :=
  upd_cpu (λ c, CpuTables (idt c) (intr_name c) (<[a := d]> (gdt c)) (tss_seg c) (idtr c) (gdtr c) (task_register c)).
Definition upd_tss (f : list Z → list Z) : K (kst H) unit :=
  upd_cpu (λ c, CpuTables (idt c) (intr_name c) (gdt c) (f (tss_seg c)) (idtr c) (gdtr c) (task_register c)).

Definition tss_init : K (kst H) unit :=
  let tss_size := sizeof_tss in
  upd_tss (λ _, replicate 27 0) ;; modify (set_tss_esp0 0) ;;
  upd_tss (<[TSS_SS0 := SELECTOR_K_STACK]>) ;;
  upd_tss (<[TSS_IO_BASE := tss_size]>) ;;
  set_gdt 0xc0000920 (make_gdt_desc tss_addr (tss_size - 1) TSS_ATTR_LOW TSS_ATTR_HIGH) ;;
  set_gdt 0xc0000928 (make_gdt_desc 0 0xfffff GDT_CODE_ATTR_LOW_DPL3 GDT_ATTR_HIGH) ;;
  set_gdt 0xc0000930 (make_gdt_desc 0 0xfffff GDT_DATA_ATTR_LOW_DPL3 GDT_ATTR_HIGH) ;;
  let gdt_operand := descriptor_operand (8 * 7 - 1) 0xc0000900 in
  upd_cpu (λ c, CpuTables (idt c) (intr_name c) (gdt c) (tss_seg c) (idtr c) (load_operand gdt_operand) (task_register c)) ;;
  upd_cpu (λ c, CpuTables (idt c) (intr_name c) (gdt c) (tss_seg c) (idtr c) (gdtr c) (u16 SELECTOR_TSS)).

(** timer.c. *)
Definition COUNTER0_VALUE : Z := 1193180 / 100.
Definition CONTRER0_PORT : Z := 0x40.
Definition PIT_CONTROL_PORT : Z := 0x43.

Definition frequency_set (counter_port counter_no rwl counter_mode counter_value : Z) : K (kst H) unit :=
  outb PIT_CONTROL_PORT (u8 (Z.lor (Z.lor (Z.shiftl counter_no 6) (Z.shiftl rwl 4)) (Z.shiftl counter_mode 1))) ;;
  outb counter_port (u8 counter_value) ;;
  outb counter_port (Z.shiftr (u8 counter_value) 8).

Definition timer_init : K (kst H) unit :=
  frequency_set CONTRER0_PORT 0 3 2 (u16 COUNTER0_VALUE) ;;
  register_handler 0x20 intr_timer_code.

(** console.c: writing to the screen with its lock held.  [put_str] and
    [put_int] of print.asm add characters to the screen, the latter in
    hexadecimal. *)
Definition put_chars (cs : list Z) : K (kst H) unit := modify (λ s, set_screen (screen s ++ cs) s).
Definition console_init : K (kst H) unit := lock_init console_lock.
Definition console_acquire : K (kst H) unit := lock_acquire console_lock.
Definition console_release : K (kst H) unit := lock_release console_lock.
Definition console_put_str (str : list Z) : K (kst H) unit := console_acquire ;; put_chars str ;; console_release.
Definition console_put_char (ch : Z) : K (kst H) unit := console_acquire ;; put_chars [ch] ;; console_release.
Definition console_put_int (digits : Z → list Z) (num : Z) : K (kst H) unit :=
  console_acquire ;; put_chars (digits num) ;; console_release.
End Interrupt.

(** ** The hardware *)

(** Fields of a gate, as the processor reads them. *)
Definition gate_offset (g : gate_desc) : Z := func_offset_high_word g * 65536 + func_offset_low_word g.
Definition gate_present (g : gate_desc) : bool := Z.testbit (attribute g) 7.
Definition gate_dpl (g : gate_desc) : Z := attribute g / 32 mod 4.
Definition gate_type (g : gate_desc) : Z := attribute g mod 16.

(** The instruction [int vec] at privilege level [cpl]: where it goes on, or
    a protection fault.  A type of 0xE means an interrupt gate of 32 bits. *)
Definition soft_int (c : cpu_tables) (cpl vec : Z) : option (Z * Z) :=
  if negb (((idtr c).2 =? idt_addr) && (0 <=? vec) && (vec * 8 + 7 <=? (idtr c).1)) then None
  else g ← idt c !! Z.to_nat vec;
       if gate_present g && (gate_type g =? 0xE) && (cpl <=? gate_dpl g) then Some (selector g, gate_offset g) else None.

(** Fields of a segment descriptor: base, limit in its unit, attributes. *)
Definition seg_base (d : gdt_desc) : Z := base_high_byte d * 2 ^ 24 + base_mid_byte d * 2 ^ 16 + base_low_word d.
Definition seg_limit (d : gdt_desc) : Z := limit_high_attr_high d mod 16 * 2 ^ 16 + limit_low_word d.
Definition seg_granular (d : gdt_desc) : bool := Z.testbit (limit_high_attr_high d) 7.
Definition seg_dpl (d : gdt_desc) : Z := attr_low_byte d / 32 mod 4.
(** The last byte the segment reaches. *)
Definition seg_last (d : gdt_desc) : Z := if seg_granular d then seg_limit d * 4096 + 4095 else seg_limit d.

(** The descriptor a selector stands for. *)
Definition segment {H} (s : kst H) (sel : Z) : option gdt_desc := gdt (cpu s) !! ((gdtr (cpu s)).2 + sel).

(** The task state segment in memory, and the processor's check of an access
    to [port] by user code, which has I/O privilege 0: a bitmap inside the
    segment decides, at the offset that the upper half of its word 25 gives;
    the segment must reach one byte further, and a bit that is set forbids.
    Behind the 27 words the segment covers what [tss_init] does not know. *)
Definition tss_words {H} (s : kst H) : list Z := <[TSS_ESP0 := tss_esp0 s]> (tss_seg (cpu s)).
Definition tss_byte {H} (s : kst H) (o : Z) : option Z := w ← tss_words s !! Z.to_nat (o / 4); Some (byte_of w (o mod 4)).
Definition io_allowed {H} (s : kst H) (port : Z) : option bool :=
  d ← segment s (task_register (cpu s));
  w ← tss_words s !! 25%nat;
  let o := w / 65536 + port / 8 in
  if seg_last d <? o + 1 then Some false
  else b ← tss_byte s o; Some (negb (Z.testbit b (port mod 8))).

(** One interrupt controller: how many of its initialisation words 2 to 4 it
    has got, 3 when it is ready; the first vector; the mask.  All three words
    follow the first one when its bit 0 is set and its bit 1 is not, the only
    case here. *)
Record pic := Pic { pic_words : Z; pic_vector : Z; pic_mask : Z }.
Definition pic_ctrl (p : pic) (v : Z) : pic := if Z.testbit v 4 then Pic 0 (pic_vector p) 0 else p.
Definition pic_data (p : pic) (v : Z) : pic :=
  if pic_words p =? 0 then Pic 1 (v - v mod 8) (pic_mask p)
  else if pic_words p <? 3 then Pic (pic_words p + 1) (pic_vector p) (pic_mask p)
  else Pic 3 (pic_vector p) v.
Definition pics_write (m : pic * pic) (w : Z * Z) : pic * pic :=
  let '(port, v) := w in
  if port =? 0x20 then (pic_ctrl m.1 v, m.2) else if port =? 0x21 then (pic_data m.1 v, m.2)
  else if port =? 0xa0 then (m.1, pic_ctrl m.2 v) else if port =? 0xa1 then (m.1, pic_data m.2 v) else m.
Definition pics_after (m : pic * pic) (log : list (Z * Z)) : pic * pic := foldl pics_write m (rev log).
(** Lines 0 to 7 belong to the first controller, 8 to 15 to the second, which
    is connected to line 2 of the first. *)
Definition irq_vector (m : pic * pic) (irq : Z) : Z := if irq <? 8 then pic_vector m.1 + irq else pic_vector m.2 + (irq - 8).
Definition irq_enabled (m : pic * pic) (irq : Z) : bool :=
  if irq <? 8 then negb (Z.testbit (pic_mask m.1) irq)
  else negb (Z.testbit (pic_mask m.1) 2) && negb (Z.testbit (pic_mask m.2) (irq - 8)).

(** Counter 0 of the timer: whether the next byte is the high one, the low
    byte, and the value it counts down from, 0 for 65536. *)
Record pit := Pit { pit_high : bool; pit_low : Z; pit_reload : Z }.
Definition pit_write (t : pit) (w : Z * Z) : pit :=
  let '(port, v) := w in
  if port =? 0x43 then Pit false (pit_low t) (pit_reload t)
  else if port =? 0x40 then
    if pit_high t then Pit false (pit_low t) (v * 256 + pit_low t) else Pit true v (pit_reload t)
  else t.
Definition pit_after (t : pit) (log : list (Z * Z)) : pit := foldl pit_write t (rev log).

(** ** Properties *)

Lemma land_ffff v : Z.land v 0x0000FFFF = v mod 65536.
Proof. change 0x0000FFFF with (Z.ones 16). by rewrite Z.land_ones by lia. Qed.
Lemma shiftr_land v k n j : 0 ≤ k → 0 ≤ n → j = Z.shiftl (Z.ones n) k → Z.shiftr (Z.land v j) k = v / 2 ^ k mod 2 ^ n.
Proof.
  intros Hk Hn ->. rewrite Z.shiftr_land, Z.shiftr_shiftl_l, Z.sub_diag, Z.shiftl_0_r by lia.
  by rewrite Z.land_ones, Z.shiftr_div_pow2 by lia.
Qed.

(** The processor finds the function in the gate made for it. *)
Lemma make_idt_desc_offset attr f : 0 ≤ f < 2 ^ 32 → gate_offset (make_idt_desc attr f) = f.
Proof.
  intros Hf. unfold gate_offset, make_idt_desc. simpl func_offset_high_word. simpl func_offset_low_word.
  rewrite land_ffff, (shiftr_land f 16 16) by (done || lia). change (2 ^ 16) with 65536.
  rewrite !u16_small by dm. dm.
Qed.

(** Segment descriptors: for every 32-bit base, 20-bit limit and attributes
    whose bits do not overlap the limit, the processor reads from the
    descriptor [make_gdt_desc] packs exactly the base, limit and attributes
    that were given. *)
Lemma make_gdt_desc_roundtrip base limit attr_low attr_high :
  0 ≤ base < 2 ^ 32 → 0 ≤ limit < 2 ^ 20 → 0 ≤ attr_low < 256 → 0 ≤ attr_high < 256 → attr_high mod 16 = 0 →
  let d := make_gdt_desc base limit attr_low attr_high in
  seg_base d = base ∧ seg_limit d = limit ∧ attr_low_byte d = attr_low ∧
  limit_high_attr_high d / 16 = attr_high / 16.
Proof.
  intros Hb Hl Ha Hh Hm. unfold seg_base, seg_limit, make_gdt_desc. simpl.
  rewrite !land_ffff, (shiftr_land base 16 8), (shiftr_land limit 16 4), Z.shiftr_div_pow2 by (done || lia).
  change (2 ^ 16) with 65536 in *. change (2 ^ 24) with 16777216. change (2 ^ 8) with 256. change (2 ^ 4) with 16.
  change (2 ^ 20) with 1048576 in *. change (2 ^ 32) with 4294967296 in *.
  rewrite (u8_small attr_low), (u8_small attr_high) by done.
  rewrite !u16_small, !u8_small by (change (2 ^ 16) with 65536; change (2 ^ 8) with 256; dm). split_and!; dm.
Qed.

(** What [tss_init] makes of the tables. *)
Definition tss_tables (c : cpu_tables) : cpu_tables :=
  CpuTables (idt c) (intr_name c)
    (<[0xc0000930 := make_gdt_desc 0 0xfffff GDT_DATA_ATTR_LOW_DPL3 GDT_ATTR_HIGH]>
      (<[0xc0000928 := make_gdt_desc 0 0xfffff GDT_CODE_ATTR_LOW_DPL3 GDT_ATTR_HIGH]>
        (<[0xc0000920 := make_gdt_desc tss_addr (sizeof_tss - 1) TSS_ATTR_LOW TSS_ATTR_HIGH]> (gdt c))))
    (<[TSS_IO_BASE := sizeof_tss]> (<[TSS_SS0 := SELECTOR_K_STACK]> (replicate 27 0)))
    (idtr c) (55, 0xc0000900) 32.
Lemma tss_init_eq {H} (s : kst H) : tss_init s = Ok (tt, set_cpu (tss_tables (cpu s)) (set_tss_esp0 0 s)).
Proof. unfold tss_init. kgo. reflexivity. Qed.

(** The bytes of [esp0] in the segment that the bitmap uses are 0. *)
Lemma tss_esp0_byte e : e mod 4096 = 0 → byte_of e 0 = 0.
Proof. intros He. unfold byte_of. change (256 ^ 0) with 1. dm. Qed.

(** After [tss_init] the processor has two segments for user code and data
    of privilege 3 that cover the whole 4 GB, a task state segment of privilege
    0 at [tss] in the task register, whose stack segment for the kernel is the
    kernel's.  But its I/O bitmap protects nothing: [io_base] is one word
    behind the place the processor reads, so that the bitmap lies over the
    segment itself; whatever page aligned stack [update_tss_esp] sets later,
    user code may use the ports of the disk, of the interrupt controller and
    of the timer. *)
Theorem tss_init_segments {H} (s : kst H) e :
  0 ≤ e < 2 ^ 32 → e mod 4096 = 0 →
  ∃ s', tss_init s = Ok (tt, s') ∧ gdtr (cpu s') = (55, 0xc0000900) ∧
    (∀ sel, sel ∈ [5; 6] → ∃ d, segment s' (sel * 8) = Some d ∧
       seg_base d = 0 ∧ seg_last d = 2 ^ 32 - 1 ∧ seg_dpl d = 3) ∧
    (∃ d, segment s' (task_register (cpu s')) = Some d ∧ seg_base d = tss_addr ∧ seg_dpl d = 0) ∧
    tss_words s' !! TSS_SS0 = Some SELECTOR_K_STACK ∧
    ∀ port, port ∈ [0x20; 0x21; 0x40; 0x43] ++ seqZ 0x1f0 8 → io_allowed (set_tss_esp0 e s') port = Some true.
Proof.
  intros He Hm. exists (set_cpu (tss_tables (cpu s)) (set_tss_esp0 0 s)). split; [apply tss_init_eq|]. split; [done|].
  unfold io_allowed, tss_byte, tss_words, segment. cbn [cpu set_cpu set_tss_esp0 tss_tables gdt gdtr task_register tss_seg snd fst].
  split_and!.
  - intros sel Hs. apply elem_of_cons in Hs as [->|Hs]; [|apply list_elem_of_singleton in Hs as ->].
    + eexists. change (0xc0000900 + 5 * 8) with 0xc0000928. split; [by rewrite lookup_insert_ne, lookup_insert_eq|by vm_compute].
    + eexists. split; [by apply (lookup_insert_eq (M := gmap Z))|by vm_compute].
  - eexists. change (0xc0000900 + 32) with 0xc0000920.
    split; [by rewrite lookup_insert_ne, lookup_insert_ne, lookup_insert_eq|by vm_compute].
  - by vm_compute.
  - intros port Hp. change (0xc0000900 + 32) with 0xc0000920.
    rewrite (lookup_insert_ne _ 0xc0000930), (lookup_insert_ne _ 0xc0000928), lookup_insert_eq by done.
    revert port Hp. apply Forall_forall. cbn [app]. vm_compute seqZ. cbn [app].
    repeat apply Forall_cons_2; cbn [tss_esp0 set_tss_esp0 mbind option_bind].
    all: try (vm_compute; reflexivity).
    + transitivity (Some (negb (Z.testbit (byte_of e 0) 0))); [reflexivity|by rewrite tss_esp0_byte].
    + transitivity (Some (negb (Z.testbit (byte_of e 0) 1))); [reflexivity|by rewrite tss_esp0_byte].
    + constructor.
Qed.

(** Writing to a port that is not a disk controller's. *)
Lemma outb_log {H} (s : kst H) port v : atas s !! ata_base port = None →
  outb port v s = Ok (tt, set_port_log ((u16 port, u8 v) :: port_log s) s).
Proof. intros Hn. unfold outb. kgo. by rewrite Hn. Qed.

Lemma outb_logged {H} (s : kst H) l port v : atas s !! ata_base port = None →
  outb port v (set_port_log l s) = Ok (tt, set_port_log ((u16 port, u8 v) :: l) s).
Proof. intros Hn. by rewrite outb_log. Qed.

(** The timer's ports. *)
Lemma frequency_set_reload {H} (s : kst H) value t : 0 ≤ value < 65536 → atas s !! 0x40 = None →
  ∃ s', frequency_set CONTRER0_PORT 0 3 2 value s = Ok (tt, s') ∧ idt_table s' = idt_table s ∧ atas s' = atas s ∧
    pit_after t (port_log s') = Pit false (value mod 256) (value mod 256).
Proof.
  intros Hv Ha. unfold frequency_set, CONTRER0_PORT, PIT_CONTROL_PORT.
  erewrite K_step by (by apply outb_log). erewrite K_step by (by apply outb_log).
  eexists. split; [by apply outb_log|]. split_and!; [done..|]. cbn [port_log set_port_log].
  unfold pit_after. cbn [rev]. rewrite !foldl_app. set (t1 := foldl _ _ _). cbn.
  assert (u8 (u8 value) = value mod 256) as -> by (rewrite u8_small by apply u8_range; done).
  assert (Z.shiftr (u8 value) 8 = 0) as -> by (rewrite Z.shiftr_div_pow2 by lia; apply Z.div_small; apply u8_range).
  done.
Qed.

(** [timer_init] installs the handler of the timer, but the timer it sets up
    counts from 155 and not from [COUNTER0_VALUE] = 11931, because the high
    byte is shifted out before it is sent: there are 1193180 / 155 = 7697
    interrupts per second instead of 100. *)
Theorem timer_init_rate {H} (s : kst H) t :
  atas s !! 0x40 = None →
  ∃ s', timer_init s = Ok (tt, s') ∧ idt_table s' = <[0x20 := intr_timer_code]> (idt_table s) ∧
    pit_reload (pit_after t (port_log s')) = COUNTER0_VALUE mod 256 ∧
    1193180 / pit_reload (pit_after t (port_log s')) = 7697 ∧ 1193180 / COUNTER0_VALUE = 100.
Proof.
  intros Ha. destruct (frequency_set_reload s (u16 COUNTER0_VALUE) t) as (s1 & Hf & Hi & _ & Hp); [by vm_compute|done|].
  exists (set_idt_table (<[0x20 := intr_timer_code]> (idt_table s1)) s1). split_and!.
  - unfold timer_init. kstep Hf. done.
  - simpl. by rewrite Hi.
  - cbn [port_log set_idt_table]. by rewrite Hp.
  - cbn [port_log set_idt_table]. by rewrite Hp.
  - done.
Qed.

(** The loops of the set-up. *)
Section Setup.
Context {H : Type}.
Implicit Types s : kst H.

Definition with_idt (l : list gate_desc) (c : cpu_tables) : cpu_tables :=
  CpuTables l (intr_name c) (gdt c) (tss_seg c) (idtr c) (gdtr c) (task_register c).

Lemma idt_loop_ok table n : ∀ i s, (i + n ≤ length table)%nat → (i + n ≤ length (idt (cpu s)))%nat →
  ∃ l, idt_loop table n i s = Ok (tt, set_cpu (with_idt l (cpu s)) s) ∧ length l = length (idt (cpu s)) ∧
    ∀ j, l !! j = if decide (i ≤ j < i + n)%nat then make_idt_desc IDT_DESC_ATTR_DPL0 <$> table !! j else idt (cpu s) !! j.
Proof.
  induction n as [|n IH]; intros i s Ht Hi.
  - exists (idt (cpu s)). split_and!; [by destruct s, cpu|done|]. intros j. by rewrite decide_False by lia.
  - destruct (lookup_lt_is_Some_2 table i) as [f Hf]; [lia|].
    set (g := make_idt_desc IDT_DESC_ATTR_DPL0 f).
    set (s1 := set_cpu (with_idt (<[i := g]> (idt (cpu s))) (cpu s)) s).
    destruct (IH (S i) s1) as (l & Hl & Hlen & Hj); [lia|simpl; rewrite length_insert; lia|].
    exists l. split_and!.
    + simpl. rewrite Hf. cbn [deref]. kgo. exact Hl.
    + rewrite Hlen. simpl. by rewrite length_insert.
    + intros j. rewrite Hj. simpl. destruct (decide (j = i)) as [->|Hne].
      * rewrite decide_False, decide_True, list_lookup_insert_eq, Hf by lia. done.
      * rewrite list_lookup_insert_ne by done. destruct (decide (i ≤ j < i + S n)%nat) as [Hr|Hr].
        -- by rewrite decide_True by lia.
        -- by rewrite decide_False by lia.
Qed.

Definition with_names (l : list (list Z)) (c : cpu_tables) : cpu_tables :=
  CpuTables (idt c) l (gdt c) (tss_seg c) (idtr c) (gdtr c) (task_register c).

Lemma exception_loop_ok n : ∀ i s, ∃ l t,
  exception_loop n i s = Ok (tt, set_cpu (with_names l (cpu s)) (set_idt_table t s)) ∧
  ∀ v, t !! v = if decide (Z.of_nat i ≤ v < Z.of_nat (i + n)) then Some general_intr_code else idt_table s !! v.
Proof.
  induction n as [|n IH]; intros i s.
  - exists (intr_name (cpu s)), (idt_table s). split; [by destruct s, cpu|]. intros v. by rewrite decide_False by lia.
  - set (s1 := set_cpu (with_names (<[i := unknown]> (intr_name (cpu s))) (cpu s))
                 (set_idt_table (<[Z.of_nat i := general_intr_code]> (idt_table s)) s)).
    destruct (IH (S i) s1) as (l & t & Hl & Ht). exists l, t. split.
    + simpl. kgo. exact Hl.
    + intros v. rewrite Ht. simpl. destruct (decide (v = Z.of_nat i)) as [->|Hne].
      * rewrite decide_False, lookup_insert_eq, decide_True by lia. done.
      * rewrite lookup_insert_ne by done. destruct (decide (Z.of_nat i ≤ v < Z.of_nat (i + S n))).
        -- by rewrite decide_True by lia.
        -- by rewrite decide_False by lia.
Qed.

Lemma name_exceptions_ok ns : ∀ s, ∃ l, name_exceptions ns s = Ok (tt, set_cpu (with_names l (cpu s)) s).
Proof.
  induction ns as [|[i str] ns IH]; intros s; [exists (intr_name (cpu s)); by destruct s, cpu|].
  destruct (IH (set_cpu (with_names (<[Z.to_nat i := str]> (intr_name (cpu s))) (cpu s)) s)) as (l & Hl).
  exists l. simpl. kgo. exact Hl.
Qed.

Lemma pic_init_ok s m : atas s !! 0x20 = None → atas s !! 0xa0 = None →
  ∃ log, pic_init s = Ok (tt, set_port_log log s) ∧ pics_after m log = (Pic 3 0x20 0xf8, Pic 3 0x28 0xbf).
Proof.
  intros Hm Hs. eexists. split.
  - unfold pic_init, PIC_M_CTRL, PIC_M_DATA, PIC_S_CTRL, PIC_S_DATA.
    erewrite K_step by (by apply outb_log).
    do 8 (erewrite K_step by (apply outb_logged; first [exact Hm|exact Hs])). apply outb_logged. exact Hs.
  - unfold pics_after. cbn [rev]. rewrite <- !app_assoc, foldl_app.
    destruct (foldl pics_write m (rev (port_log s))) as [a b]. reflexivity.
Qed.
End Setup.

(** C40: After [idt_init] user code enters the kernel with [int] only through
    vector 0x80, at the system call handler; every other vector is refused to
    it.  The kernel and the hardware enter vector [i] at the i-th entry point
    (for vectors above 0x2f that is whatever lies behind the table of 48 entry
    points), where the general handler is installed.  Interrupt line [i] has
    vector 0x20 + i, and exactly the timer, the keyboard, the second
    controller and the first disk channel can interrupt. *)
Theorem idt_init_entries {H} (s : kst H) table m :
  (Z.to_nat IDT_DESC_CNT ≤ length table)%nat → (∀ e, e ∈ table → 0 ≤ e < 2 ^ 32) →
  length (idt (cpu s)) = Z.to_nat IDT_DESC_CNT → atas s !! 0x20 = None → atas s !! 0xa0 = None →
  ∃ s', idt_init table s = Ok (tt, s') ∧
    (∀ vec, soft_int (cpu s') 3 vec = if decide (vec = 0x80) then Some (SELECTOR_K_CODE, syscall_handler_code) else None) ∧
    (∀ vec e, 0 ≤ vec < 0x80 → table !! Z.to_nat vec = Some e → soft_int (cpu s') 0 vec = Some (SELECTOR_K_CODE, e)) ∧
    (∀ vec, 0 ≤ vec ≤ 0x80 → idt_table s' !! vec = Some general_intr_code) ∧
    ∀ irq, 0 ≤ irq < 16 → irq_vector (pics_after m (port_log s')) irq = 0x20 + irq ∧
      irq_enabled (pics_after m (port_log s')) irq = bool_decide (irq ∈ [0; 1; 2; 14]).
Proof.
  intros Ht He Hlen Hm Hs. unfold IDT_DESC_CNT in *. change (Z.to_nat 129) with 129%nat in *.
  destruct (idt_loop_ok table 129 0 s) as (l & Hl & Hll & Hj); [lia..|].
  set (l' := <[128%nat := make_idt_desc IDT_DESC_ATTR_DPL3 syscall_handler_code]> l).
  set (s1 := set_cpu (with_idt l' (cpu s)) s).
  destruct (exception_loop_ok 129 0 s1) as (ns & t & Hx & Hv). set (s2 := set_cpu _ _) in Hx.
  destruct (name_exceptions_ok exception_names s2) as (ns' & Hn). set (s3 := set_cpu _ _) in Hn.
  destruct (pic_init_ok s3 m Hm Hs) as (log & Hp & Hlog).
  eexists. split.
  { unfold idt_init, idt_desc_init, exception_init. change (Z.to_nat IDT_DESC_CNT) with 129%nat.
    kgo. kstep Hl. unfold set_gate, upd_cpu. kgo.
    erewrite K_step by exact Hx. kgo. kstep Hn. kstep Hp. reflexivity. }
  assert (∀ c cpl vec, soft_int (CpuTables l' ns' (gdt c) (tss_seg c) (1031, idt_addr) (gdtr c) (task_register c)) cpl vec =
    if decide (vec = 0x80) then if cpl <=? 3 then Some (SELECTOR_K_CODE, syscall_handler_code) else None
    else if decide (0 ≤ vec < 0x80) then e ← table !! Z.to_nat vec; if cpl <=? 0 then Some (SELECTOR_K_CODE, e) else None
    else None) as Hsoft.
  { intros c cpl vec. unfold soft_int. cbn [idtr idt fst snd]. rewrite Z.eqb_refl. cbn [andb].
    destruct (decide (vec = 0x80)) as [->|Hne].
    - change (Z.to_nat 0x80) with 128%nat. unfold l'. rewrite list_lookup_insert_eq by lia. by vm_compute.
    - destruct (decide (0 ≤ vec < 0x80)) as [Hr|Hr].
      + rewrite (proj2 (Z.leb_le 0 vec)), (proj2 (Z.leb_le (vec * 8 + 7) 1031)) by lia. cbn [andb negb].
        unfold l'. rewrite list_lookup_insert_ne, Hj, decide_True by lia.
        destruct (table !! Z.to_nat vec) as [e|] eqn:E; [|done]. cbn [fmap option_fmap option_map mbind option_bind].
        rewrite make_idt_desc_offset by exact (He e (list_elem_of_lookup_2 _ _ _ E)). done.
      + destruct (Z.leb_spec 0 vec); [|done]. rewrite (proj2 (Z.leb_gt (vec * 8 + 7) 1031)) by lia. done. }
  split_and!.
  - intros vec. etrans; [apply (Hsoft (cpu s))|]. destruct (decide (vec = 0x80)); [done|]. destruct (decide _) as [Hr|]; [|done].
    by destruct (table !! _).
  - intros vec e Hr E. etrans; [apply (Hsoft (cpu s))|]. rewrite decide_False, decide_True, E by lia. done.
  - intros vec Hr. transitivity (t !! vec); [done|]. rewrite Hv, decide_True by lia. done.
  - cbn [port_log set_cpu set_port_log]. rewrite Hlog. intros irq Hirq.
    assert (irq ∈ seqZ 0 16) as Hin by (apply elem_of_seqZ; lia). clear Hirq. revert irq Hin. apply Forall_forall. change (seqZ 0 16) with [0;1;2;3;4;5;6;7;8;9;10;11;12;13;14;15].
    repeat constructor.
Qed.

(** ** Witnesses *)

(** Entry points 16 bytes apart, and a kernel with empty tables. *)
Definition ex_entries : list Z := (λ i, 0xc0001500 + 16 * i) <$> seqZ 0 0x81.
Definition ex_tables : kst lheap :=
  set_cpu (CpuTables (replicate 0x81 (GateDesc 0 0 0 0 0)) (replicate 0x81 []) ∅ (replicate 27 0) (0, 0) (0, 0) 0) ex_kst.

Lemma idt_init_entries_witness : ∃ s', idt_init ex_entries ex_tables = Ok (tt, s') ∧
  soft_int (cpu s') 3 0x80 = Some (8, syscall_handler_code) ∧ soft_int (cpu s') 3 0x20 = None.
Proof.
  destruct (idt_init_entries ex_tables ex_entries (Pic 0 0 0, Pic 0 0 0)) as (s' & Hi & Hu & _).
  - by vm_compute.
  - intros e He. unfold ex_entries in He. apply list_elem_of_fmap in He as (i & -> & Hi%elem_of_seqZ). lia.
  - by vm_compute.
  - done.
  - done.
  - exists s'. split; [exact Hi|]. split; [exact (Hu 0x80)|exact (Hu 0x20)].
Defined.

Lemma tss_init_segments_witness : ∃ s', tss_init ex_tables = Ok (tt, s') ∧
  io_allowed (set_tss_esp0 0xc0201000 s') 0x1f7 = Some true.
Proof.
  destruct (tss_init_segments ex_tables 0xc0201000) as (s' & Hi & _ & _ & _ & _ & Hp); [done..|].
  exists s'. split; [exact Hi|]. apply Hp. by vm_compute; repeat constructor.
Defined.

Lemma timer_init_rate_witness : ∃ s', timer_init ex_tables = Ok (tt, s') ∧
  pit_reload (pit_after (Pit false 0 0) (port_log s')) = 155.
Proof.
  destruct (timer_init_rate ex_tables (Pit false 0 0)) as (s' & Hi & _ & Hp & _); [done|].
  exists s'. split; [exact Hi|exact Hp].
Defined.
