(* ===== verification/Thread.v ===== *)
(** * Threads: pids, creation, exit, lookup (src/thread/thread.c)

    The scheduler's part of thread.c is in Sched.v; this file has the rest:
    the pool of pids, the making of a thread and its first stack frame, the
    end of a thread and the search for a thread by its pid.

    A page that [get_kernel_pages] hands out has no type yet; the [memset] of
    [init_thread] makes it a task structure.  [self_kstack] is a [uint32_t *],
    so that [self_kstack -= sizeof(x)] moves it by [4 * sizeof(x)] bytes. *)

From S2P Require Import Prelude CString Bitmap Lists PageTable Kernel Sched Sync Memory Malloc.

Definition TASK_NAME_LEN : Z := 16.
Definition MAX_FILES_OPEN_PER_PROC : Z := 8.

(** Entry points of kernel code that are stored as values. *)
Definition kernel_thread_code : Z := 0xc0001500.
Definition start_process_code : Z := 0xc0001600.
Definition intr_exit_code : Z := 0xc0001700.
Definition idle_code : Z := 0xc0001800.
Definition init_code : Z := 0xc0001900.

(** A task structure after [memset(pthread, 0, sizeof( *pthread))]. *)
Definition zero_task : task_struct :=
  Task 0 0 TASK_RUNNING (replicate 16 0) 0 0 0 0 (VirtualAddr (Bitmap 0 0) 0) (replicate 8 0) 0 0 0 0.
Definition zero_desc : mem_block_desc := MemBlockDesc 0 0.

(** What [strcpy] makes of a field of [n] zero bytes. *)
Definition pad_name (str : list Z) : list Z := take 16 (str ++ replicate 16 0).

Section Thread.
Context {H : Type} `{Queues H} `{World H}.

(** ** The pool of pids *)

Definition pid_pool_init : K (kst H) unit :=
  modify (set_pid_start 1) ;;
  modify (set_pid_bitmap (Bitmap 128 pid_bitmap_bits)) ;;
  on_bytes (λ m, bitmap_init m (Bitmap 128 pid_bitmap_bits)) ;;
  lock_init pid_lock.

(** [bitmap_scan] gives -1 when no pid is left; the conversion to the
    [uint32_t] index of [bitmap_set] is written out.  [pid_t] is [int16_t]. *)
Definition allocate_pid : K (kst H) Z :=
  lock_acquire pid_lock ;;
  b ← gets pid_bitmap;
  bit_idx ← scan b 1;
  set_bit b (u32 bit_idx) 1 ;;
  lock_release pid_lock ;;
  start ← gets pid_start;
  mret (s16 (bit_idx + start)).

Definition release_pid (pid : Z) : K (kst H) unit :=
  lock_acquire pid_lock ;;
  start ← gets pid_start;
  let bit_idx := s32 (pid - start) in
  b ← gets pid_bitmap;
  set_bit b (u32 bit_idx) 0 ;;
  lock_release pid_lock.

Definition fork_pid : K (kst H) Z := allocate_pid.

(** ** Making a thread *)

Definition set_tstack (p : Z) (t : thread_stack) : K (kst H) unit :=
  modify (λ s, set_tstacks (<[p := t]> (tstacks s)) s).

(** [idle]'s and the other entry points' functions are numbers here. *)
Definition thread_create (pthread function func_arg : Z) : K (kst H) unit :=
  upd_task pthread (λ t, set_self_kstack (u32 (self_kstack t - 4 * sizeof_intr_stack)) t) ;;
  upd_task pthread (λ t, set_self_kstack (u32 (self_kstack t - 4 * sizeof_thread_stack)) t) ;;
  t ← task_at pthread;
  let kthread_stack := self_kstack t in
  set_tstack kthread_stack (ThreadStack 0 0 0 0 kernel_thread_code function func_arg).

(** The list cells and block descriptors inside a task structure. *)
Definition task_cells (p : Z) : list Z :=
  general_tag p :: all_list_tag p ::
  concat ((λ i, [free_list (desc_ptr (u_block_desc p) i); free_list (desc_ptr (u_block_desc p) i) + 8]) <$> seqZ 0 7).
Definition task_descs (p : Z) : list Z := desc_ptr (u_block_desc p) <$> seqZ 0 7.

Definition zero_all (h : H) (cs : list Z) : H := foldl qzero h cs.

Definition memset_task (p : Z) : K (kst H) unit :=
  kASSERT (negb (p =? NULL)) ;;
  modify (λ s, set_tasks (<[p := zero_task]> (tasks s)) s) ;;
  modify (λ s, set_heap (zero_all (heap s) (task_cells p)) s) ;;
  modify (λ s, set_descs (foldl (λ m d, <[d := zero_desc]> m) (descs s) (task_descs p)) s).

(** [strcpy(pthread->name, name)]; a name that does not fit the field with
    its end runs into the next one. *)
Definition strcpy_name (p : Z) (str : list Z) : K (kst H) unit :=
  lift (if Z.of_nat (length str) <? TASK_NAME_LEN then Ok tt else Fault) ;;
  upd_task p (set_name (pad_name str)).

Definition init_thread (pthread : Z) (nm : list Z) (prio : Z) : K (kst H) unit :=
  memset_task pthread ;;
  n ← allocate_pid;
  upd_task pthread (set_pid n) ;;
  strcpy_name pthread nm ;;
  mt ← gets main_thread;
  (if pthread =? mt then upd_task pthread (set_status TASK_RUNNING)
   else upd_task pthread (set_status TASK_READY)) ;;
  upd_task pthread (set_self_kstack (u32 (pthread + PG_SIZE))) ;;
  upd_task pthread (set_priority (u8 prio)) ;;
  upd_task pthread (set_ticks (u8 prio)) ;;
  upd_task pthread (set_elapsed_ticks 0) ;;
  upd_task pthread (set_pgdir NULL) ;;
  upd_task pthread (set_fd_table ([0; 1; 2] ++ replicate (Z.to_nat (MAX_FILES_OPEN_PER_PROC - 3)) (-1))) ;;
  upd_task pthread (set_cwd_inode_nr 0) ;;
  upd_task pthread (set_parent_pid (-1)) ;;
  upd_task pthread (set_stack_magic 0x19870916).

(** A thread enters a list it is not in. *)
Definition enlist (l e : Z) : K (kst H) unit :=
  f ← find_in l e;
  kASSERT (negb f) ;;
  on_heap (λ h, qappend h l e).

(** [thread_start] behind the allocation of its page. *)
Definition thread_setup (thread : Z) (nm : list Z) (prio function func_arg : Z) : K (kst H) Z :=
  init_thread thread nm prio ;;
  thread_create thread function func_arg ;;
  enlist thread_ready_list (general_tag thread) ;;
  enlist thread_all_list (all_list_tag thread) ;;
  mret thread.

Definition thread_start (nm : list Z) (prio function func_arg : Z) : K (kst H) Z :=
  thread ← get_kernel_pages 1;
  thread_setup thread nm prio function func_arg.

(** "main". *)
Definition make_main_thread : K (kst H) unit :=
  p ← running_thread;
  modify (set_main_thread p) ;;
  init_thread p [109; 97; 105; 110] 31 ;;
  enlist thread_all_list (all_list_tag p).

(** ** The end of a thread

    The page is given back before its [pid] is read.  The entry of the page is
    then cleared in the page table, so that the read is a page fault unless the
    processor still has the old translation: [invlpg] of
    [page_table_pte_remove] is given the address of a variable on the stack
    and does not drop it. *)
Definition task_behind (p : Z) : K (kst H) task_struct := λ s,
  match translate (phys s) (cr3 s) p with
  | Some _ => task_at p s
  | None => if stale p then task_at p s else Fault
  end.
Definition thread_exit (thread_over : Z) (need_schedule : bool) : K (kst H) unit :=
  intr_disable ;;
  upd_task thread_over (set_status TASK_DIED) ;;
  f ← find_in thread_ready_list (general_tag thread_over);
  (if (f : bool) then on_heap (λ h, qremove h (general_tag thread_over)) else mret tt) ;;
  t ← task_at thread_over;
  (if negb (pgdir t =? NULL) then mfree_page PF_KERNEL (pgdir t) 1 else mret tt) ;;
  on_heap (λ h, qremove h (all_list_tag thread_over)) ;;
  mt ← gets main_thread;
  (if negb (thread_over =? mt) then mfree_page PF_KERNEL thread_over 1 else mret tt) ;;
  t ← task_behind thread_over;
  release_pid (pid t) ;;
  if need_schedule then schedule_return ;; lift Panic else mret tt.

(** ** Looking a thread up *)

Definition pid_check (n : Z) (pelem : Z) : K (kst H) bool :=
  t ← task_at (all_list_entry pelem);
  mret (pid t =? n).

Definition pid2thread (n : Z) : K (kst H) Z :=
  pelem ← qtraverse heap thread_all_list (pid_check n);
  if pelem =? NULL then mret NULL
  else mret (all_list_entry pelem).

(** ** Pids *)

(** The pool after [pid_pool_init], and the pids in use. *)
Definition pids_ok (s : kst H) : Prop :=
  pid_start s = 1 ∧ pid_bitmap s = Bitmap 128 pid_bitmap_bits ∧ bitmap_wf (bytes s) (pid_bitmap s).
Definition pids (s : kst H) : gset Z := set_map (λ i, i + 1) (taken (bytes s) (pid_bitmap s)).

Lemma elem_of_pids s n : n ∈ pids s ↔ n - 1 ∈ taken (bytes s) (pid_bitmap s).
Proof.
  unfold pids. rewrite elem_of_map. split.
  - intros (i & -> & Hi). by replace (i + 1 - 1) with i by lia.
  - intros Hi. exists (n - 1). split; [lia|done].
Qed.

Lemma pids_full s : pids_ok s → full (bytes s) (pid_bitmap s) ↔ ∀ n, 1 ≤ n ≤ 1024 → n ∈ pids s.
Proof.
  intros (_ & Hb & _). rewrite full_taken. setoid_rewrite elem_of_pids. rewrite Hb. simpl. split.
  - intros Hf n Hn. apply Hf. lia.
  - intros Hf i Hi. replace i with (i + 1 - 1) by lia. apply Hf. lia.
Qed.

(** A critical section that changes bytes only. *)
Lemma release_after s Q l b :
  qrep (heap s) Q → lock_free s Q l →
  lock_release l (set_bytes b (acquired s l (current s))) = Ok (tt, set_bytes b s).
Proof.
  intros Hq Hf. set (s1 := set_bytes b (acquired s l (current s))).
  rewrite (lock_release_last s1 Q l); [|exact (acquired_held s Q l Hf)|done].
  pose proof (released_acquired s Q l (current s) Hf) as E. unfold released, acquired in *.
  destruct s; simpl in *. by injection E as -> ->.
Qed.

Lemma allocate_pid_ok s Q :
  pids_ok s → ~ full (bytes s) (pid_bitmap s) → qrep (heap s) Q → lock_free s Q pid_lock → current s ≠ NULL →
  ∃ n b', let s' := set_bytes b' s in allocate_pid s = Ok (n, s') ∧ 1 ≤ n ≤ 1024 ∧ (n ∉ pids s) ∧
    (∀ k, 1 ≤ k < n → k ∈ pids s) ∧ pids_ok s' ∧ pids s' = {[n]} ∪ pids s ∧
    ∀ a, ~ in_bitmap (pid_bitmap s) a → b' !! a = bytes s !! a.
Proof.
  intros (Hst & Hb & Hwf) Hnf Hq Hl Hc.
  destruct (bitmap_take_one _ _ Hwf Hnf) as (i & b' & Hs & Hset & Hi & Hn & Hwf' & HT & Hpre & Hfr).
  rewrite Hb in Hi. simpl in Hi. exists (i + 1), b'. simpl. split_and!; try done || lia.
  - unfold allocate_pid. kstep (lock_acquire_free s Q _ Hc Hl). unfold scan, set_bit, on_bytes. kgo.
    change (pid_bitmap (acquired s pid_lock (current s))) with (pid_bitmap s).
    change (bytes (acquired s pid_lock (current s))) with (bytes s). rewrite Hs. kgo.
    rewrite u32_small by lia. erewrite K_step by (simpl; rewrite Hset; simpl; reflexivity). kgo.
    erewrite K_step by (by apply (release_after s Q)). kgo. simpl. rewrite Hst. unfold mret, K_ret, s16.
    do 2 f_equal. rewrite Z.mod_small; lia.
  - rewrite elem_of_pids. by replace (i + 1 - 1) with i by lia.
  - intros k Hk. apply elem_of_pids, Hpre. lia.
  - apply set_eq. intros k. rewrite elem_of_union, elem_of_singleton, !elem_of_pids. simpl. rewrite HT.
    rewrite elem_of_union, elem_of_singleton. split; intros [Hx|Hx]; try (by right); left; lia.
  - intros a Ha. apply Hfr. intros ->. apply Ha. unfold in_bitmap. rewrite Hb. simpl. dm.
Qed.

Lemma release_pid_ok s Q n :
  pids_ok s → 1 ≤ n ≤ 1024 → qrep (heap s) Q → lock_free s Q pid_lock → current s ≠ NULL →
  ∃ b', let s' := set_bytes b' s in
    release_pid n s = Ok (tt, s') ∧ pids_ok s' ∧ pids s' = pids s ∖ {[n]} ∧
    ∀ a, ~ in_bitmap (pid_bitmap s) a → b' !! a = bytes s !! a.
Proof.
  intros (Hst & Hb & Hwf) Hn Hq Hl Hc.
  assert (0 ≤ n - 1 < 8 * btmp_bytes_len (pid_bitmap s)) as Hi by (rewrite Hb; simpl; lia).
  destruct (bitmap_set_ok _ _ (n - 1) 0 Hwf Hi) as (b' & Hset & _); [by left|].
  destruct (taken_clear _ _ _ _ Hwf Hi Hset) as (Hwf' & HT & Hfr). exists b'. simpl. split_and!; try done.

  - unfold release_pid. kstep (lock_acquire_free s Q _ Hc Hl).
    change (pid_start (acquired s pid_lock (current s))) with (pid_start s).
    change (pid_bitmap (acquired s pid_lock (current s))) with (pid_bitmap s).
    rewrite Hst, s32_small, u32_small by (simpl in Hi; lia). unfold set_bit, on_bytes.
    erewrite K_step by (simpl; rewrite Hset; simpl; reflexivity). kgo. by apply (release_after s Q).
  - apply set_eq. intros k. rewrite elem_of_difference, elem_of_singleton, !elem_of_pids. simpl. rewrite HT.
    rewrite elem_of_difference, elem_of_singleton. split; intros [? ?]; (split; [done|lia]).
  - intros a Ha. apply Hfr. intros ->. apply Ha. unfold in_bitmap. dm.
Qed.

(** ** The search *)

Lemma traverse_pid_check n s ps :
  (∀ p, p ∈ ps → is_Some (tasks s !! p)) → NULL ∉ (all_list_tag <$> ps) →
  ∃ e, traverse (pid_check n) (all_list_tag <$> ps) s = Ok (e, s) ∧
    match list_find (λ p, (pid <$> tasks s !! p) = Some n) ps with
    | Some (_, p) => e = all_list_tag p ∧ e ≠ NULL
    | None => e = NULL
    end.
Proof.
  induction ps as [|p ps IH]; intros Hk Hnn; [by exists NULL|].
  destruct (Hk p) as [t Ht]; [set_solver|].
  destruct IH as (e & He & Hm); [set_solver..|].
  assert (pid_check n (all_list_tag p) s = Ok (pid t =? n, s)) as Hc.
  { unfold pid_check. replace (all_list_entry (all_list_tag p)) with p by (unfold all_list_entry, all_list_tag; lia).
    by kstep (task_at_ok _ _ _ Ht). }
  simpl. rewrite (K_step _ _ _ _ _ Hc), Ht. simpl. destruct (Z.eqb_spec (pid t) n) as [E|E].
  - exists (all_list_tag p). split; [done|]. rewrite decide_True by (by rewrite E).
    split; [done|]. set_solver.
  - exists e. split; [done|]. rewrite decide_False by congruence.
    destruct (list_find _ ps) as [[? ?]|]; done.
Qed.

(** ** A new thread *)

Lemma zero_all_ok cs : ∀ h Q, qrep h Q → (∀ c, c ∈ cs → unlinked Q c) →
  qrep (zero_all h cs) Q ∧ qcell (zero_all h cs) = list_to_set cs ∪ qcell h.
Proof.
  induction cs as [|c cs IH]; intros h Q Hq Hu; [split; [done|set_solver]|].
  destruct (qzero_spec _ _ c Hq) as [Hq' Hc']; [apply Hu; set_solver|].
  destruct (IH (qzero h c) Q Hq') as [Hq2 Hc2]; [set_solver|]. split; [done|].
  change (zero_all h (c :: cs)) with (zero_all (qzero h c) cs). rewrite Hc2, Hc'. set_solver.
Qed.

(** The structure [init_thread] leaves. *)
Definition new_task (p n : Z) (nm : list Z) (prio : Z) (st : task_status) (stack : Z) : task_struct :=
  Task stack n st (pad_name nm) (u8 prio) (u8 prio) 0 NULL (VirtualAddr (Bitmap 0 0) 0)
    [0; 1; 2; -1; -1; -1; -1; -1] 0 (-1) 0 0x19870916.

(** The state with the memory of a task cleared. *)
Definition cleared_task (s : kst H) (p : Z) : kst H :=
  set_descs (foldl (λ m d, <[d := zero_desc]> m) (descs s) (task_descs p))
    (set_heap (zero_all (heap s) (task_cells p)) s).

Lemma upd_task_new (s : kst H) T p t f :
  upd_task p f (set_tasks (<[p := t]> T) s) = Ok (tt, set_tasks (<[p := f t]> T) s).
Proof.
  rewrite upd_task_ok by (simpl; rewrite lookup_insert_eq; by eexists). simpl.
  by rewrite alter_insert, decide_True by done.
Qed.

(** What a new thread needs: memory of its own, and a pid. *)
Record can_start (s : kst H) (Q : gmap Z (list Z)) (p : Z) (nm : list Z) : Prop := {
  cs_page : page_ok p;
  cs_cells : ∀ c, c ∈ task_cells p → unlinked Q c;
  cs_heap : qrep (heap s) Q;
  cs_pids : pids_ok s;
  cs_left : ~ full (bytes s) (pid_bitmap s);
  cs_lock : lock_free s Q pid_lock;
  cs_cur : current s ≠ NULL;
  cs_name : (length nm < 16)%nat;
}.

Lemma init_thread_ok s Q p nm prio :
  can_start s Q p nm →
  ∃ n b', let st := if p =? main_thread s then TASK_RUNNING else TASK_READY in
    let s' := set_tasks (<[p := new_task p n nm prio st (p + 4096)]> (tasks s)) (set_bytes b' (cleared_task s p)) in
    init_thread p nm prio s = Ok (tt, s') ∧ 1 ≤ n ≤ 1024 ∧ (n ∉ pids s) ∧ pids_ok s' ∧ pids s' = {[n]} ∪ pids s ∧
    (∀ k, 1 ≤ k < n → k ∈ pids s) ∧ ∀ a, ~ in_bitmap (pid_bitmap s) a → b' !! a = bytes s !! a.
Proof.
  intros [Hp Hu Hq Hpid Hl Hlk Hc Hnm].
  destruct (zero_all_ok _ _ _ Hq Hu) as [Hq' _].
  set (s1 := set_tasks (<[p := zero_task]> (tasks s)) (cleared_task s p)).
  destruct (allocate_pid_ok s1 Q Hpid Hl Hq' Hlk Hc) as (n & b' & Ha & Hn & Hfree & Hpre & Hok & HP & Hby).
  exists n, b'. simpl. split_and!; try done || lia.
  unfold init_thread. erewrite K_step.
  2:{ unfold memset_task. rewrite (proj2 (Z.eqb_neq p NULL)) by (destruct Hp; unfold NULL; lia). cbn [negb]. kgo. reflexivity. }
  kgo. change (set_descs _ _) with s1. kstep Ha.
  change (set_bytes b' s1) with (set_tasks (<[p := zero_task]> (tasks s)) (set_bytes b' (cleared_task s p))).
  kstep (upd_task_new (set_bytes b' (cleared_task s p)) (tasks s) p zero_task (set_pid n)).
  unfold strcpy_name. rewrite (proj2 (Z.ltb_lt (Z.of_nat (length nm)) TASK_NAME_LEN)) by (unfold TASK_NAME_LEN; lia). kgo.
  erewrite K_step by apply upd_task_new. kgo. cbn [main_thread set_tasks set_bytes cleared_task set_descs set_heap].
  replace (if p =? main_thread s then _ else _)
    with (upd_task (H := H) p (set_status (if p =? main_thread s then TASK_RUNNING else TASK_READY)))
    by (by destruct (p =? main_thread s)).
  do 9 (erewrite K_step by apply upd_task_new; kgo). rewrite upd_task_new. unfold new_task.
  destruct Hp as [_ Hp]. unfold PG_SIZE. by rewrite u32_small by lia.
Qed.

Lemma enlist_ok (s : kst H) Q l xs e :
  qrep (heap s) Q → Q !! l = Some xs → unlinked Q e → e ∈ qcell (heap s) →
  ∃ h', enlist l e s = Ok (tt, set_heap h' s) ∧ qrep h' (<[l := xs ++ [e]]> Q) ∧ qcell h' = qcell (heap s).
Proof.
  intros Hq Hl Hu Hc. destruct (qappend_spec _ _ _ _ _ Hq Hl Hu Hc) as (h' & Ha & Hq' & Hc').
  exists h'. split_and!; [|done|done]. unfold enlist. kstep (find_in_ok _ _ _ _ e Hq Hl).
  rewrite bool_decide_eq_false_2; [kgo; unfold on_heap; by rewrite Ha|].
  intros Hin. apply (Hu l xs Hl). unfold cells. set_solver.
Qed.

(** A ready task joins at the end of the queue. *)
Lemma sched_inv_add s s' D Q Q' run ready p t :
  sched_inv s D Q run ready → tasks s !! p = None → page_ok p → pgdir t = NULL → status t = TASK_READY →
  stack_ok p (self_kstack t + 20) → qrep (heap s') Q' →
  Q' !! thread_ready_list = Some (general_tag <$> ready ++ [p]) →
  qcell (heap s) ⊆ qcell (heap s') → general_tag p ∈ qcell (heap s') →
  tasks s' = <[p := t]> (tasks s) → esp s' = esp s → cr3 s' = cr3 s → dirs_ok (phys s') D →
  sched_inv s' D Q' run (ready ++ [p]).
Proof.
  intros I Hn Hp Hd Hst Hsk Hq Hr Hc Hpc Et Ee Ec Eph. split; rewrite ?Et, ?Ee, ?Ec; try done.
  - intros q u [[<- <-]|[_ Hu]]%lookup_insert_Some; [split_and!; [done|done|by left]|].
    destruct (si_page _ _ _ _ _ I _ _ Hu) as (? & ? & ?). split_and!; [done|by apply Hc|done].
  - intros q u [[<- <-]|[_ Hu]]%lookup_insert_Some Hne; [done|]. by eapply (si_stack _ _ _ _ _ I).
  - apply I.
  - destruct (si_run _ _ _ _ _ I) as (u & Hu & Hcr). exists u. split; [|done].
    rewrite lookup_insert_ne; [done|]. intros ->. congruence.
  - intros q [Hq'|Hq']%elem_of_app.
    + destruct (decide (q = p)) as [->|Hne]; [rewrite lookup_insert_eq; by eexists|].
      rewrite lookup_insert_ne by done. by apply (si_known _ _ _ _ _ I).
    + apply list_elem_of_singleton in Hq' as ->. rewrite lookup_insert_eq. by eexists.
  - intros q u [[<- <-]|[Hne Hu]]%lookup_insert_Some; [set_solver|].
    rewrite (si_status _ _ _ _ _ I _ _ Hu), elem_of_app, list_elem_of_singleton. naive_solver.
Qed.

Lemma thread_setup_ok s Q ready all p nm prio function func_arg :
  can_start s Q p nm → main_thread s ≠ p →
  Q !! thread_ready_list = Some ready → Q !! thread_all_list = Some all →
  ∃ n b' h', let t := new_task p n nm prio TASK_READY (p + 3664) in
    let s' := set_heap h' (set_tstacks (<[p + 3664 := ThreadStack 0 0 0 0 kernel_thread_code function func_arg]> (tstacks s))
                (set_tasks (<[p := t]> (tasks s)) (set_bytes b' (cleared_task s p)))) in
    thread_setup p nm prio function func_arg s = Ok (p, s') ∧ 1 ≤ n ≤ 1024 ∧ (n ∉ pids s) ∧
    pids_ok s' ∧ pids s' = {[n]} ∪ pids s ∧
    qrep h' (<[thread_all_list := all ++ [all_list_tag p]]> (<[thread_ready_list := ready ++ [general_tag p]]> Q)) ∧
    qcell h' = list_to_set (task_cells p) ∪ qcell (heap s) ∧
    (∀ k, 1 ≤ k < n → k ∈ pids s) ∧ ∀ a, ~ in_bitmap (pid_bitmap s) a → b' !! a = bytes s !! a.
Proof.
  intros Hcs Hm Hr Ha. destruct (init_thread_ok s Q p nm prio Hcs) as (n & b' & Hi & Hn & Hfree & Hok & HP & Hpre & Hby).
  rewrite (proj2 (Z.eqb_neq p (main_thread s))) in * by done. simpl in Hi, Hok, HP.
  destruct Hcs as [[_ Hp] Hu Hq _ _ _ _ _]. destruct (zero_all_ok _ _ _ Hq Hu) as [Hq' Hc'].
  set (base := set_bytes b' (cleared_task s p)) in *.
  set (s2 := set_tstacks (<[p + 3664 := ThreadStack 0 0 0 0 kernel_thread_code function func_arg]> (tstacks s))
               (set_tasks (<[p := new_task p n nm prio TASK_READY (p + 3664)]> (tasks s)) base)).
  assert (unlinked Q (general_tag p)) as Hug by (apply Hu; unfold task_cells; set_solver).
  assert (unlinked Q (all_list_tag p)) as Hua by (apply Hu; unfold task_cells; set_solver).
  destruct (enlist_ok s2 Q thread_ready_list ready (general_tag p) Hq' Hr Hug) as (h1 & He1 & Hq1 & Hc1).
  { change (heap s2) with (zero_all (heap s) (task_cells p)). rewrite Hc'. unfold task_cells. set_solver. }
  destruct (enlist_ok (set_heap h1 s2) _ thread_all_list all (all_list_tag p) Hq1) as (h2 & He2 & Hq2 & Hc2).
  { rewrite lookup_insert_ne by done. done. }
  { apply (unlinked_append _ _ _ _ _ Hr Hua). unfold all_list_tag, general_tag. lia. }
  { simpl. rewrite Hc1. change (heap s2) with (zero_all (heap s) (task_cells p)). rewrite Hc'. unfold task_cells. set_solver. }
  exists n, b', h2. split_and!; try done || lia.
  - unfold thread_setup. kstep Hi. unfold thread_create. kgo.
    do 2 (erewrite K_step by apply upd_task_new; kgo).
    erewrite K_step by (apply task_at_ok; apply lookup_insert_eq). unfold set_tstack. kgo. cbn [self_kstack set_self_kstack new_task].
    unfold sizeof_intr_stack, sizeof_thread_stack. rewrite (u32_small (p + 4096 - 4 * 76)), u32_small by lia.
    replace (p + 4096 - 4 * 76 - 4 * 32) with (p + 3664) by lia.
    etrans; [apply (K_step _ _ _ _ _ He1)|]. etrans; [apply (K_step _ _ _ _ _ He2)|]. done.
  - rewrite Hc2. simpl. rewrite Hc1. exact Hc'.
Qed.

(** ** Properties *)

(** The pool of pids: [allocate_pid] returns the least pid of 1 .. 1024
    that is not in use, with 1 the first of all, so that no two threads share
    one; [release_pid] gives back exactly that pid; and when all 1024 are in
    use the kernel stops instead of handing one out twice. *)
Theorem pid_pool_spec s Q :
  pids_ok s → qrep (heap s) Q → lock_free s Q pid_lock → current s ≠ NULL →
  ((∃ k, 1 ≤ k ≤ 1024 ∧ k ∉ pids s) →
     ∃ n s1 s2, allocate_pid s = Ok (n, s1) ∧ 1 ≤ n ≤ 1024 ∧ (n ∉ pids s) ∧ (∀ k, 1 ≤ k < n → k ∈ pids s) ∧
       pids s1 = {[n]} ∪ pids s ∧ release_pid n s1 = Ok (tt, s2) ∧ pids s2 = pids s ∧ pids_ok s2) ∧
  (slack (bytes s) (pid_bitmap s) → (∀ k, 1 ≤ k ≤ 1024 → k ∈ pids s) → allocate_pid s = Panic).
Proof.
  intros Hok Hq Hl Hc. split.
  - intros (k & Hk & Hfree).
    destruct (allocate_pid_ok s Q Hok) as (n & b & Ha & Hn & Hnew & Hpre & Hok1 & HP & _); [|done..|].
    { rewrite (pids_full s Hok). intros Hf. by apply Hfree, Hf. }
    destruct (release_pid_ok (set_bytes b s) Q n Hok1 Hn Hq Hl Hc) as (b2 & Hr & Hok2 & HP2 & _).
    exists n, (set_bytes b s), (set_bytes b2 (set_bytes b s)). split_and!; try done || lia.
    rewrite HP2, HP. apply set_eq. intros j. rewrite elem_of_difference, elem_of_union, elem_of_singleton.
    destruct (decide (j = n)) as [->|]; naive_solver.
  - intros Hsl Hf. apply (pids_full s Hok) in Hf. destruct Hok as (_ & Hb & Hwf). unfold allocate_pid.
    kstep (lock_acquire_free s Q _ Hc Hl). unfold scan. kgo.
    change (pid_bitmap (acquired s pid_lock (current s))) with (pid_bitmap s).
    change (bytes (acquired s pid_lock (current s))) with (bytes s).
    unfold mbind at 1, K_bind. by rewrite (bitmap_scan_full_ok _ _ _ Hwf Hsl Hf).
Qed.

(** [pid2thread] finds the first thread of the list of all threads that has
    the pid, and gives [NULL] when there is none; it changes nothing. *)
Theorem pid2thread_spec s Q ps n :
  qrep (heap s) Q → Q !! thread_all_list = Some (all_list_tag <$> ps) →
  (∀ p, p ∈ ps → is_Some (tasks s !! p) ∧ page_ok p) →
  pid2thread n s =
    Ok (match list_find (λ p, (pid <$> tasks s !! p) = Some n) ps with Some (_, p) => p | None => NULL end, s).
Proof.
  intros Hq Ha Hk. destruct (traverse_pid_check n s ps) as (e & He & Hm).
  { intros p Hp. by apply Hk. }
  { intros (p & Hp & Hin)%list_elem_of_fmap. destruct (Hk p Hin) as [_ [_ ?]]. unfold all_list_tag, NULL in *. lia. }
  unfold pid2thread. erewrite K_step.
  2:{ rewrite (qtraverse_spec heap Q _ _ _ _ Hq Ha); [exact He|].
      intros x s0 b s' _ Hc. unfold pid_check in Hc. invbind. unfold task_at, mret, K_ret in *. invbind. done. }
  destruct (list_find _ ps) as [[i p]|].
  - destruct Hm as [-> Hne]. rewrite (proj2 (Z.eqb_neq _ NULL)) by done. unfold mret, K_ret, all_list_entry, all_list_tag.
    do 2 f_equal. lia.
  - by rewrite Hm.
Qed.

(** [thread_start], from the page it has got on, adds a ready thread: with a
    new pid, at the end of the ready queue and of the list of all threads,
    its fields set up for its first run, which the saved stack makes start in
    [kernel_thread] with the function and its argument; the scheduler's
    invariant is kept and no other task changes. *)
Theorem thread_setup_ready s D Q run ready all p nm prio function func_arg :
  sched_inv s D Q run ready → can_start s Q p nm → tasks s !! p = None → main_thread s ≠ p →
  Q !! thread_all_list = Some (all_list_tag <$> all) →
  ∃ n s' Q', thread_setup p nm prio function func_arg s = Ok (p, s') ∧
    sched_inv s' D Q' run (ready ++ [p]) ∧ Q' !! thread_all_list = Some (all_list_tag <$> all ++ [p]) ∧
    tasks s' = <[p := new_task p n nm prio TASK_READY (p + 3664)]> (tasks s) ∧
    tstacks s' !! (p + 3664) = Some (ThreadStack 0 0 0 0 kernel_thread_code function func_arg) ∧
    1 ≤ n ≤ 1024 ∧ (n ∉ pids s) ∧ pids s' = {[n]} ∪ pids s.
Proof.
  intros I Hcs Hn Hm Ha. pose proof (si_ready _ _ _ _ _ I) as Hr.
  destruct (thread_setup_ok s Q _ _ p nm prio function func_arg Hcs Hm Hr Ha)
    as (n & b' & h' & Hs & Hpid & Hnew & _ & HP & Hq' & Hc' & _).
  do 3 eexists. split; [exact Hs|]. split_and!; try done; try lia.
  - eapply (sched_inv_add s _ D Q _ run ready p (new_task p n nm prio TASK_READY (p + 3664))); [done|done|apply Hcs|done|done| |exact Hq'| | | |done|done|done|apply I].
    + unfold stack_ok. simpl. lia.
    + by rewrite lookup_insert_ne, lookup_insert_eq, fmap_app by done.
    + simpl. rewrite Hc'. set_solver.
    + simpl. rewrite Hc'. unfold task_cells. set_solver.
  - by rewrite lookup_insert_eq, fmap_app.
  - simpl. by rewrite lookup_insert_eq.
Qed.

End Thread.

#[global] Arguments pids {H}.
#[global] Arguments pids_ok {H}.
#[global] Arguments can_start {H _}.

(** ** Witnesses *)

(** The threads of [ex_kst], all in the list of all threads, with a free
    [pid_lock], the pids 1 to 3 in use, and room for a fourth thread. *)
Definition ex_all : list Z := [ex_A; ex_B; ex_idle].
Definition ex_pid_waiters : Z := waiters (lock_semaphore pid_lock).
Definition ex_thread_queues : gmap Z (list Z) :=
  {[ thread_ready_list := [general_tag ex_B]; thread_all_list := all_list_tag <$> ex_all; ex_pid_waiters := [] ]}.
Definition ex_thread_cells : lheap :=
  {[ thread_all_list := ListElem 0 (all_list_tag ex_A);
     all_list_tag ex_A := ListElem thread_all_list (all_list_tag ex_B);
     all_list_tag ex_B := ListElem (all_list_tag ex_A) (all_list_tag ex_idle);
     all_list_tag ex_idle := ListElem (all_list_tag ex_B) (thread_all_list + 8);
     thread_all_list + 8 := ListElem (all_list_tag ex_idle) 0;
     ex_pid_waiters := ListElem 0 (ex_pid_waiters + 8);
     ex_pid_waiters + 8 := ListElem ex_pid_waiters 0 ]} ∪ ex_cells.

Definition ex_pid_bytes : bmem :=
  <[pid_bitmap_bits := 7]> (gset_to_gmap 0 (list_to_set (seqZ pid_bitmap_bits 129))).
Definition ex_thread : kst lheap :=
  set_heap ex_thread_cells
    (set_bytes ex_pid_bytes
      (set_pid_bitmap (Bitmap 128 pid_bitmap_bits)
        (set_locks {[ pid_lock := Lock NULL 0 ]} (set_semas {[ lock_semaphore pid_lock := 1 ]} ex_kst)))).

Lemma ex_thread_rep : queues ex_thread_cells ex_thread_queues.
Proof. apply queues_check_ok. by vm_compute. Qed.

Lemma ex_thread_lock : lock_free ex_thread ex_thread_queues pid_lock.
Proof. split_and!; by vm_compute. Qed.

Lemma ex_thread_pids : pids_ok ex_thread.
Proof.
  split_and!; [done|done|]. split; [done|done|]. intros i Hi. simpl in *. unfold ex_pid_bytes.
  destruct (decide (i = 0)) as [->|Hne].
  - exists 7. split; [by rewrite Z.add_0_r, lookup_insert_eq|lia].
  - exists 0. split; [|lia]. rewrite lookup_insert_ne by lia. apply lookup_gset_to_gmap_Some. split; [|done].
    apply elem_of_list_to_set, elem_of_seqZ. lia.
Qed.

Lemma ex_thread_inv : sched_inv ex_thread ∅ ex_thread_queues ex_A [ex_B].
Proof.
  split; simpl.
  - apply ex_thread_rep.
  - by vm_compute.
  - intros p t Ht. map_cases Ht; (split_and!; [split; [done|by vm_compute]|by apply elem_of_dom; vm_compute; eexists|by left]).
  - intros p t Ht Hp. map_cases Ht; (done || by vm_compute).
  - by vm_compute.
  - eexists. split; [by vm_compute|done].
  - intros p Hp. apply list_elem_of_singleton in Hp as ->. by vm_compute; eexists.
  - intros p t Ht. rewrite list_elem_of_singleton. map_cases Ht; by vm_compute.
  - intros c v pa _ Hv. done.
Qed.

Definition ex_new : Z := 0xc0203000.

Lemma ex_can_start : can_start ex_thread ex_thread_queues ex_new [97].
Proof.
  split.
  - by vm_compute.
  - intros c Hc l xs Hl. revert c Hc. apply Forall_forall. map_cases Hl; by apply (bool_decide_unpack _); vm_compute.
  - apply ex_thread_rep.
  - apply ex_thread_pids.
  - intros Hf. assert (bit (bytes ex_thread) (pid_bitmap ex_thread) 3 = true) as E by (apply Hf; simpl; lia).
    by vm_compute in E.
  - apply ex_thread_lock.
  - done.
  - simpl. lia.
Qed.

Lemma pid_pool_spec_witness : ∃ n s1, allocate_pid (H1 := ex_world) ex_thread = Ok (n, s1) ∧ n ∉ pids ex_thread.
Proof.
  destruct (pid_pool_spec (H1 := ex_world) ex_thread ex_thread_queues) as [Ha _].
  - apply ex_thread_pids.
  - apply ex_thread_rep.
  - apply ex_thread_lock.
  - done.
  - destruct Ha as (n & s1 & s2 & Hal & _ & Hn & _).
    + exists 4. split; [lia|]. rewrite elem_of_pids, elem_of_taken. intros [_ E]. by vm_compute in E.
    + exists n, s1. split; [exact Hal|exact Hn].
Defined.

Lemma pid2thread_spec_witness :
  pid2thread 1 ex_thread = Ok (ex_A, ex_thread) ∧ pid2thread 9 ex_thread = Ok (NULL, ex_thread).
Proof.
  assert (∀ p, p ∈ ex_all → is_Some (tasks ex_thread !! p) ∧ page_ok p) as Hk.
  { intros p Hp. repeat (apply elem_of_cons in Hp as [->|Hp]; [split; [by eexists|by vm_compute]|]). by apply elem_of_nil in Hp. }
  split.
  - rewrite (pid2thread_spec ex_thread ex_thread_queues ex_all 1); [|apply ex_thread_rep|by vm_compute|exact Hk].
    do 2 f_equal.
  - rewrite (pid2thread_spec ex_thread ex_thread_queues ex_all 9); [|apply ex_thread_rep|by vm_compute|exact Hk].
    do 2 f_equal.
Defined.

Lemma thread_setup_ready_witness :
  ∃ s', thread_setup (H1 := ex_world) ex_new [97] 31 idle_code 0 ex_thread = Ok (ex_new, s').
Proof.
  destruct (thread_setup_ready (H1 := ex_world) ex_thread ∅ ex_thread_queues ex_A [ex_B] ex_all ex_new [97] 31 idle_code 0)
    as (n & s' & Q' & Hs & _).
  - apply ex_thread_inv.
  - apply ex_can_start.
  - done.
  - done.
  - by vm_compute.
  - exists s'. exact Hs.
Defined.
