(* ===== verification/Process.v ===== *)
(** * User processes (src/user/process.c, thread_init of src/thread/thread.c)

    A process is a thread with a page directory of its own.  The directory
    shares the kernel's 256 entries with the one it is copied from, and its
    last entry points to itself. *)

From S2P Require Import Prelude CString Bitmap Lists PageTable Kernel Sched Sync Memory Malloc Thread.

Definition default_prio : Z := 31.
Definition USER_STACK3_VADDR : Z := 0xc0000000 - 0x1000.
Definition USER_VADDR_START : Z := 0x8048000.
Definition SELECTOR_U_CODE : Z := Z.shiftl 5 3 + 3.
Definition SELECTOR_U_DATA : Z := Z.shiftl 6 3 + 3.
Definition EFLAGS_MBS : Z := Z.shiftl 1 1.
Definition EFLAGS_IF_1 : Z := Z.shiftl 1 9.
Definition EFLAGS_IOPL_0 : Z := 0.
Definition DIV_ROUND_UP (x step : Z) : Z := (x + step - 1) / step.

(** The number of bytes of a process's bitmap of virtual pages. *)
Definition user_btmp_bytes : Z := (0xc0000000 - USER_VADDR_START) / PG_SIZE / 8.

(** ** memcpy on virtual addresses, byte by byte *)

Definition pload8 (m : pmem) (pa : Z) : outcome Z :=
  w ← deref (m !! (pa - pa mod 4)); Ok (byte_of w (pa mod 4)).
Definition vload8 (m : pmem) (c va : Z) : outcome Z :=
  pa ← deref (translate m c va); pload8 m pa.

Fixpoint vmemcpy_loop (n : nat) (m : pmem) (c dst src : Z) : outcome pmem :=
  match n with
  | O => Ok m
  | S n => v ← vload8 m c src; m ← vstore8 m c dst v; vmemcpy_loop n m c (dst + 1) (src + 1)
  end.
Definition vmemcpy (m : pmem) (c dst src size : Z) : outcome pmem :=
  ASSERT (negb (dst =? NULL) && negb (src =? NULL)) ;;
  vmemcpy_loop (Z.to_nat size) m c dst src.

Section Process.
Context {H : Type} `{Queues H} `{World H}.

Definition kmemcpy (dst src size : Z) : K (kst H) unit :=
  c ← gets cr3; on_phys (λ m, vmemcpy m c dst src size).

(** The pages at [p], just handed out and cleared, as bytes. *)
Definition claim_bytes (p n : Z) : K (kst H) unit :=
  when (negb (p =? NULL))
    (modify (λ s, set_bytes (gset_to_gmap 0 (list_to_set (seqZ p n)) ∪ bytes s) s)).

(** ** The page directory of a process *)

Definition fill_page_dir (page_dir_vaddr : Z) : K (kst H) Z :=
  kmemcpy (u32 (page_dir_vaddr + 0x300 * 4)) (0xfffff000 + 0x300 * 4) 1024 ;;
  new_page_dir_phy_addr ← v2p page_dir_vaddr;
  write_word (page_dir_vaddr + 1023 * 4)
    (Z.lor (Z.lor (Z.lor new_page_dir_phy_addr PG_US_U) PG_RW_W) PG_P_1) ;;
  mret page_dir_vaddr.

(** Without the message on the console when there is no page. *)
Definition create_page_dir : K (kst H) Z :=
  page_dir_vaddr ← get_kernel_pages 1;
  if page_dir_vaddr =? NULL then mret NULL else fill_page_dir page_dir_vaddr.

Definition create_user_vaddr_bitmap (user_prog : Z) : K (kst H) unit :=
  upd_task user_prog (λ t, set_user_vaddr (VirtualAddr (vaddr_bitmap (user_vaddr t)) USER_VADDR_START) t) ;;
  let bitmap_pg_cnt := DIV_ROUND_UP user_btmp_bytes PG_SIZE in
  b ← get_kernel_pages bitmap_pg_cnt;
  claim_bytes b (bitmap_pg_cnt * PG_SIZE) ;;
  upd_task user_prog (λ t, set_user_vaddr (VirtualAddr (Bitmap user_btmp_bytes b) (vaddr_start (user_vaddr t))) t) ;;
  t ← task_at user_prog;
  on_bytes (λ m, bitmap_init m (vaddr_bitmap (user_vaddr t))).

Definition process_execute (filename : Z) (nm : list Z) : K (kst H) unit :=
  thread ← get_kernel_pages 1;
  init_thread thread nm default_prio ;;
  create_user_vaddr_bitmap thread ;;
  thread_create thread start_process_code filename ;;
  dir ← create_page_dir;
  upd_task thread (set_pgdir dir) ;;
  block_desc_init (u_block_desc thread) ;;
  old_status ← intr_disable;
  enlist thread_ready_list (general_tag thread) ;;
  enlist thread_all_list (all_list_tag thread) ;;
  intr_set_status old_status ;; mret tt.

(** ** The first instructions of a process *)

Definition zero_istack : intr_stack := IntrStack 0 0 0 0 0 0 0 0 0 0 0 0 0 0 0 0 0 0 0.

(** The jump to [intr_exit] is the last statement: the stack pointer is left
    at the interrupt stack that [intr_exit] pops. *)
Definition start_process (filename : Z) : K (kst H) unit :=
  let function := filename in
  cur ← running_thread;
  upd_task cur (λ t, set_self_kstack (u32 (self_kstack t + 4 * sizeof_thread_stack)) t) ;;
  t ← task_at cur;
  let proc_stack := self_kstack t in
  page ← get_a_page PF_USER USER_STACK3_VADDR;
  modify (λ s,
    let old := default zero_istack (istacks s !! proc_stack) in
    set_istacks (<[proc_stack :=
      {| is_vec_no := is_vec_no old; is_edi := 0; is_esi := 0; is_ebp := 0; is_esp_dummy := 0;
         is_ebx := 0; is_edx := 0; is_ecx := 0; is_eax := 0; is_gs := 0;
         is_fs := SELECTOR_U_DATA; is_es := SELECTOR_U_DATA; is_ds := SELECTOR_U_DATA;
         is_err_code := is_err_code old; is_eip := function; is_cs := SELECTOR_U_CODE;
         is_eflags := Z.lor (Z.lor EFLAGS_IOPL_0 EFLAGS_MBS) EFLAGS_IF_1;
         is_esp := u32 (page + PG_SIZE); is_ss := SELECTOR_U_DATA |}]> (istacks s)) s) ;;
  modify (set_esp proc_stack).

(** ** thread_init; "init" and "idle". *)
Definition thread_init : K (kst H) unit :=
  on_heap (λ h, qinit h thread_ready_list) ;;
  on_heap (λ h, qinit h thread_all_list) ;;
  pid_pool_init ;;
  process_execute init_code [105; 110; 105; 116] ;;
  make_main_thread ;;
  p ← thread_start [105; 100; 108; 101] 10 idle_code NULL;
  modify (set_idle_thread p).

End Process.

(** ** Copying words *)

Lemma with_byte_step w v k : 0 ≤ w → 0 ≤ v → 0 ≤ k →
  w mod 256 ^ k = v mod 256 ^ k → w / 256 ^ (k + 1) * 256 ^ (k + 1) = with_byte w k (byte_of v k) / 256 ^ (k + 1) * 256 ^ (k + 1) ∧
  with_byte w k (byte_of v k) mod 256 ^ (k + 1) = v mod 256 ^ (k + 1).
Proof.
  intros Hw Hv Hk E. unfold with_byte, byte_of. rewrite Z.pow_add_r by lia. change (256 ^ 1) with 256.
  assert (0 < 256 ^ k) as Hp by (apply Z.pow_pos_nonneg; lia). set (q := 256 ^ k) in *.
  assert (∀ x, 0 ≤ x → x mod (q * 256) = x mod q + q * ((x / q) mod 256)) as Hm.
  { intros x Hx. by rewrite Z.rem_mul_r by lia. }
  set (w' := w - _ + _).
  assert (w' = w / (q * 256) * (q * 256) + (v mod q + q * ((v / q) mod 256))) as Ew.
  { unfold w'. rewrite (Z.div_mod w (q * 256)) at 1 by lia. rewrite (Hm w Hw), E. lia. }
  assert (0 ≤ v mod q + q * ((v / q) mod 256) < q * 256) as Hr.
  { rewrite <- Hm by done. apply Z.mod_pos_bound. lia. }
  rewrite Ew. rewrite Z.div_add_l, (Z.div_small _ _ Hr) by lia. split; [lia|].
  rewrite Z.add_comm, Z.mod_add, Z.mod_small, (Hm v Hv) by (done || lia). done.
Qed.

Lemma byte_of_range w k : 0 ≤ byte_of w k < 256.
Proof. unfold byte_of. apply Z.mod_pos_bound. lia. Qed.

Lemma with_byte_range w k b : 0 ≤ w < 2 ^ 32 → 0 ≤ k < 4 → 0 ≤ b < 256 → 0 ≤ with_byte w k b < 2 ^ 32.
Proof.
  intros Hw Hk Hb. unfold with_byte, byte_of.
  assert (k = 0 ∨ k = 1 ∨ k = 2 ∨ k = 3) as [-> | [-> | [-> | ->]]] by lia;
    change (256 ^ 0) with 1; change (256 ^ 1) with 256; change (256 ^ 2) with 65536; change (256 ^ 3) with 16777216; dm.
Qed.

Lemma with_bytes w v : 0 ≤ w < 2 ^ 32 → 0 ≤ v < 2 ^ 32 →
  with_byte (with_byte (with_byte (with_byte w 0 (byte_of v 0)) 1 (byte_of v 1)) 2 (byte_of v 2)) 3 (byte_of v 3) = v.
Proof.
  intros Hw Hv.
  set (w0 := with_byte w 0 (byte_of v 0)). set (w1 := with_byte w0 1 (byte_of v 1)).
  set (w2 := with_byte w1 2 (byte_of v 2)). set (w3 := with_byte w2 3 (byte_of v 3)).
  assert (0 ≤ w0 < 2 ^ 32) as R0 by (apply with_byte_range; [lia..|apply byte_of_range]).
  assert (0 ≤ w1 < 2 ^ 32) as R1 by (apply with_byte_range; [lia..|apply byte_of_range]).
  assert (0 ≤ w2 < 2 ^ 32) as R2 by (apply with_byte_range; [lia..|apply byte_of_range]).
  assert (0 ≤ w3 < 2 ^ 32) as R3 by (apply with_byte_range; [lia..|apply byte_of_range]).
  destruct (with_byte_step w v 0) as [_ E0]; [lia..|by rewrite !Z.mod_1_r|].
  destruct (with_byte_step w0 v 1) as [_ E1]; [lia..|exact E0|].
  destruct (with_byte_step w1 v 2) as [_ E2]; [lia..|exact E1|].
  destruct (with_byte_step w2 v 3) as [_ E3]; [lia..|exact E2|].
  change (256 ^ (3 + 1)) with (2 ^ 32) in E3. fold w3 in E3. by rewrite !Z.mod_small in E3 by done.
Qed.

Lemma pstore8_byte m a k w v : a mod 4 = 0 → 0 ≤ k < 4 → m !! a = Some w →
  pstore8 m (a + k) (byte_of v k) = Ok (<[a := with_byte w k (byte_of v k)]> m).
Proof.
  intros Ha Hk Hw. unfold pstore8. assert ((a + k) mod 4 = k) as -> by dm.
  replace (a + k - k) with a by lia. rewrite Hw. simpl. by rewrite u8_small by apply byte_of_range.
Qed.
Lemma pload8_byte m a k v : a mod 4 = 0 → 0 ≤ k < 4 → m !! a = Some v → pload8 m (a + k) = Ok (byte_of v k).
Proof.
  intros Ha Hk Hv. unfold pload8. assert ((a + k) mod 4 = k) as -> by dm.
  replace (a + k - k) with a by lia. by rewrite Hv.
Qed.

(** A copy into the page [f] from outside of it. *)
Section Copy.
Context (c f dst a src a' : Z) (m : pmem).

(** One byte: the source word is [v], the word written to has become [w]. *)
Lemma vmemcpy_byte n k w w0 v :
  stably_mapped m c dst a f 1 → stably_mapped m c src a' f 1 → a mod 4 = 0 → a' mod 4 = 0 →
  f ≤ a → a + 4 ≤ f + 4096 → a' + 4 ≤ f ∨ f + 4096 ≤ a' → m !! a = Some w0 → m !! a' = Some v → 0 ≤ k < 4 →
  vmemcpy_loop (S n) (<[a := w]> m) c (dst + k) (src + k) =
  vmemcpy_loop n (<[a := with_byte w k (byte_of v k)]> m) c (dst + k + 1) (src + k + 1).
Proof.
  intros Hd Hs Ha Ha' Hf Hf' Hout Hw Hv Hk.
  assert (∀ b, b < f ∨ f + 4096 ≤ b → <[a := w]> m !! b = m !! b) as Ho by (intros b Hb; apply lookup_insert_ne; lia).
  simpl. unfold vload8, vstore8. rewrite (Hs _ k) by (done || lia). simpl.
  rewrite (pload8_byte _ a' k v) by (done || (rewrite lookup_insert_ne; [done|lia])). simpl.
  rewrite (Hd _ k) by (done || lia). simpl.
  rewrite (pstore8_byte _ a k w v) by (done || apply lookup_insert_eq). simpl. by rewrite insert_insert_eq.
Qed.

Lemma vmemcpy_word n w v :
  stably_mapped m c dst a f 1 → stably_mapped m c src a' f 1 → a mod 4 = 0 → a' mod 4 = 0 →
  f ≤ a → a + 4 ≤ f + 4096 → a' + 4 ≤ f ∨ f + 4096 ≤ a' → m !! a = Some w → m !! a' = Some v →
  0 ≤ w < 2 ^ 32 → 0 ≤ v < 2 ^ 32 →
  vmemcpy_loop (4 + n) m c dst src = vmemcpy_loop n (<[a := v]> m) c (dst + 4) (src + 4).
Proof.
  intros Hd Hs Ha Ha' Hf Hf' Hout Hw Hv Rw Rv.
  change (4 + n)%nat with (S (S (S (S n)))). rewrite <- (insert_id m a w) at 1 by done. rewrite <- (Z.add_0_r dst) at 1. rewrite <- (Z.add_0_r src) at 1.
  do 4 (erewrite vmemcpy_byte by (exact Hv || exact Hw || done || lia);
        rewrite ?Z.add_0_r; rewrite <- ?(Z.add_assoc _ _ 1); cbn [Z.add Pos.add Pos.succ]).
  by rewrite with_bytes by done.
Qed.
End Copy.

Fixpoint copy_words (n : nat) (a a' : Z) (m : pmem) : pmem :=
  match n with
  | O => m
  | S n => copy_words n (a + 4) (a' + 4) (<[a := default 0 (m !! a')]> m)
  end.

Lemma copy_words_lookup n : ∀ a a' m b,
  a' + 4 * Z.of_nat n ≤ a ∨ a + 4 * Z.of_nat n ≤ a' →
  copy_words n a a' m !! b =
    if decide (a ≤ b < a + Z.of_nat n * 4 ∧ (b - a) mod 4 = 0) then Some (default 0 (m !! (a' + (b - a)))) else m !! b.
Proof.
  induction n as [|n IH]; intros a a' m b Hd; simpl.
  - rewrite decide_False; [done|]. lia.
  - rewrite IH by lia. destruct (decide (b = a)) as [->|Hne].
    + rewrite lookup_insert_eq, (decide_True (P := a ≤ a < _ ∧ _)) by dm.
      rewrite decide_False by lia. by replace (a' + (a - a)) with a' by lia.
    + rewrite (lookup_insert_ne _ a b) by done. destruct (decide (a + 4 ≤ b < _ ∧ _)) as [Hb|Hb].
      * rewrite decide_True by dm. rewrite lookup_insert_ne by lia. do 3 f_equal. lia.
      * rewrite decide_False; [done|]. contradict Hb. dm.
Qed.

Lemma stably_shift m m1 c va a f n :
  stably_mapped m c va a f (S n) → (∀ b, b < f ∨ f + 4096 ≤ b → m1 !! b = m !! b) →
  stably_mapped m1 c va a f 1 ∧ stably_mapped m1 c (va + 4) (a + 4) f n.
Proof.
  intros Hs Hm. split; intros m' j Hj Hm'.
  - apply Hs; [lia|]. intros b Hb. by rewrite Hm', Hm.
  - replace (va + 4 + j) with (va + (4 + j)) by lia. rewrite (Hs m' (4 + j)); [f_equal; lia|lia|].
    intros b Hb. by rewrite Hm', Hm.
Qed.

Lemma vmemcpy_loop_words n : ∀ m c dst a src a' f,
  stably_mapped m c dst a f n → stably_mapped m c src a' f n → a mod 4 = 0 → a' mod 4 = 0 →
  f ≤ a → a + 4 * Z.of_nat n ≤ f + 4096 → a' + 4 * Z.of_nat n ≤ f ∨ f + 4096 ≤ a' →
  (∀ k, 0 ≤ k < Z.of_nat n → is_Some (m !! (a + k * 4)) ∧ is_Some (m !! (a' + k * 4))) →
  (∀ b w, m !! b = Some w → 0 ≤ w < 2 ^ 32) →
  vmemcpy_loop (4 * n) m c dst src = Ok (copy_words n a a' m).
Proof.
  induction n as [|n IH]; intros m c dst a src a' f Hd Hs Ha Ha' Hf Hf' Hout Hw Hr; [done|].
  destruct (Hw 0) as [[w Hw0] [v Hv0]]; [lia|]. rewrite Z.mul_0_l, Z.add_0_r in Hw0, Hv0.
  replace (4 * S n)%nat with (4 + 4 * n)%nat by lia.
  destruct (stably_shift _ _ _ _ _ _ _ Hd (λ _ _, eq_refl)) as [Hd1 _].
  destruct (stably_shift _ _ _ _ _ _ _ Hs (λ _ _, eq_refl)) as [Hs1 _].
  rewrite (vmemcpy_word c f dst a src a' m (4 * n) w v) by (done || lia || by eapply Hr).
  simpl copy_words. rewrite Hv0. cbn [default].
  assert (∀ b, b < f ∨ f + 4096 ≤ b → <[a := v]> m !! b = m !! b) as Ho by (intros b Hb; apply lookup_insert_ne; lia).
  destruct (stably_shift _ _ _ _ _ _ _ Hd Ho) as [_ Hd2]. destruct (stably_shift _ _ _ _ _ _ _ Hs Ho) as [_ Hs2].
  apply (IH _ _ _ _ _ _ f); try done; try lia; try dm.
  - intros k Hk. destruct (Hw (k + 1)) as [H1 H2]; [lia|].
    replace (a + 4 + k * 4) with (a + (k + 1) * 4) by lia. replace (a' + 4 + k * 4) with (a' + (k + 1) * 4) by lia.
    rewrite !lookup_insert_ne by lia. done.
  - intros b x [[_ <-]|[_ Hb]]%lookup_insert_Some; by eapply Hr.
Qed.

(** The directory seen through its own last entry. *)
Lemma translate_self m c j : self_mapped m c → 0 ≤ j < 4096 → translate m c (0xfffff000 + j) = Some (c + j).
Proof.
  intros [Hca Hcr Hl] Hj. destruct (self_entry c Hca Hcr) as [Hp He]. unfold translate.
  replace ((0xfffff000 + j) / 2 ^ 22) with 1023 by (change (2 ^ 22) with 4194304; dm).
  change (1023 * 4) with 4092. rewrite Hl. cbn -[Z.land Z.div Z.modulo]. rewrite Hp, He.
  replace ((0xfffff000 + j) / 2 ^ 12 mod 2 ^ 10) with 1023 by (change (2 ^ 12) with 4096; change (2 ^ 10) with 1024; dm).
  change (1023 * 4) with 4092. rewrite Hl. cbn -[Z.land Z.div Z.modulo]. rewrite Hp, He.
  f_equal. change (2 ^ 12) with 4096. dm.
Qed.

(** The memory [fill_page_dir] leaves for the directory page [f]. *)
Definition dir_filled (m : pmem) (c f : Z) : pmem :=
  <[f + 4092 := f + 7]> (copy_words 256 (f + 3072) (c + 3072) m).

Section FillDir.
Context (m : pmem) (c f : Z).
Hypothesis T : tables_ok m c.
Hypothesis F : fresh_frame m c f.

Let m1 := copy_words 256 (f + 3072) (c + 3072) m.

Lemma dir_page_apart : c + 4096 ≤ f ∨ f + 4096 ≤ c.
Proof using T F. pose proof (ff_dir _ _ _ F). pose proof (ff_aligned _ _ _ F). pose proof (sm_aligned _ _ (t_self _ _ T)). dm. Qed.

Lemma copy_dir_lookup b :
  m1 !! b = if decide (f + 3072 ≤ b < f + 4096 ∧ (b - f) mod 4 = 0) then Some (default 0 (m !! (c + (b - f)))) else m !! b.
Proof using T F.
  pose proof dir_page_apart. unfold m1. rewrite copy_words_lookup by lia.
  destruct (decide (f + 3072 ≤ b < f + 4096 ∧ (b - f) mod 4 = 0)).
  - rewrite decide_True by dm. do 3 f_equal. lia.
  - rewrite decide_False by dm. done.
Qed.

Lemma copy_dir_write : data_write m m1 f.
Proof using T F.
  split_and!.
  - intros b Hb. rewrite copy_dir_lookup, decide_False by lia. done.
  - intros b Hb. rewrite copy_dir_lookup. destruct (decide _); [by eexists|done].
  - intros b w. rewrite copy_dir_lookup. destruct (decide _); [|by apply T]. intros [= <-].
    destruct (m !! _) as [x|] eqn:E; simpl; [by eapply T|lia].
Qed.

Lemma copy_dir_ok va : managed va → va mod 4096 = 0 → translate m c va = Some f →
  vmemcpy m c (u32 (va + 0x300 * 4)) (0xfffff000 + 0x300 * 4) 1024 = Ok m1.
Proof using T F.
  intros Hv Hva Ht. pose proof (ff_aligned _ _ _ F) as Hfa. pose proof (sm_aligned _ _ (t_self _ _ T)) as Hca. pose proof dir_page_apart.
  unfold managed in Hv. rewrite u32_small by lia. unfold vmemcpy.
  rewrite (proj2 (Z.eqb_neq _ NULL)) by (unfold NULL; lia). cbn [negb andb ASSERT mbind outcome_bind].
  replace (0xfffff000 + 0x300 * 4 =? NULL) with false by done. cbn [negb ASSERT mbind outcome_bind].
  change (Z.to_nat 1024) with (4 * 256)%nat. apply (vmemcpy_loop_words 256 _ _ _ _ _ _ f); try lia; try dm.
  - intros m' j Hj Hm'. rewrite <- !Z.add_assoc.
    apply (page_stably_mapped _ _ _ _ T Hv Hva Ht F); [lia|done].
  - intros m' j Hj Hm'. rewrite <- !Z.add_assoc. apply translate_self; [|lia].
    destruct (t_self _ _ T) as [? ? Hl]. split; [done..|]. rewrite Hm' by lia. done.
  - intros k Hk. split.
    + replace (f + 3072 + k * 4) with (f + (768 + k) * 4) by lia. apply F. lia.
    + replace (c + 3072 + k * 4) with (c + (768 + k) * 4) by lia. apply T. lia.
  - apply T.
Qed.

Lemma dir_filled_lookup b :
  dir_filled m c f !! b = if decide (b = f + 4092) then Some (f + 7) else m1 !! b.
Proof. unfold dir_filled. destruct (decide _) as [->|]; [apply lookup_insert_eq|by apply lookup_insert_ne]. Qed.

(** The entries of the new directory. *)
Lemma dir_filled_entry i : 0 ≤ i < 1024 →
  dir_filled m c f !! (f + i * 4) =
    if decide (i = 1023) then Some (f + 7) else if decide (768 ≤ i) then m !! (c + i * 4) else m !! (f + i * 4).
Proof using T F.
  intros Hi. rewrite dir_filled_lookup, copy_dir_lookup.
  destruct (decide (i = 1023)) as [->|Hne]; [by rewrite decide_True by lia|]. rewrite decide_False by lia.
  destruct (decide (768 ≤ i)).
  - rewrite decide_True by dm. replace (c + (f + i * 4 - f)) with (c + i * 4) by lia.
    destruct (t_dir _ _ T i Hi) as [x ->]. done.
  - rewrite decide_False by lia. done.
Qed.

Lemma dir_filled_other b : b < f ∨ f + 4096 ≤ b → dir_filled m c f !! b = m !! b.
Proof using T F. intros Hb. rewrite dir_filled_lookup, decide_False, copy_dir_lookup, decide_False by lia. done. Qed.

(** A kernel address is translated by the new directory as by the old one. *)
Lemma dir_filled_kernel x : 0xc0000000 ≤ x < 0xffc00000 → translate (dir_filled m c f) f x = translate m c x.
Proof using T F.
  intros Hx. assert (managed x) as Hm by (unfold managed; lia). destruct (managed_pde m c x T Hm) as [pde Hp].
  pose proof (managed_pde_idx _ Hm) as Hi.
  assert (768 ≤ x / 2 ^ 22) by (change (2 ^ 22) with 4194304; dm).
  rewrite (translate_walk _ _ _ _ Hp). rewrite (translate_walk _ f x pde).
  2:{ unfold pde_addr in *. rewrite dir_filled_entry by lia. rewrite decide_False, decide_True by lia. done. }
  destruct (present pde) eqn:Hpr; [|done]. rewrite dir_filled_other; [done|].
  pose proof (ff_new _ _ _ F _ _ Hi Hp Hpr) as Hne. pose proof (ff_aligned _ _ _ F).
  pose proof (frame_aligned pde (t_words _ _ T _ _ Hp)) as Hpa. pose proof (pte_idx_range x).
  unfold pte_addr. fold (frame pde). set (k := (x / 2 ^ 12) mod 2 ^ 10) in *. dm.
Qed.

Lemma dir_filled_write : data_write m (dir_filled m c f) f.
Proof using T F.
  split_and!.
  - exact dir_filled_other.
  - intros b Hb. rewrite dir_filled_lookup. destruct (decide _); [by eexists|]. by apply copy_dir_write.
  - intros b w. rewrite dir_filled_lookup. pose proof (ff_range _ _ _ F).
    destruct (decide _); [intros [= <-]; lia|]. by apply copy_dir_write.
Qed.
End FillDir.

#[global] Opaque copy_words.

(** ** Properties *)

Section ProcessSpec.
Context {H : Type} `{Queues H} `{World H}.

Lemma fill_page_dir_ok (s : kst H) va f :
  tables_ok (phys s) (cr3 s) → fresh_frame (phys s) (cr3 s) f → managed va → va mod 4096 = 0 →
  translate (phys s) (cr3 s) va = Some f →
  fill_page_dir va s = Ok (va, set_phys (dir_filled (phys s) (cr3 s) f) s).
Proof.
  intros T F Hv Hva Ht. pose proof (copy_dir_write (phys s) (cr3 s) f T F) as D.
  pose proof (copy_dir_ok _ _ _ T F va Hv Hva Ht) as Hcp. cbv zeta in D, Hcp. unfold dir_filled.
  revert D Hcp. generalize (copy_words 256 (f + 3072) (cr3 s + 3072) (phys s)). intros m1 D Hcp.
  pose proof (data_write_tables _ _ _ _ T F D) as T1.
  assert (translate m1 (cr3 s) va = Some f) as Ht1 by (by rewrite (data_write_translate _ _ _ _ T F D)).
  pose proof (data_write_fresh _ _ _ _ T F D f F) as F1.
  pose proof (ff_aligned _ _ _ F) as Hfa. pose proof (ff_range _ _ _ F) as Hfr.
  unfold fill_page_dir. erewrite K_step.
  2:{ unfold kmemcpy, on_phys. kgo. by rewrite Hcp. }
  kgo.
  erewrite K_step by (eapply v2p_ok; [exact T1|exact Hv|exact Ht1]). kgo.
  rewrite (entry_7 f ltac:(lia) Hfa).
  assert (vstore m1 (cr3 s) (va + 1023 * 4) (f + 7) = Ok (<[f + 4092 := f + 7]> m1)) as Hst.
  { unfold vstore. rewrite (page_stably_mapped _ _ _ _ T1 Hv Hva Ht1 F1 m1 (1023 * 4) ltac:(lia) (λ _ _, eq_refl)). simpl.
    destruct (ff_words _ _ _ F1 1023) as [w Hw]; [lia|]. rewrite Hw. simpl. by rewrite u32_small by lia. }
  etrans; [apply (K_step _ _ _ _ _ (write_word_ok (set_phys m1 s) _ _ _ Hst))|]. reflexivity.
Qed.

(** [create_page_dir] takes a page and makes it a directory that maps itself
    through its last entry and shares the kernel: every kernel address is
    translated by the new directory exactly as by the current one, no
    address of the user part is mapped, and the current directory keeps
    working, with only the new page added to the kernel's heap. *)
Theorem create_page_dir_shares_kernel (s : kst H) Q :
  heap_ok s → slack (bytes s) (vaddr_bitmap (kernel_vaddr s)) → heap_room s 1 → 1 ≤ free_count PF_KERNEL s →
  qrep (heap s) Q → lock_free s Q kernel_pool_lock → current s ≠ NULL →
  ∃ va f m' b', create_page_dir s = Ok (va, set_phys m' (set_bytes b' s)) ∧ va ≠ NULL ∧
    self_mapped m' f ∧ translate m' (cr3 s) va = Some f ∧ tables_ok m' (cr3 s) ∧
    (∀ x, 0xc0000000 ≤ x < 0xffc00000 → translate m' f x = translate m' (cr3 s) x) ∧
    (∀ x, 0 ≤ x < 0xc0000000 → translate m' f x = None) ∧
    (∀ x, managed x → ~ same_page va x → translate m' (cr3 s) x = translate (phys s) (cr3 s) x).
Proof.
  intros Hh Hsl Hroom Hc Hq Hl Hcur.
  destruct (get_kernel_pages_ok s Q 1) as (r & fs & m1 & b1 & Hg & Hlen & Hr & Hrn & _ & _ & A & Hz & Hf); [done|done|lia|done..|].
  destruct fs as [|f [|]]; simpl in Hlen; [lia| |lia]. set (s1 := set_phys m1 (set_bytes b1 s)) in *.
  pose proof (al_map _ _ _ _ A 0%nat f eq_refl) as Ht. rewrite Z.add_0_r in Ht.
  assert (fresh_frame m1 (cr3 s) f) as F by (apply Hf; set_solver).
  assert (tables_ok m1 (cr3 s)) as T by apply (vm_tables _ (ho_vm _ (al_ok _ _ _ _ A))).
  assert (managed (heap_page r)) as Hv by (apply (heap_page_managed s); [done|lia]).
  assert (heap_page r mod 4096 = 0) as Hva by (unfold heap_page, K_HEAP_START; dm).
  pose proof (fill_page_dir_ok s1 (heap_page r) f T F Hv Hva Ht) as Hfill.
  assert (heap_page r ≠ NULL) as Hnn by (unfold heap_page, K_HEAP_START, NULL; lia).
  set (m2 := dir_filled m1 (cr3 s) f).
  pose proof (dir_filled_write m1 (cr3 s) f T F) as D. fold m2 in D.
  pose proof (data_write_translate _ _ _ _ T F D) as Htr.
  exists (heap_page r), f, m2, b1. split; [|split; [exact Hnn|split; [|split; [|split; [|split; [|split]]]]]].
  - unfold create_page_dir. kstep Hg. rewrite (proj2 (Z.eqb_neq _ NULL)) by done. exact Hfill.
  - split; [apply F|pose proof (ff_range _ _ _ F); lia|].
    pose proof (dir_filled_entry m1 (cr3 s) f T F 1023 ltac:(lia)) as E.
    replace (f + 1023 * 4) with (f + 4092) in E by lia. exact E.
  - rewrite (Htr _ Hv). exact Ht.
  - exact (data_write_tables _ _ _ _ T F D).
  - intros x Hx. rewrite Htr by (unfold managed; lia). exact (dir_filled_kernel m1 (cr3 s) f T F x Hx).
  - intros x Hx. rewrite (translate_walk _ _ _ 0); [reflexivity|].
    assert (0 ≤ x / 2 ^ 22 < 768) by (change (2 ^ 22) with 4194304; dm).
    unfold pde_addr, m2. rewrite (dir_filled_entry _ _ _ T F) by lia. rewrite !decide_False by lia. apply Hz; [by left|lia].
  - intros x Hx Hne. rewrite (Htr _ Hx). apply (al_other _ _ _ _ A); [exact Hx|].
    intros k Hk. simpl in Hk. replace k with r by lia. exact Hne.
Qed.
End ProcessSpec.

(** ** Witnesses *)

Lemma create_page_dir_shares_kernel_witness :
  ∃ va s', create_page_dir (H1 := ex_world) ex_mem = Ok (va, s').
Proof.
  destruct (create_page_dir_shares_kernel (H1 := ex_world) ex_mem ex_sync_queues) as (va & f & m' & b' & Hc & _).
  - apply ex_heap_ok.
  - apply ex_heap_slack.
  - destruct ex_room as (i & Hi & Hn & Hk). exists i. split; [done|]. split; [lia|]. intros k ?. apply Hk. lia.
  - etrans; [|apply ex_free]. lia.
  - apply ex_sync_inv.
  - apply ex_lock_free.
  - done.
  - eexists va, _. exact Hc.
Defined.
