(* ===== verification/Fsys.v ===== *)
(** * The state of the file system (src/include/fs, src/include/device/ide.h)

    The file system of one mounted partition: the sectors of its disk, the
    cells of the list of open inodes, the bytes of the two bitmaps, the
    structures in memory by address (inodes and directories), the file table,
    and what it uses of the running thread (descriptor table, working
    directory, page directory).

    Memory comes from [fs_malloc]: [Allocator] is what the file system needs
    of it, a new address different from everything in use or NULL.  A buffer
    that only one function uses has its contents as a list in that function;
    an access behind its size is a [Fault].  Messages ([printk]) are not part
    of the state; [console] collects what processes write to the screen.

    The functions run without interference from other threads here, so the
    parts of the code that disable interrupts are atomic. *)

From S2P Require Import Prelude CString CArray Bitmap Lists Disk.

(** ** Memory *)

Definition HEAP_START : Z := 0xc0100000.
Definition USER_HEAP : Z := 0x8048000.

(** The allocator, for the kernel's heap or, when [kernel] is false, for that
    of the running process.  [aused] are the blocks in use, by address, with
    their sizes. *)
Class Allocator (A : Type) := {
  amalloc : A → bool → Z → Z * A;
  afree : A → bool → Z → A;
  aused : A → gmap Z Z;
  amalloc_spec a kernel n p a' : 0 < n → amalloc a kernel n = (p, a') →
    (p = NULL ∧ aused a' = aused a) ∨
    ((if kernel then HEAP_START else USER_HEAP) ≤ p ∧ aused a !! p = None ∧ aused a' = <[p := n]> (aused a) ∧
     ∀ q m, aused a !! q = Some m → p + n ≤ q ∨ q + m ≤ p);
  afree_spec a kernel p : aused (afree a kernel p) = delete p (aused a);
}.

(** The simplest allocator: behind everything in use. *)
Definition heap_top (a : gmap Z Z) : Z := map_fold (λ q m acc, Z.max (q + Z.max m 1) acc) HEAP_START a.
Lemma heap_top_above (a : gmap Z Z) : HEAP_START ≤ heap_top a ∧ ∀ q m, a !! q = Some m → q + Z.max m 1 ≤ heap_top a.
Proof.
  unfold heap_top. apply (map_fold_weak_ind (λ r a, HEAP_START ≤ r ∧ ∀ q m, a !! q = Some m → q + Z.max m 1 ≤ r)).
  - split; [done|]. intros q m Hq. by rewrite lookup_empty in Hq.
  - intros q m a' r Hq [Hr IH]. split; [lia|]. intros q' m'. rewrite lookup_insert_Some. intros [[<- <-] | [_ ?%IH]]; lia.
Qed.
#[export] Program Instance bump_allocator : Allocator (gmap Z Z) := {|
  amalloc a kernel n := (heap_top a, <[heap_top a := n]> a);
  afree a kernel p := delete p a;
  aused a := a;
|}.
Next Obligation.
  intros a kernel n p a' Hn [= <- <-]. right. destruct (heap_top_above a) as [? Hq].
  split_and!; [unfold HEAP_START, USER_HEAP in *; destruct kernel; lia| |done|].
  - destruct (a !! heap_top a) as [m|] eqn:E; [|done]. apply Hq in E. lia.
  - intros q m ?%Hq. lia.
Qed.
Next Obligation. done. Qed.

(** ** Data *)

Record partition := Partition {
  start_lba : Z;
  sec_cnt : Z;
  sb : super_block;
  block_bitmap : bitmap;
  inode_bitmap : bitmap;
  open_inodes : Z;
}.

(** [struct dir], by address; its buffer is 8 bytes behind its start. *)
Record dir := Dir { d_inode : Z; dir_pos : Z; dir_buf : list Z }.
Definition sizeof_dir : Z := 520.
Definition root_dir : Z := 0xc0009000.

Record file := File { fd_pos : Z; fd_flag : Z; fd_inode : Z }.
Definition MAX_FILE_OPEN : Z := 32.
Definition MAX_FILES_OPEN_PER_PROC : Z := 8.

Inductive bitmap_type := INODE_BITMAP | BLOCK_BITMAP.
Definition stdin_no : Z := 0.
Definition stdout_no : Z := 1.
Definition stderr_no : Z := 2.

(** [enum oflags] and [enum whence]. *)
Definition O_RDONLY : Z := 0.
Definition O_WRONLY : Z := 1.
Definition O_RDWR : Z := 2.
Definition O_CREAT : Z := 4.
Definition SEEK_SET : Z := 1.
Definition SEEK_CUR : Z := 2.
Definition SEEK_END : Z := 3.

(** The member [inode_tag] of an inode. *)
Definition inode_tag (p : Z) : Z := p + 68.
Definition inode_entry (e : Z) : Z := e - 68.

Record fsys (H A : Type) := Fsys {
  fdisk : sectors;
  fcells : H;
  fmem : bmem;
  fheap : A;
  finodes : gmap Z inode;
  fdirs : gmap Z dir;
  file_table : list file;
  cur_part : partition;
  fd_tab : list Z;
  cwd_nr : Z;
  pgdir_nr : Z;
  console : list Z;
}.
Arguments Fsys {H A}.
Arguments fdisk {H A}.
Arguments fcells {H A}.
Arguments fmem {H A}.
Arguments fheap {H A}.
Arguments finodes {H A}.
Arguments fdirs {H A}.
Arguments file_table {H A}.
Arguments cur_part {H A}.
Arguments fd_tab {H A}.
Arguments cwd_nr {H A}.
Arguments pgdir_nr {H A}.
Arguments console {H A}.

Definition set_fdisk {H A : Type} v (r : fsys H A) : fsys H A := Fsys v (fcells r) (fmem r) (fheap r) (finodes r) (fdirs r) (file_table r) (cur_part r) (fd_tab r) (cwd_nr r) (pgdir_nr r) (console r).
Definition set_fcells {H A : Type} v (r : fsys H A) : fsys H A := Fsys (fdisk r) v (fmem r) (fheap r) (finodes r) (fdirs r) (file_table r) (cur_part r) (fd_tab r) (cwd_nr r) (pgdir_nr r) (console r).
Definition set_fmem {H A : Type} v (r : fsys H A) : fsys H A := Fsys (fdisk r) (fcells r) v (fheap r) (finodes r) (fdirs r) (file_table r) (cur_part r) (fd_tab r) (cwd_nr r) (pgdir_nr r) (console r).
Definition set_fheap {H A : Type} v (r : fsys H A) : fsys H A := Fsys (fdisk r) (fcells r) (fmem r) v (finodes r) (fdirs r) (file_table r) (cur_part r) (fd_tab r) (cwd_nr r) (pgdir_nr r) (console r).
Definition set_finodes {H A : Type} v (r : fsys H A) : fsys H A := Fsys (fdisk r) (fcells r) (fmem r) (fheap r) v (fdirs r) (file_table r) (cur_part r) (fd_tab r) (cwd_nr r) (pgdir_nr r) (console r).
Definition set_fdirs {H A : Type} v (r : fsys H A) : fsys H A := Fsys (fdisk r) (fcells r) (fmem r) (fheap r) (finodes r) v (file_table r) (cur_part r) (fd_tab r) (cwd_nr r) (pgdir_nr r) (console r).
Definition set_file_table {H A : Type} v (r : fsys H A) : fsys H A := Fsys (fdisk r) (fcells r) (fmem r) (fheap r) (finodes r) (fdirs r) v (cur_part r) (fd_tab r) (cwd_nr r) (pgdir_nr r) (console r).
Definition set_cur_part {H A : Type} v (r : fsys H A) : fsys H A := Fsys (fdisk r) (fcells r) (fmem r) (fheap r) (finodes r) (fdirs r) (file_table r) v (fd_tab r) (cwd_nr r) (pgdir_nr r) (console r).
Definition set_fd_tab {H A : Type} v (r : fsys H A) : fsys H A := Fsys (fdisk r) (fcells r) (fmem r) (fheap r) (finodes r) (fdirs r) (file_table r) (cur_part r) v (cwd_nr r) (pgdir_nr r) (console r).
Definition set_cwd_nr {H A : Type} v (r : fsys H A) : fsys H A := Fsys (fdisk r) (fcells r) (fmem r) (fheap r) (finodes r) (fdirs r) (file_table r) (cur_part r) (fd_tab r) v (pgdir_nr r) (console r).
Definition set_pgdir_nr {H A : Type} v (r : fsys H A) : fsys H A := Fsys (fdisk r) (fcells r) (fmem r) (fheap r) (finodes r) (fdirs r) (file_table r) (cur_part r) (fd_tab r) (cwd_nr r) v (console r).
Definition set_console {H A : Type} v (r : fsys H A) : fsys H A := Fsys (fdisk r) (fcells r) (fmem r) (fheap r) (finodes r) (fdirs r) (file_table r) (cur_part r) (fd_tab r) (cwd_nr r) (pgdir_nr r) v.

(** ** Access *)

Section Access.
Context {H A : Type} `{Allocator A}.
Abbreviation F := (K (fsys H A)).

(** A pool is chosen by the page directory of the running thread. *)
Definition fs_malloc (size : Z) : F Z :=
  a ← gets fheap; g ← gets pgdir_nr;
  let '(p, a) := amalloc a (g =? NULL) size in modify (set_fheap a) ;; mret p.
Definition fs_free (p : Z) : F unit :=
  a ← gets fheap; g ← gets pgdir_nr; modify (set_fheap (afree a (g =? NULL) p)).
(** The size of the buffer a call of [fs_malloc] returned. *)
Definition buf_size (p size : Z) : Z := if p =? NULL then 0 else size.

Definition get_inode (p : Z) : F inode := t ← gets finodes; lift (deref (t !! p)).
Definition put_inode (p : Z) (i : inode) : F unit := t ← gets finodes; modify (set_finodes (<[p := i]> t)).
Definition upd_inode (p : Z) (f : inode → inode) : F unit := i ← get_inode p; put_inode p (f i).
Definition get_dir (p : Z) : F dir := ds ← gets fdirs; lift (deref (ds !! p)).
Definition put_dir (p : Z) (d : dir) : F unit := ds ← gets fdirs; modify (set_fdirs (<[p := d]> ds)).
Definition get_file (k : Z) : F file := ft ← gets file_table; lift (deref (ft !! Z.to_nat k)).
Definition put_file (k : Z) (f : file) : F unit :=
  ft ← gets file_table; modify (set_file_table (<[Z.to_nat k := f]> ft)).

(** The disk driver: [size] is that of the buffer read into; a buffer that is
    too short for what is written is a [Fault], too ([disk_write]). *)
Definition ide_rd (lba cnt size : Z) : F (list Z) :=
  if size <? cnt * SECTOR_SIZE then lift Fault
  else d ← gets fdisk; lift (disk_read d lba cnt).
Definition ide_wr (lba : Z) (bs : list Z) (cnt : Z) : F unit :=
  d ← gets fdisk; d ← lift (disk_write d lba bs cnt); modify (set_fdisk d).

(** The bitmaps are in the byte memory. *)
Definition mark_bit (b : bitmap) (idx value : Z) : F unit :=
  m ← gets fmem; m ← lift (bitmap_set m b idx value); modify (set_fmem m).
Definition scan_bitmap (b : bitmap) (cnt : Z) : F Z := m ← gets fmem; lift (bitmap_scan m b cnt).

(** Integer division; by zero it is a processor exception. *)
Definition divide (a b : Z) : F Z := if b =? 0 then lift Fault else mret (a / b).
End Access.

(** [n] bytes of memory. *)
Fixpoint load_bytes (m : bmem) (a : Z) (n : nat) : outcome (list Z) :=
  match n with
  | O => Ok []
  | S n => b ← load8 m a; bs ← load_bytes m (a + 1) n; Ok (b :: bs)
  end.
