(* ===== verification/Inode.v ===== *)
(** * Inodes and the bitmaps of a partition (src/fs/inode.c; src/fs/file.c:
    inode_bitmap_alloc, block_bitmap_alloc, bitmap_sync)

    The inode table is an array of 76-byte inodes in consecutive sectors; an
    inode can cross a sector boundary.  Open inodes are in a list of the
    partition, each with a count of its users. *)

From S2P Require Import Prelude CString CArray Bitmap Lists Disk Fsys.

(** [struct inode_position]. *)
Record inode_position := InodePosition { two_sec : bool; sec_lba : Z; off_size : Z }.

Definition inode_locate (part : partition) (inode_no : Z) : outcome inode_position :=
  ASSERT (inode_no <? 4096) ;;
  let inode_table_lba := inode_table_lba (sb part) in
  let inode_size := sizeof_inode in
  let off_size := u32 (inode_no * inode_size) in
  let off_sec := off_size / 512 in
  let off_size_in_sec := off_size mod 512 in
  let left_in_sec := 512 - off_size_in_sec in
  Ok (InodePosition (left_in_sec <? inode_size) (u32 (inode_table_lba + off_sec)) off_size_in_sec).

Section Inode.
Context {H A : Type} `{Queues H} `{Allocator A}.
Abbreviation F := (K (fsys H A)).

(** ** The bitmaps *)

Definition inode_bitmap_alloc (part : partition) : F Z :=
  bit_idx ← scan_bitmap (inode_bitmap part) 1;
  if bit_idx =? -1 then mret (-1)
  else mark_bit (inode_bitmap part) bit_idx 1 ;; mret bit_idx.

Definition block_bitmap_alloc (part : partition) : F Z :=
  bit_idx ← scan_bitmap (block_bitmap part) 1;
  if bit_idx =? -1 then mret (-1)
  else mark_bit (block_bitmap part) bit_idx 1 ;; mret (s32 (data_start_lba (sb part) + bit_idx)).

Definition bitmap_sync (part : partition) (bit_idx : Z) (btmp_type : bitmap_type) : F unit :=
  let off_sec := bit_idx / 4096 in
  let off_size := u32 (off_sec * BLOCK_SIZE) in
  let '(sec_lba, bitmap_off) :=
    match btmp_type with
    | INODE_BITMAP => (u32 (inode_bitmap_lba (sb part) + off_sec), bits (inode_bitmap part) + off_size)
    | BLOCK_BITMAP => (u32 (block_bitmap_lba (sb part) + off_sec), bits (block_bitmap part) + off_size)
    end in
  m ← gets fmem; bs ← lift (load_bytes m bitmap_off 512);
  ide_wr sec_lba bs 1.

(** ** Inodes *)

(** The sectors an inode lies in, and [f] applied to their contents. *)
Definition rewrite_inode (pos : inode_position) (io_buf : Z) (bs : list Z) : F unit :=
  let cnt := if two_sec pos then 2 else 1 in
  inode_buf ← ide_rd (sec_lba pos) cnt io_buf;
  ide_wr (sec_lba pos) (patch (Z.to_nat (off_size pos)) bs inode_buf) cnt.

(** [io_buf] is the size of the caller's buffer. *)
Definition inode_sync (part : partition) (inode : inode) (io_buf : Z) : F unit :=
  let inode_no := u8 (i_no inode) in
  inode_pos ← lift (inode_locate part inode_no);
  kASSERT (sec_lba inode_pos <=? u32 (start_lba part + sec_cnt part)) ;;
  let pure_inode := set_write_deny 0 (set_i_open_cnts 0 inode) in
  rewrite_inode inode_pos io_buf (inode_bytes pure_inode).

(** One step of the search in the list of open inodes. *)
Definition inode_match (inode_no elem : Z) : F bool :=
  inode_found ← get_inode (inode_entry elem);
  if i_no inode_found =? inode_no then
    put_inode (inode_entry elem) (set_i_open_cnts (u32 (i_open_cnts inode_found + 1)) inode_found) ;; mret true
  else mret false.

(** The inode from the disk, in a new structure at the front of the list. *)
Definition inode_load (part : partition) (inode_no : Z) : F Z :=
  inode_pos ← lift (inode_locate part inode_no);
  cur_pagedir_bak ← gets pgdir_nr;
  modify (set_pgdir_nr NULL) ;;
  inode_found ← fs_malloc sizeof_inode;
  modify (set_pgdir_nr cur_pagedir_bak) ;;
  let cnt := if two_sec inode_pos then 2 else 1 in
  inode_buf ← fs_malloc (512 * cnt);
  bs ← ide_rd (sec_lba inode_pos) cnt (buf_size inode_buf (512 * cnt));
  kASSERT (negb (inode_found =? NULL)) ;;
  put_inode inode_found (inode_of_bytes (take 76 (drop (Z.to_nat (off_size inode_pos)) bs))) ;;
  h ← gets fcells; modify (set_fcells (qzero h (inode_tag inode_found))) ;;
  h ← gets fcells; h ← lift (qpush h (open_inodes part) (inode_tag inode_found)); modify (set_fcells h) ;;
  upd_inode inode_found (set_i_open_cnts 1) ;;
  fs_free inode_buf ;;
  mret inode_found.

Definition inode_open (part : partition) (inode_no : Z) : F Z :=
  elem ← qtraverse fcells (open_inodes part) (inode_match inode_no);
  if negb (elem =? NULL) then mret (inode_entry elem) else inode_load part inode_no.

Definition inode_close (inode : Z) : F unit :=
  i ← get_inode inode;
  let cnt := u32 (i_open_cnts i - 1) in
  put_inode inode (set_i_open_cnts cnt i) ;;
  if cnt =? 0 then
    h ← gets fcells; h ← lift (qremove h (inode_tag inode)); modify (set_fcells h) ;;
    cur_pagedir_bak ← gets pgdir_nr;
    modify (set_pgdir_nr NULL) ;;
    fs_free inode ;;
    t ← gets finodes; modify (set_finodes (delete inode t)) ;;
    modify (set_pgdir_nr cur_pagedir_bak)
  else mret tt.

Definition inode_delete (part : partition) (inode_no io_buf : Z) : F unit :=
  kASSERT (inode_no <? 4096) ;;
  inode_pos ← lift (inode_locate part inode_no);
  kASSERT (sec_lba inode_pos <=? u32 (start_lba part + sec_cnt part)) ;;
  rewrite_inode inode_pos io_buf (replicate 76 0).

(** A block goes back to the bitmap of [part]; the bitmap of [cur_part] is
    written to the disk. *)
Definition free_block (part : partition) (lba : Z) : F unit :=
  let block_bitmap_idx := u32 (lba - data_start_lba (sb part)) in
  kASSERT (0 <? block_bitmap_idx) ;;
  mark_bit (block_bitmap part) block_bitmap_idx 0 ;;
  cp ← gets cur_part; bitmap_sync cp block_bitmap_idx BLOCK_BITMAP.

Fixpoint free_blocks (part : partition) (all_blocks : list Z) : F unit :=
  match all_blocks with
  | [] => mret tt
  | b :: all_blocks => when (negb (b =? 0)) (free_block part b) ;; free_blocks part all_blocks
  end.

Definition inode_release (part : partition) (inode_no : Z) : F unit :=
  inode_to_del ← inode_open part inode_no;
  i ← get_inode inode_to_del;
  kASSERT (i_no i =? inode_no) ;;
  let direct := take 12 (i_sectors i) in
  i12 ← lift (deref (i_sectors i !! 12%nat));
  all_blocks ←
    (if negb (i12 =? 0) then
       bs ← ide_rd i12 1 512;
       free_block part i12 ;;
       mret (direct ++ bytes_words bs)
     else mret direct);
  free_blocks part all_blocks ;;
  mark_bit (inode_bitmap part) inode_no 0 ;;
  cp ← gets cur_part; bitmap_sync cp inode_no INODE_BITMAP ;;
  io_buf ← fs_malloc 1024;
  inode_delete part inode_no (buf_size io_buf 1024) ;;
  fs_free io_buf ;;
  inode_close inode_to_del.

(** The new contents of an inode that is being created. *)
Definition inode_init (inode_no : Z) : inode := Inode inode_no 0 0 0 (replicate 13 0).
End Inode.

(** ** The inode table *)

Definition TABLE_SECTS : nat := Z.to_nat 608.
Definition inode_table (part : partition) (d : sectors) : option (list Z) :=
  read_run d (inode_table_lba (sb part)) TABLE_SECTS.
(** The bytes of inode [no]. *)
Definition slot (tb : list Z) (no : Z) : list Z := take 76 (drop (Z.to_nat (76 * no)) tb).

(** The table lies on the disk and inside the partition. *)
Record table_ok (part : partition) (d : sectors) (tb : list Z) : Prop := {
  tab_sectors : sectors_ok d;
  tab_read : inode_table part d = Some tb;
  tab_lba : 0 ≤ inode_table_lba (sb part) ∧ inode_table_lba (sb part) + 608 ≤ max_lba + 1;
  tab_part : inode_table_lba (sb part) + 608 ≤ start_lba part + sec_cnt part < 2 ^ 32;
}.

Lemma table_length part d tb : table_ok part d tb → length tb = Z.to_nat 311296.
Proof. intros Ht. destruct (read_run_ok d _ _ _ (tab_sectors _ _ _ Ht) (tab_read _ _ _ Ht)) as [-> _]. unfold TABLE_SECTS. lia. Qed.

Definition pos_cnt (pos : inode_position) : Z := if two_sec pos then 2 else 1.

Lemma inode_locate_ok part d tb no :
  table_ok part d tb → 0 ≤ no < 4096 →
  ∃ pos k off, inode_locate part no = Ok pos ∧ sec_lba pos = inode_table_lba (sb part) + k ∧ off_size pos = off ∧
    512 * k + off = 76 * no ∧ 0 ≤ k ∧ 0 ≤ off < 512 ∧ off + 76 ≤ 512 * pos_cnt pos ∧ k + pos_cnt pos ≤ 608.
Proof.
  intros Ht Hno. destruct (tab_lba _ _ _ Ht). pose proof (tab_part _ _ _ Ht).
  unfold inode_locate. rewrite (proj2 (Z.ltb_lt no 4096)) by lia. bsimpl. unfold sizeof_inode.
  rewrite (u32_small (no * 76)) by lia. unfold max_lba in *.
  rewrite (u32_small (_ + no * 76 / 512)) by (unfold max_lba in *; dm).
  eexists _, (no * 76 / 512), (no * 76 mod 512). split_and!; [done..| | | | | |].
  1-4: dm.
  - unfold pos_cnt. cbn [two_sec]. destruct (Z.ltb_spec (512 - no * 76 mod 512) 76); dm.
  - unfold pos_cnt. cbn [two_sec]. destruct (Z.ltb_spec (512 - no * 76 mod 512) 76); dm.
Qed.

Lemma slot_patch tb no j xs :
  length xs = 76%nat → 0 ≤ no → 0 ≤ j → (Z.to_nat (76 * no) + 76 ≤ length tb)%nat →
  slot (patch (Z.to_nat (76 * no)) xs tb) j = if decide (j = no) then xs else slot tb j.
Proof.
  intros Hx Hno Hj Hl. unfold slot. case_decide as Hd.
  - subst. rewrite <- Hx at 1. by apply patch_same; lia.
  - destruct (decide (j < no)); [apply patch_before; lia|apply patch_after; lia].
Qed.

Section Proofs.
Context {H A : Type} `{Queues H} `{Allocator A}.
Implicit Types s : fsys H A.

Lemma ide_rd_ok s lba cnt size bs :
  lba ≤ max_lba → 0 < cnt → cnt * 512 ≤ size → read_run (fdisk s) lba (Z.to_nat cnt) = Some bs →
  ide_rd lba cnt size s = Ok (bs, s).
Proof.
  intros Hl Hc Hs Hr. unfold ide_rd. rewrite (proj2 (Z.ltb_ge size _)) by (unfold SECTOR_SIZE; lia).
  unfold mbind, K_bind, gets, lift, disk_read. rewrite (proj2 (Z.leb_le lba _)), (proj2 (Z.ltb_lt 0 cnt)) by done.
  bsimpl. by rewrite Hr.
Qed.
Lemma ide_wr_ok s lba bs cnt d' :
  lba ≤ max_lba → 0 < cnt → write_run (fdisk s) lba (Z.to_nat cnt) bs = Some d' →
  ide_wr lba bs cnt s = Ok (tt, set_fdisk d' s).
Proof.
  intros Hl Hc Hr. unfold ide_wr, mbind, K_bind, gets, lift, disk_write, modify.
  rewrite (proj2 (Z.leb_le lba _)), (proj2 (Z.ltb_lt 0 cnt)) by done. bsimpl. by rewrite Hr.
Qed.

(** The table of the disk [d'] is [tb'] and the rest of the disk is [d]. *)
Definition table_now (part : partition) (d d' : sectors) (tb' : list Z) : Prop :=
  table_ok part d' tb' ∧
  ∀ l, l < inode_table_lba (sb part) ∨ inode_table_lba (sb part) + 608 ≤ l → d' !! l = d !! l.

Lemma rewrite_inode_ok part s tb no pos io_buf xs :
  table_ok part (fdisk s) tb → 0 ≤ no < 4096 → inode_locate part no = Ok pos → 512 * pos_cnt pos ≤ io_buf →
  length xs = 76%nat → Forall (λ b, 0 ≤ b < 256) xs →
  ∃ d', rewrite_inode pos io_buf xs s = Ok (tt, set_fdisk d' s) ∧
    table_now part (fdisk s) d' (patch (Z.to_nat (76 * no)) xs tb).
Proof.
  intros Ht Hno Hpos Hbuf Hx Hr. destruct (inode_locate_ok _ _ _ _ Ht Hno) as (pos' & k & off & Hp & Hl & Ho & He & ? & ? & ? & ?).
  rewrite Hpos in Hp. injection Hp as <-. destruct (tab_lba _ _ _ Ht).
  destruct (rewrite_run (fdisk s) _ _ tb (Z.to_nat k) (Z.to_nat (pos_cnt pos)) (Z.to_nat off) xs (tab_read _ _ _ Ht) (tab_sectors _ _ _ Ht))
    as (bs & d' & Hrd & _ & Hwr & Hnew & Hok & Hf); [unfold TABLE_SECTS, pos_cnt in *; destruct (two_sec pos); lia..|done|].
  rewrite Z2Nat.id in Hrd, Hwr by lia. exists d'. split.
  - unfold rewrite_inode. fold (pos_cnt pos).
    assert (1 ≤ pos_cnt pos) by (unfold pos_cnt; destruct (two_sec pos); lia). rewrite Hl, Ho.
    kstep (ide_rd_ok s (inode_table_lba (sb part) + k) (pos_cnt pos) io_buf bs ltac:(lia) ltac:(lia) ltac:(lia) Hrd).
    apply ide_wr_ok; [lia|lia|done].
  - split; [|intros l Hl'; apply Hf; unfold TABLE_SECTS; lia]. split; [done| |done|apply Ht].
    unfold inode_table. rewrite Hnew. do 2 f_equal. lia.
Qed.

(** The copy of an inode that goes to the disk. *)
Lemma pure_ok i : inode_ok i → inode_ok (set_write_deny 0 (set_i_open_cnts 0 i)).
Proof.
  intros (? & ? & ? & ? & ? & ?). split_and!; [done..|unfold word_ok; cbn; lia|unfold word_ok; cbn; lia|done|done].
Qed.

Lemma pos_cnt_fits pos : 512 * pos_cnt pos ≤ 1024.
Proof. unfold pos_cnt. destruct (two_sec pos); lia. Qed.

Lemma inode_sync_ok part s tb i io_buf :
  table_ok part (fdisk s) tb → inode_ok i →
  (∀ pos, inode_locate part (u8 (i_no i)) = Ok pos → 512 * pos_cnt pos ≤ io_buf) →
  ∃ d', inode_sync part i io_buf s = Ok (tt, set_fdisk d' s) ∧
    table_now part (fdisk s) d'
      (patch (Z.to_nat (76 * u8 (i_no i))) (inode_bytes (set_write_deny 0 (set_i_open_cnts 0 i))) tb).
Proof.
  intros Ht Hi Hb. pose proof (u8_range (i_no i)) as Hu. change (2 ^ 8) with 256 in Hu.
  destruct (inode_locate_ok part (fdisk s) tb (u8 (i_no i)) Ht ltac:(lia)) as (pos & k & off & Hp & Hl & Ho & ? & ? & ? & ? & ?).
  pose proof (tab_part _ _ _ Ht). unfold inode_sync. rewrite Hp. kgo.
  rewrite (proj2 (Z.leb_le (sec_lba pos) _)).
  2:{ rewrite u32_small by (destruct (tab_lba _ _ _ Ht); lia). unfold pos_cnt in *. destruct (two_sec pos); lia. }
  kgo. pose proof (pure_ok i Hi) as Hok.
  apply rewrite_inode_ok; [done|lia|done|by apply Hb|by apply inode_bytes_length|apply words_bytes_range].
Qed.

(** ** Opening and closing *)

(** Memory is not exhausted. *)
Definition never_full (A : Type) `{Allocator A} : Prop := ∀ a kernel n, 0 < n → (amalloc (A := A) a kernel n).1 ≠ NULL.

(** The cells in use lie in static memory or in blocks in use. *)
Definition cells_owned (Q : gmap Z (list Z)) (used : gmap Z Z) : Prop :=
  ∀ l xs a, Q !! l = Some xs → a ∈ cells l xs → a < HEAP_START ∨ ∃ q m, used !! q = Some m ∧ q ≤ a < q + m.

Lemma malloc_step s n :
  never_full A → 0 < n →
  ∃ p a', fs_malloc n s = Ok (p, set_fheap a' s) ∧ 0 < p ∧ aused (fheap s) !! p = None ∧
    aused a' = <[p := n]> (aused (fheap s)) ∧
    (∀ q m, aused (fheap s) !! q = Some m → p + n ≤ q ∨ q + m ≤ p) ∧ (pgdir_nr s = NULL → HEAP_START ≤ p).
Proof.
  intros Hnf Hn. unfold fs_malloc, mbind, K_bind, gets. destruct (amalloc (fheap s) _ n) as [p a'] eqn:E.
  pose proof (Hnf (fheap s) (pgdir_nr s =? NULL) n Hn) as Hp. rewrite E in Hp. cbn in Hp.
  destruct (amalloc_spec _ _ _ _ _ Hn E) as [[? _] | (Hh & ? & ? & ?)]; [done|]. exists p, a'.
  split_and!; try done; unfold HEAP_START, USER_HEAP in *; destruct (Z.eqb_spec (pgdir_nr s) NULL); lia.
Qed.

Lemma fresh_unlinked Q used p n a :
  cells_owned Q used → HEAP_START ≤ p → (∀ q m, used !! q = Some m → p + n ≤ q ∨ q + m ≤ p) → p ≤ a < p + n → unlinked Q a.
Proof. intros Ho Hp Hf Ha l xs Hl Hin. destruct (Ho _ _ _ Hl Hin) as [? | (q & m & Hq & ?)]; [lia|]. apply Hf in Hq. lia. Qed.

(** The open inodes are [ps], front first. *)
Record opened (part : partition) (s : fsys H A) (ps : list Z) (Q : gmap Z (list Z)) : Prop := {
  op_rep : qrep (fcells s) Q;
  op_list : Q !! open_inodes part = Some (inode_tag <$> ps);
  op_owned : cells_owned Q (aused (fheap s));
  op_blocks : ∀ p, p ∈ ps → aused (fheap s) !! p = Some 76;
  op_nodup : NoDup ps;
  op_known : ∀ p, is_Some (finodes s !! p) → is_Some (aused (fheap s) !! p);
  op_place : ∀ p, p ∈ ps → HEAP_START ≤ p;
  op_private : ∀ p l xs a, p ∈ ps → Q !! l = Some xs → a ∈ cells l xs → p ≤ a < p + 76 → a = inode_tag p;
  op_mem : ∀ p, p ∈ ps → ∃ i, finodes s !! p = Some i ∧ 1 ≤ i_open_cnts i;
  op_once : ∀ p q i j, p ∈ ps → q ∈ ps → finodes s !! p = Some i → finodes s !! q = Some j → i_no i = i_no j → p = q;
}.

(** The open inode with a number. *)
Definition find_open (s : fsys H A) (ps : list Z) (no : Z) (p : Z) (i : inode) : Prop :=
  p ∈ ps ∧ finodes s !! p = Some i ∧ i_no i = no.

Lemma match_hit s no p i :
  finodes s !! p = Some i → i_no i = no →
  inode_match no (inode_tag p) s =
    Ok (true, set_finodes (<[p := set_i_open_cnts (u32 (i_open_cnts i + 1)) i]> (finodes s)) s).
Proof.
  intros Hp Hn. unfold inode_match, inode_entry, inode_tag. replace (p + 68 - 68) with p by lia.
  unfold get_inode, put_inode, mbind, K_bind, gets, lift, modify. rewrite Hp. cbn [deref mbind outcome_bind].
  by rewrite (proj2 (Z.eqb_eq _ _) Hn).
Qed.
Lemma match_miss s no p i :
  finodes s !! p = Some i → i_no i ≠ no → inode_match no (inode_tag p) s = Ok (false, s).
Proof.
  intros Hp Hn. unfold inode_match, inode_entry, inode_tag. replace (p + 68 - 68) with p by lia.
  unfold get_inode, mbind, K_bind, gets, lift. rewrite Hp. cbn [deref mbind outcome_bind].
  by rewrite (proj2 (Z.eqb_neq _ _) Hn).
Qed.
Lemma traverse_miss s no ps :
  (∀ p, p ∈ ps → ∃ i, finodes s !! p = Some i ∧ i_no i ≠ no) →
  traverse (inode_match no) (inode_tag <$> ps) s = Ok (NULL, s).
Proof.
  induction ps as [|p ps IH]; intros Hps; [done|]. cbn [fmap list_fmap traverse].
  destruct (Hps p) as (i & Hi & Hn); [set_solver|]. kstep (match_miss s no p i Hi Hn). apply IH. set_solver.
Qed.
Lemma traverse_hit s no ps p i :
  find_open s ps no p i → (∀ q, q ∈ ps → is_Some (finodes s !! q)) →
  (∀ q j, q ∈ ps → finodes s !! q = Some j → i_no j = no → q = p) →
  traverse (inode_match no) (inode_tag <$> ps) s =
    Ok (inode_tag p, set_finodes (<[p := set_i_open_cnts (u32 (i_open_cnts i + 1)) i]> (finodes s)) s).
Proof.
  intros (Hp & Hi & Hn) Hd Hu. induction ps as [|q ps IH]; [by apply elem_of_nil in Hp|]. cbn [fmap list_fmap traverse].
  destruct (decide (q = p)) as [->|Hne].
  - by kstep (match_hit s no p i Hi Hn).
  - destruct (Hd q) as [j Hj]; [set_solver|].
    assert (i_no j ≠ no) as Hjn by (intros ?; apply Hne; eapply Hu; [|done..]; set_solver).
    kstep (match_miss s no q j Hj Hjn). apply IH; set_solver.
Qed.

Lemma match_cells no e s b s' : inode_match no e s = Ok (b, s') → fcells s' = fcells s.
Proof.
  unfold inode_match, get_inode, put_inode. intros Hm. invbind. case_match; invbind; unfold mret, K_ret in *; by simplify_eq/=.
Qed.

Lemma open_traverse part s ps Q no :
  opened part s ps Q →
  qtraverse fcells (open_inodes part) (inode_match no) s = traverse (inode_match no) (inode_tag <$> ps) s.
Proof.
  intros Ho. apply (qtraverse_spec fcells Q); [apply Ho|apply Ho|]. intros x s0 b s' _. apply match_cells.
Qed.

Lemma inode_open_hit part s ps Q no p i :
  opened part s ps Q → find_open s ps no p i →
  inode_open part no s = Ok (p, set_finodes (<[p := set_i_open_cnts (u32 (i_open_cnts i + 1)) i]> (finodes s)) s).
Proof.
  intros Ho Hf. unfold inode_open.
  assert (traverse (inode_match no) (inode_tag <$> ps) s =
    Ok (inode_tag p, set_finodes (<[p := set_i_open_cnts (u32 (i_open_cnts i + 1)) i]> (finodes s)) s)) as Ht.
  { destruct Hf as (Hp & Hi & Hn). apply traverse_hit; [done| |].
    - intros q Hq. destruct (op_mem _ _ _ _ Ho q Hq) as (j & Hj & _). by eexists.
    - intros q j Hq Hj Hjn. apply (op_once _ _ _ _ Ho q p j i); [done..|congruence]. }
  rewrite <- (open_traverse _ _ _ _ _ Ho) in Ht. kstep Ht.
  pose proof (op_place _ _ _ _ Ho p ltac:(apply Hf)) as Hp. unfold HEAP_START, inode_tag, inode_entry, NULL in *.
  rewrite (proj2 (Z.eqb_neq (p + 68) 0)) by lia. cbn. unfold mret, K_ret. do 2 f_equal. lia.
Qed.

(** The state after an inode was read into a new structure at [p]. *)
Definition loaded (s : fsys H A) (p : Z) (i : inode) (h : H) (a : A) : fsys H A :=
  set_fheap a (set_fcells h (set_finodes (<[p := i]> (finodes s)) s)).

Lemma inode_load_ok part s tb xs Q no :
  never_full A → table_ok part (fdisk s) tb → 0 ≤ no < 4096 →
  qrep (fcells s) Q → Q !! open_inodes part = Some xs → cells_owned Q (aused (fheap s)) →
  ∃ p h a, inode_load part no s = Ok (p, loaded s p (set_i_open_cnts 1 (inode_of_bytes (slot tb no))) h a) ∧
    qrep h (<[open_inodes part := inode_tag p :: xs]> Q) ∧ HEAP_START ≤ p ∧ aused (fheap s) !! p = None ∧
    aused a = <[p := 76]> (aused (fheap s)) ∧
    (∀ q m, aused (fheap s) !! q = Some m → p + 76 ≤ q ∨ q + m ≤ p).
Proof.
  intros Hnf Ht Hno HQ Hl How. unfold inode_load.
  destruct (inode_locate_ok _ _ _ _ Ht Hno) as (pos & k & off & Hp & Hs & Ho & He & ? & ? & ? & ?).
  rewrite Hp. kgo. fold (pos_cnt pos). assert (1 ≤ pos_cnt pos ≤ 2) by (unfold pos_cnt; destruct (two_sec pos); lia).
  destruct (malloc_step (set_pgdir_nr NULL s) sizeof_inode Hnf ltac:(done)) as (p & a1 & Hm & _ & Hn1 & Hu1 & Hf1 & Hhp). specialize (Hhp eq_refl). kstep Hm.
  match goal with |- context [(fs_malloc (512 * pos_cnt pos) ≫= _) ?st] =>
    destruct (malloc_step st (512 * pos_cnt pos) Hnf ltac:(lia)) as (b & a2 & Hm2 & Hhb & Hn2 & Hu2 & Hf2 & _) end.
  kstep Hm2. destruct (tab_lba _ _ _ Ht).
  assert (read_run (fdisk s) (sec_lba pos) (Z.to_nat (pos_cnt pos)) =
    Some (take (512 * Z.to_nat (pos_cnt pos)) (drop (512 * Z.to_nat k) tb))) as Hrd.
  { destruct (rewrite_run (fdisk s) _ _ tb (Z.to_nat k) (Z.to_nat (pos_cnt pos)) 0 [] (tab_read _ _ _ Ht) (tab_sectors _ _ _ Ht))
      as (bs & d' & Hr & -> & _); [unfold TABLE_SECTS; lia|cbn; lia|constructor|]. rewrite Z2Nat.id in Hr by lia. by rewrite Hs. }
  assert (buf_size b (512 * pos_cnt pos) = 512 * pos_cnt pos) as ->.
  { unfold buf_size, HEAP_START, NULL in *. by rewrite (proj2 (Z.eqb_neq b 0)) by lia. }
  match goal with |- context [(ide_rd _ _ _ ≫= _) ?st] =>
    kstep (ide_rd_ok st (sec_lba pos) (pos_cnt pos) (512 * pos_cnt pos) _ ltac:(lia) ltac:(lia) ltac:(lia) Hrd) end.
  rewrite (proj2 (Z.eqb_neq p NULL)) by (unfold HEAP_START, NULL in *; lia). cbn [negb]. kgo.
  unfold put_inode at 1. kgo.
  cbn [fcells set_finodes set_fheap set_fcells set_pgdir_nr finodes].
  assert (unlinked Q (inode_tag p)) as Hul.
  { eapply (fresh_unlinked Q _ p 76); [done|done| |unfold inode_tag; lia]. exact Hf1. }
  destruct (qzero_spec (fcells s) Q (inode_tag p) HQ Hul) as [HQ1 Hc1].
  destruct (qpush_spec _ _ _ _ (inode_tag p) HQ1 Hl Hul) as (h' & Hpush & HQ2 & _); [rewrite Hc1; set_solver|].
  rewrite Hpush. kgo. unfold upd_inode, get_inode, put_inode. kgo.
  cbn [fcells set_finodes set_fheap set_fcells set_pgdir_nr finodes].
  rewrite lookup_insert_eq. cbn [deref]. kgo. unfold fs_free. kgo.
  exists p, h', (afree a2 (pgdir_nr s =? NULL) b). split_and!; [|done|done|exact Hn1| |exact Hf1].
  - unfold loaded, mret, K_ret. destruct s. cbn. rewrite insert_insert_eq.
    assert (slot tb no = take 76 (drop (Z.to_nat (off_size pos)) (take (512 * Z.to_nat (pos_cnt pos)) (drop (512 * Z.to_nat k) tb)))) as ->;
      [|done]. unfold slot. rewrite Ho, skipn_firstn_comm, take_take, drop_drop. f_equal; [lia|]. f_equal. lia.
  - rewrite afree_spec, Hu2, delete_insert_id by done. exact Hu1.
Qed.

(** Changing an open inode, but not its number. *)
Lemma opened_upd part s ps Q p i i' :
  opened part s ps Q → p ∈ ps → finodes s !! p = Some i → i_no i' = i_no i → 1 ≤ i_open_cnts i' →
  opened part (set_finodes (<[p := i']> (finodes s)) s) ps Q.
Proof.
  intros Ho Hp Hi Hno Hn. assert (∀ q j, (<[p := i']> (finodes s)) !! q = Some j →
    ∃ j', finodes s !! q = Some j' ∧ i_no j' = i_no j) as Hx.
  { intros q j. rewrite lookup_insert_Some. intros [[<- <-] | [_ Hj]]; [by exists i|by exists j]. }
  split; try apply Ho; cbn [finodes set_finodes].
  - intros q [j [[<- _] | [_ Hj]]%lookup_insert_Some]; apply (op_known _ _ _ _ Ho); by eexists.
  - intros q Hq. destruct (decide (q = p)) as [->|]; [rewrite lookup_insert_eq; by eexists|].
    rewrite lookup_insert_ne by done. by apply Ho.
  - intros q1 q2 j1 j2 E1 E2 Hj1 Hj2 He. destruct (Hx _ _ Hj1) as (k1 & ? & ?), (Hx _ _ Hj2) as (k2 & ? & ?).
    eapply (op_once _ _ _ _ Ho q1 q2 k1 k2); [done..|congruence].
Qed.

(** An inode that was not open is put in front. *)
Lemma opened_loaded part s ps Q p i h a :
  opened part s ps Q → HEAP_START ≤ p → aused a = <[p := 76]> (aused (fheap s)) →
  (∀ q m, aused (fheap s) !! q = Some m → p + 76 ≤ q ∨ q + m ≤ p) →
  qrep h (<[open_inodes part := inode_tag p :: (inode_tag <$> ps)]> Q) → 1 ≤ i_open_cnts i →
  (∀ q j, q ∈ ps → finodes s !! q = Some j → i_no j ≠ i_no i) →
  (p ∉ ps) ∧ opened part (loaded s p i h a) (p :: ps) (<[open_inodes part := inode_tag p :: (inode_tag <$> ps)]> Q).
Proof.
  intros Ho Hp Hu Hf HQ Hc Hn. assert (p ∉ ps) as Hps.
  { intros Hin. apply (op_blocks _ _ _ _ Ho) in Hin. apply Hf in Hin. lia. }
  split; [done|]. split; cbn [loaded fcells fheap finodes set_fheap set_fcells set_finodes].
  - done.
  - by rewrite lookup_insert_eq.
  - intros l xs b Hl Hb. rewrite Hu. apply lookup_insert_Some in Hl as [[<- <-] | [_ Hl]].
    + assert (b = inode_tag p ∨ b ∈ cells (open_inodes part) (inode_tag <$> ps)) as [->|Hb'] by (unfold cells in *; set_solver).
      * right. exists p, 76. rewrite lookup_insert_eq. unfold inode_tag. split; [done|lia].
      * destruct (op_owned _ _ _ _ Ho _ _ _ (op_list _ _ _ _ Ho) Hb') as [? | (q & m & Hq & ?)]; [by left|].
        right. exists q, m. split; [|done]. rewrite lookup_insert_ne; [done|]. intros <-. apply Hf in Hq. lia.
    + destruct (op_owned _ _ _ _ Ho _ _ _ Hl Hb) as [? | (q & m & Hq & ?)]; [by left|].
      right. exists q, m. split; [|done]. rewrite lookup_insert_ne; [done|]. intros <-. apply Hf in Hq. lia.
  - intros q [->|Hq]%elem_of_cons; rewrite Hu; [by rewrite lookup_insert_eq|].
    rewrite lookup_insert_ne by (intros ->; done). by apply Ho.
  - constructor; [done|apply Ho].
  - intros q [j [[<- _] | [Hne Hj]]%lookup_insert_Some]; rewrite Hu; [rewrite lookup_insert_eq; by eexists|].
    rewrite lookup_insert_ne by done. apply (op_known _ _ _ _ Ho). by eexists.
  - intros q [->|Hq]%elem_of_cons; [done|by apply Ho].
  - intros q l xs b Hq Hl Hb Hr.
    assert (b = inode_tag p ∨ ∃ ys, Q !! l = Some ys ∧ b ∈ cells l ys) as [-> | (ys & Hy & Hb')].
    { apply lookup_insert_Some in Hl as [[<- <-] | [_ Hl]]; [|right; by exists xs].
      assert (b = inode_tag p ∨ b ∈ cells (open_inodes part) (inode_tag <$> ps)) as [->|Hb'] by (unfold cells in *; set_solver);
        [by left|]. right. eexists. split; [apply Ho|done]. }
    + apply elem_of_cons in Hq as [->|Hq]; [done|]. apply (op_blocks _ _ _ _ Ho) in Hq. apply Hf in Hq.
      unfold inode_tag in *. lia.
    + apply elem_of_cons in Hq as [->|Hq]; [|by eapply (op_private _ _ _ _ Ho)].
      destruct (op_owned _ _ _ _ Ho _ _ _ Hy Hb') as [? | (q & m & Hq & ?)]; [lia|]. apply Hf in Hq. lia.
  - intros q [->|Hq]%elem_of_cons; [rewrite lookup_insert_eq; by eexists|].
    rewrite lookup_insert_ne by (intros ->; done). by apply Ho.
  - intros q1 q2 j1 j2 [->|E1]%elem_of_cons [->|E2]%elem_of_cons; [done|..];
      rewrite ?lookup_insert_eq; rewrite ?lookup_insert_ne by (intros ->; done); intros Hj1 Hj2 He.
    + injection Hj1 as <-. by destruct (Hn q2 j2 E2 Hj2).
    + injection Hj2 as <-. by destruct (Hn q1 j1 E1 Hj1).
    + by eapply (op_once _ _ _ _ Ho).
Qed.

(** Closing: one user less, or the inode leaves the list. *)
Lemma inode_close_count part s ps Q p i :
  opened part s ps Q → p ∈ ps → finodes s !! p = Some i → 1 < i_open_cnts i < 2 ^ 32 →
  inode_close p s = Ok (tt, set_finodes (<[p := set_i_open_cnts (i_open_cnts i - 1) i]> (finodes s)) s).
Proof.
  intros Ho Hp Hi Hc. unfold inode_close, get_inode, put_inode, mbind, K_bind, gets, lift, modify. rewrite Hi.
  cbn [deref mbind outcome_bind]. rewrite u32_small by lia. by rewrite (proj2 (Z.eqb_neq _ 0)) by lia.
Qed.

Lemma inode_close_last part s ps1 p ps2 Q i :
  opened part s (ps1 ++ p :: ps2) Q → finodes s !! p = Some i → i_open_cnts i = 1 →
  ∃ h a Q', inode_close p s = Ok (tt, set_fheap a (set_fcells h (set_finodes (delete p (finodes s)) s))) ∧
    aused a = delete p (aused (fheap s)) ∧
    opened part (set_fheap a (set_fcells h (set_finodes (delete p (finodes s)) s))) (ps1 ++ ps2) Q'.
Proof.
  intros Ho Hi Hc. pose proof (op_nodup _ _ _ _ Ho) as Hnd. pose proof (op_list _ _ _ _ Ho) as Hl. rewrite fmap_app in Hl. cbn [fmap list_fmap] in Hl.
  destruct (qremove_spec _ _ _ _ _ _ (op_rep _ _ _ _ Ho) Hl) as (h' & Hrm & HQ & Hun & _).
  exists h', (afree (fheap s) true p), (<[open_inodes part := (inode_tag <$> ps1) ++ (inode_tag <$> ps2)]> Q).
  assert (p ∉ ps1 ++ ps2) as Hpn by (apply NoDup_app in Hnd as (? & ? & [? ?]%NoDup_cons); set_solver).
  split_and!.
  - unfold inode_close, get_inode, put_inode. kgo. rewrite Hi. cbn [deref]. kgo. rewrite Hc.
    change (u32 (1 - 1) =? 0) with true. cbn [fcells set_finodes]. kgo. cbn [fcells set_finodes]. rewrite Hrm. kgo.
    unfold fs_free. kgo. destruct s. cbn. rewrite delete_insert_eq. reflexivity.
  - by rewrite afree_spec.
  - assert (∀ q, q ∈ ps1 ++ ps2 → q ≠ p ∧ q ∈ ps1 ++ p :: ps2) as Hin by (intros q Hq; split; [by intros ->|set_solver]).
    assert (∀ l xs b, <[open_inodes part := (inode_tag <$> ps1) ++ (inode_tag <$> ps2)]> Q !! l = Some xs → b ∈ cells l xs →
      ∃ ys, Q !! l = Some ys ∧ b ∈ cells l ys) as Hold.
    { intros l xs b Hl' Hb. apply lookup_insert_Some in Hl' as [[<- <-] | [_ Hl']]; [|by exists xs].
      eexists. split; [exact Hl|]. unfold cells in *. set_solver. }
    split; cbn [fcells fheap finodes set_fheap set_fcells set_finodes].
    + done.
    + by rewrite lookup_insert_eq, fmap_app.
    + intros l xs b Hl' Hb. rewrite afree_spec. pose proof (Hun _ _ Hl') as Hbt. destruct (Hold _ _ _ Hl' Hb) as (ys & Hy & Hby).
      destruct (op_owned _ _ _ _ Ho _ _ _ Hy Hby) as [? | (q & m & Hq & ?)]; [by left|].
      right. exists q, m. split; [|done]. rewrite lookup_delete_ne; [done|]. intros <-.
      apply Hbt. rewrite <- (op_private _ _ _ _ Ho p l ys b); [done|set_solver|done..|].
      rewrite (op_blocks _ _ _ _ Ho p) in Hq by set_solver. injection Hq as <-. lia.
    + intros q Hq. destruct (Hin q Hq). rewrite afree_spec, lookup_delete_ne by done. by apply Ho.
    + apply NoDup_app in Hnd as (? & ? & [? ?]%NoDup_cons). apply NoDup_app. set_solver.
    + intros q [j [Hne Hj]%lookup_delete_Some]. rewrite afree_spec, lookup_delete_ne by done.
      apply (op_known _ _ _ _ Ho). by eexists.
    + intros q Hq. apply Ho. by apply Hin.
    + intros q l xs b Hq Hl' Hb. destruct (Hold _ _ _ Hl' Hb) as (ys & Hy & Hby).
      apply (op_private _ _ _ _ Ho q l ys); [by apply Hin|done..].
    + intros q Hq. destruct (Hin q Hq). rewrite lookup_delete_ne by done. by apply Ho.
    + intros q1 q2 j1 j2 E1 E2. destruct (Hin q1 E1), (Hin q2 E2). rewrite !lookup_delete_ne by done.
      by apply Ho.
Qed.

(** [inode_open] of a number in the table, open already or not. *)
Lemma inode_open_ok part s tb ps Q no :
  never_full A → table_ok part (fdisk s) tb → 0 ≤ no < 4096 → opened part s ps Q →
  i_no (inode_of_bytes (slot tb no)) = no →
  (∃ p i, find_open s ps no p i ∧
     inode_open part no s = Ok (p, set_finodes (<[p := set_i_open_cnts (u32 (i_open_cnts i + 1)) i]> (finodes s)) s)) ∨
  ((∀ p i, ¬ find_open s ps no p i) ∧ ∃ p h a Q', let s' := loaded s p (set_i_open_cnts 1 (inode_of_bytes (slot tb no))) h a in
     inode_open part no s = Ok (p, s') ∧ opened part s' (p :: ps) Q' ∧ finodes s !! p = None ∧
     aused a = <[p := 76]> (aused (fheap s)) ∧ aused (fheap s) !! p = None).
Proof.
  intros Hnf Ht Hno Ho Hi.
  destruct (decide (Exists (λ p, (i_no <$> finodes s !! p) = Some no) ps)) as [He|He].
  - left. apply Exists_exists in He as (p & Hp & (i & Hpi & ->)%fmap_Some_1). exists p, i.
    assert (find_open s ps (i_no i) p i) as Hf by done. split; [done|]. by apply (inode_open_hit part s ps Q).
  - right. apply not_Exists_Forall in He; [|solve_decision]. rewrite Forall_forall in He.
    assert (∀ p i, p ∈ ps → finodes s !! p = Some i → i_no i ≠ no) as Hne.
    { intros p i Hp Hpi Hn. apply (He p Hp). by rewrite Hpi, <- Hn. }
    split; [intros p i (? & ? & ?); by eapply Hne|].
    destruct (inode_load_ok part s tb _ Q no Hnf Ht Hno (op_rep _ _ _ _ Ho) (op_list _ _ _ _ Ho) (op_owned _ _ _ _ Ho))
      as (p & h & a & Hload & HQ & Hp & Hn & Hu & Hf). eexists p, h, a, _. cbv zeta.
    destruct (opened_loaded part s ps Q p (set_i_open_cnts 1 (inode_of_bytes (slot tb no))) h a) as [Hps Ho'];
      [done..|intros q j Hq Hj; change (i_no j ≠ i_no (inode_of_bytes (slot tb no))); rewrite Hi; by eapply Hne|].
    split_and!; [|exact Ho'| |done|done].
    + unfold inode_open. rewrite <- Hload.
      assert (traverse (inode_match no) (inode_tag <$> ps) s = Ok (NULL, s)) as Htr.
      { apply traverse_miss. intros q Hq. destruct (op_mem _ _ _ _ Ho q Hq) as (j & Hj & _). exists j. split; [done|by eapply Hne]. }
      rewrite <- (open_traverse _ _ _ _ _ Ho) in Htr. by kstep Htr.
    + destruct (finodes s !! p) as [j|] eqn:E; [|done]. destruct (op_known _ _ _ _ Ho p) as [m Hm]; [by eexists|]. congruence.
Qed.

(** ** Properties *)

(** C21: An inode that is not open and that [inode_sync] writes to the disk is
    read back by [inode_open] as it was, with one user and writable, for inode
    numbers below 256; no other inode on the disk or in memory changes. *)
Theorem inode_sync_open_roundtrip part s tb ps Q i :
  never_full A → table_ok part (fdisk s) tb → opened part s ps Q → inode_ok i → i_no i < 256 →
  (∀ p j, p ∈ ps → finodes s !! p = Some j → i_no j ≠ i_no i) →
  ∃ s1 p s2, inode_sync part i 1024 s = Ok (tt, s1) ∧ inode_open part (i_no i) s1 = Ok (p, s2) ∧
    finodes s2 !! p = Some (Inode (i_no i) (i_size i) 1 0 (i_sectors i)) ∧
    (∀ q, q ≠ p → finodes s2 !! q = finodes s !! q) ∧
    ∃ tb', table_ok part (fdisk s2) tb' ∧ ∀ no, 0 ≤ no → no ≠ i_no i → slot tb' no = slot tb no.
Proof.
  intros Hnf Ht Ho Hi Hno Hcl. pose proof (table_length _ _ _ Ht) as Hlen.
  destruct (inode_sync_ok part s tb i 1024 Ht Hi (λ pos _, pos_cnt_fits pos)) as (d' & Hs & Ht' & _).
  pose proof Hi as (Hw & _). unfold word_ok in Hw. rewrite u8_small in Ht' by lia.
  set (pure := set_write_deny 0 (set_i_open_cnts 0 i)) in *. set (tb' := patch _ _ tb) in Ht'.
  pose proof (pure_ok i Hi : inode_ok pure) as Hpure.
  assert (∀ no, 0 ≤ no → slot tb' no = if decide (no = i_no i) then inode_bytes pure else slot tb no) as Hsl.
  { intros no Hn. apply slot_patch; [by apply inode_bytes_length|lia|done|lia]. }
  assert (inode_of_bytes (slot tb' (i_no i)) = pure) as Hrd.
  { rewrite Hsl, decide_True by lia || done. by apply inode_roundtrip. }
  assert (opened part (set_fdisk d' s) ps Q) as Ho' by (split; apply Ho).
  destruct (inode_open_ok part (set_fdisk d' s) tb' ps Q (i_no i) Hnf Ht' ltac:(lia) Ho') as [(p & j & Hf & _) | (_ & p & h & a & Q' & Hop & Ho2 & Hnew & _)].
  { by rewrite Hrd. }
  { destruct Hf as (Hp & Hj & Hjn). by destruct (Hcl p j Hp Hj). }
  eexists _, p, _. split_and!; [exact Hs|exact Hop| | |].
  - cbn [loaded finodes set_fheap set_fcells set_finodes]. rewrite lookup_insert_eq, Hrd. done.
  - intros q Hq. cbn [loaded finodes set_fheap set_fcells set_finodes]. by rewrite lookup_insert_ne.
  - exists tb'. split; [exact Ht'|]. intros no Hn Hne. by rewrite Hsl, decide_False.
Qed.

(** [inode_sync] keeps only the low byte of the inode number: an inode
    whose number is 256 or more is written over the one with its number modulo
    256, and its own place in the table keeps its old contents. *)
Theorem inode_sync_wrong_slot part s tb i :
  table_ok part (fdisk s) tb → inode_ok i → 256 ≤ i_no i < 4096 →
  ∃ s' tb', inode_sync part i 1024 s = Ok (tt, s') ∧ table_ok part (fdisk s') tb' ∧
    inode_of_bytes (slot tb' (i_no i mod 256)) = Inode (i_no i) (i_size i) 0 0 (i_sectors i) ∧
    slot tb' (i_no i) = slot tb (i_no i).
Proof.
  intros Ht Hi Hno. destruct (inode_sync_ok part s tb i 1024 Ht Hi (λ pos _, pos_cnt_fits pos)) as (d' & Hs & Ht' & _).
  pose proof (table_length _ _ _ Ht) as Hlen. eexists _, _. split_and!; [exact Hs|exact Ht'|..].
  - unfold u8. change (2 ^ 8) with 256. set (pure := set_write_deny 0 (set_i_open_cnts 0 i)).
    pose proof (pure_ok i Hi : inode_ok pure) as Hpure.
    rewrite slot_patch, decide_True by (done || by apply inode_bytes_length || dm). by apply inode_roundtrip.
  - unfold u8. change (2 ^ 8) with 256. set (pure := set_write_deny 0 (set_i_open_cnts 0 i)).
    pose proof (pure_ok i Hi : inode_ok pure) as Hpure.
    rewrite slot_patch, decide_False by (done || by apply inode_bytes_length || dm). done.
Qed.

(** C22: Opening an inode and closing it again restores the open inodes: the
    structures in memory, their counts, the memory in use and the disk are
    what they were; in between the inode is open, in one structure for all
    its users. *)
Theorem inode_open_close_restores part s tb ps Q no :
  never_full A → table_ok part (fdisk s) tb → 0 ≤ no < 4096 → opened part s ps Q →
  i_no (inode_of_bytes (slot tb no)) = no → (∀ p i, finodes s !! p = Some i → i_open_cnts i < 2 ^ 32 - 1) →
  ∃ p s1 s2 i ps1 Q1 Q2, inode_open part no s = Ok (p, s1) ∧ opened part s1 ps1 Q1 ∧ find_open s1 ps1 no p i ∧
    inode_close p s1 = Ok (tt, s2) ∧ opened part s2 ps Q2 ∧
    finodes s2 = finodes s ∧ aused (fheap s2) = aused (fheap s) ∧ fdisk s2 = fdisk s.
Proof.
  intros Hnf Ht Hno Ho Hi Hc.
  destruct (inode_open_ok part s tb ps Q no Hnf Ht Hno Ho Hi)
    as [(p & i & (Hp & Hpi & Hn) & Hop) | (_ & p & h & a & Q' & Hop & Ho1 & Hnew & Hu & Hun)].
  - destruct (op_mem _ _ _ _ Ho p Hp) as (i' & Hpi' & H1i). rewrite Hpi in Hpi'. injection Hpi' as <-.
    pose proof (Hc p i Hpi). rewrite u32_small in Hop by lia.
    pose proof (opened_upd part s ps Q p i (set_i_open_cnts (i_open_cnts i + 1) i) Ho Hp Hpi eq_refl ltac:(cbn; lia)) as Ho1.
    eexists p, _, _, _, ps, Q, Q. split_and!; [exact Hop|exact Ho1| | | | | |].
    + split; [done|]. cbn [finodes set_finodes]. rewrite lookup_insert_eq. done.
    + eapply (inode_close_count part _ ps Q); [exact Ho1|done|cbn [finodes set_finodes]; by rewrite lookup_insert_eq|cbn; lia].
    + eapply (opened_upd part _ ps Q p (set_i_open_cnts (i_open_cnts i + 1) i)); [exact Ho1|done| |done|cbn; lia].
      cbn [finodes set_finodes]. by rewrite lookup_insert_eq.
    + cbn [finodes set_finodes]. rewrite insert_insert_eq. cbn [i_open_cnts set_i_open_cnts]. rewrite Z.add_simpl_r.
      apply insert_id. destruct i. done.
    + done.
    + done.
  - destruct (inode_close_last part _ [] p ps Q' (set_i_open_cnts 1 (inode_of_bytes (slot tb no))) Ho1) as (h2 & a2 & Q2 & Hcl & Hu2 & Ho2).
    { cbn [loaded finodes set_fheap set_fcells set_finodes]. by rewrite lookup_insert_eq. }
    { done. }
    eexists p, _, _, _, (p :: ps), Q', Q2. split_and!; [exact Hop|exact Ho1| |exact Hcl|exact Ho2| | |].
    + split; [set_solver|]. cbn [loaded finodes set_fheap set_fcells set_finodes]. rewrite lookup_insert_eq. done.
    + cbn [loaded finodes set_fheap set_fcells set_finodes]. by rewrite delete_insert_id.
    + cbn [fheap set_fheap set_fcells set_finodes]. rewrite Hu2. cbn [loaded fheap set_fheap]. rewrite Hu. by rewrite delete_insert_id.
    + done.
Qed.
End Proofs.

(** ** Witnesses *)

(** A cleared disk of 700 sectors with the inode table at 14, no inode open. *)
Definition zero_disk (n : nat) : sectors := list_to_map ((λ k, (Z.of_nat k, replicate 512 0)) <$> seq 0 n).

Lemma zero_disk_lookup n l : 0 ≤ l < Z.of_nat n → zero_disk n !! l = Some (replicate 512 0).
Proof.
  intros Hl. unfold zero_disk. apply elem_of_list_to_map_1.
  - rewrite <- list_fmap_compose. apply NoDup_fmap_2; [intros ? ? ?; cbn in *; lia|apply NoDup_seq].
  - apply list_elem_of_fmap. exists (Z.to_nat l). split; [by rewrite Z2Nat.id by lia|]. apply elem_of_seq. lia.
Qed.
Lemma zero_disk_ok n : sectors_ok (zero_disk n).
Proof.
  intros l s Hl. unfold zero_disk in Hl. apply elem_of_list_to_map_2, list_elem_of_fmap in Hl as (k & Hk & _).
  apply (f_equal snd) in Hk. cbn [snd] in Hk. subst s. split; [apply length_replicate|]. apply Forall_replicate. lia.
Qed.
Lemma zero_disk_read n m l : 0 ≤ l → l + Z.of_nat m ≤ Z.of_nat n → read_run (zero_disk n) l m = Some (replicate (512 * m) 0).
Proof.
  revert l. induction m as [|m IH]; intros l Hl Hm; [done|]. cbn [read_run]. rewrite zero_disk_lookup by lia.
  cbn [mbind option_bind]. rewrite IH by lia. cbn [mbind option_bind]. f_equal.
  rewrite <- replicate_add. f_equal. lia.
Qed.

Definition ex_list_addr : Z := 0xc0008000.
Definition ex_sb : super_block := SuperBlock 0x19590318 640 4096 10 12 1 13 1 14 608 622 0 24.
Definition ex_part : partition := Partition 10 640 ex_sb (Bitmap 512 0x1000) (Bitmap 512 0x2000) ex_list_addr.
Definition ex_fs_cells : lheap := {[ ex_list_addr := ListElem 0 (ex_list_addr + 8); ex_list_addr + 8 := ListElem ex_list_addr 0 ]}.
Definition ex_fs : fsys lheap (gmap Z Z) :=
  Fsys (zero_disk (Z.to_nat 700)) ex_fs_cells ∅ ∅ ∅ ∅ (replicate 32 (File 0 0 0)) ex_part ([0; 1; 2] ++ replicate 5 (-1)) 0 0 [].
Definition ex_table : list Z := replicate (512 * TABLE_SECTS) 0.

Lemma ex_table_ok : table_ok ex_part (fdisk ex_fs) ex_table.
Proof.
  split.
  - apply zero_disk_ok.
  - apply zero_disk_read; [done|]. cbn [inode_table_lba sb ex_part ex_sb]. unfold TABLE_SECTS. lia.
  - cbn [inode_table_lba sb ex_part ex_sb]. change max_lba with 163839. lia.
  - cbn [inode_table_lba sb ex_part ex_sb start_lba sec_cnt]. lia.
Qed.
Lemma ex_fs_queues : queues ex_fs_cells {[ ex_list_addr := [] ]}.
Proof. apply queues_check_ok. vm_compute. reflexivity. Qed.
Lemma ex_opened : opened ex_part ex_fs [] {[ ex_list_addr := [] ]}.
Proof.
  split; cbn [ex_fs fcells fheap finodes ex_part open_inodes].
  - exact ex_fs_queues.
  - done.
  - intros l xs a [<- <-]%lookup_singleton_Some Ha. left. unfold cells, ex_list_addr, HEAP_START in *. set_solver by lia.
  - intros p Hp. by apply elem_of_nil in Hp.
  - constructor.
  - intros p [i Hi]. by rewrite lookup_empty in Hi.
  - intros p Hp. by apply elem_of_nil in Hp.
  - intros p l xs a Hp. by apply elem_of_nil in Hp.
  - intros p Hp. by apply elem_of_nil in Hp.
  - intros p q i j Hp. by apply elem_of_nil in Hp.
Qed.
Lemma bump_never_full : never_full (gmap Z Z).
Proof. intros a kernel n _. cbn. destruct (heap_top_above a) as [Ht _]. unfold HEAP_START, NULL in *. lia. Qed.

Definition ex_inode (no : Z) : inode := Inode no 100 3 1 (replicate 13 700).
Lemma ex_inode_ok no : 0 ≤ no < 4096 → inode_ok (ex_inode no).
Proof. intros Hn. split_and!; [unfold word_ok; cbn; lia..|done|]. apply Forall_replicate. unfold word_ok. lia. Qed.

Lemma inode_sync_open_roundtrip_witness :
  ∃ s1 p s2, inode_sync ex_part (ex_inode 200) 1024 ex_fs = Ok (tt, s1) ∧ inode_open ex_part 200 s1 = Ok (p, s2) ∧
    finodes s2 !! p = Some (Inode 200 100 1 0 (replicate 13 700)).
Proof.
  destruct (inode_sync_open_roundtrip ex_part ex_fs ex_table [] {[ ex_list_addr := [] ]} (ex_inode 200))
    as (s1 & p & s2 & Hs & Ho & Hi & _).
  - exact bump_never_full.
  - exact ex_table_ok.
  - exact ex_opened.
  - apply ex_inode_ok. lia.
  - cbn. lia.
  - intros p j Hp. by apply elem_of_nil in Hp.
  - exists s1, p, s2. split; [exact Hs|]. split; [exact Ho|exact Hi].
Defined.

Lemma inode_sync_wrong_slot_witness :
  ∃ s' tb', inode_sync ex_part (ex_inode 300) 1024 ex_fs = Ok (tt, s') ∧ table_ok ex_part (fdisk s') tb' ∧
    inode_of_bytes (slot tb' 44) = Inode 300 100 0 0 (replicate 13 700).
Proof.
  destruct (inode_sync_wrong_slot ex_part ex_fs ex_table (ex_inode 300)) as (s' & tb' & Hs & Ht & Hi & _).
  - exact ex_table_ok.
  - apply ex_inode_ok. lia.
  - cbn. lia.
  - exists s', tb'. split; [exact Hs|]. split; [exact Ht|exact Hi].
Defined.

Lemma inode_open_close_restores_witness :
  ∃ p s1 s2, inode_open ex_part 0 ex_fs = Ok (p, s1) ∧ inode_close p s1 = Ok (tt, s2) ∧ finodes s2 = ∅.
Proof.
  destruct (inode_open_close_restores ex_part ex_fs ex_table [] {[ ex_list_addr := [] ]} 0)
    as (p & s1 & s2 & i & ps1 & Q1 & Q2 & Hop & _ & _ & Hcl & _ & Hf & _).
  - exact bump_never_full.
  - exact ex_table_ok.
  - lia.
  - exact ex_opened.
  - unfold slot, ex_table. change (Z.to_nat (76 * 0)) with 0%nat. rewrite drop_0, take_replicate.
    replace (76 `min` (512 * TABLE_SECTS))%nat with 76%nat by (unfold TABLE_SECTS; lia). reflexivity.
  - intros p i Hi. cbn [finodes ex_fs] in Hi. by apply lookup_empty_Some in Hi.
  - exists p, s1, s2. split; [exact Hop|]. split; [exact Hcl|exact Hf].
Defined.
