(* ===== verification/Dir.v ===== *)
(** * Directories (src/fs/dir.c)

    A directory is a file whose blocks hold 24-byte entries; an entry of type
    0 is free.  An entry never crosses a sector, so a sector holds 21. *)

From S2P Require Import Prelude CString CArray Bitmap Lists Disk Fsys Inode.

Section Dir.
Context {H A : Type} `{Queues H} `{Allocator A}.
Abbreviation F := (K (fsys H A)).

Definition open_root_dir (part : partition) : F unit :=
  p ← inode_open part (root_inode_no (sb part));
  ds ← gets fdirs; let buf := match ds !! root_dir with Some d => dir_buf d | None => replicate 512 0 end in
  put_dir root_dir (Dir p 0 buf).

(** A failed [fs_malloc] is not checked: the store to [pdir->inode] follows
    NULL, after the inode has been opened. *)
Definition dir_open (part : partition) (inode_no : Z) : F Z :=
  pdir ← fs_malloc sizeof_dir;
  p ← inode_open part inode_no;
  if pdir =? NULL then lift Fault
  else put_dir pdir (Dir p 0 (replicate 512 0)) ;; mret pdir.

(** The 12 direct blocks of an inode and, if there is a table, the 128
    indirect ones. *)
Definition all_blocks_of (i : inode) : F (list Z) :=
  i12 ← lift (deref (i_sectors i !! 12%nat));
  if negb (i12 =? 0) then bs ← ide_rd i12 1 512; mret (take 12 (i_sectors i) ++ bytes_words bs)
  else mret (take 12 (i_sectors i) ++ replicate 128 0).

(** The entries of a sector, from [p_de] on: the first with the name. *)
Fixpoint search_sector (n : nat) (p_de name : list Z) (dir_entry_size : Z) : outcome (option (list Z)) :=
  match n with
  | O => Ok None
  | S n =>
      r ← astrcmp p_de name;
      if r =? 0 then Ok (Some (take (Z.to_nat dir_entry_size) p_de))
      else search_sector n (drop 24 p_de) name dir_entry_size
  end.

Fixpoint search_blocks (all_blocks name : list Z) (buf dir_entry_size dir_entry_cnt : Z) : F (option (list Z)) :=
  match all_blocks with
  | [] => mret None
  | b :: all_blocks =>
      if b =? 0 then search_blocks all_blocks name buf dir_entry_size dir_entry_cnt
      else
        bs ← ide_rd b 1 buf;
        r ← lift (search_sector (Z.to_nat dir_entry_cnt) bs name dir_entry_size);
        match r with
        | Some e => mret (Some e)
        | None => search_blocks all_blocks name buf dir_entry_size dir_entry_cnt
        end
  end.

(** The entry copied to [dir_e], if it was found. *)
Definition search_dir_entry (part : partition) (pdir : Z) (name : list Z) : F (option dir_entry) :=
  all_blocks_p ← fs_malloc (48 + 512);
  if all_blocks_p =? NULL then mret None
  else
    d ← get_dir pdir; i ← get_inode (d_inode d);
    all_blocks ← all_blocks_of i;
    buf ← fs_malloc SECTOR_SIZE;
    let dir_entry_size := dir_entry_size (sb part) in
    dir_entry_cnt ← divide SECTOR_SIZE dir_entry_size;
    r ← search_blocks all_blocks name (buf_size buf SECTOR_SIZE) dir_entry_size dir_entry_cnt;
    fs_free buf ;; fs_free all_blocks_p ;;
    mret (entry_of_bytes <$> r).

Definition dir_close (dir : Z) : F unit :=
  if dir =? root_dir then mret tt
  else
    d ← get_dir dir; inode_close (d_inode d) ;; fs_free dir ;;
    ds ← gets fdirs; modify (set_fdirs (delete dir ds)).

(** [filename] is an array that holds the name; the entry was cleared. *)
Definition create_dir_entry (filename : list Z) (inode_no file_type : Z) : outcome dir_entry :=
  n ← astrlen filename;
  ASSERT (n <=? MAX_FILE_NAME_LEN) ;;
  Ok (DirEntry (patch 0 (take (Z.to_nat n) filename) (replicate 16 0)) inode_no (u8 file_type)).

(** The first free entry of a sector. *)
Fixpoint free_slot (n : nat) (idx : nat) (bs : list Z) : option nat :=
  match n with
  | O => None
  | S n => if f_type (entry_of_bytes (drop (24 * idx) bs)) =? 0 then Some idx else free_slot n (S idx) bs
  end.

(** A new block for the entry [p_de] of the directory inode at [di], as
    number [block_idx]. *)
Definition sync_new_block (di : Z) (all_blocks : list Z) (block_idx : nat) (p_de : dir_entry) (io_buf : Z) : F bool :=
  cp ← gets cur_part;
  let dir_entry_size := dir_entry_size (sb cp) in
  block_lba ← block_bitmap_alloc cp;
  if block_lba =? -1 then mret false
  else
    let block_bitmap_idx := s32 (block_lba - data_start_lba (sb cp)) in
    kASSERT (negb (block_bitmap_idx =? -1)) ;;
    bitmap_sync cp (u32 block_bitmap_idx) BLOCK_BITMAP ;;
    ok ←
      (if bool_decide (block_idx < 12)%nat then
         upd_inode di (set_i_sector block_idx (u32 block_lba)) ;; mret (Some (<[block_idx := u32 block_lba]> all_blocks))
       else if bool_decide (block_idx = 12)%nat then
         upd_inode di (set_i_sector 12 (u32 block_lba)) ;;
         block_lba2 ← block_bitmap_alloc cp;
         if block_lba2 =? -1 then
           i ← get_inode di; i12 ← lift (deref (i_sectors i !! 12%nat));
           mark_bit (block_bitmap cp) (u32 (i12 - data_start_lba (sb cp))) 0 ;;
           upd_inode di (set_i_sector 12 0) ;; mret None
         else
           let block_bitmap_idx := s32 (block_lba2 - data_start_lba (sb cp)) in
           kASSERT (negb (block_bitmap_idx =? -1)) ;;
           bitmap_sync cp (u32 block_bitmap_idx) BLOCK_BITMAP ;;
           let all_blocks := <[12%nat := u32 block_lba2]> all_blocks in
           i ← get_inode di; i12 ← lift (deref (i_sectors i !! 12%nat));
           ide_wr i12 (words_bytes (drop 12 all_blocks)) 1 ;; mret (Some all_blocks)
       else
         let all_blocks := <[block_idx := u32 block_lba]> all_blocks in
         i ← get_inode di; i12 ← lift (deref (i_sectors i !! 12%nat));
         ide_wr i12 (words_bytes (drop 12 all_blocks)) 1 ;; mret (Some all_blocks));
    match ok with
    | None => mret false
    | Some all_blocks =>
        if io_buf <? 512 then lift Fault
        else
          b ← lift (deref (all_blocks !! block_idx));
          ide_wr b (patch 0 (take (Z.to_nat dir_entry_size) (entry_bytes p_de)) (replicate 512 0)) 1 ;;
          upd_inode di (λ i, set_i_size (u32 (i_size i + dir_entry_size)) i) ;;
          mret true
    end.

(** [n] blocks are left. *)
Fixpoint sync_loop (n : nat) (di : Z) (all_blocks : list Z) (block_idx : nat) (p_de : dir_entry)
    (io_buf dir_entrys_per_sec : Z) : F bool :=
  match n with
  | O => mret false
  | S n =>
      b ← lift (deref (all_blocks !! block_idx));
      if b =? 0 then sync_new_block di all_blocks block_idx p_de io_buf
      else
        bs ← ide_rd b 1 io_buf;
        match free_slot (Z.to_nat dir_entrys_per_sec) 0 bs with
        | Some idx =>
            cp ← gets cur_part;
            let dir_entry_size := dir_entry_size (sb cp) in
            ide_wr b (patch (24 * idx) (take (Z.to_nat dir_entry_size) (entry_bytes p_de)) bs) 1 ;;
            upd_inode di (λ i, set_i_size (u32 (i_size i + dir_entry_size)) i) ;;
            mret true
        | None => sync_loop n di all_blocks (S block_idx) p_de io_buf dir_entrys_per_sec
        end
  end.

(** The indirect blocks are not looked up: [all_blocks] has zeros for them. *)
Definition sync_dir_entry (parent_dir : Z) (p_de : dir_entry) (io_buf : Z) : F bool :=
  d ← get_dir parent_dir; i ← get_inode (d_inode d);
  cp ← gets cur_part;
  let dir_entry_size := dir_entry_size (sb cp) in
  _ ← divide (i_size i) dir_entry_size;
  kASSERT (i_size i mod dir_entry_size =? 0) ;;
  dir_entrys_per_sec ← divide 512 dir_entry_size;
  sync_loop 140 (d_inode d) (take 12 (i_sectors i) ++ replicate 128 0) 0 p_de io_buf dir_entrys_per_sec.

(** ** Removing an entry *)

(** What a pass over a sector finds: whether it has ".", the number of the
    other entries but "..", and the entry with the inode number. *)
Record dir_scan := DirScan { is_dir_first_block : bool; dir_entry_cnt : Z; dir_entry_found : option nat }.

Definition scan_entry (bs : list Z) (inode_no : Z) (idx : nat) (r : dir_scan) : outcome dir_scan :=
  let p_de := drop (24 * idx) bs in
  let e := entry_of_bytes p_de in
  if f_type e =? 0 then Ok r
  else
    dot ← astrcmp p_de [46; 0];
    if dot =? 0 then Ok (DirScan true (dir_entry_cnt r) (dir_entry_found r))
    else
      dotdot ← astrcmp p_de [46; 46; 0];
      if dotdot =? 0 then Ok r
      else
        let cnt := u8 (dir_entry_cnt r + 1) in
        if de_i_no e =? inode_no then
          ASSERT (bool_decide (dir_entry_found r = None)) ;;
          Ok (DirScan (is_dir_first_block r) cnt (Some idx))
        else Ok (DirScan (is_dir_first_block r) cnt (dir_entry_found r)).

Fixpoint scan_sector (n : nat) (bs : list Z) (inode_no : Z) (idx : nat) (r : dir_scan) : outcome dir_scan :=
  match n with
  | O => Ok r
  | S n => r ← scan_entry bs inode_no idx r; scan_sector n bs inode_no (S idx) r
  end.

(** [while (indirect_block_idx < 140)]: the index is never advanced, so the
    loop never ends; the fuel is what an advancing loop would need. *)
Fixpoint count_indirect (fuel : nat) (all_blocks : list Z) (indirect_block_idx : nat) (indirect_blocks : Z) : outcome Z :=
  match fuel with
  | O => NoFuel
  | S fuel =>
      if bool_decide (indirect_block_idx < 140)%nat then
        b ← deref (all_blocks !! indirect_block_idx);
        count_indirect fuel all_blocks indirect_block_idx
          (if negb (b =? 0) then u32 (indirect_blocks + 1) else indirect_blocks)
      else Ok indirect_blocks
  end.

(** The block [block_idx] has lost its last entry. *)
Definition drop_block (part : partition) (di : Z) (all_blocks : list Z) (block_idx : nat) : F unit :=
  b ← lift (deref (all_blocks !! block_idx));
  let block_bitmap_idx := u32 (b - data_start_lba (sb part)) in
  mark_bit (block_bitmap part) block_bitmap_idx 0 ;;
  cp ← gets cur_part;
  bitmap_sync cp block_bitmap_idx BLOCK_BITMAP ;;
  if bool_decide (block_idx < 12)%nat then upd_inode di (set_i_sector block_idx 0)
  else
    indirect_blocks ← lift (count_indirect 140 all_blocks 12 0);
    kASSERT (1 <=? indirect_blocks) ;;
    i ← get_inode di; i12 ← lift (deref (i_sectors i !! 12%nat));
    if 1 <? indirect_blocks then ide_wr i12 (words_bytes (drop 12 (<[block_idx := 0]> all_blocks))) 1
    else
      let block_bitmap_idx := u32 (i12 - data_start_lba (sb part)) in
      mark_bit (block_bitmap part) block_bitmap_idx 0 ;;
      bitmap_sync cp block_bitmap_idx BLOCK_BITMAP ;;
      upd_inode di (set_i_sector 12 0).

Fixpoint delete_loop (n : nat) (part : partition) (di : Z) (all_blocks : list Z) (block_idx : nat)
    (inode_no io_buf dir_entrys_per_sec : Z) : F bool :=
  match n with
  | O => mret false
  | S n =>
      b ← lift (deref (all_blocks !! block_idx));
      if b =? 0 then delete_loop n part di all_blocks (S block_idx) inode_no io_buf dir_entrys_per_sec
      else
        bs ← ide_rd b 1 io_buf;
        r ← lift (scan_sector (Z.to_nat dir_entrys_per_sec) bs inode_no 0 (DirScan false 0 None));
        match dir_entry_found r with
        | None => delete_loop n part di all_blocks (S block_idx) inode_no io_buf dir_entrys_per_sec
        | Some idx =>
            let dir_entry_size := dir_entry_size (sb part) in
            kASSERT (1 <=? dir_entry_cnt r) ;;
            (if (dir_entry_cnt r =? 1) && negb (is_dir_first_block r) then drop_block part di all_blocks block_idx
             else ide_wr b (patch (24 * idx) (replicate (Z.to_nat dir_entry_size) 0) bs) 1) ;;
            i ← get_inode di;
            kASSERT (dir_entry_size <=? i_size i) ;;
            upd_inode di (λ i, set_i_size (i_size i - dir_entry_size) i) ;;
            if io_buf <? SECTOR_SIZE * 2 then lift Fault
            else i ← get_inode di; inode_sync part i io_buf ;; mret true
        end
  end.

(** [block_idx] is 12 when the loop over the blocks starts: collecting the
    direct blocks left it there. *)
Definition delete_dir_entry (part : partition) (pdir inode_no io_buf : Z) : F bool :=
  d ← get_dir pdir; i ← get_inode (d_inode d);
  all_blocks ← all_blocks_of i;
  dir_entrys_per_sec ← divide SECTOR_SIZE (dir_entry_size (sb part));
  delete_loop 128 part (d_inode d) all_blocks 12 inode_no io_buf dir_entrys_per_sec.

(** ** Reading a directory *)

(** The entries of a sector from [idx] on: the entry to return, or the
    position behind the sector. *)
Fixpoint read_sector (n : nat) (bs : list Z) (idx : nat) (cur_dir_entry_pos pos size : Z) : outcome (Z + nat) :=
  match n with
  | O => Ok (inl cur_dir_entry_pos)
  | S n =>
      if negb (f_type (entry_of_bytes (drop (24 * idx) bs)) =? 0) then
        if cur_dir_entry_pos <? pos then read_sector n bs (S idx) (u32 (cur_dir_entry_pos + size)) pos size
        else ASSERT (cur_dir_entry_pos =? pos) ;; Ok (inr idx)
      else read_sector n bs (S idx) cur_dir_entry_pos pos size
  end.

Fixpoint read_blocks (all_blocks : list Z) (dir : Z) (cur_dir_entry_pos dir_entry_size dir_entrys_per_sec : Z) : F Z :=
  match all_blocks with
  | [] => mret NULL
  | b :: all_blocks =>
      d ← get_dir dir; i ← get_inode (d_inode d);
      if i_size i <=? dir_pos d then mret NULL
      else if b =? 0 then read_blocks all_blocks dir cur_dir_entry_pos dir_entry_size dir_entrys_per_sec
      else
        bs ← ide_rd b 1 512;
        put_dir dir (Dir (d_inode d) (dir_pos d) bs) ;;
        r ← lift (read_sector (Z.to_nat dir_entrys_per_sec) bs 0 cur_dir_entry_pos (dir_pos d) dir_entry_size);
        match r with
        | inl cur_dir_entry_pos => read_blocks all_blocks dir cur_dir_entry_pos dir_entry_size dir_entrys_per_sec
        | inr idx =>
            put_dir dir (Dir (d_inode d) (u32 (dir_pos d + dir_entry_size)) bs) ;;
            mret (dir + 8 + 24 * Z.of_nat idx)
        end
  end.

(** The address of the next entry, in the buffer of the directory. *)
Definition dir_read (dir : Z) : F Z :=
  d ← get_dir dir; i ← get_inode (d_inode d);
  i12 ← lift (deref (i_sectors i !! 12%nat));
  all_blocks ← all_blocks_of i;
  let block_cnt := if negb (i12 =? 0) then 140%nat else 12%nat in
  cp ← gets cur_part;
  let dir_entry_size := dir_entry_size (sb cp) in
  dir_entrys_per_sec ← divide SECTOR_SIZE dir_entry_size;
  read_blocks (take block_cnt all_blocks) dir 0 dir_entry_size dir_entrys_per_sec.

Definition dir_is_empty (dir : Z) : F bool :=
  d ← get_dir dir; i ← get_inode (d_inode d); cp ← gets cur_part;
  mret (i_size i =? u32 (dir_entry_size (sb cp) * 2)).

Definition dir_remove (parent_dir child_dir : Z) : F Z :=
  d ← get_dir child_dir; i ← get_inode (d_inode d);
  kASSERT (forallb (Z.eqb 0) (drop 1 (i_sectors i))) ;;
  io_buf ← fs_malloc (SECTOR_SIZE * 2);
  if io_buf =? NULL then mret (-1)
  else
    cp ← gets cur_part;
    delete_dir_entry cp parent_dir (i_no i) (buf_size io_buf (SECTOR_SIZE * 2)) ;;
    i ← get_inode (d_inode d);
    inode_release cp (i_no i) ;;
    fs_free io_buf ;;
    mret 0.
End Dir.

(** ** Specification *)

(** The name in an array of characters: what precedes the first NUL. *)
Fixpoint cname (e : list Z) : list Z :=
  match e with
  | [] => []
  | c :: e => if c =? 0 then [] else c :: cname e
  end.
Lemma cname_holds e nm : holds e nm → cname e = nm.
Proof.
  intros (r & -> & Hs). induction Hs as [|c s Hc Hs IH]; [done|]. cbn [app cname].
  unfold char_ok in Hc. rewrite (proj2 (Z.eqb_neq c 0)) by lia. by rewrite IH.
Qed.

(** The entries of a sector, and the first one with a name. *)
Fixpoint entries (n : nat) (bs : list Z) : list (list Z) :=
  match n with
  | O => []
  | S n => take 24 bs :: entries n (drop 24 bs)
  end.
Definition find_entry (es : list (list Z)) (nm : list Z) : option (list Z) :=
  snd <$> list_find (λ e, cname e = nm) es.

(** Every entry has a name that ends in a NUL. *)
Definition named (e : list Z) : Prop := holds e (cname e).

Lemma holds_prefix e r nm : holds e nm → holds (e ++ r) nm.
Proof. intros (r' & -> & Hn). exists (r' ++ r). by rewrite <- app_assoc. Qed.

Lemma find_entry_cons e es nm : find_entry (e :: es) nm = if decide (cname e = nm) then Some e else find_entry es nm.
Proof.
  unfold find_entry. cbn [list_find]. case_decide; [done|].
  by destruct (list_find (λ e, cname e = nm) es) as [[]|].
Qed.
Lemma find_entry_app es1 es2 nm :
  find_entry (es1 ++ es2) nm = match find_entry es1 nm with Some e => Some e | None => find_entry es2 nm end.
Proof. induction es1 as [|e es1 IH]; [done|]. cbn [app]. rewrite !find_entry_cons, IH. by case_decide. Qed.

Lemma search_sector_ok n bs name nm :
  holds name nm → Forall named (entries n bs) →
  search_sector n bs name 24 = Ok (find_entry (entries n bs) nm).
Proof.
  intros Hnm. revert bs. induction n as [|n IH]; intros bs Hn; [done|]. cbn [entries] in Hn |- *.
  apply Forall_cons in Hn as [Hb Hn]. cbn [search_sector].
  destruct (astrcmp_ok bs name (cname (take 24 bs)) nm) as (r & -> & Hr); [|done|].
  { pose proof (holds_prefix (take 24 bs) (drop 24 bs) _ Hb) as Hp. by rewrite take_drop in Hp. }
  bsimpl. rewrite find_entry_cons. case_decide as Hd.
  - by rewrite (proj2 (Z.eqb_eq r 0)) by by apply Hr.
  - rewrite (proj2 (Z.eqb_neq r 0)) by (intros He; by apply Hd, Hr). by apply IH.
Qed.

Section Proofs.
Context {H A : Type} `{Queues H} `{Allocator A}.
Implicit Types s : fsys H A.

(** The entries of the blocks of a directory that are not 0. *)
Fixpoint dir_entries (d : sectors) (blocks : list Z) : list (list Z) :=
  match blocks with
  | [] => []
  | b :: blocks =>
      (if b =? 0 then [] else match d !! b with Some bs => entries 21 bs | None => [] end) ++ dir_entries d blocks
  end.
(** They can be read and have names. *)
Definition blocks_ok (d : sectors) (blocks : list Z) : Prop :=
  Forall (λ b, b = 0 ∨ (b ≤ max_lba ∧ is_Some (d !! b))) blocks ∧ Forall named (dir_entries d blocks).

Lemma ide_rd_one s b size bs : b ≤ max_lba → 512 ≤ size → fdisk s !! b = Some bs → ide_rd b 1 size s = Ok (bs, s).
Proof.
  intros Hb Hs Hd. apply ide_rd_ok; [done|lia|lia|]. change (Z.to_nat 1) with 1%nat. cbn [read_run]. rewrite Hd.
  cbn [mbind option_bind]. by rewrite app_nil_r.
Qed.

Lemma search_blocks_ok s blocks name nm size :
  holds name nm → blocks_ok (fdisk s) blocks → 512 ≤ size →
  search_blocks blocks name size 24 21 s = Ok (find_entry (dir_entries (fdisk s) blocks) nm, s).
Proof.
  intros Hnm [Hb Hn] Hs. induction Hb as [|b blocks Hb Hbs IH]; [done|]. cbn [search_blocks dir_entries] in Hn |- *.
  apply Forall_app in Hn as [Hn1 Hn2]. rewrite find_entry_app. destruct (Z.eqb_spec b 0) as [->|Hb0].
  - cbn [find_entry]. by apply IH.
  - destruct Hb as [?|[Hl [bs Hd]]]; [done|]. rewrite Hd in Hn1 |- *.
    kstep (ide_rd_one s b size bs Hl Hs Hd). change (Z.to_nat 21) with 21%nat.
    rewrite (search_sector_ok 21 bs name nm Hnm Hn1). kgo. destruct (find_entry (entries 21 bs) nm); [done|]. by apply IH.
Qed.

(** All the blocks of an inode. *)
Definition blocks_of (d : sectors) (i : inode) : list Z :=
  take 12 (i_sectors i) ++
  match i_sectors i !! 12%nat with
  | Some b => if b =? 0 then replicate 128 0 else match d !! b with Some bs => bytes_words bs | None => [] end
  | None => []
  end.
Definition table_readable (d : sectors) (i : inode) : Prop :=
  ∃ b, i_sectors i !! 12%nat = Some b ∧ (b = 0 ∨ (b ≤ max_lba ∧ is_Some (d !! b))).

Lemma all_blocks_ok s i : table_readable (fdisk s) i → all_blocks_of i s = Ok (blocks_of (fdisk s) i, s).
Proof.
  intros (b & Hb & Hr). unfold all_blocks_of, blocks_of. rewrite Hb. cbn [deref]. kgo.
  destruct (Z.eqb_spec b 0) as [->|Hb0]; [done|]. cbn [negb]. destruct Hr as [?|[Hl [bs Hd]]]; [done|]. rewrite Hd.
  by kstep (ide_rd_one s b 512 bs Hl ltac:(lia) Hd).
Qed.

(** A directory that can be searched. *)
Definition dir_ok (s : fsys H A) (pdir : Z) (i : inode) : Prop :=
  (∃ d, fdirs s !! pdir = Some d ∧ finodes s !! d_inode d = Some i) ∧
  table_readable (fdisk s) i ∧ blocks_ok (fdisk s) (blocks_of (fdisk s) i).

Lemma get_dir_step {B} s p d (f : dir → K (fsys H A) B) : fdirs s !! p = Some d → (get_dir p ≫= f) s = f d s.
Proof. intros Hd. unfold get_dir, mbind, K_bind, gets, lift. by rewrite Hd. Qed.
Lemma get_inode_step {B} s p i (f : inode → K (fsys H A) B) : finodes s !! p = Some i → (get_inode p ≫= f) s = f i s.
Proof. intros Hi. unfold get_inode, mbind, K_bind, gets, lift. by rewrite Hi. Qed.
Lemma divide_step {B} s a b (f : Z → K (fsys H A) B) : b ≠ 0 → (divide a b ≫= f) s = f (a / b) s.
Proof. intros Hb. unfold divide. by rewrite (proj2 (Z.eqb_neq b 0)) by done. Qed.

Lemma search_dir_entry_ok part s pdir name nm i :
  never_full A → dir_entry_size (sb part) = 24 → dir_ok s pdir i → holds name nm →
  ∃ a, search_dir_entry part pdir name s =
         Ok (entry_of_bytes <$> find_entry (dir_entries (fdisk s) (blocks_of (fdisk s) i)) nm, set_fheap a s) ∧
       aused a = aused (fheap s).
Proof.
  intros Hnf Hsz ((d & Hd & Hi) & Htr & Hbs) Hnm. unfold search_dir_entry.
  destruct (malloc_step s (48 + 512) Hnf ltac:(done)) as (p & a1 & Hm & Hp & Hn1 & Hu1 & _). kstep Hm.
  rewrite (proj2 (Z.eqb_neq p NULL)) by (unfold NULL; lia).
  erewrite (get_dir_step (set_fheap a1 s)) by exact Hd. erewrite (get_inode_step (set_fheap a1 s)) by exact Hi.
  kstep (all_blocks_ok (set_fheap a1 s) i Htr).
  destruct (malloc_step (set_fheap a1 s) SECTOR_SIZE Hnf ltac:(done)) as (b & a2 & Hm2 & Hb & Hn2 & Hu2 & _). kstep Hm2.
  rewrite Hsz, divide_step by done. change (SECTOR_SIZE / 24) with 21.
  assert (buf_size b SECTOR_SIZE = 512) as ->.
  { unfold buf_size, NULL, SECTOR_SIZE in *. by rewrite (proj2 (Z.eqb_neq b 0)) by lia. }
  match goal with |- context [(search_blocks _ _ _ _ _ ≫= _) ?st] =>
    kstep (search_blocks_ok st (blocks_of (fdisk s) i) name nm 512 Hnm Hbs ltac:(lia)) end.
  unfold fs_free. kgo.
  eexists (afree (afree a2 (pgdir_nr s =? NULL) b) (pgdir_nr s =? NULL) p). split; [done|].
  rewrite !afree_spec, Hu2. cbn [fheap set_fheap] in *.
  rewrite delete_insert_id by done. rewrite Hu1. by rewrite delete_insert_id.
Qed.

(** ** Entering an entry *)

Lemma entries_lookup n bs k : (k < n)%nat → entries n bs !! k = Some (take 24 (drop (24 * k) bs)).
Proof.
  revert bs k. induction n as [|n IH]; intros bs k Hk; [lia|]. destruct k as [|k]; [done|]. cbn [entries].
  change ((?x :: ?l) !! S k) with (l !! k). rewrite IH by lia. rewrite drop_drop. do 3 f_equal. lia.
Qed.
Lemma entries_length n bs : length (entries n bs) = n.
Proof. revert bs. induction n as [|n IH]; intros bs; [done|]. cbn. by rewrite IH. Qed.

Lemma entries_patch n bs k x :
  (k < n)%nat → (24 * n ≤ length bs)%nat → length x = 24%nat → entries n (patch (24 * k) x bs) = <[k := x]> (entries n bs).
Proof.
  intros Hk Hl Hx. apply list_eq. intros j. destruct (decide (j < n)%nat) as [Hj|Hj].
  - rewrite entries_lookup by done. destruct (decide (j = k)) as [->|Hne].
    + rewrite list_lookup_insert_eq by (rewrite entries_length; lia). f_equal. rewrite <- Hx at 1. apply patch_same. lia.
    + rewrite list_lookup_insert_ne, entries_lookup by done. f_equal.
      destruct (decide (j < k)%nat); [apply patch_before; lia|apply patch_after; lia].
  - rewrite !lookup_ge_None_2; [done|rewrite length_insert, entries_length; lia|rewrite entries_length; lia].
Qed.

Lemma find_entry_insert es k x nm :
  find_entry es nm = None → (k < length es)%nat → cname x = nm → find_entry (<[k := x]> es) nm = Some x.
Proof.
  revert k. induction es as [|e es IH]; intros k Hf Hk Hx; [cbn in Hk; lia|]. rewrite find_entry_cons in Hf.
  case_decide; [done|]. destruct k as [|k]; cbn [insert list_insert]; rewrite find_entry_cons.
  - by rewrite decide_True.
  - rewrite decide_False by done. apply IH; [done|cbn in Hk; lia|done].
Qed.

Lemma free_slot_some n idx bs k : free_slot n idx bs = Some k → (idx ≤ k < idx + n)%nat.
Proof.
  revert idx. induction n as [|n IH]; intros idx; cbn [free_slot]; [done|]. case_match; [intros [= <-]; lia|].
  intros ?%IH. lia.
Qed.

(** The first blocks are full, then one has a free place. *)
Definition full_block (d : sectors) (b : Z) : Prop :=
  b ≠ 0 ∧ b ≤ max_lba ∧ ∃ bs, d !! b = Some bs ∧ free_slot 21 0 bs = None.

Lemma sync_loop_ok s di i pre b post bs k e size n idx all :
  dir_entry_size (sb (cur_part s)) = 24 → finodes s !! di = Some i → drop idx all = pre ++ b :: post →
  Forall (full_block (fdisk s)) pre → b ≠ 0 → b ≤ max_lba → fdisk s !! b = Some bs → length bs = 512%nat →
  free_slot 21 0 bs = Some k → 512 ≤ size → length (entry_bytes e) = 24%nat → (length pre < n)%nat →
  sync_loop n di all idx e size 21 s =
    Ok (true, set_finodes (<[di := set_i_size (u32 (i_size i + 24)) i]> (finodes s))
                (set_fdisk (<[b := patch (24 * k) (entry_bytes e) bs]> (fdisk s)) s)).
Proof.
  intros Hsz Hdi Hall Hpre Hb0 Hbl Hbs Hlen Hk Hs He Hn. revert n idx Hall Hn.
  induction Hpre as [|x pre (Hx0 & Hxl & xs & Hxs & Hxf) _ IH]; intros n idx Hall Hn; (destruct n as [|n]; [cbn in Hn; lia|]);
    cbn [sync_loop]; rewrite <- (Nat.add_0_r idx), <- lookup_drop, Hall; cbn [app lookup list_lookup deref]; kgo;
    rewrite Nat.add_0_r.
  - rewrite (proj2 (Z.eqb_neq b 0)) by done. kstep (ide_rd_one s b size bs Hbl Hs Hbs). change (Z.to_nat 21) with 21%nat.
    rewrite Hk. kgo. rewrite Hsz. change (Z.to_nat 24) with 24%nat. rewrite take_ge by lia.
    pose proof (free_slot_some _ _ _ _ Hk).
    assert (length (patch (24 * k) (entry_bytes e) bs) = 512%nat) as Hpl by (rewrite patch_length; lia).
    assert (write_run (fdisk s) b (Z.to_nat 1) (patch (24 * k) (entry_bytes e) bs) =
      Some (<[b := patch (24 * k) (entry_bytes e) bs]> (fdisk s))) as Hw.
    { change (Z.to_nat 1) with 1%nat. cbn [write_run]. rewrite Hbs. cbn [mbind option_bind].
      rewrite take_ge by lia. by rewrite bool_decide_true. }
    kstep (ide_wr_ok s b _ 1 _ Hbl ltac:(lia) Hw). unfold upd_inode, put_inode.
    erewrite K_assoc, get_inode_step by exact Hdi. kgo. done.
  - rewrite (proj2 (Z.eqb_neq x 0)) by done. kstep (ide_rd_one s x size xs Hxl Hs Hxs). change (Z.to_nat 21) with 21%nat.
    rewrite Hxf. apply IH; [|cbn in Hn; lia]. rewrite <- Nat.add_1_r, <- drop_drop, Hall. done.
Qed.

Lemma dir_entries_app d bs1 bs2 : dir_entries d (bs1 ++ bs2) = dir_entries d bs1 ++ dir_entries d bs2.
Proof. induction bs1 as [|b bs1 IH]; [done|]. cbn [app dir_entries]. by rewrite IH, app_assoc. Qed.
Lemma dir_entries_frame d blocks b x : b ∉ blocks → dir_entries (<[b := x]> d) blocks = dir_entries d blocks.
Proof.
  induction blocks as [|c blocks IH]; [done|]. rewrite not_elem_of_cons. intros [Hc Hb]. cbn [dir_entries].
  by rewrite lookup_insert_ne, IH by done.
Qed.

(** A directory with room in the direct block [b], place [k]: the blocks
    before it are full, and the block has no other use in the directory. *)
Record room (s : fsys H A) (i : inode) (pre : list Z) (b : Z) (post bs : list Z) (k : nat) : Prop := {
  room_blocks : take 12 (i_sectors i) = pre ++ b :: post;
  room_full : Forall (full_block (fdisk s)) pre;
  room_zero : b ≠ 0;
  room_read : fdisk s !! b = Some bs;
  room_len : length bs = 512%nat;
  room_slot : free_slot 21 0 bs = Some k;
  room_once : ∀ pre' post', blocks_of (fdisk s) i = pre' ++ b :: post' → b ∉ pre' ++ post';
  room_table : i_sectors i !! 12%nat ≠ Some b;
}.

Lemma sync_dir_entry_ok s pdir d i pre b post bs k e io_buf :
  dir_entry_size (sb (cur_part s)) = 24 → dir_ok s pdir i → fdirs s !! pdir = Some d → i_size i mod 24 = 0 →
  room s i pre b post bs k → entry_ok e → 512 ≤ io_buf →
  sync_dir_entry pdir e io_buf s =
    Ok (true, set_finodes (<[d_inode d := set_i_size (u32 (i_size i + 24)) i]> (finodes s))
                (set_fdisk (<[b := patch (24 * k) (entry_bytes e) bs]> (fdisk s)) s)).
Proof.
  intros Hsz ((d' & Hd' & Hi) & Htr & [Hbs _]) Hd Hmod Hr He Hio. rewrite Hd in Hd'. injection Hd' as <-.
  unfold sync_dir_entry. erewrite get_dir_step by exact Hd. erewrite get_inode_step by exact Hi. kgo.
  rewrite Hsz, divide_step by done. rewrite Hmod. change (0 =? 0) with true. kgo. rewrite divide_step by done.
  change (512 / 24) with 21. assert (b ≤ max_lba) as Hbl.
  { unfold blocks_of in Hbs. rewrite (room_blocks _ _ _ _ _ _ _ Hr), <- app_assoc in Hbs.
    apply Forall_app in Hbs as [_ Hbs]. cbn [app] in Hbs. apply Forall_cons in Hbs as [[?|[? _]] _]; [|done].
    by destruct (room_zero _ _ _ _ _ _ _ Hr). }
  assert (length pre < 12)%nat.
  { assert (length (take 12 (i_sectors i)) ≤ 12)%nat as Hl by (rewrite length_take; lia).
    rewrite (room_blocks _ _ _ _ _ _ _ Hr), length_app in Hl. cbn in Hl. lia. }
  apply (sync_loop_ok s (d_inode d) i pre b (post ++ replicate 128 0) bs); try done; try apply Hr.
  - rewrite drop_0, (room_blocks _ _ _ _ _ _ _ Hr), <- app_assoc. done.
  - by apply entry_bytes_length.
  - lia.
Qed.

(** The state after an entry was entered, and its directory. *)
Definition entered (s : fsys H A) (di : Z) (i : inode) (b : Z) (bs : list Z) (k : nat) (e : dir_entry) : fsys H A :=
  set_finodes (<[di := set_i_size (u32 (i_size i + 24)) i]> (finodes s))
    (set_fdisk (<[b := patch (24 * k) (entry_bytes e) bs]> (fdisk s)) s).

Lemma room_split s i pre b post bs k :
  room s i pre b post bs k → ∃ rest, blocks_of (fdisk s) i = pre ++ b :: rest ∧ (b ∉ pre) ∧ b ∉ rest.
Proof.
  intros Hr. assert (∃ rest, blocks_of (fdisk s) i = pre ++ b :: rest) as [rest Hrest].
  { eexists. unfold blocks_of. rewrite (room_blocks _ _ _ _ _ _ _ Hr), <- app_assoc. done. }
  exists rest. split; [done|]. apply not_elem_of_app. by apply (room_once _ _ _ _ _ _ _ Hr).
Qed.

Lemma entered_blocks s di i pre b post bs k e :
  table_readable (fdisk s) i → room s i pre b post bs k →
  blocks_of (fdisk (entered s di i b bs k e)) (set_i_size (u32 (i_size i + 24)) i) = blocks_of (fdisk s) i.
Proof.
  intros (t & Ht & _) Hr. assert (t ≠ b) by (intros ->; by apply (room_table _ _ _ _ _ _ _ Hr)).
  unfold blocks_of. cbn [entered fdisk set_finodes set_fdisk i_sectors set_i_size]. rewrite Ht. by rewrite lookup_insert_ne.
Qed.

Lemma entered_entries s di i pre b post bs k e rest :
  room s i pre b post bs k → blocks_of (fdisk s) i = pre ++ b :: rest → b ∉ pre → b ∉ rest → entry_ok e →
  dir_entries (fdisk s) (blocks_of (fdisk s) i) =
    dir_entries (fdisk s) pre ++ entries 21 bs ++ dir_entries (fdisk s) rest ∧
  dir_entries (fdisk (entered s di i b bs k e)) (blocks_of (fdisk s) i) =
    dir_entries (fdisk s) pre ++ <[k := entry_bytes e]> (entries 21 bs) ++ dir_entries (fdisk s) rest.
Proof.
  intros Hr Hrest Hb1 Hb2 He. pose proof (free_slot_some _ _ _ _ (room_slot _ _ _ _ _ _ _ Hr)) as Hk.
  pose proof (room_len _ _ _ _ _ _ _ Hr) as Hlen. rewrite Hrest, !dir_entries_app.
  cbn [dir_entries entered fdisk set_finodes set_fdisk].
  rewrite (proj2 (Z.eqb_neq b 0)) by apply Hr. rewrite (room_read _ _ _ _ _ _ _ Hr), lookup_insert_eq.
  split; [done|]. rewrite !dir_entries_frame by done. rewrite entries_patch; [done|lia|lia|by apply entry_bytes_length].
Qed.

Lemma entered_dir_ok s pdir d i pre b post bs k e nm :
  dir_ok s pdir i → fdirs s !! pdir = Some d → room s i pre b post bs k → entry_ok e → holds (entry_bytes e) nm →
  dir_ok (entered s (d_inode d) i b bs k e) pdir (set_i_size (u32 (i_size i + 24)) i).
Proof.
  intros (_ & Htr & Hbs & Hnamed) Hd Hr He Hhe. split_and!.
  - exists d. split; [exact Hd|]. cbn [entered finodes set_finodes]. by rewrite lookup_insert_eq.
  - destruct Htr as (t & Ht & Htr). exists t. split; [exact Ht|]. destruct Htr as [?|[? ?]]; [by left|]. right. split; [done|].
    cbn [entered fdisk set_finodes set_fdisk]. rewrite lookup_insert_ne; [done|].
    intros ->. by apply (room_table _ _ _ _ _ _ _ Hr).
  - rewrite (entered_blocks _ _ _ _ _ _ _ _ _ Htr Hr). destruct (room_split _ _ _ _ _ _ _ Hr) as (rest & Hrest & Hb1 & Hb2).
    destruct (entered_entries s (d_inode d) i pre b post bs k e rest Hr Hrest Hb1 Hb2 He) as [Hold Hnew]. split.
    + eapply Forall_impl; [exact Hbs|]. cbn. intros c [?|[? ?]]; [by left|]. right. split; [done|].
      cbn [entered fdisk set_finodes set_fdisk]. rewrite lookup_insert. by case_decide.
    + rewrite Hnew. rewrite Hold in Hnamed. apply Forall_app in Hnamed as [? [? ?]%Forall_app]. apply Forall_app. split; [done|].
      apply Forall_app. split; [|done]. apply Forall_insert; [done|]. unfold named. by rewrite (cname_holds _ _ Hhe).
Qed.

(** ** Properties *)

(** C23: [search_dir_entry] returns the first entry of the directory whose name
    is the given one, in the order of its blocks, direct ones first, and none
    when there is no such entry; it leaves the disk, the inodes and the memory
    in use as they were. *)
Theorem search_dir_entry_finds part s pdir name nm i :
  never_full A → dir_entry_size (sb part) = 24 → dir_ok s pdir i → holds name nm →
  ∃ a, search_dir_entry part pdir name s =
         Ok (entry_of_bytes <$> find_entry (dir_entries (fdisk s) (blocks_of (fdisk s) i)) nm, set_fheap a s) ∧
       aused a = aused (fheap s).
Proof. apply search_dir_entry_ok. Qed.

(** C24: An entry that [sync_dir_entry] enters in a directory with room in a
    direct block is found afterwards by [search_dir_entry] under its name, if
    the name was not there before, and the size of the directory has grown by
    one entry. *)
Theorem sync_search_roundtrip s pdir d i pre b post bs k e nm io_buf name :
  never_full A → dir_entry_size (sb (cur_part s)) = 24 → dir_ok s pdir i → fdirs s !! pdir = Some d →
  i_size i mod 24 = 0 → room s i pre b post bs k → entry_ok e → holds (filename e) nm → holds name nm → 512 ≤ io_buf →
  find_entry (dir_entries (fdisk s) (blocks_of (fdisk s) i)) nm = None →
  ∃ s1 s2, sync_dir_entry pdir e io_buf s = Ok (true, s1) ∧
    search_dir_entry (cur_part s) pdir name s1 = Ok (Some e, s2) ∧
    finodes s1 !! d_inode d = Some (set_i_size (u32 (i_size i + 24)) i).
Proof.
  intros Hnf Hsz Hok Hd Hmod Hr He Hen Hnm Hio Hno.
  assert (holds (entry_bytes e) nm) as Hhe by (unfold entry_bytes; by apply holds_prefix).
  pose proof (entered_dir_ok s pdir d i pre b post bs k e nm Hok Hd Hr He Hhe) as Hok1.
  destruct (search_dir_entry_ok (cur_part s) _ pdir name nm _ Hnf Hsz Hok1 Hnm) as (a & Hs & _).
  eexists _, _. split_and!; [exact (sync_dir_entry_ok s pdir d i pre b post bs k e io_buf Hsz Hok Hd Hmod Hr He Hio)| |].
  - destruct Hok as (_ & Htr & _). destruct (room_split _ _ _ _ _ _ _ Hr) as (rest & Hrest & Hb1 & Hb2).
    destruct (entered_entries s (d_inode d) i pre b post bs k e rest Hr Hrest Hb1 Hb2 He) as [Hold Hnew].
    fold (entered s (d_inode d) i b bs k e). rewrite Hs, (entered_blocks _ _ _ _ _ _ _ _ _ Htr Hr), Hnew.
    rewrite Hold in Hno. rewrite !find_entry_app in Hno |- *. destruct (find_entry (dir_entries (fdisk s) pre) nm); [done|].
    destruct (find_entry (entries 21 bs) nm) eqn:E2; [done|].
    pose proof (free_slot_some _ _ _ _ (room_slot _ _ _ _ _ _ _ Hr)) as Hk.
    rewrite (find_entry_insert _ _ _ _ E2) by (rewrite ?entries_length; first [lia|by apply cname_holds]).
    cbn [fmap option_fmap option_map]. by rewrite entry_roundtrip.
  - cbn [finodes set_finodes]. by rewrite lookup_insert_eq.
Qed.

(** [delete_dir_entry] never deletes from a directory without indirect
    blocks: its loop over the blocks starts behind the direct ones, finds
    nothing and returns false with nothing changed, whether the entry is there
    or not. *)
Theorem delete_dir_entry_misses part s pdir d i inode_no io_buf :
  dir_entry_size (sb part) = 24 → fdirs s !! pdir = Some d → finodes s !! d_inode d = Some i →
  length (i_sectors i) = 13%nat → i_sectors i !! 12%nat = Some 0 →
  delete_dir_entry part pdir inode_no io_buf s = Ok (false, s).
Proof.
  intros Hsz Hd Hi Hl H12. unfold delete_dir_entry. erewrite get_dir_step by exact Hd. erewrite get_inode_step by exact Hi.
  assert (table_readable (fdisk s) i) as Htr by (exists 0; auto).
  kstep (all_blocks_ok s i Htr). rewrite Hsz, divide_step by done.
  assert (∀ n idx, (12 ≤ idx)%nat → (idx + n ≤ 140)%nat →
    delete_loop n part (d_inode d) (blocks_of (fdisk s) i) idx inode_no io_buf (SECTOR_SIZE / 24) s = Ok (false, s)) as Hloop;
    [|apply Hloop; lia].
  induction n as [|n IH]; intros idx Hn1 Hn2; [done|]. cbn [delete_loop].
  assert (blocks_of (fdisk s) i !! idx = Some 0) as ->.
  { unfold blocks_of. rewrite H12, lookup_app_r by (rewrite length_take; lia). change (0 =? 0) with true.
    apply lookup_replicate_2. rewrite length_take. lia. }
  cbn [deref]. kgo. change (0 =? 0) with true. apply IH; lia.
Qed.
End Proofs.

(** The count of the indirect blocks never ends: its index is not advanced. *)
Lemma count_indirect_diverges fuel all_blocks n :
  length all_blocks = 140%nat → count_indirect fuel all_blocks 12 n = NoFuel.
Proof.
  intros Hl. revert n. induction fuel as [|fuel IH]; intros n; [done|]. cbn [count_indirect].
  rewrite bool_decide_true by lia. destruct (lookup_lt_is_Some_2 all_blocks 12) as [b ->]; [lia|]. cbn [deref]. bsimpl. apply IH.
Qed.

(** ** Witnesses *)

Lemma named_check e : bool_decide (0 ∈ e ∧ Forall (λ b, 0 ≤ b < 256) e) = true → named e.
Proof.
  intros [H0 Hb]%bool_decide_eq_true. unfold named. induction Hb as [|c e Hc Hb IH]; [by apply elem_of_nil in H0|].
  cbn [cname]. destruct (Z.eqb_spec c 0) as [->|Hn]; [by apply holds_nil|]. apply holds_cons. exists e.
  split_and!; [done|unfold char_ok; lia|]. apply IH. apply elem_of_cons in H0 as [?|?]; [by subst|done].
Qed.

(** A directory at 0xc0200000 with the block 622, which holds "." and "..". *)
Definition ex_entry (nm : list Z) (no : Z) : dir_entry := DirEntry (patch 0 nm (replicate 16 0)) no 2.
Definition ex_block : list Z := patch 0 (entry_bytes (ex_entry [46] 0) ++ entry_bytes (ex_entry [46; 46] 0)) (replicate 512 0).
Definition ex_dinode : inode := Inode 0 48 1 0 (622 :: replicate 12 0).
Definition ex_dir_fs : fsys lheap (gmap Z Z) :=
  set_fdirs {[ 0xc0200000 := Dir 0xc0201000 0 (replicate 512 0) ]}
    (set_finodes {[ 0xc0201000 := ex_dinode ]} (set_fdisk {[ 622 := ex_block ]} ex_fs)).

Lemma ex_dir_ok : dir_ok ex_dir_fs 0xc0200000 ex_dinode.
Proof.
  split_and!.
  - eexists. split; reflexivity.
  - exists 0. split; [reflexivity|by left].
  - split.
    + cbn. repeat (constructor; [first [by left|right; split; [done|by eexists]]|]). constructor.
    + assert (forallb (λ e, bool_decide (0 ∈ e ∧ Forall (λ b, 0 ≤ b < 256) e))
        (dir_entries (fdisk ex_dir_fs) (blocks_of (fdisk ex_dir_fs) ex_dinode)) = true) as Hc by (vm_compute; reflexivity).
      apply Forall_forall. intros e He. apply named_check. rewrite forallb_forall in Hc. apply Hc. by apply list_elem_of_In.
Qed.
Lemma once_in_zeros b n pre post : b ≠ 0 → b :: replicate n 0 = pre ++ b :: post → b ∉ pre ++ post.
Proof.
  intros Hb. destruct pre as [|x pre]; intros Heq; simplify_eq/=.
  - by intros [? _]%elem_of_replicate.
  - exfalso. assert (x ∈ replicate n 0) as [? _]%elem_of_replicate; [|done].
    match goal with E : replicate n 0 = _ |- _ => rewrite E end. set_solver.
Qed.
Lemma ex_dir_room : room ex_dir_fs ex_dinode [] 622 (replicate 11 0) ex_block 2.
Proof.
  split.
  - reflexivity.
  - constructor.
  - done.
  - reflexivity.
  - reflexivity.
  - vm_compute. reflexivity.
  - intros pre' post' Heq. by apply (once_in_zeros 622 139).
  - done.
Qed.

Lemma search_dir_entry_finds_witness :
  ∃ s', search_dir_entry ex_part 0xc0200000 [46; 46; 0] ex_dir_fs = Ok (Some (ex_entry [46; 46] 0), s').
Proof.
  destruct (search_dir_entry_finds ex_part ex_dir_fs 0xc0200000 [46; 46; 0] [46; 46] ex_dinode) as (a & Hs & _).
  - exact bump_never_full.
  - reflexivity.
  - exact ex_dir_ok.
  - exists []. split; [reflexivity|]. repeat constructor; done.
  - eexists. rewrite Hs. vm_compute. reflexivity.
Defined.

Lemma sync_search_roundtrip_witness :
  ∃ s1 s2, sync_dir_entry 0xc0200000 (ex_entry [97] 5) 1024 ex_dir_fs = Ok (true, s1) ∧
    search_dir_entry ex_part 0xc0200000 [97; 0] s1 = Ok (Some (ex_entry [97] 5), s2).
Proof.
  destruct (sync_search_roundtrip ex_dir_fs 0xc0200000 (Dir 0xc0201000 0 (replicate 512 0)) ex_dinode [] 622 (replicate 11 0)
    ex_block 2 (ex_entry [97] 5) [97] 1024 [97; 0]) as (s1 & s2 & Hs1 & Hs2 & _).
  - exact bump_never_full.
  - reflexivity.
  - exact ex_dir_ok.
  - reflexivity.
  - reflexivity.
  - exact ex_dir_room.
  - split_and!; [reflexivity|vm_compute; repeat constructor; discriminate|unfold word_ok; cbn; lia|unfold word_ok; cbn; lia].
  - exists (replicate 14 0). split; [reflexivity|]. repeat constructor; done.
  - exists []. split; [reflexivity|]. repeat constructor; done.
  - lia.
  - vm_compute. reflexivity.
  - exists s1, s2. split; [exact Hs1|exact Hs2].
Defined.

Lemma delete_dir_entry_misses_witness : delete_dir_entry ex_part 0xc0200000 0 1024 ex_dir_fs = Ok (false, ex_dir_fs).
Proof.
  apply (delete_dir_entry_misses ex_part ex_dir_fs 0xc0200000 (Dir 0xc0201000 0 (replicate 512 0)) ex_dinode); reflexivity.
Defined.
