(* ===== verification/File.v ===== *)
(** * Files (src/fs/file.c)

    The file table of the system, the descriptors of the running thread, and
    creating, opening, closing, writing and reading a file.  A file is
    reached by its index in the table. *)

From S2P Require Import Prelude CString CArray Bitmap Lists Disk Fsys Inode Dir.

Section File.
Context {H A : Type} `{Queues H} `{Allocator A}.
Abbreviation F := (K (fsys H A)).

(** ** Slots and descriptors *)

(** [n] slots are left. *)
Fixpoint free_file (n : nat) (fd_idx : Z) : F Z :=
  match n with
  | O => mret fd_idx
  | S n => f ← get_file fd_idx; if fd_inode f =? NULL then mret fd_idx else free_file n (fd_idx + 1)
  end.
Definition get_free_slot_in_global : F Z :=
  fd_idx ← free_file (Z.to_nat (MAX_FILE_OPEN - 3)) 3;
  mret (if fd_idx =? MAX_FILE_OPEN then -1 else fd_idx).

Fixpoint free_fd (n : nat) (local_fd_idx : Z) : F Z :=
  match n with
  | O => mret local_fd_idx
  | S n =>
      t ← gets fd_tab; v ← lift (deref (t !! Z.to_nat local_fd_idx));
      if v =? -1 then mret local_fd_idx else free_fd n (local_fd_idx + 1)
  end.
Definition pcb_fd_install (globa_fd_idx : Z) : F Z :=
  local_fd_idx ← free_fd (Z.to_nat (MAX_FILES_OPEN_PER_PROC - 3)) 3;
  if local_fd_idx =? MAX_FILES_OPEN_PER_PROC then mret (-1)
  else
    t ← gets fd_tab;
    modify (set_fd_tab (<[Z.to_nat local_fd_idx := globa_fd_idx]> t)) ;; mret local_fd_idx.

(** ** Creating, opening and closing *)

(** The labels [rollback]: what is undone from each step on. *)
Definition create_rollback (rollback_step : nat) (fd_idx new_file_inode inode_no io_buf : Z) : F Z :=
  cp ← gets cur_part;
  when (bool_decide (3 ≤ rollback_step)%nat) (put_file fd_idx (File 0 0 NULL)) ;;
  when (bool_decide (2 ≤ rollback_step)%nat)
    (fs_free new_file_inode ;; t ← gets finodes; modify (set_finodes (delete new_file_inode t))) ;;
  mark_bit (inode_bitmap cp) inode_no 0 ;;
  fs_free io_buf ;;
  mret (-1).

Definition file_create (parent_dir : Z) (filename : list Z) (flag : Z) : F Z :=
  io_buf ← fs_malloc 1024;
  if io_buf =? NULL then mret (-1)
  else
    cp ← gets cur_part;
    inode_no ← inode_bitmap_alloc cp;
    if inode_no =? -1 then mret (-1)
    else
      new_file_inode ← fs_malloc sizeof_inode;
      if new_file_inode =? NULL then create_rollback 1 0 new_file_inode inode_no io_buf
      else
        put_inode new_file_inode (inode_init (u32 inode_no)) ;;
        fd_idx ← get_free_slot_in_global;
        if fd_idx =? -1 then create_rollback 2 fd_idx new_file_inode inode_no io_buf
        else
          put_file fd_idx (File 0 flag new_file_inode) ;;
          upd_inode new_file_inode (set_write_deny 0) ;;
          new_dir_entry ← lift (create_dir_entry filename (u32 inode_no) (type_nr FT_REGULAR));
          ok ← sync_dir_entry parent_dir new_dir_entry 1024;
          if negb ok then create_rollback 3 fd_idx new_file_inode inode_no io_buf
          else
            d ← get_dir parent_dir; di ← get_inode (d_inode d);
            inode_sync cp di 1024 ;;
            i ← get_inode new_file_inode;
            inode_sync cp i 1024 ;;
            bitmap_sync cp (u32 inode_no) INODE_BITMAP ;;
            h ← gets fcells; modify (set_fcells (qzero h (inode_tag new_file_inode))) ;;
            h ← gets fcells; h ← lift (qpush h (open_inodes cp) (inode_tag new_file_inode)); modify (set_fcells h) ;;
            upd_inode new_file_inode (set_i_open_cnts 1) ;;
            fs_free io_buf ;;
            pcb_fd_install fd_idx.

Definition file_open (inode_no flag : Z) : F Z :=
  fd_idx ← get_free_slot_in_global;
  if fd_idx =? -1 then mret (-1)
  else
    cp ← gets cur_part;
    p ← inode_open cp inode_no;
    put_file fd_idx (File 0 flag p) ;;
    if (flag =? O_WRONLY) || (flag =? O_RDWR) then
      i ← get_inode p;
      if write_deny i =? 0 then upd_inode p (set_write_deny 1) ;; pcb_fd_install fd_idx
      else mret (-1)
    else pcb_fd_install fd_idx.

(** [file] is the index of the file; NULL is not passed. *)
Definition file_close (file : Z) : F Z :=
  f ← get_file file;
  upd_inode (fd_inode f) (set_write_deny 0) ;;
  inode_close (fd_inode f) ;;
  put_file file (File (fd_pos f) (fd_flag f) NULL) ;;
  mret 0.

(** ** Writing *)

(** The arrays of block addresses: 140 words. *)
Definition word_at (all_blocks : list Z) (k : Z) : F Z := lift (deref (all_blocks !! Z.to_nat k)).
Definition sector_at (i : inode) (k : Z) : F Z := lift (deref (i_sectors i !! Z.to_nat k)).

(** [block_bitmap_alloc] and [bitmap_sync] for one more block; [None] when
    there is none. *)
Definition new_block : F (option Z) :=
  cp ← gets cur_part;
  block_lba ← block_bitmap_alloc cp;
  mret (if block_lba =? -1 then None else Some block_lba).
Definition sync_block (block_lba : Z) : F unit :=
  cp ← gets cur_part;
  bitmap_sync cp (u32 (block_lba - data_start_lba (sb cp))) BLOCK_BITMAP.

(** Blocks [block_idx], ..., [n] of them, direct ones only with [limit] 12;
    indirect ones go to [all_blocks] alone. *)
Fixpoint grow_direct (n : nat) (p block_idx : Z) (all_blocks : list Z) : F (option (list Z)) :=
  match n with
  | O => mret (Some all_blocks)
  | S n =>
      b ← new_block;
      match b with
      | None => mret None
      | Some block_lba =>
          (if block_idx <? 12 then
             i ← get_inode p; s ← sector_at i block_idx;
             kASSERT (s =? 0) ;;
             upd_inode p (set_i_sector (Z.to_nat block_idx) (u32 block_lba))
           else mret tt) ;;
          sync_block block_lba ;;
          grow_direct n p (block_idx + 1) (<[Z.to_nat block_idx := u32 block_lba]> all_blocks)
      end
  end.

(** [while (block_idx < file_will_use_blocks)] of the third case: the index
    does not advance, so blocks are taken until there are none. *)
Fixpoint drain_blocks (fuel : nat) : F unit :=
  match fuel with
  | O => lift NoFuel
  | S fuel => b ← new_block; match b with None => mret tt | Some _ => drain_blocks fuel end
  end.

(** The blocks a write needs, collected in [all_blocks]; the second component
    is the block of the indirect table, [None] where the code leaves the
    variable uninitialised.  [None] is the failure to get a block. *)
Definition collect_blocks (p file_has_used_blocks file_will_use_blocks : Z) (all_blocks : list Z)
    : F (option (list Z * option Z)) :=
  i ← get_inode p;
  let add_blocks := u32 (file_will_use_blocks - file_has_used_blocks) in
  let last := file_has_used_blocks - 1 in
  if add_blocks =? 0 then
    if file_has_used_blocks <=? 12 then
      s ← sector_at i last; mret (Some (<[Z.to_nat last := s]> all_blocks, None))
    else
      i12 ← sector_at i 12;
      kASSERT (negb (i12 =? 0)) ;;
      bs ← ide_rd i12 1 512;
      mret (Some (take 12 all_blocks ++ bytes_words bs, Some i12))
  else if file_will_use_blocks <=? 12 then
    s ← sector_at i last;
    kASSERT (negb (s =? 0)) ;;
    r ← grow_direct (Z.to_nat (file_will_use_blocks - file_has_used_blocks)) p file_has_used_blocks
          (<[Z.to_nat last := s]> all_blocks);
    mret ((λ bs, (bs, None)) <$> r)
  else if file_has_used_blocks <=? 12 then
    s ← sector_at i last;
    b ← new_block;
    match b with
    | None => mret None
    | Some block_lba =>
        i12 ← sector_at i 12;
        kASSERT (i12 =? 0) ;;
        upd_inode p (set_i_sector 12 (u32 block_lba)) ;;
        r ← grow_direct (Z.to_nat (file_will_use_blocks - file_has_used_blocks)) p file_has_used_blocks
              (<[Z.to_nat last := s]> all_blocks);
        match r with
        | None => mret None
        | Some all_blocks =>
            ide_wr (u32 block_lba) (words_bytes (drop 12 all_blocks)) 1 ;;
            mret (Some (all_blocks, Some (u32 block_lba)))
        end
    end
  else
    i12 ← sector_at i 12;
    kASSERT (negb (i12 =? 0)) ;;
    bs ← ide_rd i12 1 512;
    cp ← gets cur_part;
    drain_blocks (Z.to_nat (8 * btmp_bytes_len (block_bitmap cp) + 1)) ;;
    mret None.

(** One round of the writing loop per sector; [first] is [first_write_block]. *)
Fixpoint write_loop (fuel : nat) (fi p : Z) (all_blocks src : list Z) (bytes_written size_left count : Z) (first : bool)
    : F Z :=
  match fuel with
  | O => lift NoFuel
  | S fuel =>
      if bytes_written <? count then
        i ← get_inode p;
        let sec_idx := i_size i / BLOCK_SIZE in
        sec_lba ← word_at all_blocks sec_idx;
        let sec_off_bytes := i_size i mod BLOCK_SIZE in
        let sec_left_bytes := BLOCK_SIZE - sec_off_bytes in
        let chunk_size := if size_left <? sec_left_bytes then size_left else sec_left_bytes in
        io_buf ← (if first then ide_rd sec_lba 1 512 else mret (replicate 512 0));
        ide_wr sec_lba (patch (Z.to_nat sec_off_bytes) (take (Z.to_nat chunk_size) src) io_buf) 1 ;;
        upd_inode p (λ i, set_i_size (u32 (i_size i + chunk_size)) i) ;;
        f ← get_file fi;
        put_file fi (File (u32 (fd_pos f + chunk_size)) (fd_flag f) (fd_inode f)) ;;
        write_loop fuel fi p all_blocks (drop (Z.to_nat chunk_size) src) (u32 (bytes_written + chunk_size))
          (size_left - chunk_size) count false
      else mret bytes_written
  end.

(** [buf] holds at least [count] bytes. *)
Definition file_write (file : Z) (buf : list Z) (count : Z) : F Z :=
  if bool_decide (length buf < Z.to_nat count)%nat then lift Fault
  else
  f ← get_file file;
  let p := fd_inode f in
  i ← get_inode p;
  if BLOCK_SIZE * 140 <? u32 (i_size i + count) then mret (-1)
  else
    io_buf ← fs_malloc BLOCK_SIZE;
    if io_buf =? NULL then mret (-1)
    else
      all_blocks_p ← fs_malloc (BLOCK_SIZE + 48);
      if all_blocks_p =? NULL then mret (-1)
      else
        s0 ← sector_at i 0;
        ok ←
          (if s0 =? 0 then
             b ← new_block;
             match b with
             | None => mret false
             | Some block_lba =>
                 upd_inode p (set_i_sector 0 (u32 block_lba)) ;;
                 cp ← gets cur_part;
                 kASSERT (negb (u32 (block_lba - data_start_lba (sb cp)) =? 0)) ;;
                 sync_block block_lba ;; mret true
             end
           else mret true);
        if negb ok then mret (-1)
        else
          i ← get_inode p;
          let file_has_used_blocks := i_size i / BLOCK_SIZE + 1 in
          let file_will_use_blocks := u32 (i_size i + count) / BLOCK_SIZE + 1 in
          kASSERT (file_will_use_blocks <=? 140) ;;
          r ← collect_blocks p file_has_used_blocks file_will_use_blocks (replicate 140 0);
          match r with
          | None => mret (-1)
          | Some (all_blocks, indirect_block_table) =>
              (if u32 (file_will_use_blocks - file_has_used_blocks) =? 0 then mret tt
               else
                 t ← lift (deref indirect_block_table);
                 ide_wr t (words_bytes (drop 12 all_blocks)) 1) ;;
              i ← get_inode p;
              put_file file (File (u32 (i_size i - 1)) (fd_flag f) p) ;;
              n ← write_loop (S (Z.to_nat count)) file p all_blocks buf 0 count count true;
              cp ← gets cur_part;
              i ← get_inode p;
              inode_sync cp i BLOCK_SIZE ;;
              fs_free all_blocks_p ;; fs_free io_buf ;;
              mret n
          end.

(** ** Reading *)

Fixpoint copy_blocks (n : nat) (i : inode) (block_idx : Z) (all_blocks : list Z) : F (list Z) :=
  match n with
  | O => mret all_blocks
  | S n => s ← sector_at i block_idx; copy_blocks n i (block_idx + 1) (<[Z.to_nat block_idx := s]> all_blocks)
  end.

Definition read_table (i : inode) (all_blocks : list Z) : F (list Z) :=
  i12 ← sector_at i 12;
  bs ← ide_rd i12 1 512;
  mret (take 12 all_blocks ++ bytes_words bs).

Definition collect_read (i : inode) (block_read_start_idx block_read_end_idx : Z) (all_blocks : list Z) : F (list Z) :=
  let read_blocks := u32 (block_read_start_idx - block_read_end_idx) in
  if read_blocks =? 0 then
    kASSERT (block_read_end_idx =? block_read_start_idx) ;;
    if block_read_end_idx <? 12 then copy_blocks 1 i block_read_end_idx all_blocks
    else read_table i all_blocks
  else if block_read_end_idx <? 12 then
    copy_blocks (Z.to_nat (block_read_end_idx + 1 - block_read_start_idx)) i block_read_start_idx all_blocks
  else if block_read_start_idx <? 12 then
    all_blocks ← copy_blocks (Z.to_nat (12 - block_read_start_idx)) i block_read_start_idx all_blocks;
    i12 ← sector_at i 12;
    kASSERT (negb (i12 =? 0)) ;;
    read_table i all_blocks
  else
    i12 ← sector_at i 12;
    kASSERT (negb (i12 =? 0)) ;;
    read_table i all_blocks.

(** [io_buf] is the size of the buffer, 0 when there is none: [memset] stops. *)
Fixpoint read_loop (fuel : nat) (fi : Z) (all_blocks buf_dst : list Z) (bytes_read size_left size io_buf : Z)
    : F (Z * list Z) :=
  match fuel with
  | O => lift NoFuel
  | S fuel =>
      if bytes_read <? size then
        f ← get_file fi;
        let sec_idx := fd_pos f / BLOCK_SIZE in
        sec_lba ← word_at all_blocks sec_idx;
        let sec_off_bytes := fd_pos f mod BLOCK_SIZE in
        let sec_left_bytes := BLOCK_SIZE - sec_off_bytes in
        let chunk_size := if size_left <? sec_left_bytes then size_left else sec_left_bytes in
        kASSERT (negb (io_buf =? 0)) ;;
        bs ← ide_rd sec_lba 1 io_buf;
        put_file fi (File (u32 (fd_pos f + chunk_size)) (fd_flag f) (fd_inode f)) ;;
        read_loop fuel fi all_blocks
          (buf_dst ++ take (Z.to_nat chunk_size) (drop (Z.to_nat sec_off_bytes) bs))
          (u32 (bytes_read + chunk_size)) (size_left - chunk_size) size io_buf
      else mret (bytes_read, buf_dst)
  end.

(** The result and the bytes put in the caller's buffer, which is assumed to
    have room for them. *)
Definition file_read (file count : Z) : F (Z * list Z) :=
  f ← get_file file;
  i ← get_inode (fd_inode f);
  let past := i_size i <? u32 (fd_pos f + count) in
  let size := if past then u32 (i_size i - fd_pos f) else count in
  if past && (size =? 0) then mret (-1, [])
  else
    io_buf ← fs_malloc BLOCK_SIZE;
    all_blocks_p ← fs_malloc (BLOCK_SIZE + 48);
    if all_blocks_p =? NULL then mret (-1, [])
    else
      let block_read_start_idx := fd_pos f / BLOCK_SIZE in
      let block_read_end_idx := u32 (fd_pos f + size) / BLOCK_SIZE in
      kASSERT ((block_read_start_idx <? 139) && (block_read_end_idx <? 139)) ;;
      all_blocks ← collect_read i block_read_start_idx block_read_end_idx (replicate 140 0);
      r ← read_loop (S (Z.to_nat size)) file all_blocks [] 0 size size (buf_size io_buf BLOCK_SIZE);
      fs_free all_blocks_p ;; fs_free io_buf ;;
      mret r.
End File.

(** ** Specification *)

Section Proofs.
Context {H A : Type} `{Queues H} `{Allocator A}.
Implicit Types s : fsys H A.

Lemma get_file_step {B} s k f (g : file → K (fsys H A) B) :
  file_table s !! Z.to_nat k = Some f → (get_file k ≫= g) s = g f s.
Proof. intros Hf. unfold get_file, mbind, K_bind, gets, lift. by rewrite Hf. Qed.

(** Looking for a free place: the first of [n] from [k] on, or the end. *)
Fixpoint scan_from {X} (p : X → bool) (l : list X) (n : nat) (k : Z) : Z :=
  match n with
  | O => k
  | S n => match l !! Z.to_nat k with
           | Some x => if p x then k else scan_from p l n (k + 1)
           | None => k
           end
  end.

Lemma scan_from_ok {X} (p : X → bool) l n k :
  0 ≤ k → (Z.to_nat k + n ≤ length l)%nat →
  let r := scan_from p l n k in
  k ≤ r ≤ k + Z.of_nat n ∧ (∀ j x, k ≤ j < r → l !! Z.to_nat j = Some x → p x = false) ∧
  (r < k + Z.of_nat n → ∃ x, l !! Z.to_nat r = Some x ∧ p x = true).
Proof.
  revert k. induction n as [|n IH]; intros k Hk Hl; cbn [scan_from].
  - split_and!; [lia..|intros j x Hj; lia|lia].
  - destruct (lookup_lt_is_Some_2 l (Z.to_nat k)) as [x Hx]; [lia|]. rewrite Hx. destruct (p x) eqn:Ep.
    + split_and!; [lia..|intros j y Hj; lia|by exists x].
    + destruct (IH (k + 1)) as (Hr & Hno & Hex); [lia..|]. split_and!; [lia..| |intros; apply Hex; lia].
      intros j y Hj Hy. destruct (decide (j = k)) as [->|]; [congruence|]. apply (Hno j); [lia|done].
Qed.

Lemma free_file_eq s n k :
  0 ≤ k → (Z.to_nat k + n ≤ length (file_table s))%nat →
  free_file n k s = Ok (scan_from (λ f, fd_inode f =? NULL) (file_table s) n k, s).
Proof.
  revert k. induction n as [|n IH]; intros k Hk Hl; [done|]. cbn [free_file scan_from].
  destruct (lookup_lt_is_Some_2 (file_table s) (Z.to_nat k)) as [f Hf]; [lia|]. erewrite get_file_step by exact Hf.
  rewrite Hf. destruct (fd_inode f =? NULL); [done|]. apply IH; lia.
Qed.
Lemma free_fd_eq s n k :
  0 ≤ k → (Z.to_nat k + n ≤ length (fd_tab s))%nat →
  free_fd n k s = Ok (scan_from (λ v, v =? -1) (fd_tab s) n k, s).
Proof.
  revert k. induction n as [|n IH]; intros k Hk Hl; [done|]. cbn [free_fd scan_from].
  destruct (lookup_lt_is_Some_2 (fd_tab s) (Z.to_nat k)) as [v Hv]; [lia|]. kgo. rewrite Hv. cbn [deref]. kgo.
  destruct (v =? -1); [done|]. apply IH; lia.
Qed.

(** What the two searches return. *)
Definition global_slot (s : fsys H A) : Z := scan_from (λ f, fd_inode f =? NULL) (file_table s) 29 3.
Definition local_slot (s : fsys H A) : Z := scan_from (λ v, v =? -1) (fd_tab s) 5 3.
(** The tables have their sizes. *)
Definition fd_tables_ok (s : fsys H A) : Prop := length (file_table s) = 32%nat ∧ length (fd_tab s) = 8%nat.

Lemma get_free_slot_ok s :
  fd_tables_ok s → get_free_slot_in_global s = Ok (if global_slot s =? 32 then -1 else global_slot s, s).
Proof.
  intros [Hl _]. unfold get_free_slot_in_global. change (Z.to_nat (MAX_FILE_OPEN - 3)) with 29%nat.
  kstep (free_file_eq s 29 3 ltac:(lia) ltac:(lia)). done.
Qed.
Lemma pcb_fd_install_ok s g :
  fd_tables_ok s →
  pcb_fd_install g s = Ok (if local_slot s =? 8 then (-1, s)
                           else (local_slot s, set_fd_tab (<[Z.to_nat (local_slot s) := g]> (fd_tab s)) s)).
Proof.
  intros [_ Hl]. unfold pcb_fd_install. change (Z.to_nat (MAX_FILES_OPEN_PER_PROC - 3)) with 5%nat.
  kstep (free_fd_eq s 5 3 ltac:(lia) ltac:(lia)). fold (local_slot s). unfold MAX_FILES_OPEN_PER_PROC.
  by destruct (local_slot s =? 8).
Qed.

(** The state after [file_open] found the inode open at [p] with contents [i]
    and took the slot [k]. *)
Definition claimed (s : fsys H A) (k flag p : Z) (i : inode) : fsys H A :=
  set_file_table (<[Z.to_nat k := File 0 flag p]> (file_table s)) (set_finodes (<[p := i]> (finodes s)) s).

Lemma file_open_ok s ps Q no p i flag :
  opened (cur_part s) s ps Q → find_open s ps no p i → fd_tables_ok s → global_slot s ≠ 32 →
  flag = O_WRONLY ∨ flag = O_RDWR →
  let i1 := set_i_open_cnts (u32 (i_open_cnts i + 1)) i in
  file_open no flag s =
    if write_deny i =? 0 then pcb_fd_install (global_slot s) (claimed s (global_slot s) flag p (set_write_deny 1 i1))
    else Ok (-1, claimed s (global_slot s) flag p i1).
Proof.
  intros Ho Hf Ht Hg Hfl i1. unfold file_open. kstep (get_free_slot_ok s Ht). rewrite (proj2 (Z.eqb_neq _ 32)) by done.
  destruct (scan_from_ok (λ f, fd_inode f =? NULL) (file_table s) 29 3) as (Hr & _); [lia|destruct Ht; lia|].
  fold (global_slot s) in Hr. rewrite (proj2 (Z.eqb_neq _ (-1))) by lia. kgo.
  kstep (inode_open_hit (cur_part s) s ps Q no p i Ho Hf). unfold put_file. kgo.
  assert ((flag =? O_WRONLY) || (flag =? O_RDWR) = true) as -> by (destruct Hfl; subst; done).
  erewrite get_inode_step by (cbn [finodes set_file_table set_finodes]; apply lookup_insert_eq).
  change (write_deny (set_i_open_cnts (u32 (i_open_cnts i + 1)) i)) with (write_deny i).
  destruct (write_deny i =? 0); [|done]. unfold upd_inode, put_inode.
  erewrite K_assoc, get_inode_step by (cbn [finodes set_file_table set_finodes]; apply lookup_insert_eq). kgo.
  unfold claimed. f_equal. destruct s. cbn. by rewrite insert_insert_eq.
Qed.

(** ** Writing and reading in one block *)

(** The file [fi] is open on the inode at [p], whose first block [b] holds [bs]
    and takes [count] more bytes; the place of the inode on the disk is in one
    sector, and the block is not in the inode table. *)
Record small_file (s : fsys H A) (tb : list Z) (fi p : Z) (f : file) (i : inode) (b : Z) (bs : list Z) (count : Z) : Prop := {
  sf_file : file_table s !! Z.to_nat fi = Some f;
  sf_inode : fd_inode f = p ∧ finodes s !! p = Some i ∧ inode_ok i;
  sf_block : i_sectors i !! 0%nat = Some b ∧ b ≠ 0 ∧ b ≤ max_lba;
  sf_read : fdisk s !! b = Some bs ∧ length bs = 512%nat ∧ Forall (λ x, 0 ≤ x < 256) bs;
  sf_count : 0 < count ∧ i_size i + count < 512;
  sf_table : table_ok (cur_part s) (fdisk s) tb;
  sf_pos : ∀ pos, inode_locate (cur_part s) (u8 (i_no i)) = Ok pos → two_sec pos = false;
  sf_apart : b < inode_table_lba (sb (cur_part s)) ∨ inode_table_lba (sb (cur_part s)) + 608 ≤ b;
}.

Lemma ide_wr_one s b bs x :
  b ≤ max_lba → fdisk s !! b = Some x → length bs = 512%nat → ide_wr b bs 1 s = Ok (tt, set_fdisk (<[b := bs]> (fdisk s)) s).
Proof.
  intros Hb Hx Hl. apply ide_wr_ok; [done|lia|]. change (Z.to_nat 1) with 1%nat. cbn [write_run]. rewrite Hx.
  cbn [mbind option_bind]. rewrite take_ge by lia. by rewrite bool_decide_true.
Qed.

(** One round of the writing loop, and the test that ends it. *)
Lemma write_loop_once s fi p f i b bs x all_blocks count fuel :
  file_table s !! Z.to_nat fi = Some f → finodes s !! p = Some i → all_blocks !! 0%nat = Some b → b ≤ max_lba →
  fdisk s !! b = Some bs → length bs = 512%nat → 0 ≤ i_size i → 0 < count → i_size i + count < 512 →
  Z.of_nat (length x) = count →
  write_loop (S (S fuel)) fi p all_blocks x 0 count count true s =
    Ok (count, set_file_table (<[Z.to_nat fi := File (u32 (fd_pos f + count)) (fd_flag f) (fd_inode f)]> (file_table s))
                 (set_finodes (<[p := set_i_size (i_size i + count) i]> (finodes s))
                    (set_fdisk (<[b := patch (Z.to_nat (i_size i)) x bs]> (fdisk s)) s))).
Proof.
  intros Hf Hi Hb Hbl Hbs Hl Hz Hc Hs Hx. cbn [write_loop]. rewrite (proj2 (Z.ltb_lt 0 count)) by done.
  erewrite get_inode_step by exact Hi. unfold BLOCK_SIZE, SECTOR_SIZE, word_at. rewrite (Z.div_small (i_size i) 512), (Z.mod_small (i_size i) 512) by lia.
  change (Z.to_nat 0) with 0%nat. rewrite Hb. cbn [deref]. kgo.
  kstep (ide_rd_one s b 512 bs Hbl ltac:(lia) Hbs). rewrite (proj2 (Z.ltb_lt count (512 - i_size i))) by lia.
  rewrite take_ge by lia.
  kstep (ide_wr_one s b (patch (Z.to_nat (i_size i)) x bs) bs Hbl Hbs ltac:(rewrite patch_length; lia)).
  unfold upd_inode, put_inode. erewrite K_assoc, get_inode_step by exact Hi. kgo. erewrite get_file_step by exact Hf.
  unfold put_file. kgo. rewrite Z.add_0_l, (u32_small count), (u32_small (i_size i + count)) by lia.
  by rewrite Z.ltb_irrefl.
Qed.

Lemma collect_one s p i b all_blocks :
  finodes s !! p = Some i → i_sectors i !! 0%nat = Some b →
  collect_blocks p 1 1 all_blocks s = Ok (Some (<[0%nat := b]> all_blocks, None), s).
Proof.
  intros Hi Hb. unfold collect_blocks. erewrite get_inode_step by exact Hi. change (u32 (1 - 1) =? 0) with true.
  change (1 <=? 12) with true. cbv iota. unfold sector_at. change (Z.to_nat (1 - 1)) with 0%nat. rewrite Hb. cbn [deref]. by kgo.
Qed.

Lemma patch_range k x bs :
  Forall (λ y, 0 ≤ y < 256) x → Forall (λ y, 0 ≤ y < 256) bs → Forall (λ y, 0 ≤ y < 256) (patch k x bs).
Proof.
  intros Hx Hb. unfold patch. apply Forall_app. split; [by apply Forall_take|]. apply Forall_app. split; [done|by apply Forall_drop].
Qed.
Lemma table_ok_insert part d tb b bs :
  table_ok part d tb → b < inode_table_lba (sb part) ∨ inode_table_lba (sb part) + 608 ≤ b →
  length bs = 512%nat → Forall (λ y, 0 ≤ y < 256) bs → table_ok part (<[b := bs]> d) tb.
Proof.
  intros [Hs Hr Hl Hp] Hb Hlen Hbs. split; [| |done..].
  - intros l y. rewrite lookup_insert_Some. intros [[<- <-] | [_ ?]]; [done|by eapply Hs].
  - unfold inode_table in *. rewrite <- Hr. apply read_run_frame. intros l ?. apply lookup_insert_ne. unfold TABLE_SECTS in *. lia.
Qed.

(** What [file_write] leaves: the block, the inode, the file, the memory in use. *)
Lemma file_write_small s tb fi p f i b bs count x :
  never_full A → small_file s tb fi p f i b bs count → Z.of_nat (length x) = count →
  Forall (λ y, 0 ≤ y < 256) x →
  ∃ s', file_write fi x count s = Ok (count, s') ∧
    fdisk s' !! b = Some (patch (Z.to_nat (i_size i)) x bs) ∧
    finodes s' !! p = Some (set_i_size (i_size i + count) i) ∧
    file_table s' = <[Z.to_nat fi := File (u32 (u32 (i_size i - 1) + count)) (fd_flag f) p]> (file_table s) ∧
    aused (fheap s') = aused (fheap s) ∧ cur_part s' = cur_part s ∧ fd_tab s' = fd_tab s.
Proof.
  intros Hnf [Hf (Hfp & Hi & Hok) (Hb & Hb0 & Hbl) (Hbs & Hl & Hbr) [Hc Hsz] Ht Hpos Hap] Hx Hxr.
  pose proof Hok as (_ & Hws & _). unfold word_ok in Hws. unfold file_write.
  rewrite bool_decide_false by lia. erewrite get_file_step by exact Hf. rewrite Hfp. erewrite get_inode_step by exact Hi.
  rewrite (u32_small (i_size i + count)) by lia. unfold BLOCK_SIZE, SECTOR_SIZE.
  rewrite (proj2 (Z.ltb_ge (512 * 140) _)) by lia.
  destruct (malloc_step s 512 Hnf ltac:(lia)) as (m1 & a1 & Hm1 & Hp1 & Hn1 & Hu1 & _). kstep Hm1.
  rewrite (proj2 (Z.eqb_neq m1 NULL)) by (unfold NULL; lia).
  destruct (malloc_step (set_fheap a1 s) (512 + 48) Hnf ltac:(lia)) as (m2 & a2 & Hm2 & Hp2 & Hn2 & Hu2 & _). kstep Hm2.
  rewrite (proj2 (Z.eqb_neq m2 NULL)) by (unfold NULL; lia).
  unfold sector_at. change (Z.to_nat 0) with 0%nat. rewrite Hb. cbn [deref]. kgo. rewrite (proj2 (Z.eqb_neq b 0)) by done. kgo. cbn [negb].
  set (s2 := set_fheap a2 (set_fheap a1 s)). erewrite (get_inode_step s2) by exact Hi.
  rewrite (u32_small (i_size i + count)) by lia. rewrite !Z.div_small by lia. change (0 + 1) with 1. change (1 <=? 140) with true. kgo.
  kstep (collect_one s2 p i b (replicate 140 0) Hi Hb). change (u32 (1 - 1) =? 0) with true. cbv iota. kgo.
  erewrite (get_inode_step s2) by exact Hi. unfold put_file at 1. kgo.
  set (f1 := File (u32 (i_size i - 1)) (fd_flag f) p).
  set (s3 := set_file_table (<[Z.to_nat fi := f1]> (file_table s2)) s2).
  assert (file_table s3 !! Z.to_nat fi = Some f1) as Hf3.
  { apply list_lookup_insert_eq. apply lookup_lt_Some in Hf. exact Hf. }
  replace (S (Z.to_nat count)) with (S (S (Z.to_nat (count - 1)))) by lia.
  kstep (write_loop_once s3 fi p f1 i b bs x (<[0%nat := b]> (replicate 140 0)) count (Z.to_nat (count - 1)) Hf3 Hi ltac:(done) Hbl Hbs Hl ltac:(lia) Hc Hsz Hx).
  set (i' := set_i_size (i_size i + count) i).
  match goal with |- context [(get_inode p ≫= _) ?st] => set (s4 := st) end.
  erewrite (get_inode_step s4) by (cbn [s4 finodes set_file_table set_finodes]; apply lookup_insert_eq).
  assert (inode_ok i') as Hok'.
  { destruct Hok as (? & ? & ? & ? & ? & ?). split_and!; [done| |done..]. unfold word_ok. cbn. lia. }
  assert (table_ok (cur_part s) (fdisk s4) tb) as Ht4.
  { apply table_ok_insert; [done|done|rewrite patch_length; lia|by apply patch_range]. }
  destruct (inode_sync_ok (cur_part s) s4 tb i' 512 Ht4 Hok') as (d' & Hsync & Htn).
  { intros pos Hloc. unfold pos_cnt. by rewrite (Hpos pos Hloc). }
  kstep Hsync. unfold fs_free. kgo. eexists. split; [done|]. split_and!.
  - cbn [fdisk set_fheap set_fdisk]. destruct Htn as [_ Hfr]. rewrite Hfr by done. cbn [s4 fdisk set_file_table set_finodes set_fdisk].
    apply lookup_insert_eq.
  - cbn [s4 finodes set_fheap set_fdisk set_file_table set_finodes]. apply lookup_insert_eq.
  - cbn [s4 s3 s2 file_table set_fheap set_fdisk set_file_table set_finodes]. by rewrite list_insert_insert_eq.
  - cbn [s4 s3 s2 fheap set_fheap set_fdisk set_file_table set_finodes] in *. rewrite !afree_spec, Hu2.
    rewrite delete_insert_id by done. rewrite Hu1. by rewrite delete_insert_id.
  - done.
  - done.
Qed.

Lemma read_loop_once s fi f b bs all_blocks count fuel io_buf :
  file_table s !! Z.to_nat fi = Some f → all_blocks !! 0%nat = Some b → b ≤ max_lba → fdisk s !! b = Some bs →
  0 ≤ fd_pos f → 0 < count → fd_pos f + count < 512 → 512 ≤ io_buf →
  read_loop (S (S fuel)) fi all_blocks [] 0 count count io_buf s =
    Ok ((count, take (Z.to_nat count) (drop (Z.to_nat (fd_pos f)) bs)),
        set_file_table (<[Z.to_nat fi := File (fd_pos f + count) (fd_flag f) (fd_inode f)]> (file_table s)) s).
Proof.
  intros Hf Hb Hbl Hbs Hp Hc Hs Hio. cbn [read_loop]. rewrite (proj2 (Z.ltb_lt 0 count)) by done.
  erewrite get_file_step by exact Hf. unfold BLOCK_SIZE, SECTOR_SIZE, word_at.
  rewrite (Z.div_small (fd_pos f) 512), (Z.mod_small (fd_pos f) 512) by lia. change (Z.to_nat 0) with 0%nat. rewrite Hb. cbn [deref]. kgo.
  rewrite (proj2 (Z.eqb_neq io_buf 0)) by lia. cbn [negb]. kgo.
  kstep (ide_rd_one s b io_buf bs Hbl Hio Hbs). rewrite (proj2 (Z.ltb_lt count (512 - fd_pos f))) by lia.
  unfold put_file. kgo. rewrite Z.add_0_l, (u32_small count), (u32_small (fd_pos f + count)) by lia.
  by rewrite Z.ltb_irrefl.
Qed.

Lemma file_read_small s fi f i b bs count :
  never_full A → file_table s !! Z.to_nat fi = Some f → finodes s !! fd_inode f = Some i → i_sectors i !! 0%nat = Some b →
  b ≤ max_lba → fdisk s !! b = Some bs → 0 ≤ fd_pos f → 0 < count → fd_pos f + count ≤ i_size i → i_size i < 512 →
  ∃ s', file_read fi count s = Ok ((count, take (Z.to_nat count) (drop (Z.to_nat (fd_pos f)) bs)), s').
Proof.
  intros Hnf Hf Hi Hb Hbl Hbs Hp Hc Hsz Hs. unfold file_read. erewrite get_file_step by exact Hf. erewrite get_inode_step by exact Hi.
  rewrite (u32_small (fd_pos f + count)) by lia. rewrite (proj2 (Z.ltb_ge (i_size i) _)) by lia. cbn [andb]. unfold BLOCK_SIZE, SECTOR_SIZE.
  destruct (malloc_step s 512 Hnf ltac:(lia)) as (m1 & a1 & Hm1 & Hp1 & Hn1 & Hu1 & _). kstep Hm1.
  destruct (malloc_step (set_fheap a1 s) (512 + 48) Hnf ltac:(lia)) as (m2 & a2 & Hm2 & Hp2 & Hn2 & Hu2 & _). kstep Hm2.
  rewrite (proj2 (Z.eqb_neq m2 NULL)) by (unfold NULL; lia).
  rewrite (u32_small (fd_pos f + count)) by lia. rewrite !(Z.div_small _ 512) by lia. change ((0 <? 139) && (0 <? 139)) with true. kgo.
  set (s2 := set_fheap a2 (set_fheap a1 s)).
  assert (collect_read i 0 0 (replicate 140 0) s2 = Ok (<[0%nat := b]> (replicate 140 0), s2)) as Hcol.
  { unfold collect_read. change (u32 (0 - 0) =? 0) with true. change (0 =? 0) with true. change (0 <? 12) with true. cbv iota. kgo.
    cbn [copy_blocks]. unfold sector_at. change (Z.to_nat 0) with 0%nat. rewrite Hb. cbn [deref]. by kgo. }
  kstep Hcol. assert (buf_size m1 512 = 512) as ->.
  { unfold buf_size, NULL in *. by rewrite (proj2 (Z.eqb_neq m1 0)) by lia. }
  replace (S (Z.to_nat count)) with (S (S (Z.to_nat (count - 1)))) by lia.
  kstep (read_loop_once s2 fi f b bs (<[0%nat := b]> (replicate 140 0)) count (Z.to_nat (count - 1)) 512 Hf ltac:(done) Hbl Hbs Hp Hc ltac:(lia) ltac:(lia)).
  unfold fs_free. kgo. by eexists.
Qed.

(** ** Properties *)

(** The two tables are searched for their first free place: a new file
    gets the lowest free slot of the file table from 3 on, and the running
    thread its lowest free descriptor from 3 on, in which the slot is entered;
    when all are taken the result is -1 and nothing changes. *)
Theorem slots_first_free s g :
  fd_tables_ok s →
  (∃ k, get_free_slot_in_global s = Ok (k, s) ∧
     (k = -1 ∧ (∀ j f, 3 ≤ j < 32 → file_table s !! Z.to_nat j = Some f → fd_inode f ≠ NULL) ∨
      3 ≤ k < 32 ∧ (∃ f, file_table s !! Z.to_nat k = Some f ∧ fd_inode f = NULL) ∧
      ∀ j f, 3 ≤ j < k → file_table s !! Z.to_nat j = Some f → fd_inode f ≠ NULL)) ∧
  (∃ k s', pcb_fd_install g s = Ok (k, s') ∧
     (k = -1 ∧ s' = s ∧ (∀ j v, 3 ≤ j < 8 → fd_tab s !! Z.to_nat j = Some v → v ≠ -1) ∨
      3 ≤ k < 8 ∧ fd_tab s !! Z.to_nat k = Some (-1) ∧ s' = set_fd_tab (<[Z.to_nat k := g]> (fd_tab s)) s ∧
      ∀ j v, 3 ≤ j < k → fd_tab s !! Z.to_nat j = Some v → v ≠ -1)).
Proof.
  intros Ht. split.
  - destruct (scan_from_ok (λ f, fd_inode f =? NULL) (file_table s) 29 3) as (Hr & Hno & Hex); [lia|destruct Ht; lia|].
    fold (global_slot s) in Hr, Hno, Hex. eexists. split; [by apply get_free_slot_ok|].
    destruct (Z.eqb_spec (global_slot s) 32) as [He|He].
    + left. split; [done|]. rewrite He in Hno. intros j f Hj Hjf. apply Z.eqb_neq, (Hno j f); [lia|done].
    + right. split; [lia|]. destruct Hex as (f & Hf & Hn%Z.eqb_eq); [lia|]. split; [by exists f|].
      intros j f' Hj Hjf. by apply Z.eqb_neq, (Hno j f').
  - destruct (scan_from_ok (λ v, v =? -1) (fd_tab s) 5 3) as (Hr & Hno & Hex); [lia|destruct Ht; lia|].
    fold (local_slot s) in Hr, Hno, Hex. pose proof (pcb_fd_install_ok s g Ht) as Hp.
    destruct (Z.eqb_spec (local_slot s) 8) as [He|He].
    + exists (-1), s. split; [done|]. left. split_and!; [done..|]. rewrite He in Hno. intros j v Hj Hjv.
      apply Z.eqb_neq, (Hno j v); [lia|done].
    + eexists _, _. split; [exact Hp|]. right. split; [lia|]. destruct Hex as (v & Hv & Hn%Z.eqb_eq); [lia|]. subst v.
      split_and!; [done..|]. intros j v Hj Hjv. by apply Z.eqb_neq, (Hno j v).
Qed.

(** Closing a file whose inode is open more than once. *)
Lemma file_close_count s ps Q p i g f :
  opened (cur_part s) s ps Q → p ∈ ps → finodes s !! p = Some i → 1 < i_open_cnts i < 2 ^ 32 →
  file_table s !! Z.to_nat g = Some f → fd_inode f = p →
  ∃ s', file_close g s = Ok (0, s') ∧ finodes s' !! p = Some (set_write_deny 0 (set_i_open_cnts (i_open_cnts i - 1) i)).
Proof.
  intros Ho Hp Hi Hc Hf Hfi. unfold file_close. erewrite get_file_step by exact Hf. rewrite Hfi.
  set (s1 := set_finodes (<[p := set_write_deny 0 i]> (finodes s)) s).
  assert (upd_inode p (set_write_deny 0) s = Ok (tt, s1)) as Hu.
  { unfold upd_inode. erewrite get_inode_step by exact Hi. done. }
  kstep Hu.
  assert (finodes s1 !! p = Some (set_write_deny 0 i)) as Hi1 by apply lookup_insert_eq.
  assert (opened (cur_part s) s1 ps Q) as Ho1.
  { pose proof (opened_upd (cur_part s) s ps Q p i (set_write_deny 0 i) Ho Hp Hi eq_refl ltac:(cbn; lia)) as Hup. split; apply Hup. }
  kstep (inode_close_count _ s1 ps Q p _ Ho1 Hp Hi1 Hc). eexists. split; [reflexivity|].
  cbn [finodes set_file_table set_finodes]. by rewrite lookup_insert_eq.
Qed.

(** C25: The protection of a file that is open ([write_deny] in its inode):
    - while nobody writes it, opening it for writing gives a descriptor and
      sets the protection;
    - while it is set, opening it for writing returns -1 and gives no
      descriptor; the refused attempt still takes a slot of the file table and
      a use of the inode, which nothing gives back;
    - closing any file of the table that is open on the inode, a reader's as
      well, ends the protection, whether or not a writer is left. *)
Theorem file_open_one_writer s ps Q no p i :
  opened (cur_part s) s ps Q → find_open s ps no p i → fd_tables_ok s → i_open_cnts i < 2 ^ 32 - 1 →
  (∀ flag, flag = O_WRONLY ∨ flag = O_RDWR → global_slot s ≠ 32 →
     if decide (write_deny i = 0) then
       local_slot s ≠ 8 →
       ∃ s1, file_open no flag s = Ok (local_slot s, s1) ∧
         finodes s1 !! p = Some (set_write_deny 1 (set_i_open_cnts (i_open_cnts i + 1) i)) ∧
         file_table s1 !! Z.to_nat (global_slot s) = Some (File 0 flag p)
     else
       ∃ s1, file_open no flag s = Ok (-1, s1) ∧ fd_tab s1 = fd_tab s ∧
         finodes s1 !! p = Some (set_i_open_cnts (i_open_cnts i + 1) i) ∧
         file_table s1 !! Z.to_nat (global_slot s) = Some (File 0 flag p)) ∧
  (∀ g f, file_table s !! Z.to_nat g = Some f → fd_inode f = p → 1 < i_open_cnts i →
     ∃ s1, file_close g s = Ok (0, s1) ∧ finodes s1 !! p = Some (set_write_deny 0 (set_i_open_cnts (i_open_cnts i - 1) i))).
Proof.
  intros Ho Hf Ht Hc. pose proof Hf as (Hp & Hi & Hn). destruct (op_mem _ _ _ _ Ho p Hp) as (j & Hj & Hj1).
  rewrite Hi in Hj. injection Hj as <-. split.
  - intros flag Hfl Hg. pose proof (file_open_ok s ps Q no p i flag Ho Hf Ht Hg Hfl) as Hop. cbv zeta in Hop.
    rewrite u32_small in Hop by lia.
    assert (∀ i1, file_table (claimed s (global_slot s) flag p i1) !! Z.to_nat (global_slot s) = Some (File 0 flag p)) as Hslot.
    { intros i1. cbn [claimed file_table set_file_table set_finodes]. apply list_lookup_insert_eq.
      destruct (scan_from_ok (λ f, fd_inode f =? NULL) (file_table s) 29 3) as (Hr & _); [lia|destruct Ht; lia|].
      fold (global_slot s) in Hr. destruct Ht as [-> _]. lia. }
    destruct (decide (write_deny i = 0)) as [Hw|Hw].
    + intros Hlo. rewrite (proj2 (Z.eqb_eq _ _) Hw) in Hop.
      set (i1 := set_write_deny 1 (set_i_open_cnts (i_open_cnts i + 1) i)) in *. set (s0 := claimed s (global_slot s) flag p i1) in *.
      assert (fd_tables_ok s0) as Ht0 by (split; cbn [s0 claimed file_table fd_tab set_file_table set_finodes]; [rewrite length_insert|]; apply Ht).
      rewrite pcb_fd_install_ok in Hop by done. change (local_slot s0) with (local_slot s) in Hop.
      rewrite (proj2 (Z.eqb_neq (local_slot s) 8)) in Hop by done. eexists. split_and!; [exact Hop| |exact (Hslot i1)].
      cbn [s0 claimed finodes set_fd_tab set_file_table set_finodes]. by rewrite lookup_insert_eq.
    + rewrite (proj2 (Z.eqb_neq _ _) Hw) in Hop. eexists. split_and!; [exact Hop|done| |apply Hslot].
      cbn [claimed finodes set_file_table set_finodes]. by rewrite lookup_insert_eq.
  - intros g f Hg Hfi Hcc. eapply file_close_count; [exact Ho|exact Hp|exact Hi|lia|exact Hg|exact Hfi].
Qed.
End Proofs.


(** ** Witnesses *)

(** The inode 7 is open at 0xc0200000, with the block 650. *)
Definition ex_p : Z := 0xc0200000.
Definition ex_open_inode : inode := Inode 7 3 1 0 (650 :: replicate 12 0).
Definition ex_open_fs : fsys lheap (gmap Z Z) :=
  set_fheap {[ ex_p := 76 ]} (set_finodes {[ ex_p := ex_open_inode ]}
    (set_fcells {[ ex_list_addr := ListElem 0 (inode_tag ex_p); inode_tag ex_p := ListElem ex_list_addr (ex_list_addr + 8);
                   ex_list_addr + 8 := ListElem (inode_tag ex_p) 0 ]} ex_fs)).

Lemma ex_open_opened : opened ex_part ex_open_fs [ex_p] {[ ex_list_addr := [inode_tag ex_p] ]}.
Proof.
  assert (∀ p, p ∈ [ex_p] → p = ex_p) as Hp by (intros p; apply list_elem_of_singleton).
  split; cbn [ex_open_fs fcells fheap finodes ex_part open_inodes set_fheap set_finodes set_fcells].
  - apply queues_check_ok. vm_compute. reflexivity.
  - done.
  - intros l xs a [<- <-]%lookup_singleton_Some Ha. unfold cells in Ha.
    assert (a = ex_list_addr ∨ a = ex_list_addr + 8 ∨ a = inode_tag ex_p) as [-> | [-> | ->]] by (clear -Ha; set_solver).
    + left. done.
    + left. done.
    + right. exists ex_p, 76. split; [reflexivity|]. unfold inode_tag. lia.
  - by intros p ->%Hp.
  - apply NoDup_singleton.
  - intros p [i [<- _]%lookup_singleton_Some]. by eexists.
  - by intros p ->%Hp.
  - intros p l xs a ->%Hp [<- <-]%lookup_singleton_Some Ha Hr. unfold cells in Ha.
    assert (a = ex_list_addr ∨ a = ex_list_addr + 8 ∨ a = inode_tag ex_p) as [-> | [-> | ->]] by (clear -Ha; set_solver);
      [unfold ex_list_addr, ex_p in Hr; lia|unfold ex_list_addr, ex_p in Hr; lia|done].
  - intros p ->%Hp. exists ex_open_inode. split; [reflexivity|done].
  - intros p q i j ->%Hp ->%Hp. done.
Qed.

Lemma slots_first_free_witness :
  get_free_slot_in_global ex_fs = Ok (3, ex_fs) ∧ ∃ s', pcb_fd_install 3 ex_fs = Ok (3, s').
Proof.
  destruct (slots_first_free ex_fs 3) as [(k & Hk & _) (k' & s' & Hk' & Hc)]; [split; reflexivity|]. split.
  - rewrite Hk. assert (get_free_slot_in_global ex_fs = Ok (3, ex_fs)) as Hg by reflexivity. congruence.
  - exists s'. rewrite Hk'. f_equal. f_equal. destruct Hc as [(_ & _ & Hn) | (Hr & _ & _ & Hn)].
    + exfalso. apply (Hn 3 (-1)); [lia|reflexivity|reflexivity].
    + destruct (decide (k' = 3)) as [E|]; [exact E|]. exfalso. apply (Hn 3 (-1)); [lia|reflexivity|reflexivity].
Defined.

(** The inode is open twice, by a reader in slot 5 and by a writer. *)
Definition ex_written_fs : fsys lheap (gmap Z Z) :=
  set_file_table (<[5%nat := File 0 O_RDONLY ex_p]> (file_table ex_open_fs))
    (set_finodes {[ ex_p := set_write_deny 1 (set_i_open_cnts 2 ex_open_inode) ]} ex_open_fs).
Lemma file_open_one_writer_witness :
  (∃ s1, file_open 7 O_RDWR ex_open_fs = Ok (3, s1)) ∧ (∃ s1, file_open 7 O_WRONLY ex_written_fs = Ok (-1, s1)) ∧
  ∃ s1 i, file_close 5 ex_written_fs = Ok (0, s1) ∧ finodes s1 !! ex_p = Some i ∧ write_deny i = 0.
Proof.
  assert (opened ex_part ex_written_fs [ex_p] {[ ex_list_addr := [inode_tag ex_p] ]}) as Ho.
  { pose proof (opened_upd ex_part ex_open_fs [ex_p] {[ ex_list_addr := [inode_tag ex_p] ]} ex_p ex_open_inode
      (set_write_deny 1 (set_i_open_cnts 2 ex_open_inode)) ex_open_opened ltac:(by apply list_elem_of_singleton) eq_refl eq_refl ltac:(cbn; lia)) as Hup.
    split; apply Hup. }
  split; [|split].
  - destruct (file_open_one_writer ex_open_fs [ex_p] {[ ex_list_addr := [inode_tag ex_p] ]} 7 ex_p ex_open_inode) as [Hw _].
    + exact ex_open_opened.
    + split_and!; [by apply list_elem_of_singleton|reflexivity|reflexivity].
    + split; reflexivity.
    + cbn. lia.
    + destruct (Hw O_RDWR (or_intror eq_refl) ltac:(discriminate) ltac:(discriminate)) as (s1 & Hs & _). exists s1. exact Hs.
  - destruct (file_open_one_writer ex_written_fs [ex_p] {[ ex_list_addr := [inode_tag ex_p] ]} 7 ex_p
      (set_write_deny 1 (set_i_open_cnts 2 ex_open_inode))) as [Hw _].
    + exact Ho.
    + split_and!; [by apply list_elem_of_singleton|reflexivity|reflexivity].
    + split; reflexivity.
    + cbn. lia.
    + destruct (Hw O_WRONLY (or_introl eq_refl) ltac:(discriminate)) as (s1 & Hs & _). exists s1. exact Hs.
  - destruct (file_open_one_writer ex_written_fs [ex_p] {[ ex_list_addr := [inode_tag ex_p] ]} 7 ex_p
      (set_write_deny 1 (set_i_open_cnts 2 ex_open_inode))) as [_ Hcl].
    + exact Ho.
    + split_and!; [by apply list_elem_of_singleton|reflexivity|reflexivity].
    + split; reflexivity.
    + cbn. lia.
    + destruct (Hcl 5 (File 0 O_RDONLY ex_p) eq_refl eq_refl ltac:(cbn; lia)) as (s1 & Hs & Hi).
      eexists s1, _. split_and!; [exact Hs|exact Hi|reflexivity].
Defined.
