(* ===== verification/Fs.v ===== *)
(** * The file system calls (src/fs/fs.c)

    Path look-up and the system calls on files and directories, over the
    directories and files of Dir.v and File.v; formatting and mounting a
    partition.  A path name is an array that holds the path and its NUL. *)

From S2P Require Import Prelude CString CArray Path Bitmap Lists Disk Fsys Inode Dir File.

Record path_search_record := SearchRecord {
  searched_path : list Z;
  parent_dir : Z;
  file_type : file_types;
}.
Definition empty_record : path_search_record := SearchRecord (replicate 512 0) NULL FT_UNKNOWN.

Record stat := Stat { st_ino : Z; st_size : Z; st_filetype : file_types }.

Definition FSLASH : list Z := [47; 0].
Definition FDOT : list Z := [47; 46; 0].
Definition FDOTDOT : list Z := [47; 46; 46; 0].

(** "/", "/." or "/..". *)
Definition is_root (pathname : list Z) : outcome bool :=
  a ← astrcmp pathname FSLASH;
  if a =? 0 then Ok true else
  b ← astrcmp pathname FDOT;
  if b =? 0 then Ok true else
  c ← astrcmp pathname FDOTDOT; Ok (c =? 0).

Section Fs.
Context {H A : Type} `{Queues H} `{Allocator A}.
Abbreviation F := (K (fsys H A)).
(** What the stack holds where [path_depth_cnt] puts its name buffer. *)
Context (junk : list Z).

(** ** Looking up a path *)

(** The loop over the names: [dir_e] is the last entry found; the result is
    an inode number with the record, or what the end of the path leaves.  A
    name that was found is one entry of [fuel]. *)
Fixpoint search_loop (fuel : nat) (sub_path : option (list Z)) (name : list Z) (cur_dir : Z)
    (dir_e : option dir_entry) (parent_inode_no : Z) (rec : path_search_record)
    : F (Z * path_search_record) :=
  match fuel with
  | O => lift NoFuel
  | S fuel =>
      c ← lift (deref (name !! 0%nat));
      cp ← gets cur_part;
      if c =? 0 then
        dir_close (parent_dir rec) ;;
        p ← dir_open cp parent_inode_no;
        e ← lift (deref dir_e);
        mret (de_i_no e, SearchRecord (searched_path rec) p FT_DIRECTORY)
      else
        n ← lift (astrlen (searched_path rec));
        kASSERT (n <? 512) ;;
        sp ← lift (astrcat (searched_path rec) [SLASH; 0]);
        sp ← lift (astrcat sp name);
        let rec := SearchRecord sp (parent_dir rec) (file_type rec) in
        found ← search_dir_entry cp cur_dir name;
        match found with
        | Some e =>
            '(sub_path, name) ← lift (next_name sub_path);
            if f_type e =? type_nr FT_DIRECTORY then
              d ← get_dir cur_dir; i ← get_inode (d_inode d);
              dir_close cur_dir ;;
              p ← dir_open cp (de_i_no e);
              search_loop fuel sub_path name p (Some e) (i_no i) (SearchRecord sp p (file_type rec))
            else if f_type e =? type_nr FT_REGULAR then
              mret (de_i_no e, SearchRecord sp (parent_dir rec) FT_REGULAR)
            else search_loop fuel sub_path name cur_dir (Some e) parent_inode_no rec
        | None => mret (-1, rec)
        end
  end.

(** The inode number, or -1, and the record. *)
Definition search_file (pathname : list Z) : F (Z * path_search_record) :=
  root ← lift (is_root pathname);
  if root : bool then mret (0, SearchRecord (<[0%nat := 0]> (searched_path empty_record)) root_dir FT_DIRECTORY)
  else
    path_len ← lift (astrlen pathname);
    c ← lift (deref (pathname !! 0%nat));
    kASSERT ((c =? SLASH) && (1 <? path_len) && (path_len <? 512)) ;;
    '(sub_path, name) ← lift (path_parse pathname (replicate NAME_LEN 0));
    search_loop (S (S (length pathname))) sub_path name root_dir None 0
      (SearchRecord (searched_path empty_record) root_dir FT_UNKNOWN).

(** ** Files *)

(** The part of [pathname] behind its last slash. *)
Definition base_name (pathname : list Z) : outcome (list Z) :=
  k ← astrrchr pathname SLASH;
  match k with Some k => Ok (drop (S k) pathname) | None => Fault end.

Definition sys_open (pathname : list Z) (flags : Z) : F Z :=
  n ← lift (astrlen pathname);
  c ← lift (if n =? 0 then Fault else deref (pathname !! Z.to_nat (n - 1)));
  if c =? SLASH then mret (-1)
  else
    kASSERT (flags <=? 7) ;;
    pathname_depth ← lift (path_depth_cnt junk pathname);
    '(inode_no, rec) ← search_file pathname;
    let found := negb (inode_no =? -1) in
    if bool_decide (file_type rec = FT_DIRECTORY) then dir_close (parent_dir rec) ;; mret (-1)
    else
      path_searched_depth ← lift (path_depth_cnt junk (searched_path rec));
      if negb (pathname_depth =? path_searched_depth) then dir_close (parent_dir rec) ;; mret (-1)
      else if negb found && (Z.land flags O_CREAT =? 0) then dir_close (parent_dir rec) ;; mret (-1)
      else if found && negb (Z.land flags O_CREAT =? 0) then dir_close (parent_dir rec) ;; mret (-1)
      else if Z.land flags O_CREAT =? O_CREAT then
        filename ← lift (base_name pathname);
        fd ← file_create (parent_dir rec) filename flags;
        dir_close (parent_dir rec) ;;
        mret fd
      else file_open (u32 inode_no) flags.

Definition fd_local2global (local_fd : Z) : F Z :=
  t ← gets fd_tab;
  global_fd ← lift (deref (t !! Z.to_nat local_fd));
  kASSERT ((0 <=? global_fd) && (global_fd <? MAX_FILE_OPEN)) ;;
  mret global_fd.

Definition sys_close (fd : Z) : F Z :=
  if 2 <? fd then
    _fd ← fd_local2global fd;
    ret ← file_close _fd;
    t ← gets fd_tab;
    modify (set_fd_tab (<[Z.to_nat fd := -1]> t)) ;;
    mret ret
  else mret (-1).

(** [console_put_str]: up to the NUL. *)
Fixpoint put_str (s : list Z) : outcome (list Z) :=
  match s with
  | [] => Fault
  | c :: s => if c =? 0 then Ok [] else r ← put_str s; Ok (c :: r)
  end.
Definition console_put_str (s : list Z) : F unit :=
  out ← lift (put_str s); c ← gets console; modify (set_console (c ++ out)).

Definition sys_write (fd : Z) (buf : list Z) (count : Z) : F Z :=
  if fd <? 0 then mret (-1)
  else if fd =? stdout_no then
    if (1024 <? count) || bool_decide (length buf < Z.to_nat count)%nat then lift Fault
    else console_put_str (patch 0 (take (Z.to_nat count) buf) (replicate 1024 0)) ;; mret (s32 count)
  else
    _fd ← fd_local2global fd;
    f ← get_file _fd;
    if negb (Z.land (fd_flag f) O_WRONLY =? 0) || negb (Z.land (fd_flag f) O_RDWR =? 0) then
      n ← file_write _fd buf count; mret (s32 n)
    else mret (-1).

(** [getc] is [ioq_getchar] of the keyboard buffer. *)
Fixpoint read_keys (getc : F Z) (n : nat) (bs : list Z) : F (list Z) :=
  match n with
  | O => mret bs
  | S n => c ← getc; read_keys getc n (bs ++ [c])
  end.
Definition sys_read (getc : F Z) (fd count : Z) : F (Z * list Z) :=
  if (fd <? 0) || (fd =? stdout_no) || (fd =? stderr_no) then mret (-1, [])
  else if fd =? stdin_no then
    bs ← read_keys getc (Z.to_nat count) [];
    mret (if count =? 0 then -1 else s32 count, bs)
  else
    _fd ← fd_local2global fd;
    '(n, bs) ← file_read _fd count; mret (s32 n, bs).

Definition sys_lseek (fd offset whence : Z) : F Z :=
  if fd <? 0 then mret (-1)
  else
    kASSERT ((0 <? whence) && (whence <? 4)) ;;
    _fd ← fd_local2global fd;
    pf ← get_file _fd;
    i ← get_inode (fd_inode pf);
    let file_size := s32 (i_size i) in
    let new_pos :=
      if whence =? SEEK_SET then offset
      else if whence =? SEEK_CUR then s32 (s32 (fd_pos pf) + offset)
      else s32 (file_size + offset) in
    if (new_pos <? 0) || (s32 (file_size - 1) <? new_pos) then mret (-1)
    else put_file _fd (File (u32 new_pos) (fd_flag pf) (fd_inode pf)) ;; mret (s32 (u32 new_pos)).

(** The slots of the file table from [k] on: one with the inode number. *)
Fixpoint in_use (n : nat) (k inode_no : Z) : F bool :=
  match n with
  | O => mret false
  | S n =>
      f ← get_file k;
      hit ← (if fd_inode f =? NULL then mret false else i ← get_inode (fd_inode f); mret (inode_no =? i_no i));
      if hit : bool then mret true else in_use n (k + 1) inode_no
  end.

Definition sys_unlink (pathname : list Z) : F Z :=
  n ← lift (astrlen pathname);
  kASSERT (n <? MAX_PATH_LEN) ;;
  '(inode_no, rec) ← search_file pathname;
  kASSERT (negb (inode_no =? 0)) ;;
  if inode_no =? -1 then dir_close (parent_dir rec) ;; mret (-1)
  else if bool_decide (file_type rec = FT_DIRECTORY) then dir_close (parent_dir rec) ;; mret (-1)
  else
    used ← in_use (Z.to_nat MAX_FILE_OPEN) 0 (u32 inode_no);
    if used : bool then dir_close (parent_dir rec) ;; mret (-1)
    else
      io_buf ← fs_malloc (SECTOR_SIZE + SECTOR_SIZE);
      if io_buf =? NULL then dir_close (parent_dir rec) ;; mret (-1)
      else
        cp ← gets cur_part;
        delete_dir_entry cp (parent_dir rec) (u32 inode_no) (SECTOR_SIZE + SECTOR_SIZE) ;;
        inode_release cp (u32 inode_no) ;;
        fs_free io_buf ;;
        dir_close (parent_dir rec) ;;
        mret 0.

(** ** Directories *)

(** The name of an entry of a fresh directory: the characters over zeros. *)
Definition fresh_entry (name : list Z) (inode_no : Z) : list Z :=
  entry_bytes (DirEntry (patch 0 name (replicate 16 0)) inode_no (type_nr FT_DIRECTORY)).
(** The block of a new directory: "." and "..". *)
Definition fresh_dir (inode_no parent_no : Z) (size : nat) : list Z :=
  patch 0 (fresh_entry [46] inode_no ++ fresh_entry [46; 46] parent_no) (replicate size 0).

Definition mkdir_rollback (rollback_step : nat) (rec : path_search_record) (inode_no io_buf : Z) : F Z :=
  cp ← gets cur_part;
  when (bool_decide (2 ≤ rollback_step)%nat) (mark_bit (inode_bitmap cp) (u32 inode_no) 0) ;;
  dir_close (parent_dir rec) ;;
  fs_free io_buf ;;
  mret (-1).

Definition sys_mkdir (pathname : list Z) : F Z :=
  io_buf ← fs_malloc (SECTOR_SIZE * 2);
  if io_buf =? NULL then mret (-1)
  else
    '(inode_no, rec) ← search_file pathname;
    if negb (inode_no =? -1) then mkdir_rollback 1 rec inode_no io_buf
    else
      pathname_depth ← lift (path_depth_cnt junk pathname);
      path_searched_depth ← lift (path_depth_cnt junk (searched_path rec));
      if negb (pathname_depth =? path_searched_depth) then mkdir_rollback 1 rec inode_no io_buf
      else
        dirname ← lift (base_name (searched_path rec));
        cp ← gets cur_part;
        inode_no ← inode_bitmap_alloc cp;
        if inode_no =? -1 then mkdir_rollback 1 rec inode_no io_buf
        else
          let new_dir_inode := inode_init (u32 inode_no) in
          block_lba ← block_bitmap_alloc cp;
          if block_lba =? -1 then mkdir_rollback 2 rec inode_no io_buf
          else
            let new_dir_inode := set_i_sector 0 (u32 block_lba) new_dir_inode in
            let block_bitmap_idx := u32 (block_lba - data_start_lba (sb cp)) in
            kASSERT (negb (block_bitmap_idx =? 0)) ;;
            bitmap_sync cp block_bitmap_idx BLOCK_BITMAP ;;
            d ← get_dir (parent_dir rec); pi ← get_inode (d_inode d);
            ide_wr (u32 block_lba) (fresh_dir (u32 inode_no) (i_no pi) 1024) 1 ;;
            let new_dir_inode := set_i_size (u32 (2 * dir_entry_size (sb cp))) new_dir_inode in
            new_dir_entry ← lift (create_dir_entry dirname (u32 inode_no) (type_nr FT_DIRECTORY));
            ok ← sync_dir_entry (parent_dir rec) new_dir_entry (SECTOR_SIZE * 2);
            if negb ok then mkdir_rollback 2 rec inode_no io_buf
            else
              pi ← get_inode (d_inode d);
              inode_sync cp pi (SECTOR_SIZE * 2) ;;
              inode_sync cp new_dir_inode (SECTOR_SIZE * 2) ;;
              bitmap_sync cp (u32 inode_no) INODE_BITMAP ;;
              fs_free io_buf ;;
              dir_close (parent_dir rec) ;;
              mret 0.

(** [name[0] == '.'] where the second character is meant: never true, so
    only "/" is taken for the root here. *)
Definition sys_opendir (name : list Z) : F Z :=
  n ← lift (astrlen name);
  kASSERT (n <? MAX_PATH_LEN) ;;
  c0 ← lift (deref (name !! 0%nat));
  c1 ← (if c0 =? SLASH then lift (deref (name !! 1%nat)) else mret 1);
  if (c0 =? SLASH) && ((c1 =? 0) || (c0 =? DOT)) then mret root_dir
  else
    '(inode_no, rec) ← search_file name;
    ret ← (if inode_no =? -1 then mret NULL
           else if bool_decide (file_type rec = FT_DIRECTORY) then cp ← gets cur_part; dir_open cp (u32 inode_no)
           else mret NULL);
    dir_close (parent_dir rec) ;;
    mret ret.

Definition sys_closedir (dir : Z) : F Z :=
  if negb (dir =? NULL) then dir_close dir ;; mret 0 else mret (-1).

Definition sys_readdir (dir : Z) : F Z := kASSERT (negb (dir =? NULL)) ;; dir_read dir.

Definition sys_rewinddir (dir : Z) : F unit := d ← get_dir dir; put_dir dir (Dir (d_inode d) 0 (dir_buf d)).

Definition sys_rmdir (pathname : list Z) : F Z :=
  '(inode_no, rec) ← search_file pathname;
  kASSERT (negb (inode_no =? 0)) ;;
  retval ←
    (if inode_no =? -1 then mret (-1)
     else if bool_decide (file_type rec = FT_REGULAR) then mret (-1)
     else
       cp ← gets cur_part;
       dir ← dir_open cp (u32 inode_no);
       e ← dir_is_empty dir;
       r ← (if negb e then mret (-1)
            else x ← dir_remove (parent_dir rec) dir; mret (if x =? 0 then 0 else -1));
       dir_close dir ;;
       mret r);
  dir_close (parent_dir rec) ;;
  mret retval.

(** ** The working directory *)

(** [io_buf] is the size of the caller's buffer. *)
Definition get_parent_dir_inode_nr (child_inode_nr io_buf : Z) : F Z :=
  cp ← gets cur_part;
  p ← inode_open cp child_inode_nr;
  i ← get_inode p;
  block_lba ← sector_at i 0;
  kASSERT (data_start_lba (sb cp) <=? block_lba) ;;
  inode_close p ;;
  bs ← ide_rd block_lba 1 io_buf;
  let e := entry_of_bytes (drop 24 bs) in
  kASSERT ((de_i_no e <? 4096) && (f_type e =? type_nr FT_DIRECTORY)) ;;
  mret (de_i_no e).

(** The first entry of a sector with the inode number, as the rest of the
    sector from its name on. *)
Fixpoint child_in_sector (n : nat) (dir_e : list Z) (c_inode_nr : Z) : option (list Z) :=
  match n with
  | O => None
  | S n => if de_i_no (entry_of_bytes dir_e) =? c_inode_nr then Some dir_e
           else child_in_sector n (drop 24 dir_e) c_inode_nr
  end.
Fixpoint child_in_blocks (all_blocks : list Z) (c_inode_nr dir_entrys_per_sec io_buf : Z) : F (option (list Z)) :=
  match all_blocks with
  | [] => mret None
  | b :: all_blocks =>
      if b =? 0 then child_in_blocks all_blocks c_inode_nr dir_entrys_per_sec io_buf
      else
        bs ← ide_rd b 1 io_buf;
        match child_in_sector (Z.to_nat dir_entrys_per_sec) bs c_inode_nr with
        | Some e => mret (Some e)
        | None => child_in_blocks all_blocks c_inode_nr dir_entrys_per_sec io_buf
        end
  end.

(** [path] with a slash and the name put behind; [None] is the result -1. *)
Definition get_child_dir_name (p_inode_nr c_inode_nr : Z) (path : list Z) (io_buf : Z) : F (option (list Z)) :=
  cp ← gets cur_part;
  p ← inode_open cp p_inode_nr;
  i ← get_inode p;
  i12 ← sector_at i 12;
  all_blocks ← all_blocks_of i;
  let block_cnt := if negb (i12 =? 0) then 140%nat else 12%nat in
  inode_close p ;;
  dir_entrys_per_sec ← divide 512 (dir_entry_size (sb cp));
  r ← child_in_blocks (take block_cnt all_blocks) c_inode_nr dir_entrys_per_sec io_buf;
  match r with
  | Some e => path ← lift (astrcat path [SLASH; 0]); path ← lift (astrcat path e); mret (Some path)
  | None => mret None
  end.

(** From a directory up to the root; a directory is met at most once on the
    way, so 4096 rounds are enough. *)
Fixpoint cwd_loop (fuel : nat) (child_inode_nr : Z) (full_path_reverse : list Z) (io_buf : Z) : F (option (list Z)) :=
  match fuel with
  | O => lift NoFuel
  | S fuel =>
      if child_inode_nr =? 0 then mret (Some full_path_reverse)
      else
        parent_inode_nr ← get_parent_dir_inode_nr child_inode_nr io_buf;
        r ← get_child_dir_name parent_inode_nr child_inode_nr full_path_reverse io_buf;
        match r with
        | None => mret None
        | Some path => cwd_loop fuel parent_inode_nr path io_buf
        end
  end.

(** The names, last first, put in order: each round moves the last one. *)
Fixpoint reverse_loop (fuel : nat) (full_path_reverse buf : list Z) : outcome (list Z) :=
  match fuel with
  | O => NoFuel
  | S fuel =>
      k ← astrrchr full_path_reverse SLASH;
      match k with
      | None => Ok buf
      | Some k =>
          len ← astrlen buf;
          tl ← astrcpy (drop (Z.to_nat (u16 len)) buf) (drop k full_path_reverse);
          full_path_reverse ← aset full_path_reverse k 0;
          reverse_loop fuel full_path_reverse (take (Z.to_nat (u16 len)) buf ++ tl)
      end
  end.

(** The buffer as the call leaves it, [None] for NULL. *)
Definition sys_getcwd (buf : list Z) (size : Z) : F (option (list Z)) :=
  io_buf ← fs_malloc SECTOR_SIZE;
  if io_buf =? NULL then mret None
  else
    child_inode_nr ← gets cwd_nr;
    kASSERT ((0 <=? child_inode_nr) && (child_inode_nr <? 4096)) ;;
    if child_inode_nr =? 0 then
      buf ← lift (aset buf 0 SLASH); buf ← lift (aset buf 1 0); mret (Some buf)
    else if bool_decide (length buf < Z.to_nat size)%nat then lift Fault
    else
      let buf := replicate (Z.to_nat size) 0 ++ drop (Z.to_nat size) buf in
      r ← cwd_loop 4097 child_inode_nr (replicate 512 0) SECTOR_SIZE;
      match r with
      | None => fs_free io_buf ;; mret None
      | Some full_path_reverse =>
          n ← lift (astrlen full_path_reverse);
          kASSERT (n <=? size) ;;
          buf ← lift (reverse_loop 513 full_path_reverse buf);
          fs_free io_buf ;;
          mret (Some buf)
      end.

Definition sys_chdir (path : list Z) : F Z :=
  '(inode_no, rec) ← search_file path;
  ret ← (if negb (inode_no =? -1) && bool_decide (file_type rec = FT_DIRECTORY)
         then modify (set_cwd_nr (u32 inode_no)) ;; mret 0 else mret (-1));
  dir_close (parent_dir rec) ;;
  mret ret.

(** [None] is the result -1. *)
Definition sys_stat (path : list Z) : F (option stat) :=
  root ← lift (is_root path);
  if root : bool then
    d ← get_dir root_dir; i ← get_inode (d_inode d); mret (Some (Stat 0 (i_size i) FT_DIRECTORY))
  else
    '(inode_no, rec) ← search_file path;
    ret ←
      (if negb (inode_no =? -1) then
         cp ← gets cur_part;
         p ← inode_open cp (u32 inode_no);
         i ← get_inode p;
         inode_close p ;;
         mret (Some (Stat (u32 inode_no) (i_size i) (file_type rec)))
       else mret None);
    dir_close (parent_dir rec) ;;
    mret ret.

Definition sys_putchar (char_asci : Z) : F unit := c ← gets console; modify (set_console (c ++ [char_asci])).
End Fs.

(** ** Properties of the calls on files *)

Section Proofs.
Context {H A : Type} `{Queues H} `{Allocator A}.
Implicit Types s : fsys H A.

Lemma put_str_ok w r : Forall char_ok w → put_str (w ++ 0 :: r) = Ok w.
Proof.
  induction 1 as [|x w Hx Hw IH]; [done|]. cbn [app put_str]. unfold char_ok in Hx. rewrite (proj2 (Z.eqb_neq x 0)) by lia. by rewrite IH.
Qed.

(** A text that ends before the kernel's buffer does appears on the screen. *)
Lemma sys_write_stdout s w r : Forall char_ok w → (length w < Z.to_nat 1024)%nat →
  sys_write stdout_no (w ++ r) (Z.of_nat (length w)) s = Ok (Z.of_nat (length w), set_console (console s ++ w) s).
Proof.
  intros Hw Hl. unfold sys_write. change (stdout_no <? 0) with false. change (stdout_no =? stdout_no) with true. cbv iota.
  rewrite (proj2 (Z.ltb_ge 1024 _)) by lia. rewrite bool_decide_eq_false_2 by (rewrite length_app; lia). cbn [orb]. cbv iota.
  rewrite Nat2Z.id, take_app_length. unfold console_put_str. change 1024%nat with (Z.to_nat 1024).
  remember (Z.to_nat 1024) as m eqn:Em.
  assert (put_str (patch 0 w (replicate m 0)) = Ok w) as ->.
  { unfold patch. rewrite take_0. cbn [app]. rewrite drop_replicate. replace (m - (0 + length w))%nat with (S (m - S (length w))) by lia.
    by apply put_str_ok. }
  kgo. unfold mret, K_ret. rewrite s32_small by lia. done.
Qed.

(** The descriptor [fd] of the running thread is the file [f], slot [g]. *)
Definition fd_file (s : fsys H A) (fd g : Z) (f : file) : Prop :=
  fd_tab s !! Z.to_nat fd = Some g ∧ 0 ≤ g < 32 ∧ file_table s !! Z.to_nat g = Some f.

Lemma fd_global {B} s fd g f (k : Z → K (fsys H A) B) : fd_file s fd g f → (fd_local2global fd ≫= k) s = k g s.
Proof.
  intros (Hfd & Hg & _). unfold fd_local2global. kgo. rewrite Hfd. cbn [deref]. kgo.
  rewrite (proj2 (Z.leb_le 0 g)), (proj2 (Z.ltb_lt g MAX_FILE_OPEN)) by (unfold MAX_FILE_OPEN; lia). by kgo.
Qed.

(** Where a seek counts from. *)
Definition seek_base (f : file) (i : inode) (whence : Z) : Z :=
  if whence =? SEEK_SET then 0 else if whence =? SEEK_CUR then fd_pos f else i_size i.

Lemma sys_lseek_ok s fd g f i offset whence :
  0 ≤ fd → fd_file s fd g f → finodes s !! fd_inode f = Some i → 0 ≤ i_size i < 2 ^ 31 → 0 ≤ fd_pos f < 2 ^ 31 →
  0 < whence < 4 → - 2 ^ 31 ≤ seek_base f i whence + offset < 2 ^ 31 →
  let new_pos := seek_base f i whence + offset in
  sys_lseek fd offset whence s =
    if decide (0 ≤ new_pos < i_size i) then
      Ok (new_pos, set_file_table (<[Z.to_nat g := File new_pos (fd_flag f) (fd_inode f)]> (file_table s)) s)
    else Ok (-1, s).
Proof.
  intros Hfd Hf Hi Hs Hp Hw Hr new_pos. unfold sys_lseek. rewrite (proj2 (Z.ltb_ge fd 0)) by done.
  rewrite (proj2 (Z.ltb_lt 0 whence)), (proj2 (Z.ltb_lt whence 4)) by lia. cbn [andb]. kgo.
  erewrite fd_global by exact Hf. destruct Hf as (_ & _ & Hg). erewrite get_file_step by exact Hg. erewrite get_inode_step by exact Hi.
  rewrite (s32_small (i_size i)), (s32_small (i_size i - 1)) by lia.
  assert ((if whence =? SEEK_SET then offset else if whence =? SEEK_CUR then s32 (s32 (fd_pos f) + offset)
           else s32 (i_size i + offset)) = new_pos) as ->.
  { unfold new_pos, seek_base in *. destruct (whence =? SEEK_SET); [lia|].
    destruct (whence =? SEEK_CUR); rewrite ?(s32_small (fd_pos f)) by lia; by rewrite s32_small. }
  case_decide as Hd.
  - rewrite (proj2 (Z.ltb_ge new_pos 0)), (proj2 (Z.ltb_ge (i_size i - 1) new_pos)) by lia. cbn [orb]. unfold put_file. kgo.
    rewrite u32_small, s32_small by lia. done.
  - destruct (Z.ltb_spec new_pos 0); [done|]. rewrite (proj2 (Z.ltb_lt (i_size i - 1) new_pos)) by lia. done.
Qed.

(** [sys_lseek] moves the position of a file to the offset from its
    start, the current position or its end when that lies inside the file,
    and returns it; otherwise it returns -1 and the file keeps its position. *)
Theorem sys_lseek_in_file s fd g f i offset whence :
  0 ≤ fd → fd_file s fd g f → finodes s !! fd_inode f = Some i → 0 ≤ i_size i < 2 ^ 31 → 0 ≤ fd_pos f < 2 ^ 31 →
  0 < whence < 4 → - 2 ^ 31 ≤ seek_base f i whence + offset < 2 ^ 31 →
  let new_pos := seek_base f i whence + offset in
  sys_lseek fd offset whence s =
    if decide (0 ≤ new_pos < i_size i) then
      Ok (new_pos, set_file_table (<[Z.to_nat g := File new_pos (fd_flag f) (fd_inode f)]> (file_table s)) s)
    else Ok (-1, s).
Proof. apply sys_lseek_ok. Qed.

Definition writable (f : file) : Prop := Z.land (fd_flag f) O_WRONLY ≠ 0 ∨ Z.land (fd_flag f) O_RDWR ≠ 0.
Lemma writable_test f :
  writable f → negb (Z.land (fd_flag f) O_WRONLY =? 0) || negb (Z.land (fd_flag f) O_RDWR =? 0) = true.
Proof. intros [Hf|Hf]; apply Z.eqb_neq in Hf; rewrite Hf; cbn; [done|by rewrite orb_true_r]. Qed.

(** C26: What is written to a file is read back: for a file whose contents stay
    within its first block, [sys_write] appends the bytes and returns their
    number, and after [sys_lseek] to the old end [sys_read] returns exactly
    these bytes. *)
Theorem write_seek_read getc s tb fd g f i b bs count x :
  never_full A → 2 < fd → fd_file s fd g f → writable f → small_file s tb g (fd_inode f) f i b bs count →
  Z.of_nat (length x) = count → Forall (λ y, 0 ≤ y < 256) x →
  ∃ s1 s2 s3, sys_write fd x count s = Ok (count, s1) ∧
    sys_lseek fd (i_size i) SEEK_SET s1 = Ok (i_size i, s2) ∧
    sys_read getc fd count s2 = Ok ((count, x), s3).
Proof.
  intros Hnf Hfd Hf Hwr Hsf Hx Hxr. pose proof (sf_inode _ _ _ _ _ _ _ _ _ Hsf) as (_ & _ & Hok).
  destruct Hok as (_ & Hws & _). unfold word_ok in Hws. pose proof (sf_count _ _ _ _ _ _ _ _ _ Hsf) as [Hc Hsz].
  destruct (file_write_small s tb g _ f i b bs count x Hnf Hsf Hx Hxr) as (s1 & Hw & Hd1 & Hi1 & Hft1 & _ & _ & Hfd1).
  destruct Hf as (Hfdt & Hg & Hft). pose proof (lookup_lt_Some _ _ _ Hft) as Hlt.
  set (f1 := File (u32 (u32 (i_size i - 1) + count)) (fd_flag f) (fd_inode f)) in *.
  set (i1 := set_i_size (i_size i + count) i) in *.
  assert (fd_file s1 fd g f1) as Hf1 by (split_and!; [by rewrite Hfd1|lia|lia|rewrite Hft1; by apply list_lookup_insert_eq]).
  assert (u32 (u32 (i_size i - 1) + count) = i_size i - 1 + count) as Hpos.
  { unfold u32. rewrite Zplus_mod_idemp_l. apply Z.mod_small. lia. }
  pose proof (sys_lseek_ok s1 fd g f1 i1 (i_size i) SEEK_SET ltac:(lia) Hf1 Hi1 ltac:(cbn; lia) ltac:(unfold f1; cbn [fd_pos]; rewrite Hpos; lia) ltac:(done) ltac:(change (seek_base f1 i1 SEEK_SET) with 0; lia)) as Hl.
  cbv zeta in Hl. change (seek_base f1 i1 SEEK_SET) with 0 in Hl. rewrite Z.add_0_l, decide_True in Hl by (cbn; lia).
  set (s2 := set_file_table _ s1) in Hl. destruct (sf_block _ _ _ _ _ _ _ _ _ Hsf) as (Hb & _ & Hbl).
  assert (file_table s2 !! Z.to_nat g = Some (File (i_size i) (fd_flag f1) (fd_inode f1))) as Hf2.
  { apply list_lookup_insert_eq. by rewrite Hft1, length_insert. }
  destruct (file_read_small s2 g _ i1 b _ count Hnf Hf2 Hi1 Hb Hbl Hd1 ltac:(cbn; lia) Hc ltac:(cbn; lia) ltac:(cbn; lia)) as (s3 & Hr).
  exists s1, s2, s3. split_and!; [|exact Hl|].
  - unfold sys_write, stdout_no. rewrite (proj2 (Z.ltb_ge fd 0)), (proj2 (Z.eqb_neq fd 1)) by lia.
    erewrite fd_global by (split_and!; [exact Hfdt|lia|lia|exact Hft]). erewrite get_file_step by exact Hft.
    rewrite (writable_test f Hwr). kstep Hw. by rewrite s32_small by lia.
  - unfold sys_read, stdout_no, stderr_no, stdin_no.
    rewrite (proj2 (Z.ltb_ge fd 0)), (proj2 (Z.eqb_neq fd 1)), (proj2 (Z.eqb_neq fd 2)), (proj2 (Z.eqb_neq fd 0)) by lia. cbn [orb].
    erewrite fd_global by (split_and!; [by rewrite <- Hfd1 in Hfdt|lia|lia|exact Hf2]). kstep Hr.
    rewrite s32_small by lia. cbn [fd_pos]. pose proof (sf_read _ _ _ _ _ _ _ _ _ Hsf) as (_ & Hlen & _).
    replace (Z.to_nat count) with (length x) by lia. rewrite patch_same by lia. done.
Qed.
End Proofs.

(** ** Witnesses *)

(** Descriptor 3 is the open file of File.v, for reading and writing. *)
Definition ex_fd_fs : fsys lheap (gmap Z Z) :=
  set_fd_tab [0; 1; 2; 3; -1; -1; -1; -1] (set_file_table (<[3%nat := File 1 2 ex_p]> (replicate 32 (File 0 0 0))) ex_open_fs).

Lemma ex_fd_file : fd_file ex_fd_fs 3 3 (File 1 2 ex_p).
Proof. split_and!; [reflexivity|lia|lia|reflexivity]. Qed.
Lemma ex_small_file : small_file ex_fd_fs ex_table 3 ex_p (File 1 2 ex_p) ex_open_inode 650 (replicate 512 0) 5.
Proof.
  split.
  - reflexivity.
  - split; [reflexivity|]. split; [reflexivity|]. split_and!; [unfold word_ok; cbn; lia..|reflexivity|].
    constructor; [unfold word_ok; lia|]. apply Forall_replicate. unfold word_ok. lia.
  - split; [reflexivity|]. split; [discriminate|]. change max_lba with 163839. lia.
  - split; [apply (zero_disk_lookup (Z.to_nat 700) 650); lia|]. split; [reflexivity|]. apply Forall_replicate. lia.
  - split; [lia|cbn; lia].
  - exact ex_table_ok.
  - intros pos Hpos. vm_compute in Hpos. injection Hpos as <-. reflexivity.
  - right. cbn. lia.
Qed.

Lemma sys_lseek_in_file_witness : ∃ s', sys_lseek 3 (-1) SEEK_END ex_fd_fs = Ok (2, s').
Proof.
  pose proof (sys_lseek_in_file ex_fd_fs 3 3 (File 1 2 ex_p) ex_open_inode (-1) SEEK_END ltac:(lia) ex_fd_file eq_refl
    ltac:(cbn; lia) ltac:(cbn; lia) ltac:(done) ltac:(vm_compute; split; [discriminate|reflexivity])) as Hl.
  eexists. exact Hl.
Defined.

Lemma write_seek_read_witness :
  ∃ s1 s2 s3, sys_write 3 [104; 101; 108; 108; 111] 5 ex_fd_fs = Ok (5, s1) ∧ sys_lseek 3 3 SEEK_SET s1 = Ok (3, s2) ∧
    sys_read (mret 0) 3 5 s2 = Ok ((5, [104; 101; 108; 108; 111]), s3).
Proof.
  apply (write_seek_read (mret 0) ex_fd_fs ex_table 3 3 (File 1 2 ex_p) ex_open_inode 650 (replicate 512 0) 5).
  - exact bump_never_full.
  - lia.
  - exact ex_fd_file.
  - right. discriminate.
  - exact ex_small_file.
  - reflexivity.
  - repeat constructor; discriminate.
Defined.
