(* ===== verification/Format.v ===== *)
(** * Formatting and mounting (src/fs/fs.c: partition_format, mount_partition,
    filesys_init)

    The layout of a partition, in sectors from its start: boot sector, super
    block, block bitmap, inode bitmap, inode table, data. *)

From S2P Require Import Prelude CString CArray Path Bitmap Lists Disk Fsys Inode Dir File Fs.

Definition MAX_FILES_PER_PART : Z := 4096.
Definition BITS_PER_SECTOR : Z := 4096.
Definition FS_MAGIC : Z := 0x19590318.
Definition DIV_ROUND_UP (x step : Z) : Z := u32 (x + step - 1) / step.

(** The super block of a partition of [cnt] sectors at [start], and the number
    of bits of its block bitmap. *)
Definition format_layout (start cnt : Z) : super_block * Z :=
  let boot_sector_sects := 1 in
  let super_block_sects := 1 in
  let inode_bitmap_sects := DIV_ROUND_UP MAX_FILES_PER_PART BITS_PER_SECTOR in
  let inode_table_sects := DIV_ROUND_UP (sizeof_inode * MAX_FILES_PER_PART) SECTOR_SIZE in
  let used_sects := boot_sector_sects + super_block_sects + inode_bitmap_sects + inode_table_sects in
  let free_sects := u32 (cnt - used_sects) in
  let block_bitmap_sects := DIV_ROUND_UP free_sects BITS_PER_SECTOR in
  let block_bitmap_bit_len := u32 (free_sects - block_bitmap_sects) in
  let block_bitmap_sects := DIV_ROUND_UP block_bitmap_bit_len BITS_PER_SECTOR in
  let block_bitmap_lba := u32 (start + 2) in
  let inode_bitmap_lba := u32 (block_bitmap_lba + block_bitmap_sects) in
  let inode_table_lba := u32 (inode_bitmap_lba + inode_bitmap_sects) in
  let data_start_lba := u32 (inode_table_lba + inode_table_sects) in
  (SuperBlock FS_MAGIC cnt MAX_FILES_PER_PART start block_bitmap_lba block_bitmap_sects inode_bitmap_lba
     inode_bitmap_sects inode_table_lba inode_table_sects data_start_lba 0 sizeof_dir_entry,
   block_bitmap_bit_len).

(** [while (bit_idx <= last_bit) buf[last_byte] &= ~(1 << bit_idx++);] on the
    byte [v]; [n] rounds are left. *)
Fixpoint clear_low_bits (n : nat) (bit_idx v : Z) : Z :=
  match n with
  | O => v
  | S n => clear_low_bits n (bit_idx + 1) (u8 (Z.land v (Z.lnot (Z.shiftl 1 bit_idx))))
  end.

(** The block bitmap, in a cleared buffer of [size] bytes. *)
Definition block_bitmap_image (size : nat) (bit_len : Z) : outcome (list Z) :=
  let buf := replicate size 0 in
  buf ← aset buf 0 1;
  let block_bitmap_last_byte := bit_len / 8 in
  let block_bitmap_last_bit := bit_len mod 8 in
  let last_size := SECTOR_SIZE - block_bitmap_last_byte mod SECTOR_SIZE in
  if bool_decide (size < Z.to_nat (block_bitmap_last_byte + last_size))%nat then Fault
  else
    let buf := patch (Z.to_nat block_bitmap_last_byte) (replicate (Z.to_nat last_size) 255) buf in
    v ← deref (buf !! Z.to_nat block_bitmap_last_byte);
    aset buf (Z.to_nat block_bitmap_last_byte) (clear_low_bits (Z.to_nat (block_bitmap_last_bit + 1)) 0 v).

(** The image of an area of [size] bytes that starts with [bs]. *)
Definition image (size : nat) (bs : list Z) : list Z := patch 0 bs (replicate size 0).

Section Format.
Context {H A : Type} `{Queues H} `{Allocator A}.
Abbreviation F := (K (fsys H A)).

(** [pad] is what the stack holds in the padding of the super block. *)
Definition partition_format (pad : list Z) (start cnt : Z) : F unit :=
  let '(sb, block_bitmap_bit_len) := format_layout start cnt in
  ide_wr (u32 (start + 1)) (super_bytes sb pad) 1 ;;
  let buf_size := Z.max (block_bitmap_sects sb) (inode_bitmap_sects sb) in
  let buf_size := u32 (Z.max buf_size (inode_table_sects sb) * SECTOR_SIZE) in
  buf ← fs_malloc buf_size;
  if buf =? NULL then lift Fault
  else
    let size := Z.to_nat buf_size in
    bs ← lift (block_bitmap_image size block_bitmap_bit_len);
    ide_wr (block_bitmap_lba sb) bs (block_bitmap_sects sb) ;;
    ide_wr (inode_bitmap_lba sb) (image size [1]) (inode_bitmap_sects sb) ;;
    let root_inode := Inode 0 (u32 (dir_entry_size sb * 2)) 0 0 (data_start_lba sb :: replicate 12 0) in
    ide_wr (inode_table_lba sb) (image size (inode_bytes root_inode)) (inode_table_sects sb) ;;
    ide_wr (data_start_lba sb) (fresh_dir 0 0 size) 1 ;;
    fs_free buf.

(** [name] is the name of the partition [part], of which only the extent and
    the place of the list of open inodes are known before mounting. *)
Definition mount_partition (part_name name : list Z) (part : partition) : F bool :=
  r ← lift (astrcmp name part_name);
  if negb (r =? 0) then mret false
  else
    sb_buf ← fs_malloc SECTOR_SIZE;
    sb_p ← fs_malloc 512;
    kASSERT (negb (sb_p =? NULL)) ;;
    kASSERT (negb (sb_buf =? NULL)) ;;
    bs ← ide_rd (u32 (start_lba part + 1)) 1 SECTOR_SIZE;
    let sb := super_of_bytes bs in
    let block_len := u32 (block_bitmap_sects sb * SECTOR_SIZE) in
    block_bits ← fs_malloc block_len;
    kASSERT (negb (block_bits =? NULL)) ;;
    bbs ← ide_rd (block_bitmap_lba sb) (block_bitmap_sects sb) block_len;
    m ← gets fmem; modify (set_fmem (put_bytes m block_bits bbs)) ;;
    let inode_len := u32 (inode_bitmap_sects sb * SECTOR_SIZE) in
    inode_bits ← fs_malloc inode_len;
    kASSERT (negb (inode_bits =? NULL)) ;;
    ibs ← ide_rd (inode_bitmap_lba sb) (inode_bitmap_sects sb) inode_len;
    m ← gets fmem; modify (set_fmem (put_bytes m inode_bits ibs)) ;;
    h ← gets fcells; h ← lift (qinit h (open_inodes part)); modify (set_fcells h) ;;
    modify (set_cur_part
      (Partition (start_lba part) (sec_cnt part) sb (Bitmap block_len block_bits) (Bitmap inode_len inode_bits)
         (open_inodes part))) ;;
    mret true.

(** The partitions of one disk, by their numbers: those that exist and have
    no file system are formatted. *)
Fixpoint format_parts (pad : list Z) (parts : list partition) : F unit :=
  match parts with
  | [] => mret tt
  | part :: parts =>
      (if sec_cnt part =? 0 then mret tt
       else
         bs ← ide_rd (u32 (start_lba part + 1)) 1 SECTOR_SIZE;
         if magic (super_of_bytes bs) =? FS_MAGIC then mret tt
         else partition_format pad (start_lba part) (sec_cnt part)) ;;
      format_parts pad parts
  end.

Fixpoint mount_first (part_name : list Z) (parts : list (list Z * partition)) : F bool :=
  match parts with
  | [] => mret false
  | (name, part) :: parts =>
      hit ← mount_partition part_name name part;
      if hit : bool then mret true else mount_first part_name parts
  end.

(** The second disk of the first channel has its 12 partitions formatted; the
    partition number is not reset, so no further channel is looked at.
    [partition_list] are the partitions that were found, in order. *)
Definition filesys_init (pad : list Z) (sdb : list partition) (partition_list : list (list Z * partition)) : F unit :=
  sb_buf ← fs_malloc SECTOR_SIZE;
  kASSERT (negb (sb_buf =? NULL)) ;;
  format_parts pad (take 12 sdb) ;;
  fs_free sb_buf ;;
  mount_first [115; 100; 98; 49; 0; 0; 0; 0] partition_list ;;
  cp ← gets cur_part;
  open_root_dir cp ;;
  ft ← gets file_table;
  modify (set_file_table ((λ f, File (fd_pos f) (fd_flag f) NULL) <$> ft)).
End Format.

(** ** The layout *)

(** A partition that can be formatted: room for the tables and a data block. *)
Definition fits (start cnt : Z) : Prop := 0 ≤ start ∧ 613 ≤ cnt ∧ start + cnt ≤ max_lba + 1.

(** The regions follow each other and fill the partition; the block bitmap has
    a bit for each of the [bits] data blocks. *)
Record layout_ok (start cnt : Z) (sb : super_block) (bits : Z) : Prop := {
  lay_bb : block_bitmap_lba sb = start + 2;
  lay_bbs : 0 < block_bitmap_sects sb;
  lay_ib : inode_bitmap_lba sb = block_bitmap_lba sb + block_bitmap_sects sb;
  lay_ibs : inode_bitmap_sects sb = 1;
  lay_it : inode_table_lba sb = inode_bitmap_lba sb + 1;
  lay_its : inode_table_sects sb = 608;
  lay_data : data_start_lba sb = inode_table_lba sb + 608;
  lay_bits : 0 < bits ≤ 4096 * block_bitmap_sects sb;
  lay_fit : data_start_lba sb + bits ≤ start + cnt;
  lay_small : block_bitmap_sects sb ≤ 40;
}.

Lemma format_layout_ok start cnt :
  fits start cnt → layout_ok start cnt (format_layout start cnt).1 (format_layout start cnt).2.
Proof.
  intros (H0 & Hc & Hm). change max_lba with 163839 in Hm. unfold format_layout.
  change (DIV_ROUND_UP MAX_FILES_PER_PART BITS_PER_SECTOR) with 1.
  change (DIV_ROUND_UP (sizeof_inode * MAX_FILES_PER_PART) SECTOR_SIZE) with 608. change (1 + 1 + 1 + 608) with 611.
  rewrite (u32_small (cnt - 611)) by lia. unfold DIV_ROUND_UP, BITS_PER_SECTOR.
  rewrite (u32_small (cnt - 611 + 4096 - 1)) by lia. set (b0 := (cnt - 611 + 4096 - 1) / 4096).
  assert (1 ≤ b0 ≤ 40 ∧ 4096 * (b0 - 1) < cnt - 611 ≤ 4096 * b0) as Hb0 by (unfold b0; dm).
  rewrite (u32_small (cnt - 611 - b0)) by lia. rewrite (u32_small (cnt - 611 - b0 + 4096 - 1)) by lia.
  set (b1 := (cnt - 611 - b0 + 4096 - 1) / 4096).
  assert (1 ≤ b1 ≤ b0 ∧ cnt - 611 - b0 ≤ 4096 * b1) as Hb1 by (unfold b1; dm).
  cbn [fst snd]. rewrite (u32_small (start + 2)) by lia. rewrite (u32_small (start + 2 + b1)) by lia.
  rewrite (u32_small (start + 2 + b1 + 1)) by lia. rewrite (u32_small (start + 2 + b1 + 1 + 608)) by lia.
  split; cbn [block_bitmap_lba block_bitmap_sects inode_bitmap_lba inode_bitmap_sects inode_table_lba inode_table_sects data_start_lba]; lia.
Qed.

(** Bit [k] of a bitmap. *)
Definition bit_of (bs : list Z) (k : Z) : bool :=
  match bs !! Z.to_nat (k / 8) with Some v => Z.testbit v (k mod 8) | None => false end.

Lemma clear_low_bits_all r j :
  0 ≤ r < 8 → 0 ≤ j < 8 → Z.testbit (clear_low_bits (Z.to_nat (r + 1)) 0 255) j = (r <? j).
Proof.
  intros Hr Hj.
  assert (r = 0 ∨ r = 1 ∨ r = 2 ∨ r = 3 ∨ r = 4 ∨ r = 5 ∨ r = 6 ∨ r = 7) as Hr' by lia.
  assert (j = 0 ∨ j = 1 ∨ j = 2 ∨ j = 3 ∨ j = 4 ∨ j = 5 ∨ j = 6 ∨ j = 7) as Hj' by lia. clear Hr Hj.
  repeat destruct Hr' as [-> | Hr']; try subst r; repeat destruct Hj' as [-> | Hj']; try subst j; vm_compute; reflexivity.
Qed.

(** The buffer after the [memset] behind the valid bits: byte 0 is 1 and from
    the byte of the last bit on all bits are set. *)
Lemma lookup_marked n l size i :
  (0 < n + l ≤ S size)%nat → (i < n + l)%nat →
  patch n (replicate l 255) (1 :: replicate size 0) !! i =
    Some (if decide (n ≤ i)%nat then 255 else if decide (i = 0)%nat then 1 else 0).
Proof.
  intros Hn Hi. unfold patch. rewrite length_replicate. case_decide.
  - rewrite lookup_app_r; rewrite length_take; cbn [length]; rewrite length_replicate; [|lia].
    rewrite lookup_app_l by (rewrite length_replicate; lia). apply lookup_replicate_2. lia.
  - rewrite lookup_app_l by (rewrite length_take; cbn [length]; rewrite length_replicate; lia).
    rewrite lookup_take_lt by lia. destruct i as [|i]; [done|]. cbn [lookup list_lookup]. apply lookup_replicate_2. lia.
Qed.

(** Which bits the image of the block bitmap has, up to the end of the sector
    with the last one. *)
Lemma block_bitmap_image_bits size n :
  0 ≤ n → n / 8 + 512 ≤ Z.of_nat size →
  ∃ bs, block_bitmap_image size n = Ok bs ∧
    ∀ k, 0 ≤ k < 4096 * (n / 4096 + 1) → bit_of bs k = ((k =? 0) && (8 <=? n)) || (n <? k).
Proof.
  intros Hn Hs. unfold block_bitmap_image. assert (0 ≤ n / 8) by dm.
  destruct size as [|size]; [lia|]. cbv zeta.
  assert (aset (replicate (S size) 0) 0 1 = Ok (1 :: replicate size 0)) as -> by done. bsimpl.
  rewrite bool_decide_false by (unfold SECTOR_SIZE; dm).
  set (l := Z.to_nat (SECTOR_SIZE - n / 8 mod SECTOR_SIZE)).
  assert (Z.of_nat l = 512 * (n / 4096 + 1) - n / 8) as Hl by (unfold l, SECTOR_SIZE; dm).
  assert (1 ≤ l)%nat as Hl1 by (unfold l, SECTOR_SIZE; dm).
  assert (Z.to_nat (n / 8) + l ≤ S size)%nat as Hfit by dm.
  rewrite lookup_marked, decide_True by lia. bsimpl. unfold aset. rewrite lookup_marked, decide_True by lia. bsimpl.
  eexists. split; [done|]. intros k Hk. unfold bit_of.
  destruct (decide (k / 8 = n / 8)) as [Hkn|Hkn].
  - rewrite Hkn, list_lookup_insert_eq by (rewrite patch_length; cbn [length]; rewrite !length_replicate; lia).
    rewrite clear_low_bits_all by dm. destruct (Z.eqb_spec k 0) as [-> |]; cbn [andb orb].
    + destruct (Z.leb_spec 8 n); [dm|]. cbn [orb]. destruct (Z.ltb_spec n 0); [lia|]. apply Z.ltb_ge. dm.
    + destruct (Z.ltb_spec n k); [apply Z.ltb_lt|apply Z.ltb_ge]; dm.
  - rewrite list_lookup_insert_ne by dm. rewrite lookup_marked by dm. destruct (decide _) as [Hge|Hlt].
    + replace 255 with (Z.ones 8) by done. rewrite Z.ones_spec_low by dm. symmetry. apply orb_true_iff. right. apply Z.ltb_lt. dm.
    + rewrite (proj2 (Z.ltb_ge n k)), orb_false_r by dm. destruct (Z.eqb_spec k 0) as [-> |].
      * destruct (decide _); [|done]. rewrite (proj2 (Z.leb_le 8 n)) by dm. done.
      * cbn [andb]. destruct (decide _); [|apply Z.bits_0]. change 1 with (2 ^ 0) at 1. rewrite Z.pow2_bits_false by dm. done.
Qed.

(** ** Formatting *)

Section Proofs.
Context {H A : Type} `{Queues H} `{Allocator A}.
Implicit Types s : fsys H A.

Definition present (d : sectors) (lo hi : Z) : Prop := ∀ l, lo ≤ l < hi → is_Some (d !! l).

(** A write of [cnt] sectors from a buffer that may be longer. *)
Lemma ide_wr_run s lba bs cnt lo hi :
  present (fdisk s) lo hi → sectors_ok (fdisk s) → lo ≤ lba → lba + cnt ≤ hi → hi ≤ max_lba + 1 → 0 < cnt →
  (512 * Z.to_nat cnt ≤ length bs)%nat → Forall (λ b, 0 ≤ b < 256) bs →
  ∃ d', ide_wr lba bs cnt s = Ok (tt, set_fdisk d' s) ∧
    read_run d' lba (Z.to_nat cnt) = Some (take (512 * Z.to_nat cnt) bs) ∧
    (∀ l, l < lba ∨ lba + cnt ≤ l → d' !! l = fdisk s !! l) ∧ present d' lo hi ∧ sectors_ok d'.
Proof.
  intros Hp Hok Hlo Hhi Hm Hc Hl Hb.
  destruct (write_run_ok (fdisk s) lba (Z.to_nat cnt) (take (512 * Z.to_nat cnt) bs)) as (d' & Hw & Hr & Hf & Hs).
  { intros l ?. apply Hp. lia. }
  { rewrite length_take. lia. }
  exists d'. split_and!.
  - apply ide_wr_ok; [lia|done|]. by rewrite write_run_take.
  - done.
  - intros l ?. apply Hf. lia.
  - intros l ?. destruct (decide (lba ≤ l < lba + cnt)).
    + eapply (read_run_some d'); [exact Hr|lia].
    + rewrite Hf by lia. by apply Hp.
  - apply Hs; [done|by apply Forall_take].
Qed.

Lemma image_length size bs : (length bs ≤ size)%nat → length (image size bs) = size.
Proof. intros Hl. unfold image. rewrite patch_length; rewrite length_replicate; [done|lia]. Qed.
Lemma image_range size bs : Forall (λ b, 0 ≤ b < 256) bs → Forall (λ b, 0 ≤ b < 256) (image size bs).
Proof. intros Hb. apply patch_range; [done|]. apply Forall_replicate. lia. Qed.
Lemma image_take size bs k : (length bs ≤ size)%nat → (length bs ≤ k)%nat → take (length bs) (take k (image size bs)) = bs.
Proof. intros Hl Hk. rewrite take_take, Nat.min_l by done. unfold image, patch. rewrite take_0. cbn [app]. by apply take_app_length'. Qed.

Lemma clear_low_bits_range n k v : 0 ≤ v < 256 → 0 ≤ clear_low_bits n k v < 256.
Proof. revert k v. induction n as [|n IH]; intros k v Hv; [done|]. cbn [clear_low_bits]. apply IH. apply (u8_range). Qed.

Lemma block_bitmap_image_ok size n :
  0 ≤ n → n / 8 + 512 ≤ Z.of_nat size →
  ∃ bs, block_bitmap_image size n = Ok bs ∧ length bs = size ∧ Forall (λ b, 0 ≤ b < 256) bs.
Proof.
  intros Hn Hs. unfold block_bitmap_image. assert (0 ≤ n / 8) by dm.
  destruct size as [|size]; [lia|]. cbv zeta.
  assert (aset (replicate (S size) 0) 0 1 = Ok (1 :: replicate size 0)) as -> by done. bsimpl.
  rewrite bool_decide_false by (unfold SECTOR_SIZE; dm).
  assert (1 ≤ SECTOR_SIZE - n / 8 mod SECTOR_SIZE ≤ 512) by (unfold SECTOR_SIZE; dm).
  assert (n / 8 + (SECTOR_SIZE - n / 8 mod SECTOR_SIZE) ≤ Z.of_nat (S size)) by (unfold SECTOR_SIZE; dm).
  set (buf := patch _ _ _). assert (length buf = S size) as Hl.
  { unfold buf. rewrite patch_length; cbn [length]; rewrite !length_replicate; [done|lia]. }
  assert (Forall (λ b, 0 ≤ b < 256) buf) as Hr.
  { apply patch_range; [apply Forall_replicate; lia|]. constructor; [lia|]. apply Forall_replicate. lia. }
  destruct (lookup_lt_is_Some_2 buf (Z.to_nat (n / 8))) as [v Hv]; [lia|]. rewrite Hv. bsimpl. unfold aset. rewrite Hv. bsimpl.
  eexists. split; [done|]. split; [by rewrite length_insert|]. apply Forall_insert; [done|].
  apply clear_low_bits_range. rewrite Forall_lookup in Hr. by eapply Hr.
Qed.

(** The entries "." and ".." of the root directory. *)
Definition root_entries : list Z := fresh_entry [46] 0 ++ fresh_entry [46; 46] 0.
Lemma root_entries_ok : length root_entries = 48%nat ∧ Forall (λ b, 0 ≤ b < 256) root_entries.
Proof.
  split; [reflexivity|]. apply (bool_decide_eq_true (Forall (λ b, 0 ≤ b < 256) root_entries)). vm_compute. reflexivity.
Qed.

Lemma DIV_ROUND_UP_ok x : 0 ≤ x < 2 ^ 32 → word_ok (DIV_ROUND_UP x BITS_PER_SECTOR).
Proof.
  intros Hx. unfold DIV_ROUND_UP, word_ok, BITS_PER_SECTOR. pose proof (u32_range (x + 4096 - 1)). change (2 ^ 32) with 4294967296 in *. dm.
Qed.
Lemma format_words start cnt : fits start cnt → Forall word_ok (super_words (format_layout start cnt).1).
Proof.
  intros (H0' & Hc & Hm). change max_lba with 163839 in Hm. unfold format_layout, super_words.
  cbn [fst magic sb_sec_cnt inode_cnt part_lba_base block_bitmap_lba block_bitmap_sects inode_bitmap_lba inode_bitmap_sects
       inode_table_lba inode_table_sects data_start_lba root_inode_no dir_entry_size].
  repeat (constructor; [first [apply u32_range|apply DIV_ROUND_UP_ok, u32_range|unfold word_ok; lia|vm_compute; split; [discriminate|reflexivity]]|]).
  constructor.
Qed.

(** The next write of the formatting, inside the partition. *)
Ltac format_write lba bs cnt start end_ P S d W R F P' S' :=
  match goal with |- context [(ide_wr lba _ cnt ≫= _) ?st] =>
    destruct (ide_wr_run st lba bs cnt start end_) as (d & W & R & F & P' & S'); [exact P|exact S|lia|lia|lia|lia| | |kstep W]
  end.

Definition fdisk_at (d : sectors) (l : Z) (bs : list Z) : Prop := d !! l = Some bs.
(** The sectors that formatting writes. *)
Record formatted (pad : list Z) (start cnt : Z) (sb : super_block) (bb : list Z) (d d' : sectors) (size : nat) : Prop := {
  fm_super : fdisk_at d' (start + 1) (super_bytes sb pad);
  fm_blocks : read_run d' (block_bitmap_lba sb) (Z.to_nat (block_bitmap_sects sb)) = Some (take (512 * Z.to_nat (block_bitmap_sects sb)) bb);
  fm_inodes : fdisk_at d' (inode_bitmap_lba sb) (take 512 (image size [1]));
  fm_table : read_run d' (inode_table_lba sb) TABLE_SECTS =
    Some (take (512 * TABLE_SECTS) (image size (inode_bytes (Inode 0 (u32 (dir_entry_size sb * 2)) 0 0 (data_start_lba sb :: replicate 12 0)))));
  fm_root : fdisk_at d' (data_start_lba sb) (take 512 (image size root_entries));
  fm_frame : ∀ l, l < start ∨ start + cnt ≤ l → d' !! l = d !! l;
}.

Lemma read_one d lba bs : read_run d lba (Z.to_nat 1) = Some bs → d !! lba = Some bs.
Proof. change (Z.to_nat 1) with 1%nat. cbn [read_run]. destruct (d !! lba); [|done]. cbn [mbind option_bind]. by rewrite app_nil_r. Qed.

Lemma partition_format_ok s pad start cnt :
  never_full A → fits start cnt → present (fdisk s) start (start + cnt) → sectors_ok (fdisk s) →
  length pad = 460%nat → Forall (λ b, 0 ≤ b < 256) pad →
  ∃ s' bb, partition_format pad start cnt s = Ok (tt, s') ∧ fcells s' = fcells s ∧
    block_bitmap_image (Z.to_nat 311296) (format_layout start cnt).2 = Ok bb ∧ length bb = Z.to_nat 311296 ∧
    formatted pad start cnt (format_layout start cnt).1 bb (fdisk s) (fdisk s') (Z.to_nat 311296).
Proof.
  intros Hnf Hfit Hpr Hok Hpl Hpb. pose proof (format_layout_ok start cnt Hfit) as Hlay. unfold partition_format.
  destruct (format_layout start cnt) as [sb bits]. cbn [fst snd] in *. pose proof Hfit as (Hf0 & Hf1 & Hf2).
  change max_lba with 163839 in Hf2. assert (start + cnt ≤ max_lba + 1) by apply Hfit.
  destruct Hlay as [L1 L2 L3 L4 L5 L6 L7 L8 L9 L10]. rewrite (u32_small (start + 1)) by lia.
  assert (length (super_bytes sb pad) = 512%nat) as Hsl by (unfold super_bytes; rewrite length_app, words_bytes_length, Hpl; done).
  format_write (start + 1) (super_bytes sb pad) 1 start (start + cnt) Hpr Hok d1 W1 R1 F1 P1 S1.
  { lia. }
  { apply Forall_app. split; [apply words_bytes_range|done]. }
  rewrite L4, L6. replace (Z.max (Z.max (block_bitmap_sects sb) 1) 608) with 608 by lia. change (u32 (608 * SECTOR_SIZE)) with 311296.
  destruct (malloc_step (set_fdisk d1 s) 311296 Hnf ltac:(lia)) as (p & a & Hm & Hp & _). kstep Hm.
  rewrite (proj2 (Z.eqb_neq p NULL)) by (unfold NULL; lia). remember (Z.to_nat 311296) as size eqn:Esz.
  destruct (block_bitmap_image_ok size bits) as (bb & Hbb & Hbl & Hbr); [lia|dm|]. rewrite Hbb. kgo.
  destruct root_entries_ok as [Hrl Hrr]. set (ri := Inode 0 (u32 (dir_entry_size sb * 2)) 0 0 (data_start_lba sb :: replicate 12 0)) in *.
  assert (length (inode_bytes ri) = 76%nat) as Hril by (unfold inode_bytes; by rewrite words_bytes_length).
  format_write (block_bitmap_lba sb) bb (block_bitmap_sects sb) start (start + cnt) P1 S1 d2 W2 R2 F2 P2 S2; [lia|done|].
  format_write (inode_bitmap_lba sb) (image size [1]) 1 start (start + cnt) P2 S2 d3 W3 R3 F3 P3 S3.
  { rewrite image_length; cbn [length]; lia. }
  { apply image_range. repeat constructor; lia. }
  format_write (inode_table_lba sb) (image size (inode_bytes ri)) 608 start (start + cnt) P3 S3 d4 W4 R4 F4 P4 S4.
  { rewrite image_length; lia. }
  { apply image_range, words_bytes_range. }
  format_write (data_start_lba sb) (image size root_entries) 1 start (start + cnt) P4 S4 d5 W5 R5 F5 P5 S5.
  { rewrite image_length; lia. }
  { by apply image_range. }
  unfold fs_free. kgo. eexists _, bb. split; [done|]. split; [done|]. split; [done|]. split; [exact Hbl|].
  cbn [fdisk set_fheap set_fdisk] in *. split.
  - unfold fdisk_at. rewrite F5, F4, F3, F2 by lia. rewrite (read_one _ _ _ R1). f_equal. apply take_ge. lia.
  - rewrite (read_run_frame d2); [exact R2|]. intros l ?. rewrite F5, F4, F3 by lia. done.
  - unfold fdisk_at. rewrite F5, F4 by lia. by rewrite (read_one _ _ _ R3).
  - rewrite (read_run_frame d4); [exact R4|]. intros l ?. apply F5. unfold TABLE_SECTS in *. lia.
  - unfold fdisk_at. by rewrite (read_one _ _ _ R5).
  - intros l ?. rewrite F5, F4, F3, F2, F1 by lia. done.
Qed.

(** ** Mounting *)

Lemma astrcmp_refl a nm : holds a nm → astrcmp a a = Ok 0.
Proof. intros Ha. destruct (astrcmp_ok a a nm nm Ha Ha) as (r & Hr & Hz). rewrite Hr. f_equal. by apply Hz. Qed.

(** What mounting needs of the disk. *)
Record mountable (d : sectors) (start : Z) (sb : super_block) (bs bb ib : list Z) : Prop := {
  mn_super : d !! (start + 1) = Some bs;
  mn_sb : super_of_bytes bs = sb;
  mn_start : 0 ≤ start ∧ start + 1 ≤ max_lba;
  mn_blocks : read_run d (block_bitmap_lba sb) (Z.to_nat (block_bitmap_sects sb)) = Some bb;
  mn_bb : block_bitmap_lba sb ≤ max_lba ∧ 0 < block_bitmap_sects sb ≤ max_lba ∧ length bb = Z.to_nat (512 * block_bitmap_sects sb);
  mn_inodes : read_run d (inode_bitmap_lba sb) (Z.to_nat (inode_bitmap_sects sb)) = Some ib;
  mn_ib : inode_bitmap_lba sb ≤ max_lba ∧ 0 < inode_bitmap_sects sb ≤ max_lba ∧ length ib = Z.to_nat (512 * inode_bitmap_sects sb);
}.

(** The partition that is mounted. *)
Record mounted (part : partition) (sb' : super_block) (bb ib : list Z) (s' : fsys H A) : Prop := {
  mt_part : start_lba (cur_part s') = start_lba part ∧ sec_cnt (cur_part s') = sec_cnt part ∧ sb (cur_part s') = sb' ∧
    open_inodes (cur_part s') = open_inodes part;
  mt_blocks : bytes_at (fmem s') (bits (block_bitmap (cur_part s'))) bb;
  mt_block_len : btmp_bytes_len (block_bitmap (cur_part s')) = Z.of_nat (length bb);
  mt_inodes : bytes_at (fmem s') (bits (inode_bitmap (cur_part s'))) ib;
  mt_inode_len : btmp_bytes_len (inode_bitmap (cur_part s')) = Z.of_nat (length ib);
}.

Lemma mount_partition_ok s part Q name nm sb' bs bb ib :
  never_full A → holds name nm → mountable (fdisk s) (start_lba part) sb' bs bb ib →
  qrep (fcells s) Q → Q !! open_inodes part = None → unlinked Q (open_inodes part) → unlinked Q (open_inodes part + 8) →
  open_inodes part ∈ qcell (fcells s) → open_inodes part + 8 ∈ qcell (fcells s) →
  ∃ s', mount_partition name name part s = Ok (true, s') ∧ mounted part sb' bb ib s' ∧
    qrep (fcells s') (<[open_inodes part := []]> Q) ∧ fdisk s' = fdisk s.
Proof.
  intros Hnf Hnm [D1 D2 D3 D4 D5 D6 D7] Hq Hq1 Hq2 Hq3 Hq4 Hq5. unfold mount_partition.
  change max_lba with 163839 in *.
  rewrite (astrcmp_refl _ _ Hnm). kgo. change (negb (0 =? 0)) with false. cbn iota.
  destruct (malloc_step s SECTOR_SIZE Hnf ltac:(done)) as (p1 & a1 & M1 & P1 & _). kstep M1.
  destruct (malloc_step (set_fheap a1 s) 512 Hnf ltac:(done)) as (p2 & a2 & M2 & P2 & _). kstep M2.
  rewrite (proj2 (Z.eqb_neq p2 NULL)), (proj2 (Z.eqb_neq p1 NULL)) by (unfold NULL; lia). kgo.
  rewrite (u32_small (start_lba part + 1)) by lia.
  erewrite (K_step (ide_rd _ 1 _)) by (apply ide_rd_ok; [change max_lba with 163839; lia|lia|done|change (Z.to_nat 1) with 1%nat; cbn [read_run fdisk set_fheap]; rewrite D1; reflexivity]).
  rewrite app_nil_r, D2. unfold SECTOR_SIZE. rewrite (u32_small (block_bitmap_sects sb' * 512)) by lia.
  rewrite (u32_small (inode_bitmap_sects sb' * 512)) by lia.
  match goal with |- context [(fs_malloc ?n ≫= _) ?st] =>
    destruct (malloc_step st n Hnf ltac:(lia)) as (p3 & a3 & M3 & P3 & _ & U3 & _) end. kstep M3.
  rewrite (proj2 (Z.eqb_neq p3 NULL)) by (unfold NULL; lia). kgo.
  erewrite (K_step (ide_rd _ _ _)) by (apply ide_rd_ok; [change max_lba with 163839; lia|lia|lia|exact D4]). kgo.
  match goal with |- context [(fs_malloc ?n ≫= _) ?st] =>
    destruct (malloc_step st n Hnf ltac:(lia)) as (p4 & a4 & M4 & P4 & _ & _ & F4 & _) end. kstep M4.
  rewrite (proj2 (Z.eqb_neq p4 NULL)) by (unfold NULL; lia). kgo.
  erewrite (K_step (ide_rd _ _ _)) by (apply ide_rd_ok; [change max_lba with 163839; lia|lia|lia|exact D6]). kgo.
  destruct (qinit_spec (fcells s) Q (open_inodes part) Hq Hq1 Hq2 Hq3 Hq4 Hq5) as (h' & Hh & Hq' & _).
  cbn [fcells set_fmem set_fheap]. rewrite Hh. kgo. eexists. split; [reflexivity|].
  split; [|split; [exact Hq'|reflexivity]].
  split; cbn [cur_part set_cur_part fmem set_fmem set_fheap set_fcells block_bitmap inode_bitmap bits btmp_bytes_len]; [done| | | |].
  - apply put_bytes_frame; [apply put_bytes_at|].
    destruct (F4 p3 (block_bitmap_sects sb' * 512)) as [Hd|Hd]; [cbn [fheap set_fmem set_fheap]; rewrite U3; apply lookup_insert_eq|..]; lia.
  - lia.
  - apply put_bytes_at.
  - lia.
Qed.

(** The first slot of the table that formatting writes is the root inode. *)
Lemma root_inode_read size start :
  (512 ≤ size)%nat → word_ok start →
  inode_of_bytes (slot (take (512 * TABLE_SECTS) (image size (inode_bytes (Inode 0 48 0 0 (start :: replicate 12 0))))) 0) =
  Inode 0 48 0 0 (start :: replicate 12 0).
Proof.
  intros Hs Hw. set (ri := Inode 0 48 0 0 (start :: replicate 12 0)).
  assert (length (inode_bytes ri) = 76%nat) as Hril by (unfold inode_bytes; rewrite words_bytes_length; reflexivity).
  unfold slot. change (Z.to_nat (76 * 0)) with 0%nat. rewrite drop_0. assert (512 ≤ 512 * TABLE_SECTS)%nat as Hk by (unfold TABLE_SECTS; lia).
  remember (512 * TABLE_SECTS)%nat as k eqn:Ek. clear Ek. change (Z.to_nat 76) with 76%nat. rewrite <- Hril, image_take by lia.
  apply inode_roundtrip. split_and!; [unfold word_ok; cbn; lia..|reflexivity|].
  constructor; [exact Hw|]. apply Forall_replicate. unfold word_ok. lia.
Qed.

Lemma root_entries_read size : (512 ≤ size)%nat → take 48 (take 512 (image size root_entries)) = root_entries.
Proof. intros Hs. destruct root_entries_ok as [Hrl _]. rewrite <- Hrl. apply image_take; lia. Qed.

Lemma data_start_word sb : Forall word_ok (super_words sb) → word_ok (data_start_lba sb).
Proof. intros Hw. exact (proj1 (Forall_lookup word_ok (super_words sb)) Hw 10%nat (data_start_lba sb) eq_refl). Qed.

Lemma inode_image_head size : (512 ≤ size)%nat → Some (take 512 (image size [1])) = Some (1 :: replicate 511 0).
Proof.
  intros Hs. f_equal. unfold image, patch. rewrite take_0. cbn [app length]. change 512%nat with (S 511) at 1. cbn [take]. f_equal.
  destruct size as [|size]; [lia|]. cbn [Nat.add replicate drop]. rewrite drop_0, take_replicate. rewrite Nat.min_l by lia. reflexivity.
Qed.

(** ** Properties *)

(** Formatting creates an empty file system: the super block describes the
    layout of the partition, the inode table starts with the root inode, a
    directory of two entries in the first data block, and that block holds "."
    and "..", both for inode 0; nothing outside the partition is written. *)
Theorem partition_format_creates_root s pad start cnt :
  never_full A → fits start cnt → present (fdisk s) start (start + cnt) → sectors_ok (fdisk s) →
  length pad = 460%nat → Forall (λ b, 0 ≤ b < 256) pad →
  let sb := (format_layout start cnt).1 in
  ∃ s', partition_format pad start cnt s = Ok (tt, s') ∧ layout_ok start cnt sb (format_layout start cnt).2 ∧
    (∃ bs, fdisk s' !! (start + 1) = Some bs ∧ super_of_bytes bs = sb) ∧
    (∃ tb, read_run (fdisk s') (inode_table_lba sb) TABLE_SECTS = Some tb ∧
       inode_of_bytes (slot tb 0) = Inode 0 48 0 0 (data_start_lba sb :: replicate 12 0)) ∧
    (∃ bs, fdisk s' !! data_start_lba sb = Some bs ∧ take 48 bs = root_entries) ∧
    (∀ l, l < start ∨ start + cnt ≤ l → fdisk s' !! l = fdisk s !! l).
Proof.
  intros Hnf Hfit Hpr Hok Hpl Hpb sb.
  destruct (partition_format_ok s pad start cnt Hnf Hfit Hpr Hok Hpl Hpb) as (s' & bb & Hs & _ & _ & _ & [M1 _ _ M2 M3 M4]).
  pose proof (format_words start cnt Hfit) as Hw. fold sb in M1, M2, M3, Hw.
  assert (512 ≤ Z.to_nat 311296)%nat as Hbig by lia. remember (Z.to_nat 311296) as size eqn:Esz. clear Esz.
  exists s'. split; [exact Hs|]. split; [exact (format_layout_ok start cnt Hfit)|]. split_and!; [| | |exact M4].
  - eexists. split; [exact M1|]. exact (super_roundtrip sb pad Hw).
  - eexists. split; [exact M2|]. change (dir_entry_size sb) with 24. change (u32 (24 * 2)) with 48.
    exact (root_inode_read size (data_start_lba sb) Hbig (data_start_word sb Hw)).
  - eexists. split; [exact M3|]. exact (root_entries_read size Hbig).
Qed.

(** The block bitmap that formatting makes, for [n] data blocks: taken are
    the block of the root directory and the bits behind bit [n]; bit [n], which
    has no block, is free.  With fewer than 8 blocks that of the root directory
    is free as well. *)
Theorem format_block_bitmap start cnt :
  fits start cnt →
  let n := (format_layout start cnt).2 in
  ∃ bs, block_bitmap_image (Z.to_nat 311296) n = Ok bs ∧
    (∀ k, 0 ≤ k < 4096 * (n / 4096 + 1) → bit_of bs k = ((k =? 0) && (8 <=? n)) || (n <? k)) ∧ bit_of bs n = false.
Proof.
  intros Hfit n. pose proof (format_layout_ok start cnt Hfit) as [? ? ? ? ? ? ? Hb ? ?]. fold n in Hb.
  destruct (block_bitmap_image_bits (Z.to_nat 311296) n) as (bs & Hbs & Hk); [lia|dm|]. exists bs. split; [exact Hbs|].
  split; [exact Hk|]. rewrite Hk by dm. rewrite Z.ltb_irrefl, orb_false_r. destruct (Z.eqb_spec n 0); [lia|done].
Qed.

(** C27: what formatting writes, mounting reads: after [partition_format] the
    partition can be mounted, with the super block of its layout, the bitmap
    of inodes in which only the root inode is taken, the bitmap of blocks that
    formatting made, and no inode open. *)
Theorem format_mount_roundtrip s pad part Q name nm :
  never_full A → fits (start_lba part) (sec_cnt part) → present (fdisk s) (start_lba part) (start_lba part + sec_cnt part) →
  sectors_ok (fdisk s) → length pad = 460%nat → Forall (λ b, 0 ≤ b < 256) pad → holds name nm →
  qrep (fcells s) Q → Q !! open_inodes part = None → unlinked Q (open_inodes part) → unlinked Q (open_inodes part + 8) →
  open_inodes part ∈ qcell (fcells s) → open_inodes part + 8 ∈ qcell (fcells s) →
  let '(sb', n) := format_layout (start_lba part) (sec_cnt part) in
  ∃ s1 s2 bb, partition_format pad (start_lba part) (sec_cnt part) s = Ok (tt, s1) ∧
    mount_partition name name part s1 = Ok (true, s2) ∧
    block_bitmap_image (Z.to_nat 311296) n = Ok bb ∧
    mounted part sb' (take (512 * Z.to_nat (block_bitmap_sects sb')) bb) (1 :: replicate 511 0) s2 ∧
    qrep (fcells s2) (<[open_inodes part := []]> Q).
Proof.
  intros Hnf Hfit Hpr Hok Hpl Hpb Hnm Hq Hq1 Hq2 Hq3 Hq4 Hq5.
  destruct (partition_format_ok s pad _ _ Hnf Hfit Hpr Hok Hpl Hpb) as (s1 & bb & Hs & Hc & Hbb & Hbl & [M1 M2 M3 _ _ _]).
  pose proof (format_words _ _ Hfit) as Hw. pose proof (format_layout_ok _ _ Hfit) as [L1 L2 L3 L4 L5 L6 L7 L8 L9 L10].
  destruct (format_layout (start_lba part) (sec_cnt part)) as [sb' n]. cbn [fst snd] in *. destruct Hfit as (Hf0 & Hf1 & Hf2).
  assert (512 ≤ Z.to_nat 311296)%nat as Hbig by lia. rewrite <- Hc in Hq, Hq4, Hq5.
  destruct (mount_partition_ok s1 part Q name nm sb' _ _ (1 :: replicate 511 0) Hnf Hnm
    (Build_mountable (fdisk s1) (start_lba part) sb' _ _ _ M1 (super_roundtrip sb' pad Hw) ltac:(lia) M2
       ltac:(split_and!; [lia|lia|change max_lba with 163839; lia|rewrite length_take, Hbl; lia])
       ltac:(rewrite L4; change (Z.to_nat 1) with 1%nat; cbn [read_run]; rewrite M3; cbn [mbind option_bind]; rewrite app_nil_r; exact (inode_image_head _ Hbig))
       ltac:(rewrite L4; split_and!; [lia|lia|change max_lba with 163839; lia|reflexivity]))
    Hq Hq1 Hq2 Hq3 Hq4 Hq5) as (s2 & Hm & Hmt & Hq2' & _).
  exists s1, s2, bb. split; [exact Hs|]. split; [exact Hm|]. split; [exact Hbb|]. split; [exact Hmt|exact Hq2'].
Qed.
End Proofs.

(** ** Witnesses *)

(** A partition of 640 sectors at sector 10 of a cleared disk, before it is
    formatted; "sdb1" is its name. *)
Definition ex_pad : list Z := replicate 460 7.
Definition ex_name : list Z := [115; 100; 98; 49; 0; 0; 0; 0].
Definition ex_raw : partition :=
  Partition 10 640 (SuperBlock 0 0 0 0 0 0 0 0 0 0 0 0 0) (Bitmap 0 0) (Bitmap 0 0) ex_list_addr.

Lemma ex_fits : fits 10 640.
Proof. unfold fits. change max_lba with 163839. lia. Qed.
Lemma ex_present : present (fdisk ex_fs) 10 (10 + 640).
Proof. intros l Hl. eexists. apply zero_disk_lookup. lia. Qed.
Lemma ex_pad_range : Forall (λ b, 0 ≤ b < 256) ex_pad.
Proof. apply Forall_replicate. lia. Qed.
Lemma ex_name_holds : holds ex_name [115; 100; 98; 49].
Proof. exists [0; 0; 0]. split; [reflexivity|]. repeat constructor; discriminate. Qed.

Lemma partition_format_creates_root_witness :
  ∃ s' bs, partition_format ex_pad 10 640 ex_fs = Ok (tt, s') ∧ fdisk s' !! 622 = Some bs ∧ take 48 bs = root_entries.
Proof.
  destruct (partition_format_creates_root ex_fs ex_pad 10 640 bump_never_full ex_fits ex_present (zero_disk_ok _) eq_refl ex_pad_range)
    as (s' & Hs & _ & _ & _ & (bs & Hb & Ht) & _).
  exists s', bs. split; [exact Hs|]. split; [exact Hb|exact Ht].
Defined.

Lemma format_block_bitmap_witness :
  ∃ bs, block_bitmap_image (Z.to_nat 311296) 28 = Ok bs ∧ bit_of bs 0 = true ∧ bit_of bs 28 = false ∧ bit_of bs 29 = true.
Proof.
  destruct (format_block_bitmap 10 640 ex_fits) as (bs & Hb & Hk & Hn).
  exists bs. split; [exact Hb|]. split; [exact (Hk 0 ltac:(vm_compute; split; [discriminate|reflexivity]))|].
  split; [exact Hn|exact (Hk 29 ltac:(vm_compute; split; [discriminate|reflexivity]))].
Defined.

Lemma format_mount_roundtrip_witness :
  ∃ s1 s2, partition_format ex_pad 10 640 ex_fs = Ok (tt, s1) ∧ mount_partition ex_name ex_name ex_raw s1 = Ok (true, s2) ∧
    magic (sb (cur_part s2)) = FS_MAGIC ∧ queues (fcells s2) {[ ex_list_addr := [] ]}.
Proof.
  destruct (format_mount_roundtrip ex_fs ex_pad ex_raw ∅ ex_name [115; 100; 98; 49]) as (s1 & s2 & bb & Hf & Hm & _ & Hmt & Hq).
  - exact bump_never_full.
  - exact ex_fits.
  - exact ex_present.
  - apply zero_disk_ok.
  - reflexivity.
  - exact ex_pad_range.
  - exact ex_name_holds.
  - apply queues_check_ok. vm_compute. reflexivity.
  - reflexivity.
  - intros l xs Hl. by rewrite lookup_empty in Hl.
  - intros l xs Hl. by rewrite lookup_empty in Hl.
  - change (ex_list_addr ∈ dom ex_fs_cells). apply elem_of_dom. eexists. reflexivity.
  - change (ex_list_addr + 8 ∈ dom ex_fs_cells). apply elem_of_dom. eexists. reflexivity.
  - exists s1, s2. split; [exact Hf|]. split; [exact Hm|]. split; [|exact Hq].
    destruct (mt_part _ _ _ _ _ Hmt) as (_ & _ & Hsb & _). rewrite Hsb. reflexivity.
Defined.

(** A whole session on a blank disk: the system formats and mounts the
    partition; a process makes the directory /a, creates /a/f in it, writes
    "hello", goes back to the start and reads four bytes, changes its working
    directory to /a and asks for its name. *)
Definition ex_session {B} (m : K (fsys lheap (gmap Z Z)) B) : outcome B :=
  '(_, s) ← filesys_init ex_pad [ex_raw] [(ex_name, ex_raw)] ex_fs; '(b, _) ← m s; Ok b.
Definition ex_junk : list Z := replicate 16 9.
Definition ex_dir : list Z := [47; 97; 0].
Definition ex_file : list Z := [47; 97; 47; 102; 0].

Example session :
  ex_session (sys_mkdir ex_junk ex_dir ;; fd ← sys_open ex_junk ex_file (Z.lor O_CREAT O_RDWR);
           n ← sys_write fd [104; 101; 108; 108; 111] 5; p ← sys_lseek fd 0 SEEK_SET;
           r ← sys_read (mret 0) fd 4; sys_chdir ex_dir ;; w ← sys_getcwd (replicate 16 7) 10; mret (fd, n, p, r, take 3 <$> w)) =
  Ok (3, 5, 0, (4, [104; 101; 108; 108]), Some [47; 97; 0]).
Proof. vm_compute. reflexivity. Qed.

(** Removing a file reports success, but its entry stays in the directory
    ([delete_dir_entry_misses]): the file is still found. *)
Example unlink_leaves_entry :
  ex_session (sys_mkdir ex_junk ex_dir ;; fd ← sys_open ex_junk ex_file (Z.lor O_CREAT O_RDWR); sys_close fd ;;
           u ← sys_unlink ex_file; st ← sys_stat ex_file; mret (u, st_filetype <$> st)) = Ok (0, Some FT_REGULAR).
Proof. vm_compute. reflexivity. Qed.
