(* ===== verification/System.v ===== *)
(** * Kernel and file system together; the list of processes (sys_ps of
    src/thread/thread.c, sys_getpid of src/user/syscall_init.c)

    [sys] joins the state of the kernel and that of the file system.  The
    descriptor table, the working directory and the page directory that a call
    of the file system uses are those of the running thread: [in_files] loads
    them from its task structure and stores them back.  The blocks the file
    system allocates come from its own [Allocator]. *)

From S2P Require Import Prelude CString CArray Stdio Path Bitmap Lists PageTable Disk Kernel Sched Sync Memory Malloc Thread Process.
From S2P Require Import Fsys Inode Dir File Fs.

Record sys (H A : Type) := Sys { kern : kst H; files : fsys H A }.
Arguments Sys {H A}.
Arguments kern {H A}.
Arguments files {H A}.

(** What a call of the file system sees of the running thread, and what it
    leaves there. *)
Definition load_thread {H A} (t : task_struct) (f : fsys H A) : fsys H A :=
  set_pgdir_nr (pgdir t) (set_cwd_nr (cwd_inode_nr t) (set_fd_tab (fd_table t) f)).
Definition store_thread {H A} (f : fsys H A) (t : task_struct) : task_struct :=
  set_cwd_inode_nr (cwd_nr f) (set_fd_table (fd_tab f) t).

Definition in_kern {H A X} (op : K (kst H) X) : K (sys H A) X := λ s,
  '(x, k) ← op (kern s); Ok (x, Sys k (files s)).
Definition in_files {H A X} (op : K (fsys H A) X) : K (sys H A) X := λ s,
  let cur := current (kern s) in
  t ← deref (tasks (kern s) !! cur);
  '(x, f) ← op (load_thread t (files s));
  Ok (x, Sys (set_tasks (alter (store_thread f) cur (tasks (kern s))) (kern s)) f).

Lemma store_load_thread {H A} t (f : fsys H A) : store_thread (load_thread t f) t = t.
Proof. by destruct t. Qed.

(** A call that leaves the running thread's part alone. *)
Lemma in_files_ok {H A X} (op : K (fsys H A) X) (s : sys H A) t x f :
  tasks (kern s) !! current (kern s) = Some t → op (load_thread t (files s)) = Ok (x, f) → store_thread f t = t →
  in_files op s = Ok (x, Sys (kern s) f).
Proof.
  intros Ht Hop Hst. unfold in_files. rewrite Ht. cbn [deref]. bsimpl. rewrite Hop. bsimpl.
  rewrite (alter_id (store_thread f)); [by destruct s as [[] ?]|]. intros t' Ht'. rewrite Ht in Ht'. injection Ht' as <-. exact Hst.
Qed.
Lemma in_kern_ok {H A X} (op : K (kst H) X) (s : sys H A) x k : op (kern s) = Ok (x, k) → in_kern op s = Ok (x, Sys k (files s)).
Proof. intros Hop. unfold in_kern. by rewrite Hop. Qed.

Section Ps.
Context {H A : Type} `{Queues H} `{Allocator A}.
Abbreviation S := (K (sys H A)).

Definition sys_getpid : S Z := in_kern (p ← running_thread; t ← task_at p; mret (u32 (pid t))).

(** ** ps

    What [ptr] of [pad_print] points to: a string, a 16-bit field and the
    32-bit word it is the lower half of, or a 32-bit field. *)
Inductive ps_field := PsStr (str : list Z) | PsShort (d w : Z) | PsWord (w : Z).

(** "%s", "%d" and "%x". *)
Definition fmt_s : list Z := [37; 115; 0].
Definition fmt_d : list Z := [37; 100; 0].
Definition fmt_x : list Z := [37; 120; 0].

Fixpoint pad_loop (n : nat) (buf : list Z) (out_pad_0idx : Z) : outcome (list Z) :=
  match n with
  | O => Ok buf
  | Datatypes.S n => buf ← aset buf (Z.to_nat out_pad_0idx) 32; pad_loop n buf (u8 (out_pad_0idx + 1))
  end.

(** The case ['d'] goes on with the case ['x']. *)
Definition pad_text (buf : list Z) (buf_len : Z) (ptr : ps_field) : outcome (list Z) :=
  let buf := replicate (Z.to_nat buf_len) 0 ++ drop (Z.to_nat buf_len) buf in
  '(out_pad_0idx, buf) ←
    match ptr with
    | PsStr str => sprintf buf fmt_s [AStr str]
    | PsShort d w => '(_, buf) ← sprintf buf fmt_d [AInt d]; sprintf buf fmt_x [AInt w]
    | PsWord w => sprintf buf fmt_x [AInt w]
    end;
  let out_pad_0idx := u8 out_pad_0idx in
  pad_loop (Z.to_nat (buf_len - out_pad_0idx)) buf out_pad_0idx.

Definition pad_print (buf : list Z) (buf_len : Z) (ptr : ps_field) : S (list Z) :=
  lift (if bool_decide (length buf < Z.to_nat buf_len)%nat then Fault else Ok tt) ;;
  buf ← lift (pad_text buf buf_len ptr);
  in_files (sys_write stdout_no buf (u32 (buf_len - 1))) ;;
  mret buf.

(** "NULL" and the names of the states. *)
Definition status_text (st : task_status) : list Z :=
  match st with
  | TASK_RUNNING => [82; 85; 78; 78; 73; 78; 71; 0]
  | TASK_READY => [82; 69; 65; 68; 89; 0]
  | TASK_BLOCKED => [66; 76; 79; 67; 75; 69; 68; 0]
  | TASK_WAITING => [87; 65; 73; 84; 73; 78; 71; 0]
  | TASK_HANGING => [72; 65; 78; 71; 73; 78; 71; 0]
  | TASK_DIED => [68; 73; 69; 68; 0]
  end.

(** The word that starts with [pid] ends in two bytes of padding, which the
    [memset] of [init_thread] clears; the one that starts with [parent_pid]
    goes on with [exit_status] and a byte of padding. *)
Definition elem2thread_info (pelem : Z) : S bool :=
  t ← in_kern (task_at (all_list_entry pelem));
  let out_pad := replicate 16 0 in
  out_pad ← pad_print out_pad 16 (PsShort (pid t) (u16 (pid t)));
  out_pad ← (if parent_pid t =? -1 then pad_print out_pad 16 (PsStr [78; 85; 76; 76; 0])
             else pad_print out_pad 16 (PsShort (parent_pid t) (u16 (parent_pid t) + u8 (exit_status t) * 65536)));
  out_pad ← pad_print out_pad 16 (PsStr (status_text (status t)));
  _ ← pad_print out_pad 16 (PsWord (elapsed_ticks t));
  let out_pad := replicate 16 0 in
  n ← lift (astrlen (name t));
  kASSERT (n <? 17) ;;
  out_pad ← lift (if 16 <? n then Fault else Ok (take (Z.to_nat n) (name t) ++ drop (Z.to_nat n) out_pad));
  out_pad ← lift (astrcat out_pad [10; 0]);
  n ← lift (astrlen out_pad);
  in_files (sys_write stdout_no out_pad n) ;;
  mret false.

(** "PID            PPID           STAT           TICKS          COMMAND\n". *)
Definition ps_title : list Z :=
  [80; 73; 68] ++ replicate 12 32 ++ [80; 80; 73; 68] ++ replicate 11 32 ++ [83; 84; 65; 84] ++ replicate 11 32 ++
  [84; 73; 67; 75; 83] ++ replicate 10 32 ++ [67; 79; 77; 77; 65; 78; 68; 10; 0].

Definition sys_ps : S unit :=
  n ← lift (astrlen ps_title);
  in_files (sys_write stdout_no ps_title n) ;;
  qtraverse (λ s, heap (kern s)) thread_all_list elem2thread_info ;;
  mret tt.
End Ps.

(** The number of a process is printed in hexadecimal over its decimal
    numeral: process 10 is shown as "A0". *)
Example pad_pid_10 : pad_text (replicate 16 0) 16 (PsShort 10 10) = Ok ([65; 48] ++ replicate 14 32).
Proof. by vm_compute. Qed.
