(* ===== verification/WaitExit.v ===== *)
(** * The end of a process (src/user/wait_exit.c)

    [sys_exit] gives the children to init, frees what the process uses and
    leaves its task structure hanging; [sys_wait] of the parent collects the
    exit status and frees the rest.  A parent that waits is woken up by the
    child.

    [sys_exit] ends in [thread_block]; the thread that exits is not switched
    to again, so its return from there never happens. *)

From S2P Require Import Prelude CString CArray Stdio Path Bitmap Lists PageTable Disk Kernel Sched Sync Memory Malloc Thread Process.
From S2P Require Import Fsys Inode Dir File Fs System.

Section WaitExit.
Context {H A : Type} `{Queues H} `{World H} `{Allocator A}.
Abbreviation S := (K (sys H A)).

(** ** Freeing what a process uses *)

(** The entries of one page table, which appears at [first_pte_vaddr_in_pde];
    [n] of them are left. *)
Fixpoint free_ptes (n : nat) (first_pte_vaddr_in_pde pte_idx : Z) : K (kst H) unit :=
  match n with
  | O => mret tt
  | Datatypes.S n =>
      let v_pte_ptr := u32 (first_pte_vaddr_in_pde + pte_idx * 4) in
      pte ← read_word v_pte_ptr;
      (if negb (Z.land pte 0x00000001 =? 0) then free_a_phy_page (Z.land pte 0xfffff000) else mret tt) ;;
      free_ptes n first_pte_vaddr_in_pde (pte_idx + 1)
  end.

Fixpoint free_pdes (n : nat) (pgdir_vaddr pde_idx : Z) : K (kst H) unit :=
  match n with
  | O => mret tt
  | Datatypes.S n =>
      let v_pde_ptr := u32 (pgdir_vaddr + pde_idx * 4) in
      pde ← read_word v_pde_ptr;
      (if negb (Z.land pde 0x00000001 =? 0) then
         let first_pte_vaddr_in_pde := pte_ptr (pde_idx * 0x400000) in
         free_ptes 1024 first_pte_vaddr_in_pde 0 ;;
         free_a_phy_page (Z.land pde 0xfffff000)
       else mret tt) ;;
      free_pdes n pgdir_vaddr (pde_idx + 1)
  end.

(** The descriptors of the running thread from [fd_idx] on; the table that is
    tested is that of [release_thread]. *)
Fixpoint close_fds (n : nat) (release_thread fd_idx : Z) : S unit :=
  match n with
  | O => mret tt
  | Datatypes.S n =>
      t ← in_kern (task_at release_thread);
      fd ← lift (deref (fd_table t !! Z.to_nat fd_idx));
      (if negb (fd =? -1) then in_files (sys_close fd_idx) ;; mret tt else mret tt) ;;
      close_fds n release_thread (fd_idx + 1)
  end.

Definition release_prog_resource (release_thread : Z) : S unit :=
  t ← in_kern (task_at release_thread);
  in_kern (free_pdes 768 (pgdir t) 0) ;;
  let bitmap_pg_cnt := btmp_bytes_len (vaddr_bitmap (user_vaddr t)) / PG_SIZE in
  let user_vaddr_pool_bitmap := bits (vaddr_bitmap (user_vaddr t)) in
  in_kern (mfree_page PF_KERNEL user_vaddr_pool_bitmap bitmap_pg_cnt) ;;
  close_fds 5 release_thread 3.

(** ** Callbacks of list_traversal *)

Definition find_child (ppid pelem : Z) : K (kst H) bool :=
  t ← task_at (all_list_entry pelem);
  if parent_pid t =? ppid then mret true else mret false.

Definition find_hanging_child (ppid pelem : Z) : K (kst H) bool :=
  t ← task_at (all_list_entry pelem);
  if (parent_pid t =? ppid) && bool_decide (status t = TASK_HANGING) then mret true else mret false.

Definition init_adopt_a_child (n pelem : Z) : K (kst H) bool :=
  t ← task_at (all_list_entry pelem);
  (if parent_pid t =? n then upd_task (all_list_entry pelem) (set_parent_pid 1) else mret tt) ;;
  mret false.

(** ** wait and exit *)

(** The result and what is stored in [*status]; the loop runs again each time
    the thread is woken up. *)
Fixpoint wait_loop (fuel : nat) (parent_thread : Z) : K (kst H) (Z * option Z) :=
  match fuel with
  | O => lift NoFuel
  | Datatypes.S fuel =>
      t ← task_at parent_thread;
      child_elem ← qtraverse heap thread_all_list (find_hanging_child (pid t));
      if negb (child_elem =? NULL) then
        let child_thread := all_list_entry child_elem in
        c ← task_at child_thread;
        let child_pid := u16 (pid c) in
        thread_exit child_thread false ;;
        mret (s16 child_pid, Some (exit_status c))
      else
        child_elem ← qtraverse heap thread_all_list (find_child (pid t));
        if child_elem =? NULL then mret (-1, None)
        else thread_block TASK_WAITING ;; wait_loop fuel parent_thread
  end.
Definition sys_wait : K (kst H) (Z * option Z) :=
  parent_thread ← running_thread; wait_loop (Datatypes.S rounds) parent_thread.

(** [sys_exit] up to the freeing, and behind it. *)
Definition exit_prepare (status : Z) : K (kst H) Z :=
  child_thread ← running_thread;
  upd_task child_thread (set_exit_status (s8 status)) ;;
  t ← task_at child_thread;
  (if parent_pid t =? -1 then lift Panic else mret tt) ;;
  qtraverse heap thread_all_list (init_adopt_a_child (pid t)) ;;
  mret child_thread.

Definition exit_finish (child_thread : Z) : K (kst H) unit :=
  t ← task_at child_thread;
  parent_thread ← pid2thread (parent_pid t);
  p ← task_at parent_thread;
  (if bool_decide (status p = TASK_WAITING) then thread_unblock parent_thread else mret tt) ;;
  thread_block TASK_HANGING.

Definition sys_exit (status : Z) : S unit :=
  child_thread ← in_kern (exit_prepare status);
  release_prog_resource child_thread ;;
  in_kern (exit_finish child_thread).
End WaitExit.

(** ** Searching the list of all threads *)

Section Proofs.
Context {H : Type} `{Queues H} `{World H}.
Implicit Types s : kst H.

Lemma all_list_entry_tag p : all_list_entry (all_list_tag p) = p.
Proof. unfold all_list_entry, all_list_tag. lia. Qed.

(** A callback that only looks at the task finds the first that satisfies [P]. *)
Lemma traverse_find (P : task_struct → bool) func s ps :
  (∀ p t, tasks s !! p = Some t → func (all_list_tag p) s = Ok (P t, s)) →
  (∀ p, p ∈ ps → is_Some (tasks s !! p)) →
  traverse func (all_list_tag <$> ps) s =
    Ok (match list_find (λ p, (P <$> tasks s !! p) = Some true) ps with Some (_, p) => all_list_tag p | None => NULL end, s).
Proof.
  intros Hf Hk. induction ps as [|p ps IH]; [done|]. destruct (Hk p) as [t Ht]; [set_solver|].
  simpl. rewrite (K_step _ _ _ _ _ (Hf p t Ht)), Ht. simpl. destruct (P t).
  - by rewrite decide_True by done.
  - rewrite decide_False by done. etrans; [apply IH; set_solver|]. by destruct (list_find _ ps) as [[? ?]|].
Qed.

(** The threads [ps] of the list have task structures in pages. *)
Definition threads_ok (s : kst H) (Q : gmap Z (list Z)) (ps : list Z) : Prop :=
  qrep (heap s) Q ∧ Q !! thread_all_list = Some (all_list_tag <$> ps) ∧
  ∀ p, p ∈ ps → is_Some (tasks s !! p) ∧ page_ok p.

Lemma all_list_find (P : task_struct → bool) func s Q ps :
  threads_ok s Q ps → (∀ p t s, tasks s !! p = Some t → func (all_list_tag p) s = Ok (P t, s)) →
  (∀ x s b s', func x s = Ok (b, s') → s' = s) →
  qtraverse heap thread_all_list func s =
    Ok (match list_find (λ p, (P <$> tasks s !! p) = Some true) ps with Some (_, p) => all_list_tag p | None => NULL end, s).
Proof.
  intros (Hq & Ha & Hk) Hf Hs. rewrite (qtraverse_spec heap Q _ _ _ _ Hq Ha).
  - apply traverse_find; [intros p t; apply Hf|]. intros p Hp. by apply Hk.
  - intros x s0 b s' _ Hx. by rewrite (Hs _ _ _ _ Hx).
Qed.

Definition is_child (n : Z) (t : task_struct) : bool := parent_pid t =? n.
Definition is_hanging_child (n : Z) (t : task_struct) : bool := is_child n t && bool_decide (status t = TASK_HANGING).

Lemma find_child_ok s Q ps n : threads_ok s Q ps →
  qtraverse heap thread_all_list (find_child n) s =
    Ok (match list_find (λ p, (is_child n <$> tasks s !! p) = Some true) ps with Some (_, p) => all_list_tag p | None => NULL end, s).
Proof.
  intros Ht. apply (all_list_find (is_child n) _ s Q ps Ht).
  - intros p t s' Hp. unfold find_child. rewrite all_list_entry_tag. kstep (task_at_ok _ _ _ Hp). unfold is_child. by destruct (_ =? n).
  - intros x s' b s'' Hx. unfold find_child in Hx. invbind. unfold task_at in *. invbind.
    match goal with Hm : (if ?c then _ else _) _ = _ |- _ => destruct c; by injection Hm end.
Qed.

Lemma find_hanging_ok s Q ps n : threads_ok s Q ps →
  qtraverse heap thread_all_list (find_hanging_child n) s =
    Ok (match list_find (λ p, (is_hanging_child n <$> tasks s !! p) = Some true) ps with Some (_, p) => all_list_tag p | None => NULL end, s).
Proof.
  intros Ht. apply (all_list_find (is_hanging_child n) _ s Q ps Ht).
  - intros p t s' Hp. unfold find_hanging_child. rewrite all_list_entry_tag. kstep (task_at_ok _ _ _ Hp).
    unfold is_hanging_child, is_child. by destruct (_ && _).
  - intros x s' b s'' Hx. unfold find_hanging_child in Hx. invbind. unfold task_at in *. invbind.
    match goal with Hm : (if ?c then _ else _) _ = _ |- _ => destruct c; by injection Hm end.
Qed.

(** Init adopts the children of [n] among [ps]. *)
Definition adopted (n : Z) (ps : list Z) (T : gmap Z task_struct) : gmap Z task_struct :=
  map_imap (λ p t, Some (if decide (p ∈ ps ∧ parent_pid t = n) then set_parent_pid 1 t else t)) T.

Lemma adopted_lookup n ps T p :
  adopted n ps T !! p = (λ t, if decide (p ∈ ps ∧ parent_pid t = n) then set_parent_pid 1 t else t) <$> T !! p.
Proof. unfold adopted. rewrite map_lookup_imap. by destruct (T !! p). Qed.

Lemma adopt_one n p s t : tasks s !! p = Some t →
  init_adopt_a_child n (all_list_tag p) s = Ok (false, set_tasks (adopted n [p] (tasks s)) s).
Proof.
  intros Ht. unfold init_adopt_a_child. rewrite all_list_entry_tag. kstep (task_at_ok _ _ _ Ht).
  assert (∀ T, tasks s = T → set_tasks T s = s) as Es by (intros T <-; by destruct s).
  destruct (Z.eqb_spec (parent_pid t) n) as [E|E].
  - erewrite K_step by (apply upd_task_ok; by eexists). unfold mret, K_ret. do 3 f_equal. apply map_eq. intros q.
    rewrite adopted_lookup. destruct (decide (q = p)) as [->|Hne].
    + rewrite lookup_alter_eq, Ht. simpl. rewrite decide_True by (split; [set_solver|done]). done.
    + rewrite lookup_alter_ne by done. destruct (tasks s !! q); [|done]. simpl. rewrite decide_False; [done|]. set_solver.
  - kgo. unfold mret, K_ret. rewrite Es; [done|]. apply map_eq. intros q. rewrite adopted_lookup.
    destruct (tasks s !! q) as [u|] eqn:Hu; [|done]. simpl. rewrite decide_False; [done|]. intros [->%list_elem_of_singleton Hn].
    rewrite Ht in Hu. by injection Hu as <-.
Qed.

Lemma adopted_app n p ps T : adopted n ps (adopted n [p] T) = adopted n (p :: ps) T.
Proof.
  apply map_eq. intros q. rewrite !adopted_lookup. destruct (T !! q) as [t|]; [|done]. simpl. f_equal.
  destruct (decide (q ∈ [p] ∧ parent_pid t = n)) as [[Hq Hn]|Hq].
  - rewrite (decide_True (P := q ∈ p :: ps ∧ _)) by set_solver. by destruct (decide _).
  - destruct (decide (q ∈ ps ∧ parent_pid t = n)).
    + by rewrite decide_True by set_solver.
    + rewrite decide_False; [done|]. set_solver.
Qed.

Lemma traverse_adopt n ps : ∀ s, (∀ p, p ∈ ps → is_Some (tasks s !! p)) →
  traverse (init_adopt_a_child n) (all_list_tag <$> ps) s = Ok (NULL, set_tasks (adopted n ps (tasks s)) s).
Proof.
  induction ps as [|p ps IH]; intros s Hk.
  - simpl. unfold mret, K_ret. do 2 f_equal. assert (∀ T, tasks s = T → s = set_tasks T s) as Es by (intros T <-; by destruct s).
    apply Es, map_eq. intros q. rewrite adopted_lookup. destruct (tasks s !! q); [|done]. cbn [fmap option_fmap option_map].
    rewrite decide_False; [done|set_solver].
  - destruct (Hk p) as [t Ht]; [set_solver|]. simpl. rewrite (K_step _ _ _ _ _ (adopt_one n p s t Ht)). simpl.
    etrans; [apply IH; intros q Hq; simpl; rewrite adopted_lookup; destruct (Hk q) as [u ->]; [set_solver|by eexists]|].
    simpl. by rewrite adopted_app.
Qed.

(** ** The end of a child *)

(** A page of the kernel's heap stays owned when another one is freed. *)
Lemma owned_other s i j f g m' b' :
  heap_ok s → 0 ≤ i < heap_len s → 0 ≤ j < heap_len s → i ≠ j → owned s i [f] → owned s j [g] →
  pool_taken PF_KERNEL (set_phys m' (set_bytes b' s)) = pool_taken PF_KERNEL s ∖ list_to_set (page_no s <$> [f]) →
  (∀ va, managed va → (∀ k, i ≤ k < i + 1 → ~ same_page (heap_page k) va) → translate m' (cr3 s) va = translate (phys s) (cr3 s) va) →
  (∀ k, i ≤ k < i + 1 → translate m' (cr3 s) (heap_page k) = None) →
  (∀ x, fresh_frame (phys s) (cr3 s) x → fresh_frame m' (cr3 s) x) →
  heap_ok (set_phys m' (set_bytes b' s)) → owned (set_phys m' (set_bytes b' s)) j [g].
Proof.
  intros Hh Hi Hj Hne Hof Hog HT Htr Hno Hfr Hh' k x Hk. destruct k as [|k]; [|done]. injection Hk as <-.
  destruct (Hof 0%nat f eq_refl) as (Hf & (jf & Hjf & ->) & Ff & Huf).
  destruct (Hog 0%nat g eq_refl) as (Hg & (jg & Hjg & ->) & Fg & Hug). rewrite Z.add_0_r in *.
  assert (managed (heap_page j)) as Hmj by (by apply (heap_page_managed s)).
  assert (managed (heap_page i)) as Hmi by (by apply (heap_page_managed s)).
  split_and!.
  - simpl. rewrite Htr; [done|done|]. intros k Hk. rewrite heap_page_same. lia.
  - exists jg. split; [|done]. rewrite HT. apply elem_of_difference. split; [done|]. simpl. rewrite page_no_page_at.
    intros Hx. assert (jg = jf) as -> by set_solver. apply Hne. apply (proj1 (heap_page_same _ _)).
    pose proof (ff_range _ _ _ Ff). pose proof (ff_aligned _ _ _ Ff). symmetry. apply (Hug (heap_page i) (page_at PF_KERNEL s jf)); [done|done|].
    unfold frame. rewrite land_fffff000 by lia. dm.
  - by apply Hfr.
  - simpl. intros va pa Hva Ht. apply (Hug va pa Hva). destruct (decide (same_page (heap_page i) va)) as [Hs|Hs].
    + rewrite (same_page_none m' (cr3 s) (heap_page i) va) in Ht; [done|apply (vm_tables _ (ho_vm _ Hh'))|done|done|done|apply Hno; lia].
    + rewrite Htr in Ht; [done|done|]. intros k Hk. by replace k with i by lia.
Qed.

(** More bytes outside the bitmaps do not matter to the heap. *)
Lemma heap_ok_bytes s b : (∀ a, in_bitmaps s a → b !! a = bytes s !! a) → heap_ok s →
  heap_ok (set_bytes b s) ∧ heap_taken (set_bytes b s) = heap_taken s ∧ ∀ pf, pool_taken pf (set_bytes b s) = pool_taken pf s.
Proof.
  intros Hb Hh. pose proof (vm_pools _ (ho_vm _ Hh)) as P.
  assert (∀ bm, bitmap_wf (bytes s) bm → (∀ a, in_bitmap bm a → in_bitmaps s a) → bitmap_wf b bm ∧ taken b bm = taken (bytes s) bm) as Hag.
  { intros bm Hwf Hin. apply bitmap_agree; [|done]. intros k Hk. apply Hb, Hin. unfold in_bitmap. lia. }
  assert (∀ pf, bitmap_wf b (pool_bitmap (pool_of pf s)) ∧ pool_taken pf (set_bytes b s) = pool_taken pf s) as Hp.
  { intros pf. destruct (Hag (pool_bitmap (pool_of pf s))) as [Hwf HT]; [apply P|intros a Ha; left; by exists pf|]. split; [done|]. by destruct pf. }
  destruct (Hag (vaddr_bitmap (kernel_vaddr s))) as [Hwf HT]; [apply P|intros a Ha; by right|].
  split_and!; [|exact HT|intros pf; apply Hp].
  destruct Hh as [[P1 T1 F1 U1] S1 L1 B1 R1]. 
  assert (∀ x, free_page (set_bytes b s) x → free_page s x) as Hfp.
  { intros x (pf & i & Hi & Hn & ->). exists pf, i. split; [by destruct pf|]. rewrite (proj2 (Hp pf)) in Hn. split; [done|by destruct pf]. }
  split; try done.
  - split; [|done|intros x Hx; by apply F1, Hfp|intros x va pa Hx; by apply U1, Hfp].
    split; simpl; [|done|apply P|apply P|apply P|apply P]. intros pf. destruct (Hp pf). by destruct pf.
  - intros i Hi Hn. apply R1; [done|]. intros Hx. apply Hn. unfold heap_taken in *. simpl. by rewrite HT.
Qed.

(** [child] is a thread with a page directory; the directory, its task
    structure and its pid are what [thread_exit] gives back. *)
Record reapable (s : kst H) (Q : gmap Z (list Z)) (child : Z) (c : task_struct) (i j f g : Z) : Prop := {
  rp_task : tasks s !! child = Some c;
  rp_heap : heap_ok s;
  rp_dir : pgdir c = heap_page i;
  rp_page : child = heap_page j;
  rp_ne : i ≠ j;
  rp_i : 0 ≤ i < heap_len s;
  rp_j : 0 ≤ j < heap_len s;
  rp_taken : {[i; j]} ⊆ heap_taken s;
  rp_own_i : owned s i [f];
  rp_own_j : owned s j [g];
  rp_main : main_thread s ≠ child;
  rp_pids : pids_ok s;
  rp_pid : 1 ≤ pid c ≤ 1024;
  rp_apart : ∀ a, in_bitmap (pid_bitmap s) a → ~ in_bitmaps s a;
  rp_lock : lock_free s Q pid_lock;
  rp_cur : current s ≠ NULL;
}.

Lemma pids_same s s' : pids_ok s → pid_start s' = pid_start s → pid_bitmap s' = pid_bitmap s →
  (∀ a, in_bitmap (pid_bitmap s) a → bytes s' !! a = bytes s !! a) → pids_ok s' ∧ pids s' = pids s.
Proof.
  intros (Hst & Hb & Hwf) E1 E2 Hby.
  destruct (bitmap_agree (bytes s) (bytes s') (pid_bitmap s)) as [Hwf' HT]; [intros k Hk; apply Hby; unfold in_bitmap; lia|done|].
  unfold pids_ok, pids. by rewrite E1, E2, HT.
Qed.

(** Two pages of the heap are freed, with a change of lists in between. *)
Lemma free_two_pages s i j f g h' :
  heap_ok s → i ≠ j → 0 ≤ i < heap_len s → 0 ≤ j < heap_len s → {[i; j]} ⊆ heap_taken s → owned s i [f] → owned s j [g] →
  ∃ m1 b1 m2 b2, let s1 := set_phys m1 (set_bytes b1 s) in let s2 := set_phys m2 (set_bytes b2 (set_heap h' s1)) in
    mfree_page PF_KERNEL (heap_page i) 1 s = Ok (tt, s1) ∧ mfree_page PF_KERNEL (heap_page j) 1 (set_heap h' s1) = Ok (tt, s2) ∧
    heap_ok s2 ∧ heap_taken s2 = heap_taken s ∖ {[i; j]} ∧
    pool_taken PF_KERNEL s2 = pool_taken PF_KERNEL s ∖ {[page_no s f; page_no s g]} ∧ same_bytes s s2 ∧
    translate m2 (cr3 s) (heap_page j) = None.
Proof.
  intros Hh Hne Hi Hj Htk Hoi Hoj.
  destruct (mfree_page_kernel s i [f] 1 Hh) as (m1 & b1 & Hf1 & Hh3 & HT3 & HK3 & _ & Htr3 & Hno3 & Hfr3 & Hby3);
    [lia|done|lia|lia| |exact Hoi|].
  { intros k Hk%elem_of_interval. apply Htk. assert (k = i) as -> by lia. set_solver. }
  set (s3 := set_phys m1 (set_bytes b1 s)) in *.
  assert (owned s3 j [g]) as Hoj3 by (apply (owned_other s i j f g m1 b1); try done).
  set (s4 := set_heap h' s3). assert (heap_ok s4) as Hh4 by (by apply (heap_ok_same s3)).
  destruct (mfree_page_kernel s4 j [g] 1 Hh4) as (m2 & b2 & Hf2 & Hh5 & HT5 & HK5 & _ & _ & Hno5 & _ & Hby5);
    [lia|done|lia|change (heap_len s4) with (heap_len s); lia| |exact Hoj3|].
  { change (heap_taken s4) with (heap_taken s3). rewrite HT3.
    intros k Hk%elem_of_interval. assert (k = j) as -> by lia. apply elem_of_difference. split; [apply Htk; set_solver|].
    rewrite elem_of_interval. lia. }
  exists m1, b1, m2, b2. split_and!; [exact Hf1|exact Hf2|exact Hh5|..].
  - etrans; [exact HT5|]. change (heap_taken s4) with (heap_taken s3). rewrite HT3.
    apply set_eq. intros k. rewrite !elem_of_difference, !elem_of_interval, elem_of_union, !elem_of_singleton. intuition lia.
  - etrans; [exact HK5|]. change (pool_taken PF_KERNEL s4) with (pool_taken PF_KERNEL s3). rewrite HK3.
    change (page_no s4) with (page_no s). cbn [fmap list_fmap list_to_set]. apply set_eq. intros k. set_solver.
  - intros a Hx. etrans; [by apply Hby5|by apply Hby3].
  - apply Hno5. lia.
Qed.

Lemma thread_exit_ok s Q ready ps1 ps2 child c i j f g :
  reapable s Q child c i j f g → qrep (heap s) Q →
  Q !! thread_ready_list = Some (general_tag <$> ready) → (child ∉ ready) →
  Q !! thread_all_list = Some (all_list_tag <$> ps1 ++ child :: ps2) →
  ∃ s', thread_exit child false s = (if stale child then Ok (tt, s') else Fault) ∧
    qrep (heap s') (<[thread_all_list := all_list_tag <$> ps1 ++ ps2]> Q) ∧
    tasks s' = alter (set_status TASK_DIED) child (tasks s) ∧
    heap_taken s' = heap_taken s ∖ {[i; j]} ∧
    pool_taken PF_KERNEL s' = pool_taken PF_KERNEL s ∖ {[page_no s f; page_no s g]} ∧
    pids s' = pids s ∖ {[pid c]} ∧ esp s' = esp s ∧ cr3 s' = cr3 s.
Proof.
  intros R Hq Hr Hnr Ha. destruct R as [Hc Hh Hd Hp Hne Hi Hj Htk Hoi Hoj Hm Hpid Hpr Hap Hlk Hcu].
  set (s2 := set_tasks (alter (set_status TASK_DIED) child (tasks s)) (set_intr false s)).
  assert (heap_ok s2) as Hh2 by (by apply (heap_ok_same s)).
  rewrite fmap_app, fmap_cons in Ha.
  destruct (qremove_spec (heap s) Q _ _ _ _ Hq Ha) as (h' & Hrm & Hq' & _ & _). rewrite <- fmap_app in Hq'.
  destruct (free_two_pages s2 i j f g h' Hh2 Hne Hi Hj Htk Hoi Hoj) as (m1 & b1 & m2 & b2 & Hf1 & Hf2 & Hh5 & HT5 & HK5 & Hby & Hno).
  set (s3 := set_phys m1 (set_bytes b1 s2)) in *. set (s4 := set_heap h' s3) in *. set (s5 := set_phys m2 (set_bytes b2 s4)) in *.
  destruct (pids_same s s5 Hpid eq_refl eq_refl) as [Hpid5 HP5]; [intros a Hx; by apply Hby, Hap|].
  destruct (release_pid_ok s5 (<[thread_all_list := all_list_tag <$> ps1 ++ ps2]> Q) (pid c) Hpid5 Hpr Hq') as (b3 & Hrel & _ & HP6 & Hby6);
    [|done|].
  { destruct Hlk as (Hl1 & Hl2 & Hl3). split_and!; [done|done|]. by rewrite lookup_insert_ne. }
  assert (∀ b, bitmap_wf (bytes s5) b → (∀ a, in_bitmap b a → in_bitmaps s a) → taken b3 b = taken (bytes s5) b) as Hag.
  { intros b Hwf Hb. apply bitmap_agree; [|done]. intros k Hk. apply Hby6. intros Hx.
    apply (Hap (bits b + k)); [exact Hx|]. apply Hb. unfold in_bitmap. lia. }
  pose proof (vm_pools _ (ho_vm _ Hh5)) as P5.
  exists (set_bytes b3 s5). split_and!; try done.
  - unfold thread_exit. kstep (intr_disable_ok s).
    erewrite K_step by (apply upd_task_ok; by eexists). kgo.
    change (set_tasks _ (set_intr false s)) with s2.
    kstep (find_in_ok s2 Q _ _ (general_tag child) Hq Hr).
    rewrite bool_decide_eq_false_2.
    2:{ intros (q & Eq & Hin)%list_elem_of_fmap. apply general_tag_inj in Eq as ->. done. }
    kgo. assert (tasks s2 !! child = Some (set_status TASK_DIED c)) as Hc2 by (simpl; by rewrite lookup_alter_eq, Hc).
    kstep (task_at_ok s2 _ _ Hc2). cbn [pgdir set_status]. rewrite Hd.
    rewrite (proj2 (Z.eqb_neq (heap_page i) NULL)) by (unfold heap_page, K_HEAP_START, NULL; lia). cbn [negb].
    kstep Hf1. erewrite K_step.
    2:{ unfold on_heap. change (heap s3) with (heap s). rewrite Hrm. reflexivity. }
    kgo. change (main_thread (set_heap h' s3)) with (main_thread s). rewrite (proj2 (Z.eqb_neq child (main_thread s))) by done. cbn [negb].
    change (set_heap h' s3) with s4. rewrite Hp at 1. kstep Hf2. fold s5.
    assert (task_behind child s5 = if stale child then Ok (set_status TASK_DIED c, s5) else Fault) as Hbh.
    { unfold task_behind. change (translate (phys s5) (cr3 s5) child) with (translate m2 (cr3 s2) child).
      rewrite Hp at 1. rewrite Hno. by rewrite (task_at_ok s5 _ _ Hc2). }
    destruct (stale child); [|unfold mbind, K_bind; by rewrite Hbh].
    kstep Hbh. cbn [pid set_status]. kstep Hrel. done.
  - transitivity (heap_taken s5); [apply Hag; [apply P5|intros a Hx; by right]|]. exact HT5.
  - transitivity (pool_taken PF_KERNEL s5); [apply Hag; [apply (po_pool _ P5 PF_KERNEL)|intros a Hx; left; by exists PF_KERNEL]|]. exact HK5.
  - by rewrite HP6, HP5.
Qed.

(** ** Properties *)

(** C31: [sys_wait] collects a child that has exited: it returns the pid and the
    exit status of the first hanging child in the list of all threads and
    takes it out of the list; the child's pid, the page of its task structure
    and the page of its page directory, and no other pid or page, are free
    again.  That holds while the processor still reaches the page of the task
    structure, from which the pid is read after the page was unmapped; if it
    does not, the call ends in a page fault. *)
Theorem wait_reaps_child s Q ready ps t k child c i j f g :
  threads_ok s Q ps → tasks s !! current s = Some t →
  Q !! thread_ready_list = Some (general_tag <$> ready) → (child ∉ ready) →
  list_find (λ p, (is_hanging_child (pid t) <$> tasks s !! p) = Some true) ps = Some (k, child) →
  reapable s Q child c i j f g →
  if stale child then
    ∃ s', sys_wait s = Ok ((pid c, Some (exit_status c)), s') ∧
      qrep (heap s') (<[thread_all_list := all_list_tag <$> delete k ps]> Q) ∧
      pids s' = pids s ∖ {[pid c]} ∧ heap_taken s' = heap_taken s ∖ {[i; j]} ∧
      pool_taken PF_KERNEL s' = pool_taken PF_KERNEL s ∖ {[page_no s f; page_no s g]}
  else sys_wait s = Fault.
Proof.
  intros Hth Ht Hr Hnr Hfind R. pose proof Hth as (Hq & Ha & Hk). destruct (proj1 (list_find_Some _ _ _ _) Hfind) as (Hps & Hch & _).
  pose proof (rp_task _ _ _ _ _ _ _ _ R) as Hc. rewrite Hc in Hch. injection Hch as Hch.
  pose proof (take_drop_middle ps k child Hps) as Esplit. rewrite <- Esplit in Ha.
  destruct (thread_exit_ok s Q ready _ _ child c i j f g R Hq Hr Hnr Ha)
    as (s' & Hx & Hq' & _ & HT & HK & HP & _).
  assert (sys_wait s = if stale child then Ok ((pid c, Some (exit_status c)), s') else Fault) as Hw.
  { unfold sys_wait. kstep (running_thread_current s). cbn [wait_loop]. kstep (task_at_ok _ _ _ Ht).
    kstep (find_hanging_ok s Q ps (pid t) Hth). rewrite Hfind.
    pose proof (rp_page _ _ _ _ _ _ _ _ R) as Hpg. pose proof (rp_j _ _ _ _ _ _ _ _ R) as Hj.
    rewrite (proj2 (Z.eqb_neq (all_list_tag child) NULL)) by (rewrite Hpg; unfold all_list_tag, heap_page, K_HEAP_START, NULL; lia).
    cbn [negb]. rewrite all_list_entry_tag. kstep (task_at_ok _ _ _ Hc).
    destruct (stale child); [|unfold mbind at 1, K_bind at 1; by rewrite Hx]. kstep Hx. unfold mret, K_ret.
    pose proof (rp_pid _ _ _ _ _ _ _ _ R). rewrite u16_small by lia. unfold s16. rewrite Z.mod_small by lia. do 4 f_equal. lia. }
  destruct (stale child); [|exact Hw]. exists s'. rewrite delete_take_drop. by split_and!.
Qed.

(** C32: Without a hanging child [sys_wait] returns -1 at once when the thread
    has no child, and changes nothing; when it has one it blocks: the thread is
    in the state [TASK_WAITING] and the next ready thread runs, until the
    thread is switched to again and looks once more. *)
Theorem wait_without_hanging s D Q run ready ps t :
  sched_inv s D Q run ready → threads_ok s Q ps → tasks s !! run = Some t → status t = TASK_RUNNING →
  list_find (λ p, (is_hanging_child (pid t) <$> tasks s !! p) = Some true) ps = None →
  match list_find (λ p, (is_child (pid t) <$> tasks s !! p) = Some true) ps with
  | None => sys_wait s = Ok ((-1, None), s)
  | Some _ =>
      (ready = [] → idle_waiting s Q ∧ idle_thread s ≠ run) →
      ∃ next rest s1, match ready with [] => [idle_thread s] | _ => ready end = next :: rest ∧
        sched_inv s1 D (<[thread_ready_list := general_tag <$> rest]> Q) next rest ∧
        (∃ t1, tasks s1 !! run = Some t1 ∧ status t1 = TASK_WAITING ∧ pid t1 = pid t) ∧
        sys_wait s = (s2 ← others run s1; wait_loop rounds run (set_intr (intr s) s2))
  end.
Proof.
  intros I Hth Ht Hst Hno. unfold sys_wait.
  destruct (list_find (λ p, (is_child _ <$> _) = Some true) ps) as [[k p]|] eqn:Hfind.
  - intros Hid. destruct (thread_block_full s D Q run ready TASK_WAITING t I Ht Hst eq_refl Hid)
      as (next & rest & s1 & Hn & I1 & _ & Hnot & Hb & _ & _ & _ & HT).
    exists next, rest, s1. split_and!; [done|done| |].
    + rewrite HT. apply not_elem_of_cons in Hnot as [Hne _].
      rewrite lookup_alter_eq, lookup_alter_ne, lookup_alter_eq, Ht by done. simpl. eexists. done.
    + kstep (running_thread_ok _ _ _ _ _ I). cbn [wait_loop]. kstep (task_at_ok _ _ _ Ht).
      kstep (find_hanging_ok s Q ps (pid t) Hth). rewrite Hno. change (negb (NULL =? NULL)) with false. cbv iota.
      kstep (find_child_ok s Q ps (pid t) Hth). rewrite Hfind. destruct Hth as (_ & _ & Hk).
      destruct (proj1 (list_find_Some _ _ _ _) Hfind) as (Hps & _). destruct (Hk p) as [_ [_ Hpg]]; [by eapply list_elem_of_lookup_2|].
      rewrite (proj2 (Z.eqb_neq (all_list_tag p) NULL)) by (unfold all_list_tag, NULL; lia).
      unfold mbind at 1, K_bind. rewrite Hb. by destruct (others run s1).
  - kstep (running_thread_ok _ _ _ _ _ I). cbn [wait_loop]. kstep (task_at_ok _ _ _ Ht).
    kstep (find_hanging_ok s Q ps (pid t) Hth). rewrite Hno. change (negb (NULL =? NULL)) with false. cbv iota.
    kstep (find_child_ok s Q ps (pid t) Hth). rewrite Hfind. done.
Qed.

(** C33: [sys_exit], before it frees memory: the exit status is recorded, and
    every child of the thread gets init, pid 1, as its parent; no other task
    changes.  A thread without a parent stops the kernel. *)
Theorem exit_hands_over s D Q run ready ps t st :
  sched_inv s D Q run ready → threads_ok s Q ps → tasks s !! run = Some t →
  exit_prepare st s =
    if parent_pid t =? -1 then Panic
    else Ok (run, set_tasks (adopted (pid t) ps (<[run := set_exit_status (s8 st) t]> (tasks s))) s).
Proof.
  intros I (Hq & Ha & Hk) Ht. unfold exit_prepare. kstep (running_thread_ok _ _ _ _ _ I).
  erewrite K_step by (apply upd_task_ok; by eexists). kgo.
  set (T := alter _ run (tasks s)).
  assert (T = <[run := set_exit_status (s8 st) t]> (tasks s)) as ET.
  { apply map_eq. intros q. unfold T. destruct (decide (q = run)) as [->|Hne].
    - by rewrite lookup_alter_eq, lookup_insert_eq, Ht.
    - by rewrite lookup_alter_ne, lookup_insert_ne. }
  rewrite ET. set (s1 := set_tasks _ s). assert (tasks s1 !! run = Some (set_exit_status (s8 st) t)) as Ht1 by (apply lookup_insert_eq).
  kstep (task_at_ok s1 _ _ Ht1). cbn [parent_pid pid set_exit_status].
  destruct (parent_pid t =? -1); [done|]. kgo. erewrite K_step.
  2:{ rewrite (qtraverse_spec heap Q _ _ _ s1 Hq Ha).
      - apply traverse_adopt. intros p Hp. unfold s1. cbn [tasks set_tasks]. destruct (decide (p = run)) as [->|Hne].
        + rewrite lookup_insert_eq. by eexists.
        + rewrite lookup_insert_ne by done. by apply Hk.
      - intros x s0 b s' _ Hx. unfold init_adopt_a_child in Hx. invbind. unfold task_at in *. invbind.
        match goal with Hm : (if ?c then _ else _) _ = _ |- _ => destruct c end; unfold upd_task, mret, K_ret in *; invbind; by simplify_eq/=. }
  done.
Qed.

(** C35: [sys_exit], after it has freed memory: a parent that waits is made
    ready and gets the processor next, ahead of all other ready threads; the
    thread that exits is left hanging with its exit status, for the parent to
    find. *)
Theorem exit_wakes_parent s D Q run ready ps t k parent p :
  sched_inv s D Q run ready → threads_ok s Q ps → tasks s !! run = Some t → status t = TASK_RUNNING →
  list_find (λ q, (pid <$> tasks s !! q) = Some (parent_pid t)) ps = Some (k, parent) →
  tasks s !! parent = Some p → status p = TASK_WAITING → unlinked Q (general_tag parent) →
  ∃ s1 Q1, exit_finish run s = (s2 ← others run s1; Ok (tt, set_intr (intr s) s2)) ∧
    sched_inv s1 D Q1 parent ready ∧
    (∃ t1, tasks s1 !! run = Some t1 ∧ status t1 = TASK_HANGING ∧ exit_status t1 = exit_status t ∧ parent_pid t1 = parent_pid t) ∧
    (∃ p1, tasks s1 !! parent = Some p1 ∧ status p1 = TASK_RUNNING ∧ pid p1 = pid p).
Proof.
  intros I (Hq & Ha & Hk) Ht Hst Hfind Hp Hw Hu.
  destruct (thread_unblock_ok s D Q run ready parent p I Hp) as (h' & Hub & _ & Iu); [by rewrite Hw|done|].
  set (s0 := set_tasks _ _) in *.
  assert (run ≠ parent) as Hne by (intros ->; congruence).
  assert (tasks s0 !! run = Some t) as Ht0 by (simpl; by rewrite lookup_alter_ne).
  destruct (thread_block_full s0 D _ run (parent :: ready) TASK_HANGING t Iu Ht0 Hst eq_refl) as (next & rest & s1 & Hn & I1 & _ & _ & Hb & _ & _ & _ & HT); [done|].
  injection Hn as <- <-. exists s1. eexists. split_and!; [|exact I1| |].
  - unfold exit_finish. kstep (task_at_ok _ _ _ Ht).
    erewrite K_step by (by apply (pid2thread_spec s Q ps)). rewrite Hfind.
    kstep (task_at_ok _ _ _ Hp). rewrite bool_decide_eq_true_2 by done. kstep Hub. exact Hb.
  - rewrite HT. rewrite lookup_alter_eq, lookup_alter_ne, lookup_alter_eq, Ht0 by done. simpl. eexists. done.
  - rewrite HT. rewrite lookup_alter_ne, lookup_alter_eq, lookup_alter_ne by done. unfold s0. simpl.
    rewrite lookup_alter_eq, Hp. simpl. eexists. done.
Qed.
End Proofs.


(** ** Witnesses *)

(** [ex_A] runs, with pid 2; its child [ex_B] is ready; its parent, pid 1,
    waits. *)
Definition ex_member (p n pp : Z) (st : task_status) : task_struct :=
  set_pid n (set_parent_pid pp (ex_task p st)).
Definition ex_family : kst lheap :=
  set_tasks {[ ex_A := ex_member ex_A 2 1 TASK_RUNNING; ex_B := ex_member ex_B 3 2 TASK_READY;
               ex_idle := ex_member ex_idle 1 (-1) TASK_WAITING ]} ex_thread.

Lemma ex_family_inv : sched_inv ex_family ∅ ex_thread_queues ex_A [ex_B].
Proof.
  split; simpl.
  - apply ex_thread_rep.
  - by vm_compute.
  - intros p t Ht. map_cases Ht; (split_and!; [split; [done|by vm_compute]|by apply elem_of_dom; vm_compute; eexists|by left]).
  - intros p t Ht Hp. map_cases Ht; (done || by vm_compute).
  - by vm_compute.
  - eexists. split; [by vm_compute|done].
  - intros p Hp. apply list_elem_of_singleton in Hp as ->. by vm_compute; eexists.
  - intros p t Ht. rewrite list_elem_of_singleton. map_cases Ht; by vm_compute.
  - intros c v pa _ Hv. done.
Qed.

Lemma ex_family_threads : threads_ok ex_family ex_thread_queues ex_all.
Proof.
  split_and!; [apply ex_thread_rep|by vm_compute|]. intros p Hp.
  repeat (apply elem_of_cons in Hp as [->|Hp]; [split; [by eexists|by vm_compute]|]). by apply elem_of_nil in Hp.
Qed.

Lemma exit_hands_over_witness :
  exit_prepare 7 ex_family =
    Ok (ex_A, set_tasks (adopted 2 ex_all (<[ex_A := set_exit_status 7 (ex_member ex_A 2 1 TASK_RUNNING)]> (tasks ex_family))) ex_family).
Proof.
  exact (exit_hands_over ex_family ∅ ex_thread_queues ex_A [ex_B] ex_all (ex_member ex_A 2 1 TASK_RUNNING) 7
           ex_family_inv ex_family_threads eq_refl).
Defined.

Lemma exit_wakes_parent_witness : ∃ s1, exit_finish (H1 := ex_world) ex_A ex_family =
  (s2 ← others (World := ex_world) ex_A s1; Ok (tt, set_intr false s2)) ∧ status <$> tasks s1 !! ex_idle = Some TASK_RUNNING.
Proof.
  destruct (exit_wakes_parent (H1 := ex_world) ex_family ∅ ex_thread_queues ex_A [ex_B] ex_all (ex_member ex_A 2 1 TASK_RUNNING)
    2 ex_idle (ex_member ex_idle 1 (-1) TASK_WAITING)) as (s1 & Q1 & He & _ & _ & p1 & Hp & Hst & _).
  - exact ex_family_inv.
  - exact ex_family_threads.
  - reflexivity.
  - reflexivity.
  - by vm_compute.
  - reflexivity.
  - reflexivity.
  - intros l xs Hl. map_cases Hl; by apply (bool_decide_unpack _); vm_compute.
  - exists s1. split; [exact He|]. rewrite Hp. simpl. by rewrite Hst.
Defined.

Lemma wait_without_hanging_witness : ∃ s1, sys_wait (H1 := ex_world) ex_family =
  (s2 ← others (World := ex_world) ex_A s1; wait_loop (H1 := ex_world) 0 ex_A (set_intr false s2)) ∧
  status <$> tasks s1 !! ex_A = Some TASK_WAITING.
Proof.
  pose proof (wait_without_hanging (H1 := ex_world) ex_family ∅ ex_thread_queues ex_A [ex_B] ex_all (ex_member ex_A 2 1 TASK_RUNNING)
    ex_family_inv ex_family_threads eq_refl eq_refl) as Hw.
  assert (list_find (λ p, (is_hanging_child (pid (ex_member ex_A 2 1 TASK_RUNNING)) <$> tasks ex_family !! p) = Some true) ex_all = None) as Hn
    by (by vm_compute).
  assert (list_find (λ p, (is_child (pid (ex_member ex_A 2 1 TASK_RUNNING)) <$> tasks ex_family !! p) = Some true) ex_all = Some (1%nat, ex_B)) as Hc
    by (by vm_compute).
  specialize (Hw Hn). rewrite Hc in Hw. destruct Hw as (next & rest & s1 & _ & _ & (t1 & Ht & Hst & _) & Hs); [done|].
  exists s1. split; [exact Hs|]. rewrite Ht. simpl. by rewrite Hst.
Defined.

(** A kernel with two heap pages in use: a page directory and the task
    structure of a child of [ex_A] that has exited with status 7. *)
Definition ex_child : Z := heap_page 1.
Definition ex_gone : task_struct := set_exit_status 7 (set_pgdir (heap_page 0) (ex_member ex_child 3 2 TASK_HANGING)).
Definition ex_reap_queues : gmap Z (list Z) :=
  {[ thread_ready_list := [general_tag ex_B]; thread_all_list := all_list_tag <$> [ex_A; ex_B; ex_child]; ex_pid_waiters := [] ]}.
Definition ex_reap_cells : lheap :=
  {[ thread_all_list := ListElem 0 (all_list_tag ex_A);
     all_list_tag ex_A := ListElem thread_all_list (all_list_tag ex_B);
     all_list_tag ex_B := ListElem (all_list_tag ex_A) (all_list_tag ex_child);
     all_list_tag ex_child := ListElem (all_list_tag ex_B) (thread_all_list + 8);
     thread_all_list + 8 := ListElem (all_list_tag ex_child) 0;
     ex_pid_waiters := ListElem 0 (ex_pid_waiters + 8);
     ex_pid_waiters + 8 := ListElem ex_pid_waiters 0 ]} ∪ ex_cells.
Definition ex_reap (s : kst lheap) : kst lheap :=
  set_bytes (ex_pid_bytes ∪ bytes s)
    (set_pid_start 1 (set_pid_bitmap (Bitmap 128 pid_bitmap_bits)
      (set_heap ex_reap_cells
        (set_locks {[ pid_lock := Lock NULL 0 ]} (set_semas {[ lock_semaphore pid_lock := 1 ]}
          (set_tasks {[ ex_A := ex_member ex_A 2 1 TASK_RUNNING; ex_B := ex_member ex_B 4 1 TASK_READY; ex_child := ex_gone ]} s)))))).

Lemma ex_alloc_two : ∃ fs m' b', let s := set_phys m' (set_bytes b' ex_mem) in
  get_kernel_pages (H1 := ex_world) 2 ex_mem = Ok (heap_page 0, s) ∧ length fs = 2%nat ∧ heap_ok s ∧ owned s 0 fs ∧
  {[0; 1]} ⊆ heap_taken s.
Proof.
  destruct (get_kernel_pages_ok (H1 := ex_world) ex_mem ex_sync_queues 2) as (r & fs & m' & b' & Hg & Hl & Hr & Hrl & _ & HT & Al & _ & Hfr).
  - apply ex_heap_ok.
  - apply ex_heap_slack.
  - lia.
  - apply ex_room.
  - apply ex_free.
  - apply ex_sync_inv.
  - apply ex_lock_free.
  - done.
  - assert (heap_page r = heap_page 0) as E.
    { assert (match get_kernel_pages (H1 := ex_world) 2 ex_mem with Ok (va, _) => va | _ => 0 end = heap_page 0) as E by (by vm_compute).
      by rewrite Hg in E. }
    assert (r = 0) as -> by (unfold heap_page in E; lia). exists fs, m', b'. split; [exact Hg|]. split; [lia|]. split; [exact (al_ok _ _ _ _ Al)|].
    split; [apply allocated_owned; [exact ex_heap_ok|exact Al|lia|lia|exact Hfr]|].
    rewrite HT. intros k Hk. apply elem_of_union_l, elem_of_interval. apply elem_of_union in Hk as [Hk|Hk]; apply elem_of_singleton in Hk; lia.
Qed.

(** The pids' bitmap is apart from the others. *)
Lemma ex_bitmaps_high m' b' a : in_bitmaps (set_phys m' (set_bytes b' ex_mem)) a → MEM_BITMAP_BASE ≤ a.
Proof. intros [[[] Ha]|Ha]; unfold in_bitmap in Ha; cbn in Ha; unfold MEM_BITMAP_BASE in *; lia. Qed.
Lemma ex_pid_bytes_high a : MEM_BITMAP_BASE ≤ a → ex_pid_bytes !! a = None.
Proof.
  intros Ha. unfold ex_pid_bytes. unfold MEM_BITMAP_BASE in Ha. rewrite lookup_insert_ne by (unfold pid_bitmap_bits; lia).
  apply lookup_gset_to_gmap_None. rewrite elem_of_list_to_set, elem_of_seqZ. unfold pid_bitmap_bits. lia.
Qed.
Lemma ex_reap_pid_bitmap s : bitmap_wf (bytes (ex_reap s)) (pid_bitmap (ex_reap s)).
Proof.
  destruct ex_thread_pids as (_ & _ & [Hl Hm Hb]). split; [exact Hl|exact Hm|]. intros i Hi. destruct (Hb i Hi) as (v & Hv & Hr).
  exists v. split; [|exact Hr]. cbn [bytes ex_reap set_bytes]. by apply lookup_union_Some_l.
Qed.

(** A processor that has dropped the translation of a page that is no longer
    mapped. *)
Definition ex_flushed : World lheap :=
  {| others me s := Ok (set_esp (me + 4000) s); rounds := 0; stale _ := false |}.

Lemma wait_reaps_child_witness : ∃ s s', sys_wait (H1 := ex_world) s = Ok ((3, Some 7), s') ∧ pids s' = pids s ∖ {[3]} ∧
  sys_wait (H1 := ex_flushed) s = Fault.
Proof.
  destruct ex_alloc_two as (fs & m' & b' & _ & Hl & Hh & Ho & Ht). set (s0 := set_phys m' (set_bytes b' ex_mem)) in *.
  destruct fs as [|f [|g [|]]]; [discriminate Hl|discriminate Hl| |discriminate Hl].
  destruct (heap_ok_bytes s0 (ex_pid_bytes ∪ bytes s0)) as (Hh' & HT & HK).
  { intros a Ha. apply lookup_union_r. apply (ex_bitmaps_high m' b') in Ha. by apply ex_pid_bytes_high. }
  { exact Hh. }
  set (s1 := set_bytes (ex_pid_bytes ∪ bytes s0) s0) in *.
  assert (owned s1 0 [f; g]) as Ho1.
  { intros k x Hk. destruct (Ho k x Hk) as (Ha & Hb & Hc). split; [exact Ha|split; [|exact Hc]].
    destruct Hb as (j & Hj & ->). exists j. split; [|reflexivity]. rewrite HK. exact Hj. }
  pose proof (λ W, wait_reaps_child (H1 := W) (ex_reap s0) ex_reap_queues [ex_B] [ex_A; ex_B; ex_child] (ex_member ex_A 2 1 TASK_RUNNING)
    2 ex_child ex_gone 0 1 f g) as Hreap.
  assert (∀ W : World lheap, if stale ex_child then
      ∃ s', sys_wait (H1 := W) (ex_reap s0) = Ok ((3, Some 7), s') ∧ pids s' = pids (ex_reap s0) ∖ {[3]}
    else sys_wait (H1 := W) (ex_reap s0) = Fault) as Hboth.
  { intros W. refine (_ (Hreap W _ _ _ _ _ _)).
    { destruct (stale ex_child); [|exact id]. intros (s' & Hw & _ & HP & _). exists s'. split; [exact Hw|exact HP]. }
    - split; [by apply queues_check_ok; vm_compute|]. split; [by vm_compute|]. intros p Hp.
      repeat (apply elem_of_cons in Hp as [->|Hp]; [split; [by eexists|by vm_compute]|]). by apply elem_of_nil in Hp.
    - reflexivity.
    - by vm_compute.
    - by apply (bool_decide_unpack _); vm_compute.
    - by vm_compute.
    - split.
      + reflexivity.
      + exact (heap_ok_same s1 (ex_reap s0) (conj eq_refl (conj eq_refl (conj eq_refl (conj eq_refl (conj eq_refl eq_refl))))) Hh').
      + reflexivity.
      + reflexivity.
      + lia.
      + by vm_compute.
      + by vm_compute.
      + change (heap_taken (ex_reap s0)) with (heap_taken s1). rewrite HT. exact Ht.
      + intros k x Hk. destruct k as [|k]; [|discriminate Hk]. exact (Ho1 0%nat x Hk).
      + intros k x Hk. destruct k as [|k]; [|discriminate Hk]. exact (Ho1 1%nat x Hk).
      + by vm_compute.
      + split; [reflexivity|]. split; [reflexivity|]. apply ex_reap_pid_bitmap.
      + by vm_compute.
      + intros a Ha Hb. apply (ex_bitmaps_high m' b') in Hb. unfold MEM_BITMAP_BASE in Hb. unfold in_bitmap in Ha. cbn in Ha. unfold pid_bitmap_bits in Ha. lia.
      + split; [reflexivity|]. split; [reflexivity|]. by vm_compute.
      + by vm_compute.
  }
  destruct (Hboth ex_world) as (s' & Hw & HP). exists (ex_reap s0), s'. split_and!; [exact Hw|exact HP|exact (Hboth ex_flushed)].
Defined.
