(* ===== verification/Fork.v ===== *)
(** * Making a copy of a process (src/user/fork.c)

    The child gets a copy of the page of the parent's task structure, with
    the interrupt frame of the system call at its end; a page directory of its
    own with copies of all user pages; and a stack from which the switch to it
    leaves the kernel through that frame, with 0 as the result of [fork].

    [memcpy] of the page copies the task structure and the stacks in it.  The
    list cells in the copy are cleared here instead: the code sets the two tags
    to NULL and [block_desc_init] sets the lists up before any is used. *)

From S2P Require Import Prelude CString CArray Stdio Path Bitmap Lists PageTable Disk Kernel Sched Sync Memory Malloc Thread Process.
From S2P Require Import Fsys Inode Dir File Fs System.

(** The objects in the page at [src], also at their places in the page at [dst]. *)
Definition copy_objects {V} (dst src : Z) (m : gmap Z V) : gmap Z V :=
  kmap (λ a, a - src + dst) (filter (λ x : Z * V, src ≤ x.1 < src + PG_SIZE) m) ∪ m.

Section Fork.
Context {H A : Type} `{Queues H} `{World H} `{Allocator A}.
Abbreviation S := (K (sys H A)).

Definition memcpy_pcb (child_thread parent_thread : Z) : K (kst H) unit :=
  kASSERT (negb (child_thread =? NULL) && negb (parent_thread =? NULL)) ;;
  t ← task_at parent_thread;
  modify (λ s, set_tasks (<[child_thread := t]> (tasks s)) s) ;;
  modify (λ s, set_heap (zero_all (heap s) (task_cells child_thread)) s) ;;
  modify (λ s, set_descs (copy_objects child_thread parent_thread (descs s)) s) ;;
  modify (λ s, set_tstacks (copy_objects child_thread parent_thread (tstacks s)) s) ;;
  modify (λ s, set_istacks (copy_objects child_thread parent_thread (istacks s)) s).

(** "_fork". *)
Definition fork_suffix : list Z := [95; 102; 111; 114; 107; 0].

(** [bitmap_pg_cnt]. *)
Definition btmp_pages : Z := DIV_ROUND_UP user_btmp_bytes PG_SIZE.

Definition copy_pcb_vaddrbitmap_stack0 (child_thread parent_thread : Z) : K (kst H) Z :=
  memcpy_pcb child_thread parent_thread ;;
  n ← fork_pid;
  upd_task child_thread (set_pid n) ;;
  upd_task child_thread (set_elapsed_ticks 0) ;;
  upd_task child_thread (set_status TASK_READY) ;;
  upd_task child_thread (λ t, set_ticks (priority t) t) ;;
  p ← task_at parent_thread;
  upd_task child_thread (set_parent_pid (pid p)) ;;
  modify (λ s, set_heap (zero_all (heap s) [general_tag child_thread; all_list_tag child_thread]) s) ;;
  block_desc_init (u_block_desc child_thread) ;;
  vaddr_btmp ← get_kernel_pages btmp_pages;
  if vaddr_btmp =? NULL then mret (-1)
  else
    claim_bytes vaddr_btmp (btmp_pages * PG_SIZE) ;;
    t ← task_at child_thread;
    on_bytes (λ m, memcpy m vaddr_btmp (bits (vaddr_bitmap (user_vaddr t))) (btmp_pages * PG_SIZE)) ;;
    upd_task child_thread (λ t,
      set_user_vaddr (VirtualAddr (Bitmap (btmp_bytes_len (vaddr_bitmap (user_vaddr t))) vaddr_btmp) (vaddr_start (user_vaddr t))) t) ;;
    t ← task_at child_thread;
    n ← lift (astrlen (name t));
    kASSERT (n <? 11) ;;
    nm ← lift (astrcat (name t) fork_suffix);
    upd_task child_thread (set_name nm) ;;
    mret 0.

(** One page of the parent. *)
Definition copy_page (child_thread parent_thread buf_page prog_vaddr : Z) : K (kst H) unit :=
  kmemcpy buf_page prog_vaddr PG_SIZE ;;
  page_dir_activate child_thread ;;
  get_a_page_without_opvaddrbitmap PF_USER prog_vaddr ;;
  kmemcpy prog_vaddr buf_page PG_SIZE ;;
  page_dir_activate parent_thread.

(** The bits of one byte [v] of the bitmap, and the bytes of it. *)
Fixpoint copy_bits (n : nat) (child_thread parent_thread buf_page vaddr_start v idx_byte idx_bit : Z) : K (kst H) unit :=
  match n with
  | O => mret tt
  | Datatypes.S n =>
      (if negb (Z.land (Z.shiftl BITMAP_MASK idx_bit) v =? 0) then
         let prog_vaddr := u32 ((idx_byte * 8 + idx_bit) * PG_SIZE + vaddr_start) in
         copy_page child_thread parent_thread buf_page prog_vaddr
       else mret tt) ;;
      copy_bits n child_thread parent_thread buf_page vaddr_start v idx_byte (idx_bit + 1)
  end.
Fixpoint copy_bytes (n : nat) (child_thread parent_thread buf_page vaddr_btmp vaddr_start idx_byte : Z) : K (kst H) unit :=
  match n with
  | O => mret tt
  | Datatypes.S n =>
      m ← gets bytes; v ← lift (load8 m (vaddr_btmp + idx_byte));
      (if negb (v =? 0) then copy_bits 8 child_thread parent_thread buf_page vaddr_start v idx_byte 0 else mret tt) ;;
      copy_bytes n child_thread parent_thread buf_page vaddr_btmp vaddr_start (idx_byte + 1)
  end.
Definition copy_body_stack3 (child_thread parent_thread buf_page : Z) : K (kst H) unit :=
  t ← task_at parent_thread;
  let uv := user_vaddr t in
  copy_bytes (Z.to_nat (btmp_bytes_len (vaddr_bitmap uv))) child_thread parent_thread buf_page
    (bits (vaddr_bitmap uv)) (vaddr_start uv) 0.

(** Four saved registers and the return address of [switch_to] below the
    frame; the last two words of [thread_stack] are the frame's [edi] and
    [esi]. *)
Definition build_child_stack (child_thread : Z) : K (kst H) Z :=
  let intr_0_stack := u32 (child_thread + PG_SIZE - sizeof_intr_stack) in
  frames ← gets istacks;
  f ← lift (deref (frames !! intr_0_stack));
  let f := IntrStack (is_vec_no f) (is_edi f) (is_esi f) (is_ebp f) (is_esp_dummy f) (is_ebx f) (is_edx f) (is_ecx f)
             0 (is_gs f) (is_fs f) (is_es f) (is_ds f) (is_err_code f) (is_eip f) (is_cs f) (is_eflags f) (is_esp f) (is_ss f) in
  modify (set_istacks (<[intr_0_stack := f]> frames)) ;;
  let ebp_ptr_in_thread_stack := u32 (intr_0_stack - 20) in
  set_tstack ebp_ptr_in_thread_stack (ThreadStack 0 0 0 0 intr_exit_code (is_edi f) (is_esi f)) ;;
  upd_task child_thread (set_self_kstack ebp_ptr_in_thread_stack) ;;
  mret 0.

(** [n] descriptors from [local_fd] on. *)
Fixpoint open_cnts_loop (n : nat) (thread local_fd : Z) : S unit :=
  match n with
  | O => mret tt
  | Datatypes.S n =>
      t ← in_kern (task_at thread);
      global_fd ← lift (deref (fd_table t !! Z.to_nat local_fd));
      kASSERT (global_fd <? MAX_FILE_OPEN) ;;
      (if negb (global_fd =? -1) then
         lift (if global_fd <? 0 then Fault else Ok tt) ;;
         in_files (f ← get_file global_fd; upd_inode (fd_inode f) (λ i, set_i_open_cnts (u32 (i_open_cnts i + 1)) i))
       else mret tt) ;;
      open_cnts_loop n thread (local_fd + 1)
  end.
Definition update_inode_open_cnts (thread : Z) : S unit := open_cnts_loop 5 thread 3.

Definition copy_process (child_thread parent_thread : Z) : S Z :=
  buf_page ← in_kern (get_kernel_pages 1);
  if buf_page =? NULL then mret (-1)
  else
    r ← in_kern (copy_pcb_vaddrbitmap_stack0 child_thread parent_thread);
    if r =? -1 then mret (-1)
    else
      dir ← in_kern create_page_dir;
      in_kern (upd_task child_thread (set_pgdir dir)) ;;
      if dir =? NULL then mret (-1)
      else
        in_kern (copy_body_stack3 child_thread parent_thread buf_page) ;;
        in_kern (build_child_stack child_thread) ;;
        update_inode_open_cnts child_thread ;;
        in_kern (mfree_page PF_KERNEL buf_page 1) ;;
        mret 0.

Definition sys_fork : S Z :=
  parent_thread ← in_kern running_thread;
  child_thread ← in_kern (get_kernel_pages 1);
  if child_thread =? NULL then mret (-1)
  else
    st ← in_kern intr_get_status;
    p ← in_kern (task_at parent_thread);
    kASSERT (bool_decide (INTR_OFF = st) && negb (pgdir p =? NULL)) ;;
    r ← copy_process child_thread parent_thread;
    if r =? -1 then mret (-1)
    else
      in_kern (enlist thread_ready_list (general_tag child_thread)) ;;
      in_kern (enlist thread_all_list (all_list_tag child_thread)) ;;
      c ← in_kern (task_at child_thread);
      mret (pid c).
End Fork.

(** ** Properties *)

Lemma alter_insert_at {V} (g : V → V) (m : gmap Z V) i x : m !! i = Some x → alter g i m = <[i := g x]> m.
Proof. intros Hx. apply map_eq. intros j. destruct (decide (i = j)) as [<-|Hne]; by simplify_map_eq. Qed.

Section CopyObjects.
Context {V : Type} (dst src : Z) (m : gmap Z V).

#[local] Instance move_inj : Inj (=) (=) (λ a, a - src + dst).
Proof. intros x y. lia. Qed.

Lemma copy_objects_in k v : 0 ≤ k < PG_SIZE → m !! (src + k) = Some v → copy_objects dst src m !! (dst + k) = Some v.
Proof.
  intros Hk Hv. apply lookup_union_Some_l.
  replace (dst + k) with (src + k - src + dst) by lia. rewrite (lookup_kmap (λ a, a - src + dst)).
  apply map_lookup_filter_Some_2; [done|]. simpl. lia.
Qed.

Lemma copy_objects_out a : a < dst ∨ dst + PG_SIZE ≤ a → copy_objects dst src m !! a = m !! a.
Proof.
  intros Ha. apply lookup_union_r, (lookup_kmap_None (λ a, a - src + dst)).
  intros i ->. apply map_lookup_filter_None_2. right. intros v _. simpl. lia.
Qed.
End CopyObjects.

(** What a process sees when it comes back from [fork] with the result [r]. *)
Definition frame_result (r : Z) (f : intr_stack) : intr_stack :=
  IntrStack (is_vec_no f) (is_edi f) (is_esi f) (is_ebp f) (is_esp_dummy f) (is_ebx f) (is_edx f) (is_ecx f)
    r (is_gs f) (is_fs f) (is_es f) (is_ds f) (is_err_code f) (is_eip f) (is_cs f) (is_eflags f) (is_esp f) (is_ss f).

Section ForkSpec.
Context {H A : Type} `{Queues H} `{World H} `{Allocator A}.
Implicit Types s : kst H.

(** The frame of the system call is at the end of the page of a task. *)
Definition frame_addr (p : Z) : Z := p + 4020.

Lemma memcpy_pcb_ok s child parent t :
  child ≠ NULL → parent ≠ NULL → tasks s !! parent = Some t →
  memcpy_pcb child parent s = Ok (tt,
    set_istacks (copy_objects child parent (istacks s)) (set_tstacks (copy_objects child parent (tstacks s))
     (set_descs (copy_objects child parent (descs s)) (set_heap (zero_all (heap s) (task_cells child))
      (set_tasks (<[child := t]> (tasks s)) s))))).
Proof.
  intros Hc Hp Ht. unfold memcpy_pcb. rewrite !(proj2 (Z.eqb_neq _ NULL)) by done. simpl andb. kgo.
  kstep (task_at_ok _ _ _ Ht). done.
Qed.

Lemma build_child_stack_ok s child t f :
  page_ok child → tasks s !! child = Some t → istacks s !! frame_addr child = Some f →
  build_child_stack child s = Ok (0,
    set_tasks (<[child := set_self_kstack (child + 4000) t]> (tasks s))
     (set_tstacks (<[child + 4000 := ThreadStack 0 0 0 0 intr_exit_code (is_edi f) (is_esi f)]> (tstacks s))
      (set_istacks (<[frame_addr child := frame_result 0 f]> (istacks s)) s))).
Proof.
  intros [_ Hr] Ht Hf. unfold build_child_stack. rewrite (u32_small (child + PG_SIZE - sizeof_intr_stack)) by (unfold PG_SIZE, sizeof_intr_stack; lia).
  replace (child + PG_SIZE - sizeof_intr_stack) with (frame_addr child) by (unfold frame_addr, PG_SIZE, sizeof_intr_stack; lia).
  kgo. rewrite Hf. cbn [deref]. kgo. unfold set_tstack. kgo.
  rewrite (u32_small (frame_addr child - 20)) by (unfold frame_addr; lia).
  replace (frame_addr child - 20) with (child + 4000) by (unfold frame_addr; lia).
  erewrite K_step by (apply upd_task_ok; simpl; by eexists). kgo. simpl tasks.
  by rewrite (alter_insert_at _ _ _ _ Ht).
Qed.

Lemma call_switch_to_other s cur next t :
  page_ok cur → stack_ok cur (esp s) → cur ≠ next → is_Some (tasks s !! cur) →
  tasks s !! next = Some t → 0 ≤ self_kstack t < 2 ^ 32 - 20 →
  call_switch_to cur next s =
    Ok (tt, set_esp (self_kstack t + 20) (set_tasks (alter (set_self_kstack (esp s - 20)) cur (tasks s)) s)).
Proof.
  intros [_ Hcr] He Hne Hcur Hn Hk. unfold stack_ok in He. unfold call_switch_to, switch_to. kgo. simpl.
  rewrite (u32_small (esp s - 4)), (u32_small (_ - 16)) by lia. replace (esp s - 4 - 16) with (esp s - 20) by lia.
  erewrite K_step by (by apply upd_task_ok). kgo. simpl.
  erewrite K_step by (apply task_at_ok; simpl; by rewrite lookup_alter_ne, Hn).
  kgo. by rewrite u32_small by lia.
Qed.

(** C36: [fork] returns twice: from the moment the page of the parent has been
    copied, and whatever is then changed of the child but its frame,
    [build_child_stack] leaves a child that the scheduler can switch to: the
    switch returns to [intr_exit] with the stack pointer at the child's own
    frame, which is the frame of the parent's system call (the same user
    instruction, stack, flags and registers) except that [eax], the result of
    [fork], is 0.  The frame of the parent is as before. *)
Theorem fork_child_resumes s s1 s2 child parent t t2 f cur :
  page_ok child → page_ok parent → child ≠ parent →
  tasks s !! parent = Some t → istacks s !! frame_addr parent = Some f →
  memcpy_pcb child parent s = Ok (tt, s1) →
  istacks s2 = istacks s1 → tasks s2 !! child = Some t2 →
  page_ok cur → cur ≠ child → stack_ok cur (esp s2) → is_Some (tasks s2 !! cur) →
  ∃ s3 s4 ts, build_child_stack child s2 = Ok (0, s3) ∧ call_switch_to cur child s3 = Ok (tt, s4) ∧
    tstacks s4 !! (esp s4 - 20) = Some ts ∧ ts_eip ts = intr_exit_code ∧
    esp s4 = frame_addr child ∧ current s4 = child ∧
    istacks s4 !! esp s4 = Some (frame_result 0 f) ∧ istacks s4 !! frame_addr parent = Some f.
Proof.
  intros Hc Hp Hne Ht Hf Hm Hi Ht2 Hcur Hcc Hst Hsc.
  assert (child ≠ NULL ∧ parent ≠ NULL) as [Hcn Hpn] by (destruct Hc, Hp; unfold NULL; lia).
  rewrite (memcpy_pcb_ok _ _ _ _ Hcn Hpn Ht) in Hm. assert (istacks s1 = copy_objects child parent (istacks s)) as Hs1.
  { apply (f_equal (λ o, match o with Ok (_, x) => istacks x | _ => ∅ end)) in Hm. by symmetry. }
  assert (istacks s2 !! frame_addr child = Some f) as Hfc by (rewrite Hi, Hs1; by apply copy_objects_in; [unfold PG_SIZE; lia|]).
  pose proof (build_child_stack_ok s2 child t2 f Hc Ht2 Hfc) as Hb. set (s3 := set_tasks _ _) in Hb.
  pose proof (call_switch_to_other s3 cur child (set_self_kstack (child + 4000) t2)) as Hsw.
  cbn [self_kstack set_self_kstack] in Hsw. replace (child + 4000 + 20) with (frame_addr child) in Hsw by (unfold frame_addr; lia).
  exists s3. eexists _, _. split; [exact Hb|]. split.
  - apply Hsw; [done..| | |destruct Hc; lia].
    + simpl. by rewrite lookup_insert_ne.
    + simpl. apply lookup_insert_eq.
  - assert (frame_addr parent < child ∨ child + PG_SIZE ≤ frame_addr parent) as Ha.
    { destruct Hc, Hp. unfold frame_addr, PG_SIZE. dm. }
    split_and!.
    + simpl. replace (frame_addr child - 20) with (child + 4000) by (unfold frame_addr; lia). apply lookup_insert_eq.
    + done.
    + done.
    + unfold current. simpl. unfold frame_addr. destruct Hc. rewrite land_fffff000 by lia. dm.
    + simpl. apply lookup_insert_eq.
    + simpl. rewrite lookup_insert_ne by (unfold frame_addr in *; lia). by rewrite Hi, Hs1, copy_objects_out.
Qed.

(** ** Open files

    A descriptor is unused, or the number of an open file. *)
Definition fd_valid (x : sys H A) (k : Z) : Prop :=
  k = -1 ∨ ∃ g, 0 ≤ k < MAX_FILE_OPEN ∧ file_table (files x) !! Z.to_nat k = Some g ∧ is_Some (finodes (files x) !! fd_inode g).
(** The descriptors among [fds] that refer to the inode at [p]. *)
Definition refers (ft : list file) (p k : Z) : bool :=
  negb (k =? -1) && match ft !! Z.to_nat k with Some g => fd_inode g =? p | None => false end.
Definition opens (ft : list file) (p : Z) (fds : list Z) : Z :=
  foldr (λ k n, (if refers ft p k then 1 else 0) + n) 0 fds.

(** [x'] is [x] with the open counts raised for the descriptors [fds]. *)
Definition counted (fds : list Z) (x x' : sys H A) : Prop :=
  kern x' = kern x ∧ file_table (files x') = file_table (files x) ∧ fdisk (files x') = fdisk (files x) ∧
  ∀ p, finodes (files x') !! p =
    (λ i, set_i_open_cnts (u32 (i_open_cnts i + opens (file_table (files x)) p fds)) i) <$> finodes (files x) !! p.

Definition u32_counts (x : sys H A) : Prop := ∀ p i, finodes (files x) !! p = Some i → 0 ≤ i_open_cnts i < 2 ^ 32.

Lemma count_one (x : sys H A) k g tc :
  tasks (kern x) !! current (kern x) = Some tc → k ≠ -1 → 0 ≤ k →
  file_table (files x) !! Z.to_nat k = Some g → is_Some (finodes (files x) !! fd_inode g) → u32_counts x →
  ∃ x', in_files (f ← get_file k; upd_inode (fd_inode f) (λ i, set_i_open_cnts (u32 (i_open_cnts i + 1)) i)) x = Ok (tt, x') ∧
    counted [k] x x'.
Proof.
  intros Htc Hk Hk0 Hg [i Hi] Hu. eexists. split.
  - eapply in_files_ok; [exact Htc| |].
    + unfold get_file, upd_inode, get_inode, put_inode. kgo.
      change (file_table (load_thread tc (files x))) with (file_table (files x)). rewrite Hg. cbn [deref]. kgo.
      change (finodes (load_thread tc (files x))) with (finodes (files x)). rewrite Hi. cbn [deref]. kgo. reflexivity.
    + by destruct tc.
  - split_and!; try done. intros p. cbn [files finodes set_finodes load_thread set_pgdir_nr set_cwd_nr set_fd_tab].
    cbn [opens foldr]. unfold refers. rewrite (proj2 (Z.eqb_neq _ _) Hk), Hg. simpl.
    destruct (Z.eqb_spec (fd_inode g) p) as [<-|Hne].
    + rewrite lookup_insert_eq, Hi. simpl. done.
    + rewrite lookup_insert_ne by done. destruct (finodes (files x) !! p) as [j|] eqn:Hj; [|done].
      simpl. rewrite Z.add_0_r, u32_small by (by eapply Hu). by destruct j.
Qed.

Lemma counted_fold k fds (x x1 x' : sys H A) : counted [k] x x1 → counted fds x1 x' → counted (k :: fds) x x'.
Proof.
  intros (Hk1 & Ht1 & Hd1 & Hi1) (Hk & Ht & Hd & Hi). split_and!; [congruence..|]. intros p.
  rewrite Hi, Hi1, Ht1. destruct (finodes (files x) !! p) as [i|]; [|done]. cbn [fmap option_fmap option_map set_i_open_cnts i_open_cnts].
  f_equal. unfold set_i_open_cnts. simpl. f_equal. unfold u32. rewrite Zplus_mod_idemp_l. f_equal. lia.
Qed.

Lemma counted_skip fds (x x' : sys H A) : counted fds x x' → counted (-1 :: fds) x x'.
Proof. done. Qed.

Lemma counted_u32 fds (x x' : sys H A) : counted fds x x' → u32_counts x'.
Proof.
  intros (_ & _ & _ & Hi) p i. rewrite Hi. destruct (finodes (files x) !! p); [|done]. intros [= <-]. apply u32_range.
Qed.

Lemma counted_valid fds (x x' : sys H A) k : counted fds x x' → fd_valid x k → fd_valid x' k.
Proof.
  intros (_ & Ht & _ & Hi) [->|(g & Hr & Hg & Hs)]; [by left|]. right. exists g. rewrite Ht, Hi. split; [exact Hr|split; [exact Hg|]].
  by apply fmap_is_Some.
Qed.

Lemma open_cnts_loop_ok n : ∀ (x : sys H A) thread t tc l,
  tasks (kern x) !! thread = Some t → tasks (kern x) !! current (kern x) = Some tc →
  (Z.to_nat l + n = length (fd_table t))%nat → 0 ≤ l →
  Forall (fd_valid x) (drop (Z.to_nat l) (fd_table t)) → u32_counts x →
  ∃ x', open_cnts_loop n thread l x = Ok (tt, x') ∧ counted (drop (Z.to_nat l) (fd_table t)) x x'.
Proof.
  induction n as [|n IH]; intros x thread t tc l Ht Htc Hl Hl0 Hv Hu.
  - exists x. split; [done|]. rewrite drop_ge by lia. split_and!; [done..|]. intros p.
    destruct (finodes (files x) !! p) as [i|] eqn:Hi; [|done]. simpl. rewrite Z.add_0_r, u32_small by (by eapply Hu). by destruct i.
  - destruct (lookup_lt_is_Some_2 (fd_table t) (Z.to_nat l)) as [k Hk]; [lia|].
    rewrite (drop_S _ _ _ Hk) in Hv |- *. apply Forall_cons in Hv as [Hk1 Hv]. replace (Datatypes.S (Z.to_nat l)) with (Z.to_nat (l + 1)) in Hv |- * by lia.
    cbn [open_cnts_loop]. erewrite K_step by (apply in_kern_ok, task_at_ok, Ht). destruct x as [kx fx]. cbn [kern files] in *.
    kgo. rewrite Hk. cbn [deref]. kgo. destruct Hk1 as [->|(g & Hr & Hg & Hs)].
    + cbn [negb Z.eqb Z.ltb Z.compare MAX_FILE_OPEN]. kgo. destruct (IH (Sys kx fx) thread t tc (l + 1)) as (x' & Hx & Hc); [done..|lia|lia|done|done|].
      exists x'. split; [exact Hx|]. by apply counted_skip.
    + rewrite (proj2 (Z.ltb_lt k MAX_FILE_OPEN)), (proj2 (Z.eqb_neq k (-1))), (proj2 (Z.ltb_ge k 0)) by lia. cbn [negb]. kgo.
      destruct (count_one (Sys kx fx) k g tc) as (x1 & H1x & Hc1); [done|lia|lia|done..|]. kstep H1x.
      pose proof Hc1 as (Hk1 & _). cbn [kern] in Hk1.
      destruct (IH x1 thread t tc (l + 1)) as (x' & Hx & Hc); [by rewrite Hk1|by rewrite Hk1|lia|lia| |by eapply counted_u32|].
      { eapply Forall_impl; [exact Hv|]. intros k' Hk'. by eapply counted_valid. }
      exists x'. split; [exact Hx|]. by eapply counted_fold.
Qed.

(** C37: [fork] counts the files it shares: for a child whose descriptors above
    2 are unused or valid, [update_inode_open_cnts] raises the open count of
    every inode by the number of these descriptors that refer to it and
    changes nothing else; the slots of the global file table stay shared. *)
Theorem fork_counts_open_files (x : sys H A) thread t tc :
  tasks (kern x) !! thread = Some t → tasks (kern x) !! current (kern x) = Some tc → length (fd_table t) = 8%nat →
  Forall (fd_valid x) (drop 3 (fd_table t)) → u32_counts x →
  ∃ x', update_inode_open_cnts thread x = Ok (tt, x') ∧ kern x' = kern x ∧ file_table (files x') = file_table (files x) ∧
    ∀ p, finodes (files x') !! p =
      (λ i, set_i_open_cnts (u32 (i_open_cnts i + opens (file_table (files x)) p (drop 3 (fd_table t)))) i) <$> finodes (files x) !! p.
Proof.
  intros Ht Htc Hl Hv Hu. destruct (open_cnts_loop_ok 5 x thread t tc 3) as (x' & Hx & Hk & Hft & _ & Hi); [done..|by rewrite Hl|lia|done|done|].
  exists x'. by split_and!.
Qed.
End ForkSpec.

(** ** Witnesses *)

Definition ex_new : Z := 0xc0204000.
Definition ex_frame : intr_stack := IntrStack 0x80 1 2 3 4 5 6 7 4 0 51 51 51 0 0x8048100 43 514 0xbfffff00 51.
Definition ex_forking : kst lheap := set_istacks {[ frame_addr ex_A := ex_frame ]} ex_kst.
Definition ex_copied : kst lheap :=
  match memcpy_pcb ex_new ex_A ex_forking with Ok (_, k) => k | _ => ex_forking end.

Lemma fork_child_resumes_witness :
  ∃ s3 s4, build_child_stack ex_new ex_copied = Ok (0, s3) ∧ call_switch_to ex_A ex_new s3 = Ok (tt, s4) ∧
    istacks s4 !! esp s4 = Some (frame_result 0 ex_frame).
Proof.
  destruct (fork_child_resumes ex_forking ex_copied ex_copied ex_new ex_A (ex_task ex_A TASK_RUNNING)
              (ex_task ex_A TASK_RUNNING) ex_frame ex_A) as (s3 & s4 & ts & Hb & Hs & _ & _ & _ & _ & Hf & _).
  - split; [done|by vm_compute].
  - split; [done|by vm_compute].
  - done.
  - by vm_compute.
  - by vm_compute.
  - unfold ex_copied. by rewrite (memcpy_pcb_ok ex_forking ex_new ex_A (ex_task ex_A TASK_RUNNING)) by (done || by vm_compute).
  - reflexivity.
  - by vm_compute.
  - split; [done|by vm_compute].
  - done.
  - by vm_compute.
  - eexists. by vm_compute.
  - exists s3, s4. split; [exact Hb|]. split; [exact Hs|exact Hf].
Defined.

(** Descriptors 3 and 5 of the child share slot 7, and 4 has slot 8. *)
Definition ex_sharing : sys lheap (gmap Z Z) :=
  Sys (set_tasks {[ ex_A := ex_task ex_A TASK_RUNNING; ex_new := set_fd_table [0; 1; 2; 7; 8; 7; -1; -1] (ex_task ex_new TASK_READY) ]} ex_kst)
    (set_fdisk ∅ (set_file_table (<[7%nat := File 0 0 0x5000]> (<[8%nat := File 0 0 0x6000]> (replicate 32 (File 0 0 0))))
       (set_finodes {[ 0x5000 := Inode 1 0 1 0 []; 0x6000 := Inode 2 0 1 0 [] ]} ex_fs))).

Lemma fork_counts_open_files_witness :
  ∃ x', update_inode_open_cnts ex_new ex_sharing = Ok (tt, x') ∧
    finodes (files x') !! 0x5000 = Some (Inode 1 0 3 0 []) ∧ finodes (files x') !! 0x6000 = Some (Inode 2 0 2 0 []).
Proof.
  destruct (fork_counts_open_files ex_sharing ex_new (set_fd_table [0; 1; 2; 7; 8; 7; -1; -1] (ex_task ex_new TASK_READY))
              (ex_task ex_A TASK_RUNNING)) as (x' & Hx & _ & _ & Hi).
  - by vm_compute.
  - by vm_compute.
  - done.
  - repeat apply Forall_cons_2; try (by left); try done; right; (eexists; split; [by vm_compute|split; [reflexivity|by eexists]]).
  - intros p i Hp. unfold ex_sharing in Hp. cbn [files finodes set_fdisk set_file_table set_finodes] in Hp. map_cases Hp; by vm_compute.
  - exists x'. split; [exact Hx|]. split; [by rewrite (Hi 0x5000)|by rewrite (Hi 0x6000)].
Defined.
