(* ===== verification/ForkMemory.v ===== *)
(** * The memory of a child (copy_body_stack3 of src/user/fork.c)

    While it copies the pages of a process, the kernel changes between two
    page directories: the parent's, [p], and the child's, [c].  They share the
    entries of the kernel's half; the tables of the child's half are its own.
    This file shows that copying a page through the buffer leaves the parent's
    address space as it was and adds a page with the same words to the
    child's, and that the loop over the bitmap does so for every page of the
    parent. *)

From S2P Require Import Prelude CString Bitmap Lists PageTable Kernel Sched Sync Memory Malloc Thread Process.
From S2P Require Import Disk Fsys System Fork.

(** ** Two directories in one memory *)

Definition user_page (va : Z) : Prop := 0x400000 ≤ va < 0xc0000000 ∧ va mod 4096 = 0.
Definition kernel_va (va : Z) : Prop := 0xc0000000 ≤ va < 0xffc00000.

Lemma user_page_managed va : user_page va → managed va.
Proof. unfold user_page, managed. lia. Qed.
Lemma kernel_va_managed va : kernel_va va → managed va.
Proof. unfold kernel_va, managed. lia. Qed.
Lemma user_page_idx va : user_page va → 1 ≤ va / 2 ^ 22 < 768.
Proof. unfold user_page. change (2 ^ 22) with 4194304. dm. Qed.
Lemma kernel_va_idx va : kernel_va va → 768 ≤ va / 2 ^ 22 < 1023.
Proof. unfold kernel_va. change (2 ^ 22) with 4194304. dm. Qed.

Record twin (m : pmem) (p c : Z) : Prop := {
  tw_p : tables_ok m p;
  tw_c : tables_ok m c;
  tw_dir : fresh_frame m p c;
  tw_shared : ∀ i, 768 ≤ i < 1023 → m !! (c + i * 4) = m !! (p + i * 4);
  tw_apart : ∀ i pde, 1 ≤ i < 768 → m !! (c + i * 4) = Some pde → present pde = true → fresh_frame m p (frame pde);
}.

(** A change that the directory [p] does not notice. *)
Record unseen (m m' : pmem) (p : Z) : Prop := {
  un_tables : tables_ok m' p;
  un_translate : ∀ va, managed va → translate m' p va = translate m p va;
  un_fresh : ∀ g, fresh_frame m p g → fresh_frame m' p g;
  un_dir : ∀ i, 0 ≤ i < 1024 → m' !! (p + i * 4) = m !! (p + i * 4);
}.

Lemma unseen_trans m1 m2 m3 p : unseen m1 m2 p → unseen m2 m3 p → unseen m1 m3 p.
Proof.
  intros [? A2 A3 A4] [B1 B2 B3 B4]. split; [done| |by auto|].
  - intros va Hv. by rewrite B2, A2.
  - intros i Hi. by rewrite B4, A4.
Qed.

Lemma data_write_unseen m m' p f : tables_ok m p → fresh_frame m p f → data_write m m' f → unseen m m' p.
Proof.
  intros T F D. split.
  - by eapply data_write_tables.
  - intros va Hv. by eapply data_write_translate.
  - intros g. by eapply data_write_fresh.
  - intros i Hi. by eapply data_write_dir.
Qed.

Lemma insert_write m f a v : (∀ b w, m !! b = Some w → 0 ≤ w < 2 ^ 32) → f ≤ a < f + 4096 → 0 ≤ v < 2 ^ 32 →
  data_write m (<[a := v]> m) f.
Proof.
  intros Hm Ha Hv. split_and!.
  - intros b Hb. apply lookup_insert_ne. lia.
  - intros b Hb. rewrite lookup_insert_is_Some'. by right.
  - intros b w [[_ <-]|[_ Hb]]%lookup_insert_Some; [done|by eapply Hm].
Qed.

Lemma twin_translate m p c va : twin m p c → kernel_va va → translate m c va = translate m p va.
Proof.
  intros W Hv. pose proof (kernel_va_idx _ Hv) as Hi. destruct (managed_pde m p va (tw_p _ _ _ W) (kernel_va_managed _ Hv)) as [pde Hp].
  rewrite (translate_walk _ _ _ _ Hp), (translate_walk m c va pde); [done|]. unfold pde_addr in *. by rewrite (tw_shared _ _ _ W).
Qed.

Lemma twin_write m m' p c f : twin m p c → fresh_frame m p f → fresh_frame m c f → data_write m m' f → twin m' p c.
Proof.
  intros [Tp Tc Td Ts Ta] Fp Fc D. pose proof (data_write_unseen _ _ _ _ Tp Fp D) as Up. pose proof (data_write_unseen _ _ _ _ Tc Fc D) as Uc.
  split; [apply Up|apply Uc|by apply Up| |].
  - intros i Hi. rewrite (un_dir _ _ _ Up), (un_dir _ _ _ Uc) by lia. by apply Ts.
  - intros i pde Hi. rewrite (un_dir _ _ _ Uc) by lia. intros Hp Hpr. apply Up. by eapply Ta.
Qed.

(** ** Adding a page to the child *)

(** The memory after [page_table_add va f] in the directory [c]; a new table
    is in the page [t]. *)
Inductive added (m : pmem) (c va f : Z) : option Z → pmem → Prop :=
  | added_present pde : m !! pde_addr c va = Some pde → present pde = true →
      added m c va f None (<[pte_addr pde va := f + 7]> m)
  | added_new pde t : m !! pde_addr c va = Some pde → present pde = false → fresh_frame m c t →
      added m c va f (Some t) (<[pte_addr (t + 7) va := f + 7]> (new_table m c va t)).

Section Added.
Context (m : pmem) (p c va f : Z) (t : option Z) (m' : pmem).
Hypothesis W : twin m p c.
Hypothesis Hva : user_page va.
Hypothesis Hfa : f mod 4096 = 0.
Hypothesis Hfr : 0 ≤ f < 2 ^ 32 - 4096.
Hypothesis Ht : ∀ g, t = Some g → fresh_frame m p g.
Hypothesis Ad : added m c va f t m'.

Lemma pte_addr_in pde : frame pde ≤ pte_addr pde va < frame pde + 4096.
Proof using. unfold pte_addr. fold (frame pde). pose proof (pte_idx_range va). lia. Qed.

(** The entry of a new table. *)
Lemma new_table_pde h : fresh_frame m c h → new_table m c va h !! pde_addr c va = Some (h + 7).
Proof using W Hva.
  intros F. pose proof (user_page_idx _ Hva). unfold pde_addr.
  rewrite new_table_dir by (done || apply (tw_c _ _ _ W) || by apply user_page_managed || lia). by rewrite decide_True.
Qed.

Lemma added_maps : maps_page m m' c va f.
Proof using All.
  pose proof (tw_c _ _ _ W) as T. pose proof (user_page_managed _ Hva) as Hv. destruct Ad as [pde Hp Hpr|pde g Hp Hpr F].
  - by apply set_pte_maps.
  - destruct (frame_entry g) as [Hpg Hfg]; [apply F..|].
    destruct (set_pte_maps _ _ _ _ f (tables_ok_new_table _ _ _ _ T F Hv) Hv (new_table_pde _ F) Hpg Hfa Hfr) as [Tm Mm].
    split; [exact Tm|]. intros va' Hv'. rewrite Mm by exact Hv'. destruct (decide _); [reflexivity|]. by eapply translate_new_table.
Qed.

Lemma added_unseen : unseen m m' p.
Proof using All.
  pose proof (user_page_idx _ Hva) as Hi. pose proof (tw_p _ _ _ W) as Tp. destruct Ad as [pde Hp Hpr|pde g Hp Hpr F].
  - eapply data_write_unseen; [exact Tp|eapply (tw_apart _ _ _ W); [exact Hi|exact Hp|exact Hpr]|].
    apply insert_write; [apply Tp|apply pte_addr_in|lia].
  - destruct (frame_entry g) as [Hpg Hfg]; [apply F..|]. pose proof (Ht g eq_refl) as Fg. rewrite new_table_eq.
    pose proof (ff_range _ _ _ F) as Hgr.
    assert (unseen m (<[pde_addr c va := g + 7]> m) p) as U1.
    { eapply data_write_unseen; [exact Tp|apply W|]. apply insert_write; [apply Tp|unfold pde_addr; lia|lia]. }
    assert (unseen (<[pde_addr c va := g + 7]> m) (zero_words 1024 g (<[pde_addr c va := g + 7]> m)) p) as U2.
    { eapply data_write_unseen; [apply U1|apply U1, Fg|]. apply zero_words_write, U1. }
    eapply unseen_trans; [exact U1|]. eapply unseen_trans; [exact U2|].
    eapply data_write_unseen; [apply U2|apply U2, U1, Fg|]. apply insert_write; [apply U2| |lia].
    pose proof (pte_addr_in (g + 7)) as Hin. by rewrite Hfg in Hin.
Qed.

(** The words of a page that is no table of the child stay. *)
Lemma added_words g k : fresh_frame m c g → t ≠ Some g → 0 ≤ k < 1024 → m' !! (g + k * 4) = m !! (g + k * 4).
Proof using All.
  intros G Hne Hk. pose proof (user_page_idx _ Hva) as Hi. pose proof (tw_c _ _ _ W) as T.
  destruct Ad as [pde Hp Hpr|pde h Hp Hpr F].
  - apply lookup_insert_ne. intros E. apply (page_word_inj (frame pde) g) in E as [E _];
      [|apply frame_aligned, (t_words _ _ T _ _ Hp)|apply G|apply pte_idx_range|done].
    by apply (ff_new _ _ _ G (va / 2 ^ 22) pde ltac:(lia) Hp Hpr).
  - destruct (frame_entry h) as [Hph Hfh]; [apply F..|]. rewrite lookup_insert_ne.
    2:{ unfold pte_addr. fold (frame (h + 7)). rewrite Hfh. intros E.
        apply page_word_inj in E as [E _]; [congruence|apply F|apply G|apply pte_idx_range|done]. }
    rewrite new_table_lookup_other.
    2:{ intros j Hj E. apply page_word_inj in E as [E _]; [congruence|apply G|apply F|done..]. }
    apply lookup_insert_ne. unfold pde_addr. intros E. apply page_word_inj in E as [E _]; [|apply T|apply G|lia|done].
    by apply (ff_dir _ _ _ G).
Qed.

Lemma added_fresh g : fresh_frame m c g → t ≠ Some g → fresh_frame m' c g.
Proof using All.
  intros G Hne. pose proof (user_page_managed _ Hva) as Hv. pose proof (tw_c _ _ _ W) as T.
  destruct Ad as [pde Hp Hpr|pde h Hp Hpr F]; [by eapply fresh_frame_set_pte|].
  eapply (fresh_frame_set_pte _ _ _ (h + 7)); [by apply tables_ok_new_table|done|by apply new_table_pde|apply frame_entry; apply F|].
  apply fresh_frame_new_table; [exact T|exact Hv|exact F|exact G|congruence].
Qed.

(** The directory of the child: one entry may be new. *)
Lemma added_dir i : 0 ≤ i < 1024 →
  m' !! (c + i * 4) = match t with
                      | Some h => if decide (i = va / 2 ^ 22) then Some (h + 7) else m !! (c + i * 4)
                      | None => m !! (c + i * 4)
                      end.
Proof using All.
  intros Hi. pose proof (user_page_managed _ Hva) as Hv. pose proof (tw_c _ _ _ W) as T.
  destruct Ad as [pde Hp Hpr|pde h Hp Hpr F].
  - apply lookup_insert_ne. by eapply pte_addr_not_dir.
  - rewrite lookup_insert_ne.
    2:{ eapply (pte_addr_not_dir (new_table m c va h)); [by apply tables_ok_new_table|done|by apply new_table_pde|apply frame_entry; apply F|done]. }
    by rewrite new_table_dir by (done || apply T).
Qed.

Lemma added_twin : twin m' p c.
Proof using All.
  pose proof added_unseen as U. pose proof (user_page_idx _ Hva) as Hi. split; [apply U|apply added_maps|apply U, W| |].
  - intros i Hir. rewrite (un_dir _ _ _ U), added_dir by lia. rewrite <- (tw_shared _ _ _ W) by done.
    destruct t; [|done]. by rewrite decide_False by lia.
  - intros i pde Hir. rewrite added_dir by lia. intros Hp Hpr. apply U. destruct t as [h|]; [|by eapply (tw_apart _ _ _ W)].
    destruct (decide (i = va / 2 ^ 22)); [|by eapply (tw_apart _ _ _ W)]. injection Hp as <-.
    pose proof (Ht h eq_refl) as Fh. destruct (frame_entry h) as [_ ->]; [apply Fh..|done].
Qed.
End Added.

(** ** The directory of the child, as [create_page_dir] leaves it *)

Section NewDir.
Context (m : pmem) (p f : Z).
Hypothesis T : tables_ok m p.
Hypothesis F : fresh_frame m p f.
Hypothesis Z0 : ∀ i, 0 ≤ i < 768 → m !! (f + i * 4) = Some 0.

Lemma new_dir_entry i pde : 1 ≤ i < 1023 → dir_filled m p f !! (f + i * 4) = Some pde → present pde = true →
  768 ≤ i ∧ m !! (p + i * 4) = Some pde.
Proof using All.
  intros Hi. rewrite (dir_filled_entry m p f T F) by lia. rewrite decide_False by lia. destruct (decide (768 ≤ i)); [done|].
  rewrite Z0 by lia. intros [= <-] Hpr. discriminate Hpr.
Qed.

Lemma new_dir_unseen : unseen m (dir_filled m p f) p.
Proof using T F. eapply data_write_unseen; [exact T|exact F|]. exact (dir_filled_write m p f T F). Qed.

Lemma new_dir_tables : tables_ok (dir_filled m p f) f.
Proof using All.
  destruct (dir_filled_write m p f T F) as (_ & Hs & Hw). pose proof (ff_range _ _ _ F). split.
  - split; [apply F|lia|]. pose proof (dir_filled_entry m p f T F 1023 ltac:(lia)) as E. by rewrite decide_True in E by done.
  - exact Hw.
  - intros i Hi. by apply Hs, F.
  - intros i pde Hi Hp Hpr. destruct (new_dir_entry i pde Hi Hp Hpr) as [_ Hm].
    split; [exact (ff_new _ _ _ F i pde Hi Hm Hpr)|]. intros k Hk. by apply Hs, (t_table _ _ T i pde Hi Hm Hpr).
  - intros i j pi pj Hi Hj Hpi Hpj Hi1 Hj1. destruct (new_dir_entry i pi Hi Hpi Hi1) as [_ Hmi]. destruct (new_dir_entry j pj Hj Hpj Hj1) as [_ Hmj].
    by apply (t_inj _ _ T).
Qed.

Lemma new_dir_fresh g : fresh_frame m p g → g ≠ f → fresh_frame (dir_filled m p f) f g.
Proof using All.
  intros G Hne. destruct (dir_filled_write m p f T F) as (_ & Hs & _). split; [apply G|apply G| |exact Hne|].
  - intros k Hk. by apply Hs, G.
  - intros i pde Hi Hp Hpr. destruct (new_dir_entry i pde Hi Hp Hpr) as [_ Hm]. exact (ff_new _ _ _ G i pde Hi Hm Hpr).
Qed.

Lemma new_dir_twin : twin (dir_filled m p f) p f.
Proof using All.
  pose proof new_dir_unseen as U. split; [apply U|exact new_dir_tables|by apply U| |].
  - intros i Hi. rewrite (un_dir _ _ _ U) by lia. rewrite (dir_filled_entry m p f T F) by lia. rewrite decide_False, decide_True by lia. reflexivity.
  - intros i pde Hi Hp Hpr. destruct (new_dir_entry i pde ltac:(lia) Hp Hpr). lia.
Qed.

Lemma new_dir_empty x : 0x400000 ≤ x < 0xc0000000 → translate (dir_filled m p f) f x = None.
Proof using All.
  intros Hx. assert (1 ≤ x / 2 ^ 22 < 768) by (change (2 ^ 22) with 4194304; dm). rewrite (translate_walk _ _ _ 0); [done|].
  unfold pde_addr. rewrite (dir_filled_entry m p f T F) by lia. rewrite !decide_False by lia. apply Z0. lia.
Qed.
End NewDir.

(** ** Copying the words of a page *)

Lemma copy_words_write m f g :
  (∀ b w, m !! b = Some w → 0 ≤ w < 2 ^ 32) → g + 4096 ≤ f ∨ f + 4096 ≤ g → data_write m (copy_words 1024 f g m) f.
Proof.
  intros Hm Ha. split_and!.
  - intros b Hb. rewrite copy_words_lookup, decide_False by lia. done.
  - intros b Hb. rewrite copy_words_lookup by lia. destruct (decide _); [by eexists|done].
  - intros b w. rewrite copy_words_lookup by lia. destruct (decide _); [|by apply Hm].
    intros [= <-]. destruct (m !! (g + (b - f))) as [x|] eqn:E; simpl; [by eapply Hm|lia].
Qed.

Lemma copy_words_page m f g k :
  g + 4096 ≤ f ∨ f + 4096 ≤ g → is_Some (m !! (g + k * 4)) → 0 ≤ k < 1024 → copy_words 1024 f g m !! (f + k * 4) = m !! (g + k * 4).
Proof.
  intros Ha [w Hw] Hk. rewrite copy_words_lookup by lia. rewrite decide_True by dm.
  replace (g + (f + k * 4 - f)) with (g + k * 4) by lia. by rewrite Hw.
Qed.

Lemma frames_apart f g : f mod 4096 = 0 → g mod 4096 = 0 → f ≠ g → g + 4096 ≤ f ∨ f + 4096 ≤ g.
Proof. intros. dm. Qed.

(** ** The three changes of memory that copy a page

    The page [g] of the parent is copied to the buffer [fb], the page [f] is
    entered at [va] in the child, and the buffer is copied to it. *)

Section Chain.
Context (m0 m2 : pmem) (p c va f fb g buf : Z) (t : option Z).
Let m1 := copy_words 1024 fb g m0.
Let m3 := copy_words 1024 f fb m2.
Hypothesis W : twin m0 p c.
Hypothesis Hva : user_page va.
Hypothesis Hbuf : kernel_va buf ∧ buf mod 4096 = 0 ∧ translate m0 p buf = Some fb.
Hypothesis Hg : fresh_frame m0 p g ∧ fresh_frame m0 c g ∧ g ≠ fb.
Hypothesis Hfb : fresh_frame m0 p fb ∧ fresh_frame m0 c fb.
Hypothesis Hf : fresh_frame m0 p f ∧ fresh_frame m0 c f ∧ f ≠ fb.
Hypothesis Ht : ∀ h, t = Some h → fresh_frame m0 p h ∧ h ≠ f ∧ h ≠ fb.
Hypothesis Ad : added m1 c va f t m2.

Lemma chain_fill : data_write m0 m1 fb ∧ unseen m0 m1 p ∧ unseen m0 m1 c ∧ twin m1 p c.
Proof using W Hg Hfb.
  destruct Hg as (Gp & Gc & Hgf), Hfb as [Bp Bc].
  assert (data_write m0 m1 fb) as D.
  { apply copy_words_write; [apply (tw_p _ _ _ W)|apply frames_apart; [apply Bp|apply Gp|done]]. }
  split; [exact D|]. split; [by eapply data_write_unseen; [apply W|exact Bp|exact D]|].
  split; [by eapply data_write_unseen; [apply W|exact Bc|exact D]|]. by eapply twin_write.
Qed.

Lemma chain_add : unseen m1 m2 p ∧ twin m2 p c ∧ maps_page m1 m2 c va f ∧
  (∀ h, fresh_frame m0 c h → t ≠ Some h → fresh_frame m2 c h ∧ ∀ k, 0 ≤ k < 1024 → m2 !! (h + k * 4) = m1 !! (h + k * 4)).
Proof using W Hva Hg Hfb Hf Ht Ad.
  destruct chain_fill as (_ & Up & Uc & W1). destruct Hf as (Fp & Fc & _).
  assert (∀ h, t = Some h → fresh_frame m1 p h) as Ht1 by (intros h E; apply Up; by apply Ht).
  pose proof (ff_aligned _ _ _ Fp) as Fa. pose proof (ff_range _ _ _ Fp) as Fr.
  split; [by eapply added_unseen|]. split; [by eapply added_twin|]. split; [by eapply added_maps|].
  intros h Hh Hne. apply Uc in Hh. split; [by eapply added_fresh|]. intros k Hk. by eapply added_words.
Qed.

(** What the copy into the child's page relies on. *)
Lemma chain_ready : translate m2 c va = Some f ∧ translate m2 c buf = Some fb ∧
  fresh_frame m2 c f ∧ fresh_frame m2 c fb ∧ fresh_frame m2 p f.
Proof using W Hva Hbuf Hg Hfb Hf Ht Ad.
  destruct chain_fill as (_ & Up & Uc & W1). destruct chain_add as (Up2 & W2 & [_ M] & Hc). destruct Hf as (Fp & Fc & Hne), Hfb as [Bp Bc].
  destruct Hbuf as (Hk & Hba & Hbt). pose proof (kernel_va_managed _ Hk) as Hkm. split_and!.
  - rewrite M by (by apply user_page_managed). rewrite decide_True by done. destruct Hva as [_ ->]. by rewrite Z.add_0_r.
  - rewrite M by done. rewrite decide_False.
    2:{ unfold same_page. unfold user_page, kernel_va in *. dm. }
    rewrite (twin_translate _ _ _ _ W1 Hk), (un_translate _ _ _ Up) by done. done.
  - apply Hc; [done|]. intros E. by destruct (Ht f E) as (_ & ? & _).
  - apply Hc; [done|]. intros E. by destruct (Ht fb E) as (_ & _ & ?).
  - by apply Up2, Up.
Qed.

Lemma chain_last : data_write m2 m3 f ∧ unseen m2 m3 p ∧ unseen m2 m3 c ∧ twin m3 p c.
Proof using W Hva Hbuf Hg Hfb Hf Ht Ad.
  destruct chain_add as (_ & W2 & _). destruct chain_ready as (_ & _ & Fc & Bc & Fp). destruct Hf as (_ & _ & Hne).
  assert (data_write m2 m3 f) as D.
  { apply copy_words_write; [apply (tw_p _ _ _ W2)|apply frames_apart; [apply Fc|apply Bc|done]]. }
  split; [exact D|]. split; [by eapply data_write_unseen; [apply W2|exact Fp|exact D]|].
  split; [by eapply data_write_unseen; [apply W2|exact Fc|exact D]|]. by eapply twin_write.
Qed.

Lemma chain_unseen : unseen m0 m3 p.
Proof using W Hva Hbuf Hg Hfb Hf Ht Ad.
  destruct chain_fill as (_ & U1 & _). destruct chain_add as (U2 & _). destruct chain_last as (_ & U3 & _).
  eapply unseen_trans; [exact U1|]. by eapply unseen_trans.
Qed.

Lemma chain_translate x : managed x →
  translate m3 c x = if decide (same_page va x) then Some (f + x mod 4096) else translate m0 c x.
Proof using W Hva Hbuf Hg Hfb Hf Ht Ad.
  intros Hx. destruct chain_fill as (_ & _ & U1 & _). destruct chain_add as (_ & _ & [_ M] & _). destruct chain_last as (_ & _ & U3 & _).
  rewrite (un_translate _ _ _ U3), M by done. destruct (decide _); [done|]. by apply U1.
Qed.

Lemma chain_fresh h : fresh_frame m0 c h → t ≠ Some h → fresh_frame m3 c h.
Proof using W Hva Hbuf Hg Hfb Hf Ht Ad.
  intros Hh Hne. destruct chain_add as (_ & _ & _ & Hc). destruct chain_last as (_ & _ & U3 & _). by apply U3, Hc.
Qed.

Lemma chain_words h k : fresh_frame m0 c h → t ≠ Some h → h ≠ fb → h ≠ f → 0 ≤ k < 1024 → m3 !! (h + k * 4) = m0 !! (h + k * 4).
Proof using W Hva Hbuf Hg Hfb Hf Ht Ad.
  intros Hh Hne Hhb Hhf Hk. destruct chain_fill as (D1 & _). destruct chain_add as (_ & _ & _ & Hc). destruct chain_last as (D3 & _).
  destruct Hf as (Fp & _ & _), Hfb as [Bp _]. pose proof (ff_aligned _ _ _ Hh) as Ha.
  rewrite (data_write_other _ _ _ _ _ D3 (ff_aligned _ _ _ Fp) Ha Hhf Hk).
  destruct (Hc h Hh Hne) as [_ E]. rewrite (E k Hk).
  exact (data_write_other _ _ _ _ _ D1 (ff_aligned _ _ _ Bp) Ha Hhb Hk).
Qed.

Lemma chain_copy k : 0 ≤ k < 1024 → m3 !! (f + k * 4) = m0 !! (g + k * 4).
Proof using W Hva Hbuf Hg Hfb Hf Ht Ad.
  intros Hk. destruct chain_add as (_ & _ & _ & Hc). destruct chain_ready as (_ & _ & Fc & Bc & _).
  destruct Hf as (_ & _ & Hne), Hfb as [Bp0 Bc0], Hg as (Gp & _ & Hgf).
  unfold m3. rewrite copy_words_page; [|apply frames_apart; [apply Fc|apply Bc|done]|by apply Bc|done].
  destruct (Hc fb Bc0) as [_ E]. { intros E. by destruct (Ht fb E) as (_ & _ & ?). }
  rewrite (E k Hk). unfold m1. rewrite copy_words_page; [done| |by apply Gp|done].
  apply frames_apart; [apply Bp0|apply Gp|done].
Qed.
End Chain.

Section ForkMemory.
Context {H A : Type} `{Queues H} `{World H} `{Allocator A}.
Implicit Types s : kst H.

Lemma kmemcpy_page s src g dst f :
  tables_ok (phys s) (cr3 s) → managed src → src mod 4096 = 0 → managed dst → dst mod 4096 = 0 →
  translate (phys s) (cr3 s) src = Some g → translate (phys s) (cr3 s) dst = Some f →
  fresh_frame (phys s) (cr3 s) f → fresh_frame (phys s) (cr3 s) g → f ≠ g →
  kmemcpy dst src PG_SIZE s = Ok (tt, set_phys (copy_words 1024 f g (phys s)) s).
Proof.
  intros T Hs Hsa Hd Hda Hg Hf F G Hne. unfold kmemcpy, on_phys. kgo.
  assert (vmemcpy (phys s) (cr3 s) dst src PG_SIZE = Ok (copy_words 1024 f g (phys s))) as ->; [|done].
  unfold vmemcpy. unfold managed in *. rewrite !(proj2 (Z.eqb_neq _ NULL)) by (unfold NULL; lia). cbn [negb andb ASSERT mbind outcome_bind].
  replace (Z.to_nat PG_SIZE) with (4 * 1024)%nat by (unfold PG_SIZE; lia).
  pose proof (ff_aligned _ _ _ F) as Hfa. pose proof (ff_aligned _ _ _ G) as Hga. pose proof (frames_apart _ _ Hfa Hga Hne).
  apply (vmemcpy_loop_words 1024 _ _ _ _ _ _ f); [by apply page_stays_mapped|by apply page_stays_mapped|dm|dm|lia|lia|lia| |apply T].
  intros k Hk. split; [apply F; lia|apply G; lia].
Qed.

Lemma vm_unseen s m' d : vm_ok (set_cr3 d s) → unseen (phys s) m' d → vm_ok (set_cr3 d (set_phys m' s)).
Proof.
  intros [P T Hf Hu] U. split; simpl in *.
  - by eapply pools_ok_ext; [..|exact P].
  - apply U.
  - intros g Hg. by apply U, Hf.
  - intros g va pa Hg Hv. rewrite (un_translate _ _ _ U) by done. by apply Hu.
Qed.

Lemma vm_ok_fewer s s' : vm_ok s → pools_ok s' → phys s' = phys s → cr3 s' = cr3 s →
  (∀ g, free_page s' g → free_page s g) → vm_ok s'.
Proof.
  intros [P T Hf Hu] P' Em Ec Hg. split; rewrite ?Em, ?Ec; [done..| |].
  - intros g Hg'. by apply Hf, Hg.
  - intros g va pa Hg'. by apply Hu, Hg.
Qed.
Lemma vm_ok_tasks s d T : vm_ok (set_cr3 d s) → vm_ok (set_cr3 d (set_tasks T s)).
Proof. intros V. apply (vm_ok_fewer _ _ V); [|done..]. by eapply pools_ok_ext, (vm_pools _ V). Qed.

(** A page taken from a pool is no longer free. *)
Lemma pool_changed_free pf s b' i g :
  pools_ok s → 0 ≤ i < pool_len pf s → pool_changed pf s (set_bytes b' s) ({[i]} ∪ pool_taken pf s) →
  free_page (set_bytes b' s) g → free_page s g ∧ g ≠ page_at pf s i.
Proof.
  intros P Hi (P' & HT & HTo & _) (pf' & j & Hj & Hn & ->). destruct (decide (pf' = pf)) as [->|Hne].
  - rewrite HT in Hn. split; [exists pf, j; set_solver|]. intros E. change (page_at pf s j = page_at pf s i) in E.
    unfold page_at in E. assert (j = i) by lia. set_solver.
  - rewrite HTo in Hn by done. split; [by exists pf', j|]. intros E. apply Hne. by eapply (page_at_inj s).
Qed.

Lemma pool_changed_count pf s b' i :
  i ∉ pool_taken pf s → pool_changed pf s (set_bytes b' s) ({[i]} ∪ pool_taken pf s) →
  free_count pf (set_bytes b' s) = free_count pf s - 1 ∧
  ∀ pf', pf' ≠ pf → free_count pf' (set_bytes b' s) = free_count pf' s.
Proof.
  intros Hn (_ & HT & HTo & _). unfold free_count. split.
  - rewrite HT, size_union, size_singleton by set_solver. change (pool_len pf (set_bytes b' s)) with (pool_len pf s). lia.
  - intros pf' Hne. by rewrite HTo.
Qed.

(** Taking a page from a pool and entering it: what [get_a_page_...] does
    between taking and giving back the lock. *)
Lemma take_and_map s va :
  vm_ok s → user_page va → translate (phys s) (cr3 s) va = None →
  0 < free_count PF_USER s → 0 < free_count PF_KERNEL s →
  ∃ f t m' b1 b', let s' := set_phys m' (set_bytes b' s) in
    palloc PF_USER s = Ok (f, set_bytes b1 s) ∧ f ≠ NULL ∧ page_table_add va f (set_bytes b1 s) = Ok (tt, s') ∧
    free_page s f ∧ (∀ g, t = Some g → free_page s g ∧ g ≠ f) ∧ added (phys s) (cr3 s) va f t m' ∧
    pools_ok s' ∧ (∀ g, free_page s' g → free_page s g ∧ g ≠ f ∧ t ≠ Some g) ∧ same_bytes s s' ∧
    free_count PF_USER s - 1 ≤ free_count PF_USER s' ∧ free_count PF_KERNEL s - 1 ≤ free_count PF_KERNEL s'.
Proof.
  intros V Hva Hn Hu Hk. pose proof (vm_pools _ V) as P. pose proof (user_page_managed _ Hva) as Hv.
  destruct (palloc_ok PF_USER s P (free_count_not_full _ _ Hu)) as (i & b1 & Hpa & Hi & Hin & _ & Hch).
  set (f := page_at PF_USER s i) in *. set (s1 := set_bytes b1 s) in *.
  assert (∀ g, free_page s1 g → free_page s g ∧ g ≠ f) as Hfree by (intros g; by apply pool_changed_free).
  destruct (pool_changed_count _ _ _ _ Hin Hch) as [Cu Ck]. specialize (Ck PF_KERNEL ltac:(done)). fold s1 in Cu, Ck.
  destruct (page_at_range s PF_USER i P Hi) as [Hfa Hfr]. fold f in Hfa, Hfr.
  assert (vm_ok s1) as V1 by (apply (vm_ok_fewer s); [done|apply Hch|done|done|intros g Hg; by apply Hfree]).
  assert (free_page s f) as Hff by (by exists PF_USER, i).
  destruct (managed_pde _ _ _ (vm_tables _ V) Hv) as [pde Hp]. destruct (present pde) eqn:Hpr.
  - pose proof (page_table_add_present s1 va f pde (vm_tables _ V1) Hv Hp Hpr Hn Hfa ltac:(lia)) as Hadd.
    exists f, None, (<[pte_addr pde va := f + 7]> (phys s)), b1, b1.
    split; [exact Hpa|]. split; [unfold NULL; lia|]. split; [exact Hadd|]. split; [exact Hff|]. split; [done|].
    split; [by apply added_present|]. split; [eapply pools_ok_ext; [..|apply V1]; done|].
    split; [intros g Hg; destruct (Hfree g Hg); done|]. split; [apply Hch|].
    change (free_count PF_USER s - 1 ≤ free_count PF_USER s1 ∧ free_count PF_KERNEL s - 1 ≤ free_count PF_KERNEL s1). lia.
  - destruct (page_table_add_absent s1 va f pde V1 Hv Hp Hpr) as (t & b' & Hadd & Ht & Htn & Hch' & F & _); [|done|lia|].
    { apply (free_count_not_full PF_KERNEL). lia. }
    destruct (pool_changed_count _ _ _ _ Htn Hch') as [Ck' Cu']. specialize (Cu' PF_USER ltac:(done)).
    exists f, (Some (page_at PF_KERNEL s t)), (<[pte_addr (page_at PF_KERNEL s t + 7) va := f + 7]> (new_table (phys s) (cr3 s) va (page_at PF_KERNEL s t))), b1, b'.
    split; [exact Hpa|]. split; [unfold NULL; lia|]. split; [exact Hadd|]. split; [exact Hff|]. split.
    { intros g [= <-]. apply Hfree. by exists PF_KERNEL, t. }
    split; [by eapply added_new|]. split; [eapply pools_ok_ext; [..|apply Hch']; done|]. split.
    { intros g Hg. destruct (pool_changed_free PF_KERNEL s1 b' t g (vm_pools _ V1) Ht Hch' Hg) as [Hg1 Hgt].
      destruct (Hfree g Hg1). split; [done|]. split; [done|]. intros [= E]. apply Hgt. symmetry. exact E. }
    split.
    { intros a Ha. destruct Hch' as (_ & _ & _ & _ & Hb'). destruct Hch as (_ & _ & _ & _ & Hb1).
      etrans; [exact (Hb' a Ha)|exact (Hb1 a Ha)]. }
    change (free_count PF_USER s - 1 ≤ free_count PF_USER (set_bytes b' s1) ∧ free_count PF_KERNEL s - 1 ≤ free_count PF_KERNEL (set_bytes b' s1)). lia.
Qed.

Lemma released_same s Q l b' m' :
  lock_free s Q l → released (set_phys m' (set_bytes b' (acquired s l (current s)))) l = set_phys m' (set_bytes b' s).
Proof.
  intros Hlf. pose proof (released_acquired s Q l (current s) Hlf) as E. unfold released, acquired in *.
  destruct s; simpl in *. by injection E as -> ->.
Qed.

Lemma get_user_page_ok s Q va :
  vm_ok s → user_page va → translate (phys s) (cr3 s) va = None →
  0 < free_count PF_USER s → 0 < free_count PF_KERNEL s →
  qrep (heap s) Q → lock_free s Q user_pool_lock → current s ≠ NULL →
  ∃ f t m' b', let s' := set_phys m' (set_bytes b' s) in
    get_a_page_without_opvaddrbitmap PF_USER va s = Ok (va, s') ∧
    free_page s f ∧ (∀ g, t = Some g → free_page s g ∧ g ≠ f) ∧ added (phys s) (cr3 s) va f t m' ∧
    pools_ok s' ∧ (∀ g, free_page s' g → free_page s g ∧ g ≠ f ∧ t ≠ Some g) ∧ same_bytes s s' ∧
    free_count PF_USER s - 1 ≤ free_count PF_USER s' ∧ free_count PF_KERNEL s - 1 ≤ free_count PF_KERNEL s'.
Proof.
  intros V Hva Hn Hu Hk Hq Hlf Hcur. set (s1 := acquired s user_pool_lock (current s)).
  assert (vm_ok s1) as V1 by (apply (vm_ok_fewer s); [done|eapply pools_ok_ext; [..|apply V]; done|done|done|done]).
  destruct (take_and_map s1 va V1 Hva Hn Hu Hk) as (f & t & m' & b1 & b' & Hpa & Hnn & Hadd & Hff & Hft & Had & P' & Hfree & Hsb & Hc).
  exists f, t, m', b'. split.
  - unfold get_a_page_without_opvaddrbitmap. kstep (lock_acquire_free s Q user_pool_lock Hcur Hlf). kstep Hpa.
    rewrite (proj2 (Z.eqb_neq _ _) Hnn). kstep Hadd.
    kstep (lock_release_last (set_phys m' (set_bytes b' s1)) Q user_pool_lock (acquired_held s Q _ Hlf) Hq).
    pose proof (released_same s Q user_pool_lock b' m' Hlf) as E. fold s1 in E. by rewrite E.
  - split; [exact Hff|]. split; [exact Hft|]. split; [exact Had|]. split; [eapply pools_ok_ext; [..|exact P']; done|].
    split; [exact Hfree|]. split; [exact Hsb|exact Hc].
Qed.

(** ** One page of the parent *)

Section CopyPage.
Context (p c buf fb child parent : Z).

(** The state in which the kernel copies pages: the parent's directory is
    loaded, free pages are unknown to both directories, the buffer at [buf] is
    the page [fb], and the user pages of both are neither tables nor the
    buffer. *)
Record forking (s : kst H) : Prop := {
  fk_cr3 : cr3 s = p;
  fk_twin : twin (phys s) p c;
  fk_p : vm_ok (set_cr3 p s);
  fk_c : vm_ok (set_cr3 c s);
  fk_buf : kernel_va buf ∧ buf mod 4096 = 0 ∧ translate (phys s) p buf = Some fb;
  fk_fb : fresh_frame (phys s) p fb ∧ fresh_frame (phys s) c fb;
  fk_user : ∀ d va g, d = p ∨ d = c → user_page va → translate (phys s) d va = Some g →
    fresh_frame (phys s) p g ∧ fresh_frame (phys s) c g ∧ g ≠ fb;
  fk_child : ∃ t, tasks s !! child = Some t ∧ kernel_va (pgdir t) ∧ translate (phys s) p (pgdir t) = Some c;
  fk_parent : ∃ t, tasks s !! parent = Some t ∧ kernel_va (pgdir t) ∧ translate (phys s) p (pgdir t) = Some p;
}.

(** The pages at [vas] have been copied to the child, each to a page that is
    not the parent's. *)
Record copied (vas : list Z) (s s' : kst H) : Prop := {
  cp_state : s' = set_phys (phys s') (set_bytes (bytes s') s);
  cp_bytes : same_bytes s s';
  cp_parent : ∀ x, managed x → translate (phys s') p x = translate (phys s) p x;
  cp_words : ∀ d va g k, d = p ∨ d = c → user_page va → translate (phys s) d va = Some g → 0 ≤ k < 1024 →
    phys s' !! (g + k * 4) = phys s !! (g + k * 4);
  cp_other : ∀ va, user_page va → va ∉ vas → translate (phys s') c va = translate (phys s) c va;
  cp_new : ∀ va, va ∈ vas → ∃ g f, translate (phys s) p va = Some g ∧ translate (phys s') c va = Some f ∧
    (∀ k, 0 ≤ k < 1024 → phys s' !! (f + k * 4) = phys s !! (g + k * 4)) ∧
    (∀ x g', user_page x → translate (phys s') p x = Some g' → g' ≠ f);
  cp_free : ∀ pf, free_count pf s - Z.of_nat (length vas) ≤ free_count pf s';
}.

(** A page in use is not free. *)
Lemma used_not_free s d x g : vm_ok (set_cr3 d s) → managed x → translate (phys s) d x = Some g → g mod 4096 = 0 →
  0 ≤ g < 2 ^ 32 - 4096 → ~ free_page s g.
Proof.
  intros V Hx Ht Hga Hgr Hf. apply (vm_unmapped _ V g x g); [exact Hf|exact Hx|exact Ht|].
  pose proof (frame_offset g 0 Hga Hgr) as E. by rewrite Z.mod_0_l, Z.add_0_r in E by lia.
Qed.

Lemma user_not_free s d x g : forking s → d = p ∨ d = c → user_page x → translate (phys s) d x = Some g → ~ free_page s g.
Proof.
  intros K Hd Hx Ht. destruct (fk_user _ K d x g Hd Hx Ht) as (F & _ & _).
  apply (used_not_free s d x); [destruct Hd as [->| ->]; [apply K|apply K]|by apply user_page_managed|done|apply F|apply F].
Qed.
Lemma buffer_not_free s : forking s → ~ free_page s fb.
Proof.
  intros K. destruct (fk_buf _ K) as (Hk & _ & Ht). destruct (fk_fb _ K) as [F _].
  apply (used_not_free s p buf); [apply K|by apply kernel_va_managed|done|apply F|apply F].
Qed.

Lemma activate_ok s t d x : tasks s !! x = Some t → kernel_va (pgdir t) → tables_ok (phys s) (cr3 s) →
  translate (phys s) (cr3 s) (pgdir t) = Some d → page_dir_activate x s = Ok (tt, set_cr3 d s).
Proof.
  intros Ht Hk T Htr. unfold page_dir_activate. kstep (task_at_ok _ _ _ Ht).
  rewrite (proj2 (Z.eqb_neq (pgdir t) NULL)) by (unfold kernel_va, NULL in *; lia). kgo.
  pose proof (v2p_ok s _ _ T (kernel_va_managed _ Hk) Htr) as Hv. unfold v2p in Hv. revert Hv. kgo.
  destruct (addr_v2p _ _ _) as [a| | |]; unfold lift; simpl; intros [=]. subst a. done.
Qed.

Lemma page_eq va x : user_page va → user_page x → same_page va x → x = va.
Proof. unfold user_page, same_page. intros. dm. Qed.

(** The run of [copy_page], in terms of the memories of the chain. *)
Lemma copy_page_run s Q va g :
  forking s → user_page va → translate (phys s) p va = Some g → translate (phys s) c va = None →
  0 < free_count PF_USER s → 0 < free_count PF_KERNEL s →
  qrep (heap s) Q → lock_free s Q user_pool_lock → current s ≠ NULL →
  ∃ f t m2 b', let s' := set_phys (copy_words 1024 f fb m2) (set_bytes b' s) in
    copy_page child parent buf va s = Ok (tt, s') ∧ added (copy_words 1024 fb g (phys s)) c va f t m2 ∧
    (free_page s f ∧ f ≠ fb) ∧ (∀ h, t = Some h → free_page s h ∧ h ≠ f ∧ h ≠ fb) ∧
    pools_ok s' ∧ (∀ h, free_page s' h → free_page s h ∧ h ≠ f ∧ t ≠ Some h) ∧ same_bytes s s' ∧
    ∀ pf, free_count pf s - 1 ≤ free_count pf s'.
Proof.
  intros K Hva Hg Hn Hu Hk Hq Hlf Hcur. pose proof (user_page_managed _ Hva) as Hv.
  destruct (fk_buf _ K) as (Hbk & Hba & Hbt). pose proof (fk_user _ K p va g ltac:(by left) Hva Hg) as Gs.
  pose proof (fk_fb _ K) as Bs. pose proof (fk_twin _ K) as W. pose proof (fk_cr3 _ K) as Ec.
  destruct (chain_fill (phys s) p c fb g W Gs Bs) as (_ & Up & Uc & W1).
  set (m1 := copy_words 1024 fb g (phys s)) in *. set (s1 := set_cr3 c (set_phys m1 s)).
  destruct (fk_child _ K) as (tc & Htc & Hkc & Hcd). destruct (fk_parent _ K) as (tp & Htp & Hkp & Hpd).
  assert (vm_ok s1) as V1 by (by apply vm_unseen; [apply K|]).
  assert (translate m1 c va = None) as Hn1 by (by rewrite (un_translate _ _ _ Uc)).
  destruct (get_user_page_ok s1 Q va V1 Hva Hn1 Hu Hk Hq Hlf Hcur)
    as (f & t & m2 & b' & Hget & Hff & Hft & Had & P' & Hfree & Hsb & Cu & Ck).
  change (free_page s f) in Hff. pose proof (buffer_not_free _ K) as Hbf.
  assert (f ≠ fb) as Hffb by (intros ->; exact (Hbf Hff)).
  assert (∀ h, t = Some h → free_page s h ∧ h ≠ f ∧ h ≠ fb) as Hts.
  { intros h E. destruct (Hft h E) as [Hh Hhf]. change (free_page s h) in Hh. split; [exact Hh|]. split; [exact Hhf|]. intros ->. exact (Hbf Hh). }
  assert (fresh_frame (phys s) p f ∧ fresh_frame (phys s) c f ∧ f ≠ fb) as Fs.
  { split; [exact (vm_fresh _ (fk_p _ K) f Hff)|]. split; [exact (vm_fresh _ (fk_c _ K) f Hff)|exact Hffb]. }
  assert (∀ h, t = Some h → fresh_frame (phys s) p h ∧ h ≠ f ∧ h ≠ fb) as Hth.
  { intros h E. destruct (Hts h E) as (Hh & Hn1' & Hn2'). split; [exact (vm_fresh _ (fk_p _ K) h Hh)|split; [exact Hn1'|exact Hn2']]. }
  destruct (chain_ready _ _ _ _ _ _ _ _ _ _ W Hva (fk_buf _ K) Gs Bs Fs Hth Had) as (R1 & R2 & R3 & R4 & _).
  destruct (chain_add _ _ _ _ _ _ _ _ _ W Hva Gs Bs Fs Hth Had) as (_ & W2 & _).
  destruct (chain_last _ _ _ _ _ _ _ _ _ _ W Hva (fk_buf _ K) Gs Bs Fs Hth Had) as (_ & _ & _ & W3).
  pose proof (chain_unseen _ _ _ _ _ _ _ _ _ _ W Hva (fk_buf _ K) Gs Bs Fs Hth Had) as U.
  set (m3 := copy_words 1024 f fb m2) in *. exists f, t, m2, b'. fold m3.
  split; [|split; [exact Had|split; [exact (conj Hff Hffb)|split; [exact Hts|split; [|split; [exact Hfree|split; [exact Hsb|]]]]]]].
  - unfold copy_page.
    erewrite K_step.
    2:{ apply (kmemcpy_page s va g buf fb); rewrite ?Ec;
          [apply W|exact Hv|apply Hva|by apply kernel_va_managed|exact Hba|exact Hg|exact Hbt|apply Bs|apply Gs|apply not_eq_sym, Gs]. }
    fold m1. rewrite (K_step _ _ _ _ _ (activate_ok (set_phys m1 s) tc c child Htc Hkc ltac:(simpl; rewrite Ec; apply W1)
      ltac:(simpl; rewrite Ec, (un_translate _ _ _ Up) by (by apply kernel_va_managed); exact Hcd))).
    fold s1. kstep Hget. set (s2 := set_phys m2 _).
    erewrite K_step.
    2:{ apply (kmemcpy_page s2 buf fb va f);
          [apply W2|by apply kernel_va_managed|exact Hba|exact Hv|apply Hva|exact R2|exact R1|exact R3|exact R4|exact Hffb]. }
    fold m3. rewrite (activate_ok (set_phys (copy_words 1024 f fb (phys s2)) s2) tp p parent Htp Hkp (tw_c _ _ _ W3)).
    2:{ simpl. change (translate m3 c (pgdir tp) = Some p). rewrite (twin_translate _ _ _ _ W3 Hkp), (un_translate _ _ _ U) by (by apply kernel_va_managed). exact Hpd. }
    do 2 f_equal. rewrite <- Ec. clear. by destruct s.
  - eapply pools_ok_ext; [..|exact P']; done.
  - intros []; [exact Ck|exact Cu].
Qed.

Section Step.
Context (s : kst H) (va g f : Z) (t : option Z) (m2 : pmem) (b' : bmem).
Let m3 := copy_words 1024 f fb m2.
Let s' := set_phys m3 (set_bytes b' s).
Hypothesis K : forking s.
Hypothesis Hva : user_page va.
Hypothesis Hg : translate (phys s) p va = Some g.
Hypothesis Ad : added (copy_words 1024 fb g (phys s)) c va f t m2.
Hypothesis Hff : free_page s f ∧ f ≠ fb.
Hypothesis Hts : ∀ h, t = Some h → free_page s h ∧ h ≠ f ∧ h ≠ fb.
Hypothesis P' : pools_ok s'.
Hypothesis Hfree : ∀ h, free_page s' h → free_page s h ∧ h ≠ f ∧ t ≠ Some h.

Lemma step_user d x h : d = p ∨ d = c → user_page x → translate (phys s) d x = Some h →
  fresh_frame (phys s) p h ∧ fresh_frame (phys s) c h ∧ h ≠ fb ∧ h ≠ f ∧ t ≠ Some h.
Proof using All.
  intros Hd Hx Htr. destruct (fk_user _ K d x h Hd Hx Htr) as (Fp & Fc & Hb). pose proof (user_not_free s d x h K Hd Hx Htr) as Hn.
  split; [exact Fp|]. split; [exact Fc|]. split; [exact Hb|]. split; [intros ->; exact (Hn (proj1 Hff))|].
  intros E. exact (Hn (proj1 (Hts h E))).
Qed.

Lemma step_chain : unseen (phys s) m3 p ∧ twin m3 p c ∧
  (∀ x, managed x → translate m3 c x = if decide (same_page va x) then Some (f + x mod 4096) else translate (phys s) c x) ∧
  (∀ h, fresh_frame (phys s) c h → t ≠ Some h → fresh_frame m3 c h) ∧
  (∀ h k, fresh_frame (phys s) c h → t ≠ Some h → h ≠ fb → h ≠ f → 0 ≤ k < 1024 → m3 !! (h + k * 4) = phys s !! (h + k * 4)) ∧
  (∀ k, 0 ≤ k < 1024 → m3 !! (f + k * 4) = phys s !! (g + k * 4)).
Proof using K Hva Hg Ad Hff Hts.
  pose proof (fk_user _ K p va g ltac:(by left) Hva Hg) as Gs. pose proof (fk_fb _ K) as Bs. pose proof (fk_twin _ K) as W.
  destruct Hff as [Hf Hfb].
  assert (fresh_frame (phys s) p f ∧ fresh_frame (phys s) c f ∧ f ≠ fb) as Fs.
  { split; [exact (vm_fresh _ (fk_p _ K) f Hf)|]. split; [exact (vm_fresh _ (fk_c _ K) f Hf)|exact Hfb]. }
  assert (∀ h, t = Some h → fresh_frame (phys s) p h ∧ h ≠ f ∧ h ≠ fb) as Hth.
  { intros h E. destruct (Hts h E) as (Hh & E1 & E2). split; [exact (vm_fresh _ (fk_p _ K) h Hh)|exact (conj E1 E2)]. }
  pose proof (fk_buf _ K) as Hb. split; [exact (chain_unseen _ _ _ _ _ _ _ _ _ _ W Hva Hb Gs Bs Fs Hth Ad)|].
  split; [exact (proj2 (proj2 (proj2 (chain_last _ _ _ _ _ _ _ _ _ _ W Hva Hb Gs Bs Fs Hth Ad))))|].
  split; [exact (chain_translate _ _ _ _ _ _ _ _ _ _ W Hva Hb Gs Bs Fs Hth Ad)|].
  split; [exact (chain_fresh _ _ _ _ _ _ _ _ _ _ W Hva Hb Gs Bs Fs Hth Ad)|].
  split; [exact (chain_words _ _ _ _ _ _ _ _ _ _ W Hva Hb Gs Bs Fs Hth Ad)|].
  exact (chain_copy _ _ _ _ _ _ _ _ _ _ W Hva Hb Gs Bs Fs Hth Ad).
Qed.

Lemma step_child x : user_page x → translate m3 c x = if decide (x = va) then Some f else translate (phys s) c x.
Proof using K Hva Hg Ad Hff Hts.
  intros Hx. destruct step_chain as (_ & _ & Htr & _). rewrite Htr by (by apply user_page_managed).
  destruct (decide (same_page va x)) as [E|E].
  - rewrite decide_True by (by apply page_eq). destruct Hx as [_ ->]. by rewrite Z.add_0_r.
  - rewrite decide_False; [done|]. intros ->. by apply E.
Qed.

Lemma step_forking : forking s'.
Proof using All.
  destruct step_chain as (U & W3 & Htr & Hfr & _). destruct Hff as [Hf Hfb].
  assert (∀ h, free_page s' h → free_page s h) as Hsub by (intros h Hh; exact (proj1 (Hfree h Hh))).
  split.
  - exact (fk_cr3 _ K).
  - exact W3.
  - apply (vm_unseen (set_bytes b' s) m3 p); [|exact U].
    apply (vm_ok_fewer (set_cr3 p s)); [apply K|eapply pools_ok_ext; [..|exact P']; done|done|done|exact Hsub].
  - split.
    + eapply pools_ok_ext; [..|exact P']; done.
    + apply W3.
    + intros h Hh. destruct (Hfree h Hh) as (Hh0 & _ & Hne). apply Hfr; [exact (vm_fresh _ (fk_c _ K) h Hh0)|exact Hne].
    + intros h x pa Hh Hx. destruct (Hfree h Hh) as (Hh0 & Hne & _). simpl. rewrite Htr by exact Hx.
      destruct (decide _); [|exact (vm_unmapped _ (fk_c _ K) h x pa Hh0 Hx)]. intros [= <-].
      pose proof (vm_fresh _ (fk_c _ K) f Hf) as F. rewrite frame_offset by apply F. exact (not_eq_sym Hne).
  - destruct (fk_buf _ K) as (Hk & Ha & Hb). split; [exact Hk|]. split; [exact Ha|]. simpl.
    rewrite (un_translate _ _ _ U) by (by apply kernel_va_managed). exact Hb.
  - destruct (fk_fb _ K) as [Bp Bc]. split; [exact (un_fresh _ _ _ U fb Bp)|]. apply Hfr; [exact Bc|].
    intros E. exact (proj2 (proj2 (Hts fb E)) eq_refl).
  - intros d x h Hd Hx. simpl. intros Hh.
    assert ((fresh_frame (phys s) p h ∧ fresh_frame (phys s) c h ∧ h ≠ fb) ∧ t ≠ Some h) as [(Fp & Fc & Hb) Hne].
    { destruct (decide (d = c ∧ x = va)) as [[-> ->]|Hn].
      - rewrite step_child, decide_True in Hh by done. injection Hh as <-.
        split; [|intros E; exact (proj1 (proj2 (Hts f E)) eq_refl)].
        split; [exact (vm_fresh _ (fk_p _ K) f Hf)|split; [exact (vm_fresh _ (fk_c _ K) f Hf)|exact Hfb]].
      - assert (translate (phys s) d x = Some h) as Hh0.
        { destruct Hd as [->| ->].
          - rewrite (un_translate _ _ _ U) in Hh by (by apply user_page_managed). exact Hh.
          - rewrite step_child, decide_False in Hh by (done || (intros ->; apply Hn; done)). exact Hh. }
        destruct (step_user d x h Hd Hx Hh0) as (E1 & E2 & E3 & _ & E4). exact (conj (conj E1 (conj E2 E3)) E4). }
    split; [exact (un_fresh _ _ _ U h Fp)|]. split; [exact (Hfr h Fc Hne)|exact Hb].
  - destruct (fk_child _ K) as (x & Hx & Hk & Hd). exists x. split; [exact Hx|]. split; [exact Hk|]. simpl.
    rewrite (un_translate _ _ _ U) by (by apply kernel_va_managed). exact Hd.
  - destruct (fk_parent _ K) as (x & Hx & Hk & Hd). exists x. split; [exact Hx|]. split; [exact Hk|]. simpl.
    rewrite (un_translate _ _ _ U) by (by apply kernel_va_managed). exact Hd.
Qed.

Lemma step_copied : same_bytes s s' → (∀ pf, free_count pf s - 1 ≤ free_count pf s') → copied [va] s s'.
Proof using All.
  intros Hsb Hc. destruct step_chain as (U & _ & _ & _ & Hw & Hcp). split.
  - reflexivity.
  - exact Hsb.
  - exact (un_translate _ _ _ U).
  - intros d x h k Hd Hx Hh Hk. destruct (step_user d x h Hd Hx Hh) as (_ & Fc & Hb & Hf & Hne). exact (Hw h k Fc Hne Hb Hf Hk).
  - intros x Hx Hn. simpl. rewrite step_child by exact Hx. rewrite decide_False; [reflexivity|]. intros ->. apply Hn. left.
  - intros x Hx. apply list_elem_of_singleton in Hx as ->. exists g, f. split; [exact Hg|]. split.
    { simpl. rewrite step_child by exact Hva. rewrite decide_True by reflexivity. reflexivity. }
    split; [exact Hcp|]. intros x h Hx Hh. simpl in Hh. rewrite (un_translate _ _ _ U) in Hh by (by apply user_page_managed).
    destruct (step_user p x h ltac:(by left) Hx Hh) as (_ & _ & _ & Hf & _). exact Hf.
  - exact Hc.
Qed.
End Step.

Lemma copy_page_ok s Q va :
  forking s → user_page va → is_Some (translate (phys s) p va) → translate (phys s) c va = None →
  (∀ pf, 0 < free_count pf s) → qrep (heap s) Q → lock_free s Q user_pool_lock → current s ≠ NULL →
  ∃ s', copy_page child parent buf va s = Ok (tt, s') ∧ forking s' ∧ copied [va] s s'.
Proof.
  intros K Hva [g Hg] Hn Hc Hq Hlf Hcur.
  destruct (copy_page_run s Q va g K Hva Hg Hn (Hc _) (Hc _) Hq Hlf Hcur) as (f & t & m2 & b' & Hrun & Had & Hff & Hts & P' & Hfree & Hsb & Hcnt).
  eexists. split; [exact Hrun|]. split.
  - exact (step_forking s va g f t m2 b' K Hva Hg Had Hff Hts P' Hfree).
  - exact (step_copied s va g f t m2 b' K Hva Hg Had Hff Hts P' Hfree Hsb Hcnt).
Qed.

(** ** The pages one after the other *)

Fixpoint copy_pages (vas : list Z) : K (kst H) unit :=
  match vas with [] => mret tt | va :: vas => copy_page child parent buf va ;; copy_pages vas end.

(** What copying the pages at [vas] needs. *)
Record ready (Q : gmap Z (list Z)) (vas : list Z) (s : kst H) : Prop := {
  rd_forking : forking s;
  rd_nodup : NoDup vas;
  rd_page : ∀ va, va ∈ vas → user_page va ∧ is_Some (translate (phys s) p va) ∧ translate (phys s) c va = None;
  rd_free : ∀ pf, Z.of_nat (length vas) ≤ free_count pf s;
  rd_queues : qrep (heap s) Q;
  rd_lock : lock_free s Q user_pool_lock;
  rd_running : current s ≠ NULL;
}.

Lemma ready_app Q us vs s : ready Q (us ++ vs) s → ready Q us s.
Proof.
  intros [K Hn Hp Hf Hq Hl Hr]. split; [exact K|by apply NoDup_app in Hn as [? _]| | |exact Hq|exact Hl|exact Hr].
  - intros va Hva. apply Hp. set_solver.
  - intros pf. pose proof (Hf pf) as Hx. rewrite length_app in Hx. lia.
Qed.

Lemma ready_rest Q us vs s s1 : ready Q (us ++ vs) s → forking s1 → copied us s s1 → ready Q vs s1.
Proof.
  intros [K Hn Hp Hf Hq Hl Hr] K1 C. apply NoDup_app in Hn as (_ & Hd & Hn). pose proof (cp_state _ _ _ C) as E. split.
  - exact K1.
  - exact Hn.
  - intros va Hva. destruct (Hp va) as (Hu & Hs & Hc); [set_solver|]. split; [exact Hu|]. split.
    + rewrite (cp_parent _ _ _ C) by (by apply user_page_managed). exact Hs.
    + rewrite (cp_other _ _ _ C); [exact Hc|exact Hu|]. intros Hi. exact (Hd va Hi Hva).
  - intros pf. pose proof (Hf pf) as Hx. pose proof (cp_free _ _ _ C pf) as Hy. rewrite length_app in Hx. lia.
  - rewrite E. exact Hq.
  - rewrite E. exact Hl.
  - rewrite E. exact Hr.
Qed.

Lemma copied_nil s : copied [] s s.
Proof.
  split; try done.
  - by destruct s.
  - intros va Hva. by apply elem_of_nil in Hva.
  - intros pf. simpl. lia.
Qed.

Lemma copied_app Q us vs s s1 s2 : ready Q (us ++ vs) s → copied us s s1 → copied vs s1 s2 → copied (us ++ vs) s s2.
Proof.
  intros [_ Hn Hp _ _ _ _] C1 C2. apply NoDup_app in Hn as (_ & Hd & _).
  assert (∀ d va g, d = p ∨ d = c → user_page va → translate (phys s) d va = Some g → translate (phys s1) d va = Some g) as Hkeep.
  { intros d va g [->| ->] Hu Ht.
    - by rewrite (cp_parent _ _ _ C1) by (by apply user_page_managed).
    - rewrite (cp_other _ _ _ C1); [exact Ht|exact Hu|]. intros Hi.
      destruct (Hp va) as (_ & _ & Hc); [set_solver|]. by rewrite Hc in Ht. }
  split.
  - rewrite (cp_state _ _ _ C2), (cp_state _ _ _ C1). reflexivity.
  - intros a Ha. etrans; [|exact (cp_bytes _ _ _ C1 a Ha)]. apply (cp_bytes _ _ _ C2).
    rewrite (cp_state _ _ _ C1). exact Ha.
  - intros x Hx. rewrite (cp_parent _ _ _ C2), (cp_parent _ _ _ C1) by exact Hx. reflexivity.
  - intros d va g k Hdd Hu Ht Hk. etrans; [|exact (cp_words _ _ _ C1 d va g k Hdd Hu Ht Hk)].
    exact (cp_words _ _ _ C2 d va g k Hdd Hu (Hkeep d va g Hdd Hu Ht) Hk).
  - intros va Hu Hnot. rewrite (cp_other _ _ _ C2), (cp_other _ _ _ C1) by (done || set_solver). reflexivity.
  - intros va [Hi|Hi]%elem_of_app.
    + destruct (Hp va) as (Hu & _ & _); [set_solver|]. destruct (cp_new _ _ _ C1 va Hi) as (g & f & Hg & Hf & Hw & Hpr). exists g, f.
      split; [exact Hg|]. split; [rewrite (cp_other _ _ _ C2); [exact Hf|exact Hu|exact (Hd va Hi)]|]. split.
      * intros k Hk. rewrite <- (Hw k Hk). exact (cp_words _ _ _ C2 c va f k ltac:(by right) Hu Hf Hk).
      * intros x g' Hx Hg'. rewrite (cp_parent _ _ _ C2) in Hg' by (by apply user_page_managed). exact (Hpr x g' Hx Hg').
    + destruct (Hp va) as (Hu & _ & _); [set_solver|]. destruct (cp_new _ _ _ C2 va Hi) as (g & f & Hg & Hf & Hw & Hpr). exists g, f.
      rewrite (cp_parent _ _ _ C1) in Hg by (by apply user_page_managed). split; [exact Hg|]. split; [exact Hf|]. split; [|exact Hpr].
      intros k Hk. rewrite (Hw k Hk). exact (cp_words _ _ _ C1 p va g k ltac:(by left) Hu Hg Hk).
  - intros pf. pose proof (cp_free _ _ _ C1 pf). pose proof (cp_free _ _ _ C2 pf). rewrite length_app. lia.
Qed.

Lemma copy_pages_ok Q vas : ∀ s, ready Q vas s → ∃ s', copy_pages vas s = Ok (tt, s') ∧ forking s' ∧ copied vas s s'.
Proof.
  induction vas as [|va vas IH]; intros s R.
  - exists s. split; [reflexivity|]. split; [apply R|apply copied_nil].
  - destruct (rd_page _ _ _ R va) as (Hu & Hs & Hn); [left|].
    destruct (copy_page_ok s Q va (rd_forking _ _ _ R) Hu Hs Hn) as (s1 & Hrun & K1 & C1); [|apply R..|].
    { intros pf. pose proof (rd_free _ _ _ R pf) as Hx. cbn [length] in Hx. lia. }
    destruct (IH s1 (ready_rest Q [va] vas s s1 R K1 C1)) as (s2 & Hrun2 & K2 & C2).
    exists s2. split; [simpl; by rewrite (K_step _ _ _ _ _ Hrun)|]. split; [exact K2|]. exact (copied_app Q [va] vas s s1 s2 R C1 C2).
Qed.

(** ** The loops over the bitmap *)

Section Loops.
Context (m0 : bmem) (b : bitmap) (start : Z).

Definition page_va (k : Z) : Z := start + k * 4096.
(** The pages of the bits [i .. i + n) that are set. *)
Definition pages (i n : Z) : list Z := page_va <$> filter (λ k : Z, bit m0 b k = true) (seqZ i n).

Lemma pages_cons i n : 0 < n → pages i n = (if bit m0 b i then [page_va i] else []) ++ pages (i + 1) (n - 1).
Proof.
  intros Hn. unfold pages. rewrite seqZ_cons by lia. rewrite filter_cons. replace (Z.succ i) with (i + 1) by lia. replace (Z.pred n) with (n - 1) by lia.
  destruct (bit m0 b i); [rewrite decide_True by done|rewrite decide_False by done]; reflexivity.
Qed.
Lemma pages_app i n1 n2 : 0 ≤ n1 → 0 ≤ n2 → pages i (n1 + n2) = pages i n1 ++ pages (i + n1) n2.
Proof. intros Hn1 Hn2. unfold pages. by rewrite seqZ_app, filter_app, fmap_app by lia. Qed.

Lemma copy_bits_pages n : ∀ v idx i s,
  m0 !! (bits b + idx) = Some v → 0 ≤ i → i + Z.of_nat n ≤ 8 →
  (∀ va, va ∈ pages (idx * 8 + i) (Z.of_nat n) → 0 ≤ va < 2 ^ 32) →
  copy_bits n child parent buf start v idx i s = copy_pages (pages (idx * 8 + i) (Z.of_nat n)) s.
Proof.
  induction n as [|n IH]; intros v idx i s Hv Hi Hn Hr; [done|].
  assert (bit m0 b (idx * 8 + i) = Z.testbit v i) as Hbit.
  { unfold bit. replace ((idx * 8 + i) / 8) with idx by dm. replace ((idx * 8 + i) mod 8) with i by dm. by rewrite Hv. }
  rewrite pages_cons in Hr |- * by lia. replace (Z.of_nat (S n) - 1) with (Z.of_nat n) in * by lia.
  replace (idx * 8 + i + 1) with (idx * 8 + (i + 1)) in * by lia. rewrite Hbit in *.
  assert (∀ s, copy_bits n child parent buf start v idx (i + 1) s = copy_pages (pages (idx * 8 + (i + 1)) (Z.of_nat n)) s) as IH'.
  { intros s1. apply IH; [done|lia|lia|]. intros va Hva. apply Hr. set_solver. }
  cbn [copy_bits]. unfold BITMAP_MASK. rewrite Z.land_comm, land_shiftl_1_eqb, negb_involutive by lia.
  destruct (Z.testbit v i); [|exact (IH' s)].
  assert (u32 ((idx * 8 + i) * PG_SIZE + start) = page_va (idx * 8 + i)) as ->.
  { unfold page_va, PG_SIZE in *. rewrite u32_small; [lia|]. replace ((idx * 8 + i) * 4096 + start) with (start + (idx * 8 + i) * 4096) by lia. apply Hr. left. }
  cbn [app copy_pages]. unfold mbind, K_bind. destruct (copy_page _ _ _ _ s) as [[[] s1]| | |]; [apply IH'|done..].
Qed.

Lemma pages_zero_byte idx : m0 !! (bits b + idx) = Some 0 → pages (idx * 8) 8 = [].
Proof.
  intros Hv. unfold pages. destruct (filter _ _) as [|k l] eqn:E; [done|]. exfalso.
  assert (k ∈ filter (λ k : Z, bit m0 b k = true) (seqZ (idx * 8) 8)) as Hk by (rewrite E; left).
  apply list_elem_of_filter in Hk as [Hb Hk%elem_of_seqZ]. unfold bit in Hb.
  replace (k / 8) with idx in Hb by dm. by rewrite Hv, Z.testbit_0_l in Hb.
Qed.

(** The bytes of the bitmap are there and not in the bitmaps of the pools. *)
Definition bitmap_apart (s : kst H) : Prop := ∀ a, in_bitmap b a → ~ in_bitmaps s a.

Lemma copy_bytes_ok Q n : ∀ idx s,
  bitmap_wf m0 b → (∀ a, in_bitmap b a → bytes s !! a = m0 !! a) → bitmap_apart s →
  0 ≤ idx → idx + Z.of_nat n ≤ btmp_bytes_len b → ready Q (pages (idx * 8) (Z.of_nat n * 8)) s →
  ∃ s', copy_bytes n child parent buf (bits b) start idx s = Ok (tt, s') ∧ forking s' ∧ copied (pages (idx * 8) (Z.of_nat n * 8)) s s'.
Proof.
  induction n as [|n IH]; intros idx s Hwf Hm Hap Hi Hn R.
  { exists s. split; [reflexivity|]. split; [apply R|]. exact (copied_nil s). }
  replace (Z.of_nat (S n) * 8) with (8 + Z.of_nat n * 8) in R |- * by lia. rewrite pages_app in R |- * by lia.
  destruct (wf_byte _ _ Hwf idx) as (v & Hv & Hvr); [lia|].
  assert (in_bitmap b (bits b + idx)) as Hin by (unfold in_bitmap; lia).
  assert (∃ s1, copy_bits 8 child parent buf start v idx 0 s = Ok (tt, s1) ∧ forking s1 ∧ copied (pages (idx * 8) 8) s s1) as (s1 & Hb & K1 & C1).
  { destruct (copy_pages_ok Q _ s (ready_app _ _ _ _ R)) as (s1 & Hrun & K1 & C1). exists s1. split; [|exact (conj K1 C1)].
    rewrite copy_bits_pages; [rewrite Z.add_0_r; exact Hrun|exact Hv|lia|lia|]. rewrite Z.add_0_r. intros va Hva.
    destruct (rd_page _ _ _ R va) as ([Hu _] & _); [apply elem_of_app; by left|]. lia. }
  cbn [copy_bytes]. kgo. unfold load8. rewrite (Hm _ Hin), Hv. cbn [deref]. kgo.
  assert ((if negb (v =? 0) then copy_bits 8 child parent buf start v idx 0 else mret tt) s = Ok (tt, s1)) as Hstep.
  { destruct (Z.eqb_spec v 0) as [->|_]; [|exact Hb]. cbn [negb]. rewrite copy_bits_pages, Z.add_0_r, pages_zero_byte in Hb; try done.
    intros va Hva. rewrite Z.add_0_r, pages_zero_byte in Hva by done. by apply elem_of_nil in Hva. }
  rewrite (K_step _ _ _ _ _ Hstep).
  replace (idx * 8 + 8) with ((idx + 1) * 8) in R |- * by lia.
  destruct (IH (idx + 1) s1 Hwf) as (s2 & Hrun & K2 & C2); [| |lia|lia|exact (ready_rest Q _ _ s s1 R K1 C1)|].
  - intros a Ha. rewrite (cp_bytes _ _ _ C1 a (Hap a Ha)). exact (Hm a Ha).
  - intros a Ha. rewrite (cp_state _ _ _ C1). exact (Hap a Ha).
  - exists s2. split; [exact Hrun|]. split; [exact K2|]. exact (copied_app Q _ _ s s1 s2 R C1 C2).
Qed.
End Loops.

Lemma copy_body_ok s Q t :
  let b := vaddr_bitmap (user_vaddr t) in let va k := vaddr_start (user_vaddr t) + k * 4096 in
  forking s → tasks s !! parent = Some t → bitmap_wf (bytes s) b → bitmap_apart b s →
  (∀ k, k ∈ taken (bytes s) b → user_page (va k) ∧ is_Some (translate (phys s) p (va k))) →
  (∀ x, user_page x → translate (phys s) c x = None) →
  (∀ pf, Z.of_nat (size (taken (bytes s) b)) ≤ free_count pf s) →
  qrep (heap s) Q → lock_free s Q user_pool_lock → current s ≠ NULL →
  ∃ s', copy_body_stack3 child parent buf s = Ok (tt, s') ∧ forking s' ∧
    (∀ k, k ∈ taken (bytes s) b → ∃ g f, translate (phys s) p (va k) = Some g ∧ translate (phys s') c (va k) = Some f ∧
       (∀ j, 0 ≤ j < 1024 → phys s' !! (f + j * 4) = phys s !! (g + j * 4)) ∧
       (∀ x g', user_page x → translate (phys s') p x = Some g' → g' ≠ f)) ∧
    (∀ x, user_page x → (∀ k, k ∈ taken (bytes s) b → x ≠ va k) → translate (phys s') c x = None) ∧
    (∀ x g, user_page x → translate (phys s) p x = Some g → translate (phys s') p x = Some g ∧
       ∀ j, 0 ≤ j < 1024 → phys s' !! (g + j * 4) = phys s !! (g + j * 4)) ∧
    tasks s' = tasks s.
Proof.
  intros b va K Ht Hwf Hap Hp Hn Hf Hq Hl Hr. set (vas := pages (bytes s) b (vaddr_start (user_vaddr t)) 0 (btmp_bytes_len b * 8)).
  assert (∀ x, x ∈ vas ↔ ∃ k, x = va k ∧ k ∈ taken (bytes s) b) as Hel.
  { intros x. unfold vas, pages. rewrite list_elem_of_fmap. apply exist_proper. intros k.
    rewrite list_elem_of_filter, elem_of_seqZ, elem_of_taken. unfold page_va, va. split; intros (-> & Hk); (split; [reflexivity|]); lia || naive_solver lia. }
  assert (ready Q vas s) as R.
  { split; [exact K| | | |exact Hq|exact Hl|exact Hr].
    - unfold vas, pages. apply NoDup_fmap_2_strong; [intros x y _ _; unfold page_va; lia|]. apply NoDup_filter, NoDup_seqZ.
    - intros x (k & -> & Hk)%Hel. destruct (Hp k Hk) as [Hu Hs]. split; [exact Hu|]. split; [exact Hs|exact (Hn _ Hu)].
    - intros pf. etrans; [|exact (Hf pf)]. unfold vas, pages, taken. rewrite length_fmap, size_list_to_set by (apply NoDup_filter, NoDup_seqZ).
      by replace (8 * btmp_bytes_len b) with (btmp_bytes_len b * 8) by lia. }
  pose proof (wf_len _ _ Hwf) as Hlen.
  destruct (copy_bytes_ok (bytes s) b (vaddr_start (user_vaddr t)) Q (Z.to_nat (btmp_bytes_len b)) 0 s Hwf)
    as (s' & Hrun & K' & C); [done|exact Hap|lia|lia|by rewrite Z2Nat.id by lia|].
  rewrite Z2Nat.id in C by lia. fold vas in C. exists s'. split; [|split; [exact K'|split; [|split; [|split]]]].
  - unfold copy_body_stack3. kstep (task_at_ok _ _ _ Ht). exact Hrun.
  - intros k Hk. apply (cp_new _ _ _ C). apply Hel. by exists k.
  - intros x Hx Hno. rewrite (cp_other _ _ _ C); [exact (Hn x Hx)|exact Hx|]. intros (k & E & Hk)%Hel. exact (Hno k Hk E).
  - intros x g Hx Hg. split; [by rewrite (cp_parent _ _ _ C) by (by apply user_page_managed)|].
    intros j Hj. exact (cp_words _ _ _ C p x g j ltac:(by left) Hx Hg Hj).
  - by rewrite (cp_state _ _ _ C).
Qed.
End CopyPage.

(** ** A directory for the child, and the copy *)

Section NewChild.
Context (p buf fb child parent : Z).

(** Before the child has a directory: the kernel's heap is in order and has
    room for it, the buffer and the user pages of the parent are pages for
    data. *)
Record unforked (s : kst H) : Prop := {
  uf_heap : heap_ok s;
  uf_cr3 : cr3 s = p;
  uf_slack : slack (bytes s) (vaddr_bitmap (kernel_vaddr s));
  uf_room : heap_room s 1;
  uf_buf : kernel_va buf ∧ buf mod 4096 = 0 ∧ translate (phys s) p buf = Some fb;
  uf_fb : fresh_frame (phys s) p fb;
  uf_user : ∀ va g, user_page va → translate (phys s) p va = Some g → fresh_frame (phys s) p g ∧ g ≠ fb;
  uf_parent : ∃ t, tasks s !! parent = Some t ∧ kernel_va (pgdir t) ∧ translate (phys s) p (pgdir t) = Some p;
  uf_child : is_Some (tasks s !! child) ∧ child ≠ parent;
}.

Section Dir.
Context (s : kst H) (r f : Z) (m1 : pmem) (b1 : bmem).
Let s1 := set_phys m1 (set_bytes b1 s).
Let m2 := dir_filled m1 p f.
Let s2 := set_tasks (alter (set_pgdir (heap_page r)) child (tasks s)) (set_phys m2 s1).
Hypothesis U : unforked s.
Hypothesis Hr : 0 ≤ r < heap_len s.
Hypothesis Hfree : r ∉ heap_taken s.
Hypothesis Al : allocated s s1 r [f].
Hypothesis Hz : ∀ k, 0 ≤ k < 1024 → m1 !! (f + k * 4) = Some 0.
Hypothesis F : fresh_frame m1 p f.
Hypothesis KD : keeps_data s s1 [f].

Lemma dir_tables : tables_ok m1 p.
Proof using U Al. rewrite <- (uf_cr3 _ U). apply (vm_tables _ (ho_vm _ (al_ok _ _ _ _ Al))). Qed.

Lemma dir_zero i : 0 ≤ i < 768 → m1 !! (f + i * 4) = Some 0.
Proof using Hz. intros. apply Hz. lia. Qed.

Lemma dir_mapped x pa : managed x → translate (phys s) p x = Some pa → translate m2 p x = Some pa.
Proof using All.
  intros Hx Hpa. rewrite (un_translate _ _ _ (new_dir_unseen _ _ _ dir_tables F)) by done.
  pose proof (al_other _ _ _ _ Al x Hx) as E. rewrite (uf_cr3 _ U) in E. rewrite <- Hpa. apply E.
  intros k Hk. simpl in Hk. replace k with r by lia. intros Hs.
  pose proof (ho_free _ (uf_heap _ U) r Hr Hfree) as Hn. rewrite (uf_cr3 _ U) in Hn.
  rewrite (same_page_none (phys s) p (heap_page r) x) in Hpa; [done| |by apply (heap_page_managed s), Hr; apply U|done..].
  rewrite <- (uf_cr3 _ U). apply (vm_tables _ (ho_vm _ (uf_heap _ U))).
Qed.

Lemma dir_unmapped x : user_page x → translate (phys s) p x = None → translate m2 p x = None.
Proof using All.
  intros Hx Hn. pose proof (user_page_managed _ Hx) as Hm. rewrite (un_translate _ _ _ (new_dir_unseen _ _ _ dir_tables F)) by done.
  pose proof (al_other _ _ _ _ Al x Hm) as E. rewrite (uf_cr3 _ U) in E. rewrite <- Hn. apply E.
  intros k Hk. simpl in Hk. replace k with r by lia. destruct Hx. unfold same_page, heap_page, K_HEAP_START. dm.
Qed.

(** The words of a page in use, and that it is no table, stay. *)
Lemma dir_data x g : managed x → translate (phys s) p x = Some g → fresh_frame (phys s) p g →
  g ≠ f ∧ fresh_frame m2 p g ∧ fresh_frame m2 f g ∧ ∀ k, 0 ≤ k < 1024 → m2 !! (g + k * 4) = phys s !! (g + k * 4).
Proof using All.
  intros Hx Hg G.
  assert (g ≠ f) as Hne.
  { intros ->. apply (used_not_free s p x f); [|done|done|apply G|apply G|].
    - replace (set_cr3 p s) with s; [apply (ho_vm _ (uf_heap _ U))|]. rewrite <- (uf_cr3 _ U). by destruct s.
    - apply free_kernel_page_free, (al_new _ _ _ _ Al). by left. }
  destruct KD as (_ & Hk & _). rewrite (uf_cr3 _ U) in Hk.
  destruct (Hk g G) as [G1 W]; [by intros ?%list_elem_of_singleton|]. split; [done|].
  split; [by apply (new_dir_unseen _ _ _ dir_tables F)|].
  split; [by apply (new_dir_fresh m1 p f dir_tables F dir_zero)|].
  intros k Hk1. rewrite <- (W k Hk1). pose proof (frames_apart _ _ (ff_aligned _ _ _ F) (ff_aligned _ _ _ G) ltac:(done)).
  apply (dir_filled_other m1 p f dir_tables F). lia.
Qed.

Lemma dir_pools d : pools_ok (set_cr3 d s2).
Proof using Al. exact (pools_ok_ext s1 (set_cr3 d s2) eq_refl eq_refl eq_refl eq_refl (vm_pools _ (ho_vm _ (al_ok _ _ _ _ Al)))). Qed.

Lemma dir_vm_p : vm_ok (set_cr3 p s2).
Proof using All.
  apply vm_ok_tasks.
  apply vm_unseen; [|exact (new_dir_unseen _ _ _ dir_tables F)].
  replace (set_cr3 p s1) with s1; [apply (ho_vm _ (al_ok _ _ _ _ Al))|]. unfold s1. rewrite <- (uf_cr3 _ U). by destruct s.
Qed.

Lemma dir_vm_c : vm_ok (set_cr3 f s2).
Proof using All.
  pose proof (ho_vm _ (al_ok _ _ _ _ Al)) as V1. split.
  - exact (dir_pools f).
  - exact (new_dir_tables m1 p f dir_tables F dir_zero).
  - intros g Hg. apply (new_dir_fresh m1 p f dir_tables F dir_zero).
    + rewrite <- (uf_cr3 _ U). by apply (vm_fresh _ V1).
    + intros ->. destruct (al_gone _ _ _ _ Al f Hg) as [_ Hn]. apply Hn. by left.
  - intros g x pa Hg Hx. change (phys (set_cr3 f s2)) with m2. change (cr3 (set_cr3 f s2)) with f.
    destruct (decide (x < 0xc0000000)).
    + unfold m2. rewrite (new_dir_empty m1 p f dir_tables F dir_zero) by (unfold managed in Hx; lia). done.
    + unfold m2. rewrite (dir_filled_kernel m1 p f dir_tables F) by (unfold managed in Hx; lia). rewrite <- (uf_cr3 _ U). by apply (vm_unmapped _ V1).
Qed.

Lemma dir_forking : forking p f buf fb child parent s2.
Proof using All.
  destruct (uf_buf _ U) as (Hb & Hba & Hbt). destruct (dir_data buf fb) as (_ & Fp & Fc & _); [by apply kernel_va_managed|done|apply U|]. split.
  - apply U.
  - exact (new_dir_twin m1 p f dir_tables F dir_zero).
  - exact dir_vm_p.
  - exact dir_vm_c.
  - split; [done|]. split; [done|]. apply dir_mapped; [by apply kernel_va_managed|done].
  - done.
  - intros d va g Hd Hva. change (phys s2) with m2. destruct Hd as [->| ->].
    + pose proof (user_page_managed _ Hva) as Hm. destruct (translate (phys s) p va) as [g0|] eqn:E.
      * rewrite (dir_mapped _ _ Hm E). intros [= <-]. destruct (uf_user _ U va g0 Hva E) as [G Hne].
        by destruct (dir_data va g0 Hm E G) as (_ & ? & ? & _).
      * by rewrite dir_unmapped.
    + unfold m2. rewrite (new_dir_empty m1 p f dir_tables F dir_zero) by apply Hva. done.
  - destruct (uf_child _ U) as [[t Ht] _]. exists (set_pgdir (heap_page r) t).
    split; [change (alter (set_pgdir (heap_page r)) child (tasks s) !! child = Some (set_pgdir (heap_page r) t)); by rewrite lookup_alter_eq, Ht|].
    pose proof (ho_len _ (uf_heap _ U)) as Hl. pose proof (heap_page_managed s r (uf_heap _ U) Hr) as Hm.
    split; [change (kernel_va (heap_page r)); unfold kernel_va, heap_page, K_HEAP_START in *; lia|].
    change (translate m2 p (heap_page r) = Some f). rewrite (un_translate _ _ _ (new_dir_unseen _ _ _ dir_tables F)) by done.
    pose proof (al_map _ _ _ _ Al 0%nat f eq_refl) as E. by rewrite Z.add_0_r, (uf_cr3 _ U) in E.
  - destruct (uf_parent _ U) as (t & Ht & Hk & Hp). exists t. destruct (uf_child _ U) as [_ Hne].
    split; [change (alter (set_pgdir (heap_page r)) child (tasks s) !! parent = Some t); by rewrite lookup_alter_ne|].
    split; [done|]. apply dir_mapped; [by apply kernel_va_managed|done].
Qed.
End Dir.

(** The directory of the child: the state in which the copying starts. *)
Lemma child_dir_ok s Q b :
  unforked s → 1 ≤ free_count PF_KERNEL s → bitmap_wf (bytes s) b → bitmap_apart b s →
  qrep (heap s) Q → lock_free s Q kernel_pool_lock → current s ≠ NULL →
  ∃ va c m2 b1, let s2 := set_tasks (alter (set_pgdir va) child (tasks s)) (set_phys m2 (set_bytes b1 s)) in
    create_page_dir s = Ok (va, set_phys m2 (set_bytes b1 s)) ∧ va ≠ NULL ∧ forking p c buf fb child parent s2 ∧
    bitmap_wf b1 b ∧ taken b1 b = taken (bytes s) b ∧
    (∀ pf, free_count PF_KERNEL s2 = free_count PF_KERNEL s - 1 ∧ (pf = PF_USER → free_count pf s2 = free_count pf s)) ∧
    translate m2 p va = Some c ∧ (∀ x, user_page x → translate m2 c x = None) ∧
    (∀ x, user_page x → translate m2 p x = translate (phys s) p x) ∧
    (∀ x g j, user_page x → translate (phys s) p x = Some g → 0 ≤ j < 1024 → m2 !! (g + j * 4) = phys s !! (g + j * 4)).
Proof.
  intros U Hc Hwf Hap Hq Hl Hcur.
  destruct (get_kernel_pages_full s Q 1) as (r & fs & m1 & b1 & Hg & Hlen & Hr & Hrn & Hn & _ & Al & Hz & Hf & Hfc & KD & _);
    [exact (uf_heap _ U)|exact (uf_slack _ U)|lia|exact (uf_room _ U)|exact Hc|exact Hq|exact Hl|exact Hcur|].
  destruct fs as [|f [|]]; simpl in Hlen; [lia| |lia]. rewrite (uf_cr3 _ U) in Hf.
  assert (fresh_frame m1 p f) as F by (apply Hf; by left).
  assert (∀ k, 0 ≤ k < 1024 → m1 !! (f + k * 4) = Some 0) as Hz1 by (intros k; apply Hz; by left).
  assert (0 ≤ r < heap_len s) as Hr1 by lia. assert (r ∉ heap_taken s) as Hn1 by (apply Hn; lia).
  pose proof (dir_tables s r f m1 b1 U Al) as T. pose proof (dir_zero f m1 Hz1) as Z0.
  pose proof (heap_page_managed s r (uf_heap _ U) Hr1) as Hm.
  assert (translate m1 p (heap_page r) = Some f) as Ht.
  { pose proof (al_map _ _ _ _ Al 0%nat f eq_refl) as E. by rewrite Z.add_0_r, (uf_cr3 _ U) in E. }
  assert (heap_page r ≠ NULL) as Hnn by (unfold heap_page, K_HEAP_START, NULL; lia).
  destruct (bitmap_agree (bytes s) b1 b) as [Hwf1 Htk]; [intros i Hi; apply (proj1 KD), Hap; unfold in_bitmap; lia|exact Hwf|].
  exists (heap_page r), f, (dir_filled m1 p f), b1. split_and!.
  - unfold create_page_dir. kstep Hg. rewrite (proj2 (Z.eqb_neq _ NULL)) by exact Hnn.
    pose proof (fill_page_dir_ok (set_phys m1 (set_bytes b1 s)) (heap_page r) f) as E.
    change (cr3 (set_phys m1 (set_bytes b1 s))) with (cr3 s) in E. rewrite (uf_cr3 _ U) in E.
    refine (E T F Hm _ Ht). unfold heap_page, K_HEAP_START. dm.
  - exact Hnn.
  - exact (dir_forking s r f m1 b1 U Hr1 Hn1 Al Hz1 F KD).
  - exact Hwf1.
  - exact Htk.
  - intros pf. split; [exact Hfc|]. intros ->. unfold free_count. pose proof (al_user _ _ _ _ Al) as E. unfold pool_taken in *. exact (f_equal (λ X : gset Z, pool_len PF_USER s - Z.of_nat (size X)) E).
  - rewrite (un_translate _ _ _ (new_dir_unseen _ _ _ T F)) by exact Hm. exact Ht.
  - intros x Hx. apply (new_dir_empty m1 p f T F Z0). apply Hx.
  - intros x Hx. destruct (translate (phys s) p x) as [g|] eqn:E.
    + exact (dir_mapped s r f m1 b1 U Hr1 Hn1 Al Hz1 F KD x g (user_page_managed _ Hx) E).
    + exact (dir_unmapped s r f m1 b1 U Hr1 Hn1 Al Hz1 F KD x Hx E).
  - intros x g j Hx Hxg Hj. destruct (uf_user _ U x g Hx Hxg) as [G _].
    destruct (dir_data s r f m1 b1 U Hr1 Hn1 Al Hz1 F KD x g (user_page_managed _ Hx) Hxg G) as (_ & _ & _ & W). exact (W j Hj).
Qed.

(** C15: [fork] gives the child a copy of the memory of its parent: with a free
    page for the directory and enough pages in both pools, making a
    directory for the child and [copy_body_stack3] return; the child's
    directory translates the kernel's addresses as the parent's does; every
    page that the bitmap of the parent marks is mapped at the same address in
    the child, to a page that the parent does not use, with the same 1024
    words in it; no other user page of the child is mapped; and the user
    pages of the parent are mapped where they were and hold what they held. *)
Theorem fork_copies_memory s Q t :
  let b := vaddr_bitmap (user_vaddr t) in let va k := vaddr_start (user_vaddr t) + k * 4096 in
  let n := Z.of_nat (size (taken (bytes s) b)) in
  unforked s → tasks s !! parent = Some t → bitmap_wf (bytes s) b → bitmap_apart b s →
  (∀ k, k ∈ taken (bytes s) b → user_page (va k) ∧ is_Some (translate (phys s) p (va k))) →
  n < free_count PF_KERNEL s → n ≤ free_count PF_USER s →
  qrep (heap s) Q → lock_free s Q kernel_pool_lock → lock_free s Q user_pool_lock → current s ≠ NULL →
  ∃ s' t' c, (dir ← create_page_dir; upd_task child (set_pgdir dir) ;; copy_body_stack3 child parent buf) s = Ok (tt, s') ∧
    cr3 s' = p ∧ tasks s' !! child = Some t' ∧ pgdir t' ≠ NULL ∧ translate (phys s') p (pgdir t') = Some c ∧
    (∀ x, kernel_va x → translate (phys s') c x = translate (phys s') p x) ∧
    (∀ k, k ∈ taken (bytes s) b → ∃ g f, translate (phys s) p (va k) = Some g ∧ translate (phys s') c (va k) = Some f ∧
       (∀ j, 0 ≤ j < 1024 → phys s' !! (f + j * 4) = phys s !! (g + j * 4)) ∧
       (∀ x g', user_page x → translate (phys s') p x = Some g' → g' ≠ f)) ∧
    (∀ x, user_page x → (∀ k, k ∈ taken (bytes s) b → x ≠ va k) → translate (phys s') c x = None) ∧
    (∀ x g, user_page x → translate (phys s) p x = Some g → translate (phys s') p x = Some g ∧
       ∀ j, 0 ≤ j < 1024 → phys s' !! (g + j * 4) = phys s !! (g + j * 4)).
Proof.
  intros b va n U Ht Hwf Hap Hp Hnk Hnu Hq Hlk Hlu Hcur.
  destruct (child_dir_ok s Q b U) as (dir & c & m2 & b1 & Hdir & Hnn & K2 & Hwf2 & Htk & Hfc & Hmap & Hnone & Htr & Hw); [lia|done..|].
  destruct (uf_child _ U) as [[tc Htc] Hne].
  set (s2 := set_tasks (alter (set_pgdir dir) child (tasks s)) (set_phys m2 (set_bytes b1 s))) in *.
  destruct (copy_body_ok p c buf fb child parent s2 Q t K2) as (s' & Hrun & K' & Hnew & Hoth & Hpar & Htasks).
  - change (alter (set_pgdir dir) child (tasks s) !! parent = Some t). by rewrite lookup_alter_ne.
  - exact Hwf2.
  - exact Hap.
  - change (bytes s2) with b1. fold b. rewrite Htk. intros k Hk. destruct (Hp k Hk) as [Hu Hs]. split; [exact Hu|].
    change (phys s2) with m2. fold (va k). rewrite Htr by exact Hu. exact Hs.
  - exact Hnone.
  - change (bytes s2) with b1. fold b. rewrite Htk. intros pf. fold n. destruct (Hfc pf) as [Ek Eu]. destruct pf; [rewrite Ek; lia|rewrite Eu by done; done].
  - exact Hq.
  - exact Hlu.
  - exact Hcur.
  - change (bytes s2) with b1 in *. change (phys s2) with m2 in *. fold b in Hnew, Hoth. rewrite Htk in Hnew, Hoth. fold va in Hnew, Hoth.
    assert (tasks s' !! child = Some (set_pgdir dir tc)) as Hc'.
    { rewrite Htasks. change (alter (set_pgdir dir) child (tasks s) !! child = Some (set_pgdir dir tc)). by rewrite lookup_alter_eq, Htc. }
    exists s', (set_pgdir dir tc), c. split_and!.
    + kstep Hdir. rewrite (K_step _ _ _ _ _ (upd_task_ok (set_phys m2 (set_bytes b1 s)) child (set_pgdir dir) (ex_intro _ _ Htc))). exact Hrun.
    + apply K'.
    + exact Hc'.
    + exact Hnn.
    + destruct (fk_child _ _ _ _ _ _ _ K') as (t' & Ht' & _ & E). rewrite Hc' in Ht'. injection Ht' as <-. exact E.
    + intros x Hx. apply twin_translate; [apply K'|exact Hx].
    + intros k Hk. destruct (Hp k Hk) as [Hu _]. destruct (Hnew k Hk) as (g & f & Hg & Hf & Hcp & Hown). change (translate m2 p (va k) = Some g) in Hg. rewrite (Htr _ Hu) in Hg.
      exists g, f. split; [exact Hg|]. split; [exact Hf|]. split; [|exact Hown]. intros j Hj. rewrite (Hcp j Hj). exact (Hw _ _ _ Hu Hg Hj).
    + exact Hoth.
    + intros x g Hx Hg. destruct (Hpar x g Hx) as [E W]; [by rewrite Htr|]. split; [exact E|]. intros j Hj. rewrite (W j Hj). exact (Hw _ _ _ Hx Hg Hj).
Qed.
End NewChild.
End ForkMemory.

(** ** Witness

    The parent's directory is at 0x100000, the kernel's table at 0x101000; the
    first and the sixth page of the kernel's heap are the directory and the
    buffer at 0x105000.  The parent has one page, 0x103000, at 0x8048000. *)

Definition ex_fork_entries : gmap Z Z :=
  {[ 0x100080 := 0x102007; 0x100c00 := 0x101007; 0x100ffc := 0x100007;
     0x101400 := 0x100007; 0x101414 := 0x105007; 0x102120 := 0x103007; 0x103000 := 0x12345678 ]}.
Definition ex_fork_ram : pmem := ex_fork_entries ∪ zero_words (22 * 1024) 0x100000 ∅.

Lemma ex_fork_lookup a :
  ex_fork_ram !! a = match ex_fork_entries !! a with
                     | Some w => Some w
                     | None => if decide (0x100000 ≤ a < 0x116000 ∧ a mod 4 = 0) then Some 0 else None
                     end.
Proof.
  unfold ex_fork_ram. destruct (ex_fork_entries !! a) as [w|] eqn:E; [by apply lookup_union_Some_l|].
  rewrite lookup_union_r by exact E. rewrite zero_words_lookup, lookup_empty. replace (Z.of_nat (22 * 1024)) with 22528 by lia.
  destruct (decide (0x100000 ≤ a < 0x100000 + _ ∧ _)) as [H3|H3], (decide (0x100000 ≤ a < 0x116000 ∧ _)) as [H4|H4]; try reflexivity; exfalso.
  - apply H4. dm.
  - apply H3. dm.
Qed.
#[global] Opaque ex_fork_ram.

Lemma ex_fork_word a k : 0x100000 ≤ a + k * 4 < 0x116000 → a mod 4 = 0 → is_Some (ex_fork_ram !! (a + k * 4)).
Proof.
  intros Ha Hm. rewrite ex_fork_lookup. destruct (ex_fork_entries !! _); [by eexists|]. rewrite decide_True by dm. by eexists.
Qed.
Lemma ex_fork_range a w : ex_fork_ram !! a = Some w → 0 ≤ w < 2 ^ 32.
Proof.
  rewrite ex_fork_lookup. destruct (ex_fork_entries !! a) as [x|] eqn:E.
  - intros [= <-]. revert a x E. apply (bool_decide_unpack (map_Forall (λ _ x, 0 ≤ x < 2 ^ 32) ex_fork_entries)). by vm_compute.
  - destruct (decide _); [|done]. intros [= <-]. lia.
Qed.

(** The present entries. *)
Definition ex_fork_list : list (Z * Z) :=
  [(0x100080, 0x102007); (0x100c00, 0x101007); (0x100ffc, 0x100007);
   (0x101400, 0x100007); (0x101414, 0x105007); (0x102120, 0x103007)].
Lemma ex_fork_present a w : ex_fork_ram !! a = Some w → present w = true → (a, w) ∈ ex_fork_list.
Proof.
  rewrite ex_fork_lookup. destruct (ex_fork_entries !! a) as [x|] eqn:E.
  - intros [= <-] Hp. revert a x E Hp. apply (bool_decide_unpack (map_Forall (λ a x, present x = true → (a, x) ∈ ex_fork_list) ex_fork_entries)). by vm_compute.
  - destruct (decide _); [|done]. intros [= <-]. done.
Qed.
Ltac fork_cases H :=
  unfold ex_fork_list in H; rewrite ?elem_of_cons, elem_of_nil in H;
  repeat (destruct H as [H|H]; [injection H as ? ?; try (exfalso; lia)|]); [..|destruct H].

(** The entries of the directory, but for the last one. *)
Lemma ex_pde_p i w : 0 ≤ i < 1023 → ex_fork_ram !! (0x100000 + i * 4) = Some w → present w = true → i = 32 ∧ w = 0x102007 ∨ i = 768 ∧ w = 0x101007.
Proof. intros Hi Hw Hp. pose proof (ex_fork_present _ _ Hw Hp) as Hin. fork_cases Hin; lia. Qed.
Lemma ex_fork_tables_p : tables_ok ex_fork_ram 0x100000.
Proof.
  split.
  - split; [done|lia|]. by rewrite ex_fork_lookup.
  - exact ex_fork_range.
  - intros i Hi. apply ex_fork_word; [lia|done].
  - intros i pde Hi Hp Hpr. destruct (ex_pde_p i pde) as [[_ ->]|[_ ->]]; [lia|exact Hp|exact Hpr|..];
      (split; [done|]; intros k Hk; apply ex_fork_word; [|done]; change (frame _) with 0x102000 || change (frame _) with 0x101000; lia).
  - intros i j pi pj Hi Hj Hp1 Hp2 Hpr1 Hpr2.
    destruct (ex_pde_p i pi) as [[-> ->]|[-> ->]], (ex_pde_p j pj) as [[-> ->]|[-> ->]]; (lia || done).
Qed.
(** Pages that are no tables. *)
Lemma ex_fork_fresh k : 3 ≤ k < 22 → fresh_frame ex_fork_ram 0x100000 (0x100000 + k * 4096).
Proof.
  intros Hk. split; [dm|lia|intros j Hj; apply ex_fork_word; [lia|dm]|lia|].
  intros i pde Hi Hp Hpr.
  destruct (ex_pde_p i pde) as [[_ ->]|[_ ->]]; [lia|exact Hp|exact Hpr|..]; change (frame _) with 0x102000 || change (frame _) with 0x101000; lia.
Qed.

(** What is mapped. *)
Lemma translate_entries m d x pa : tables_ok m d → managed x → translate m d x = Some pa →
  ∃ pde pte, m !! pde_addr d x = Some pde ∧ present pde = true ∧ m !! pte_addr pde x = Some pte ∧ present pte = true ∧
    pa = frame pte + x mod 4096.
Proof.
  intros T Hx Htr. destruct (managed_pde _ _ _ T Hx) as [pde Hp]. rewrite (translate_walk _ _ _ _ Hp) in Htr.
  destruct (present pde) eqn:Hpr; [|done]. destruct (m !! pte_addr pde x) as [pte|] eqn:Hpte; simpl in Htr; [|done].
  destruct (present pte) eqn:Hpt; [|done]. injection Htr as <-. by exists pde, pte.
Qed.

Lemma ex_fork_mapped x pa : managed x → translate ex_fork_ram 0x100000 x = Some pa →
  (x / 4096, pa - x mod 4096) ∈ [(0x8048, 0x103000); (0xc0100, 0x100000); (0xc0105, 0x105000)].
Proof.
  intros Hx Htr. pose proof (managed_pde_idx _ Hx) as Hi. pose proof (pte_idx_range x) as Hj.
  destruct (translate_entries ex_fork_ram 0x100000 x pa ex_fork_tables_p Hx Htr) as (pde & pte & Hp & Hpr & Hpte & Hpt & ->).
  pose proof (ex_fork_present _ _ Hpte Hpt) as Hin. clear Hpte Htr. unfold pte_addr in Hin. fold (frame pde) in Hin. unfold pde_addr in Hp.
  rewrite Z.add_simpl_r. set (j := (x / 2 ^ 12) mod 2 ^ 10) in *.
  assert (∀ i, x / 2 ^ 22 = i → x / 4096 = i * 1024 + j) as Ex.
  { intros i <-. unfold j. change (2 ^ 22) with 4194304. change (2 ^ 12) with 4096. change (2 ^ 10) with 1024. dm. }
  destruct (ex_pde_p (x / 2 ^ 22) pde ltac:(lia) Hp Hpr) as [[Ei ->]|[Ei ->]]; rewrite (Ex _ Ei).
  - change (frame 0x102007) with 0x102000 in Hin. fork_cases Hin. subst pte. replace j with 72 by lia. apply (bool_decide_unpack _). by vm_compute.
  - change (frame 0x101007) with 0x101000 in Hin.
    fork_cases Hin; subst pte; [replace j with 256 by lia|replace j with 261 by lia]; apply (bool_decide_unpack _); by vm_compute.
Qed.
Ltac mapped_cases H :=
  rewrite !elem_of_cons, elem_of_nil in H; destruct H as [H|[H|[H|[]]]]; injection H as ? ?.

Definition ex_fork_queues : gmap Z (list Z) :=
  {[ waiters (lock_semaphore kernel_pool_lock) := []; waiters (lock_semaphore user_pool_lock) := [] ]}.
Definition ex_fork_cells : lheap :=
  let k := waiters (lock_semaphore kernel_pool_lock) in let l := waiters (lock_semaphore user_pool_lock) in
  {[ k := ListElem 0 (k + 8); k + 8 := ListElem k 0; l := ListElem 0 (l + 8); l + 8 := ListElem l 0 ]}.
Definition ex_parent : task_struct :=
  set_user_vaddr (VirtualAddr (Bitmap 1 (MEM_BITMAP_BASE + 3)) 0x8048000) (set_pgdir 0xc0100000 (ex_task ex_A TASK_RUNNING)).
Definition ex_fork_bytes : bmem :=
  {[ MEM_BITMAP_BASE := 0; MEM_BITMAP_BASE + 1 := 0; MEM_BITMAP_BASE + 2 := 0x21; MEM_BITMAP_BASE + 3 := 1 ]}.
Definition ex_fork_tasks : gmap Z task_struct :=
  {[ ex_A := ex_parent; ex_new := ex_task ex_new TASK_READY ]}.
(** The state, with any contents of the memory. *)
Definition ex_fork_state (m : pmem) : kst lheap :=
  set_tasks ex_fork_tasks
  (set_heap ex_fork_cells (set_locks {[ kernel_pool_lock := Lock NULL 0; user_pool_lock := Lock NULL 0 ]}
  (set_semas {[ lock_semaphore kernel_pool_lock := 1; lock_semaphore user_pool_lock := 1 ]}
  (set_bytes ex_fork_bytes
  (set_phys m
  (set_kernel_pool (Pool (Bitmap 1 MEM_BITMAP_BASE) 0x106000 0x8000)
  (set_user_pool (Pool (Bitmap 1 (MEM_BITMAP_BASE + 1)) 0x10e000 0x8000)
  (set_kernel_vaddr (VirtualAddr (Bitmap 1 (MEM_BITMAP_BASE + 2)) K_HEAP_START) ex_kst)))))))).
Definition ex_fork_mem : kst lheap := ex_fork_state ex_fork_ram.

Lemma ex_fork_wf k : 0 ≤ k < 4 → bitmap_wf ex_fork_bytes (Bitmap 1 (MEM_BITMAP_BASE + k)).
Proof.
  intros Hk. split; simpl; [lia|lia|]. intros i Hi. replace i with 0 by lia.
  assert (k = 0 ∨ k = 1 ∨ k = 2 ∨ k = 3) as [->|[->|[->| ->]]] by lia; [exists 0|exists 0|exists 0x21|exists 1]; (split; [by vm_compute|lia]).
Qed.

Lemma ex_fork_pools m : pools_ok (ex_fork_state m).
Proof.
  split; simpl.
  - intros []; simpl; [apply (ex_fork_wf 0)|apply (ex_fork_wf 1)]; lia.
  - apply (ex_fork_wf 2). lia.
  - left. simpl. lia.
  - intros []; left; simpl; lia.
  - intros []; simpl; (split; [done|lia]).
  - lia.
Qed.

Lemma ex_fork_free m g : free_page (ex_fork_state m) g → ∃ k, 6 ≤ k < 22 ∧ g = 0x100000 + k * 4096.
Proof.
  intros (pf & i & Hi & _ & ->). unfold pool_len, page_at in *. destruct pf; simpl in *; [exists (i + 6)|exists (i + 14)]; lia.
Qed.

(** A walk in the example. *)
Lemma ex_fork_translate d x pde pte : ex_fork_ram !! pde_addr d x = Some pde → present pde = true →
  ex_fork_ram !! pte_addr pde x = Some pte → present pte = true → translate ex_fork_ram d x = Some (frame pte + x mod 4096).
Proof. intros Hp Hpr Hpt Hptr. rewrite (translate_walk _ _ _ _ Hp), Hpr, Hpt. cbn. by rewrite Hptr. Qed.

Lemma ex_fork_taken_heap : taken ex_fork_bytes (Bitmap 1 (MEM_BITMAP_BASE + 2)) = {[0; 5]}.
Proof. by vm_compute. Qed.

Lemma ex_fork_heap_any m : tables_ok m 0x100000 → (∀ k, 6 ≤ k < 22 → fresh_frame m 0x100000 (0x100000 + k * 4096)) →
  (∀ x pa, managed x → translate m 0x100000 x = Some pa → (x / 4096, pa - x mod 4096) ∈ [(0x8048, 0x103000); (0xc0100, 0x100000); (0xc0105, 0x105000)]) →
  m !! 0x100c00 = Some 0x101007 → heap_ok (ex_fork_state m).
Proof.
  intros T F Hm Hk. split.
  - split; [apply ex_fork_pools|exact T| |].
    + intros g Hg. destruct (ex_fork_free _ _ Hg) as (k & Hkr & ->). exact (F k Hkr).
    + intros g x pa Hg Hx Htr. destruct (ex_fork_free _ _ Hg) as (k & Hkr & ->). pose proof (Hm x pa Hx Htr) as He.
      replace pa with (pa - x mod 4096 + x mod 4096) by lia. mapped_cases He; rewrite frame_offset by dm; lia.
  - reflexivity.
  - unfold heap_page, heap_len, K_HEAP_START. simpl. lia.
  - intros i Hi. exists 0x101007. split; [|reflexivity]. unfold heap_len in Hi. simpl in Hi.
    change (m !! pde_addr 0x100000 (heap_page i) = Some 0x101007). rewrite <- Hk. f_equal. unfold pde_addr, heap_page, K_HEAP_START.
    change (2 ^ 22) with 4194304. dm.
  - intros i Hi Hn. unfold heap_len in Hi. simpl in Hi.
    change (i ∉ taken ex_fork_bytes (Bitmap 1 (MEM_BITMAP_BASE + 2))) in Hn. rewrite ex_fork_taken_heap, elem_of_union, !elem_of_singleton in Hn.
    change (translate m 0x100000 (heap_page i) = None). destruct (translate m 0x100000 (heap_page i)) as [pa|] eqn:E; [|reflexivity].
    exfalso. assert (managed (heap_page i)) as Hx by (unfold managed, heap_page, K_HEAP_START; lia).
    pose proof (Hm _ _ Hx E) as He. unfold heap_page, K_HEAP_START in He. mapped_cases He; dm.
Qed.

Lemma ex_fork_heap_ok : heap_ok ex_fork_mem.
Proof.
  apply ex_fork_heap_any; [exact ex_fork_tables_p|intros k Hk; apply ex_fork_fresh; lia|exact ex_fork_mapped|exact (ex_fork_lookup 0x100c00)].
Qed.

Lemma ex_fork_page x pde pte : ex_fork_entries !! pde_addr 0x100000 x = Some pde → present pde = true →
  ex_fork_entries !! pte_addr pde x = Some pte → present pte = true → translate ex_fork_ram 0x100000 x = Some (frame pte + x mod 4096).
Proof.
  intros Hp Hpr Hq Hqr. apply (ex_fork_translate _ _ pde); [|exact Hpr| |exact Hqr]; rewrite ex_fork_lookup; [by rewrite Hp|by rewrite Hq].
Qed.

Lemma ex_fork_unforked : unforked 0x100000 0xc0105000 0x105000 ex_new ex_A ex_fork_mem.
Proof.
  split.
  - exact ex_fork_heap_ok.
  - reflexivity.
  - exists 1. split; [change (ex_fork_bytes !! (MEM_BITMAP_BASE + 3) = Some 1); by vm_compute|lia].
  - exists 1. split; [lia|]. split; [done|]. intros k Hk. change (k ∉ taken ex_fork_bytes (Bitmap 1 (MEM_BITMAP_BASE + 2))).
    rewrite ex_fork_taken_heap, elem_of_union, !elem_of_singleton. lia.
  - split; [done|]. split; [done|]. exact (ex_fork_page 0xc0105000 0x101007 0x105007 eq_refl eq_refl eq_refl eq_refl).
  - apply (ex_fork_fresh 5). lia.
  - intros va g Hva Hg. change (translate ex_fork_ram 0x100000 va = Some g) in Hg. destruct Hva as [Hva Ha].
    assert (managed va) as Hx by (unfold managed; lia). pose proof (ex_fork_mapped _ _ Hx Hg) as He. rewrite Ha, Z.sub_0_r in He. clear Hg.
    assert (g = 0x103000) as -> by (mapped_cases He; dm). split; [apply (ex_fork_fresh 3); lia|lia].
  - exists ex_parent. split; [change (ex_fork_tasks !! ex_A = Some ex_parent); by vm_compute|]. split; [done|].
    exact (ex_fork_page 0xc0100000 0x101007 0x100007 eq_refl eq_refl eq_refl eq_refl).
  - split; [|done]. exists (ex_task ex_new TASK_READY). change (ex_fork_tasks !! ex_new = Some (ex_task ex_new TASK_READY)). by vm_compute.
Qed.

Lemma ex_fork_count pf : 2 ≤ free_count pf ex_fork_mem.
Proof.
  unfold free_count, pool_len, pool_taken. change (bytes ex_fork_mem) with ex_fork_bytes.
  destruct pf; [change (pool_of PF_KERNEL ex_fork_mem) with (Pool (Bitmap 1 MEM_BITMAP_BASE) 0x106000 0x8000)|
    change (pool_of PF_USER ex_fork_mem) with (Pool (Bitmap 1 (MEM_BITMAP_BASE + 1)) 0x10e000 0x8000)]; by vm_compute.
Qed.
Lemma ex_fork_taken : taken ex_fork_bytes (Bitmap 1 (MEM_BITMAP_BASE + 3)) = {[0]}.
Proof. by vm_compute. Qed.

Lemma fork_copies_memory_witness :
  ∃ s' c f, (dir ← create_page_dir (H1 := ex_world); upd_task ex_new (set_pgdir dir) ;;
      copy_body_stack3 (H1 := ex_world) ex_new ex_A 0xc0105000) ex_fork_mem = Ok (tt, s') ∧
    translate (phys s') c 0x8048000 = Some f ∧ phys s' !! f = Some 0x12345678.
Proof.
  pose proof (ex_fork_page 0x8048000 0x102007 0x103007 eq_refl eq_refl eq_refl eq_refl) as Hpage.
  assert (Z.of_nat (size (taken ex_fork_bytes (Bitmap 1 (MEM_BITMAP_BASE + 3)))) = 1) as Hsize by (by rewrite ex_fork_taken, size_singleton).
  destruct (fork_copies_memory (H1 := ex_world) 0x100000 0xc0105000 0x105000 ex_new ex_A ex_fork_mem ex_fork_queues ex_parent)
    as (s' & t' & c & Hrun & _ & _ & _ & _ & _ & Hnew & _).
  - exact ex_fork_unforked.
  - change (ex_fork_tasks !! ex_A = Some ex_parent). by vm_compute.
  - apply (ex_fork_wf 3). lia.
  - intros a Ha. unfold in_bitmap in Ha. simpl in Ha. intros [[pf Hpf]|Hh]; [destruct pf|]; unfold in_bitmap in *; simpl in *; lia.
  - intros k Hk. change (k ∈ taken ex_fork_bytes (Bitmap 1 (MEM_BITMAP_BASE + 3))) in Hk. rewrite ex_fork_taken, elem_of_singleton in Hk. subst k.
    split; [split; [simpl; lia|reflexivity]|]. exists 0x103000. exact Hpage.
  - change (taken (bytes ex_fork_mem) _) with (taken ex_fork_bytes (Bitmap 1 (MEM_BITMAP_BASE + 3))). pose proof (ex_fork_count PF_KERNEL). lia.
  - change (taken (bytes ex_fork_mem) _) with (taken ex_fork_bytes (Bitmap 1 (MEM_BITMAP_BASE + 3))). pose proof (ex_fork_count PF_USER). lia.
  - apply (queues_check_ok ex_fork_cells). by vm_compute.
  - split; [reflexivity|]. split; reflexivity.
  - split; [reflexivity|]. split; reflexivity.
  - change (Z.land (ex_A + 4000) 0xfffff000 ≠ NULL). by vm_compute.
  - destruct (Hnew 0) as (g & f & Hg & Hf & Hw & _).
    { change (0 ∈ taken ex_fork_bytes (Bitmap 1 (MEM_BITMAP_BASE + 3))). rewrite ex_fork_taken. by apply elem_of_singleton. }
    change (translate ex_fork_ram 0x100000 0x8048000 = Some g) in Hg. rewrite Hpage in Hg. injection Hg as <-.
    exists s', c, f. split; [exact Hrun|]. split; [exact Hf|]. specialize (Hw 0 ltac:(lia)). rewrite Z.mul_0_l, !Z.add_0_r in Hw. rewrite Hw.
    exact (ex_fork_lookup 0x103000).
Defined.
