(* ===== verification/Boot.v ===== *)
(** * Start-up: the invariants hold when the scheduler begins (mem_init of
    src/mm/memory.c, thread_init of src/thread/thread.c)

    The other files show that the operations of the kernel keep the
    invariants of its memory, pids, locks and threads.  This file shows that
    they hold to begin with: from the memory that the loader leaves,
    [mem_init] and [thread_init] return in a state that satisfies all of them,
    with the main thread running and the first process and the idle thread
    ready; the scheduler then switches to the first process. *)

From S2P Require Import Prelude CString Bitmap Lists PageTable Kernel Sched Sync Memory Malloc Thread Process.
From S2P Require Import Disk Fsys System WaitExit Fork ForkMemory.

(** ** Where the cells of the lists are *)

Definition linked_in (R : Z → Prop) (Q : gmap Z (list Z)) : Prop :=
  ∀ l xs a, Q !! l = Some xs → a ∈ cells l xs → R a.

Lemma linked_unlinked (R : Z → Prop) Q a : linked_in R Q → ~ R a → unlinked Q a.
Proof. intros L Hn l xs Hl Ha. apply Hn. by eapply L. Qed.
Lemma linked_new (R : Z → Prop) Q l : linked_in R Q → ~ R l → Q !! l = None.
Proof.
  intros L Hn. destruct (Q !! l) as [xs|] eqn:E; [|done]. exfalso. apply Hn, (L l xs l E). unfold cells. by left.
Qed.
Lemma linked_insert (R : Z → Prop) Q l xs : linked_in R Q → (∀ a, a ∈ cells l xs → R a) → linked_in R (<[l := xs]> Q).
Proof. intros L Hx l2 ys a [[<- <-]|[_ Hl]]%lookup_insert_Some; [by apply Hx|by eapply L]. Qed.
Lemma linked_weaken (R R' : Z → Prop) Q : linked_in R Q → (∀ a, R a → R' a) → linked_in R' Q.
Proof. intros L Hw l xs a Hl Ha. by eapply Hw, L. Qed.

(** Empty lists. *)
Definition with_lists (ls : list Z) (Q : gmap Z (list Z)) : gmap Z (list Z) := foldl (λ Q l, <[l := []]> Q) Q ls.

Lemma with_lists_other ls : ∀ Q l, l ∉ ls → with_lists ls Q !! l = Q !! l.
Proof.
  induction ls as [|x ls IH]; intros Q l Hl; [done|]. apply not_elem_of_cons in Hl as [Hx Hl].
  change (with_lists (x :: ls) Q) with (with_lists ls (<[x := []]> Q)). rewrite IH by done. by apply lookup_insert_ne.
Qed.
Lemma with_lists_linked (R : Z → Prop) ls : ∀ Q, linked_in R Q → (∀ l, l ∈ ls → R l ∧ R (l + 8)) → linked_in R (with_lists ls Q).
Proof.
  induction ls as [|x ls IH]; intros Q L Hl; [done|]. apply IH; [|intros l ?; apply Hl; by right].
  apply linked_insert; [done|]. destruct (Hl x) as [? ?]; [by left|]. intros a. unfold cells. rewrite !elem_of_cons, elem_of_nil. naive_solver.
Qed.

(** ** The block descriptors *)

Definition desc_lists (dt : Z) : list Z := (λ i, free_list (desc_ptr dt i)) <$> seqZ 0 7.

Section Boot.
Context {H : Type} `{Queues H} `{World H}.
Implicit Types s : kst H.

Lemma desc_ptr_eq dt i : free_list (desc_ptr dt i) = dt + 24 * i + 8.
Proof. unfold free_list, desc_ptr, sizeof_mem_block_desc. lia. Qed.

Lemma desc_loop_ok dt (R : Z → Prop) n : ∀ i s Q,
  Z.of_nat n + i = 7 → 0 ≤ i → qrep (heap s) Q → linked_in R Q →
  (∀ j, i ≤ j < 7 → ~ R (free_list (desc_ptr dt j)) ∧ ~ R (free_list (desc_ptr dt j) + 8) ∧
     free_list (desc_ptr dt j) ∈ qcell (heap s) ∧ free_list (desc_ptr dt j) + 8 ∈ qcell (heap s)) →
  ∃ h d, block_desc_init_loop n dt i (size_of i) s = Ok (tt, set_heap h (set_descs d s)) ∧
    qrep h (with_lists ((λ j, free_list (desc_ptr dt j)) <$> seqZ i (Z.of_nat n)) Q) ∧ qcell h = qcell (heap s) ∧
    (∀ j, i ≤ j < 7 → d !! desc_ptr dt j = Some (MemBlockDesc (size_of j) (per_arena j))) ∧
    (∀ a, (∀ j, i ≤ j < 7 → a ≠ desc_ptr dt j) → d !! a = descs s !! a).
Proof.
  revert R. induction n as [|n IH]; intros R i s Q Hn Hi Hq L Hc.
  - exists (heap s), (descs s). split; [by destruct s|]. split; [exact Hq|]. split; [done|]. split; [intros j Hj; lia|done].
  - destruct (Hc i ltac:(lia)) as (N1 & N2 & C1 & C2). set (l := free_list (desc_ptr dt i)) in *.
    destruct (qinit_spec (heap s) Q l Hq (linked_new _ _ _ L N1) (linked_unlinked _ _ _ L N1) (linked_unlinked _ _ _ L N2) C1 C2)
      as (h1 & Hi1 & Hq1 & Hc1).
    set (s1 := set_heap h1 (set_descs (<[desc_ptr dt i := MemBlockDesc (size_of i) (per_arena i)]> (descs s)) s)).
    destruct (IH (λ a, R a ∨ a = l ∨ a = l + 8) (i + 1) s1 (<[l := []]> Q)) as (h & d & Hrun & Hq' & Hc' & Hd & Ho); [lia|lia|exact Hq1| | |].
    { apply linked_insert; [by eapply linked_weaken; [exact L|auto]|]. intros a. unfold cells. rewrite !elem_of_cons, elem_of_nil. tauto. }
    { intros j Hj. destruct (Hc j ltac:(lia)) as (M1 & M2 & E1 & E2). unfold s1, l in *. cbn [heap set_heap]. rewrite Hc1.
      rewrite !desc_ptr_eq in *. split_and!; [intros [?|?]; [done|lia]|intros [?|?]; [done|lia]|done|done]. }
    exists h, d. split_and!.
    + cbn [block_desc_init_loop]. kgo. erewrite K_step.
      2:{ unfold on_heap. cbn [heap set_descs]. fold l. rewrite Hi1. reflexivity. }
      replace (u16 (size_of i * 2)) with (size_of (i + 1)).
      2:{ unfold size_of. rewrite Z.pow_add_r by lia. assert (0 < 2 ^ i < 2 ^ 7) by (split; [lia|apply Z.pow_lt_mono_r; lia]).
          rewrite u16_small by lia. lia. }
      etrans; [exact Hrun|]. reflexivity.
    + rewrite Nat2Z.inj_succ, seqZ_cons by lia. rewrite fmap_cons. fold l. rewrite Z.pred_succ. exact Hq'.
    + rewrite Hc'. exact Hc1.
    + intros j Hj. destruct (decide (j = i)) as [->|Hne]; [|apply Hd; lia].
      rewrite Ho; [apply lookup_insert_eq|]. intros k Hk. unfold desc_ptr, sizeof_mem_block_desc. lia.
    + intros a Ha. rewrite Ho by (intros j Hj; apply Ha; lia). apply lookup_insert_ne. apply not_eq_sym, Ha. lia.
Qed.

Lemma block_desc_init_ok dt (R : Z → Prop) s Q :
  qrep (heap s) Q → linked_in R Q →
  (∀ l, l ∈ desc_lists dt → ~ R l ∧ ~ R (l + 8) ∧ l ∈ qcell (heap s) ∧ l + 8 ∈ qcell (heap s)) →
  ∃ h d, block_desc_init dt s = Ok (tt, set_heap h (set_descs d s)) ∧ qrep h (with_lists (desc_lists dt) Q) ∧
    qcell h = qcell (heap s) ∧ desc_table (set_descs d s) dt ∧
    (∀ a, (∀ i, 0 ≤ i < 7 → a ≠ desc_ptr dt i) → d !! a = descs s !! a).
Proof.
  intros Hq L Hc. apply (desc_loop_ok dt R 7 0 s Q); [lia|lia|exact Hq|exact L|].
  intros j Hj. apply Hc. unfold desc_lists. apply list_elem_of_fmap. exists j. split; [done|]. apply elem_of_seqZ. lia.
Qed.

(** ** The state while the kernel starts

    [T] are the pages of the heap in use, [c] the number of free pages of the
    kernel's pool, [P] the pids in use.  The main thread, whose page is
    [main_page], is running. *)

Definition main_page : Z := 0xc009e000.

Record booting (s : kst H) (Q : gmap Z (list Z)) (T : gset Z) (c : Z) (P : gset Z) : Prop := {
  bt_heap : heap_ok s;
  bt_slack : slack (bytes s) (vaddr_bitmap (kernel_vaddr s));
  bt_cr3 : cr3 s = 0x100000;
  bt_len : 128 ≤ heap_len s ≤ 32760;
  bt_taken : heap_taken s = T;
  bt_free : free_count PF_KERNEL s = c;
  bt_queues : qrep (heap s) Q;
  bt_kernel_lock : lock_free s Q kernel_pool_lock;
  bt_user_lock : lock_free s Q user_pool_lock;
  bt_pid_lock : lock_free s Q pid_lock;
  bt_current : current s = main_page;
  bt_pids : pids_ok s;
  bt_used : pids s = P;
  bt_bitmaps : ∀ a, in_bitmaps s a → MEM_BITMAP_BASE ≤ a < MEM_BITMAP_BASE + 0x3000;
  bt_behind : bits (vaddr_bitmap (kernel_vaddr s)) + btmp_bytes_len (vaddr_bitmap (kernel_vaddr s)) < MEM_BITMAP_BASE + 0x3000;
}.

(** The parts of the state that matter. *)
Definition same_boot (s s' : kst H) : Prop :=
  same_memory s s' ∧ esp s' = esp s ∧ locks s' = locks s ∧ semas s' = semas s ∧
  pid_start s' = pid_start s ∧ pid_bitmap s' = pid_bitmap s.

Lemma lock_free_same s s' Q Q' l :
  locks s' = locks s → semas s' = semas s → Q' !! waiters (lock_semaphore l) = Q !! waiters (lock_semaphore l) →
  lock_free s Q l → lock_free s' Q' l.
Proof. intros El Es EQ (F1 & F2 & F3). unfold lock_free. by rewrite El, Es, EQ. Qed.

Lemma booting_same s s' Q Q' T c P :
  same_boot s s' → qrep (heap s') Q' → (∀ l, l ∈ [kernel_pool_lock; user_pool_lock; pid_lock] →
    Q' !! waiters (lock_semaphore l) = Q !! waiters (lock_semaphore l)) →
  booting s Q T c P → booting s' Q' T c P.
Proof.
  intros (M & Ee & El & Es & Ep & Eb) Hq HQ [B1 B2 B3 B4 B5 B6 B7 B8 B9 B10 B11 B12 B13 B14 B15].
  destruct (same_memory_views s s' M) as (_ & ET & EF & _ & EL). pose proof M as (Mb & _ & Mc & Mk & Mu & Mv).
  split; rewrite ?Mb, ?Mc, ?Mv, ?EL, ?ET, ?EF; try done.
  - by eapply heap_ok_same.
  - eapply lock_free_same; [done|done| |exact B8]. apply HQ. by left.
  - eapply lock_free_same; [done|done| |exact B9]. apply HQ. right. by left.
  - eapply lock_free_same; [done|done| |exact B10]. apply HQ. right. right. by left.
  - unfold current. by rewrite Ee.
  - unfold pids_ok. by rewrite Ep, Eb, Mb.
  - unfold pids. by rewrite Eb, Mb.
  - intros a Ha. apply B14. unfold in_bitmaps in *. rewrite Mv in Ha.
    destruct Ha as [[pf Ha]|Ha]; [left; exists pf|by right]. destruct pf; simpl in *; [by rewrite Mk in Ha|by rewrite Mu in Ha].
Qed.

(** The bytes of pids and of the pools' bitmaps are not the same. *)
Lemma pid_bytes_apart s Q T c P a : booting s Q T c P → in_bitmap (pid_bitmap s) a → ~ in_bitmaps s a ∧ a < K_HEAP_START.
Proof.
  intros B Ha. destruct (bt_pids _ _ _ _ _ B) as (_ & Eb & _). rewrite Eb in Ha.
  unfold in_bitmap, pid_bitmap_bits, K_HEAP_START in *. simpl in Ha. split; [|lia]. intros Hm. apply (bt_bitmaps _ _ _ _ _ B) in Hm.
  unfold MEM_BITMAP_BASE in Hm. lia.
Qed.

(** Other bytes change; the pids become those of the new bytes. *)
Lemma booting_bytes s Q T c P P' b :
  booting s Q T c P → (∀ a, a < K_HEAP_START → ~ in_bitmap (pid_bitmap s) a → b !! a = bytes s !! a) →
  pids_ok (set_bytes b s) → pids (set_bytes b s) = P' → booting (set_bytes b s) Q T c P'.
Proof.
  intros B Hb Hok HP. assert (∀ a, MEM_BITMAP_BASE ≤ a < MEM_BITMAP_BASE + 0x3000 → b !! a = bytes s !! a) as Hm.
  { intros a Ha. unfold MEM_BITMAP_BASE in Ha. apply Hb; [unfold K_HEAP_START; lia|]. destruct (bt_pids _ _ _ _ _ B) as (_ & -> & _).
    unfold in_bitmap, pid_bitmap_bits. simpl. lia. }
  destruct (heap_ok_bytes s b) as (Hh & HT & HF); [intros a Ha; by apply Hm, (bt_bitmaps _ _ _ _ _ B)|apply B|].
  pose proof (wf_len _ _ (po_heap _ (vm_pools _ (ho_vm _ (bt_heap _ _ _ _ _ B))))) as Hl0.
  destruct B as [B1 B2 B3 B4 B5 B6 B7 B8 B9 B10 B11 B12 B13 B14 B15].
  split; try done.
  - unfold slack. simpl. rewrite Hm; [exact B2|]. split; [|exact B15].
    assert (in_bitmaps s (bits (vaddr_bitmap (kernel_vaddr s)))) as Hi by (right; unfold in_bitmap; lia).
    apply B14 in Hi. lia.
  - by rewrite HT.
  - unfold free_count in *. by rewrite HF.
Qed.

(** A byte behind the heap's bitmap stays one. *)
#[local] Instance in_bitmap_dec b a : Decision (in_bitmap b a).
Proof. unfold in_bitmap. apply _. Defined.

Lemma slack_kept s s' : pools_ok s' → same_bytes s s' → kernel_pool s' = kernel_pool s → user_pool s' = user_pool s →
  kernel_vaddr s' = kernel_vaddr s → slack (bytes s) (vaddr_bitmap (kernel_vaddr s)) → slack (bytes s') (vaddr_bitmap (kernel_vaddr s')).
Proof.
  intros P' Hsb Ek Eu Ev (v & Hv & Hr). rewrite Ev. set (a := bits _ + _) in *.
  assert ((∃ pf, in_bitmap (pool_bitmap (pool_of pf s')) a) ∨ ~ ∃ pf, in_bitmap (pool_bitmap (pool_of pf s')) a) as [[pf Ha]|Hn].
  { destruct (decide (in_bitmap (pool_bitmap (pool_of PF_KERNEL s')) a)) as [|N1]; [left; by exists PF_KERNEL|].
    destruct (decide (in_bitmap (pool_bitmap (pool_of PF_USER s')) a)) as [|N2]; [left; by exists PF_USER|].
    right. by intros [[] ?]. }
  - destruct (wf_byte _ _ (po_pool _ P' pf) (a - bits (pool_bitmap (pool_of pf s')))) as (w & Hw & Hwr); [unfold in_bitmap in Ha; lia|].
    exists w. split; [|done]. fold a. by replace (bits (pool_bitmap (pool_of pf s')) + (a - bits (pool_bitmap (pool_of pf s')))) with a in Hw by lia.
  - exists v. split; [|done]. fold a. rewrite Hsb; [exact Hv|]. intros [[pf Ha]|Ha].
    + apply Hn. exists pf. destruct pf; simpl in *; by rewrite ?Ek, ?Eu.
    + unfold in_bitmap, a in Ha. lia.
Qed.

(** ** Pages from the heap *)

Lemma boot_pages s Q T c P n :
  booting s Q T c P → 0 < n < 3840 → heap_room s n → n ≤ c →
  ∃ r fs m b, let s' := set_phys m (set_bytes b s) in
    get_kernel_pages n s = Ok (heap_page r, s') ∧ booting s' Q (interval r n ∪ T) (c - n) P ∧
    0 ≤ r ∧ r + n ≤ heap_len s ∧ (∀ k, r ≤ k < r + n → k ∉ T) ∧ Z.of_nat (length fs) = n ∧ allocated s s' r fs ∧
    (∀ f k, f ∈ fs → 0 ≤ k < 1024 → m !! (f + k * 4) = Some 0) ∧
    (∀ f, f ∈ fs → fresh_frame m 0x100000 f) ∧ keeps_data s s' fs.
Proof.
  intros B Hn Hroom Hc. pose proof B as [B1 B2 B3 B4 B5 B6 B7 B8 B9 B10 B11 B12 B13 B14 B15].
  destruct (get_kernel_pages_full s Q n) as (r & fs & m & b & Hg & Hl & Hr & Hrn & Hfree & HT & Al & Hz & Hf & Hfc & KD & _);
    [done|done|done|done|lia|done|done|by rewrite B11|].
  exists r, fs, m, b. rewrite B3 in Hf. rewrite B5 in Hfree.
  split_and!; try done. split; try done.
  - apply Al.
  - eapply (slack_kept s); [apply (vm_pools _ (ho_vm _ (al_ok _ _ _ _ Al)))|apply KD|done..].
  - by rewrite HT, B5.
  - rewrite Hfc. lia.
  - destruct B12 as (P1 & P2 & P3). split_and!; [done|done|]. simpl. eapply (bitmap_agree (bytes s)); [|done].
    intros i Hi. apply KD. apply (pid_bytes_apart s Q T c P); [done|]. unfold in_bitmap. lia.
  - rewrite <- B13. unfold pids. simpl. f_equal. destruct B12 as (P1 & P2 & P3). eapply (bitmap_agree (bytes s)); [|done].
    intros i Hi. apply KD. apply (pid_bytes_apart s Q T c P); [done|]. unfold in_bitmap. lia.
Qed.

(** ** A task structure *)

Lemma boot_init_thread s Q T c P p nm prio :
  booting s Q T c P → page_ok p → (∀ x, x ∈ task_cells p → unlinked Q x) → (∃ n, 1 ≤ n ≤ 1024 ∧ n ∉ P) → (length nm < 16)%nat →
  ∃ n b, let st := if p =? main_thread s then TASK_RUNNING else TASK_READY in
    let s' := set_tasks (<[p := new_task p n nm prio st (p + 4096)]> (tasks s)) (set_bytes b (cleared_task s p)) in
    init_thread p nm prio s = Ok (tt, s') ∧ booting s' Q T c ({[n]} ∪ P) ∧ (n ∉ P) ∧ 1 ≤ n ∧ (∀ k, 1 ≤ k < n → k ∈ P) ∧
    qcell (heap s') = list_to_set (task_cells p) ∪ qcell (heap s).
Proof.
  intros B Hp Hu (k & Hk & Hkn) Hnm. destruct (zero_all_ok _ _ _ (bt_queues _ _ _ _ _ B) Hu) as [Hq' Hc'].
  destruct (init_thread_ok s Q p nm prio) as (n & b & Hi & Hn & Hfree & Hok & HP & Hpre & Hby).
  { split; try done; try apply B; [|by rewrite (bt_current _ _ _ _ _ B)].
    rewrite pids_full by apply B. intros Hf. apply Hkn. rewrite <- (bt_used _ _ _ _ _ B). by apply Hf. }
  rewrite (bt_used _ _ _ _ _ B) in Hfree, Hpre. exists n, b. split; [exact Hi|]. split_and!; try done; [|lia].
  assert (booting (set_bytes b s) Q T c ({[n]} ∪ P)) as B1.
  { apply (booting_bytes s Q T c P); [done|intros a _; apply Hby|exact Hok|]. rewrite <- (bt_used _ _ _ _ _ B). exact HP. }
  apply (booting_same (set_bytes b s) _ Q Q); [done|exact Hq'|done|exact B1].
Qed.

(** ** The bytes of new pages *)

Lemma claim_bytes_ok s p n : p ≠ NULL → ∃ b, claim_bytes p n s = Ok (tt, set_bytes b s) ∧
  ∀ a, b !! a = if decide (p ≤ a < p + n) then Some 0 else bytes s !! a.
Proof.
  intros Hp. unfold claim_bytes. rewrite (proj2 (Z.eqb_neq p NULL)) by done. eexists. split; [reflexivity|]. intros a.
  destruct (decide (p ≤ a < p + n)) as [Ha|Ha].
  - apply lookup_union_Some_l, lookup_gset_to_gmap_Some. split; [|reflexivity]. apply elem_of_list_to_set, elem_of_seqZ. exact Ha.
  - apply lookup_union_r, lookup_gset_to_gmap_None. intros Hin%elem_of_list_to_set%elem_of_seqZ. exact (Ha Hin).
Qed.

Lemma user_bitmap_size : DIV_ROUND_UP user_btmp_bytes PG_SIZE = 23.
Proof. reflexivity. Qed.
Lemma user_bitmap_bytes : user_btmp_bytes = 94199.
Proof. reflexivity. Qed.

(** The bitmap of the virtual pages of a process. *)
Lemma boot_user_bitmap s Q T c P p t :
  booting s Q T c P → tasks s !! p = Some t → heap_room s 23 → 23 ≤ c →
  ∃ r m b, let bm := Bitmap user_btmp_bytes (heap_page r) in
    let s' := set_tasks (<[p := set_user_vaddr (VirtualAddr bm USER_VADDR_START) t]> (tasks s)) (set_phys m (set_bytes b s)) in
    create_user_vaddr_bitmap p s = Ok (tt, s') ∧ booting s' Q (interval r 23 ∪ T) (c - 23) P ∧
    0 ≤ r ∧ r + 23 ≤ heap_len s ∧ (∀ k, r ≤ k < r + 23 → k ∉ T) ∧ bitmap_wf b bm ∧ taken b bm = ∅.
Proof.
  intros B Ht Hroom Hc. set (t1 := set_user_vaddr (VirtualAddr (vaddr_bitmap (user_vaddr t)) USER_VADDR_START) t).
  set (s1 := set_tasks (<[p := t1]> (tasks s)) s).
  assert (booting s1 Q T c P) as B1 by (apply (booting_same s s1 Q Q); [done|apply B|done|exact B]).
  destruct (boot_pages s1 Q T c P 23 B1) as (r & fs & m & b & Hg & B2 & Hr & Hrn & Hfree & _); [lia|exact Hroom|lia|].
  assert (heap_page r ≠ NULL) as Hnn by (unfold heap_page, K_HEAP_START, NULL; lia).
  set (s2 := set_phys m (set_bytes b s1)) in *.
  destruct (claim_bytes_ok s2 (heap_page r) (23 * PG_SIZE) Hnn) as (b2 & Hcl & Hb2).
  set (bm := Bitmap user_btmp_bytes (heap_page r)).
  set (t2 := set_user_vaddr (VirtualAddr bm USER_VADDR_START) t).
  set (s4 := set_tasks (<[p := t2]> (tasks s)) (set_phys m (set_bytes b2 s))).
  destruct (bitmap_init_step s4 bm) as (b3 & Hbi & Hwf & Htk & Ho & _).
  { simpl. rewrite user_bitmap_bytes. lia. }
  { simpl. rewrite user_bitmap_bytes. lia. }
  { exact Hnn. }
  { intros a Ha. change (is_Some (b2 !! a)). change (bits bm) with (heap_page r) in Ha. change (btmp_bytes_len bm) with user_btmp_bytes in Ha. rewrite user_bitmap_bytes in Ha. rewrite Hb2.
    rewrite decide_True; [by eexists|]. unfold PG_SIZE. lia. }
  exists r, m, b3. split; [|split; [|split_and!; done]].
  - unfold create_user_vaddr_bitmap. erewrite K_step by (apply upd_task_ok; by eexists). kgo.
    assert (alter (λ t, set_user_vaddr (VirtualAddr (vaddr_bitmap (user_vaddr t)) USER_VADDR_START) t) p (tasks s) = <[p := t1]> (tasks s)) as ->.
    { apply map_eq. intros q. destruct (decide (q = p)) as [->|Hne]; [by rewrite lookup_alter_eq, Ht, lookup_insert_eq|by rewrite lookup_alter_ne, lookup_insert_ne]. }
    fold s1. rewrite user_bitmap_size. kstep Hg. fold s2. kstep Hcl. fold bm.
    change (set_bytes b2 s2) with (set_tasks (<[p := t1]> (tasks s)) (set_phys m (set_bytes b2 s))).
    erewrite K_step by apply upd_task_new. kgo. change (set_user_vaddr (VirtualAddr bm (vaddr_start (user_vaddr t1))) t1) with t2. fold s4.
    erewrite K_step by (apply task_at_ok; apply lookup_insert_eq). kgo. exact Hbi.
  - assert (∀ a, a < K_HEAP_START → b3 !! a = b !! a) as Hlow.
    { intros a Ha. rewrite Ho by (left; unfold bm, heap_page, K_HEAP_START in *; simpl; lia). change (bytes s4) with b2. rewrite Hb2.
      rewrite decide_False; [done|]. unfold heap_page, K_HEAP_START in *. lia. }
    destruct (pids_same s2 (set_bytes b3 s2) (bt_pids _ _ _ _ _ B2) eq_refl eq_refl) as [Hok HP].
    { intros a Ha. apply Hlow. by apply (pid_bytes_apart s2 Q _ _ P _ B2). }
    assert (booting (set_bytes b3 s2) Q (interval r 23 ∪ T) (c - 23) P) as B3.
    { apply (booting_bytes s2 Q _ _ P); [exact B2|intros a Ha _; by apply Hlow|exact Hok|]. rewrite HP. apply B2. }
    apply (booting_same (set_bytes b3 s2) _ Q Q); [done|apply B|done|exact B3].
Qed.

(** ** The directory of the first process *)

(** The directory at [va], in the page [f], shares the kernel's half with the
    current one and has nothing in the other half; [f] is in use. *)
Record shares (s : kst H) (va f : Z) : Prop := {
  sh_fresh : fresh_frame (phys s) 0x100000 f;
  sh_used : ~ free_page s f;
  sh_va : managed va;
  sh_map : translate (phys s) 0x100000 va = Some f;
  sh_self : phys s !! (f + 1023 * 4) = Some (f + 7);
  sh_kernel : ∀ i, 768 ≤ i < 1023 → phys s !! (f + i * 4) = phys s !! (0x100000 + i * 4);
  sh_empty : ∀ i, 0 ≤ i < 768 → phys s !! (f + i * 4) = Some 0;
}.

Lemma shares_same s s' va f : same_memory s s' → shares s va f → shares s' va f.
Proof.
  intros M [S1 S2 S3 S4 S5 S6 S7]. destruct (same_memory_views s s' M) as (_ & _ & _ & EF & _). destruct M as (_ & Em & _).
  split; rewrite ?Em; try done. by rewrite EF.
Qed.
Lemma shares_bytes s b va f : (∀ g, free_page (set_bytes b s) g → free_page s g) → shares s va f → shares (set_bytes b s) va f.
Proof. intros Hf [S1 S2 S3 S4 S5 S6 S7]. split; try done. intros Hg. by apply S2, Hf. Qed.

(** Other pages are taken. *)
Lemma shares_pages s m b va f r fs : let s' := set_phys m (set_bytes b s) in
  cr3 s = 0x100000 → allocated s s' r fs → keeps_data s s' fs →
  (∀ k, r ≤ k < r + Z.of_nat (length fs) → ~ same_page (heap_page k) va) → shares s va f → shares s' va f.
Proof.
  intros s' Ec Al (_ & KD & Dir) Hno [S1 S2 S3 S4 S5 S6 S7]. rewrite Ec in KD, Dir.
  destruct (KD f S1) as [F W].
  { intros Hin. apply S2, free_kernel_page_free. by apply (al_new _ _ _ _ Al). }
  split.
  - exact F.
  - intros Hf. apply S2. by apply (al_gone _ _ _ _ Al).
  - exact S3.
  - pose proof (al_other _ _ _ _ Al va S3 Hno) as E. rewrite Ec in E. by rewrite E.
  - rewrite W by lia. exact S5.
  - intros i Hi. rewrite W, Dir by lia. by apply S6.
  - intros i Hi. rewrite W by lia. by apply S7.
Qed.

Lemma heap_ok_unseen s m' : heap_ok s → unseen (phys s) m' (cr3 s) → heap_ok (set_phys m' s).
Proof.
  intros [V Hst Hl Ht Hf] U. split; try done.
  - replace (set_phys m' s) with (set_cr3 (cr3 s) (set_phys m' s)) by (by destruct s). apply vm_unseen; [|exact U].
    by replace (set_cr3 (cr3 s) s) with s by (by destruct s).
  - intros i Hi. destruct (Ht i Hi) as (pde & Hp & Hpr). exists pde. split; [|done]. simpl.
    assert (0 ≤ heap_page i / 2 ^ 22 < 1024) as Hx.
    { assert (heap_page i < 0xffc00000) by (unfold heap_page in *; change (heap_len (set_phys m' s)) with (heap_len s) in Hi; lia).
      unfold heap_page, K_HEAP_START in *. change (2 ^ 22) with 4194304. dm. }
    unfold pde_addr in *. rewrite (un_dir _ _ _ U) by exact Hx. exact Hp.
  - intros i Hi Hn. simpl. rewrite (un_translate _ _ _ U); [by apply Hf|].
    change (heap_len (set_phys m' s)) with (heap_len s) in Hi. unfold managed, heap_page, K_HEAP_START in *. lia.
Qed.

Lemma booting_phys s Q T c P m' : booting s Q T c P → unseen (phys s) m' 0x100000 → booting (set_phys m' s) Q T c P.
Proof.
  intros B U. pose proof B as [B1 B2 B3 B4 B5 B6 B7 B8 B9 B10 B11 B12 B13 B14 B15]. rewrite <- B3 in U.
  split; try done. by apply heap_ok_unseen.
Qed.

Lemma boot_dir s Q T c P :
  booting s Q T c P → heap_room s 1 → 1 ≤ c →
  ∃ r f m b, let s' := set_phys m (set_bytes b s) in
    create_page_dir s = Ok (heap_page r, s') ∧ booting s' Q (interval r 1 ∪ T) (c - 1) P ∧
    0 ≤ r ∧ r + 1 ≤ heap_len s ∧ (r ∉ T) ∧ shares s' (heap_page r) f ∧ same_bytes s s'.
Proof.
  intros B Hroom Hc. destruct (boot_pages s Q T c P 1 B) as (r & fs & m & b & Hg & B1 & Hr & Hrn & Hfree & Hl & Al & Hz & Hf & KD); [lia|done|lia|].
  destruct fs as [|f [|]]; simpl in Hl; [lia| |lia]. set (s1 := set_phys m (set_bytes b s)) in *.
  assert (fresh_frame m 0x100000 f) as F by (apply Hf; by left).
  assert (∀ i, 0 ≤ i < 768 → m !! (f + i * 4) = Some 0) as Z0 by (intros i Hi; apply Hz; [by left|lia]).
  pose proof (vm_tables _ (ho_vm _ (bt_heap _ _ _ _ _ B1))) as T1. rewrite (bt_cr3 _ _ _ _ _ B1) in T1. change (phys s1) with m in T1.
  pose proof (heap_page_managed s r (bt_heap _ _ _ _ _ B) ltac:(lia)) as Hm.
  pose proof (new_dir_unseen m 0x100000 f T1 F) as U.
  assert (translate m 0x100000 (heap_page r) = Some f) as Ht.
  { pose proof (al_map _ _ _ _ Al 0%nat f eq_refl) as E. by rewrite Z.add_0_r, (bt_cr3 _ _ _ _ _ B) in E. }
  pose proof (fill_page_dir_ok s1 (heap_page r) f) as Hfill. rewrite (bt_cr3 _ _ _ _ _ B1) in Hfill.
  exists r, f, (dir_filled m 0x100000 f), b. split_and!; [|exact (booting_phys s1 Q _ _ P _ B1 U)|done|done|apply Hfree; lia| |exact (proj1 KD)].
  - unfold create_page_dir. kstep Hg. rewrite (proj2 (Z.eqb_neq _ NULL)) by (unfold heap_page, K_HEAP_START, NULL; lia).
    refine (Hfill T1 F Hm _ Ht). unfold heap_page, K_HEAP_START. dm.
  - assert (∀ i, 0 ≤ i < 1024 → dir_filled m 0x100000 f !! (f + i * 4) =
      if decide (i = 1023) then Some (f + 7) else if decide (768 ≤ i) then m !! (0x100000 + i * 4) else m !! (f + i * 4)) as E
      by (exact (dir_filled_entry m 0x100000 f T1 F)).
    assert (~ free_page s1 f) as Hnf.
    { intros Hx. destruct (al_gone _ _ _ _ Al f Hx) as [_ Hn]. apply Hn. by left. }
    revert U E. generalize (dir_filled m 0x100000 f). intros m2 U E. split; cbn [phys set_phys].
    + by apply U.
    + exact Hnf.
    + exact Hm.
    + rewrite (un_translate _ _ _ U) by done. exact Ht.
    + by rewrite E, decide_True by lia.
    + intros i Hi. rewrite E, decide_False, decide_True by lia. symmetry. apply U. lia.
    + intros i Hi. rewrite E, !decide_False by lia. by apply Z0.
Qed.

(** ** The first process *)

(** Room is left on the heap while few pages are taken. *)
Lemma room_left s (T : gset Z) n i : heap_taken s = T → 0 ≤ i → i + n ≤ heap_len s → (∀ k, i ≤ k < i + n → k ∉ T) → heap_room s n.
Proof. intros HT Hi Hn Hk. exists i. split; [done|]. split; [done|]. by rewrite HT. Qed.

Lemma room_for_bitmap s r : 128 ≤ heap_len s → heap_taken s = interval r 1 ∪ ∅ → heap_room s 23.
Proof.
  intros Hl HT. apply (room_left s _ 23 (if decide (r < 23) then 24 else 0) HT); [destruct (decide _); lia..|].
  intros k Hk. rewrite elem_of_union, elem_of_interval. destruct (decide _); set_solver by lia.
Qed.
Lemma room_for_page s r1 r2 : 128 ≤ heap_len s → heap_taken s = interval r2 23 ∪ (interval r1 1 ∪ ∅) → heap_room s 1.
Proof.
  intros Hl HT.
  assert (∃ i, (i = 0 ∨ i = 24 ∨ i = 48) ∧ i ≠ r1 ∧ ~ r2 ≤ i < r2 + 23) as (i & Hi & N1 & N2).
  { destruct (decide (0 ≠ r1 ∧ ~ r2 ≤ 0 < r2 + 23)) as [|]; [exists 0; lia|].
    destruct (decide (24 ≠ r1 ∧ ~ r2 ≤ 24 < r2 + 23)) as [|]; [exists 24; lia|exists 48; lia]. }
  apply (room_left s _ 1 i HT); [lia|lia|]. intros k Hk. rewrite !elem_of_union, !elem_of_interval. set_solver by lia.
Qed.
Lemma room_for_idle s r1 r2 r3 : 128 ≤ heap_len s → heap_taken s = interval r3 1 ∪ (interval r2 23 ∪ (interval r1 1 ∪ ∅)) → heap_room s 1.
Proof.
  intros Hl HT.
  assert (∃ i, (i = 0 ∨ i = 24 ∨ i = 48 ∨ i = 72) ∧ i ≠ r1 ∧ i ≠ r3 ∧ ~ r2 ≤ i < r2 + 23) as (i & Hi & N1 & N3 & N2).
  { destruct (decide (0 ≠ r1 ∧ 0 ≠ r3 ∧ ~ r2 ≤ 0 < r2 + 23)) as [|]; [exists 0; lia|].
    destruct (decide (24 ≠ r1 ∧ 24 ≠ r3 ∧ ~ r2 ≤ 24 < r2 + 23)) as [|]; [exists 24; lia|].
    destruct (decide (48 ≠ r1 ∧ 48 ≠ r3 ∧ ~ r2 ≤ 48 < r2 + 23)) as [|]; [exists 48; lia|exists 72; lia]. }
  apply (room_left s _ 1 i HT); [lia|lia|]. intros k Hk. rewrite !elem_of_union, !elem_of_interval. set_solver by lia.
Qed.

(** The page of a task on the heap, and the cells in it. *)
Lemma heap_page_ok s r : heap_ok s → 0 ≤ r < heap_len s → page_ok (heap_page r) ∧ K_HEAP_START ≤ heap_page r < 2 ^ 32 - 8192.
Proof.
  intros Hh Hr. pose proof (ho_len _ Hh). unfold page_ok, heap_page, K_HEAP_START in *. split_and!; [dm|lia..].
Qed.
Lemma task_cells_in p a : a ∈ task_cells p → p + 36 ≤ a < p + 300.
Proof.
  unfold task_cells. rewrite !elem_of_cons. unfold general_tag, all_list_tag. intros [->|[->|Hin]]; [lia|lia|].
  apply elem_of_concat in Hin as (xs & Hx & Hin). apply list_elem_of_fmap in Hin as (i & -> & Hi%elem_of_seqZ).
  rewrite desc_ptr_eq in Hx. unfold u_block_desc in Hx. rewrite !elem_of_cons, elem_of_nil in Hx. lia.
Qed.
Lemma desc_lists_in p l : l ∈ desc_lists (u_block_desc p) → l ∈ task_cells p ∧ l + 8 ∈ task_cells p ∧ p + 68 ≤ l < p + 292.
Proof.
  unfold desc_lists. intros (i & -> & Hi)%list_elem_of_fmap. unfold task_cells. rewrite !elem_of_cons, !elem_of_concat. split_and!.
  - right. right. eexists. split; [by left|]. apply list_elem_of_fmap. by exists i.
  - right. right. eexists. split; [right; by left|]. apply list_elem_of_fmap. by exists i.
  - apply elem_of_seqZ in Hi. rewrite desc_ptr_eq. unfold u_block_desc. lia.
  - apply elem_of_seqZ in Hi. rewrite desc_ptr_eq. unfold u_block_desc. lia.
Qed.

(** The descriptors of other tasks. *)
Lemma cleared_descs_other p a (d : gmap Z mem_block_desc) : a ∉ task_descs p →
  foldl (λ m d, <[d := zero_desc]> m) d (task_descs p) !! a = d !! a.
Proof.
  revert d. induction (task_descs p) as [|x l IH]; intros d Ha; [done|]. apply not_elem_of_cons in Ha as [Hx Ha].
  simpl. rewrite IH by done. by apply lookup_insert_ne.
Qed.
Lemma task_descs_in p a : a ∈ task_descs p → p ≤ a < p + 4096.
Proof.
  unfold task_descs. intros (i & -> & Hi%elem_of_seqZ)%list_elem_of_fmap. unfold desc_ptr, u_block_desc, sizeof_mem_block_desc. lia.
Qed.
Lemma desc_table_other s s' dt p : (∀ a, a ∉ task_descs p → descs s' !! a = descs s !! a) →
  dt + 300 ≤ p ∨ p + 4096 ≤ dt → desc_table s dt → desc_table s' dt.
Proof.
  intros Hd Hp T i Hi. rewrite Hd; [by apply T|]. intros Hin%task_descs_in. unfold desc_ptr, sizeof_mem_block_desc, DESC_CNT in *. lia.
Qed.

(** The lists after a new process has entered the two lists of threads. *)
Definition process_lists (p : Z) (ready all : list Z) (Q : gmap Z (list Z)) : gmap Z (list Z) :=
  <[thread_all_list := all ++ [all_list_tag p]]> (<[thread_ready_list := ready ++ [general_tag p]]>
    (with_lists (desc_lists (u_block_desc p)) Q)).
Lemma process_lists_other p ready all Q l : l < K_HEAP_START → K_HEAP_START ≤ p → l ≠ thread_all_list → l ≠ thread_ready_list →
  process_lists p ready all Q !! l = Q !! l.
Proof.
  intros Hl Hp N1 N2. unfold process_lists. rewrite !lookup_insert_ne by done. apply with_lists_other.
  intros Hin%desc_lists_in. lia.
Qed.

(** The descriptors of a process, and its entries in the lists. *)
Lemma process_enters s Q (R : Z → Prop) p ready all :
  qrep (heap s) Q → linked_in R Q → (∀ a, R a → a < K_HEAP_START) → K_HEAP_START ≤ p →
  list_to_set (task_cells p) ⊆ qcell (heap s) →
  Q !! thread_ready_list = Some ready → Q !! thread_all_list = Some all →
  ∃ h d, (block_desc_init (u_block_desc p) ;; old_status ← intr_disable;
          enlist thread_ready_list (general_tag p) ;; enlist thread_all_list (all_list_tag p) ;;
          intr_set_status old_status ;; mret tt) s = Ok (tt, set_heap h (set_descs d s)) ∧
    qrep h (process_lists p ready all Q) ∧ qcell h = qcell (heap s) ∧ desc_table (set_descs d s) (u_block_desc p) ∧
    ∀ a, a ∉ task_descs p → d !! a = descs s !! a.
Proof.
  intros Hq L HR Hp Hc Hr Ha.
  assert (∀ x, x ∈ task_cells p → x ∈ qcell (heap s)) as Hcell by (intros x Hx; apply Hc, elem_of_list_to_set, Hx).
  destruct (block_desc_init_ok (u_block_desc p) R s Q Hq L) as (h1 & d & Hd & Hq1 & Hc1 & Htab & Hdo).
  { intros l Hl. destruct (desc_lists_in p l Hl) as (C1 & C2 & Hlr).
    split_and!; [intros Hx%HR; lia|intros Hx%HR; lia|by apply Hcell|by apply Hcell]. }
  set (Q1 := with_lists (desc_lists (u_block_desc p)) Q) in *.
  assert (linked_in (λ a, R a ∨ p + 68 ≤ a < p + 300) Q1) as L1.
  { apply with_lists_linked; [eapply linked_weaken; [exact L|auto]|]. intros l Hl. destruct (desc_lists_in p l Hl) as (_ & _ & Hlr). split; right; lia. }
  assert (∀ a, p ≤ a < p + 68 → unlinked Q1 a) as Hu.
  { intros a Hx. eapply linked_unlinked; [exact L1|]. intros [Hy%HR|Hy]; lia. }
  assert (∀ l, l < K_HEAP_START → Q1 !! l = Q !! l) as Hlow.
  { intros l Hl. apply with_lists_other. intros Hin%desc_lists_in. lia. }
  set (s1 := set_heap h1 (set_descs d s)). set (s2 := set_intr false s1).
  destruct (enlist_ok s2 Q1 thread_ready_list ready (general_tag p) Hq1) as (h2 & He2 & Hq2 & Hc2).
  { by rewrite Hlow. }
  { apply Hu. unfold general_tag. lia. }
  { change (general_tag p ∈ qcell h1). rewrite Hc1. apply Hcell. unfold task_cells. by left. }
  destruct (enlist_ok (set_heap h2 s2) _ thread_all_list all (all_list_tag p) Hq2) as (h3 & He3 & Hq3 & Hc3).
  { rewrite lookup_insert_ne by done. by rewrite Hlow. }
  { eapply unlinked_append; [by rewrite Hlow|apply Hu; unfold all_list_tag; lia|unfold all_list_tag, general_tag; lia]. }
  { change (all_list_tag p ∈ qcell h2). rewrite Hc2. change (heap s2) with h1. rewrite Hc1. apply Hcell. unfold task_cells. right. by left. }
  exists h3, d. split_and!; [|exact Hq3|rewrite Hc3; etrans; [exact Hc2|exact Hc1]|exact Htab|].
  2:{ intros a Hx. apply Hdo. intros i Hi ->. apply Hx. unfold task_descs. apply list_elem_of_fmap. exists i. split; [done|]. apply elem_of_seqZ. lia. }
  kstep Hd. fold s1. kstep (intr_disable_ok s1). fold s2. kstep He2. kstep He3.
  destruct (intr_set_status_ok (intr s1) (set_heap h3 (set_heap h2 s2))) as [r Hri]. kstep Hri. by destruct s.
Qed.

Lemma process_lists_linked (R : Z → Prop) p ready all Q :
  linked_in R Q → Q !! thread_ready_list = Some ready → Q !! thread_all_list = Some all →
  linked_in (λ a, R a ∨ p ≤ a < p + 4096) (process_lists p ready all Q).
Proof.
  intros L Hr Ha. unfold process_lists.
  assert (∀ l xs a e, Q !! l = Some xs → a ∈ cells l (xs ++ [e]) → p ≤ e < p + 4096 → R a ∨ p ≤ a < p + 4096) as Hc.
  { intros l xs a e Hl Hin He. unfold cells in Hin. rewrite !elem_of_cons, elem_of_app, list_elem_of_singleton in Hin.
    pose proof (λ x, L l xs x Hl) as Lx. unfold cells in Lx. setoid_rewrite elem_of_cons in Lx. setoid_rewrite elem_of_cons in Lx. naive_solver. }
  apply linked_insert; [apply linked_insert; [apply with_lists_linked; [eapply linked_weaken; [exact L|auto]|]|]|].
  - intros l Hl. destruct (desc_lists_in p l Hl) as (_ & _ & Hlr). split; right; lia.
  - intros a Hin. eapply Hc; [exact Hr|exact Hin|unfold general_tag; lia].
  - intros a Hin. eapply Hc; [exact Ha|exact Hin|unfold all_list_tag; lia].
Qed.

(** The stack of a new thread: [kernel_thread] is where [switch_to] returns. *)
Lemma thread_create_ok s p t function func_arg :
  page_ok p → tasks s !! p = Some t → self_kstack t = p + 4096 →
  thread_create p function func_arg s = Ok (tt,
    set_tstacks (<[p + 3664 := ThreadStack 0 0 0 0 kernel_thread_code function func_arg]> (tstacks s))
      (set_tasks (<[p := set_self_kstack (p + 3664) t]> (tasks s)) s)).
Proof.
  intros [_ Hp] Ht Hk.
  assert (s = set_tasks (<[p := t]> (tasks s)) s) as Es by (rewrite insert_id by exact Ht; by destruct s).
  rewrite Es at 1. unfold thread_create. kgo. do 2 (erewrite K_step by apply upd_task_new; kgo).
  erewrite K_step by (apply task_at_ok; apply lookup_insert_eq). unfold set_tstack. kgo. cbn [self_kstack set_self_kstack].
  rewrite Hk. unfold sizeof_intr_stack, sizeof_thread_stack. rewrite (u32_small (p + 4096 - 4 * 76)), u32_small by lia.
  replace (p + 4096 - 4 * 76 - 4 * 32) with (p + 3664) by lia. done.
Qed.

(** What [process_execute] leaves: the process at [p] with the pid [n], its
    directory at [dir] in the page [f]. *)
Record process_made (s s' : kst H) (Q : gmap Z (list Z)) (R : Z → Prop) (p n dir f rb filename : Z) (nm : list Z) : Prop := {
  px_page : page_ok p ∧ K_HEAP_START ≤ p < 2 ^ 32 - 8192;
  px_dir : shares s' dir f;
  px_dir_page : ∃ r, dir = heap_page r ∧ r ∈ heap_taken s';
  px_task_page : ∃ r, p = heap_page r ∧ r ∈ heap_taken s';
  px_linked : linked_in (λ a, R a ∨ p ≤ a < p + 4096) Q;
  px_task : tasks s' = <[p := set_pgdir dir (set_user_vaddr (VirtualAddr (Bitmap user_btmp_bytes (heap_page rb)) USER_VADDR_START)
              (new_task p n nm default_prio TASK_READY (p + 3664)))]> (tasks s);
  px_stack : tstacks s' = <[p + 3664 := ThreadStack 0 0 0 0 kernel_thread_code start_process_code filename]> (tstacks s);
  px_bitmap : 0 ≤ rb ∧ bitmap_wf (bytes s') (Bitmap user_btmp_bytes (heap_page rb)) ∧
    taken (bytes s') (Bitmap user_btmp_bytes (heap_page rb)) = ∅;
  px_descs : desc_table s' (u_block_desc p);
  px_other_descs : ∀ a, a ∉ task_descs p → descs s' !! a = descs s !! a;
  px_cells : qcell (heap s') = list_to_set (task_cells p) ∪ qcell (heap s);
  px_frame : esp s' = esp s ∧ intr s' = intr s ∧ main_thread s' = main_thread s;
  px_room : heap_room s' 1;
}.

Lemma boot_process s Q (R : Z → Prop) c P ready all filename nm :
  booting s Q ∅ c P → 25 ≤ c → linked_in R Q → (∀ a, R a → a < K_HEAP_START) → main_thread s < K_HEAP_START →
  Q !! thread_ready_list = Some ready → Q !! thread_all_list = Some all →
  (∃ n, 1 ≤ n ≤ 1024 ∧ n ∉ P) → (length nm < 16)%nat →
  ∃ p n dir f rb T s', let Q' := process_lists p ready all Q in
    process_execute filename nm s = Ok (tt, s') ∧ booting s' Q' T (c - 25) ({[n]} ∪ P) ∧
    (n ∉ P) ∧ 1 ≤ n ∧ (∀ k, 1 ≤ k < n → k ∈ P) ∧ process_made s s' Q' R p n dir f rb filename nm.
Proof.
  intros B Hc L HR Hmt Hr Ha Hn Hnm. pose proof (bt_len _ _ _ _ _ B) as Hlen.
  destruct (boot_pages s Q ∅ c P 1 B) as (r1 & fs & m1 & b1 & Hg & B1 & Hr1 & Hrn1 & _); [lia| |lia|].
  { apply (room_left s _ 1 0 (bt_taken _ _ _ _ _ B)); [lia|lia|set_solver]. }
  set (p := heap_page r1) in *. set (s1 := set_phys m1 (set_bytes b1 s)) in *.
  destruct (heap_page_ok s r1 (bt_heap _ _ _ _ _ B) ltac:(lia)) as [Hp Hpr]. fold p in Hp, Hpr.
  destruct (boot_init_thread s1 Q _ _ P p nm default_prio B1 Hp) as (n & b2 & Hi & B2 & Hnp & Hn1 & Hpre & Hcell2); [|done|done|].
  { intros x Hx%task_cells_in. eapply linked_unlinked; [exact L|]. intros Hx'%HR. lia. }
  rewrite (proj2 (Z.eqb_neq p (main_thread s1))) in Hi, B2, Hcell2 by (change (main_thread s1) with (main_thread s); lia).
  set (s2 := set_tasks _ _) in Hi, B2, Hcell2.
  destruct (boot_user_bitmap s2 Q _ _ _ p _ B2 (lookup_insert_eq _ _ _)) as (rb & m3 & b3 & Hu & B3 & Hrb & Hrbn & Hfb & Hwf & Htk);
    [apply (room_for_bitmap s2 r1); [exact (proj1 Hlen)|exact (bt_taken _ _ _ _ _ B2)]|lia|].
  set (s3 := set_tasks _ _) in Hu, B3.
  pose proof (thread_create_ok s3 p _ start_process_code filename Hp (lookup_insert_eq _ _ _) eq_refl) as Hcr.
  set (s4 := set_tstacks _ _) in Hcr.
  assert (booting s4 Q (interval rb 23 ∪ (interval r1 1 ∪ ∅)) (c - 1 - 23) ({[n]} ∪ P)) as B4
    by (apply (booting_same s3 s4 Q Q); [done|exact (bt_queues _ _ _ _ _ B3)|done|exact B3]).
  destruct (boot_dir s4 Q _ _ _ B4) as (r3 & f & m5 & b5 & Hd & B5 & Hr3 & Hrn3 & Hf3 & Sh & Sb);
    [apply (room_for_page s4 r1 rb); [exact (proj1 Hlen)|exact (bt_taken _ _ _ _ _ B4)]|lia|].
  set (s5 := set_phys m5 (set_bytes b5 s4)) in *.
  set (t := set_pgdir (heap_page r3) (set_user_vaddr (VirtualAddr (Bitmap user_btmp_bytes (heap_page rb)) USER_VADDR_START)
              (new_task p n nm default_prio TASK_READY (p + 3664)))).
  set (s6 := set_tasks (<[p := t]> (tasks s)) s5).
  destruct (process_enters s6 Q R p ready all) as (h & d & He & Hq & Hqc & Hdt & Hdo);
    [exact (bt_queues _ _ _ _ _ B5)|exact L|exact HR|lia| |exact Hr|exact Ha|].
  { change (heap s6) with (heap s2). rewrite Hcell2. apply union_subseteq_l. }
  set (s' := set_heap h (set_descs d s6)) in *.
  assert (booting s' (process_lists p ready all Q) (interval r3 1 ∪ (interval rb 23 ∪ (interval r1 1 ∪ ∅))) (c - 25) ({[n]} ∪ P)) as B6.
  { replace (c - 25) with (c - 1 - 23 - 1) by lia. apply (booting_same s5 s' Q); [done|exact Hq| |exact B5].
    intros l Hl. apply process_lists_other; [|lia|..]; rewrite !elem_of_cons, elem_of_nil in Hl; destruct Hl as [->|[->|[->|[]]]]; done. }
  exists p, n, (heap_page r3), f, rb, (interval r3 1 ∪ (interval rb 23 ∪ (interval r1 1 ∪ ∅))), s'.
  split_and!; [|exact B6|exact Hnp|exact Hn1|exact Hpre|].
  - unfold process_execute. kstep Hg. kstep Hi. kstep Hu. kstep Hcr. kstep Hd.
    erewrite K_step by (apply upd_task_ok; eexists; apply lookup_insert_eq). kgo.
    replace (set_tasks (alter _ _ _) _) with s6; [exact He|]. unfold s6. f_equal.
    unfold s5, s4, s3, s2. cbn [tasks set_phys set_bytes set_tstacks set_tasks cleared_task set_descs set_heap s1].
    rewrite alter_insert, decide_True by done. by rewrite !insert_insert_eq.
  - assert (∀ i, 0 ≤ i < user_btmp_bytes → b5 !! (heap_page rb + i) = b3 !! (heap_page rb + i)) as Hb.
    { intros i Hx. apply Sb. intros Hin%(bt_bitmaps _ _ _ _ _ B4). unfold MEM_BITMAP_BASE, heap_page, K_HEAP_START in Hin. lia. }
    destruct (bitmap_agree b3 b5 (Bitmap user_btmp_bytes (heap_page rb)) Hb Hwf) as [Hwf5 Htk5].
    assert (heap_taken s' = interval r3 1 ∪ (interval rb 23 ∪ (interval r1 1 ∪ ∅))) as HT by exact (bt_taken _ _ _ _ _ B6).
    split.
    + split; [exact Hp|exact Hpr].
    + apply (shares_same s5 s'); [done|exact Sh].
    + exists r3. split; [reflexivity|]. rewrite HT, elem_of_union, elem_of_interval. left. lia.
    + exists r1. split; [reflexivity|]. rewrite HT, !elem_of_union, !elem_of_interval. right. right. left. lia.
    + by apply process_lists_linked.
    + reflexivity.
    + reflexivity.
    + split; [exact Hrb|]. split; [exact Hwf5|]. etrans; [exact Htk5|exact Htk].
    + exact Hdt.
    + intros a Hx. etrans; [exact (Hdo a Hx)|]. exact (cleared_descs_other p a (descs s) Hx).
    + etrans; [exact Hqc|]. exact Hcell2.
    + done.
    + apply (room_for_idle s' r1 rb r3); [exact (proj1 Hlen)|exact HT].
Qed.

(** ** The main thread *)

(** What the pids' bytes do not touch. *)
Lemma shares_pids s Q T c P b va f :
  booting s Q T c P → (∀ a, ~ in_bitmap (pid_bitmap s) a → b !! a = bytes s !! a) → shares s va f → shares (set_bytes b s) va f.
Proof.
  intros B Hb Sh. destruct (heap_ok_bytes s b) as (_ & _ & HF).
  { intros a Ha. apply Hb. intros Hp. by apply (pid_bytes_apart _ _ _ _ _ _ B) in Hp as [? _]. }
  { apply B. }
  apply shares_bytes; [|exact Sh]. intros g (pf & i & Hi & Hn & ->). exists pf, i. rewrite HF in Hn. done.
Qed.

Lemma main_page_ok : page_ok main_page.
Proof. by vm_compute. Qed.
Definition main_name : list Z := [109; 97; 105; 110].

Lemma boot_main s Q T c P all :
  booting s Q T c P → Q !! thread_all_list = Some all → (∀ x, x ∈ task_cells main_page → unlinked Q x) →
  (∃ n, 1 ≤ n ≤ 1024 ∧ n ∉ P) →
  ∃ n b h, let s' := set_heap h (set_tasks (<[main_page := new_task main_page n main_name 31 TASK_RUNNING (main_page + 4096)]> (tasks s))
      (set_bytes b (cleared_task (set_main_thread main_page s) main_page))) in
    make_main_thread s = Ok (tt, s') ∧ booting s' (<[thread_all_list := all ++ [all_list_tag main_page]]> Q) T c ({[n]} ∪ P) ∧
    (n ∉ P) ∧ 1 ≤ n ∧ (∀ k, 1 ≤ k < n → k ∈ P) ∧ qcell h = list_to_set (task_cells main_page) ∪ qcell (heap s) ∧
    (∀ a, ~ in_bitmap (pid_bitmap s) a → b !! a = bytes s !! a) ∧
    (∀ va f, shares s va f → shares s' va f).
Proof.
  intros B Ha Hu (k & Hk & Hkn). set (s1 := set_main_thread main_page s).
  assert (booting s1 Q T c P) as B1 by (apply (booting_same s s1 Q Q); [done|apply B|done|exact B]).
  destruct (zero_all_ok _ _ _ (bt_queues _ _ _ _ _ B) Hu) as [Hq' Hc'].
  destruct (init_thread_ok s1 Q main_page main_name 31) as (n & b & Hi & Hn & Hfree & Hok & HP & Hpre & Hby).
  { split; try done; try apply B1; [|by rewrite (bt_current _ _ _ _ _ B1)|simpl; lia].
    rewrite pids_full by apply B1. intros Hf. apply Hkn. rewrite <- (bt_used _ _ _ _ _ B1). by apply Hf. }
  change (main_page =? main_thread s1) with true in Hi. cbv iota zeta in Hi.
  change (pids s1) with (pids s) in *. rewrite (bt_used _ _ _ _ _ B) in Hfree, Hpre. change (pid_bitmap s1) with (pid_bitmap s) in Hby. change (bytes s1) with (bytes s) in Hby.
  set (t := new_task main_page n main_name 31 TASK_RUNNING (main_page + 4096)) in *.
  set (s2 := set_tasks (<[main_page := t]> (tasks s)) (set_bytes b (cleared_task s1 main_page))).
  destruct (enlist_ok s2 Q thread_all_list all (all_list_tag main_page) Hq' Ha) as (h & He & Hq & Hqc).
  { apply Hu. unfold task_cells. right. by left. }
  { change (heap s2) with (zero_all (heap s) (task_cells main_page)). rewrite Hc'. apply elem_of_union_l, elem_of_list_to_set. unfold task_cells. right. by left. }
  assert (booting (set_bytes b s) Q T c ({[n]} ∪ P)) as B2.
  { apply (booting_bytes s Q T c P); [done|intros a _; apply Hby|exact Hok|]. rewrite <- (bt_used _ _ _ _ _ B). exact HP. }
  exists n, b, h. split_and!; try done; try lia.
  - unfold make_main_thread. kstep (running_thread_current s). rewrite (bt_current _ _ _ _ _ B). fold s1. kstep Hi. exact He.
  - apply (booting_same (set_bytes b s) _ Q); [done|exact Hq| |exact B2].
    intros l Hl. apply lookup_insert_ne. rewrite !elem_of_cons, elem_of_nil in Hl. destruct Hl as [->|[->|[->|[]]]]; done.
  - rewrite Hqc. exact Hc'.
  - intros va f Sh. apply (shares_same (set_bytes b s)); [done|]. by eapply shares_pids.
Qed.

(** ** A thread of the kernel *)

Lemma boot_thread s Q T c P ready all nm prio function func_arg :
  booting s Q T c P → heap_room s 1 → 1 ≤ c → Q !! thread_ready_list = Some ready → Q !! thread_all_list = Some all →
  (∀ r x, r ∉ T → 0 ≤ r < heap_len s → x ∈ task_cells (heap_page r) → unlinked Q x) →
  main_thread s < K_HEAP_START → (∃ n, 1 ≤ n ≤ 1024 ∧ n ∉ P) → (length nm < 16)%nat →
  ∃ r n s', let p := heap_page r in
    let Q' := <[thread_all_list := all ++ [all_list_tag p]]> (<[thread_ready_list := ready ++ [general_tag p]]> Q) in
    thread_start nm prio function func_arg s = Ok (p, s') ∧ booting s' Q' (interval r 1 ∪ T) (c - 1) ({[n]} ∪ P) ∧
    (r ∉ T) ∧ 0 ≤ r < heap_len s ∧ (n ∉ P) ∧ 1 ≤ n ∧ (∀ k, 1 ≤ k < n → k ∈ P) ∧
    tasks s' = <[p := new_task p n nm prio TASK_READY (p + 3664)]> (tasks s) ∧
    tstacks s' = <[p + 3664 := ThreadStack 0 0 0 0 kernel_thread_code function func_arg]> (tstacks s) ∧
    qcell (heap s') = list_to_set (task_cells p) ∪ qcell (heap s) ∧
    (∀ a, K_HEAP_START ≤ a → bytes s' !! a = bytes s !! a) ∧
    (∀ va f, (∀ k, va = heap_page k → k ∈ T) → (∃ k, va = heap_page k) → shares s va f → shares s' va f) ∧
    esp s' = esp s ∧ intr s' = intr s ∧ main_thread s' = main_thread s ∧ descs s' = foldl (λ m d, <[d := zero_desc]> m) (descs s) (task_descs p) ∧
    ∃ f, free_kernel_page s f ∧ translate (phys s') 0x100000 p = Some f.
Proof.
  intros B Hroom Hc Hr Ha Hu Hmt (k & Hk & Hkn) Hnm.
  destruct (boot_pages s Q T c P 1 B) as (r & fs & m & b & Hg & B1 & Hr0 & Hrn & Hfree & Hl & Al & _ & _ & KD); [lia|done|lia|].
  set (s1 := set_phys m (set_bytes b s)) in *. set (p := heap_page r) in *.
  destruct (heap_page_ok s r (bt_heap _ _ _ _ _ B) ltac:(lia)) as [Hp Hpr]. fold p in Hp, Hpr.
  assert (∀ x, x ∈ task_cells p → unlinked Q x) as Hup by (intros x Hx; apply (Hu r); [apply Hfree; lia|lia|exact Hx]).
  destruct (zero_all_ok _ _ _ (bt_queues _ _ _ _ _ B) Hup) as [Hq' Hc'].
  destruct (thread_setup_ok s1 Q ready all p nm prio function func_arg) as (n & b2 & h & Hst & Hn & Hnf & Hok & HP & Hq & Hqc & Hpre & Hby).
  { split; try done; try apply B1; [|by rewrite (bt_current _ _ _ _ _ B1)].
    rewrite pids_full by apply B1. intros Hf. apply Hkn. rewrite <- (bt_used _ _ _ _ _ B1). by apply Hf. }
  { change (main_thread s1) with (main_thread s). lia. }
  { exact Hr. }
  { exact Ha. }
  rewrite (bt_used _ _ _ _ _ B1) in Hnf, Hpre.
  assert (booting (set_bytes b2 s1) Q (interval r 1 ∪ T) (c - 1) ({[n]} ∪ P)) as B2.
  { apply (booting_bytes s1 Q _ _ P); [exact B1|intros a _; apply Hby|exact Hok|]. rewrite <- (bt_used _ _ _ _ _ B1). exact HP. }
  eexists r, n, _. fold p. split; [unfold thread_start; kstep Hg; exact Hst|]. set (s' := set_heap h _) in *.
  split; [|split; [apply Hfree; lia|split; [lia|split; [exact Hnf|split; [lia|split; [exact Hpre|]]]]]].
  - apply (booting_same (set_bytes b2 s1) _ Q); [done|exact Hq| |exact B2].
    intros l Hin. rewrite !lookup_insert_ne; [done|..]; rewrite !elem_of_cons, elem_of_nil in Hin; destruct Hin as [->|[->|[->|[]]]]; done.
  - split_and!; try reflexivity.
    + exact Hqc.
    + intros a Hx. etrans; [apply Hby|apply (proj1 KD)].
      * intros Hin. apply (pid_bytes_apart _ _ _ _ _ _ B1) in Hin as [_ Hin]. lia.
      * intros Hin%(bt_bitmaps _ _ _ _ _ B). unfold MEM_BITMAP_BASE, K_HEAP_START in *. lia.
    + intros va f Hva (k' & ->) Sh. apply (shares_same (set_bytes b2 s1)); [done|]. eapply shares_pids; [exact B1|exact Hby|].
      eapply shares_pages; [apply B|exact Al|exact KD| |exact Sh]. intros j Hj Hs. apply (proj1 (heap_page_same _ _)) in Hs as ->.
      rewrite Hl in Hj. apply (Hfree k'); [lia|]. by apply Hva.
    + destruct fs as [|f fs]; [simpl in Hl; lia|]. exists f. split; [apply (al_new _ _ _ _ Al); by left|].
      pose proof (al_map _ _ _ _ Al 0%nat f eq_refl) as Hmap. rewrite (bt_cr3 _ _ _ _ _ B), Z.add_0_r in Hmap. exact Hmap.
Qed.

(** ** What the loader leaves

    The directory and the tables of the kernel are below 2 MB, the tables of
    the kernel's half are all there, and nothing above 2 MB and no page of the
    heap is mapped; the stack is in the page of the main thread.  The lists, locks and bitmaps of
    the kernel are memory with any content. *)

Definition boot_locks : list Z := [kernel_pool_lock; user_pool_lock; pid_lock].
Definition mem_lists : list Z := [waiters (lock_semaphore kernel_pool_lock); waiters (lock_semaphore user_pool_lock)].
Definition boot_lists : list Z :=
  mem_lists ++ desc_lists k_block_descs ++ [thread_ready_list; thread_all_list; waiters (lock_semaphore pid_lock)].
Definition list_cells (ls : list Z) : list Z := ls ++ ((λ l, l + 8) <$> ls).

Record loaded (s : kst H) (all_mem : Z) : Prop := {
  ld_mem : 0x200000 + 256 * 4096 ≤ all_mem < 0x200000 + 65536 * 4096;
  ld_lists : qrep (heap s) ∅;
  ld_cells : ∀ a, a ∈ list_cells boot_lists → a ∈ qcell (heap s);
  ld_locks : ∀ l, l ∈ boot_locks → is_Some (locks s !! l) ∧ is_Some (semas s !! lock_semaphore l);
  ld_bitmaps : ∀ a, MEM_BITMAP_BASE ≤ a < MEM_BITMAP_BASE + 0x4000 → ∃ v, bytes s !! a = Some v ∧ 0 ≤ v < 256;
  ld_pids : accessible (bytes s) pid_bitmap_bits 128;
  ld_cr3 : cr3 s = 0x100000;
  ld_tables : tables_ok (phys s) 0x100000;
  ld_frames : ∀ f, f mod 4096 = 0 → 0x200000 ≤ f → f + 4096 ≤ all_mem → fresh_frame (phys s) 0x100000 f;
  ld_unmapped : ∀ va pa, managed va → translate (phys s) 0x100000 va = Some pa → frame pa < 0x200000;
  ld_kernel : ∀ i, 768 ≤ i < 1023 → ∃ pde, phys s !! (0x100000 + i * 4) = Some pde ∧ present pde = true;
  ld_heap : ∀ va, K_HEAP_START ≤ va < 0xffc00000 → translate (phys s) 0x100000 va = None;
  ld_stack : stack_ok main_page (esp s);
  ld_tasks : tasks s = ∅;
  ld_main : main_thread s = NULL;
}.

(** *** Fresh lists *)

Local Ltac by_decision := match goal with |- ?P => apply (bool_decide_unpack P); by vm_compute end.

Lemma with_lists_cells ls : linked_in (λ a, a ∈ list_cells ls) (with_lists ls ∅).
Proof.
  apply with_lists_linked; [intros l xs a Hl; by rewrite lookup_empty in Hl|].
  intros l Hl. unfold list_cells. rewrite !elem_of_app, !list_elem_of_fmap. split; [by left|]. right. by exists l.
Qed.
Lemma with_lists_app ls ls' Q : with_lists (ls ++ ls') Q = with_lists ls' (with_lists ls Q).
Proof. apply foldl_app. Qed.
Lemma with_lists_in ls : ∀ Q l, l ∈ ls → with_lists ls Q !! l = Some [].
Proof.
  induction ls as [|x ls IH]; intros Q l Hl; [by apply elem_of_nil in Hl|].
  change (with_lists (x :: ls) Q) with (with_lists ls (<[x := []]> Q)). destruct (decide (l ∈ ls)) as [Hin|Hn]; [by apply IH|].
  rewrite with_lists_other by done. apply elem_of_cons in Hl as [->|?]; [apply lookup_insert_eq|done].
Qed.

(** A list whose cells are not used yet. *)
Lemma fresh_list ls l : l ∉ list_cells ls → l + 8 ∉ list_cells ls →
  with_lists ls ∅ !! l = None ∧ unlinked (with_lists ls ∅) l ∧ unlinked (with_lists ls ∅) (l + 8).
Proof.
  intros N1 N2. split_and!; [eapply linked_new|eapply linked_unlinked|eapply linked_unlinked]; try apply with_lists_cells; done.
Qed.
Lemma fresh_lock s ls l : let w := waiters (lock_semaphore l) in
  is_Some (locks s !! l) ∧ is_Some (semas s !! lock_semaphore l) → w ∈ qcell (heap s) ∧ w + 8 ∈ qcell (heap s) →
  w ∉ list_cells ls → w + 8 ∉ list_cells ls → lock_memory s (with_lists ls ∅) l.
Proof. intros w [L1 L2] [C1 C2] N1 N2. destruct (fresh_list ls w N1 N2) as (F1 & F2 & F3). split_and!; done. Qed.

Lemma qinit_step s ls l : qrep (heap s) (with_lists ls ∅) → l ∈ qcell (heap s) → l + 8 ∈ qcell (heap s) →
  l ∉ list_cells ls → l + 8 ∉ list_cells ls →
  ∃ h, on_heap (λ h, qinit h l) s = Ok (tt, set_heap h s) ∧ qrep h (with_lists (ls ++ [l]) ∅) ∧ qcell h = qcell (heap s).
Proof.
  intros Hq C1 C2 N1 N2. destruct (fresh_list ls l N1 N2) as (F1 & F2 & F3).
  destruct (qinit_spec _ _ _ Hq F1 F2 F3 C1 C2) as (h & Hi & Hq' & Hc). exists h. split_and!; [|by rewrite with_lists_app|done].
  unfold on_heap. by rewrite Hi.
Qed.

Lemma boot_cell s all_mem l : loaded s all_mem → l ∈ boot_lists → l ∈ qcell (heap s) ∧ l + 8 ∈ qcell (heap s).
Proof.
  intros Ld Hl. split; apply (ld_cells _ _ Ld); unfold list_cells; rewrite elem_of_app, list_elem_of_fmap; [by left|right; by exists l].
Qed.

(** *** [mem_init] *)

Definition after_mem : list Z := mem_lists ++ desc_lists k_block_descs.

Record mem_ready (s s' : kst H) (all_mem : Z) : Prop := {
  mr_pools : ∃ s1, pools_made s s1 ∅ all_mem ∧ ∃ h d, s' = set_heap h (set_descs d s1);
  mr_lists : qrep (heap s') (with_lists after_mem ∅);
  mr_cells : qcell (heap s') = qcell (heap s);
  mr_descs : desc_table s' k_block_descs;
}.

Lemma mem_init_ok s all_mem : loaded s all_mem → ∃ s', mem_init all_mem s = Ok (tt, s') ∧ mem_ready s s' all_mem.
Proof.
  intros Ld. pose proof (ld_mem _ _ Ld) as Hm.
  destruct (mem_pool_init_ok s ∅ all_mem) as (s1 & Hrun & M).
  - lia.
  - intros a Ha. destruct (ld_bitmaps _ _ Ld a ltac:(lia)) as (v & Hv & _). by eexists.
  - exact (ld_lists _ _ Ld).
  - apply (fresh_lock s []); [apply (ld_locks _ _ Ld); by left|apply (boot_cell s all_mem); [done|by left]|by_decision..].
  - apply (fresh_lock s [waiters (lock_semaphore kernel_pool_lock)]);
      [apply (ld_locks _ _ Ld); right; by left|apply (boot_cell s all_mem); [done|right; by left]|by_decision..].
  - destruct (block_desc_init_ok k_block_descs (λ a, a ∈ list_cells mem_lists) s1 (pool_queues ∅)) as (h & d & Hd & Hq & Hc & Ht & _);
      [exact (pm_queues _ _ _ _ M)|apply (with_lists_cells mem_lists)| |].
    { intros l Hl. rewrite (pm_cells _ _ _ _ M).
      assert (Forall (λ l, (l ∉ list_cells mem_lists) ∧ (l + 8 ∉ list_cells mem_lists)) (desc_lists k_block_descs)) as F by by_decision.
      rewrite Forall_forall in F. destruct (F l Hl) as [N1 N2].
      split; [exact N1|]. split; [exact N2|]. apply (boot_cell s all_mem l Ld).
      unfold boot_lists. rewrite !elem_of_app. right. by left. }
    eexists. split; [unfold mem_init; kstep Hrun; exact Hd|]. split.
    + exists s1. split; [exact M|]. by exists h, d.
    + unfold after_mem. rewrite with_lists_app. exact Hq.
    + etrans; [exact Hc|exact (pm_cells _ _ _ _ M)].
    + exact Ht.
Qed.

(** *** The lists and pids of [thread_init] *)

Lemma loaded_heap s s1 all_mem : loaded s all_mem → pools_made s s1 ∅ all_mem → heap_ok s1.
Proof.
  intros Ld M. pose proof (pm_rest _ _ _ _ M) as E.
  assert (phys s1 = phys s) as Ep by exact (f_equal phys E). assert (cr3 s1 = 0x100000) as Ec by (etrans; [exact (f_equal cr3 E)|apply Ld]).
  pose proof (pm_len _ _ _ _ M) as (_ & Hl).
  assert (∀ f, free_page s1 f → fresh_frame (phys s) 0x100000 f ∧ 0x200000 ≤ f) as Hf.
  { intros f (pf & i & Hi & _ & ->). destruct (pm_pages _ _ _ _ M pf i Hi) as (F1 & F2 & F3). split; [by apply (ld_frames _ _ Ld)|done]. }
  split.
  - split; rewrite ?Ep, ?Ec.
    + apply M.
    + apply Ld.
    + intros f Hx. by apply Hf.
    + intros f va pa Hx Hva Ht. pose proof (ld_unmapped _ _ Ld va pa Hva Ht). destruct (Hf f Hx). lia.
  - apply M.
  - unfold heap_page, K_HEAP_START. lia.
  - intros i Hi. rewrite Ep, Ec. apply (ld_kernel _ _ Ld). unfold heap_page, K_HEAP_START. change (2 ^ 22) with 4194304. dm.
  - intros i Hi _. rewrite Ep, Ec. apply (ld_heap _ _ Ld). unfold heap_page, K_HEAP_START. lia.
Qed.

Lemma byte_in_bitmaps s a : pools_ok s → in_bitmaps s a → ∃ v, bytes s !! a = Some v ∧ 0 ≤ v < 256.
Proof.
  intros P Ha.
  assert (∀ b, bitmap_wf (bytes s) b → in_bitmap b a → ∃ v, bytes s !! a = Some v ∧ 0 ≤ v < 256) as Hw.
  { intros b W Hin. destruct (wf_byte _ _ W (a - bits b)) as (v & Hv & Hvr); [unfold in_bitmap in Hin; lia|].
    exists v. split; [|done]. by replace (bits b + (a - bits b)) with a in Hv by lia. }
  destruct Ha as [[pf Ha]|Ha]; [by apply (Hw _ (po_pool _ P pf))|by apply (Hw _ (po_heap _ P))].
Qed.

#[local] Instance in_bitmaps_dec s a : Decision (in_bitmaps s a).
Proof.
  destruct (decide (in_bitmap (pool_bitmap (pool_of PF_KERNEL s)) a)) as [Hk|Nk]; [left; left; by exists PF_KERNEL|].
  destruct (decide (in_bitmap (pool_bitmap (pool_of PF_USER s)) a)) as [Hu|Nu]; [left; left; by exists PF_USER|].
  destruct (decide (in_bitmap (vaddr_bitmap (kernel_vaddr s)) a)) as [Hh|Nh]; [left; by right|].
  right. intros [[[] ?]|?]; done.
Defined.

Lemma loaded_slack s s1 all_mem : loaded s all_mem → pools_made s s1 ∅ all_mem → slack (bytes s1) (vaddr_bitmap (kernel_vaddr s1)).
Proof.
  intros Ld M. pose proof (pm_behind _ _ _ _ M) as Hb. unfold slack. set (a := bits _ + _) in *.
  destruct (decide (in_bitmaps s1 a)) as [Ha|Hn]; [apply byte_in_bitmaps; [apply M|done]|].
  rewrite (pm_bytes _ _ _ _ M) by done. apply (ld_bitmaps _ _ Ld). split; [|lia].
  pose proof (wf_len _ _ (po_heap _ (pm_ok _ _ _ _ M))) as Hl.
  assert (in_bitmaps s1 (bits (vaddr_bitmap (kernel_vaddr s1)))) as Hi by (right; unfold in_bitmap; lia).
  apply (pm_bitmaps _ _ _ _ M) in Hi. unfold a. lia.
Qed.

Definition boot_queues : gmap Z (list Z) := with_lists boot_lists ∅.

Lemma lists_made s all_mem s1 : loaded s all_mem → mem_ready s s1 all_mem →
  ∃ s2, (∀ (k : K (kst H) unit), (on_heap (λ h, qinit h thread_ready_list) ;; on_heap (λ h, qinit h thread_all_list) ;; pid_pool_init ;; k) s1 = k s2) ∧
    qrep (heap s2) boot_queues ∧ qcell (heap s2) = qcell (heap s) ∧ lock_free s2 boot_queues pid_lock ∧
    ∃ h b, s2 = set_heap h (set_bytes b (set_pid_bitmap (Bitmap 128 pid_bitmap_bits) (set_pid_start 1 (released s1 pid_lock)))) ∧
      bitmap_wf b (Bitmap 128 pid_bitmap_bits) ∧ taken b (Bitmap 128 pid_bitmap_bits) = ∅ ∧
      (∀ a, ~ in_bitmap (Bitmap 128 pid_bitmap_bits) a → b !! a = bytes s1 !! a).
Proof.
  intros Ld R. pose proof (λ l, boot_cell s all_mem l Ld) as HC. rewrite <- (mr_cells _ _ _ R) in HC.
  destruct (mr_pools _ _ _ R) as (s0 & M & h0 & d0 & E0). pose proof (pm_rest _ _ _ _ M) as Er.
  destruct (qinit_step s1 after_mem thread_ready_list (mr_lists _ _ _ R)) as (h1 & H1' & Hq1 & Hc1); [apply HC; by_decision..|by_decision|by_decision|].
  set (sa := set_heap h1 s1) in *.
  destruct (qinit_step sa _ thread_all_list Hq1) as (h2 & H2' & Hq2 & Hc2); [change (heap sa) with h1; rewrite Hc1; apply HC; by_decision..|by_decision|by_decision|].
  set (sb := set_pid_bitmap (Bitmap 128 pid_bitmap_bits) (set_pid_start 1 (set_heap h2 sa))).
  assert (∀ a, bytes sb !! a = bytes s1 !! a) as Hby by done.
  destruct (bitmap_init_step sb (Bitmap 128 pid_bitmap_bits)) as (b & Hbi & Hwf & Htk & Hbo & _); [simpl; lia|simpl; lia|done| |].
  { intros a Ha. change (bytes sb) with (bytes s1). assert (bytes s1 = bytes s0) as -> by exact (f_equal bytes E0).
    rewrite (pm_bytes _ _ _ _ M); [apply (ld_pids _ _ Ld); simpl in Ha; lia|].
    intros Hin%(pm_bitmaps _ _ _ _ M). unfold MEM_BITMAP_BASE in Hin. cbn [bits btmp_bytes_len] in Ha. unfold pid_bitmap_bits in Ha. lia. }
  set (sc := set_bytes b sb) in *.
  destruct (lock_init_ok sc _ pid_lock Hq2) as (h3 & Hli & Hq3 & Hc3 & Hlf).
  { apply fresh_lock; [|change (heap sc) with h2; rewrite Hc2; change (heap sa) with h1; rewrite Hc1; apply HC; by_decision|by_decision|by_decision].
    assert (locks s1 = locks (released (released s kernel_pool_lock) user_pool_lock)) as El by (etrans; [exact (f_equal locks E0)|exact (f_equal locks Er)]).
    assert (semas s1 = semas (released (released s kernel_pool_lock) user_pool_lock)) as Es by (etrans; [exact (f_equal semas E0)|exact (f_equal semas Er)]).
    change (locks sc) with (locks s1). change (semas sc) with (semas s1). rewrite El, Es. cbn [released locks semas set_locks set_semas].
    rewrite !lookup_insert_ne by done. apply (ld_locks _ _ Ld). by_decision. }
  exists (set_heap h3 (released sc pid_lock)). split.
  - intros k. kstep H1'. fold sa. kstep H2'. unfold pid_pool_init. kgo. fold sb. kstep Hbi. fold sc. kstep Hli. done.
  - split; [exact Hq3|]. split; [etrans; [exact Hc3|etrans; [exact Hc2|etrans; [exact Hc1|apply (mr_cells _ _ _ R)]]]|].
    split; [exact Hlf|]. exists h3, b. split; [reflexivity|]. split_and!; [exact Hwf|exact Htk|].
    intros a Ha. apply Hbo. unfold in_bitmap in Ha. simpl in *. lia.
Qed.

Definition pid_map : bitmap := Bitmap 128 pid_bitmap_bits.
(** The state before the first process, from that after [mem_pool_init]. *)
Definition boot_state (s0 : kst H) (h : H) (b : bmem) (h0 : H) d0 : kst H :=
  set_heap h (set_bytes b (set_pid_bitmap pid_map (set_pid_start 1 (released (set_heap h0 (set_descs d0 s0)) pid_lock)))).

Lemma boot_lock_lists l : l ∈ boot_locks → boot_queues !! waiters (lock_semaphore l) = Some [].
Proof.
  intros Hl. apply with_lists_in. unfold boot_locks in Hl. rewrite !elem_of_cons, elem_of_nil in Hl. destruct Hl as [->|[->|[->|[]]]]; by_decision.
Qed.
Lemma boot_lock_free s0 h b h0 d0 Q l :
  l ∈ boot_locks → l ≠ pid_lock → lock_free s0 Q l → lock_free (boot_state s0 h b h0 d0) boot_queues l.
Proof.
  intros Hin Hne (F1 & F2 & _). split_and!; [..|by apply boot_lock_lists];
    cbn [boot_state locks semas set_heap set_bytes set_pid_bitmap set_pid_start released set_locks set_semas set_descs];
    (rewrite lookup_insert_ne; [done|]); unfold lock_semaphore; lia.
Qed.
Lemma boot_slack s s0 all_mem b : loaded s all_mem → pools_made s s0 ∅ all_mem →
  (∀ a, ~ in_bitmap pid_map a → b !! a = bytes s0 !! a) → slack b (vaddr_bitmap (kernel_vaddr s0)).
Proof.
  intros Ld M Hby. destruct (loaded_slack s s0 all_mem Ld M) as (v & Hv & Hvr). exists v. split; [|done]. etrans; [apply Hby|exact Hv].
  unfold in_bitmap, pid_map, pid_bitmap_bits. cbn [bits btmp_bytes_len].
  pose proof (wf_len _ _ (po_heap _ (pm_ok _ _ _ _ M))) as Hw.
  assert (in_bitmaps s0 (bits (vaddr_bitmap (kernel_vaddr s0)))) as Hi%(pm_bitmaps _ _ _ _ M) by (right; unfold in_bitmap; lia).
  unfold MEM_BITMAP_BASE in Hi. lia.
Qed.

Lemma boot_state_ok s s0 all_mem h b h0 d0 : let s2 := boot_state s0 h b h0 d0 in
  loaded s all_mem → pools_made s s0 ∅ all_mem → qrep h boot_queues → lock_free s2 boot_queues pid_lock →
  bitmap_wf b pid_map → taken b pid_map = ∅ → (∀ a, ~ in_bitmap pid_map a → b !! a = bytes s0 !! a) →
  booting s2 boot_queues ∅ (pool_len PF_KERNEL s0) ∅ ∧ 26 ≤ pool_len PF_KERNEL s0.
Proof.
  intros s2 Ld M Hq Hlf Hwf Htk Hby. pose proof (pm_rest _ _ _ _ M) as E0.
  pose proof (pm_len _ _ _ _ M) as (Hlen & Hl). pose proof (ld_mem _ _ Ld) as Hmem.
  assert (120 < heap_len s0) as Hl2 by (assert (128 ≤ (all_mem - 2097152) / 4096 / 2) by dm; lia).
  assert (current s0 = main_page) as Hcur.
  { unfold current. rewrite (f_equal esp E0). pose proof (ld_stack _ _ Ld) as St.
    pose proof (running_thread_eq s main_page main_page_ok St) as E. rewrite running_thread_current in E. by injection E. }
  assert (∀ a, in_bitmaps s0 a → b !! a = bytes s0 !! a) as Hb0.
  { intros a Ha%(pm_bitmaps _ _ _ _ M). apply Hby. unfold in_bitmap, pid_map, pid_bitmap_bits, MEM_BITMAP_BASE in *. cbn [bits btmp_bytes_len]. lia. }
  destruct (heap_ok_bytes s0 b Hb0 (loaded_heap s s0 all_mem Ld M)) as (Hh & HT & HF).
  assert (same_memory (set_bytes b s0) s2) as SM by done.
  destruct (same_memory_views _ _ SM) as (_ & ET & EF & _ & EL).
  split; [|lia]. split; try done.
  - by apply (heap_ok_same (set_bytes b s0)).
  - by apply (boot_slack s s0 all_mem).
  - etrans; [exact (f_equal cr3 E0)|apply Ld].
  - rewrite EL. change (heap_len (set_bytes b s0)) with (heap_len s0). unfold heap_len in *. lia.
  - rewrite ET, HT. apply M.
  - rewrite EF. unfold free_count. rewrite HF, (pm_pools _ _ _ _ M), size_empty.
    change (pool_len PF_KERNEL (set_bytes b s0)) with (pool_len PF_KERNEL s0). lia.
  - apply (boot_lock_free _ _ _ _ _ (pool_queues ∅)); [by_decision|done|apply M].
  - apply (boot_lock_free _ _ _ _ _ (pool_queues ∅)); [by_decision|done|apply M].
  - unfold pids. change (bytes s2) with b. change (pid_bitmap s2) with pid_map. by rewrite Htk, set_map_empty.
  - exact (pm_bitmaps _ _ _ _ M).
  - exact (pm_behind _ _ _ _ M).
Qed.

Lemma boot_begins s all_mem : loaded s all_mem →
  ∃ s1 s2 c, mem_init all_mem s = Ok (tt, s1) ∧
    (∀ (k : K (kst H) unit), (on_heap (λ h, qinit h thread_ready_list) ;; on_heap (λ h, qinit h thread_all_list) ;; pid_pool_init ;; k) s1 = k s2) ∧
    booting s2 boot_queues ∅ c ∅ ∧ 26 ≤ c ∧ esp s2 = esp s ∧ intr s2 = intr s ∧ tasks s2 = ∅ ∧ main_thread s2 = NULL ∧ tstacks s2 = tstacks s ∧
    desc_table s2 k_block_descs ∧ qcell (heap s2) = qcell (heap s).
Proof.
  intros Ld. destruct (mem_init_ok s all_mem Ld) as (s1 & Hm & R).
  destruct (lists_made s all_mem s1 Ld R) as (s2 & Hk & Hq & Hc & Hlf & h & b & E2 & Hwf & Htk & Hby).
  destruct (mr_pools _ _ _ R) as (s0 & M & h0 & d0 & E1). pose proof (pm_rest _ _ _ _ M) as E0.
  assert (s2 = boot_state s0 h b h0 d0) as Eb by (rewrite E2, E1; reflexivity).
  assert (bytes s1 = bytes s0) as Eby by (rewrite E1; reflexivity). rewrite Eby in Hby.
  destruct (boot_state_ok s s0 all_mem h b h0 d0 Ld M) as [B Hcc]; try done; [by rewrite E2 in Hq|by rewrite <- Eb|].
  rewrite <- Eb in B.
  exists s1, s2, (pool_len PF_KERNEL s0). split; [exact Hm|]. split; [exact Hk|].
  split; [exact B|]. split; [exact Hcc|]. rewrite E2, E1.
  split; [exact (f_equal esp E0)|]. split; [exact (f_equal intr E0)|]. split; [etrans; [exact (f_equal tasks E0)|apply Ld]|].
  split; [etrans; [exact (f_equal main_thread E0)|apply Ld]|]. split; [exact (f_equal tstacks E0)|].
  split; [|by rewrite <- E1, <- E2]. pose proof (mr_descs _ _ _ R) as D. by rewrite E1 in D.
Qed.

Lemma boot_linked : linked_in (λ a, a < 0xc0010000) boot_queues.
Proof.
  eapply linked_weaken; [apply (with_lists_cells boot_lists)|]. intros a Ha.
  assert (Forall (λ a, a < 0xc0010000) (list_cells boot_lists)) as F by by_decision. rewrite Forall_forall in F. by apply F.
Qed.

(** ** The threads after start-up *)

Lemma shares_dirs s D : tables_ok (phys s) 0x100000 → (∀ va f, D !! va = Some f → K_HEAP_START ≤ va ∧ shares s va f) →
  dirs_ok (phys s) D.
Proof.
  intros T HD c v pa Hc Hv. destruct (HD v pa Hv) as [Hva [F _ [_ Hm] Ht Hself Hk _]].
  assert (768 ≤ v / 2 ^ 22 < 1023) as Hi by (unfold K_HEAP_START in Hva; change (2 ^ 22) with 4194304; dm).
  destruct Hc as [->|[v' Hc]].
  - apply addr_v2p_translate; [apply T|unfold K_HEAP_START in Hva; lia|apply T|exact Ht].
  - destruct (HD v' c Hc) as [_ [F' _ _ _ Hself' Hk' _]].
    apply addr_v2p_translate; [|unfold K_HEAP_START in Hva; lia|apply T|].
    + pose proof (ff_range _ _ _ F'). split; [apply F'|lia|exact Hself'].
    + unfold translate in *. by rewrite Hk' by lia.
Qed.

(** Every directory of [D] is on a page of the heap that is in use, and shares
    the kernel's half. *)
Definition boot_dirs (s : kst H) (T : gset Z) (D : gmap Z Z) : Prop :=
  ∀ va f, D !! va = Some f → shares s va f ∧ ∃ k, va = heap_page k ∧ 0 ≤ k ∧ k ∈ T.

Lemma boot_dirs_ok s Q T c P D : booting s Q T c P → boot_dirs s T D → dirs_ok (phys s) D.
Proof.
  intros B HD. pose proof (vm_tables _ (ho_vm _ (bt_heap _ _ _ _ _ B))) as T1. rewrite (bt_cr3 _ _ _ _ _ B) in T1.
  apply shares_dirs; [exact T1|]. intros va f Hv. destruct (HD va f Hv) as (Sh & k & -> & Hk & _). split; [unfold heap_page; lia|exact Sh].
Qed.

(** The new thread of [boot_thread] in the scheduler's invariant. *)
Lemma boot_thread_inv s s' Q Q' T c P T' c' P' D ready r n nm prio : let p := heap_page r in
  sched_inv s D Q main_page ready → booting s Q T c P → booting s' Q' T' c' P' → boot_dirs s' T' D →
  0 ≤ r < heap_len s → tasks s !! p = None →
  Q' !! thread_ready_list = Some (general_tag <$> ready ++ [p]) →
  tasks s' = <[p := new_task p n nm prio TASK_READY (p + 3664)]> (tasks s) →
  qcell (heap s') = list_to_set (task_cells p) ∪ qcell (heap s) → esp s' = esp s →
  sched_inv s' D Q' main_page (ready ++ [p]).
Proof.
  intros p I B B' HD Hr Hn Hrd Et Hqc Ee. destruct (heap_page_ok s r (bt_heap _ _ _ _ _ B) Hr) as [Hp _].
  eapply (sched_inv_add s s' D Q Q' main_page ready p); [exact I|exact Hn|exact Hp| | | |apply B'|exact Hrd| | |exact Et|exact Ee| |].
  - done.
  - done.
  - unfold stack_ok. simpl. lia.
  - rewrite Hqc. apply union_subseteq_r.
  - rewrite Hqc. apply elem_of_union_l, elem_of_list_to_set. by left.
  - by rewrite (bt_cr3 _ _ _ _ _ B), (bt_cr3 _ _ _ _ _ B').
  - by eapply boot_dirs_ok.
Qed.

Lemma boot_dirs_kept s s' T D r : boot_dirs s T D →
  (∀ va f, (∀ k, va = heap_page k → k ∈ T) → (∃ k, va = heap_page k) → shares s va f → shares s' va f) →
  boot_dirs s' (interval r 1 ∪ T) D.
Proof.
  intros HD Hsh va f Hv. destruct (HD va f Hv) as (Sh & k & -> & Hk & Hin). split.
  - apply Hsh; [|by exists k|exact Sh]. intros k' Ek. by apply (Z.add_cancel_l _ _ K_HEAP_START), Z.mul_cancel_r in Ek as <-.
  - exists k. split_and!; [done|done|]. by apply elem_of_union_r.
Qed.

Lemma next_pid (P : gset Z) k n : (∀ j, j ∈ P ↔ 1 ≤ j < k) → 1 ≤ k → 1 ≤ n → n ∉ P → (∀ j, 1 ≤ j < n → j ∈ P) → n = k.
Proof.
  intros HP Hk Hn Hnp Hl. destruct (Z.lt_trichotomy n k) as [Hlt|[->|Hgt]]; [|done|].
  - exfalso. by apply Hnp, HP.
  - pose proof (proj1 (HP k) (Hl k ltac:(lia))). lia.
Qed.

(** The threads: [init], the first process, which starts in [kernel_thread]
    with [start_process(init)]; the running main thread; and [idle]. *)
Record started (s : kst H) (Q : gmap Z (list Z)) (init idle dir f : Z) : Prop := {
  sd_sched : sched_inv s {[dir := f]} Q main_page [init; idle];
  sd_unqueued : unlinked Q (general_tag main_page);
  sd_all : Q !! thread_all_list = Some (all_list_tag <$> [init; main_page; idle]);
  sd_memory : heap_ok s ∧ slack (bytes s) (vaddr_bitmap (kernel_vaddr s));
  sd_pids : pids_ok s ∧ ∀ n, n ∈ pids s ↔ 1 ≤ n ≤ 3;
  sd_locks : ∀ l, l ∈ boot_locks → lock_free s Q l;
  sd_descs : desc_table s k_block_descs ∧ desc_table s (u_block_desc init);
  sd_init : ∃ t, tasks s !! init = Some t ∧ pid t = 1 ∧ parent_pid t = -1 ∧ pgdir t = dir ∧
    tstacks s !! self_kstack t = Some (ThreadStack 0 0 0 0 kernel_thread_code start_process_code init_code) ∧
    vaddr_start (user_vaddr t) = USER_VADDR_START ∧ bitmap_wf (bytes s) (vaddr_bitmap (user_vaddr t)) ∧
    taken (bytes s) (vaddr_bitmap (user_vaddr t)) = ∅;
  sd_main : main_thread s = main_page ∧ ∃ t, tasks s !! main_page = Some t ∧ pid t = 2 ∧ status t = TASK_RUNNING ∧ pgdir t = NULL;
  sd_idle : idle_thread s = idle ∧ ∃ t, tasks s !! idle = Some t ∧ pid t = 3 ∧ pgdir t = NULL ∧
    tstacks s !! self_kstack t = Some (ThreadStack 0 0 0 0 kernel_thread_code idle_code NULL);
  sd_dir : shares s dir f;
}.

(** The state with [init] ready and the main thread running. *)
Record two_started (s : kst H) (Q : gmap Z (list Z)) (T : gset Z) (c init dir f rb : Z) : Prop := {
  tw_boot : booting s Q T c ({[2]} ∪ ({[1]} ∪ ∅));
  tw_room : 1 ≤ c ∧ heap_room s 1;
  tw_dir : shares s dir f ∧ ∃ r, dir = heap_page r ∧ r ∈ T;
  tw_init : page_ok init ∧ K_HEAP_START ≤ init ∧ ∃ r, init = heap_page r ∧ r ∈ T;
  tw_linked : linked_in (λ a, (a < 0xc0010000 ∨ a = all_list_tag main_page) ∨ init ≤ a < init + 4096) Q;
  tw_ready : Q !! thread_ready_list = Some [general_tag init];
  tw_all : Q !! thread_all_list = Some [all_list_tag init; all_list_tag main_page];
  tw_bitmap : let bm := Bitmap user_btmp_bytes (heap_page rb) in 0 ≤ rb ∧ bitmap_wf (bytes s) bm ∧ taken (bytes s) bm = ∅;
  tw_tasks : tasks s = <[main_page := new_task main_page 2 main_name 31 TASK_RUNNING (main_page + 4096)]> (<[init :=
    set_pgdir dir (set_user_vaddr (VirtualAddr (Bitmap user_btmp_bytes (heap_page rb)) USER_VADDR_START)
      (new_task init 1 [105; 110; 105; 116] default_prio TASK_READY (init + 3664)))]> ∅);
  tw_stack : tstacks s !! (init + 3664) = Some (ThreadStack 0 0 0 0 kernel_thread_code start_process_code init_code);
  tw_descs : desc_table s k_block_descs ∧ desc_table s (u_block_desc init);
  tw_esp : stack_ok main_page (esp s);
  tw_main : main_thread s = main_page;
  tw_cells : general_tag init ∈ qcell (heap s) ∧ general_tag main_page ∈ qcell (heap s);
}.

Lemma two_started_dirs s Q T c init dir f rb : two_started s Q T c init dir f rb → boot_dirs s T {[dir := f]}.
Proof.
  intros Tw. pose proof (tw_dir _ _ _ _ _ _ _ _ Tw) as (Sh & r & Ed & Hr). intros va g [<- <-]%lookup_singleton_Some.
  split; [exact Sh|]. exists r. split_and!; [exact Ed| |exact Hr].
  rewrite <- (bt_taken _ _ _ _ _ (tw_boot _ _ _ _ _ _ _ _ Tw)) in Hr. apply elem_of_taken in Hr. lia.
Qed.

Lemma two_started_inv s Q T c init dir f rb :
  two_started s Q T c init dir f rb → sched_inv s {[dir := f]} Q main_page [init].
Proof.
  intros Tw. pose proof (two_started_dirs _ _ _ _ _ _ _ _ Tw) as HD.
  destruct Tw as [B _ _ (Hpo & Hpk & _) _ Hr _ _ Et _ _ Hesp _ [C1 C2]].
  assert (init ≠ main_page) as N1 by (unfold main_page, K_HEAP_START in *; lia).
  assert (∀ p t, tasks s !! p = Some t → p = main_page ∧ status t = TASK_RUNNING ∧ pgdir t = NULL ∨
    p = init ∧ status t = TASK_READY ∧ pgdir t = dir ∧ self_kstack t = init + 3664) as Hcase.
  { intros p t Hp. rewrite Et in Hp. apply lookup_insert_Some in Hp as [[<- <-]|[_ Hp]]; [by left|].
    apply lookup_insert_Some in Hp as [[<- <-]|[_ Hp]]; [by right|]. by rewrite lookup_empty in Hp. }
  split.
  - apply B.
  - exact Hr.
  - intros p t [(-> & _ & Hd)|(-> & _ & Hd & _)]%Hcase; split_and!; try done; try exact main_page_ok; [by left|].
    right. rewrite Hd, lookup_singleton_eq. by eexists.
  - intros p t [(-> & _ & _)|(-> & _ & _ & Hk)]%Hcase Hne; [done|unfold stack_ok; lia].
  - exact Hesp.
  - eexists. split; [rewrite Et; apply lookup_insert_eq|]. unfold dir_of. simpl. apply B.
  - intros p Hp. apply list_elem_of_singleton in Hp as ->. rewrite Et, lookup_insert_ne, lookup_insert_eq by done. by eexists.
  - intros p t [(-> & Hs & _)|(-> & Hs & _)]%Hcase; rewrite Hs, list_elem_of_singleton; [|done]. split; [done|intros E; by symmetry in E].
  - by eapply boot_dirs_ok.
Qed.

(** A free page of the heap holds no list element and no task. *)
Lemma two_started_cells s Q T c init dir f rb : two_started s Q T c init dir f rb →
  ∀ r x, r ∉ T → 0 ≤ r < heap_len s → x ∈ task_cells (heap_page r) → unlinked Q x.
Proof.
  intros [_ _ _ (_ & Hpk & r1 & Ep & Hr1) L _ _ _ _ _ _ _ _ _] r x Hrt Hrl Hx%task_cells_in.
  eapply linked_unlinked; [exact L|]. assert (r ≠ r1) by (by intros ->).
  rewrite Ep. unfold heap_page, all_list_tag, main_page, K_HEAP_START in *. lia.
Qed.

Lemma two_started_free s Q T c init dir f rb : two_started s Q T c init dir f rb →
  ∀ r, r ∉ T → 0 ≤ r < heap_len s → tasks s !! heap_page r = None.
Proof.
  intros [_ _ _ (_ & Hpk & r1 & Ep & Hr1) _ _ _ _ Et _ _ _ _ _] r Hrt Hrl. assert (r ≠ r1) by (by intros ->).
  rewrite Et, !lookup_insert_ne, lookup_empty; [done|rewrite Ep; unfold heap_page; lia|unfold heap_page, main_page, K_HEAP_START; lia].
Qed.

Lemma two_started_pid : ∃ n : Z, 1 ≤ n ≤ 1024 ∧ n ∉ ({[2]} ∪ ({[1]} ∪ ∅) : gset Z).
Proof. exists 3. split; [lia|]. rewrite !elem_of_union, !elem_of_singleton, elem_of_empty. lia. Qed.

Lemma boot_two s all_mem : loaded s all_mem →
  ∃ s1 s2 s3 s4 Q T c init dir f rb, mem_init all_mem s = Ok (tt, s1) ∧
    (∀ (k : K (kst H) unit), (on_heap (λ h, qinit h thread_ready_list) ;; on_heap (λ h, qinit h thread_all_list) ;; pid_pool_init ;; k) s1 = k s2) ∧
    process_execute init_code [105; 110; 105; 116] s2 = Ok (tt, s3) ∧ make_main_thread s3 = Ok (tt, s4) ∧ intr s4 = intr s ∧
    two_started s4 Q T c init dir f rb.
Proof.
  intros Ld. destruct (boot_begins s all_mem Ld) as (s1 & s2 & c & Hm & Hk & B & Hc & Ee & Ei & Et & Emt & Ets & Hdt & Hqc).
  destruct (boot_process s2 boot_queues (λ a, a < 0xc0010000) c ∅ [] [] init_code [105; 110; 105; 116])
    as (p & n & dir & f & rb & T & s3 & Hp & B3 & Hn & Hn1 & Hpre & X);
    [exact B|lia|exact boot_linked|unfold K_HEAP_START; lia|rewrite Emt; done|apply with_lists_in; by_decision|apply with_lists_in; by_decision|exists 1; split; [lia|apply not_elem_of_empty]|simpl; lia|].
  assert (n = 1) as -> by (apply (next_pid ∅ 1); [intros j; rewrite elem_of_empty; lia|lia..|done|done]).
  destruct X as [[X1 X1'] X2 X3 X3' X4 X5 X6 (X7 & X8 & X9) X10 X11 X12 (X13 & X13' & X14) X15].
  set (Q3 := process_lists p [] [] boot_queues) in *.
  destruct (boot_main s3 Q3 T (c - 25) ({[1]} ∪ ∅) [all_list_tag p] B3) as (n2 & b & h & Hmm & B4 & Hn2 & Hn21 & Hpre2 & Hqc4 & Hby4 & Hsh4).
  { apply lookup_insert_eq. }
  { intros x Hx%task_cells_in. eapply linked_unlinked; [exact X4|]. unfold main_page, K_HEAP_START in *. lia. }
  { exists 2. split; [lia|]. rewrite elem_of_union, elem_of_singleton, elem_of_empty. lia. }
  assert (n2 = 2) as -> by (apply (next_pid ({[1]} ∪ ∅) 2); [intros j; rewrite elem_of_union, elem_of_singleton, elem_of_empty; lia|lia..|done|done]).
  set (s4 := set_heap h _) in *. set (bm := Bitmap user_btmp_bytes (heap_page rb)) in *.
  assert (bitmap_wf (bytes s4) bm ∧ taken (bytes s4) bm = taken (bytes s3) bm) as [W4 T4].
  { apply bitmap_agree; [|exact X8]. intros i Hi. apply Hby4. intros Hin. apply (pid_bytes_apart _ _ _ _ _ _ B3) in Hin as [_ Hin].
    unfold bm, heap_page in Hin. simpl in Hin. lia. }
  exists s1, s2, s3, s4, (<[thread_all_list := [all_list_tag p] ++ [all_list_tag main_page]]> Q3), T, (c - 25), p, dir, f, rb.
  split; [exact Hm|]. split; [exact Hk|]. split; [exact Hp|]. split; [exact Hmm|]. split; [etrans; [exact X13'|exact Ei]|].
  assert (∀ a, a ∉ task_descs main_page → descs s4 !! a = descs s3 !! a) as Hd4 by (intros a Ha; exact (cleared_descs_other main_page a (descs s3) Ha)).
  rewrite (bt_taken _ _ _ _ _ B3) in X3, X3'. split.
  - exact B4.
  - split; [lia|]. destruct X15 as (i & I1 & I2 & I3). exists i. split; [done|]. split; [done|]. by rewrite (bt_taken _ _ _ _ _ B4), <- (bt_taken _ _ _ _ _ B3).
  - split; [by apply Hsh4|exact X3].
  - split; [done|]. split; [lia|exact X3'].
  - apply linked_insert; [eapply linked_weaken; [exact X4|]; intros a [?|?]; [left; by left|by right]|].
    intros a. unfold cells. cbn [app]. rewrite !elem_of_cons, elem_of_nil. unfold all_list_tag, main_page, thread_all_list, K_HEAP_START in *. lia.
  - unfold Q3, process_lists. rewrite !lookup_insert_ne by done. apply lookup_insert_eq.
  - apply lookup_insert_eq.
  - split; [done|]. split; [exact W4|]. etrans; [exact T4|exact X9].
  - change (tasks s4) with (<[main_page := new_task main_page 2 main_name 31 TASK_RUNNING (main_page + 4096)]> (tasks s3)). by rewrite X5, Et.
  - etrans; [exact (f_equal (lookup (p + 3664)) X6)|apply lookup_insert_eq].
  - split; apply (desc_table_other s3 s4 _ _ Hd4);
      [left; unfold k_block_descs, main_page; lia| |right; unfold u_block_desc, main_page, K_HEAP_START in *; lia|exact X10].
    apply (desc_table_other s2 s3 _ _ X11); [left; unfold k_block_descs, K_HEAP_START in *; lia|exact Hdt].
  - change (esp s4) with (esp s3). rewrite X13, Ee. apply Ld.
  - reflexivity.
  - change (heap s4) with h. rewrite Hqc4, X12. unfold task_cells.
    split; [apply elem_of_union_r, elem_of_union_l, elem_of_list_to_set; by left|apply elem_of_union_l, elem_of_list_to_set; by left].
Qed.

Lemma idle_started s4 Q T c p dir f rb : two_started s4 Q T c p dir f rb →
  ∃ idle s5 Q', thread_start [105; 100; 108; 101] 10 idle_code NULL s4 = Ok (idle, s5) ∧ intr s5 = intr s4 ∧
    started (set_idle_thread idle s5) Q' p idle dir f.
Proof.
  intros Tw. pose proof (two_started_inv _ _ _ _ _ _ _ _ Tw) as I4. pose proof (two_started_dirs _ _ _ _ _ _ _ _ Tw) as HD4.
  pose proof (two_started_cells _ _ _ _ _ _ _ _ Tw) as Hun4.
  destruct Tw as [B [Hc Hroom] [Sh (rd & Ed & Hrd)] (Hpo & Hpk & r1 & Ep & Hr1) L Hr Ha (Hrb & Hwf & Htk) Et Hts [D1 D2] Hesp Emt [C1 C2]].
  destruct (boot_thread s4 Q T c _ [general_tag p] [all_list_tag p; all_list_tag main_page] [105; 100; 108; 101] 10 idle_code NULL B Hroom Hc Hr Ha)
    as (r & n & s5 & Hst & B5 & Hr5 & Hrl & Hn & Hn1 & Hpre & Et5 & Ets5 & Hqc5 & Hby5 & Hsh5 & Ee5 & Ei5 & Emt5 & Ed5 & _).
  { exact Hun4. }
  { rewrite Emt. done. }
  { exact two_started_pid. }
  { simpl. lia. }
  assert (n = 3) as -> by (apply (next_pid ({[2]} ∪ ({[1]} ∪ ∅)) 3);
    [intros j; rewrite !elem_of_union, !elem_of_singleton, elem_of_empty; lia|lia..|done|done]).
  set (idle := heap_page r) in *. set (s' := set_idle_thread idle s5). set (Q' := <[thread_all_list := _]> _) in B5.
  assert (booting s' Q' (interval r 1 ∪ T) (c - 1) ({[3]} ∪ ({[2]} ∪ ({[1]} ∪ ∅)))) as B'
    by (apply (booting_same s5 s' Q' Q'); [done|exact (bt_queues _ _ _ _ _ B5)|done|exact B5]).
  destruct (heap_page_ok s4 r (bt_heap _ _ _ _ _ B) Hrl) as [Hio Hir]. fold idle in Hio, Hir.
  assert (r ≠ r1) as Hne by (by intros ->).
  assert (p + 4096 ≤ idle ∨ idle + 4096 ≤ p) as Hap by (rewrite Ep; unfold idle, heap_page; lia).
  assert (shares s' dir f) as Sh'.
  { apply (shares_same s5); [done|]. apply Hsh5; [|by exists rd|exact Sh]. intros k Ek. rewrite Ed in Ek. by apply (Z.add_cancel_l _ _ K_HEAP_START), Z.mul_cancel_r in Ek as <-. }
  assert (∀ a, a ∉ task_descs idle → descs s' !! a = descs s4 !! a) as Hdo
    by (intros a Hx; etrans; [exact (f_equal (lookup a) Ed5)|exact (cleared_descs_other idle a (descs s4) Hx)]).
  set (bm := Bitmap user_btmp_bytes (heap_page rb)) in *.
  assert (bitmap_wf (bytes s') bm ∧ taken (bytes s') bm = taken (bytes s4) bm) as [W' T'].
  { apply bitmap_agree; [|exact Hwf]. intros i Hi. apply Hby5. simpl. unfold heap_page. lia. }
  assert (main_page ≠ p) as Nm by (unfold main_page, K_HEAP_START in *; lia).
  assert (main_page ≠ idle) as Nmi by (unfold main_page, K_HEAP_START in *; lia).
  assert (tasks s' = <[idle := new_task idle 3 [105; 100; 108; 101] 10 TASK_READY (idle + 3664)]> (tasks s4)) as Et' by exact Et5.
  rewrite Et in Et'.
  exists idle, s5, Q'. split; [exact Hst|]. split; [exact Ei5|]. fold s'.
  assert (Q' !! thread_ready_list = Some (general_tag <$> [p; idle])) as Hr' by (unfold Q'; rewrite lookup_insert_ne by done; apply lookup_insert_eq).
  split.
  - eapply sched_inv_ext; [..|eapply (boot_thread_inv s4 s5 Q Q' _ _ _ _ _ _ {[dir := f]} [p] r 3); [exact I4|exact B|exact B5| |exact Hrl| |exact Hr'|exact Et5|exact Hqc5|exact Ee5]]; try done.
    + by eapply boot_dirs_kept.
    + fold idle. rewrite Et, !lookup_insert_ne, lookup_empty by (done || lia). done.
  - unfold Q'. eapply unlinked_append; [rewrite lookup_insert_ne by done; exact Ha| |unfold general_tag, all_list_tag, main_page, K_HEAP_START in *; lia].
    eapply unlinked_append; [exact Hr|eapply linked_unlinked; [exact L|]|]; unfold general_tag, all_list_tag, main_page, K_HEAP_START in *; lia.
  - apply lookup_insert_eq.
  - split; [exact (bt_heap _ _ _ _ _ B')|exact (bt_slack _ _ _ _ _ B')].
  - split; [apply B'|]. rewrite (bt_used _ _ _ _ _ B'). intros j. rewrite !elem_of_union, !elem_of_singleton, elem_of_empty. lia.
  - intros l. unfold boot_locks. rewrite !elem_of_cons, elem_of_nil. intros [->|[->|[->|[]]]]; apply B'.
  - split; [apply (desc_table_other s4 s' _ _ Hdo); [left; unfold k_block_descs, K_HEAP_START in *; lia|exact D1]|].
    apply (desc_table_other s4 s' _ _ Hdo); [unfold u_block_desc; lia|exact D2].
  - eexists. split; [rewrite Et', !lookup_insert_ne by (done || lia); apply lookup_insert_eq|]. split_and!; try done.
    + etrans; [exact (f_equal (lookup _) Ets5)|]. rewrite lookup_insert_ne by (simpl; lia). exact Hts.
    + etrans; [exact T'|exact Htk].
  - split; [etrans; [exact Emt5|exact Emt]|]. eexists. split; [rewrite Et', lookup_insert_ne by done; apply lookup_insert_eq|]. done.
  - split; [done|]. eexists. split; [rewrite Et'; apply lookup_insert_eq|]. split_and!; try done.
    etrans; [exact (f_equal (lookup _) Ets5)|]. apply lookup_insert_eq.
  - exact Sh'.
Qed.

(** C14: [thread_start], called by the main thread: it takes a page of the heap
    that was free, backed by a page that was free in the kernel's pool and is
    mapped now, and makes it a ready thread: with the least free pid, at the
    end of the ready queue and of the list of all threads, its fields set up
    for its first run, which the saved stack makes start in [kernel_thread]
    with the function and its argument.  No other task and no other stack
    changes; the scheduler's invariant is kept, and so are those of the
    memory, the pids and the locks. *)
Theorem thread_start_ready s D Q T c P ready all nm prio function func_arg :
  booting s Q T c P → sched_inv s D Q main_page ready → boot_dirs s T D → heap_room s 1 → 1 ≤ c →
  Q !! thread_all_list = Some (all_list_tag <$> all) →
  (∀ r x, r ∉ T → 0 ≤ r < heap_len s → x ∈ task_cells (heap_page r) → unlinked Q x) →
  (∀ r, r ∉ T → 0 ≤ r < heap_len s → tasks s !! heap_page r = None) →
  main_thread s < K_HEAP_START → (∃ n, 1 ≤ n ≤ 1024 ∧ n ∉ P) → (length nm < 16)%nat →
  ∃ r n s' Q', let p := heap_page r in
    thread_start nm prio function func_arg s = Ok (p, s') ∧
    0 ≤ r < heap_len s ∧ (r ∉ T) ∧ (∃ f, free_kernel_page s f ∧ translate (phys s') (cr3 s') p = Some f) ∧
    sched_inv s' D Q' main_page (ready ++ [p]) ∧ Q' !! thread_all_list = Some (all_list_tag <$> all ++ [p]) ∧
    tasks s' = <[p := new_task p n nm prio TASK_READY (p + 3664)]> (tasks s) ∧
    tstacks s' = <[p + 3664 := ThreadStack 0 0 0 0 kernel_thread_code function func_arg]> (tstacks s) ∧
    1 ≤ n ∧ (n ∉ P) ∧ (∀ k, 1 ≤ k < n → k ∈ P) ∧ booting s' Q' (interval r 1 ∪ T) (c - 1) ({[n]} ∪ P) ∧
    boot_dirs s' (interval r 1 ∪ T) D.
Proof.
  intros B I HD Hroom Hc Ha Hu Hnt Hmt Hn Hnm. pose proof (si_ready _ _ _ _ _ I) as Hr.
  destruct (boot_thread s Q T c P _ _ nm prio function func_arg B Hroom Hc Hr Ha Hu Hmt Hn Hnm)
    as (r & n & s' & Hst & B' & Hrt & Hrl & Hnp & Hn1 & Hpre & Et & Ets & Hqc & _ & Hsh & Ee & _ & _ & _ & f & Hf & Htr).
  set (Q' := <[thread_all_list := _]> _) in B'.
  assert (boot_dirs s' (interval r 1 ∪ T) D) as HD' by (by eapply boot_dirs_kept).
  exists r, n, s', Q'. split_and!; [exact Hst|lia|lia|exact Hrt| | | |exact Et|exact Ets|exact Hn1|exact Hnp|exact Hpre|exact B'|exact HD'].
  - exists f. split; [exact Hf|]. by rewrite (bt_cr3 _ _ _ _ _ B').
  - eapply (boot_thread_inv s s' Q Q'); [exact I|exact B|exact B'|exact HD'|exact Hrl|by apply Hnt| |exact Et|exact Hqc|exact Ee].
    unfold Q'. by rewrite lookup_insert_ne, lookup_insert_eq, fmap_app by done.
  - unfold Q'. by rewrite lookup_insert_eq, fmap_app.
Qed.

(** The first switch: with interrupts off, [schedule] leaves the main thread
    for [init], in the address space of [init]. *)
Lemma first_switch s Q init idle dir f : started s Q init idle dir f → intr s = false →
  ∃ s' Q', schedule s = Ok (tt, s') ∧ sched_inv s' {[dir := f]} Q' init [idle; main_page] ∧ cr3 s' = f.
Proof.
  intros Sd Hi. destruct (sd_main _ _ _ _ _ _ Sd) as (_ & t & Ht & _ & Hs & _). pose proof (sd_sched _ _ _ _ _ _ Sd) as I.
  assert (requeued t main_page [init; idle] = [init; idle; main_page]) as Er by (unfold requeued; by rewrite bool_decide_eq_true_2).
  destruct (schedule_ok s _ Q main_page [init; idle] t I Hi Ht) as (next & rest & s' & Hc & Hsc & I' & _ & HT & _);
    [intros _; apply Sd|by rewrite Er|].
  unfold candidates in Hc. rewrite Er in Hc. injection Hc as <- <-.
  eexists s', _. split; [exact Hsc|]. split; [exact I'|].
  destruct (sd_init _ _ _ _ _ _ Sd) as (ti & Hti & _ & _ & Hpd & _).
  assert (init ≠ main_page) as Hne.
  { intros ->. rewrite Ht in Hti. injection Hti as <-. assert (main_page ∈ [main_page; idle]) as Hin by (by left).
    apply (si_status _ _ _ _ _ I _ _ Ht) in Hin. congruence. }
  destruct (si_run _ _ _ _ _ I') as (t' & Ht' & Hcr). rewrite HT, lookup_alter_ne, lookup_alter_eq in Ht' by done.
  unfold requeued_tasks in Ht'. rewrite bool_decide_eq_true_2, lookup_alter_ne, Hti in Ht' by done. injection Ht' as <-.
  rewrite Hcr. unfold dir_of. cbn [pgdir set_status]. rewrite Hpd, (proj2 (Z.eqb_neq dir NULL)).
  - by rewrite lookup_singleton_eq.
  - pose proof (sh_va _ _ _ (sd_dir _ _ _ _ _ _ Sd)). unfold managed, NULL in *. lia.
Qed.

(** C3: start-up establishes what the rest of the kernel relies on: from the
    memory that the loader leaves, with 3 MB to 258 MB of it, [mem_init]
    followed by [thread_init] returns with the scheduler's invariant (the main
    thread running, the first process and [idle] ready), the invariant of the
    page tables and the heap, the pids 1, 2 and 3 in use with 1 that of
    [init], the three locks free, the block descriptors of the kernel and of
    [init] made, and a directory for [init] that shares the kernel's half and
    has an empty user half.  The first switch, with interrupts still off, is
    to [init], in its own address space. *)
Theorem boot_establishes_invariants s all_mem : loaded s all_mem →
  ∃ s' Q init idle dir f, (mem_init all_mem ;; thread_init) s = Ok (tt, s') ∧ intr s' = intr s ∧ started s' Q init idle dir f ∧
    (intr s = false → ∃ s2 Q2, schedule s' = Ok (tt, s2) ∧ sched_inv s2 {[dir := f]} Q2 init [idle; main_page] ∧ cr3 s2 = f).
Proof.
  intros Ld. destruct (boot_two s all_mem Ld) as (s1 & s2 & s3 & s4 & Q & T & c & p & dir & f & rb & Hm & Hk & Hp & Hmm & Ei & Tw).
  destruct (idle_started s4 Q T c p dir f rb Tw) as (idle & s5 & Q' & Hst & Ei5 & Sd).
  assert (intr (set_idle_thread idle s5) = intr s) as Ei' by (by etrans; [exact Ei5|]).
  exists (set_idle_thread idle s5), Q', p, idle, dir, f. split; [|split; [exact Ei'|split; [exact Sd|]]].
  - kstep Hm. unfold thread_init. rewrite Hk. kstep Hp. kstep Hmm. kstep Hst. done.
  - intros Hi. apply (first_switch _ Q'); [exact Sd|by rewrite Ei'].
Qed.
End Boot.

(** ** Witness

    A machine with 3 MB of memory as the loader leaves it: the directory at
    1 MB, its first and 768th entry for the table behind it, which maps the
    first megabyte, 254 empty tables behind that, and the last entry for the
    directory itself. *)

Definition boot_word (a : Z) : Z :=
  if a =? 0x100ffc then 0x100007 else
  if a =? 0x100000 then 0x101007 else
  if (0x100c00 <=? a) && (a <? 0x100ffc) then 0x101000 + (a - 0x100c00) / 4 * 4096 + 7 else
  if (0x101000 <=? a) && (a <? 0x101400) then (a - 0x101000) / 4 * 4096 + 7 else 0.
Definition boot_ram (n : Z) : pmem := list_to_map ((λ k, (0x100000 + k * 4, boot_word (0x100000 + k * 4))) <$> seqZ 0 n).

Lemma boot_ram_lookup n a : boot_ram n !! a =
  if decide (0x100000 ≤ a < 0x100000 + 4 * n ∧ a mod 4 = 0) then Some (boot_word a) else None.
Proof. apply words_lookup. Qed.

Section Loaded.
Variable m : pmem.
Hypothesis Hm : ∀ a, m !! a = if decide (0x100000 ≤ a < 0x300000 ∧ a mod 4 = 0) then Some (boot_word a) else None.

Lemma boot_some a e : m !! a = Some e → 0x100000 ≤ a < 0x300000 ∧ a mod 4 = 0 ∧ e = boot_word a.
Proof. rewrite Hm. destruct (decide _) as [[? ?]|]; [|done]. intros [= <-]. done. Qed.
Lemma boot_at a : 0x100000 ≤ a < 0x300000 → a mod 4 = 0 → m !! a = Some (boot_word a).
Proof. intros Ha H4. by rewrite Hm, decide_True. Qed.
Lemma boot_page f k : f mod 4096 = 0 → 0x100000 ≤ f < 0x300000 → 0 ≤ k < 1024 → is_Some (m !! (f + k * 4)).
Proof. intros Hf Hr Hk. rewrite boot_at; [by eexists|dm..]. Qed.

Lemma boot_word_pde i : 768 ≤ i < 1023 → boot_word (0x100000 + i * 4) = 0x101000 + (i - 768) * 4096 + 7.
Proof.
  intros Hi. unfold boot_word. destruct (Z.eqb_spec (0x100000 + i * 4) 0x100ffc); [lia|]. destruct (Z.eqb_spec (0x100000 + i * 4) 0x100000); [lia|].
  rewrite (proj2 (Z.leb_le _ _)), (proj2 (Z.ltb_lt _ _)) by lia. cbn [andb].
  replace (0x100000 + i * 4 - 0x100c00) with ((i - 768) * 4) by lia. by rewrite Z.div_mul.
Qed.
Lemma boot_word_user i : 1 ≤ i < 768 → boot_word (0x100000 + i * 4) = 0.
Proof.
  intros Hi. unfold boot_word. destruct (Z.eqb_spec (0x100000 + i * 4) 0x100ffc); [lia|]. destruct (Z.eqb_spec (0x100000 + i * 4) 0x100000); [lia|].
  rewrite (proj2 (Z.leb_gt 0x100c00 _)), (proj2 (Z.leb_gt 0x101000 _)) by lia. done.
Qed.
Lemma boot_pde i pde : 1 ≤ i < 1023 → m !! (0x100000 + i * 4) = Some pde → present pde = true →
  768 ≤ i ∧ pde = 0x101000 + (i - 768) * 4096 + 7 ∧ frame pde = 0x101000 + (i - 768) * 4096.
Proof.
  intros Hi (_ & _ & ->)%boot_some Hp. destruct (decide (768 ≤ i)) as [Hk|Hk]; [|rewrite boot_word_user in Hp by lia; done].
  rewrite boot_word_pde by lia. split; [done|]. split; [done|]. apply frame_entry; dm.
Qed.
Lemma boot_word_range a : 0x100000 ≤ a < 0x300000 → 0 ≤ boot_word a < 2 ^ 32.
Proof.
  intros Ha. unfold boot_word. destruct (Z.eqb_spec a 0x100ffc); [lia|]. destruct (Z.eqb_spec a 0x100000); [lia|].
  destruct ((0x100c00 <=? a) && _) eqn:E1; [apply andb_prop in E1 as [?%Z.leb_le ?%Z.ltb_lt]; dm|].
  destruct ((0x101000 <=? a) && _) eqn:E2; [apply andb_prop in E2 as [?%Z.leb_le ?%Z.ltb_lt]; dm|lia].
Qed.

Lemma boot_tables : tables_ok m 0x100000.
Proof.
  split.
  - split; [done|lia|]. rewrite boot_at by (done || lia). done.
  - intros a e (Ha & _ & ->)%boot_some. by apply boot_word_range.
  - intros i Hi. apply boot_page; [done|lia|lia].
  - intros i pde Hi Hp Hpr. destruct (boot_pde i pde Hi Hp Hpr) as (Hk & _ & ->). split; [lia|]. intros k Hx. apply boot_page; [dm|lia|lia].
  - intros i j pi pj Hi Hj Hpi Hpj Pi Pj E. destruct (boot_pde i pi Hi Hpi Pi) as (_ & _ & Ei). destruct (boot_pde j pj Hj Hpj Pj) as (_ & _ & Ej). lia.
Qed.
Lemma boot_fresh f : f mod 4096 = 0 → 0x200000 ≤ f → f + 4096 ≤ 0x300000 → fresh_frame m 0x100000 f.
Proof.
  intros Hf Hl Hu. split; [done|lia|intros k Hk; by apply boot_page; [|lia|]|lia|].
  intros i pde Hi Hp Hpr. destruct (boot_pde i pde Hi Hp Hpr) as (Hk & _ & ->). lia.
Qed.
Lemma boot_kernel i : 768 ≤ i < 1023 → ∃ pde, m !! (0x100000 + i * 4) = Some pde ∧ present pde = true.
Proof.
  intros Hi. exists (boot_word (0x100000 + i * 4)). split; [apply boot_at; dm|]. rewrite boot_word_pde by lia. apply frame_entry; dm.
Qed.

(** Only the first megabyte is mapped in the part that is managed. *)
Lemma boot_translate va pa : managed va → translate m 0x100000 va = Some pa → va < 0xc0100000 ∧ frame pa < 0x200000.
Proof.
  intros [Hl Hu] Ht. unfold translate in Ht. change (2 ^ 22) with 4194304 in Ht. change (2 ^ 12) with 4096 in Ht. change (2 ^ 10) with 1024 in Ht.
  set (i := va / 4194304) in *. set (j := (va / 4096) mod 1024) in *.
  assert (1 ≤ i < 1023) as Hi by (unfold i; dm). assert (0 ≤ j < 1024) as Hj by (unfold j; dm).
  destruct (m !! (1048576 + i * 4)) as [pde|] eqn:Hp; [|done]. cbn [mbind option_bind] in Ht. destruct (present pde) eqn:Hpr; [|done].
  destruct (boot_pde i pde Hi Hp Hpr) as (Hk & _ & Ef). unfold frame in Ef. rewrite Ef in Ht.
  destruct (m !! (_ + j * 4)) as [pte|] eqn:Hpt; [|done]. cbn [mbind option_bind] in Ht. destruct (present pte) eqn:Hptr; [|done].
  injection Ht as <-. apply boot_some in Hpt as (_ & _ & ->).
  set (a := 0x101000 + (i - 768) * 4096 + j * 4) in *.
  assert (i = 768 ∧ j < 256 ∧ boot_word a = j * 4096 + 7) as (Ei & Hj2 & Ew).
  { unfold boot_word in *. destruct (Z.eqb_spec a 0x100ffc); [lia|]. destruct (Z.eqb_spec a 0x100000); [lia|].
    rewrite (proj2 (Z.ltb_ge a 0x100ffc)) in * by lia. rewrite andb_false_r in *.
    rewrite (proj2 (Z.leb_le 0x101000 a)) in * by lia. cbn [andb] in *.
    destruct (Z.ltb_spec a 0x101400); [|done]. assert (i = 768) by lia. split; [done|]. split; [lia|].
    replace (a - 0x101000) with (j * 4) by lia. by rewrite Z.div_mul. }
  split; [unfold i, j in *; dm|]. rewrite Ew. destruct (frame_entry (j * 4096)) as [_ Ej]; [dm|lia|]. unfold frame in Ej. rewrite Ej.
  unfold frame. rewrite land_fffff000 by dm. dm.
Qed.
End Loaded.

Definition boot_cells : lheap := list_to_map ((λ a, (a, ListElem 0 0)) <$> list_cells boot_lists).
Definition boot_bytes : bmem :=
  gset_to_gmap 0 (list_to_set (seqZ MEM_BITMAP_BASE 0x4000) ∪ list_to_set (seqZ pid_bitmap_bits 128)).
Definition boot_example (m : pmem) : kst lheap :=
  set_heap boot_cells (set_bytes boot_bytes (set_phys m (set_tasks ∅ (set_esp 0xc009efc0 (set_main_thread NULL
    (set_locks (list_to_map ((λ l, (l, Lock 0 0)) <$> boot_locks)) (set_semas (list_to_map ((λ l, (lock_semaphore l, 0)) <$> boot_locks)) ex_kst))))))).

Lemma boot_byte a : MEM_BITMAP_BASE ≤ a < MEM_BITMAP_BASE + 0x4000 ∨ pid_bitmap_bits ≤ a < pid_bitmap_bits + 128 → boot_bytes !! a = Some 0.
Proof.
  intros Ha. unfold boot_bytes. apply lookup_gset_to_gmap_Some. split; [|done].
  rewrite elem_of_union, !elem_of_list_to_set, !elem_of_seqZ. exact Ha.
Qed.
Lemma boot_example_lock l : l ∈ boot_locks →
  is_Some ((list_to_map ((λ l, (l, Lock 0 0)) <$> boot_locks) : gmap Z lock) !! l) ∧
  is_Some ((list_to_map ((λ l, (lock_semaphore l, 0)) <$> boot_locks) : gmap Z Z) !! lock_semaphore l).
Proof.
  unfold boot_locks. rewrite !elem_of_cons, elem_of_nil. intros [->|[->|[->|[]]]]; split; by eexists.
Qed.

Lemma boot_example_loaded m :
  (∀ a, m !! a = if decide (0x100000 ≤ a < 0x300000 ∧ a mod 4 = 0) then Some (boot_word a) else None) →
  loaded (boot_example m) 0x300000.
Proof.
  intros Hm. split.
  - lia.
  - split; intros *; by rewrite lookup_empty.
  - intros a Ha. change (a ∈ dom boot_cells). unfold boot_cells. rewrite dom_list_to_map, elem_of_list_to_set.
    rewrite <- list_fmap_compose. apply list_elem_of_fmap. by exists a.
  - intros l Hl. by apply boot_example_lock.
  - intros a Ha. exists 0. split; [apply boot_byte; by left|lia].
  - intros a Ha. exists 0. apply boot_byte. right. lia.
  - done.
  - by apply boot_tables.
  - intros f. by apply boot_fresh.
  - intros va pa Hva Ht. by apply (boot_translate m Hm va pa).
  - intros i. by apply boot_kernel.
  - intros va Hva. change (phys (boot_example m)) with m. destruct (translate m 0x100000 va) as [pa|] eqn:E; [|done]. exfalso.
    apply (boot_translate m Hm) in E; [unfold K_HEAP_START in *; lia|]. unfold managed, K_HEAP_START in *. lia.
  - unfold stack_ok, main_page. simpl. lia.
  - done.
  - done.
Qed.

Lemma boot_establishes_invariants_witness : let s := boot_example (boot_ram 0x80000) in
  ∃ s' Q init idle dir f, (mem_init 0x300000 ;; thread_init (H1 := ex_world)) s = Ok (tt, s') ∧ intr s' = intr s ∧ started s' Q init idle dir f ∧
    (intr s = false → ∃ s2 Q2, schedule s' = Ok (tt, s2) ∧ sched_inv s2 {[dir := f]} Q2 init [idle; main_page] ∧ cr3 s2 = f).
Proof.
  intros s. apply (boot_establishes_invariants (H1 := ex_world) s 0x300000).
  apply boot_example_loaded. intros a. exact (boot_ram_lookup 0x80000 a).
Defined.

(** The same machine when the idle thread is started. *)
Lemma thread_start_ready_witness : let s := boot_example (boot_ram 0x80000) in
  ∃ s1 s2 s3 s4 r s5, mem_init 0x300000 s = Ok (tt, s1) ∧
    process_execute (H1 := ex_world) init_code [105; 110; 105; 116] s2 = Ok (tt, s3) ∧ make_main_thread (H1 := ex_world) s3 = Ok (tt, s4) ∧
    thread_start (H1 := ex_world) [105; 100; 108; 101] 10 idle_code NULL s4 = Ok (heap_page r, s5).
Proof.
  intros s. destruct (boot_two (H1 := ex_world) s 0x300000) as (s1 & s2 & s3 & s4 & Q & T & c & p & dir & f & rb & Hm & _ & Hp & Hmm & _ & Tw).
  { apply boot_example_loaded. intros a. exact (boot_ram_lookup 0x80000 a). }
  pose proof (two_started_inv _ _ _ _ _ _ _ _ Tw) as I4. pose proof (two_started_dirs _ _ _ _ _ _ _ _ Tw) as HD4.
  destruct (thread_start_ready (H1 := ex_world) s4 {[dir := f]} Q T c ({[2]} ∪ ({[1]} ∪ ∅)) [p] [p; main_page] [105; 100; 108; 101] 10 idle_code NULL)
    as (r & n & s5 & Q' & Hst & _).
  - exact (tw_boot _ _ _ _ _ _ _ _ Tw).
  - exact I4.
  - exact HD4.
  - exact (proj2 (tw_room _ _ _ _ _ _ _ _ Tw)).
  - exact (proj1 (tw_room _ _ _ _ _ _ _ _ Tw)).
  - exact (tw_all _ _ _ _ _ _ _ _ Tw).
  - exact (two_started_cells _ _ _ _ _ _ _ _ Tw).
  - exact (two_started_free _ _ _ _ _ _ _ _ Tw).
  - rewrite (tw_main _ _ _ _ _ _ _ _ Tw). exact eq_refl.
  - exact two_started_pid.
  - apply (bool_decide_unpack _). exact I.
  - exists s1, s2, s3, s4, r, s5. exact (conj Hm (conj Hp (conj Hmm Hst))).
Defined.
