(* ===== verification/ExitMemory.v ===== *)
(** * The address space of a process that exits (release_prog_resource of
    src/user/wait_exit.c)

    [free_pdes] walks the user half of the directory of the running process
    through the page tables themselves.  It gives back exactly the pages
    that are mapped there and the tables, and nothing else. *)

From S2P Require Import Prelude CString Bitmap Lists PageTable Kernel Sched Sync Memory Malloc Thread Process.
From S2P Require Import Disk Fsys System WaitExit.

(** ** The pages of the user half

    The pages that the table at [t] maps; those of the first 768 entries of
    the directory [c], each followed by its table. *)
Definition entry_page (e : option Z) : list Z :=
  match e with Some e => if present e then [frame e] else [] | None => [] end.
Definition table_pages (m : pmem) (t k n : Z) : list Z := concat ((λ k, entry_page (m !! (t + k * 4))) <$> seqZ k n).
Definition dir_pages (m : pmem) (e : option Z) : list Z :=
  match e with Some e => if present e then table_pages m (frame e) 0 1024 ++ [frame e] else [] | None => [] end.
Definition user_pages (m : pmem) (c i n : Z) : list Z := concat ((λ i, dir_pages m (m !! (c + i * 4))) <$> seqZ i n).

Section ExitMemory.
Context {H : Type} `{Queues H} `{World H}.
Implicit Types s : kst H.

Definition pool_page (s : kst H) (f : Z) : Prop := ∃ pf j, 0 ≤ j < pool_len pf s ∧ f = page_at pf s j.

(** The pages [fs] are given back. *)
Record gives_back (s s' : kst H) (fs : list Z) : Prop := {
  gb_ok : pools_ok s';
  gb_pages : ∀ pf j, 0 ≤ j < pool_len pf s → j ∈ pool_taken pf s' ↔ j ∈ pool_taken pf s ∧ page_at pf s j ∉ fs;
  gb_heap : heap_taken s' = heap_taken s;
  gb_bytes : same_bytes s s';
}.

Lemma gives_back_nil s : pools_ok s → gives_back s s [].
Proof. intros P. split; [done|intros; rewrite elem_of_nil; tauto|done|done]. Qed.
Lemma gives_back_app s b1 b2 fs1 fs2 : let s1 := set_bytes b1 s in let s2 := set_bytes b2 s in
  gives_back s s1 fs1 → gives_back s1 s2 fs2 → gives_back s s2 (fs1 ++ fs2).
Proof.
  intros s1 s2 [P1 T1 H1' B1] [P2 T2 H2' B2].
  assert (∀ pf, pool_len pf s1 = pool_len pf s ∧ ∀ j, page_at pf s1 j = page_at pf s j) as Es by (intros []; done).
  split; [exact P2| |etrans; [exact H2'|exact H1']|].
  - intros pf j Hj. destruct (Es pf) as [El Ep]. rewrite T2, T1, Ep, elem_of_app by (rewrite ?El; done). tauto.
  - intros a Ha. etrans; [apply B2; by intros [[[] ?]|?]; apply Ha; [left; exists PF_KERNEL|left; exists PF_USER|right]|by apply B1].
Qed.

(** *** One page *)

Lemma pfree_ok s pf j : pools_ok s → 0 ≤ j < pool_len pf s →
  ∃ b, pfree (page_at pf s j) s = Ok (tt, set_bytes b s) ∧ pool_changed pf s (set_bytes b s) (pool_taken pf s ∖ {[j]}).
Proof.
  intros P Hj. destruct (bitmap_set_ok _ _ j 0 (po_pool _ P pf) Hj) as (b & Hset & _); [by left|].
  destruct (taken_clear _ _ _ _ (po_pool _ P pf) Hj Hset) as (Hwf & HT & Hfr).
  exists b. split; [|by eapply pool_changed_intro]. pose proof (po_order _ P) as Ho.
  pose proof (po_frames _ P pf) as (_ & F1 & F2). unfold pfree. kgo. unfold page_at, pool_len in *.
  assert (u32 (phy_addr_start (pool_of pf s) + j * 4096 - phy_addr_start (pool_of pf s)) / PG_SIZE = j) as Ej.
  { rewrite u32_small by lia. unfold PG_SIZE. replace (_ - _) with (j * 4096) by lia. by rewrite Z.div_mul. }
  destruct pf; simpl in *.
  - rewrite (proj2 (Z.leb_gt _ _)) by lia. kgo. unfold set_bit, on_bytes. by rewrite Ej, Hset.
  - rewrite (proj2 (Z.leb_le _ _)) by lia. unfold set_bit, on_bytes. by rewrite Ej, Hset.
Qed.

Lemma free_page_ok s f : pools_ok s → pool_page s f → ∃ b, free_a_phy_page f s = Ok (tt, set_bytes b s) ∧ gives_back s (set_bytes b s) [f].
Proof.
  intros P (pf & j & Hj & ->). destruct (pfree_ok s pf j P Hj) as (b & Hf & P' & T & To & Th & Tb).
  exists b. split; [exact Hf|]. split; [exact P'| |exact Th|exact Tb]. intros pf' j' Hj'. rewrite list_elem_of_singleton.
  destruct (decide (pf' = pf)) as [->|Hne].
  - rewrite T, elem_of_difference, elem_of_singleton. split; intros [? Hx]; (split; [done|]); intros E; apply Hx; [apply (page_at_inj s pf pf j' j P Hj' Hj E)|by rewrite E].
  - rewrite (To pf' Hne). split; [|tauto]. intros Hin. split; [done|]. intros E. by destruct (page_at_inj s pf' pf j' j P Hj' Hj E) as [? _].
Qed.

(** *** Words of the directory and of the tables *)

Lemma translate_within m c va pa o : va mod 4096 = 0 → 0 ≤ o < 4096 → translate m c va = Some pa → translate m c (va + o) = Some (pa + o).
Proof.
  intros Hva Ho. unfold translate.
  assert ((va + o) / 2 ^ 22 = va / 2 ^ 22 ∧ (va + o) / 2 ^ 12 = va / 2 ^ 12 ∧ (va + o) mod 2 ^ 12 = va mod 2 ^ 12 + o) as (-> & -> & ->)
    by (change (2 ^ 22) with (4096 * 1024); change (2 ^ 12) with 4096; rewrite <- !Z.div_div by lia;
        assert ((va + o) / 4096 = va / 4096) as -> by dm; split_and!; [done|done|dm]).
  destruct (m !! _) as [pde|]; [|done]. cbn [mbind option_bind]. destruct (present pde); [|done].
  destruct (m !! _) as [pte|]; [|done]. cbn [mbind option_bind]. destruct (present pte); [|done]. intros [= <-]. f_equal. lia.
Qed.

Lemma dir_word s dir i e : 0 ≤ dir < 2 ^ 32 - 4096 → dir mod 4096 = 0 → translate (phys s) (cr3 s) dir = Some (cr3 s) →
  0 ≤ i < 1024 → phys s !! (cr3 s + i * 4) = Some e → read_word (u32 (dir + i * 4)) s = Ok (e, s).
Proof.
  intros Hd Ha Ht Hi He. apply read_word_ok. rewrite u32_small by lia. unfold vload.
  rewrite (translate_within _ _ _ _ (i * 4) Ha ltac:(lia) Ht). cbn. by rewrite He.
Qed.

Lemma table_word s i k e w : self_mapped (phys s) (cr3 s) → 0 ≤ i < 768 → 0 ≤ k < 1024 →
  phys s !! (cr3 s + i * 4) = Some e → present e = true → phys s !! (frame e + k * 4) = Some w →
  read_word (u32 (pte_ptr (i * 0x400000) + k * 4)) s = Ok (w, s).
Proof.
  intros S Hi Hk He Hp Hw. apply read_word_ok. set (v := i * 0x400000 + k * 4096).
  assert (v / 2 ^ 22 = i ∧ (v / 2 ^ 12) mod 2 ^ 10 = k) as [Ei Ek]
    by (unfold v; change (2 ^ 22) with 4194304; change (2 ^ 12) with 4096; change (2 ^ 10) with 1024; split; dm).
  assert (u32 (pte_ptr (i * 0x400000) + k * 4) = pte_ptr v) as ->.
  { rewrite !pte_ptr_eq by (unfold v; lia). rewrite Ei, Ek.
    assert (i * 0x400000 / 2 ^ 22 = i ∧ (i * 0x400000 / 2 ^ 12) mod 2 ^ 10 = 0) as [-> ->]
      by (change (2 ^ 22) with 4194304; change (2 ^ 12) with 4096; change (2 ^ 10) with 1024; split; dm).
    rewrite u32_small by lia. lia. }
  unfold vload. rewrite (translate_pte_ptr _ _ _ e S) by (unfold v, pde_addr in *; first [lia|by rewrite Ei|done]).
  unfold pte_addr. rewrite Ek. cbn. unfold frame in Hw. by rewrite Hw.
Qed.

(** *** The loops *)

Lemma pool_page_bytes s b f : pool_page s f → pool_page (set_bytes b s) f.
Proof. intros ([] & j & Hj & ->); [by exists PF_KERNEL, j|by exists PF_USER, j]. Qed.

Lemma present_eq e : present e = negb (Z.land e 1 =? 0).
Proof. done. Qed.

Lemma gives_back_same s : pools_ok s → gives_back s (set_bytes (bytes s) s) [].
Proof. intros P. replace (set_bytes (bytes s) s) with s by (by destruct s). by apply gives_back_nil. Qed.

Lemma free_entry_ok s w : pools_ok s → (∀ f, f ∈ entry_page (Some w) → pool_page s f) →
  ∃ b, (if negb (Z.land w 1 =? 0) then free_a_phy_page (Z.land w 0xfffff000) else mret tt) s = Ok (tt, set_bytes b s) ∧
    gives_back s (set_bytes b s) (entry_page (Some w)).
Proof.
  intros P Hf. unfold entry_page in *. rewrite (present_eq w) in *. destruct (negb (Z.land w 1 =? 0)).
  - apply free_page_ok; [done|]. apply Hf. by apply list_elem_of_singleton.
  - exists (bytes s). split; [by destruct s|]. by apply gives_back_same.
Qed.

Lemma free_ptes_ok i e n : ∀ s k,
  pools_ok s → self_mapped (phys s) (cr3 s) → 0 ≤ i < 768 → 0 ≤ k → k + Z.of_nat n ≤ 1024 →
  phys s !! (cr3 s + i * 4) = Some e → present e = true →
  (∀ k, 0 ≤ k < 1024 → is_Some (phys s !! (frame e + k * 4))) →
  (∀ f, f ∈ table_pages (phys s) (frame e) k (Z.of_nat n) → pool_page s f) →
  ∃ b, free_ptes n (pte_ptr (i * 0x400000)) k s = Ok (tt, set_bytes b s) ∧
    gives_back s (set_bytes b s) (table_pages (phys s) (frame e) k (Z.of_nat n)).
Proof.
  induction n as [|n IH]; intros s k P S Hi Hk Hn He Hp Hw Hf.
  - exists (bytes s). split; [by destruct s|]. by apply gives_back_same.
  - destruct (Hw k ltac:(lia)) as [w Ew].
    assert (table_pages (phys s) (frame e) k (Z.of_nat (Datatypes.S n)) = entry_page (Some w) ++ table_pages (phys s) (frame e) (k + 1) (Z.of_nat n)) as Et.
    { unfold table_pages. rewrite Nat2Z.inj_succ, seqZ_cons by lia. cbn [fmap list_fmap concat]. by rewrite Ew, Z.pred_succ, Z.add_1_r. }
    rewrite Et in *.
    destruct (free_entry_ok s w P) as (b1 & Hr1 & G1); [intros f Hx; apply Hf, elem_of_app; by left|].
    destruct (IH (set_bytes b1 s) (k + 1)) as (b2 & Hr2 & G2); try done; [apply G1|lia|lia|by intros f Hx; apply pool_page_bytes, Hf, elem_of_app; right|].
    exists b2. split; [|by eapply gives_back_app].
    cbn [free_ptes]. kstep (table_word s i k e w S Hi ltac:(lia) He Hp Ew). kstep Hr1. exact Hr2.
Qed.

(** The address space of the running process: its directory is mapped at
    [dir], and its tables and the pages they map are pages of the pools. *)
Record own_space (s : kst H) (dir : Z) : Prop := {
  os_self : self_mapped (phys s) (cr3 s);
  os_dir : 0 ≤ dir < 2 ^ 32 - 4096 ∧ dir mod 4096 = 0 ∧ translate (phys s) (cr3 s) dir = Some (cr3 s);
  os_entries : ∀ i, 0 ≤ i < 768 → is_Some (phys s !! (cr3 s + i * 4));
  os_tables : ∀ i e, 0 ≤ i < 768 → phys s !! (cr3 s + i * 4) = Some e → present e = true →
    ∀ k, 0 ≤ k < 1024 → is_Some (phys s !! (frame e + k * 4));
  os_pages : ∀ f, f ∈ user_pages (phys s) (cr3 s) 0 768 → pool_page s f;
}.

Lemma user_pages_cons m c i n : user_pages m c i (Z.of_nat (Datatypes.S n)) = dir_pages m (m !! (c + i * 4)) ++ user_pages m c (i + 1) (Z.of_nat n).
Proof. unfold user_pages. rewrite Nat2Z.inj_succ, seqZ_cons by lia. cbn [fmap list_fmap concat]. by rewrite Z.pred_succ, Z.add_1_r. Qed.

(** One entry of the directory. *)
Lemma free_table_ok s dir i e : own_space s dir → pools_ok s → 0 ≤ i < 768 → phys s !! (cr3 s + i * 4) = Some e →
  (∀ f, f ∈ dir_pages (phys s) (Some e) → pool_page s f) →
  ∃ b, (if negb (Z.land e 1 =? 0) then free_ptes 1024 (pte_ptr (i * 0x400000)) 0 ;; free_a_phy_page (Z.land e 0xfffff000) else mret tt) s
       = Ok (tt, set_bytes b s) ∧ gives_back s (set_bytes b s) (dir_pages (phys s) (Some e)).
Proof.
  intros O P Hi He Hf. unfold dir_pages in *. pose proof (present_eq e) as Hp. destruct (negb (Z.land e 1 =? 0)); rewrite Hp in *.
  - destruct (free_ptes_ok i e 1024 s 0) as (b1 & Hr1 & G1); [exact P|apply O|lia|lia|lia|exact He|exact Hp|by apply (os_tables _ _ O i)|intros f Hx; apply Hf, elem_of_app; by left|].
    destruct (free_page_ok (set_bytes b1 s) (frame e)) as (b2 & Hr2 & G2); [apply G1|apply pool_page_bytes, Hf, elem_of_app; right; by apply list_elem_of_singleton|].
    exists b2. split; [kstep Hr1; exact Hr2|]. by eapply gives_back_app.
  - exists (bytes s). split; [by destruct s|]. by apply gives_back_same.
Qed.

Lemma own_space_bytes s b dir : own_space s dir → own_space (set_bytes b s) dir.
Proof. intros [O1 O2 O3 O4 O5]. by split. Qed.

Lemma free_pdes_ok dir n : ∀ s i,
  own_space s dir → pools_ok s → 0 ≤ i → i + Z.of_nat n = 768 →
  (∀ f, f ∈ user_pages (phys s) (cr3 s) i (Z.of_nat n) → pool_page s f) →
  ∃ b, free_pdes n dir i s = Ok (tt, set_bytes b s) ∧ gives_back s (set_bytes b s) (user_pages (phys s) (cr3 s) i (Z.of_nat n)).
Proof.
  induction n as [|n IH]; intros s i O P Hi Hn Hf.
  - exists (bytes s). split; [by destruct s|]. by apply gives_back_same.
  - destruct (os_entries _ _ O i ltac:(lia)) as [e He]. destruct (os_dir _ _ O) as (D1 & D2 & D3).
    rewrite user_pages_cons, He in *.
    destruct (free_table_ok s dir i e O P ltac:(lia) He) as (b1 & Hr1 & G1); [intros f Hx; apply Hf, elem_of_app; by left|].
    destruct (IH (set_bytes b1 s) (i + 1)) as (b2 & Hr2 & G2);
      [by apply own_space_bytes|apply G1|lia|lia|intros f Hx; apply pool_page_bytes, Hf, elem_of_app; by right|].
    exists b2. split; [|by eapply gives_back_app].
    cbn [free_pdes]. kstep (dir_word s dir i e D1 D2 D3 ltac:(lia) He). kstep Hr1. exact Hr2.
Qed.

(** C34: a process that exits gives back its address space: walking the 768
    entries of the user half through the self-map of the page tables, it
    frees exactly the pages that are mapped there and the tables
    themselves; every other page of the two pools keeps its state, the
    kernel's heap stays, and the page tables are not written. *)
Theorem exit_frees_user_pages s dir : own_space s dir → pools_ok s →
  ∃ b, free_pdes 768 dir 0 s = Ok (tt, set_bytes b s) ∧ gives_back s (set_bytes b s) (user_pages (phys s) (cr3 s) 0 768).
Proof. intros O P. apply (free_pdes_ok dir 768 s 0 O P); [lia|lia|apply O]. Qed.
End ExitMemory.

(** ** Witness

    A process with one page at 0x8048000: the directory, mapped at 0xc0100000,
    the kernel's table, the table of the user half and the page. *)
Definition exit_word (a : Z) : Z :=
  if a =? 0x100ffc then 0x100007 else if a =? 0x100c00 then 0x101007 else if a =? 0x100080 then 0x102007 else
  if a =? 0x101400 then 0x100007 else if a =? 0x102120 then 0x10a007 else 0.
Definition exit_ram (n : Z) : pmem := list_to_map ((λ k, (0x100000 + k * 4, exit_word (0x100000 + k * 4))) <$> seqZ 0 n).

Lemma exit_ram_lookup n a : exit_ram n !! a = if decide (0x100000 ≤ a < 0x100000 + 4 * n ∧ a mod 4 = 0) then Some (exit_word a) else None.
Proof. apply words_lookup. Qed.

Definition exit_bytes : bmem := {[ MEM_BITMAP_BASE := 1; MEM_BITMAP_BASE + 1 := 1; MEM_BITMAP_BASE + 2 := 1 ]}.
Definition exit_example (m : pmem) : kst lheap :=
  set_bytes exit_bytes (set_phys m (set_kernel_pool (Pool (Bitmap 1 MEM_BITMAP_BASE) 0x102000 0x8000)
    (set_user_pool (Pool (Bitmap 1 (MEM_BITMAP_BASE + 1)) 0x10a000 0x8000)
    (set_kernel_vaddr (VirtualAddr (Bitmap 1 (MEM_BITMAP_BASE + 2)) K_HEAP_START) ex_kst)))).

Lemma exit_example_pools m : pools_ok (exit_example m).
Proof.
  assert (∀ k, 0 ≤ k < 3 → bitmap_wf exit_bytes (Bitmap 1 (MEM_BITMAP_BASE + k))) as Hw.
  { intros k Hk. split; simpl; [lia|lia|]. intros i Hi. replace i with 0 by lia. exists 1.
    assert (k = 0 ∨ k = 1 ∨ k = 2) as [->|[->| ->]] by lia; (split; [by vm_compute|lia]). }
  split; simpl.
  - intros []; simpl; [apply (Hw 0)|apply (Hw 1)]; lia.
  - apply (Hw 2). lia.
  - left. simpl. lia.
  - intros []; left; simpl; lia.
  - intros []; simpl; (split; [done|lia]).
  - lia.
Qed.

Section Example.
Variable m : pmem.
Hypothesis Hm : ∀ a, m !! a = if decide (0x100000 ≤ a < 0x103000 ∧ a mod 4 = 0) then Some (exit_word a) else None.

Lemma exit_some a e : m !! a = Some e → e = exit_word a.
Proof. rewrite Hm. destruct (decide _); [|done]. by intros [= <-]. Qed.
Lemma exit_at a : 0x100000 ≤ a < 0x103000 → a mod 4 = 0 → m !! a = Some (exit_word a).
Proof. intros Ha H4. by rewrite Hm, decide_True. Qed.
Lemma exit_pde i : 0 ≤ i < 768 → m !! (0x100000 + i * 4) = Some (if decide (i = 32) then 0x102007 else 0).
Proof.
  intros Hi. rewrite exit_at by dm. f_equal. unfold exit_word. destruct (decide (i = 32)) as [->|Hne]; [done|].
  repeat (rewrite (proj2 (Z.eqb_neq _ _)) by lia). done.
Qed.
Lemma exit_table_page f : f ∈ table_pages m 0x102000 0 1024 → f = 0x10a000.
Proof.
  unfold table_pages. intros (l & Hf & (k & -> & Hk%elem_of_seqZ)%list_elem_of_fmap)%elem_of_concat.
  rewrite exit_at in Hf by dm. unfold exit_word in Hf.
  rewrite (proj2 (Z.eqb_neq _ 0x100ffc)), (proj2 (Z.eqb_neq _ 0x100c00)), (proj2 (Z.eqb_neq _ 0x100080)), (proj2 (Z.eqb_neq _ 0x101400)) in Hf by lia.
  destruct (_ =? 0x102120); [by apply list_elem_of_singleton in Hf as ->|by apply elem_of_nil in Hf].
Qed.

Lemma exit_example_space : own_space (exit_example m) 0xc0100000.
Proof.
  split; change (phys (exit_example m)) with m; change (cr3 (exit_example m)) with 0x100000.
  - split; [done|lia|]. rewrite exit_at by (done || lia). done.
  - split; [lia|]. split; [done|]. unfold translate. rewrite exit_at by (done || lia). cbn.
    rewrite exit_at by (done || lia). done.
  - intros i Hi. rewrite exit_pde by done. by eexists.
  - intros i e Hi He Hp. rewrite exit_pde in He by done. injection He as <-. destruct (decide (i = 32)); [|done].
    intros k Hk. change (frame 0x102007) with 0x102000. rewrite exit_at by dm. by eexists.
  - intros f. unfold user_pages. intros (l & Hf & (i & -> & Hi%elem_of_seqZ)%list_elem_of_fmap)%elem_of_concat.
    rewrite exit_pde in Hf by lia. destruct (decide (i = 32)); [|by apply elem_of_nil in Hf].
    change (dir_pages m (Some 0x102007)) with (table_pages m 0x102000 0 1024 ++ [0x102000]) in Hf.
    apply elem_of_app in Hf as [Hf|Hf]; [apply exit_table_page in Hf as ->|apply list_elem_of_singleton in Hf as ->].
    + exists PF_USER, 0. unfold pool_len, page_at. simpl. lia.
    + exists PF_KERNEL, 0. unfold pool_len, page_at. simpl. lia.
Qed.
End Example.

Lemma exit_frees_user_pages_witness : let s := exit_example (exit_ram 0xc00) in
  ∃ b, free_pdes 768 0xc0100000 0 s = Ok (tt, set_bytes b s) ∧ gives_back s (set_bytes b s) (user_pages (phys s) (cr3 s) 0 768).
Proof.
  intros s. apply (exit_frees_user_pages s 0xc0100000).
  - apply exit_example_space. intros a. exact (exit_ram_lookup 0xc00 a).
  - apply exit_example_pools.
Defined.
