(* ===== verification/Exec.v ===== *)
(** * Running a program (src/user/exec.c)

    [sys_execv] loads the segments of an ELF file into the address space of
    the running process and leaves the kernel through an interrupt frame that
    starts the program.

    [junk] is what the stack holds for [path_depth_cnt] of Path.v and [getc]
    the keyboard of [sys_read]; a program file is not read from it.  The
    memory behind the pointer [argv] is that of the process; a path is the
    bytes from the pointer on. *)

From S2P Require Import Prelude CString CArray Stdio Path Bitmap Lists PageTable Disk Kernel Sched Sync Memory Malloc Thread Process.
From S2P Require Import Fsys Inode Dir File Fs System.

(** ** The headers, as 52 and 32 bytes *)

Definition half_at (bs : list Z) (o : nat) : Z := default 0 (bs !! o) + 256 * default 0 (bs !! S o).
Definition word_at (bs : list Z) (o : nat) : Z := half_at bs o + 65536 * half_at bs (o + 2).

Record Elf32_Ehdr := Ehdr {
  e_ident : list Z; e_type : Z; e_machine : Z; e_version : Z; e_entry : Z; e_phoff : Z; e_shoff : Z; e_flags : Z;
  e_ehsize : Z; e_phentsize : Z; e_phnum : Z; e_shentsize : Z; e_shnum : Z; e_shstrndx : Z;
}.
Definition sizeof_Elf32_Ehdr : Z := 52.
Definition elf_header_of (bs : list Z) : Elf32_Ehdr :=
  Ehdr (take 16 bs) (half_at bs 16) (half_at bs 18) (word_at bs 20) (word_at bs 24) (word_at bs 28)
    (word_at bs 32) (word_at bs 36) (half_at bs 40) (half_at bs 42) (half_at bs 44) (half_at bs 46) (half_at bs 48) (half_at bs 50).

Record Elf32_Phdr := Phdr {
  p_type : Z; p_offset : Z; p_vaddr : Z; p_paddr : Z; p_filesz : Z; p_memsz : Z; p_flags : Z; p_align : Z;
}.
Definition sizeof_Elf32_Phdr : Z := 32.
Definition prog_header_of (bs : list Z) : Elf32_Phdr :=
  Phdr (word_at bs 0) (word_at bs 4) (word_at bs 8) (word_at bs 12) (word_at bs 16) (word_at bs 20) (word_at bs 24) (word_at bs 28).

(** [enum segment_type]. *)
Inductive segment_type := PT_NULL | PT_LOAD | PT_DYNAMIC | PT_INTERP | PT_NOTE | PT_SHLIB | PT_PHDR.
Definition segment_nr (t : segment_type) : Z :=
  match t with PT_NULL => 0 | PT_LOAD => 1 | PT_DYNAMIC => 2 | PT_INTERP => 3 | PT_NOTE => 4 | PT_SHLIB => 5 | PT_PHDR => 6 end.

(** "\177ELF\1\1\1". *)
Definition elf_magic : list Z := [127; 69; 76; 70; 1; 1; 1].

Definition elf_rejected (h : Elf32_Ehdr) : bool :=
  negb (bool_decide (take 7 (e_ident h) = elf_magic)) || negb (e_type h =? 2) || negb (e_machine h =? 3) ||
  negb (e_version h =? 1) || negb (e_phentsize h =? sizeof_Elf32_Phdr).

(** The first page of a segment and the number of its pages. *)
Definition vaddr_first_page (vaddr : Z) : Z := Z.land vaddr 0xfffff000.
Definition occupy_pages (vaddr filesz : Z) : Z :=
  let size_in_first_page := u32 (PG_SIZE - Z.land vaddr 0x00000fff) in
  if size_in_first_page <? filesz then
    let left_size := u32 (filesz - size_in_first_page) in
    u32 (u32 (left_size + PG_SIZE - 1) / PG_SIZE + 1)
  else 1.

Section Exec.
Context {H A : Type} `{Queues H} `{World H} `{Allocator A}.
Context (junk : list Z) (getc : K (fsys H A) Z).
Abbreviation S := (K (sys H A)).

(** Bytes stored to virtual addresses. *)
Fixpoint vstore_bytes (m : pmem) (c dst : Z) (bs : list Z) : outcome pmem :=
  match bs with
  | [] => Ok m
  | b :: bs => m ← vstore8 m c dst b; vstore_bytes m c (dst + 1) bs
  end.
Definition copy_to_user (dst : Z) (bs : list Z) : S unit :=
  in_kern (c ← gets cr3; on_phys (λ m, vstore_bytes m c dst bs)).

(** [n] pages from [vaddr_page] on; the page table is read only when the
    directory has the table. *)
Fixpoint segment_pages (n : nat) (vaddr_page : Z) : K (kst H) bool :=
  match n with
  | O => mret true
  | Datatypes.S n =>
      let pde := pde_ptr vaddr_page in
      let pte := pte_ptr vaddr_page in
      e ← read_word pde;
      missing ← (if Z.land e 0x00000001 =? 0 then mret true
                 else e ← read_word pte; mret (Z.land e 0x00000001 =? 0));
      ok ← (if (missing : bool) then p ← get_a_page PF_USER vaddr_page; mret (negb (p =? NULL)) else mret true);
      if (ok : bool) then segment_pages n (u32 (vaddr_page + PG_SIZE)) else mret false
  end.

Definition segment_load (fd offset filesz vaddr : Z) : S bool :=
  ok ← in_kern (segment_pages (Z.to_nat (occupy_pages vaddr filesz)) (vaddr_first_page vaddr));
  if negb ok then mret false
  else
    in_files (sys_lseek fd offset SEEK_SET) ;;
    '(_, bs) ← in_files (sys_read getc fd filesz);
    copy_to_user vaddr bs ;;
    mret true.

(** The program headers from number [prog_idx] on, [n] of them left. *)
Fixpoint load_segments (n : nat) (fd e_phentsize prog_header_offset : Z) : S bool :=
  match n with
  | O => mret true
  | Datatypes.S n =>
      in_files (sys_lseek fd (s32 prog_header_offset) SEEK_SET) ;;
      '(r, bs) ← in_files (sys_read getc fd e_phentsize);
      if negb (r =? e_phentsize) then mret false
      else
        let h := prog_header_of bs in
        ok ← (if segment_nr PT_LOAD =? p_type h then segment_load fd (s32 (p_offset h)) (p_filesz h) (p_vaddr h) else mret true);
        if negb ok then mret false
        else load_segments n fd e_phentsize (u32 (prog_header_offset + e_phentsize))
  end.

Definition load (pathname : list Z) : S Z :=
  fd ← in_files (sys_open junk pathname O_RDONLY);
  if fd =? -1 then mret (-1)
  else
    ret ←
      ('(r, bs) ← in_files (sys_read getc fd sizeof_Elf32_Ehdr);
       if negb (r =? sizeof_Elf32_Ehdr) then mret (-1)
       else
         let elf_header := elf_header_of bs in
         if elf_rejected elf_header then mret (-1)
         else
           ok ← load_segments (Z.to_nat (e_phnum elf_header)) fd (e_phentsize elf_header) (e_phoff elf_header);
           if (ok : bool) then mret (s32 (e_entry elf_header)) else mret (-1));
    in_files (sys_close fd) ;;
    mret ret.

(** [argc] counts the pointers up to the first NULL. *)
Fixpoint count_args (fuel : nat) (argv argc : Z) : K (kst H) Z :=
  match fuel with
  | O => lift NoFuel
  | Datatypes.S fuel =>
      p ← read_word (u32 (argv + 4 * argc));
      if p =? 0 then mret argc else count_args fuel argv (u32 (argc + 1))
  end.

Definition sys_execv (fuel : nat) (path : list Z) (argv : Z) : S Z :=
  argc ← in_kern (count_args fuel argv 0);
  entry_point ← load path;
  if entry_point =? -1 then mret (-1)
  else
    lift (if bool_decide (length path < 16)%nat then Fault else Ok tt) ;;
    in_kern (
      cur ← running_thread;
      upd_task cur (set_name (take 16 path)) ;;
      upd_task cur (λ t, set_name (<[15%nat := 0]> (name t)) t) ;;
      let intr_0_stack := u32 (cur + PG_SIZE - sizeof_intr_stack) in
      frames ← gets istacks;
      f ← lift (deref (frames !! intr_0_stack));
      modify (set_istacks (<[intr_0_stack :=
        IntrStack (is_vec_no f) (is_edi f) (is_esi f) (is_ebp f) (is_esp_dummy f) argv (is_edx f) argc
          (is_eax f) (is_gs f) (is_fs f) (is_es f) (is_ds f) (is_err_code f) (u32 entry_point) (is_cs f)
          (is_eflags f) 0xc0000000 (is_ss f)]> frames)) ;;
      modify (set_esp intr_0_stack)) ;;
    mret 0.
End Exec.

(** ** Properties *)

(** The pages [segment_load] provides for a segment that ends inside the
    address space are exactly those its bytes lie in: every byte is in one of
    them, the first is that of the start, and the last holds a byte of the
    segment (or is the first). *)
Theorem segment_pages_cover vaddr filesz :
  0 ≤ vaddr → 0 ≤ filesz → vaddr + filesz ≤ 2 ^ 32 → vaddr < 2 ^ 32 →
  let first := vaddr_first_page vaddr in let n := occupy_pages vaddr filesz in
  1 ≤ n ∧ first mod 4096 = 0 ∧ first ≤ vaddr < first + 4096 ∧ first + n * 4096 ≤ 2 ^ 32 ∧
  (∀ a, vaddr ≤ a < vaddr + filesz → first ≤ a < first + n * 4096) ∧
  (n = 1 ∨ first + (n - 1) * 4096 < vaddr + filesz).
Proof.
  intros Hv Hs He Hv2. unfold vaddr_first_page, occupy_pages, PG_SIZE.
  rewrite land_fffff000, land_00000fff by lia. change (2 ^ 32) with 4294967296 in *.
  rewrite (u32_small (4096 - vaddr mod 4096)) by dm.
  destruct (Z.ltb_spec (4096 - vaddr mod 4096) filesz) as [Hl|Hl].
  - assert (vaddr = 4096 * (vaddr / 4096) + vaddr mod 4096) as Ev by dm.
    set (o := vaddr mod 4096) in *. assert (0 ≤ o < 4096) as Ho by (unfold o; dm). set (q := vaddr / 4096) in *.
    rewrite (u32_small (filesz - (4096 - o))) by (change (2 ^ 32) with 4294967296; lia).
    rewrite (u32_small (_ + 4096 - 1)) by (change (2 ^ 32) with 4294967296; lia).
    set (k := (filesz - (4096 - o) + 4096 - 1) / 4096).
    assert (4096 * k ≤ filesz - (4096 - o) + 4095 < 4096 * k + 4096) as Hk by (unfold k; dm).
    assert (4096 * (q + 1 + k) < 4294967296 + 4096) as Hb by lia.
    rewrite u32_small by (change (2 ^ 32) with 4294967296; lia).
    split_and!; lia || dm.
  - split_and!; dm.
Qed.

(** The size is not checked against the end of the address space: the sum
    wraps around, and one page is provided for almost 4 GB. *)
Example occupy_pages_wraps : occupy_pages 0x8048fff 0xffffffff = 1.
Proof. reflexivity. Qed.

Lemma segment_pages_cover_witness : occupy_pages 0x8048f00 0x1200 = 3 ∧ 0x8048000 + 3 * 4096 ≤ 2 ^ 32.
Proof.
  destruct (segment_pages_cover 0x8048f00 0x1200) as (_ & _ & _ & Hb & _); [lia..|]. split; [reflexivity|exact Hb].
Defined.
