(* ===== verification/Syscall.v ===== *)
(** * System calls (src/user/syscall.c, src/user/syscall_init.c, the entry
    syscall_handler of src/kernel/kernel.asm)

    A stub of syscall.c puts the number of the call and its arguments into
    registers and executes [int 0x80]; the handler calls the function that the
    table has for the number with the contents of [ebx], [ecx] and [edx], and
    returns its result in [eax].  Registers that a stub does not set keep what
    they hold.

    [call_fn] runs a function of the table.  Where one takes a pointer into
    the memory of the process, the bytes are read and written through its page
    tables; [fuel] bounds the length of strings and of [argv]. *)

From S2P Require Import Prelude CString CArray Stdio Path Bitmap Lists PageTable Disk Kernel Sched Sync Memory Malloc Thread Process Interrupt.
From S2P Require Import Fsys Inode Dir File Fs System WaitExit Fork Exec.

(** ** The numbers *)

Inductive SYSCALL_NR :=
  | SYS_GETPID | SYS_WRITE | SYS_MALLOC | SYS_FREE | SYS_FORK | SYS_READ | SYS_PUTCHAR | SYS_CLEAR
  | SYS_GETCWD | SYS_OPEN | SYS_CLOSE | SYS_LSEEK | SYS_UNLINK | SYS_MKDIR | SYS_OPENDIR | SYS_CLOSEDIR
  | SYS_CHDIR | SYS_RMDIR | SYS_READDIR | SYS_REWINDDIR | SYS_STAT | SYS_PS | SYS_EXECV | SYS_EXIT | SYS_WAIT.
Definition nr (n : SYSCALL_NR) : Z :=
  match n with
  | SYS_GETPID => 0 | SYS_WRITE => 1 | SYS_MALLOC => 2 | SYS_FREE => 3 | SYS_FORK => 4 | SYS_READ => 5
  | SYS_PUTCHAR => 6 | SYS_CLEAR => 7 | SYS_GETCWD => 8 | SYS_OPEN => 9 | SYS_CLOSE => 10 | SYS_LSEEK => 11
  | SYS_UNLINK => 12 | SYS_MKDIR => 13 | SYS_OPENDIR => 14 | SYS_CLOSEDIR => 15 | SYS_CHDIR => 16
  | SYS_RMDIR => 17 | SYS_READDIR => 18 | SYS_REWINDDIR => 19 | SYS_STAT => 20 | SYS_PS => 21
  | SYS_EXECV => 22 | SYS_EXIT => 23 | SYS_WAIT => 24
  end.

(** ** The stubs

    [j] is what the registers hold before; arguments are 32-bit values. *)
Record regs := Regs { eax : Z; ebx : Z; ecx : Z; edx : Z }.
Definition _syscall0 (j : regs) (NUMBER : SYSCALL_NR) : regs := Regs (nr NUMBER) (ebx j) (ecx j) (edx j).
Definition _syscall1 (j : regs) (NUMBER : SYSCALL_NR) (ARG1 : Z) : regs := Regs (nr NUMBER) (u32 ARG1) (ecx j) (edx j).
Definition _syscall2 (j : regs) (NUMBER : SYSCALL_NR) (ARG1 ARG2 : Z) : regs :=
  Regs (nr NUMBER) (u32 ARG1) (u32 ARG2) (edx j).
Definition _syscall3 (j : regs) (NUMBER : SYSCALL_NR) (ARG1 ARG2 ARG3 : Z) : regs :=
  Regs (nr NUMBER) (u32 ARG1) (u32 ARG2) (u32 ARG3).

Module Stub.
Section Stubs.
Context (j : regs).
Definition getpid : regs := _syscall0 j SYS_GETPID.
Definition write (fd buf count : Z) : regs := _syscall3 j SYS_WRITE fd buf count.
Definition malloc (size : Z) : regs := _syscall1 j SYS_MALLOC size.
Definition free (ptr : Z) : regs := _syscall1 j SYS_FREE ptr.
Definition fork : regs := _syscall0 j SYS_FORK.
Definition read (fd buf count : Z) : regs := _syscall3 j SYS_READ fd buf count.
Definition putchar (char_asci : Z) : regs := _syscall1 j SYS_PUTCHAR (s8 char_asci).
Definition clear : regs := _syscall0 j SYS_CLEAR.
Definition getcwd (buf size : Z) : regs := _syscall2 j SYS_GETCWD buf size.
Definition open (pathname flag : Z) : regs := _syscall2 j SYS_OPEN pathname (u8 flag).
Definition close (fd : Z) : regs := _syscall1 j SYS_CLOSE fd.
Definition lseek (fd offset whence : Z) : regs := _syscall3 j SYS_LSEEK fd offset (u8 whence).
Definition unlink (pathname : Z) : regs := _syscall1 j SYS_UNLINK pathname.
Definition mkdir (pathname : Z) : regs := _syscall1 j SYS_MKDIR pathname.
Definition opendir (name : Z) : regs := _syscall1 j SYS_OPENDIR name.
Definition closedir (dir : Z) : regs := _syscall1 j SYS_CLOSEDIR dir.
Definition rmdir (pathname : Z) : regs := _syscall1 j SYS_RMDIR pathname.
Definition readdir (dir : Z) : regs := _syscall1 j SYS_READDIR dir.
Definition rewinddir (dir : Z) : regs := _syscall1 j SYS_REWINDDIR dir.
Definition stat (path buf : Z) : regs := _syscall2 j SYS_STAT path buf.
Definition chdir (path : Z) : regs := _syscall1 j SYS_CHDIR path.
Definition ps : regs := _syscall0 j SYS_PS.
Definition execv (pathname argv : Z) : regs := _syscall2 j SYS_EXECV pathname argv.
Definition exit (status : Z) : regs := _syscall1 j SYS_EXIT status.
Definition wait (status : Z) : regs := _syscall1 j SYS_WAIT status.
End Stubs.
End Stub.

(** ** The table *)

Section Syscall.
Context {H A : Type} `{Queues H} `{World H} `{Allocator A}.
Context (junk : list Z) (getc : K (fsys H A) Z) (fuel : nat).
Abbreviation S := (K (sys H A)).

Definition set_syscall (n : SYSCALL_NR) (f : kernel_fn) : K (kst H) unit :=
  modify (λ s, set_syscall_table (<[nr n := f]> (syscall_table s)) s).
Definition syscall_init : K (kst H) unit :=
  set_syscall SYS_GETPID Fn_getpid ;; set_syscall SYS_WRITE Fn_write ;; set_syscall SYS_MALLOC Fn_malloc ;;
  set_syscall SYS_FREE Fn_free ;; set_syscall SYS_FORK Fn_fork ;; set_syscall SYS_READ Fn_read ;;
  set_syscall SYS_PUTCHAR Fn_putchar ;; set_syscall SYS_CLEAR Fn_cls_screen ;; set_syscall SYS_GETCWD Fn_getcwd ;;
  set_syscall SYS_OPEN Fn_open ;; set_syscall SYS_CLOSE Fn_close ;; set_syscall SYS_LSEEK Fn_lseek ;;
  set_syscall SYS_UNLINK Fn_unlink ;; set_syscall SYS_MKDIR Fn_mkdir ;; set_syscall SYS_OPENDIR Fn_opendir ;;
  set_syscall SYS_CLOSEDIR Fn_closedir ;; set_syscall SYS_CHDIR Fn_chdir ;; set_syscall SYS_RMDIR Fn_rmdir ;;
  set_syscall SYS_READDIR Fn_readdir ;; set_syscall SYS_REWINDDIR Fn_rewinddir ;; set_syscall SYS_STAT Fn_stat ;;
  set_syscall SYS_PS Fn_ps ;; set_syscall SYS_EXECV Fn_execv ;; set_syscall SYS_EXIT Fn_exit ;;
  set_syscall SYS_WAIT Fn_wait.

(** ** The memory of the process *)

Fixpoint vload_bytes (n : nat) (m : pmem) (c va : Z) : outcome (list Z) :=
  match n with
  | O => Ok []
  | Datatypes.S n => b ← vload8 m c va; bs ← vload_bytes n m c (va + 1); Ok (b :: bs)
  end.
Definition user_bytes (va n : Z) : S (list Z) :=
  in_kern (m ← gets phys; c ← gets cr3; lift (vload_bytes (Z.to_nat n) m c va)).

(** Up to and with the NUL. *)
Fixpoint vload_string (n : nat) (m : pmem) (c va : Z) : outcome (list Z) :=
  match n with
  | O => NoFuel
  | Datatypes.S n => b ← vload8 m c va; if b =? 0 then Ok [0] else bs ← vload_string n m c (va + 1); Ok (b :: bs)
  end.
Definition user_string (va : Z) : S (list Z) :=
  in_kern (m ← gets phys; c ← gets cr3; lift (vload_string fuel m c va)).

(** Whether [sys_write] looks at the buffer: for the console it does, and for a
    file once the file is open for writing and has room. *)
Definition write_reads (fd count : Z) : K (fsys H A) bool :=
  if fd <? 0 then mret false
  else if fd =? stdout_no then mret true
  else
    _fd ← fd_local2global fd;
    f ← get_file _fd;
    if negb (Z.land (fd_flag f) O_WRONLY =? 0) || negb (Z.land (fd_flag f) O_RDWR =? 0) then
      i ← get_inode (fd_inode f); mret (negb (BLOCK_SIZE * 140 <? u32 (i_size i + count)))
    else mret false.

(** ** The functions, with the three values on the stack *)

Definition call_fn (f : kernel_fn) (a b c : Z) : S Z :=
  match f with
  | Fn_getpid => sys_getpid
  | Fn_write => needed ← in_files (write_reads (s32 a) c);
      bs ← (if (needed : bool) then user_bytes b c else mret (replicate (Z.to_nat c) 0)); in_files (sys_write (s32 a) bs c)
  | Fn_malloc => in_kern (sys_malloc a)
  | Fn_free => in_kern (sys_free a) ;; mret 0
  | Fn_fork => sys_fork
  | Fn_read => kASSERT (negb (b =? NULL)) ;; '(r, bs) ← in_files (sys_read getc (s32 a) c); copy_to_user b bs ;; mret r
  | Fn_putchar => in_files (sys_putchar (u8 a)) ;; mret 0
  | Fn_cls_screen => in_files (modify (set_console [])) ;; mret 0
  | Fn_getcwd => bs ← user_bytes a b; r ← in_files (sys_getcwd bs b);
      match r with Some bs => copy_to_user a bs ;; mret a | None => mret NULL end
  | Fn_open => p ← user_string a; in_files (sys_open junk p (u8 b))
  | Fn_close => in_files (sys_close (s32 a))
  | Fn_lseek => in_files (sys_lseek (s32 a) (s32 b) (u8 c))
  | Fn_unlink => p ← user_string a; in_files (sys_unlink p)
  | Fn_mkdir => p ← user_string a; in_files (sys_mkdir junk p)
  | Fn_opendir => p ← user_string a; in_files (sys_opendir p)
  | Fn_closedir => in_files (sys_closedir a)
  | Fn_chdir => p ← user_string a; in_files (sys_chdir p)
  | Fn_rmdir => p ← user_string a; in_files (sys_rmdir p)
  | Fn_readdir => in_files (sys_readdir a)
  | Fn_rewinddir => in_files (sys_rewinddir a) ;; mret 0
  | Fn_stat => p ← user_string a; r ← in_files (sys_stat p);
      match r with
      | Some st => copy_to_user b (le32 (st_ino st) ++ le32 (st_size st) ++ le32 (type_nr (st_filetype st))) ;; mret 0
      | None => mret (-1)
      end
  | Fn_ps => sys_ps ;; mret 0
  | Fn_execv => p ← user_string a;
      p ← (if bool_decide (length p < 16)%nat then user_bytes a 16 else mret p);
      sys_execv junk getc fuel p b
  | Fn_exit => sys_exit (s32 a) ;; mret 0
  | Fn_wait => '(r, st) ← in_kern sys_wait;
      match st with Some v => copy_to_user a (le32 (u32 v)) | None => mret tt end ;; mret r
  end.

(** [call [syscall_table + eax*4]]: a number below 32 without a function is a
    call of NULL, a larger one a call of what lies behind the table; both are
    [Fault]. *)
Definition syscall_handler (r : regs) : S Z :=
  t ← in_kern (gets syscall_table);
  f ← lift (deref (t !! eax r));
  v ← call_fn f (ebx r) (ecx r) (edx r);
  mret (u32 v).

(** [int 0x80] in user code. *)
Definition int80 (r : regs) : S Z :=
  c ← in_kern (gets cpu);
  match soft_int c 3 0x80 with
  | Some (_, entry) => if entry =? syscall_handler_code then syscall_handler r else lift Fault
  | None => lift Fault
  end.
End Syscall.

(** ** Properties *)

Section Dispatch.
Context {H A : Type} `{Queues H} `{World H} `{Allocator A}.
Context (junk : list Z) (getc : K (fsys H A) Z) (fuel : nat).
Implicit Types s : sys H A.

(** The calls of syscall.c: the registers of the stub, the function the call
    is meant for, and the arguments of the call as its prototype has them. *)
Record user_call := UserCall { uc_regs : regs; uc_fn : kernel_fn; uc_args : list Z }.
Definition stubs (j : regs) (a b c : Z) : list user_call :=
  [UserCall (Stub.getpid j) Fn_getpid []; UserCall (Stub.write j a b c) Fn_write [a; b; c];
   UserCall (Stub.malloc j a) Fn_malloc [a]; UserCall (Stub.free j a) Fn_free [a]; UserCall (Stub.fork j) Fn_fork [];
   UserCall (Stub.read j a b c) Fn_read [a; b; c]; UserCall (Stub.putchar j a) Fn_putchar [s8 a];
   UserCall (Stub.clear j) Fn_cls_screen []; UserCall (Stub.getcwd j a b) Fn_getcwd [a; b];
   UserCall (Stub.open j a b) Fn_open [a; u8 b]; UserCall (Stub.close j a) Fn_close [a];
   UserCall (Stub.lseek j a b c) Fn_lseek [a; b; u8 c]; UserCall (Stub.unlink j a) Fn_unlink [a];
   UserCall (Stub.mkdir j a) Fn_mkdir [a]; UserCall (Stub.opendir j a) Fn_opendir [a];
   UserCall (Stub.closedir j a) Fn_closedir [a]; UserCall (Stub.rmdir j a) Fn_rmdir [a];
   UserCall (Stub.readdir j a) Fn_readdir [a]; UserCall (Stub.rewinddir j a) Fn_rewinddir [a];
   UserCall (Stub.stat j a b) Fn_stat [a; b]; UserCall (Stub.chdir j a) Fn_chdir [a]; UserCall (Stub.ps j) Fn_ps [];
   UserCall (Stub.execv j a b) Fn_execv [a; b]; UserCall (Stub.exit j a) Fn_exit [a]; UserCall (Stub.wait j a) Fn_wait [a]].

(** The function [f] on the arguments [args], 32-bit words on the stack, with
    any words [x], [y], [z] where the call has fewer than three. *)
Definition on_args (f : kernel_fn) (args : list Z) (x y z : Z) : K (sys H A) Z :=
  let arg k d := default d (u32 <$> args !! k) in
  call_fn junk getc fuel f (arg 0%nat x) (arg 1%nat y) (arg 2%nat z).

(** [syscall_init] and [idt_init] have done their work. *)
Definition calls_ready (s : sys H A) : Prop :=
  soft_int (cpu (kern s)) 3 0x80 = Some (SELECTOR_K_CODE, syscall_handler_code) ∧
  ∃ k : kst H, syscall_table k = ∅ ∧ syscall_init k = Ok (tt, kern s).

Lemma set_syscall_ok (k : kst H) t n f :
  set_syscall n f (set_syscall_table t k) = Ok (tt, set_syscall_table (<[nr n := f]> t) k).
Proof. done. Qed.

Lemma syscall_init_ok (k : kst H) : syscall_table k = ∅ → ∃ t, syscall_init k = Ok (tt, set_syscall_table t k) ∧
  (∀ j a b c, Forall (λ u, t !! eax (uc_regs u) = Some (uc_fn u)) (stubs j a b c)) ∧
  ∀ n, n < 0 ∨ 25 ≤ n → t !! n = None.
Proof.
  intros Hk. assert (set_syscall_table (syscall_table k) k = k) as E by (clear; by destruct k). rewrite Hk in E.
  eexists. split; [|split].
  - rewrite <- E at 1. unfold syscall_init. do 24 (erewrite K_step by apply set_syscall_ok). apply set_syscall_ok.
  - intros j a b c. repeat constructor.
  - intros n Hb. rewrite !lookup_insert_ne by (simpl; lia). done.
Qed.

Lemma calls_ready_table s : calls_ready s →
  (∀ j a b c, Forall (λ u, syscall_table (kern s) !! eax (uc_regs u) = Some (uc_fn u)) (stubs j a b c)) ∧
  ∀ n, n < 0 ∨ 25 ≤ n → syscall_table (kern s) !! n = None.
Proof.
  intros (_ & k & Hn & Hk). destruct (syscall_init_ok k Hn) as (t & Hi & Ht). rewrite Hk in Hi. injection Hi as ->. exact Ht.
Qed.

Lemma int80_step s r f : calls_ready s → syscall_table (kern s) !! eax r = Some f →
  int80 junk getc fuel r s = (v ← call_fn junk getc fuel f (ebx r) (ecx r) (edx r); mret (u32 v)) s.
Proof.
  intros [Hg _] Hf. unfold int80, in_kern, gets. unfold mbind at 1, K_bind at 1. cbn -[soft_int]. destruct s as [k fs]. cbn -[soft_int].
  simpl in Hg. rewrite Hg, Z.eqb_refl. unfold syscall_handler, in_kern, gets. unfold mbind at 1, K_bind at 1. cbn.
  simpl in Hf. by rewrite Hf.
Qed.

Lemma int80_none s r : calls_ready s → syscall_table (kern s) !! eax r = None → int80 junk getc fuel r s = Fault.
Proof.
  intros [Hg _] Hf. unfold int80, in_kern, gets. unfold mbind at 1, K_bind at 1. cbn -[soft_int]. destruct s as [k fs]. cbn -[soft_int].
  simpl in Hg. rewrite Hg, Z.eqb_refl. unfold syscall_handler, in_kern, gets. unfold mbind at 1, K_bind at 1. cbn.
  simpl in Hf. by rewrite Hf.
Qed.

Lemma vload_bytes_ok m c w : ∀ va, (∀ k b, w !! k = Some b → vload8 m c (va + Z.of_nat k) = Ok b) → vload_bytes (length w) m c va = Ok w.
Proof.
  induction w as [|x w IH]; intros va Hw; [done|]. cbn [length vload_bytes].
  pose proof (Hw 0%nat x eq_refl) as H0'. rewrite Z.add_0_r in H0'. rewrite H0'. bsimpl.
  rewrite (IH (va + 1)); [done|]. intros k b Hk. rewrite <- (Hw (S k) b Hk). f_equal. lia.
Qed.

(** Each stub leaves its arguments where the function expects them, and the
    function uses no register that the stub has not set. *)
Lemma stub_args j a b c x y z :
  Forall (λ u, call_fn junk getc fuel (uc_fn u) (ebx (uc_regs u)) (ecx (uc_regs u)) (edx (uc_regs u)) =
               on_args (uc_fn u) (uc_args u) x y z) (stubs j a b c).
Proof. repeat constructor. Qed.

(** C38: System calls reach their functions: with the gate and the table set up,
    every stub of syscall.c executes, through [int 0x80], exactly the kernel
    function of its name on the arguments of the call, in their order and
    converted to the types of its prototype, and returns its result, whatever
    the registers held that the call does not use; the numbers 25 to 31, which
    have no function, are calls of NULL. *)
Theorem syscall_dispatch s : calls_ready s →
  (∀ j a b c u x y z, u ∈ stubs j a b c →
     int80 junk getc fuel (uc_regs u) s = (v ← on_args (uc_fn u) (uc_args u) x y z; mret (u32 v)) s) ∧
  (∀ r, 25 ≤ eax r < 32 → int80 junk getc fuel r s = Fault).
Proof.
  intros Hr. destruct (calls_ready_table s Hr) as [Ht Hn]. split.
  - intros j a b c u x y z Hin. rewrite <- (proj1 (Forall_forall _ _) (stub_args j a b c x y z) u Hin).
    apply int80_step; [exact Hr|]. exact (proj1 (Forall_forall _ _) (Ht j a b c) u Hin).
  - intros r Hb. apply int80_none; [exact Hr|]. apply Hn. lia.
Qed.

(** C39: What a process writes appears: [write(1, buf, n)] in user code, for a
    text of fewer than 1024 characters in its memory, puts exactly that text
    at the end of what is on the screen, returns [n], and changes nothing else
    of the kernel or the file system. *)
Theorem user_write_prints s t j buf w :
  calls_ready s → tasks (kern s) !! current (kern s) = Some t → 0 ≤ buf < 2 ^ 32 →
  (∀ k b, w !! k = Some b → vload8 (phys (kern s)) (cr3 (kern s)) (buf + Z.of_nat k) = Ok b) →
  Forall char_ok w → (length w < Z.to_nat 1024)%nat →
  int80 junk getc fuel (Stub.write j 1 buf (Z.of_nat (length w))) s =
    Ok (Z.of_nat (length w), Sys (kern s) (set_console (console (files s) ++ w) (load_thread t (files s)))).
Proof.
  intros Hr Ht Hb Hw Hc Hl. rewrite (int80_step _ _ Fn_write); [|exact Hr|].
  2:{ destruct (calls_ready_table s Hr) as [Hs _]. exact (proj1 (Forall_forall _ _) (Hs j 1 buf (Z.of_nat (length w))) (UserCall _ Fn_write _) ltac:(right; left)). }
  cbn [call_fn Stub.write _syscall3 ebx ecx edx]. rewrite !(u32_small (Z.of_nat _)), !(u32_small buf) by lia. kgo.
  erewrite K_step by (eapply in_files_ok; [exact Ht|reflexivity|by destruct t]). kgo.
  erewrite K_step.
  2:{ unfold user_bytes. apply in_kern_ok. kgo. cbn [kern]. rewrite Nat2Z.id, (vload_bytes_ok _ _ w buf Hw). reflexivity. }
  erewrite K_step.
  2:{ eapply (in_files_ok _ (Sys (kern s) (load_thread t (files s)))); [exact Ht| |].
      2:{ instantiate (1 := set_console _ (load_thread t (files s))). by destruct t. }
      cbn [files]. change (load_thread t (load_thread t (files s))) with (load_thread t (files s)).
      rewrite <- (app_nil_r w) at 1. by apply sys_write_stdout. }
  unfold mret, K_ret. by rewrite u32_small by lia.
Qed.
End Dispatch.

(** ** Witnesses *)

(** A process with the text "hi!" and a newline at 0x8048000, and the gate of
    system calls. *)
Definition ex_user_ram : pmem :=
  {[ 0x100000 + 32 * 4 := 0x101007; 0x101000 + 0x48 * 4 := 0x102007; 0x102000 := 0x0a216968 ]}.
Definition ex_user_cpu : cpu_tables :=
  CpuTables (replicate 128 (GateDesc 0 0 0 0 0) ++ [make_idt_desc IDT_DESC_ATTR_DPL3 syscall_handler_code]) [] ∅
    (replicate 27 0) (1031, idt_addr) (0, 0) 0.
Definition ex_before_init : kst lheap := set_phys ex_user_ram (set_cpu ex_user_cpu ex_kst).
Definition ex_user_kst : kst lheap :=
  match syscall_init ex_before_init with Ok (_, k) => k | _ => ex_before_init end.
Definition ex_user_fs : fsys lheap (gmap Z Z) := set_fdisk ∅ ex_fs.
Definition ex_sys : sys lheap (gmap Z Z) := Sys ex_user_kst ex_user_fs.
Definition ex_regs : regs := Regs 0 0 0 0.

Lemma ex_calls_ready : calls_ready ex_sys.
Proof.
  split; [by vm_compute|]. exists ex_before_init. split; [reflexivity|].
  destruct (syscall_init_ok ex_before_init eq_refl) as (t & Ht & _). cbn [kern ex_sys]. unfold ex_user_kst. by rewrite Ht.
Qed.

Lemma syscall_dispatch_witness :
  int80 [] (mret 65) 10 (Stub.lseek ex_regs 3 10 1) ex_sys (H1 := ex_world) =
    (v ← in_files (sys_lseek 3 10 SEEK_SET); mret (u32 v)) ex_sys ∧
  int80 [] (mret 65) 10 (Regs 25 0 0 0) ex_sys (H1 := ex_world) = Fault.
Proof.
  destruct (syscall_dispatch (H1 := ex_world) [] (mret 65) 10 ex_sys ex_calls_ready) as [Hs Hn]. split.
  - apply (Hs ex_regs 3 10 1 (UserCall (Stub.lseek ex_regs 3 10 1) Fn_lseek [3; 10; 1]) 0 0 0). do 11 right. left.
  - apply Hn. done.
Defined.

Definition ex_text : list Z := [104; 105; 33; 10].
Lemma user_write_prints_witness :
  int80 [] (mret 65) 10 (Stub.write ex_regs 1 0x8048000 (Z.of_nat (length ex_text))) ex_sys (H1 := ex_world) =
    Ok (Z.of_nat (length ex_text), Sys (kern ex_sys) (set_console (console (files ex_sys) ++ ex_text)
          (load_thread (ex_task ex_A TASK_RUNNING) (files ex_sys)))).
Proof.
  apply (user_write_prints (H1 := ex_world) [] (mret 65) 10 ex_sys (ex_task ex_A TASK_RUNNING) ex_regs 0x8048000 ex_text).
  - exact ex_calls_ready.
  - by vm_compute.
  - done.
  - intros k b Hk. unfold ex_text in Hk. do 4 (destruct k as [|k]; [injection Hk as <-; by vm_compute|]). done.
  - by apply (bool_decide_unpack _); vm_compute.
  - cbn [length ex_text]. lia.
Defined.
