(* ===== verification/Shell.v ===== *)
(** * The shell (src/shell/shell.c, src/shell/buildin_cmd.c)

    The shell's variables and the file system below it.  [keys] are the keys
    that will be typed; reading when there are none left waits for ever.  What
    is printed goes to the console of the file system's state.  Words of the
    command line are pointers into it: offsets here.

    What the shell needs of the kernel is the interface [Os]: the calls of the
    file system, and those that deal with processes.  Start.v has the
    implementation by the kernel. *)

From Stdlib Require Import String Ascii.
From S2P Require Import Prelude CString CArray Stdio Path Bitmap Lists Disk Fsys Inode Dir File Fs Format.

(** A string literal, with a NUL or with a newline and a NUL. *)
Definition codes (s : string) : list Z := (λ c, Z.of_N (N_of_ascii c)) <$> list_ascii_of_string s.
Definition cstr (s : string) : list Z := codes s ++ [0].
Definition cline (s : string) : list Z := codes s ++ [10; 0].

Definition MAX_ARG_NR : Z := 16.

(** ** Splitting a command line *)

(** [cmd_str] with the position [next]; the loops consume the line. *)
Fixpoint skip_token (fuel : nat) (cmd_str : list Z) (next : nat) (token : Z) : outcome nat :=
  match fuel with
  | O => NoFuel
  | S fuel => c ← deref (cmd_str !! next); if c =? token then skip_token fuel cmd_str (S next) token else Ok next
  end.
Fixpoint skip_word (fuel : nat) (cmd_str : list Z) (next : nat) (token : Z) : outcome nat :=
  match fuel with
  | O => NoFuel
  | S fuel =>
      c ← deref (cmd_str !! next);
      if negb (c =? 0) && negb (c =? token) then skip_word fuel cmd_str (S next) token else Ok next
  end.

(** The result is the number of words, the pointers and the line with its
    words terminated. *)
Fixpoint parse_loop (fuel : nat) (cmd_str : list Z) (next : nat) (argv : list (option nat)) (argc token : Z)
    : outcome (Z * list (option nat) * list Z) :=
  match fuel with
  | O => NoFuel
  | S fuel =>
      c ← deref (cmd_str !! next);
      if c =? 0 then Ok (argc, argv, cmd_str)
      else
        next ← skip_token (S (length cmd_str)) cmd_str next token;
        c ← deref (cmd_str !! next);
        if c =? 0 then Ok (argc, argv, cmd_str)
        else
          _ ← deref (argv !! Z.to_nat argc);
          let argv := <[Z.to_nat argc := Some next]> argv in
          next ← skip_word (S (length cmd_str)) cmd_str next token;
          c ← deref (cmd_str !! next);
          let '(cmd_str, next) := if negb (c =? 0) then (<[next := 0]> cmd_str, S next) else (cmd_str, next) in
          if MAX_ARG_NR <? argc then Ok (-1, argv, cmd_str)
          else parse_loop fuel cmd_str next argv (argc + 1) token
  end.

Definition cmd_parse (cmd_str : list Z) (token : Z) : outcome (Z * list (option nat) * list Z) :=
  parse_loop (S (length cmd_str)) cmd_str 0 (replicate (Z.to_nat MAX_ARG_NR) None) 0 token.

(** ** The state *)

(** [W] is the state behind the system calls.  [os_wait] gives the pid and, when
    it stores one, the exit status; [os_execv] takes the variables [cmd_line]
    and [final_path] and the array [argv], whose first word is [final_path],
    and gives -1 or does not return to the shell. *)
Class Os (W H A : Type) := {
  os_files {B} : K (fsys H A) B → K W B;
  os_ps : K W unit;
  os_fork : K W Z;
  os_wait : K W (Z * option Z);
  os_execv : list Z → list Z → list (option nat) → K W Z;
}.

Record sh (W : Type) := Sh {
  sh_os : W;
  keys : list Z;
  cmd_line : list Z;
  final_path : list Z;
  cwd_cache : list Z;
}.
Arguments Sh {W}.
Arguments sh_os {W}.
Arguments keys {W}.
Arguments cmd_line {W}.
Arguments final_path {W}.
Arguments cwd_cache {W}.

Definition set_sh_os {W} (w : W) (s : sh W) : sh W := Sh w (keys s) (cmd_line s) (final_path s) (cwd_cache s).
Definition set_keys {W} (k : list Z) (s : sh W) : sh W := Sh (sh_os s) k (cmd_line s) (final_path s) (cwd_cache s).
Definition set_cmd_line {W} (l : list Z) (s : sh W) : sh W := Sh (sh_os s) (keys s) l (final_path s) (cwd_cache s).
Definition set_final_path {W} (l : list Z) (s : sh W) : sh W := Sh (sh_os s) (keys s) (cmd_line s) l (cwd_cache s).
Definition set_cwd_cache {W} (l : list Z) (s : sh W) : sh W := Sh (sh_os s) (keys s) (cmd_line s) (final_path s) l.

Section Shell.
Context {W H A : Type} `{Queues H} `{Allocator A} `{Os W H A}.
Abbreviation SH := (K (sh W)).
(** The stack below [path_depth_cnt], and what the variable [status] of
    [my_shell] holds before it is set. *)
Context (junk : list Z).

(** A system call. *)
Definition os {B} (m : K W B) : SH B := λ s,
  match m (sh_os s) with
  | Ok (b, w) => Ok (b, set_sh_os w s)
  | Panic => Panic
  | Fault => Fault
  | NoFuel => NoFuel
  end.
Definition call {B} (m : K (fsys H A) B) : SH B := os (os_files m).

Definition printf (format : list Z) (ap : list arg) : SH Z :=
  buf ← lift (format_buf format ap);
  n ← lift (astrlen buf);
  call (sys_write stdout_no buf n).
Definition putchar (c : Z) : SH unit := call (sys_putchar c).
(** The screen is cleared. *)
Definition clear : SH unit := call (modify (set_console [])).

(** One key from the standard input. *)
Definition read_key : SH (Z * list Z) :=
  ks ← gets keys;
  match ks with
  | [] => lift NoFuel
  | k :: ks => modify (set_keys ks) ;; call (sys_read (mret k) stdin_no 1)
  end.

Definition print_prompt : SH unit :=
  cwd ← gets cwd_cache; printf (cstr "[ForikOS@localhost %s]$ ") [AStr cwd] ;; mret tt.

(** [while (buf != pos) { putchar('\b'); *(pos--) = 0; }] *)
Fixpoint erase_line (pos : nat) : SH unit :=
  match pos with
  | O => mret tt
  | S pos' =>
      putchar 8 ;; l ← gets cmd_line; l ← lift (aset l pos 0); modify (set_cmd_line l) ;; erase_line pos'
  end.

(** The buffer is [cmd_line]; one key for each round. *)
Fixpoint readline_loop (fuel : nat) (pos : nat) (count : Z) : SH unit :=
  match fuel with
  | O => lift NoFuel
  | S fuel =>
      '(n, bs) ← read_key;
      c ← lift (deref (head bs));
      l ← gets cmd_line; l ← lift (aset l pos c); modify (set_cmd_line l) ;;
      if negb (n =? -1) && (Z.of_nat pos <? count) then
        if (c =? 10) || (c =? 13) then
          l ← gets cmd_line; l ← lift (aset l pos 0); modify (set_cmd_line l) ;; putchar 10
        else if c =? 8 then
          l ← gets cmd_line; c0 ← lift (deref (l !! 0%nat));
          if negb (c0 =? 8) then
            (if (pos =? 0)%nat then lift Fault else mret tt) ;; putchar 8 ;; readline_loop fuel (pos - 1) count
          else readline_loop fuel pos count
        else if c =? 11 then
          l ← gets cmd_line; l ← lift (aset l pos 0); modify (set_cmd_line l) ;;
          clear ;; print_prompt ;;
          l ← gets cmd_line; printf (cstr "%s") [AStr l] ;;
          readline_loop fuel pos count
        else if c =? 20 then erase_line pos ;; readline_loop fuel 0 count
        else putchar c ;; readline_loop fuel (S pos) count
      else printf (cline "readline: can't find enter_key in the cmd_line, max num of char is 128") [] ;; mret tt
  end.
Definition readline (count : Z) : SH unit := ks ← gets keys; readline_loop (S (length ks)) 0 count.

(** ** The built-in commands *)

(** The word [i] of the command line. *)
Definition word (argv : list (option nat)) (i : Z) : SH (list Z) :=
  l ← gets cmd_line;
  p ← lift (deref (argv !! Z.to_nat i));
  p ← lift (deref p);
  mret (drop p l).

Definition clear_path (path : list Z) : SH unit :=
  c ← lift (deref (path !! 0%nat));
  cwd ← (if negb (c =? SLASH) then call (sys_getcwd (replicate (Z.to_nat MAX_PATH_LEN) 0) MAX_PATH_LEN) else mret None);
  fp ← gets final_path;
  fp ← lift (make_clear_abs_path (λ _, cwd) path fp);
  modify (set_final_path fp).

Definition buildin_pwd (argc : Z) : SH unit :=
  if negb (argc =? 1) then printf (cline "pwd: no argument support!") [] ;; mret tt
  else
    fp ← gets final_path;
    r ← call (sys_getcwd fp MAX_PATH_LEN);
    match r with
    | Some fp => modify (set_final_path fp) ;; printf (cline "%s") [AStr fp] ;; mret tt
    | None => printf (cline "pwd: get current work directory failed.") [] ;; mret tt
    end.

(** Whether the directory was changed. *)
Definition buildin_cd (argc : Z) (argv : list (option nat)) : SH bool :=
  if 2 <? argc then printf (cline "cd: only support 1 argument!") [] ;; mret false
  else
    (if argc =? 1 then
       fp ← gets final_path; fp ← lift (aset fp 0 SLASH); fp ← lift (aset fp 1 0); modify (set_final_path fp)
     else w ← word argv 1; clear_path w) ;;
    fp ← gets final_path;
    r ← call (sys_chdir fp);
    if r =? -1 then printf (cline "cd: no such directory %s") [AStr fp] ;; mret false
    else mret true.

(** The arguments of [ls]: the option -l and one path; [None] when there is
    nothing to do any more. *)
Fixpoint ls_args (n : nat) (arg_idx : Z) (argv : list (option nat)) (long_info : bool) (path : option (list Z))
    : SH (option (bool * option (list Z))) :=
  match n with
  | O => mret (Some (long_info, path))
  | S n =>
      w ← word argv arg_idx;
      c ← lift (deref (w !! 0%nat));
      if c =? 45 then
        r ← lift (astrcmp (cstr "-l") w);
        if r =? 0 then ls_args n (arg_idx + 1) argv true path
        else
          r ← lift (astrcmp (cstr "-h") w);
          if r =? 0 then
            printf (codes "usage: -l list all infomation about the file." ++ [10] ++ codes "-h for help" ++ [10] ++
                    cline "list all files in the current dirctory if no option") [] ;; mret None
          else
            printf (codes "ls: invalid option %s" ++ [10] ++ cline "Try `ls -h' for more information.") [AStr w] ;; mret None
      else
        match path with
        | None => ls_args n (arg_idx + 1) argv long_info (Some w)
        | Some _ => printf (cline "ls: only support one path") [] ;; mret None
        end
  end.

(** The entry at the address [e] in the buffer of the directory [dir]. *)
Definition entry_at (dir e : Z) : SH (list Z) :=
  d ← call (get_dir dir); mret (drop (Z.to_nat (e - dir - 8)) (dir_buf d)).

(** The two loops over the entries; a directory of [n] bytes has fewer than
    [n] entries.  The result says whether the loop ended at the last entry. *)
Fixpoint ls_short (fuel : nat) (dir : Z) : SH unit :=
  match fuel with
  | O => lift NoFuel
  | S fuel =>
      e ← call (sys_readdir dir);
      if e =? NULL then mret tt
      else bs ← entry_at dir e; printf (cstr "%s ") [AStr bs] ;; ls_short fuel dir
  end.
Fixpoint ls_long (fuel : nat) (dir : Z) (sub_pathname : list Z) (pathname_len : nat) : SH bool :=
  match fuel with
  | O => lift NoFuel
  | S fuel =>
      e ← call (sys_readdir dir);
      if e =? NULL then mret true
      else
        bs ← entry_at dir e;
        let dir_e := entry_of_bytes bs in
        let ftype := if f_type dir_e =? 1 then 45 else 100 in
        sub_pathname ← lift (aset sub_pathname pathname_len 0);
        sub_pathname ← lift (astrcat sub_pathname bs);
        st ← call (sys_stat sub_pathname);
        match st with
        | None => printf (cline "ls: cannot access %s: No such file or directory") [AStr bs] ;; mret false
        | Some st =>
            printf (cline "%c  %d  %d  %s") [AInt ftype; AInt (de_i_no dir_e); AInt (st_size st); AStr bs] ;;
            ls_long fuel dir sub_pathname pathname_len
        end
  end.

Definition buildin_ls (argc : Z) (argv : list (option nat)) : SH unit :=
  opts ← ls_args (Z.to_nat (argc - 1)) 1 argv false None;
  match opts with
  | None => mret tt
  | Some (long_info, path) =>
      ok ← match path with
           | None =>
               fp ← gets final_path;
               r ← call (sys_getcwd fp MAX_PATH_LEN);
               match r with
               | Some fp => modify (set_final_path fp) ;; mret true
               | None => printf (cline "ls: getcwd for default path failed") [] ;; mret false
               end
           | Some w => clear_path w ;; mret true
           end;
      if negb ok then mret tt
      else
        pathname ← gets final_path;
        st ← call (sys_stat pathname);
        match st with
        | None => printf (cline "ls: cannot access %s: No such file or directory") [AStr pathname] ;; mret tt
        | Some st =>
            if bool_decide (st_filetype st = FT_DIRECTORY) then
              dir ← call (sys_opendir pathname);
              pathname_len ← lift (astrlen pathname);
              let n := Z.to_nat pathname_len in
              lift (if bool_decide (Z.to_nat MAX_PATH_LEN < n)%nat then Fault else Ok tt) ;;
              let sub_pathname := take n pathname ++ replicate (Z.to_nat MAX_PATH_LEN - n) 0 in
              last ← lift (deref (sub_pathname !! (n - 1)%nat));
              '(sub_pathname, n) ← (if negb (last =? SLASH) then sub ← lift (aset sub_pathname n SLASH); mret (sub, S n)
                                    else mret (sub_pathname, n));
              call (sys_rewinddir dir) ;;
              let fuel := S (Z.to_nat (st_size st)) in
              if long_info : bool then
                printf (cline "total: %d") [AInt (st_size st)] ;;
                done ← ls_long fuel dir sub_pathname n;
                if done : bool then call (sys_closedir dir) ;; mret tt else mret tt
              else ls_short fuel dir ;; printf (cline "") [] ;; call (sys_closedir dir) ;; mret tt
            else if long_info : bool then
              printf (cline "-  %d  %d  %s") [AInt (st_ino st); AInt (st_size st); AStr pathname] ;; mret tt
            else printf (cline "%s") [AStr pathname] ;; mret tt
        end
  end.

Definition buildin_ps (argc : Z) : SH unit :=
  if negb (argc =? 1) then printf (cline "ps: no argument support!") [] ;; mret tt else os os_ps.
Definition buildin_clear (argc : Z) : SH unit :=
  if negb (argc =? 1) then printf (cline "clear: no argument support!") [] ;; mret tt else clear.

Definition buildin_mkdir (argc : Z) (argv : list (option nat)) : SH Z :=
  if negb (argc =? 2) then printf (cline "mkdir: only support 1 argument!") [] ;; mret (-1)
  else
    w ← word argv 1; clear_path w ;;
    fp ← gets final_path;
    r ← lift (astrcmp (cstr "/") fp);
    if negb (r =? 0) then
      r ← call (sys_mkdir junk fp);
      if r =? 0 then mret 0 else printf (cline "mkdir: create directory %s failed.") [AStr w] ;; mret (-1)
    else mret (-1).
Definition buildin_rmdir (argc : Z) (argv : list (option nat)) : SH Z :=
  if negb (argc =? 2) then printf (cline "rmdir: only support 1 argument!") [] ;; mret (-1)
  else
    w ← word argv 1; clear_path w ;;
    fp ← gets final_path;
    r ← lift (astrcmp (cstr "/") fp);
    if negb (r =? 0) then
      r ← call (sys_rmdir fp);
      if r =? 0 then mret 0 else printf (cline "rmdir: remove %s failed.") [AStr w] ;; mret (-1)
    else mret (-1).
Definition buildin_rm (argc : Z) (argv : list (option nat)) : SH Z :=
  if negb (argc =? 2) then printf (cline "rm: only support 1 argument!") [] ;; mret (-1)
  else
    w ← word argv 1; clear_path w ;;
    fp ← gets final_path;
    r ← lift (astrcmp (cstr "/") fp);
    if negb (r =? 0) then
      r ← call (sys_unlink fp);
      if r =? 0 then mret 0 else printf (cline "rm: delete %s failed.") [AStr w] ;; mret (-1)
    else mret (-1).

(** ** The shell itself *)

(** The command is compared with the names one after the other. *)
Definition is_cmd (name : string) (w : list Z) : SH bool := r ← lift (astrcmp (cstr name) w); mret (r =? 0).

Definition run_cd (argc : Z) (argv : list (option nat)) : SH unit :=
  ok ← buildin_cd argc argv;
  if ok : bool then
    fp ← gets final_path;
    cc ← lift (astrcpy (replicate (Z.to_nat MAX_PATH_LEN) 0) fp); modify (set_cwd_cache cc)
  else mret tt.

(** A command that is a program.  The result says whether this process is still
    the shell; [while (1)] never ends. *)
Definition run_program (argv : list (option nat)) : SH bool :=
  pid ← os os_fork;
  if negb (pid =? 0) then
    '(child_pid, status) ← os os_wait;
    if child_pid =? -1 then lift Panic
    else printf (cline "child_pid %d, it's status: %d") [AInt child_pid; AInt (default (default 0 (head junk)) status)] ;; mret true
  else
    w ← word argv 0;
    clear_path w ;;
    fp ← gets final_path;
    st ← call (sys_stat fp);
    match st with
    | None => printf (cline "my_shell: cannot access %s: No such file or directory") [AStr fp] ;; lift NoFuel
    | Some _ =>
        l ← gets cmd_line;
        r ← os (os_execv l fp argv);
        if r =? -1 then lift NoFuel else mret false
    end.

Definition run_command (argc : Z) (argv : list (option nat)) : SH bool :=
  l ← gets cmd_line;
  p ← lift (deref (argv !! 0%nat));
  match p with
  | None => lift Panic
  | Some p =>
      let w := drop p l in
      b ← is_cmd "ls" w; if b : bool then buildin_ls argc argv ;; mret true else
      b ← is_cmd "cd" w; if b : bool then run_cd argc argv ;; mret true else
      b ← is_cmd "pwd" w; if b : bool then buildin_pwd argc ;; mret true else
      b ← is_cmd "ps" w; if b : bool then buildin_ps argc ;; mret true else
      b ← is_cmd "clear" w; if b : bool then buildin_clear argc ;; mret true else
      b ← is_cmd "mkdir" w; if b : bool then buildin_mkdir argc argv ;; mret true else
      b ← is_cmd "rmdir" w; if b : bool then buildin_rmdir argc argv ;; mret true else
      b ← is_cmd "rm" w; if b : bool then buildin_rm argc argv ;; mret true else
      run_program argv
  end.

(** One round of the endless loop. *)
Definition shell_round : SH bool :=
  print_prompt ;;
  modify (set_final_path (replicate (Z.to_nat MAX_PATH_LEN) 0)) ;;
  modify (set_cmd_line (replicate (Z.to_nat MAX_PATH_LEN) 0)) ;;
  readline MAX_PATH_LEN ;;
  l ← gets cmd_line;
  c ← lift (deref (l !! 0%nat));
  if c =? 0 then mret true
  else
    '(argc, argv, l) ← lift (cmd_parse l 32);
    modify (set_cmd_line l) ;;
    if argc =? -1 then printf (cline "num of arguments exceed %d") [AInt MAX_ARG_NR] ;; mret true
    else run_command argc argv.

Fixpoint shell_rounds (n : nat) : SH bool :=
  match n with O => mret true | S n => b ← shell_round; if b : bool then shell_rounds n else mret false end.
(** [n] rounds from the start. *)
Definition my_shell (n : nat) : SH bool :=
  cc ← gets cwd_cache; cc ← lift (aset cc 0 SLASH); modify (set_cwd_cache cc) ;; shell_rounds n.
End Shell.

(** ** Splitting a command line *)

Section Parse.
Context (tok : Z) (Htok : tok ≠ 0).

Lemma skip_token_ok fuel pre n s :
  head s ≠ Some tok → s ≠ [] → (n < fuel)%nat →
  skip_token fuel (pre ++ replicate n tok ++ s) (length pre) tok = Ok (length pre + n)%nat.
Proof.
  intros Hs Hne. revert fuel pre. induction n as [|n IH]; intros fuel pre Hf; (destruct fuel as [|fuel]; [lia|]); cbn [skip_token].
  - rewrite lookup_app_r, Nat.sub_diag by lia. destruct s as [|c s]; [done|]. cbn. rewrite (proj2 (Z.eqb_neq c tok)) by (intros ->; done).
    f_equal. lia.
  - rewrite lookup_app_r, Nat.sub_diag by lia. cbn [replicate app lookup list_lookup deref]. bsimpl. rewrite Z.eqb_refl.
    specialize (IH fuel (pre ++ [tok]) ltac:(lia)). rewrite length_app, Nat.add_1_r, <- app_assoc in IH. cbn [app] in IH.
    rewrite IH. f_equal. lia.
Qed.
Lemma skip_word_ok fuel pre w s :
  Forall char_ok w → Forall (λ c, c ≠ tok) w → (∃ c s', s = c :: s' ∧ (c = 0 ∨ c = tok)) → (length w < fuel)%nat →
  skip_word fuel (pre ++ w ++ s) (length pre) tok = Ok (length pre + length w)%nat.
Proof.
  intros Hw Hn (c & s' & -> & Hc). revert fuel pre. induction Hw as [|x w Hx Hw IH]; intros fuel pre Hf; (destruct fuel as [|fuel]; cbn [length] in *; [lia|]);
    cbn [skip_word]; rewrite lookup_app_r, Nat.sub_diag by lia; cbn [app lookup list_lookup deref]; bsimpl.
  - destruct Hc as [-> | ->]; [|rewrite Z.eqb_refl, andb_false_r]; f_equal; lia.
  - apply Forall_cons in Hn as [Hx2 Hn]. unfold char_ok in Hx. rewrite (proj2 (Z.eqb_neq x 0)), (proj2 (Z.eqb_neq x tok)) by (done || lia). bsimpl.
    specialize (IH Hn fuel (pre ++ [x]) ltac:(lia)). rewrite length_app, Nat.add_1_r, <- app_assoc in IH. cbn [app] in IH.
    rewrite IH. f_equal. lia.
Qed.

(** The pointers found from word [argc] on, in the final line. *)
Definition points (argv : list (option nat)) (line : list Z) (argc : nat) (ws : list (list Z)) : Prop :=
  ∀ i w, ws !! i = Some w → ∃ p, argv !! (argc + i)%nat = Some (Some p) ∧ holds (drop p line) w.

(** What the rest of the line starts with: tokens and the end, or tokens, a
    word, and the end or another token. *)
Lemma line_cases s : Forall char_ok s →
  (split_on tok s [] = [] ∧ ∃ n, s = replicate n tok) ∨
  (∃ n w s1, s = replicate n tok ++ w ++ s1 ∧ w ≠ [] ∧ Forall char_ok w ∧ Forall (λ c, c ≠ tok) w ∧ Forall char_ok s1 ∧
     ((s1 = [] ∧ split_on tok s [] = [w]) ∨ ∃ s2, s1 = tok :: s2 ∧ split_on tok s [] = w :: split_on tok s2 [])).
Proof.
  intros Hs. destruct (tokens_split tok s) as (n & s0 & -> & Hn). apply Forall_app in Hs as [_ Hs].
  destruct (word_split tok s0) as (w & s1 & -> & Hw & Hs1). apply Forall_app in Hs as [Hcw Hcs].
  rewrite split_on_tokens, split_on_word by done. destruct w as [|c w].
  - left. destruct Hs1 as [-> | Hs1]; [|by destruct Hn]. split; [done|]. exists n. by rewrite app_nil_r.
  - right. exists n, (c :: w), s1. split_and!; try done. destruct Hs1 as [-> | [s2 ->]]; [by left|]. right. exists s2. split; [done|].
    cbn [app split_on flush]. by rewrite Z.eqb_refl.
Qed.

(** The step over the tokens. *)
Lemma parse_start fuel pre n w l argv argc :
  w ≠ [] → Forall char_ok w → Forall (λ c, c ≠ tok) w →
  let line := pre ++ replicate n tok ++ w ++ l in
  parse_loop (S fuel) line (length pre) argv argc tok =
    (_ ← deref (argv !! Z.to_nat argc);
     next ← skip_word (S (length line)) line (length pre + n) tok;
     c ← deref (line !! next);
     let '(cmd_str, next) := if negb (c =? 0) then (<[next := 0]> line, S next) else (line, next) in
     if MAX_ARG_NR <? argc then Ok (-1, <[Z.to_nat argc := Some (length pre + n)%nat]> argv, cmd_str)
     else parse_loop fuel cmd_str next (<[Z.to_nat argc := Some (length pre + n)%nat]> argv) (argc + 1) tok).
Proof.
  intros Hne Hcw Hw line. cbn [parse_loop]. destruct w as [|x w]; [done|].
  pose proof Hcw as [Hx _]%Forall_cons. pose proof Hw as [Hxt _]%Forall_cons. unfold char_ok in Hx.
  assert (∃ y, line !! length pre = Some y ∧ y ≠ 0) as (y & Hy & Hy0).
  { unfold line. rewrite lookup_app_r, Nat.sub_diag by lia. destruct n; cbn; [exists x|exists tok]; split; (done || lia). }
  rewrite Hy. bsimpl. rewrite (proj2 (Z.eqb_neq y 0)) by done.
  assert (skip_token (S (length line)) line (length pre) tok = Ok (length pre + n)%nat) as ->.
  { apply skip_token_ok; [cbn; congruence|done|]. unfold line. rewrite !length_app, length_replicate. lia. }
  bsimpl. assert (line !! (length pre + n)%nat = Some x) as Hlx.
  { unfold line. rewrite app_assoc, lookup_app_r by (rewrite length_app, length_replicate; lia).
    rewrite length_app, length_replicate, Nat.sub_diag. done. }
  rewrite Hlx. cbn [deref]. bsimpl. rewrite (proj2 (Z.eqb_neq x 0)) by lia. done.
Qed.

(** The step over a word, up to the recursive call. *)
Lemma parse_word fuel pre n w c s1 argv argc :
  w ≠ [] → Forall char_ok w → Forall (λ c, c ≠ tok) w → c = 0 ∨ c = tok → 0 ≤ argc → (Z.to_nat argc < length argv)%nat →
  parse_loop (S fuel) (pre ++ replicate n tok ++ w ++ c :: s1) (length pre) argv argc tok =
    if MAX_ARG_NR <? argc then Ok (-1, <[Z.to_nat argc := Some (length pre + n)%nat]> argv, pre ++ replicate n tok ++ w ++ 0 :: s1)
    else parse_loop fuel (pre ++ replicate n tok ++ w ++ 0 :: s1)
           (length pre + n + length w + (if (c =? 0)%Z then 0 else 1))%nat (<[Z.to_nat argc := Some (length pre + n)%nat]> argv) (argc + 1) tok.
Proof.
  intros Hne Hcw Hw Hc Ha Hl. rewrite parse_start by done. set (line := pre ++ replicate n tok ++ w ++ c :: s1).
  destruct (lookup_lt_is_Some_2 argv (Z.to_nat argc) Hl) as [o Ho]. rewrite Ho. cbn [deref]. bsimpl.
  assert (line = (pre ++ replicate n tok) ++ w ++ c :: s1) as Hline by (unfold line; by rewrite <- app_assoc).
  assert (length (pre ++ replicate n tok) = (length pre + n)%nat) as Hp by (by rewrite length_app, length_replicate). rewrite <- Hp.
  assert (skip_word (S (length line)) line (length (pre ++ replicate n tok)) tok = Ok (length (pre ++ replicate n tok) + length w)%nat) as ->.
  { rewrite Hline at 2. apply skip_word_ok; [done|done|by eauto|]. rewrite Hline, !length_app. lia. }
  bsimpl. set (q := (length (pre ++ replicate n tok) + length w)%nat). assert (length ((pre ++ replicate n tok) ++ w) = q) as Hq by (by rewrite length_app).
  assert (line !! q = Some c) as Hlc by (rewrite Hline, app_assoc, lookup_app_r, Hq, Nat.sub_diag by lia; done).
  rewrite Hlc. cbn [deref]. bsimpl.
  assert ((if negb (c =? 0) then (<[q := 0]> line, S q) else (line, q)) =
    (pre ++ replicate n tok ++ w ++ 0 :: s1, (q + (if (c =? 0)%Z then 0 else 1))%nat)) as ->; [|done].
  destruct (Z.eqb_spec c 0) as [-> |Hc0]; cbn [negb]; [f_equal; lia|]. f_equal; [|lia].
  rewrite Hline, app_assoc, insert_app_r_alt, Hq, Nat.sub_diag by lia. cbn [insert list_insert]. by rewrite <- !app_assoc.
Qed.

(** A line of tokens only. *)
Lemma parse_tokens fuel pre n r argv argc :
  parse_loop (S fuel) (pre ++ replicate n tok ++ 0 :: r) (length pre) argv argc tok = Ok (argc, argv, pre ++ replicate n tok ++ 0 :: r).
Proof.
  cbn [parse_loop]. set (line := pre ++ _).
  assert (∃ y, line !! length pre = Some y ∧ (y = 0 → n = 0%nat)) as (y & Hy & Hy0).
  { unfold line. rewrite lookup_app_r, Nat.sub_diag by lia. destruct n; cbn; eexists; (split; [done|]); done. }
  rewrite Hy. bsimpl. destruct (Z.eqb_spec y 0) as [Hz|Hz]; [done|].
  assert (skip_token (S (length line)) line (length pre) tok = Ok (length pre + n)%nat) as ->.
  { apply skip_token_ok; [cbn; congruence|done|]. unfold line. rewrite !length_app, length_replicate. lia. }
  bsimpl. assert (line !! (length pre + n)%nat = Some 0) as ->; [|done].
  unfold line. rewrite app_assoc, lookup_app_r by (rewrite length_app, length_replicate; lia).
  rewrite length_app, length_replicate, Nat.sub_diag. done.
Qed.

(** The pointer to a word that has been terminated. *)
Lemma points_cons argv' line p argc w ws :
  argv' !! argc = Some (Some p) → holds (drop p line) w → points argv' line (S argc) ws → points argv' line argc (w :: ws).
Proof.
  intros Ha Hh Hp [|i] v Hv; [injection Hv as <-; exists p; by rewrite Nat.add_0_r|].
  destruct (Hp i v Hv) as (q & Hq & Hhq). exists q. by rewrite Nat.add_succ_r.
Qed.

Lemma holds_word pre n w l : Forall char_ok w → holds (drop (length pre + n) (pre ++ replicate n tok ++ w ++ 0 :: l)) w.
Proof.
  intros Hw. rewrite app_assoc, drop_app_length'; [by exists l|]. by rewrite length_app, length_replicate.
Qed.

Lemma parse_loop_ok fuel pre s r argv argc :
  Forall char_ok s → 0 ≤ argc → length argv = 16%nat → argc + Z.of_nat (length (split_on tok s [])) ≤ 16 → (length s < fuel)%nat →
  ∃ argv' l, parse_loop fuel (pre ++ s ++ 0 :: r) (length pre) argv argc tok =
      Ok (argc + Z.of_nat (length (split_on tok s [])), argv', pre ++ l) ∧
    points argv' (pre ++ l) (Z.to_nat argc) (split_on tok s []) ∧ (∀ j, (j < Z.to_nat argc)%nat → argv' !! j = argv !! j).
Proof.
  revert pre s argv argc. induction fuel as [|fuel IH]; intros pre s argv argc Hs Ha Hl Hn Hf; [lia|].
  destruct (line_cases s Hs) as [[-> (n & ->)] | (n & w & s1 & -> & Hne & Hcw & Hw & Hs1 & Hcase)].
  { eexists argv, _. rewrite parse_tokens, Z.add_0_r. split_and!; [done| |done]. intros i v Hv. done. }
  assert (0 < length w)%nat as Hw0 by (destruct w; [done|cbn; lia]). rewrite !length_app in Hf.
  assert (∀ v, (<[Z.to_nat argc := Some v]> argv) !! Z.to_nat argc = Some (Some v)) as Hset by (intros v; apply list_lookup_insert_eq; destruct Hcase as [[_ Hc] | (? & _ & Hc)]; rewrite Hc in Hn; cbn [length] in Hn; lia).
  destruct Hcase as [[-> Hsp] | (s2 & -> & Hsp)]; rewrite Hsp in Hn |- *; cbn [length] in Hn, Hf; rewrite <- !app_assoc; cbn [app].
  - rewrite parse_word by (auto || lia). unfold MAX_ARG_NR. rewrite (proj2 (Z.ltb_ge 16 argc)) by lia. cbn [length].
    destruct fuel as [|fuel]; [lia|]. pose proof (parse_tokens fuel (pre ++ replicate n tok ++ w) 0 r) as Hp. cbn [replicate app] in Hp.
    rewrite !length_app, length_replicate, <- !app_assoc, Nat.add_assoc in Hp. change (if 0 =? 0 then 0%nat else 1%nat) with 0%nat. rewrite Nat.add_0_r, Hp.
    eexists _, _. split; [reflexivity|]. split.
    + eapply points_cons; [apply Hset|by apply holds_word|]. intros i v Hv. done.
    + intros j Hj. by rewrite list_lookup_insert_ne by lia.
  - apply Forall_cons in Hs1 as [_ Hs2]. rewrite parse_word by (auto || lia). unfold MAX_ARG_NR. rewrite (proj2 (Z.ltb_ge 16 argc)) by lia.
    rewrite (proj2 (Z.eqb_neq tok 0)) by done.
    destruct (IH (pre ++ replicate n tok ++ w ++ [0]) s2 (<[Z.to_nat argc := Some (length pre + n)%nat]> argv) (argc + 1) Hs2 ltac:(lia)
      ltac:(by rewrite length_insert) ltac:(lia) ltac:(lia)) as (argv' & l & Hp & Hpt & Hfr).
    replace (Z.to_nat (argc + 1)) with (S (Z.to_nat argc)) in Hpt, Hfr by lia.
    rewrite !length_app, length_replicate, <- !app_assoc in Hp. cbn [length app] in Hp. rewrite !Nat.add_assoc in Hp. rewrite Hp.
    rewrite <- !app_assoc in Hpt. cbn [app] in Hpt. eexists _, _. split; [do 3 f_equal; cbn [length]; lia|]. split.
    + eapply points_cons; [rewrite Hfr by lia; apply Hset|by apply holds_word|exact Hpt].
    + intros j Hj. rewrite Hfr by lia. by rewrite list_lookup_insert_ne by lia.
Qed.

(** The array of pointers overflows with the seventeenth word. *)
Lemma parse_loop_overflow fuel pre s r argv argc :
  Forall char_ok s → 0 ≤ argc ≤ 16 → length argv = 16%nat → 16 < argc + Z.of_nat (length (split_on tok s [])) → (length s < fuel)%nat →
  parse_loop fuel (pre ++ s ++ 0 :: r) (length pre) argv argc tok = Fault.
Proof.
  revert pre s argv argc. induction fuel as [|fuel IH]; intros pre s argv argc Hs Ha Hl Hn Hf; [lia|].
  destruct (line_cases s Hs) as [[Hsp _] | (n & w & s1 & -> & Hne & Hcw & Hw & Hs1 & Hcase)]; [rewrite Hsp in Hn; cbn in Hn; lia|].
  rewrite <- !app_assoc. destruct (decide (argc = 16)) as [-> | Hlt].
  { rewrite parse_start, lookup_ge_None_2 by (done || lia). done. }
  rewrite !length_app in Hf. destruct Hcase as [[-> Hsp] | (s2 & -> & Hsp)]; rewrite Hsp in Hn; cbn [length app] in *; [lia|].
  apply Forall_cons in Hs1 as [_ Hs2]. rewrite parse_word by (auto || lia). unfold MAX_ARG_NR. rewrite (proj2 (Z.ltb_ge 16 argc)) by lia.
  rewrite (proj2 (Z.eqb_neq tok 0)) by done.
  specialize (IH (pre ++ replicate n tok ++ w ++ [0]) s2 (<[Z.to_nat argc := Some (length pre + n)%nat]> argv) (argc + 1) Hs2 ltac:(lia)
    ltac:(by rewrite length_insert) ltac:(lia) ltac:(lia)).
  rewrite !length_app, length_replicate, <- !app_assoc in IH. cbn [length app] in IH. rewrite !Nat.add_assoc in IH. exact IH.
Qed.
End Parse.

(** C30: [cmd_parse] splits a line into its words: up to 16 of them, it returns
    their number, and the pointers it stores lead to the words, each of them
    terminated, in order; with more than 16 words it writes behind the array
    of pointers before it looks at their number. *)
Theorem cmd_parse_splits tok s r :
  tok ≠ 0 → Forall char_ok s →
  let ws := split_on tok s [] in
  ((length ws ≤ 16)%nat → ∃ argv line, cmd_parse (s ++ 0 :: r) tok = Ok (Z.of_nat (length ws), argv, line) ∧ points argv line 0 ws) ∧
  ((16 < length ws)%nat → cmd_parse (s ++ 0 :: r) tok = Fault).
Proof.
  intros Ht Hs ws. unfold cmd_parse. split; intros Hn.
  - destruct (parse_loop_ok tok Ht (S (length (s ++ 0 :: r))) [] s r (replicate (Z.to_nat MAX_ARG_NR) None) 0 Hs ltac:(lia) ltac:(done)
      ltac:(unfold ws in Hn; lia) ltac:(rewrite length_app; lia)) as (argv & l & Hp & Hpt & _). by exists argv, l.
  - apply (parse_loop_overflow tok Ht (S (length (s ++ 0 :: r))) [] s r _ 0); [done|lia|done|unfold ws in Hn; lia|rewrite length_app; lia].
Qed.

(** ** Reading a line *)

(** What the keys up to the end of the line amount to, with the keys behind
    it: a line of fewer than [room] characters that backspace shortens and
    control-u clears. *)
Fixpoint edit (room : nat) (ks line : list Z) : option (list Z * list Z) :=
  match ks with
  | [] => None
  | k :: ks =>
      if bool_decide (room ≤ length line)%nat then None
      else if (k =? 10) || (k =? 13) then Some (line, ks)
      else if k =? 8 then edit room ks (take (length line - 1) line)
      else if k =? 11 then edit room ks line
      else if k =? 20 then edit room ks []
      else edit room ks (line ++ [k])
  end.

Definition plain (c : Z) : Prop := char_ok c ∧ c ≠ 8 ∧ c ≠ 10 ∧ c ≠ 11 ∧ c ≠ 13 ∧ c ≠ 20.

(** The file system alone: a system without processes. *)
Definition files_os {H A} : Os (fsys H A) H A := {|
  os_files B op := op;
  os_ps := mret tt;
  os_fork := mret (-1);
  os_wait := mret (-1, None);
  os_execv _ _ _ := mret (-1);
|}.

Section Readline.
Context {H A : Type} `{Queues H} `{Allocator A}.
#[local] Existing Instance files_os.
Implicit Types s : sh (fsys H A).

(** The states of the loop: the console, the keys and the line change. *)
Definition typed s (c ks l : list Z) : sh (fsys H A) := Sh (set_console c (sh_os s)) ks l (final_path s) (cwd_cache s).

Lemma typed_self s : s = typed s (console (sh_os s)) (keys s) (cmd_line s).
Proof. destruct s as [f ? ? ? ?]. unfold typed. cbn. by destruct f. Qed.
Lemma putchar_typed s c ks l ch : putchar ch (typed s c ks l) = Ok (tt, typed s (c ++ [ch]) ks l).
Proof. done. Qed.
Lemma clear_typed s c ks l : clear (typed s c ks l) = Ok (tt, typed s [] ks l).
Proof. done. Qed.
Lemma read_key_typed s c k ks l : read_key (typed s c (k :: ks) l) = Ok ((1, [k]), typed s c ks l).
Proof. done. Qed.

Lemma printf_typed s c ks l f ap w :
  Forall char_ok f → Forall arg_ok ap → Stdio.render f ap = Some w → Forall char_ok w → (length w < Z.to_nat 1024)%nat →
  ∃ n c', printf (f ++ [0]) ap (typed s c ks l) = Ok (n, typed s c' ks l).
Proof.
  intros Hf Ha Hr Hw Hl. unfold printf, format_buf. change 1024%nat with (Z.to_nat 1024).
  remember (Z.to_nat 1024) as m eqn:Em. rewrite (vsprintf_ok f [] ap w m) by done. bsimpl. kgo.
  rewrite (astrlen_ok _ w); [|exists (replicate (m - S (length w)) 0); split; [|done]; by replace (m - length w)%nat with (S (m - S (length w))) by lia].
  kgo. unfold call, os. cbn [sh_os typed os_files files_os]. rewrite (sys_write_stdout _ w) by (done || lia).
  eexists _, _. reflexivity.
Qed.

Lemma erase_typed s n c ks l :
  (n < length l)%nat → ∃ c' l', erase_line n (typed s c ks l) = Ok (tt, typed s c' ks l') ∧ length l' = length l.
Proof.
  revert c l. induction n as [|n IH]; intros c l Hn; [by eexists _, _|]. cbn [erase_line]. kstep (putchar_typed s c ks l 8).
  cbn [cmd_line typed]. unfold aset. destruct (lookup_lt_is_Some_2 l (S n) Hn) as [x Hx]. rewrite Hx. cbn [deref]. bsimpl. kgo.
  destruct (IH (c ++ [8]) (<[S n := 0]> l)) as (c' & l' & He & Hl'); [rewrite length_insert; lia|].
  exists c', l'. rewrite length_insert in Hl'. split; [exact He|exact Hl'].
Qed.

(** The line so far is at the start of the buffer. *)
Definition line_at (l line : list Z) : Prop := take (length line) l = line ∧ Forall plain line.

Lemma holds_chars a w : holds a w → chars a = w.
Proof.
  intros (r & -> & Hw). induction Hw as [|x w Hx Hw IH]; [done|]. cbn [app chars]. unfold char_ok in Hx.
  rewrite (proj2 (Z.eqb_neq x 0)) by lia. by rewrite IH.
Qed.
Lemma holds_char_ok a w : holds a w → Forall char_ok w.
Proof. by intros (r & _ & Hw). Qed.
Lemma plain_chars w : Forall plain w → Forall char_ok w.
Proof. intros Hw. eapply Forall_impl; [exact Hw|]. by intros ? []. Qed.

(** The line in the buffer, after a character was stored behind it. *)
Lemma line_at_set l line k :
  line_at l line → (length line < length l)%nat →
  line_at (<[length line := k]> l) line ∧ aset l (length line) k = Ok (<[length line := k]> l) ∧
  (plain k → line_at (<[length line := k]> l) (line ++ [k])) ∧ (k = 0 → holds (<[length line := k]> l) line).
Proof.
  intros [Ht Hp] Hl. destruct (lookup_lt_is_Some_2 l (length line) Hl) as [x Hx].
  assert (<[length line := k]> l = line ++ k :: drop (S (length line)) l) as E by (rewrite insert_take_drop by done; by rewrite Ht).
  split; [|split; [|split]].
  - split; [|done]. rewrite E. by apply take_app_length.
  - unfold aset. by rewrite Hx.
  - intros Hk. split; [|apply Forall_app; split; [done|by constructor]]. rewrite E. change (k :: drop (S (length line)) l) with ([k] ++ drop (S (length line)) l).
    rewrite app_assoc. apply take_app_length.
  - intros ->. rewrite E. eexists. split; [done|by apply plain_chars].
Qed.

Lemma codes_ok (s : string) : forallb (λ c, (1 <=? c) && (c <? 256)) (codes s) = true → Forall char_ok (codes s).
Proof.
  intros Hs. apply Forall_forall. intros c Hc. apply forallb_forall with (x := c) in Hs; [|by apply list_elem_of_In].
  apply andb_true_iff in Hs as [?%Z.leb_le ?%Z.ltb_lt]. split; lia.
Qed.

Lemma prompt_typed s cwd c ks l :
  holds (cwd_cache s) cwd → (length cwd < Z.to_nat 900)%nat → ∃ c', print_prompt (typed s c ks l) = Ok (tt, typed s c' ks l).
Proof.
  intros Hcwd Hcl. unfold print_prompt. kgo. cbn [cwd_cache typed]. pose proof (holds_chars _ _ Hcwd) as Hch.
  destruct (printf_typed s c ks l (codes "[ForikOS@localhost %s]$ ") [AStr (cwd_cache s)] (codes "[ForikOS@localhost " ++ cwd ++ codes "]$ "))
    as (n & c' & Hpr).
  - apply codes_ok. reflexivity.
  - constructor; [|constructor]. cbn. by rewrite Hch.
  - rewrite <- Hch. reflexivity.
  - apply Forall_app. split; [apply codes_ok; reflexivity|]. apply Forall_app. split; [by eapply holds_char_ok|apply codes_ok; reflexivity].
  - rewrite !length_app. change (length (codes "[ForikOS@localhost ")) with 19%nat. change (length (codes "]$ ")) with 3%nat. lia.
  - exists c'. change (cstr "[ForikOS@localhost %s]$ ") with (codes "[ForikOS@localhost %s]$ " ++ [0]). kstep Hpr. done.
Qed.

(** The line is printed again. *)
Lemma reprint_typed s c ks l line :
  holds l line → (length line < Z.to_nat 512)%nat → ∃ n c', printf (cstr "%s") [AStr l] (typed s c ks l) = Ok (n, typed s c' ks l).
Proof.
  intros Hl Hll. pose proof (holds_chars _ _ Hl) as Hch. apply (printf_typed s c ks l (codes "%s") [AStr l] line).
  - apply codes_ok. reflexivity.
  - constructor; [|constructor]. cbn. by rewrite Hch.
  - rewrite <- Hch. cbn. by rewrite app_nil_r.
  - by eapply holds_char_ok.
  - lia.
Qed.

Lemma readline_loop_ok s cwd fuel ks line line' rest c l :
  holds (cwd_cache s) cwd → (length cwd < Z.to_nat 900)%nat → Forall char_ok ks → length l = Z.to_nat 512 →
  line_at l line → edit (Z.to_nat 512) ks line = Some (line', rest) → (length ks < fuel)%nat →
  ∃ c' l', readline_loop fuel (length line) 512 (typed s c ks l) = Ok (tt, typed s c' rest l') ∧ holds l' line'.
Proof.
  intros Hcwd Hcl. revert ks line c l. induction fuel as [|fuel IH]; intros ks line c l Hks Hl Hat He Hf; [lia|].
  destruct ks as [|k ks]; [done|]. cbn [edit] in He. case_bool_decide as Hroom; [done|]. cbn [length] in Hf.
  apply Forall_cons in Hks as [Hk Hks]. cbn [readline_loop]. kstep (read_key_typed s c k ks l). cbn [head deref]. kgo. change (cmd_line (typed s c ks l)) with l.
  destruct (line_at_set l line k Hat ltac:(lia)) as (Hat1 & Hset & Hplain & _). rewrite Hset. kgo.
  change (negb (1 =? -1)) with true. cbn [andb]. rewrite (proj2 (Z.ltb_lt _ 512)) by lia. cbv iota.
  set (l1 := <[length line := k]> l) in *. assert (length l1 = Z.to_nat 512) as Hl1 by (unfold l1; by rewrite length_insert).
  change (set_cmd_line l1 (typed s c ks l)) with (typed s c ks l1).
  destruct (line_at_set l1 line 0 Hat1 ltac:(lia)) as (Hat0 & Hset0 & _ & Hholds0). specialize (Hholds0 eq_refl).
  set (l0 := <[length line := 0]> l1) in *. assert (length l0 = Z.to_nat 512) as Hl0 by (unfold l0; by rewrite length_insert).
  destruct ((k =? 10) || (k =? 13)) eqn:Enl.
  { injection He as <- <-. kgo. change (cmd_line (typed s c ks l1)) with l1. rewrite Hset0. kgo. eexists _, l0. split; [reflexivity|exact Hholds0]. }
  apply orb_false_iff in Enl as [?%Z.eqb_neq ?%Z.eqb_neq].
  destruct (Z.eqb_spec k 8) as [-> |Hk8].
  { kgo. change (cmd_line (typed s c ks l1)) with l1. destruct line as [|x line].
    - assert (l1 !! 0%nat = Some 8) as -> by (unfold l1; apply list_lookup_insert_eq; lia). kgo. change (negb (8 =? 8)) with false. cbv iota.
      apply (IH ks []); [done|exact Hl1|exact Hat1|exact He|lia].
    - assert (l1 !! 0%nat = Some x) as Hx by (destruct Hat1 as [Ht1 _]; destruct l1; [done|]; cbn in Ht1; injection Ht1 as -> _; done).
      destruct Hat1 as [Ht1 Hp1]. pose proof Hp1 as [[_ (? & _)] _]%Forall_cons. rewrite Hx. cbn [deref]. kgo. rewrite (proj2 (Z.eqb_neq x 8)) by done. cbn [negb]. cbv iota. kgo.
      cbn [length Nat.eqb]. cbv iota. kgo. kstep (putchar_typed s c ks l1 8). cbn [length] in He.
      replace (S (length line) - 1)%nat with (length (take (S (length line) - 1) (x :: line))) by (rewrite length_take; cbn [length]; lia).
      apply IH; [done|done| |exact He|lia]. split; [|by apply Forall_take].
      rewrite length_take. cbn [length]. replace ((S (length line) - 1) `min` S (length line))%nat with (S (length line) - 1)%nat by lia.
      rewrite <- Ht1. rewrite take_take. cbn [length]. f_equal. lia. }
  destruct (Z.eqb_spec k 11) as [-> |Hk11].
  { kgo. change (cmd_line (typed s c ks l1)) with l1. rewrite Hset0. kgo. change (set_cmd_line l0 (typed s c ks l1)) with (typed s c ks l0).
    kstep (clear_typed s c ks l0). destruct (prompt_typed s cwd [] ks l0 Hcwd Hcl) as (c1 & Hpr). kstep Hpr. change (cmd_line (typed s c1 ks l0)) with l0.
    destruct (reprint_typed s c1 ks l0 line Hholds0 ltac:(lia)) as (n & c2 & Hre). kstep Hre. apply IH; (done || lia). }
  destruct (Z.eqb_spec k 20) as [-> |Hk20].
  { destruct (erase_typed s (length line) c ks l1 ltac:(lia)) as (c' & l' & Her & Hl'). kstep Her.
    apply (IH ks []); [done|lia|split; [done|constructor]|done|lia]. }
  kstep (putchar_typed s c ks l1 k). replace (S (length line)) with (length (line ++ [k])) by (rewrite length_app; cbn; lia).
  apply IH; [done|done|apply Hplain; split_and!; done|done|lia].
Qed.

(** Reading a line returns with the line that the keys up to Enter amount
    to, terminated, in the buffer: every other key adds a character, backspace
    takes the last one away (at the start it does nothing), control-u all of
    them, control-l shows the line again; the keys behind Enter are still
    there, and apart from the screen nothing changes.  The line must stay
    shorter than the buffer. *)
Theorem readline_edits s cwd line rest :
  holds (cwd_cache s) cwd → (length cwd < Z.to_nat 900)%nat → Forall char_ok (keys s) → length (cmd_line s) = Z.to_nat 512 →
  edit (Z.to_nat 512) (keys s) [] = Some (line, rest) →
  ∃ c l, readline MAX_PATH_LEN s = Ok (tt, typed s c rest l) ∧ holds l line.
Proof.
  intros Hcwd Hcl Hks Hl He. unfold readline. kgo.
  replace (readline_loop _ 0 _ s) with (readline_loop (S (length (keys s))) 0 512 (typed s (console (sh_os s)) (keys s) (cmd_line s)))
    by (by rewrite <- typed_self).
  apply (readline_loop_ok s cwd (S (length (keys s))) (keys s) [] line rest); [done|done|done|done|split; [done|constructor]|done|lia].
Qed.
End Readline.

(** ** Witnesses *)

#[local] Existing Instance files_os.
Definition ex_shell (ks : list Z) : sh (fsys lheap (gmap Z Z)) :=
  Sh ex_fs ks (replicate (Z.to_nat 512) 0) (replicate (Z.to_nat 512) 0) (SLASH :: replicate (Z.to_nat 511) 0).

(** "ls  /a " *)
Lemma cmd_parse_splits_witness :
  ∃ argv line, cmd_parse (codes "ls  /a " ++ [0]) 32 = Ok (2, argv, line) ∧ points argv line 0 [codes "ls"; codes "/a"].
Proof.
  destruct (cmd_parse_splits 32 (codes "ls  /a ") []) as [Hp _].
  - discriminate.
  - apply codes_ok. reflexivity.
  - apply Hp. vm_compute. repeat constructor.
Defined.

(** "pwf", backspace, "d", Enter and another key. *)
Lemma readline_edits_witness :
  ∃ c l, readline MAX_PATH_LEN (ex_shell (codes "pwf" ++ [8] ++ codes "d" ++ [10; 97])) = Ok (tt, typed (ex_shell (codes "pwf" ++ [8] ++ codes "d" ++ [10; 97])) c [97] l) ∧
    holds l (codes "pwd").
Proof.
  apply (readline_edits (ex_shell (codes "pwf" ++ [8] ++ codes "d" ++ [10; 97])) [SLASH] (codes "pwd") [97]).
  - exists (replicate (Z.to_nat 510) 0). split; [reflexivity|]. repeat constructor; discriminate.
  - cbn [length]. lia.
  - repeat constructor; discriminate.
  - apply length_replicate.
  - reflexivity.
Defined.

(** A session of the shell on a blank disk: what the screen shows. *)
Definition ex_screen (n : nat) (ks : list Z) : outcome string :=
  '(_, s) ← filesys_init ex_pad [ex_raw] [(ex_name, ex_raw)] ex_fs;
  let z := replicate (Z.to_nat 512) 0 in
  '(_, s) ← my_shell ex_junk n (Sh s ks z z z);
  Ok (string_of_list_ascii ((λ c, ascii_of_N (Z.to_N c)) <$> console (sh_os s))).

Example shell_session :
  ex_screen 4 (codes "mkdir a" ++ [10] ++ codes "cd a" ++ [10] ++ codes "pwd" ++ [10] ++ codes "ls" ++ [10]) =
  Ok "[ForikOS@localhost /]$ mkdir a
[ForikOS@localhost /]$ cd a
[ForikOS@localhost /a]$ pwd
/a
[ForikOS@localhost /a]$ ls
. .. 
"%string.
Proof. vm_compute. reflexivity. Qed.

(** A line of blanks stops the shell: it compares with a NULL word. *)
Example blank_line_panics : ex_screen 1 (codes "  " ++ [10]) = Panic.
Proof. vm_compute. reflexivity. Qed.
