(* ===== verification/Start.v ===== *)
(** * Start-up and the main program (src/kernel/init.c, src/main/main.c, idle
    and kernel_thread of src/thread/thread.c, src/lib/debug.c,
    src/user/assert.c)

    [init_all] runs on the joint state of kernel and file system; [init] and
    the shell run on top of the system calls, for which [kernel_os] is the
    implementation by the kernel.

    Buffers of the file system are values (Fs.v): of [prog_buf] of main, its
    address and the sectors read into it are kept.  Boot.v proves what
    [mem_init] and [thread_init] leave; here are the report of a failed
    assertion and a round of [idle].

    The size of memory that the loader leaves at 0xb00 is the argument
    [mem_bytes_total]; [fuel] bounds the chain of extended partitions, [pad] is
    the padding of the super block (Format.v).  The sectors that the file
    system uses are those of its own state. *)

From Stdlib Require Import String Ascii.
From S2P Require Import Prelude CString CArray Stdio Path Bitmap Lists PageTable Disk Ata Kernel Sched Sync IoQueue Keyboard Memory Malloc Ide Interrupt Thread Process.
From S2P Require Import Fsys Inode Dir File Fs Format System WaitExit Fork ForkMemory Exec Syscall Shell.

(** The address of [intr_hd_handler]. *)
Definition intr_hd_code : Z := 0xc0001e00.

Section Kernel.
Context {H : Type} `{Queues H} `{World H}.

(** ** A failed assertion

    [digits] is what [put_int] of print.asm shows of a number.  [panic_text]
    is [panic_spin] up to its endless loop. *)
Definition panic_text (digits : Z → list Z) (filename : list Z) (line : Z) (func condition : list Z) : K (kst H) unit :=
  intr_disable ;;
  put_chars ([10; 10; 10] ++ codes "!!!!!! error !!!!!!!!" ++ [10]) ;;
  put_chars (codes "filename:") ;; put_chars filename ;; put_chars [10] ;;
  put_chars (codes "line:") ;; put_chars (digits line) ;; put_chars [10] ;;
  put_chars (codes "function:") ;; put_chars func ;; put_chars [10] ;;
  put_chars (codes "condition:") ;; put_chars condition ;; put_chars [10].
Definition panic_spin (digits : Z → list Z) (filename : list Z) (line : Z) (func condition : list Z) : K (kst H) unit :=
  panic_text digits filename line func condition ;; lift Panic.

(** ** The first function of a thread, and the idle thread

    One round of [idle]: the processor waits behind [sti] for an interrupt. *)
Definition kernel_thread (function : Z → K (kst H) unit) (func_arg : Z) : K (kst H) unit :=
  intr_enable ;; function func_arg.
Definition idle_round : K (kst H) unit := thread_block TASK_BLOCKED ;; modify (set_intr true).
Fixpoint idle (n : nat) : K (kst H) unit :=
  match n with O => mret tt | S n => idle_round ;; idle n end.

(** A failed assertion shows where it failed, with interrupts off so that
    nothing else runs, and does not return. *)
Theorem panic_reports digits filename line func condition (s : kst H) :
  panic_text digits filename line func condition s =
    Ok (tt, set_screen (screen s ++ [10; 10; 10] ++ codes "!!!!!! error !!!!!!!!" ++ [10] ++
      codes "filename:" ++ filename ++ [10] ++ codes "line:" ++ digits line ++ [10] ++
      codes "function:" ++ func ++ [10] ++ codes "condition:" ++ condition ++ [10]) (set_intr false s)) ∧
  panic_spin digits filename line func condition s = Panic.
Proof.
  assert (∀ cs cs' (k : K (kst H) unit) s, (put_chars cs ;; put_chars cs' ;; k) s = (put_chars (cs ++ cs') ;; k) s) as Hp.
  { intros cs cs' k s'. unfold put_chars. kgo. cbn [screen set_screen]. by rewrite <- app_assoc. }
  assert (panic_text digits filename line func condition s = Ok (tt, set_screen (screen s ++ [10; 10; 10] ++ codes "!!!!!! error !!!!!!!!" ++ [10] ++
      codes "filename:" ++ filename ++ [10] ++ codes "line:" ++ digits line ++ [10] ++
      codes "function:" ++ func ++ [10] ++ codes "condition:" ++ condition ++ [10]) (set_intr false s))) as E.
  { unfold panic_text. kstep (intr_disable_ok s). rewrite !Hp. unfold put_chars. kgo. unfold modify. cbn [screen set_screen set_intr].
    rewrite <- !app_assoc. reflexivity. }
  split; [exact E|]. unfold panic_spin. by rewrite (K_step _ _ _ _ _ E).
Qed.

(** The idle thread gives way: one round leaves it blocked and out of the
    queue with the first ready thread running, and when it is switched to
    again it enables interrupts. *)
Theorem idle_round_gives_way (s : kst H) D Q run next rest t :
  sched_inv s D Q run (next :: rest) → tasks s !! run = Some t → status t = TASK_RUNNING →
  ∃ s1, sched_inv s1 D (<[thread_ready_list := general_tag <$> rest]> Q) next rest ∧ (run ∉ next :: rest) ∧
    (∃ t1, tasks s1 !! run = Some t1 ∧ status t1 = TASK_BLOCKED) ∧
    idle_round s = (s2 ← others run s1; Ok (tt, set_intr true s2)).
Proof.
  intros I Ht Hs. destruct (thread_block_ok s D Q run (next :: rest) TASK_BLOCKED t I Ht Hs eq_refl) as (n & r & s1 & E & I1 & Hb & Hn & Hrun); [done|].
  injection E as <- <-. exists s1. split_and!; try done. unfold idle_round, mbind, K_bind. rewrite Hrun.
  destruct (others run s1) as [s2| | |]; done.
Qed.

(** ** init_all, up to [intr_enable] and with the disks *)
Definition init_kernel (intr_entry_table : list Z) (mem_bytes_total : Z) (fuel : nat) : K (kst H) unit :=
  put_chars (codes "init_all" ++ [10]) ;;
  idt_init intr_entry_table ;;
  mem_init mem_bytes_total ;;
  thread_init ;;
  timer_init ;;
  console_init ;;
  keyboard_init ;;
  tss_init ;;
  syscall_init ;;
  intr_enable ;;
  ide_init fuel intr_hd_code.
End Kernel.

(** ** The partitions for the file system

    [struct partition] number [i] of a disk [hd], 4 primary ones and 8 logical
    ones; [open_inodes] is 48 bytes behind its start.  The pointer [sb] and
    the bitmaps are not set yet. *)
Definition no_super_block : super_block := SuperBlock 0 0 0 0 0 0 0 0 0 0 0 0 0.
Definition part_of (hd i : Z) (p : disk_part) : partition :=
  Partition (dp_start_lba p) (dp_sec_cnt p) no_super_block (Bitmap 0 0) (Bitmap 0 0) (hd + 16 + 64 * i + 48).
Definition disk_parts (hd : Z) (d : disk) : list (Z * (list Z * partition)) :=
  imap (λ i p, (prim_tag hd (Z.of_nat i), (dp_name p, part_of hd (Z.of_nat i) p))) (prim_parts d) ++
  imap (λ i p, (logic_tag hd (Z.of_nat i), (dp_name p, part_of hd (4 + Z.of_nat i) p))) (logic_parts d).

Section Start.
Context {H A : Type} `{Queues H} `{World H} `{Allocator A}.
Abbreviation S := (K (sys H A)).
Context (junk pad : list Z) (getc : K (fsys H A) Z) (fuel : nat) (intr_entry_table : list Z) (mem_bytes_total : Z).

(** The tags in [partition_list], in order. *)
Definition listed_tags : K (kst H) (list Z) := λ s,
  '(_, (s, tags)) ← qtraverse (λ x : kst H * list Z, heap x.1) partition_list
                      (λ e, modify (λ x, (x.1, x.2 ++ [e])) ;; mret false) (s, []);
  Ok (tags, s).

(** The partitions of the second disk, and those in [partition_list] with
    their names: those of the two disks of both channels are looked up by
    their tags. *)
Definition found_parts : K (kst H) (list partition * list (list Z * partition)) :=
  d ← disk_at (devices channels 1);
  tags ← listed_tags;
  ds ← gets disks;
  let all := concat ((λ hd, match ds !! hd with Some d => disk_parts hd d | None => [] end) <$>
               [devices channels 0; devices channels 1;
                devices (channels + sizeof_ide_channel) 0; devices (channels + sizeof_ide_channel) 1]) in
  let at_tag tag := snd <$> list_find (λ x : Z * (list Z * partition), x.1 = tag) all in
  mret ((λ x, x.2.2) <$> disk_parts (devices channels 1) d, (λ x, x.2) <$> omap at_tag tags).

Definition init_all : S unit :=
  in_kern (init_kernel intr_entry_table mem_bytes_total fuel) ;;
  '(sdb, listed) ← in_kern found_parts;
  in_files (filesys_init pad sdb listed).

(** ** main

    The result tells the endless loop in which it ends: [false] for the one
    behind the error message. *)
Definition main_program : S bool :=
  in_kern (put_chars (codes "I am kernel" ++ [10])) ;;
  init_all ;;
  let file_size := 6184 in
  let sec_cnt := DIV_ROUND_UP file_size 512 in
  let sda := devices channels 0 in
  prog_buf ← in_kern (sys_malloc file_size);
  bs ← in_kern (ide_read sda 300 sec_cnt);
  lift (if prog_buf =? NULL then Fault else Ok tt) ;;
  fd ← in_files (sys_open junk (cstr "/prog_no_arg") (Z.lor O_CREAT O_RDWR));
  ok ← (if negb (fd =? -1) then
          r ← in_files (sys_write fd (take (Z.to_nat file_size) bs) file_size);
          if r =? -1 then in_kern (Interrupt.console_put_str (codes "file write error!" ++ [10])) ;; mret false else mret true
        else mret true);
  if negb ok then mret false
  else
    in_files (modify (set_console [])) ;;
    in_kern (modify (set_screen [])) ;;
    in_kern (Interrupt.console_put_str (codes "[ForikOS@localhost /]$ ")) ;;
    mret true.

(** ** The system calls of the shell

    The shell's variables are at the three addresses in its memory; they are
    stored there for [execv], which reads them. *)
Context (cmd_line_at final_path_at argv_at : Z).

Definition argv_word (p : option nat) : Z :=
  match p with Some o => cmd_line_at + Z.of_nat o | None => NULL end.
Definition store_variables (cl fp : list Z) (argv : list (option nat)) : S unit :=
  copy_to_user cmd_line_at cl ;;
  copy_to_user final_path_at fp ;;
  copy_to_user argv_at (concat (le32 <$> final_path_at :: (argv_word <$> tail argv))).

#[local] Instance kernel_os : Os (sys H A) H A := {|
  os_files B op := in_files op;
  os_ps := sys_ps;
  os_fork := sys_fork;
  os_wait := in_kern sys_wait;
  os_execv cl fp argv := store_variables cl fp argv ;; call_fn junk getc fuel Fn_execv final_path_at argv_at 0;
|}.

(** A failed assertion of a user program. *)
Definition user_spin (filename : list Z) (line : Z) (func condition : list Z) : K (sh (sys H A)) unit :=
  printf ([10; 10; 10; 10] ++ codes "filename %s" ++ [10] ++ codes "line %d" ++ [10] ++ codes "function %s" ++ [10] ++
          cline "condition %s") [AStr filename; AInt line; AStr func; AStr condition] ;;
  lift Panic.

(** The first process: [n] rounds of the shell in the child. *)
Definition init (n : nat) : K (sh (sys H A)) bool :=
  ret_pid ← os os_fork;
  if negb (u32 ret_pid =? 0) then lift NoFuel
  else my_shell junk n.
End Start.
